(* ===== verification/_CoqProject ===== *)
-Q . S2P
Prelude.v
F32.v
BytesCodec.v
VideoQos.v
Compress.v
OutputBuf.v
Terminal.v
ServiceHub.v
KcpPacket.v
KcpFsm.v
KcpEndpoint.v
NetAddr.v
Secure.v
LoginGuard.v
FileSys.v
FileTransfer.v
Upload.v
TransferCases.v
Paths.v
FileDesc.v
ClipFiles.v
FuseTree.v
Paste.v
Utf8.v
PasswordStore.v
Options.v
Config.v
PrivacyMode.v
CodecChoice.v
ConnState.v
ConnOptions.v
ConnLogin.v
ConnMessages.v
ConnSafety.v
PeerConfig.v
LoginConfig.v
SessionPasswords.v
Session.v
FileLogin.v
ClaimedId.v
ServerCore.v
Subscriptions.v
Handshake.v
Regex.v
Hosts.v
Rendezvous.v
ClientConnect.v
ClientVideo.v
VideoRate.v
ClientFiles.v
Download.v
ClientLoop.v
ClientSafety.v
Permissions.v
ClientRounds.v
Keys.v
Enigo.v
Input.v
HeldKeys.v
Modifiers.v
Keyboard.v
Leaving.v
Typing.v
DisplayService.v
VideoService.v
PortableService.v
Playback.v
