(* ===== verification/Prelude.v ===== *)
(** * A verification library for the remote desktop client

    The repository is a remote desktop application: a machine is controlled from
    another one over a connection that carries video, input, terminals, files and
    clipboards.  This library models the parts that carry its own logic, each from
    its source under [src/], and proves what makes them correct.  A definition has
    the name of the function it models, and the comment in front of it names the
    file and the lines.

    ** The program and the files

    A connection is a stream of messages.  From the bytes upwards:

    - [BytesCodec] ([libs/hbb_common/src/bytes_codec.rs]) cuts the TCP stream into
      frames, [Secure] ([tcp.rs]) seals every frame with a nonce counted per
      direction, [NetAddr] ([lib.rs]) packs socket addresses for the rendezvous
      messages, and [Compress] ([compress.rs]) wraps zstd for the payloads.
    - Over UDP the connection is a KCP stream of [libs/kcp-sys]: [KcpPacket]
      ([packet_def.rs]) is the packet header, [KcpFsm] ([state.rs]) the state
      machine of one connection, and [KcpEndpoint] ([endpoint.rs]) the maps of
      connections, connecting and accepting, and the tasks around them.
    - The server side of a connection decides who may log in, which is
      [LoginGuard] ([src/server/connection.rs], [password_security.rs]), and
      subscribes it to services, which is [ServiceHub] ([src/server/service.rs]).
      [VideoQos] ([src/server/video_qos.rs]), with the single-precision numbers of
      [F32], chooses the frame rate and the bit rate.
    - [ConnState], [ConnOptions], [ConnLogin] and [ConnMessages] are the rest of
      [connection.rs]: the state of a connection, its options and displays, the login of
      every kind (which calls [LoginGuard]), and a handler for each message.  A handler
      maps a connection to a connection and the effects it asks the platform and the
      services for, in their order; [ConnSafety] has the theorems about what a peer can
      do, [FileLogin] composes it with the connection manager that writes the files, and
      [ClaimedId] has a way in without a password.  [ServerCore] ([src/server.rs]) is the server that all connections share, with
      its services and who subscribes to them, and [Subscriptions] composes it with the
      events of a connection.
    - The two ends agree on a key before anything else is sent: [Handshake]
      ([src/client.rs], [src/server.rs], [src/common.rs]) is both of them, over the
      streams of [Secure].
    - A machine is found through a rendezvous server: [Rendezvous]
      ([src/rendezvous_mediator.rs]) keeps it registered and answers the server's
      messages, and [ClientConnect] ([src/client.rs]) reaches a peer, directly or by a
      relay.  [Hosts] ([libs/hbb_common/src/socket_client.rs]) has the hosts and ports,
      and [Regex] the regular expressions that tell addresses apart.
    - The controlling side is [LoginConfig] ([src/client.rs]): the session's state, what it
      answers to a challenge, what it says of its options, and what it remembers of a
      login in the file of the peer, which is [PeerConfig] ([config.rs]) behind an
      interface.  [SessionPasswords] has the theorems about what is remembered, and
      [Session] those about both ends together, with [ConnLogin] and [ConnMessages] on
      the other side.
    - The client's event loop ([src/client/io_loop.rs], [src/ui_session_interface.rs]) is in
      [ClientLoop]: what a message of the other side does, and what the user asks for.  Its
      parts about video and about files are [ClientVideo] (the threads that decode, and
      their queues) with [VideoRate] (the rate that is asked for), and [ClientFiles].
      [ClientSafety] has the theorems about what the other side can do to the client,
      [Permissions] composes it with the server's connection, and [ClientRounds] is the
      starting and reconnecting of a session, whose threads overlap.  [Playback] ([client.rs],
      [common.rs]) plays the sound: its buffer, its handler and the thread of the device.
    - Keys go the other way.  [Keys] has the keys of the protocol, of Windows and of the
      libraries, with the tables between them; [Keyboard] ([src/keyboard.rs]) makes events
      of the local keys in three modes, [Input] ([src/server/input_service.rs]) injects
      them at the other side through [Enigo] ([libs/enigo/src/win]).  [HeldKeys] has the
      theorems about keys that are down, [Modifiers] those about what an event leaves
      behind, [Leaving] and [Typing] those about both sides together.
    - Pictures come from the displays.  [DisplayService]
      ([src/server/display_service.rs]) knows the displays and tells the viewers, through
      the subscriber [ConnInner] of a connection.  [VideoService]
      ([src/server/video_service.rs]) is the thread of one display or camera: it captures,
      encodes, sends through a hub of [ServiceHub], and waits until the frame has arrived.
      What the rest of the program does meanwhile is a schedule of events.
      [PortableService] ([src/server/portable_service.rs]) captures in another process and
      hands the frames over in shared memory; the two sides are interleaved at every
      access of the memory, the bytes of a frame one by one.
    - [PrivacyMode] ([src/privacy_mode.rs] and two of its implementations) blanks the
      screen for one connection at a time, and [CodecChoice] ([libs/scrap/src/common],
      [video_service.rs]) negotiates the codec with everybody who watches.
    - The configuration ([libs/hbb_common/src/config.rs], [password_security.rs]) is in
      [Options] (options with what overwrites and what replaces them), [Config] (the
      two files, what is sealed in them, restarts) and [PasswordStore] (the sealed form
      of texts); [Utf8] is the part of the encoding it needs.
    - A terminal is served by [Terminal] ([src/server/terminal_service.rs]), which
      keeps the recent output of a session in an [OutputBuf] and compresses what it
      sends.
    - Files are moved by jobs: [FileTransfer] ([libs/hbb_common/src/fs.rs]) over
      the files of [FileSys]; [Upload] puts the two ends together
      ([src/ui_cm_interface.rs], [src/client/io_loop.rs], [connection.rs]), and
      [TransferCases] has the cases around it.  [Download] is the way back, with
      [ClientFiles] on the writing end.
    - Copied files are pasted on the other side through its file system.
      [FileDesc] ([libs/clipboard/src/platform/unix/local_file.rs], [filetype.rs])
      has the records that describe them, [ClipFiles] ([serv_files.rs]) serves their
      bytes, [FuseTree] ([fuse/cs.rs]) is the mounted tree, and [Paste] joins the
      two ends; [Paths] is the part of the standard library's paths they use.

    [Prelude] has what they share: the machine integers, the result type with its
    monad, byte buffers, the hint databases [desk] and [desk_rw], and the tactics
    [split_cases], [zbool] and [zdm].

    ** How the code is modelled

    A struct is a [Record], an enum an [Inductive] with the source's constructors,
    a method that changes its object a function that returns the new one.  A
    method that may fail returns [result] or [option]; where a comment says so,
    [None] is a panic (an arithmetic or index panic, or [clamp] with crossed
    bounds).  Integers are [Z] with the wrapping of their width written out
    ([u8] to [u128], [i32], [i64], [usize] of 64 bits): the release profile does not
    check overflow.  Hash maps are [gmap]s, and what is proved does not depend on
    the order in which they are iterated.  A lock is held for the whole of the
    method that takes it, so the methods of an object under a lock are the atomic
    steps of its transition system; [Terminal.reachable], the events of
    [ServiceHub] and the steps of [KcpEndpoint] interleave them freely.

    What is not under [src/] is a parameter: libsodium ([Secure.SecretBox]), zstd
    ([Compress.Zstd]), SHA-256, the one-time codes and the parser of addresses
    ([LoginGuard]), what the operating system answers about terminals
    ([Terminal.os_answer]) and files ([FileSys], a predicate for what it permits, and
    a schedule for what [read] returns), UTF-16 ([FileDesc.Utf16]), the JSON of a
    digest file and of the trusted devices, base64 and the secret box of stored
    passwords ([PasswordStore]), the printing of numbers ([Options.Num]), what Windows
    answers to the privacy modes, the lists of hardware codecs, the order in which a hash
    map is iterated where it can matter ([CodecChoice]), what the surroundings of a
    connection answer to a message ([ConnState.Environment]) and of a session
    ([LoginConfig.CEnv]), signatures and the encoding of messages
    ([Handshake.Signature], [Handshake.Protobuf]), what the network answers
    ([ClientConnect.Net], [Rendezvous.Env]), encoders, capturers and the screens
    ([VideoService.EncoderApi], [VideoService.TraitCapturer], [VideoService.VideoSystem]),
    what a decoder makes of a frame ([ClientVideo.DecodeEnv]), the ring buffer, the decoder, the
    filters and the device of the sound ([Playback.HeapRb], [Playback.OpusDecoder],
    [Playback.Conversions], [Playback.Device]), the directories and the clock of the client
    ([ClientFiles.FilesEnv], [ClientLoop.LoopEnv]), what Windows answers to the inputs it is
    given, with the laws of its lights ([Enigo.Windows], [Modifiers.LightLaws]), the tables
    of rdev ([Keyboard.Rdev]), digits other than ASCII ones, the
    parsers of UUIDs and of floating-point numbers, and the
    lower-casing of texts.  The laws
    assumed are in the classes, or hypotheses of the theorem that uses them, and
    every such theorem has a witness that applies it to a concrete instance.

    ** What is proved

    - Round trips: frames cut anywhere arrive whole and in order; sealed messages
      arrive in order and open only once; packet headers, addresses and the
      descriptions of files survive their encodings; what is remembered of a peer is read
      back; an upload and a download deliver every file, and a resumed upload completes; a
      port put behind a host is found there; a read of a pasted file, with its requests and
      what they are answered, gives its bytes.
    - Invariants: the reachable states of the terminal service and of the quality
      control (which never panics), the viewers of the video service (whoever is
      subscribed has got every frame of the encoder in use, from its first one on), the
      configuration under all its changes and a
      restart, the permissions of a connection, which no peer can raise, the subscriptions
      of a connection, which follow what it is permitted (and, for a camera or a terminal, what
      it was permitted before), the rounds of a session, of which all but the present one have
      been told to end unless the user interface's first thread is overtaken, and the sound,
      whose samples stay on their channels.
    - Refinement: the hub serves every subscriber as a small specification says; the
      handles of the mounted files are good for what was opened and not closed; the
      options a session shows are those the other side acts on, after the login and
      after every entry of the menu; the permissions the client of a new session believes in are
      the machine's; the server serves every connection as a specification of one says; the
      frames that are decoded are those that arrived, in order, up to what is skipped to
      the next key frame; the rate the client asks for is the one the other side keeps.
    - Safety: every login has a reason, guessing is throttled whatever the
      addresses and the pace, a peer has no effect before it is authorized but that tunnels are
      connected and users of the system are logged on, and none it is not permitted after, files
      need a login for files, no connection takes the privacy mode from another (which a refused
      request may end), everybody who watches can
      decode what is encoded, a password of a shared address book is not kept, no child
      process is lost; a secured connection is one to the peer that was asked for, and both
      ends have the same key; a machine counts as registered only where the server has
      accepted it, and a relay that is forced is used; the other side does nothing on the
      client that the session does not allow, writes no file without a job of the user, and
      has the microphone recorded only in calls the user asked for; a frame of the
      portable service is handed over once and whole; bounds on rates, ratios, threads,
      queues, time limits and buffers.
    - Keys: the raw keys remembered are those that are down as injected, none that is remembered
      stays down for long or after the end without being released, but characters; leaving the window releases all at the other side; modifiers and lights are left as
      they were found.
    - Liveness: a registration that is not answered is repeated, and a rate that was lowered
      comes back.
    - Functional correctness of a login: who knows the password gets in, and a remembered
      password answers any later challenge.
    - Equivalence: the codec chosen is the one most peers want, in whatever order they
      are counted; the raw keys remembered are those a reading of the injected inputs gives; options
      read, purified and written back are the same options.
    - Termination: a packet causes at most a bounded exchange of answers,
      connecting finds a free number, the video service waits for the viewers of a frame as long as
      one is missing and no longer than three seconds; and a loop that does not end.
    - Errors: what the code does where it goes wrong.  Some of these theorems
      state behaviour that is not intended: output lost when compressing fails, a
      buffer that hangs, a connection taken by the wrong task, an upload that
      corrupts a file, ends early, panics or escapes its destination, a login on a
      claimed identifier or on the second factor alone (which opens a terminal), a login
      for files that controls the desktop, a privacy mode that a refused request turns
      off, a password that cannot be set back, a relay forced for good, pasted files that
      cannot be read from 2 GiB on, requests and names that panic, frames decoded out of
      order after an overflow, characters that are never released, lights and modifiers that
      some keys leave changed, hotkeys that are not remembered, a removal on the client led to
      other files, a call recorded after it was given up, a tunnel that is connected before the
      login, sound that changes channels, and a first connection that reconnecting does not close.

    ** Bounds and fuel

    The trimming loop of [OutputBuf] has fuel, because it may not end; a theorem
    shows that the lines of the buffer and the bytes of the data are fuel enough in
    the states where it does.  [BytesCodec.drain] has a unit of fuel for each call of
    [decode], and is given two more than there are bytes.  The rounds
    of an upload or a download are counted by [Upload.upload_rounds]: two for each file
    and one for each block of 128 KiB, and one at the end; any longer run does the same.
    [VideoService.wait_fuel] counts the waits of 300 ms within three seconds, the answers
    that are queued and the events that are to come; the theorem on the wait shows that it
    is enough.
    The events of the other loops are a list or a relation, without a bound.

    ** What is not modelled

    User interfaces, translations and bindings; the capturers and codecs
    themselves, input devices, displays and capture on other systems than Windows and the
    platform layers, which are foreign calls; the services of the clipboard, of sound and of cursors,
    the recorder of videos, the watcher of elevated windows; of [connection.rs] the
    audits, the texts of refusals, the loop of port forwarding, printing and the
    following of cursors; the starting and ending of the rendezvous loops, discovery in
    the local network, probing the NAT, and sockets; of the client's loop the serving of
    the file clipboard, jobs kept for later and plugins; the address books; the other transports; the serialization of messages (protocol buffers are
    generated).  Timing is modelled only where the code computes with it. *)

From stdpp Require Export base gmap sets list strings fin_maps sorting.
From Stdlib Require Export ZArith Lia.
From coqutil Require Export Byte Word.LittleEndianList.

#[global] Open Scope Z_scope.

(** ** Machine integers

    Integers are kept as [Z]; the casts and the wrapping operations of the
    source are written out.  The release profile of the repository has no
    overflow checks, so arithmetic wraps. *)

Definition wrap (w z : Z) : Z := z `mod` 2 ^ w.

Definition swrap (w z : Z) : Z := (z + 2 ^ (w - 1)) `mod` 2 ^ w - 2 ^ (w - 1).

Abbreviation u8 := (wrap 8).
Abbreviation u16 := (wrap 16).
Abbreviation u32 := (wrap 32).
Abbreviation u64 := (wrap 64).
Abbreviation u128 := (wrap 128).
Abbreviation usize := (wrap 64).
Abbreviation i32 := (swrap 32).
Abbreviation i64 := (swrap 64).

Definition in_u (w z : Z) : Prop := 0 <= z < 2 ^ w.

Definition in_i (w z : Z) : Prop := - 2 ^ (w - 1) <= z < 2 ^ (w - 1).

#[export] Instance in_u_dec w z : Decision (in_u w z).
Proof. unfold in_u. apply _. Defined.

#[export] Instance in_i_dec w z : Decision (in_i w z).
Proof. unfold in_i. apply _. Defined.

(** ** Results

    [Result<T, E>] of the source, with its [?] operator as monadic bind. *)

Inductive result (E A : Type) : Type :=
| Ok (a : A)
| Err (e : E).
Arguments Ok {E A} _.
Arguments Err {E A} _.

#[export] Instance result_ret E : MRet (result E) := fun A a => Ok a.
#[export] Instance result_bind E : MBind (result E) :=
  fun A B f r => match r with Ok a => f a | Err e => Err e end.
#[export] Instance result_fmap E : FMap (result E) :=
  fun A B f r => match r with Ok a => Ok (f a) | Err e => Err e end.

Definition is_ok {E A} (r : result E A) : bool :=
  match r with Ok _ => true | Err _ => false end.

Definition ok_opt {E A} (r : result E A) : option A :=
  match r with Ok a => Some a | Err _ => None end.

#[export] Instance result_eq_dec E A `{EqDecision E, EqDecision A} :
  EqDecision (result E A).
Proof. solve_decision. Defined.

(** ** Bytes *)

#[export] Instance byte_eq_dec : EqDecision Init.Byte.byte := Byte.byte_eq_dec.

Abbreviation bytes := (list Init.Byte.byte).

(** Length of a buffer as a [usize]. *)
Definition zlen {A} (l : list A) : Z := Z.of_nat (length l).

(** [BufMut::put_u8], [put_u16_le] and so on. *)
Definition put_u8 (z : Z) : bytes := [byte.of_Z z].
Definition put_u16_le (z : Z) : bytes := le_split 2 z.
Definition put_u32_le (z : Z) : bytes := le_split 4 z.
Definition put_u64_le (z : Z) : bytes := le_split 8 z.

(** Big-endian counterparts. *)
Definition be_split (n : nat) (z : Z) : bytes := rev (le_split n z).
Definition be_combine (l : bytes) : Z := le_combine (rev l).

(** ** Automation *)

Create HintDb desk discriminated.
Create HintDb desk_rw.

(** Case analysis on every [match] and [if] of the goal, closing the easy
    branches. *)
Ltac split_cases :=
  repeat (case_match || case_decide); simplify_eq/=; try done.

(** Boolean comparisons on [Z] as propositions. *)
Ltac zbool :=
  repeat match goal with
  | H : context [(?a <=? ?b)%Z] |- _ => destruct (Z.leb_spec a b)
  | H : context [(?a <? ?b)%Z] |- _ => destruct (Z.ltb_spec a b)
  | H : context [(?a =? ?b)%Z] |- _ => destruct (Z.eqb_spec a b)
  | |- context [(?a <=? ?b)%Z] => destruct (Z.leb_spec a b)
  | |- context [(?a <? ?b)%Z] => destruct (Z.ltb_spec a b)
  | |- context [(?a =? ?b)%Z] => destruct (Z.eqb_spec a b)
  end.

(** Linear arithmetic with division and remainder by constants. *)
Ltac zdm := Z.to_euclidean_division_equations; lia.

(** ** Lemmas on machine integers *)

Lemma wrap_range w z : 0 <= w -> in_u w (wrap w z).
Proof. intros. unfold in_u, wrap. apply Z.mod_pos_bound. lia. Qed.

Lemma wrap_small w z : in_u w z -> wrap w z = z.
Proof. intros H. unfold wrap. apply Z.mod_small. exact H. Qed.

Lemma wrap_wrap w z : wrap w (wrap w z) = wrap w z.
Proof. unfold wrap. destruct (decide (2 ^ w = 0)) as [->|]; [by rewrite !Zmod_0_r|].
  by apply Z.mod_mod. Qed.

Lemma swrap_small w z : 0 < w -> in_i w z -> swrap w z = z.
Proof.
  intros Hw [H1 H2]. unfold swrap.
  assert (2 ^ w = 2 * 2 ^ (w - 1)) as E.
  { rewrite <- Z.pow_succ_r by lia. f_equal. lia. }
  rewrite Z.mod_small by lia. lia.
Qed.

Lemma swrap_range w z : 0 < w -> in_i w (swrap w z).
Proof.
  intros Hw. unfold swrap, in_i.
  assert (2 ^ w = 2 * 2 ^ (w - 1)) as E.
  { rewrite <- Z.pow_succ_r by lia. f_equal. lia. }
  pose proof (Z.mod_pos_bound (z + 2 ^ (w - 1)) (2 ^ w) ltac:(lia)). lia.
Qed.

Lemma wrap_swrap w z : 0 < w -> wrap w (swrap w z) = wrap w z.
Proof.
  intros Hw. unfold wrap, swrap.
  rewrite Zminus_mod_idemp_l. f_equal. lia.
Qed.

Lemma swrap_wrap w z : 0 < w -> swrap w (wrap w z) = swrap w z.
Proof. intros Hw. unfold wrap, swrap. by rewrite Zplus_mod_idemp_l. Qed.

#[export] Hint Rewrite wrap_wrap : desk_rw.
#[export] Hint Resolve wrap_range swrap_range : desk.

(** ** Lemmas on bytes and buffers *)

Lemma zlen_nil {A} : zlen (A:=A) [] = 0.
Proof. done. Qed.

Lemma zlen_cons {A} (x : A) l : zlen (x :: l) = 1 + zlen l.
Proof. unfold zlen. simpl. lia. Qed.

Lemma zlen_app {A} (l k : list A) : zlen (l ++ k) = zlen l + zlen k.
Proof. unfold zlen. rewrite length_app. lia. Qed.

Lemma zlen_nonneg {A} (l : list A) : 0 <= zlen l.
Proof. unfold zlen. lia. Qed.

Lemma zlen_zero {A} (l : list A) : zlen l = 0 -> l = [].
Proof. destruct l; [done|]. rewrite zlen_cons. pose proof (zlen_nonneg l). lia. Qed.

Lemma zlen_le_split n z : zlen (le_split n z) = Z.of_nat n.
Proof. unfold zlen. by rewrite length_le_split. Qed.

Lemma byte_range b : 0 <= byte.unsigned b < 256.
Proof. exact (byte.unsigned_range b). Qed.

#[export] Hint Rewrite @zlen_nil @zlen_cons @zlen_app zlen_le_split : desk_rw.
#[export] Hint Resolve @zlen_nonneg byte_range : desk.

Lemma le_split_small n z :
  0 <= z < 2 ^ (8 * Z.of_nat n) -> le_combine (le_split n z) = z.
Proof.
  intros H. rewrite le_combine_split. apply Z.mod_small.
  by replace (Z.of_nat n * 8) with (8 * Z.of_nat n) by lia.
Qed.

Lemma le_combine_range l : 0 <= le_combine l < 2 ^ (8 * zlen l).
Proof. exact (le_combine_bound l). Qed.

(** Disjoint bit fields: a logical or of a value below [2^k] with a value
    shifted by [k] is their sum. *)
Lemma lor_shiftl_add low high k :
  0 <= low < 2 ^ k -> 0 <= k -> Z.lor low (Z.shiftl high k) = low + high * 2 ^ k.
Proof.
  intros Ha Hn. rewrite Z.shiftl_mul_pow2 by lia.
  symmetry. apply Z.add_nocarry_lor.
  rewrite <- Z.shiftl_mul_pow2 by lia.
  apply Z.bits_inj'. intros i Hi. rewrite Z.land_spec, Z.bits_0.
  destruct (Z.lt_ge_cases i k).
  - rewrite Z.shiftl_spec_low by lia. apply andb_false_r.
  - rewrite <- (Z.mod_small low (2 ^ k)), Z.mod_pow2_bits_high by lia. done.
Qed.

Lemma lor_shiftl_add_r low high k :
  0 <= low < 2 ^ k -> 0 <= k -> Z.lor (Z.shiftl high k) low = high * 2 ^ k + low.
Proof. intros. rewrite Z.lor_comm, lor_shiftl_add by done. lia. Qed.

Lemma le_combine_cons h t :
  le_combine (h :: t) = byte.unsigned h + 256 * le_combine t.
Proof.
  change (le_combine (h :: t))
    with (Z.lor (byte.unsigned h) (Z.shiftl (le_combine t) 8)).
  rewrite lor_shiftl_add by (pose proof (byte_range h); lia). lia.
Qed.

(** Reading back the first bytes of a buffer. *)
Lemma take_app_le_split n z rest :
  take n (le_split n z ++ rest) = le_split n z.
Proof. rewrite take_app_length' by (by rewrite length_le_split). done. Qed.

Lemma drop_app_le_split n z rest :
  drop n (le_split n z ++ rest) = rest.
Proof. rewrite drop_app_length' by (by rewrite length_le_split). done. Qed.

#[export] Hint Rewrite take_app_le_split drop_app_le_split : desk_rw.

Lemma byte_of_Z_unsigned z : byte.unsigned (byte.of_Z z) = u8 z.
Proof. apply byte.unsigned_of_Z. Qed.
