(* ===== verification/F32.v ===== *)
(** * Single-precision floats

    The [f32] of the source as the Standard Library's executable IEEE-754
    binary32 ([SpecFloat] at precision 24 and maximal exponent 128, rounding to
    nearest, ties to even), with the methods of [f32] the repository calls and
    the order lemmas the components need. *)

From S2P Require Import Prelude.
From Stdlib Require Export SpecFloat.

Definition f32 : Type := spec_float.

#[export] Instance f32_eq_dec : EqDecision f32.
Proof. unfold f32. solve_decision. Defined.

(** [z as f32]. *)
Definition f32_of_Z (z : Z) : f32 := binary_normalize 24 128 z 0 false.

Definition fadd (x y : f32) : f32 := SFadd 24 128 x y.
Definition fsub (x y : f32) : f32 := SFsub 24 128 x y.
Definition fmul (x y : f32) : f32 := SFmul 24 128 x y.
Definition fdiv (x y : f32) : f32 := SFdiv 24 128 x y.

(** A decimal literal [n / d]; [n] and [d] below [2^24] are exact, so the
    rounded quotient is the literal's value. *)
Definition flit (n d : Z) : f32 := fdiv (f32_of_Z n) (f32_of_Z d).

Abbreviation fltb := SFltb.
Abbreviation fleb := SFleb.

(** [x > y] and [x >= y]. *)
Definition fgtb (x y : f32) : bool := SFltb y x.
Definition fgeb (x y : f32) : bool := SFleb y x.

Definition is_nan (x : f32) : bool :=
  match x with S754_nan => true | _ => false end.

(** [f32::max], [f32::min]: a NaN argument is ignored. *)
Definition fmax (x y : f32) : f32 :=
  if is_nan x then y else if is_nan y then x else if fltb x y then y else x.

Definition fmin (x y : f32) : f32 :=
  if is_nan x then y else if is_nan y then x else if fltb y x then y else x.

(** [f32::clamp] panics ([None]) unless [min <= max]. *)
Definition fclamp (x lo hi : f32) : option f32 :=
  if fleb lo hi then
    let x := if fltb x lo then lo else x in
    let x := if fgtb x hi then hi else x in
    Some x
  else None.

(** [m * 2^e] rounded towards zero and upwards. *)
Definition trunc_mag (m e : Z) : Z :=
  if 0 <=? e then m * 2 ^ e else m / 2 ^ (- e).

Definition ceil_mag (m e : Z) : Z :=
  if 0 <=? e then m * 2 ^ e else - ((- m) / 2 ^ (- e)).

(** [x as u32]: truncation that saturates; NaN is 0. *)
Definition f32_as_u32 (x : f32) : Z :=
  match x with
  | S754_nan => 0
  | S754_zero _ => 0
  | S754_infinity s => if s then 0 else 2 ^ 32 - 1
  | S754_finite true _ _ => 0
  | S754_finite false m e => Z.min (trunc_mag (Zpos m) e) (2 ^ 32 - 1)
  end.

(** [f32::ceil]. *)
Definition fceil (x : f32) : f32 :=
  match x with
  | S754_finite s m e =>
      if 0 <=? e then x
      else if s then
        let z := trunc_mag (Zpos m) e in
        if z =? 0 then S754_zero true else f32_of_Z (- z)
      else f32_of_Z (ceil_mag (Zpos m) e)
  | _ => x
  end.

(** [Duration::from_secs_f32] in nanoseconds: rounded to the nearest, ties to
    even; [None] (a panic) on a negative, infinite or overlarge value. *)
Definition round_half_even (n d : Z) : Z :=
  let q := n / d in
  let r := n mod d in
  if 2 * r <? d then q
  else if d <? 2 * r then q + 1
  else if Z.even q then q else q + 1.

Definition from_secs_f32 (x : f32) : option Z :=
  match x with
  | S754_zero _ => Some 0
  | S754_finite false m e =>
      let n := if 0 <=? e then Zpos m * 2 ^ e * 1000000000
               else round_half_even (Zpos m * 1000000000) (2 ^ (- e)) in
      if n <? 2 ^ 64 * 1000000000 then Some n else None
  | _ => None
  end.

(** ** Order *)

Lemma pos_compare_cont_eq m n : Pos.compare_cont Eq m n = Pos.compare m n.
Proof. reflexivity. Qed.

(** On finite numbers of one sign the comparison is lexicographic. *)
Definition fkey (x : f32) : option (Z * Z * Z) :=
  match x with
  | S754_nan => None
  | S754_infinity false => Some (2, 0, 0)
  | S754_infinity true => Some (-2, 0, 0)
  | S754_zero _ => Some (0, 0, 0)
  | S754_finite false m e => Some (1, e, Zpos m)
  | S754_finite true m e => Some (-1, - e, - Zpos m)
  end.

Definition lex_le (a b : Z * Z * Z) : Prop :=
  let '(a1, a2, a3) := a in
  let '(b1, b2, b3) := b in
  a1 < b1 \/ (a1 = b1 /\ (a2 < b2 \/ (a2 = b2 /\ a3 <= b3))).

Lemma fleb_key x y :
  fleb x y = true <->
  exists a b, fkey x = Some a /\ fkey y = Some b /\ lex_le a b.
Proof.
  unfold SFleb, SFcompare.
  destruct x as [s|s| |s m e]; destruct y as [s'|s'| |s' m' e'];
    try destruct s; try destruct s'; simpl; rewrite ?pos_compare_cont_eq;
    try (split; [intros H; try discriminate H; do 2 eexists;
      (split; [reflexivity|split; [reflexivity|simpl; lia]])
      |intros (a & b & Ha & Hb & H); simplify_eq; simpl in H; try reflexivity; lia]).
  - destruct (Z.compare_spec e e'); try destruct (Pos.compare_spec m m'); simpl;
      (split; [intros HH; try discriminate HH; do 2 eexists;
        (split; [reflexivity|split; [reflexivity|simpl; lia]])
        |intros (a & b & Ha & Hb & HH); simplify_eq; simpl in HH; try reflexivity; lia]).
  - destruct (Z.compare_spec e e'); try destruct (Pos.compare_spec m m'); simpl;
      (split; [intros HH; try discriminate HH; do 2 eexists;
        (split; [reflexivity|split; [reflexivity|simpl; lia]])
        |intros (a & b & Ha & Hb & HH); simplify_eq; simpl in HH; try reflexivity; lia]).
Qed.

Lemma fltb_key x y a b :
  fkey x = Some a -> fkey y = Some b -> fltb x y = true <-> ~ lex_le b a.
Proof.
  unfold SFltb, SFcompare.
  destruct x as [s|s| |s m e]; destruct y as [s'|s'| |s' m' e'];
    try destruct s; try destruct s'; simpl; intros Ha Hb; simplify_eq;
    rewrite ?pos_compare_cont_eq;
    try (destruct (Z.compare_spec e e'); try destruct (Pos.compare_spec m m'));
    simpl; intuition (try congruence; lia).
Qed.

Lemma fleb_trans x y z : fleb x y = true -> fleb y z = true -> fleb x z = true.
Proof.
  rewrite !fleb_key.
  intros (a & b & Ha & Hb & H) (b' & c & Hb' & Hc & H'). simplify_eq.
  exists a, c. split_and!; [done..|].
  destruct a as [[??]?], b as [[??]?], c as [[??]?]. simpl in *. lia.
Qed.

Lemma fleb_refl x : is_nan x = false -> fleb x x = true.
Proof.
  intros H. apply fleb_key. destruct (fkey x) as [a|] eqn:E.
  - exists a, a. split_and!; [done..|]. destruct a as [[??]?]. simpl. lia.
  - destruct x as [[]|[]| |[] ? ?]; done.
Qed.

Lemma fkey_nan x : is_nan x = false -> is_Some (fkey x).
Proof. destruct x as [[]|[]| |[] ? ?]; done. Qed.

Lemma fltb_false x y :
  is_nan x = false -> is_nan y = false -> fltb x y = false -> fleb y x = true.
Proof.
  intros Hx Hy H. destruct (fkey_nan x Hx) as [a Ha], (fkey_nan y Hy) as [b Hb].
  apply fleb_key. exists b, a. split_and!; [done..|].
  pose proof (fltb_key x y a b Ha Hb) as K. rewrite H in K.
  assert (~ ~ lex_le b a) as N by (intros N; apply K in N; discriminate N).
  destruct a as [[??]?], b as [[??]?]. simpl in *. lia.
Qed.

Lemma fltb_true_fleb x y : fltb x y = true -> fleb x y = true.
Proof.
  intros H. assert (is_nan x = false /\ is_nan y = false) as [Hx Hy].
  { unfold SFltb, SFcompare in H. by destruct x as [[]|[]| |[] ? ?], y as [[]|[]| |[] ? ?]. }
  destruct (fkey_nan x Hx) as [a Ha], (fkey_nan y Hy) as [b Hb].
  apply fleb_key. exists a, b. split_and!; [done..|].
  apply (fltb_key x y a b Ha Hb) in H.
  destruct a as [[??]?], b as [[??]?]. simpl in *. lia.
Qed.

Lemma fleb_not_nan x y : fleb x y = true -> is_nan x = false /\ is_nan y = false.
Proof.
  unfold SFleb, SFcompare. by destruct x as [[]|[]| |[] ? ?], y as [[]|[]| |[] ? ?].
Qed.

(** A clamped number that is not NaN lies between the bounds. *)
Lemma fclamp_range x lo hi v :
  is_nan x = false -> fclamp x lo hi = Some v ->
  fleb lo v = true /\ fleb v hi = true.
Proof.
  unfold fclamp, fgtb. destruct (fleb lo hi) eqn:B; [|done].
  intros Hx H. injection H as <-.
  destruct (fleb_not_nan _ _ B) as [Hlo Hhi].
  destruct (fltb x lo) eqn:L.
  - destruct (fltb hi lo) eqn:G.
    + split; [done|by apply fleb_refl].
    + split; [by apply fleb_refl|done].
  - pose proof (fltb_false _ _ Hx Hlo L).
    destruct (fltb hi x) eqn:G; split; try done.
    + by apply fleb_refl.
    + by apply fltb_false.
Qed.

(** The product of two finite numbers is not NaN. *)
Definition is_finite (x : f32) : bool :=
  match x with S754_zero _ | S754_finite _ _ _ => true | _ => false end.

Lemma shr_1_nonneg mrs : 0 <= shr_m mrs -> 0 <= shr_m (shr_1 mrs).
Proof. destruct mrs as [[|[p|p|]|p] r s]; simpl; lia. Qed.

Lemma iter_pos_nonneg n mrs : 0 <= shr_m mrs -> 0 <= shr_m (iter_pos shr_1 n mrs).
Proof.
  revert mrs. induction n as [n IH|n IH|]; intros mrs H; simpl;
    repeat apply IH; auto using shr_1_nonneg.
Qed.

Lemma shr_fexp_nonneg m e l : 0 <= m -> 0 <= shr_m (fst (shr_fexp 24 128 m e l)).
Proof.
  intros H. unfold shr_fexp, shr. destruct (_ - _); simpl;
    try apply iter_pos_nonneg; destruct l as [|[]]; done.
Qed.

Lemma round_nonneg m l : 0 <= m -> 0 <= round_nearest_even m l.
Proof. intros H. unfold round_nearest_even. repeat case_match; lia. Qed.

Lemma binary_round_aux_not_nan s m e l :
  0 <= m -> is_nan (binary_round_aux 24 128 s m e l) = false.
Proof.
  intros H. unfold binary_round_aux.
  pose proof (shr_fexp_nonneg m e l H) as H1.
  destruct (shr_fexp 24 128 m e l) as [mrs e']. simpl in H1.
  pose proof (shr_fexp_nonneg _ e' loc_Exact (round_nonneg _ (loc_of_shr_record mrs) H1)) as H2.
  destruct (shr_fexp 24 128 (round_nearest_even _ _) e' loc_Exact) as [mrs' e'']. simpl in H2.
  destruct (shr_m mrs'); [done| |lia]. by destruct (_ <=? _).
Qed.

Lemma fmul_not_nan x y :
  is_finite x = true -> is_finite y = true -> is_nan (fmul x y) = false.
Proof.
  destruct x as [s|s| |s m e]; destruct y as [s'|s'| |s' m' e']; try done.
  intros _ _. by apply binary_round_aux_not_nan.
Qed.

Lemma fmin_cases x y : fmin x y = x \/ fmin x y = y.
Proof. unfold fmin. split_cases; auto. Qed.

Lemma fmax_ge_r x y : is_nan y = false -> fleb y (fmax x y) = true.
Proof.
  intros Hy. unfold fmax. rewrite Hy.
  destruct (is_nan x) eqn:Hx; [by apply fleb_refl|].
  destruct (fltb x y) eqn:L; [by apply fleb_refl|]. by apply fltb_false.
Qed.

#[export] Hint Resolve fleb_refl : desk.

Lemma f32_as_u32_range x : in_u 32 (f32_as_u32 x).
Proof.
  unfold f32_as_u32, in_u. split_cases; try lia.
  split; [|lia]. apply Z.min_glb; [|lia]. unfold trunc_mag.
  case_match; [|by apply Z.div_pos; [|apply Z.pow_pos_nonneg; lia]].
  apply Z.mul_nonneg_nonneg; [lia|]. by apply Z.pow_nonneg.
Qed.

#[export] Hint Resolve f32_as_u32_range : desk.
