(* ===== verification/BytesCodec.v ===== *)
(** * Length-prefixed framing of the TCP transport

    [libs/hbb_common/src/bytes_codec.rs]: a frame is a header of one to four
    bytes, whose two low bits give the header's size and whose remaining bits
    give the payload's length in little-endian order, followed by the payload.
    [BytesMut] is a byte list; [decode] returns the new buffer beside the
    codec's new state. *)

From S2P Require Import Prelude.

(* src/libs/hbb_common/src/bytes_codec.rs:12-16 DecodeState *)
Inductive DecodeState : Type :=
| Head
| Data (n : Z).

(* src/libs/hbb_common/src/bytes_codec.rs:5-10 BytesCodec *)
Record BytesCodec : Type := mkCodec {
  state : DecodeState;
  raw : bool;
  max_packet_length : Z;
}.

(** [io::ErrorKind] with the message of the two errors the codec raises. *)
Inductive codec_error : Type :=
| InvalidData_TooBigPacket
| InvalidInput_Overflow.

#[export] Instance DecodeState_eq_dec : EqDecision DecodeState.
Proof. solve_decision. Defined.

Definition usize_max : Z := 2 ^ 64 - 1.

(* src/libs/hbb_common/src/bytes_codec.rs:18-31 BytesCodec::new *)
Definition codec_new : BytesCodec := mkCodec Head false usize_max.

(* src/libs/hbb_common/src/bytes_codec.rs:33-35 BytesCodec::set_raw *)
Definition set_raw (self : BytesCodec) : BytesCodec :=
  mkCodec (state self) true (max_packet_length self).

(* src/libs/hbb_common/src/bytes_codec.rs:37-39 BytesCodec::set_max_packet_length *)
Definition set_max_packet_length (self : BytesCodec) (n : Z) : BytesCodec :=
  mkCodec (state self) (raw self) n.

(** [src[i] as usize]; every use is guarded by a length test. *)
Definition byte_at (src : bytes) (i : nat) : Z :=
  default 0 (byte.unsigned <$> src !! i).

(* src/libs/hbb_common/src/bytes_codec.rs:41-66 BytesCodec::decode_head *)
Definition decode_head (self : BytesCodec) (src : bytes)
    : result codec_error (option Z) * bytes :=
  if bool_decide (src = []) then (Ok None, src)
  else
    let head_len := Z.land (byte_at src 0) 0x3 + 1 in
    if zlen src <? head_len then (Ok None, src)
    else
      let n := byte_at src 0 in
      let n := if 1 <? head_len then Z.lor n (Z.shiftl (byte_at src 1) 8) else n in
      let n := if 2 <? head_len then Z.lor n (Z.shiftl (byte_at src 2) 16) else n in
      let n := if 3 <? head_len then Z.lor n (Z.shiftl (byte_at src 3) 24) else n in
      let n := Z.shiftr n 2 in
      if max_packet_length self <? n then (Err InvalidData_TooBigPacket, src)
      else (Ok (Some n), drop (Z.to_nat head_len) src).

(* src/libs/hbb_common/src/bytes_codec.rs:68-73 BytesCodec::decode_data *)
Definition decode_data (n : Z) (src : bytes)
    : result codec_error (option bytes) * bytes :=
  if zlen src <? n then (Ok None, src)
  else (Ok (Some (take (Z.to_nat n) src)), drop (Z.to_nat n) src).

(** The part of [decode] after the header is known: the payload, or keep the
    state [Data(n)]. *)
Definition decode_payload (self : BytesCodec) (n : Z) (src : bytes)
    : result codec_error (option bytes) * BytesCodec * bytes :=
  match decode_data n src with
  | (Ok (Some data), src') =>
      (Ok (Some data), mkCodec Head (raw self) (max_packet_length self), src')
  | (Ok None, src') => (Ok None, self, src')
  | (Err e, src') => (Err e, self, src')
  end.

(* src/libs/hbb_common/src/bytes_codec.rs:76-108 BytesCodec::decode *)
Definition decode (self : BytesCodec) (src : bytes)
    : result codec_error (option bytes) * BytesCodec * bytes :=
  if raw self then
    if bool_decide (src = []) then (Ok None, self, src)
    else (Ok (Some src), self, [])
  else
    match state self with
    | Head =>
        match decode_head self src with
        | (Ok (Some n), src') =>
            decode_payload
              (mkCodec (Data n) (raw self) (max_packet_length self)) n src'
        | (Ok None, src') => (Ok None, self, src')
        | (Err e, src') => (Err e, self, src')
        end
    | Data n => decode_payload self n src
    end.

(* src/libs/hbb_common/src/bytes_codec.rs:110-135 BytesCodec::encode *)
Definition encode (self : BytesCodec) (data buf : bytes)
    : result codec_error unit * bytes :=
  if raw self then (Ok tt, buf ++ data)
  else
    let len := zlen data in
    if len <=? 0x3F then
      (Ok tt, (buf ++ put_u8 (Z.shiftl len 2)) ++ data)
    else if len <=? 0x3FFF then
      (Ok tt, (buf ++ put_u16_le (Z.lor (u16 (Z.shiftl len 2)) 0x1)) ++ data)
    else if len <=? 0x3FFFFF then
      let h := Z.lor (u32 (Z.shiftl len 2)) 0x2 in
      (Ok tt, (buf ++ put_u16_le (Z.land h 0xFFFF) ++ put_u8 (Z.shiftr h 16)) ++ data)
    else if len <=? 0x3FFFFFFF then
      (Ok tt, (buf ++ put_u32_le (Z.lor (u32 (Z.shiftl len 2)) 0x3)) ++ data)
    else (Err InvalidInput_Overflow, buf).

(** ** The stream a reader sees

    [tokio_util]'s [Framed] appends what it reads from the socket to the
    buffer and calls [decode] until it answers [None]; [drain] is that loop
    (one unit of fuel per call) and [feed] the arrival of one chunk. *)

Fixpoint drain (fuel : nat) (self : BytesCodec) (src : bytes)
    : result codec_error (list bytes) * BytesCodec * bytes :=
  match fuel with
  | O => (Ok [], self, src)
  | S fuel =>
      match decode self src with
      | (Ok (Some m), self', src') =>
          match drain fuel self' src' with
          | (Ok ms, self'', src'') => (Ok (m :: ms), self'', src'')
          | (Err e, self'', src'') => (Err e, self'', src'')
          end
      | (Ok None, self', src') => (Ok [], self', src')
      | (Err e, self', src') => (Err e, self', src')
      end
  end.

(** Every frame takes at least one byte, so the buffer's length plus two calls
    are enough. *)
Definition feed (self : BytesCodec) (src chunk : bytes)
    : result codec_error (list bytes) * BytesCodec * bytes :=
  drain (S (S (length (src ++ chunk)))) self (src ++ chunk).

Fixpoint feed_all (self : BytesCodec) (src : bytes) (chunks : list bytes)
    : result codec_error (list bytes) * BytesCodec * bytes :=
  match chunks with
  | [] => (Ok [], self, src)
  | c :: cs =>
      match feed self src c with
      | (Ok ms, self', src') =>
          match feed_all self' src' cs with
          | (Ok ms', self'', src'') => (Ok (ms ++ ms'), self'', src'')
          | (Err e, self'', src'') => (Err e, self'', src'')
          end
      | (Err e, self', src') => (Err e, self', src')
      end
  end.

(** A sender that writes the messages one after the other. *)
Fixpoint encode_all (self : BytesCodec) (ms : list bytes) (buf : bytes)
    : result codec_error unit * bytes :=
  match ms with
  | [] => (Ok tt, buf)
  | m :: ms =>
      match encode self m buf with
      | (Ok _, buf') => encode_all self ms buf'
      | (Err e, buf') => (Err e, buf')
      end
  end.

(** ** Headers *)

(** Number of header bytes for a payload of [len] bytes. *)
Definition head_size (len : Z) : nat :=
  if len <=? 0x3F then 1 else if len <=? 0x3FFF then 2
  else if len <=? 0x3FFFFF then 3 else 4.

Definition header (len : Z) : bytes :=
  le_split (head_size len) (4 * len + (Z.of_nat (head_size len) - 1)).

Definition frame (m : bytes) : bytes := header (zlen m) ++ m.

Definition sendable (self : BytesCodec) (m : bytes) : Prop :=
  zlen m <= 0x3FFFFFFF /\ zlen m <= max_packet_length self.

#[export] Instance sendable_dec self m : Decision (sendable self m).
Proof. unfold sendable. apply _. Defined.

Lemma head_size_cases len :
  (head_size len = 1%nat /\ len <= 0x3F) \/
  (head_size len = 2%nat /\ 0x3F < len <= 0x3FFF) \/
  (head_size len = 3%nat /\ 0x3FFF < len <= 0x3FFFFF) \/
  (head_size len = 4%nat /\ 0x3FFFFF < len).
Proof. unfold head_size. zbool; lia. Qed.

Lemma head_size_bounds len : (1 <= head_size len <= 4)%nat.
Proof. unfold head_size. zbool; lia. Qed.

Lemma length_header len : length (header len) = head_size len.
Proof. apply length_le_split. Qed.

Lemma header_word_range len : 0 <= len <= 0x3FFFFFFF ->
  0 <= 4 * len + (Z.of_nat (head_size len) - 1) < 2 ^ (8 * Z.of_nat (head_size len)).
Proof.
  intros H. destruct (head_size_cases len) as [[-> ?]|[[-> ?]|[[-> ?]|[-> ?]]]];
    simpl; lia.
Qed.

(** The shifts and ors of [decode_head] read a little-endian number. *)
Definition head_word (k : Z) (src : bytes) : Z :=
  let n := byte_at src 0 in
  let n := if 1 <? k then Z.lor n (Z.shiftl (byte_at src 1) 8) else n in
  let n := if 2 <? k then Z.lor n (Z.shiftl (byte_at src 2) 16) else n in
  if 3 <? k then Z.lor n (Z.shiftl (byte_at src 3) 24) else n.

Lemma head_word_le (k : nat) src :
  (1 <= k <= 4)%nat -> (k <= length src)%nat ->
  head_word (Z.of_nat k) src = le_combine (take k src).
Proof.
  intros Hk Hl. unfold head_word, byte_at.
  destruct k as [|[|[|[|[|k]]]]]; try lia;
    repeat (destruct src as [|? src]; simpl in Hl; [lia|]; try apply le_S_n in Hl);
    simpl; rewrite ?take_0, ?le_combine_cons, ?le_combine_nil;
    repeat match goal with |- context [byte.unsigned ?b] =>
      lazymatch goal with H : 0 <= byte.unsigned b < 256 |- _ => fail
      | _ => pose proof (byte_range b) end end;
    try (rewrite (lor_shiftl_add _ _ 8) by lia);
    try (rewrite (lor_shiftl_add _ _ 16) by lia);
    try (rewrite (lor_shiftl_add _ _ 24) by lia); lia.
Qed.

(** ** What [encode] writes *)

Lemma encode_spec self m buf :
  raw self = false -> zlen m <= 0x3FFFFFFF ->
  encode self m buf = (Ok tt, buf ++ frame m).
Proof.
  intros Hr Hm. unfold encode, frame, header. rewrite Hr.
  pose proof (zlen_nonneg m) as Hpos.
  assert (E : forall t, 0 <= t < 4 ->
    Z.lor (Z.shiftl (zlen m) 2) t = 4 * zlen m + t).
  { intros t Ht. rewrite lor_shiftl_add_r by lia. lia. }
  assert (E0 : Z.shiftl (zlen m) 2 = 4 * zlen m).
  { rewrite Z.shiftl_mul_pow2 by lia. lia. }
  destruct (head_size_cases (zlen m)) as [[-> ?]|[[-> ?]|[[-> ?]|[-> ?]]]];
    zbool; try lia; rewrite <- !app_assoc; do 2 f_equal.
  - unfold put_u8. rewrite E0. simpl. do 3 f_equal. lia.
  - unfold put_u16_le, wrap. rewrite Z.mod_small, E by lia. done.
  - unfold put_u16_le, put_u8, wrap. rewrite Z.mod_small, E by lia.
    rewrite app_assoc. f_equal.
    change (Z.of_nat 3 - 1) with 2. set (w := 4 * zlen m + 2).
    change 0xFFFF with (Z.ones 16). rewrite Z.land_ones by lia.
    change (2 ^ 16) with (2 ^ (Z.of_nat 2 * 8)). rewrite <- le_split_mod.
    unfold le_split. simpl. rewrite Z.shiftr_shiftr by lia. done.
  - unfold put_u32_le, wrap. rewrite Z.mod_small, E by lia. done.
Qed.

Lemma encode_too_long self m buf :
  raw self = false -> 0x3FFFFFFF < zlen m ->
  encode self m buf = (Err InvalidInput_Overflow, buf).
Proof. intros Hr Hm. unfold encode. rewrite Hr. zbool; try lia. done. Qed.

Lemma encode_all_spec self ms buf :
  raw self = false -> Forall (sendable self) ms ->
  encode_all self ms buf = (Ok tt, buf ++ mjoin (frame <$> ms)).
Proof.
  intros Hr H. revert buf. induction H as [|m ms [Hm _] _ IH]; intros buf; simpl.
  - by rewrite app_nil_r.
  - rewrite encode_spec by done. by rewrite IH, app_assoc.
Qed.

(** ** What [decode_head] reads *)

Lemma header_first len x :
  0 <= len ->
  Z.land (byte_at (header len ++ x) 0) 3 + 1 = Z.of_nat (head_size len).
Proof.
  intros Hl. unfold header, byte_at.
  pose proof (head_size_bounds len) as Hb.
  destruct (head_size len) as [|k]; [lia|].
  remember (4 * len + (Z.of_nat (S k) - 1)) as w eqn:Ew. simpl.
  rewrite byte_of_Z_unsigned. change 3 with (Z.ones 2).
  rewrite Z.land_ones by lia. unfold wrap.
  change (2 ^ 8) with 256. change (2 ^ 2) with 4. zdm.
Qed.

Lemma header_first_prefix len b f x :
  0 <= len -> b <> [] -> b ++ f = header len ++ x ->
  Z.land (byte_at b 0) 3 + 1 = Z.of_nat (head_size len).
Proof.
  intros Hl Hb E. rewrite <- (header_first len x), <- E by done.
  destruct b; done.
Qed.

Lemma decode_head_header self len rest :
  0 <= len <= 0x3FFFFFFF ->
  decode_head self (header len ++ rest) =
    if max_packet_length self <? len
    then (Err InvalidData_TooBigPacket, header len ++ rest)
    else (Ok (Some len), rest).
Proof.
  intros Hl. unfold decode_head.
  pose proof (head_size_bounds len) as Hb. pose proof (length_header len) as Hh.
  rewrite bool_decide_eq_false_2 by (destruct (header len); simpl in *; [lia|done]).
  cbv zeta. rewrite header_first by lia.
  assert (zlen (header len ++ rest) <? Z.of_nat (head_size len) = false) as ->.
  { rewrite zlen_app. unfold zlen at 1. rewrite Hh.
    pose proof (zlen_nonneg rest). lia. }
  fold (head_word (Z.of_nat (head_size len)) (header len ++ rest)).
  rewrite head_word_le by (rewrite ?length_app; lia).
  unfold header at 1 3. rewrite take_app_le_split, le_split_small
    by (by apply header_word_range).
  replace (Z.shiftr _ 2) with len.
  - rewrite Nat2Z.id. unfold header. by rewrite drop_app_le_split.
  - rewrite Z.shiftr_div_pow2 by lia. change (2 ^ 2) with 4. zdm.
Qed.

Lemma decode_head_full self len rest :
  0 <= len <= 0x3FFFFFFF -> len <= max_packet_length self ->
  decode_head self (header len ++ rest) = (Ok (Some len), rest).
Proof. intros Hl Hmax. rewrite decode_head_header by done. zbool; [lia|done]. Qed.

Lemma decode_head_partial self len b f x :
  0 <= len -> b ++ f = header len ++ x -> (length b < head_size len)%nat ->
  decode_head self b = (Ok None, b).
Proof.
  intros Hl E Hlen. unfold decode_head. case_bool_decide as Hb; [done|].
  cbv zeta. rewrite (header_first_prefix len b f x) by done.
  assert (zlen b <? Z.of_nat (head_size len) = true) as -> by (unfold zlen; lia).
  done.
Qed.

(** ** The stream invariant

    [pending s b f ms]: with state [s] and buffer [b], the bytes [f] still to
    come complete exactly the messages [ms]. *)

Definition stream (ms : list bytes) : bytes := mjoin (frame <$> ms).

Inductive pending : DecodeState -> bytes -> bytes -> list bytes -> Prop :=
| pending_head b f ms : b ++ f = stream ms -> pending Head b f ms
| pending_data m ms b f :
    b ++ f = m ++ stream ms -> pending (Data (zlen m)) b f (m :: ms).

Definition with_state (self : BytesCodec) (s : DecodeState) : BytesCodec :=
  mkCodec s (raw self) (max_packet_length self).

Lemma frame_nonempty m : frame m <> [].
Proof.
  unfold frame. pose proof (length_header (zlen m)).
  pose proof (head_size_bounds (zlen m)).
  destruct (header (zlen m)); simpl in *; [lia|done].
Qed.

Lemma stream_nil_inv ms : stream ms = [] -> ms = [].
Proof.
  destruct ms as [|m ms]; [done|]. unfold stream. simpl.
  intros [Hf _]%app_eq_nil. by apply frame_nonempty in Hf.
Qed.

(** Splitting [b ++ f = p ++ x] at [p] or inside it. *)
Lemma prefix_cases {A} (b f p x : list A) :
  b ++ f = p ++ x ->
  (length b < length p)%nat \/
  exists b', b = p ++ b' /\ b' ++ f = x.
Proof.
  intros E. destruct (decide (length b < length p)%nat) as [|Hge]; [by left|right].
  exists (drop (length p) b).
  assert (take (length p) b = p) as Ht.
  { rewrite <- (take_app_le b f) by lia. by rewrite E, take_app_length. }
  split; [by rewrite <- Ht at 1; rewrite take_drop|].
  apply (f_equal (drop (length p))) in E.
  by rewrite drop_app_le, drop_app_length in E by lia.
Qed.

(** The outcome of one call: the next message, or nothing yet. *)
Definition decode_outcome (self : BytesCodec) (b f : bytes) (ms : list bytes) : Prop :=
  (exists m ms' b',
     ms = m :: ms' /\ decode self b = (Ok (Some m), with_state self Head, b') /\
     pending Head b' f ms' /\ (length b' <= length b)%nat /\
     (state self = Head -> (length b' < length b)%nat)) \/
  (exists s' b',
     decode self b = (Ok None, with_state self s', b') /\
     pending s' b' f ms /\ (f = [] -> ms = [])).

Lemma decode_payload_outcome self m ms b f :
  b ++ f = m ++ stream ms ->
  (exists b', decode_payload self (zlen m) b = (Ok (Some m), with_state self Head, b') /\
     b' ++ f = stream ms /\ (length b' <= length b)%nat) \/
  (decode_payload self (zlen m) b = (Ok None, self, b) /\ f <> []).
Proof.
  intros E. unfold decode_payload, decode_data.
  destruct (prefix_cases _ _ _ _ E) as [Hlt|(b' & -> & Hb')].
  - right. assert (zlen b <? zlen m = true) as -> by (unfold zlen; lia).
    split; [done|]. intros ->. rewrite app_nil_r in E. subst b.
    rewrite length_app in Hlt. lia.
  - left. exists b'.
    assert (zlen (m ++ b') <? zlen m = false) as ->
      by (rewrite zlen_app; pose proof (zlen_nonneg b'); lia).
    unfold zlen. rewrite Nat2Z.id, take_app_length, drop_app_length.
    rewrite length_app. repeat split; [done|lia].
Qed.

Lemma decode_step self b f ms :
  raw self = false -> Forall (sendable self) ms ->
  pending (state self) b f ms -> decode_outcome self b f ms.
Proof.
  intros Hr Hs Hp. unfold decode_outcome, decode. rewrite Hr.
  destruct self as [st r mx]; simpl in *; subst r. inversion Hp; subst; clear Hp.
  - destruct ms as [|m ms].
    { right. destruct b; [|done]. exists Head, []. simpl in *. subst.
      by repeat split; try constructor. }
    inversion Hs as [|? ? [Hm1 Hm2] Hs']; subst. simpl in Hm2.
    pose proof (zlen_nonneg m).
    assert (E : b ++ f = header (zlen m) ++ m ++ stream ms)
      by (unfold stream, frame in H; simpl in H; rewrite H; by rewrite <- app_assoc).
    destruct (prefix_cases _ _ _ _ E) as [Hlt|(b' & -> & Hb')].
    + right. exists Head, b. rewrite length_header in Hlt.
      rewrite (decode_head_partial _ (zlen m) _ _ _ ltac:(done) E Hlt).
      repeat split; [by constructor|]. intros ->. rewrite app_nil_r in E. subst b.
      rewrite length_app, length_header in Hlt. lia.
    + rewrite decode_head_full by (simpl; lia).
      set (self' := mkCodec (Data (zlen m)) false mx).
      destruct (decode_payload_outcome self' _ _ _ _ Hb')
        as [(b'' & -> & Hb'' & Hle)|[-> Hne]].
      * left. exists m, ms, b''. rewrite length_app, length_header.
        pose proof (head_size_bounds (zlen m)).
        repeat split; [by constructor|lia..].
      * right. exists (Data (zlen m)), b'. repeat split; [by constructor|done].
  - inversion Hs as [|? ? [Hm1 Hm2] Hs']; subst.
    set (self' := mkCodec (Data (zlen m)) false mx).
    match goal with H : b ++ f = _ |- _ =>
      destruct (decode_payload_outcome self' _ _ _ _ H)
        as [(b'' & -> & Hb'' & Hle)|[-> Hne]] end.
    + left. exists m, ms0, b''. repeat split; [by constructor|done|done].
    + right. exists (Data (zlen m)), b. repeat split; [by constructor|done].
Qed.

(** Calls that [drain] may still need. *)
Definition drain_budget (self : BytesCodec) (b : bytes) : nat :=
  match state self with Head => S (length b) | Data _ => S (S (length b)) end.

Lemma drain_ok fuel self b f ms :
  raw self = false -> Forall (sendable self) ms ->
  pending (state self) b f ms -> (drain_budget self b <= fuel)%nat ->
  exists out ms' s' b',
    drain fuel self b = (Ok out, with_state self s', b') /\
    ms = out ++ ms' /\ pending s' b' f ms' /\ (f = [] -> ms' = []).
Proof.
  intros Hr Hs. revert self b ms Hr Hs.
  induction fuel as [|fuel IH]; intros self b ms Hr Hs Hp Hf.
  { unfold drain_budget in Hf. destruct (state self); lia. }
  destruct (decode_step self b f ms Hr Hs Hp)
    as [(m & ms' & b' & -> & E & Hp' & Hle & Hlt)|(s' & b' & E & Hp' & Hn)];
    simpl; rewrite E.
  - inversion Hs as [|? ? Hm Hs']; subst.
    destruct (IH (with_state self Head) b' ms' Hr Hs' Hp')
      as (out & ms'' & s'' & b'' & -> & -> & Hp'' & Hn).
    { unfold drain_budget in *. simpl.
      destruct (state self); [specialize (Hlt eq_refl)|]; lia. }
    exists (m :: out), ms'', s'', b''. done.
  - exists [], ms, s', b'. done.
Qed.

Lemma feed_all_ok self b chunks ms :
  raw self = false -> Forall (sendable self) ms ->
  pending (state self) b (mjoin chunks) ms -> (chunks = [] -> ms = []) ->
  feed_all self b chunks = (Ok ms, with_state self Head, []).
Proof.
  intros Hr. revert self b ms Hr.
  induction chunks as [|c cs IH]; intros self b ms Hr Hs Hp Hc; simpl in *.
  { specialize (Hc eq_refl). subst ms. inversion Hp as [? ? ? E|]; subst.
    rewrite app_nil_r in E. unfold stream in E. simpl in E. subst b.
    destruct self as [? ? ?]. simpl in *. by subst. }
  assert (pending (state self) (b ++ c) (mjoin cs) ms) as Hp'.
  { inversion Hp; subst; constructor; by rewrite <- app_assoc. }
  unfold feed.
  destruct (drain_ok (S (S (length (b ++ c)))) self (b ++ c) (mjoin cs) ms)
    as (out & ms' & s' & b' & -> & -> & Hp'' & Hn); try done.
  { unfold drain_budget. destruct (state self); lia. }
  apply Forall_app in Hs as [_ Hs].
  rewrite (IH (with_state self s') b' ms'); try done.
  intros ->. by apply Hn.
Qed.

(** ** Properties *)

(** C1. Framing round trip under any fragmentation: a sender's non-raw codec
    encodes a sequence of messages, the network delivers the encoded bytes in
    chunks of any sizes, and the reader gets exactly the messages back, in
    order, ending with an empty buffer and the codec between two frames. *)
Theorem decode_encode_stream (tx rx : BytesCodec) (ms chunks : list bytes) :
  raw tx = false -> raw rx = false -> state rx = Head ->
  Forall (sendable tx) ms -> Forall (sendable rx) ms ->
  encode_all tx ms [] = (Ok tt, mjoin chunks) ->
  feed_all rx [] chunks = (Ok ms, rx, []).
Proof.
  intros Htx Hrx Hst Hs1 Hs2 E. rewrite encode_all_spec in E by done.
  injection E as E. fold (stream ms) in E.
  rewrite (feed_all_ok rx [] chunks ms Hrx Hs2).
  - by destruct rx; simpl in *; subst.
  - rewrite Hst. constructor. by rewrite <- E.
  - intros ->. by apply stream_nil_inv.
Qed.

Lemma decode_encode_stream_witness :
  feed_all codec_new [] [[Byte.x08; Byte.x61]; []; [Byte.x62; Byte.x00; Byte.x04]; [Byte.x63]]
  = (Ok [[Byte.x61; Byte.x62]; []; [Byte.x63]], codec_new, []).
Proof.
  apply (decode_encode_stream codec_new);
    first [reflexivity | apply (bool_decide_unpack _); vm_compute; exact I].
Defined.

(** Every outcome of [encode] in framed mode: a payload below 1 GiB is
    appended behind a header of the fewest bytes (one to four) whose 8-bit
    groups can hold the length and the two tag bits; a longer payload is an
    [Overflow] error that leaves the output buffer as it was. *)
Theorem encode_outcome (self : BytesCodec) (data buf : bytes) :
  raw self = false ->
  (zlen data < 2 ^ 30 /\
   exists head, encode self data buf = (Ok tt, buf ++ head ++ data) /\
     (1 <= length head <= 4)%nat /\
     (forall k, 4 * zlen data + 3 < 2 ^ (8 * Z.of_nat k) -> (length head <= k)%nat)) \/
  (2 ^ 30 <= zlen data /\ encode self data buf = (Err InvalidInput_Overflow, buf)).
Proof.
  intros Hr. destruct (decide (zlen data < 2 ^ 30)) as [Hl|Hl]; [left|right].
  - split; [done|]. exists (header (zlen data)).
    rewrite encode_spec, length_header by (done || lia).
    split; [done|]. split; [apply head_size_bounds|]. intros k Hk.
    destruct (decide (head_size (zlen data) <= k)%nat) as [|Hgt]; [done|exfalso].
    pose proof (zlen_nonneg data).
    destruct (head_size_cases (zlen data)) as [[E ?]|[[E ?]|[[E ?]|[E ?]]]];
      rewrite E in Hgt; destruct k as [|[|[|[|k]]]]; simpl in Hk; lia.
  - split; [lia|]. apply encode_too_long; [done|lia].
Qed.

Lemma encode_outcome_witness :
  raw codec_new = false /\
  encode codec_new [Byte.x61] [] = (Ok tt, [Byte.x04; Byte.x61]).
Proof.
  split; [reflexivity|].
  destruct (encode_outcome codec_new [Byte.x61] [] eq_refl)
    as [(_ & head & _ & _ & _)|[H _]]; [reflexivity|].
  exfalso. vm_compute in H. apply H. reflexivity.
Defined.

(** A frame whose header announces more than [max_packet_length] is
    refused with [Too big packet]; neither the buffer nor the codec's state
    changes, whatever bytes follow, so nothing of the payload is ever
    buffered as a message. *)
Theorem decode_refuses_too_big (self : BytesCodec) (len : Z) (rest : bytes) :
  raw self = false -> state self = Head ->
  0 <= len < 2 ^ 30 -> max_packet_length self < len ->
  decode self (header len ++ rest) =
    (Err InvalidData_TooBigPacket, self, header len ++ rest).
Proof.
  intros Hr Hst Hl Hmax. unfold decode. rewrite Hr, Hst.
  rewrite decode_head_header by lia.
  assert (max_packet_length self <? len = true) as -> by lia. done.
Qed.

Lemma decode_refuses_too_big_witness :
  decode (set_max_packet_length codec_new 16) (header 17 ++ [Byte.x00]) =
    (Err InvalidData_TooBigPacket, set_max_packet_length codec_new 16,
     header 17 ++ [Byte.x00]).
Proof.
  apply decode_refuses_too_big; simpl; [reflexivity|reflexivity|lia|lia].
Defined.
