(* ===== verification/VideoQos.v ===== *)
(** * Adaptive video quality control

    [src/server/video_qos.rs] and the [Quality] type of
    [libs/scrap/src/common/codec.rs].  [VideoQoS] keeps per-user delay
    statistics and derives from them one frame rate and one bitrate ratio.

    The hash maps are [gmap]s, iterated in the order of [map_to_list]; an
    [Instant] is a number of nanoseconds, and every operation that reads the
    clock takes the current one as [now].  An operation that can panic (the
    two [clamp]s, whose bounds must be ordered) returns an [option]. *)

From S2P Require Import Prelude F32.

(* src/libs/scrap/src/common/codec.rs:893-893 BR_BEST *)
Definition BR_BEST : f32 := Eval vm_compute in flit 15 10.
(* src/libs/scrap/src/common/codec.rs:894-894 BR_BALANCED *)
Definition BR_BALANCED : f32 := Eval vm_compute in flit 67 100.
(* src/libs/scrap/src/common/codec.rs:895-895 BR_SPEED *)
Definition BR_SPEED : f32 := Eval vm_compute in flit 5 10.

(* src/libs/scrap/src/common/codec.rs:897-903 Quality *)
Inductive Quality : Type :=
| Best
| Balanced
| Low
| Custom (v : f32).

#[export] Instance Quality_eq_dec : EqDecision Quality.
Proof. solve_decision. Defined.

(* src/libs/scrap/src/common/codec.rs:905-909 Quality::default *)
Definition quality_default : Quality := Balanced.

(* src/libs/scrap/src/common/codec.rs:912-917 Quality::is_custom *)
Definition is_custom (q : Quality) : bool :=
  match q with Custom _ => true | _ => false end.

(* src/libs/scrap/src/common/codec.rs:919-926 Quality::ratio *)
Definition quality_ratio (q : Quality) : f32 :=
  match q with
  | Best => BR_BEST
  | Balanced => BR_BALANCED
  | Low => BR_SPEED
  | Custom v => v
  end.

(* src/src/server/video_qos.rs:31-31 FPS *)
Definition FPS : Z := 30.
(* src/src/server/video_qos.rs:32-32 MIN_FPS *)
Definition MIN_FPS : Z := 1.
(* src/src/server/video_qos.rs:33-33 MAX_FPS *)
Definition MAX_FPS : Z := 120.
(* src/src/server/video_qos.rs:34-34 INIT_FPS *)
Definition INIT_FPS : Z := 15.
(* src/src/server/video_qos.rs:37-37 BR_MAX *)
Definition BR_MAX : f32 := Eval vm_compute in f32_of_Z 40.
(* src/src/server/video_qos.rs:38-38 BR_MIN *)
Definition BR_MIN : f32 := Eval vm_compute in flit 2 10.
(* src/src/server/video_qos.rs:39-39 BR_MIN_HIGH_RESOLUTION *)
Definition BR_MIN_HIGH_RESOLUTION : f32 := Eval vm_compute in flit 1 10.
(* src/src/server/video_qos.rs:40-40 MAX_BR_MULTIPLE *)
Definition MAX_BR_MULTIPLE : f32 := Eval vm_compute in f32_of_Z 1.
(* src/src/server/video_qos.rs:42-42 HISTORY_DELAY_LEN *)
Definition HISTORY_DELAY_LEN : Z := 2.
(* src/src/server/video_qos.rs:43-43 ADJUST_RATIO_INTERVAL *)
Definition ADJUST_RATIO_INTERVAL : Z := 3.
(* src/src/server/video_qos.rs:44-44 DYNAMIC_SCREEN_THRESHOLD *)
Definition DYNAMIC_SCREEN_THRESHOLD : Z := 2.
(* src/src/server/video_qos.rs:45-45 DELAY_THRESHOLD_150MS *)
Definition DELAY_THRESHOLD_150MS : Z := 150.

(** [u32::clamp]: panics unless the bounds are ordered. *)
Definition zclamp (x lo hi : Z) : option Z :=
  if lo <=? hi then
    Some (if x <? lo then lo else if hi <? x then hi else x)
  else None.

(** [Iterator::min] and [Iterator::max] on integers. *)
Definition list_min (l : list Z) : option Z :=
  match l with [] => None | x :: l => Some (foldl Z.min x l) end.

Definition list_max (l : list Z) : option Z :=
  match l with [] => None | x :: l => Some (foldl Z.max x l) end.

(** [Iterator::max_by] keeps the last of several greatest elements. *)
Definition max_by_last {A} (key : A -> Z) (l : list A) : option A :=
  foldl (fun best x =>
    match best with
    | None => Some x
    | Some b => if key x <? key b then Some b else Some x
    end) None l.

(** [Instant::elapsed().as_secs()]. *)
Definition elapsed_secs (now instant : Z) : Z := Z.max 0 (now - instant) / 1000000000.

(** ** Round-trip time *)

(* src/src/server/video_qos.rs:539-545 RttCalculator *)
Record RttCalculator : Type := mkRtt {
  min_rtt : option Z;
  window_min_rtt : option Z;
  smoothed_rtt : option Z;
  samples : list Z;
}.

Definition rtt_default : RttCalculator := mkRtt None None None [].

(* src/src/server/video_qos.rs:548-548 RttCalculator::WINDOW_SAMPLES *)
Definition WINDOW_SAMPLES : Z := 60.
(* src/src/server/video_qos.rs:549-549 RttCalculator::MIN_SAMPLES *)
Definition MIN_SAMPLES : Z := 10.
(* src/src/server/video_qos.rs:550-550 RttCalculator::ALPHA *)
Definition ALPHA : f32 := Eval vm_compute in flit 5 10.

(* src/src/server/video_qos.rs:553-580 RttCalculator::update *)
Definition rtt_update (self : RttCalculator) (delay : Z) : RttCalculator :=
  let min_rtt' :=
    match min_rtt self with
    | Some m => if delay <? m then Some delay else Some m
    | None => Some delay
    end in
  let s := if WINDOW_SAMPLES <=? zlen (samples self) then tail (samples self)
           else samples self in
  let s := s ++ [delay] in
  let window := list_min s in
  let smoothed :=
    if WINDOW_SAMPLES <=? zlen s then
      match min_rtt', window with
      | Some min, Some window_min =>
          Some (f32_as_u32
            (fadd (fmul (fsub (f32_of_Z 1) ALPHA) (f32_of_Z min))
                  (fmul ALPHA (f32_of_Z window_min))))
      | _, _ => smoothed_rtt self
      end
    else smoothed_rtt self in
  mkRtt min_rtt' window smoothed s.

(* src/src/server/video_qos.rs:584-594 RttCalculator::get_rtt *)
Definition get_rtt (self : RttCalculator) : option Z :=
  match smoothed_rtt self with
  | Some rtt => Some rtt
  | None => if MIN_SAMPLES <=? zlen (samples self) then min_rtt self else None
  end.

(** ** Delay statistics of a user *)

(* src/src/server/video_qos.rs:47-55 UserDelay *)
Record UserDelay : Type := mkDelay {
  response_delayed : bool;
  delay_history : list Z;
  ud_fps : option Z;
  rtt_calculator : RttCalculator;
  quick_increase_fps_count : Z;
  increase_fps_count : Z;
}.

Definition delay_default : UserDelay := mkDelay false [] None rtt_default 0 0.

(* src/src/server/video_qos.rs:58-64 UserDelay::add_delay *)
Definition add_delay (self : UserDelay) (delay : Z) : UserDelay :=
  let h := if HISTORY_DELAY_LEN <? zlen (delay_history self)
           then tail (delay_history self) else delay_history self in
  mkDelay (response_delayed self) (h ++ [delay]) (ud_fps self)
    (rtt_update (rtt_calculator self) delay)
    (quick_increase_fps_count self) (increase_fps_count self).

(* src/src/server/video_qos.rs:67-85 UserDelay::avg_delay *)
Definition avg_delay (self : UserDelay) : Z :=
  let len := zlen (delay_history self) in
  if 0 <? len then
    let avg := u32 (foldl Z.add 0 (delay_history self)) / len in
    match get_rtt (rtt_calculator self) with
    | Some rtt => if rtt <? avg then avg - rtt else avg
    | None => avg
    end
  else DELAY_THRESHOLD_150MS.

(* src/src/server/video_qos.rs:88-96 UserData *)
Record UserData : Type := mkUser {
  auto_adjust_fps : option Z;
  custom_fps : option Z;
  quality : option (Z * Quality);
  delay : UserDelay;
  u_record : bool;
}.

Definition user_default : UserData := mkUser None None None delay_default false.

(* src/src/server/video_qos.rs:98-102 DisplayData *)
Record DisplayData : Type := mkDisplay {
  send_counter : Z;
  support_changing_quality : bool;
}.

Definition display_default : DisplayData := mkDisplay 0 false.

(** ** The controller *)

(* src/src/server/video_qos.rs:105-114 VideoQoS *)
Record VideoQoS : Type := mkQoS {
  q_fps : Z;
  q_ratio : f32;
  users : gmap Z UserData;
  displays : gmap string DisplayData;
  bitrate_store : Z;
  adjust_ratio_instant : Z;
  abr_config : bool;
  new_user_instant : Z;
}.

(* src/src/server/video_qos.rs:116-129 VideoQoS::default *)
Definition qos_default (now : Z) : VideoQoS :=
  mkQoS FPS BR_BALANCED ∅ ∅ 0 now true now.

Definition with_fps (self : VideoQoS) (f : Z) : VideoQoS :=
  mkQoS f (q_ratio self) (users self) (displays self) (bitrate_store self)
    (adjust_ratio_instant self) (abr_config self) (new_user_instant self).

Definition with_ratio (self : VideoQoS) (r : f32) : VideoQoS :=
  mkQoS (q_fps self) r (users self) (displays self) (bitrate_store self)
    (adjust_ratio_instant self) (abr_config self) (new_user_instant self).

Definition with_users (self : VideoQoS) (us : gmap Z UserData) : VideoQoS :=
  mkQoS (q_fps self) (q_ratio self) us (displays self) (bitrate_store self)
    (adjust_ratio_instant self) (abr_config self) (new_user_instant self).

Definition with_displays (self : VideoQoS) (ds : gmap string DisplayData) : VideoQoS :=
  mkQoS (q_fps self) (q_ratio self) (users self) ds (bitrate_store self)
    (adjust_ratio_instant self) (abr_config self) (new_user_instant self).

(** [HashMap::iter]. *)
Definition user_list (self : VideoQoS) : list UserData := (map_to_list (users self)).*2.

(* src/src/server/video_qos.rs:139-146 VideoQoS::fps *)
Definition fps (self : VideoQoS) : Z :=
  let fps := q_fps self in
  if (MIN_FPS <=? fps) && (fps <=? MAX_FPS) then fps else FPS.

(* src/src/server/video_qos.rs:134-136 VideoQoS::spf *)
Definition spf (self : VideoQoS) : option Z :=
  from_secs_f32 (fdiv (f32_of_Z 1) (f32_of_Z (fps self))).

(* src/src/server/video_qos.rs:149-151 VideoQoS::store_bitrate *)
Definition store_bitrate (self : VideoQoS) (bitrate : Z) : VideoQoS :=
  mkQoS (q_fps self) (q_ratio self) (users self) (displays self) bitrate
    (adjust_ratio_instant self) (abr_config self) (new_user_instant self).

(* src/src/server/video_qos.rs:154-156 VideoQoS::bitrate *)
Definition bitrate (self : VideoQoS) : Z := bitrate_store self.

(* src/src/server/video_qos.rs:159-164 VideoQoS::ratio *)
Definition ratio (self : VideoQoS) : f32 * VideoQoS :=
  let self :=
    if fltb (q_ratio self) BR_MIN_HIGH_RESOLUTION || fgtb (q_ratio self) BR_MAX
    then with_ratio self BR_BALANCED else self in
  (q_ratio self, self).

(* src/src/server/video_qos.rs:167-169 VideoQoS::record *)
Definition record (self : VideoQoS) : bool := existsb u_record (user_list self).

(* src/src/server/video_qos.rs:171-175 VideoQoS::set_support_changing_quality *)
Definition set_support_changing_quality (self : VideoQoS) (name : string)
    (support : bool) : VideoQoS :=
  match displays self !! name with
  | Some display =>
      with_displays self
        (<[name := mkDisplay (send_counter display) support]> (displays self))
  | None => self
  end.

(* src/src/server/video_qos.rs:178-180 VideoQoS::in_vbr_state *)
Definition in_vbr_state (self : VideoQoS) : bool :=
  abr_config self &&
  forallb support_changing_quality (map_to_list (displays self)).*2.

(** ** Aggregates over the users *)

(** The closure [user_fps] of [highest_fps]. *)
(* src/src/server/video_qos.rs:382-390 VideoQoS::highest_fps::user_fps *)
Definition user_fps (u : UserData) : Z :=
  let fps := default FPS (custom_fps u) in
  match auto_adjust_fps u with
  | Some auto => if (fps =? 0) || (auto <? fps) then auto else fps
  | None => fps
  end.

(* src/src/server/video_qos.rs:381-401 VideoQoS::highest_fps *)
Definition highest_fps (self : VideoQoS) : Z :=
  let fps :=
    default FPS (list_min (filter (fun u => MIN_FPS <= u)
                             (user_fps <$> user_list self))) in
  default 0 (zclamp fps MIN_FPS MAX_FPS).

(* src/src/server/video_qos.rs:404-413 VideoQoS::latest_quality *)
Definition latest_quality (self : VideoQoS) : Quality :=
  snd (default (0, Balanced)
    (mjoin (max_by_last (fun q => fst (default (0, quality_default) q))
      (filter (fun q => q <> None) (quality <$> user_list self))))).

(** ** Adjusting the frame rate and the ratio *)

(* src/src/server/video_qos.rs:511-536 VideoQoS::adjust_fps *)
Definition adjust_fps (now : Z) (self : VideoQoS) : option VideoQoS :=
  let highest := highest_fps self in
  let fps :=
    default INIT_FPS
      (list_min ((fun u => default INIT_FPS (ud_fps (delay u))) <$> user_list self)) in
  let fps :=
    if existsb (fun u => response_delayed (delay u)) (user_list self) then
      if MIN_FPS + 1 <? fps then MIN_FPS + 1 else fps
    else fps in
  let fps :=
    if elapsed_secs now (new_user_instant self) <? 1 then
      if INIT_FPS <? fps then INIT_FPS else fps
    else fps in
  fps ← zclamp fps MIN_FPS highest;
  Some (with_fps self fps).

(** The lower bound of the ratio for a target quality. *)
(* src/src/server/video_qos.rs:443-466 VideoQoS::adjust_ratio::min *)
Definition ratio_floor (target : Quality) (ratio_1mbps : option f32) : f32 :=
  match target with
  | Best =>
      let min := fdiv BR_BEST (flit 25 10) in
      let min := match ratio_1mbps with
                 | Some r => if fgtb min r then r else min
                 | None => min
                 end in
      fmax min BR_MIN
  | Balanced =>
      let min := fmin (fdiv BR_BALANCED (f32_of_Z 2)) (flit 4 10) in
      let min := match ratio_1mbps with
                 | Some r => if fgtb min r then r else min
                 | None => min
                 end in
      fmax min BR_MIN_HIGH_RESOLUTION
  | Low => BR_MIN_HIGH_RESOLUTION
  | Custom _ => BR_MIN_HIGH_RESOLUTION
  end.

(** The factor the current ratio is multiplied with. *)
(* src/src/server/video_qos.rs:469-493 VideoQoS::adjust_ratio::v *)
Definition ratio_step (current : f32) (max_delay : Z) (dynamic_screen : bool) : f32 :=
  if max_delay <? 50 then
    if dynamic_screen then fmul current (flit 115 100) else current
  else if max_delay <? 100 then
    if dynamic_screen then fmul current (flit 11 10) else current
  else if max_delay <? DELAY_THRESHOLD_150MS then
    if dynamic_screen then fmul current (flit 105 100) else current
  else if max_delay <? 200 then fmul current (flit 95 100)
  else if max_delay <? 300 then fmul current (flit 9 10)
  else if max_delay <? 500 then fmul current (flit 85 100)
  else fmul current (flit 8 10).

(* src/src/server/video_qos.rs:416-508 VideoQoS::adjust_ratio *)
Definition adjust_ratio (now : Z) (dynamic_screen : bool) (self : VideoQoS)
    : option VideoQoS :=
  if negb (in_vbr_state self) then Some self
  else
    match list_max ((fun u => avg_delay (delay u)) <$> user_list self) with
    | None => Some self
    | Some max_delay =>
        let target_quality := latest_quality self in
        let target_ratio := quality_ratio (latest_quality self) in
        let current_ratio := q_ratio self in
        let current_bitrate := bitrate self in
        let ratio_1mbps :=
          if 0 <? current_bitrate then
            Some (fmax (fdiv (fmul current_ratio (f32_of_Z 1000))
                             (f32_of_Z current_bitrate)) BR_MIN_HIGH_RESOLUTION)
          else None in
        let ratio_add_150kbps :=
          if 0 <? current_bitrate then
            Some (fdiv (fmul (f32_of_Z (u32 (current_bitrate + 150))) current_ratio)
                       (f32_of_Z current_bitrate))
          else None in
        let min := ratio_floor target_quality ratio_1mbps in
        let max := fmul target_ratio MAX_BR_MULTIPLE in
        let v := ratio_step current_ratio max_delay dynamic_screen in
        let v :=
          match ratio_add_150kbps with
          | Some add =>
              if fgtb v add && fgtb add current_ratio && fgeb current_ratio BR_SPEED
              then add else v
          | None => v
          end in
        r ← fclamp v min max;
        Some (mkQoS (q_fps self) r (users self) (displays self) (bitrate_store self)
                now (abr_config self) (new_user_instant self))
    end.

(** ** Handlers *)

(* src/src/server/video_qos.rs:186-190 VideoQoS::on_connection_open *)
Definition on_connection_open (now : Z) (enable_abr : string) (self : VideoQoS)
    (id : Z) : VideoQoS :=
  mkQoS (q_fps self) (q_ratio self) (<[id := user_default]> (users self))
    (displays self) (bitrate_store self) (adjust_ratio_instant self)
    (negb (bool_decide (enable_abr = "N"%string))) now.

(* src/src/server/video_qos.rs:193-198 VideoQoS::on_connection_close *)
Definition on_connection_close (now : Z) (self : VideoQoS) (id : Z) : VideoQoS :=
  let self := with_users self (delete id (users self)) in
  if bool_decide (users self = ∅) then qos_default now else self.

(** [if let Some(user) = self.users.get_mut(&id)]. *)
Definition update_user (self : VideoQoS) (id : Z) (f : UserData -> UserData) : VideoQoS :=
  with_users self (alter f id (users self)).

(* src/src/server/video_qos.rs:200-207 VideoQoS::user_custom_fps *)
Definition user_custom_fps (self : VideoQoS) (id fps : Z) : VideoQoS :=
  if (fps <? MIN_FPS) || (MAX_FPS <? fps) then self
  else update_user self id (fun u =>
    mkUser (auto_adjust_fps u) (Some fps) (quality u) (delay u) (u_record u)).

(* src/src/server/video_qos.rs:209-216 VideoQoS::user_auto_adjust_fps *)
Definition user_auto_adjust_fps (self : VideoQoS) (id fps : Z) : VideoQoS :=
  if (fps <? MIN_FPS) || (MAX_FPS <? fps) then self
  else update_user self id (fun u =>
    mkUser (Some fps) (custom_fps u) (quality u) (delay u) (u_record u)).

(** [ImageQuality] of the protocol: [Low = 2], [Balanced = 3], [Best = 4];
    any other value carries a custom ratio in its bits 8 to 19. *)
(* src/src/server/video_qos.rs:219-230 VideoQoS::user_image_quality::convert_quality *)
Definition convert_quality (q : Z) : option Quality :=
  if q =? 3 then Some Balanced
  else if q =? 2 then Some Low
  else if q =? 4 then Some Best
  else
    let b := fdiv (f32_of_Z (Z.land (Z.shiftr q 8) 0xFFF * 2)) (f32_of_Z 100) in
    Custom <$> fclamp b BR_MIN BR_MAX.

(* src/src/server/video_qos.rs:218-238 VideoQoS::user_image_quality *)
Definition user_image_quality (time : Z) (self : VideoQoS) (id image_quality : Z)
    : option VideoQoS :=
  q ← convert_quality image_quality;
  match users self !! id with
  | Some u =>
      let self := update_user self id (fun u =>
        mkUser (auto_adjust_fps u) (custom_fps u) (Some (time, q)) (delay u)
          (u_record u)) in
      Some (with_ratio self (quality_ratio (latest_quality self)))
  | None => Some self
  end.

(* src/src/server/video_qos.rs:240-244 VideoQoS::user_record *)
Definition user_record (self : VideoQoS) (id : Z) (v : bool) : VideoQoS :=
  update_user self id (fun u =>
    mkUser (auto_adjust_fps u) (custom_fps u) (quality u) (delay u) v).

(** The frame rates a target ratio asks for: the minimal and the normal one. *)
(* src/src/server/video_qos.rs:251-257 VideoQoS::user_network_delay *)
Definition fps_goals (target_ratio : f32) : Z * Z :=
  if fgeb target_ratio BR_BEST then (8, 16)
  else if fgeb target_ratio BR_BALANCED then (10, 20)
  else (12, 24).

(** [devide_fps]: the frame rate over the delay in units of 150 ms. *)
(* src/src/server/video_qos.rs:300-301 VideoQoS::user_network_delay::devide_fps *)
Definition devide_fps (fps avg : Z) : Z :=
  f32_as_u32 (fceil (fdiv (f32_of_Z fps)
    (fdiv (f32_of_Z avg) (f32_of_Z DELAY_THRESHOLD_150MS)))).

(** The adaptation of the frame rate [fps] to the average delay: the new frame
    rate and the new [quick_increase_fps_count]. *)
(* src/src/server/video_qos.rs:271-312 VideoQoS::user_network_delay *)
Definition adapt_fps (min_fps normal_fps fps avg old_avg quick : Z) : Z * Z :=
  let dividend_ms := DELAY_THRESHOLD_150MS * min_fps in
  if avg <? 50 then
    let quick := usize (quick + 1) in
    let step := if fps <? normal_fps then 1 else 0 in
    let '(quick, step) := if 3 <=? quick then (0, 5) else (quick, step) in
    (Z.max min_fps (u32 (fps + step)), quick)
  else if avg <? 100 then
    let step := if avg <? old_avg then if fps <? normal_fps then 1 else 0 else 0 in
    (Z.max min_fps (u32 (fps + step)), quick)
  else if avg <? DELAY_THRESHOLD_150MS then (Z.max min_fps fps, quick)
  else
    let d := devide_fps fps avg in
    if avg <? 200 then (Z.max min_fps d, quick)
    else if avg <? 300 then (Z.min min_fps d, quick)
    else if avg <? 600 then (dividend_ms / avg, quick)
    else (Z.min (dividend_ms / avg) d, quick).

(** The part of [user_network_delay] that updates the user. *)
(* src/src/server/video_qos.rs:264-333 VideoQoS::user_network_delay *)
Definition delay_report (cur_fps highest min_fps normal_fps delay_ms : Z)
    (u : UserData) : option UserData :=
  let d := Z.max delay_ms 10 in
  let old_avg := avg_delay (delay u) in
  let ud := add_delay (delay u) d in
  let avg := Z.max (avg_delay ud) 10 in
  let '(fps, quick) :=
    adapt_fps min_fps normal_fps cur_fps avg old_avg (quick_increase_fps_count ud) in
  let inc := if avg <? DELAY_THRESHOLD_150MS
             then usize (increase_fps_count ud + 1) else 0 in
  let '(inc, fps) := if 3 <=? inc then (0, u32 (fps + 1)) else (inc, fps) in
  let quick := if 50 <? avg then 0 else quick in
  fps ← zclamp fps MIN_FPS highest;
  Some (mkUser (auto_adjust_fps u) (custom_fps u) (quality u)
    (mkDelay (response_delayed ud) (delay_history ud) (Some fps)
       (rtt_calculator ud) quick inc) (u_record u)).

(* src/src/server/video_qos.rs:246-334 VideoQoS::user_network_delay *)
Definition user_network_delay (is_linux : bool) (now : Z) (self : VideoQoS)
    (id delay_ms : Z) : option VideoQoS :=
  let highest := highest_fps self in
  let target_ratio := quality_ratio (latest_quality self) in
  let '(min_fps, normal_fps) := fps_goals target_ratio in
  '(self, adjust) ←
    match users self !! id with
    | Some u =>
        u' ← delay_report (q_fps self) highest min_fps normal_fps delay_ms u;
        Some (with_users self (<[id := u']> (users self)),
              bool_decide (ud_fps (delay u) = None))
    | None => Some (self, false)
    end;
  self ← adjust_fps now self;
  if (adjust : bool) && negb is_linux then adjust_ratio now false self else Some self.

(* src/src/server/video_qos.rs:336-344 VideoQoS::user_delay_response_elapsed *)
Definition user_delay_response_elapsed (now : Z) (self : VideoQoS)
    (id elapsed : Z) : option VideoQoS :=
  match users self !! id with
  | Some u =>
      let delayed := 2000 <? elapsed in
      let d := delay u in
      let d := mkDelay delayed (delay_history d) (ud_fps d) (rtt_calculator d)
                 (quick_increase_fps_count d) (increase_fps_count d) in
      let d := if delayed then add_delay d (u32 elapsed) else d in
      let u := mkUser (auto_adjust_fps u) (custom_fps u) (quality u) d (u_record u) in
      let self := with_users self (<[id := u]> (users self)) in
      if delayed then adjust_fps now self else Some self
  | None => Some self
  end.

(* src/src/server/video_qos.rs:349-352 VideoQoS::new_display *)
Definition new_display (self : VideoQoS) (name : string) : VideoQoS :=
  with_displays self (<[name := display_default]> (displays self)).

(* src/src/server/video_qos.rs:354-356 VideoQoS::remove_display *)
Definition remove_display (self : VideoQoS) (name : string) : VideoQoS :=
  with_displays self (delete name (displays self)).

(* src/src/server/video_qos.rs:358-378 VideoQoS::update_display_data *)
Definition update_display_data (now : Z) (self : VideoQoS) (name : string)
    (counter : Z) : option VideoQoS :=
  let self := with_displays self
    (alter (fun d => mkDisplay (usize (send_counter d + counter))
                       (support_changing_quality d)) name (displays self)) in
  self ← adjust_fps now self;
  if in_vbr_state self then
    if ADJUST_RATIO_INTERVAL <=? elapsed_secs now (adjust_ratio_instant self) then
      let dynamic_screen :=
        existsb (fun d => ADJUST_RATIO_INTERVAL * DYNAMIC_SCREEN_THRESHOLD
                            <=? send_counter d) (map_to_list (displays self)).*2 in
      let self := with_displays self
        ((fun d => mkDisplay 0 (support_changing_quality d)) <$> displays self) in
      adjust_ratio now dynamic_screen self
    else Some self
  else Some (with_ratio self (quality_ratio (latest_quality self))).

(** ** Sequences of events

    Every method of the controller that changes its state, with the clock
    reading and the outside values it takes. *)

Inductive qos_event : Type :=
| EvOpen (now : Z) (enable_abr : string) (id : Z)
| EvClose (now id : Z)
| EvCustomFps (id fps : Z)
| EvAutoFps (id fps : Z)
| EvQuality (time id q : Z)
| EvRecord (id : Z) (v : bool)
| EvDelay (is_linux : bool) (now id delay_ms : Z)
| EvElapsed (now id elapsed : Z)
| EvNewDisplay (name : string)
| EvRemoveDisplay (name : string)
| EvUpdateDisplay (now : Z) (name : string) (counter : Z)
| EvSupport (name : string) (support : bool)
| EvBitrate (bitrate : Z)
| EvReadRatio.

Definition qos_step (self : VideoQoS) (ev : qos_event) : option VideoQoS :=
  match ev with
  | EvOpen now abr id => Some (on_connection_open now abr self id)
  | EvClose now id => Some (on_connection_close now self id)
  | EvCustomFps id fps => Some (user_custom_fps self id fps)
  | EvAutoFps id fps => Some (user_auto_adjust_fps self id fps)
  | EvQuality time id q => user_image_quality time self id q
  | EvRecord id v => Some (user_record self id v)
  | EvDelay l now id d => user_network_delay l now self id d
  | EvElapsed now id e => user_delay_response_elapsed now self id e
  | EvNewDisplay n => Some (new_display self n)
  | EvRemoveDisplay n => Some (remove_display self n)
  | EvUpdateDisplay now n c => update_display_data now self n c
  | EvSupport n s => Some (set_support_changing_quality self n s)
  | EvBitrate b => Some (store_bitrate self b)
  | EvReadRatio => Some (snd (ratio self))
  end.

Fixpoint qos_run (self : VideoQoS) (evs : list qos_event) : option VideoQoS :=
  match evs with
  | [] => Some self
  | ev :: evs => self ← qos_step self ev; qos_run self evs
  end.

(** ** Well-formed states *)

Definition quality_ok (q : Quality) : bool :=
  fleb BR_MIN (quality_ratio q) && fleb (quality_ratio q) BR_MAX &&
  bool_decide (fmul (quality_ratio q) MAX_BR_MULTIPLE = quality_ratio q).

Definition fps_ok (f : Z) : Prop := MIN_FPS <= f <= MAX_FPS.

Record user_ok (u : UserData) : Prop := {
  uo_history : zlen (delay_history (delay u)) <= HISTORY_DELAY_LEN + 1;
  uo_samples : zlen (samples (rtt_calculator (delay u))) <= WINDOW_SAMPLES;
  uo_fps : forall f, ud_fps (delay u) = Some f -> fps_ok f;
  uo_custom : forall f, custom_fps u = Some f -> fps_ok f;
  uo_auto : forall f, auto_adjust_fps u = Some f -> fps_ok f;
  uo_quality : forall t q, quality u = Some (t, q) -> quality_ok q = true;
}.

Definition ratio_ok (r : f32) : Prop :=
  fleb BR_MIN_HIGH_RESOLUTION r = true /\ fleb r BR_MAX = true.

Record qos_ok (self : VideoQoS) : Prop := {
  qo_fps : fps_ok (q_fps self);
  qo_ratio : ratio_ok (q_ratio self);
  qo_users : map_Forall (fun _ => user_ok) (users self);
}.

(** ** Aggregates *)

Lemma foldl_min_spec l x :
  foldl Z.min x l ∈ x :: l /\ Forall (fun y => foldl Z.min x l <= y) (x :: l).
Proof.
  revert x. induction l as [|y l IH]; intros x; simpl.
  - split; [set_solver|]. constructor; [lia|constructor].
  - destruct (IH (Z.min x y)) as [I F]. inversion_clear F as [|?? F1 F2]. split.
    + apply elem_of_cons in I as [I|I]; [|set_solver].
      rewrite I. destruct (Z.min_spec x y) as [[_ ->]|[_ ->]]; set_solver.
    + constructor; [lia|]. constructor; [lia|done].
Qed.

Lemma list_min_spec l m :
  list_min l = Some m -> m ∈ l /\ forall y, y ∈ l -> m <= y.
Proof.
  destruct l as [|x l]; simpl; [done|]. intros H. injection H as <-.
  destruct (foldl_min_spec l x) as [I F]. split; [done|].
  intros y. by apply (proj1 (Forall_forall _ _) F).
Qed.

Lemma max_by_last_spec {A} (key : A -> Z) l m :
  max_by_last key l = Some m -> m ∈ l /\ forall y, y ∈ l -> key y <= key m.
Proof.
  unfold max_by_last.
  set (f := fun best x => _).
  assert (forall l b, exists m', foldl f (Some b) l = Some m' /\ m' ∈ b :: l /\
            forall y, y ∈ b :: l -> key y <= key m') as G.
  { clear. intros l. induction l as [|x l IH]; intros b; simpl.
    - exists b. split_and!; [done|set_solver|]. intros y ->%list_elem_of_singleton. lia.
    - destruct (Z.ltb_spec (key x) (key b)) as [L|L].
      + destruct (IH b) as (m' & -> & I & F). exists m'. split_and!; [done|set_solver|].
        intros y [->|[->|Hy]%elem_of_cons]%elem_of_cons; [apply F; set_solver| |apply F; set_solver].
        pose proof (F b ltac:(set_solver)). lia.
      + destruct (IH x) as (m' & -> & I & F). exists m'. split_and!; [done|set_solver|].
        intros y [->|Hy]%elem_of_cons; [|by apply F].
        pose proof (F x ltac:(set_solver)). lia. }
  destruct l as [|x l]; [done|]. intros H. simpl in H.
  destruct (G l x) as (m' & E & I & F). simplify_eq. by split.
Qed.

Lemma zclamp_spec x lo hi :
  lo <= hi -> exists v, zclamp x lo hi = Some v /\ lo <= v <= hi /\
    v = Z.max lo (Z.min x hi).
Proof.
  intros H. unfold zclamp. rewrite (proj2 (Z.leb_le _ _) H).
  eexists. split; [done|]. zbool; lia.
Qed.

Lemma user_list_elem self u :
  u ∈ user_list self <-> exists id, users self !! id = Some u.
Proof.
  unfold user_list. rewrite list_elem_of_fmap. split.
  - intros ([id v] & -> & H). exists id. by apply elem_of_map_to_list.
  - intros [id H]. exists (id, u). split; [done|]. by apply elem_of_map_to_list.
Qed.

Lemma user_list_ok self u : qos_ok self -> u ∈ user_list self -> user_ok u.
Proof. intros H [id Hu]%user_list_elem. exact (qo_users _ H id u Hu). Qed.

Lemma highest_fps_range self : MIN_FPS <= highest_fps self <= MAX_FPS.
Proof.
  unfold highest_fps. set (x := default FPS _).
  destruct (zclamp_spec x MIN_FPS MAX_FPS ltac:(unfold MIN_FPS, MAX_FPS; lia))
    as (v & -> & H & _). exact H.
Qed.

(** The custom ratios a peer can ask for: 4096 of them. *)
Lemma custom_ratios_ok :
  forallb (fun k =>
    match fclamp (fdiv (f32_of_Z (k * 2)) (f32_of_Z 100)) BR_MIN BR_MAX with
    | Some v => quality_ok (Custom v)
    | None => false
    end) (seqZ 0 4096) = true.
Proof. vm_compute. reflexivity. Qed.

Lemma custom_quality_ok k :
  0 <= k < 4096 ->
  exists v, fclamp (fdiv (f32_of_Z (k * 2)) (f32_of_Z 100)) BR_MIN BR_MAX = Some v /\
            quality_ok (Custom v) = true.
Proof.
  intros Hk. pose proof custom_ratios_ok as H. rewrite forallb_forall in H.
  specialize (H k). cbv beta in H.
  destruct (fclamp _ _ _) as [v|].
  - exists v. split; [done|]. by apply H, list_elem_of_In, elem_of_seqZ.
  - discriminate H. by apply list_elem_of_In, elem_of_seqZ.
Qed.

Lemma convert_quality_ok q : exists q', convert_quality q = Some q' /\ quality_ok q' = true.
Proof.
  unfold convert_quality.
  destruct (q =? 3); [by exists Balanced|].
  destruct (q =? 2); [by exists Low|].
  destruct (q =? 4); [by exists Best|].
  destruct (custom_quality_ok (Z.land (Z.shiftr q 8) 0xFFF)) as (v & E & H).
  - change 0xFFF with (Z.ones 12). rewrite Z.land_ones by lia.
    apply Z.mod_pos_bound. lia.
  - rewrite E. by exists (Custom v).
Qed.

Lemma latest_quality_from self :
  latest_quality self = Balanced \/
  exists u t, u ∈ user_list self /\ quality u = Some (t, latest_quality self).
Proof.
  unfold latest_quality. destruct (max_by_last _ _) as [o|] eqn:E; [|by left].
  apply max_by_last_spec in E as [[Ho Hin]%list_elem_of_filter _].
  apply list_elem_of_fmap in Hin as (u & -> & Hu).
  destruct (quality u) as [[t q]|] eqn:Q; [|done]. right. by exists u, t.
Qed.

Lemma latest_quality_ok self : qos_ok self -> quality_ok (latest_quality self) = true.
Proof.
  intros H. destruct (latest_quality_from self) as [->|(u & t & Hu & Hq)]; [done|].
  exact (uo_quality _ (user_list_ok _ _ H Hu) _ _ Hq).
Qed.

(** ** The adjustment of the ratio *)

Lemma ratio_ok_finite r : ratio_ok r -> is_finite r = true.
Proof.
  intros [H1 H2]. by destruct r as [[]|[]| |[] m e].
Qed.

Lemma ratio_step_not_nan r d b : ratio_ok r -> is_nan (ratio_step r d b) = false.
Proof.
  intros H%ratio_ok_finite. unfold ratio_step.
  assert (is_nan r = false) by (by destruct r).
  repeat case_match; try done; by apply fmul_not_nan.
Qed.

Lemma quality_ok_ratio q :
  quality_ok q = true ->
  fleb BR_MIN (quality_ratio q) = true /\ fleb (quality_ratio q) BR_MAX = true /\
  fmul (quality_ratio q) MAX_BR_MULTIPLE = quality_ratio q /\ ratio_ok (quality_ratio q).
Proof.
  unfold quality_ok. rewrite !andb_true_iff, bool_decide_eq_true.
  intros [[H1 H2] H3]. do 3 (split; [done|]). split; [|done].
  by apply fleb_trans with BR_MIN.
Qed.

(** The floor never exceeds the target, and is never below the lowest ratio. *)
Lemma fmax_between x lo hi :
  fleb x hi = true -> fleb lo hi = true -> fleb lo lo = true ->
  fleb lo (fmax x lo) = true /\ fleb (fmax x lo) hi = true.
Proof.
  intros Hx Hlo Hl. pose proof (fleb_not_nan _ _ Hx) as [Hn _].
  pose proof (fleb_not_nan _ _ Hl) as [Hn' _]. split; [by apply fmax_ge_r|].
  unfold fmax. rewrite Hn, Hn'. by destruct (fltb x lo).
Qed.

Lemma ratio_floor_spec q r :
  quality_ok q = true ->
  fleb BR_MIN_HIGH_RESOLUTION (ratio_floor q r) = true /\
  fleb (ratio_floor q r) (quality_ratio q) = true.
Proof.
  intros Hq. destruct (quality_ok_ratio _ Hq) as (H1 & _ & _ & [H4 _]).
  assert (forall a b c, fleb a c = true -> fleb c b = true ->
    fleb (match r with Some r => if fgtb a r then r else a | None => a end) b = true) as C.
  { intros a b c Ha Hb. pose proof (fleb_trans _ _ _ Ha Hb). destruct r as [r|]; [|done].
    unfold fgtb. destruct (fltb r a) eqn:E; [|done].
    apply fltb_true_fleb in E. by apply fleb_trans with a. }
  destruct q; simpl in *; try done.
  - edestruct (fmax_between _ BR_MIN BR_BEST (C (fdiv BR_BEST (flit 25 10)) BR_BEST BR_BEST
      eq_refl eq_refl) eq_refl eq_refl) as [F1 F2].
    split; [|exact F2]. by apply fleb_trans with BR_MIN.
  - apply (fmax_between _ BR_MIN_HIGH_RESOLUTION BR_BALANCED); [|done|done].
    by apply C with BR_BALANCED.
Qed.

(** [adjust_ratio] never panics, and leaves everything but the ratio and its
    instant alone. *)
Lemma adjust_ratio_total now dyn self :
  qos_ok self ->
  exists self', adjust_ratio now dyn self = Some self' /\ ratio_ok (q_ratio self') /\
    q_fps self' = q_fps self /\ users self' = users self /\
    displays self' = displays self /\
    ((in_vbr_state self = false \/ users self = ∅) -> self' = self) /\
    (in_vbr_state self = true -> users self <> ∅ ->
     fleb (q_ratio self') (quality_ratio (latest_quality self)) = true /\
     adjust_ratio_instant self' = now).
Proof.
  intros H. pose proof (qo_ratio _ H) as Hr.
  unfold adjust_ratio. destruct (in_vbr_state self) eqn:V; simpl; [|by exists self].
  destruct (list_max _) as [d|] eqn:L.
  2:{ exists self. split_and!; try done; try (by intros [?|?]). intros _ Hne. exfalso. apply Hne.
      unfold user_list in L. destruct (map_to_list (users self)) eqn:M; [|done].
      by apply map_to_list_empty_iff. }
  pose proof (latest_quality_ok _ H) as Hq.
  destruct (quality_ok_ratio _ Hq) as (Q1 & Q2 & Q3 & Q4).
  rewrite Q3.
  match goal with |- context [ratio_floor _ ?r1] =>
    destruct (ratio_floor_spec _ r1 Hq) as [F1 F2] end.
  match goal with |- context [fclamp ?v _ _] => set (v' := v) end.
  assert (is_nan v' = false) as Hv.
  { subst v'. pose proof (ratio_step_not_nan (q_ratio self) d dyn Hr) as N.
    destruct (0 <? bitrate self); [|done].
    destruct (fgtb (ratio_step _ _ _) _) eqn:G; [|done].
    simpl. destruct (fgtb _ (q_ratio self) && _); [|done].
    unfold fgtb in G. apply fltb_true_fleb, fleb_not_nan in G. tauto. }
  destruct (fclamp v' _ _) as [r|] eqn:E; [|by unfold fclamp in E; rewrite F2 in E].
  destruct (fclamp_range _ _ _ _ Hv E) as [R1 R2].
  eexists. split; [reflexivity|]. simpl. split_and!; try done.
  - split; eapply fleb_trans; eassumption.
  - intros [?|Hu]; [done|]. exfalso. unfold user_list in L. rewrite Hu in L.
    by rewrite map_to_list_empty in L.
Qed.

(** [adjust_fps] only changes the frame rate. *)
Lemma adjust_fps_total now self :
  exists f, adjust_fps now self = Some (with_fps self f) /\ MIN_FPS <= f <= highest_fps self.
Proof.
  unfold adjust_fps. pose proof (highest_fps_range self).
  match goal with |- context [zclamp ?x _ _] => set (x' := x) end.
  destruct (zclamp_spec x' MIN_FPS (highest_fps self) ltac:(lia)) as (v & -> & Hv & _).
  by exists v.
Qed.

(** ** The operations preserve the invariant *)

Lemma user_ok_default : user_ok user_default.
Proof. split; done. Qed.

Lemma zlen_window {A} (l : list A) x n :
  zlen l <= n -> 0 < n ->
  zlen ((if n <=? zlen l then tail l else l) ++ [x]) <= n.
Proof.
  intros H Hn. rewrite zlen_app, zlen_cons, zlen_nil.
  destruct (Z.leb_spec n (zlen l)); [|lia].
  destruct l as [|y l]; simpl; rewrite ?zlen_cons, ?zlen_nil in *; lia.
Qed.

(** A user whose statistics took one more sample. *)
Lemma add_delay_bounds d x :
  zlen (delay_history d) <= HISTORY_DELAY_LEN + 1 ->
  zlen (samples (rtt_calculator d)) <= WINDOW_SAMPLES ->
  zlen (delay_history (add_delay d x)) <= HISTORY_DELAY_LEN + 1 /\
  zlen (samples (rtt_calculator (add_delay d x))) <= WINDOW_SAMPLES.
Proof.
  intros H1 H2. simpl. split; [|by apply zlen_window].
  pose proof (zlen_window (delay_history d) x (HISTORY_DELAY_LEN + 1) H1 ltac:(done)) as G.
  revert G. unfold HISTORY_DELAY_LEN in *. zbool; try lia; done.
Qed.

Lemma with_users_ok self us :
  qos_ok self -> map_Forall (fun _ => user_ok) us -> qos_ok (with_users self us).
Proof. intros [H1 H2 H3] H. by split. Qed.

Lemma with_fps_ok self f : qos_ok self -> fps_ok f -> qos_ok (with_fps self f).
Proof. intros [H1 H2 H3] H. by split. Qed.

Lemma with_ratio_ok self r : qos_ok self -> ratio_ok r -> qos_ok (with_ratio self r).
Proof. intros [H1 H2 H3] H. by split. Qed.

Lemma with_displays_ok self ds : qos_ok self -> qos_ok (with_displays self ds).
Proof. intros [H1 H2 H3]. by split. Qed.

Lemma update_user_ok self id f :
  qos_ok self -> (forall u, user_ok u -> user_ok (f u)) -> qos_ok (update_user self id f).
Proof.
  intros H Hf. apply with_users_ok; [done|]. intros k u.
  rewrite lookup_alter_Some. intros [(-> & u' & Hu & ->)|[_ Hu]].
  - apply Hf. by apply (qo_users _ H _ _ Hu).
  - by apply (qo_users _ H k).
Qed.

Lemma target_ratio_ok self :
  qos_ok self -> ratio_ok (quality_ratio (latest_quality self)).
Proof. intros H. by apply quality_ok_ratio, latest_quality_ok. Qed.

Lemma adjust_fps_ok now self :
  qos_ok self -> exists self', adjust_fps now self = Some self' /\ qos_ok self'.
Proof.
  intros H. destruct (adjust_fps_total now self) as (f & -> & Hf).
  eexists. split; [done|]. apply with_fps_ok; [done|].
  pose proof (highest_fps_range self). unfold fps_ok. lia.
Qed.

Lemma adjust_ratio_ok now dyn self :
  qos_ok self -> exists self', adjust_ratio now dyn self = Some self' /\ qos_ok self'.
Proof.
  intros H. destruct (adjust_ratio_total now dyn self H) as (s' & E & Hr & Hf & Hu & _).
  exists s'. split; [done|]. split; rewrite ?Hf, ?Hu; try done; apply H.
Qed.

Lemma delay_report_ok cur highest mn nf d u :
  MIN_FPS <= highest <= MAX_FPS -> user_ok u ->
  exists u', delay_report cur highest mn nf d u = Some u' /\ user_ok u' /\
    exists f, ud_fps (delay u') = Some f /\ MIN_FPS <= f <= highest.
Proof.
  intros Hh Hu. unfold delay_report.
  destruct (adapt_fps _ _ _ _ _ _) as [f q]. destruct (if 3 <=? _ then _ else _) as [i g].
  destruct (zclamp_spec g MIN_FPS highest ltac:(lia)) as (v & -> & Hv & _).
  eexists. split; [reflexivity|]. split; [|by exists v].
  destruct Hu as [H1 H2 H3 H4 H5 H6].
  destruct (add_delay_bounds (delay u) (Z.max d 10) H1 H2) as [B1 B2].
  split; cbn [delay delay_history rtt_calculator ud_fps custom_fps auto_adjust_fps quality];
    try done. intros ? [= <-]. unfold fps_ok. lia.
Qed.

Lemma user_network_delay_ok l now self id d :
  qos_ok self -> exists self', user_network_delay l now self id d = Some self' /\ qos_ok self'.
Proof.
  intros H. unfold user_network_delay. destruct (fps_goals _) as [mn nf].
  assert (forall s b, qos_ok s -> exists s',
    (self ← adjust_fps now s;
     if (b : bool) && negb l then adjust_ratio now false self else Some self) = Some s' /\
    qos_ok s') as C.
  { intros s b Hs. destruct (adjust_fps_ok now s Hs) as (s' & -> & Hs'). simpl.
    destruct (b && negb l); [by apply adjust_ratio_ok|by exists s']. }
  destruct (users self !! id) as [u|] eqn:E; [|by apply C].
  destruct (delay_report_ok (q_fps self) (highest_fps self) mn nf d u
    (highest_fps_range self) (qo_users _ H _ _ E)) as (u' & -> & Hu & _).
  simpl. apply C, with_users_ok; [done|]. apply map_Forall_insert_2; [done|apply H].
Qed.

Lemma user_delay_response_elapsed_ok now self id e :
  qos_ok self ->
  exists self', user_delay_response_elapsed now self id e = Some self' /\ qos_ok self'.
Proof.
  intros H. unfold user_delay_response_elapsed.
  destruct (users self !! id) as [u|] eqn:E; [|by exists self].
  pose proof (qo_users _ H _ _ E) as [H1 H2 H3 H4 H5 H6].
  assert (forall dl, user_ok (mkUser (auto_adjust_fps u) (custom_fps u) (quality u) dl (u_record u))
    <-> zlen (delay_history dl) <= HISTORY_DELAY_LEN + 1 /\
        zlen (samples (rtt_calculator dl)) <= WINDOW_SAMPLES /\
        (forall f, ud_fps dl = Some f -> fps_ok f)) as U.
  { intros dl. split; [intros []; by split_and!|intros (?&?&?); by split]. }
  destruct (2000 <? e).
  - apply adjust_fps_ok, with_users_ok; [done|].
    apply map_Forall_insert_2; [|apply H]. apply U.
    match goal with |- context [add_delay ?dl ?x] =>
      destruct (add_delay_bounds dl x H1 H2) as [B1 B2] end.
    by split_and!.
  - eexists. split; [done|]. apply with_users_ok; [done|].
    apply map_Forall_insert_2; [|apply H]. by apply U.
Qed.

Lemma update_display_data_ok now self n c :
  qos_ok self -> exists self', update_display_data now self n c = Some self' /\ qos_ok self'.
Proof.
  intros H. unfold update_display_data.
  match goal with |- context [adjust_fps now ?s] =>
    destruct (adjust_fps_ok now s ltac:(by apply with_displays_ok)) as (s' & -> & Hs') end.
  simpl. destruct (in_vbr_state s').
  - destruct (_ <=? _); [|by exists s']. by apply adjust_ratio_ok, with_displays_ok.
  - eexists. split; [done|]. by apply with_ratio_ok, target_ratio_ok.
Qed.

Lemma user_image_quality_ok t self id q :
  qos_ok self -> exists self', user_image_quality t self id q = Some self' /\ qos_ok self'.
Proof.
  intros H. unfold user_image_quality.
  destruct (convert_quality_ok q) as (q' & -> & Hq). simpl.
  destruct (users self !! id) as [u|]; [|by exists self].
  eexists. split; [done|].
  assert (qos_ok (update_user self id (fun u => mkUser (auto_adjust_fps u) (custom_fps u)
    (Some (t, q')) (delay u) (u_record u)))) as G.
  { apply update_user_ok; [done|]. intros u' []. split; try done.
    simpl. by intros ?? [= <- <-]. }
  by apply with_ratio_ok, target_ratio_ok.
Qed.

Lemma ratio_read_ok self : qos_ok self -> qos_ok (snd (ratio self)).
Proof. intros H. unfold ratio. case_match; simpl; [by apply with_ratio_ok|done]. Qed.

Lemma qos_default_ok now : qos_ok (qos_default now).
Proof. split; [done|done|]. apply map_Forall_empty. Qed.

Lemma qos_step_ok self ev :
  qos_ok self -> exists self', qos_step self ev = Some self' /\ qos_ok self'.
Proof.
  intros H. destruct ev; simpl; try (eexists; split; [reflexivity|]).
  - destruct H as [H1 H2 H3]. split; [done..|].
    simpl. apply map_Forall_insert_2; [apply user_ok_default|done].
  - unfold on_connection_close. case_bool_decide; [apply qos_default_ok|].
    apply with_users_ok; [done|]. by apply map_Forall_delete, H.
  - unfold user_custom_fps. destruct (_ || _) eqn:E; [done|].
    apply update_user_ok; [done|]. intros u []. split; try done.
    simpl. intros ? [= <-]. unfold fps_ok. apply orb_false_iff in E. lia.
  - unfold user_auto_adjust_fps. destruct (_ || _) eqn:E; [done|].
    apply update_user_ok; [done|]. intros u []. split; try done.
    simpl. intros ? [= <-]. unfold fps_ok. apply orb_false_iff in E. lia.
  - by apply user_image_quality_ok.
  - apply update_user_ok; [done|]. intros u []. by split.
  - by apply user_network_delay_ok.
  - by apply user_delay_response_elapsed_ok.
  - by apply with_displays_ok.
  - by apply with_displays_ok.
  - by apply update_display_data_ok.
  - unfold set_support_changing_quality. case_match; [by apply with_displays_ok|done].
  - by destruct H; split.
  - by apply ratio_read_ok.
Qed.

Lemma qos_run_ok evs self :
  qos_ok self -> exists self', qos_run self evs = Some self' /\ qos_ok self'.
Proof.
  revert self. induction evs as [|ev evs IH]; intros self H; simpl; [by exists self|].
  destruct (qos_step_ok self ev H) as (s' & -> & H'). simpl. by apply IH.
Qed.

(** ** Correctness of the controller *)

(** C34. No sequence of events makes the controller panic (every [clamp] has
    ordered bounds), and in every state it reaches the frame rate lies in
    [1, 120], the bitrate ratio in [0.1, 40] (so neither accessor falls back to
    its default), every user keeps at most three delays and sixty round-trip
    samples, and every frame rate and ratio a user asked for is in range. *)
Theorem qos_never_panics evs now :
  exists self, qos_run (qos_default now) evs = Some self /\ qos_ok self /\
    fps self = q_fps self /\ fst (ratio self) = q_ratio self.
Proof.
  destruct (qos_run_ok evs (qos_default now) (qos_default_ok now)) as (self & E & H).
  exists self. split_and!; [done..| |].
  - unfold fps. destruct (qo_fps _ H) as [H1 H2].
    by rewrite (proj2 (Z.leb_le _ _) H1), (proj2 (Z.leb_le _ _) H2).
  - unfold ratio. destruct (qo_ratio _ H) as [H1 H2].
    assert (forall x y, fleb x y = true -> fltb y x = false) as N.
    { intros x y (a & b & Ha & Hb & L)%fleb_key. apply not_true_iff_false.
      rewrite (fltb_key y x b a Hb Ha). tauto. }
    unfold fgtb. by rewrite (N _ _ H1), (N _ _ H2).
Qed.

(** The frame rate [adjust_fps] chooses is at least 1 and at most what
    every user allows and what every user's network sustains; it is at most 2
    while any user's answers are late and at most 15 in the second after a
    user connected; and it is the greatest such rate: it is reached by one of
    these limits. *)
Theorem adjust_fps_limits now self :
  exists self', adjust_fps now self = Some self' /\
    let f := q_fps self' in
    let reported := fun u => default INIT_FPS (ud_fps (delay u)) in
    let late := exists u, u ∈ user_list self /\ response_delayed (delay u) = true in
    let fresh := elapsed_secs now (new_user_instant self) < 1 in
    MIN_FPS <= f <= highest_fps self /\
    (forall u, u ∈ user_list self -> f <= Z.max MIN_FPS (reported u)) /\
    (late -> f <= 2) /\ (fresh -> f <= INIT_FPS) /\
    (f = MIN_FPS \/ f = highest_fps self \/ (f = 2 /\ late) \/ (f = INIT_FPS /\ fresh) \/
     (f = INIT_FPS /\ user_list self = []) \/
     exists u, u ∈ user_list self /\ f = reported u).
Proof.
  unfold adjust_fps. pose proof (highest_fps_range self) as Hh.
  set (m := default INIT_FPS (list_min _)).
  assert ((user_list self = [] /\ m = INIT_FPS) \/
    ((exists u, u ∈ user_list self /\ m = default INIT_FPS (ud_fps (delay u))) /\
     forall u, u ∈ user_list self -> m <= default INIT_FPS (ud_fps (delay u)))) as Hm.
  { subst m. destruct (list_min _) as [x|] eqn:E.
    - right. apply list_min_spec in E as [Hi Hf]. simpl. split.
      + apply list_elem_of_fmap in Hi as (u & -> & Hu). by exists u.
      + intros u Hu. apply Hf. apply list_elem_of_fmap. by exists u.
    - left. by destruct (user_list self). }
  destruct (existsb _ _) eqn:L; [apply existsb_exists in L as (w & Hw%list_elem_of_In & Hd)|].
  all: destruct (Z.ltb_spec (elapsed_secs now (new_user_instant self)) 1) as [F|F].
  all: unfold INIT_FPS, MIN_FPS, MAX_FPS in *.
  all: match goal with |- context [zclamp ?x 1 ?h] =>
         destruct (zclamp_spec x 1 h ltac:(lia)) as (v & -> & Hv & Ev) end.
  all: eexists; split; [reflexivity|]; cbn -[Z.max Z.min highest_fps elapsed_secs]; revert Ev; zbool; intros Ev.
  all: split_and!; [lia|lia| | | |].
  all: try (intros u Hu; destruct Hm as [[Hn _]|[_ Hm]]; [rewrite Hn in Hu; set_solver|];
            pose proof (Hm u Hu); lia).
  all: try (intros; lia).
  all: try (intros (u & Hu & Hd'); exfalso; apply not_true_iff_false in L; apply L;
            apply existsb_exists; exists u; split; [by apply list_elem_of_In|done]).
  all: destruct (Z.le_gt_cases v 1) as [?|V1]; [left; lia|right].
  all: destruct (Z.eq_dec v (highest_fps self)) as [?|V2]; [by left|right].
  all: destruct Hm as [[Hn Hm]|[(u & Hu & Hm) _]].
  all: try (left; split; [lia|by exists w]).
  all: try (right; left; split; [lia|done]).
  all: try (right; right; left; split; [lia|done]).
  all: do 3 right; exists u; split; [done|lia].
Qed.

(** ** The adaptation of the frame rate *)

Lemma adapt_fps_goal mn nf f avg old q :
  1 <= mn <= 12 -> fps_ok f -> 10 <= avg ->
  let g := fst (adapt_fps mn nf f avg old q) in
  0 <= g < 2 ^ 32 /\
  (avg < 150 -> mn <= g < 1000 /\ f <= g) /\
  (150 <= avg < 200 -> mn <= g) /\
  (200 <= avg -> g <= mn) /\
  (300 <= avg -> g <= 150 * mn / avg).
Proof.
  intros Hm [Hf1 Hf2] Ha. unfold MIN_FPS, MAX_FPS in *.
  assert (0 <= devide_fps f avg < 2 ^ 32) as Hd.
  { apply f32_as_u32_range. }
  assert (forall s, 0 <= s <= 5 -> u32 (f + s) = f + s) as W.
  { intros s Hs. apply wrap_small. unfold in_u. lia. }
  assert (0 <= 150 * mn / avg) by (apply Z.div_pos; lia).
  assert (150 * mn / avg <= 150 * 12) by (apply Z.div_le_upper_bound; nia).
  unfold adapt_fps, DELAY_THRESHOLD_150MS in *.
  destruct (Z.ltb_spec avg 50); [|destruct (Z.ltb_spec avg 100);
    [|destruct (Z.ltb_spec avg 150); [|destruct (Z.ltb_spec avg 200);
    [|destruct (Z.ltb_spec avg 300); [|destruct (Z.ltb_spec avg 600)]]]]].
  - destruct (3 <=? _); [|destruct (f <? nf)]; cbn [fst]; rewrite W by lia; lia.
  - destruct (avg <? old); [destruct (f <? nf)|]; cbn [fst]; rewrite W by lia; lia.
  - cbn [fst]. lia.
  - cbn [fst]. lia.
  - cbn [fst]. lia.
  - cbn [fst]. split_and!; try lia. intros _. apply Z.div_le_upper_bound; nia.
  - cbn [fst]. split_and!; try lia. intros _.
    etransitivity; [apply Z.le_min_l|]. apply Z.div_le_upper_bound; nia.
Qed.

Lemma delay_report_goal cur highest mn nf d u u' :
  1 <= mn <= 12 -> fps_ok cur -> MIN_FPS <= highest <= MAX_FPS ->
  delay_report cur highest mn nf d u = Some u' ->
  let avg := avg_delay (delay u') in
  exists f, ud_fps (delay u') = Some f /\ MIN_FPS <= f <= highest /\
    (avg < 150 -> Z.min mn highest <= f /\ Z.min cur highest <= f) /\
    (150 <= avg < 200 -> Z.min mn highest <= f) /\
    (200 <= avg -> f <= mn) /\
    (300 <= avg -> f <= Z.max 1 (150 * mn / avg)).
Proof.
  intros Hm Hc Hh. unfold delay_report.
  set (ud := add_delay _ _). set (avg0 := Z.max (avg_delay ud) 10).
  pose proof (adapt_fps_goal mn nf cur avg0 (avg_delay (delay u))
    (quick_increase_fps_count ud) Hm Hc ltac:(lia)) as G. cbv zeta in G.
  destruct (adapt_fps _ _ _ _ _ _) as [f q]. cbn [fst] in G.
  unfold DELAY_THRESHOLD_150MS, MIN_FPS, MAX_FPS in *.
  destruct (Z.ltb_spec avg0 150) as [L|L].
  - assert (0 <= f + 1 < 2 ^ 32) by lia.
    assert (u32 (f + 1) = f + 1) as W by (apply wrap_small; done).
    destruct (3 <=? _); rewrite ?W;
      match goal with |- context [zclamp ?x 1 _] =>
        destruct (zclamp_spec x 1 highest ltac:(lia)) as (v & -> & Hv & Ev) end;
      cbn -[Z.max Z.min avg_delay Z.div]; intros [= <-]; exists v;
      change (avg_delay _) with (avg_delay ud); cbn [delay ud_fps];
      split_and!; try done; lia.
  - cbn [Z.leb]. change (3 <=? 0) with false. cbv iota.
    destruct (zclamp_spec f 1 highest ltac:(lia)) as (v & -> & Hv & Ev).
    cbn -[Z.max Z.min avg_delay Z.div]. intros [= <-]. exists v.
    change (avg_delay _) with (avg_delay ud). cbn [delay ud_fps].
    assert (avg0 = avg_delay ud) as E by lia. rewrite <- E in *.
    split_and!; try done; lia.
Qed.

(** A delay report of a connected user never panics, and steers that
    user's frame rate by the resulting average delay: below 150 ms the rate is
    not lowered and reaches the goal of the current quality; from 200 ms it is
    at most the goal; from 300 ms it is at most the rate whose product with the
    delay is the goal's product with 150 ms.  Between 150 and 200 ms it still
    stays at or above the goal, which the comment heading the source file
    denies.  (All rates are limited to the highest rate the users allow.) *)
Theorem network_delay_steers_fps is_linux now self id d u :
  qos_ok self -> users self !! id = Some u ->
  let goal := fst (fps_goals (quality_ratio (latest_quality self))) in
  let highest := highest_fps self in
  exists self' u' f, user_network_delay is_linux now self id d = Some self' /\
    users self' = <[id := u']> (users self) /\ ud_fps (delay u') = Some f /\
    MIN_FPS <= f <= highest /\
    let avg := avg_delay (delay u') in
    (avg < 150 -> Z.min goal highest <= f /\ Z.min (q_fps self) highest <= f) /\
    (150 <= avg < 200 -> Z.min goal highest <= f) /\
    (200 <= avg -> f <= goal) /\
    (300 <= avg -> f <= Z.max 1 (150 * goal / avg)).
Proof.
  intros H Hu goal highest. unfold user_network_delay, goal.
  assert (1 <= fst (fps_goals (quality_ratio (latest_quality self))) <= 12) as Hm.
  { unfold fps_goals. repeat case_match; simpl; lia. }
  destruct (fps_goals _) as [mn nf]. cbn [fst] in *. rewrite Hu.
  destruct (delay_report_ok (q_fps self) highest mn nf d u (highest_fps_range self)
    (qo_users _ H _ _ Hu)) as (u' & E & Ho & _).
  destruct (delay_report_goal _ _ _ _ _ _ _ Hm (qo_fps _ H) (highest_fps_range self) E)
    as (f & Hf & Hr & G).
  fold highest. rewrite E. cbn.
  assert (qos_ok (with_users self (<[id := u']> (users self)))) as Hs.
  { apply with_users_ok; [done|]. apply map_Forall_insert_2; [done|apply H]. }
  set (self1 := with_users _ _) in *.
  destruct (adjust_fps_total now self1) as (g & Eg & Hg).
  destruct (adjust_fps_ok now self1 Hs) as (s2 & Es2 & Hs2). rewrite Es2. cbn.
  rewrite Eg in Es2. injection Es2 as <-.
  destruct (_ && _).
  - destruct (adjust_ratio_total now false _ Hs2) as (s3 & E3 & _ & _ & Hu3 & _).
    exists s3, u', f. split; [exact E3|]. split; [exact Hu3|].
    split; [exact Hf|]. split; [exact Hr|exact G].
  - exists (with_fps self1 g), u', f. split; [done|]. split; [done|].
    split; [exact Hf|]. split; [exact Hr|exact G].
Qed.

(** A controller with one connected user. *)
Definition qos_one : VideoQoS := on_connection_open 0 "" (qos_default 0) 1.

Lemma qos_one_ok : qos_ok qos_one.
Proof.
  split; [done|done|]. simpl. apply map_Forall_insert_2; [apply user_ok_default|].
  apply map_Forall_empty.
Qed.

Lemma network_delay_steers_fps_witness :
  qos_ok qos_one /\
  exists self' u' f, user_network_delay false 0 qos_one 1 180 = Some self' /\
    users self' = <[1 := u']> (users qos_one) /\ ud_fps (delay u') = Some f /\
    MIN_FPS <= f <= highest_fps qos_one /\ (150 <= avg_delay (delay u') < 200 -> 10 <= f).
Proof.
  split; [exact qos_one_ok|].
  destruct (network_delay_steers_fps false 0 qos_one 1 180 user_default qos_one_ok eq_refl)
    as (s & u & f & H1 & H2 & H3 & H4 & _ & H5 & _).
  exists s, u, f. split; [exact H1|]. split; [exact H2|]. split; [exact H3|].
  split; [exact H4|]. exact H5.
Defined.

(** Adjusting the ratio never panics and changes neither the frame rate
    nor the users nor the displays.  Outside the variable-bitrate state, or
    without users, it does nothing; otherwise the new ratio lies between 0.1
    and the ratio of the latest quality a user chose, and the instant of the
    adjustment is recorded. *)
Theorem adjust_ratio_bounded now dyn self :
  qos_ok self ->
  exists self', adjust_ratio now dyn self = Some self' /\ ratio_ok (q_ratio self') /\
    q_fps self' = q_fps self /\ users self' = users self /\
    displays self' = displays self /\
    ((in_vbr_state self = false \/ users self = ∅) -> self' = self) /\
    (in_vbr_state self = true -> users self <> ∅ ->
     fleb (q_ratio self') (quality_ratio (latest_quality self)) = true /\
     adjust_ratio_instant self' = now).
Proof. exact (adjust_ratio_total now dyn self). Qed.

Lemma adjust_ratio_bounded_witness :
  qos_ok qos_one /\
  exists self', adjust_ratio 7 true qos_one = Some self' /\
    fleb (q_ratio self') BR_BALANCED = true /\ adjust_ratio_instant self' = 7.
Proof.
  split; [exact qos_one_ok|].
  destruct (adjust_ratio_bounded 7 true qos_one qos_one_ok)
    as (s & E & _ & _ & _ & _ & _ & H).
  exists s. split; [exact E|]. apply H; [reflexivity|].
  intros E'. discriminate (f_equal (fun m => m !! 1) E').
Defined.
