(* ===== verification/Compress.v ===== *)
(** * Compression of message payloads

    [libs/hbb_common/src/compress.rs].  The [zstd] library is an interface:
    compressing may fail, and decompressing what it produced gives back the
    input.  The repository's wrappers turn every failure into an empty
    vector. *)

From S2P Require Import Prelude.

Class Zstd : Type := {
  zcompress : bytes -> option bytes;
  zdecode_all : bytes -> option bytes;
  zstd_roundtrip : forall d c, zcompress d = Some c -> zdecode_all c = Some d;
}.

Section compress.
Context `{Zstd}.

(* src/libs/hbb_common/src/compress.rs:12-30 compress *)
Definition compress (data : bytes) : bytes :=
  match zcompress data with
  | Some res => res
  | None => []
  end.

(* src/libs/hbb_common/src/compress.rs:32-34 decompress *)
Definition decompress (data : bytes) : bytes := default [] (zdecode_all data).

(** The idiom of the senders: compress, and keep the result when it is
    shorter. *)
Definition shrink (data : bytes) : bytes * bool :=
  let compressed := compress data in
  if zlen compressed <? zlen data then (compressed, true) else (data, false).

Definition unshrink (p : bytes * bool) : bytes :=
  if snd p then decompress (fst p) else fst p.

Lemma unshrink_shrink data : zcompress data <> None -> unshrink (shrink data) = data.
Proof.
  intros Hc. unfold shrink, unshrink, compress, decompress.
  destruct (zcompress data) as [c|] eqn:E; [|done].
  destruct (zlen c <? zlen data); simpl; [|done]. by rewrite (zstd_roundtrip _ _ E).
Qed.

(** When the library fails, the empty vector is shorter than the data. *)
Lemma shrink_failure data :
  zcompress data = None -> data <> [] -> shrink data = ([], true).
Proof.
  intros Hc Hd. unfold shrink, compress. rewrite Hc, zlen_nil.
  destruct data as [|b d]; [done|]. rewrite zlen_cons. pose proof (zlen_nonneg d).
  by rewrite (proj2 (Z.ltb_lt _ _)) by lia.
Qed.

End compress.

(** Implementations of the interface: one that stores its input, one that
    always fails. *)
Definition zstd_store : Zstd.
Proof.
  refine {| zcompress := fun d => Some d; zdecode_all := fun c => Some c |}.
  intros d c [= ->]. reflexivity.
Defined.

Definition zstd_broken : Zstd.
Proof.
  refine {| zcompress := fun d => None; zdecode_all := fun c => Some c |}.
  intros d c [=].
Defined.
