(* ===== verification/OutputBuf.v ===== *)
(** * Scroll-back buffer of a terminal session

    [OutputBuffer] of [src/server/terminal_service.rs].  Lines are kept with
    their newline; [total_size] is meant to be the number of bytes kept.  The
    release build's [usize] arithmetic wraps, and the trimming loop of [append]
    is a [while] loop: it runs on fuel, and [append] answers [None] when the
    fuel does not suffice. *)

From S2P Require Import Prelude.

(* src/src/server/terminal_service.rs:20-20 MAX_OUTPUT_BUFFER_SIZE *)
Definition MAX_OUTPUT_BUFFER_SIZE : Z := 1024 * 1024.
(* src/src/server/terminal_service.rs:21-21 MAX_BUFFER_LINES *)
Definition MAX_BUFFER_LINES : Z := 10000.

(* src/src/server/terminal_service.rs:353-357 OutputBuffer *)
Record OutputBuffer : Type := mkBuffer {
  lines : list bytes;
  total_size : Z;
  last_line_incomplete : bool;
}.

(* src/src/server/terminal_service.rs:360-366 OutputBuffer::new *)
Definition buffer_new : OutputBuffer := mkBuffer [] 0 false.

Definition newline : Init.Byte.byte := Byte.x0a.

(** [data.iter().position(|&b| b == b'\n')]. *)
Fixpoint newline_pos (data : bytes) : option nat :=
  match data with
  | [] => None
  | b :: data => if decide (b = newline) then Some O else S <$> newline_pos data
  end.

(** [slice::split(|&b| b == b'\n')]: always at least one piece. *)
Fixpoint split_newline (data : bytes) : list bytes :=
  match data with
  | [] => [[]]
  | b :: data =>
      if decide (b = newline) then [] :: split_newline data
      else match split_newline data with
           | [] => [[b]]
           | l :: ls => (b :: l) :: ls
           end
  end.

(** The [for] loop over the pieces, [last] telling that the piece is the last
    one. *)
(* src/src/server/terminal_service.rs:398-413 OutputBuffer::append *)
Fixpoint push_lines (ends_with_newline : bool) (pieces : list bytes)
    (self : OutputBuffer) : OutputBuffer :=
  match pieces with
  | [] => self
  | line :: rest =>
      let last := bool_decide (rest = []) in
      let empty := bool_decide (line = []) in
      let inc := last && negb ends_with_newline && negb empty in
      let self := mkBuffer (lines self) (total_size self)
                    (inc || last_line_incomplete self) in
      let self :=
        if negb empty || negb last then
          let line_data :=
            if negb last || ends_with_newline then line ++ [newline] else line in
          mkBuffer (lines self ++ [line_data])
            (usize (total_size self + zlen line_data)) (last_line_incomplete self)
        else self in
      push_lines ends_with_newline rest self
  end.

(* src/src/server/terminal_service.rs:416-420 OutputBuffer::append *)
Fixpoint trim (fuel : nat) (self : OutputBuffer) : option OutputBuffer :=
  if (MAX_OUTPUT_BUFFER_SIZE <? total_size self) ||
     (MAX_BUFFER_LINES <? zlen (lines self))
  then
    match fuel with
    | O => None
    | S fuel =>
        trim fuel
          match lines self with
          | removed :: rest =>
              mkBuffer rest (usize (total_size self - zlen removed))
                (last_line_incomplete self)
          | [] => self
          end
    end
  else Some self.

(** Processing of the data that starts a line, then trimming. *)
Definition append_rest (fuel : nat) (self : OutputBuffer) (remaining : bytes)
    : option OutputBuffer :=
  let ends_with_newline := bool_decide (last remaining = Some newline) in
  trim fuel (push_lines ends_with_newline (split_newline remaining) self).

(* src/src/server/terminal_service.rs:368-421 OutputBuffer::append *)
Definition append (fuel : nat) (self : OutputBuffer) (data : bytes)
    : option OutputBuffer :=
  if bool_decide (data = []) then Some self
  else
    match last_line_incomplete self, last (lines self) with
    | true, Some last_line =>
        let front := removelast (lines self) in
        match newline_pos data with
        | Some pos =>
            append_rest fuel
              (mkBuffer (front ++ [last_line ++ take (S pos) data])
                 (total_size self) false)
              (drop (S pos) data)
        | None =>
            Some (mkBuffer (front ++ [last_line ++ data])
                    (usize (total_size self + zlen data)) true)
        end
    | _, _ => append_rest fuel self data
    end.

(** The loop of [get_recent] over the lines from the last one backwards. *)
Fixpoint recent_loop (max_bytes size : Z) (rev_lines : list bytes) (result : bytes)
    : bytes :=
  match rev_lines with
  | [] => result
  | line :: rest =>
      if max_bytes <? size + zlen line then result
      else recent_loop max_bytes (size + zlen line) rest (line ++ result)
  end.

(* src/src/server/terminal_service.rs:423-437 OutputBuffer::get_recent *)
Definition get_recent (self : OutputBuffer) (max_bytes : Z) : bytes :=
  recent_loop max_bytes 0 (rev (lines self)) [].

(** ** Contents *)

Definition content (self : OutputBuffer) : bytes := concat (lines self).

(** [total_size] is the number of bytes kept, and fits a [usize]. *)
Definition counted (self : OutputBuffer) : Prop :=
  total_size self = zlen (content self).

#[export] Instance counted_dec self : Decision (counted self).
Proof. unfold counted. apply _. Defined.

Lemma zlen_concat_cons (l : bytes) ls : zlen (concat (l :: ls)) = zlen l + zlen (concat ls).
Proof. simpl. apply zlen_app. Qed.

Lemma split_newline_cons b data :
  exists l ls, split_newline data = l :: ls /\
    split_newline (b :: data) =
      if decide (b = newline) then [] :: l :: ls else (b :: l) :: ls.
Proof.
  simpl. destruct (split_newline data) as [|l ls] eqn:E.
  - exfalso. revert E. destruct data; simpl; [done|]. case_decide; [done|].
    by destruct (split_newline data).
  - exists l, ls. by case_decide.
Qed.

Lemma split_newline_last data ps p :
  split_newline data = ps ++ [p] ->
  (last data = Some newline \/ data = []) <-> p = [].
Proof.
  revert ps p. induction data as [|b data IH]; intros ps p.
  - simpl. destruct ps as [|? [|]]; intros [=]; subst. tauto.
  - destruct (split_newline_cons b data) as (l & ls & E & ->). intros H.
    destruct ps as [|q ps].
    + destruct (decide (b = newline)); [done|]. simpl in H. injection H as <- ->.
      split; [|done]. intros [L|]; [|done].
      destruct data as [|c data]; [simpl in L; by simplify_eq|].
      specialize (IH [] l E). simpl in IH, L. destruct IH as [IH _].
      rewrite IH in E by by left.
      destruct (split_newline_cons c data) as (l' & ls' & _ & E'). rewrite E in E'.
      case_decide; [done|]. by injection E'.
    + simpl in H. assert (exists ps', split_newline data = ps' ++ [p]) as [ps' E'].
      { rewrite E. destruct (decide (b = newline)).
        - injection H as <- H. by exists ps.
        - injection H as <- H. exists (l :: ps). by rewrite H. }
      specialize (IH ps' p E'). rewrite <- IH.
      destruct data as [|c data]; [|simpl; naive_solver].
      simpl. split; [|intros [?|?]; [done|]].
      * intros [L|]; [by right|done].
      * destruct (decide (b = newline)) as [->|N]; [by left|].
        simpl in E. injection E as <- <-. destruct ps; done.
Qed.

Fixpoint join (pieces : list bytes) : bytes :=
  match pieces with
  | [] => []
  | [p] => p
  | p :: ps => p ++ newline :: join ps
  end.

Lemma join_split data : join (split_newline data) = data.
Proof.
  induction data as [|b data IH]; [done|].
  destruct (split_newline_cons b data) as (l & ls & E & ->). rewrite E in IH.
  rewrite <- IH. destruct (decide (b = newline)) as [->|_]; [done|]. by destruct ls.
Qed.

Lemma push_lines_cons2 ewn p q ps self :
  push_lines ewn (p :: q :: ps) self =
  push_lines ewn (q :: ps)
    (mkBuffer (lines self ++ [p ++ [newline]])
       (usize (total_size self + zlen (p ++ [newline]))) (last_line_incomplete self)).
Proof.
  cbn [push_lines]. rewrite (bool_decide_false (q :: ps = [])) by done.
  cbn [negb orb andb]. by rewrite orb_true_r.
Qed.

(** What [push_lines] appends, whatever was kept before. *)
Lemma push_lines_spec ewn ps self :
  ps <> [] -> (ewn = true -> last ps = Some []) ->
  0 <= total_size self -> total_size self + zlen (join ps) < 2 ^ 64 ->
  content (push_lines ewn ps self) = content self ++ join ps /\
  total_size (push_lines ewn ps self) = total_size self + zlen (join ps).
Proof.
  revert self. induction ps as [|p ps IH]; intros self Hne Hl H0 Hs; [done|].
  destruct ps as [|q ps].
  - cbn [push_lines]. rewrite (bool_decide_true (@nil bytes = [])) by done.
    cbn [join andb orb negb] in *.
    destruct (bool_decide_reflect (p = [])) as [->|Hp]; simpl.
    + unfold content. simpl. rewrite app_nil_r, zlen_nil. split; [done|lia].
    + assert (ewn = false) as -> by (destruct ewn; [specialize (Hl eq_refl); simpl in Hl; congruence|done]).
      unfold content. simpl. rewrite concat_app. simpl. rewrite app_nil_r. split; [done|].
      apply wrap_small. simpl in Hs. unfold in_u. pose proof (zlen_nonneg p). lia.
  - change (join (p :: q :: ps)) with (p ++ newline :: join (q :: ps)) in *.
    rewrite zlen_app, zlen_cons in *.
    pose proof (zlen_nonneg p). pose proof (zlen_nonneg (join (q :: ps))).
    rewrite push_lines_cons2.
    match goal with |- context [push_lines ewn (q :: ps) ?s] =>
      destruct (IH s) as [C T] end; [done..| | |].
    + cbn [total_size]. apply wrap_range. lia.
    + cbn [total_size]. rewrite zlen_app, zlen_cons, zlen_nil.
      rewrite wrap_small by (unfold in_u; lia). lia.
    + rewrite C, T. unfold content. cbn [lines total_size]. rewrite concat_app. simpl.
      rewrite zlen_app, zlen_cons, zlen_nil, app_nil_r, <- !app_assoc.
      split; [done|]. rewrite wrap_small by (unfold in_u; lia). lia.
Qed.

(** The buffer within its two limits. *)
Definition fits (self : OutputBuffer) : Prop :=
  total_size self <= MAX_OUTPUT_BUFFER_SIZE /\ zlen (lines self) <= MAX_BUFFER_LINES.

Lemma trim_empty fuel self :
  lines self = [] -> counted self ->
  exists self' n, trim fuel self = Some self' /\ counted self' /\ fits self' /\
    lines self' = drop n (lines self) /\
    last_line_incomplete self' = last_line_incomplete self.
Proof.
  intros L Hc. assert (total_size self = 0) as T.
  { unfold counted, content in Hc. by rewrite L in Hc. }
  exists self, O. unfold fits. rewrite L, T. split_and!; try done.
  destruct fuel; cbn [trim]; by rewrite T, L.
Qed.

Lemma trim_spec fuel self :
  counted self -> total_size self < 2 ^ 64 -> (length (lines self) <= fuel)%nat ->
  exists self' n, trim fuel self = Some self' /\ counted self' /\ fits self' /\
    lines self' = drop n (lines self) /\
    last_line_incomplete self' = last_line_incomplete self.
Proof.
  revert self. induction fuel as [|fuel IH]; intros self Hc H64 Hf.
  - assert (lines self = []) as L by (destruct (lines self); [done|simpl in Hf; lia]).
    by apply trim_empty.
  - destruct (decide (lines self = [])) as [L|Hne]; [by apply trim_empty|].
    destruct (lines self) as [|l ls] eqn:L; [done|]. simpl in Hf.
    assert (total_size self = zlen l + zlen (concat ls)) as T.
    { unfold counted, content in Hc. by rewrite L, zlen_concat_cons in Hc. }
    pose proof (zlen_nonneg l). pose proof (zlen_nonneg (concat ls)).
    set (s := mkBuffer ls (usize (total_size self - zlen l)) (last_line_incomplete self)).
    assert (total_size s = zlen (concat ls)) as Ts.
    { simpl. rewrite wrap_small by (unfold in_u; lia). lia. }
    destruct (IH s) as (s' & n & E & C & F & D & I); [done|lia|simpl; lia|].
    cbn [trim]. rewrite L. fold s.
    destruct (Z.ltb_spec MAX_OUTPUT_BUFFER_SIZE (total_size self));
      [by exists s', (S n)|].
    destruct (Z.ltb_spec MAX_BUFFER_LINES (zlen (l :: ls))); [by exists s', (S n)|].
    exists self, O. unfold fits. rewrite L. by split_and!.
Qed.

Lemma append_rest_spec self remaining fuel :
  counted self -> zlen (content self ++ remaining) < 2 ^ 64 ->
  (length (lines self) + length remaining + 1 <= fuel)%nat ->
  exists self' old, append_rest fuel self remaining = Some self' /\
    counted self' /\ fits self' /\
    content self ++ remaining = old ++ content self'.
Proof.
  intros Hc Hz Hf. unfold append_rest.
  set (ewn := bool_decide _). rewrite zlen_app in Hz.
  assert (split_newline remaining <> []) as Hne.
  { destruct remaining as [|b r]; [done|].
    destruct (split_newline_cons b r) as (l & ls & _ & ->). by case_decide. }
  destruct (push_lines_spec ewn (split_newline remaining) self) as [C T]; try done.
  - intros He. apply bool_decide_eq_true in He.
    destruct (exists_last Hne) as (ps & p & E). rewrite E.
    rewrite last_snoc. f_equal. by apply (split_newline_last _ _ _ E); left.
  - rewrite Hc. apply zlen_nonneg.
  - by rewrite join_split, Hc.
  - rewrite join_split in C, T.
    assert (counted (push_lines ewn (split_newline remaining) self)) as Hc'.
    { unfold counted. by rewrite T, C, Hc, zlen_app. }
    destruct (trim_spec fuel _ Hc') as (s' & n & E & Hc'' & F & L & _).
    + by rewrite T, Hc.
    + clear -Hf. assert (forall ps self, (length (lines (push_lines ewn ps self)) <=
        length (lines self) + length ps)%nat) as B.
      { clear. induction ps as [|p ps IH]; intros self; simpl; [lia|].
        etransitivity; [apply IH|]. destruct (_ || _); simpl; [rewrite length_app; simpl|]; lia. }
      assert (length (split_newline remaining) <= length remaining + 1)%nat as B'.
      { clear. induction remaining as [|b r IH]; simpl; [lia|].
        case_decide; [simpl; lia|]. destruct (split_newline r); simpl in *; lia. }
      specialize (B (split_newline remaining) self). lia.
    + exists s', (concat (take n (lines (push_lines ewn (split_newline remaining) self)))).
      split_and!; try done. rewrite <- C. unfold content. rewrite L.
      by rewrite <- concat_app, take_drop.
Qed.

(** The chunks a reader thread delivers, one after the other. *)
Fixpoint append_all (fuel : nat) (self : OutputBuffer) (chunks : list bytes)
    : option OutputBuffer :=
  match chunks with
  | [] => Some self
  | c :: cs => self ← append fuel self c; append_all fuel self cs
  end.

(** ** Correctness of [append] and [get_recent] *)

(** When no line is pending, or the pending line is not completed by the
    new data, appending to a buffer whose counter is exact returns (fuel one
    above the number of kept lines and new bytes is enough), keeps the counter
    exact and keeps a suffix of the old contents followed by the data.  In the
    first case the result is within the size and line limits; in the second,
    nothing is dropped and the limits are not applied. *)
Theorem append_keeps_suffix fuel self data :
  counted self -> zlen (content self ++ data) < 2 ^ 64 ->
  (last_line_incomplete self = true -> newline_pos data = None) ->
  (length (lines self) + length data + 1 <= fuel)%nat ->
  exists self' old, append fuel self data = Some self' /\ counted self' /\
    content self ++ data = old ++ content self' /\
    (last_line_incomplete self = false -> data <> [] -> fits self') /\
    (last_line_incomplete self = true -> lines self <> [] -> old = []).
Proof.
  intros Hc Hz Hn Hf. unfold append.
  case_bool_decide as Hd; [subst data; exists self, []; rewrite app_nil_r; by split_and!|].
  destruct (append_rest_spec self data fuel Hc Hz Hf) as (s' & old & E & C & F & D).
  destruct (last_line_incomplete self) eqn:I.
  - destruct (last (lines self)) as [l|] eqn:L.
    + rewrite Hn by done. eexists _, []. split; [reflexivity|].
      apply last_Some in L as [ls L]. rewrite zlen_app in Hz.
      pose proof (zlen_nonneg data). pose proof (zlen_nonneg (content self)).
      unfold counted, content in *. cbn [lines total_size]. rewrite L in *.
      rewrite removelast_last, concat_app in *. simpl in *. rewrite concat_app. simpl.
      rewrite !app_nil_r in *. rewrite <- app_assoc.
      split_and!; try done. rewrite Hc, wrap_small by (unfold in_u; lia).
      rewrite !zlen_app in *. lia.
    + apply last_None in L. exists s', old. by split_and!.
  - exists s', old. by split_and!.
Qed.

Lemma append_keeps_suffix_witness :
  counted (mkBuffer [[Byte.x61; newline]] 2 false) /\
  exists self' old, append 9 (mkBuffer [[Byte.x61; newline]] 2 false) [Byte.x62; newline; Byte.x63]
    = Some self' /\ counted self' /\ fits self' /\
    [Byte.x61; newline; Byte.x62; newline; Byte.x63] = old ++ content self'.
Proof.
  split; [reflexivity|].
  destruct (append_keeps_suffix 9 (mkBuffer [[Byte.x61; newline]] 2 false)
    [Byte.x62; newline; Byte.x63]) as (s & old & E & C & D & F & _);
    [reflexivity|reflexivity|discriminate|simpl; lia|].
  exists s, old. split; [exact E|]. split; [exact C|]. split; [by apply F|exact D].
Defined.

Lemma recent_loop_spec mx size rl res :
  exists n, (n <= length rl)%nat /\
    recent_loop mx size rl res = concat (rev (take n rl)) ++ res /\
    (zlen (concat (rev (take n rl))) + size <= mx \/ n = O) /\
    (forall l, rl !! n = Some l -> mx < size + zlen (concat (rev (take n rl))) + zlen l).
Proof.
  revert size res. induction rl as [|l rl IH]; intros size res; simpl.
  { exists O. split_and!; [lia|done|by right|done]. }
  destruct (Z.ltb_spec mx (size + zlen l)).
  - exists O. split_and!; [lia|done|by right|]. simpl. intros ? [= <-].
    unfold zlen at 1. simpl. lia.
  - destruct (IH (size + zlen l) (l ++ res)) as (n & Hn & E & B & M).
    exists (S n). simpl. rewrite concat_app. simpl. rewrite app_nil_r, zlen_app.
    split_and!; [lia| | |].
    + by rewrite E, app_assoc.
    + left. destruct B as [B| ->]; [lia|]. simpl. unfold zlen at 1. simpl. lia.
    + intros l' Hl'. specialize (M l' Hl'). lia.
Qed.

(** [get_recent] returns the concatenation of the longest run of whole
    lines at the end of the buffer that has at most [max_bytes] bytes: one line
    more would exceed the limit. *)
Theorem get_recent_longest_suffix self max_bytes :
  exists front back, lines self = front ++ back /\
    get_recent self max_bytes = concat back /\
    (back = [] \/ zlen (concat back) <= max_bytes) /\
    (forall l, last front = Some l -> max_bytes < zlen l + zlen (concat back)).
Proof.
  unfold get_recent.
  destruct (recent_loop_spec max_bytes 0 (rev (lines self)) []) as (n & Hn & E & B & M).
  exists (rev (drop n (rev (lines self)))), (rev (take n (rev (lines self)))).
  split_and!.
  - by rewrite <- rev_app_distr, take_drop, rev_involutive.
  - by rewrite E, app_nil_r.
  - destruct B as [B| ->]; [right; lia|by left].
  - intros l Hl. rewrite Z.add_comm. specialize (M l). apply M.
    destruct (drop n (rev (lines self))) as [|x d] eqn:D; [done|].
    simpl in Hl. rewrite last_snoc in Hl. injection Hl as ->.
    rewrite <- (Nat.add_0_r n), <- lookup_drop, D. done.
Qed.

(** ** Lines that arrive in two pieces

    The branch of [append] that completes a pending line extends the line but
    not [total_size]: the counter falls behind by the size of the completing
    piece. *)

(** Once the counter is below what trimming subtracts, it wraps, and the loop
    goes on popping an empty queue. *)
Lemma trim_diverges fuel ls t inc :
  MAX_OUTPUT_BUFFER_SIZE < t - zlen (concat ls) -> t < 2 ^ 64 ->
  trim fuel (mkBuffer ls t inc) = None.
Proof.
  revert ls t. induction fuel as [|fuel IH]; intros ls t H1 H2; cbn [trim lines total_size];
    pose proof (zlen_nonneg (concat ls)); rewrite (proj2 (Z.ltb_lt _ _)) by lia; [done|].
  cbn [orb]. destruct ls as [|l ls]; [by apply IH|].
  rewrite zlen_concat_cons in *. pose proof (zlen_nonneg l). pose proof (zlen_nonneg (concat ls)).
  unfold MAX_OUTPUT_BUFFER_SIZE in *.
  rewrite wrap_small by (unfold in_u; lia). apply IH; lia.
Qed.

Definition letter : Init.Byte.byte := Byte.x61.
Definition first_piece : bytes := [letter].
Definition second_piece : bytes := replicate 4095 letter ++ [newline].
Definition long_line : bytes := first_piece ++ second_piece.

(** A process that prints lines of 4097 bytes, which the reader thread, whose
    buffer has 4096 bytes, delivers in two reads each. *)
Definition two_reads : list bytes := [first_piece; second_piece].

Definition two_reads_n (n : nat) : list bytes := concat (replicate n two_reads).

Lemma zlen_long_line : zlen long_line = 4097.
Proof. reflexivity. Qed.

Lemma zlen_concat_replicate n : zlen (concat (replicate n long_line)) = 4097 * Z.of_nat n.
Proof.
  induction n as [|n IH]; [done|]. cbn [replicate]. rewrite zlen_concat_cons, IH, zlen_long_line.
  lia.
Qed.

Lemma zlen_replicate {A} n (x : A) : zlen (replicate n x) = Z.of_nat n.
Proof. unfold zlen. by rewrite length_replicate. Qed.

(** The second read completes the pending line; the counter keeps the one byte
    of the first. *)
Lemma append_second fuel n t :
  t <= MAX_OUTPUT_BUFFER_SIZE -> Z.of_nat n < MAX_BUFFER_LINES ->
  append fuel (mkBuffer (replicate n long_line ++ [first_piece]) t true) second_piece
  = Some (mkBuffer (replicate (S n) long_line) t false).
Proof.
  intros Ht Hn. unfold append. rewrite bool_decide_false by done.
  cbn [last_line_incomplete lines]. rewrite last_snoc, removelast_last.
  assert (newline_pos second_piece = Some 4095%nat) as -> by reflexivity.
  assert (take 4096 second_piece = second_piece) as -> by reflexivity.
  assert (drop 4096 second_piece = []) as -> by reflexivity.
  fold long_line. rewrite <- replicate_cons_app.
  unfold append_rest. cbn [split_newline push_lines total_size].
  rewrite !(bool_decide_true (@nil bytes = [])), !(bool_decide_true ([] = [])) by done.
  cbn [last bool_decide negb andb orb lines total_size last_line_incomplete].
  destruct fuel; cbn [trim total_size lines];
    rewrite (proj2 (Z.ltb_ge _ _)), (proj2 (Z.ltb_ge _ _)) by (rewrite ?zlen_cons, ?zlen_replicate; lia);
    reflexivity.
Qed.

Lemma append_first fuel n t :
  0 <= t < MAX_OUTPUT_BUFFER_SIZE ->
  append fuel (mkBuffer (replicate n long_line) t false) first_piece
  = trim fuel (mkBuffer (replicate n long_line ++ [first_piece]) (t + 1) true).
Proof.
  intros Ht. unfold append. rewrite bool_decide_false by done.
  cbn [last_line_incomplete lines]. unfold append_rest. f_equal.
  change (split_newline first_piece) with [first_piece].
  cbn [push_lines]. rewrite (bool_decide_true (@nil bytes = [])) by done.
  rewrite (bool_decide_false (first_piece = [])) by done.
  cbn [andb orb negb bool_decide lines total_size last_line_incomplete].
  rewrite wrap_small; [done|].
  unfold in_u, MAX_OUTPUT_BUFFER_SIZE in *. unfold zlen. simpl length. lia.
Qed.

(** One more line of two reads while the queue has room. *)
Lemma two_reads_room fuel n t cs :
  0 <= t < MAX_OUTPUT_BUFFER_SIZE -> Z.of_nat n < MAX_BUFFER_LINES ->
  append_all fuel (mkBuffer (replicate n long_line) t false) (two_reads ++ cs)
  = append_all fuel (mkBuffer (replicate (S n) long_line) (t + 1) false) cs.
Proof.
  intros Ht Hn. cbn [two_reads app append_all]. rewrite append_first by done.
  replace (trim fuel _)
    with (Some (mkBuffer (replicate n long_line ++ [first_piece]) (t + 1) true)).
  - cbn [mbind option_bind]. by rewrite append_second by lia.
  - destruct fuel; cbn [trim total_size lines];
      rewrite (proj2 (Z.ltb_ge _ _)), (proj2 (Z.ltb_ge _ _))
        by (rewrite ?zlen_app, ?zlen_replicate; unfold zlen; simpl; lia);
      reflexivity.
Qed.

Lemma two_reads_fill fuel m n t cs :
  0 <= t -> t + Z.of_nat m <= MAX_OUTPUT_BUFFER_SIZE -> Z.of_nat (n + m) <= MAX_BUFFER_LINES ->
  append_all fuel (mkBuffer (replicate n long_line) t false) (two_reads_n m ++ cs)
  = append_all fuel (mkBuffer (replicate (n + m) long_line) (t + Z.of_nat m) false) cs.
Proof.
  revert n t. induction m as [|m IH]; intros n t H1 H2 H3.
  - simpl. by rewrite Nat.add_0_r, Z.add_0_r.
  - unfold two_reads_n. cbn [replicate concat]. rewrite <- app_assoc.
    rewrite two_reads_room by lia. fold (two_reads_n m). rewrite IH by lia.
    f_equal. f_equal; [f_equal; lia|lia].
Qed.

(** A line more when the queue is full pops the oldest line, and subtracts from
    the counter 4097 bytes that were counted as one. *)
Lemma two_reads_full fuel n t cs :
  4097 <= t + 1 -> t < MAX_OUTPUT_BUFFER_SIZE -> Z.of_nat (S n) = MAX_BUFFER_LINES ->
  append_all fuel (mkBuffer (replicate (S n) long_line) t false) (two_reads ++ cs) <> None ->
  append_all fuel (mkBuffer (replicate (S n) long_line) t false) (two_reads ++ cs)
  = append_all fuel (mkBuffer (replicate (S n) long_line) (t + 1 - 4097) false) cs.
Proof.
  intros H1 H2 H3. cbn [two_reads app append_all]. rewrite append_first by lia.
  unfold MAX_OUTPUT_BUFFER_SIZE, MAX_BUFFER_LINES in *.
  assert (forall b, b || (MAX_BUFFER_LINES <? zlen (replicate (S n) long_line ++ [first_piece]))
    = true) as F.
  { intros b. rewrite zlen_app, zlen_replicate. apply orb_true_iff. right.
    apply Z.ltb_lt. unfold MAX_BUFFER_LINES, zlen. simpl length. lia. }
  destruct fuel as [|fuel]; cbn [trim total_size lines]; rewrite F; [done|].
  cbn [replicate app]. rewrite zlen_long_line.
  rewrite wrap_small by (unfold in_u; lia).
  replace (trim fuel _)
    with (Some (mkBuffer (replicate n long_line ++ [first_piece]) (t + 1 - 4097) true)).
  - intros _. cbn [mbind option_bind].
    rewrite append_second by (unfold MAX_OUTPUT_BUFFER_SIZE, MAX_BUFFER_LINES; lia).
    reflexivity.
  - destruct fuel; cbn [trim total_size lines last_line_incomplete];
      rewrite (proj2 (Z.ltb_ge _ _)), (proj2 (Z.ltb_ge _ _))
        by (rewrite ?zlen_app, ?zlen_replicate;
            unfold zlen, MAX_OUTPUT_BUFFER_SIZE, MAX_BUFFER_LINES; simpl length; lia);
      reflexivity.
Qed.

Lemma append_all_two_reads fuel self :
  append_all fuel self two_reads =
  self ← append fuel self first_piece; self ← append fuel self second_piece; Some self.
Proof. reflexivity. Qed.

Lemma trim_over_diverges fuel n t :
  MAX_BUFFER_LINES <= Z.of_nat (S n) ->
  MAX_OUTPUT_BUFFER_SIZE <
    usize (t - zlen long_line) - zlen (concat (replicate n long_line ++ [first_piece])) ->
  trim fuel (mkBuffer (replicate (S n) long_line ++ [first_piece]) t true) = None.
Proof.
  intros Hn Hd. destruct fuel as [|fuel]; cbn [trim total_size lines last_line_incomplete];
    (rewrite orb_comm, (proj2 (Z.ltb_lt _ _))
       by (rewrite zlen_app, zlen_replicate; unfold zlen; simpl length; lia)); [done|].
  cbn [orb replicate app]. apply trim_diverges; [done|apply wrap_range; lia].
Qed.

Lemma two_reads_hang fuel n :
  Z.of_nat (S n) = MAX_BUFFER_LINES ->
  append_all fuel buffer_new (two_reads_n (S n) ++ two_reads ++ two_reads ++ two_reads) = None.
Proof.
  intros Hn. change buffer_new with (mkBuffer (replicate 0 long_line) 0 false).
  assert (MAX_BUFFER_LINES = 10000) as M by done.
  assert (MAX_OUTPUT_BUFFER_SIZE = 1048576) as B by done.
  rewrite (two_reads_fill fuel (S n) 0 0) by lia. rewrite Nat.add_0_l, Hn, M.
  destruct (append_all _ _ _) eqn:E; [exfalso|done].
  rewrite (two_reads_full fuel n) in E by (try lia; congruence).
  rewrite (two_reads_full fuel n) in E by (try lia; congruence).
  rewrite append_all_two_reads, append_first, trim_over_diverges in E; try done.
  - lia.
  - rewrite concat_app, zlen_app, zlen_concat_replicate, zlen_long_line.
    change (zlen (concat [first_piece])) with 1.
    replace (usize _) with (2 ^ 64 - 2288) by reflexivity. lia.
Qed.

Lemma full_lines : exists n, Z.of_nat (S n) = MAX_BUFFER_LINES.
Proof.
  exists (Z.to_nat (MAX_BUFFER_LINES - 1)).
  assert (0 < MAX_BUFFER_LINES) by done. lia.
Qed.

(** C38. [append] need not return: there are chunks, none of which exceeds the 4096 bytes
    of the reader's buffer (10003 lines of 4097 bytes in two reads each, in the proof), after
    which [total_size] has fallen behind the bytes kept, wraps below zero
    when the oldest lines are dropped, and the trimming loop runs forever on
    an empty queue: no amount of fuel suffices. *)
Theorem append_hangs :
  exists chunks, Forall (fun c => zlen c <= 4096) chunks /\
    forall fuel, append_all fuel buffer_new chunks = None.
Proof.
  destruct full_lines as [n Hn].
  exists (two_reads_n (S n) ++ two_reads ++ two_reads ++ two_reads).
  split; [|intros fuel; by apply two_reads_hang].
  assert (Forall (fun c : bytes => zlen c <= 4096) two_reads) as F
    by (repeat constructor; by vm_compute).
  rewrite !Forall_app. split_and!; try done.
  by apply Forall_concat, Forall_replicate.
Qed.
