(* ===== verification/Terminal.v ===== *)
(** * Terminal sessions and their services

    [src/server/terminal_service.rs]: the registry of persistent services, the
    sessions of a service, the proxy that handles a connection's actions, and
    the reaper of child processes.

    [World] is the global state of the module ([TERMINAL_SERVICES],
    [CLEANUP_TASK], [TERMINAL_TASKS]).  A child process is an identifier; the
    answers of the operating system (opening a pseudo terminal, [kill],
    [try_wait], whether the reader thread ended) are arguments.  A channel is
    the list of messages waiting in it: [input_chan] holds what the writer
    thread has not taken yet, [output_rx] what the reader thread delivered.
    The locks are uncontended: operations run one after the other. *)

From stdpp Require Import pretty.
From S2P Require Import Prelude Compress OutputBuf.
#[local] Open Scope Z_scope.

(* src/src/server/terminal_service.rs:22-22 MAX_SERVICES *)
Definition MAX_SERVICES : Z := 100.
(* src/src/server/terminal_service.rs:23-23 SERVICE_IDLE_TIMEOUT *)
Definition SERVICE_IDLE_TIMEOUT : Z := 3600 * 1000000000.
(* src/src/server/terminal_service.rs:24-24 CHANNEL_BUFFER_SIZE *)
Definition CHANNEL_BUFFER_SIZE : Z := 100.
(* src/src/server/terminal_service.rs:25-25 COMPRESS_THRESHOLD *)
Definition COMPRESS_THRESHOLD : Z := 512.

(** [Instant::duration_since] saturates at zero. *)
Definition duration_since (now instant : Z) : Z := Z.max 0 (now - instant).

(** ** Sessions *)

(* src/src/server/terminal_service.rs:440-461 TerminalSession *)
Record TerminalSession : Type := mkSession {
  created_at : Z;
  last_activity : Z;
  pty_pair : option (Z * Z);
  child : option Z;
  input_tx : bool;
  input_chan : list bytes;
  output_rx : option (list bytes);
  exiting : bool;
  reader_thread : option bool;
  writer_thread : bool;
  output_buffer : OutputBuffer;
  title : string;
  pid : Z;
  rows : Z;
  cols : Z;
  closed_message_sent : bool;
  is_opened : bool;
}.

Definition set_last_activity (v : Z) (s : TerminalSession) : TerminalSession :=
  mkSession (created_at s) v (pty_pair s) (child s) (input_tx s) (input_chan s)
    (output_rx s) (exiting s) (reader_thread s) (writer_thread s) (output_buffer s)
    (title s) (pid s) (rows s) (cols s) (closed_message_sent s) (is_opened s).

Definition set_pty_pair (v : option (Z * Z)) (s : TerminalSession) : TerminalSession :=
  mkSession (created_at s) (last_activity s) v (child s) (input_tx s) (input_chan s)
    (output_rx s) (exiting s) (reader_thread s) (writer_thread s) (output_buffer s)
    (title s) (pid s) (rows s) (cols s) (closed_message_sent s) (is_opened s).

Definition set_child (v : option Z) (s : TerminalSession) : TerminalSession :=
  mkSession (created_at s) (last_activity s) (pty_pair s) v (input_tx s) (input_chan
    s) (output_rx s) (exiting s) (reader_thread s) (writer_thread s) (output_buffer
    s) (title s) (pid s) (rows s) (cols s) (closed_message_sent s) (is_opened s).

Definition set_input_chan (v : list bytes) (s : TerminalSession) : TerminalSession :=
  mkSession (created_at s) (last_activity s) (pty_pair s) (child s) (input_tx s) v
    (output_rx s) (exiting s) (reader_thread s) (writer_thread s) (output_buffer s)
    (title s) (pid s) (rows s) (cols s) (closed_message_sent s) (is_opened s).

Definition set_output_rx (v : option (list bytes)) (s : TerminalSession) : TerminalSession :=
  mkSession (created_at s) (last_activity s) (pty_pair s) (child s) (input_tx s)
    (input_chan s) v (exiting s) (reader_thread s) (writer_thread s) (output_buffer
    s) (title s) (pid s) (rows s) (cols s) (closed_message_sent s) (is_opened s).

Definition set_reader_thread (v : option bool) (s : TerminalSession) : TerminalSession :=
  mkSession (created_at s) (last_activity s) (pty_pair s) (child s) (input_tx s)
    (input_chan s) (output_rx s) (exiting s) v (writer_thread s) (output_buffer s)
    (title s) (pid s) (rows s) (cols s) (closed_message_sent s) (is_opened s).

Definition set_output_buffer (v : OutputBuffer) (s : TerminalSession) : TerminalSession :=
  mkSession (created_at s) (last_activity s) (pty_pair s) (child s) (input_tx s)
    (input_chan s) (output_rx s) (exiting s) (reader_thread s) (writer_thread s) v
    (title s) (pid s) (rows s) (cols s) (closed_message_sent s) (is_opened s).

Definition set_closed_message_sent (v : bool) (s : TerminalSession) : TerminalSession :=
  mkSession (created_at s) (last_activity s) (pty_pair s) (child s) (input_tx s)
    (input_chan s) (output_rx s) (exiting s) (reader_thread s) (writer_thread s)
    (output_buffer s) (title s) (pid s) (rows s) (cols s) v (is_opened s).

Definition set_is_opened (v : bool) (s : TerminalSession) : TerminalSession :=
  mkSession (created_at s) (last_activity s) (pty_pair s) (child s) (input_tx s)
    (input_chan s) (output_rx s) (exiting s) (reader_thread s) (writer_thread s)
    (output_buffer s) (title s) (pid s) (rows s) (cols s) (closed_message_sent s) v.

(* src/src/server/terminal_service.rs:464-483 TerminalSession::new *)
Definition session_new (now terminal_id rows cols : Z) : TerminalSession :=
  mkSession now now None None false [] None false None false buffer_new
    ("Terminal " +:+ pretty terminal_id)%string 0 rows cols false false.

(* src/src/server/terminal_service.rs:485-487 TerminalSession::update_activity *)
Definition session_update_activity (now : Z) (s : TerminalSession) : TerminalSession :=
  set_last_activity now s.

(** [b"\r\n"]. *)
Definition final_newline : bytes := [Byte.x0d; Byte.x0a].

(** [stop], which also runs when a session is dropped; beside the session, the
    children handed to the reaper.  [drops_pty] is [cfg(any(windows, linux))]. *)
(* src/src/server/terminal_service.rs:491-541 TerminalSession::stop *)
Definition session_stop (drops_pty : bool) (s : TerminalSession)
    : TerminalSession * list Z :=
  (mkSession (created_at s) (last_activity s)
     (if drops_pty then None else pty_pair s) None false
     (if input_tx s then input_chan s ++ [final_newline] else input_chan s)
     None true None false (output_buffer s) (title s) (pid s) (rows s) (cols s)
     (closed_message_sent s) false,
   option_list (child s)).

(** The reader thread: what it does with one result of [read]. *)
Inductive read_result : Type :=
| ReadEof
| ReadData (data : bytes)
| ReadWouldBlock
| ReadError.

(* src/src/server/terminal_service.rs:834-880 TerminalServiceProxy::handle_open::reader_thread *)
Definition reader_step (r : read_result) (s : TerminalSession) : TerminalSession :=
  let finish := set_reader_thread (Some true) s in
  match r with
  | ReadEof => finish
  | ReadData data =>
      if exiting s then finish
      else
        match output_rx s with
        | None => finish
        | Some q =>
            if zlen q <? CHANNEL_BUFFER_SIZE
            then set_output_rx (Some (q ++ [data])) s
            else s
        end
  | ReadWouldBlock => if exiting s then finish else s
  | ReadError => finish
  end.

(** ** Services *)

(* src/src/server/terminal_service.rs:552-560 PersistentTerminalService *)
Record Service : Type := mkService {
  svc_id : string;
  sessions : gmap Z TerminalSession;
  svc_created_at : Z;
  svc_last_activity : Z;
  is_persistent : bool;
  needs_session_sync : bool;
  is_specified_user : bool;
}.

(* src/src/server/terminal_service.rs:563-573 PersistentTerminalService::new *)
Definition service_new (now : Z) (id : string) (persistent specified : bool) : Service :=
  mkService id ∅ now now persistent false specified.

(* src/src/server/terminal_service.rs:575-577 PersistentTerminalService::update_activity *)
Definition service_update_activity (now : Z) (svc : Service) : Service :=
  mkService (svc_id svc) (sessions svc) (svc_created_at svc) now (is_persistent svc)
    (needs_session_sync svc) (is_specified_user svc).

Definition with_sessions (ss : gmap Z TerminalSession) (svc : Service) : Service :=
  mkService (svc_id svc) ss (svc_created_at svc) (svc_last_activity svc)
    (is_persistent svc) (needs_session_sync svc) (is_specified_user svc).

Definition with_sync (b : bool) (svc : Service) : Service :=
  mkService (svc_id svc) (sessions svc) (svc_created_at svc) (svc_last_activity svc)
    (is_persistent svc) b (is_specified_user svc).

(* src/src/server/terminal_service.rs:580-588 PersistentTerminalService::list_terminals *)
Definition list_terminals (svc : Service) : list (Z * string * Z * Z) :=
  (fun p => (fst p, title (snd p), pid (snd p), created_at (snd p)))
    <$> map_to_list (sessions svc).

(* src/src/server/terminal_service.rs:591-596 PersistentTerminalService::get_terminal_buffer *)
Definition get_terminal_buffer (svc : Service) (id max_bytes : Z) : option bytes :=
  (fun s => get_recent (output_buffer s) max_bytes) <$> sessions svc !! id.

(* src/src/server/terminal_service.rs:599-608 PersistentTerminalService::get_terminal_info *)
Definition get_terminal_info (svc : Service) (id : Z) : option (Z * Z * bytes) :=
  (fun s => (rows s, cols s, get_recent (output_buffer s) 4096)) <$> sessions svc !! id.

(* src/src/server/terminal_service.rs:611-613 PersistentTerminalService::has_active_terminals *)
Definition has_active_terminals (svc : Service) : bool :=
  negb (bool_decide (sessions svc = ∅)).

(* src/src/server/terminal_service.rs:615-622 PersistentTerminalService::reset_status *)
Definition reset_status (persistent : bool) (svc : Service) : Service :=
  mkService (svc_id svc) (set_is_opened false <$> sessions svc) (svc_created_at svc)
    (svc_last_activity svc) persistent true (is_specified_user svc).

(** ** The global state *)

(* src/src/server/terminal_service.rs:27-37 TERMINAL_SERVICES *)
Record World : Type := mkWorld {
  services : gmap string Service;
  cleanup_task : bool;
  reaper : list Z;
}.

Definition world_init : World := mkWorld ∅ false [].

Definition with_services (m : gmap string Service) (w : World) : World :=
  mkWorld m (cleanup_task w) (reaper w).

(* src/src/server/terminal_service.rs:213-217 add_to_reaper *)
Definition add_to_reaper (c : Z) (w : World) : World :=
  mkWorld (services w) (cleanup_task w) (reaper w ++ [c]).

(* src/src/server/terminal_service.rs:251-272 ensure_cleanup_task *)
Definition ensure_cleanup_task (w : World) : World :=
  mkWorld (services w) true (reaper w).

(* src/src/server/terminal_service.rs:176-179 get_service *)
Definition get_service (id : string) (w : World) : option Service := services w !! id.

(* src/src/server/terminal_service.rs:101-103 is_service_specified_user *)
Definition is_service_specified_user (id : string) (w : World) : option bool :=
  is_specified_user <$> get_service id w.

Definition max_services_message : string :=
  "Maximum number of terminal services (100) reached".

(* src/src/server/terminal_service.rs:106-143 get_or_create_service *)
Definition get_or_create_service (now : Z) (id : string) (persistent specified : bool)
    (w : World) : result string Service * World :=
  match services w !! id with
  | None =>
      if MAX_SERVICES <=? Z.of_nat (size (services w))
      then (Err max_services_message, w)
      else
        let svc := reset_status persistent (service_new now id persistent specified) in
        (Ok svc, ensure_cleanup_task (with_services (<[id := svc]> (services w)) w))
  | Some svc =>
      let svc := reset_status persistent svc in
      (Ok svc, ensure_cleanup_task (with_services (<[id := svc]> (services w)) w))
  end.

(** The children handed to the reaper when the sessions are stopped in turn. *)
Definition stop_all (drops_pty : bool) (ss : gmap Z TerminalSession) : list Z :=
  concat ((fun p => snd (session_stop drops_pty (snd p))) <$> map_to_list ss).

(* src/src/server/terminal_service.rs:146-157 remove_service *)
Definition remove_service (drops_pty : bool) (id : string) (w : World) : World :=
  match services w !! id with
  | Some svc =>
      mkWorld (delete id (services w)) (cleanup_task w)
        (reaper w ++ stop_all drops_pty (sessions svc))
  | None => w
  end.

(* src/src/server/terminal_service.rs:40-46 ServiceMetadata *)
Record ServiceMetadata : Type := mkMetadata {
  sm_service_id : string;
  sm_created_at : Z;
  sm_terminal_count : Z;
  sm_is_persistent : bool;
}.

(* src/src/server/terminal_service.rs:160-173 list_services *)
Definition list_services (w : World) : list ServiceMetadata :=
  (fun p => mkMetadata (fst p) (svc_created_at (snd p))
              (Z.of_nat (size (sessions (snd p)))) (is_persistent (snd p)))
    <$> map_to_list (services w).

(** The two conditions under which the cleanup removes a service. *)
(* src/src/server/terminal_service.rs:190-202 cleanup_inactive_services *)
Definition is_inactive (now : Z) (svc : Service) : bool :=
  (negb (is_persistent svc) &&
     (SERVICE_IDLE_TIMEOUT <? duration_since now (svc_last_activity svc)))
  || (is_persistent svc && bool_decide (sessions svc = ∅) &&
     (SERVICE_IDLE_TIMEOUT * 2 <? duration_since now (svc_last_activity svc))).

(* src/src/server/terminal_service.rs:182-210 cleanup_inactive_services *)
Definition cleanup_inactive_services (drops_pty : bool) (now : Z) (w : World) : World :=
  let to_remove :=
    (filter (fun p => is_inactive now (snd p) = true) (map_to_list (services w))).*1 in
  foldl (fun w id => remove_service drops_pty id w) w to_remove.

(** The [while] loop of the reaper, [tasks.remove(i)] without an increment. *)
(* src/src/server/terminal_service.rs:226-247 check_zombie_terminals *)
Fixpoint reap_loop (try_wait : Z -> result unit (option Z)) (fuel : nat)
    (tasks : list Z) (i : nat) : option (list Z) :=
  match tasks !! i with
  | None => Some tasks
  | Some c =>
      match fuel with
      | O => None
      | S fuel =>
          match try_wait c with
          | Ok (Some _) => reap_loop try_wait fuel (delete i tasks) i
          | Ok None => reap_loop try_wait fuel tasks (S i)
          | Err _ => reap_loop try_wait fuel (delete i tasks) i
          end
      end
  end.

(* src/src/server/terminal_service.rs:220-248 check_zombie_terminals *)
Definition check_zombie_terminals (try_wait : Z -> result unit (option Z)) (w : World)
    : option World :=
  tasks ← reap_loop try_wait (length (reaper w)) (reaper w) 0;
  Some (mkWorld (services w) (cleanup_task w) tasks).

(* src/src/server/terminal_service.rs:275-281 get_terminal_session_count *)
Definition get_terminal_session_count (include_zombie_tasks : bool) (w : World) : Z :=
  Z.of_nat (size (services w)) +
  (if include_zombie_tasks then zlen (reaper w) else 0).

(* src/src/server/terminal_service.rs:632-639 set_persistent *)
Definition set_persistent (id : string) (persistent : bool) (w : World)
    : result string unit * World :=
  match get_service id w with
  | Some svc =>
      (Ok tt, with_services
        (<[id := mkService (svc_id svc) (sessions svc) (svc_created_at svc)
                   (svc_last_activity svc) persistent (needs_session_sync svc)
                   (is_specified_user svc)]> (services w)) w)
  | None => (Err ("Service " +:+ id +:+ " not found")%string, w)
  end.

(** ** Messages *)

Inductive TerminalAction : Type :=
| ActOpen (terminal_id rows cols : Z)
| ActData (terminal_id : Z) (data : bytes)
| ActResize (terminal_id rows cols : Z)
| ActClose (terminal_id : Z)
| ActNone.

Record TerminalOpened : Type := mkOpened {
  o_terminal_id : Z;
  o_message : string;
  o_pid : Z;
  o_service_id : string;
  o_persistent_sessions : list Z;
}.

Inductive TerminalResponse : Type :=
| RespOpened (o : TerminalOpened)
| RespData (terminal_id : Z) (data : bytes) (compressed : bool)
| RespClosed (terminal_id exit_code : Z)
| RespError (message : string).

(** What the system answers to [handle_open]: whether the pseudo terminal
    opens, the child with its process id, and whether the writer and the
    reader can be taken. *)
Record pty_answer : Type := mkPty {
  pa_openpty : bool;
  pa_spawn : option (Z * option Z);
  pa_writer : bool;
  pa_reader : bool;
}.

(** What it answers to the other handlers. *)
Record os_answer : Type := mkOs {
  os_pty : pty_answer;
  os_resize : bool;
  os_kill : Z -> bool;
  os_try_wait : Z -> result unit (option Z);
}.

(** ** The proxy *)

(* src/src/server/terminal_service.rs:625-630 TerminalServiceProxy *)
Record Proxy : Type := mkProxy {
  p_service_id : string;
  p_is_persistent : bool;
}.

(* src/src/server/terminal_service.rs:642-660 TerminalServiceProxy::new *)
Definition proxy_new (id : string) (persistent : option bool) (w : World) : Proxy :=
  mkProxy id
    (default (match get_service id w with
              | Some svc => is_persistent svc
              | None => false
              end) persistent).

Definition reopened_message : string := "Reconnected to existing terminal".
Definition opened_message : string := "Terminal opened".

(* src/src/server/terminal_service.rs:707-916 TerminalServiceProxy::handle_open *)
Definition handle_open (now : Z) (self : Proxy) (svc : Service)
    (terminal_id rows cols : Z) (pty : pty_answer)
    : result string (option TerminalResponse) * Service :=
  match sessions svc !! terminal_id with
  | Some session =>
      let svc' := with_sessions (<[terminal_id := set_is_opened true session]> (sessions svc)) svc in
      let others :=
        if needs_session_sync svc && (1 <? Z.of_nat (size (sessions svc)))
        then filter (fun id => id <> terminal_id) (map_to_list (sessions svc)).*1
        else [] in
      (Ok (Some (RespOpened
         (mkOpened terminal_id reopened_message (pid session) (p_service_id self) others))),
       with_sync false svc')
  | None =>
      let session := session_new now terminal_id (u16 rows) (u16 cols) in
      if negb (pa_openpty pty) then (Err "Failed to open PTY"%string, svc)
      else
        match pa_spawn pty with
        | None => (Err "Failed to spawn command"%string, svc)
        | Some (c, process_id) =>
            if negb (pa_writer pty) then (Err "Failed to get writer"%string, svc)
            else if negb (pa_reader pty) then (Err "Failed to get reader"%string, svc)
            else
              let pid := u32 (default 0 process_id) in
              let session :=
                mkSession (created_at session) (last_activity session)
                  (Some (u16 rows, u16 cols)) (Some c) true [] (Some []) (exiting session)
                  (Some false) true (output_buffer session) (title session) pid
                  (u16 rows) (u16 cols) (closed_message_sent session) true in
              let others :=
                if needs_session_sync svc then (map_to_list (sessions svc)).*1 else [] in
              (Ok (Some (RespOpened
                 (mkOpened terminal_id opened_message pid (svc_id svc) others))),
               with_sync false
                 (with_sessions (<[terminal_id := session]> (sessions svc)) svc))
        end
  end.

(* src/src/server/terminal_service.rs:918-939 TerminalServiceProxy::handle_resize *)
Definition handle_resize (now : Z) (session : TerminalSession) (rows cols : Z)
    (resize_ok : bool) : result string (option TerminalResponse) * TerminalSession :=
  let s := session_update_activity now session in
  let s := mkSession (created_at s) (last_activity s) (pty_pair s) (child s) (input_tx s)
             (input_chan s) (output_rx s) (exiting s) (reader_thread s) (writer_thread s)
             (output_buffer s) (title s) (pid s) (u16 rows) (u16 cols)
             (closed_message_sent s) (is_opened s) in
  match pty_pair s with
  | Some _ =>
      if resize_ok then (Ok None, set_pty_pair (Some (u16 rows, u16 cols)) s)
      else (Err "resize"%string, s)
  | None => (Ok None, s)
  end.

(** The channel has room: the program waits until it has. *)
(* src/src/server/terminal_service.rs:941-962 TerminalServiceProxy::handle_data *)
Definition handle_data (now : Z) (session : TerminalSession) (data : bytes)
    : TerminalSession :=
  let s := session_update_activity now session in
  if input_tx s then set_input_chan (input_chan s ++ [data]) s else s.

(** Beside the answer, the service and the children handed to the reaper; the
    removed session is dropped, which stops it. *)
(* src/src/server/terminal_service.rs:964-990 TerminalServiceProxy::handle_close *)
Definition handle_close (svc : Service) (terminal_id : Z) (kill : Z -> bool)
    : result string (option TerminalResponse) * Service * list Z :=
  match sessions svc !! terminal_id with
  | Some session =>
      let svc := with_sessions (delete terminal_id (sessions svc)) svc in
      match child session with
      | Some c =>
          if kill c then (Ok (Some (RespClosed terminal_id (-1))), svc, [c])
          else (Err "kill"%string, svc, [])
      | None => (Ok (Some (RespClosed terminal_id 0)), svc, [])
      end
  | None => (Ok None, svc, [])
  end.

(** The handlers of a session looked up by its id. *)
Definition on_session (svc : Service) (id : Z)
    (f : TerminalSession -> result string (option TerminalResponse) * TerminalSession)
    : result string (option TerminalResponse) * Service :=
  match sessions svc !! id with
  | Some s =>
      let '(r, s) := f s in (r, with_sessions (<[id := s]> (sessions svc)) svc)
  | None => (Ok None, svc)
  end.

(* src/src/server/terminal_service.rs:666-705 TerminalServiceProxy::handle_action *)
Definition handle_action (now : Z) (os : os_answer) (self : Proxy)
    (action : TerminalAction) (w : World)
    : result string (option TerminalResponse) * World :=
  match get_service (p_service_id self) w with
  | None =>
      (Ok (Some (RespError
         ("Terminal service " +:+ p_service_id self +:+ " not found")%string)), w)
  | Some svc =>
      let svc := service_update_activity now svc in
      let '(r, svc, dead) :=
        match action with
        | ActOpen id rows cols =>
            (handle_open now self svc id rows cols (os_pty os), [])
        | ActResize id rows cols =>
            (on_session svc id (fun s => handle_resize now s rows cols (os_resize os)), [])
        | ActData id data =>
            (on_session svc id (fun s => (Ok None, handle_data now s data)), [])
        | ActClose id => handle_close svc id (os_kill os)
        | ActNone => (Ok None, svc, [])
        end in
      (r, mkWorld (<[p_service_id self := svc]> (services w)) (cleanup_task w)
            (reaper w ++ dead))
  end.

(** ** Reading the outputs *)

Section outputs.
Context `{Zstd}.

(* src/src/server/terminal_service.rs:1055-1076 TerminalServiceProxy::read_outputs *)
Definition data_response (terminal_id : Z) (data : bytes) : TerminalResponse :=
  if COMPRESS_THRESHOLD <? zlen data then
    let '(d, c) := shrink data in RespData terminal_id d c
  else RespData terminal_id data false.

(** [None] when trimming the scroll-back buffer does not end. *)
Definition append_chunk (buf : OutputBuffer) (data : bytes) : option OutputBuffer :=
  append (length (lines buf) + length data + 1) buf data.

Fixpoint append_chunks (buf : OutputBuffer) (data : list bytes) : option OutputBuffer :=
  match data with
  | [] => Some buf
  | d :: ds => buf ← append_chunk buf d; append_chunks buf ds
  end.

(** One session: its new state, its responses, and whether it just closed. *)
(* src/src/server/terminal_service.rs:1015-1081 TerminalServiceProxy::read_outputs *)
Definition poll_session (now terminal_id : Z) (s : TerminalSession)
    : option (TerminalSession * list TerminalResponse * bool) :=
  let closed := negb (closed_message_sent s) &&
                match reader_thread s with Some finished => finished | None => false end in
  let s := if closed then set_closed_message_sent true s else s in
  if negb (is_opened s) then Some (s, [], closed)
  else
    let received := default [] (output_rx s) in
    let s := match output_rx s with Some _ => set_output_rx (Some []) s | None => s end in
    buf ← append_chunks (output_buffer s) received;
    let s := set_output_buffer buf s in
    let s := if bool_decide (received = []) then s else session_update_activity now s in
    Some (s, data_response terminal_id <$> received, closed).

(** The loop over the sessions. *)
Fixpoint poll_all (now : Z) (ss : list (Z * TerminalSession))
    : option (list (Z * TerminalSession) * list TerminalResponse * list Z) :=
  match ss with
  | [] => Some ([], [], [])
  | (id, s) :: ss =>
      '(s, r, closed) ← poll_session now id s;
      '(ss, rs, ids) ← poll_all now ss;
      Some ((id, s) :: ss, r ++ rs, (if closed : bool then [id] else []) ++ ids)
  end.

(** The exit code of a child that is about to be handed to the reaper. *)
Definition exit_code (try_wait : Z -> result unit (option Z)) (c : Z) : Z :=
  match try_wait c with Ok (Some status) => i32 status | _ => 0 end.

(** The loop over the closed terminals; [p] is the proxy's persistence.  A
    session of a service that is not persistent is removed, and dropped. *)
(* src/src/server/terminal_service.rs:1087-1123 TerminalServiceProxy::read_outputs *)
Definition close_terminal (try_wait : Z -> result unit (option Z)) (p : bool)
    (acc : gmap Z TerminalSession * list TerminalResponse * list Z) (id : Z)
    : gmap Z TerminalSession * list TerminalResponse * list Z :=
  let '(ss, rs, dead) := acc in
  let '(code, gone) :=
    match ss !! id with
    | Some s =>
        match child s with
        | Some c => (exit_code try_wait c, [c])
        | None => (0, [])
        end
    | None => (0, [])
    end in
  let ss := if p then alter (set_child None) id ss else delete id ss in
  (ss, rs ++ [RespClosed id code], dead ++ gone).

(* src/src/server/terminal_service.rs:992-1127 TerminalServiceProxy::read_outputs *)
Definition read_outputs (now : Z) (try_wait : Z -> result unit (option Z))
    (self : Proxy) (w : World) : option (list TerminalResponse * World) :=
  match get_service (p_service_id self) w with
  | None => Some ([], w)
  | Some svc =>
      '(ss, rs, ids) ← poll_all now (map_to_list (sessions svc));
      let '(ss, rs', dead) :=
        foldl (close_terminal try_wait (p_is_persistent self))
          (list_to_map ss, [], []) ids in
      Some (rs ++ rs',
            mkWorld (<[p_service_id self := with_sessions ss svc]> (services w))
              (cleanup_task w) (reaper w ++ dead))
  end.

(** The service loop: what one round sends, and what runs when it exits. *)
(* src/src/server/terminal_service.rs:330-336 run *)
Definition run_round (now : Z) (try_wait : Z -> result unit (option Z)) (id : string)
    (w : World) : option (list TerminalResponse * World) :=
  read_outputs now try_wait (proxy_new id None w) w.

(* src/src/server/terminal_service.rs:341-347 run *)
Definition run_exit (drops_pty : bool) (id : string) (w : World) : World :=
  match get_service id w with
  | Some svc => if negb (is_persistent svc) then remove_service drops_pty id w else w
  | None => w
  end.

(* src/src/server/terminal_service.rs:1130-1135 TerminalServiceProxy::on_disconnect *)
Definition on_disconnect (drops_pty : bool) (self : Proxy) (w : World) : World :=
  if negb (p_is_persistent self) then remove_service drops_pty (p_service_id self) w
  else w.

End outputs.

(** ** Steps of the module

    The exported operations, and the reader thread of a stored session. *)

Inductive term_event : Type :=
| EvCreate (now : Z) (id : string) (persistent specified : bool)
| EvAction (now : Z) (os : os_answer) (self : Proxy) (action : TerminalAction)
| EvRead (now : Z) (try_wait : Z -> result unit (option Z)) (self : Proxy)
| EvReap (try_wait : Z -> result unit (option Z))
| EvCleanup (now : Z)
| EvDisconnect (self : Proxy)
| EvExit (id : string)
| EvSetPersistent (id : string) (persistent : bool)
| EvReader (id : string) (terminal_id : Z) (r : read_result).

Section steps.
Context `{Zstd} (drops_pty : bool).

(** [None] only when [append] does not return. *)
Definition term_step (w : World) (ev : term_event) : option World :=
  match ev with
  | EvCreate now id p sp => Some (snd (get_or_create_service now id p sp w))
  | EvAction now os self a => Some (snd (handle_action now os self a w))
  | EvRead now tw self => snd <$> read_outputs now tw self w
  | EvReap tw => check_zombie_terminals tw w
  | EvCleanup now => Some (cleanup_inactive_services drops_pty now w)
  | EvDisconnect self => Some (on_disconnect drops_pty self w)
  | EvExit id => Some (run_exit drops_pty id w)
  | EvSetPersistent id p => Some (snd (set_persistent id p w))
  | EvReader id tid r =>
      Some (with_services
        (alter (fun svc => with_sessions (alter (reader_step r) tid (sessions svc)) svc)
           id (services w)) w)
  end.

Inductive reachable : World -> Prop :=
| reach_init : reachable world_init
| reach_step w ev w' : reachable w -> term_step w ev = Some w' -> reachable w'.

End steps.

(** A stored session was never stopped: its channels and threads exist, the
    output channel holds no more than its capacity, and it has a child unless
    the client was told that it closed. *)
Record session_wf (s : TerminalSession) : Prop := {
  sw_input : input_tx s = true;
  sw_exiting : exiting s = false;
  sw_writer : writer_thread s = true;
  sw_reader : reader_thread s <> None;
  sw_output : exists q, output_rx s = Some q /\ zlen q <= CHANNEL_BUFFER_SIZE;
  sw_child : child s = None -> closed_message_sent s = true;
}.

Definition service_wf (id : string) (svc : Service) : Prop :=
  svc_id svc = id /\ map_Forall (fun _ => session_wf) (sessions svc).

Definition world_wf (w : World) : Prop :=
  Z.of_nat (size (services w)) <= MAX_SERVICES /\ map_Forall service_wf (services w).

(** A child is some session's, in a map of sessions, or in the world. *)
Definition child_of (c : Z) (ss : gmap Z TerminalSession) : Prop :=
  exists tid s, ss !! tid = Some s /\ child s = Some c.

Definition owned (c : Z) (w : World) : Prop :=
  c ∈ reaper w \/ exists id svc, services w !! id = Some svc /\ child_of c (sessions svc).

(** ** The reaper *)

Lemma reap_loop_spec tw fuel tasks i :
  (i <= length tasks)%nat -> (length tasks - i <= fuel)%nat ->
  reap_loop tw fuel tasks i =
    Some (take i tasks ++ filter (fun c => tw c = Ok None) (drop i tasks)).
Proof.
  revert tasks i. induction fuel as [|fuel IH]; intros tasks i Hi Hf.
  - assert (i = length tasks) as -> by lia. simpl.
    rewrite (proj2 (lookup_ge_None tasks _)) by lia.
    by rewrite drop_all, take_ge, app_nil_r by lia.
  - simpl. destruct (tasks !! i) as [c|] eqn:E.
    + pose proof (lookup_lt_Some _ _ _ E) as L.
      rewrite (drop_S _ _ _ E), filter_cons.
      assert (length (delete i tasks) = length tasks - 1)%nat as Ld by (by apply length_delete).
      assert (take i (delete i tasks) = take i tasks /\
              drop i (delete i tasks) = drop (S i) tasks) as [D1 D2].
      { rewrite delete_take_drop.
        by rewrite take_app_length', drop_app_length' by (rewrite length_take; lia). }
      destruct (tw c) as [[st|]|e] eqn:T.
      * rewrite IH by lia. by rewrite D1, D2, decide_False by done.
      * rewrite IH by lia. rewrite decide_True by done.
        by rewrite (take_S_r _ _ _ E), <- app_assoc.
      * rewrite IH by lia. by rewrite D1, D2, decide_False by done.
    + apply lookup_ge_None in E. rewrite drop_ge by lia.
      by rewrite take_ge, app_nil_r by lia.
Qed.

Lemma check_zombie_spec tw w :
  check_zombie_terminals tw w =
    Some (mkWorld (services w) (cleanup_task w)
            (filter (fun c => tw c = Ok None) (reaper w))).
Proof.
  unfold check_zombie_terminals. by rewrite reap_loop_spec by lia.
Qed.

(** ** Sessions under the operations *)

Lemma child_of_fmap c ss f :
  (forall s, child (f s) = child s) -> child_of c (f <$> ss) <-> child_of c ss.
Proof.
  intros Hf. split; intros (tid & s & E & Hc).
  - rewrite lookup_fmap in E. destruct (ss !! tid) as [s'|] eqn:E'; simplify_eq/=.
    exists tid, s'. by rewrite <- Hf.
  - exists tid, (f s). by rewrite lookup_fmap, E, Hf.
Qed.

Lemma child_of_insert c ss tid s :
  child_of c ss ->
  (forall s', ss !! tid = Some s' -> child s' = Some c -> child s = Some c) ->
  child_of c (<[tid := s]> ss).
Proof.
  intros (t & s' & E & Hc) Hs. destruct (decide (t = tid)) as [->|N].
  - exists tid, s. rewrite lookup_insert_eq. split; [done|]. by apply (Hs s').
  - exists t, s'. by rewrite lookup_insert_ne.
Qed.

Lemma child_of_delete c ss tid :
  child_of c ss ->
  child_of c (delete tid ss) \/ exists s, ss !! tid = Some s /\ child s = Some c.
Proof.
  intros (t & s & E & Hc). destruct (decide (t = tid)) as [->|N].
  - right. by exists s.
  - left. exists t, s. by rewrite lookup_delete_ne.
Qed.

Lemma child_of_stop_all dp c ss : child_of c ss -> c ∈ stop_all dp ss.
Proof.
  intros (tid & s & E & Hc). unfold stop_all.
  apply list_elem_of_In, in_concat. exists [c]. split; [|by left].
  apply list_elem_of_In, list_elem_of_fmap. exists (tid, s). simpl. rewrite Hc.
  split; [done|]. by apply elem_of_map_to_list.
Qed.

Lemma reader_step_child r s : child (reader_step r s) = child s.
Proof. unfold reader_step. repeat case_match; done. Qed.

Lemma reader_step_wf r s : session_wf s -> session_wf (reader_step r s).
Proof.
  intros [H1 H2 H3 H4 (q & Hq & Hl) H6]. unfold reader_step. rewrite H2, Hq.
  destruct r; try (split; eauto; done).
  destruct (Z.ltb_spec (zlen q) CHANNEL_BUFFER_SIZE); [|split; eauto].
  split; try done. eexists. split; [done|]. rewrite zlen_app, zlen_cons, zlen_nil. lia.
Qed.

(** A session that changed in none of the fields the invariant reads. *)
Lemma session_wf_same s s' :
  session_wf s -> input_tx s' = input_tx s -> exiting s' = exiting s ->
  writer_thread s' = writer_thread s -> reader_thread s' = reader_thread s ->
  output_rx s' = output_rx s -> child s' = child s ->
  closed_message_sent s' = closed_message_sent s -> session_wf s'.
Proof. intros [] E1 E2 E3 E4 E5 E6 E7. split; rewrite ?E1, ?E2, ?E3, ?E4, ?E5, ?E6, ?E7; auto. Qed.

Lemma set_is_opened_wf b s : session_wf s -> session_wf (set_is_opened b s).
Proof. intros H. by apply (session_wf_same s). Qed.

Lemma handle_resize_wf now s r c ok :
  session_wf s -> session_wf (snd (handle_resize now s r c ok)).
Proof.
  intros H. unfold handle_resize. destruct (pty_pair _), ok; by apply (session_wf_same s).
Qed.

Lemma handle_data_wf now s d : session_wf s -> session_wf (handle_data now s d).
Proof.
  intros H. unfold handle_data. destruct (input_tx _); by apply (session_wf_same s).
Qed.

Lemma handle_resize_child now s r c ok : child (snd (handle_resize now s r c ok)) = child s.
Proof. unfold handle_resize. destruct (pty_pair _), ok; done. Qed.

Lemma handle_data_child now s d : child (handle_data now s d) = child s.
Proof. unfold handle_data. by destruct (input_tx _). Qed.

(** ** Services under the operations *)

Definition sessions_wf (ss : gmap Z TerminalSession) : Prop :=
  map_Forall (fun _ => session_wf) ss.

Lemma on_session_spec svc id f :
  (forall s, session_wf s -> session_wf (snd (f s))) ->
  (forall s, child (snd (f s)) = child s) ->
  let svc' := snd (on_session svc id f) in
  svc_id svc' = svc_id svc /\
  (sessions_wf (sessions svc) -> sessions_wf (sessions svc')) /\
  forall c, child_of c (sessions svc) -> child_of c (sessions svc').
Proof.
  intros Hw Hc. unfold on_session. destruct (sessions svc !! id) as [s|] eqn:E; [|done].
  specialize (Hw s). specialize (Hc s). destruct (f s) as [r s']. simpl in *.
  split_and!; [done| |].
  - intros H. apply map_Forall_insert_2; [|done]. apply Hw. by apply (H id).
  - intros c H. apply child_of_insert; [done|]. intros s0 E0 Hs. congruence.
Qed.

Lemma handle_open_spec now self svc tid r c pty :
  let svc' := snd (handle_open now self svc tid r c pty) in
  svc_id svc' = svc_id svc /\
  (sessions_wf (sessions svc) -> sessions_wf (sessions svc')) /\
  forall k, child_of k (sessions svc) -> child_of k (sessions svc').
Proof.
  unfold handle_open. destruct (sessions svc !! tid) as [s|] eqn:E.
  - simpl. split_and!; [done| |].
    + intros H. apply map_Forall_insert_2; [|done]. by apply set_is_opened_wf, (H tid).
    + intros k H. apply child_of_insert; [done|]. intros s' Es Hk. simpl. congruence.
  - destruct (negb _); [done|]. destruct (pa_spawn pty) as [[ch p]|]; [|done].
    destruct (negb _); [done|]. destruct (negb _); [done|]. simpl. split_and!; [done| |].
    + intros H. apply map_Forall_insert_2; [|done]. split; try done.
      simpl. exists []. by rewrite zlen_nil.
    + intros k H. apply child_of_insert; [done|]. intros s' Es. congruence.
Qed.

Lemma handle_close_spec svc tid kill :
  let '(r, svc', dead) := handle_close svc tid kill in
  svc_id svc' = svc_id svc /\
  (sessions_wf (sessions svc) -> sessions_wf (sessions svc')) /\
  forall c, child_of c (sessions svc) ->
    child_of c (sessions svc') \/ c ∈ dead \/ kill c = false.
Proof.
  unfold handle_close. destruct (sessions svc !! tid) as [s|] eqn:E; [|auto].
  assert (forall c, child_of c (sessions svc) ->
    child_of c (delete tid (sessions svc)) \/ child s = Some c) as D.
  { intros c [H|(s' & Es & Hc)]%(child_of_delete _ _ tid); [by left|right; congruence]. }
  destruct (child s) as [k|]; [destruct (kill k) eqn:K|]; simpl; split_and!; try done;
    try (by apply map_Forall_delete); intros c [H|H]%D; simplify_eq; auto.
  right. left. set_solver.
Qed.

(** The three facts about every handler, in one place. *)
Lemma handle_action_spec now os self a w :
  let w' := snd (handle_action now os self a w) in
  (world_wf w -> world_wf w') /\
  forall c, owned c w -> owned c w' \/ (exists tid, a = ActClose tid) /\ os_kill os c = false.
Proof.
  unfold handle_action. destruct (get_service (p_service_id self) w) as [svc|] eqn:E; [|auto].
  set (svc0 := service_update_activity now svc).
  match goal with |- context [match ?m with (_, _) => _ end] => set (res := m) end.
  assert (let '(r, svc', dead) := res in
    svc_id svc' = svc_id svc /\
    (sessions_wf (sessions svc) -> sessions_wf (sessions svc')) /\
    forall c, child_of c (sessions svc) -> child_of c (sessions svc') \/ c ∈ dead \/
      (exists tid, a = ActClose tid) /\ os_kill os c = false) as Hres.
  { subst res. destruct a as [tid r c|tid d|tid r c|tid|].
    - destruct (handle_open_spec now self svc0 tid r c (os_pty os)) as (H1 & H2 & H3).
      destruct (handle_open _ _ _ _ _ _ _). simpl in *. eauto.
    - destruct (on_session_spec svc0 tid (fun s => (Ok None, handle_data now s d)))
        as (H1 & H2 & H3); [intros; by apply handle_data_wf|intros; apply handle_data_child|].
      destruct (on_session _ _ _). simpl in *. eauto.
    - destruct (on_session_spec svc0 tid (fun s => handle_resize now s r c (os_resize os)))
        as (H1 & H2 & H3); [intros; by apply handle_resize_wf|intros; apply handle_resize_child|].
      destruct (on_session _ _ _). simpl in *. eauto.
    - pose proof (handle_close_spec svc0 tid (os_kill os)) as H.
      destruct (handle_close _ _ _) as [[??]?]. simpl in *. destruct H as (H1 & H2 & H3).
      split_and!; try done. intros c Hc. destruct (H3 c Hc) as [?|[?|?]]; eauto.
    - simpl. eauto. }
  destruct res as [[r svc'] dead]. destruct Hres as (H1 & H2 & H3). simpl. split.
  - intros [Hs Hw]. destruct (Hw _ _ E) as [Hi Hss]. split; simpl.
    + rewrite map_size_insert_Some; [done|]. by exists svc.
    + apply map_Forall_insert_2; [|done]. split; [congruence|]. by apply H2.
  - intros c [Hc|(id & sv & Es & Hc)]; [left; left; simpl; set_solver|].
    destruct (decide (id = p_service_id self)) as [->|N].
    + assert (sv = svc) as -> by (unfold get_service in E; congruence).
      destruct (H3 c Hc) as [?|[?|?]]; [| |by right].
      * left. right. exists (p_service_id self), svc'. simpl. by rewrite lookup_insert_eq.
      * left. left. simpl. set_solver.
    + left. right. exists id, sv. simpl. by rewrite lookup_insert_ne.
Qed.

Lemma service_insert_ok id svc svc' w w' :
  services w' = <[id := svc']> (services w) -> reaper w' = reaper w ->
  services w !! id = Some svc -> svc_id svc' = svc_id svc ->
  (sessions_wf (sessions svc) -> sessions_wf (sessions svc')) ->
  (forall c, child_of c (sessions svc) -> child_of c (sessions svc')) ->
  (world_wf w -> world_wf w') /\ (forall c, owned c w -> owned c w').
Proof.
  intros Es Er E Hi Hw Hc. split.
  - intros [Hs Hm]. destruct (Hm _ _ E) as [H1 H2]. split; rewrite Es.
    + rewrite map_size_insert_Some by by exists svc. done.
    + apply map_Forall_insert_2; [|done]. split; [congruence|by apply Hw].
  - intros c [H|(i & sv & Hi' & Hk)]; [left; by rewrite Er|right].
    destruct (decide (i = id)) as [->|N].
    + assert (sv = svc) as -> by congruence. exists id, svc'.
      rewrite Es, lookup_insert_eq. by split; [|apply Hc].
    + exists i, sv. by rewrite Es, lookup_insert_ne.
Qed.

Lemma reset_status_sessions p svc :
  svc_id (reset_status p svc) = svc_id svc /\
  (sessions_wf (sessions svc) -> sessions_wf (sessions (reset_status p svc))) /\
  forall c, child_of c (sessions svc) -> child_of c (sessions (reset_status p svc)).
Proof.
  split_and!; [done| |].
  - intros H tid s. simpl. rewrite lookup_fmap.
    destruct (sessions svc !! tid) as [s'|] eqn:E; simpl; [|done].
    intros [= <-]. by apply set_is_opened_wf, (H tid).
  - intros c H. by apply child_of_fmap.
Qed.

Lemma get_or_create_ok now id p sp w :
  let w' := snd (get_or_create_service now id p sp w) in
  (world_wf w -> world_wf w') /\ (forall c, owned c w -> owned c w').
Proof.
  unfold get_or_create_service. destruct (services w !! id) as [svc|] eqn:E.
  - destruct (reset_status_sessions p svc) as (H1 & H2 & H3).
    by eapply service_insert_ok.
  - destruct (Z.leb_spec MAX_SERVICES (Z.of_nat (size (services w)))); [done|]. simpl. split.
    + intros [Hs Hm]. split; simpl.
      * rewrite map_size_insert_None by done. lia.
      * apply map_Forall_insert_2; [|done]. split; [done|].
        simpl. rewrite fmap_empty. apply map_Forall_empty.
    + intros c [Hc|(i & sv & Hi & Hk)]; [by left|right]. exists i, sv. simpl.
      rewrite lookup_insert_ne; [done|]. intros ->. congruence.
Qed.

Lemma remove_service_ok dp id w :
  (world_wf w -> world_wf (remove_service dp id w)) /\
  (forall c, owned c w -> owned c (remove_service dp id w)).
Proof.
  unfold remove_service. destruct (services w !! id) as [svc|] eqn:E; [|done]. split.
  - intros [Hs Hm]. split; simpl.
    + rewrite map_size_delete_Some by by exists svc. lia.
    + by apply map_Forall_delete.
  - intros c [Hc|(i & sv & Hi & Hk)]; [left; simpl; set_solver|].
    destruct (decide (i = id)) as [->|N].
    + left. simpl. apply elem_of_app. right. assert (sv = svc) as -> by congruence.
      by apply child_of_stop_all.
    + right. exists i, sv. simpl. by rewrite lookup_delete_ne.
Qed.

Lemma cleanup_ok dp now w :
  (world_wf w -> world_wf (cleanup_inactive_services dp now w)) /\
  (forall c, owned c w -> owned c (cleanup_inactive_services dp now w)).
Proof.
  unfold cleanup_inactive_services. generalize ((filter (fun p => is_inactive now (snd p) = true)
    (map_to_list (services w))).*1). intros ids. revert w.
  induction ids as [|id ids IH]; intros w; simpl; [done|].
  destruct (remove_service_ok dp id w), (IH (remove_service dp id w)). auto.
Qed.

Section reading.
Context `{Zstd}.

Definition polled (p p' : Z * TerminalSession) : Prop :=
  fst p = fst p' /\ child (snd p) = child (snd p') /\
  (session_wf (snd p) -> session_wf (snd p')).

Lemma poll_session_spec now tid s s' rs closed :
  poll_session now tid s = Some (s', rs, closed) ->
  child s = child s' /\ (session_wf s -> session_wf s') /\
  (closed = true -> closed_message_sent s' = true).
Proof.
  unfold poll_session. set (cl := negb _ && _).
  set (s1 := if cl then _ else s).
  assert (child s1 = child s /\ (session_wf s -> session_wf s1) /\
    (cl = true -> closed_message_sent s1 = true)) as (C1 & W1 & D1).
  { subst s1. destruct cl; split_and!; try done. intros []. by split. }
  destruct (negb (is_opened s1)).
  - intros [= <- <- <-]. by rewrite C1.
  - destruct (append_chunks _ _) as [buf|]; simpl; [|done]. intros [= <- <- <-].
    set (s2 := match output_rx s1 with Some _ => _ | None => s1 end).
    assert (child s2 = child s1 /\ closed_message_sent s2 = closed_message_sent s1 /\
      (session_wf s1 -> session_wf s2)) as (C2 & D2 & W2).
    { subst s2. destruct (output_rx s1); split_and!; try done.
      intros []. split; try done. exists []. split; [done|by rewrite zlen_nil]. }
    clearbody s1 s2.
    case_bool_decide; cbn; rewrite ?C2, ?C1, ?D2; split_and!; auto;
      intros Hs; apply W1, W2 in Hs; by apply (session_wf_same s2).
Qed.

Lemma poll_all_spec now ss ss' rs ids :
  poll_all now ss = Some (ss', rs, ids) ->
  Forall2 polled ss ss' /\
  forall id, id ∈ ids -> exists s, (id, s) ∈ ss' /\ closed_message_sent s = true.
Proof.
  revert ss' rs ids. induction ss as [|[tid s] ss IH]; intros ss' rs ids; simpl.
  { intros [= <- <- <-]. split; [constructor|]. intros id. by rewrite elem_of_nil. }
  destruct (poll_session now tid s) as [[[s1 r1] cl]|] eqn:E; simpl; [|done].
  destruct (poll_all now ss) as [[[ss2 r2] ids2]|]; simpl; [|done].
  intros [= <- <- <-]. destruct (IH _ _ _ eq_refl) as [F D].
  destruct (poll_session_spec _ _ _ _ _ _ E) as (H1 & H2 & H3). split.
  - constructor; [|done]. by split.
  - intros id. rewrite elem_of_app. intros [Hi|Hi].
    + destruct cl; [|set_solver]. apply list_elem_of_singleton in Hi as ->.
      exists s1. split; [by left|by apply H3].
    + destruct (D _ Hi) as (s0 & ? & ?). exists s0. split; [by right|done].
Qed.

(** The polled sessions as a map again. *)
Lemma polled_keys ss ss' : Forall2 polled ss ss' -> ss.*1 = ss'.*1.
Proof. induction 1 as [|x y l k [E _] _ IH]; [done|]. cbn [fmap list_fmap]. by rewrite IH, E. Qed.

Lemma polled_lookup (m : gmap Z TerminalSession) ss' tid s :
  Forall2 polled (map_to_list m) ss' -> (list_to_map ss' : gmap _ _) !! tid = Some s ->
  exists s0, m !! tid = Some s0 /\ polled (tid, s0) (tid, s).
Proof.
  intros F E. apply elem_of_list_to_map_2 in E.
  apply list_elem_of_lookup in E as [i Hi].
  destruct (Forall2_lookup_r _ _ _ _ _ F Hi) as ([t0 s0] & H0 & P).
  pose proof P as [Et _]. simpl in Et. subst t0. exists s0. split; [|done].
  apply elem_of_map_to_list. by apply list_elem_of_lookup_2 in H0.
Qed.

Lemma polled_child (m : gmap Z TerminalSession) ss' c :
  Forall2 polled (map_to_list m) ss' -> child_of c m -> child_of c (list_to_map ss').
Proof.
  intros F (tid & s & E & Hc). apply elem_of_map_to_list, list_elem_of_lookup in E as [i Hi].
  destruct (Forall2_lookup_l _ _ _ _ _ F Hi) as ([t1 s1] & H1 & (Et & Ec & _)).
  simpl in *. subst t1. exists tid, s1. split; [|congruence].
  apply elem_of_list_to_map_1; [|by eapply list_elem_of_lookup_2].
  rewrite <- (polled_keys _ _ F). apply NoDup_fst_map_to_list.
Qed.

Lemma close_terminal_eq tw p ss rs dead id :
  exists code, close_terminal tw p (ss, rs, dead) id =
    (if p then alter (set_child None) id ss else delete id ss, rs ++ [RespClosed id code],
     dead ++ match ss !! id with Some s => option_list (child s) | None => [] end).
Proof.
  unfold close_terminal. destruct (ss !! id) as [s|]; [destruct (child s)|];
    eexists; reflexivity.
Qed.

Lemma close_terminals_spec tw p ids ss rs dead :
  let '(ss', rs', dead') := foldl (close_terminal tw p) (ss, rs, dead) ids in
  (forall c, child_of c ss \/ c ∈ dead -> child_of c ss' \/ c ∈ dead') /\
  (sessions_wf ss ->
   (forall id s, id ∈ ids -> ss !! id = Some s -> closed_message_sent s = true) ->
   sessions_wf ss').
Proof.
  revert ss rs dead. induction ids as [|id ids IH]; intros ss rs dead; cbn [foldl]; [auto|].
  destruct (close_terminal_eq tw p ss rs dead id) as [code ->].
  set (ss1 := if p then _ else _). set (dead1 := dead ++ _).
  assert (ss1 = if p then alter (set_child None) id ss else delete id ss) as Hss by done.
  match goal with |- context [foldl _ (_, ?r, _) ids] => specialize (IH ss1 r dead1) end.
  destruct (foldl _ _ ids) as [[ss' rs'] dead']. destruct IH as [IH1 IH2].
  split.
  - intros c Hc. apply IH1. rewrite Hss. subst dead1. rewrite elem_of_app.
    destruct Hc as [Hc|?]; [|by auto].
    assert (child_of c (if p then alter (set_child None) id ss else delete id ss) \/
      exists s, ss !! id = Some s /\ child s = Some c) as [?|(s & Es & Hs)]; [|by left|].
    + destruct p; [|by apply child_of_delete].
      destruct Hc as (t & s & Es & Hs). destruct (decide (t = id)) as [->|N]; [by right; exists s|].
      left. exists t, s. by rewrite lookup_alter_ne.
    + right. right. rewrite Es, Hs. by apply list_elem_of_singleton.
  - intros Hw Hcl. apply IH2; rewrite Hss; destruct p.
    + intros t s. rewrite lookup_alter_Some. intros [(-> & s0 & E0 & ->)|[_ Hs]]; [|by apply (Hw t)].
      destruct (Hw _ _ E0). split; try done. intros _. by apply (Hcl _ s0 ltac:(by left) E0).
    + by apply map_Forall_delete.
    + intros i s Hi. rewrite lookup_alter_Some. intros [(-> & s0 & E0 & ->)|[_ Hs]].
      * by apply (Hcl _ s0 ltac:(by left) E0).
      * by apply (Hcl i s ltac:(by right) Hs).
    + intros i s Hi [_ Hs]%lookup_delete_Some. by apply (Hcl i s ltac:(by right) Hs).
Qed.

Lemma read_outputs_ok now tw self w rs w' :
  read_outputs now tw self w = Some (rs, w') ->
  (world_wf w -> world_wf w') /\ (forall c, owned c w -> owned c w').
Proof.
  unfold read_outputs, get_service.
  destruct (services w !! p_service_id self) as [svc|] eqn:E; [|by intros [= _ <-]].
  destruct (poll_all _ _) as [[[ss rs1] ids]|] eqn:P; simpl; [|done].
  destruct (poll_all_spec _ _ _ _ _ P) as [F D].
  pose proof (close_terminals_spec tw (p_is_persistent self) ids (list_to_map ss) [] []) as C.
  destruct (foldl _ _ ids) as [[ss' rs2] dead]. destruct C as [C1 C2].
  intros [= _ <-]. split.
  - intros [Hs Hm]. destruct (Hm _ _ E) as [H1 H2]. split; simpl.
    + rewrite map_size_insert_Some by by exists svc. done.
    + apply map_Forall_insert_2; [|done]. split; [done|]. apply C2.
      * intros t s Et. destruct (polled_lookup _ _ _ _ F Et) as (s0 & E0 & _ & _ & W).
        apply W. by apply (H2 t).
      * intros i s Hi Hl. destruct (D i Hi) as (s1 & Hs1 & Hc).
        assert ((list_to_map ss : gmap Z TerminalSession) !! i = Some s1) as E1.
        { apply elem_of_list_to_map_1; [|done]. rewrite <- (polled_keys _ _ F).
          apply NoDup_fst_map_to_list. }
        congruence.
  - intros c [Hc|(i & sv & Hi & Hk)]; [left; simpl; set_solver|].
    destruct (decide (i = p_service_id self)) as [->|N].
    + assert (sv = svc) as -> by congruence.
      destruct (C1 c (or_introl (polled_child _ _ _ F Hk))) as [?|?].
      * right. exists (p_service_id self). eexists. simpl.
        by rewrite lookup_insert_eq.
      * left. simpl. set_solver.
    + right. exists i, sv. simpl. by rewrite lookup_insert_ne.
Qed.

End reading.

Lemma update_service_ok id f w :
  (forall svc, svc_id (f svc) = svc_id svc /\
     (sessions_wf (sessions svc) -> sessions_wf (sessions (f svc))) /\
     forall c, child_of c (sessions svc) -> child_of c (sessions (f svc))) ->
  let w' := with_services (alter f id (services w)) w in
  (world_wf w -> world_wf w') /\ (forall c, owned c w -> owned c w').
Proof.
  intros Hf. destruct (services w !! id) as [svc|] eqn:E.
  - destruct (Hf svc) as (H1 & H2 & H3).
    eapply (service_insert_ok id svc (f svc)); try done.
    simpl. apply map_eq. intros i. destruct (decide (i = id)) as [->|N].
    + by rewrite lookup_alter_eq, lookup_insert_eq, E.
    + by rewrite lookup_alter_ne, lookup_insert_ne.
  - simpl. assert (alter f id (services w) = services w) as Ea.
    { apply map_eq. intros i. destruct (decide (i = id)) as [->|N].
      - by rewrite lookup_alter_eq, E.
      - by rewrite lookup_alter_ne. }
    destruct w. unfold with_services. simpl in *. by rewrite Ea.
Qed.

Lemma reader_service_ok tid r svc :
  let f := fun svc => with_sessions (alter (reader_step r) tid (sessions svc)) svc in
  svc_id (f svc) = svc_id svc /\
  (sessions_wf (sessions svc) -> sessions_wf (sessions (f svc))) /\
  forall c, child_of c (sessions svc) -> child_of c (sessions (f svc)).
Proof.
  split_and!; [done| |].
  - intros H t s. simpl. rewrite lookup_alter_Some.
    intros [(-> & s0 & E0 & ->)|[_ Hs]]; [|by apply (H t)].
    apply reader_step_wf. by apply (H t).
  - intros c (t & s & Es & Hc). simpl. destruct (decide (t = tid)) as [->|N].
    + exists tid, (reader_step r s). by rewrite lookup_alter_eq, Es, reader_step_child.
    + exists t, s. by rewrite lookup_alter_ne.
Qed.

(** The ways a child process may leave the sessions and the reaper. *)
Definition released (c : Z) (ev : term_event) : Prop :=
  (exists tw, ev = EvReap tw /\ tw c <> Ok None) \/
  (exists now os self tid, ev = EvAction now os self (ActClose tid) /\ os_kill os c = false).

Lemma term_step_ok `{Zstd} dp w ev w' :
  term_step dp w ev = Some w' ->
  (world_wf w -> world_wf w') /\ (forall c, owned c w -> owned c w' \/ released c ev).
Proof.
  assert (forall w', (world_wf w -> world_wf w') /\ (forall c, owned c w -> owned c w') ->
    (world_wf w -> world_wf w') /\ (forall c, owned c w -> owned c w' \/ released c ev)) as L
    by (intros ? []; auto).
  destruct ev as [now id p sp|now os self a|now tw self|tw|now|self|id|id p|id tid r]; simpl.
  - intros [= <-]. apply L, get_or_create_ok.
  - intros [= <-]. destruct (handle_action_spec now os self a w) as [H1 H2]. split; [done|].
    intros c [?|[[tid ->] Hk]]%H2; [by left|right; right]. by exists now, os, self, tid.
  - destruct (read_outputs now tw self w) as [[rs w0]|] eqn:E; simpl; [|done].
    intros [= <-]. apply L. by eapply read_outputs_ok.
  - rewrite check_zombie_spec. intros [= <-]. split; [done|].
    intros c [Hc|Hc]; [|left; by right].
    destruct (decide (tw c = Ok None)) as [T|T].
    + left. left. simpl. by apply list_elem_of_filter.
    + right. left. by exists tw.
  - intros [= <-]. apply L, cleanup_ok.
  - intros [= <-]. apply L. unfold on_disconnect. case_match; [apply remove_service_ok|done].
  - intros [= <-]. apply L. unfold run_exit. case_match; [|done].
    case_match; [apply remove_service_ok|done].
  - intros [= <-]. apply L. unfold set_persistent, get_service.
    destruct (services w !! id) as [svc|] eqn:E; [|done]. simpl.
    by eapply service_insert_ok.
  - intros [= <-]. apply L, update_service_ok. intros svc. apply reader_service_ok.
Qed.

Lemma reachable_wf `{Zstd} dp w : reachable dp w -> world_wf w.
Proof.
  induction 1 as [|w ev w' _ IH E]; [|by apply (term_step_ok _ _ _ _ E)].
  split; simpl; [by rewrite map_size_empty|apply map_Forall_empty].
Qed.

(** ** Correctness of the terminal module *)

(** C22. In every reachable state there are at most 100 services, each under
    its own identifier, and every stored session is alive: it was never
    stopped, its channels and threads exist, at most 100 chunks wait in its
    output channel, and it has its child process unless the client was already
    told that the terminal closed.  Of what waits in the input channel nothing is said: in the
    model it takes any number of chunks, where the sender of the program waits for room. *)
Theorem terminal_reachable_wf `{Zstd} dp w :
  reachable dp w ->
  Z.of_nat (size (services w)) <= MAX_SERVICES /\
  forall id svc, services w !! id = Some svc ->
    svc_id svc = id /\
    forall tid s, sessions svc !! tid = Some s -> session_wf s.
Proof.
  intros [H1 H2]%reachable_wf. split; [done|]. intros id svc E.
  destruct (H2 _ _ E) as [H3 H4]. split; [done|]. intros tid s Es. by apply (H4 tid).
Qed.

(** A world with one service that has a terminal. *)
Definition os_fine : os_answer :=
  mkOs (mkPty true (Some (41, Some 77)) true true) true (fun _ => true) (fun _ => Ok None).

Definition world_one : World :=
  snd (handle_action 5 os_fine (mkProxy "ts" true) (ActOpen 3 24 80)
         (snd (get_or_create_service 1 "ts" true false world_init))).

Lemma world_one_reachable `{Zstd} dp : reachable dp world_one.
Proof.
  eapply (reach_step dp _ (EvAction 5 os_fine (mkProxy "ts" true) (ActOpen 3 24 80)));
    [|reflexivity].
  eapply (reach_step dp _ (EvCreate 1 "ts" true false)); [|reflexivity]. constructor.
Qed.

Lemma terminal_reachable_wf_witness :
  exists svc s, services world_one !! "ts"%string = Some svc /\
    sessions svc !! 3 = Some s /\ child s = Some 41 /\ session_wf s.
Proof.
  destruct (terminal_reachable_wf (H:=zstd_store) true world_one
    (world_one_reachable (H:=zstd_store) true)) as [_ H].
  do 2 eexists. split; [reflexivity|]. split; [reflexivity|]. split; [reflexivity|].
  eapply (proj2 (H "ts"%string _ eq_refl) 3). reflexivity.
Defined.

(** No operation loses a child process: one that a session or the reaper
    owns is still owned after any step, unless the reaper found that it exited
    (or could not be waited for), or [kill] failed while its terminal was being
    closed. *)
Theorem no_child_lost `{Zstd} dp w ev w' c :
  term_step dp w ev = Some w' -> owned c w ->
  owned c w' \/
  (exists tw, ev = EvReap tw /\ tw c <> Ok None) \/
  (exists now os self tid, ev = EvAction now os self (ActClose tid) /\ os_kill os c = false).
Proof. intros E Hc. exact (proj2 (term_step_ok _ _ _ _ E) c Hc). Qed.

Lemma no_child_lost_witness :
  owned 41 (snd (handle_action 9 os_fine (mkProxy "ts" true) (ActClose 3) world_one)).
Proof.
  destruct (no_child_lost (H:=zstd_store) true world_one
    (EvAction 9 os_fine (mkProxy "ts" true) (ActClose 3)) _ 41 eq_refl)
    as [Ho|[(tw & E & _)|(now & os & self & tid & E & K)]].
  - right. exists "ts"%string. eexists. split; [reflexivity|]. exists 3. eexists.
    split; reflexivity.
  - exact Ho.
  - discriminate E.
  - injection E as <- <- <- <-. discriminate K.
Defined.

(** ** Delivery of the output *)

Section delivery.
Context `{Zstd}.

(** What the client shows of the responses for one terminal, and how often it
    is told that the terminal closed. *)
Definition data_of (tid : Z) (r : TerminalResponse) : bytes :=
  match r with
  | RespData i d c => if decide (i = tid) then unshrink (d, c) else []
  | _ => []
  end.

Definition data_for (tid : Z) (rs : list TerminalResponse) : bytes :=
  concat (data_of tid <$> rs).

Definition closes (tid : Z) (r : TerminalResponse) : bool :=
  match r with RespClosed i _ => bool_decide (i = tid) | _ => false end.

Definition closed_for (tid : Z) (rs : list TerminalResponse) : nat :=
  length (filter (fun r => closes tid r = true) rs).

Definition just_closed (s : TerminalSession) : bool :=
  negb (closed_message_sent s) &&
  match reader_thread s with Some finished => finished | None => false end.

Definition pending (s : TerminalSession) : bytes :=
  if is_opened s then concat (default [] (output_rx s)) else [].

Lemma data_for_app tid rs rs' : data_for tid (rs ++ rs') = data_for tid rs ++ data_for tid rs'.
Proof. unfold data_for. by rewrite fmap_app, concat_app. Qed.

Lemma closed_for_app tid rs rs' :
  closed_for tid (rs ++ rs') = (closed_for tid rs + closed_for tid rs')%nat.
Proof. unfold closed_for. by rewrite filter_app, length_app. Qed.

Lemma data_response_data tid id d :
  zcompress d <> None ->
  data_of tid (data_response id d) = if decide (id = tid) then d else [].
Proof.
  intros Hd. unfold data_response. case_match; [|simpl; by case_decide].
  pose proof (unshrink_shrink d Hd) as U. destruct (shrink d) as [x c]. simpl.
  by case_decide.
Qed.

Lemma data_responses tid id ds :
  (forall d, zcompress d <> None) ->
  data_for tid (data_response id <$> ds) = if decide (id = tid) then concat ds else [].
Proof.
  intros Hz. induction ds as [|d ds IH]; [by case_decide|].
  change (data_of tid (data_response id d) ++ data_for tid (data_response id <$> ds) =
    if decide (id = tid) then d ++ concat ds else []).
  rewrite data_response_data, IH by done. by case_decide.
Qed.

Lemma data_responses_close tid id ds : closed_for tid (data_response id <$> ds) = O.
Proof.
  unfold closed_for. induction ds as [|d ds IH]; simpl; [done|].
  rewrite filter_cons. rewrite decide_False; [done|].
  unfold data_response. repeat case_match; done.
Qed.

Lemma poll_session_out now tid id s s' rs cl :
  (forall d, zcompress d <> None) ->
  poll_session now id s = Some (s', rs, cl) ->
  data_for tid rs = (if decide (id = tid) then pending s else []) /\
  closed_for tid rs = O /\ cl = just_closed s.
Proof.
  intros Hz. unfold poll_session, pending. fold (just_closed s).
  set (s1 := if just_closed s then _ else s).
  assert (is_opened s1 = is_opened s /\ output_rx s1 = output_rx s) as [-> Ho]
    by (subst s1; by destruct (just_closed s)).
  destruct (is_opened s); simpl.
  - destruct (append_chunks _ _) as [buf|]; simpl; [|done]. intros [= _ <- <-].
    rewrite Ho, data_responses, data_responses_close by done. done.
  - intros [= _ <- <-]. by case_decide.
Qed.

Lemma poll_all_out now tid ss ss' rs ids :
  (forall d, zcompress d <> None) -> NoDup ss.*1 ->
  poll_all now ss = Some (ss', rs, ids) ->
  data_for tid rs = default [] (pending <$> (list_to_map ss : gmap Z _) !! tid) /\
  closed_for tid rs = O /\
  length (filter (fun i => i = tid) ids) =
    match (list_to_map ss : gmap Z _) !! tid with
    | Some s => if just_closed s then 1%nat else 0%nat
    | None => O
    end.
Proof.
  intros Hz. revert ss' rs ids. induction ss as [|[id s] ss IH]; intros ss' rs ids Hnd; simpl.
  { intros [= <- <- <-]. by rewrite lookup_empty. }
  apply NoDup_cons in Hnd as [Hni Hnd].
  destruct (poll_session now id s) as [[[s1 r1] cl]|] eqn:E; simpl; [|done].
  destruct (poll_all now ss) as [[[ss2 r2] ids2]|]; simpl; [|done].
  intros [= <- <- <-]. destruct (IH _ _ _ Hnd eq_refl) as (I1 & I2 & I3).
  destruct (poll_session_out now tid id s s1 r1 cl Hz E) as (J1 & J2 & ->).
  rewrite data_for_app, closed_for_app, filter_app, length_app, I1, I2, I3, J1, J2.
  destruct (decide (id = tid)) as [->|N].
  - rewrite lookup_insert_eq. rewrite (not_elem_of_list_to_map_1 _ _ Hni). simpl.
    rewrite app_nil_r. split_and!; [done..|].
    destruct (just_closed s); simpl; [rewrite filter_cons, decide_True by done; done|done].
  - rewrite lookup_insert_ne by done. split_and!; [done..|].
    destruct (just_closed s); simpl; [rewrite filter_cons, decide_False by done; done|done].
Qed.

Lemma close_terminals_out tw p tid ids ss rs dead :
  let '(ss', rs', _) := foldl (close_terminal tw p) (ss, rs, dead) ids in
  data_for tid rs' = data_for tid rs /\
  closed_for tid rs' = (closed_for tid rs + length (filter (fun i => i = tid) ids))%nat.
Proof.
  revert ss rs dead. induction ids as [|id ids IH]; intros ss rs dead; cbn [foldl].
  { cbn. split; [done|lia]. }
  destruct (close_terminal_eq tw p ss rs dead id) as [code ->].
  match goal with |- context [foldl _ (?a, ?b, ?c) ids] => specialize (IH a b c) end.
  destruct (foldl _ _ ids) as [[ss' rs'] dead']. destruct IH as [-> ->].
  rewrite data_for_app, closed_for_app, app_nil_r, filter_cons. split; [done|].
  unfold closed_for at 2. rewrite filter_cons. simpl.
  destruct (decide (id = tid)) as [->|N].
  - rewrite decide_True by (by rewrite bool_decide_true). simpl. lia.
  - rewrite decide_False by (by rewrite bool_decide_false). simpl. lia.
Qed.

(** When compression does not fail, one round of [read_outputs] sends for
    every terminal exactly the bytes waiting in its output channel, in order
    (nothing while the terminal is not opened), once the receiver decompresses
    what is marked as compressed; and it reports a terminal as closed once,
    exactly when its reader thread has ended and this was not reported
    before. *)
Theorem read_outputs_delivers now tw self w rs w' svc tid s :
  (forall d, zcompress d <> None) ->
  read_outputs now tw self w = Some (rs, w') ->
  services w !! p_service_id self = Some svc -> sessions svc !! tid = Some s ->
  data_for tid rs = pending s /\
  closed_for tid rs = if just_closed s then 1%nat else 0%nat.
Proof.
  intros Hz. unfold read_outputs, get_service. intros Hr E Es. rewrite E in Hr.
  destruct (poll_all _ _) as [[[ss rs1] ids]|] eqn:P; simpl in Hr; [|done].
  destruct (poll_all_out now tid _ _ _ _ Hz (NoDup_fst_map_to_list _) P) as (P1 & P2 & P3).
  rewrite list_to_map_to_list, Es in P1, P3.
  pose proof (close_terminals_out tw (p_is_persistent self) tid ids (list_to_map ss) [] []) as C.
  destruct (foldl _ _ ids) as [[ss' rs2] dead]. destruct C as [C1 C2].
  injection Hr as <- <-. rewrite data_for_app, closed_for_app, C1, C2, P1, P2, P3.
  by rewrite app_nil_r.
Qed.

(** When compression fails, the fallback of [compress] (an empty vector) is
    taken for a shorter encoding: a chunk of more than 512 bytes is sent as an
    empty payload marked as compressed, and the output is lost although the
    uncompressed chunk was at hand. *)
Theorem compress_failure_drops_output tid data :
  zcompress data = None -> COMPRESS_THRESHOLD < zlen data ->
  data_response tid data = RespData tid [] true /\
  (zdecode_all [] = Some [] -> data_of tid (data_response tid data) = []).
Proof.
  intros Hz Hl. unfold data_response. rewrite (proj2 (Z.ltb_lt _ _) Hl).
  rewrite shrink_failure; [|done|intros ->; discriminate Hl]. split; [done|].
  intros Hd. simpl. rewrite decide_True by done. unfold unshrink, decompress. simpl.
  by rewrite Hd.
Qed.

End delivery.

Lemma compress_failure_drops_output_witness :
  data_response (H:=zstd_broken) 1 (replicate 600 Byte.x41) = RespData 1 [] true.
Proof.
  apply (compress_failure_drops_output (H:=zstd_broken) 1 (replicate 600 Byte.x41));
    reflexivity.
Defined.

(** [world_one] after the reader thread delivered a chunk and ended. *)
Definition world_two : World :=
  default world_one
    (w ← term_step (H:=zstd_store) true world_one (EvReader "ts" 3 (ReadData [Byte.x68; Byte.x69]));
     term_step (H:=zstd_store) true w (EvReader "ts" 3 ReadEof)).

Definition service_two : Service :=
  default (service_new 0 "" false false) (services world_two !! "ts"%string).

Definition session_two : TerminalSession :=
  default (session_new 0 0 0 0) (sessions service_two !! 3).

Lemma read_outputs_delivers_witness :
  match read_outputs (H:=zstd_store) 9 (fun _ => Ok (Some 0)) (mkProxy "ts" true) world_two with
  | Some (rs, _) => data_for (H:=zstd_store) 3 rs = [Byte.x68; Byte.x69] /\ closed_for 3 rs = 1%nat
  | None => False
  end.
Proof.
  destruct (read_outputs (H:=zstd_store) 9 (fun _ => Ok (Some 0)) (mkProxy "ts" true) world_two)
    as [[rs w']|] eqn:E; [|vm_compute in E; discriminate E].
  destruct (read_outputs_delivers (H:=zstd_store) 9 (fun _ => Ok (Some 0)) (mkProxy "ts" true)
    world_two rs w' service_two 3 session_two) as [D C].
  - discriminate.
  - exact E.
  - vm_compute. reflexivity.
  - vm_compute. reflexivity.
  - split; [rewrite D; vm_compute; reflexivity|rewrite C; vm_compute; reflexivity].
Defined.

(** ** Opening a terminal *)

Lemma keys_elem (ss : gmap Z TerminalSession) id :
  id ∈ (map_to_list ss).*1 <-> is_Some (ss !! id).
Proof.
  rewrite list_elem_of_fmap. split.
  - intros ([i s] & -> & Hs%elem_of_map_to_list). by exists s.
  - intros [s Hs]. exists (id, s). split; [done|]. by apply elem_of_map_to_list.
Qed.

(** A successful open answers for the asked terminal and leaves it opened,
    and no other terminal changes; the first open after the service was
    (re)attached lists every other terminal exactly once, the following ones
    list none.  An unsuccessful open leaves the service as it was. *)
Theorem handle_open_syncs_once now self svc tid r c pty :
  match handle_open now self svc tid r c pty with
  | (Ok (Some (RespOpened o)), svc') =>
      o_terminal_id o = tid /\
      NoDup (o_persistent_sessions o) /\
      (forall id, id ∈ o_persistent_sessions o <->
         needs_session_sync svc = true /\ id <> tid /\ is_Some (sessions svc !! id)) /\
      needs_session_sync svc' = false /\
      (exists s, sessions svc' !! tid = Some s /\ is_opened s = true /\ o_pid o = pid s) /\
      forall id, id <> tid -> sessions svc' !! id = sessions svc !! id
  | (r, svc') => is_ok r = false /\ svc' = svc
  end.
Proof.
  unfold handle_open. destruct (sessions svc !! tid) as [s|] eqn:E.
  - simpl. split_and!; try done.
    + case_match; [|constructor]. apply NoDup_filter, NoDup_fst_map_to_list.
    + intros id. destruct (needs_session_sync svc); simpl; [|set_solver].
      destruct (Z.ltb_spec 1 (Z.of_nat (size (sessions svc)))).
      * rewrite list_elem_of_filter, keys_elem. tauto.
      * split; [set_solver|]. intros (_ & N & [s' Es']). exfalso.
        assert (size (sessions svc) = 1 + (1 + size (delete id (delete tid (sessions svc)))))%nat.
        { rewrite map_size_delete_Some by (rewrite lookup_delete_ne by done; by exists s').
          rewrite map_size_delete_Some by by exists s.
          assert (size (delete tid (sessions svc)) <> 0%nat) as H1.
          { intros H0%map_size_empty_inv. apply (f_equal (fun m => m !! id)) in H0.
            rewrite lookup_delete_ne, lookup_empty in H0 by done. congruence. }
          rewrite map_size_delete_Some in H1 by by exists s. lia. }
        lia.
    + eexists. rewrite lookup_insert_eq. by split.
    + intros id N. by rewrite lookup_insert_ne.
  - destruct (negb _); [done|]. destruct (pa_spawn pty) as [[ch p]|]; [|done].
    destruct (negb _); [done|]. destruct (negb _); [done|]. simpl. split_and!; try done.
    + case_match; [|constructor]. apply NoDup_fst_map_to_list.
    + intros id. destruct (needs_session_sync svc); [|set_solver]. rewrite keys_elem.
      split; [|tauto]. intros [s Hs]. split_and!; [done| |by exists s]. congruence.
    + eexists. rewrite lookup_insert_eq. by split.
    + intros id N. by rewrite lookup_insert_ne.
Qed.

