(* ===== verification/ServiceHub.v ===== *)
(** * The publish/subscribe hub of the server

    [src/server/service.rs]: a service keeps its subscribers in two maps, the
    ones that receive what it sends and the new ones that first wait for a
    snapshot.  [Subscriber] is the source's trait; connections and messages are
    abstract.  The hub's methods are functions on [ServiceInner], the value
    behind the lock; the loops of its threads ([run], [repeat]) are given by
    one round each. *)

From S2P Require Import Prelude.

(** [trait Subscriber] with [From<ConnInner>]: sending does not change the
    identifier, and a subscriber has the identifier of its connection. *)
(* src/src/server/service.rs:20-23 Subscriber *)
Class Subscriber (Conn Msg T : Type) : Type := {
  conn_id : Conn -> Z;
  from_conn : Conn -> T;
  sub_id : T -> Z;
  sub_send : Msg -> T -> T;
  sub_id_send : forall m s, sub_id (sub_send m s) = sub_id s;
  sub_id_from : forall c, sub_id (from_conn c) = conn_id c;
}.

(* src/src/server/service.rs:44-44 HIBERNATE_TIMEOUT *)
Definition HIBERNATE_TIMEOUT : Z := 30.
(* src/src/server/service.rs:45-45 MAX_ERROR_TIMEOUT *)
Definition MAX_ERROR_TIMEOUT : Z := 1000.
(* src/src/server/service.rs:46-46 SERVICE_OPTION_VALUE_TRUE *)
Definition SERVICE_OPTION_VALUE_TRUE : string := "1".
(* src/src/server/service.rs:47-47 SERVICE_OPTION_VALUE_FALSE *)
Definition SERVICE_OPTION_VALUE_FALSE : string := "0".

Section hub.
Context {Conn Msg T : Type} `{Sub : Subscriber Conn Msg T}.

(* src/src/server/service.rs:25-34 ServiceInner *)
Record ServiceInner : Type := mkInner {
  name : string;
  handle : bool;
  subscribes : gmap Z T;
  new_subscribes : gmap Z T;
  active : bool;
  need_snapshot : bool;
  options : gmap string string;
}.

Definition with_subs (subs news : gmap Z T) (self : ServiceInner) : ServiceInner :=
  mkInner (name self) (handle self) subs news (active self) (need_snapshot self)
    (options self).

(* src/src/server/service.rs:162-169 ServiceTmpl::new *)
Definition hub_new (name : string) (need_snapshot : bool) : ServiceInner :=
  mkInner name false ∅ ∅ true need_snapshot ∅.

(* src/src/server/service.rs:77-81 ServiceInner::send_new_subscribes *)
Definition send_new_subscribes (msg : Msg) (self : ServiceInner) : ServiceInner :=
  with_subs (subscribes self) (sub_send msg <$> new_subscribes self) self.

(* src/src/server/service.rs:83-88 ServiceInner::swap_new_subscribes *)
Definition swap_new_subscribes (self : ServiceInner) : ServiceInner :=
  with_subs
    (foldl (fun subs p => <[sub_id (snd p) := snd p]> subs) (subscribes self)
       (map_to_list (new_subscribes self))) ∅ self.

(* src/src/server/service.rs:91-93 ServiceInner::has_subscribes *)
Definition has_subscribes (self : ServiceInner) : bool :=
  (0 <? Z.of_nat (size (subscribes self))) || (0 <? Z.of_nat (size (new_subscribes self))).

(* src/src/server/service.rs:102-105 ServiceTmpl::is_subed *)
Definition is_subed (id : Z) (self : ServiceInner) : bool :=
  bool_decide (is_Some (subscribes self !! id)) ||
  bool_decide (is_Some (new_subscribes self !! id)).

(* src/src/server/service.rs:107-117 ServiceTmpl::on_subscribe *)
Definition on_subscribe (sub : Conn) (self : ServiceInner) : ServiceInner :=
  match subscribes self !! conn_id sub with
  | Some _ => self
  | None =>
      if need_snapshot self
      then with_subs (subscribes self)
             (<[conn_id sub := from_conn sub]> (new_subscribes self)) self
      else with_subs (<[conn_id sub := from_conn sub]> (subscribes self))
             (new_subscribes self) self
  end.

(* src/src/server/service.rs:119-124 ServiceTmpl::on_unsubscribe *)
Definition on_unsubscribe (id : Z) (self : ServiceInner) : ServiceInner :=
  match subscribes self !! id with
  | Some _ => with_subs (delete id (subscribes self)) (new_subscribes self) self
  | None => with_subs (subscribes self) (delete id (new_subscribes self)) self
  end.

(* src/src/server/service.rs:126-134 ServiceTmpl::join *)
Definition join (self : ServiceInner) : ServiceInner :=
  mkInner (name self) false (subscribes self) (new_subscribes self) false
    (need_snapshot self) (options self).

(* src/src/server/service.rs:136-138 ServiceTmpl::get_option *)
Definition get_option (opt : string) (self : ServiceInner) : option string :=
  options self !! opt.

(* src/src/server/service.rs:140-146 ServiceTmpl::set_option *)
Definition set_option (opt val : string) (self : ServiceInner)
    : option string * ServiceInner :=
  (options self !! opt,
   mkInner (name self) (handle self) (subscribes self) (new_subscribes self)
     (active self) (need_snapshot self) (<[opt := val]> (options self))).

(* src/src/server/service.rs:149-152 ServiceTmpl::ok *)
Definition ok (self : ServiceInner) : bool := active self && has_subscribes self.

(* src/src/server/service.rs:172-175 ServiceTmpl::is_option_true *)
Definition is_option_true (opt : string) (self : ServiceInner) : bool :=
  match get_option opt self with
  | Some v => bool_decide (v = SERVICE_OPTION_VALUE_TRUE)
  | None => false
  end.

(* src/src/server/service.rs:178-184 ServiceTmpl::set_option_bool *)
Definition set_option_bool (opt : string) (val : bool) (self : ServiceInner)
    : ServiceInner :=
  snd (set_option opt
    (if val then SERVICE_OPTION_VALUE_TRUE else SERVICE_OPTION_VALUE_FALSE) self).

(** The callback gets the swap guard, and acts on the hub through it; when it
    returns, with or without an error, the guard is dropped
    ([ServiceSwap::drop]). *)
(* src/src/server/service.rs:191-201 ServiceTmpl::snapshot *)
Definition snapshot {E} (callback : ServiceInner -> result E unit * ServiceInner)
    (self : ServiceInner) : result E unit * ServiceInner :=
  if 0 <? Z.of_nat (size (new_subscribes self)) then
    let '(r, self) := callback self in (r, swap_new_subscribes self)
  else (Ok tt, self).

(* src/src/server/service.rs:224-229 ServiceTmpl::send_shared *)
Definition send_shared (msg : Msg) (self : ServiceInner) : ServiceInner :=
  with_subs (sub_send msg <$> subscribes self) (new_subscribes self) self.

(* src/src/server/service.rs:204-206 ServiceTmpl::send *)
Definition send (msg : Msg) (self : ServiceInner) : ServiceInner := send_shared msg self.

(* src/src/server/service.rs:208-212 ServiceTmpl::send_to *)
Definition send_to (msg : Msg) (id : Z) (self : ServiceInner) : ServiceInner :=
  with_subs (alter (sub_send msg) id (subscribes self)) (new_subscribes self) self.

(** [iter_mut] with a condition on the key. *)
(* src/src/server/service.rs:214-222 ServiceTmpl::send_to_others *)
Definition send_to_others (msg : Msg) (id : Z) (self : ServiceInner) : ServiceInner :=
  with_subs
    (map_imap (fun sid s => Some (if decide (sid = id) then s else sub_send msg s))
       (subscribes self)) (new_subscribes self) self.

(* src/src/server/service.rs:235-243 ServiceTmpl::send_video_frame_shared *)
Definition send_video_frame_shared (msg : Msg) (self : ServiceInner)
    : gset Z * ServiceInner :=
  (list_to_set ((fun p => sub_id (sub_send msg (snd p))) <$> map_to_list (subscribes self)),
   send_shared msg self).

(* src/src/server/service.rs:231-233 ServiceTmpl::send_video_frame *)
Definition send_video_frame (msg : Msg) (self : ServiceInner) : gset Z * ServiceInner :=
  send_video_frame_shared msg self.

(* src/src/server/service.rs:245-253 ServiceTmpl::send_without *)
Definition send_without (msg : Msg) (sub : Z) (self : ServiceInner) : ServiceInner :=
  with_subs
    ((fun s => if negb (sub =? sub_id s) then sub_send msg s else s) <$> subscribes self)
    (new_subscribes self) self.

(** The guard's own methods. *)
(* src/src/server/service.rs:339-346 ServiceSwap::send_shared *)
Definition swap_send (msg : Msg) (self : ServiceInner) : ServiceInner :=
  send_new_subscribes msg self.

(* src/src/server/service.rs:349-351 ServiceSwap::has_subscribes *)
Definition swap_has_subscribes (self : ServiceInner) : bool :=
  0 <? Z.of_nat (size (subscribes self)).

(** ** The thread loops, one round each *)

(** [run]: after a failing callback the new error timeout, and how long the
    thread sleeps for it.  [elapsed_ms] is what [tm.elapsed()] reads. *)
(* src/src/server/service.rs:305-317 ServiceTmpl::run *)
Definition run_error (elapsed_ms error_timeout : Z) : Z :=
  let error_timeout :=
    if MAX_ERROR_TIMEOUT <? elapsed_ms then HIBERNATE_TIMEOUT
    else u64 (error_timeout * 2) in
  if MAX_ERROR_TIMEOUT <? error_timeout then MAX_ERROR_TIMEOUT else error_timeout.

(** One round: the callback's outcome ([None]: it succeeded; [Some ms]: it
    failed after [ms]), the sleeps, and the next error timeout.  [None] when
    the service is no longer active. *)
(* src/src/server/service.rs:302-327 ServiceTmpl::run *)
Definition run_round (self : ServiceInner) (outcome : option Z) (error_timeout : Z)
    : option (list Z * Z) :=
  if negb (active self) then None
  else if has_subscribes self then
    match outcome with
    | Some elapsed_ms =>
        let t := run_error elapsed_ms error_timeout in Some ([t; HIBERNATE_TIMEOUT], t)
    | None => Some ([HIBERNATE_TIMEOUT], error_timeout)
    end
  else Some ([HIBERNATE_TIMEOUT], error_timeout).

(** What one round of [repeat] does. *)
Inductive repeat_action : Type :=
| ActInit
| ActCallback
| ActErrorSleep
| ActReset
| ActRest (ms : Z).

(* src/src/server/service.rs:264-288 ServiceTmpl::repeat *)
Definition repeat_round (self : ServiceInner) (interval elapsed : Z) (fails : bool)
    (may_reset : bool) : option (list repeat_action * bool) :=
  if negb (active self) then None
  else
    let '(acts, may_reset) :=
      if has_subscribes self then
        ((if negb may_reset then [ActInit] else []) ++ ActCallback ::
           (if fails then [ActErrorSleep] else []), true)
      else if may_reset then ([ActReset], false)
      else ([], may_reset) in
    Some (acts ++ (if elapsed <? interval then [ActRest (interval - elapsed)] else []),
          may_reset).

(** ** Well-formed hubs

    Subscribers are stored under their identifier, no one is both new and
    subscribed, and only a service with snapshots has new subscribers. *)
Definition hub_wf (self : ServiceInner) : Prop :=
  (forall id s, subscribes self !! id = Some s -> sub_id s = id) /\
  (forall id s, new_subscribes self !! id = Some s -> sub_id s = id) /\
  (forall id, is_Some (subscribes self !! id) -> new_subscribes self !! id = None) /\
  (need_snapshot self = false -> new_subscribes self = ∅).

(** ** The specification: one automaton per identifier *)

Inductive hub_event : Type :=
| HubSubscribe (c : Conn)
| HubUnsubscribe (id : Z)
| HubSend (m : Msg)
| HubSendVideo (m : Msg)
| HubSendTo (m : Msg) (id : Z)
| HubSendToOthers (m : Msg) (id : Z)
| HubSendWithout (m : Msg) (id : Z)
| HubSnapshot (ms : list Msg) (ok : bool)
| HubSetOption (opt val : string)
| HubJoin.

(** The snapshot callback that sends [ms] through the guard. *)
Definition snapshot_callback (ms : list Msg) (ok : bool) (self : ServiceInner)
    : result unit unit * ServiceInner :=
  (if ok then Ok tt else Err tt, foldl (fun self m => swap_send m self) self ms).

Definition hub_step (self : ServiceInner) (ev : hub_event) : ServiceInner :=
  match ev with
  | HubSubscribe c => on_subscribe c self
  | HubUnsubscribe id => on_unsubscribe id self
  | HubSend m => send m self
  | HubSendVideo m => snd (send_video_frame m self)
  | HubSendTo m id => send_to m id self
  | HubSendToOthers m id => send_to_others m id self
  | HubSendWithout m id => send_without m id self
  | HubSnapshot ms ok => snd (snapshot (snapshot_callback ms ok) self)
  | HubSetOption o v => snd (set_option o v self)
  | HubJoin => join self
  end.

(** What a hub owes one identifier. *)
Inductive sub_state : Type :=
| Absent
| Waiting (s : T)
| Live (s : T).

Definition deliver (m : Msg) (x : sub_state) : sub_state :=
  match x with Live s => Live (sub_send m s) | _ => x end.

Definition spec_step (need_snapshot : bool) (id : Z) (x : sub_state) (ev : hub_event)
    : sub_state :=
  match ev with
  | HubSubscribe c =>
      if decide (conn_id c = id) then
        match x with
        | Live s => Live s
        | _ => if need_snapshot then Waiting (from_conn c) else Live (from_conn c)
        end
      else x
  | HubUnsubscribe i => if decide (i = id) then Absent else x
  | HubSend m | HubSendVideo m => deliver m x
  | HubSendTo m i => if decide (i = id) then deliver m x else x
  | HubSendToOthers m i | HubSendWithout m i => if decide (i = id) then x else deliver m x
  | HubSnapshot ms _ =>
      match x with
      | Waiting s => Live (foldl (fun s m => sub_send m s) s ms)
      | _ => x
      end
  | HubSetOption _ _ | HubJoin => x
  end.

Definition abs (self : ServiceInner) (id : Z) : sub_state :=
  match subscribes self !! id with
  | Some s => Live s
  | None =>
      match new_subscribes self !! id with
      | Some s => Waiting s
      | None => Absent
      end
  end.

(** ** Lemmas *)

Lemma swap_fold (l : list (Z * T)) (subs : gmap Z T) :
  (forall id s, (id, s) ∈ l -> sub_id s = id) -> NoDup l.*1 ->
  forall id, foldl (fun subs p => <[sub_id (snd p) := snd p]> subs) subs l !! id
    = match (list_to_map l : gmap Z T) !! id with Some s => Some s | None => subs !! id end.
Proof.
  revert subs. induction l as [|[i s] l IH]; intros subs Hid Hnd id; [done|].
  apply NoDup_cons in Hnd as [Hni Hnd]. cbn [foldl snd list_to_map foldr fst].
  rewrite IH by (intros; try done; apply Hid; by right).
  rewrite (Hid i s) by by left. unfold uncurry. cbn.
  destruct (decide (i = id)) as [->|N].
  - rewrite lookup_insert_eq. by rewrite (not_elem_of_list_to_map_1 _ _ Hni), lookup_insert_eq.
  - by rewrite !lookup_insert_ne.
Qed.

Lemma swap_lookup self id :
  hub_wf self ->
  subscribes (swap_new_subscribes self) !! id =
    match new_subscribes self !! id with
    | Some s => Some s
    | None => subscribes self !! id
    end.
Proof.
  intros (_ & H & _ & _). cbn [swap_new_subscribes subscribes with_subs].
  rewrite swap_fold.
  - by rewrite list_to_map_to_list.
  - intros i s Hi%elem_of_map_to_list. by apply H.
  - apply NoDup_fst_map_to_list.
Qed.

Lemma foldl_send_id ms s : sub_id (foldl (fun s m => sub_send m s) s ms) = sub_id s.
Proof. revert s. induction ms as [|m ms IH]; intros s; simpl; [done|]. by rewrite IH, sub_id_send. Qed.

(** Sending a snapshot through the guard reaches the new subscribers only. *)
Lemma swap_sends self ms :
  let self' := foldl (fun self m => swap_send m self) self ms in
  subscribes self' = subscribes self /\ need_snapshot self' = need_snapshot self /\
  forall id, new_subscribes self' !! id =
    (fun s => foldl (fun s m => sub_send m s) s ms) <$> new_subscribes self !! id.
Proof.
  revert self. induction ms as [|m ms IH]; intros self; simpl.
  - split_and!; [done..|]. intros id. by destruct (new_subscribes self !! id).
  - destruct (IH (swap_send m self)) as (H1 & H2 & H3). split_and!; [done..|].
    intros id. rewrite H3. simpl. rewrite lookup_fmap. by destruct (new_subscribes self !! id).
Qed.

Lemma with_subs_wf self subs news :
  (forall id s, subs !! id = Some s -> sub_id s = id) ->
  (forall id s, news !! id = Some s -> sub_id s = id) ->
  (forall id, is_Some (subs !! id) -> news !! id = None) ->
  (need_snapshot self = false -> news = ∅) ->
  hub_wf (with_subs subs news self).
Proof. intros. unfold hub_wf. by split_and!. Qed.

(** The ordinary sends: a map over the subscribers that keeps identifiers. *)
Lemma send_wf self (f : Z -> T -> T) :
  (forall id s, sub_id (f id s) = sub_id s) -> hub_wf self ->
  hub_wf (with_subs (map_imap (fun id s => Some (f id s)) (subscribes self))
            (new_subscribes self) self).
Proof.
  intros Hf (H1 & H2 & H3 & H4). apply with_subs_wf; try done.
  - intros id s. rewrite map_lookup_imap. destruct (subscribes self !! id) as [s'|] eqn:E; [|done].
    intros [= <-]. rewrite Hf. by apply H1.
  - intros id [s Hs]. rewrite map_lookup_imap in Hs.
    destruct (subscribes self !! id) as [s'|] eqn:E; [|done]. apply H3. by exists s'.
Qed.

Lemma fmap_imap (m : gmap Z T) (f : T -> T) : f <$> m = map_imap (fun _ s => Some (f s)) m.
Proof. apply map_eq. intros i. rewrite lookup_fmap, map_lookup_imap. by destruct (m !! i). Qed.

Lemma alter_imap (m : gmap Z T) (f : T -> T) id :
  alter f id m = map_imap (fun i s => Some (if decide (i = id) then f s else s)) m.
Proof.
  apply map_eq. intros i. rewrite map_lookup_imap. destruct (decide (i = id)) as [->|N].
  - rewrite lookup_alter_eq. by destruct (m !! id).
  - rewrite lookup_alter_ne by done. by destruct (m !! i).
Qed.

(** The five ways to send, as one form: which identifiers get the message. *)
Lemma imap_send self m (p : Z -> bool) :
  let self' := with_subs
    (map_imap (fun id s => Some (if p id then sub_send m s else s)) (subscribes self))
    (new_subscribes self) self in
  hub_wf self ->
  hub_wf self' /\ need_snapshot self' = need_snapshot self /\
  forall id, abs self' id = if p id then deliver m (abs self id) else abs self id.
Proof.
  intros self' H. split_and!; [|done|].
  - apply (send_wf self (fun id s => if p id then sub_send m s else s)); [|done].
    intros id s. destruct (p id); [apply sub_id_send|done].
  - intros id. unfold abs, self'. cbn [subscribes new_subscribes with_subs].
    rewrite map_lookup_imap. destruct (subscribes self !! id); simpl; [by destruct (p id)|].
    by destruct (new_subscribes self !! id), (p id).
Qed.

Lemma on_subscribe_spec self c :
  hub_wf self ->
  hub_wf (on_subscribe c self) /\ need_snapshot (on_subscribe c self) = need_snapshot self /\
  forall id, abs (on_subscribe c self) id =
    spec_step (need_snapshot self) id (abs self id) (HubSubscribe c).
Proof.
  intros W. pose proof W as (H1 & H2 & H3 & H4). unfold on_subscribe.
  destruct (subscribes self !! conn_id c) as [s|] eqn:E.
  { split_and!; try done. intros id. simpl. case_decide as D; [subst id|done].
    unfold abs. by rewrite E. }
  destruct (need_snapshot self) eqn:N; (split; [|split; [done|]]).
  - apply with_subs_wf; try done.
    + intros id s [[<- <-]|[_ Hs]]%lookup_insert_Some; [apply sub_id_from|by apply H2].
    + intros id Hs. rewrite lookup_insert_ne; [by apply H3|].
      intros <-. rewrite E in Hs. by destruct Hs.
    + congruence.
  - intros id. unfold abs. simpl. case_decide as D.
    + subst id. rewrite E, lookup_insert_eq. by destruct (new_subscribes self !! conn_id c).
    + by rewrite lookup_insert_ne.
  - apply with_subs_wf; try done.
    + intros id s [[<- <-]|[_ Hs]]%lookup_insert_Some; [apply sub_id_from|by apply H1].
    + intros id _. by rewrite H4, lookup_empty.
    + intros _. by apply H4.
  - intros id. unfold abs. simpl. case_decide as D.
    + subst id. rewrite E, lookup_insert_eq. by destruct (new_subscribes self !! conn_id c).
    + by rewrite lookup_insert_ne.
Qed.

Lemma on_unsubscribe_spec self id :
  hub_wf self ->
  hub_wf (on_unsubscribe id self) /\
  need_snapshot (on_unsubscribe id self) = need_snapshot self /\
  forall i, abs (on_unsubscribe id self) i = if decide (id = i) then Absent else abs self i.
Proof.
  intros (H1 & H2 & H3 & H4). unfold on_unsubscribe.
  destruct (subscribes self !! id) as [s|] eqn:E; (split; [|split; [done|]]).
  - apply with_subs_wf; try done.
    + intros i s' [_ ?]%lookup_delete_Some. by apply H1.
    + intros i [s' [_ ?]%lookup_delete_Some]. apply H3. by exists s'.
  - intros i. unfold abs. simpl. case_decide as D.
    + subst i. rewrite lookup_delete_eq, H3; [done|by exists s].
    + by rewrite lookup_delete_ne.
  - apply with_subs_wf; try done.
    + intros i s' [_ ?]%lookup_delete_Some. by apply H2.
    + intros i Hs. apply lookup_delete_None. right. by apply H3.
    + intros N. rewrite H4 by done. apply delete_empty.
  - intros i. unfold abs. simpl. case_decide as D.
    + subst i. by rewrite E, lookup_delete_eq.
    + by rewrite lookup_delete_ne.
Qed.

Lemma snapshot_spec self ms ok :
  hub_wf self ->
  let self' := snd (snapshot (snapshot_callback ms ok) self) in
  hub_wf self' /\ need_snapshot self' = need_snapshot self /\
  forall id, abs self' id = spec_step (need_snapshot self) id (abs self id) (HubSnapshot ms ok).
Proof.
  intros W. pose proof W as (H1 & H2 & H3 & H4). unfold snapshot.
  destruct (Z.ltb_spec 0 (Z.of_nat (size (new_subscribes self)))) as [L|L]; cbn.
  - destruct (swap_sends self ms) as (S1 & S2 & S3).
    set (self1 := foldl _ self ms) in *.
    assert (hub_wf self1) as W1.
    { unfold hub_wf. split_and!.
      - by rewrite S1.
      - intros id s. rewrite S3. destruct (new_subscribes self !! id) as [s'|] eqn:E; [|done].
        intros [= <-]. rewrite foldl_send_id. by apply H2.
      - intros id. rewrite S1, S3. by intros ->%H3.
      - rewrite S2. intros N. exfalso. rewrite H4, map_size_empty in L by done. lia. }
    pose proof (fun id => swap_lookup self1 id W1) as X. split_and!; [|done|].
    + destruct W1 as (K1 & K2 & _). unfold hub_wf. split_and!.
      * intros id s. rewrite X. destruct (new_subscribes self1 !! id) as [s'|] eqn:E.
        -- intros [= <-]. by apply K2.
        -- by apply K1.
      * intros id s. cbn. by rewrite lookup_empty.
      * intros id _. apply lookup_empty.
      * done.
    + intros id. unfold abs. rewrite X. cbn [swap_new_subscribes new_subscribes with_subs].
      rewrite lookup_empty, S1, S3.
      destruct (subscribes self !! id) as [s|] eqn:E; [by rewrite H3|].
      by destruct (new_subscribes self !! id).
  - split_and!; try done. intros id. unfold abs.
    assert (new_subscribes self = ∅) as -> by (apply map_size_empty_inv; lia).
    rewrite lookup_empty. by destruct (subscribes self !! id).
Qed.

Lemma hub_step_refines self ev :
  hub_wf self ->
  hub_wf (hub_step self ev) /\ need_snapshot (hub_step self ev) = need_snapshot self /\
  forall id, abs (hub_step self ev) id = spec_step (need_snapshot self) id (abs self id) ev.
Proof.
  intros W. destruct ev as [c|id|m|m|m id|m id|m id|ms ok|o v|]; simpl hub_step.
  - by apply on_subscribe_spec.
  - by apply on_unsubscribe_spec.
  - unfold send, send_shared. rewrite fmap_imap. by apply (imap_send self m (fun _ => true)).
  - unfold send_shared. rewrite fmap_imap. by apply (imap_send self m (fun _ => true)).
  - unfold send_to. rewrite alter_imap.
    destruct (imap_send self m (fun i => bool_decide (i = id)) W) as (A & B & C).
    match goal with |- context [with_subs ?x _ _] => replace x with
      (map_imap (fun i s => Some (if bool_decide (i = id) then sub_send m s else s))
         (subscribes self)) end.
    + split_and!; [done..|]. intros i. rewrite C. simpl.
      destruct (decide (id = i)) as [->|N]; [by rewrite bool_decide_true|by rewrite bool_decide_false].
    + apply map_eq. intros i. rewrite !map_lookup_imap.
      destruct (decide (i = id)); [by rewrite bool_decide_true|by rewrite bool_decide_false].
  - unfold send_to_others.
    destruct (imap_send self m (fun i => bool_decide (i <> id)) W) as (A & B & C).
    match goal with |- context [with_subs ?x _ _] => replace x with
      (map_imap (fun i s => Some (if bool_decide (i <> id) then sub_send m s else s))
         (subscribes self)) end.
    + split_and!; [done..|]. intros i. rewrite C. simpl.
      destruct (decide (id = i)) as [->|N]; [by rewrite bool_decide_false by tauto|by rewrite bool_decide_true by congruence].
    + apply map_eq. intros i. rewrite !map_lookup_imap.
      destruct (decide (i = id)) as [->|N]; [by rewrite bool_decide_false by tauto|by rewrite bool_decide_true].
  - unfold send_without.
    destruct (imap_send self m (fun i => bool_decide (i <> id)) W) as (A & B & C).
    match goal with |- context [with_subs ?x _ _] => replace x with
      (map_imap (fun i s => Some (if bool_decide (i <> id) then sub_send m s else s))
         (subscribes self)) end.
    + split_and!; [done..|]. intros i. rewrite C. simpl.
      destruct (decide (id = i)) as [->|N]; [by rewrite bool_decide_false by tauto|by rewrite bool_decide_true by congruence].
    + apply map_eq. intros i. rewrite !map_lookup_imap, lookup_fmap.
      destruct (subscribes self !! i) as [s|] eqn:E; simpl; [|done].
      destruct W as (H1 & _). rewrite (H1 _ _ E).
      destruct (decide (i = id)) as [->|N].
      * rewrite bool_decide_false by tauto. by rewrite Z.eqb_refl.
      * rewrite bool_decide_true by done. by rewrite (proj2 (Z.eqb_neq _ _)) by congruence.
  - by apply snapshot_spec.
  - done.
  - done.
Qed.

Lemma hub_new_wf n b : hub_wf (hub_new n b).
Proof.
  unfold hub_wf. split_and!; try done; intros id; cbn; by rewrite ?lookup_empty.
Qed.

(** C23. The hub implements one independent automaton per identifier, whatever
    the order of the calls: who subscribes to a service with snapshots gets no
    message before the next snapshot, then exactly the snapshot's messages (also
    when the snapshot's callback fails), then every message that is addressed to
    it; subscribing again changes nothing for a live subscriber; after
    unsubscribing nothing arrives. *)
Theorem hub_refines_spec name need_snap evs id :
  abs (foldl hub_step (hub_new name need_snap) evs) id =
  foldl (spec_step need_snap id) Absent evs.
Proof.
  assert (forall self, hub_wf self -> need_snapshot self = need_snap ->
    abs (foldl hub_step self evs) id = foldl (spec_step need_snap id) (abs self id) evs) as G.
  { induction evs as [|ev evs IH]; intros self W N; [done|]. simpl.
    destruct (hub_step_refines self ev W) as (W' & N' & A).
    rewrite IH by congruence. by rewrite A, N. }
  rewrite G by (try apply hub_new_wf; done). done.
Qed.

(** A video frame is sent to the live subscribers, and the set of
    connections it returns, whose acknowledgements the video service waits for,
    is the set of identifiers it was delivered to. *)
Theorem send_video_frame_targets self m id :
  hub_wf self ->
  (id ∈ fst (send_video_frame m self) <-> exists s, abs self id = Live s) /\
  abs (snd (send_video_frame m self)) id = deliver m (abs self id).
Proof.
  intros W. split.
  - unfold send_video_frame, send_video_frame_shared, abs. cbn [fst].
    rewrite elem_of_list_to_set, list_elem_of_fmap. split.
    + intros ([i s] & E & Hs%elem_of_map_to_list). simpl in E. rewrite sub_id_send in E.
      destruct W as (H1 & _). rewrite (H1 _ _ Hs) in E. subst i. exists s. by rewrite Hs.
    + intros [s Hs]. destruct (subscribes self !! id) as [s'|] eqn:E;
        [|by destruct (new_subscribes self !! id)].
      exists (id, s'). split; [|by apply elem_of_map_to_list].
      simpl. rewrite sub_id_send. destruct W as (H1 & _). symmetry. by apply H1.
  - apply (hub_step_refines self (HubSendVideo m) W).
Qed.

(** Each round of [run] after a failing callback sleeps between 30 ms and
    1 s before the next attempt: a failure within a second doubles the previous
    timeout up to the cap, a later one starts again from 30 ms. *)
Theorem run_error_backoff elapsed_ms t :
  HIBERNATE_TIMEOUT <= t <= MAX_ERROR_TIMEOUT ->
  HIBERNATE_TIMEOUT <= run_error elapsed_ms t <= MAX_ERROR_TIMEOUT /\
  (elapsed_ms <= MAX_ERROR_TIMEOUT -> run_error elapsed_ms t = Z.min (2 * t) MAX_ERROR_TIMEOUT) /\
  (MAX_ERROR_TIMEOUT < elapsed_ms -> run_error elapsed_ms t = HIBERNATE_TIMEOUT).
Proof.
  unfold run_error, HIBERNATE_TIMEOUT, MAX_ERROR_TIMEOUT. intros H.
  rewrite (wrap_small 64 (t * 2)) by (unfold in_u; lia). zbool; lia.
Qed.
End hub.

(** A subscriber that records what it is sent. *)
Definition inbox : Subscriber Z Z (Z * list Z).
Proof.
  refine {| conn_id := fun c => c; from_conn := fun c => (c, []); sub_id := fst;
            sub_send := fun m s => (fst s, snd s ++ [m]) |}; reflexivity.
Defined.

Definition hub_live : ServiceInner :=
  foldl (hub_step (Sub:=inbox)) (hub_new (T:=Z * list Z) "video" false) [HubSubscribe 4].

Lemma send_video_frame_targets_witness :
  4 ∈ fst (send_video_frame (Sub:=inbox) 9 hub_live).
Proof.
  apply (send_video_frame_targets (Sub:=inbox) hub_live 9 4).
  - apply (hub_step_refines (Sub:=inbox) (hub_new "video" false) (HubSubscribe 4)), hub_new_wf.
  - exists (4, []). vm_compute. reflexivity.
Defined.

Lemma run_error_backoff_witness : run_error 10 600 = 1000 /\ run_error 2000 600 = 30.
Proof.
  destruct (run_error_backoff 10 600) as (_ & H & _); [split; discriminate|].
  destruct (run_error_backoff 2000 600) as (_ & _ & H'); [split; discriminate|].
  split; [apply H; discriminate|apply H'; reflexivity].
Defined.
