(* ===== verification/KcpPacket.v ===== *)
(** * Packets of the KCP transport

    [libs/kcp-sys/src/packet_def.rs]: a header of 14 bytes (three little-endian
    32-bit numbers, a byte of flags and a reserved byte) before the payload.

    The source keeps a packet as one buffer and reads the header in place; here
    a packet is its header and its payload, with the conversions from and to
    the buffer.  A buffer shorter than a header makes the source's accessors
    panic, which [packet_from] reports as [None]; the receiving loops of
    [src/kcp_stream.rs] drop such datagrams before they become packets. *)

From S2P Require Import Prelude.

(** [KcpPacketHeaderFlags]. *)
(* src/libs/kcp-sys/src/packet_def.rs:9-9 KcpPacketHeaderFlags::SYN *)
Definition SYN : Z := 1.
(* src/libs/kcp-sys/src/packet_def.rs:10-10 KcpPacketHeaderFlags::ACK *)
Definition ACK : Z := 2.
(* src/libs/kcp-sys/src/packet_def.rs:11-11 KcpPacketHeaderFlags::FIN *)
Definition FIN : Z := 4.
(* src/libs/kcp-sys/src/packet_def.rs:12-12 KcpPacketHeaderFlags::DATA *)
Definition DATA : Z := 8.
(* src/libs/kcp-sys/src/packet_def.rs:13-13 KcpPacketHeaderFlags::RST *)
Definition RST : Z := 16.
(* src/libs/kcp-sys/src/packet_def.rs:15-15 KcpPacketHeaderFlags::PING *)
Definition PING : Z := 32.
(* src/libs/kcp-sys/src/packet_def.rs:16-16 KcpPacketHeaderFlags::PONG *)
Definition PONG : Z := 64.

(* src/libs/kcp-sys/src/packet_def.rs:23-31 KcpPacketHeader *)
Record KcpPacketHeader : Type := mkHeader {
  conv : Z;
  src_session_id : Z;
  dst_session_id : Z;
  flag : Z;
  rsv : Z;
}.

#[export] Instance KcpPacketHeader_eq_dec : EqDecision KcpPacketHeader.
Proof. solve_decision. Defined.

Definition header_default : KcpPacketHeader := mkHeader 0 0 0 0 0.

(** [from_bits(flag).unwrap().contains(f)]: every bit is a known flag, so
    [from_bits] never fails. *)
Definition contains (bits f : Z) : bool := Z.land bits f =? f.

(** [insert] and [remove] on a byte of flags. *)
Definition set_bits (f : Z) (v : bool) (bits : Z) : Z :=
  if v then Z.lor bits f else Z.land bits (255 - f).

Definition with_flag (h : KcpPacketHeader) (bits : Z) : KcpPacketHeader :=
  mkHeader (conv h) (src_session_id h) (dst_session_id h) bits (rsv h).

(* src/libs/kcp-sys/src/packet_def.rs:46-50 KcpPacketHeader::is_syn *)
Definition is_syn (h : KcpPacketHeader) : bool := contains (flag h) SYN.
(* src/libs/kcp-sys/src/packet_def.rs:52-56 KcpPacketHeader::is_ack *)
Definition is_ack (h : KcpPacketHeader) : bool := contains (flag h) ACK.
(* src/libs/kcp-sys/src/packet_def.rs:58-62 KcpPacketHeader::is_fin *)
Definition is_fin (h : KcpPacketHeader) : bool := contains (flag h) FIN.
(* src/libs/kcp-sys/src/packet_def.rs:64-68 KcpPacketHeader::is_data *)
Definition is_data (h : KcpPacketHeader) : bool := contains (flag h) DATA.
(* src/libs/kcp-sys/src/packet_def.rs:70-74 KcpPacketHeader::is_rst *)
Definition is_rst (h : KcpPacketHeader) : bool := contains (flag h) RST.
(* src/libs/kcp-sys/src/packet_def.rs:76-80 KcpPacketHeader::is_ping *)
Definition is_ping (h : KcpPacketHeader) : bool := contains (flag h) PING.
(* src/libs/kcp-sys/src/packet_def.rs:82-86 KcpPacketHeader::is_pong *)
Definition is_pong (h : KcpPacketHeader) : bool := contains (flag h) PONG.

(* src/libs/kcp-sys/src/packet_def.rs:88-91 KcpPacketHeader::set_conv *)
Definition set_conv (v : Z) (h : KcpPacketHeader) : KcpPacketHeader :=
  mkHeader v (src_session_id h) (dst_session_id h) (flag h) (rsv h).
(* src/libs/kcp-sys/src/packet_def.rs:93-96 KcpPacketHeader::set_src_session_id *)
Definition set_src_session_id (v : Z) (h : KcpPacketHeader) : KcpPacketHeader :=
  mkHeader (conv h) v (dst_session_id h) (flag h) (rsv h).
(* src/libs/kcp-sys/src/packet_def.rs:98-101 KcpPacketHeader::set_dst_session_id *)
Definition set_dst_session_id (v : Z) (h : KcpPacketHeader) : KcpPacketHeader :=
  mkHeader (conv h) (src_session_id h) v (flag h) (rsv h).

(* src/libs/kcp-sys/src/packet_def.rs:103-112 KcpPacketHeader::set_syn *)
Definition set_syn (v : bool) (h : KcpPacketHeader) : KcpPacketHeader :=
  with_flag h (set_bits SYN v (flag h)).
(* src/libs/kcp-sys/src/packet_def.rs:114-123 KcpPacketHeader::set_ack *)
Definition set_ack (v : bool) (h : KcpPacketHeader) : KcpPacketHeader :=
  with_flag h (set_bits ACK v (flag h)).
(* src/libs/kcp-sys/src/packet_def.rs:125-134 KcpPacketHeader::set_fin *)
Definition set_fin (v : bool) (h : KcpPacketHeader) : KcpPacketHeader :=
  with_flag h (set_bits FIN v (flag h)).
(* src/libs/kcp-sys/src/packet_def.rs:136-145 KcpPacketHeader::set_data *)
Definition set_data (v : bool) (h : KcpPacketHeader) : KcpPacketHeader :=
  with_flag h (set_bits DATA v (flag h)).
(* src/libs/kcp-sys/src/packet_def.rs:147-156 KcpPacketHeader::set_rst *)
Definition set_rst (v : bool) (h : KcpPacketHeader) : KcpPacketHeader :=
  with_flag h (set_bits RST v (flag h)).
(* src/libs/kcp-sys/src/packet_def.rs:158-167 KcpPacketHeader::set_ping *)
Definition set_ping (v : bool) (h : KcpPacketHeader) : KcpPacketHeader :=
  with_flag h (set_bits PING v (flag h)).
(* src/libs/kcp-sys/src/packet_def.rs:169-178 KcpPacketHeader::set_pong *)
Definition set_pong (v : bool) (h : KcpPacketHeader) : KcpPacketHeader :=
  with_flag h (set_bits PONG v (flag h)).

(* src/libs/kcp-sys/src/packet_def.rs:193-196 KcpPacket *)
Record KcpPacket : Type := mkPacket {
  header : KcpPacketHeader;
  payload : bytes;
}.

Definition HEADER_SIZE : Z := 14.

(** [mut_header] with an update of the header. *)
(* src/libs/kcp-sys/src/packet_def.rs:246-248 KcpPacket::mut_header *)
Definition mut_header (f : KcpPacketHeader -> KcpPacketHeader) (p : KcpPacket) : KcpPacket :=
  mkPacket (f (header p)) (payload p).

(* src/libs/kcp-sys/src/packet_def.rs:232-236 KcpPacket::new *)
Definition packet_new (body_size : nat) : KcpPacket :=
  mkPacket header_default (replicate body_size (byte.of_Z 0)).

(* src/libs/kcp-sys/src/packet_def.rs:198-202 KcpPacket::default *)
Definition packet_default : KcpPacket := packet_new 0.

(* src/libs/kcp-sys/src/packet_def.rs:238-244 KcpPacket::new_with_payload *)
Definition new_with_payload (payload : bytes) : KcpPacket :=
  mkPacket header_default payload.

(** The memory layout of the packed header. *)
Definition header_bytes (h : KcpPacketHeader) : bytes :=
  le_split 4 (conv h) ++ le_split 4 (src_session_id h) ++ le_split 4 (dst_session_id h)
  ++ le_split 1 (flag h) ++ le_split 1 (rsv h).

(* src/libs/kcp-sys/src/packet_def.rs:258-260 KcpPacket::inner *)
Definition inner (p : KcpPacket) : bytes := header_bytes (header p) ++ payload p.

(* src/libs/kcp-sys/src/packet_def.rs:262-264 KcpPacket::len *)
Definition packet_len (p : KcpPacket) : Z := zlen (inner p).

(** The field of [n] bytes at the front of the buffer, and what follows. *)
Definition field (n : nat) (b : bytes) : Z * bytes := (le_combine (take n b), drop n b).

(* src/libs/kcp-sys/src/packet_def.rs:250-256 KcpPacket::header *)
Definition packet_from (b : bytes) : option KcpPacket :=
  if zlen b <? HEADER_SIZE then None
  else
    let '(c, b) := field 4 b in
    let '(s, b) := field 4 b in
    let '(d, b) := field 4 b in
    let '(f, b) := field 1 b in
    let '(r, b) := field 1 b in
    Some (mkPacket (mkHeader c s d f r) b).

(** ** Flags *)

(** The seven flags by their name. *)
Inductive flag_name : Type := Syn | Ack | Fin | Dat | Rst | Ping | Pong.

#[export] Instance flag_name_eq_dec : EqDecision flag_name.
Proof. solve_decision. Defined.

Definition has (n : flag_name) (h : KcpPacketHeader) : bool :=
  match n with
  | Syn => is_syn h | Ack => is_ack h | Fin => is_fin h | Dat => is_data h
  | Rst => is_rst h | Ping => is_ping h | Pong => is_pong h
  end.

Definition put (n : flag_name) (v : bool) (h : KcpPacketHeader) : KcpPacketHeader :=
  match n with
  | Syn => set_syn v h | Ack => set_ack v h | Fin => set_fin v h | Dat => set_data v h
  | Rst => set_rst v h | Ping => set_ping v h | Pong => set_pong v h
  end.

Definition flag_bit (n : flag_name) : Z :=
  match n with
  | Syn => 0 | Ack => 1 | Fin => 2 | Dat => 3 | Rst => 4 | Ping => 5 | Pong => 6
  end.

Lemma contains_testbit bits i : 0 <= i -> contains bits (2 ^ i) = Z.testbit bits i.
Proof.
  intros Hi. unfold contains.
  assert (Z.land bits (2 ^ i) = if Z.testbit bits i then 2 ^ i else 0) as ->.
  { apply Z.bits_inj'. intros j Hj. rewrite Z.land_spec, Z.pow2_bits_eqb by lia.
    destruct (Z.eqb_spec i j) as [->|N].
    - rewrite andb_true_r. destruct (Z.testbit bits j) eqn:E.
      + by rewrite Z.pow2_bits_true.
      + by rewrite Z.bits_0.
    - rewrite andb_false_r. destruct (Z.testbit bits i).
      + by rewrite Z.pow2_bits_false by lia.
      + by rewrite Z.bits_0. }
  assert (0 < 2 ^ i) by (by apply Z.pow_pos_nonneg).
  destruct (Z.testbit bits i); zbool; try done; lia.
Qed.

Lemma has_testbit n h : has n h = Z.testbit (flag h) (flag_bit n).
Proof. rewrite <- contains_testbit by (by destruct n). by destruct n. Qed.

Lemma put_testbit n v h i :
  0 <= i < 8 ->
  Z.testbit (flag (put n v h)) i = if i =? flag_bit n then v else Z.testbit (flag h) i.
Proof.
  intros Hi.
  assert (i = 0 \/ i = 1 \/ i = 2 \/ i = 3 \/ i = 4 \/ i = 5 \/ i = 6 \/ i = 7) as C by lia.
  destruct n, v; cbn -[Z.testbit]; unfold set_bits; rewrite ?Z.lor_spec, ?Z.land_spec;
    repeat destruct C as [->|C]; try subst i; cbn [Z.eqb Pos.eqb flag_bit];
    match goal with |- context [Z.testbit ?c ?i] =>
      (let r := eval vm_compute in (Z.testbit c i) in
       lazymatch r with true => idtac | false => idtac end;
       change (Z.testbit c i) with r) end;
    by rewrite ?orb_true_r, ?orb_false_r, ?andb_true_r, ?andb_false_r.
Qed.

Lemma has_put n m v h : has n (put m v h) = if decide (n = m) then v else has n h.
Proof.
  rewrite !has_testbit, put_testbit by (by destruct n). by destruct n, m.
Qed.

Lemma put_fields n v h :
  conv (put n v h) = conv h /\ src_session_id (put n v h) = src_session_id h /\
  dst_session_id (put n v h) = dst_session_id h /\ rsv (put n v h) = rsv h.
Proof. by destruct n. Qed.

(** ** Well-formed packets *)

Definition header_wf (h : KcpPacketHeader) : Prop :=
  in_u 32 (conv h) /\ in_u 32 (src_session_id h) /\ in_u 32 (dst_session_id h) /\
  in_u 8 (flag h) /\ in_u 8 (rsv h).

#[export] Instance header_wf_dec h : Decision (header_wf h).
Proof. unfold header_wf. apply _. Defined.

Lemma in_u_bits w z : 0 <= w -> 0 <= z -> (forall i, w <= i -> Z.testbit z i = false) -> in_u w z.
Proof.
  intros Hw Hz H. unfold in_u. split; [done|].
  destruct (Z.lt_ge_cases z (2 ^ w)) as [|G]; [done|exfalso].
  assert (0 < z) as Hp by (pose proof (Z.pow_pos_nonneg 2 w); lia).
  pose proof (Z.log2_le_pow2 z w Hp) as [L _].
  pose proof (Z.bit_log2 z Hp) as B. rewrite H in B; [done|]. by apply L.
Qed.

Lemma bits_in_u w z i : in_u w z -> w <= i -> Z.testbit z i = false.
Proof.
  intros [H1 H2] Hi. destruct (Z.eq_dec z 0) as [->|]; [apply Z.bits_0|].
  apply Z.bits_above_log2; [done|]. apply Z.log2_lt_pow2; [lia|].
  eapply Z.lt_le_trans; [exact H2|]. apply Z.pow_le_mono_r; lia.
Qed.

Lemma put_wf n v h : header_wf h -> header_wf (put n v h).
Proof.
  intros (H1 & H2 & H3 & H4 & H5). unfold header_wf.
  destruct (put_fields n v h) as (-> & -> & -> & ->). split_and!; try done.
  assert (in_u 8 (set_bits (2 ^ flag_bit n) v (flag h))) as G; [|by destruct n].
  apply in_u_bits; [lia| |].
  - unfold set_bits. destruct H4, v; [apply Z.lor_nonneg; split; [done|by destruct n]|].
    apply Z.land_nonneg. by left.
  - intros i Hi. unfold set_bits. destruct v; rewrite ?Z.lor_spec, ?Z.land_spec,
      (bits_in_u 8 (flag h) i H4 Hi); [|done]. simpl.
    apply (bits_in_u 8); [by destruct n|done].
Qed.

(** ** Encoding *)

Lemma field_le_split n z rest :
  0 <= z < 2 ^ (8 * Z.of_nat n) -> field n (le_split n z ++ rest) = (z, rest).
Proof.
  intros H. unfold field. rewrite take_app_le_split, drop_app_le_split. by rewrite le_split_small.
Qed.

Lemma zlen_header_bytes h : zlen (header_bytes h) = HEADER_SIZE.
Proof. unfold header_bytes. rewrite !zlen_app, !zlen_le_split. done. Qed.

Lemma packet_from_inner p : header_wf (header p) -> packet_from (inner p) = Some p.
Proof.
  intros (H1 & H2 & H3 & H4 & H5). unfold packet_from, inner.
  rewrite zlen_app, zlen_header_bytes. pose proof (zlen_nonneg (payload p)).
  rewrite (proj2 (Z.ltb_ge _ _)) by lia. unfold header_bytes. rewrite <- !app_assoc.
  rewrite field_le_split by done. rewrite field_le_split by done.
  rewrite field_le_split by done. rewrite field_le_split by done.
  rewrite field_le_split by done. by destruct p as [[] ?].
Qed.

Lemma split_field n b :
  (n <= length b)%nat -> le_split n (fst (field n b)) ++ snd (field n b) = b.
Proof.
  intros H. unfold field. cbn [fst snd].
  assert (le_split n (le_combine (take n b)) = take n b) as ->.
  { rewrite <- (length_take_le b n) at 1 by done. apply split_le_combine. }
  apply take_drop.
Qed.

Lemma field_wf n b : (n <= length b)%nat -> in_u (8 * Z.of_nat n) (fst (field n b)).
Proof.
  intros H. unfold field, in_u. cbn [fst]. pose proof (le_combine_range (take n b)) as R.
  unfold zlen in R. by rewrite length_take_le in R.
Qed.

Lemma inner_packet_from b p :
  packet_from b = Some p -> inner p = b /\ header_wf (header p).
Proof.
  unfold packet_from, HEADER_SIZE. destruct (Z.ltb_spec (zlen b) 14) as [|L]; [done|].
  unfold zlen in L.
  pose proof (split_field 4 b ltac:(lia)) as S1. pose proof (field_wf 4 b ltac:(lia)) as W1.
  destruct (field 4 b) as [c b1]. cbn [fst snd] in *.
  pose proof (f_equal length S1) as L1. rewrite length_app, length_le_split in L1.
  pose proof (split_field 4 b1 ltac:(lia)) as S2. pose proof (field_wf 4 b1 ltac:(lia)) as W2.
  destruct (field 4 b1) as [s b2]. cbn [fst snd] in *.
  pose proof (f_equal length S2) as L2. rewrite length_app, length_le_split in L2.
  pose proof (split_field 4 b2 ltac:(lia)) as S3. pose proof (field_wf 4 b2 ltac:(lia)) as W3.
  destruct (field 4 b2) as [d b3]. cbn [fst snd] in *.
  pose proof (f_equal length S3) as L3. rewrite length_app, length_le_split in L3.
  pose proof (split_field 1 b3 ltac:(lia)) as S4. pose proof (field_wf 1 b3 ltac:(lia)) as W4.
  destruct (field 1 b3) as [f b4]. cbn [fst snd] in *.
  pose proof (f_equal length S4) as L4. rewrite length_app, length_le_split in L4.
  pose proof (split_field 1 b4 ltac:(lia)) as S5. pose proof (field_wf 1 b4 ltac:(lia)) as W5.
  destruct (field 1 b4) as [r b5]. cbn [fst snd] in *.
  intros [= <-]. unfold inner, header_bytes. cbn [header payload conv src_session_id
    dst_session_id flag rsv]. rewrite <- !app_assoc, S5, S4, S3, S2, S1. done.
Qed.

(** Packets and buffers of at least 14 bytes correspond one to one: reading
    back what [inner] gives returns the packet, and what is read from a buffer
    gives back the buffer; a shorter buffer has no header. *)
Theorem packet_roundtrip :
  (forall p, header_wf (header p) -> packet_from (inner p) = Some p) /\
  (forall b p, packet_from b = Some p -> inner p = b /\ header_wf (header p)) /\
  (forall b, packet_from b = None <-> zlen b < HEADER_SIZE).
Proof.
  split; [exact packet_from_inner|]. split; [exact inner_packet_from|].
  intros b. unfold packet_from. destruct (Z.ltb_spec (zlen b) HEADER_SIZE); [done|].
  cbn. split; [done|lia].
Qed.

(** The accessors of the header treat the seven flags as independent
    switches: setting one to a value makes its test answer that value and
    changes no other flag and no other field, and keeps every field within its
    width. *)
Theorem flags_independent n v h :
  has n (put n v h) = v /\ (forall m, m <> n -> has m (put n v h) = has m h) /\
  conv (put n v h) = conv h /\ src_session_id (put n v h) = src_session_id h /\
  dst_session_id (put n v h) = dst_session_id h /\ rsv (put n v h) = rsv h /\
  (header_wf h -> header_wf (put n v h)).
Proof.
  split; [by rewrite has_put, decide_True|]. split.
  { intros m N. by rewrite has_put, decide_False. }
  destruct (put_fields n v h) as (-> & -> & -> & ->). split_and!; try done. apply put_wf.
Qed.

Lemma flags_independent_witness :
  header_wf header_default /\ header_wf (put Syn true header_default).
Proof.
  assert (header_wf header_default) as H by (by repeat split).
  split; [exact H|]. apply (flags_independent Syn true header_default), H.
Defined.

Lemma packet_roundtrip_witness :
  packet_from (inner (new_with_payload [Byte.x61])) = Some (new_with_payload [Byte.x61]).
Proof. apply packet_roundtrip. by repeat split. Defined.
