(* ===== verification/KcpFsm.v ===== *)
(** * The connection state machine of the KCP transport

    [libs/kcp-sys/src/state.rs].  The machine reads and writes packets through
    the source's trait [PacketHeaderFlagManipulator]; its laws are the ones
    [KcpPacket] fulfils (flags are independent switches, a default packet has
    none). *)

From S2P Require Import Prelude KcpPacket.

(** [libs/kcp-sys/src/error.rs]; the machine raises the first two. *)
(* src/libs/kcp-sys/src/error.rs:2-19 Error *)
Inductive Error : Type :=
| InvalidState
| InvalidStateNeedRst
| ConnectioinReset
| CreateConnectionFailed
| AnyhowError
| ConnectTimeout
| Shutdown.

#[export] Instance Error_eq_dec : EqDecision Error.
Proof. solve_decision. Defined.

(* src/libs/kcp-sys/src/state.rs:4-16 PacketHeaderFlagManipulator *)
Class PacketHeaderFlagManipulator (P : Type) : Type := {
  p_default : P;
  has_flag : flag_name -> P -> bool;
  set_flag : flag_name -> bool -> P -> P;
  default_no_flag : forall n, has_flag n p_default = false;
  has_set_flag : forall n m v p,
    has_flag n (set_flag m v p) = if decide (n = m) then v else has_flag n p;
}.

(* src/libs/kcp-sys/src/endpoint.rs:293-333 PacketHeaderFlagManipulator for KcpPacket *)
Definition KcpPacket_flags : PacketHeaderFlagManipulator KcpPacket.
Proof.
  refine {|
    p_default := packet_default;
    has_flag := fun n p => has n (header p);
    set_flag := fun n v p => mut_header (put n v) p;
  |}.
  - intros n. by destruct n.
  - intros n m v p. apply has_put.
Defined.
#[export] Existing Instance KcpPacket_flags.

(* src/libs/kcp-sys/src/state.rs:18-37 KcpConnectionFSM *)
Inductive KcpConnectionFSM : Type :=
| Closed
| Listen
| SynReceived
| SynSent
| Established
| LocalClosed
| PeerClosed.

#[export] Instance KcpConnectionFSM_eq_dec : EqDecision KcpConnectionFSM.
Proof. solve_decision. Defined.

Section fsm.
Context {P : Type} `{PacketHeaderFlagManipulator P}.

(* src/libs/kcp-sys/src/state.rs:40-42 KcpConnectionFSM::listen *)
Definition fsm_listen : KcpConnectionFSM := Listen.

(* src/libs/kcp-sys/src/state.rs:44-47 KcpConnectionFSM::connect *)
Definition fsm_connect (out_packet : P) : KcpConnectionFSM * P :=
  (SynSent, set_flag Syn true out_packet).

(* src/libs/kcp-sys/src/state.rs:49-61 KcpConnectionFSM::close *)
Definition fsm_close (self : KcpConnectionFSM) (out_packet : P)
    : result Error unit * KcpConnectionFSM * P :=
  (Ok tt,
   match self with Established => LocalClosed | _ => Closed end,
   set_flag Fin true out_packet).

(* src/libs/kcp-sys/src/state.rs:63-76 KcpConnectionFSM::check_packet_flag *)
Definition check_packet_flag (packet : P) (syn ack fin rst data : bool) : bool :=
  eqb (has_flag Syn packet) syn && eqb (has_flag Ack packet) ack &&
  eqb (has_flag Fin packet) fin && eqb (has_flag Rst packet) rst &&
  eqb (has_flag Dat packet) data.

(* src/libs/kcp-sys/src/state.rs:78-164 KcpConnectionFSM::do_handle_packet *)
Definition do_handle_packet (self : KcpConnectionFSM) (packet : P) (out : option P)
    : result Error unit * KcpConnectionFSM * option P :=
  let p := p_default in
  match self with
  | Closed => (Err InvalidStateNeedRst, self, out)
  | Listen =>
      if check_packet_flag packet true false false false false
      then (Ok tt, SynReceived, Some (set_flag Ack true (set_flag Syn true p)))
      else (Err InvalidStateNeedRst, self, out)
  | SynReceived =>
      if check_packet_flag packet false true false false true then (Ok tt, Established, out)
      else if has_flag Rst packet then (Err InvalidState, Closed, out)
      else if has_flag Fin packet then (Err InvalidStateNeedRst, Closed, out)
      else (Err InvalidStateNeedRst, self, out)
  | SynSent =>
      if check_packet_flag packet true true false false false
      then (Ok tt, Established, Some (set_flag Dat true (set_flag Ack true p)))
      else if has_flag Rst packet then (Err InvalidState, Closed, out)
      else if has_flag Fin packet then (Err InvalidStateNeedRst, Closed, out)
      else (Err InvalidStateNeedRst, self, out)
  | Established =>
      if check_packet_flag packet false true false false true then (Ok tt, self, out)
      else if has_flag Rst packet then (Err InvalidState, Closed, out)
      else if has_flag Fin packet then (Ok tt, PeerClosed, out)
      else (Err InvalidStateNeedRst, self, out)
  | LocalClosed =>
      if has_flag Fin packet then (Ok tt, Closed, out)
      else if has_flag Rst packet then (Err InvalidState, Closed, out)
      else if has_flag Dat packet then (Ok tt, self, out)
      else (Err InvalidState, self, out)
  | PeerClosed =>
      if has_flag Rst packet then (Err InvalidState, Closed, out)
      else (Err InvalidState, self, out)
  end.

(* src/libs/kcp-sys/src/state.rs:166-178 KcpConnectionFSM::handle_packet *)
Definition fsm_handle_packet (self : KcpConnectionFSM) (packet : P) (out : option P)
    : result Error unit * KcpConnectionFSM * option P :=
  match do_handle_packet self packet out with
  | (Err InvalidStateNeedRst, self, _) =>
      (Err InvalidStateNeedRst, self, Some (set_flag Rst true p_default))
  | r => r
  end.

(** ** Transitions *)

(** The state a packet leads to. *)
Definition fsm_next (self : KcpConnectionFSM) (packet : P) : KcpConnectionFSM :=
  snd (fst (fsm_handle_packet self packet None)).

(** What the packet is, as far as the machine looks. *)
Definition is_exactly (packet : P) (flags : list flag_name) : bool :=
  forallb (fun n => eqb (has_flag n packet) (bool_decide (n ∈ flags))) [Syn; Ack; Fin; Rst; Dat].

Lemma check_is_exactly packet s a f r d :
  check_packet_flag packet s a f r d = true <->
  has_flag Syn packet = s /\ has_flag Ack packet = a /\ has_flag Fin packet = f /\
  has_flag Rst packet = r /\ has_flag Dat packet = d.
Proof. unfold check_packet_flag. rewrite !andb_true_iff, !eqb_true_iff. tauto. Qed.

(** The transitions packets can cause, as a relation. *)
Inductive fsm_step : KcpConnectionFSM -> P -> KcpConnectionFSM -> Prop :=
| step_syn p : is_exactly p [Syn] = true -> fsm_step Listen p SynReceived
| step_ack p : is_exactly p [Ack; Dat] = true -> fsm_step SynReceived p Established
| step_synack p : is_exactly p [Syn; Ack] = true -> fsm_step SynSent p Established
| step_rst s p : has_flag Rst p = true -> s <> Listen -> s <> Closed -> fsm_step s p Closed
| step_fin s p :
    has_flag Fin p = true -> has_flag Rst p = false -> s = SynReceived \/ s = SynSent ->
    fsm_step s p Closed
| step_peer p :
    has_flag Fin p = true -> has_flag Rst p = false -> fsm_step Established p PeerClosed
| step_last p : has_flag Fin p = true -> fsm_step LocalClosed p Closed.

Ltac fsm_cases packet :=
  unfold fsm_next, fsm_handle_packet, do_handle_packet, check_packet_flag, is_exactly in *;
  cbn [forallb] in *;
  destruct (has_flag Syn packet) eqn:?, (has_flag Ack packet) eqn:?, (has_flag Fin packet) eqn:?,
    (has_flag Rst packet) eqn:?, (has_flag Dat packet) eqn:?.

Lemma fsm_next_step self packet :
  fsm_next self packet <> self -> fsm_step self packet (fsm_next self packet).
Proof.
  intros Hn. destruct self; fsm_cases packet; cbn in *; try done;
    try (apply step_rst; done); try (apply step_fin; auto; done);
    try (apply step_peer; done); try (apply step_last; done);
    [apply step_syn|apply step_ack|apply step_synack]; unfold is_exactly; cbn [forallb];
    repeat match goal with E : has_flag _ _ = _ |- _ => rewrite E; clear E end; done.
Qed.

Lemma fsm_step_next self packet self' :
  fsm_step self packet self' -> fsm_next self packet = self' /\ self' <> self.
Proof.
  intros Hs. destruct Hs as [p Hp|p Hp|p Hp|s p Hr H1 H2|s p Hf Hr [->| ->]|p Hf Hr|p Hf];
    try (destruct s); fsm_cases p; cbn in *; done.
Qed.

(** The machine changes its state exactly along the transitions of
    [fsm_step] (a handshake in either role, a reset, a half close and the
    closing of the other half), and is otherwise left alone by packets; so
    a connection is established only by the packet that its side of the
    handshake expects, and a closed one stays closed. *)
Theorem fsm_transitions self packet self' :
  (fsm_step self packet self' <-> fsm_next self packet = self' /\ self' <> self) /\
  (fsm_next self packet = Established -> self <> Established ->
     (self = SynReceived /\ is_exactly packet [Ack; Dat] = true) \/
     (self = SynSent /\ is_exactly packet [Syn; Ack] = true)) /\
  fsm_next Closed packet = Closed.
Proof.
  split; [split; [apply fsm_step_next|]|split; [|done]].
  - intros [<- N]. by apply fsm_next_step.
  - intros E N. assert (fsm_step self packet Established) as S.
    { rewrite <- E. apply fsm_next_step. by rewrite E. }
    inversion S; subst; auto.
Qed.

(** The answer to a packet: the flags it carries are fixed by the case. *)
Lemma fsm_out self packet r self' out :
  fsm_handle_packet self packet None = (r, self', out) ->
  match out with
  | None => r <> Err InvalidStateNeedRst
  | Some o =>
      (r = Err InvalidStateNeedRst /\ o = set_flag Rst true p_default) \/
      (r = Ok tt /\ self = Listen /\ self' = SynReceived /\ is_exactly packet [Syn] = true /\
       o = set_flag Ack true (set_flag Syn true p_default)) \/
      (r = Ok tt /\ self = SynSent /\ self' = Established /\
       is_exactly packet [Syn; Ack] = true /\
       o = set_flag Dat true (set_flag Ack true p_default))
  end.
Proof.
  destruct self; fsm_cases packet; cbn; intros [= <- <- <-]; try done; try (by left);
    [right; left|right; right]; split_and!; try done; unfold is_exactly; cbn [forallb];
    repeat match goal with E : has_flag _ _ = _ |- _ => rewrite E; clear E end; done.
Qed.
End fsm.
