(* ===== verification/KcpEndpoint.v ===== *)
(** * Endpoints of the KCP transport

    [libs/kcp-sys/src/endpoint.rs]: an endpoint keeps, per connection
    identifier, the state of the handshake ([state_map]) and, once established,
    the connection ([conn_map]).  The KCP protocol control block itself is C
    code behind a foreign interface: it is the parameter [K].

    Each asynchronous task is given by one round: [input_step] for the receiving
    task, [clean_step] and [ping_step] for the periodic ones, [close_watch] for
    the watcher of a connection.  [connect] is split at its [await]: the packet
    it sends, and what it does when it was notified or timed out.  What a
    round sends is its list of packets; [now] is in nanoseconds. *)

From S2P Require Import Prelude KcpPacket KcpFsm.

(* src/libs/kcp-sys/src/endpoint.rs:29-34 ConnId *)
Record ConnId : Type := mkConnId {
  c_conv : Z;
  c_src : Z;
  c_dst : Z;
}.

#[export] Instance ConnId_eq_dec : EqDecision ConnId.
Proof. solve_decision. Defined.

#[export] Instance ConnId_countable : Countable ConnId.
Proof.
  refine (inj_countable' (fun c => (c_conv c, c_src c, c_dst c))
    (fun t => let '(a, b, c) := t in mkConnId a b c) _).
  by intros [].
Defined.

(* src/libs/kcp-sys/src/endpoint.rs:36-44 ConnId::from *)
Definition conn_id_of (p : KcpPacket) : ConnId :=
  mkConnId (conv (header p)) (src_session_id (header p)) (dst_session_id (header p)).

(* src/libs/kcp-sys/src/endpoint.rs:47-53 ConnId::fill_packet_header *)
Definition fill_packet_header (self : ConnId) (p : KcpPacket) : KcpPacket :=
  mut_header (fun h => set_dst_session_id (c_dst self)
                         (set_src_session_id (c_src self) (set_conv (c_conv self) h))) p.

(** ** The state of a connection *)

(* src/libs/kcp-sys/src/endpoint.rs:335-340 KcpConnectionState *)
Record KcpConnectionState : Type := mkState {
  fsm : KcpConnectionFSM;
  notified : bool;
  conn_data : bytes;
  last_pong : Z;
}.

(* src/libs/kcp-sys/src/endpoint.rs:351-358 KcpConnectionState::new *)
Definition state_new (now : Z) (f : KcpConnectionFSM) : KcpConnectionState :=
  mkState f false [] now.

(* src/libs/kcp-sys/src/endpoint.rs:398-400 KcpConnectionState::set_data *)
Definition state_set_data (data : bytes) (s : KcpConnectionState) : KcpConnectionState :=
  mkState (fsm s) (notified s) data (last_pong s).

(* src/libs/kcp-sys/src/endpoint.rs:402-404 KcpConnectionState::notify_pong *)
Definition notify_pong (now : Z) (s : KcpConnectionState) : KcpConnectionState :=
  mkState (fsm s) (notified s) (conn_data s) now.

(* src/libs/kcp-sys/src/endpoint.rs:406-408 KcpConnectionState::is_pong_timeout *)
Definition is_pong_timeout (now : Z) (s : KcpConnectionState) : bool :=
  60 * 1000000000 <? Z.max 0 (now - last_pong s).

(* src/libs/kcp-sys/src/endpoint.rs:360-370 KcpConnectionState::handle_packet *)
Definition state_handle_packet (now : Z) (s : KcpConnectionState) (packet : KcpPacket)
    : option KcpPacket * KcpConnectionState :=
  let s := notify_pong now s in
  let '(_, f, out) := fsm_handle_packet (fsm s) packet None in
  if decide (fsm s = f) then (None, s)
  else (out, mkState f true (conn_data s) (last_pong s)).

(* src/libs/kcp-sys/src/endpoint.rs:376-378 KcpConnectionState::is_established *)
Definition is_established (s : KcpConnectionState) : bool :=
  bool_decide (fsm s = Established).

(* src/libs/kcp-sys/src/endpoint.rs:380-385 KcpConnectionState::is_peer_closed *)
Definition is_peer_closed (s : KcpConnectionState) : bool :=
  match fsm s with PeerClosed | Closed => true | _ => false end.

(* src/libs/kcp-sys/src/endpoint.rs:387-392 KcpConnectionState::is_local_closed *)
Definition is_local_closed (s : KcpConnectionState) : bool :=
  match fsm s with LocalClosed | Closed => true | _ => false end.

(* src/libs/kcp-sys/src/endpoint.rs:394-396 KcpConnectionState::is_closed *)
Definition is_closed (s : KcpConnectionState) : bool := bool_decide (fsm s = Closed).

(** The KCP control block. *)
Class KcpBlock (K : Type) : Type := {
  kcp_new : Z -> result Error K;
  kcp_input : bytes -> K -> result Error K;
}.

Section endpoint.
Context {K : Type} `{KcpBlock K}.

(* src/libs/kcp-sys/src/endpoint.rs:65-81 KcpConnection *)
Record KcpConnection : Type := mkConn {
  k_id : ConnId;
  k_kcp : K;
  k_has_new_input : bool;
  k_send_sender : bool;
  k_recv_receiver : bool;
  k_recv_closed : bool;
}.

(* src/libs/kcp-sys/src/endpoint.rs:84-114 KcpConnection::new *)
Definition connection_new (id : ConnId) : result Error KcpConnection :=
  k ← kcp_new (c_conv id); Ok (mkConn id k false true true false).

(* src/libs/kcp-sys/src/endpoint.rs:259-266 KcpConnection::handle_input *)
Definition handle_input (c : KcpConnection) (packet : KcpPacket) : result Error KcpConnection :=
  k ← kcp_input (payload packet) (k_kcp c);
  Ok (mkConn (k_id c) k true (k_send_sender c) (k_recv_receiver c) (k_recv_closed c)).

(* src/libs/kcp-sys/src/endpoint.rs:280-284 KcpConnection::close_recv *)
Definition close_recv (c : KcpConnection) : KcpConnection :=
  mkConn (k_id c) (k_kcp c) (k_has_new_input c) (k_send_sender c) (k_recv_receiver c) true.

(** The callback that turns what the control block outputs into a packet. *)
(* src/libs/kcp-sys/src/endpoint.rs:120-129 KcpConnection::run *)
Definition output_packet (id : ConnId) (data : bytes) : KcpPacket :=
  mut_header (fun h => set_ack true (set_data true h))
    (fill_packet_header id (new_with_payload data)).

(** [KcpEndpointData], with the queue of new connections (capacity 4). *)
(* src/libs/kcp-sys/src/endpoint.rs:411-415 KcpEndpointData *)
Record Endpoint : Type := mkEndpoint {
  cur_conv : Z;
  conn_map : gmap ConnId KcpConnection;
  state_map : gmap ConnId KcpConnectionState;
  new_conns : list ConnId;
}.

(* src/libs/kcp-sys/src/endpoint.rs:418-424 KcpEndpointData::new *)
Definition endpoint_new (rand : Z) : Endpoint := mkEndpoint rand ∅ ∅ [].

Definition with_state (m : gmap ConnId KcpConnectionState) (e : Endpoint) : Endpoint :=
  mkEndpoint (cur_conv e) (conn_map e) m (new_conns e).

Definition with_conns (m : gmap ConnId KcpConnection) (e : Endpoint) : Endpoint :=
  mkEndpoint (cur_conv e) m (state_map e) (new_conns e).

(** ** The receiving task *)

(* src/libs/kcp-sys/src/endpoint.rs:482-519 KcpEndpoint::try_handle_pingpong *)
Definition try_handle_pingpong (now : Z) (e : Endpoint) (packet : KcpPacket)
    : bool * Endpoint * list KcpPacket :=
  let hdr := header packet in
  let id := conn_id_of packet in
  let outs :=
    if is_ping hdr && negb (is_pong hdr) then
      let need_send_pong :=
        match state_map e !! id with Some s => negb (is_local_closed s) | None => false end in
      [if need_send_pong then mut_header (set_pong true) packet
       else mut_header (set_rst true) (mut_header (set_ping false) packet)]
    else [] in
  (is_ping hdr, with_state (alter (notify_pong now) id (state_map e)) e, outs).

(** The data of a packet is handed to the connection's control block. *)
(* src/libs/kcp-sys/src/endpoint.rs:539-557 KcpEndpoint::run *)
Definition input_data (e : Endpoint) (packet : KcpPacket) : Endpoint :=
  let id := conn_id_of packet in
  if is_data (header packet) && (0 <? zlen (payload packet)) then
    match conn_map e !! id with
    | Some c =>
        match handle_input c packet with
        | Ok c => with_conns (<[id := c]> (conn_map e)) e
        | Err _ => e
        end
    | None => e
    end
  else e.

(** [try_send] on the queue of new connections. *)
Definition push_new_conn (id : ConnId) (e : Endpoint) : Endpoint :=
  if zlen (new_conns e) <? 4
  then mkEndpoint (cur_conv e) (conn_map e) (state_map e) (new_conns e ++ [id])
  else e.

(** The part of the task that drives the state machine. *)
(* src/libs/kcp-sys/src/endpoint.rs:559-617 KcpEndpoint::run *)
Definition input_state (now : Z) (e : Endpoint) (packet : KcpPacket)
    : Endpoint * list KcpPacket :=
  let id := conn_id_of packet in
  match state_map e !! id with
  | None =>
      if is_rst (header packet) then (e, [])
      else
        let '(res, f, out) := fsm_handle_packet fsm_listen packet None in
        let e :=
          if is_ok res
          then with_state (<[id := state_set_data (payload packet) (state_new now f)]>
                             (state_map e)) e
          else e in
        (e, fill_packet_header id <$> option_list out)
  | Some s =>
      let prev_established := is_established s in
      let '(out, s) := state_handle_packet now s packet in
      let e := with_state (<[id := s]> (state_map e)) e in
      let e := if negb prev_established && is_established s then push_new_conn id e else e in
      let e := if is_peer_closed s
               then with_conns (alter close_recv id (conn_map e)) e else e in
      let e := if is_closed s then with_conns (delete id (conn_map e)) e else e in
      (e, fill_packet_header id <$> option_list out)
  end.

(* src/libs/kcp-sys/src/endpoint.rs:532-618 KcpEndpoint::run *)
Definition input_step (now : Z) (e : Endpoint) (packet : KcpPacket)
    : Endpoint * list KcpPacket :=
  let '(handled, e, outs) := try_handle_pingpong now e packet in
  if handled then (e, outs)
  else
    let '(e, outs') := input_state now (input_data e packet) packet in
    (e, outs ++ outs').

(** ** The periodic tasks *)

(* src/libs/kcp-sys/src/endpoint.rs:625-634 KcpEndpoint::run *)
Definition clean_step (now : Z) (e : Endpoint) : Endpoint :=
  let states := filter (fun p => fsm (snd p) <> Closed /\ is_pong_timeout now (snd p) = false)
                  (state_map e) in
  let conns := filter (fun p => is_Some (states !! fst p)) (conn_map e) in
  mkEndpoint (cur_conv e) conns states (new_conns e).

(* src/libs/kcp-sys/src/endpoint.rs:639-666 KcpEndpoint::run *)
Definition ping_step (e : Endpoint) : list KcpPacket :=
  omap (fun p =>
    if is_closed (snd p) then None
    else Some (mut_header (set_ping true) (fill_packet_header (fst p) (packet_new 0))))
    (map_to_list (state_map e)).

(** ** Opening, accepting and closing connections *)

(* src/libs/kcp-sys/src/endpoint.rs:669-714 KcpEndpoint::add_conn *)
Definition add_conn (e : Endpoint) (id : ConnId) : result Error unit * Endpoint :=
  match connection_new id with
  | Ok c => (Ok tt, with_conns (<[id := c]> (conn_map e)) e)
  | Err x => (Err x, e)
  end.

(** The watcher [add_conn] spawns, when the connection's sender was dropped and
    everything was acknowledged, or the connection itself was dropped. *)
(* src/libs/kcp-sys/src/endpoint.rs:680-711 KcpEndpoint::add_conn *)
Definition close_watch (e : Endpoint) (id : ConnId) : Endpoint * list KcpPacket :=
  match state_map e !! id with
  | None => (e, [])
  | Some s =>
      let '(_, f, out) := fsm_close (fsm s) (packet_new 0) in
      let e := with_state (<[id := mkState f (notified s) (conn_data s) (last_pong s)]>
                             (state_map e)) e in
      let e := if bool_decide (f = Closed) then with_conns (delete id (conn_map e)) e else e in
      (e, [fill_packet_header id out])
  end.

(* src/libs/kcp-sys/src/endpoint.rs:728-742 KcpEndpoint::conn_sender_receiver *)
Definition conn_sender_receiver (e : Endpoint) (id : ConnId) : bool * Endpoint :=
  match conn_map e !! id with
  | None => (false, e)
  | Some c =>
      let set s r := with_conns (<[id := mkConn (k_id c) (k_kcp c) (k_has_new_input c) s r
                                           (k_recv_closed c)]> (conn_map e)) e in
      if k_send_sender c then
        (k_recv_receiver c, set false false)
      else (false, e)
  end.

(* src/libs/kcp-sys/src/endpoint.rs:744-747 KcpEndpoint::conn_data *)
Definition get_conn_data (e : Endpoint) (id : ConnId) : option bytes :=
  conn_data <$> state_map e !! id.

(** The loop that looks for an unused number; [fetch_add] wraps. *)
(* src/libs/kcp-sys/src/endpoint.rs:758-771 KcpEndpoint::connect *)
Fixpoint pick_conn (fuel : nat) (cur src dst : Z) (used : gmap ConnId KcpConnectionState)
    : option (ConnId * Z) :=
  match fuel with
  | O => None
  | S fuel =>
      let id := mkConnId cur src dst in
      match used !! id with
      | None => Some (id, u32 (cur + 1))
      | Some _ => pick_conn fuel (u32 (cur + 1)) src dst used
      end
  end.

(** One candidate more than there are states is enough. *)
(* src/libs/kcp-sys/src/endpoint.rs:750-785 KcpEndpoint::connect *)
Definition connect_start (now : Z) (e : Endpoint) (src dst : Z) (data : bytes)
    : option (ConnId * Endpoint * KcpPacket) :=
  '(id, cur) ← pick_conn (S (size (state_map e))) (cur_conv e) src dst (state_map e);
  let '(f, out) := fsm_connect (new_with_payload data) in
  let s := state_set_data data (state_new now f) in
  Some (id, mkEndpoint cur (conn_map e) (<[id := s]> (state_map e)) (new_conns e),
        fill_packet_header id out).

(* src/libs/kcp-sys/src/endpoint.rs:787-804 KcpEndpoint::connect *)
Definition connect_finish (e : Endpoint) (id : ConnId) (timed_out : bool)
    : result Error ConnId * Endpoint :=
  if timed_out then (Err ConnectTimeout, with_state (delete id (state_map e)) e)
  else
    match state_map e !! id with
    | Some s =>
        if decide (fsm s = Established) then
          match add_conn e id with
          | (Ok _, e) => (Ok id, e)
          | (Err x, e) => (Err x, e)
          end
        else (Err AnyhowError, with_state (delete id (state_map e)) e)
    | None => (Err AnyhowError, e)
    end.

(** The loop of [accept] over what is queued; [None]: it waits for more. *)
(* src/libs/kcp-sys/src/endpoint.rs:810-824 KcpEndpoint::accept *)
Fixpoint accept_loop (e : Endpoint) (queue : list ConnId)
    : option (result Error ConnId) * Endpoint :=
  let pop rest e := mkEndpoint (cur_conv e) (conn_map e) (state_map e) rest in
  match queue with
  | [] => (None, pop [] e)
  | id :: rest =>
      match state_map e !! id with
      | None => accept_loop e rest
      | Some s =>
          if decide (fsm s = Established) then
            match add_conn (pop rest e) id with
            | (Ok _, e) => (Some (Ok id), e)
            | (Err x, e) => (Some (Err x), e)
            end
          else accept_loop e rest
      end
  end.

(* src/libs/kcp-sys/src/endpoint.rs:807-825 KcpEndpoint::accept *)
Definition accept (e : Endpoint) : option (result Error ConnId) * Endpoint :=
  accept_loop e (new_conns e).

(** ** Flags of the packets that are sent *)

Lemma has_fill n id p : has n (header (fill_packet_header id p)) = has n (header p).
Proof. by destruct n. Qed.

Lemma conn_id_fill id p : conn_id_of (fill_packet_header id p) = id.
Proof. by destruct id. Qed.

Lemma conn_id_mut n v p : conn_id_of (mut_header (put n v) p) = conn_id_of p.
Proof. by destruct n. Qed.

(** How many more packets an exchange that starts with this one can have: a
    request to connect can be answered, the answer can be acknowledged, and the
    acknowledgement can be refused; resets and pongs end it. *)
Definition reply_rank (p : KcpPacket) : nat :=
  if has Ping (header p) then if has Pong (header p) then 0 else 1
  else if has Rst (header p) then 0
  else if is_exactly p [Syn] then 3
  else if is_exactly p [Syn; Ack] then 2
  else 1.

Lemma reply_rank_fill id p : reply_rank (fill_packet_header id p) = reply_rank p.
Proof. reflexivity. Qed.

Lemma is_exactly_rst p l : is_exactly p l = true -> Rst ∉ l -> has Rst (header p) = false.
Proof.
  unfold is_exactly. cbn [forallb]. rewrite !andb_true_iff, !eqb_true_iff.
  intros (_ & _ & _ & E & _) N. etransitivity; [exact E|]. by apply bool_decide_false.
Qed.

Lemma exactly_ranks p :
  has Ping (header p) = false ->
  (is_exactly p [Syn] = true -> reply_rank p = 3%nat) /\
  (is_exactly p [Syn; Ack] = true -> reply_rank p = 2%nat) /\
  (has Rst (header p) = false -> (1 <= reply_rank p)%nat).
Proof.
  intros Hp. unfold reply_rank. rewrite Hp. split_and!.
  - intros E. pose proof (is_exactly_rst _ _ E ltac:(set_solver)) as ->. by rewrite E.
  - intros E. pose proof (is_exactly_rst _ _ E ltac:(set_solver)) as ->. rewrite E.
    destruct (is_exactly p [Syn]) eqn:E'; [exfalso|done].
    unfold is_exactly in E, E'. cbn [forallb] in E, E'.
    rewrite !andb_true_iff, !eqb_true_iff in E, E'.
    destruct E as (_ & E & _), E' as (_ & E' & _). rewrite E in E'. by vm_compute in E'.
  - intros ->. by destruct (is_exactly p [Syn]), (is_exactly p [Syn; Ack]); simpl; lia.
Qed.

(** What the state machine answers, when it changed or is new, ranks lower. *)
Lemma fsm_reply_rank f packet r f' o :
  has Ping (header packet) = false ->
  fsm_handle_packet f packet None = (r, f', Some o) ->
  f <> f' \/ has Rst (header packet) = false ->
  (reply_rank o < reply_rank packet)%nat.
Proof.
  intros Hp E Hc. destruct (exactly_ranks packet Hp) as (R3 & R2 & R1).
  destruct (fsm_out _ _ _ _ _ E) as [[-> ->]|[(_ & _ & _ & X & ->)|(_ & _ & _ & X & ->)]].
  - assert (has Rst (header packet) = false) as Hr.
    { destruct Hc as [Hc|]; [|done]. apply not_true_iff_false. intros Hr.
      change (has_flag Rst packet = true) in Hr. revert E.
      unfold fsm_handle_packet, do_handle_packet, check_packet_flag. rewrite Hr.
      rewrite !andb_false_r. destruct f; cbn; try (by intros [=]; congruence);
        repeat case_match; intros [=]; congruence. }
    specialize (R1 Hr). change (0 < reply_rank packet)%nat. lia.
  - rewrite (R3 X). vm_compute. lia.
  - rewrite (R2 X). vm_compute. lia.
Qed.

Lemma rank_ping_answers p :
  has Ping (header p) = true ->
  reply_rank (mut_header (set_pong true) p) = 0%nat /\
  reply_rank (mut_header (set_rst true) (mut_header (set_ping false) p)) = 0%nat.
Proof.
  intros Hp. unfold reply_rank.
  change (header (mut_header (set_pong true) p)) with (put Pong true (header p)).
  change (header (mut_header (set_rst true) (mut_header (set_ping false) p)))
    with (put Rst true (put Ping false (header p))).
  rewrite !has_put, Hp. done.
Qed.

(** An endpoint answers a packet with at most one packet, for the same
    connection, and the answer's rank is lower: a reset or a pong is never
    answered, so two endpoints exchange at most four packets about one packet,
    whatever their states; in particular resets do not provoke resets. *)
Theorem replies_end now e packet e' outs :
  input_step now e packet = (e', outs) ->
  (length outs <= 1)%nat /\
  forall o, o ∈ outs ->
    conn_id_of o = conn_id_of packet /\ (reply_rank o < reply_rank packet <= 3)%nat.
Proof.
  assert (reply_rank packet <= 3)%nat as R3
    by (unfold reply_rank; repeat case_match; lia).
  unfold input_step, try_handle_pingpong.
  destruct (is_ping (header packet)) eqn:Ep; cbn [andb negb].
  - intros [= _ <-]. destruct (is_pong (header packet)) eqn:Eo; cbn [negb].
    { split; [simpl; lia|]. intros o. by rewrite elem_of_nil. }
    split; [simpl; lia|]. intros o ->%list_elem_of_singleton.
    assert (reply_rank packet = 1%nat) as R1
      by (unfold reply_rank; cbn [has]; by rewrite Ep, Eo).
    destruct (rank_ping_answers packet Ep) as [P1 P2].
    set (b := match _ with Some s => _ | None => _ end).
    destruct b; rewrite R1, ?P1, ?P2; (split; [done|lia]).
  - set (e1 := input_data _ packet). unfold input_state.
    destruct (state_map e1 !! conn_id_of packet) as [s|] eqn:Es.
    + unfold state_handle_packet.
      destruct (fsm_handle_packet _ packet None) as [[r f] out] eqn:Ef.
      case_decide as D.
      { intros [= _ <-]. split; [simpl; lia|]. intros o. by rewrite elem_of_nil. }
      intros [= _ <-]. destruct out as [o'|]; cbn.
      * split; [lia|]. intros o ->%list_elem_of_singleton.
        rewrite conn_id_fill, reply_rank_fill. split; [done|].
        pose proof (fsm_reply_rank _ _ _ _ _ Ep Ef (or_introl D)). lia.
      * split; [lia|]. intros o. by rewrite elem_of_nil.
    + destruct (is_rst (header packet)) eqn:Er.
      { intros [= _ <-]. split; [simpl; lia|]. intros o. by rewrite elem_of_nil. }
      destruct (fsm_handle_packet _ packet None) as [[r f] out] eqn:Ef.
      intros [= _ <-]. destruct out as [o'|]; cbn.
      * split; [lia|]. intros o ->%list_elem_of_singleton.
        rewrite conn_id_fill, reply_rank_fill. split; [done|].
        pose proof (fsm_reply_rank _ _ _ _ _ Ep Ef (or_intror Er)). lia.
      * split; [lia|]. intros o. by rewrite elem_of_nil.
Qed.

(** ** Choosing an identifier *)

Lemma pick_conn_spec fuel cur src dst used id cur' :
  in_u 32 cur -> pick_conn fuel cur src dst used = Some (id, cur') ->
  used !! id = None /\ c_src id = src /\ c_dst id = dst /\ in_u 32 (c_conv id) /\
  cur' = u32 (c_conv id + 1).
Proof.
  revert cur. induction fuel as [|fuel IH]; intros cur Hc; simpl; [done|].
  destruct (used !! mkConnId cur src dst) eqn:E.
  - intros Hp. apply IH in Hp; [done|]. apply wrap_range. lia.
  - intros [= <- <-]. by split_and!.
Qed.

(** If the first [n] candidates are taken, there are at least [n] states. *)
Lemma pick_conn_none fuel cur src dst used :
  in_u 32 cur -> pick_conn fuel cur src dst used = None ->
  forall k, (k < fuel)%nat -> is_Some (used !! mkConnId (u32 (cur + Z.of_nat k)) src dst).
Proof.
  revert cur. induction fuel as [|fuel IH]; intros cur Hc; simpl; [lia|].
  destruct (used !! mkConnId cur src dst) as [st|] eqn:E; [|done]. intros Hp [|k] Hk.
  - rewrite Z.add_0_r, wrap_small by done. by rewrite E.
  - specialize (IH _ (wrap_range 32 (cur + 1) ltac:(lia)) Hp k ltac:(lia)).
    replace (u32 (cur + Z.of_nat (S k))) with (u32 (u32 (cur + 1) + Z.of_nat k)); [done|].
    unfold wrap. rewrite Zplus_mod_idemp_l. f_equal. lia.
Qed.

Lemma pick_conn_total cur src dst used :
  in_u 32 cur -> Z.of_nat (size used) < 2 ^ 32 ->
  pick_conn (S (size used)) cur src dst used <> None.
Proof.
  intros Hc Hs Hp. set (n := S (size used)) in *.
  pose proof (pick_conn_none _ _ _ _ _ Hc Hp) as Hall.
  set (ids := (fun k => mkConnId (u32 (cur + Z.of_nat k)) src dst) <$> seq 0 n).
  assert (NoDup ids) as Hnd.
  { apply NoDup_fmap_2_strong; [|apply NoDup_seq].
    intros x y Hx%elem_of_seq Hy%elem_of_seq [= E]. unfold wrap in E.
    assert (Z.of_nat x < 2 ^ 32 /\ Z.of_nat y < 2 ^ 32) as [Bx By] by lia.
    clear -E Bx By. zdm. }
  assert (list_to_set ids ⊆ dom used) as Hsub.
  { intros id Hid. apply elem_of_list_to_set, list_elem_of_fmap in Hid as (i & -> & Hk%elem_of_seq).
    apply elem_of_dom, Hall. lia. }
  apply subseteq_size in Hsub. rewrite size_list_to_set, size_dom in Hsub by done.
  unfold ids in Hsub. rewrite length_fmap, length_seq in Hsub. lia.
Qed.

(** The search for a connection number ends: with fewer than [2^32] states
    it finds, within one candidate more than there are states, a number that no
    state uses, even when the counter wraps.  [connect] then sends exactly a
    request ([SYN]) that carries the caller's data under the new identifier,
    and touches no other connection. *)
Theorem connect_start_fresh now e src dst data :
  in_u 32 (cur_conv e) -> Z.of_nat (size (state_map e)) < 2 ^ 32 ->
  exists id e' p, connect_start now e src dst data = Some (id, e', p) /\
    state_map e !! id = None /\ c_src id = src /\ c_dst id = dst /\
    in_u 32 (c_conv id) /\ in_u 32 (cur_conv e') /\
    conn_id_of p = id /\ payload p = data /\ is_exactly p [Syn] = true /\
    has Ping (header p) = false /\
    state_map e' = <[id := mkState SynSent false data now]> (state_map e) /\
    conn_map e' = conn_map e /\ new_conns e' = new_conns e.
Proof.
  intros Hc Hs. unfold connect_start.
  destruct (pick_conn _ _ _ _ _) as [[id cur]|] eqn:E; [|by destruct (pick_conn_total _ src dst _ Hc Hs)].
  destruct (pick_conn_spec _ _ _ _ _ _ _ Hc E) as (H1 & H2 & H3 & H4 & ->). cbn.
  do 3 eexists. split; [reflexivity|]. split_and!; try done; try apply conn_id_fill.
  by apply wrap_range.
Qed.

(** ** The handshake *)

(** What an endpoint does with a packet that is neither a ping nor data for a
    connection. *)
Lemma input_step_state now e p :
  has Ping (header p) = false -> has Dat (header p) = false \/ payload p = [] ->
  input_step now e p =
  input_state now (with_state (alter (notify_pong now) (conn_id_of p) (state_map e)) e) p.
Proof.
  intros Hp Hd. unfold input_step, try_handle_pingpong.
  change (is_ping (header p)) with (has Ping (header p)). rewrite Hp. cbn [andb].
  assert (forall e, input_data e p = e) as ->.
  { intros e0. unfold input_data. destruct Hd as [Hd|Hd].
    - change (is_data (header p) = false) in Hd. by rewrite Hd.
    - rewrite Hd. change (0 <? zlen (@nil Init.Byte.byte)) with false.
      by rewrite andb_false_r. }
  by destruct (input_state _ _ _).
Qed.

Lemma is_exactly_flags p l :
  is_exactly p l = true ->
  has Dat (header p) = bool_decide (Dat ∈ l) /\ has Rst (header p) = bool_decide (Rst ∈ l).
Proof.
  unfold is_exactly. cbn [forallb]. rewrite !andb_true_iff, !eqb_true_iff.
  intros (_ & _ & _ & E1 & E2 & _). by split.
Qed.

Lemma fsm_exact f p f' out :
  (f = Listen /\ is_exactly p [Syn] = true /\ f' = SynReceived /\
     out = Some (set_flag Ack true (set_flag Syn true p_default))) \/
  (f = SynSent /\ is_exactly p [Syn; Ack] = true /\ f' = Established /\
     out = Some (set_flag Dat true (set_flag Ack true p_default))) \/
  (f = SynReceived /\ is_exactly p [Ack; Dat] = true /\ f' = Established /\ out = None) ->
  fsm_handle_packet f p None = (Ok tt, f', out).
Proof.
  unfold is_exactly, fsm_handle_packet, do_handle_packet, check_packet_flag. cbn [forallb].
  intros [(-> & E & -> & ->)|[(-> & E & -> & ->)|(-> & E & -> & ->)]];
    rewrite !andb_true_iff, !eqb_true_iff in E; destruct E as (E1 & E2 & E3 & E4 & E5 & _);
    cbn [has_flag KcpPacket_flags] in *; rewrite E1, E2, E3, E4, E5; reflexivity.
Qed.

(** A request at an endpoint that does not know the connection. *)
Lemma input_syn now e p :
  has Ping (header p) = false -> is_exactly p [Syn] = true ->
  state_map e !! conn_id_of p = None ->
  exists e' o, input_step now e p = (e', [o]) /\
    state_map e' = <[conn_id_of p := mkState SynReceived false (payload p) now]> (state_map e) /\
    conn_map e' = conn_map e /\ new_conns e' = new_conns e /\
    conn_id_of o = conn_id_of p /\ has Ping (header o) = false /\
    is_exactly o [Syn; Ack] = true /\ payload o = [].
Proof.
  intros Hp Hx Hn. destruct (is_exactly_flags _ _ Hx) as [Hd Hr].
  rewrite input_step_state by (try left; done).
  assert (alter (notify_pong now) (conn_id_of p) (state_map e) = state_map e) as Ha.
  { apply map_eq. intros i. destruct (decide (i = conn_id_of p)) as [->|N].
    - by rewrite lookup_alter_eq, Hn.
    - by rewrite lookup_alter_ne. }
  unfold input_state. cbn [with_state state_map conn_map new_conns cur_conv]. rewrite Ha, Hn.
  change (is_rst (header p)) with (has Rst (header p)). rewrite Hr. cbn [bool_decide].
  rewrite (fsm_exact fsm_listen p SynReceived (Some (set_flag Ack true (set_flag Syn true p_default))))
    by (left; done).
  rewrite bool_decide_false by set_solver. do 2 eexists. split; [reflexivity|].
  split_and!; try done.
Qed.

(** The packet that establishes a connection, in either role. *)
Lemma input_establish now e p s out :
  has Ping (header p) = false -> has Dat (header p) = false \/ payload p = [] ->
  state_map e !! conn_id_of p = Some s -> zlen (new_conns e) < 4 ->
  fsm_handle_packet (fsm s) p None = (Ok tt, Established, out) -> fsm s <> Established ->
  exists e', input_step now e p = (e', fill_packet_header (conn_id_of p) <$> option_list out) /\
    state_map e' !! conn_id_of p = Some (mkState Established true (conn_data s) now) /\
    conn_map e' = conn_map e /\ new_conns e' = new_conns e ++ [conn_id_of p].
Proof.
  intros Hp Hd Hs Hq Hf Hne. rewrite input_step_state by done.
  unfold input_state. cbn [with_state state_map conn_map new_conns cur_conv].
  rewrite lookup_alter_eq, Hs. cbn [fmap option_fmap option_map].
  unfold state_handle_packet. cbn [fsm notify_pong]. rewrite Hf, decide_False by done.
  unfold is_established, is_peer_closed, is_closed. cbn [fsm notified conn_data last_pong notify_pong].
  rewrite (bool_decide_false (fsm s = Established)), (bool_decide_true (Established = Established)),
    (bool_decide_false (Established = Closed)) by done.
  cbn [negb andb]. unfold push_new_conn. cbn [with_state new_conns state_map conn_map].
  rewrite (proj2 (Z.ltb_lt _ _)) by done. eexists. split; [reflexivity|].
  cbn [state_map conn_map new_conns with_state]. by rewrite lookup_insert_eq.
Qed.

(** C35. The handshake works: the request of [connect], the server's answer and
    the client's acknowledgement, each delivered to the other side, leave both
    sides established; the client's [connect] then returns the identifier, the
    server's [accept] returns the same identifier, both have a connection for
    it, and the server knows the data the client connected with.  Nobody else waits to be
    accepted at the server, and the transport of a connection can be made. *)
Theorem handshake_establishes t0 t1 t2 t3 c0 s0 src dst data id c1 syn :
  (forall n, is_ok (kcp_new n) = true) ->
  connect_start t0 c0 src dst data = Some (id, c1, syn) ->
  in_u 32 (cur_conv c0) -> Z.of_nat (size (state_map c0)) < 2 ^ 32 ->
  state_map s0 !! id = None -> new_conns s0 = [] -> zlen (new_conns c0) < 4 ->
  exists s1 synack c2 ack s2 c3 s3,
    input_step t1 s0 syn = (s1, [synack]) /\
    input_step t2 c1 synack = (c2, [ack]) /\
    input_step t3 s1 ack = (s2, []) /\
    connect_finish c2 id false = (Ok id, c3) /\ accept s2 = (Some (Ok id), s3) /\
    is_Some (conn_map c3 !! id) /\ is_Some (conn_map s3 !! id) /\
    fsm <$> state_map c3 !! id = Some Established /\
    fsm <$> state_map s3 !! id = Some Established /\
    get_conn_data s3 id = Some data.
Proof.
  intros Hk E Hu Hsz Hs0 Hq0 Hqc.
  destruct (connect_start_fresh t0 c0 src dst data Hu Hsz)
    as (id' & c1' & syn' & E' & _ & _ & _ & _ & _ & I1 & D1 & X1 & P1 & M1 & _ & Q1).
  rewrite E in E'. injection E' as <- <- <-.
  rewrite <- I1 in Hs0.
  destruct (input_syn t1 s0 syn P1 X1 Hs0) as (s1 & sa & G1 & M2 & _ & Q2 & I2 & P2 & X2 & L2).
  assert (state_map c1 !! conn_id_of sa = Some (mkState SynSent false data t0)) as Mc.
  { rewrite M1, I2, I1. apply lookup_insert_eq. }
  destruct (input_establish t2 c1 sa _ _ P2 (or_intror L2) Mc ltac:(by rewrite Q1)
    (fsm_exact SynSent sa Established _ (or_intror (or_introl (conj eq_refl (conj X2 (conj eq_refl eq_refl))))))
    ltac:(done)) as (c2 & G2 & M3 & _ & _).
  set (ack := fill_packet_header (conn_id_of sa) (set_flag Dat true (set_flag Ack true p_default))) in *.
  assert (conn_id_of ack = id) as I3 by (unfold ack; rewrite conn_id_fill; congruence).
  assert (state_map s1 !! conn_id_of ack = Some (mkState SynReceived false data t1)) as Ms.
  { rewrite M2, I3, I1, D1. apply lookup_insert_eq. }
  destruct (input_establish t3 s1 ack _ None eq_refl (or_intror eq_refl) Ms ltac:(by rewrite Q2, Hq0)
    (fsm_exact SynReceived ack Established None (or_intror (or_intror
       (conj eq_refl (conj eq_refl (conj eq_refl eq_refl)))))) ltac:(done))
    as (s2 & G3 & M4 & _ & Q4).
  rewrite I2, I1 in M3. rewrite I3 in M4, Q4.
  destruct (kcp_new (c_conv id)) as [k|x] eqn:Ek; [|specialize (Hk (c_conv id)); by rewrite Ek in Hk].
  assert (forall e, add_conn e id = (Ok tt, with_conns (<[id := mkConn id k false true true false]>
    (conn_map e)) e)) as Ha by (intros e; unfold add_conn, connection_new; by rewrite Ek).
  exists s1, sa, c2, ack, s2. do 2 eexists. split; [exact G1|]. split; [exact G2|].
  split; [exact G3|]. split.
  { unfold connect_finish. rewrite M3, decide_True by done. by rewrite Ha. }
  split.
  { unfold accept. rewrite Q4, Q2, Hq0. cbn [app accept_loop].
    rewrite M4, decide_True by done. by rewrite Ha. }
  cbn [with_conns conn_map state_map]. unfold get_conn_data. cbn [with_conns state_map].
  rewrite !lookup_insert_eq, M3, M4. by split_and!.
Qed.

(** An endpoint used in both roles hands its own outgoing connection to
    [accept]: the receiving task also announces a connection that this side
    opened, so after [connect] returned it and the caller took its channels,
    [accept] returns the same identifier, and a fresh connection, whose
    channels are not taken, replaces the established one. *)
Theorem accept_returns_own_connection now e p s k :
  kcp_new (c_conv (conn_id_of p)) = Ok k ->
  state_map e !! conn_id_of p = Some s -> fsm s = SynSent -> new_conns e = [] ->
  has Ping (header p) = false -> is_exactly p [Syn; Ack] = true ->
  let e1 := fst (input_step now e p) in
  exists e2 e3 e4, connect_finish e1 (conn_id_of p) false = (Ok (conn_id_of p), e2) /\
    conn_sender_receiver e2 (conn_id_of p) = (true, e3) /\
    conn_map e3 !! conn_id_of p = Some (mkConn (conn_id_of p) k false false false false) /\
    accept e3 = (Some (Ok (conn_id_of p)), e4) /\
    conn_map e4 !! conn_id_of p = Some (mkConn (conn_id_of p) k false true true false).
Proof.
  intros Hk Hs Hf Hq Hp Hx. set (id := conn_id_of p) in *.
  destruct (is_exactly_flags _ _ Hx) as [Hd _].
  destruct (input_establish now e p s _ Hp (or_introl Hd) Hs ltac:(by rewrite Hq)
    (fsm_exact (fsm s) p Established _ (or_intror (or_introl (conj Hf (conj Hx (conj eq_refl eq_refl))))))
    ltac:(by rewrite Hf)) as (e1 & E1 & M1 & _ & Q1).
  rewrite E1. cbn [fst]. fold id in M1, Q1.
  assert (forall e, add_conn e id = (Ok tt, with_conns (<[id := mkConn id k false true true false]>
    (conn_map e)) e)) as Ha by (intros e0; unfold add_conn, connection_new; by rewrite Hk).
  do 3 eexists. split; [|split; [|split; [|split]]].
  - unfold connect_finish. rewrite M1, decide_True by done. by rewrite Ha.
  - unfold conn_sender_receiver. cbn [with_conns conn_map]. by rewrite lookup_insert_eq.
  - cbn [with_conns conn_map]. by rewrite lookup_insert_eq.
  - unfold accept. cbn [with_conns new_conns state_map]. rewrite Q1, Hq. cbn [app accept_loop].
    cbn [with_conns state_map]. rewrite M1, decide_True by done. by rewrite Ha.
  - cbn [with_conns conn_map]. by rewrite lookup_insert_eq.
Qed.

(** ** Cleaning *)

(** The cleaning task keeps exactly the states that are neither closed nor
    silent for more than a minute, and exactly the connections that still have
    a state. *)
Theorem clean_step_keeps now e id :
  (forall s, state_map (clean_step now e) !! id = Some s <->
     state_map e !! id = Some s /\ fsm s <> Closed /\ is_pong_timeout now s = false) /\
  (forall c, conn_map (clean_step now e) !! id = Some c <->
     conn_map e !! id = Some c /\ is_Some (state_map (clean_step now e) !! id)).
Proof.
  unfold clean_step. cbn [state_map conn_map]. split; intros x.
  - by rewrite map_lookup_filter_Some.
  - by rewrite map_lookup_filter_Some.
Qed.
End endpoint.

(** A control block that accepts everything. *)
Definition kcp_trivial : KcpBlock (list bytes) :=
  {| kcp_new := fun _ => Ok []; kcp_input := fun b k => Ok (k ++ [b]) |}.

Definition client0 : Endpoint (K:=list bytes) := endpoint_new 4294967295.
Definition server0 : Endpoint (K:=list bytes) := endpoint_new 7.

(** What a fresh client sends, and the answer it gets. *)
Definition hello : bytes := [Byte.x68; Byte.x69].
Definition id0 : ConnId := mkConnId 4294967295 5 6.
Definition client1 : Endpoint (K:=list bytes) :=
  match connect_start 0 client0 5 6 hello with Some (_, e, _) => e | None => client0 end.
Definition syn0 : KcpPacket :=
  match connect_start 0 client0 5 6 hello with Some (_, _, p) => p | None => packet_default end.
Definition synack0 : KcpPacket :=
  fill_packet_header id0 (set_flag Ack true (set_flag Syn true p_default)).

Lemma replies_end_witness :
  reply_rank syn0 = 3%nat /\ (length (snd (input_step (H:=kcp_trivial) 1 server0 syn0)) <= 1)%nat.
Proof.
  split; [reflexivity|].
  destruct (replies_end (H:=kcp_trivial) 1 server0 syn0 _ _
    (surjective_pairing (input_step (H:=kcp_trivial) 1 server0 syn0))) as [L _]. exact L.
Defined.

Lemma connect_start_fresh_witness :
  exists id e' p, connect_start 0 client0 5 6 hello = Some (id, e', p) /\
    state_map client0 !! id = None /\ payload p = hello.
Proof.
  destruct (connect_start_fresh 0 client0 5 6 hello) as (id & e' & p & E & N & _ & _ & _ & _ & _ & D & _).
  - split; [discriminate|reflexivity].
  - reflexivity.
  - exists id, e', p. split; [exact E|]. split; [exact N|exact D].
Defined.

Lemma handshake_establishes_witness :
  connect_start 0 client0 5 6 hello = Some (id0, client1, syn0) /\
  exists s3, get_conn_data (K:=list bytes) s3 id0 = Some hello /\ is_Some (conn_map s3 !! id0).
Proof.
  split; [reflexivity|].
  destruct (handshake_establishes (H:=kcp_trivial) 0 1 2 3 client0 server0 5 6 hello id0 client1 syn0)
    as (s1 & sa & c2 & ack & s2 & c3 & s3 & _ & _ & _ & _ & _ & _ & Hs & _ & _ & D).
  - intros n. reflexivity.
  - reflexivity.
  - split; [discriminate|reflexivity].
  - reflexivity.
  - reflexivity.
  - reflexivity.
  - reflexivity.
  - exists s3. split; [exact D|exact Hs].
Defined.

Lemma accept_returns_own_connection_witness :
  let e1 := fst (input_step (H:=kcp_trivial) 2 client1 synack0) in
  exists e2 e3 e4, connect_finish (H:=kcp_trivial) e1 id0 false = (Ok id0, e2) /\
    conn_sender_receiver e2 id0 = (true, e3) /\
    accept (H:=kcp_trivial) e3 = (Some (Ok id0), e4).
Proof.
  destruct (accept_returns_own_connection (H:=kcp_trivial) 2 client1 synack0
    (mkState SynSent false hello 0) []) as (e2 & e3 & e4 & E1 & E2 & _ & E3 & _);
    try reflexivity.
  exists e2, e3, e4. split; [exact E1|]. split; [exact E2|exact E3].
Defined.
