(* ===== verification/NetAddr.v ===== *)
(** * Mangled socket addresses and small helpers of the network layer

    [libs/hbb_common/src/lib.rs]: the encoding of addresses in the messages to
    the rendezvous server, and [get_version_number], [time_based_rand].  An IP
    address is the list of its octets; the clock is an argument. *)

From S2P Require Import Prelude.

Inductive SocketAddr : Type :=
| V4 (ip : bytes) (port : Z)
| V6 (ip : bytes) (port : Z).

#[export] Instance SocketAddr_eq_dec : EqDecision SocketAddr.
Proof. solve_decision. Defined.

(** Octets and port within their widths. *)
Definition addr_wf (a : SocketAddr) : Prop :=
  match a with
  | V4 ip port => length ip = 4%nat /\ in_u 16 port
  | V6 ip port => length ip = 16%nat /\ in_u 16 port
  end.

#[export] Instance addr_wf_dec a : Decision (addr_wf a).
Proof. destruct a; simpl; apply _. Defined.

Definition zero : Init.Byte.byte := Byte.x00.

(** [IpAddr::is_loopback] on an IPv6 address: [::1]. *)
Definition v6_is_loopback (ip : bytes) : bool :=
  bool_decide (ip = replicate 15 zero ++ [Byte.x01]).

(** [Ipv6Addr::to_ipv4]: mapped ([::ffff:a.b.c.d]) and compatible
    ([::a.b.c.d]) addresses. *)
Definition to_ipv4 (ip : bytes) : option bytes :=
  if bool_decide (take 12 ip = replicate 10 zero ++ [Byte.xff; Byte.xff]) ||
     bool_decide (take 12 ip = replicate 12 zero)
  then Some (drop 12 ip) else None.

(* src/libs/hbb_common/src/lib.rs:124-135 try_into_v4 *)
Definition try_into_v4 (addr : SocketAddr) : SocketAddr :=
  match addr with
  | V6 ip port =>
      if negb (v6_is_loopback ip) then
        match to_ipv4 ip with
        | Some v4 => V4 v4 port
        | None => addr
        end
      else addr
  | V4 _ _ => addr
  end.

(** The number of zero bytes at the front, the [for] loop over the reversed
    bytes. *)
Fixpoint leading_zeros (l : bytes) : nat :=
  match l with
  | [] => O
  | b :: l => if decide (b = zero) then S (leading_zeros l) else O
  end.

(** The 128-bit number an IPv4 address is mangled to. *)
(* src/libs/hbb_common/src/lib.rs:143-149 AddrMangle::encode *)
Definition mangle (tm ip port : Z) : Z :=
  Z.lor (Z.lor (u128 (Z.shiftl (ip + tm) 49)) (u128 (Z.shiftl tm 17)))
    (port + Z.land tm 0xFFFF).

(** [micros] is the current time in microseconds. *)
(* src/libs/hbb_common/src/lib.rs:138-169 AddrMangle::encode *)
Definition addr_encode (micros : Z) (addr : SocketAddr) : bytes :=
  match try_into_v4 addr with
  | V4 ip port =>
      let tm := u32 micros in
      let bs := le_split 16 (mangle tm (le_combine ip) port) in
      let n_padding := leading_zeros (rev bs) in
      take (16 - n_padding) bs
  | V6 ip port => ip ++ le_split 2 port
  end.

(** What [Config::get_any_listen_addr(false)] returns for a malformed
    buffer. *)
(* src/libs/hbb_common/src/lib.rs:171-194 AddrMangle::decode *)
Definition addr_decode (any_addr : SocketAddr) (bs : bytes) : SocketAddr :=
  if 16 <? zlen bs then
    if negb (zlen bs =? 18) then any_addr
    else V6 (take 16 bs) (le_combine (drop 16 bs))
  else
    let padded := bs ++ replicate (16 - length bs) zero in
    let number := le_combine padded in
    let tm := Z.land (Z.shiftr number 17) (2 ^ 32 - 1) in
    let ip := u32 (u128 (Z.shiftr number 49 - tm)) in
    let port := u128 (Z.land number 0xFFFFFF - Z.land tm 0xFFFF) in
    V4 (le_split 4 ip) (u16 port).

(** ** Lemmas *)

Lemma land_ones_mod z n m : 0 <= n -> m = Z.ones n -> Z.land z m = z mod 2 ^ n.
Proof. intros Hn ->. by apply Z.land_ones. Qed.

Lemma mangle_sum tm ip port :
  in_u 32 tm -> in_u 32 ip -> in_u 16 port ->
  mangle tm ip port = (ip + tm) * 2 ^ 49 + tm * 2 ^ 17 + (port + tm mod 2 ^ 16) /\
  0 <= port + tm mod 2 ^ 16 < 2 ^ 17.
Proof.
  unfold in_u. intros Ht Hi Hp. unfold mangle.
  rewrite (land_ones_mod tm 16) by done.
  pose proof (Z.mod_pos_bound tm (2 ^ 16) ltac:(lia)) as Hm.
  rewrite !Z.shiftl_mul_pow2, !(wrap_small 128) by (unfold in_u; lia).
  rewrite <- !Z.shiftl_mul_pow2 by lia.
  assert (Z.lor (Z.shiftl (ip + tm) 49) (Z.shiftl tm 17) =
          Z.shiftl ((ip + tm) * 2 ^ 32 + tm) 17) as ->.
  { rewrite <- (lor_shiftl_add_r tm (ip + tm) 32) by lia.
    rewrite Z.shiftl_lor, Z.shiftl_shiftl by lia. done. }
  rewrite lor_shiftl_add_r by lia. split; [|lia].
  rewrite !Z.shiftl_mul_pow2 by lia. ring.
Qed.

Lemma leading_zeros_spec l :
  l = replicate (leading_zeros l) zero ++ drop (leading_zeros l) l /\
  (leading_zeros l <= length l)%nat.
Proof.
  induction l as [|b l [IH1 IH2]]; simpl; [done|].
  destruct (decide (b = zero)) as [->|]; simpl; [|split; [done|lia]].
  split; [by f_equal|lia].
Qed.

(** What remains when the high zero bytes are dropped, padded again. *)
Lemma strip_pad l :
  take (length l - leading_zeros (rev l)) l ++ replicate (leading_zeros (rev l)) zero = l.
Proof.
  destruct (leading_zeros_spec (rev l)) as [E L]. rewrite length_rev in L.
  set (n := leading_zeros (rev l)) in *.
  apply (f_equal (@rev _)) in E. rewrite rev_involutive, rev_app_distr in E.
  assert (rev (replicate n zero) = replicate n zero) as R.
  { clear. induction n as [|n IH]; [done|]. simpl. rewrite IH. symmetry. apply replicate_cons_app. }
  rewrite R in E. rewrite E at 1 2.
  rewrite length_app, length_replicate.
  replace (length (rev (drop n (rev l))) + n - n)%nat with (length (rev (drop n (rev l)))) by lia.
  by rewrite take_app_length.
Qed.

Lemma le_split_combine_4 ip : length ip = 4%nat -> le_split 4 (le_combine ip) = ip.
Proof. intros H. rewrite <- H. apply split_le_combine. Qed.

Lemma decode_v4 any tm ip port bs :
  length ip = 4%nat -> in_u 32 tm -> in_u 16 port -> (length bs <= 16)%nat ->
  bs ++ replicate (16 - length bs) zero = le_split 16 (mangle tm (le_combine ip) port) ->
  addr_decode any bs = V4 ip port.
Proof.
  intros Hi Ht Hp Hl Hpad. unfold addr_decode.
  rewrite (proj2 (Z.ltb_ge _ _)) by (unfold zlen; lia). rewrite Hpad.
  assert (in_u 32 (le_combine ip)) as Hip.
  { pose proof (le_combine_range ip) as R. unfold zlen in R. by rewrite Hi in R. }
  destruct (mangle_sum tm (le_combine ip) port Ht Hip Hp) as [E R].
  pose proof Ht as [Ht1 Ht2]. pose proof Hip as [Hip1 Hip2]. pose proof Hp as [Hp1 Hp2].
  rewrite le_split_small by (rewrite E; change (2 ^ (8 * Z.of_nat 16)) with (2 ^ 128); lia).
  rewrite E. clear E Hpad.
  set (c := port + tm mod 2 ^ 16) in *. set (a := le_combine ip) in *.
  set (v := (a + tm) * 2 ^ 49 + tm * 2 ^ 17 + c).
  assert (Z.land (Z.shiftr v 17) (2 ^ 32 - 1) = tm) as ->.
  { rewrite (land_ones_mod _ 32) by done. rewrite Z.shiftr_div_pow2 by lia.
    replace (v / 2 ^ 17) with ((a + tm) * 2 ^ 32 + tm) by (subst v; zdm).
    rewrite Z.add_comm, Z.mod_add by lia. by apply Z.mod_small. }
  assert (Z.shiftr v 49 - tm = a) as ->.
  { rewrite Z.shiftr_div_pow2 by lia.
    replace (v / 2 ^ 49) with (a + tm) by (subst v; zdm). lia. }
  rewrite (wrap_small 128 a), (wrap_small 32 a) by (unfold in_u; lia).
  rewrite (land_ones_mod v 24), (land_ones_mod tm 16) by done.
  f_equal; [by apply le_split_combine_4|].
  assert (exists k, v mod 2 ^ 24 - tm mod 2 ^ 16 = port + k * 2 ^ 17 /\ 0 <= k < 128) as (k & -> & Hk).
  { exists (tm mod 2 ^ 7). split; [|apply Z.mod_pos_bound; lia]. subst v c. zdm. }
  rewrite (wrap_small 128) by (unfold in_u; lia). unfold wrap. zdm.
Qed.

(** Decoding a mangled address gives back the address, with IPv4 addresses
    in IPv6 form turned into IPv4 ones; the result does not depend on the time
    that is mixed in, nor on the high zero bytes that are not sent. *)
Theorem addr_roundtrip any micros addr :
  addr_wf addr -> addr_decode any (addr_encode micros addr) = try_into_v4 addr.
Proof.
  intros Hw. assert (addr_wf (try_into_v4 addr)) as Hw'.
  { destruct addr as [ip port|ip port]; [done|]. simpl. destruct (negb _); [|done].
    unfold to_ipv4. destruct (_ || _); [|done].
    destruct Hw as [Hl Hp]. split; [|done]. rewrite length_drop. lia. }
  unfold addr_encode. destruct (try_into_v4 addr) as [ip port|ip port]; destruct Hw' as [Hl Hp].
  - set (bs := le_split 16 _). pose proof (strip_pad bs) as P.
    assert (length bs = 16%nat) as Lb by apply length_le_split.
    destruct (leading_zeros_spec (rev bs)) as [_ Lz]. rewrite length_rev, Lb in Lz.
    rewrite Lb in P. apply (decode_v4 any (u32 micros)); [done|by apply wrap_range|done| |].
    + rewrite length_take. lia.
    + rewrite length_take, Lb.
      replace (16 - (16 - leading_zeros (rev bs)) `min` 16)%nat with (leading_zeros (rev bs)) by lia.
      exact P.
  - unfold addr_decode. rewrite zlen_app, zlen_le_split. unfold zlen. rewrite Hl.
    change (16 <? Z.of_nat 16 + Z.of_nat 2) with true.
    change (Z.of_nat 16 + Z.of_nat 2 =? 18) with true. cbn [negb].
    rewrite <- Hl at 1. rewrite take_app_length. rewrite <- Hl, drop_app_length.
    rewrite le_split_small; [done|]. exact Hp.
Qed.

Lemma addr_roundtrip_witness :
  addr_decode (V4 [] 0) (addr_encode 1700000000123456 (V4 [Byte.xc0; Byte.xa8; Byte.x10; Byte.x20] 21116))
  = V4 [Byte.xc0; Byte.xa8; Byte.x10; Byte.x20] 21116.
Proof.
  apply (addr_roundtrip (V4 [] 0) 1700000000123456 (V4 [Byte.xc0; Byte.xa8; Byte.x10; Byte.x20] 21116)).
  repeat split; discriminate.
Defined.

(** ** Time-based random numbers *)

(* src/libs/hbb_common/src/lib.rs:457-469 time_based_rand *)
Definition time_based_rand (nanos : Z) : Z :=
  let x := u64 nanos in
  let x := Z.lxor x (u64 (Z.shiftl x 13)) in
  let x := Z.lxor x (Z.shiftr x 7) in
  let x := Z.lxor x (u64 (Z.shiftl x 17)) in
  u32 (x mod 32768).

(** Delays derived from it are below 32768. *)
Lemma time_based_rand_range nanos : 0 <= time_based_rand nanos < 32768.
Proof.
  unfold time_based_rand. match goal with |- context [?x mod 32768] => set (y := x) end.
  pose proof (Z.mod_pos_bound y 32768 ltac:(lia)).
  rewrite wrap_small by (unfold in_u; lia). done.
Qed.
