(* ===== verification/Secure.v ===== *)
(** * The encrypted TCP stream

    [libs/hbb_common/src/tcp.rs]: [Encrypt] seals every message of a stream
    with a key and a nonce counted per direction, and [FramedStream] puts it on
    top of the frame codec.  The cryptography is libsodium's: [SecretBox] and
    [Box] state what the code relies on. *)

From S2P Require Import Prelude BytesCodec.

Definition NONCEBYTES : nat := 24.

(** [secretbox]: what is sealed opens with the same key and nonce and with no
    other nonce, and is longer by [MACBYTES]. *)
Class SecretBox (Key : Type) : Type := {
  MACBYTES : Z;
  seal : bytes -> bytes -> Key -> bytes;
  open : bytes -> bytes -> Key -> option bytes;
  macbytes_large : 1 < MACBYTES;
  seal_length : forall d n k, length n = NONCEBYTES -> zlen (seal d n k) = zlen d + MACBYTES;
  open_seal : forall d n k, length n = NONCEBYTES -> open (seal d n k) n k = Some d;
  open_other_nonce : forall d n n' k,
    length n = NONCEBYTES -> length n' = NONCEBYTES -> n <> n' -> open (seal d n k) n' k = None;
}.

Section secure.
Context {Key : Type} `{SecretBox Key}.

(* src/libs/hbb_common/src/tcp.rs:27-28 Encrypt *)
Record Encrypt : Type := mkEncrypt {
  e_key : Key;
  e_sent : Z;
  e_received : Z;
}.

(* src/libs/hbb_common/src/tcp.rs:203-207 FramedStream::get_nonce *)
Definition get_nonce (seqnum : Z) : bytes := le_split 8 seqnum ++ replicate 16 Byte.x00.

(* src/libs/hbb_common/src/tcp.rs:297-299 Encrypt::new *)
Definition encrypt_new (key : Key) : Encrypt := mkEncrypt key 0 0.

Inductive io_error : Type := DecryptionError | CodecError (e : codec_error).

(* src/libs/hbb_common/src/tcp.rs:301-315 Encrypt::dec *)
Definition dec (self : Encrypt) (b : bytes) : result io_error bytes * Encrypt :=
  if zlen b <=? 1 then (Ok b, self)
  else
    let self := mkEncrypt (e_key self) (e_sent self) (u64 (e_received self + 1)) in
    match open b (get_nonce (e_received self)) (e_key self) with
    | Some res => (Ok res, self)
    | None => (Err DecryptionError, self)
    end.

(* src/libs/hbb_common/src/tcp.rs:317-321 Encrypt::enc *)
Definition enc (self : Encrypt) (data : bytes) : bytes * Encrypt :=
  let self := mkEncrypt (e_key self) (u64 (e_sent self + 1)) (e_received self) in
  (seal data (get_nonce (e_sent self)) (e_key self), self).

(** ** The stream *)

(* src/libs/hbb_common/src/tcp.rs:30-35 FramedStream *)
Record FramedStream : Type := mkStream {
  f_codec : BytesCodec;
  f_encrypt : option Encrypt;
  f_send_timeout : Z;
}.

(* src/libs/hbb_common/src/tcp.rs:134-141 FramedStream::from *)
Definition stream_from : FramedStream := mkStream codec_new None 0.

(* src/libs/hbb_common/src/tcp.rs:130-132 FramedStream::set_send_timeout *)
Definition set_send_timeout (ms : Z) (self : FramedStream) : FramedStream :=
  mkStream (f_codec self) (f_encrypt self) ms.

(* src/libs/hbb_common/src/tcp.rs:143-146 FramedStream::set_raw *)
Definition stream_set_raw (self : FramedStream) : FramedStream :=
  mkStream (set_raw (f_codec self)) None (f_send_timeout self).

(* src/libs/hbb_common/src/tcp.rs:148-150 FramedStream::is_secured *)
Definition is_secured (self : FramedStream) : bool := bool_decide (is_Some (f_encrypt self)).

(* src/libs/hbb_common/src/tcp.rs:199-201 FramedStream::set_key *)
Definition set_key (key : Key) (self : FramedStream) : FramedStream :=
  mkStream (f_codec self) (Some (encrypt_new key)) (f_send_timeout self).

(** The bytes a send adds to the wire; the send timeout is not modelled. *)
(* src/libs/hbb_common/src/tcp.rs:168-175 FramedStream::send_bytes *)
Definition send_bytes (self : FramedStream) (msg wire : bytes)
    : result codec_error unit * bytes :=
  encode (f_codec self) msg wire.

(* src/libs/hbb_common/src/tcp.rs:158-165 FramedStream::send_raw *)
Definition send_raw (self : FramedStream) (msg wire : bytes)
    : result codec_error unit * FramedStream * bytes :=
  let '(msg, e) :=
    match f_encrypt self with
    | Some key => let '(m, key) := enc key msg in (m, Some key)
    | None => (msg, None)
    end in
  let self := mkStream (f_codec self) e (f_send_timeout self) in
  let '(r, wire) := send_bytes self msg wire in (r, self, wire).

(** [next] on a frame the codec produced. *)
(* src/libs/hbb_common/src/tcp.rs:178-188 FramedStream::next *)
Definition open_frame (self : FramedStream) (frame : bytes)
    : result io_error bytes * FramedStream :=
  match f_encrypt self with
  | Some key =>
      let '(r, key) := dec key frame in
      (r, mkStream (f_codec self) (Some key) (f_send_timeout self))
  | None => (Ok frame, self)
  end.

Fixpoint send_all (self : FramedStream) (ms : list bytes) (wire : bytes)
    : result codec_error unit * FramedStream * bytes :=
  match ms with
  | [] => (Ok tt, self, wire)
  | m :: ms =>
      match send_raw self m wire with
      | (Ok _, self, wire) => send_all self ms wire
      | r => r
      end
  end.

Fixpoint open_all (self : FramedStream) (frames : list bytes)
    : result io_error (list bytes) * FramedStream :=
  match frames with
  | [] => (Ok [], self)
  | f :: fs =>
      match open_frame self f with
      | (Ok m, self) =>
          match open_all self fs with
          | (Ok ms, self) => (Ok (m :: ms), self)
          | r => r
          end
      | (Err e, self) => (Err e, self)
      end
  end.

(** The messages a reader gets when the wire's bytes arrive in chunks. *)
Definition receive_all (self : FramedStream) (buf : bytes) (chunks : list bytes)
    : result io_error (list bytes) * FramedStream * bytes :=
  match feed_all (f_codec self) buf chunks with
  | (Ok frames, codec, buf) =>
      let '(r, self) := open_all (mkStream codec (f_encrypt self) (f_send_timeout self)) frames in
      (r, self, buf)
  | (Err e, codec, buf) =>
      (Err (CodecError e), mkStream codec (f_encrypt self) (f_send_timeout self), buf)
  end.

(** ** Lemmas *)

Lemma length_get_nonce n : length (get_nonce n) = NONCEBYTES.
Proof. unfold get_nonce. by rewrite length_app, length_le_split, length_replicate. Qed.

Lemma get_nonce_inj n m : in_u 64 n -> in_u 64 m -> get_nonce n = get_nonce m -> n = m.
Proof.
  intros Hn Hm E. unfold get_nonce in E.
  apply (f_equal (take 8)) in E. rewrite !take_app_le_split in E.
  apply (f_equal le_combine) in E. by rewrite !le_split_small in E.
Qed.

(** ** A secured stream *)

(** The frames a sender with the given counter produces. *)
Fixpoint sealed (k : Key) (n : Z) (ms : list bytes) : list bytes :=
  match ms with
  | [] => []
  | m :: ms => seal m (get_nonce (n + 1)) k :: sealed k (n + 1) ms
  end.

Lemma zlen_seal d n k : zlen (seal d (get_nonce n) k) = zlen d + MACBYTES.
Proof. apply seal_length, length_get_nonce. Qed.

Lemma dec_seal self d :
  0 <= e_received self -> e_received self + 1 < 2 ^ 64 ->
  dec self (seal d (get_nonce (e_received self + 1)) (e_key self)) =
    (Ok d, mkEncrypt (e_key self) (e_sent self) (e_received self + 1)).
Proof.
  intros H0 H1. unfold dec. rewrite zlen_seal. pose proof macbytes_large.
  pose proof (zlen_nonneg d). rewrite (proj2 (Z.leb_gt _ _)) by lia.
  cbn [e_key e_received]. rewrite wrap_small by (unfold in_u; lia).
  rewrite open_seal by apply length_get_nonce. done.
Qed.

(** Sending is encoding the sealed frames; the counter advances by one each. *)
Lemma send_all_sealed codec k s r t ms wire wire' :
  0 <= s -> s + zlen ms < 2 ^ 64 ->
  encode_all codec (sealed k s ms) wire = (Ok tt, wire') ->
  send_all (mkStream codec (Some (mkEncrypt k s r)) t) ms wire =
    (Ok tt, mkStream codec (Some (mkEncrypt k (s + zlen ms) r)) t, wire').
Proof.
  revert s wire. induction ms as [|m ms IH]; intros s wire H0 H1.
  { simpl. intros [= <-]. by rewrite zlen_nil, Z.add_0_r. }
  rewrite zlen_cons in *. pose proof (zlen_nonneg ms).
  cbn [send_all sealed encode_all]. unfold send_raw, send_bytes, enc.
  cbn [f_encrypt f_codec f_send_timeout e_sent e_key e_received].
  rewrite (wrap_small 64 (s + 1)) by (unfold in_u; lia).
  destruct (encode codec _ wire) as [[[]|e] w] eqn:E; [|done].
  intros Hw. rewrite (IH (s + 1) w ltac:(lia) ltac:(lia) Hw). by rewrite Z.add_assoc.
Qed.

Lemma open_all_sealed codec k s r t ms :
  0 <= r -> r + zlen ms < 2 ^ 64 ->
  open_all (mkStream codec (Some (mkEncrypt k s r)) t) (sealed k r ms) =
    (Ok ms, mkStream codec (Some (mkEncrypt k s (r + zlen ms))) t).
Proof.
  revert r. induction ms as [|m ms IH]; intros r H0 H1.
  { simpl. by rewrite zlen_nil, Z.add_0_r. }
  rewrite zlen_cons in *. pose proof (zlen_nonneg ms).
  cbn [sealed open_all]. unfold open_frame. cbn [f_encrypt f_codec f_send_timeout].
  pose proof (dec_seal (mkEncrypt k s r) m) as D. cbn [e_key e_sent e_received] in D.
  rewrite D by lia.
  rewrite IH by lia. by rewrite Z.add_assoc.
Qed.

Lemma sealed_sendable codec k n ms :
  Forall (fun m => zlen m + MACBYTES <= Z.min 0x3FFFFFFF (max_packet_length codec)) ms ->
  Forall (sendable codec) (sealed k n ms).
Proof.
  revert n. induction ms as [|m ms IH]; intros n Hm; [constructor|].
  inversion_clear Hm as [|?? H1 H2]. constructor; [|by apply IH].
  unfold sendable. rewrite zlen_seal. lia.
Qed.

(** The decoder on the stream of a sender whose messages fit. *)
Lemma feed_frames (tx rx : BytesCodec) frames chunks :
  raw tx = false -> raw rx = false -> state rx = Head ->
  Forall (sendable tx) frames -> Forall (sendable rx) frames ->
  encode_all tx frames [] = (Ok tt, mjoin chunks) ->
  feed_all rx [] chunks = (Ok frames, rx, []).
Proof.
  intros Htx Hrx Hst Hs1 Hs2 E. rewrite encode_all_spec in E by done.
  injection E as E. fold (stream frames) in E.
  rewrite (feed_all_ok rx [] chunks frames Hrx Hs2).
  - by destruct rx; simpl in *; subst.
  - rewrite Hst. constructor. by rewrite <- E.
  - intros ->. by apply stream_nil_inv.
Qed.

(** The messages a sealed stream carries. *)
Lemma stream_delivers (tx rx : FramedStream) k r0 s1 n ms chunks tx' :
  f_encrypt tx = Some (mkEncrypt k n r0) -> f_encrypt rx = Some (mkEncrypt k s1 n) ->
  0 <= n -> n + zlen ms < 2 ^ 64 ->
  raw (f_codec tx) = false -> raw (f_codec rx) = false -> state (f_codec rx) = Head ->
  Forall (fun m => zlen m + MACBYTES <=
    Z.min 0x3FFFFFFF (Z.min (max_packet_length (f_codec tx)) (max_packet_length (f_codec rx)))) ms ->
  send_all tx ms [] = (Ok tt, tx', mjoin chunks) ->
  receive_all rx [] chunks =
    (Ok ms, mkStream (f_codec rx) (Some (mkEncrypt k s1 (n + zlen ms))) (f_send_timeout rx), []) /\
  f_encrypt tx' = Some (mkEncrypt k (n + zlen ms) r0).
Proof.
  intros Etx Erx H0 H1 R1 R2 St Hm E.
  destruct tx as [ctx ? ttx], rx as [crx ? trx]. cbn [f_codec f_encrypt f_send_timeout] in *. subst.
  assert (Forall (sendable ctx) (sealed k n ms)) as S1
    by (apply sealed_sendable; eapply Forall_impl; [exact Hm|]; cbn; intros; lia).
  assert (Forall (sendable crx) (sealed k n ms)) as S2
    by (apply sealed_sendable; eapply Forall_impl; [exact Hm|]; cbn; intros; lia).
  pose proof (encode_all_spec ctx (sealed k n ms) [] R1 S1) as Ee.
  rewrite (send_all_sealed _ _ _ _ _ _ _ _ H0 H1 Ee) in E.
  injection E as <- E. rewrite E in Ee. split; [|done].
  unfold receive_all. cbn [f_codec f_encrypt f_send_timeout].
  rewrite (feed_frames ctx crx (sealed k n ms) chunks R1 R2 St S1 S2 Ee).
  by rewrite open_all_sealed.
Qed.

(** C21. Two ends of a secured stream that share the key and whose counters for
    this direction agree: whatever messages one sends (within the frame limit),
    and however the network cuts the bytes into chunks, the other receives
    exactly these messages in order, and the counters agree again. *)
Theorem secure_stream_delivers (tx rx : FramedStream) k r0 s1 n ms chunks tx' :
  f_encrypt tx = Some (mkEncrypt k n r0) -> f_encrypt rx = Some (mkEncrypt k s1 n) ->
  0 <= n -> n + zlen ms < 2 ^ 64 ->
  raw (f_codec tx) = false -> raw (f_codec rx) = false -> state (f_codec rx) = Head ->
  Forall (fun m => zlen m + MACBYTES <=
    Z.min 0x3FFFFFFF (Z.min (max_packet_length (f_codec tx)) (max_packet_length (f_codec rx)))) ms ->
  send_all tx ms [] = (Ok tt, tx', mjoin chunks) ->
  receive_all rx [] chunks =
    (Ok ms, mkStream (f_codec rx) (Some (mkEncrypt k s1 (n + zlen ms))) (f_send_timeout rx), []) /\
  f_encrypt tx' = Some (mkEncrypt k (n + zlen ms) r0).
Proof. apply stream_delivers. Qed.

(** A sealed frame is accepted only in its turn: a receiver that has
    accepted [j] frames opens the frame sealed with number [i] exactly when
    [i = j + 1]; a replayed, dropped or reordered frame is an error.  Either
    way it counts as received.  (A frame of at most one byte is passed through
    unopened and uncounted.) *)
Theorem sealed_once k s j i d :
  0 <= j < 2 ^ 64 - 1 -> in_u 64 i ->
  dec (mkEncrypt k s j) (seal d (get_nonce i) k) =
    ((if decide (i = j + 1) then Ok d else Err DecryptionError), mkEncrypt k s (j + 1)) /\
  (forall b, zlen b <= 1 -> dec (mkEncrypt k s j) b = (Ok b, mkEncrypt k s j)).
Proof.
  intros Hj Hi. split.
  - case_decide as E.
    + subst i. apply (dec_seal (mkEncrypt k s j)); cbn; lia.
    + unfold dec. rewrite zlen_seal. pose proof macbytes_large. pose proof (zlen_nonneg d).
      rewrite (proj2 (Z.leb_gt _ _)) by lia. cbn [e_key e_sent e_received].
      rewrite wrap_small by (unfold in_u; lia). rewrite open_other_nonce; [done|..];
        try apply length_get_nonce.
      intros E'%get_nonce_inj; [by apply E|done|unfold in_u; lia].
  - intros b Hb. unfold dec. by rewrite (proj2 (Z.leb_le _ _) Hb).
Qed.
End secure.

(** ** Exchange of the key *)

Definition PUBLICKEYBYTES : Z := 32.
Definition KEYBYTES : Z := 32.

(** [box_]: sealed for a public key with one's secret key, it opens with the
    other pair. *)
Class PublicBox (SK : Type) : Type := {
  pk_of : SK -> bytes;
  box_seal : bytes -> bytes -> bytes -> SK -> bytes;
  box_open : bytes -> bytes -> bytes -> SK -> option bytes;
  pk_length : forall sk, zlen (pk_of sk) = PUBLICKEYBYTES;
  box_open_seal : forall m n a b, box_open (box_seal m n (pk_of b) a) n (pk_of a) b = Some m;
}.

Section exchange.
Context {SK : Type} `{PublicBox SK}.

Definition box_nonce : bytes := replicate NONCEBYTES Byte.x00.

Inductive handshake_error : Type :=
| PkLength (n : Z)
| BoxDecryption
| InvalidKeyLength.

(* src/libs/hbb_common/src/tcp.rs:323-343 Encrypt::decode *)
Definition encrypt_decode (symmetric_data their_pk : bytes) (our_sk : SK)
    : result handshake_error bytes :=
  if negb (zlen their_pk =? PUBLICKEYBYTES) then Err (PkLength (zlen their_pk))
  else
    match box_open symmetric_data box_nonce their_pk our_sk with
    | None => Err BoxDecryption
    | Some key => if negb (zlen key =? KEYBYTES) then Err InvalidKeyLength else Ok key
    end.

(** [ephemeral] and [key] are the fresh key pair and symmetric key; the result
    is what goes to the peer, and the key. *)
(* src/src/common.rs:1708-1715 create_symmetric_key_msg *)
Definition create_symmetric_key_msg (ephemeral : SK) (key : bytes) (their_pk : bytes)
    : bytes * bytes * bytes :=
  (pk_of ephemeral, box_seal key box_nonce their_pk ephemeral, key).

(** The peer recovers the key, and rejects a wrong public key or key length. *)
Lemma key_exchange ephemeral sk key :
  zlen key = KEYBYTES ->
  let '(pk, sealed_key, k) := create_symmetric_key_msg ephemeral key (pk_of sk) in
  encrypt_decode sealed_key pk sk = Ok k.
Proof.
  intros Hk. cbn. unfold encrypt_decode. rewrite pk_length, Z.eqb_refl. cbn [negb].
  by rewrite box_open_seal, Hk.
Qed.
End exchange.

(** A cipher for the witnesses: the nonce in front of the data. *)
Definition box_plain : SecretBox unit.
Proof.
  refine {| MACBYTES := 24; seal := fun d n _ => n ++ d;
            open := fun c n _ => if decide (take 24 c = n) then Some (drop 24 c) else None |}.
  - lia.
  - intros d n k Hn. rewrite zlen_app. unfold zlen at 1. rewrite Hn. unfold NONCEBYTES. lia.
  - intros d n k Hn. unfold NONCEBYTES in Hn. rewrite <- Hn, take_app_length, drop_app_length.
    by rewrite decide_True.
  - intros d n n' k Hn Hn' Hne. unfold NONCEBYTES in Hn. rewrite <- Hn, take_app_length.
    by rewrite decide_False.
Defined.

Definition stream0 : FramedStream (Key:=unit) := set_key tt stream_from.

Definition two_messages : list bytes := [[Byte.x61]; [Byte.x62; Byte.x63]].

Definition wire0 : bytes :=
  Eval vm_compute in snd (send_all (H:=box_plain) stream0 two_messages []).

Lemma secure_stream_delivers_witness :
  fst (fst (receive_all (H:=box_plain) stream0 [] [wire0])) = Ok two_messages.
Proof.
  destruct (secure_stream_delivers (H:=box_plain) stream0 stream0 tt 0 0 0 two_messages [wire0]
    (mkStream codec_new (Some (mkEncrypt tt 2 0)) 0)) as [E _].
  - reflexivity.
  - reflexivity.
  - discriminate.
  - reflexivity.
  - reflexivity.
  - reflexivity.
  - reflexivity.
  - repeat constructor; vm_compute; discriminate.
  - vm_compute. reflexivity.
  - rewrite E. reflexivity.
Defined.

Lemma sealed_once_witness :
  fst (dec (H:=box_plain) (mkEncrypt tt 0 4) (seal (SecretBox:=box_plain) [Byte.x61] (get_nonce 4) tt))
    = Err DecryptionError.
Proof.
  destruct (sealed_once (H:=box_plain) tt 0 4 4 [Byte.x61]) as [E _].
  - split; [discriminate|reflexivity].
  - split; [discriminate|reflexivity].
  - rewrite E. reflexivity.
Defined.
