(* ===== verification/LoginGuard.v ===== *)
(** * Who may log in

    [src/server/connection.rs]: the handling of a login request and of a second
    factor, the sessions that may reconnect without a password, the list of
    authorized connections, and the throttling of wrong attempts; with the
    configuration it reads from [libs/hbb_common/src/password_security.rs].

    SHA-256, the check of a one-time code and the parsing of IP addresses are
    parameters.  A prefix of an IPv6 address and a full address are keys of the
    same table in the source (a prefix ends in ["/64"], ["/56"] or ["/48"], which
    no address does); here they are two constructors.  Times are in
    nanoseconds, [minute] is [get_time() / 60_000].  What the handlers only send
    (errors, the connection manager's window) is not modelled. *)

From S2P Require Import Prelude.

(** ** Configuration *)

Record Config : Type := mkConfig {
  cfg_option : string -> string;
  cfg_temporary_password : string;
  cfg_permanent_password : string;
}.

(* src/libs/hbb_common/src/password_security.rs:9-14 VerificationMethod *)
Inductive VerificationMethod : Type :=
| OnlyUseTemporaryPassword
| OnlyUsePermanentPassword
| UseBothPasswords.

#[export] Instance VerificationMethod_eq_dec : EqDecision VerificationMethod.
Proof. solve_decision. Defined.

(* src/libs/hbb_common/src/password_security.rs:16-22 ApproveMode *)
Inductive ApproveMode : Type := Both | Password | Click | Auto.

#[export] Instance ApproveMode_eq_dec : EqDecision ApproveMode.
Proof. solve_decision. Defined.

(* src/libs/hbb_common/src/password_security.rs:43-52 verification_method *)
Definition verification_method (c : Config) : VerificationMethod :=
  let method := cfg_option c "verification-method" in
  if decide (method = "use-temporary-password"%string) then OnlyUseTemporaryPassword
  else if decide (method = "use-permanent-password"%string) then OnlyUsePermanentPassword
  else UseBothPasswords.

(* src/libs/hbb_common/src/password_security.rs:54-63 temporary_password_length *)
Definition temporary_password_length (c : Config) : Z :=
  let length := cfg_option c "temporary-password-length" in
  if decide (length = "8"%string) then 8
  else if decide (length = "10"%string) then 10
  else 6.

(* src/libs/hbb_common/src/password_security.rs:65-67 temporary_enabled *)
Definition temporary_enabled (c : Config) : bool :=
  negb (bool_decide (verification_method c = OnlyUsePermanentPassword)).

(* src/libs/hbb_common/src/password_security.rs:69-71 permanent_enabled *)
Definition permanent_enabled (c : Config) : bool :=
  negb (bool_decide (verification_method c = OnlyUseTemporaryPassword)).

Definition is_empty (s : string) : bool := bool_decide (s = ""%string).

(* src/libs/hbb_common/src/password_security.rs:73-76 has_valid_password *)
Definition has_valid_password (c : Config) : bool :=
  (temporary_enabled c && negb (is_empty (cfg_temporary_password c))) ||
  (permanent_enabled c && negb (is_empty (cfg_permanent_password c))).

(* src/libs/hbb_common/src/password_security.rs:78-91 approve_mode *)
Definition approve_mode (c : Config) : ApproveMode :=
  let mode := cfg_option c "approve-mode" in
  if decide (mode = "password"%string) then Password
  else if decide (mode = "click"%string) then Click
  else if decide (mode = "both"%string) then Both
  else if decide (mode = "auto"%string \/ mode = ""%string) then Auto
  else Auto.

(** ** Connections and sessions *)

(* src/src/server/connection.rs:157-162 SessionKey *)
Record SessionKey : Type := mkKey {
  peer_id : string;
  sk_name : string;
  session_id : Z;
}.

#[export] Instance SessionKey_eq_dec : EqDecision SessionKey.
Proof. solve_decision. Defined.

#[export] Instance SessionKey_countable : Countable SessionKey.
Proof.
  refine (inj_countable' (fun k => (peer_id k, sk_name k, session_id k))
    (fun t => let '(a, b, c) := t in mkKey a b c) _).
  by intros [].
Defined.

(* src/src/server/connection.rs:164-169 Session *)
Record Session : Type := mkSession {
  last_recv_time : Z;
  random_password : string;
  tfa : bool;
}.

(* src/src/server/connection.rs:179-186 AuthConnType *)
Inductive AuthConnType : Type :=
| Remote | FileTransfer | PortForward | ViewCamera | Terminal.

#[export] Instance AuthConnType_eq_dec : EqDecision AuthConnType.
Proof. solve_decision. Defined.

(* src/src/server/connection.rs:4920-4926 AuthedConn *)
Record AuthedConn : Type := mkAuthed {
  ac_conn_id : Z;
  ac_conn_type : AuthConnType;
  ac_session_key : SessionKey;
}.

(** The fields of [LoginRequest] the handlers read. *)
Record LoginRequest : Type := mkLogin {
  lr_username : string;
  lr_password : bytes;
  lr_my_id : string;
  lr_my_name : string;
  lr_session_id : Z;
}.

(** The fields of [Connection] that decide about a login. *)
Record Connection : Type := mkConn {
  cn_id : Z;
  cn_ip : string;
  cn_salt : string;
  cn_challenge : string;
  cn_lr : LoginRequest;
  cn_authorized : bool;
  cn_require_2fa : bool;
  cn_from_switch : bool;
  cn_type : AuthConnType;
}.

Definition set_authorized (c : Connection) : Connection :=
  mkConn (cn_id c) (cn_ip c) (cn_salt c) (cn_challenge c) (cn_lr c) true
    (cn_require_2fa c) (cn_from_switch c) (cn_type c).

Definition clear_2fa (c : Connection) : Connection :=
  mkConn (cn_id c) (cn_ip c) (cn_salt c) (cn_challenge c) (cn_lr c) (cn_authorized c)
    false (cn_from_switch c) (cn_type c).

Definition set_login (lr : LoginRequest) (c : Connection) : Connection :=
  mkConn (cn_id c) (cn_ip c) (cn_salt c) (cn_challenge c) lr (cn_authorized c)
    (cn_require_2fa c) (cn_from_switch c) (cn_type c).

(* src/src/server/connection.rs:4274-4280 Connection::session_key *)
Definition session_key (c : Connection) : SessionKey :=
  mkKey (lr_my_id (cn_lr c)) (lr_my_name (cn_lr c)) (lr_session_id (cn_lr c)).

(** A key of [LOGIN_FAILURES]. *)
Inductive fail_key : Type :=
| FullIp (ip : string)
| Prefix (addr len : Z).

#[export] Instance fail_key_eq_dec : EqDecision fail_key.
Proof. solve_decision. Defined.

#[export] Instance fail_key_countable : Countable fail_key.
Proof.
  refine (inj_countable' (fun k => match k with FullIp s => inl s | Prefix a l => inr (a, l) end)
    (fun t => match t with inl s => FullIp s | inr (a, l) => Prefix a l end) _).
  by intros [].
Defined.

(** Minute of the last failure, failures in that minute, failures in total. *)
Abbreviation failure := (Z * Z * Z)%type.
Abbreviation failure_map := (gmap fail_key failure).

(** The global state of the module; [LOGIN_FAILURES[0]] counts wrong passwords,
    [LOGIN_FAILURES[1]] wrong second factors. *)
Record Global : Type := mkGlobal {
  g_sessions : gmap SessionKey Session;
  g_authed : list AuthedConn;
  g_failures0 : failure_map;
  g_failures1 : failure_map;
}.

Definition with_sessions (m : gmap SessionKey Session) (g : Global) : Global :=
  mkGlobal m (g_authed g) (g_failures0 g) (g_failures1 g).

(* src/src/server/connection.rs:340-340 SESSION_TIMEOUT *)
Definition SESSION_TIMEOUT : Z := 30 * 1000000000.

(** ** Authorized connections and their sessions *)

(** [AuthedConnID::new] and its [drop], on the list. *)
(* src/src/server/connection.rs:4952-4982 AuthedConnID::new *)
Definition authed_new (id : Z) (t : AuthConnType) (k : SessionKey) (g : Global) : Global :=
  mkGlobal (g_sessions g) (g_authed g ++ [mkAuthed id t k]) (g_failures0 g) (g_failures1 g).

(* src/src/server/connection.rs:5085-5120 AuthedConnID::drop *)
Definition authed_drop (id : Z) (g : Global) : Global :=
  mkGlobal (g_sessions g) (filter (fun c => ac_conn_id c <> id) (g_authed g))
    (g_failures0 g) (g_failures1 g).

(* src/src/server/connection.rs:5008-5035 AuthedConnID::check_remove_session *)
Definition check_remove_session (conn_id : Z) (key : SessionKey) (g : Global) : Global :=
  match g_sessions g !! key with
  | None => g
  | Some _ =>
      let is_remote := existsb (fun c => (ac_conn_id c =? conn_id) &&
        bool_decide (ac_conn_type c = Remote)) (g_authed g) in
      let another_remote := existsb (fun c => negb (ac_conn_id c =? conn_id) &&
        bool_decide (ac_session_key c = key) && bool_decide (ac_conn_type c = Remote))
        (g_authed g) in
      if is_remote || negb another_remote
      then with_sessions (delete key (g_sessions g)) g else g
  end.

(* src/src/server/connection.rs:5037-5061 AuthedConnID::update_or_insert_session *)
Definition update_or_insert_session (now : Z) (key : SessionKey) (password : option string)
    (tfa' : option bool) (g : Global) : Global :=
  let s :=
    match g_sessions g !! key with
    | Some s => mkSession (last_recv_time s) (default (random_password s) password)
                  (default (tfa s) tfa')
    | None => mkSession now (default ""%string password) (default false tfa')
    end in
  with_sessions (<[key := s]> (g_sessions g)) g.

(* src/src/server/connection.rs:5063-5078 AuthedConnID::set_session_2fa *)
Definition set_session_2fa (now : Z) (key : SessionKey) (g : Global) : Global :=
  let s :=
    match g_sessions g !! key with
    | Some s => mkSession (last_recv_time s) (random_password s) true
    | None => mkSession now ""%string true
    end in
  with_sessions (<[key := s]> (g_sessions g)) g.

(* src/src/server/connection.rs:1968-1991 Connection::should_auto_approve_file_transfer *)
Definition should_auto_approve_file_transfer (c : Connection) (id : string) (g : Global)
    : bool :=
  if negb (bool_decide (cn_type c = FileTransfer)) then false
  else existsb (fun a =>
    (bool_decide (ac_conn_type a = Remote) || bool_decide (ac_conn_type a = ViewCamera) ||
     bool_decide (ac_conn_type a = Terminal)) &&
    bool_decide (peer_id (ac_session_key a) = id)) (g_authed g).

Section guard.
Context (sha256 : bytes -> bytes) (parse_v6 : string -> option Z).

(** ** Passwords *)

(* src/src/server/connection.rs:1911-1922 Connection::validate_one_password *)
Definition validate_one_password (c : Connection) (password : string) : bool :=
  if is_empty password then false
  else
    let h := sha256 (String.list_byte_of_string password ++ String.list_byte_of_string (cn_salt c)) in
    bool_decide (sha256 (h ++ String.list_byte_of_string (cn_challenge c)) = lr_password (cn_lr c)).

(* src/src/server/connection.rs:1924-1942 Connection::validate_password *)
Definition validate_password (now : Z) (cfg : Config) (c : Connection) (g : Global)
    : bool * Global :=
  let password := cfg_temporary_password cfg in
  if temporary_enabled cfg && validate_one_password c password then
    (true, update_or_insert_session now (session_key c) (Some password) (Some false) g)
  else
    (permanent_enabled cfg && validate_one_password c (cfg_permanent_password cfg), g).

(* src/src/server/connection.rs:1944-1965 Connection::is_recent_session *)
Definition is_recent_session (now : Z) (second : bool) (c : Connection) (g : Global)
    : bool * Global :=
  let g := with_sessions
    (filter (fun p => Z.max 0 (now - last_recv_time (snd p)) < SESSION_TIMEOUT)
       (g_sessions g)) g in
  (match g_sessions g !! session_key c with
   | Some s =>
       negb (bool_decide (lr_password (cn_lr c) = [])) &&
       ((second && tfa s) || (negb second && validate_one_password c (random_password s)))
   | None => false
   end, g).

(** ** Throttling *)

(** The /64, /56 and /48 prefixes of an IPv6 address. *)
(* src/src/server/connection.rs:3286-3293 mask_u128 *)
Definition mask_u128 (addr prefix : Z) : Z :=
  let mask := if (prefix =? 0) || (128 <? prefix) then 0
              else u128 (Z.shiftl (2 ^ 128 - 1) (128 - prefix)) in
  Z.land addr mask.

(* src/src/server/connection.rs:3285-3305 Connection::get_ipv6_prefixes *)
Definition get_ipv6_prefixes (ip : string) : option (fail_key * fail_key * fail_key) :=
  a ← parse_v6 ip;
  Some (Prefix (mask_u128 a 64) 64, Prefix (mask_u128 a 56) 56, Prefix (mask_u128 a 48) 48).

(* src/src/server/connection.rs:3308-3318 bump *)
Definition bump (cur : failure) (time : Z) : failure :=
  let '(t, n, total) := cur in
  if t =? time then (t, i32 (n + 1), i32 (total + 1)) else (time, 1, i32 (total + 1)).

(* src/src/server/connection.rs:3307-3348 Connection::update_failure *)
Definition update_failure (ip : string) (ft : failure * Z) (remove : bool) (m : failure_map)
    : failure_map :=
  let '(f, time) := ft in
  if remove then
    if negb (fst (fst f) =? 0) then
      match get_ipv6_prefixes ip with
      | Some (p64, p56, p48) => delete (FullIp ip) (delete p48 (delete p56 (delete p64 m)))
      | None => delete (FullIp ip) m
      end
    else m
  else
    let m :=
      match get_ipv6_prefixes ip with
      | Some (p64, p56, p48) =>
          foldl (fun m key => <[key := bump (default (0, 0, 0) (m !! key)) time]> m) m
            [p64; p56; p48]
      | None => m
      end in
    <[FullIp ip := bump f time]> m.

(* src/src/server/connection.rs:3350-3383 Connection::check_failure_ipv6_prefix *)
Definition check_failure_ipv6_prefix (m : failure_map) (time : Z) (prefix : fail_key)
    (thresh : Z) : option (failure * Z * bool) :=
  let f := default (0, 0, 0) (m !! prefix) in
  if thresh <? snd f then Some (f, time, false) else None.

(* src/src/server/connection.rs:3385-3435 Connection::check_failure *)
Definition check_failure (time : Z) (ip : string) (m : failure_map) : failure * Z * bool :=
  let prefixed :=
    match get_ipv6_prefixes ip with
    | Some (p64, p56, p48) =>
        match check_failure_ipv6_prefix m time p64 60 with
        | Some res => Some res
        | None =>
            match check_failure_ipv6_prefix m time p56 80 with
            | Some res => Some res
            | None => check_failure_ipv6_prefix m time p48 100
            end
        end
    | None => None
    end in
  match prefixed with
  | Some res => res
  | None =>
      let f := default (0, 0, 0) (m !! FullIp ip) in
      let res :=
        if 30 <? snd f then false
        else if (time =? fst (fst f)) && (6 <? snd (fst f)) then false
        else true in
      (f, time, res)
  end.

(** ** Logging in *)

(** The decision part of [send_logon_response]. *)
(* src/src/server/connection.rs:1307-1360 Connection::send_logon_response *)
Definition send_logon_response (now : Z) (c : Connection) (g : Global) : Connection * Global :=
  if cn_authorized c then (c, g)
  else
    let '(recent, g) :=
      if cn_require_2fa c then is_recent_session now true c g else (true, g) in
    if cn_require_2fa c && negb recent && negb (cn_from_switch c) then (c, g)
    else
      (set_authorized c, authed_new (cn_id c) (cn_type c) (session_key c) g).

(** What the environment answers during a login: whether the addressed
    identifier is this machine, whether the logon screen may be controlled by
    password, and the error message of starting a desktop (empty: none). *)
Record login_env : Type := mkEnv {
  le_target_ok : bool;
  le_logon_screen : bool;
  le_err_msg : string;
}.

(** The request after its kind was permitted and the desktop was asked for (an
    error other than a session that is not ready was answered before); beside
    the new state, whether the connection is kept. *)
(* src/src/server/connection.rs:2253-2333 Connection::on_message *)
Definition login_request (now minute : Z) (cfg : Config) (env : login_env)
    (c : Connection) (g : Global) : bool * Connection * Global :=
  let lr := cn_lr c in
  let logon c g := let '(c, g) := send_logon_response now c g in (true, c, g) in
  if negb (le_target_ok env) then (false, c, g)
  else if should_auto_approve_file_transfer c (lr_my_id lr) g then logon c g
  else if decide (approve_mode cfg = Auto) then logon c g
  else if (bool_decide (approve_mode cfg = Click) && negb (le_logon_screen env)) ||
          (bool_decide (approve_mode cfg = Both) && negb (has_valid_password cfg))
  then (true, c, g)
  else
    let '(recent, g) := is_recent_session now false c g in
    if recent then
      if is_empty (le_err_msg env) then logon c g else (true, c, g)
    else if decide (lr_password lr = []) then (true, c, g)
    else
      let '(f, time, res) := check_failure minute (cn_ip c) (g_failures0 g) in
      if negb res then (true, c, g)
      else
        let '(ok, g) := validate_password now cfg c g in
        let g := mkGlobal (g_sessions g) (g_authed g)
                   (update_failure (cn_ip c) (f, time) ok (g_failures0 g)) (g_failures1 g) in
        if ok then if is_empty (le_err_msg env) then logon c g else (true, c, g)
        else (true, c, g).

(** The second factor; [code_ok] is the answer of [check_current] ([None]: an
    error). *)
(* src/src/server/connection.rs:2334-2366 Connection::on_message *)
Definition auth_2fa (now minute : Z) (code_ok : option bool) (c : Connection) (g : Global)
    : Connection * Global :=
  let '(f, time, res) := check_failure minute (cn_ip c) (g_failures1 g) in
  if negb res then (c, g)
  else if cn_require_2fa c then
    match code_ok with
    | Some true =>
        let g := mkGlobal (g_sessions g) (g_authed g) (g_failures0 g)
                   (update_failure (cn_ip c) (f, time) true (g_failures1 g)) in
        let c := clear_2fa c in
        send_logon_response now c (set_session_2fa now (session_key c) g)
    | Some false =>
        (c, mkGlobal (g_sessions g) (g_authed g) (g_failures0 g)
              (update_failure (cn_ip c) (f, time) false (g_failures1 g)))
    | None => (c, g)
    end
  else (c, g).

(** ** Attempts with wrong passwords *)

(** The attempts of which the password is looked at, when every password is
    wrong: each attempt is a minute and an address. *)
Fixpoint checked (m : failure_map) (attempts : list (Z * string)) : list (Z * string) :=
  match attempts with
  | [] => []
  | (t, ip) :: rest =>
      let '(f, time, res) := check_failure t ip m in
      if res then (t, ip) :: checked (update_failure ip (f, time) false m) rest
      else checked m rest
  end.

(** The keys an address is counted under, and their limits. *)
Definition keys_of (ip : string) : list fail_key :=
  FullIp ip :: match get_ipv6_prefixes ip with
               | Some (p64, p56, p48) => [p64; p56; p48]
               | None => []
               end.

Definition threshold (k : fail_key) : Z :=
  match k with
  | FullIp _ => 30
  | Prefix _ len => if len =? 64 then 60 else if len =? 56 then 80 else 100
  end.

Definition total (m : failure_map) (k : fail_key) : Z := snd (default (0, 0, 0) (m !! k)).

Definition count (p : Z * string -> bool) (l : list (Z * string)) : Z :=
  zlen (List.filter p l).

Lemma bump_total f t : 0 <= snd f < 1000 -> snd (bump f t) = snd f + 1.
Proof.
  destruct f as [[t0 n] tot]. simpl. intros H.
  destruct (t0 =? t); simpl; apply swrap_small; unfold in_i; lia.
Qed.

Lemma check_allowed t ip m f time :
  check_failure t ip m = (f, time, true) ->
  f = default (0, 0, 0) (m !! FullIp ip) /\ time = t /\
  (forall k, k ∈ keys_of ip -> total m k <= threshold k) /\
  ~ (t = fst (fst f) /\ 6 < snd (fst f)).
Proof.
  unfold check_failure, keys_of, check_failure_ipv6_prefix.
  set (fk := default (0, 0, 0) (m !! FullIp ip)).
  assert (forall r, r = (fk, t, (if 30 <? snd fk then false
      else if (t =? fst (fst fk)) && (6 <? snd (fst fk)) then false else true)) ->
    r = (f, time, true) -> f = fk /\ time = t /\ total m (FullIp ip) <= 30 /\
    ~ (t = fst (fst f) /\ 6 < snd (fst f))) as G.
  { intros r -> [= <- <- Hr]. split_and!; try done.
    - unfold total. fold fk. destruct (Z.ltb_spec 30 (snd fk)); [done|lia].
    - intros [Ht Hn]. destruct (30 <? snd fk); [done|].
      rewrite (proj2 (Z.eqb_eq _ _) Ht), (proj2 (Z.ltb_lt _ _) Hn) in Hr. done. }
  destruct (get_ipv6_prefixes ip) as [[[p64 p56] p48]|] eqn:E.
  - destruct (Z.ltb_spec 60 (snd (default (0, 0, 0) (m !! p64)))); [done|].
    destruct (Z.ltb_spec 80 (snd (default (0, 0, 0) (m !! p56)))); [done|].
    destruct (Z.ltb_spec 100 (snd (default (0, 0, 0) (m !! p48)))); [done|].
    intros H2. destruct (G _ eq_refl H2) as (G1 & G2 & G3 & G4). split_and!; try done.
    unfold get_ipv6_prefixes in E. destruct (parse_v6 ip) as [a|]; simpl in E; [|done].
    injection E as <- <- <-.
    intros k. rewrite !elem_of_cons, elem_of_nil.
    intros [->|[->|[->|[->|[]]]]]; try done; unfold total; simpl; done.
  - intros H2. destruct (G _ eq_refl H2) as (G1 & G2 & G3 & G4). split_and!; try done.
    intros k ->%list_elem_of_singleton. done.
Qed.

(** What a recorded failure does to a key. *)
Lemma update_lookup ip t m k :
  update_failure ip (default (0, 0, 0) (m !! FullIp ip), t) false m !! k =
  if decide (k ∈ keys_of ip) then Some (bump (default (0, 0, 0) (m !! k)) t) else m !! k.
Proof.
  unfold update_failure, keys_of. destruct (get_ipv6_prefixes ip) as [[[p64 p56] p48]|] eqn:E.
  - unfold get_ipv6_prefixes in E. destruct (parse_v6 ip) as [a|]; simpl in E; [|done].
    injection E as <- <- <-. cbn [foldl].
    repeat (rewrite ?lookup_insert;
      match goal with |- context [decide (?x = ?y)] =>
        destruct (decide (x = y)) as [?|?]; simplify_eq; try done end);
    repeat (rewrite lookup_insert_ne by done); case_decide as D; try done; set_solver.
  - rewrite lookup_insert. destruct (decide (FullIp ip = k)) as [<-|N].
    + rewrite decide_True by set_solver. done.
    + rewrite decide_False by set_solver. done.
Qed.

Definition counted_under (k : fail_key) (a : Z * string) : bool :=
  bool_decide (k ∈ keys_of (snd a)).

Lemma count_cons p a l : count p (a :: l) = (if p a then 1 else 0) + count p l.
Proof. unfold count. simpl. destruct (p a); [by rewrite zlen_cons|lia]. Qed.

Lemma threshold_range k : 0 <= threshold k <= 100.
Proof. destruct k; simpl; repeat case_match; lia. Qed.

Lemma count_total k attempts m :
  0 <= total m k ->
  count (counted_under k) (checked m attempts) <= Z.max 0 (threshold k + 1 - total m k).
Proof.
  revert m. induction attempts as [|[t ip] rest IH]; intros m H0; cbn [checked].
  { unfold count. simpl. rewrite zlen_nil. lia. }
  destruct (check_failure t ip m) as [[f time] res] eqn:E.
  destruct res; [|by apply IH].
  destruct (check_allowed _ _ _ _ _ E) as (-> & -> & Hk & _).
  rewrite count_cons. unfold counted_under at 1. cbn [snd].
  pose proof (update_lookup ip t m k) as U. pose proof (threshold_range k).
  set (m' := update_failure _ _ _ _) in *.
  destruct (decide (k ∈ keys_of ip)) as [D|D].
  - rewrite bool_decide_true by done. specialize (Hk k D).
    assert (total m' k = total m k + 1) as T.
    { unfold total. rewrite U. apply bump_total.
      change (0 <= total m k < 1000). lia. }
    specialize (IH m' ltac:(lia)). cbv iota. lia.
  - rewrite bool_decide_false by done. cbv iota.
    assert (total m' k = total m k) as T by (unfold total; by rewrite U).
    specialize (IH m' ltac:(lia)). lia.
Qed.

(** Minutes do not go back. *)
Definition minutes_from (t0 : Z) (attempts : list (Z * string)) : Prop :=
  Sorted Z.le (t0 :: attempts.*1).

Definition at_minute (ip : string) (t : Z) (a : Z * string) : bool :=
  (fst a =? t) && bool_decide (snd a = ip).

Lemma minutes_later t0 attempts a :
  minutes_from t0 attempts -> a ∈ attempts -> t0 <= fst a.
Proof.
  intros H Ha. apply Sorted_StronglySorted in H; [|intros x y z; lia].
  apply StronglySorted_inv in H as [_ H]. rewrite Forall_forall in H.
  apply H, list_elem_of_fmap. by exists a.
Qed.

Lemma checked_subset m attempts a : a ∈ checked m attempts -> a ∈ attempts.
Proof.
  revert m. induction attempts as [|[t ip] rest IH]; intros m; simpl; [done|].
  destruct (check_failure t ip m) as [[f time] [|]].
  - rewrite !elem_of_cons. intros [?|?%IH]; auto.
  - intros ?%IH. by right.
Qed.

Lemma count_zero p l : (forall a, a ∈ l -> p a = false) -> count p l = 0.
Proof.
  induction l as [|a l IH]; intros H; [done|]. rewrite count_cons, (H a), IH; [done| |by left].
  intros b Hb. apply H. by right.
Qed.

Lemma count_minute ip t attempts m :
  let '(t0, n, tot) := default (0, 0, 0) (m !! FullIp ip) in
  minutes_from t0 attempts -> 0 <= n <= 7 -> 0 <= tot ->
  count (at_minute ip t) (checked m attempts) <= (if t0 =? t then 7 - n else 7).
Proof.
  revert m. induction attempts as [|[s ip'] rest IH]; intros m.
  { destruct (default _ _) as [[t0 n] tot]. intros _ Hn _. unfold count. simpl.
    rewrite zlen_nil. destruct (t0 =? t); lia. }
  destruct (default (0, 0, 0) (m !! FullIp ip)) as [[t0 n] tot] eqn:F.
  intros Hs Hn Ht. cbn [checked].
  assert (t0 <= s /\ minutes_from s rest /\ minutes_from t0 rest) as (Hts & Hsr & Hsr0).
  { unfold minutes_from in *. change (Sorted Z.le (t0 :: s :: rest.*1)) in Hs.
    apply Sorted_inv in Hs as [Hs1 Hs2].
    apply HdRel_inv in Hs2. split_and!; try done.
    apply Sorted_inv in Hs1 as [Hs3 Hs4]. constructor; [done|].
    destruct (rest.*1); constructor. apply HdRel_inv in Hs4. lia. }
  destruct (check_failure s ip' m) as [[f time] res] eqn:E.
  destruct res.
  2: { specialize (IH m). rewrite F in IH. by apply IH. }
  destruct (check_allowed _ _ _ _ _ E) as (-> & -> & Hk & Hm).
  rewrite count_cons. unfold at_minute at 1. cbn [fst snd].
  pose proof (update_lookup ip' s m (FullIp ip)) as U.
  set (m' := update_failure _ _ _ _) in *. specialize (IH m').
  destruct (decide (ip' = ip)) as [->|N].
  - rewrite decide_True in U by (unfold keys_of; set_solver). rewrite F in U, Hm.
    rewrite U in IH. cbn [default from_option id] in IH. cbn [fst snd] in Hm.
    specialize (Hk (FullIp ip) ltac:(unfold keys_of; set_solver)).
    unfold total in Hk. rewrite F in Hk. cbn [snd threshold] in Hk.
    rewrite (bool_decide_true (ip = ip)) by done. rewrite andb_true_r. unfold bump in IH.
    assert (i32 (tot + 1) = tot + 1) as W1 by (apply swrap_small; unfold in_i; lia).
    assert (i32 (n + 1) = n + 1) as W2 by (apply swrap_small; unfold in_i; lia).
    rewrite W1, W2 in IH. destruct (Z.eqb_spec t0 s) as [->|Ne].
    + specialize (IH Hsr ltac:(lia) ltac:(lia)). destruct (s =? t); lia.
    + specialize (IH Hsr ltac:(lia) ltac:(lia)).
      destruct (Z.eqb_spec s t) as [->|]; [rewrite (proj2 (Z.eqb_neq _ _)) by done; lia|].
      destruct (Z.eqb_spec t0 t) as [->|]; [|lia].
      rewrite count_zero; [lia|]. intros a Ha%checked_subset.
      unfold at_minute. apply andb_false_iff. left. apply Z.eqb_neq.
      pose proof (minutes_later _ _ _ Hsr Ha). lia.
  - rewrite (bool_decide_false (ip' = ip)), andb_false_r by done.
    assert (FullIp ip ∉ keys_of ip') as Nk.
    { unfold keys_of. destruct (get_ipv6_prefixes ip') as [[[a b] c]|] eqn:G; [|set_solver].
      unfold get_ipv6_prefixes in G. destruct (parse_v6 ip'); simpl in G; [|done].
      injection G as <- <- <-. set_solver. }
    rewrite decide_False in U by done. rewrite U, F in IH. by apply IH.
Qed.

(** C36. Guessing passwords is throttled: starting from an empty table, of any
    sequence of wrong attempts from any addresses, the password is looked at for
    at most 31 attempts from one address, and for at most 61, 81 and 101 from
    all addresses of one IPv6 /64, /56 and /48 prefix, however long the
    attacker waits (the totals are never reset by time); and as long as the
    clock does not go back, for at most 7 from one address in one minute. *)
Theorem attempts_throttled attempts :
  (forall k, count (counted_under k) (checked ∅ attempts) <= threshold k + 1) /\
  (minutes_from 0 attempts ->
   forall ip t, count (at_minute ip t) (checked ∅ attempts) <= 7).
Proof.
  split.
  - intros k. pose proof (threshold_range k).
    pose proof (count_total k attempts ∅) as C. unfold total in C.
    rewrite lookup_empty in C. cbn in C. specialize (C ltac:(lia)). lia.
  - intros Hs ip t. pose proof (count_minute ip t attempts ∅) as C.
    rewrite lookup_empty in C. cbn [default from_option] in C.
    specialize (C Hs ltac:(lia) ltac:(lia)). destruct (0 =? t); lia.
Qed.

(** ** Who is authorized *)

(** The first factor: how a request is granted before the second factor. *)
Definition password_matches (cfg : Config) (c : Connection) : Prop :=
  exists p : string, is_empty p = false /\
    (temporary_enabled cfg = true /\ p = cfg_temporary_password cfg \/
     permanent_enabled cfg = true /\ p = cfg_permanent_password cfg) /\
    lr_password (cn_lr c) =
      sha256 (sha256 (String.list_byte_of_string p ++ String.list_byte_of_string (cn_salt c)) ++
              String.list_byte_of_string (cn_challenge c)).

Definition granted (now minute : Z) (cfg : Config) (c : Connection) (g : Global) : Prop :=
  should_auto_approve_file_transfer c (lr_my_id (cn_lr c)) g = true \/
  approve_mode cfg = Auto \/
  fst (is_recent_session now false c g) = true \/
  (lr_password (cn_lr c) <> [] /\ snd (check_failure minute (cn_ip c) (g_failures0 g)) = true /\
   password_matches cfg c).

Definition second_factor_waived (now : Z) (c : Connection) (g : Global) : Prop :=
  cn_require_2fa c = false \/ cn_from_switch c = true \/
  fst (is_recent_session now true c g) = true.

Lemma send_logon_authorized now c g :
  cn_authorized c = false ->
  cn_authorized (fst (send_logon_response now c g)) = true <-> second_factor_waived now c g.
Proof.
  unfold send_logon_response, second_factor_waived. intros Hc. rewrite Hc.
  destruct (cn_require_2fa c).
  - destruct (is_recent_session now true c g) as [[|] g1]; cbn [fst negb andb]; [|];
      destruct (cn_from_switch c); simpl; rewrite ?Hc; intuition congruence.
  - simpl. intuition congruence.
Qed.

Lemma map_filter_twice (P : SessionKey * Session -> Prop) `{!forall x, Decision (P x)}
    (m : gmap SessionKey Session) : filter P (filter P m) = filter P m.
Proof.
  apply map_eq. intros k. apply option_eq. intros x. rewrite !map_lookup_filter_Some. tauto.
Qed.

(** Dropping old sessions does not change who is recent. *)
Lemma is_recent_again now s s' c g :
  fst (is_recent_session now s' c (snd (is_recent_session now s c g))) =
  fst (is_recent_session now s' c g).
Proof.
  unfold is_recent_session. simpl. by rewrite map_filter_twice.
Qed.

Lemma is_recent_false_global now s c g r g' :
  is_recent_session now s c g = (r, g') ->
  g_failures0 g' = g_failures0 g /\ g_authed g' = g_authed g.
Proof. unfold is_recent_session. by intros [= _ <-]. Qed.

Lemma validate_one_spec c p :
  validate_one_password c p = true ->
  is_empty p = false /\
  lr_password (cn_lr c) =
    sha256 (sha256 (String.list_byte_of_string p ++ String.list_byte_of_string (cn_salt c)) ++
            String.list_byte_of_string (cn_challenge c)).
Proof.
  unfold validate_one_password. destruct (is_empty p); [done|]. by intros ?%bool_decide_eq_true.
Qed.

(** A checked password matches, and does not turn a session into one that passed
    the second factor. *)
Lemma validate_password_spec now cfg c g g' :
  validate_password now cfg c g = (true, g') ->
  password_matches cfg c /\
  (fst (is_recent_session now true c g') = true -> fst (is_recent_session now true c g) = true).
Proof.
  unfold validate_password, password_matches.
  destruct (temporary_enabled cfg && validate_one_password c (cfg_temporary_password cfg)) eqn:T.
  - apply andb_true_iff in T as [T1 T2%validate_one_spec]. intros [= <-]. split.
    + exists (cfg_temporary_password cfg). naive_solver.
    + unfold is_recent_session, update_or_insert_session. simpl.
      destruct (filter _ _ !! _) as [s|] eqn:F; [|done]. intros Hs.
      apply map_lookup_filter_Some in F as [F _]. rewrite lookup_insert_eq in F.
      injection F as <-. rewrite andb_true_iff in Hs.
      by destruct (g_sessions g !! session_key c), Hs.
  - intros [= [P1 P2%validate_one_spec]%andb_true_iff <-]. split; [|done].
    exists (cfg_permanent_password cfg). naive_solver.
Qed.

Lemma login_granted now minute cfg env c g :
  cn_authorized c = false ->
  cn_authorized (snd (fst (login_request now minute cfg env c g))) = true ->
  le_target_ok env = true /\ granted now minute cfg c g /\ second_factor_waived now c g.
Proof.
  intros Hc. unfold login_request, granted.
  assert (forall g, cn_authorized (snd (fst (let '(c, g) := send_logon_response now c g in
    (true, c, g)))) = true -> second_factor_waived now c g) as L.
  { intros g0. destruct (send_logon_response now c g0) as [c1 g1] eqn:S. simpl. intros H.
    apply send_logon_authorized; [done|]. by rewrite S. }
  destruct (le_target_ok env); cbn [negb]; [|simpl; congruence].
  destruct (should_auto_approve_file_transfer c _ g) eqn:A; [intros ?%L; auto|].
  destruct (decide (approve_mode cfg = Auto)); [intros ?%L; auto|].
  destruct (_ || _); [simpl; congruence|].
  destruct (is_recent_session now false c g) as [recent g1] eqn:R.
  pose proof (is_recent_again now false true c g) as R2. rewrite R in R2. cbn [snd] in R2.
  destruct (is_recent_false_global _ _ _ _ _ _ R) as [F0 _].
  destruct recent.
  { destruct (is_empty _); [|simpl; congruence]. intros ?%L. split_and!; auto.
    unfold second_factor_waived in *. by rewrite R2 in *. }
  destruct (decide _) as [|Np]; [simpl; congruence|].
  destruct (check_failure _ _ _) as [[f time] res] eqn:C. rewrite F0 in C.
  destruct res; cbn [negb]; [|simpl; congruence].
  destruct (validate_password now cfg c g1) as [ok g2] eqn:V.
  destruct ok; [|simpl; congruence]. destruct (validate_password_spec _ _ _ _ _ V) as [V1 V2].
  destruct (is_empty _); [|simpl; congruence]. intros [?|[?|H]]%L.
  - split_and!; [done| |by left]. right. right. right. by rewrite C.
  - split_and!; [done| |by right; left]. right. right. right. by rewrite C.
  - split_and!; [done| |right; right; rewrite <- R2; by apply V2].
    right. right. right. by rewrite C.
Qed.

Lemma auth_2fa_authorized now minute code_ok c g :
  cn_authorized c = false ->
  cn_authorized (fst (auth_2fa now minute code_ok c g)) = true <->
  cn_require_2fa c = true /\ code_ok = Some true /\
  snd (check_failure minute (cn_ip c) (g_failures1 g)) = true.
Proof.
  intros Hc. unfold auth_2fa.
  destruct (check_failure _ _ _) as [[f time] res]. destruct res; cbn [negb snd].
  2: { simpl. intuition congruence. }
  destruct (cn_require_2fa c); [|simpl; intuition congruence].
  destruct code_ok as [[|]|]; simpl; rewrite ?Hc; [|intuition congruence..].
  unfold send_logon_response. cbn [clear_2fa cn_authorized]. rewrite Hc. simpl. tauto.
Qed.

(** The second factor replaces the first: a connection that waits for the
    second factor is authorized as soon as it sends a right code from an address
    that is not throttled, whatever it sent before, also when it never sent a
    password or sent a wrong one. *)
Theorem second_factor_alone now minute code_ok c g :
  cn_authorized c = false ->
  cn_authorized (fst (auth_2fa now minute code_ok c g)) = true <->
  cn_require_2fa c = true /\ code_ok = Some true /\
  snd (check_failure minute (cn_ip c) (g_failures1 g)) = true.
Proof. apply auth_2fa_authorized. Qed.

Lemma claimed_id_authorizes now minute cfg env c g a :
  a ∈ g_authed g -> ac_conn_type a ∈ [Remote; ViewCamera; Terminal] ->
  cn_type c = FileTransfer -> lr_my_id (cn_lr c) = peer_id (ac_session_key a) ->
  le_target_ok env = true -> cn_require_2fa c = false ->
  cn_authorized (snd (fst (login_request now minute cfg env c g))) = true.
Proof.
  intros Ha Ht Hc Hi He H2. unfold login_request. rewrite He. cbn [negb].
  assert (should_auto_approve_file_transfer c (lr_my_id (cn_lr c)) g = true) as ->.
  { unfold should_auto_approve_file_transfer. rewrite bool_decide_true by done. cbn [negb].
    apply existsb_exists. exists a. split; [by apply list_elem_of_In|].
    rewrite (bool_decide_true (peer_id _ = _)), andb_true_r by done.
    rewrite !elem_of_cons, elem_of_nil in Ht. destruct Ht as [->|[->|[->|[]]]]; done. }
  unfold send_logon_response. rewrite H2. by destruct (cn_authorized c) eqn:E.
Qed.

(** A file transfer is granted on a claim: while one connection of a peer
    to the desktop, the camera or a terminal is authorized, a file transfer that
    claims the identifier of that peer is authorized, from whatever address,
    with whatever session and password, and whatever approve mode is configured,
    when no second factor is required. *)
Theorem claimed_id_suffices now minute cfg env c g a :
  a ∈ g_authed g -> ac_conn_type a ∈ [Remote; ViewCamera; Terminal] ->
  cn_type c = FileTransfer -> lr_my_id (cn_lr c) = peer_id (ac_session_key a) ->
  le_target_ok env = true -> cn_require_2fa c = false ->
  cn_authorized (snd (fst (login_request now minute cfg env c g))) = true.
Proof. apply claimed_id_authorizes. Qed.

End guard.

(** ** Witnesses *)

Definition a_peer : SessionKey := mkKey "123456789"%string "alice"%string 7.
Definition a_config : Config := mkConfig (fun k : string => if decide (k = "approve-mode"%string)
  then "password"%string else ""%string) "tmp123" "".
Definition an_env : login_env := mkEnv true false ""%string.

(** A toy hash: the identity. *)
Definition a_login (p : bytes) : LoginRequest := mkLogin "1"%string p "123456789"%string "alice"%string 7.
Definition a_conn (p : bytes) (t : AuthConnType) (tfa : bool) : Connection :=
  mkConn 1 "10.0.0.1"%string "s"%string "c"%string (a_login p) false tfa false t.
Definition a_global : Global :=
  mkGlobal ∅ [mkAuthed 9 Remote a_peer] ∅ ∅.

Lemma second_factor_alone_witness :
  cn_authorized (fst (auth_2fa id (fun _ => None) 0 0 (Some true) (a_conn [] Remote true)
    a_global)) = true.
Proof. apply second_factor_alone; [reflexivity|vm_compute; auto]. Defined.

Lemma claimed_id_suffices_witness :
  cn_authorized (snd (fst (login_request id (fun _ => None) 0 0 a_config an_env
    (a_conn [] FileTransfer false) a_global))) = true.
Proof.
  apply (claimed_id_suffices id (fun _ => None) 0 0 a_config an_env
    (a_conn [] FileTransfer false) a_global (mkAuthed 9 Remote a_peer)); try reflexivity.
  all: apply list_elem_of_In; simpl; auto.
Defined.
