(* ===== verification/FileSys.v ===== *)
(** * Files

    The part of [std::fs] and [tokio::fs] the file transfer uses: names, the
    files they refer to, and handles with a position.  A handle refers to a
    file, not to a name, so it stays on its file when the name is moved.
    Directories are not modelled; which operations the system permits is a
    parameter.  Times of files are in nanoseconds. *)

From S2P Require Import Prelude.

Record node : Type := mkNode { data : bytes; mtime : Z }.

(** [names] maps the path of a file to its place in [nodes]; [clock] is the time
    of the machine. *)
Record FS : Type := mkFS {
  names : gmap string nat;
  nodes : list node;
  clock : Z;
}.

Inductive fsop : Type := OpCreate | OpOpen | OpRemove | OpRename | OpTouch.

Definition file (f : FS) (p : string) : option node :=
  i ← names f !! p; nodes f !! i.

Definition content (f : FS) (p : string) : option bytes := data <$> file f p.

Definition exists_file (f : FS) (p : string) : bool := bool_decide (is_Some (names f !! p)).

(** [old] with [buf] written at [pos]; a gap is filled with zeros. *)
Definition splice (pos : Z) (buf old : bytes) : bytes :=
  let k := Z.to_nat pos in
  take k old ++ replicate (k - length old) Byte.x00 ++ buf ++ drop (k + length buf) old.

Section fs.
Context (allowed : fsop -> string -> bool).

(** [File::create]: the file is emptied when it exists. *)
Definition create (p : string) (f : FS) : option (FS * nat) :=
  if allowed OpCreate p then
    match names f !! p with
    | Some i => Some (mkFS (names f) (<[i := mkNode [] (clock f)]> (nodes f)) (clock f), i)
    | None =>
        let i := length (nodes f) in
        Some (mkFS (<[p := i]> (names f)) (nodes f ++ [mkNode [] (clock f)]) (clock f), i)
    end
  else None.

(** [File::open]. *)
Definition open_file (p : string) (f : FS) : option nat :=
  if allowed OpOpen p then names f !! p else None.

(** [OpenOptions] with [create] and [write], on a file that exists. *)
Definition open_write (p : string) (f : FS) : option nat :=
  if allowed OpCreate p then names f !! p else None.

Definition remove_file (p : string) (f : FS) : option FS :=
  if allowed OpRemove p && exists_file f p
  then Some (mkFS (delete p (names f)) (nodes f) (clock f)) else None.

Definition rename (a b : string) (f : FS) : option FS :=
  i ← names f !! a;
  if allowed OpRename b
  then Some (mkFS (<[b := i]> (delete a (names f))) (nodes f) (clock f)) else None.

Definition set_file_mtime (p : string) (t : Z) (f : FS) : option FS :=
  i ← names f !! p; n ← nodes f !! i;
  if allowed OpTouch p
  then Some (mkFS (names f) (<[i := mkNode (data n) t]> (nodes f)) (clock f)) else None.

(** [write_all] at a position of a file. *)
Definition write_node (i : nat) (pos : Z) (buf : bytes) (f : FS) : FS :=
  match nodes f !! i with
  | Some n => mkFS (names f) (<[i := mkNode (splice pos buf (data n)) (clock f)]> (nodes f)) (clock f)
  | None => f
  end.

(** [.ok()] on an operation: its failure leaves the files as they are. *)
Definition try_fs (op : FS -> option FS) (f : FS) : FS := default f (op f).

(** ** Names refer to different files *)

Record wf (f : FS) : Prop := mkWf {
  wf_bound : forall p i, names f !! p = Some i -> (i < length (nodes f))%nat;
  wf_inj : forall p q i, names f !! p = Some i -> names f !! q = Some i -> p = q;
}.

Lemma file_name f p i : names f !! p = Some i -> file f p = nodes f !! i.
Proof. intros H. unfold file. by rewrite H. Qed.

Lemma file_exists f p i : wf f -> names f !! p = Some i -> exists n, file f p = Some n.
Proof.
  intros W H. rewrite (file_name _ _ _ H). apply lookup_lt_is_Some. by eapply wf_bound.
Qed.

(** A change of the file behind [p] is seen under [p] only. *)
Lemma node_change f p i n :
  wf f -> names f !! p = Some i ->
  let f' := mkFS (names f) (<[i := n]> (nodes f)) (clock f) in
  wf f' /\ file f' p = Some n /\ forall q, q <> p -> file f' q = file f q.
Proof.
  intros W H f'. split_and!.
  - split; subst f'; simpl.
    + intros q j Hq. rewrite length_insert. by eapply wf_bound.
    + intros q r j. by apply wf_inj.
  - unfold file. subst f'. simpl. rewrite H. simpl. apply list_lookup_insert_eq.
    by eapply wf_bound.
  - intros q Hq. unfold file. subst f'. simpl. destruct (names f !! q) as [j|] eqn:E; [|done].
    simpl. apply list_lookup_insert_ne. intros ->. apply Hq. by eapply wf_inj.
Qed.

Lemma create_spec f p f' i :
  wf f -> create p f = Some (f', i) ->
  wf f' /\ names f' !! p = Some i /\ file f' p = Some (mkNode [] (clock f)) /\
  (forall q, q <> p -> names f' !! q = names f !! q) /\
  (forall q, q <> p -> file f' q = file f q) /\ clock f' = clock f.
Proof.
  intros W. unfold create. destruct (allowed OpCreate p); [|done].
  destruct (names f !! p) as [j|] eqn:E; intros [= <- <-].
  - destruct (node_change f p j (mkNode [] (clock f)) W E) as (W' & H1 & H2). done.
  - split_and!; simpl; try done.
    + split; simpl; intros q.
      * intros j. rewrite length_app. simpl. destruct (decide (q = p)) as [->|N].
        { rewrite lookup_insert_eq. intros [= <-]. lia. }
        rewrite lookup_insert_ne by done. intros ?%(wf_bound _ W). lia.
      * intros r j. destruct (decide (q = p)) as [->|N], (decide (r = p)) as [->|N'];
          rewrite ?lookup_insert_eq, ?lookup_insert_ne by done; try done.
        { intros [= <-] ?%(wf_bound _ W). lia. }
        { intros ?%(wf_bound _ W) [= <-]. lia. }
        by apply wf_inj.
    + apply lookup_insert_eq.
    + unfold file. simpl. rewrite lookup_insert_eq. simpl.
      by rewrite lookup_app_r, Nat.sub_diag by lia.
    + intros q N. by rewrite lookup_insert_ne by done.
    + intros q N. unfold file. simpl. rewrite lookup_insert_ne by done.
      destruct (names f !! q) as [j|] eqn:E'; [|done]. simpl.
      apply lookup_app_l. by eapply wf_bound.
Qed.

Lemma create_total f p : allowed OpCreate p = true -> exists f' i, create p f = Some (f', i).
Proof. intros A. unfold create. rewrite A. destruct (names f !! p); eauto. Qed.

Lemma delete_wf f p : wf f -> wf (mkFS (delete p (names f)) (nodes f) (clock f)).
Proof.
  intros W. split; simpl.
  - intros q j [_ ?]%lookup_delete_Some. by eapply wf_bound.
  - intros q r j [_ ?]%lookup_delete_Some [_ ?]%lookup_delete_Some. by eapply wf_inj.
Qed.

Lemma remove_file_spec f p f' :
  wf f -> remove_file p f = Some f' ->
  wf f' /\ names f' !! p = None /\ (forall q, q <> p -> names f' !! q = names f !! q) /\
  (forall q, q <> p -> file f' q = file f q) /\ clock f' = clock f.
Proof.
  intros W. unfold remove_file. destruct (_ && _); intros [= <-]. split_and!; simpl; try done.
  - by apply delete_wf.
  - apply lookup_delete_eq.
  - intros q N. by rewrite lookup_delete_ne by done.
  - intros q N. unfold file. simpl. by rewrite lookup_delete_ne by done.
Qed.

Lemma rename_spec f a b f' :
  wf f -> a <> b -> rename a b f = Some f' ->
  wf f' /\ names f' !! b = names f !! a /\ names f' !! a = None /\ file f' b = file f a /\
  (forall q, q <> a -> q <> b -> names f' !! q = names f !! q) /\
  (forall q, q <> a -> q <> b -> file f' q = file f q) /\ clock f' = clock f.
Proof.
  intros W N. unfold rename. destruct (names f !! a) as [i|] eqn:E; simpl; [|done].
  destruct (allowed OpRename b); intros [= <-]. split_and!; simpl; try done.
  - pose proof (delete_wf f a W) as W'. split; simpl; intros q.
    + intros j. destruct (decide (q = b)) as [->|].
      { rewrite lookup_insert_eq. intros [= <-]. by eapply wf_bound. }
      rewrite lookup_insert_ne by done. apply (wf_bound _ W').
    + intros r j.
      assert (forall s, delete a (names f) !! s = Some i -> False) as D.
      { intros s [N' Hs]%lookup_delete_Some. apply N'. exact (wf_inj _ W _ _ _ E Hs). }
      destruct (decide (q = b)) as [->|], (decide (r = b)) as [->|];
        rewrite ?lookup_insert_eq, ?lookup_insert_ne by done; try done.
      { intros [= <-] ?. exfalso. by eapply D. }
      { intros H [= <-]. exfalso. by eapply D. }
      apply (wf_inj _ W').
  - apply lookup_insert_eq.
  - rewrite lookup_insert_ne by done. apply lookup_delete_eq.
  - unfold file. simpl. rewrite lookup_insert_eq, E. done.
  - intros q ??. rewrite lookup_insert_ne, lookup_delete_ne by done. done.
  - intros q ??. unfold file. simpl. rewrite lookup_insert_ne, lookup_delete_ne by done. done.
Qed.

Lemma set_file_mtime_spec f p t f' :
  wf f -> set_file_mtime p t f = Some f' ->
  wf f' /\ content f' p = content f p /\ mtime <$> file f' p = Some t /\
  names f' = names f /\ (forall q, q <> p -> file f' q = file f q) /\ clock f' = clock f.
Proof.
  intros W. unfold set_file_mtime. destruct (names f !! p) as [i|] eqn:E; simpl; [|done].
  destruct (nodes f !! i) as [n|] eqn:En; simpl; [|done].
  destruct (allowed OpTouch p); intros [= <-].
  destruct (node_change f p i (mkNode (data n) t) W E) as (W' & H1 & H2). split_and!; try done.
  - unfold content. rewrite H1, (file_name _ _ _ E), En. done.
  - by rewrite H1.
Qed.

Lemma write_node_spec f p i pos buf n :
  wf f -> names f !! p = Some i -> file f p = Some n ->
  let f' := write_node i pos buf f in
  wf f' /\ file f' p = Some (mkNode (splice pos buf (data n)) (clock f)) /\
  names f' = names f /\ (forall q, q <> p -> file f' q = file f q) /\ clock f' = clock f.
Proof.
  intros W E Hn. unfold write_node. rewrite (file_name _ _ _ E) in Hn. rewrite Hn.
  destruct (node_change f p i (mkNode (splice pos buf (data n)) (clock f)) W E) as (? & ? & ?).
  done.
Qed.

(** Writing at the end of a file. *)
Lemma splice_end buf old : splice (zlen old) buf old = old ++ buf.
Proof.
  unfold splice, zlen. rewrite Nat2Z.id, take_ge, Nat.sub_diag, drop_ge by lia.
  simpl. by rewrite app_nil_r.
Qed.

End fs.
