(* ===== verification/FileTransfer.v ===== *)
(** * File transfer jobs

    [libs/hbb_common/src/fs.rs]: a [TransferJob] reads the files of one machine
    block by block, or writes the blocks it receives into files.  A job that
    detects overwriting sends a digest of each file first, and waits for the
    other side to confirm, to skip, or to give the offset to resume from.

    What a call of [read] returns is up to the system: a schedule gives, for each
    call, an error or the most it may return.  The JSON text of a digest file is
    a parameter, with its parser. *)

From Stdlib Require Import Ascii.
From S2P Require Import Prelude Compress FileSys.

(* src/libs/hbb_common/src/fs.rs:261-266 JobType *)
Inductive JobType : Type := Generic | Printer.

#[export] Instance JobType_eq_dec : EqDecision JobType.
Proof. solve_decision. Defined.

(** A cursor is its buffer and its position. *)
(* src/libs/hbb_common/src/fs.rs:309-313 DataSource *)
Inductive DataSource : Type :=
| FilePath (p : string)
| MemoryCursor (buf : bytes) (pos : Z).

(** An open file is its place in the file system, its position and whether it
    was opened for writing. *)
(* src/libs/hbb_common/src/fs.rs:351-354 DataStream *)
Inductive DataStream : Type :=
| FileStream (ino : nat) (pos : Z) (writable : bool)
| BufStream (buf : bytes) (pos : Z).

(* src/libs/hbb_common/src/fs.rs:382-386 FileDigest *)
Record FileDigest : Type := mkDigest { fd_size : Z; fd_modified : Z }.

(** The fields of [FileEntry] the jobs read. *)
Record FileEntry : Type := mkEntry { fe_name : string; fe_size : Z; fe_modified_time : Z }.

(* src/libs/hbb_common/src/fs.rs:388-417 TransferJob *)
Record TransferJob : Type := mkJob {
  jid : Z;
  jtype : JobType;
  remote : string;
  data_source : DataSource;
  show_hidden : bool;
  is_remote : bool;
  is_last_job : bool;
  is_resume : bool;
  file_num : Z;
  files : list FileEntry;
  conn_id : Z;
  data_stream : option DataStream;
  total_size : Z;
  finished_size : Z;
  transferred : Z;
  enable_overwrite_detection : bool;
  file_confirmed : bool;
  file_skipped : bool;
  file_is_waiting : bool;
  default_overwrite_strategy : option bool;
  digest : FileDigest;
}.

Definition with_data_source (v : DataSource) (s : TransferJob) : TransferJob :=
  mkJob (jid s) (jtype s) (remote s) v (show_hidden s) (is_remote s) (is_last_job s)
    (is_resume s) (file_num s) (files s) (conn_id s) (data_stream s) (total_size s)
    (finished_size s) (transferred s) (enable_overwrite_detection s) (file_confirmed
    s) (file_skipped s) (file_is_waiting s) (default_overwrite_strategy s) (digest
    s).

Definition with_is_resume (v : bool) (s : TransferJob) : TransferJob :=
  mkJob (jid s) (jtype s) (remote s) (data_source s) (show_hidden s) (is_remote s)
    (is_last_job s) v (file_num s) (files s) (conn_id s) (data_stream s) (total_size
    s) (finished_size s) (transferred s) (enable_overwrite_detection s)
    (file_confirmed s) (file_skipped s) (file_is_waiting s)
    (default_overwrite_strategy s) (digest s).

Definition with_file_num (v : Z) (s : TransferJob) : TransferJob :=
  mkJob (jid s) (jtype s) (remote s) (data_source s) (show_hidden s) (is_remote s)
    (is_last_job s) (is_resume s) v (files s) (conn_id s) (data_stream s)
    (total_size s) (finished_size s) (transferred s) (enable_overwrite_detection s)
    (file_confirmed s) (file_skipped s) (file_is_waiting s)
    (default_overwrite_strategy s) (digest s).

Definition with_files (v : list FileEntry) (s : TransferJob) : TransferJob :=
  mkJob (jid s) (jtype s) (remote s) (data_source s) (show_hidden s) (is_remote s)
    (is_last_job s) (is_resume s) (file_num s) v (conn_id s) (data_stream s)
    (total_size s) (finished_size s) (transferred s) (enable_overwrite_detection s)
    (file_confirmed s) (file_skipped s) (file_is_waiting s)
    (default_overwrite_strategy s) (digest s).

Definition with_data_stream (v : option DataStream) (s : TransferJob) : TransferJob :=
  mkJob (jid s) (jtype s) (remote s) (data_source s) (show_hidden s) (is_remote s)
    (is_last_job s) (is_resume s) (file_num s) (files s) (conn_id s) v (total_size
    s) (finished_size s) (transferred s) (enable_overwrite_detection s)
    (file_confirmed s) (file_skipped s) (file_is_waiting s)
    (default_overwrite_strategy s) (digest s).

Definition with_finished_size (v : Z) (s : TransferJob) : TransferJob :=
  mkJob (jid s) (jtype s) (remote s) (data_source s) (show_hidden s) (is_remote s)
    (is_last_job s) (is_resume s) (file_num s) (files s) (conn_id s) (data_stream s)
    (total_size s) v (transferred s) (enable_overwrite_detection s) (file_confirmed
    s) (file_skipped s) (file_is_waiting s) (default_overwrite_strategy s) (digest
    s).

Definition with_transferred (v : Z) (s : TransferJob) : TransferJob :=
  mkJob (jid s) (jtype s) (remote s) (data_source s) (show_hidden s) (is_remote s)
    (is_last_job s) (is_resume s) (file_num s) (files s) (conn_id s) (data_stream s)
    (total_size s) (finished_size s) v (enable_overwrite_detection s)
    (file_confirmed s) (file_skipped s) (file_is_waiting s)
    (default_overwrite_strategy s) (digest s).

Definition with_file_confirmed (v : bool) (s : TransferJob) : TransferJob :=
  mkJob (jid s) (jtype s) (remote s) (data_source s) (show_hidden s) (is_remote s)
    (is_last_job s) (is_resume s) (file_num s) (files s) (conn_id s) (data_stream s)
    (total_size s) (finished_size s) (transferred s) (enable_overwrite_detection s)
    v (file_skipped s) (file_is_waiting s) (default_overwrite_strategy s) (digest s).

Definition with_file_skipped (v : bool) (s : TransferJob) : TransferJob :=
  mkJob (jid s) (jtype s) (remote s) (data_source s) (show_hidden s) (is_remote s)
    (is_last_job s) (is_resume s) (file_num s) (files s) (conn_id s) (data_stream s)
    (total_size s) (finished_size s) (transferred s) (enable_overwrite_detection s)
    (file_confirmed s) v (file_is_waiting s) (default_overwrite_strategy s) (digest
    s).

Definition with_file_is_waiting (v : bool) (s : TransferJob) : TransferJob :=
  mkJob (jid s) (jtype s) (remote s) (data_source s) (show_hidden s) (is_remote s)
    (is_last_job s) (is_resume s) (file_num s) (files s) (conn_id s) (data_stream s)
    (total_size s) (finished_size s) (transferred s) (enable_overwrite_detection s)
    (file_confirmed s) (file_skipped s) v (default_overwrite_strategy s) (digest s).

Definition with_default_overwrite_strategy (v : option bool) (s : TransferJob) : TransferJob :=
  mkJob (jid s) (jtype s) (remote s) (data_source s) (show_hidden s) (is_remote s)
    (is_last_job s) (is_resume s) (file_num s) (files s) (conn_id s) (data_stream s)
    (total_size s) (finished_size s) (transferred s) (enable_overwrite_detection s)
    (file_confirmed s) (file_skipped s) (file_is_waiting s) v (digest s).

Definition with_digest (v : FileDigest) (s : TransferJob) : TransferJob :=
  mkJob (jid s) (jtype s) (remote s) (data_source s) (show_hidden s) (is_remote s)
    (is_last_job s) (is_resume s) (file_num s) (files s) (conn_id s) (data_stream s)
    (total_size s) (finished_size s) (transferred s) (enable_overwrite_detection s)
    (file_confirmed s) (file_skipped s) (file_is_waiting s)
    (default_overwrite_strategy s) v.

(** ** Messages *)

Record FileTransferBlock : Type := mkBlock {
  b_id : Z; b_file_num : Z; b_data : bytes; b_compressed : bool;
}.

Record FileTransferDigest : Type := mkFtd {
  d_id : Z; d_file_num : Z; d_last_modified : Z; d_file_size : Z;
  d_is_upload : bool; d_is_identical : bool; d_transferred_size : Z; d_is_resume : bool;
}.

(** The [union] of [FileTransferSendConfirmRequest]. *)
Inductive confirm_union : Type :=
| Skip (s : bool)
| OffsetBlk (offset : Z).

Record SendConfirm : Type := mkConfirm {
  r_id : Z; r_file_num : Z; r_union : option confirm_union;
}.

Inductive terror : Type :=
| WrongId | WrongFileNumber | NoStream | NoDigestForBuf | Skipped | Io.

Inductive Message : Type :=
| MBlock (b : FileTransferBlock)
| MDigest (d : FileTransferDigest)
| MConfirm (r : SendConfirm)
| MDone (id n : Z)
| MError (id : Z) (e : terror) (n : Z).

(** ** Names *)

(** [rfind], and the rest of the name after it. *)
Fixpoint after_last_dot (s : string) : option string :=
  match s with
  | EmptyString => None
  | String c s' =>
      match after_last_dot s' with
      | Some e => Some e
      | None => if Ascii.eqb c "."%char then Some s' else None
      end
  end.

(* src/libs/hbb_common/src/fs.rs:445-451 get_ext *)
Definition get_ext (name : string) : string := default ""%string (after_last_dot name).

(* src/libs/hbb_common/src/fs.rs:453-458 is_compressed_file *)
Definition is_compressed_file (name : string) : bool :=
  let compressed_exts :=
    ["xz"; "gz"; "zip"; "7z"; "rar"; "bz2"; "tgz"; "png"; "jpg"]%string in
  bool_decide (get_ext name ∈ compressed_exts).

Fixpoint ends_with_slash (s : string) : bool :=
  match s with
  | EmptyString => false
  | String c EmptyString => Ascii.eqb c "/"%char
  | String _ s' => ends_with_slash s'
  end.

(** [Path::join] of the standard library, on Unix: an absolute path replaces
    the base. *)
Definition path_join (p name : string) : string :=
  match name with
  | String "/"%char _ => name
  | _ => if decide (p = ""%string) then name
         else if ends_with_slash p then (p +:+ name)%string else (p +:+ "/" +:+ name)%string
  end.

(* src/libs/hbb_common/src/fs.rs:695-702 TransferJob::join *)
Definition join (p name : string) : string :=
  if decide (name = ""%string) then p else path_join p name.

Definition download_path (path : string) : string := (path +:+ ".download")%string.
Definition digest_path (path : string) : string := (path +:+ ".digest")%string.

Section transfer.
Context `{Zstd} (allowed : fsop -> string -> bool).
Context (digest_json : FileDigest -> bytes) (parse_digest : bytes -> option FileDigest).

(** ** Creating jobs *)

Definition empty_job (id : Z) (t : JobType) (remote : string) (ds : DataSource)
    (file_num : Z) (show_hidden is_remote : bool) (files : list FileEntry) (total : Z)
    (detect : bool) : TransferJob :=
  mkJob id t remote ds show_hidden is_remote false false file_num files 0 None total 0 0
    detect false false false None (mkDigest 0 0).

(* src/libs/hbb_common/src/fs.rs:461-488 TransferJob::new_write *)
Definition new_write (id : Z) (t : JobType) (remote : string) (ds : DataSource)
    (file_num : Z) (show_hidden is_remote : bool) (files : list FileEntry) (detect : bool)
    : TransferJob :=
  let total_size := u64 (foldl Z.add 0 (fe_size <$> files)) in
  empty_job id t remote ds file_num show_hidden is_remote files total_size detect.

(** [found] is the answer of [get_recursive_files]. *)
(* src/libs/hbb_common/src/fs.rs:490-523 TransferJob::new_read *)
Definition new_read (id : Z) (t : JobType) (remote : string) (ds : DataSource)
    (file_num : Z) (show_hidden is_remote detect : bool)
    (found : string -> result terror (list FileEntry)) : result terror TransferJob :=
  '(files, total_size) ←
    match ds with
    | FilePath p => fs ← found p; Ok (fs, u64 (foldl Z.add 0 (fe_size <$> fs)))
    | MemoryCursor buf _ => Ok ([], zlen buf)
    end;
  Ok (empty_job id t remote ds file_num show_hidden is_remote files total_size detect).

(* src/libs/hbb_common/src/fs.rs:615-626 TransferJob::set_finished_size_on_resume *)
Definition set_finished_size_on_resume (j : TransferJob) : TransferJob :=
  if is_resume j && (0 <? file_num j) then
    with_finished_size
      (u64 (foldl Z.add 0 (fe_size <$> take (Z.to_nat (file_num j)) (files j)))) j
  else j.

(** The file a job is at. *)
Definition entry_at (n : Z) (j : TransferJob) : option FileEntry :=
  if usize n <? zlen (files j) then files j !! Z.to_nat (usize n) else None.

Definition is_none {A} (o : option A) : bool :=
  match o with Some _ => false | None => true end.

(** ** Writing *)

(* src/libs/hbb_common/src/fs.rs:576-596 TransferJob::modify_time *)
Definition modify_time (j : TransferJob) (f : FS) : FS :=
  if decide (jtype j = Printer) then f
  else
    match data_source j with
    | MemoryCursor _ _ => f
    | FilePath p =>
        match entry_at (file_num j) j with
        | None => f
        | Some entry =>
            let path := join p (fe_name entry) in
            let f := try_fs (remove_file allowed (digest_path path)) f in
            let f := try_fs (rename allowed (download_path path) path) f in
            try_fs (set_file_mtime allowed path (i64 (fe_modified_time entry) * 1000000000)) f
        end
    end.

(* src/libs/hbb_common/src/fs.rs:598-613 TransferJob::remove_download_file *)
Definition remove_download_file (j : TransferJob) (f : FS) : FS :=
  if decide (jtype j = Printer) then f
  else
    match data_source j with
    | MemoryCursor _ _ => f
    | FilePath p =>
        match entry_at (file_num j) j with
        | None => f
        | Some entry =>
            let path := join p (fe_name entry) in
            let f := try_fs (remove_file allowed (download_path path)) f in
            try_fs (remove_file allowed (digest_path path)) f
        end
    end.

(** [std::fs::write]. *)
Definition write_file (p : string) (buf : bytes) (f : FS) : option FS :=
  '(f, i) ← create allowed p f; Some (write_node i 0 buf f).

(** [DataStream::write_all]. *)
(* src/libs/hbb_common/src/fs.rs:366-372 DataStream::write_all *)
Definition write_all (s : DataStream) (buf : bytes) (f : FS) : option (DataStream * FS) :=
  match s with
  | FileStream i pos w =>
      if w then Some (FileStream i (pos + zlen buf) w, write_node i pos buf f) else None
  | BufStream d pos => Some (BufStream (splice pos buf d) (pos + zlen buf), f)
  end.

(** The stream the block is written to; an early return leaves the state it
    reached. *)
(* src/libs/hbb_common/src/fs.rs:632-673 TransferJob::write *)
Definition write_stream (block : FileTransferBlock) (j : TransferJob) (f : FS)
    : option terror * TransferJob * FS :=
  match data_source j with
  | FilePath p =>
      match entry_at (b_file_num block) j with
      | None => (Some WrongFileNumber, j, f)
      | Some entry =>
          if negb (usize (b_file_num block) =? usize (file_num j)) || is_none (data_stream j)
          then
            let f := modify_time j f in
            let j := with_file_num (b_file_num block) j in
            let '(path, dp) :=
              if decide (jtype j = Printer) then (p, None)
              else (download_path (join p (fe_name entry)),
                    Some (digest_path (join p (fe_name entry)))) in
            let removed :=
              match dp with
              | Some dp => if exists_file f dp then remove_file allowed dp f else Some f
              | None => Some f
              end in
            match removed with
            | None => (Some Io, j, f)
            | Some f =>
                match create allowed path f with
                | None => (Some Io, j, f)
                | Some (f, i) =>
                    let j := with_data_stream (Some (FileStream i 0 true)) j in
                    let f := match dp with
                             | Some dp => try_fs (write_file dp (digest_json (digest j))) f
                             | None => f
                             end in
                    (None, j, f)
                end
            end
          else (None, j, f)
      end
  | MemoryCursor buf pos =>
      if is_none (data_stream j)
      then (None, with_data_stream (Some (BufStream buf pos)) j, f)
      else (None, j, f)
  end.

(* src/libs/hbb_common/src/fs.rs:628-694 TransferJob::write *)
Definition write (block : FileTransferBlock) (j : TransferJob) (f : FS)
    : option terror * TransferJob * FS :=
  if negb (b_id block =? jid j) then (Some WrongId, j, f)
  else
    match write_stream block j f with
    | (Some e, j, f) => (Some e, j, f)
    | (None, j, f) =>
        let buf := if b_compressed block then decompress (b_data block) else b_data block in
        match data_stream j with
        | None => (Some NoStream, j, f)
        | Some s =>
            match write_all s buf f with
            | None => (Some Io, j, f)
            | Some (s, f) =>
                (None,
                 with_transferred (u64 (transferred j + zlen (b_data block)))
                   (with_finished_size (u64 (finished_size j + zlen buf))
                      (with_data_stream (Some s) j)), f)
            end
        end
    end.

(** ** Reading *)

Definition BUF_SIZE : Z := 131072.

(** What a stream has from its position on; a file opened for writing cannot be
    read. *)
Definition stream_rest (s : DataStream) (f : FS) : option bytes :=
  match s with
  | FileStream i pos w =>
      if w then None
      else n ← nodes f !! i; Some (drop (Z.to_nat pos) (data n))
  | BufStream d pos => Some (drop (Z.to_nat pos) d)
  end.

Definition advance (s : DataStream) (n : Z) : DataStream :=
  match s with
  | FileStream i pos w => FileStream i (pos + n) w
  | BufStream d pos => BufStream d (pos + n)
  end.

(** The loop that fills the buffer: each call of [read] is an error or returns
    at least one byte while there is one and room for it. *)
(* src/libs/hbb_common/src/fs.rs:774-796 TransferJob::read *)
Fixpoint fill (sched : list (option nat)) (room : nat) (avail : bytes) : option bytes :=
  match sched with
  | [] => Some (take room avail)
  | None :: _ => None
  | Some most :: sched =>
      let n := Nat.min (S most) (Nat.min room (length avail)) in
      if decide (n = 0%nat \/ n = room) then Some (take n avail)
      else rest ← fill sched (room - n) (drop n avail); Some (take n avail ++ rest)
  end.

(** The job goes on to its next file. *)
Definition next_file (j : TransferJob) : TransferJob :=
  with_file_is_waiting false (with_file_confirmed false (with_data_stream None
    (with_file_num (i32 (file_num j + 1)) j))).

Definition awaits_confirm (j : TransferJob) : bool :=
  bool_decide (jtype j = Generic) && enable_overwrite_detection j && negb (file_confirmed j).

(* src/libs/hbb_common/src/fs.rs:748-824 TransferJob::read *)
Definition read (sched : list (option nat)) (f : FS) (j : TransferJob)
    : result terror (option FileTransferBlock) * TransferJob :=
  if awaits_confirm j then (Ok None, j)
  else
    let source :=
      match data_source j with
      | FilePath _ => entry ← entry_at (file_num j) j; Some (fe_name entry)
      | MemoryCursor _ _ => Some ""%string
      end in
    match source with
    | None => (Ok None, with_data_stream None j)
    | Some name =>
        match data_stream j with
        | None => (Err NoStream, j)
        | Some s =>
            match avail ← stream_rest s f; fill sched (Z.to_nat BUF_SIZE) avail with
            | None => (Err Io, next_file j)
            | Some buf =>
                let is_file := match data_source j with FilePath _ => true | _ => false end in
                if decide (buf = []) then
                  if negb is_file then (Ok None, with_data_stream None j)
                  else (Ok (Some (mkBlock (jid j) (i32 (usize (file_num j))) [] false)),
                        next_file j)
                else
                  let '(out, compressed) :=
                    if is_file && negb (is_compressed_file name) then shrink buf
                    else (buf, false) in
                  (Ok (Some (mkBlock (jid j) (i32 (usize (file_num j))) out compressed)),
                   with_transferred (u64 (transferred j + zlen out))
                     (with_finished_size (u64 (finished_size j + zlen buf))
                        (with_data_stream (Some (advance s (zlen buf))) j)))
            end
        end
    end.

(* src/libs/hbb_common/src/fs.rs:826-855 TransferJob::send_current_digest *)
Definition send_current_digest (f : FS) (j : TransferJob) : result terror (list Message) :=
  match data_stream j with
  | None => Err NoStream
  | Some (BufStream _ _) => Err NoDigestForBuf
  | Some (FileStream i _ _) =>
      match nodes f !! i with
      | None => Err Io
      | Some n =>
          if mtime n <? 0 then Err Io
          else Ok [MDigest (mkFtd (jid j) (file_num j) (mtime n / 1000000000) (zlen (data n))
                     false false 0 (is_resume j))]
      end
  end.

(* src/libs/hbb_common/src/fs.rs:704-746 TransferJob::init_data_stream *)
Definition init_data_stream (f : FS) (j : TransferJob)
    : result terror (list Message) * TransferJob :=
  let ask j :=
    if awaits_confirm j && negb (file_is_waiting j) then
      match send_current_digest f j with
      | Ok out => (Ok out, with_file_is_waiting true j)
      | Err e => (Err e, j)
      end
    else (Ok [], j) in
  match data_source j with
  | FilePath p =>
      match entry_at (file_num j) j with
      | None => (Ok [], with_data_stream None j)
      | Some entry =>
          if is_none (data_stream j) then
            match open_file allowed (join p (fe_name entry)) f with
            | Some i => ask (with_file_is_waiting false (with_file_confirmed false
                          (with_data_stream (Some (FileStream i 0 false)) j)))
            | None => (Err Io, with_file_is_waiting false (with_file_confirmed false
                          (with_file_num (i32 (file_num j + 1)) j)))
            end
          else ask j
      end
  | MemoryCursor buf pos =>
      if is_none (data_stream j)
      then ask (with_data_stream (Some (BufStream buf pos))
                  (with_data_source (MemoryCursor [] 0) j))
      else ask j
  end.

(** ** Confirming *)

(* src/libs/hbb_common/src/fs.rs:865-869 TransferJob::set_file_confirmed *)
Definition set_file_confirmed (c : bool) (j : TransferJob) : TransferJob :=
  with_file_skipped false (with_file_confirmed c j).

(* src/libs/hbb_common/src/fs.rs:918-926 TransferJob::set_file_skipped *)
Definition set_file_skipped (j : TransferJob) : TransferJob :=
  let j := set_file_confirmed false (with_data_stream None j) in
  let j := with_file_is_waiting false j in
  with_file_skipped true (with_file_num (i32 (file_num j + 1)) j).

(** [None]: the index is beyond the files, and the source panics. *)
(* src/libs/hbb_common/src/fs.rs:928-973 TransferJob::set_stream_offset *)
Definition set_stream_offset (n offset : Z) (f : FS) (j : TransferJob) : option TransferJob :=
  match data_source j with
  | MemoryCursor _ _ => Some j
  | FilePath p =>
      match entry_at n j with
      | None => None
      | Some entry =>
          let file_path := join p (fe_name entry) in
          let handle :=
            if exists_file f (download_path file_path) && exists_file f (digest_path file_path)
            then i ← open_write allowed (download_path file_path) f; Some (FileStream i offset true)
            else if exists_file f file_path
            then i ← open_file allowed file_path f; Some (FileStream i offset false)
            else None in
          Some match handle with
               | None => j
               | Some s =>
                   with_finished_size (u64 (finished_size j + offset))
                     (with_transferred (u64 (transferred j + offset))
                        (with_data_stream (Some s) j))
               end
      end
  end.

(* src/libs/hbb_common/src/fs.rs:975-1004 TransferJob::confirm *)
Definition confirm (r : SendConfirm) (f : FS) (j : TransferJob) : option TransferJob :=
  if negb (file_num j =? r_file_num r) then Some j
  else
    match r_union r with
    | Some (Skip s) => Some (if s then set_file_skipped j else set_file_confirmed true j)
    | Some (OffsetBlk offset) =>
        let j := set_file_confirmed true j in
        if 0 <? offset then set_stream_offset (r_file_num r) offset f j else Some j
    | None => Some j
    end.

(* src/libs/hbb_common/src/fs.rs:892-895 TransferJob::job_skipped *)
Definition job_skipped (j : TransferJob) : bool := file_skipped j && (zlen (files j) =? 1).

(* src/libs/hbb_common/src/fs.rs:904-908 TransferJob::job_completed *)
Definition job_completed (j : TransferJob) : bool :=
  negb (enable_overwrite_detection j) || (negb (file_confirmed j) && negb (file_is_waiting j)).

(* src/libs/hbb_common/src/fs.rs:910-916 TransferJob::job_error *)
Definition job_error (j : TransferJob) : option terror :=
  if job_skipped j then Some Skipped else None.

(** ** Serving the jobs *)

(* src/libs/hbb_common/src/fs.rs:1124-1129 remove_job *)
Fixpoint remove_job (id : Z) (jobs : list TransferJob) : option TransferJob * list TransferJob :=
  match jobs with
  | [] => (None, [])
  | j :: jobs =>
      if jid j =? id then (Some j, jobs)
      else let '(r, jobs) := remove_job id jobs in (r, j :: jobs)
  end.

(* src/libs/hbb_common/src/fs.rs:1131-1134 get_job *)
Definition get_job (id : Z) (jobs : list TransferJob) : option (nat * TransferJob) :=
  list_find (fun j => jid j = id) jobs.

(* src/libs/hbb_common/src/fs.rs:1141-1153 init_jobs *)
Fixpoint init_jobs (f : FS) (jobs : list TransferJob) : list TransferJob * list Message :=
  match jobs with
  | [] => ([], [])
  | j :: jobs =>
      let '(j, out) :=
        if is_last_job j then (j, [])
        else match init_data_stream f j with
             | (Ok out, j) => (j, out)
             | (Err e, j) => (j, [MError (jid j) e (file_num j)])
             end in
      let '(jobs, outs) := init_jobs f jobs in
      (j :: jobs, out ++ outs)
  end.

(** The reading half of [handle_read_jobs]: the first job that is not kept for a
    later session; the jobs that are finished. *)
(* src/libs/hbb_common/src/fs.rs:1161-1196 handle_read_jobs *)
Fixpoint read_jobs (sched : list (option nat)) (f : FS) (jobs : list TransferJob)
    : list TransferJob * list Message * list Z :=
  match jobs with
  | [] => ([], [], [])
  | j :: jobs =>
      if is_last_job j then
        let '(jobs, out, fin) := read_jobs sched f jobs in (j :: jobs, out, fin)
      else
        match read sched f j with
        | (Err e, j) => (j :: jobs, [MError (jid j) e (file_num j)], [])
        | (Ok (Some block), j) => (j :: jobs, [MBlock block], [])
        | (Ok None, j) =>
            if job_completed j then
              (j :: jobs,
               [match job_error j with
                | Some e => MError (jid j) e (file_num j)
                | None => MDone (jid j) (file_num j)
                end], [jid j])
            else (j :: jobs, [], [])
        end
  end.

(* src/libs/hbb_common/src/fs.rs:1155-1201 handle_read_jobs *)
Definition handle_read_jobs (sched : list (option nat)) (f : FS) (jobs : list TransferJob)
    : list TransferJob * list Message :=
  let '(jobs, out1) := init_jobs f jobs in
  let '(jobs, out2, finished) := read_jobs sched f jobs in
  (foldl (fun jobs id => snd (remove_job id jobs)) jobs finished, out1 ++ out2).

(** ** Comparing with what is there *)

(* src/libs/hbb_common/src/fs.rs:1253-1258 DigestCheckResult *)
Inductive DigestCheckResult : Type :=
| IsSame
| NeedConfirm (d : FileTransferDigest)
| NoSuchFile.

(* src/libs/hbb_common/src/fs.rs:1260-1322 is_write_need_confirmation *)
Definition is_write_need_confirmation (f : FS) (resume : bool) (path : string)
    (d : FileTransferDigest) : result terror DigestCheckResult :=
  let partial :=
    if resume && exists_file f (digest_path path) && exists_file f (download_path path) then
      local ← (text ← content f (digest_path path); parse_digest text);
      if (fd_modified local =? d_last_modified d) && (fd_size local =? d_file_size d) then
        down ← content f (download_path path);
        if 0 <? zlen down
        then Some (mkFtd (d_id d) (d_file_num d) (d_last_modified d) (d_file_size d)
                     false true (zlen down) false)
        else None
      else None
    else None in
  match partial with
  | Some d' => Ok (NeedConfirm d')
  | None =>
      match file f path with
      | None => Ok NoSuchFile
      | Some n =>
          if mtime n <? 0 then Err Io
          else
            let is_identical :=
              (d_last_modified d * 1000000000 =? mtime n) && (d_file_size d =? zlen (data n)) in
            Ok (NeedConfirm (mkFtd (d_id d) (d_file_num d) (mtime n / 1000000000)
                   (zlen (data n)) false is_identical 0 false))
      end
  end.

(** ** Lemmas *)

Lemma try_fs_cases (op : FS -> option FS) f :
  (exists f', op f = Some f' /\ try_fs op f = f') \/ (op f = None /\ try_fs op f = f).
Proof. unfold try_fs. destruct (op f) as [f'|]; [left|right]; eauto. Qed.

Lemma fill_reads sched room avail :
  None ∉ sched -> fill sched room avail = Some (take room avail).
Proof.
  revert room avail. induction sched as [|[most|] sched IH]; intros room avail N; cbn [fill]; [done| |].

  - set (n := Nat.min (S most) (Nat.min room (length avail))).
    assert (None ∉ sched) as N' by (intros ?; apply N; by right).
    destruct (decide (n = 0%nat \/ n = room)) as [[E|E]|E].
    + assert (room = 0%nat \/ length avail = 0%nat) as [R|L] by (subst n; lia).
      * by rewrite E, R.
      * apply nil_length_inv in L as ->. by rewrite !take_nil.
    + by rewrite E.
    + rewrite (IH (room - n)%nat (drop n avail) N'). simpl. f_equal.
      rewrite take_take_drop. f_equal. subst n. lia.
  - exfalso. apply N. by left.
Qed.

Lemma entry_at_small n j e :
  0 <= n < 2 ^ 31 -> files j !! Z.to_nat n = Some e -> entry_at n j = Some e.
Proof.
  intros Hn E. unfold entry_at. rewrite wrap_small by (unfold in_u; lia).
  pose proof (lookup_lt_Some _ _ _ E). unfold zlen.
  by rewrite (proj2 (Z.ltb_lt _ _)) by lia.
Qed.

Lemma entry_at_end j n : zlen (files j) = n -> 0 <= n < 2 ^ 31 -> entry_at n j = None.
Proof.
  intros L Hn. unfold entry_at. rewrite wrap_small by (unfold in_u; lia).
  by rewrite (proj2 (Z.ltb_ge _ _)) by lia.
Qed.

(** The answer to a confirmation: [confirm] panics exactly when the other side
    names the index of the job, a positive offset, and the index is not one of
    its files. *)
Lemma confirm_none r f j :
  confirm r f j = None <->
  file_num j = r_file_num r /\ (exists o, r_union r = Some (OffsetBlk o) /\ 0 < o) /\
  (exists p, data_source j = FilePath p) /\ entry_at (r_file_num r) j = None.
Proof.
  unfold confirm. destruct (Z.eqb_spec (file_num j) (r_file_num r)) as [E|]; cbn [negb].
  2: { split; [done|]. intros [? _]. done. }
  destruct (r_union r) as [[s|o]|].
  - split; [done|]. intros (_ & (? & [=] & _) & _).
  - destruct (Z.ltb_spec 0 o).
    + unfold set_stream_offset, set_file_confirmed. cbn [data_source with_file_skipped with_file_confirmed].
      destruct (data_source j) as [p|]; [|split; [done|naive_solver]].
      change (entry_at (r_file_num r) (with_file_skipped _ _)) with (entry_at (r_file_num r) j).
      destruct (entry_at _ j); split; try done; naive_solver.
    + split; [done|]. intros (_ & (o' & [= <-] & ?) & _). lia.
  - split; [done|]. intros (_ & (? & [=] & _) & _).
Qed.

End transfer.
