(* ===== verification/Upload.v ===== *)
(** * Uploading files

    The two ends of a file transfer around the jobs of [FileTransfer]: the
    connection manager that writes on behalf of a connection
    ([src/ui_cm_interface.rs], [handle_fs]), the server connection that forwards
    to it ([src/server/connection.rs]) and the client that reads
    ([src/client/io_loop.rs]), with the theorem that an upload delivers the
    files.  The requests that list, create, rename and remove, and the log
    messages, are not modelled.  [None] is a panic. *)

From S2P Require Import Prelude Compress FileSys FileTransfer.

(** The requests about writing of [ipc::FS]. *)
(* src/src/ipc.rs:68-112 FS *)
Inductive FSMsg : Type :=
| NewWrite (path : string) (id n : Z) (fs : list (string * Z)) (overwrite_detection : bool)
    (total conn : Z)
| CancelWrite (id : Z)
| WriteDone (id n : Z)
| WriteError (id n : Z) (e : terror)
| WriteBlock (id n : Z) (d : bytes) (compressed : bool)
| CheckDigest (id n size modified : Z) (is_upload resume : bool)
| FSConfirm (r : SendConfirm).

Section upload.
Context `{Zstd} (allowed : fsop -> string -> bool).
Context (digest_json : FileDigest -> bytes) (parse_digest : bytes -> option FileDigest).

(** ** The connection manager *)

Definition cm_state : Type := list TransferJob * FS.

Definition with_job (i : nat) (j : TransferJob) (jobs : list TransferJob) : list TransferJob :=
  <[i := j]> jobs.

Definition set_total (total conn : Z) (j : TransferJob) : TransferJob :=
  mkJob (jid j) (jtype j) (remote j) (data_source j) (show_hidden j) (is_remote j)
    (is_last_job j) (is_resume j) (file_num j) (files j) conn (data_stream j) total
    (finished_size j) (transferred j) (enable_overwrite_detection j) (file_confirmed j)
    (file_skipped j) (file_is_waiting j) (default_overwrite_strategy j) (digest j).

(* src/src/ui_cm_interface.rs:863-919 handle_fs *)
Definition check_digest (id n size modified : Z) (upload resume : bool) (i : nat)
    (job : TransferJob) (s : cm_state) : cm_state * list Message :=
  let '(jobs, f) := s in
  let req := mkConfirm id n (Some (OffsetBlk 0)) in
  let d := mkFtd id n modified size false false 0 false in
  match entry_at n job, data_source job with
  | Some file, FilePath p =>
      match is_write_need_confirmation parse_digest f resume (join p (fe_name file)) d with
      | Ok res =>
          let jobs := with_job i (with_digest (mkDigest size modified) job) jobs in
          (jobs, f,
           match res with
           | IsSame => [MConfirm (mkConfirm id n (Some (Skip true)))]
           | NeedConfirm d =>
               [MDigest (mkFtd (d_id d) (d_file_num d) (d_last_modified d) (d_file_size d)
                  upload (d_is_identical d) (d_transferred_size d) (d_is_resume d))]
           | NoSuchFile => [MConfirm req]
           end)
      | Err e => (s, [MError id e n])
      end
  | _, _ => (s, [])
  end.

(* src/src/ui_cm_interface.rs:791-925 handle_fs *)
Definition handle_fs (msg : FSMsg) (s : cm_state) : option (cm_state * list Message) :=
  let '(jobs, f) := s in
  match msg with
  | NewWrite path id n fs detect total conn =>
      let job := new_write id Generic "" (FilePath path) n false false
                   ((fun e => mkEntry (fst e) 0 (snd e)) <$> fs) detect in
      Some (jobs ++ [set_total total conn job], f, [])
  | CancelWrite id =>
      match remove_job id jobs with
      | (Some job, jobs) => Some (jobs, remove_download_file allowed job f, [])
      | (None, _) => Some (s, [])
      end
  | WriteDone id n =>
      match remove_job id jobs with
      | (Some job, jobs) => Some (jobs, modify_time allowed job f, [MDone id n])
      | (None, _) => Some (s, [])
      end
  | WriteError id n e =>
      match remove_job id jobs with
      | (Some job, jobs) => Some (jobs, f, [MError (jid job) e n])
      | (None, _) => Some (s, [])
      end
  | WriteBlock id n d compressed =>
      match get_job id jobs with
      | Some (i, job) =>
          let '(e, job, f) := write allowed digest_json (mkBlock id n d compressed) job f in
          Some (with_job i job jobs, f, match e with Some e => [MError id e n] | None => [] end)
      | None => Some (s, [])
      end
  | CheckDigest id n size modified upload resume =>
      match get_job id jobs with
      | Some (i, job) => Some (check_digest id n size modified upload resume i job s)
      | None => Some (s, [])
      end
  | FSConfirm r =>
      match get_job (r_id r) jobs with
      | Some (i, job) => job ← confirm allowed r f job; Some (with_job i job jobs, f, [])
      | None => Some (s, [])
      end
  end.

(** ** The server connection

    It forwards the answers of the client's job, and the confirmations that are
    not for a job it reads itself. *)

(* src/src/server/connection.rs:2915-2975 Connection::on_message *)
Definition server_forward (m : Message) : FSMsg :=
  match m with
  | MBlock b => WriteBlock (b_id b) (b_file_num b) (b_data b) (b_compressed b)
  | MDone id n => WriteDone id n
  | MDigest d => CheckDigest (d_id d) (d_file_num d) (d_file_size d) (d_last_modified d) true
                   (d_is_resume d)
  | MError id e n => WriteError id n e
  | MConfirm r => FSConfirm r
  end.

(** ** The client *)

(** What the client does with an answer of the server about a job it reads: its
    jobs, and what it sends back.  Without a strategy the user is asked, and
    nothing is sent before the answer. *)
(* src/src/client/io_loop.rs:1483-1529 Remote::handle_msg_from_peer *)
Definition client_digest (f : FS) (d : FileTransferDigest) (jobs : list TransferJob)
    : option (list TransferJob * list Message) :=
  match get_job (d_id d) jobs with
  | None => Some (jobs, [])
  | Some (i, job) =>
      match entry_at (d_file_num d) job, data_source job with
      | Some _, FilePath _ =>
          let '(strategy, offset) :=
            if d_is_identical d && is_resume job && (0 <? d_transferred_size d)
            then (Some true, u32 (d_transferred_size d))
            else (default_overwrite_strategy job, 0) in
          match strategy with
          | Some overwrite =>
              let req := mkConfirm (d_id d) (d_file_num d)
                (Some (if overwrite : bool then OffsetBlk offset else Skip true)) in
              job ← confirm allowed req f job;
              Some (with_job i job jobs, [MConfirm req])
          | None => Some (jobs, [])
          end
      | _, _ => Some (jobs, [])
      end
  end.

(* src/src/client/io_loop.rs:1953-1957 Remote::handle_msg_from_peer *)
Definition client_confirm (f : FS) (r : SendConfirm) (jobs : list TransferJob)
    : option (list TransferJob) :=
  match get_job (r_id r) jobs with
  | None => Some jobs
  | Some (i, job) => job ← confirm allowed r f job; Some (with_job i job jobs)
  end.

(** The user's answer about an upload. *)
(* src/src/client/io_loop.rs:769-788 Remote::handle_msg_from_ui *)
Definition set_confirm_override_upload (f : FS) (id n : Z) (need_override remember : bool)
    (jobs : list TransferJob) : option (list TransferJob) :=
  match get_job id jobs with
  | None => Some jobs
  | Some (i, job) =>
      let job := if remember then with_default_overwrite_strategy (Some need_override) job
                 else job in
      job ← confirm allowed
        (mkConfirm id n (Some (if need_override then OffsetBlk 0 else Skip true))) f job;
      Some (with_job i job jobs)
  end.

Definition client_on_message (f : FS) (m : Message) (jobs : list TransferJob)
    : option (list TransferJob * list Message) :=
  match m with
  | MDigest d => if d_is_upload d then client_digest f d jobs else Some (jobs, [])
  | MConfirm r => jobs ← client_confirm f r jobs; Some (jobs, [])
  | _ => Some (jobs, [])
  end.

(** ** Both together *)

Fixpoint to_server (ms : list Message) (s : cm_state) : option (cm_state * list Message) :=
  match ms with
  | [] => Some (s, [])
  | m :: ms =>
      '(s, out) ← handle_fs (server_forward m) s;
      '(s, outs) ← to_server ms s;
      Some (s, out ++ outs)
  end.

Fixpoint to_client (f : FS) (ms : list Message) (jobs : list TransferJob)
    : option (list TransferJob * list Message) :=
  match ms with
  | [] => Some (jobs, [])
  | m :: ms =>
      '(jobs, out) ← client_on_message f m jobs;
      '(jobs, outs) ← to_client f ms jobs;
      Some (jobs, out ++ outs)
  end.

(** One tick of the client's timer, and the messages it causes. *)
Definition round (sched : list (option nat)) (fc : FS) (jobs : list TransferJob) (s : cm_state)
    : option (list TransferJob * cm_state) :=
  let '(jobs, out) := handle_read_jobs allowed sched fc jobs in
  '(s, answers) ← to_server out s;
  '(jobs, back) ← to_client fc answers jobs;
  '(s, _) ← to_server back s;
  Some (jobs, s).

Fixpoint rounds (scheds : list (list (option nat))) (fc : FS) (jobs : list TransferJob)
    (s : cm_state) : option (list TransferJob * cm_state) :=
  match scheds with
  | [] => Some (jobs, s)
  | sched :: scheds =>
      '(jobs, s) ← round sched fc jobs s;
      rounds scheds fc jobs s
  end.

(** ** An upload delivers the files

    The client reads [ents] under [src] of its files [fc]; the server writes them
    under [dst], starting with the files [f0]. *)

Section delivery.
Context (id : Z) (src dst : string) (ents : list FileEntry) (fc f0 : FS).

Definition target (e : FileEntry) : string := join dst (fe_name e).
Definition partial (e : FileEntry) : string := download_path (target e).
Definition note (e : FileEntry) : string := digest_path (target e).
Definition paths (e : FileEntry) : list string := [target e; partial e; note e].

(** No two files share a path. *)
Definition separate : Prop :=
  forall i j e e' q, ents !! i = Some e -> ents !! j = Some e' ->
    q ∈ paths e -> q ∈ paths e' -> i = j.

Definition source_data (k : nat) : bytes :=
  default [] (e ← ents !! k; content fc (join src (fe_name e))).

(** A file as it arrives. *)
Definition arrived (k : nat) (e : FileEntry) : node :=
  mkNode (source_data k) (i64 (fe_modified_time e) * 1000000000).

Context (Hmod : forall op p, op <> OpCreate -> allowed op p = true).
Context (Hcreate : forall p, allowed OpCreate p = true).
Context (Hz : forall d, zcompress d <> None).
Context (Hsrc : forall e, e ∈ ents ->
  exists n, file fc (join src (fe_name e)) = Some n /\ 0 <= mtime n).
Context (Hf0 : wf f0).
Context (Hm0 : forall e n, e ∈ ents -> file f0 (target e) = Some n -> 0 <= mtime n).
Context (Hsep : separate).
Context (Hlen : zlen ents < 2 ^ 31).

Lemma target_partial e : target e <> partial e.
Proof.
  intros E%(f_equal String.length). unfold partial, download_path in E.
  rewrite String.app_length in E. simpl in E. lia.
Qed.

Lemma target_note e : target e <> note e.
Proof.
  intros E%(f_equal String.length). unfold note, digest_path in E.
  rewrite String.app_length in E. simpl in E. lia.
Qed.

Lemma partial_note e : partial e <> note e.
Proof.
  intros E%(f_equal String.length). unfold partial, note, download_path, digest_path in E.
  rewrite !String.app_length in E. simpl in E. lia.
Qed.

(** What the writing side needs of an entry. *)
Definition server_entry (e : FileEntry) : FileEntry :=
  mkEntry (fe_name e) 0 (fe_modified_time e).

Record server_ok (j : TransferJob) : Prop := mkServerOk {
  so_id : jid j = id;
  so_type : jtype j = Generic;
  so_src : data_source j = FilePath dst;
  so_files : server_entry <$> files j = server_entry <$> ents;
}.

Lemma server_entry_at j k e :
  server_ok j -> ents !! k = Some e ->
  exists e', entry_at (Z.of_nat k) j = Some e' /\ fe_name e' = fe_name e /\
    fe_modified_time e' = fe_modified_time e.
Proof.
  intros So E. assert (L : (server_entry <$> files j) !! k = Some (server_entry e))
    by by rewrite (so_files _ So), list_lookup_fmap, E.
  rewrite list_lookup_fmap in L. destruct (files j !! k) as [e'|] eqn:E'; [|done].
  injection L as L1 L2. exists e'. split; [|done]. apply entry_at_small.
  - pose proof (lookup_lt_Some _ _ _ E). unfold zlen in Hlen. lia.
  - by rewrite Nat2Z.id.
Qed.

Lemma server_files_length j : server_ok j -> length (files j) = length ents.
Proof. intros So. pose proof (f_equal length (so_files _ So)) as L. by rewrite !length_fmap in L. Qed.

(** Removing and renaming when everything is permitted. *)
Lemma try_remove f p :
  wf f ->
  let f' := try_fs (remove_file allowed p) f in
  wf f' /\ names f' !! p = None /\ (forall q, q <> p -> names f' !! q = names f !! q) /\
  (forall q, q <> p -> file f' q = file f q).
Proof.
  intros W. unfold try_fs. destruct (remove_file allowed p f) as [f'|] eqn:R; simpl.
  - destruct (remove_file_spec _ _ _ _ W R) as (? & ? & ? & ? & _). done.
  - split_and!; try done. unfold remove_file, exists_file in R. rewrite Hmod in R by done. simpl in R.
    case_bool_decide as B; [done|]. destruct (names f !! p) eqn:E; [|done].
    exfalso. apply B. eauto.
Qed.

Lemma try_rename f a b i :
  wf f -> a <> b -> names f !! a = Some i ->
  let f' := try_fs (rename allowed a b) f in
  wf f' /\ names f' !! b = Some i /\ names f' !! a = None /\ file f' b = file f a /\
  (forall q, q <> a -> q <> b -> names f' !! q = names f !! q) /\
  (forall q, q <> a -> q <> b -> file f' q = file f q).
Proof.
  intros W N E. unfold try_fs. destruct (rename allowed a b f) as [f'|] eqn:R; simpl.
  - destruct (rename_spec _ _ _ _ _ W N R) as (? & E2 & ? & ? & ? & ? & _).
    rewrite E in E2. done.
  - exfalso. unfold rename in R. rewrite E in R. simpl in R. by rewrite Hmod in R.
Qed.

Lemma try_rename_frame f a b :
  wf f -> a <> b ->
  let f' := try_fs (rename allowed a b) f in
  wf f' /\ (forall q, q <> a -> q <> b -> names f' !! q = names f !! q) /\
  (forall q, q <> a -> q <> b -> file f' q = file f q).
Proof.
  intros W N. unfold try_fs. destruct (rename allowed a b f) as [f'|] eqn:R; simpl; [|done].
  destruct (rename_spec _ _ _ _ _ W N R) as (? & _ & _ & _ & ? & ? & _). done.
Qed.

Lemma try_touch f p t :
  wf f ->
  let f' := try_fs (set_file_mtime allowed p t) f in
  wf f' /\ names f' = names f /\ (forall q, q <> p -> file f' q = file f q) /\
  (forall n, file f p = Some n -> file f' p = Some (mkNode (data n) t)).
Proof.
  intros W. unfold try_fs. destruct (set_file_mtime allowed p t f) as [f'|] eqn:R; simpl.
  - destruct (set_file_mtime_spec _ _ _ _ _ W R) as (? & E1 & E2 & ? & ? & _).
    split_and!; try done. intros n En. unfold content in E1.
    destruct (file f' p) as [[d m]|]; [|done]. simpl in E2. injection E2 as ->.
    rewrite En in E1. simpl in E1. by injection E1 as ->.
  - split_and!; try done. intros n En. exfalso. unfold set_file_mtime in R. unfold file in En.
    destruct (names f !! p) as [i|]; simpl in *; [|done]. rewrite En in R. simpl in R.
    by rewrite Hmod in R.
Qed.

Definition final_mtime (e : FileEntry) : Z := i64 (fe_modified_time e) * 1000000000.

Lemma modify_time_steps j k e f :
  server_ok j -> file_num j = Z.of_nat k -> ents !! k = Some e ->
  modify_time allowed j f =
  try_fs (set_file_mtime allowed (target e) (final_mtime e))
    (try_fs (rename allowed (partial e) (target e)) (try_fs (remove_file allowed (note e)) f)).
Proof.
  intros So En Ek. unfold modify_time. rewrite decide_False by (by rewrite (so_type _ So)).
  destruct (server_entry_at _ _ _ So Ek) as (e0 & E0 & N0 & T0).
  rewrite (so_src _ So), En, E0, N0, T0. done.
Qed.

Lemma not_paths q e : q ∉ paths e <-> q <> target e /\ q <> partial e /\ q <> note e.
Proof. unfold paths. rewrite !not_elem_of_cons. split; [tauto|]. intros (?&?&?). split_and!; try done. apply not_elem_of_nil. Qed.

Lemma modify_time_frame j k e f :
  server_ok j -> file_num j = Z.of_nat k -> ents !! k = Some e -> wf f ->
  let f' := modify_time allowed j f in
  wf f' /\ (forall q, q ∉ paths e -> names f' !! q = names f !! q) /\
  (forall q, q ∉ paths e -> file f' q = file f q).
Proof.
  intros So En Ek W f'. subst f'. rewrite (modify_time_steps _ _ _ _ So En Ek).
  destruct (try_remove f (note e) W) as (W1 & _ & N1 & F1).
  set (f1 := try_fs (remove_file allowed (note e)) f) in *.
  assert (partial e <> target e) as NP by (intros E; by apply (target_partial e)).
  destruct (try_rename_frame f1 (partial e) (target e) W1 NP) as (W2 & N2 & F2).
  set (f2 := try_fs (rename allowed (partial e) (target e)) f1) in *.
  destruct (try_touch f2 (target e) (final_mtime e) W2) as (W3 & N3 & F3 & _).
  split_and!; [done| |]; intros q (Q1 & Q2 & Q3)%not_paths.
  - by rewrite N3, N2, N1 by done.
  - by rewrite F3, F2, F1 by done.
Qed.

Lemma modify_time_final j k e f ino d m :
  server_ok j -> file_num j = Z.of_nat k -> ents !! k = Some e -> wf f ->
  names f !! partial e = Some ino -> file f (partial e) = Some (mkNode d m) ->
  let f' := modify_time allowed j f in
  file f' (target e) = Some (mkNode d (final_mtime e)) /\
  names f' !! partial e = None /\ names f' !! note e = None /\
  wf f' /\ names f' !! target e = Some ino.
Proof.
  intros So En Ek W Hp Fp f'. subst f'. rewrite (modify_time_steps _ _ _ _ So En Ek).
  pose proof (target_partial e). pose proof (target_note e). pose proof (partial_note e).
  destruct (try_remove f (note e) W) as (W1 & D1 & N1 & F1).
  set (f1 := try_fs (remove_file allowed (note e)) f) in *.
  rewrite <- N1 in Hp by done. rewrite <- F1 in Fp by done.
  destruct (try_rename f1 (partial e) (target e) ino W1 ltac:(done) Hp)
    as (W2 & B2 & A2 & C2 & N2 & F2).
  set (f2 := try_fs (rename allowed (partial e) (target e)) f1) in *.
  destruct (try_touch f2 (target e) (final_mtime e) W2) as (W3 & N3 & F3 & T3).
  split_and!.
  - rewrite (T3 (mkNode d m)); [done|]. by rewrite C2.
  - by rewrite N3.
  - by rewrite N3, N2 by done.
  - done.
  - by rewrite N3.
Qed.

(** ** The state of the server during an upload *)

(** The first [k] files have arrived. *)
Definition finished (k : nat) (f : FS) : Prop :=
  forall i e, (i < k)%nat -> ents !! i = Some e ->
    file f (target e) = Some (arrived i e) /\
    names f !! partial e = None /\ names f !! note e = None.

(** What does not belong to the first [k] files is as before. *)
Definition frame (k : nat) (f : FS) : Prop :=
  forall q, (forall i e, (i < k)%nat -> ents !! i = Some e -> q ∉ paths e) ->
    file f q = file f0 q.

(** At file [k], of which [part] has arrived. *)
Record at_file (k : nat) (part : bytes) (j : TransferJob) (f : FS) : Prop := mkAtFile {
  af_ok : server_ok j;
  af_num : file_num j = Z.of_nat k;
  af_wf : wf f;
  af_open : exists e ino m, ents !! k = Some e /\
    data_stream j = Some (FileStream ino (zlen part) true) /\
    names f !! partial e = Some ino /\ file f (partial e) = Some (mkNode part m);
  af_finished : finished k f;
  af_frame : frame (S k) f;
}.

(** Before the first block of file [k]. *)
Definition before_file (k : nat) (j : TransferJob) (f : FS) : Prop :=
  match k with
  | O => server_ok j /\ file_num j = 0 /\ data_stream j = None /\ f = f0
  | S k => at_file k (source_data k) j f
  end.

Lemma finished_mono k f f' :
  (forall i e q, (i < k)%nat -> ents !! i = Some e -> q ∈ paths e ->
    names f' !! q = names f !! q /\ file f' q = file f q) ->
  finished k f -> finished k f'.
Proof.
  intros HE F i e Hi He. destruct (F i e Hi He) as (F1 & F2 & F3).
  assert (target e ∈ paths e /\ partial e ∈ paths e /\ note e ∈ paths e) as (P1 & P2 & P3)
    by (unfold paths; set_solver).
  destruct (HE _ _ _ Hi He P1) as [_ E1]. destruct (HE _ _ _ Hi He P2) as [E2 _].
  destruct (HE _ _ _ Hi He P3) as [E3 _]. by rewrite E1, E2, E3.
Qed.

Lemma other_path i k e e' q :
  ents !! i = Some e -> ents !! k = Some e' -> i <> k -> q ∈ paths e -> q ∉ paths e'.
Proof. intros H1 H2 N Q1 Q2. apply N. exact (Hsep _ _ _ _ _ H1 H2 Q1 Q2). Qed.

(** Finishing the file the server is at. *)
Lemma finish_file k j f :
  at_file k (source_data k) j f ->
  let f' := modify_time allowed j f in
  wf f' /\ finished (S k) f' /\ frame (S k) f'.
Proof.
  intros [So En W (e & ino & m & Ek & _ & Hp & Fp) Fin Fr] f'.
  destruct (modify_time_frame _ _ _ _ So En Ek W) as (W' & N' & F').
  destruct (modify_time_final _ _ _ _ _ _ _ So En Ek W Hp Fp) as (T1 & T2 & T3 & _).
  split_and!; [done| |].
  - intros i e' Hi He'. destruct (decide (i = k)) as [->|Ne].
    + assert (e' = e) as -> by congruence. done.
    + apply (finished_mono k f f'); [|done|lia|done].
      intros i2 e2 q Hi2 He2 Hq. pose proof (other_path _ _ _ _ _ He2 Ek ltac:(lia) Hq).
      split; [by apply N'|by apply F'].
  - intros q Hq. rewrite <- (Fr q Hq). apply F'. apply (Hq k e); [lia|done].
Qed.

Lemma try_write_file p buf f :
  wf f ->
  let f' := try_fs (write_file allowed p buf) f in
  wf f' /\ (forall q, q <> p -> names f' !! q = names f !! q) /\
  (forall q, q <> p -> file f' q = file f q).
Proof.
  intros W. unfold try_fs, write_file. destruct (create allowed p f) as [[f1 i]|] eqn:C; simpl; [|done].
  destruct (create_spec _ _ _ _ _ W C) as (W1 & N1 & F1 & N2 & F2 & _).
  destruct (write_node_spec _ _ _ 0 buf _ W1 N1 F1) as (W3 & _ & N3 & F3 & _).
  split_and!; [done| |]; intros q Hq; [rewrite N3|rewrite F3 by done]; auto.
Qed.

Lemma start_state k j f e :
  before_file k j f -> ents !! k = Some e ->
  let f1 := modify_time allowed j f in wf f1 /\ finished k f1 /\ frame (S k) f1.
Proof.
  intros B Ek f1. destruct k as [|k].
  - destruct B as (So & Hn & _ & ->).
    destruct (modify_time_frame j 0 e f0 So Hn Ek Hf0) as (W & _ & F). split_and!; [done| |].
    + intros i e' Hi. lia.
    + intros q Hq. apply F. apply (Hq 0%nat e); [lia|done].
  - destruct (finish_file _ _ _ B) as (W & Fi & Fr). split_and!; [done|done|].
    intros q Hq. apply Fr. intros i e' Hi. apply Hq. lia.
Qed.

Lemma remove_if_exists p f :
  (if exists_file f p then remove_file allowed p f else Some f) =
  Some (try_fs (remove_file allowed p) f).
Proof.
  unfold try_fs, remove_file. rewrite Hmod by done. simpl. by destruct (exists_file f p).
Qed.

(** A block is written to the stream that [write_stream] leaves. *)
Lemma write_block n d c j j1 f f1 ino pos :
  server_ok j -> write_stream allowed digest_json (mkBlock id n d c) j f = (None, j1, f1) ->
  data_stream j1 = Some (FileStream ino pos true) ->
  let buf := unshrink (d, c) in
  exists j', write allowed digest_json (mkBlock id n d c) j f =
             (None, j', write_node ino pos buf f1) /\
    (server_ok j1 -> server_ok j') /\ file_num j' = file_num j1 /\
    data_stream j' = Some (FileStream ino (pos + zlen buf) true).
Proof.
  intros So Ws Hd buf. unfold write. rewrite Ws. cbn [b_id b_compressed b_data].
  rewrite (so_id _ So), Z.eqb_refl. cbn [negb]. rewrite Hd. cbn [write_all].
  fold (unshrink (d, c)). change (if c then decompress d else d) with buf.
  eexists. split; [reflexivity|]. split_and!; try done.
  intros [? ? ? ?]. by split.
Qed.

Lemma at_file_written k part buf j' f e ino m :
  ents !! k = Some e -> server_ok j' -> file_num j' = Z.of_nat k -> wf f ->
  names f !! partial e = Some ino -> file f (partial e) = Some (mkNode part m) ->
  finished k f -> frame (S k) f ->
  data_stream j' = Some (FileStream ino (zlen part + zlen buf) true) ->
  at_file k (part ++ buf) j' (write_node ino (zlen part) buf f).
Proof.
  intros Ek So En W Hp Fp Fin Fr Hd.
  destruct (write_node_spec f (partial e) ino (zlen part) buf _ W Hp Fp) as (W' & F1 & N1 & F2 & _).
  simpl in F1. rewrite splice_end in F1. split; try done.
  - exists e, ino, (clock f). rewrite N1, zlen_app. done.
  - apply (finished_mono k f _); [|done]. intros i e' q Hi He' Hq. rewrite N1. split; [done|].
    apply F2. intros ->.
    apply (other_path _ _ _ _ _ He' Ek ltac:(lia) Hq). unfold paths. set_solver.
  - intros q Hq. rewrite <- (Fr q Hq). apply F2. intros ->.
    apply (Hq k e ltac:(lia) Ek). unfold paths. set_solver.
Qed.

(** The first block of a file. *)
Lemma write_first k e d c j f :
  before_file k j f -> ents !! k = Some e ->
  exists j' f', write allowed digest_json (mkBlock id (Z.of_nat k) d c) j f = (None, j', f') /\
    at_file k (unshrink (d, c)) j' f'.
Proof.
  intros B Ek. destruct (start_state _ _ _ _ B Ek) as (W1 & Fin1 & Fr1).
  assert (server_ok j) as So by (destruct k; [apply B|apply (af_ok _ _ _ _ B)]).
  pose proof (lookup_lt_Some _ _ _ Ek) as Hk. unfold zlen in Hlen.
  set (f1 := modify_time allowed j f) in *.
  destruct (try_remove f1 (note e) W1) as (W2 & _ & N2 & F2).
  set (f2 := try_fs (remove_file allowed (note e)) f1) in *.
  destruct (create_total allowed f2 (partial e) (Hcreate _)) as (f3 & ino & C).
  destruct (create_spec _ _ _ _ _ W2 C) as (W3 & N3 & F3 & N3' & F3' & _).
  set (dg := digest_json (digest j)).
  destruct (try_write_file (note e) dg f3 W3) as (W4 & N4 & F4).
  set (f4 := try_fs (write_file allowed (note e) dg) f3) in *.
  pose proof (partial_note e) as PN.
  set (j1 := with_data_stream (Some (FileStream ino 0 true)) (with_file_num (Z.of_nat k) j)).
  assert (write_stream allowed digest_json (mkBlock id (Z.of_nat k) d c) j f =
          (None, j1, f4)) as Ws.
  { unfold write_stream. cbn [b_file_num]. destruct (server_entry_at _ _ _ So Ek) as (e0 & E0 & N0 & _).
    rewrite (so_src _ So), E0.
    assert (negb (usize (Z.of_nat k) =? usize (file_num j)) || is_none (data_stream j) = true)
      as ->.
    { destruct k as [|k].
      - destruct B as (_ & -> & -> & _). done.
      - rewrite (af_num _ _ _ _ B), !wrap_small by (unfold in_u; lia).
        rewrite (proj2 (Z.eqb_neq _ _)) by lia. done. }
    fold f1. rewrite decide_False by (cbn; by rewrite (so_type _ So)).
    rewrite N0. fold (target e). fold (note e). fold (partial e).
    rewrite remove_if_exists. fold f2. rewrite C. done. }
  assert (forall q, q ∉ paths e -> names f4 !! q = names f1 !! q /\ file f4 q = file f1 q) as FR.
  { intros q (Q1 & Q2 & Q3)%not_paths.
    by rewrite N4, N3', N2, F4, F3', F2 by done. }
  destruct (write_block (Z.of_nat k) d c j j1 f f4 ino 0 So Ws eq_refl) as (j' & E & So' & En & Hd).
  eexists _, _. split; [exact E|].
  assert (server_ok j1) as So1 by (destruct So; by split).
  apply (at_file_written k [] (unshrink (d, c)) j' f4 e ino (clock f2)); auto.
  - by rewrite N4 by done.
  - by rewrite F4 by done.
  - apply (finished_mono k f1 f4); [|done]. intros i e' q Hi He' Hq. apply FR.
    exact (other_path _ _ _ _ _ He' Ek ltac:(lia) Hq).
  - intros q Hq. rewrite <- (Fr1 q Hq). apply FR. apply (Hq k e); [lia|done].
Qed.

(** The next block of the same file. *)
Lemma write_next k part d c j f :
  at_file k part j f ->
  exists j' f', write allowed digest_json (mkBlock id (Z.of_nat k) d c) j f = (None, j', f') /\
    at_file k (part ++ unshrink (d, c)) j' f'.
Proof.
  intros [So En W (e & ino & m & Ek & Hd & Hp & Fp) Fin Fr].
  assert (write_stream allowed digest_json (mkBlock id (Z.of_nat k) d c) j f = (None, j, f)) as Ws.
  { unfold write_stream. cbn [b_file_num]. destruct (server_entry_at _ _ _ So Ek) as (e0 & E0 & _).
    by rewrite (so_src _ So), E0, En, Z.eqb_refl, Hd. }
  destruct (write_block (Z.of_nat k) d c j j f f ino (zlen part) So Ws Hd)
    as (j' & E & So' & En' & Hd').
  eexists _, _. split; [exact E|].
  apply (at_file_written k part (unshrink (d, c)) j' f e ino m); auto. by rewrite En'.
Qed.

(** ** The client *)

Section client.
Context (resume : bool) (strategy : option bool).

Record client_ok (j : TransferJob) : Prop := mkClientOk {
  co_id : jid j = id;
  co_type : jtype j = Generic;
  co_src : data_source j = FilePath src;
  co_files : files j = ents;
  co_last : is_last_job j = false;
  co_resume : is_resume j = resume;
  co_detect : enable_overwrite_detection j = true;
  co_strategy : default_overwrite_strategy j = strategy;
  co_skipped : file_skipped j = false;
}.

(** The client is about to open file [k]. *)
Record client_at (k : nat) (j : TransferJob) : Prop := mkClientAt {
  ca_ok : client_ok j;
  ca_num : file_num j = Z.of_nat k;
  ca_stream : data_stream j = None;
  ca_confirmed : file_confirmed j = false;
  ca_waiting : file_is_waiting j = false;
}.

(** File [k] is open at [pos]. *)
Record client_open (k : nat) (pos : Z) (confirmed : bool) (j : TransferJob) : Prop := mkClientOpen {
  cs_ok : client_ok j;
  cs_num : file_num j = Z.of_nat k;
  cs_stream : exists ino n, data_stream j = Some (FileStream ino pos false) /\
    nodes fc !! ino = Some n /\ data n = source_data k;
  cs_confirmed : file_confirmed j = confirmed;
}.

Lemma awaits_unconfirmed j : client_ok j -> awaits_confirm j = negb (file_confirmed j).
Proof.
  intros Co. unfold awaits_confirm. by rewrite (co_type _ Co), (co_detect _ Co).
Qed.

Lemma client_entry_at j k e :
  client_ok j -> ents !! k = Some e -> entry_at (Z.of_nat k) j = Some e.
Proof.
  intros Co E. apply entry_at_small.
  - pose proof (lookup_lt_Some _ _ _ E). unfold zlen in Hlen. lia.
  - by rewrite (co_files _ Co), Nat2Z.id.
Qed.

Lemma entry_num_small k e : ents !! k = Some e -> i32 (usize (Z.of_nat k)) = Z.of_nat k.
Proof.
  intros E%lookup_lt_Some. unfold zlen in Hlen. rewrite wrap_small by (unfold in_u; lia).
  apply swrap_small; unfold in_i; lia.
Qed.

Lemma source_open k e :
  ents !! k = Some e ->
  exists ino n, names fc !! join src (fe_name e) = Some ino /\ nodes fc !! ino = Some n /\
    data n = source_data k /\ 0 <= mtime n.
Proof.
  intros E. destruct (Hsrc e) as (n & Fn & Hm); [by eapply list_elem_of_lookup_2|].
  unfold source_data. rewrite E. cbn [mbind option_bind]. unfold content. rewrite Fn. simpl.
  unfold file in Fn. destruct (names fc !! join src (fe_name e)) as [ino|]; [|done]. by exists ino, n.
Qed.

Lemma tick_ask sched k e j :
  client_at k j -> ents !! k = Some e ->
  exists j' n, file fc (join src (fe_name e)) = Some n /\
    handle_read_jobs allowed sched fc [j] =
      ([j'], [MDigest (mkFtd id (Z.of_nat k) (mtime n / 1000000000) (zlen (data n))
                 false false 0 resume)]) /\
    client_open k 0 false j'.
Proof.
  intros [Co En Hd Hc Hw] Ek. destruct (source_open _ _ Ek) as (ino & n & Hn & Hi & Dn & Hm).
  set (j1 := with_file_is_waiting true (with_file_is_waiting false (with_file_confirmed false
               (with_data_stream (Some (FileStream ino 0 false)) j)))).
  assert (init_data_stream allowed fc j =
    (Ok [MDigest (mkFtd id (Z.of_nat k) (mtime n / 1000000000) (zlen (data n)) false false 0 resume)],
     j1)) as I.
  { unfold init_data_stream. rewrite (co_src _ Co), En, (client_entry_at _ _ _ Co Ek), Hd.
    cbn [is_none]. unfold open_file. rewrite Hmod, Hn by done.
    unfold awaits_confirm. cbn. rewrite (co_type _ Co), (co_detect _ Co). cbn.
    unfold send_current_digest. cbn. rewrite Hi, (proj2 (Z.ltb_ge _ _)) by lia.
    by rewrite (co_id _ Co), En, (co_resume _ Co). }
  exists j1, n. split; [by rewrite (file_name _ _ _ Hn)|]. split.
  - unfold handle_read_jobs. cbn [init_jobs]. rewrite (co_last _ Co), I. cbn [read_jobs].
    assert (client_ok j1) as Co1 by (by destruct Co).
    rewrite (co_last _ Co1). unfold read. rewrite (awaits_unconfirmed _ Co1). cbn.
    unfold job_completed. cbn. by rewrite (co_detect _ Co).
  - split; try done; [by destruct Co|]. by exists ino, n.
Qed.

(** A confirmed job that has its file open sends what is left of it. *)
Lemma init_open k pos j e :
  client_open k pos true j -> ents !! k = Some e -> init_data_stream allowed fc j = (Ok [], j).
Proof.
  intros [Co En (ino & n & Hd & _) Hc] Ek. unfold init_data_stream.
  rewrite (co_src _ Co), En, (client_entry_at _ _ _ Co Ek), Hd. cbn [is_none].
  unfold awaits_confirm. by rewrite Hc, andb_false_r.
Qed.

Lemma read_open sched k pos j e :
  client_open k pos true j -> ents !! k = Some e -> None ∉ sched -> 0 <= pos ->
  let buf := take (Z.to_nat BUF_SIZE) (drop (Z.to_nat pos) (source_data k)) in
  match buf with
  | [] => read sched fc j = (Ok (Some (mkBlock id (Z.of_nat k) [] false)), next_file j)
  | _ => exists d c j', read sched fc j = (Ok (Some (mkBlock id (Z.of_nat k) d c)), j') /\
           unshrink (d, c) = buf /\ client_open k (pos + zlen buf) true j'
  end.
Proof.
  intros [Co En (ino & n & Hd & Hi & Dn) Hc] Ek Hs Hp buf. unfold read.
  unfold awaits_confirm. rewrite Hc, andb_false_r, (co_src _ Co), En, (client_entry_at _ _ _ Co Ek), Hd.
  cbn [mbind option_bind]. unfold stream_rest. rewrite Hi. cbn [mbind option_bind].
  rewrite fill_reads, Dn by done. fold buf. rewrite (entry_num_small _ _ Ek), (co_id _ Co).
  destruct buf as [|b l] eqn:B; [by rewrite decide_True|]. rewrite decide_False by done.
  set (p := if true && negb (is_compressed_file (fe_name e)) then shrink (b :: l) else (b :: l, false)).
  destruct p as [d c] eqn:P. exists d, c. eexists. split; [reflexivity|]. split.
  - subst p. destruct (is_compressed_file _); simpl in P; [by injection P as <- <-|].
    rewrite <- P. by apply unshrink_shrink.
  - split; try done; [by destruct Co|]. by exists ino, n.
Qed.

Lemma tick_open sched k pos j e :
  client_open k pos true j -> ents !! k = Some e -> None ∉ sched -> 0 <= pos ->
  let buf := take (Z.to_nat BUF_SIZE) (drop (Z.to_nat pos) (source_data k)) in
  exists d c j', handle_read_jobs allowed sched fc [j] =
      ([j'], [MBlock (mkBlock id (Z.of_nat k) d c)]) /\ unshrink (d, c) = buf /\
    match buf with [] => client_at (S k) j' | _ => client_open k (pos + zlen buf) true j' end.
Proof.
  intros Cs Ek Hs Hp buf. pose proof (read_open _ _ _ _ _ Cs Ek Hs Hp) as R. cbn zeta in R.
  fold buf in R. pose proof (cs_ok _ _ _ _ Cs) as Co.
  assert (forall d c j', read sched fc j = (Ok (Some (mkBlock id (Z.of_nat k) d c)), j') ->
    handle_read_jobs allowed sched fc [j] = ([j'], [MBlock (mkBlock id (Z.of_nat k) d c)])) as T.
  { intros d c j' E. unfold handle_read_jobs. cbn [init_jobs].
    rewrite (co_last _ Co), (init_open _ _ _ _ Cs Ek). cbn [read_jobs].
    by rewrite (co_last _ Co), E. }
  destruct buf as [|b l].
  - exists [], false, (next_file j). split_and!; [by apply T|done|].
    split; try done; [by destruct Co|]. cbn. rewrite (cs_num _ _ _ _ Cs).
    pose proof (lookup_lt_Some _ _ _ Ek). unfold zlen in Hlen.
    rewrite swrap_small by (unfold in_i; lia). lia.
  - destruct R as (d & c & j' & E & U & Cs'). exists d, c, j'. split_and!; [by apply T|done|done].
Qed.

Lemma tick_done sched j :
  client_at (length ents) j ->
  handle_read_jobs allowed sched fc [j] = ([], [MDone id (zlen ents)]).
Proof.
  intros [Co En Hd Hc Hw]. unfold handle_read_jobs. cbn [init_jobs]. rewrite (co_last _ Co).
  assert (entry_at (file_num j) j = None) as EN.
  { apply entry_at_end; rewrite ?(co_files _ Co), En; unfold zlen in *; lia. }
  unfold init_data_stream. rewrite (co_src _ Co), EN. cbn [read_jobs].
  set (j1 := with_data_stream None j). assert (client_ok j1) as Co1 by (by destruct Co).
  rewrite (co_last _ Co1). unfold read. rewrite (awaits_unconfirmed _ Co1). cbn. rewrite Hc. cbn.
  unfold job_completed, job_error, job_skipped. cbn.
  rewrite Hc, Hw, (co_skipped _ Co), (co_id _ Co), En, orb_true_r. cbn.
  by rewrite (co_id _ Co), Z.eqb_refl.
Qed.

End client.

(** ** Rounds *)

Lemma get_job_one j : jid j = id -> get_job id [j] = Some (0%nat, j).
Proof. intros E. unfold get_job. simpl. by rewrite decide_True. Qed.

Lemma before_file_ok k j f : before_file k j f -> server_ok j.
Proof. destruct k; [by intros [? _]|apply af_ok]. Qed.

Lemma before_file_same k j j' f :
  (server_ok j -> server_ok j') -> file_num j' = file_num j -> data_stream j' = data_stream j ->
  before_file k j f -> before_file k j' f.
Proof.
  intros So En Hd. destruct k as [|k].
  - intros (? & ? & ? & ->). rewrite <- En, <- Hd in *. simpl. split_and!; auto.
  - intros [? ? ? (e & ino & m & ? & ? & ? & ?) ? ?]. split; auto; [congruence|].
    exists e, ino, m. by rewrite Hd.
Qed.

Lemma target_untouched k j f e :
  before_file k j f -> ents !! k = Some e -> file f (target e) = file f0 (target e).
Proof.
  intros B Ek. destruct k as [|k]; [by destruct B as (_ & _ & _ & ->)|].
  apply (af_frame _ _ _ _ B). intros i e' Hi He'.
  apply (other_path (S k) i e e'); [done|done|lia|]. unfold paths. set_solver.
Qed.

Definition confirm_all (k : nat) : SendConfirm := mkConfirm id (Z.of_nat k) (Some (OffsetBlk 0)).

(** The server lets the client know what it has under the name of file [k]. *)
Lemma server_check k e lm size js f :
  before_file k js f -> ents !! k = Some e ->
  exists js' ans, handle_fs
      (CheckDigest id (Z.of_nat k) size lm true false) ([js], f) = Some ([js'], f, [ans]) /\
    before_file k js' f /\
    (ans = MConfirm (confirm_all k) \/
     exists d, ans = MDigest d /\ d_id d = id /\ d_file_num d = Z.of_nat k /\ d_is_upload d = true).
Proof.
  intros B Ek. pose proof (before_file_ok _ _ _ B) as So. unfold handle_fs.
  rewrite (get_job_one _ (so_id _ So)). unfold check_digest.
  destruct (server_entry_at _ _ _ So Ek) as (e0 & E0 & N0 & _). rewrite E0, (so_src _ So), N0.
  fold (target e). unfold is_write_need_confirmation. cbn [andb].
  assert (before_file k (with_digest (mkDigest size lm) js) f) as B'.
  { apply (before_file_same k js); auto. intros [? ? ? ?]; by split. }
  destruct (file f (target e)) as [n|] eqn:F.
  - assert (0 <= mtime n) as Hm.
    { apply (Hm0 e); [by eapply list_elem_of_lookup_2|].
      by rewrite <- (target_untouched _ _ _ _ B Ek). }
    rewrite (proj2 (Z.ltb_ge _ _)) by lia. eexists _, _. split; [reflexivity|].
    split; [done|]. right. by eexists.
  - eexists _, _. split; [reflexivity|]. split; [done|]. by left.
Qed.

(** A reader that is confirmed goes on. *)
Lemma reader_confirmed st k jc :
  client_open false st k 0 false jc ->
  confirm allowed (confirm_all k) fc jc = Some (set_file_confirmed true jc) /\
  client_open false st k 0 true (set_file_confirmed true jc).
Proof.
  intros [Co En Hs Hc]. split.
  - unfold confirm. rewrite En. simpl. by rewrite Z.eqb_refl.
  - split; try done. destruct Co. by split.
Qed.

Lemma reader_answer st k jc :
  client_open false st k 0 false jc ->
  client_confirm fc (confirm_all k) [jc] = Some [set_file_confirmed true jc].
Proof.
  intros Cs. unfold client_confirm. cbn [confirm_all r_id]. fold (confirm_all k).
  rewrite (get_job_one _ (co_id _ _ _ (cs_ok _ _ _ _ _ _ Cs))).
  by rewrite (proj1 (reader_confirmed _ _ _ Cs)).
Qed.

(** The client, told to overwrite, confirms. *)
Lemma client_answer k e ans jc :
  client_open false (Some true) k 0 false jc -> ents !! k = Some e ->
  (ans = MConfirm (confirm_all k) \/
   exists d, ans = MDigest d /\ d_id d = id /\ d_file_num d = Z.of_nat k /\ d_is_upload d = true) ->
  exists jc' back, client_on_message fc ans [jc] = Some ([jc'], back) /\
    client_open false (Some true) k 0 true jc' /\ (back = [] \/ back = [MConfirm (confirm_all k)]).
Proof.
  intros Cs Ek Ha. destruct (reader_confirmed _ _ _ Cs) as [C Cs'].
  pose proof (cs_ok _ _ _ _ _ _ Cs) as Co. pose proof (get_job_one _ (co_id _ _ _ Co)) as G.
  destruct Ha as [->|(d & -> & Hi & Hn & Hu)]; cbn [client_on_message].
  - rewrite (reader_answer _ _ _ Cs). simpl. eauto 10.
  - rewrite Hu. unfold client_digest. rewrite Hi, G, Hn, (client_entry_at _ _ _ _ _ Co Ek), (co_src _ _ _ Co),
      (co_resume _ _ _ Co), andb_false_r, (co_strategy _ _ _ Co). cbn [andb].
    fold (confirm_all k). rewrite C. simpl. eauto 10.
Qed.

Lemma server_confirm k js f :
  before_file k js f ->
  exists js', handle_fs (FSConfirm (confirm_all k)) ([js], f) =
      Some ([js'], f, []) /\ before_file k js' f.
Proof.
  intros B. pose proof (before_file_ok _ _ _ B) as So. unfold handle_fs. cbn [confirm_all r_id].
  rewrite (get_job_one _ (so_id _ So)). unfold confirm. cbn [r_file_num r_union].
  destruct (negb _); simpl; eexists; (split; [reflexivity|]); [done|].
  apply (before_file_same k js); auto. intros [? ? ? ?]; by split.
Qed.

Abbreviation round' sched jcs s := (round sched fc jcs s).
Abbreviation rounds' scheds jcs s := (rounds scheds fc jcs s).

Lemma round_ask sched k e jc js f :
  client_at false (Some true) k jc -> before_file k js f -> ents !! k = Some e ->
  exists jc' js', round' sched [jc] ([js], f) = Some ([jc'], ([js'], f)) /\
    client_open false (Some true) k 0 true jc' /\ before_file k js' f.
Proof.
  intros Ca B Ek. destruct (tick_ask false (Some true) sched _ _ _ Ca Ek) as (jc1 & n & _ & T & Cs).
  destruct (server_check k e (mtime n / 1000000000) (zlen (data n)) js f B Ek) as (js1 & ans & E1 & B1 & Ha).
  destruct (client_answer _ _ _ _ Cs Ek Ha) as (jc2 & back & E2 & Cs2 & Hb).
  unfold round. rewrite T.
  cbn [to_server server_forward d_id d_file_num d_file_size d_last_modified d_is_resume].
  rewrite E1. cbn [mbind option_bind app to_client]. rewrite E2. cbn [mbind option_bind].
  rewrite app_nil_r. destruct Hb as [->| ->].
  - simpl. eauto 10.
  - destruct (server_confirm k js1 f B1) as (js2 & E3 & B2).
    cbn [to_server server_forward]. rewrite E3. simpl. eauto 10.
Qed.

(** The server holds the first [pos] bytes of file [k]. *)
Definition server_has (k : nat) (pos : Z) (js : TransferJob) (f : FS) : Prop :=
  (pos = 0 /\ before_file k js f) \/ at_file k (take (Z.to_nat pos) (source_data k)) js f.

Lemma server_has_ok k pos js f : server_has k pos js f -> server_ok js.
Proof. intros [[_ B]|A]; [by eapply before_file_ok|by eapply af_ok]. Qed.

Lemma writer_block k e pos d c js f :
  server_has k pos js f -> ents !! k = Some e ->
  exists js' f', write allowed digest_json (mkBlock id (Z.of_nat k) d c) js f = (None, js', f') /\
    at_file k (take (Z.to_nat pos) (source_data k) ++ unshrink (d, c)) js' f'.
Proof. intros [[-> B]|A] Ek; [by eapply write_first|by eapply write_next]. Qed.

Lemma server_block k e pos d c js f :
  server_has k pos js f -> ents !! k = Some e ->
  exists js' f', handle_fs (WriteBlock id (Z.of_nat k) d c) ([js], f) =
      Some ([js'], f', []) /\
    at_file k (take (Z.to_nat pos) (source_data k) ++ unshrink (d, c)) js' f'.
Proof.
  intros Sh Ek. destruct (writer_block k e pos d c js f Sh Ek) as (js' & f' & E & A).
  unfold handle_fs. rewrite (get_job_one _ (so_id _ (server_has_ok _ _ _ _ Sh))), E. simpl. eauto.
Qed.

Lemma round_open rs st sched k e pos jc js f :
  client_open rs st k pos true jc -> server_has k pos js f -> ents !! k = Some e ->
  None ∉ sched -> 0 <= pos ->
  let buf := take (Z.to_nat BUF_SIZE) (drop (Z.to_nat pos) (source_data k)) in
  exists jc' js' f', round' sched [jc] ([js], f) = Some ([jc'], ([js'], f')) /\
    at_file k (take (Z.to_nat pos) (source_data k) ++ buf) js' f' /\
    match buf with [] => client_at rs st (S k) jc' | _ => client_open rs st k (pos + zlen buf) true jc' end.
Proof.
  intros Cs Sh Ek Hs Hp buf.
  destruct (tick_open _ _ _ _ _ _ _ Cs Ek Hs Hp) as (d & c & jc' & T & U & Hj). fold buf in U, Hj.
  destruct (server_block k e pos d c js f Sh Ek) as (js' & f' & E & A). rewrite U in A.
  unfold round. rewrite T. cbn [to_server server_forward b_id b_file_num b_data b_compressed].
  rewrite E. simpl. eauto 10.
Qed.

(** What arrived in the end: every file under its name with its content and
    time, no partial or digest file of it, and everything else as it was. *)
Definition delivered (f : FS) : Prop :=
  finished (length ents) f /\ frame (length ents) f.

(** The last file gets its name. *)
Lemma writer_done js f : before_file (length ents) js f -> delivered (modify_time allowed js f).
Proof.
  intros B. pose proof (before_file_ok _ _ _ B) as So. unfold delivered. destruct (length ents) as [|n] eqn:L.
  - destruct B as (_ & Hn & _ & ->). unfold modify_time.
    rewrite decide_False by (by rewrite (so_type _ So)). rewrite (so_src _ So), Hn.
    assert (entry_at 0 js = None) as ->.
    { apply entry_at_end; [|lia]. unfold zlen. by rewrite (server_files_length _ So), L. }
    split; [intros i e Hi; lia|done].
  - by destruct (finish_file _ _ _ B) as (_ & ? & ?).
Qed.

Lemma round_done sched jc js f :
  client_at false (Some true) (length ents) jc -> before_file (length ents) js f ->
  exists f', round' sched [jc] ([js], f) = Some ([], ([], f')) /\ delivered f'.
Proof.
  intros Ca B. exists (modify_time allowed js f). split; [|by apply writer_done].
  unfold round. rewrite (tick_done _ _ _ _ Ca). cbn [to_server server_forward handle_fs remove_job].
  by rewrite (so_id _ (before_file_ok _ _ _ B)), Z.eqb_refl.
Qed.

(** ** How many rounds *)

(** Blocks a rest of [r] bytes is sent in, without the empty one at the end. *)
Definition blocks (r : Z) : nat := Z.to_nat ((r + BUF_SIZE - 1) / BUF_SIZE).

Lemma blocks_step r : 0 < r -> blocks r = S (blocks (r - Z.min BUF_SIZE r)).
Proof.
  intros Hr. unfold blocks, BUF_SIZE. destruct (Z.leb_spec r 131072).
  - rewrite Z.min_r by lia. replace (r - r) with 0 by lia. simpl.
    replace ((r + 131072 - 1) / 131072) with 1; [done|]. zdm.
  - rewrite Z.min_l by lia. rewrite <- Z2Nat.inj_succ by zdm. f_equal. zdm.
Qed.

(** One round to ask, the blocks, and the empty block. *)
Definition file_rounds (k : nat) : nat := S (S (blocks (zlen (source_data k)))).

Definition upload_rounds (n : nat) : nat := sum_list_with file_rounds (seq 0 n).

Lemma rounds_idle scheds f : rounds' scheds [] ([], f) = Some ([], ([], f)).
Proof. induction scheds as [|sched scheds IH]; [done|]. simpl. apply IH. Qed.

Definition no_error (scheds : list (list (option nat))) : Prop :=
  Forall (fun sched => None ∉ sched) scheds.

Lemma take_chunk n pos (d : bytes) :
  0 <= n -> 0 <= pos <= zlen d ->
  let buf := take (Z.to_nat n) (drop (Z.to_nat pos) d) in
  zlen buf = Z.min n (zlen d - pos) /\
  take (Z.to_nat pos) d ++ buf = take (Z.to_nat (pos + zlen buf)) d.
Proof.
  intros Hn Hp buf.
  assert (zlen buf = Z.min n (zlen d - pos)) as L.
  { subst buf. unfold zlen in *. rewrite length_take, length_drop. lia. }
  split; [done|]. subst buf. rewrite take_take_drop, L. unfold zlen in *.
  destruct (Z.leb_spec n (Z.of_nat (length d) - pos)).
  - f_equal. lia.
  - rewrite !take_ge by lia. done.
Qed.

(** Both ends together, whatever carries the messages: the reader's jobs, a state of type [S]
    in which the writer's job and its files are found, and a step. *)
Section runs.
Context {S : Type} (step : list (option nat) -> list TransferJob -> S -> option (list TransferJob * S)).
Context (holds : TransferJob -> FS -> S -> Prop) (rs : bool) (st : option bool).

Fixpoint steps (scheds : list (list (option nat))) (jcs : list TransferJob) (s : S)
    : option (list TransferJob * S) :=
  match scheds with
  | [] => Some (jcs, s)
  | sched :: scheds => '(jcs, s) ← step sched jcs s; steps scheds jcs s
  end.

Context (Hask : forall sched k e jc js f s,
  client_at rs st k jc -> before_file k js f -> holds js f s -> ents !! k = Some e ->
  exists jc' js' s', step sched [jc] s = Some ([jc'], s') /\ holds js' f s' /\
    client_open rs st k 0 true jc' /\ before_file k js' f).

Context (Hopen : forall sched k e pos jc js f s,
  client_open rs st k pos true jc -> server_has k pos js f -> holds js f s -> ents !! k = Some e ->
  None ∉ sched -> 0 <= pos ->
  let buf := take (Z.to_nat BUF_SIZE) (drop (Z.to_nat pos) (source_data k)) in
  exists jc' js' f' s', step sched [jc] s = Some ([jc'], s') /\ holds js' f' s' /\
    at_file k (take (Z.to_nat pos) (source_data k) ++ buf) js' f' /\
    match buf with [] => client_at rs st (Datatypes.S k) jc' | _ => client_open rs st k (pos + zlen buf) true jc' end).

Lemma steps_app s1 s2 jcs s :
  steps (s1 ++ s2) jcs s = '(jcs, s) ← steps s1 jcs s; steps s2 jcs s.
Proof.
  revert jcs s. induction s1 as [|sched s1 IH]; intros jcs s; [done|]. simpl.
  destruct (step sched jcs s) as [[jcs' s']|]; simpl; [apply IH|done].
Qed.

Lemma step_blocks k e scheds : forall pos jc js f s,
  ents !! k = Some e -> no_error scheds ->
  client_open rs st k pos true jc -> server_has k pos js f -> holds js f s -> 0 <= pos <= zlen (source_data k) ->
  length scheds = Datatypes.S (blocks (zlen (source_data k) - pos)) ->
  exists jc' js' f' s', steps scheds [jc] s = Some ([jc'], s') /\ holds js' f' s' /\
    client_at rs st (Datatypes.S k) jc' /\ before_file (Datatypes.S k) js' f'.
Proof.
  induction scheds as [|sched scheds IH]; intros pos jc js f s Ek Hs Cs Sh Ho Hp HL; [done|].
  apply Forall_cons in Hs as [Hs1 Hs2].
  destruct (Hopen sched _ _ _ _ _ _ _ Cs Sh Ho Ek Hs1 ltac:(lia)) as (jc1 & js1 & f1 & s1 & R & Ho1 & A & C).
  set (D := source_data k) in *.
  destruct (take_chunk BUF_SIZE pos D ltac:(done) Hp) as [Lb TD].
  set (buf := take (Z.to_nat BUF_SIZE) (drop (Z.to_nat pos) D)) in *. clearbody buf.
  cbn [steps]. rewrite R. cbn [mbind option_bind]. destruct buf as [|b l] eqn:B.
  - assert (pos = zlen D) as ->.
    { change (zlen (@nil Init.Byte.byte)) with 0 in Lb. unfold BUF_SIZE in Lb. lia. }
    rewrite Z.sub_diag in HL. destruct scheds as [|]; [|done].
    exists jc1, js1, f1, s1. split; [done|]. split; [done|]. split; [done|]. simpl. fold D.
    unfold zlen in A. rewrite Nat2Z.id, app_nil_r, firstn_all in A. done.
  - rewrite <- B in *.
    assert (0 < zlen buf) as Lp by (rewrite B, zlen_cons; pose proof (zlen_nonneg l); lia).
    assert (0 < zlen D - pos) as Hr by lia.
    rewrite (blocks_step _ Hr), <- Lb in HL. injection HL as HL.
    apply (IH (pos + zlen buf) jc1 js1 f1 s1); auto; [|lia|rewrite HL; do 2 f_equal; lia].
    right. fold D. by rewrite <- TD.
Qed.

Lemma step_file k e scheds jc js f s :
  ents !! k = Some e -> no_error scheds -> length scheds = file_rounds k ->
  client_at rs st k jc -> before_file k js f -> holds js f s ->
  exists jc' js' f' s', steps scheds [jc] s = Some ([jc'], s') /\ holds js' f' s' /\
    client_at rs st (Datatypes.S k) jc' /\ before_file (Datatypes.S k) js' f'.
Proof.
  intros Ek Hs HL Ca B Ho. destruct scheds as [|sched scheds]; [done|]. injection HL as HL.
  apply Forall_cons in Hs as [_ Hs].
  destruct (Hask sched k e jc js f s Ca B Ho Ek) as (jc1 & js1 & s1 & R & Ho1 & Cs & B1).
  cbn [steps]. rewrite R. cbn [mbind option_bind].
  apply (step_blocks k e scheds 0 _ js1 f); auto; [by left|pose proof (zlen_nonneg (source_data k)); lia|].
  by rewrite Z.sub_0_r.
Qed.

Lemma step_files m : forall k scheds jc js f s,
  (k + m)%nat = length ents -> no_error scheds ->
  length scheds = sum_list_with file_rounds (seq k m) ->
  client_at rs st k jc -> before_file k js f -> holds js f s ->
  exists jc' js' f' s', steps scheds [jc] s = Some ([jc'], s') /\ holds js' f' s' /\
    client_at rs st (length ents) jc' /\ before_file (length ents) js' f'.
Proof.
  induction m as [|m IH]; intros k scheds jc js f s Hk Hs HL Ca B Ho.
  - destruct scheds; [|done]. replace (length ents) with k by lia. simpl. eauto 10.
  - destruct (lookup_lt_is_Some_2 ents k ltac:(lia)) as [e Ek].
    cbn [seq sum_list_with] in HL.
    rewrite <- (take_drop (file_rounds k) scheds) in *.
    set (s1 := take (file_rounds k) scheds) in *. set (s2 := drop (file_rounds k) scheds) in *.
    rewrite length_app in HL.
    assert (length s1 = file_rounds k) as L1.
    { subst s1 s2. rewrite length_take, length_drop in *. lia. }
    apply Forall_app in Hs as [Hs1 Hs2].
    destruct (step_file k e s1 jc js f s Ek Hs1 L1 Ca B Ho) as (jc1 & js1 & f1 & t1 & R & Ho1 & Ca1 & B1).
    rewrite steps_app, R. cbn [mbind option_bind].
    apply (IH (Datatypes.S k) s2 jc1 js1 f1 t1); auto; lia.
Qed.

End runs.

(** *** The upload *)

Definition holds_cm (js : TransferJob) (f : FS) (s : cm_state) : Prop := s = ([js], f).

Lemma rounds_steps scheds jcs s : rounds' scheds jcs s = steps (fun sched jcs s => round' sched jcs s) scheds jcs s.
Proof.
  revert jcs s. induction scheds as [|sched scheds IH]; intros jcs s; [done|]. simpl.
  destruct (round' sched jcs s) as [[jcs' s']|]; [apply IH|done].
Qed.

Lemma ask_cm sched k e jc js f s :
  client_at false (Some true) k jc -> before_file k js f -> holds_cm js f s -> ents !! k = Some e ->
  exists jc' js' s', round' sched [jc] s = Some ([jc'], s') /\ holds_cm js' f s' /\
    client_open false (Some true) k 0 true jc' /\ before_file k js' f.
Proof.
  intros Ca B -> Ek. destruct (round_ask sched k e jc js f Ca B Ek) as (jc' & js' & R & C & B'). 
  exists jc', js', ([js'], f). done.
Qed.

Lemma open_cm rs st sched k e pos jc js f s :
  client_open rs st k pos true jc -> server_has k pos js f -> holds_cm js f s -> ents !! k = Some e ->
  None ∉ sched -> 0 <= pos ->
  let buf := take (Z.to_nat BUF_SIZE) (drop (Z.to_nat pos) (source_data k)) in
  exists jc' js' f' s', round' sched [jc] s = Some ([jc'], s') /\ holds_cm js' f' s' /\
    at_file k (take (Z.to_nat pos) (source_data k) ++ buf) js' f' /\
    match buf with [] => client_at rs st (S k) jc' | _ => client_open rs st k (pos + zlen buf) true jc' end.
Proof.
  intros Cs Sh -> Ek Hs Hp buf.
  destruct (round_open rs st sched k e pos jc js f Cs Sh Ek Hs Hp) as (jc' & js' & f' & R & A & C).
  exists jc', js', f', ([js'], f'). done.
Qed.

Lemma run_blocks rs st k e scheds pos jc js f :
  ents !! k = Some e -> no_error scheds ->
  client_open rs st k pos true jc -> server_has k pos js f -> 0 <= pos <= zlen (source_data k) ->
  length scheds = S (blocks (zlen (source_data k) - pos)) ->
  exists jc' js' f', rounds' scheds [jc] ([js], f) = Some ([jc'], ([js'], f')) /\
    client_at rs st (S k) jc' /\ before_file (S k) js' f'.
Proof.
  intros Ek Hs Cs Sh Hp HL. rewrite rounds_steps.
  destruct (step_blocks (fun sched jcs s => round' sched jcs s) holds_cm rs st (open_cm rs st)
    k e scheds pos jc js f ([js], f)) as (jc' & js' & f' & s' & R & -> & C & B); try done. eauto 10.
Qed.

(** C2. An upload delivers the files.  The user uploads any number of files and
    has chosen to overwrite; the server starts with any files (leftovers of
    earlier transfers included) under names that do not clash, every access is
    permitted and reading never fails.  Then after enough ticks of the client's
    timer, whatever amounts its reads return, both sides have finished, nothing
    panicked, every file is on the server under its name with the source's
    content and modification time, no partial file or digest of it is left, and
    every other file of the server is as it was.  Compressing a block succeeds, times
    are not before 1970, and there are fewer than 2^31 files. *)
Theorem upload_delivers total conn hidden scheds :
  no_error scheds -> (upload_rounds (length ents) < length scheds)%nat ->
  exists jc s0 f',
    new_read id Generic dst (FilePath src) 0 hidden false true (fun _ => Ok ents) = Ok jc /\
    handle_fs (NewWrite dst id 0 ((fun e => (fe_name e, fe_modified_time e)) <$> ents)
      true total conn) ([], f0) = Some (s0, []) /\
    rounds' scheds [with_default_overwrite_strategy (Some true) jc] s0 = Some ([], ([], f')) /\
    delivered f'.
Proof.
  intros Hs HL. set (n := upload_rounds (length ents)) in *.
  set (jc := empty_job id Generic dst (FilePath src) 0 hidden false ents
               (u64 (foldl Z.add 0 (fe_size <$> ents))) true).
  set (js := set_total total conn (new_write id Generic "" (FilePath dst) 0 false false
    ((fun e => mkEntry (fst e) 0 (snd e)) <$>
       ((fun e => (fe_name e, fe_modified_time e)) <$> ents)) true)).
  assert (client_at false (Some true) 0 (with_default_overwrite_strategy (Some true) jc)) as Ca.
  { by split. }
  assert (before_file 0 js f0) as B.
  { split_and!; try done. split; try done. simpl. by rewrite <- !list_fmap_compose. }
  destruct (lookup_lt_is_Some_2 scheds n HL) as [sched En].
  rewrite <- (take_drop_middle _ _ _ En) in Hs |- *. apply Forall_app in Hs as [Hs1 _].
  destruct (step_files (fun sched jcs s => round' sched jcs s) holds_cm false (Some true) ask_cm
    (open_cm false (Some true)) (length ents) 0 (take n scheds)
    (with_default_overwrite_strategy (Some true) jc) js f0 ([js], f0) eq_refl Hs1) as
    (jc1 & js1 & f1 & s1 & R & -> & Ca1 & B1); [|exact Ca|exact B|done|].
  { rewrite length_take. fold (upload_rounds (length ents)). fold n. lia. }
  destruct (round_done sched jc1 js1 f1 Ca1 B1) as (f2 & R2 & D).
  exists jc, ([js], f0), f2. split_and!; [done|done| |exact D].
  rewrite rounds_steps, steps_app, R. cbn [mbind option_bind steps]. rewrite R2.
  cbn [mbind option_bind]. rewrite <- rounds_steps. apply rounds_idle.
Qed.

End delivery.
End upload.

(** ** Witness

    Two files, one empty, over a leftover of an earlier transfer. *)

Module Witness.
#[local] Existing Instance zstd_store.

Definition ents : list FileEntry := [mkEntry "a" 2 5; mkEntry "b.png" 0 6].

Definition sender : FS :=
  mkFS {["src/a"%string := 0%nat; "src/b.png"%string := 1%nat]}
    [mkNode [Byte.x61; Byte.x62] 5000000000; mkNode [] 6000000000] 0.

Definition receiver : FS :=
  mkFS {["dst/a.download"%string := 0%nat]} [mkNode [Byte.x00] 0] 9.

Definition json (d : FileDigest) : bytes := [].
Definition yes (op : fsop) (p : string) : bool := true.
Definition scheds : list (list (option nat)) := [[]; [Some 0%nat]; []; []; []; []; []].

End Witness.

Lemma upload_delivers_witness :
  exists f', delivered "src" "dst" Witness.ents Witness.sender Witness.receiver f'.
Proof.
  destruct (@upload_delivers zstd_store Witness.yes Witness.json (fun _ => None) 7 "src" "dst"
    Witness.ents Witness.sender Witness.receiver) with (total := 2) (conn := 1) (hidden := false)
    (scheds := Witness.scheds) as (jc & s0 & f' & _ & _ & _ & D).
  all: try reflexivity.
  - intros d [=].
  - intros e He. apply list_elem_of_In in He. destruct He as [<-|[<-|[]]];
      eexists; (split; [vm_compute; reflexivity|done]).
  - split.
    + cbn [names Witness.receiver]. intros p i [<- <-]%lookup_singleton_Some. simpl. lia.
    + cbn [names Witness.receiver]. intros p q i [<- _]%lookup_singleton_Some.
      by intros [<- _]%lookup_singleton_Some.
  - intros e n He Hf. exfalso. apply list_elem_of_In in He.
    destruct He as [<-|[<-|[]]]; vm_compute in Hf; discriminate Hf.
  - intros i j e e' q Hi Hj Q1%list_elem_of_In Q2%list_elem_of_In.
    destruct i as [|[|i]], j as [|[|j]]; try done; simpl in Hi, Hj; simplify_eq; exfalso;
      vm_compute in Q1, Q2; intuition congruence.
  - repeat constructor; intros Q%list_elem_of_In; simpl in Q; intuition congruence.
  - vm_compute. lia.
  - by exists f'.
Defined.
