(* ===== verification/TransferCases.v ===== *)
(** * Cases of a transfer

    What happens around the upload of [Upload]: resuming a partial file, a file
    that cannot be opened or created, leftovers, names the peer chooses, and the
    requests that panic. *)

From Stdlib Require Import Ascii.
From S2P Require Import Prelude Compress FileSys FileTransfer Upload.

Section cases.
Context `{Zstd} (allowed : fsop -> string -> bool).
Context (digest_json : FileDigest -> bytes) (parse_digest : bytes -> option FileDigest).
Context (Hmod : forall op p, op <> OpCreate -> allowed op p = true).
Context (id : Z) (dst : string) (ents : list FileEntry).
Context (Hlen : zlen ents < 2 ^ 31).

Abbreviation write' := (write allowed digest_json).
Abbreviation handle_fs' := (handle_fs allowed digest_json parse_digest).

Lemma remove_if_exists' p f :
  (if exists_file f p then remove_file allowed p f else Some f) =
  Some (try_fs (remove_file allowed p) f).
Proof.
  unfold try_fs, remove_file. rewrite Hmod by done. simpl. by destruct (exists_file f p).
Qed.

(** The stream for file [m], when the server has none open or another one: what
    it does before it creates the file. *)
Lemma write_stream_new m e' d c j f :
  server_ok id dst ents j -> ents !! m = Some e' ->
  negb (usize (Z.of_nat m) =? usize (file_num j)) || is_none (data_stream j) = true ->
  let f1 := modify_time allowed j f in
  let f2 := try_fs (remove_file allowed (note dst e')) f1 in
  let j1 := with_file_num (Z.of_nat m) j in
  write_stream allowed digest_json (mkBlock id (Z.of_nat m) d c) j f =
  match create allowed (partial dst e') f2 with
  | None => (Some Io, j1, f2)
  | Some (f3, i) =>
      (None, with_data_stream (Some (FileStream i 0 true)) j1,
       try_fs (write_file allowed (note dst e') (digest_json (digest j))) f3)
  end.
Proof.
  intros So Em Hc f1 f2 j1. unfold write_stream. cbn [b_file_num].
  destruct (server_entry_at _ _ _ Hlen _ _ _ So Em) as (e0 & E0 & N0 & _).
  rewrite (so_src _ _ _ _ So), E0, Hc.
  fold f1. rewrite decide_False by (cbn; by rewrite (so_type _ _ _ _ So)).
  rewrite N0. fold (target dst e'). fold (note dst e'). fold (partial dst e').
  rewrite remove_if_exists'. by fold f2.
Qed.

Lemma other_number k m e e' :
  ents !! k = Some e -> ents !! m = Some e' -> k <> m ->
  (usize (Z.of_nat m) =? usize (Z.of_nat k)) = false.
Proof.
  intros Ek%lookup_lt_Some Em%lookup_lt_Some N. unfold zlen in Hlen.
  rewrite !wrap_small by (unfold in_u; lia). apply Z.eqb_neq. lia.
Qed.

(** A file that cannot be created corrupts the one before it.  While the
    server has file [k] open, the first block of a file [m] whose partial file
    cannot be created is answered with an error, but file [k] has been given its
    final name and its stream is still open: the next block of file [m] is
    written without an error to the end of file [k]. *)
Theorem failed_create_corrupts_previous k m e e' j f part ino mt d1 c1 d2 c2 :
  server_ok id dst ents j -> file_num j = Z.of_nat k ->
  ents !! k = Some e -> ents !! m = Some e' -> k <> m -> target dst e <> note dst e' ->
  wf f -> data_stream j = Some (FileStream ino (zlen part) true) ->
  names f !! partial dst e = Some ino -> file f (partial dst e) = Some (mkNode part mt) ->
  allowed OpCreate (partial dst e') = false ->
  exists j1 f1 j2 f2,
    write' (mkBlock id (Z.of_nat m) d1 c1) j f = (Some Io, j1, f1) /\
    content f1 (target dst e) = Some part /\
    write' (mkBlock id (Z.of_nat m) d2 c2) j1 f1 = (None, j2, f2) /\
    content f2 (target dst e) = Some (part ++ unshrink (d2, c2)).
Proof.
  intros So En Ek Em N Ht W Hd Hp Fp Hno.
  destruct (modify_time_final _ _ _ _ Hmod Hlen _ _ _ _ _ _ _ So En Ek W Hp Fp)
    as (T1 & _ & _ & W1 & N1).
  set (f1 := modify_time allowed j f) in *.
  destruct (try_remove _ Hmod f1 (note dst e') W1) as (W2 & _ & N2 & F2).
  set (f2 := try_fs (remove_file allowed (note dst e')) f1) in *.
  rewrite <- N2 in N1 by done. rewrite <- F2 in T1 by done.
  set (j1 := with_file_num (Z.of_nat m) j).
  assert (server_ok id dst ents j1) as So1 by (destruct So; by split).
  assert (write_stream allowed digest_json (mkBlock id (Z.of_nat m) d2 c2) j1 f2 = (None, j1, f2))
    as Ws.
  { unfold write_stream. cbn [b_file_num].
    destruct (server_entry_at _ _ _ Hlen _ _ _ So1 Em) as (e0 & E0 & _).
    rewrite (so_src _ _ _ _ So1), E0.
    subst j1. cbn. by rewrite Hd, Z.eqb_refl. }
  destruct (write_block allowed digest_json id dst ents _ d2 c2 _ _ _ _ ino (zlen part) So1 Ws Hd)
    as (j2 & E2 & _).
  exists j1, f2, j2, (write_node ino (zlen part) (unshrink (d2, c2)) f2). split_and!; [| |done|].
  - unfold write. cbn [b_id]. rewrite (so_id _ _ _ _ So), Z.eqb_refl. cbn [negb].
    rewrite (write_stream_new m e' d1 c1 j f So Em).
    2: { by rewrite En, (other_number _ _ _ _ Ek Em N). }
    fold f1. fold f2. unfold create. by rewrite Hno.
  - unfold content. by rewrite T1.
  - destruct (write_node_spec f2 (target dst e) ino (zlen part) (unshrink (d2, c2)) _ W2 N1 T1)
      as (_ & F3 & _).
    simpl in F3. unfold content. rewrite F3. simpl. by rewrite splice_end.
Qed.

(** The first block a job without a stream writes. *)
Lemma write_creates k e d c j f :
  server_ok id dst ents j -> file_num j = Z.of_nat k -> ents !! k = Some e ->
  data_stream j = None -> wf f -> allowed OpCreate (partial dst e) = true ->
  exists j' f' ino mt,
    write' (mkBlock id (Z.of_nat k) d c) j f = (None, j', f') /\
    server_ok id dst ents j' /\ file_num j' = Z.of_nat k /\ wf f' /\
    names f' !! partial dst e = Some ino /\
    file f' (partial dst e) = Some (mkNode (unshrink (d, c)) mt) /\
    file f' (target dst e) = file (modify_time allowed j f) (target dst e).
Proof.
  intros So En Ek Hd W Hc.
  destruct (modify_time_frame _ _ _ _ Hmod Hlen _ _ _ f So En Ek W) as (W1 & _).
  set (f1 := modify_time allowed j f) in *.
  destruct (try_remove _ Hmod f1 (note dst e) W1) as (W2 & _ & N2 & F2).
  set (f2 := try_fs (remove_file allowed (note dst e)) f1) in *.
  destruct (create_total allowed f2 (partial dst e) Hc) as (f3 & ino & C).
  destruct (create_spec _ _ _ _ _ W2 C) as (W3 & N3 & F3 & _ & F3' & _).
  set (dg := digest_json (digest j)).
  destruct (try_write_file allowed (note dst e) dg f3 W3) as (W4 & N4 & F4).
  set (f4 := try_fs (write_file allowed (note dst e) dg) f3) in *.
  pose proof (partial_note dst e) as PN. pose proof (target_note dst e) as TN.
  pose proof (target_partial dst e) as TP.
  set (j1 := with_data_stream (Some (FileStream ino 0 true)) (with_file_num (Z.of_nat k) j)).
  assert (write_stream allowed digest_json (mkBlock id (Z.of_nat k) d c) j f = (None, j1, f4)) as Ws.
  { rewrite (write_stream_new k e d c j f So Ek) by (by rewrite Hd, orb_true_r).
    fold f1. fold f2. by rewrite C. }
  destruct (write_block allowed digest_json id dst ents _ d c _ _ _ _ ino 0 So Ws eq_refl)
    as (j' & E & So' & En' & _).
  rewrite <- N4 in N3 by done. rewrite <- F4 in F3 by done.
  destruct (write_node_spec f4 _ ino 0 (unshrink (d, c)) _ W4 N3 F3) as (W5 & F5 & N5 & F5' & _).
  exists j', (write_node ino 0 (unshrink (d, c)) f4), ino, (clock f4). split_and!; try done.
  - apply So'. destruct So. by split.
  - by rewrite N5.
  - rewrite F5. cbn [FileSys.data]. by rewrite (splice_end _ []).
  - by rewrite F5', F4, F3', F2 by done.
Qed.

(** A leftover is promoted.  When a transfer starts at a file of which a
    partial file is left from an earlier transfer, the first block gives that
    partial file the final name and the modification time of the source, in place
    of what was there, before anything of the new transfer is complete. *)
Theorem leftover_promoted k e d c j f part mt :
  server_ok id dst ents j -> file_num j = Z.of_nat k -> ents !! k = Some e ->
  data_stream j = None -> wf f -> allowed OpCreate (partial dst e) = true ->
  file f (partial dst e) = Some (mkNode part mt) ->
  exists j' f', write' (mkBlock id (Z.of_nat k) d c) j f = (None, j', f') /\
    file f' (target dst e) = Some (mkNode part (final_mtime e)).
Proof.
  intros So En Ek Hd W Hc Fp.
  destruct (write_creates k e d c j f So En Ek Hd W Hc) as (j' & f' & _ & _ & E & _ & _ & _ & _ & _ & T).
  exists j', f'. split; [done|]. rewrite T.
  destruct (names f !! partial dst e) as [i|] eqn:Hp; [|by unfold file in Fp; rewrite Hp in Fp].
  by destruct (modify_time_final _ _ _ _ Hmod Hlen _ _ _ _ _ _ _ So En Ek W Hp Fp).
Qed.

(** Who panics: a request panics exactly when it is a confirmation for a job
    that names the index the job is at, with a positive offset, and that index is
    not one of the job's files.  The index comes from the peer, and nothing
    checks it before. *)
Theorem handle_fs_panics msg jobs f :
  handle_fs' msg (jobs, f) = None <->
  exists r i j, msg = FSConfirm r /\ get_job (r_id r) jobs = Some (i, j) /\
    file_num j = r_file_num r /\ (exists o, r_union r = Some (OffsetBlk o) /\ 0 < o) /\
    (exists p, data_source j = FilePath p) /\ entry_at (r_file_num r) j = None.
Proof.
  destruct msg as [| i | i n | i n e | i n d c | i n sz lm up re | r]; cbn [handle_fs].
  1: by split; [|intros (? & ? & ? & ? & _)].
  1-3: destruct (remove_job i jobs) as [[?|] ?]; (by split; [|intros (? & ? & ? & ? & _)]).
  1: destruct (get_job i jobs) as [[? ?]|]; [destruct (write _ _ _ _ _) as [[? ?] ?]|];
    (by split; [|intros (? & ? & ? & ? & _)]).
  1: destruct (get_job i jobs) as [[? ?]|]; (by split; [|intros (? & ? & ? & ? & _)]).
  destruct (get_job (r_id r) jobs) as [[i j]|] eqn:G.
  - pose proof (confirm_none allowed parse_digest r f j) as C.
    destruct (confirm allowed r f j) as [j'|]; cbn [mbind option_bind].
    + split; [done|]. intros (r' & i' & j2 & [= <-] & G' & Hrest). rewrite G in G'.
      injection G' as <- <-. by apply C in Hrest.
    + split; [|done]. intros _. exists r, i, j. destruct (proj1 C eq_refl) as (? & ? & ? & ?). done.
  - split; [done|]. intros (r' & i' & j2 & [= <-] & G' & _). by rewrite G in G'.
Qed.

(** Two requests of a peer are enough. *)
Lemma peer_panics path i n total conn detect jobs f :
  Forall (fun j => jid j <> i) jobs ->
  exists s, handle_fs' (NewWrite path i n [] detect total conn) (jobs, f) = Some (s, []) /\
    handle_fs' (FSConfirm (mkConfirm i n (Some (OffsetBlk 1)))) s = None.
Proof.
  intros Hi. eexists (_, f). split; [reflexivity|]. cbn [handle_fs r_id].
  assert (forall j, jid j = i -> get_job i (jobs ++ [j]) = Some (length jobs, j)) as G.
  { intros j Hj. unfold get_job. rewrite list_find_app_r.
    - simpl. rewrite decide_True by done. done.
    - apply list_find_None. done. }
  rewrite G by done. cbn [mbind option_bind].
  match goal with |- context [confirm ?a ?r ?f ?j] =>
    assert (confirm a r f j = None) as ->; [apply (confirm_none _ parse_digest)|done] end.
  split_and!; [done|by exists 1|by eexists|]. unfold entry_at.
  rewrite (proj2 (Z.ltb_ge _ _)); [done|]. apply wrap_range. lia.
Qed.

(** The first file that cannot be opened ends the upload.  While overwriting
    is detected, a tick of the client's timer at a file it cannot open sends an
    error and in the same tick reports the whole job as done, and forgets it,
    however many files are left. *)
Theorem open_error_ends_job resume src fc sched k e j :
  client_at id src ents resume (Some true) k j -> ents !! k = Some e ->
  open_file allowed (join src (fe_name e)) fc = None ->
  handle_read_jobs allowed sched fc [j] =
  ([], [MError id Io (Z.of_nat (S k)); MDone id (Z.of_nat (S k))]).
Proof.
  intros [Co En Hd Hc Hw] Ek Ho.
  set (j1 := with_file_is_waiting false (with_file_confirmed false
               (with_file_num (Z.of_nat (S k)) j))).
  assert (init_data_stream allowed fc j = (Err Io, j1)) as I.
  { unfold init_data_stream.
    rewrite (co_src _ _ _ _ _ _ Co), En, (client_entry_at _ _ _ Hlen _ _ _ _ _ Co Ek), Hd.
    cbn [is_none]. rewrite Ho. subst j1. do 4 f_equal.
    apply lookup_lt_Some in Ek. unfold zlen in Hlen.
    rewrite swrap_small by (unfold in_i; lia). lia. }
  assert (client_ok id src ents resume (Some true) j1) as Co1 by (by destruct Co).
  unfold handle_read_jobs. cbn [init_jobs]. rewrite (co_last _ _ _ _ _ _ Co), I. cbn [read_jobs].
  rewrite (co_last _ _ _ _ _ _ Co1). unfold read. rewrite (awaits_unconfirmed _ _ _ _ _ _ Co1). cbn.
  unfold job_completed, job_error, job_skipped. cbn.
  rewrite (co_skipped _ _ _ _ _ _ Co), (co_id _ _ _ _ _ _ Co), orb_true_r. cbn.
  by rewrite (co_id _ _ _ _ _ _ Co), Z.eqb_refl.
Qed.

End cases.

(** ** Resuming *)

Section resuming.
Context `{Zstd} (allowed : fsop -> string -> bool).
Context (digest_json : FileDigest -> bytes) (parse_digest : bytes -> option FileDigest).
Context (Hall : forall op p, allowed op p = true).
Context (Hz : forall d, zcompress d <> None).
Context (id : Z) (src dst : string) (ents : list FileEntry) (fc f : FS).
Context (Hsrc : forall e, e ∈ ents ->
  exists n, file fc (join src (fe_name e)) = Some n /\ 0 <= mtime n).
Context (Hlen : zlen ents < 2 ^ 31).

Lemma permitted op p : op <> OpCreate -> allowed op p = true.
Proof. intros _. apply Hall. Qed.

(** The server offers to go on where the partial file ends. *)
Lemma server_offers k e lm size text part ino mt js :
  server_ok id dst ents js -> ents !! k = Some e ->
  content f (note dst e) = Some text -> parse_digest text = Some (mkDigest size lm) ->
  names f !! partial dst e = Some ino -> file f (partial dst e) = Some (mkNode part mt) ->
  part <> [] ->
  handle_fs allowed digest_json parse_digest (CheckDigest id (Z.of_nat k) size lm true true)
    ([js], f) =
  Some ([with_digest (mkDigest size lm) js], f,
        [MDigest (mkFtd id (Z.of_nat k) lm size true true (zlen part) false)]).
Proof.
  intros So Ek Ht Hp Hn Fp Hne. cbn [handle_fs]. rewrite (get_job_one id js (so_id _ _ _ _ So)).
  unfold check_digest. destruct (server_entry_at _ _ _ Hlen _ _ _ So Ek) as (e0 & E0 & N0 & _).
  rewrite E0, (so_src _ _ _ _ So), N0. fold (target dst e).
  unfold is_write_need_confirmation. fold (note dst e). fold (partial dst e).
  assert (exists_file f (note dst e) = true) as ->.
  { apply bool_decide_eq_true. unfold content, file in Ht. by destruct (names f !! note dst e). }
  assert (exists_file f (partial dst e) = true) as ->.
  { apply bool_decide_eq_true. by rewrite Hn. }
  unfold content in Ht |- *. rewrite Ht. cbn [andb mbind option_bind]. rewrite Hp, Fp.
  cbn [fd_modified fd_size d_last_modified d_file_size d_id d_file_num mbind option_bind fmap
       option_fmap option_map FileSys.data].
  rewrite !Z.eqb_refl. cbn [andb].
  assert (0 < zlen part) as Hpos.
  { destruct part as [|b l]; [done|]. rewrite zlen_cons. pose proof (zlen_nonneg l). lia. }
  by rewrite (proj2 (Z.ltb_lt _ _) Hpos).
Qed.

Lemma client_resumes k e lm size n off ino jc :
  client_open id src ents fc true (Some true) k 0 false jc -> ents !! k = Some e ->
  names fc !! join src (fe_name e) = Some ino -> nodes fc !! ino = Some n ->
  exists_file fc (download_path (join src (fe_name e))) = false ->
  0 < off < 2 ^ 32 ->
  exists jc', client_on_message allowed fc
      (MDigest (mkFtd id (Z.of_nat k) lm size true true off false)) [jc] =
    Some ([jc'], [MConfirm (mkConfirm id (Z.of_nat k) (Some (OffsetBlk off)))]) /\
    client_open id src ents fc true (Some true) k off true jc'.
Proof.
  intros [Co En (ino' & n' & Hd & Hi & Dn) Hc] Ek Hn Hi2 Hx Ho.
  cbn [client_on_message d_is_upload]. unfold client_digest.
  cbn [d_id d_file_num d_is_identical d_transferred_size].
  rewrite (get_job_one id jc (co_id _ _ _ _ _ _ Co)).
  rewrite (client_entry_at _ _ _ Hlen _ _ _ _ _ Co Ek), (co_src _ _ _ _ _ _ Co), (co_resume _ _ _ _ _ _ Co).
  rewrite (proj2 (Z.ltb_lt _ _)) by lia. cbn [andb]. rewrite wrap_small by (unfold in_u; lia).
  unfold confirm. cbn [r_file_num r_union]. rewrite En, Z.eqb_refl. cbn [negb].
  rewrite (proj2 (Z.ltb_lt 0 off)) by lia.
  assert (client_ok id src ents true (Some true) (set_file_confirmed true jc)) as Co1 by (by destruct Co).
  unfold set_stream_offset.
  rewrite (co_src _ _ _ _ _ _ Co1), (client_entry_at _ _ _ Hlen _ _ _ _ _ Co1 Ek), Hx.
  assert (exists_file fc (join src (fe_name e)) = true) as ->.
  { apply bool_decide_eq_true. by rewrite Hn. }
  unfold open_file. rewrite Hall, Hn. cbn [andb mbind option_bind]. eexists. split; [reflexivity|].
  split; try done; [by destruct Co1|]. exists ino, n. split_and!; [done|done|].
  unfold source_data. rewrite Ek. cbn [mbind option_bind]. unfold content.
  rewrite (file_name _ _ _ Hn), Hi2. done.
Qed.

Lemma server_resumes k e off ino js :
  server_ok id dst ents js -> file_num js = Z.of_nat k -> ents !! k = Some e ->
  names f !! partial dst e = Some ino -> exists_file f (note dst e) = true -> 0 < off ->
  exists js', handle_fs allowed digest_json parse_digest
      (FSConfirm (mkConfirm id (Z.of_nat k) (Some (OffsetBlk off)))) ([js], f) =
    Some ([js'], f, []) /\
    server_ok id dst ents js' /\ file_num js' = Z.of_nat k /\
    data_stream js' = Some (FileStream ino off true).
Proof.
  intros So En Ek Hn Hx Ho. cbn [handle_fs r_id].
  rewrite (get_job_one id js (so_id _ _ _ _ So)). unfold confirm. cbn [r_file_num r_union].
  rewrite En, Z.eqb_refl. cbn [negb]. rewrite (proj2 (Z.ltb_lt _ _) Ho).
  assert (server_ok id dst ents (set_file_confirmed true js)) as So1 by (by destruct So).
  unfold set_stream_offset.
  destruct (server_entry_at _ _ _ Hlen _ _ _ So1 Ek) as (e0 & E0 & N0 & _).
  rewrite (so_src _ _ _ _ So1), E0, N0. fold (target dst e). fold (note dst e). fold (partial dst e).
  rewrite Hx. assert (exists_file f (partial dst e) = true) as ->.
  { apply bool_decide_eq_true. by rewrite Hn. }
  unfold open_write. rewrite Hall, Hn. cbn [andb mbind option_bind]. eexists.
  split; [reflexivity|]. split_and!; try done. by destruct So1.
Qed.

(** Resuming completes the file.  The job is resumed at file [k], whose
    predecessors have arrived; the server still has a partial file that is a
    beginning of the source, with a digest file that has the source's size and
    modification time.  Then after one round both sides stand at the end of the
    partial file, and after the blocks of the rest (and not more) the partial file
    has all of the source and the client goes on to the next file. *)
Theorem resume_completes k e text part ino mt n jc js s1 scheds :
  wf f -> separate dst ents -> finished src dst ents fc k f ->
  (forall e n, e ∈ ents -> file f (target dst e) = Some n -> 0 <= mtime n) ->
  client_at id src ents true (Some true) k jc -> server_ok id dst ents js -> file_num js = Z.of_nat k ->
  ents !! k = Some e -> file fc (join src (fe_name e)) = Some n ->
  exists_file fc (download_path (join src (fe_name e))) = false ->
  content f (note dst e) = Some text ->
  parse_digest text = Some (mkDigest (zlen (data n)) (mtime n / 1000000000)) ->
  names f !! partial dst e = Some ino -> file f (partial dst e) = Some (mkNode part mt) ->
  part `prefix_of` data n -> 0 < zlen part < 2 ^ 32 ->
  no_error scheds -> length scheds = S (blocks (zlen (data n) - zlen part)) ->
  exists jc' js' f',
    rounds allowed digest_json parse_digest (s1 :: scheds) fc [jc] ([js], f) =
      Some ([jc'], ([js'], f')) /\
    client_at id src ents true (Some true) (S k) jc' /\
    content f' (partial dst e) = Some (data n).
Proof.
  intros W Hsep Hfin Hm0 Ca So En Ek Fn Hx Ht Hp Hn Fp Hpre Hpos Hs HL.
  destruct (tick_ask allowed id src ents fc permitted Hsrc Hlen true (Some true) s1 k e jc Ca Ek)
    as (jc1 & n' & Fn' & T & Cs).
  rewrite Fn in Fn'. injection Fn' as <-.
  assert (part <> []) as Hne by (intros ->; change (zlen (@nil Init.Byte.byte)) with 0 in Hpos; lia).
  pose proof (server_offers k e _ _ _ _ _ _ _ So Ek Ht Hp Hn Fp Hne) as E1.
  set (js1 := with_digest (mkDigest (zlen (data n)) (mtime n / 1000000000)) js) in *.
  assert (server_ok id dst ents js1) as So1 by (by destruct So).
  unfold file in Fn. destruct (names fc !! join src (fe_name e)) as [cino|] eqn:Hcn; [|done].
  destruct (client_resumes k e (mtime n / 1000000000) (zlen (data n)) n (zlen part) cino jc1 Cs Ek
    Hcn Fn Hx Hpos) as (jc2 & E2 & Cs2).
  assert (exists_file f (note dst e) = true) as Hnote.
  { apply bool_decide_eq_true. unfold content, file in Ht. by destruct (names f !! note dst e). }
  destruct (server_resumes k e (zlen part) ino js1 So1 En Ek Hn Hnote ltac:(lia))
    as (js2 & E3 & So2 & En2 & Hd2).
  assert (round allowed digest_json parse_digest s1 fc [jc] ([js], f) = Some ([jc2], ([js2], f))) as R.
  { unfold round. rewrite T.
    cbn [to_server server_forward d_id d_file_num d_file_size d_last_modified d_is_resume].
    rewrite E1. cbn [mbind option_bind app to_client]. rewrite E2. cbn [mbind option_bind app].
    cbn [to_server server_forward]. by rewrite E3. }
  assert (source_data src ents fc k = data n) as SD.
  { unfold source_data. rewrite Ek. cbn [mbind option_bind]. unfold content.
    rewrite (file_name _ _ _ Hcn). cbn [mbind option_bind] in Fn. by rewrite Fn. }
  assert (at_file id src dst ents fc f k part js2 f) as A.
  { split; try done. by exists e, ino, mt. }
  destruct Hpre as [rest Hrest].
  assert (zlen part <= zlen (data n)) as Hle.
  { rewrite Hrest, zlen_app. pose proof (zlen_nonneg rest). lia. }
  cbn [rounds]. rewrite R. cbn [mbind option_bind].
  destruct (run_blocks allowed digest_json parse_digest id src dst ents fc f permitted (Hall _) Hz
    Hsrc W Hm0 Hsep Hlen true (Some true) k e scheds (zlen part) jc2 js2 f Ek Hs Cs2)
    as (jc3 & js3 & f3 & R3 & Ca3 & B3).
  - right. rewrite SD, Hrest. unfold zlen. rewrite Nat2Z.id, take_app_length. done.
  - rewrite SD. lia.
  - by rewrite SD.
  - exists jc3, js3, f3. split_and!; [done|done|].
    destruct (af_open _ _ _ _ _ _ _ _ _ _ B3) as (e' & ino3 & m3 & Ek' & _ & _ & F3).
    rewrite Ek in Ek'. injection Ek' as <-. unfold content. rewrite F3. simpl. by rewrite SD.
Qed.

End resuming.

Section names.
Context `{Zstd} (allowed : fsop -> string -> bool).
Context (digest_json : FileDigest -> bytes) (parse_digest : bytes -> option FileDigest).
Context (Hall : forall op p, allowed op p = true).

(** The peer chooses where a file is written: the destination a user chose
    does not limit the names of the files.  Three requests write any content under
    any absolute path the process may write to. *)
Theorem absolute_name_escapes dst rest i mt d c total conn detect f :
  let name := String "/"%char rest in
  wf f ->
  exists s1 s2 f',
    handle_fs allowed digest_json parse_digest
      (NewWrite dst i 0 [(name, mt)] detect total conn) ([], f) = Some (s1, []) /\
    handle_fs allowed digest_json parse_digest (WriteBlock i 0 d c) s1 = Some (s2, []) /\
    handle_fs allowed digest_json parse_digest (WriteDone i 1) s2 = Some ([], f', [MDone i 1]) /\
    content f' name = Some (unshrink (d, c)).
Proof.
  intros name W. set (e := mkEntry name 0 mt).
  assert (forall op p, op <> OpCreate -> allowed op p = true) as Hmod by auto.
  set (j := set_total total conn (new_write i Generic "" (FilePath dst) 0 false false [e] detect)).
  assert (server_ok i dst [e] j) as So by done.
  destruct (write_creates allowed digest_json Hmod i dst [e] eq_refl 0 e d c j f So eq_refl eq_refl
    eq_refl W (Hall _ _)) as (j' & f' & ino & t & E & So' & En & W' & Hp & Fp & _).
  destruct (modify_time_final allowed i dst [e] Hmod eq_refl j' 0 e f' ino _ t So' En eq_refl W' Hp Fp)
    as (T & _).
  change (Z.of_nat 0) with 0 in E.
  exists ([j], f), ([j'], f'), (modify_time allowed j' f'). split_and!.
  - done.
  - cbn [handle_fs]. rewrite (get_job_one i j) by done. by rewrite E.
  - cbn [handle_fs remove_job]. by rewrite (so_id _ _ _ _ So'), Z.eqb_refl.
  - change name with (target dst e). unfold content. by rewrite T.
Qed.

End names.
(** ** Witnesses *)

Module Cases.
#[local] Existing Instance zstd_store.

Definition ents : list FileEntry := [mkEntry "a" 2 5; mkEntry "b" 1 6].
Definition sentries : list FileEntry := server_entry <$> ents.

(** Everything is permitted but creating the partial file of [b]. *)
Definition no_b (op : fsop) (p : string) : bool :=
  match op with OpCreate => negb (bool_decide (p = "d/b.download"%string)) | _ => true end.
Definition yes (op : fsop) (p : string) : bool := true.
Definition json (d : FileDigest) : bytes := [].
Definition parse (b : bytes) : option FileDigest := Some (mkDigest 2 5).

Definition job (n : Z) (s : option DataStream) : TransferJob :=
  with_data_stream s (new_write 7 Generic "" (FilePath "d") n false false sentries true).

(** A partial [a], and its digest file. *)
Definition receiver : FS :=
  mkFS {["d/a.download"%string := 0%nat; "d/a.digest"%string := 1%nat]}
    [mkNode [Byte.x61] 1; mkNode [] 1] 9.

Definition sender : FS :=
  mkFS {["s/a"%string := 0%nat; "s/b"%string := 1%nat]}
    [mkNode [Byte.x61; Byte.x62] 5000000000; mkNode [Byte.x63] 6000000000] 0.

Definition reader (resume : bool) : TransferJob :=
  with_is_resume resume (with_default_overwrite_strategy (Some true)
    (empty_job 7 Generic "d" (FilePath "s") 0 false false ents 3 true)).

Lemma receiver_wf : wf receiver.
Proof.
  split.
  - intros p i Hp. apply (elem_of_map_to_list (M := gmap string)) in Hp.
    vm_compute in Hp. apply list_elem_of_In in Hp. simpl in Hp. destruct Hp as [E|[E|[]]];
      injection E as <- <-; simpl; lia.
  - intros p q i Hp Hq. apply (elem_of_map_to_list (M := gmap string)) in Hp, Hq.
    vm_compute in Hp, Hq. apply list_elem_of_In in Hp, Hq. simpl in Hp, Hq.
    intuition congruence.
Qed.

End Cases.

Lemma failed_create_corrupts_previous_witness :
  exists j1 f1 j2 f2,
    @write zstd_store Cases.no_b Cases.json (mkBlock 7 1 [Byte.x63] false)
      (Cases.job 0 (Some (FileStream 0 1 true))) Cases.receiver = (Some Io, j1, f1) /\
    content f1 "d/a" = Some [Byte.x61] /\
    @write zstd_store Cases.no_b Cases.json (mkBlock 7 1 [Byte.x63] false) j1 f1 = (None, j2, f2) /\
    content f2 "d/a" = Some [Byte.x61; Byte.x63].
Proof.
  apply (@failed_create_corrupts_previous zstd_store Cases.no_b Cases.json) with (id := 7)
    (dst := "d"%string) (ents := Cases.ents) (k := 0%nat) (m := 1%nat) (e := mkEntry "a" 2 5)
    (e' := mkEntry "b" 1 6) (ino := 0%nat) (mt := 1) (part := [Byte.x61]) (c2 := false); try reflexivity.
  - intros [] p N; [done|reflexivity..].
  - done.
  - done.
  - intros E. vm_compute in E. discriminate E.
  - apply Cases.receiver_wf.
Defined.

Lemma leftover_promoted_witness :
  exists j' f', @write zstd_store Cases.yes Cases.json (mkBlock 7 0 [Byte.x63] false)
      (Cases.job 0 None) Cases.receiver = (None, j', f') /\
    file f' "d/a" = Some (mkNode [Byte.x61] 5000000000).
Proof.
  apply (@leftover_promoted zstd_store Cases.yes Cases.json) with (id := 7) (dst := "d"%string)
    (ents := Cases.ents) (k := 0%nat) (e := mkEntry "a" 2 5) (mt := 1); try reflexivity.
  - done.
  - apply Cases.receiver_wf.
Defined.

Lemma open_error_ends_job_witness :
  @handle_read_jobs zstd_store Cases.yes [] (mkFS ∅ [] 0) [Cases.reader false] =
  ([], [MError 7 Io 1; MDone 7 1]).
Proof.
  apply (@open_error_ends_job zstd_store Cases.yes) with (resume := false)
    (src := "s"%string) (ents := Cases.ents) (k := 0%nat) (e := mkEntry "a" 2 5); try reflexivity.
  by split.
Defined.

Lemma absolute_name_escapes_witness :
  exists s1 s2 f',
    @handle_fs zstd_store Cases.yes Cases.json Cases.parse
      (NewWrite "/home/u/Downloads" 7 0 [("/home/u/.profile"%string, 5)] true 1 1)
      ([], Cases.receiver) = Some (s1, []) /\
    @handle_fs zstd_store Cases.yes Cases.json Cases.parse (WriteBlock 7 0 [Byte.x63] false) s1 =
      Some (s2, []) /\
    @handle_fs zstd_store Cases.yes Cases.json Cases.parse (WriteDone 7 1) s2 =
      Some ([], f', [MDone 7 1]) /\
    content f' "/home/u/.profile" = Some [Byte.x63].
Proof.
  apply (@absolute_name_escapes zstd_store Cases.yes Cases.json Cases.parse); [done|].
  apply Cases.receiver_wf.
Defined.

Lemma resume_completes_witness :
  exists jc' js' f',
    @rounds zstd_store Cases.yes Cases.json Cases.parse [[]; []; []] Cases.sender
      [Cases.reader true] ([Cases.job 0 None], Cases.receiver) = Some ([jc'], ([js'], f')) /\
    client_at 7 "s" Cases.ents true (Some true) 1 jc' /\
    content f' "d/a.download" = Some [Byte.x61; Byte.x62].
Proof.
  apply (@resume_completes zstd_store Cases.yes Cases.json Cases.parse) with (id := 7)
    (src := "s"%string) (dst := "d"%string) (ents := Cases.ents) (k := 0%nat)
    (e := mkEntry "a" 2 5) (text := []) (part := [Byte.x61]) (ino := 0%nat) (mt := 1)
    (n := mkNode [Byte.x61; Byte.x62] 5000000000); try reflexivity.
  - intros d [=].
  - intros e He. apply list_elem_of_In in He. destruct He as [<-|[<-|[]]];
      eexists; (split; [vm_compute; reflexivity|done]).
  - apply Cases.receiver_wf.
  - intros i j e e' q Hi Hj Q1%list_elem_of_In Q2%list_elem_of_In.
    destruct i as [|[|i]], j as [|[|j]]; try done; simpl in Hi, Hj; simplify_eq; exfalso;
      vm_compute in Q1, Q2; intuition congruence.
  - intros i e Hi. lia.
  - intros e n He Hf. exfalso. apply list_elem_of_In in He.
    destruct He as [<-|[<-|[]]]; vm_compute in Hf; discriminate Hf.
  - by split.
  - done.
  - by exists [Byte.x62].
  - done.
  - repeat constructor; intros Q%list_elem_of_In; simpl in Q; intuition congruence.
Defined.
