(* ===== verification/Paths.v ===== *)
(** * Paths

    The part of [std::path] on Unix that the clipboard files use.  A path is
    compared by its components, so it is modelled as them: repeated slashes, and
    [.] anywhere but at the front of a relative path, are dropped when a string
    is parsed. *)

From Stdlib Require Import Ascii.
From S2P Require Import Prelude.

Record Path : Type := mkPath { absolute : bool; components : list string }.

#[export] Instance Path_eq_dec : EqDecision Path.
Proof. solve_decision. Defined.

#[export] Instance Path_countable : Countable Path.
Proof.
  refine (inj_countable' (fun p => (absolute p, components p))
    (fun t => let '(a, l) := t in mkPath a l) _).
  by intros [].
Defined.

(** The pieces between the slashes of a string; [cur] is the piece that is being
    read, reversed. *)
Fixpoint split_slash (cur : list ascii) (l : list ascii) : list (list ascii) :=
  match l with
  | [] => [rev cur]
  | c :: l => if Ascii.eqb c "/"%char then rev cur :: split_slash [] l
              else split_slash (c :: cur) l
  end.

Definition piece (l : list ascii) : string := String.string_of_list_ascii l.

Definition is_dot (s : string) : bool := bool_decide (s = "."%string).
Definition is_nil (s : string) : bool := bool_decide (s = ""%string).

(** [Path::components]. *)
Definition parse_path (s : string) : Path :=
  let l := String.list_ascii_of_string s in
  let pieces := piece <$> split_slash [] l in
  let abs := match l with c :: _ => Ascii.eqb c "/"%char | [] => false end in
  let kept := List.filter (fun p => negb (is_nil p) && negb (is_dot p)) pieces in
  match pieces with
  | p :: _ => mkPath abs (if is_dot p then p :: kept else kept)
  | [] => mkPath abs kept
  end.

Definition join_slash (l : list string) : string := String.concat "/" l.

(** The string of a path that was put together from components. *)
Definition display (p : Path) : string :=
  ((if absolute p then "/" else "") +:+ join_slash (components p))%string.

(** [Path::parent]: none for the root and the empty path. *)
Definition parent (p : Path) : option Path :=
  match components p with
  | [] => None
  | _ => Some (mkPath (absolute p) (removelast (components p)))
  end.

(** [Path::file_name]: the last component, unless it is [.] or [..]. *)
Definition file_name (p : Path) : option string :=
  s ← last (components p);
  if is_dot s || bool_decide (s = ".."%string) then None else Some s.

Fixpoint strip_comps (root l : list string) : option (list string) :=
  match root, l with
  | [], l => Some l
  | r :: root, c :: l => if decide (r = c) then strip_comps root l else None
  | _ :: _, [] => None
  end.

(** [Path::strip_prefix]. *)
Definition strip_prefix (p root : Path) : option Path :=
  if decide (absolute p = absolute root)
  then mkPath false <$> strip_comps (components root) (components p)
  else None.

(** ** Parsing what [display] wrote *)

Definition plain_char (c : ascii) : bool := negb (Ascii.eqb c "/"%char).

(** A component that a path may have anywhere. *)
Definition plain (s : string) : bool :=
  negb (is_nil s) && negb (is_dot s) && forallb plain_char (String.list_ascii_of_string s).

Lemma list_ascii_app s t :
  String.list_ascii_of_string (s +:+ t) =
  String.list_ascii_of_string s ++ String.list_ascii_of_string t.
Proof. induction s as [|c s IH]; simpl; [done|]. by rewrite IH. Qed.

Lemma split_plain cur l rest :
  forallb plain_char l = true ->
  split_slash cur (l ++ "/"%char :: rest) = (rev cur ++ l) :: split_slash [] rest.
Proof.
  revert cur. induction l as [|c l IH]; intros cur P; simpl in *; [by rewrite app_nil_r|].
  apply andb_true_iff in P as [Pc P]. unfold plain_char in Pc.
  destruct (Ascii.eqb c "/"%char); [done|]. rewrite IH by done. simpl.
  by rewrite <- app_assoc.
Qed.

Lemma split_plain_end cur l :
  forallb plain_char l = true -> split_slash cur l = [rev cur ++ l].
Proof.
  revert cur. induction l as [|c l IH]; intros cur P; simpl in *; [by rewrite app_nil_r|].
  apply andb_true_iff in P as [Pc P]. unfold plain_char in Pc.
  destruct (Ascii.eqb c "/"%char); [done|]. rewrite IH by done. simpl.
  by rewrite <- app_assoc.
Qed.

Lemma plain_chars s : plain s = true -> forallb plain_char (String.list_ascii_of_string s) = true.
Proof. unfold plain. by intros [_ H]%andb_true_iff. Qed.

Lemma split_join l :
  l <> [] -> Forall (fun s => plain s = true) l ->
  piece <$> split_slash [] (String.list_ascii_of_string (join_slash l)) = l.
Proof.
  unfold join_slash, piece. induction l as [|s l IH]; intros N P; [done|].
  apply Forall_cons in P as [Ps P]. destruct l as [|t l].
  - cbn [String.concat]. rewrite split_plain_end by (by apply plain_chars). simpl.
    by rewrite String.string_of_list_ascii_of_string.
  - cbn [String.concat]. rewrite !list_ascii_app. cbn [String.list_ascii_of_string app].
    rewrite split_plain by (by apply plain_chars). cbn [fmap list_fmap rev app].
    rewrite String.string_of_list_ascii_of_string. f_equal. by apply IH.
Qed.

Lemma plain_kept l :
  Forall (fun s => plain s = true) l ->
  List.filter (fun p => negb (is_nil p) && negb (is_dot p)) l = l.
Proof.
  induction 1 as [|s l Ps _ IH]; [done|]. simpl. unfold plain in Ps.
  apply andb_true_iff in Ps as [-> _]. by rewrite IH.
Qed.

Lemma head_not_slash l s :
  plain s = true ->
  match String.list_ascii_of_string (join_slash (s :: l)) with
  | c :: _ => Ascii.eqb c "/"%char | [] => false end = false.
Proof.
  intros P. unfold join_slash, plain in *. destruct s as [|c s]; [done|].
  assert (plain_char c = true) as Pc.
  { rewrite !andb_true_iff in P. destruct P as [_ P]. simpl in P.
    apply andb_true_iff in P as [Pc _]. exact Pc. }
  unfold plain_char in Pc. destruct l; simpl; by destruct (Ascii.eqb c "/"%char).
Qed.

Lemma parse_display p :
  Forall (fun s => plain s = true) (components p) -> parse_path (display p) = p.
Proof.
  destruct p as [abs l]. simpl. intros P. unfold display. simpl.
  destruct (decide (l = [])) as [->|N]; [by destruct abs|].
  unfold parse_path. destruct abs; [simpl|cbv zeta].
  - change (list_fmap _ _ piece (split_slash [] (String.list_ascii_of_string ("" +:+ join_slash l))))
      with (piece <$> split_slash [] (String.list_ascii_of_string (join_slash l))).
    rewrite (split_join l N P). by rewrite (plain_kept l P).
  - change (""%string +:+ join_slash l) with (join_slash l).
    rewrite (split_join l N P), (plain_kept l P). destruct l as [|s l]; [done|].
    apply Forall_cons in P as [Ps P]. rewrite (head_not_slash l s Ps).
    assert (is_dot s = false) as ->; [|done].
    unfold plain in Ps. destruct (is_dot s); [|done]. by rewrite andb_false_r in Ps.
Qed.
