(* ===== verification/FileDesc.v ===== *)
(** * File descriptors on the clipboard

    [libs/clipboard/src/platform/unix]: the list of the files that were copied is
    sent as records of 592 bytes, in the format of the Windows clipboard
    ([local_file.rs]), and parsed by the other side ([filetype.rs]).  The UTF-16
    conversions are a library's; the interface states that padding is decoded to
    as many NULs.  Times are in nanoseconds since 1970. *)

From Stdlib Require Import Ascii.
From S2P Require Import Prelude Paths.

(** A NUL-padded name. *)
Fixpoint nuls (n : nat) : string :=
  match n with O => ""%string | S n => String "000"%char (nuls n) end.

Class Utf16 : Type := {
  utf16_encode : string -> bytes;
  utf16_decode : bytes -> option string;
  utf16_even : forall s, exists n, length (utf16_encode s) = (2 * n)%nat;
  utf16_padded : forall s n,
    utf16_decode (utf16_encode s ++ replicate (2 * n) Byte.x00) = Some (s +:+ nuls n)%string;
}.

(* src/libs/clipboard/src/platform/unix/filetype.rs:17-23 FileType *)
Inductive FileType : Type := File | Directory | Symlink.

#[export] Instance FileType_eq_dec : EqDecision FileType.
Proof. solve_decision. Defined.

(** File modes in decimal: 0o444, 0o644, 0o400 and 0o755. *)
(* src/libs/clipboard/src/platform/unix/filetype.rs:26-26 PERM_READ *)
Definition PERM_READ : Z := 292.
(* src/libs/clipboard/src/platform/unix/filetype.rs:28-28 PERM_RW *)
Definition PERM_RW : Z := 420.
(* src/libs/clipboard/src/platform/unix/filetype.rs:30-30 PERM_SELF_RO *)
Definition PERM_SELF_RO : Z := 256.
(* src/libs/clipboard/src/platform/unix/filetype.rs:32-32 PERM_RWX *)
Definition PERM_RWX : Z := 493.
(* src/libs/clipboard/src/platform/unix/filetype.rs:35-35 MAX_NAME_LEN *)
Definition MAX_NAME_LEN : Z := 255.

(* src/libs/clipboard/src/platform/unix/mod.rs:18-18 FLAGS_FD_ATTRIBUTES *)
Definition FLAGS_FD_ATTRIBUTES : Z := 0x04.
(* src/libs/clipboard/src/platform/unix/mod.rs:20-20 FLAGS_FD_SIZE *)
Definition FLAGS_FD_SIZE : Z := 0x40.
(* src/libs/clipboard/src/platform/unix/mod.rs:22-22 FLAGS_FD_LAST_WRITE *)
Definition FLAGS_FD_LAST_WRITE : Z := 0x20.
(* src/libs/clipboard/src/platform/unix/mod.rs:24-24 FLAGS_FD_PROGRESSUI *)
Definition FLAGS_FD_PROGRESSUI : Z := 0x4000.
(* src/libs/clipboard/src/platform/unix/mod.rs:27-27 FLAGS_FD_UNIX_MODE *)
Definition FLAGS_FD_UNIX_MODE : Z := 0x08.
(* src/libs/clipboard/src/platform/unix/mod.rs:36-36 BLOCK_SIZE *)
Definition BLOCK_SIZE : Z := 4 * 1024 * 1024.
(* src/libs/clipboard/src/platform/unix/mod.rs:40-40 LDAP_EPOCH_DELTA *)
Definition LDAP_EPOCH_DELTA : Z := 116444772610000000.

Inductive CliprdrError : Type :=
| ConversionFailure
| InvalidRequest (description : string)
| FileError (path : Path).

(* src/libs/clipboard/src/platform/unix/filetype.rs:37-48 FileDescription *)
Record FileDescription : Type := mkDesc {
  fd_conn_id : Z;
  fd_name : Path;
  fd_kind : FileType;
  fd_atime : Z;
  fd_last_modified : Z;
  fd_last_metadata_changed : Z;
  fd_creation_time : Z;
  fd_size : Z;
  fd_perm : Z;
}.

(** The handle is modelled in [ClipFiles]. *)
(* src/libs/clipboard/src/platform/unix/local_file.rs:24-42 LocalFile *)
Record LocalFile : Type := mkLocal {
  relative_root : Path;
  lf_path : Path;
  lf_name : string;
  lf_size : Z;
  last_write_time : Z;
  is_dir : bool;
  lf_perm : Z;
  read_only : bool;
  hidden : bool;
  system : bool;
  archive : bool;
  normal : bool;
}.

Section descriptors.
Context `{Utf16}.

(** ** Writing *)

Definition flag (b : bool) (v : Z) : Z := if b then v else 0.

Definition file_attributes (f : LocalFile) : Z :=
  Z.lor (Z.lor (Z.lor (Z.lor (Z.lor (flag (read_only f) 0x1) (flag (hidden f) 0x2))
    (flag (system f) 0x4)) (flag (is_dir f) 0x10)) (flag (archive f) 0x20))
    (flag (normal f) 0x80).

Definition win32_time (f : LocalFile) : Z :=
  u64 (u64 (Z.max 0 (last_write_time f)) / 100 + LDAP_EPOCH_DELTA).

(** The path that is sent. *)
Definition sent_path (f : LocalFile) : string :=
  display (default (lf_path f) (strip_prefix (lf_path f) (relative_root f))).

(** [None] is a panic: the padding of a name longer than its field is as long as
    no vector can be. *)
(* src/libs/clipboard/src/platform/unix/local_file.rs:88-166 LocalFile::as_bin *)
Definition as_bin (f : LocalFile) : option bytes :=
  let size_high := u32 (Z.shiftr (lf_size f) 32) in
  let size_low := u32 (Z.land (lf_size f) (2 ^ 32 - 1)) in
  let name := utf16_encode (sent_path f) in
  let flags := Z.lor (Z.lor (Z.lor (Z.lor FLAGS_FD_SIZE FLAGS_FD_LAST_WRITE)
    FLAGS_FD_ATTRIBUTES) FLAGS_FD_PROGRESSUI) FLAGS_FD_UNIX_MODE in
  let buf := put_u32_le flags ++ replicate 32 Byte.x00 ++ put_u32_le (file_attributes f) ++
    replicate 12 Byte.x00 ++ put_u32_le (lf_perm f) ++ put_u64_le (win32_time f) ++
    put_u32_le size_high ++ put_u32_le size_low in
  if 520 <? zlen name then None
  else Some (buf ++ name ++ replicate (520 - length name) Byte.x00).

Fixpoint as_bins (fs : list LocalFile) : option bytes :=
  match fs with
  | [] => Some []
  | f :: fs => b ← as_bin f; bs ← as_bins fs; Some (b ++ bs)
  end.

(* src/libs/clipboard/src/platform/unix/serv_files.rs:64-71 ClipFiles::build_file_list_pdu *)
Definition build_file_list_pdu (fs : list LocalFile) : option bytes :=
  bs ← as_bins fs; Some (put_u32_le (u32 (zlen fs)) ++ bs).

(** ** Parsing *)

(** [Buf::get_u32_le] and so on, where enough is left. *)
Definition get_le (n : nat) (b : bytes) : Z * bytes := (le_combine (take n b), drop n b).
Definition get_u32_le (b : bytes) : Z * bytes := get_le 4 b.
Definition get_u64_le (b : bytes) : Z * bytes := get_le 8 b.

Fixpoint backslash_to_slash (s : string) : string :=
  match s with
  | EmptyString => EmptyString
  | String c s => String (if Ascii.eqb c "\"%char then "/"%char else c) (backslash_to_slash s)
  end.

Fixpoint trim_nuls (s : string) : string :=
  match s with
  | EmptyString => EmptyString
  | String c s =>
      let s := trim_nuls s in
      if Ascii.eqb c "000"%char && bool_decide (s = ""%string) then ""%string else String c s
  end.

Definition parse_perm (from_unix normal readonly hidden directory : bool) (perm : Z) : Z :=
  if from_unix then perm
  else if normal then PERM_RWX
  else if readonly then PERM_READ
  else if hidden then PERM_SELF_RO
  else if directory then PERM_RWX
  else PERM_RW.

(* src/libs/clipboard/src/platform/unix/filetype.rs:51-154 FileDescription::parse_file_descriptor *)
Definition parse_file_descriptor (b : bytes) (conn_id : Z)
    : result CliprdrError FileDescription * bytes :=
  let '(flags, b) := get_u32_le b in
  let b := drop 32 b in
  let '(attributes, b) := get_u32_le b in
  let b := drop 12 b in
  let '(perm, b) := get_u32_le b in
  let perm := u16 perm in
  let '(last_write_time, b) := get_u64_le b in
  let '(file_size_high, b) := get_u32_le b in
  let '(file_size_low, b) := get_u32_le b in
  let block := take 520 b in
  let b := drop 520 b in
  match utf16_decode block with
  | None => (Err ConversionFailure, b)
  | Some wstr =>
      let from_unix := negb (Z.land flags FLAGS_FD_UNIX_MODE =? 0) in
      let valid_attributes := negb (Z.land flags FLAGS_FD_ATTRIBUTES =? 0) in
      if negb valid_attributes
      then (Err (InvalidRequest "file description must have valid attributes"), b)
      else
        let directory := negb (Z.land attributes 0x10 =? 0) in
        let normal := attributes =? 0x80 in
        let hidden := negb (Z.land attributes 0x02 =? 0) in
        let readonly := negb (Z.land attributes 0x01 =? 0) in
        let perm := parse_perm from_unix normal readonly hidden directory perm in
        let kind := if directory then Directory else File in
        let size := u64 (Z.shiftl file_size_high 32 + file_size_low) in
        let valid_write_time := negb (Z.land flags FLAGS_FD_LAST_WRITE =? 0) in
        let last_modified :=
          if valid_write_time && (LDAP_EPOCH_DELTA <=? last_write_time)
          then u64 ((last_write_time - LDAP_EPOCH_DELTA) * 100) else 0 in
        let name := parse_path (trim_nuls (backslash_to_slash wstr)) in
        (Ok (mkDesc conn_id name kind last_modified last_modified last_modified last_modified
               size perm), b)
  end.

Fixpoint parse_descriptors (count : nat) (data : bytes) (conn_id : Z)
    : result CliprdrError (list FileDescription) :=
  match count with
  | O => Ok []
  | S count =>
      match parse_file_descriptor data conn_id with
      | (Err e, _) => Err e
      | (Ok d, data) => ds ← parse_descriptors count data conn_id; Ok (d :: ds)
      end
  end.

(* src/libs/clipboard/src/platform/unix/filetype.rs:158-187 FileDescription::parse_file_descriptors *)
Definition parse_file_descriptors (pdu : bytes) (conn_id : Z)
    : result CliprdrError (list FileDescription) :=
  if zlen pdu <? 4
  then Err (InvalidRequest "file descriptor request with infficient length")
  else
    let '(count, data) := get_u32_le pdu in
    if (zlen data =? 0) && (count =? 0) then Ok []
    else if negb (zlen data =? 592 * count)
    then Err (InvalidRequest "file descriptor request with invalid length")
    else parse_descriptors (Z.to_nat count) data conn_id.

(** ** What is written is read back *)

Lemma get_put n z rest :
  get_le n (le_split n z ++ rest) = (z mod 2 ^ (Z.of_nat n * 8), rest).
Proof.
  unfold get_le. rewrite take_app_le_split, drop_app_le_split. f_equal. apply le_combine_split.
Qed.

Lemma get_put_u32 z rest : get_u32_le (put_u32_le z ++ rest) = (u32 z, rest).
Proof. apply get_put. Qed.

Lemma get_put_u64 z rest : get_u64_le (put_u64_le z ++ rest) = (u64 z, rest).
Proof. apply get_put. Qed.

Lemma drop_zeros n rest : drop n (replicate n Byte.x00 ++ rest) = rest.
Proof. by rewrite drop_app_length' by (by rewrite length_replicate). Qed.

(** Characters that survive the conversions of names. *)
Definition safe_char (c : ascii) : bool :=
  negb (Ascii.eqb c "\"%char) && negb (Ascii.eqb c "000"%char).

Definition safe (s : string) : Prop :=
  Forall (fun c => safe_char c = true) (String.list_ascii_of_string s).

Lemma backslash_app s t :
  backslash_to_slash (s +:+ t) = (backslash_to_slash s +:+ backslash_to_slash t)%string.
Proof. induction s as [|c s IH]; simpl; [done|]. by rewrite IH. Qed.

Lemma backslash_nuls n : backslash_to_slash (nuls n) = nuls n.
Proof. induction n as [|n IH]; simpl; [done|]. by rewrite IH. Qed.

Lemma trim_nuls_nuls n : trim_nuls (nuls n) = ""%string.
Proof. induction n as [|n IH]; simpl; [done|]. by rewrite IH. Qed.

Lemma trim_nuls_app s n : trim_nuls (s +:+ nuls n) = trim_nuls s.
Proof. induction s as [|c s IH]; simpl; [apply trim_nuls_nuls|]. by rewrite IH. Qed.

Lemma safe_same s : safe s -> backslash_to_slash s = s /\ trim_nuls s = s.
Proof.
  unfold safe. induction s as [|c s IH]; simpl; [done|]. intros [Hc Hs]%Forall_cons.
  destruct (IH Hs) as [-> ->]. unfold safe_char in Hc. apply andb_true_iff in Hc as [Hb Hn].
  destruct (Ascii.eqb c "\"%char); [done|]. by destruct (Ascii.eqb c "000"%char).
Qed.

Lemma safe_app s t : safe s -> safe t -> safe (s +:+ t).
Proof. unfold safe. rewrite list_ascii_app. apply Forall_app_2. Qed.

Lemma safe_display p : Forall safe (components p) -> safe (display p).
Proof.
  intros Hp. unfold display. apply safe_app.
  { destruct (absolute p); unfold safe; simpl; repeat constructor. }
  unfold join_slash. induction Hp as [|s l Hs Hl IH]; [constructor|].
  cbn [String.concat]. destruct l; [done|]. apply safe_app; [done|].
  apply safe_app; [unfold safe; simpl; repeat constructor|exact IH].
Qed.

Definition sent (f : LocalFile) : Path := default (lf_path f) (strip_prefix (lf_path f) (relative_root f)).

(** What the record of a file can carry. *)
Record sendable (f : LocalFile) : Prop := mkSendable {
  sd_plain : Forall (fun s => plain s = true) (components (sent f));
  sd_safe : Forall safe (components (sent f));
  sd_size : in_u 64 (lf_size f);
  sd_perm : in_u 32 (lf_perm f);
  sd_time : 0 <= last_write_time f < 2 ^ 64;
  sd_name : zlen (utf16_encode (sent_path f)) <= 520;
}.

(** The description the other side gets: times are cut to 100 nanoseconds, modes
    to 16 bits. *)
Definition described (conn_id : Z) (f : LocalFile) : FileDescription :=
  let t := last_write_time f / 100 * 100 in
  mkDesc conn_id (sent f) (if is_dir f then Directory else File) t t t t (lf_size f)
    (u16 (lf_perm f)).

Lemma size_split s :
  in_u 64 s -> u64 (Z.shiftl (u32 (u32 (Z.shiftr s 32))) 32 + u32 (u32 (Z.land s (2 ^ 32 - 1)))) = s.
Proof.
  intros Hs. rewrite !wrap_wrap. change (2 ^ 32 - 1) with (Z.ones 32).
  rewrite Z.land_ones, Z.shiftr_div_pow2, Z.shiftl_mul_pow2 by lia.
  unfold in_u, wrap in *. rewrite Zmod_mod. rewrite (Z.mod_small (s / 2 ^ 32)) by zdm.
  rewrite Z.mod_small; [zdm|]. zdm.
Qed.

Lemma attributes_directory f :
  negb (Z.land (u32 (file_attributes f)) 0x10 =? 0) = is_dir f.
Proof.
  unfold file_attributes, flag.
  by destruct (read_only f), (hidden f), (system f), (is_dir f), (archive f), (normal f).
Qed.

Lemma as_bin_some f :
  zlen (utf16_encode (sent_path f)) <= 520 -> exists b, as_bin f = Some b /\ zlen b = 592.
Proof.
  intros Hn. unfold as_bin. rewrite (proj2 (Z.ltb_ge _ _)) by done. eexists. split; [reflexivity|].
  unfold put_u32_le, put_u64_le. autorewrite with desk_rw. unfold zlen in *.
  rewrite !length_replicate. lia.
Qed.

Lemma parse_as_bin f b rest conn_id :
  sendable f -> as_bin f = Some b ->
  parse_file_descriptor (b ++ rest) conn_id = (Ok (described conn_id f), rest).
Proof.
  intros [Pl Sf Hs Hp Ht Hn]. unfold as_bin. rewrite (proj2 (Z.ltb_ge _ _)) by done.
  intros Eb. apply (inj Some) in Eb. subst b. unfold parse_file_descriptor. rewrite <- !app_assoc.
  rewrite get_put_u32, drop_zeros, get_put_u32, drop_zeros, get_put_u32, get_put_u64, !get_put_u32.
  set (name := utf16_encode (sent_path f)) in *.
  assert (forall l : bytes, take 520 (name ++ replicate (520 - length name) Byte.x00 ++ l) =
            name ++ replicate (520 - length name) Byte.x00 /\
          drop 520 (name ++ replicate (520 - length name) Byte.x00 ++ l) = l) as B.
  { intros l. rewrite app_assoc. unfold zlen in Hn.
    rewrite take_app_length', drop_app_length'
      by (rewrite length_app, length_replicate; lia). done. }
  destruct (B rest) as [-> ->].
  destruct (utf16_even (sent_path f)) as [n En]. fold name in En.
  replace (520 - length name)%nat with (2 * (260 - n))%nat by (unfold zlen in Hn; lia).
  subst name. rewrite utf16_padded.
  assert (parse_path (trim_nuls (backslash_to_slash (sent_path f +:+ nuls (260 - n)))) = sent f)
    as ->.
  { rewrite backslash_app, backslash_nuls, trim_nuls_app.
    destruct (safe_same (sent_path f)) as [-> ->]; [by apply safe_display|].
    by apply parse_display. }
  rewrite attributes_directory.
  rewrite size_split by done. cbn -[Z.mul Z.div u64 u16 win32_time Z.leb Z.sub].
  assert (u64 (win32_time f) = last_write_time f / 100 + LDAP_EPOCH_DELTA) as ->.
  { unfold win32_time. rewrite wrap_wrap, Z.max_r by lia.
    rewrite (wrap_small 64 (last_write_time f)) by done.
    apply wrap_small. unfold in_u, LDAP_EPOCH_DELTA. zdm. }
  rewrite (proj2 (Z.leb_le _ _)) by zdm.
  replace (u64 ((last_write_time f / 100 + LDAP_EPOCH_DELTA - LDAP_EPOCH_DELTA) * 100))
    with (last_write_time f / 100 * 100).
  2: { rewrite wrap_small; [lia|]. unfold in_u. zdm. }
  unfold described. rewrite (wrap_small 32 (lf_perm f)) by done. done.
Qed.

Lemma as_bins_parse fs conn_id :
  Forall sendable fs ->
  exists bs, as_bins fs = Some bs /\ zlen bs = 592 * zlen fs /\
    parse_descriptors (length fs) bs conn_id = Ok (described conn_id <$> fs).
Proof.
  induction 1 as [|f fs Hf _ (bs & E & L & P)]; [by exists []|].
  destruct (as_bin_some f (sd_name _ Hf)) as (b & Eb & Lb).
  exists (b ++ bs). simpl. rewrite Eb, E. cbn [mbind option_bind]. split; [done|]. split.
  - rewrite zlen_app, zlen_cons. lia.
  - rewrite (parse_as_bin f b bs conn_id Hf Eb), P. done.
Qed.

(** The list of copied files survives the clipboard: for files whose relative
    names fit their fields and have no backslash and no NUL, building the list
    does not panic, and the other side parses it to the same files in the same
    order, with their names, kinds, sizes, modes (16 bits) and modification times
    (in steps of 100 nanoseconds). *)
Theorem descriptors_roundtrip fs conn_id :
  Forall sendable fs -> zlen fs < 2 ^ 32 ->
  exists pdu, build_file_list_pdu fs = Some pdu /\
    parse_file_descriptors pdu conn_id = Ok (described conn_id <$> fs).
Proof.
  intros Hf Hl. destruct (as_bins_parse fs conn_id Hf) as (bs & E & L & P).
  unfold build_file_list_pdu. rewrite E. cbn [mbind option_bind]. eexists. split; [reflexivity|].
  pose proof (zlen_nonneg fs). rewrite wrap_small by (unfold in_u; lia).
  unfold parse_file_descriptors. rewrite zlen_app, (proj2 (Z.ltb_ge _ _))
    by (unfold put_u32_le; rewrite zlen_le_split; pose proof (zlen_nonneg bs); lia).
  rewrite get_put_u32, wrap_small by (unfold in_u; lia). rewrite L.
  destruct (zlen fs =? 0) eqn:Z0.
  - apply Z.eqb_eq in Z0. rewrite Z0. simpl. apply zlen_zero in Z0 as ->. done.
  - rewrite andb_false_r, Z.eqb_refl. cbn [negb]. unfold zlen. rewrite Nat2Z.id. exact P.
Qed.

Lemma as_bins_none fs :
  as_bins fs = None <-> Exists (fun f => 520 < zlen (utf16_encode (sent_path f))) fs.
Proof.
  induction fs as [|f fs IH]; [by rewrite Exists_nil|]. rewrite Exists_cons, <- IH.
  cbn [as_bins]. unfold as_bin.
  destruct (Z.ltb_spec 520 (zlen (utf16_encode (sent_path f)))); cbn [mbind option_bind]; [tauto|].
  destruct (as_bins fs) as [bs|]; cbn [mbind option_bind]; intuition (congruence || lia).
Qed.

(** Building the list panics exactly when the relative name of one of the
    files is longer than 260 units of UTF-16: the room that is left in its field is
    computed without looking whether there is any. *)
Theorem long_name_panics fs :
  build_file_list_pdu fs = None <->
  Exists (fun f => 520 < zlen (utf16_encode (sent_path f))) fs.
Proof.
  unfold build_file_list_pdu. rewrite <- as_bins_none. by destruct (as_bins fs).
Qed.

End descriptors.

(** The distance between the epochs of Windows (1601) and Unix (1970) is 134774
    days; the constant of the source is 3661 seconds longer. *)
Lemma epoch_delta_off :
  LDAP_EPOCH_DELTA = (134774 * 86400 + 3661) * 10000000 /\
  134774 = 369 * 365 + (369 / 4 - 3).
Proof. done. Qed.

(** ** Witness

    Names of one-byte characters. *)

Fixpoint latin_encode (s : string) : bytes :=
  match s with
  | EmptyString => []
  | String c s => byte_of_ascii c :: Byte.x00 :: latin_encode s
  end.

Fixpoint latin_decode (b : bytes) : option string :=
  match b with
  | [] => Some ""%string
  | c :: z :: b =>
      if decide (z = Byte.x00) then String (ascii_of_byte c) <$> latin_decode b else None
  | _ => None
  end.

Definition latin : Utf16.
Proof.
  refine {| utf16_encode := latin_encode; utf16_decode := latin_decode |}.
  - induction s as [|c s [n IH]]; [by exists 0%nat|]. exists (S n). simpl. rewrite IH. lia.
  - intros s n. induction s as [|c s IH].
    + change (latin_decode (replicate (2 * n) Byte.x00) = Some (nuls n)).
      induction n as [|n IH]; [done|]. replace (2 * S n)%nat with (S (S (2 * n))) by lia.
      cbn [replicate latin_decode]. rewrite decide_True by done. by rewrite IH.
    + cbn [latin_encode app latin_decode]. rewrite decide_True by done. rewrite IH.
      cbn [fmap option_fmap option_map String.append]. by rewrite ascii_of_byte_of_ascii.
Defined.

Definition copied : list LocalFile :=
  [mkLocal (mkPath true ["home"]) (mkPath true ["home"; "d"]) "home\d" 4096 1700000000000000123
     true 16877 false false false false false;
   mkLocal (mkPath true ["home"]) (mkPath true ["home"; "d"; "a.txt"]) "home\d\a.txt"
     5000000000 1700000000000000123 false 33188 false false false false true]%string.

Lemma descriptors_roundtrip_witness :
  exists pdu, @build_file_list_pdu latin copied = Some pdu /\
    @parse_file_descriptors latin pdu 3 = Ok (described 3 <$> copied) /\
    fd_name <$> (described 3 <$> copied) =
      [mkPath false ["d"]; mkPath false ["d"; "a.txt"]]%string.
Proof.
  destruct (@descriptors_roundtrip latin copied 3) as (pdu & E & P).
  - repeat constructor; vm_compute; try done; intros [=].
  - done.
  - by exists pdu.
Defined.
