(* ===== verification/ClipFiles.v ===== *)
(** * Serving the copied files

    [libs/clipboard/src/platform/unix/serv_files.rs], and the cached handle of a
    file of [local_file.rs]: the other side asks for the size of a file of the
    list, or for a range of its contents.

    What the files hold is an argument, [disk]; a handle is its position.  [None]
    is a panic: a buffer longer than [isize::MAX]. *)

From S2P Require Import Prelude Paths FileDesc.

(** What can be read: [None] for what cannot be opened. *)
Definition Disk : Type := Path -> option bytes.

(** A file of the list with its handle and the offset it is believed to be at. *)
Record Served : Type := mkServed {
  sv_file : LocalFile;
  sv_handle : option Z;
  sv_offset : Z;
}.

Definition served_new (f : LocalFile) : Served := mkServed f None 0.

(* src/libs/clipboard/src/platform/unix/serv_files.rs:18-31 FileContentsRequest *)
Inductive FileContentsRequest : Type :=
| Size (stream_id file_idx : Z)
| Range (stream_id file_idx offset length : Z).

(* src/libs/clipboard/src/platform/unix/serv_files.rs:33-39 ClipFiles *)
Record ClipFiles : Type := mkClip {
  cf_files : list string;
  file_list : list Served;
  first_file_index : Z;
  files_pdu : bytes;
}.

Inductive ClipboardFile : Type :=
| FileContentsResponse (msg_flags stream_id : Z) (requested_data : bytes)
| Files (files : list (string * Z)).

Definition USIZE_MAX : Z := 2 ^ 64 - 1.
Definition ISIZE_MAX : Z := 2 ^ 63 - 1.

(* src/libs/clipboard/src/platform/unix/serv_files.rs:42-47 ClipFiles::clear *)
Definition clear (c : ClipFiles) : ClipFiles := mkClip [] [] USIZE_MAX [].

Definition with_list (l : list Served) (c : ClipFiles) : ClipFiles :=
  mkClip (cf_files c) l (first_file_index c) (files_pdu c).

(** ** One file *)

(* src/libs/clipboard/src/platform/unix/local_file.rs:169-183 LocalFile::load_handle *)
Definition load_handle (disk : Disk) (s : Served) : result CliprdrError Served :=
  match sv_handle s with
  | None =>
      if is_dir (sv_file s) then Ok s
      else
        match disk (lf_path (sv_file s)) with
        | Some _ => Ok (mkServed (sv_file s) (Some 0) (sv_offset s))
        | None => Err (FileError (lf_path (sv_file s)))
        end
  | Some _ => Ok s
  end.

(** [read_exact] at a position: the bytes and the new position, or an error that
    leaves the handle at the end of the file. *)
Definition read_exact (content : bytes) (pos len : Z) : option bytes * Z :=
  if pos + len <=? zlen content
  then (Some (take (Z.to_nat len) (drop (Z.to_nat pos) content)), pos + len)
  else (None, Z.max pos (zlen content)).

(* src/libs/clipboard/src/platform/unix/local_file.rs:185-219 LocalFile::read_exact_at *)
Definition read_exact_at (disk : Disk) (len offset : Z) (s : Served)
    : result CliprdrError bytes * Served :=
  let fail s := (Err (FileError (lf_path (sv_file s))), s) in
  match load_handle disk s with
  | Err e => (Err e, s)
  | Ok s =>
      match sv_handle s, disk (lf_path (sv_file s)) with
      | Some pos, Some content =>
          let pos := if negb (offset =? sv_offset s) then offset else pos in
          match read_exact content pos len with
          | (None, pos) => fail (mkServed (sv_file s) (Some pos) (sv_offset s))
          | (Some buf, pos) =>
              let new_offset := u64 (offset + len) in
              (Ok buf,
               if lf_size (sv_file s) <=? new_offset then mkServed (sv_file s) None 0
               else mkServed (sv_file s) (Some pos) new_offset)
          end
      | _, _ => fail s
      end
  end.

(** ** The list *)

(** The file after the one that was asked for that is not a directory is opened
    ahead. *)
Fixpoint hot_reload (disk : Disk) (l : list Served) : result CliprdrError (list Served) :=
  match l with
  | [] => Ok []
  | s :: l =>
      if is_dir (sv_file s) then l ← hot_reload disk l; Ok (s :: l)
      else s ← load_handle disk s; Ok (s :: l)
  end.

Definition invalid_index : CliprdrError := InvalidRequest "invalid file index".
Definition invalid_offset : CliprdrError := InvalidRequest "invalid reading offset".

(** The file of an index, where there is one. *)
Definition served_at (idx : Z) (l : list Served) : option Served :=
  if (0 <=? idx) && (idx <? zlen l) then l !! Z.to_nat idx else None.

Definition reload_after (disk : Disk) (idx : Z) (resp : ClipboardFile) (c : ClipFiles)
    : result CliprdrError ClipboardFile * ClipFiles :=
  let k := S (Z.to_nat idx) in
  match hot_reload disk (drop k (file_list c)) with
  | Ok l => (Ok resp, with_list (take k (file_list c) ++ l) c)
  | Err e => (Err e, c)
  end.

(* src/libs/clipboard/src/platform/unix/serv_files.rs:100-213 ClipFiles::serve_file_contents *)
Definition serve_file_contents (disk : Disk) (request : FileContentsRequest) (c : ClipFiles)
    : option (result CliprdrError ClipboardFile * ClipFiles) :=
  match request with
  | Size stream_id idx =>
      match served_at idx (file_list c) with
      | None => Some (Err invalid_index, c)
      | Some s =>
          Some (reload_after disk idx
            (FileContentsResponse 0x1 stream_id (put_u64_le (lf_size (sv_file s)))) c)
      end
  | Range stream_id idx offset length =>
      match served_at idx (file_list c) with
      | None => Some (Err invalid_index, c)
      | Some s =>
          let size := lf_size (sv_file s) in
          if size <? offset then Some (Err invalid_offset, c)
          else
            let read_size := if size <? u64 (offset + length) then size - offset else length in
            if ISIZE_MAX <? read_size then None
            else
              let '(r, s) := read_exact_at disk read_size offset s in
              let c := with_list (<[Z.to_nat idx := s]> (file_list c)) c in
              match r with
              | Ok buf => Some (reload_after disk idx (FileContentsResponse 0x1 stream_id buf) c)
              | Err e => Some (Err e, c)
              end
      end
  end.

(* src/libs/clipboard/src/platform/unix/serv_files.rs:73-99 ClipFiles::get_files_for_audit *)
Definition get_files_for_audit (disk : Disk) (request : FileContentsRequest) (c : ClipFiles)
    : option ClipboardFile :=
  match request with
  | Range _ idx offset _ =>
      if (idx =? first_file_index c) && (offset =? 0) then
        let fs := List.filter (fun s => negb (is_dir (sv_file s)) &&
                    bool_decide (is_Some (disk (lf_path (sv_file s))))) (file_list c) in
        if decide (fs = []) then None
        else Some (Files ((fun s => (display (lf_path (sv_file s)), lf_size (sv_file s))) <$> fs))
      else None
  | Size _ _ => None
  end.

(** The request of the message: negative numbers are extended with their sign. *)
(* src/libs/clipboard/src/platform/unix/serv_files.rs:236-236 read_file_contents *)
Definition range_offset (high low : Z) : Z := Z.lor (u64 (Z.shiftl (u64 high) 32)) (u64 low).

(* src/libs/clipboard/src/platform/unix/serv_files.rs:230-249 read_file_contents *)
Definition contents_request (stream_id list_index dw_flags low high cb : Z)
    : option FileContentsRequest :=
  if dw_flags =? 1 then Some (Size stream_id (usize list_index))
  else if dw_flags =? 2
  then Some (Range stream_id (usize list_index) (range_offset high low) (u64 cb))
  else None.

(* src/libs/clipboard/src/platform/unix/serv_files.rs:222-258 read_file_contents *)
Definition read_file_contents (disk : Disk) (stream_id list_index dw_flags low high cb : Z)
    (c : ClipFiles) : option (list (result CliprdrError ClipboardFile) * ClipFiles) :=
  match contents_request stream_id list_index dw_flags low high cb with
  | None => Some ([Err (InvalidRequest "got invalid FileContentsRequest")], c)
  | Some fcr =>
      let audit := match get_files_for_audit disk fcr c with Some f => [Ok f] | None => [] end in
      '(r, c) ← serve_file_contents disk fcr c;
      Some (audit ++ [r], c)
  end.

(** [walked] is the list of the files under the paths. *)
(* src/libs/clipboard/src/platform/unix/serv_files.rs:49-62 ClipFiles::sync_files *)
Definition sync_list (clipboard_files : list string)
    (walked : list string -> result CliprdrError (list LocalFile)) (c : ClipFiles)
    : result CliprdrError unit * ClipFiles :=
  match walked clipboard_files with
  | Err e => (Err e, c)
  | Ok l =>
      let first := match list_find (fun f => is_dir f = false) l with
                   | Some (i, _) => Z.of_nat i | None => USIZE_MAX end in
      (Ok tt, mkClip clipboard_files (served_new <$> l) first (files_pdu c))
  end.

(* src/libs/clipboard/src/platform/unix/serv_files.rs:260-267 sync_files *)
Definition sync_files `{Utf16} (files : list string)
    (walked : list string -> result CliprdrError (list LocalFile)) (c : ClipFiles)
    : option (result CliprdrError unit * ClipFiles) :=
  if decide (cf_files c = files) then Some (Ok tt, c)
  else
    match sync_list files walked c with
    | (Err e, c) => Some (Err e, c)
    | (Ok _, c) =>
        pdu ← build_file_list_pdu (sv_file <$> file_list c);
        Some (Ok tt, mkClip (cf_files c) (file_list c) (first_file_index c) pdu)
    end.

(** ** What is answered *)

(** The handle of a file is where it is believed to be. *)
Definition consistent (s : Served) : Prop :=
  match sv_handle s with None => sv_offset s = 0 | Some pos => pos = sv_offset s end.

(** A file that can be served: what the disk has is as long as the list says. *)
Record servable (disk : Disk) (s : Served) : Prop := mkServable {
  sb_consistent : consistent s;
  sb_size : 0 <= lf_size (sv_file s) < 2 ^ 63;
  sb_disk : is_dir (sv_file s) = false ->
    exists content, disk (lf_path (sv_file s)) = Some content /\ zlen content = lf_size (sv_file s);
}.

Lemma load_handle_ok disk s :
  servable disk s ->
  exists s', load_handle disk s = Ok s' /\ servable disk s' /\ sv_file s' = sv_file s /\
    (is_dir (sv_file s) = false -> exists pos, sv_handle s' = Some pos).
Proof.
  intros [C Z D]. unfold load_handle, consistent in *. destruct (sv_handle s) as [pos|] eqn:Hh.
  - exists s. split_and!; eauto. by split; [unfold consistent; rewrite Hh| |].
  - destruct (is_dir (sv_file s)) eqn:Hd.
    + exists s. split_and!; try done. split; [unfold consistent; by rewrite Hh|done|]. by rewrite Hd.
    + destruct (D eq_refl) as (content & E & L). rewrite E. eexists. split; [reflexivity|].
      split_and!; [|done|by eexists]. split; [unfold consistent; by rewrite C|done|]. simpl. eauto.
Qed.

Lemma read_exact_at_ok disk s content len offset :
  servable disk s -> is_dir (sv_file s) = false ->
  disk (lf_path (sv_file s)) = Some content ->
  0 <= offset -> 0 <= len -> offset + len <= lf_size (sv_file s) ->
  exists s', read_exact_at disk len offset s =
      (Ok (take (Z.to_nat len) (drop (Z.to_nat offset) content)), s') /\
    servable disk s' /\ sv_file s' = sv_file s.
Proof.
  intros S Hd E Ho Hl Hs. destruct (load_handle_ok disk s S) as (s1 & L & S1 & F & Hp).
  destruct (Hp Hd) as (pos & Hpos). unfold read_exact_at. rewrite L, Hpos, F, E.
  destruct S1 as [C1 Z1 D1]. rewrite F in *. destruct (D1 Hd) as (content' & E' & Lc).
  rewrite E in E'. injection E' as <-. unfold consistent in C1. rewrite Hpos in C1.
  assert ((if negb (offset =? sv_offset s1) then offset else pos) = offset) as ->.
  { destruct (Z.eqb_spec offset (sv_offset s1)); simpl; lia. }
  unfold read_exact. rewrite (proj2 (Z.leb_le _ _)) by lia.
  rewrite wrap_small by (unfold in_u; lia).
  eexists. split; [reflexivity|].
  destruct (lf_size (sv_file s) <=? offset + len); (split; [|done]); split; simpl; try done; eauto.
Qed.

Lemma hot_reload_ok disk l :
  Forall (servable disk) l ->
  exists l', hot_reload disk l = Ok l' /\ Forall (servable disk) l' /\
    sv_file <$> l' = sv_file <$> l.
Proof.
  induction 1 as [|s l Hs Hl (l' & E & F & M)]; [by exists []|]. cbn [hot_reload].
  destruct (is_dir (sv_file s)).
  - rewrite E. exists (s :: l'). rewrite !fmap_cons, M. split_and!; [done|by constructor|done].
  - destruct (load_handle_ok disk s Hs) as (s' & E' & S' & F' & _). rewrite E'.
    exists (s' :: l). rewrite !fmap_cons, F'. split_and!; [done|by constructor|done].
Qed.

Lemma served_at_some idx l s :
  served_at idx l = Some s -> 0 <= idx < zlen l /\ l !! Z.to_nat idx = Some s.
Proof.
  unfold served_at. destruct (Z.leb_spec 0 idx), (Z.ltb_spec idx (zlen l)); simpl; try done.
Qed.

Lemma reload_after_ok disk idx resp c :
  Forall (servable disk) (file_list c) ->
  exists c', reload_after disk idx resp c = (Ok resp, c') /\
    Forall (servable disk) (file_list c') /\
    sv_file <$> file_list c' = sv_file <$> file_list c.
Proof.
  intros F. unfold reload_after. set (k := S (Z.to_nat idx)).
  destruct (hot_reload_ok disk (drop k (file_list c))) as (l & E & Fl & M).
  { by apply Forall_drop. }
  rewrite E. eexists. split; [reflexivity|]. simpl. split.
  - apply Forall_app_2; [by apply Forall_take|done].
  - by rewrite fmap_app, M, <- fmap_app, take_drop.
Qed.

(** A request the other side may make, and its answer. *)
Inductive answered (disk : Disk) (fs : list LocalFile) : FileContentsRequest -> ClipboardFile -> Prop :=
| answered_size sid idx f :
    fs !! idx = Some f ->
    answered disk fs (Size sid (Z.of_nat idx))
      (FileContentsResponse 1 sid (put_u64_le (lf_size f)))
| answered_range sid idx f offset length content :
    fs !! idx = Some f -> is_dir f = false -> disk (lf_path f) = Some content ->
    0 <= offset <= lf_size f -> 0 <= length < 2 ^ 63 ->
    answered disk fs (Range sid (Z.of_nat idx) offset length)
      (FileContentsResponse 1 sid
         (take (Z.to_nat length) (drop (Z.to_nat offset) content))).

Lemma served_at_file fs c idx f :
  sv_file <$> file_list c = fs -> fs !! idx = Some f ->
  exists s, served_at (Z.of_nat idx) (file_list c) = Some s /\ sv_file s = f /\
    file_list c !! idx = Some s.
Proof.
  intros <- H. apply list_lookup_fmap_Some in H as (s & -> & E). exists s. split_and!; try done.
  pose proof (lookup_lt_Some _ _ _ E). unfold served_at, zlen.
  rewrite (proj2 (Z.leb_le _ _)), (proj2 (Z.ltb_lt _ _)), Nat2Z.id by lia. done.
Qed.

Lemma serve_answered disk fs req resp c :
  Forall (servable disk) (file_list c) -> sv_file <$> file_list c = fs ->
  answered disk fs req resp ->
  exists c', serve_file_contents disk req c = Some (Ok resp, c') /\
    Forall (servable disk) (file_list c') /\ sv_file <$> file_list c' = fs.
Proof.
  intros F M A. destruct A as [sid idx f Hf|sid idx f offset length content Hf Hd Hc Ho Hl].
  - destruct (served_at_file fs c idx f M Hf) as (s & E & Fs & _).
    unfold serve_file_contents. rewrite E, Fs.
    destruct (reload_after_ok disk (Z.of_nat idx)
      (FileContentsResponse 1 sid (put_u64_le (lf_size f))) c F) as (c' & -> & F' & M').
    exists c'. by rewrite M'.
  - destruct (served_at_file fs c idx f M Hf) as (s & E & Fs & El).
    unfold serve_file_contents. rewrite E, Fs.
    assert (servable disk s) as S by (by eapply Forall_lookup_1).
    pose proof (sb_size _ _ S) as Hz. rewrite Fs in Hz.
    rewrite (proj2 (Z.ltb_ge _ _)) by lia. rewrite wrap_small by (unfold in_u; lia).
    set (n := if lf_size f <? offset + length then lf_size f - offset else length).
    assert (0 <= n /\ offset + n <= lf_size f /\ n <= length /\
            (n < length -> n = lf_size f - offset)) as (N1 & N2 & N3 & N4).
    { subst n. destruct (Z.ltb_spec (lf_size f) (offset + length)); lia. }
    rewrite (proj2 (Z.ltb_ge _ _)) by (unfold ISIZE_MAX; lia).
    rewrite <- Fs in Hd, Hc, N2.
    destruct (read_exact_at_ok disk s content n offset S Hd Hc ltac:(lia) N1 N2) as (s' & -> & S' & F2).
    rewrite Nat2Z.id.
    set (c1 := with_list (<[idx := s']> (file_list c)) c).
    destruct (sb_disk _ _ S Hd) as (content' & Hc' & Lc). rewrite Hc in Hc'. injection Hc' as <-.
    assert (take (Z.to_nat n) (drop (Z.to_nat offset) content) =
            take (Z.to_nat length) (drop (Z.to_nat offset) content)) as ->.
    { destruct (decide (n = length)) as [->|]; [done|]. rewrite Fs in Lc. unfold zlen in Lc.
      rewrite !take_ge by (rewrite length_drop; lia). done. }
    assert (Forall (servable disk) (file_list c1)) as F1 by (by apply Forall_insert).
    assert (sv_file <$> file_list c1 = fs) as M1.
    { subst c1. simpl. rewrite list_fmap_insert, F2, M, list_insert_id; [done|]. by rewrite Fs. }
    destruct (reload_after_ok disk (Z.of_nat idx) (FileContentsResponse 1 sid
      (take (Z.to_nat length) (drop (Z.to_nat offset) content))) c1 F1) as (c' & -> & F' & M').
    exists c'. by rewrite M'.
Qed.

(** The answers to a sequence of requests. *)
Fixpoint serve_all (disk : Disk) (reqs : list FileContentsRequest) (c : ClipFiles)
    : option (list (result CliprdrError ClipboardFile)) :=
  match reqs with
  | [] => Some []
  | req :: reqs =>
      '(r, c) ← serve_file_contents disk req c;
      rs ← serve_all disk reqs c;
      Some (r :: rs)
  end.

(** The copied files are served faithfully: for a list of files that can be
    read and have not changed, every sequence of requests for sizes and ranges, in
    any order and from any number of readers, is answered with the sizes and
    exactly the bytes of the ranges (cut at the end of the file), although handles
    are shared, kept open, opened ahead and closed at the end of a file. *)
Theorem ranges_served disk c reqs resps :
  Forall (servable disk) (file_list c) ->
  Forall2 (answered disk (sv_file <$> file_list c)) reqs resps ->
  serve_all disk reqs c = Some (Ok <$> resps).
Proof.
  intros F A. remember (sv_file <$> file_list c) as fs eqn:M. symmetry in M.
  revert c F M. induction A as [|req resp reqs resps Ha _ IH]; intros c F M; [done|].
  destruct (serve_answered disk fs req resp c F M Ha) as (c' & E & F' & M').
  cbn [serve_all]. rewrite E. cbn [mbind option_bind]. by rewrite (IH c' F' M').
Qed.

(** A negative length panics: a message that asks for a range of a file with a
    negative number of bytes, not farther back than the offset, makes the sum wrap
    past the check against the size, and the buffer is longer than any can be.
    Every other request with a number in range is answered. *)
Theorem negative_length_panics disk c sid idx offset cb s :
  Forall (servable disk) (file_list c) -> served_at idx (file_list c) = Some s ->
  in_u 64 offset -> in_i 32 cb ->
  serve_file_contents disk (Range sid idx offset (u64 cb)) c = None <->
  cb < 0 /\ - cb <= offset <= lf_size (sv_file s).
Proof.
  intros F E Ho Hcb. unfold serve_file_contents. rewrite E.
  destruct (served_at_some _ _ _ E) as [_ El].
  assert (servable disk s) as S by (by eapply Forall_lookup_1).
  pose proof (sb_size _ _ S) as Hz. unfold in_u, in_i in *.
  assert (u64 cb = if decide (cb < 0) then cb + 2 ^ 64 else cb) as Eu.
  { unfold wrap. case_decide; zdm. }
  destruct (Z.ltb_spec (lf_size (sv_file s)) offset); [split; [done|lia]|].
  assert (u64 (offset + u64 cb) =
    if decide (cb < 0 /\ offset + cb < 0) then offset + cb + 2 ^ 64 else offset + cb) as Es.
  { rewrite Eu. unfold wrap. repeat case_decide; zdm. }
  set (n := if lf_size (sv_file s) <? u64 (offset + u64 cb) then lf_size (sv_file s) - offset
            else u64 cb).
  destruct (Z.ltb_spec ISIZE_MAX n) as [Hn|Hn]; unfold ISIZE_MAX in Hn.
  - split; [intros _|done]. subst n. revert Hn. rewrite Es, Eu. repeat case_decide; zbool; lia.
  - split.
    + destruct (read_exact_at _ _ _ _) as [[?|?] ?]; [|done]. by destruct (reload_after _ _ _ _).
    + intros [H1 H2]. exfalso. subst n. revert Hn. rewrite Es, Eu. repeat case_decide; zbool; lia.
Qed.

(** One file that cannot be opened spoils the one before it: whatever is
    asked of a file is answered with an error when the next file of the list that
    is not a directory is not open yet and cannot be opened. *)
Theorem unreadable_next_spoils disk c req idx dirs next rest :
  drop (S idx) (file_list c) = dirs ++ next :: rest ->
  Forall (fun s => is_dir (sv_file s) = true) dirs ->
  is_dir (sv_file next) = false -> sv_handle next = None ->
  disk (lf_path (sv_file next)) = None ->
  (exists sid, req = Size sid (Z.of_nat idx)) \/
  (exists sid offset len, req = Range sid (Z.of_nat idx) offset len) ->
  forall resp c', serve_file_contents disk req c <> Some (Ok resp, c').
Proof.
  intros Hdrop Hdirs Hd Hh Hn Hreq resp c'.
  assert (forall l, l = dirs ++ next :: rest -> exists e, hot_reload disk l = Err e) as HR.
  { intros l ->. clear Hdrop. induction Hdirs as [|d ds Hd1 _ [e IH]]; simpl.
    - rewrite Hd. unfold load_handle. rewrite Hh, Hd, Hn. by eexists.
    - rewrite Hd1, IH. by eexists. }
  assert (forall resp c2, drop (S idx) (file_list c2) = dirs ++ next :: rest ->
    exists e, reload_after disk (Z.of_nat idx) resp c2 = (Err e, c2)) as RA.
  { intros r c2 E. unfold reload_after. rewrite Nat2Z.id. destruct (HR _ E) as [e ->]. by eexists. }
  destruct Hreq as [[sid ->]|(sid & offset & len & ->)]; unfold serve_file_contents.
  - destruct (served_at _ _) as [s|]; [|done]. destruct (RA (FileContentsResponse 1 sid
      (put_u64_le (lf_size (sv_file s)))) c Hdrop) as [e ->]. done.
  - destruct (served_at _ _) as [s|]; [|done].
    destruct (_ <? offset); [done|]. destruct (ISIZE_MAX <? _); [done|].
    destruct (read_exact_at _ _ _ _) as [[buf|e] s']; [|done].
    destruct (RA (FileContentsResponse 1 sid buf)
      (with_list (<[Z.to_nat (Z.of_nat idx) := s']> (file_list c)) c)) as [e ->]; [|done].
    simpl. rewrite drop_insert_lt by lia. exact Hdrop.
Qed.

(** ** Witnesses *)

Definition a_disk : Disk := fun p =>
  if decide (p = mkPath true ["home"; "d"; "a.txt"]%string) then Some [Byte.x61; Byte.x62; Byte.x63]
  else None.

Definition a_txt : LocalFile :=
  mkLocal (mkPath true ["home"]) (mkPath true ["home"; "d"; "a.txt"]) "" 3 0 false 33188
    false false false false true.

Definition a_list : list LocalFile :=
  [mkLocal (mkPath true ["home"]) (mkPath true ["home"; "d"]) "" 4096 0 true 16877
     false false false false false; a_txt].

Definition a_clip (l : list LocalFile) : ClipFiles := mkClip [] (served_new <$> l) 1 [].

Lemma a_clip_servable : Forall (servable a_disk) (file_list (a_clip a_list)).
Proof.
  repeat constructor; try done. intros _. exists [Byte.x61; Byte.x62; Byte.x63].
  split; [vm_compute; reflexivity|done].
Qed.

Lemma ranges_served_witness :
  serve_all a_disk [Range 7 1 1 100; Range 8 1 0 2; Size 9 1] (a_clip a_list) =
  Some [Ok (FileContentsResponse 1 7 [Byte.x62; Byte.x63]);
        Ok (FileContentsResponse 1 8 [Byte.x61; Byte.x62]);
        Ok (FileContentsResponse 1 9 (put_u64_le 3))].
Proof.
  apply (ranges_served a_disk (a_clip a_list) _
    [FileContentsResponse 1 7 [Byte.x62; Byte.x63]; FileContentsResponse 1 8 [Byte.x61; Byte.x62];
     FileContentsResponse 1 9 (put_u64_le 3)] a_clip_servable).
  constructor; [|constructor; [|constructor; [|constructor]]].
  - apply (answered_range a_disk a_list 7 1%nat a_txt 1 100 [Byte.x61; Byte.x62; Byte.x63]);
      [reflexivity..|simpl; lia|lia].
  - apply (answered_range a_disk a_list 8 1%nat a_txt 0 2 [Byte.x61; Byte.x62; Byte.x63]);
      [reflexivity..|simpl; lia|lia].
  - apply (answered_size a_disk a_list 9 1%nat a_txt). reflexivity.
Defined.

Lemma negative_length_panics_witness :
  serve_file_contents a_disk (Range 7 1 1 (u64 (-1))) (a_clip a_list) = None.
Proof.
  apply (negative_length_panics a_disk (a_clip a_list) 7 1 1 (-1)
    (served_new a_txt) a_clip_servable eq_refl).
  - by vm_compute.
  - by vm_compute.
  - simpl. lia.
Defined.

Lemma unreadable_next_spoils_witness :
  forall resp c', serve_file_contents (fun p => if decide (p = mkPath true ["b"]%string)
      then Some [] else None) (Range 7 0 0 0)
    (a_clip [mkLocal (mkPath true []) (mkPath true ["b"]) "" 0 0 false 33188
               false false false false true;
             mkLocal (mkPath true []) (mkPath true ["c"]) "" 5 0 false 0
               false false false false true]%string) <> Some (Ok resp, c').
Proof.
  apply (unreadable_next_spoils _ _ _ 0 []) with (rest := [])
    (next := served_new (mkLocal (mkPath true []) (mkPath true ["c"]) "" 5 0 false 0
               false false false false true)%string); try done.
  right. by exists 7, 0, 0.
Defined.
