(* ===== verification/FuseTree.v ===== *)
(** * The file system of the pasted files

    [libs/clipboard/src/platform/unix/fuse/cs.rs]: the descriptions of the other
    side's files become a read-only file system; reading one of its files asks the
    other side for a range.

    The random stream identifiers and the clock are arguments; what arrives on the
    channel of replies is a list, whose end is a timeout.  Nothing sets the mark
    for garbage collection, so [marked] is false. *)

From S2P Require Import Prelude Paths FileDesc ClipFiles.

Definition FUSE_ROOT_ID : Z := 1.

(* src/libs/clipboard/src/platform/unix/fuse/cs.rs:751-766 InodeAttributes *)
Record InodeAttributes : Type := mkAttr {
  at_inode : Z;
  at_size : Z;
  last_accessed : Z;
  at_modified : Z;
  last_metadata_changed : Z;
  creation_time : Z;
  kind : FileType;
  perm : Z;
}.

(* src/libs/clipboard/src/platform/unix/fuse/cs.rs:769-781 InodeAttributes::new *)
Definition attributes_new (now inode size perm : Z) (k : FileType) : InodeAttributes :=
  mkAttr inode size now now now now k perm.

(* src/libs/clipboard/src/platform/unix/fuse/cs.rs:783-796 InodeAttributes::from_description *)
Definition attributes_from_description (now inode : Z) (d : FileDescription) : InodeAttributes :=
  mkAttr inode (fd_size d) now (fd_last_modified d) (fd_last_metadata_changed d)
    (fd_creation_time d) (fd_kind d) (fd_perm d).

(** The list of the handles is the only field of [FileHandles] that changes. *)
(* src/libs/clipboard/src/platform/unix/fuse/cs.rs:608-636 FuseNode *)
Record FuseNode : Type := mkNode {
  fn_conn_id : Z;
  fn_stream_id : Z;
  index : Z;
  parent_ino : option Z;
  fn_name : string;
  attributes : InodeAttributes;
  children : list Z;
  handlers : list Z;
}.

(* src/libs/clipboard/src/platform/unix/fuse/cs.rs:639-654 FuseNode::from_description *)
Definition from_description (now stream inode : Z) (name : string) (d : FileDescription) : FuseNode :=
  mkNode (fd_conn_id d) stream (usize (inode - 2)) None name
    (attributes_from_description now inode d) [] [].

(* src/libs/clipboard/src/platform/unix/fuse/cs.rs:656-667 FuseNode::new_root *)
Definition new_root (now stream : Z) : FuseNode :=
  mkNode 0 stream 0 None "/" (attributes_new now FUSE_ROOT_ID 0 PERM_RWX Directory) [] [].

Definition with_parent (p : Z) (n : FuseNode) : FuseNode :=
  mkNode (fn_conn_id n) (fn_stream_id n) (index n) (Some p) (fn_name n) (attributes n)
    (children n) (handlers n).

(* src/libs/clipboard/src/platform/unix/fuse/cs.rs:691-693 FuseNode::add_child *)
Definition add_child (inode : Z) (n : FuseNode) : FuseNode :=
  mkNode (fn_conn_id n) (fn_stream_id n) (index n) (parent_ino n) (fn_name n) (attributes n)
    (children n ++ [inode]) (handlers n).

Definition with_handlers (l : list Z) (n : FuseNode) : FuseNode :=
  mkNode (fn_conn_id n) (fn_stream_id n) (index n) (parent_ino n) (fn_name n) (attributes n)
    (children n) l.

(** ** The tree *)

Section tree.
Context (now : Z) (stream : Z -> Z).

(** The parent of a path among the directories seen so far. *)
Definition parent_of (sub_root_map : gmap Path Z) (name : Path) : Z :=
  match parent name with
  | Some p => default FUSE_ROOT_ID (sub_root_map !! p)
  | None => FUSE_ROOT_ID
  end.

(** One file; [None] is a panic, an index beyond the tree. *)
Definition build_step (tree : list FuseNode) (sub_root_map : gmap Path Z) (f : FileDescription)
    : option (result CliprdrError (list FuseNode * gmap Path Z)) :=
  let name := fd_name f in
  let inode := zlen tree + FUSE_ROOT_ID in
  let parent_inode := parent_of sub_root_map name in
  let k := Z.to_nat (usize (parent_inode - 1)) in
  p ← tree !! k;
  let tree := <[k := add_child inode p]> tree in
  Some match file_name name with
       | None => Err (FileError name)
       | Some base_name =>
           let sub_root_map := if decide (fd_kind f = Directory)
                               then <[name := inode]> sub_root_map else sub_root_map in
           let node := with_parent parent_inode
                         (from_description now (stream inode) inode base_name f) in
           Ok (tree ++ [node], sub_root_map)
       end.

Fixpoint build_loop (tree : list FuseNode) (sub_root_map : gmap Path Z)
    (files : list FileDescription) : option (result CliprdrError (list FuseNode)) :=
  match files with
  | [] => Some (Ok tree)
  | f :: files =>
      r ← build_step tree sub_root_map f;
      match r with
      | Err e => Some (Err e)
      | Ok (tree, sub_root_map) => build_loop tree sub_root_map files
      end
  end.

(* src/libs/clipboard/src/platform/unix/fuse/cs.rs:695-748 FuseNode::build_tree *)
Definition build_tree (files : list FileDescription)
    : option (result CliprdrError (list FuseNode)) :=
  build_loop [new_root now (stream FUSE_ROOT_ID)]
    (<[mkPath false [] := FUSE_ROOT_ID]> {[mkPath true [] := FUSE_ROOT_ID]}) files.

End tree.

(** ** Handles *)

(** [slice::binary_search] of the standard library: [base] is moved over the half
    that is not above the value. *)
Fixpoint search_loop (fuel base size : nat) (x : Z) (l : list Z) : nat :=
  match fuel with
  | O => base
  | S fuel =>
      if decide (size <= 1)%nat then base
      else
        let half := (size / 2)%nat in
        let mid := (base + half)%nat in
        let base := if x <? default 0 (l !! mid) then base else mid in
        search_loop fuel base (size - half) x l
  end.

Definition binary_search (x : Z) (l : list Z) : option nat :=
  if decide (l = []) then None
  else
    let base := search_loop (length l) 0 (length l) x l in
    if default 0 (l !! base) =? x then Some base else None.

(* src/libs/clipboard/src/platform/unix/fuse/cs.rs:861-866 FileHandles::add_handler *)
Definition add_handler (fh : Z) (n : FuseNode) : FuseNode := with_handlers (handlers n ++ [fh]) n.

(* src/libs/clipboard/src/platform/unix/fuse/cs.rs:872-875 FileHandles::have_handler *)
Definition have_handler (fh : Z) (n : FuseNode) : bool :=
  bool_decide (is_Some (binary_search fh (handlers n))).

(* src/libs/clipboard/src/platform/unix/fuse/cs.rs:877-888 FileHandles::unregister *)
Definition unregister (fh : Z) (n : FuseNode) : option FuseNode :=
  i ← binary_search fh (handlers n); Some (with_handlers (delete i (handlers n)) n).

(** ** The server *)

(* src/libs/clipboard/src/platform/unix/fuse/cs.rs:168-178 FuseServer *)
Record FuseServer : Type := mkServer {
  generation : Z;
  files : list FuseNode;
  file_handle_counter : Z;
}.

Inductive errno : Type := ENOENT | ENOTDIR | ENFILE | EBADF | ENAMETOOLONG | EIO.

Inductive reply : Type :=
| ReplyError (e : errno)
| ReplyOpened (fh : Z)
| ReplyOk
| ReplyData (d : bytes)
| ReplyEntry (a : InodeAttributes) (generation : Z)
| ReplyDir (entries : list (Z * FileType * string))
| ReplyStatfs (blocks : Z).

(* src/libs/clipboard/src/platform/unix/fuse/cs.rs:182-194 FuseServer::new *)
Definition server_new : FuseServer := mkServer 0 [] 0.

(** The node of an inode; [0] wraps to an index that is never there. *)
Definition node_at (ino : Z) (s : FuseServer) : option FuseNode :=
  let k := usize (ino - 1) in
  if k <? zlen (files s) then files s !! Z.to_nat k else None.

Definition set_node (ino : Z) (n : FuseNode) (s : FuseServer) : FuseServer :=
  mkServer (generation s) (<[Z.to_nat (usize (ino - 1)) := n]> (files s)) (file_handle_counter s).

(* src/libs/clipboard/src/platform/unix/fuse/cs.rs:202-207 FuseServer::load_file_list *)
Definition load_file_list (now : Z) (stream : Z -> Z) (l : list FileDescription) (s : FuseServer)
    : option (result CliprdrError unit * FuseServer) :=
  r ← build_tree now stream l;
  Some match r with
       | Ok tree => (Ok tt, mkServer (u64 (generation s + 1)) tree (file_handle_counter s))
       | Err e => (Err e, s)
       end.

(* src/libs/clipboard/src/platform/unix/fuse/cs.rs:211-222 FuseServer::init *)
Definition init (now : Z) (stream : Z -> Z) (s : FuseServer) : FuseServer :=
  if decide (files s = [])
  then mkServer (generation s) [new_root now (stream FUSE_ROOT_ID)] (file_handle_counter s)
  else s.

(** The first child of the name. *)
Fixpoint find_child (s : FuseServer) (name : string) (l : list Z) : option FuseNode :=
  match l with
  | [] => None
  | ino :: l =>
      match node_at ino s with
      | Some c => if decide (fn_name c = name) then Some c else find_child s name l
      | None => None
      end
  end.

(* src/libs/clipboard/src/platform/unix/fuse/cs.rs:224-272 FuseServer::lookup *)
Definition lookup (parent : Z) (name : string) (s : FuseServer) : reply :=
  if MAX_NAME_LEN <? Z.of_nat (String.length name) then ReplyError ENAMETOOLONG
  else
    match node_at parent s with
    | None => ReplyError ENOENT
    | Some p =>
        if negb (bool_decide (kind (attributes p) = Directory)) then ReplyError ENOTDIR
        else
          match find_child s name (children p) with
          | Some c => ReplyEntry (attributes c) (generation s)
          | None => ReplyError ENOENT
          end
    end.

(* src/libs/clipboard/src/platform/unix/fuse/cs.rs:525-528 FuseServer::alloc_fd *)
Definition alloc_fd (s : FuseServer) : Z * FuseServer :=
  (file_handle_counter s,
   mkServer (generation s) (files s) (u64 (file_handle_counter s + 1))).

(* src/libs/clipboard/src/platform/unix/fuse/cs.rs:274-302 FuseServer::opendir *)
Definition opendir (ino : Z) (s : FuseServer) : reply * FuseServer :=
  match node_at ino s with
  | None => (ReplyError ENOENT, s)
  | Some entry =>
      if negb (bool_decide (kind (attributes entry) = Directory)) then (ReplyError ENOTDIR, s)
      else let '(fh, s) := alloc_fd s in
           (ReplyOpened fh, set_node ino (add_handler fh entry) s)
  end.

(* src/libs/clipboard/src/platform/unix/fuse/cs.rs:385-411 FuseServer::open *)
Definition open (ino : Z) (s : FuseServer) : reply * FuseServer :=
  match node_at ino s with
  | None => (ReplyError ENOENT, s)
  | Some entry =>
      if negb (bool_decide (kind (attributes entry) = File)) then (ReplyError ENFILE, s)
      else let '(fh, s) := alloc_fd s in
           (ReplyOpened fh, set_node ino (add_handler fh entry) s)
  end.

(** The entries of a directory; the kernel takes them from [offset] on, as many
    as fit. *)
(* src/libs/clipboard/src/platform/unix/fuse/cs.rs:304-354 FuseServer::readdir *)
Definition readdir (ino fh offset : Z) (s : FuseServer) : reply :=
  match node_at ino s with
  | None => ReplyError ENOENT
  | Some entry =>
      if negb (have_handler fh entry) then ReplyError EBADF
      else if negb (bool_decide (kind (attributes entry) = Directory)) then ReplyError ENOTDIR
      else
        let parent := match parent_ino entry with
                      | Some p => [(p, Directory, ".."%string)] | None => [] end in
        let below := omap (fun i => c ← node_at i s;
                             Some (i, kind (attributes c), fn_name c)) (children entry) in
        ReplyDir (drop (Z.to_nat (usize offset)) ((ino, Directory, "."%string) :: parent ++ below))
  end.

(* src/libs/clipboard/src/platform/unix/fuse/cs.rs:356-383 FuseServer::releasedir *)
Definition releasedir (ino fh : Z) (s : FuseServer) : reply * FuseServer :=
  match node_at ino s with
  | None => (ReplyError ENOENT, s)
  | Some entry =>
      if negb (bool_decide (kind (attributes entry) = Directory)) then (ReplyError ENOTDIR, s)
      else if negb (have_handler fh entry) then (ReplyError EBADF, s)
      else (ReplyOk, set_node ino (default entry (unregister fh entry)) s)
  end.

(* src/libs/clipboard/src/platform/unix/fuse/cs.rs:459-482 FuseServer::release *)
Definition release (ino fh : Z) (s : FuseServer) : reply * FuseServer :=
  match node_at ino s with
  | None => (ReplyError ENOENT, s)
  | Some entry =>
      match unregister fh entry with
      | None => (ReplyError EBADF, s)
      | Some entry => (ReplyOk, set_node ino entry s)
      end
  end.

(* src/libs/clipboard/src/platform/unix/fuse/cs.rs:484-500 FuseServer::getattr *)
Definition getattr (ino : Z) (s : FuseServer) : reply :=
  match node_at ino s with
  | None => ReplyError ENOENT
  | Some entry => ReplyEntry (attributes entry) 0
  end.

(* src/libs/clipboard/src/platform/unix/fuse/cs.rs:502-509 FuseServer::statfs *)
Definition statfs (s : FuseServer) : reply :=
  ReplyStatfs (foldl (fun blocks n =>
    u64 (blocks + at_size (attributes n) / BLOCK_SIZE +
         (if at_size (attributes n) mod BLOCK_SIZE =? 0 then 0 else 1))) 0 (files s)).

(* src/libs/clipboard/src/platform/unix/fuse/cs.rs:514-523 FuseServer::list_root *)
Definition list_root (s : FuseServer) : list string :=
  match files s with
  | [] => []
  | root :: _ => omap (fun i => fn_name <$> node_at i s) (children root)
  end.

(** ** Reading *)

(* src/libs/clipboard/src/platform/unix/fuse/cs.rs:45-45 READ_RETRY *)
Definition READ_RETRY : Z := 3.

(** What arrives on the channel. *)
Inductive channel_item : Type :=
| Contents (msg_flags stream_id : Z) (requested_data : bytes)
| OtherReply.

(** The fields of the request: stream, index, flags, low and high half of the
    position, and the number of bytes. *)
Record RangeRequest : Type := mkRange {
  rq_stream : Z; rq_index : Z; rq_flags : Z; rq_low : Z; rq_high : Z; rq_cb : Z;
}.

(* src/libs/clipboard/src/platform/unix/fuse/cs.rs:537-554 FuseServer::read_node *)
Definition range_request (node : FuseNode) (offset size : Z) : RangeRequest :=
  mkRange (fn_stream_id node) (i32 (index node)) 2 (i32 (Z.land offset (2 ^ 32 - 1)))
    (i32 (Z.shiftr offset 32)) (i32 size).

(** The loop: the answer ([None] is an I/O error), how often the request was sent
    again, and what is left on the channel. *)
(* src/libs/clipboard/src/platform/unix/fuse/cs.rs:561-605 FuseServer::read_node *)
Fixpoint recv_loop (stream retry_times : Z) (rx : list channel_item)
    : option bytes * Z * list channel_item :=
  match rx with
  | [] => (None, retry_times, [])
  | OtherReply :: rx => (None, retry_times, rx)
  | Contents flags sid d :: rx =>
      if negb (sid =? stream) then recv_loop stream retry_times rx
      else if Z.land flags 1 =? 0 then
        if READ_RETRY <? retry_times + 1 then (None, retry_times, rx)
        else recv_loop stream (retry_times + 1) rx
      else (Some d, retry_times, rx)
  end.

(* src/libs/clipboard/src/platform/unix/fuse/cs.rs:530-606 FuseServer::read_node *)
Definition read_node (node : FuseNode) (offset size : Z) (rx : list channel_item)
    : option bytes * list RangeRequest * list channel_item :=
  let request := range_request node offset size in
  let '(r, retries, rx) := recv_loop (fn_stream_id node) 0 rx in
  (r, request :: replicate (Z.to_nat retries) request, rx).

(* src/libs/clipboard/src/platform/unix/fuse/cs.rs:413-457 FuseServer::read *)
Definition read (ino fh offset size : Z) (rx : list channel_item) (s : FuseServer)
    : reply * list RangeRequest * list channel_item :=
  match node_at ino s with
  | None => (ReplyError ENOENT, [], rx)
  | Some entry =>
      if negb (have_handler fh entry) then (ReplyError EBADF, [], rx)
      else if negb (bool_decide (kind (attributes entry) = File)) then (ReplyError ENFILE, [], rx)
      else
        let '(r, sent, rx) := read_node entry offset size rx in
        (match r with Some d => ReplyData d | None => ReplyError EIO end, sent, rx)
  end.

(** ** The tree is the tree of the list *)

Definition named (f : FileDescription) : Prop := is_Some (file_name (fd_name f)).

(** [p] is the directory [name] belongs to: the one of the directories before the
    [k]-th file that has that path (the last, when there are more), or the root
    when there is none. *)
Definition right_parent (files : list FileDescription) (k : nat) (name : Path) (p : Z) : Prop :=
  (exists j d, (j < k)%nat /\ files !! j = Some d /\ p = Z.of_nat j + 2 /\
     fd_kind d = Directory /\ parent name = Some (fd_name d)) \/
  (p = FUSE_ROOT_ID /\
   forall j d, (j < k)%nat -> files !! j = Some d -> fd_kind d = Directory ->
     parent name <> Some (fd_name d)).

(** The inodes, counted from [ino], of the nodes whose parent is [p]. *)
Fixpoint kids (p ino : Z) (l : list FuseNode) : list Z :=
  match l with
  | [] => []
  | n :: l => (if decide (parent_ino n = Some p) then [ino] else []) ++ kids p (ino + 1) l
  end.

(** The node of the [k]-th file. *)
Definition node_of (files : list FileDescription) (k : nat) (f : FileDescription) (n : FuseNode)
    : Prop :=
  at_inode (attributes n) = Z.of_nat k + 2 /\ index n = Z.of_nat k /\
  file_name (fd_name f) = Some (fn_name n) /\ fn_conn_id n = fd_conn_id f /\
  kind (attributes n) = fd_kind f /\ at_size (attributes n) = fd_size f /\
  perm (attributes n) = fd_perm f /\
  exists p, parent_ino n = Some p /\ right_parent files k (fd_name f) p.

Record tree_of (files : list FileDescription) (tree : list FuseNode) : Prop := mkTree {
  to_length : length tree = S (length files);
  to_root : exists r, tree !! 0%nat = Some r /\ parent_ino r = None /\
    at_inode (attributes r) = FUSE_ROOT_ID /\ kind (attributes r) = Directory;
  to_nodes : forall k f, files !! k = Some f ->
    exists n, tree !! S k = Some n /\ node_of files k f n;
  to_children : forall i n, tree !! i = Some n ->
    children n = kids (Z.of_nat i + 1) 2 (tail tree);
  to_handlers : Forall (fun n => handlers n = []) tree;
}.

Lemma kids_app p ino l n :
  kids p ino (l ++ [n]) =
  kids p ino l ++ (if decide (parent_ino n = Some p) then [ino + zlen l] else []).
Proof.
  revert ino. induction l as [|m l IH]; intros ino; simpl.
  - rewrite zlen_nil, Z.add_0_r. by case_decide.
  - rewrite IH, <- app_assoc. f_equal. f_equal. rewrite zlen_cons. case_decide; [|done].
    f_equal. lia.
Qed.

Lemma kids_same p ino l l' :
  parent_ino <$> l = parent_ino <$> l' -> kids p ino l = kids p ino l'.
Proof.
  revert ino l'. induction l as [|n l IH]; intros ino [|n' l'] E; try done.
  rewrite !fmap_cons in E. injection E as E1 E2. simpl. by rewrite E1, (IH (ino + 1) l').
Qed.

(** The directories known after a list of files. *)
Definition known (files : list FileDescription) (m : gmap Path Z) : Prop :=
  (m !! mkPath false [] = Some FUSE_ROOT_ID /\ m !! mkPath true [] = Some FUSE_ROOT_ID) /\
  (forall path ino, m !! path = Some ino ->
    (ino = FUSE_ROOT_ID /\ components path = []) \/
    exists j d, files !! j = Some d /\ ino = Z.of_nat j + 2 /\ fd_kind d = Directory /\
      path = fd_name d) /\
  (forall j d, files !! j = Some d -> fd_kind d = Directory -> is_Some (m !! fd_name d)).

Lemma file_name_components p : is_Some (file_name p) -> components p <> [].
Proof. intros [s E] N. unfold file_name in E. by rewrite N in E. Qed.

Lemma parent_right files m name :
  known files m -> Forall named files ->
  right_parent files (length files) name (parent_of m name) /\
  1 <= parent_of m name < Z.of_nat (length files) + 2.
Proof.
  intros (_ & K1 & K2) Hn. unfold parent_of, right_parent, FUSE_ROOT_ID.
  destruct (parent name) as [p|] eqn:Ep; [|split; [|lia]]; [|by right; split].
  destruct (m !! p) as [ino|] eqn:E; simpl.
  - destruct (K1 _ _ E) as [[-> Hc]|(j & d & Ej & -> & Hd & ->)].
    + split; [|unfold FUSE_ROOT_ID; lia]. right. split; [done|]. intros j d _ Ej Hd [= ->].
      rewrite Forall_forall in Hn.
      apply (file_name_components (fd_name d)); [|done]. apply Hn. by eapply list_elem_of_lookup_2.
    + pose proof (lookup_lt_Some _ _ _ Ej). split; [|lia]. left. by exists j, d.
  - split; [|lia]. right. split; [done|]. intros j d _ Ej Hd [= ->].
    destruct (K2 _ _ Ej Hd) as [x Hx]. by rewrite Hx in E.
Qed.

Lemma right_parent_app files l k name p :
  (k <= length files)%nat -> right_parent files k name p -> right_parent (files ++ l) k name p.
Proof.
  intros Hk [(j & d & Hj & Ej & Hrest)|[-> Hno]].
  - left. exists j, d. split_and!; try tauto. by apply lookup_app_l_Some.
  - right. split; [done|]. intros j d Hj Ej. apply (Hno j d Hj).
    by rewrite lookup_app_l in Ej by lia.
Qed.

Lemma node_of_app files l k f n :
  files !! k = Some f -> node_of files k f n -> node_of (files ++ l) k f n.
Proof.
  intros E%lookup_lt_Some (? & ? & ? & ? & ? & ? & ? & p & Hp & Hr).
  repeat split; try done. exists p. split; [done|]. apply right_parent_app; [lia|done].
Qed.

Lemma known_app files m f ino :
  known files m -> ino = Z.of_nat (length files) + 2 -> named f ->
  known (files ++ [f]) (if decide (fd_kind f = Directory) then <[fd_name f := ino]> m else m).
Proof.
  intros ((R1 & R2) & K1 & K2) -> Hn. pose proof (file_name_components _ Hn) as Hc. split_and!.
  - case_decide; [|done]. rewrite lookup_insert_ne; [done|]. intros E. by rewrite E in Hc.
  - case_decide; [|done]. rewrite lookup_insert_ne; [done|]. intros E. by rewrite E in Hc.
  - intros path i Hm.
    assert (m !! path = Some i -> (i = FUSE_ROOT_ID /\ components path = []) \/
      exists j d, (files ++ [f]) !! j = Some d /\ i = Z.of_nat j + 2 /\ fd_kind d = Directory /\
        path = fd_name d) as Old.
    { intros [?|(j & d & Ej & Hrest)]%K1; [by left|]. right. exists j, d.
      split; [by apply lookup_app_l_Some|done]. }
    case_decide as D; [|by apply Old]. destruct (decide (fd_name f = path)) as [<-|N].
    + rewrite lookup_insert_eq in Hm. injection Hm as <-. right. exists (length files), f.
      by rewrite lookup_app_r, Nat.sub_diag by lia.
    + rewrite lookup_insert_ne in Hm by done. by apply Old.
  - intros j d Hj Hd. apply lookup_app_Some in Hj as [Hj|[Hj1 Hj2]].
    + case_decide; [|by apply (K2 j)]. rewrite lookup_insert_is_Some.
      destruct (decide (fd_name f = fd_name d)); [by left|right]. split; [done|by apply (K2 j)].
    + destruct (j - length files)%nat as [|x]; [|by destruct x]. injection Hj2 as ->.
      rewrite decide_True by done. rewrite lookup_insert_eq. eauto.
Qed.

Lemma kids_none p ino l : Forall (fun n => parent_ino n <> Some p) l -> kids p ino l = [].
Proof.
  intros F. revert ino. induction F as [|n l Hn _ IH]; intros ino; simpl; [done|].
  by rewrite decide_False, IH.
Qed.

Lemma right_parent_range files k name p :
  right_parent files k name p -> 1 <= p < Z.of_nat k + 2.
Proof. intros [(j & d & ? & _ & -> & _)|[-> _]]; unfold FUSE_ROOT_ID; lia. Qed.

Lemma node_of_child files k f n ino :
  node_of files k f n -> node_of files k f (add_child ino n).
Proof. intros (? & ? & ? & ? & ? & ? & ? & Hp). repeat split; done. Qed.

Section building.
Context (now : Z) (stream : Z -> Z).

(** The tree after one more file. *)
Lemma tree_of_snoc files tree f k pn p n :
  tree_of files tree -> tree !! k = Some pn -> p = Z.of_nat k + 1 ->
  node_of (files ++ [f]) (length files) f n -> parent_ino n = Some p ->
  children n = [] -> handlers n = [] ->
  tree_of (files ++ [f]) (<[k := add_child (Z.of_nat (length files) + 2) pn]> tree ++ [n]).
Proof.
  intros [L (r & Hr & Hrp & Hri & Hrk) N C Hh] Hk -> Nn Np Nc Nh.
  set (ino := Z.of_nat (length files) + 2). set (tree1 := <[k := add_child ino pn]> tree).
  assert (length tree1 = S (length files)) as L1 by (subst tree1; by rewrite length_insert).
  assert (forall i m, tree1 !! i = Some m ->
    exists m0, tree !! i = Some m0 /\ (m = m0 /\ i <> k \/ m = add_child ino m0 /\ i = k)) as I1.
  { intros i m Hm. subst tree1. destruct (decide (i = k)) as [->|Ne].
    - rewrite list_lookup_insert_eq in Hm by (by eapply lookup_lt_Some). injection Hm as <-. eauto.
    - rewrite list_lookup_insert_ne in Hm by done. eauto 10. }
  assert (forall i m0, tree !! i = Some m0 ->
    exists m, tree1 !! i = Some m /\ (m = m0 \/ m = add_child ino m0)) as I2.
  { intros i m0 Hm. subst tree1. destruct (decide (i = k)) as [->|Ne].
    - rewrite list_lookup_insert_eq by (by eapply lookup_lt_Some). rewrite Hk in Hm.
      injection Hm as <-. eauto.
    - rewrite list_lookup_insert_ne by done. eauto. }
  assert (forall j g, (files ++ [f]) !! j = Some g ->
    exists m, (tree1 ++ [n]) !! S j = Some m /\ node_of (files ++ [f]) j g m) as Nodes.
  { intros j g Hg. apply lookup_app_Some in Hg as [Hg|[Hg1 Hg2]].
    - destruct (N _ _ Hg) as (m0 & Hm0 & O). destruct (I2 _ _ Hm0) as (m & Hm & Hor).
      exists m. split; [by apply lookup_app_l_Some|].
      apply node_of_app; [done|]. destruct Hor as [->| ->]; [done|by apply node_of_child].
    - destruct (j - length files)%nat as [|x] eqn:Ej; [|by destruct x]. injection Hg2 as ->.
      assert (j = length files) as -> by lia. exists n. split; [|done].
      by rewrite lookup_app_r, L1, Nat.sub_diag by lia. }
  assert (tail (tree1 ++ [n]) = tail tree1 ++ [n]) as T by (by destruct tree1).
  assert (forall q i, kids q i (tail tree1) = kids q i (tail tree)) as K.
  { intros q i. apply kids_same. subst tree1. destruct tree as [|t tree]; [done|].
    destruct k as [|k]; simpl; [done|]. simpl in Hk.
    rewrite list_fmap_insert, list_insert_id; [done|]. by rewrite list_lookup_fmap, Hk. }
  assert (zlen (tail tree1) = Z.of_nat (length files)) as Lt.
  { unfold zlen. destruct tree1; simpl in *; lia. }
  split.
  - rewrite !length_app, L1. simpl. lia.
  - destruct (I2 _ _ Hr) as (m & Hm & Hor). exists m. split; [by apply lookup_app_l_Some|].
    by destruct Hor as [->| ->].
  - exact Nodes.
  - intros i m Hm. rewrite T, kids_app, K, Np, Lt. apply lookup_app_Some in Hm as [Hm|[Hm1 Hm2]].
    + destruct (I1 _ _ Hm) as (m0 & Hm0 & [[-> Ne]|[-> ->]]).
      * rewrite decide_False by (intros [=]; lia). rewrite app_nil_r. by apply C.
      * rewrite decide_True by done. simpl. rewrite (C _ _ Hm0). do 2 f_equal. subst ino. lia.
    + destruct (i - length tree1)%nat as [|x] eqn:Ei; [|by destruct x]. injection Hm2 as <-.
      rewrite Nc. pose proof (lookup_lt_Some _ _ _ Hk) as Hkl.
      rewrite decide_False by (intros [=]; lia). rewrite app_nil_r, kids_none; [done|].
      apply Forall_lookup. intros j m Hj Hp.
      assert (tree !! S j = Some m) as Hj' by (by destruct tree).
      destruct (lookup_lt_is_Some_2 files j) as [g Hg].
      { apply lookup_lt_Some in Hj'. lia. }
      destruct (N _ _ Hg) as (m' & Hm' & O). rewrite Hj' in Hm'. injection Hm' as <-.
      destruct O as (_ & _ & _ & _ & _ & _ & _ & p & Hp' & Hr'). rewrite Hp in Hp'.
      injection Hp' as <-. apply right_parent_range in Hr'. apply lookup_lt_Some in Hg. lia.
  - apply Forall_app_2; [|by repeat constructor]. subst tree1. apply Forall_insert; [done|].
    simpl. rewrite Forall_lookup in Hh. by apply (Hh k).
Qed.

Lemma build_step_spec files tree m f :
  tree_of files tree -> known files m -> Forall named files ->
  Z.of_nat (length files) < 2 ^ 62 ->
  match build_step now stream tree m f with
  | Some (Ok (tree', m')) => named f /\ tree_of (files ++ [f]) tree' /\ known (files ++ [f]) m'
  | Some (Err _) => ~ named f
  | None => False
  end.
Proof.
  intros T K Hn Hl. unfold build_step.
  destruct (parent_right files m (fd_name f) K Hn) as [Rp Rg].
  set (p := parent_of m (fd_name f)) in *.
  assert (zlen tree + FUSE_ROOT_ID = Z.of_nat (length files) + 2) as Ei.
  { unfold zlen, FUSE_ROOT_ID. rewrite (to_length _ _ T). lia. }
  rewrite Ei, wrap_small by (unfold in_u; lia).
  destruct (lookup_lt_is_Some_2 tree (Z.to_nat (p - 1))) as [pn Hk].
  { rewrite (to_length _ _ T). lia. }
  rewrite Hk. cbn [mbind option_bind]. unfold named.
  destruct (file_name (fd_name f)) as [base|] eqn:B; [|by intros [? [=]]].
  split; [by eexists|]. split.
  - apply (tree_of_snoc files tree f _ pn p); try done; [lia|].
    repeat split; simpl; try done.
    + unfold index. simpl. rewrite wrap_small by (unfold in_u; lia). lia.
    + exists p. split; [done|]. by apply right_parent_app.
  - apply known_app; [done|done|]. unfold named. rewrite B. eauto.
Qed.

Lemma build_loop_spec rest files tree m :
  tree_of files tree -> known files m -> Forall named files ->
  Z.of_nat (length files + length rest) < 2 ^ 62 ->
  match build_loop now stream tree m rest with
  | Some (Ok tree') => Forall named (files ++ rest) /\ tree_of (files ++ rest) tree'
  | Some (Err _) => ~ Forall named (files ++ rest)
  | None => False
  end.
Proof.
  revert files tree m. induction rest as [|f rest IH]; intros files tree m T K Hn Hl.
  { simpl. by rewrite app_nil_r. }
  cbn [build_loop]. cbn [length] in Hl.
  pose proof (build_step_spec files tree m f T K Hn ltac:(lia)) as St.
  destruct (build_step now stream tree m f) as [[[tree' m']|e]|]; cbn [mbind option_bind]; [| |done].
  - destruct St as (Hf & T' & K'). replace (files ++ f :: rest) with ((files ++ [f]) ++ rest)
      by (by rewrite <- app_assoc).
    apply (IH (files ++ [f]) tree' m'); [done|done| |].
    + apply Forall_app_2; [done|by repeat constructor].
    + rewrite length_app. simpl. lia.
  - intros [_ [Hf _]%Forall_cons]%Forall_app. done.
Qed.

Lemma build_tree_base :
  tree_of [] [new_root now (stream FUSE_ROOT_ID)] /\
  known [] (<[mkPath false [] := FUSE_ROOT_ID]> {[mkPath true [] := FUSE_ROOT_ID]}).
Proof.
  split.
  - split; simpl; try done.
    + eexists. split; [reflexivity|]. done.
    + intros [|i] n; simpl; [intros [= <-]|destruct i; intros [=]]. done.
    + by repeat constructor.
  - split_and!.
    + apply lookup_insert_eq.
    + by vm_compute.
    + intros path ino [[<- <-]|[_ [<- <-]%lookup_singleton_Some]]%lookup_insert_Some; by left.
    + done.
Qed.

(** The tree of the pasted files is the tree of the list: building it never
    indexes beyond it, and succeeds exactly when every path ends in a name.  Then
    there is one node for each file, in order, with its name, kind, size and mode,
    whose parent is the directory of the list that precedes it and has its path's
    parent as its path, or the root when there is none; and the children of a node
    are, in order and without repetition, the inodes whose parent it is. *)
Theorem build_tree_correct files :
  Z.of_nat (length files) < 2 ^ 62 ->
  match build_tree now stream files with
  | Some (Ok tree) => Forall named files /\ tree_of files tree
  | Some (Err _) => ~ Forall named files
  | None => False
  end.
Proof.
  intros Hl. destruct build_tree_base as [T K].
  by apply (build_loop_spec files [] [new_root now (stream FUSE_ROOT_ID)]).
Qed.

End building.

(** ** Handles *)

Lemma search_loop_range fuel base size x l :
  (1 <= size)%nat -> (base <= search_loop fuel base size x l < base + size)%nat.
Proof.
  revert base size. induction fuel as [|fuel IH]; intros base size Hs; cbn [search_loop]; [lia|].
  case_decide; [lia|].
  pose proof (Nat.div_lt size 2 ltac:(lia) ltac:(lia)).
  assert (1 <= size / 2)%nat by (apply Nat.div_le_lower_bound; lia).
  destruct (x <? _); [specialize (IH base (size - size / 2)%nat ltac:(lia))|
    specialize (IH (base + size / 2)%nat (size - size / 2)%nat ltac:(lia))]; lia.
Qed.

Lemma sorted_lookup_lt l i j x y :
  StronglySorted Z.lt l -> l !! i = Some x -> l !! j = Some y -> (i < j)%nat -> x < y.
Proof.
  intros S. revert i j. induction S as [|z l _ IH F]; intros i j Hi Hj Hij; [done|].
  destruct j as [|j]; [lia|]. simpl in Hj. destruct i as [|i]; simpl in Hi.
  - injection Hi as ->. rewrite Forall_forall in F. apply F. by eapply list_elem_of_lookup_2.
  - apply (IH i j); [done|done|lia].
Qed.

Lemma search_loop_finds fuel base size x l k :
  StronglySorted Z.lt l -> l !! k = Some x -> (base <= k < base + size)%nat ->
  (base + size <= length l)%nat -> (size <= fuel)%nat -> search_loop fuel base size x l = k.
Proof.
  intros Hl Hk. revert base size. induction fuel as [|fuel IH]; intros base size Hb Hs Hf;
    cbn [search_loop]; [lia|].
  case_decide; [lia|].
  pose proof (Nat.div_lt size 2 ltac:(lia) ltac:(lia)).
  assert (1 <= size / 2)%nat by (apply Nat.div_le_lower_bound; lia).
  assert (size / 2 * 2 <= size)%nat by (rewrite Nat.mul_comm; apply Nat.mul_div_le; lia).
  set (mid := (base + size / 2)%nat).
  destruct (lookup_lt_is_Some_2 l mid) as [y My]; [subst mid; lia|].
  rewrite My. cbn [default from_option id].
  destruct (decide (k < mid)%nat) as [Lt|Ge].
  - rewrite (proj2 (Z.ltb_lt _ _)) by (by apply (sorted_lookup_lt l k mid)).
    apply IH; subst mid; lia.
  - rewrite (proj2 (Z.ltb_ge _ _)); [apply IH; subst mid; lia|].
    destruct (decide (k = mid)) as [->|]; [rewrite Hk in My; injection My as ->; lia|].
    assert (y < x); [|lia]. apply (sorted_lookup_lt l mid k); try done. lia.
Qed.

Lemma binary_search_spec x l i :
  StronglySorted Z.lt l -> binary_search x l = Some i <-> l !! i = Some x.
Proof.
  intros Hl. unfold binary_search. destruct (decide (l = [])) as [->|N]; [done|].
  assert (1 <= length l)%nat as L by (destruct l; [done|simpl; lia]).
  pose proof (search_loop_range (length l) 0 (length l) x l L) as R.
  set (b := search_loop _ _ _ _ _) in *.
  destruct (lookup_lt_is_Some_2 l b) as [y Hy]; [lia|]. rewrite Hy. cbn [default from_option id].
  split.
  - destruct (Z.eqb_spec y x) as [->|]; [|done]. by intros [= <-].
  - intros Hi. pose proof (lookup_lt_Some _ _ _ Hi).
    assert (b = i) as -> by (apply search_loop_finds; auto; lia).
    rewrite Hi in Hy. injection Hy as ->. by rewrite Z.eqb_refl.
Qed.

Lemma have_handler_spec fh n :
  StronglySorted Z.lt (handlers n) -> have_handler fh n = true <-> fh ∈ handlers n.
Proof.
  intros Hs. unfold have_handler. rewrite bool_decide_eq_true, list_elem_of_lookup. split.
  - intros [i E]. exists i. by apply binary_search_spec.
  - intros [i E]. exists i. by apply binary_search_spec.
Qed.

(** ** What a handle is good for

    [opened] is the abstract state: the handles that were given out and not taken
    back, each with its inode. *)

Inductive fuse_event : Type :=
| EvLoad (now : Z) (stream : Z -> Z) (l : list FileDescription)
| EvOpen (ino : Z)
| EvOpendir (ino : Z)
| EvRelease (ino fh : Z)
| EvReleasedir (ino fh : Z).

Inductive fuse_result : Type :=
| Replied (r : reply)
| Loaded (r : result CliprdrError unit)
| Panicked.

Definition replied (p : reply * FuseServer) : fuse_result * FuseServer :=
  (Replied (fst p), snd p).

Definition fuse_step (ev : fuse_event) (s : FuseServer) : fuse_result * FuseServer :=
  match ev with
  | EvLoad now stream l =>
      match load_file_list now stream l s with
      | Some (r, s) => (Loaded r, s)
      | None => (Panicked, s)
      end
  | EvOpen ino => replied (open ino s)
  | EvOpendir ino => replied (opendir ino s)
  | EvRelease ino fh => replied (release ino fh s)
  | EvReleasedir ino fh => replied (releasedir ino fh s)
  end.

Definition track (ev : fuse_event) (r : fuse_result) (opened : gmap Z Z) : gmap Z Z :=
  match ev, r with
  | EvLoad _ _ _, Loaded (Ok _) => ∅
  | (EvOpen ino | EvOpendir ino), Replied (ReplyOpened fh) => <[fh := ino]> opened
  | (EvRelease _ fh | EvReleasedir _ fh), Replied ReplyOk => delete fh opened
  | _, _ => opened
  end.

Fixpoint fuse_run (evs : list fuse_event) (s : FuseServer) (opened : gmap Z Z)
    : FuseServer * gmap Z Z :=
  match evs with
  | [] => (s, opened)
  | ev :: evs => let '(r, s) := fuse_step ev s in fuse_run evs s (track ev r opened)
  end.

(** Inodes are 64-bit, and a list of files fits in memory. *)
Definition ev_fits (ev : fuse_event) : Prop :=
  match ev with
  | EvLoad _ _ l => Z.of_nat (length l) < 2 ^ 62
  | EvOpen i | EvOpendir i | EvRelease i _ | EvReleasedir i _ => in_u 64 i
  end.

(** The handles of the nodes are those of the abstract state. *)
Record tracked (s : FuseServer) (opened : gmap Z Z) : Prop := mkTracked {
  tr_sorted : forall ino n, node_at ino s = Some n -> StronglySorted Z.lt (handlers n);
  tr_handlers : forall ino n fh, in_u 64 ino -> node_at ino s = Some n ->
    fh ∈ handlers n <-> opened !! fh = Some ino;
  tr_bound : forall ino n fh, node_at ino s = Some n -> fh ∈ handlers n ->
    fh < file_handle_counter s;
  tr_fresh : forall fh ino, opened !! fh = Some ino -> fh < file_handle_counter s;
  tr_counter : 0 <= file_handle_counter s;
}.

Lemma node_at_set ino n m s :
  node_at ino s = Some m -> node_at ino (set_node ino n s) = Some n.
Proof.
  unfold node_at, set_node. simpl. unfold zlen. rewrite length_insert.
  destruct (Z.ltb_spec (usize (ino - 1)) (Z.of_nat (length (files s)))); [|done].
  intros E. rewrite list_lookup_insert_eq; [done|]. by eapply lookup_lt_Some.
Qed.

Lemma node_at_set_other ino i n s :
  usize (i - 1) <> usize (ino - 1) -> node_at i (set_node ino n s) = node_at i s.
Proof.
  intros N. unfold node_at, set_node. simpl. unfold zlen. rewrite length_insert.
  destruct (Z.ltb_spec (usize (i - 1)) (Z.of_nat (length (files s)))); [|done].
  apply list_lookup_insert_ne. pose proof (wrap_range 64 (i - 1) ltac:(lia)).
  pose proof (wrap_range 64 (ino - 1) ltac:(lia)). unfold in_u in *. lia.
Qed.

Lemma same_index i j : in_u 64 i -> in_u 64 j -> usize (i - 1) = usize (j - 1) -> i = j.
Proof. unfold in_u, wrap. intros Hi Hj E. zdm. Qed.

Lemma node_at_index i j s : usize (i - 1) = usize (j - 1) -> node_at i s = node_at j s.
Proof. unfold node_at. by intros ->. Qed.

(** A new handle. *)
Lemma tracked_open ino s entry opened :
  tracked s opened -> in_u 64 ino -> node_at ino s = Some entry ->
  file_handle_counter s + 1 < 2 ^ 64 ->
  tracked (set_node ino (add_handler (file_handle_counter s) entry) (snd (alloc_fd s)))
    (<[file_handle_counter s := ino]> opened).
Proof.
  intros [S Hh B F C] Hi E Hc. set (fh := file_handle_counter s) in *.
  set (s1 := snd (alloc_fd s)).
  assert (forall i, node_at i s1 = node_at i s) as N1 by done.
  assert (file_handle_counter s1 = fh + 1) as C1.
  { subst s1. simpl. apply wrap_small. unfold in_u. fold fh. lia. }
  assert (forall fh', fh' ∈ handlers entry -> fh' < fh) as Below by (intros fh'; by apply (B ino)).
  assert (forall i n, node_at i (set_node ino (add_handler fh entry) s1) = Some n ->
    (usize (i - 1) = usize (ino - 1) /\ n = add_handler fh entry) \/
    (usize (i - 1) <> usize (ino - 1) /\ node_at i s = Some n)) as Cases.
  { intros i n Hn. destruct (decide (usize (i - 1) = usize (ino - 1))) as [Eq|Ne].
    - left. split; [done|]. rewrite (node_at_index i ino) in Hn by done.
      rewrite (node_at_set ino _ entry) in Hn by (by rewrite N1). by injection Hn as <-.
    - right. split; [done|]. by rewrite node_at_set_other in Hn. }
  split.
  - intros i n [[_ ->]|[_ Hn]]%Cases; [|by apply (S i)]. simpl. apply StronglySorted_app_2.
    + intros x y Hx ->%list_elem_of_singleton. by apply Below.
    + by apply (S ino).
    + repeat constructor.
  - intros i n fh' Hi' [[Eq ->]|[Ne Hn]]%Cases.
    + assert (i = ino) as -> by (by apply same_index). simpl.
      rewrite elem_of_app, list_elem_of_singleton, lookup_insert_Some.
      rewrite (Hh ino entry fh' Hi E). split.
      * intros [Ho| ->]; [|by left]. right. split; [|done]. intros <-. apply F in Ho. lia.
      * intros [[-> _]|[_ Ho]]; auto.
    + rewrite (Hh i n fh' Hi' Hn), lookup_insert_Some. split.
      * intros Ho. right. split; [|done]. intros <-. apply F in Ho. lia.
      * intros [[_ <-]|[_ Ho]]; [done|done].
  - change (file_handle_counter (set_node ino (add_handler fh entry) s1))
      with (file_handle_counter s1).
    rewrite C1. intros i n fh' [[_ ->]|[_ Hn]]%Cases Hf; cbn [handlers add_handler with_handlers] in *.
    + apply elem_of_app in Hf as [Hf|Hf%list_elem_of_singleton]; [apply Below in Hf|]; lia.
    + apply (B i n) in Hf; [|done]. lia.
  - change (file_handle_counter (set_node ino (add_handler fh entry) s1))
      with (file_handle_counter s1).
    rewrite C1. intros fh' i [[<- _]|[_ Ho]]%lookup_insert_Some; [lia|].
    apply F in Ho. lia.
  - change (0 <= file_handle_counter s1). rewrite C1. lia.
Qed.

Lemma delete_lookup_Some (l : list Z) i k x :
  delete i l !! k = Some x <->
  (k < i)%nat /\ l !! k = Some x \/ (i <= k)%nat /\ l !! S k = Some x.
Proof.
  rewrite list_lookup_delete. case_decide; split; intros H'; [by left| |right; split; [lia|done]|];
    destruct H' as [[? ?]|[? ?]]; try done; lia.
Qed.

Lemma sorted_delete (l : list Z) i : StronglySorted Z.lt l -> StronglySorted Z.lt (delete i l).
Proof.
  intros Hs. revert i. induction Hs as [|x l Hs IH F]; intros i; [constructor|].
  destruct i as [|i]; simpl; [done|]. constructor; [apply IH|].
  rewrite Forall_forall in *. intros y Hy. apply F. apply list_elem_of_lookup in Hy as [k Hk].
  apply delete_lookup_Some in Hk as [[_ Hk]|[_ Hk]]; by eapply list_elem_of_lookup_2.
Qed.

Lemma elem_of_delete (l : list Z) i x y :
  StronglySorted Z.lt l -> l !! i = Some x -> y ∈ delete i l <-> y ∈ l /\ y <> x.
Proof.
  intros Hs E. rewrite !list_elem_of_lookup. split.
  - intros [k Hk]. apply delete_lookup_Some in Hk as [[Hki Hk]|[Hki Hk]].
    + split; [by exists k|]. assert (y < x); [|lia]. by apply (sorted_lookup_lt l k i).
    + split; [by exists (S k)|]. assert (x < y); [|lia].
      apply (sorted_lookup_lt l i (S k)); try done. lia.
  - intros [[k Hk] N]. destruct (decide (k < i)%nat).
    + exists k. apply delete_lookup_Some. by left.
    + assert (k <> i) by congruence. exists (k - 1)%nat. apply delete_lookup_Some. right.
      split; [lia|]. by replace (S (k - 1)) with k by lia.
Qed.

(** A handle is taken back. *)
Lemma tracked_release ino fh s entry entry' opened :
  tracked s opened -> in_u 64 ino -> node_at ino s = Some entry ->
  unregister fh entry = Some entry' -> tracked (set_node ino entry' s) (delete fh opened).
Proof.
  intros [So Hh B F C] Hi E. unfold unregister.
  destruct (binary_search fh (handlers entry)) as [k|] eqn:Bs; simpl; [|done]. intros [= <-].
  pose proof (So ino entry E) as Se. apply (binary_search_spec fh _ k Se) in Bs.
  set (entry' := with_handlers (delete k (handlers entry)) entry).
  assert (forall i n, node_at i (set_node ino entry' s) = Some n ->
    (usize (i - 1) = usize (ino - 1) /\ n = entry') \/
    (usize (i - 1) <> usize (ino - 1) /\ node_at i s = Some n)) as Cases.
  { intros i n Hn. destruct (decide (usize (i - 1) = usize (ino - 1))) as [Eq|Ne].
    - left. split; [done|]. rewrite (node_at_index i ino) in Hn by done.
      rewrite (node_at_set ino _ entry) in Hn by done. by injection Hn as <-.
    - right. split; [done|]. by rewrite node_at_set_other in Hn. }
  assert (opened !! fh = Some ino) as Ho.
  { apply (Hh ino entry); [done|done|]. by eapply list_elem_of_lookup_2. }
  split; simpl.
  - intros i n [[_ ->]|[_ Hn]]%Cases; [|by apply (So i)]. by apply sorted_delete.
  - intros i n fh' Hi' [[Eq ->]|[Ne Hn]]%Cases.
    + assert (i = ino) as -> by (by apply same_index). simpl.
      rewrite (elem_of_delete _ _ _ _ Se Bs), (Hh ino entry fh' Hi E), lookup_delete_Some.
      naive_solver.
    + rewrite (Hh i n fh' Hi' Hn), lookup_delete_Some. split; [|tauto]. intros Ho'.
      split; [|done]. intros <-. rewrite Ho in Ho'. by injection Ho' as ->.
  - intros i n fh' [[_ ->]|[_ Hn]]%Cases Hf.
    + simpl in Hf. apply (elem_of_delete _ _ _ _ Se Bs) in Hf as [Hf _]. by apply (B ino entry).
    + by apply (B i n).
  - intros fh' i [_ Ho']%lookup_delete_Some. by apply (F _ i).
  - done.
Qed.

Lemma tracked_fresh s c :
  Forall (fun n => handlers n = []) (files s) -> file_handle_counter s = c -> 0 <= c ->
  tracked s ∅.
Proof.
  intros F <- Hc.
  assert (forall ino n, node_at ino s = Some n -> handlers n = []) as E.
  { intros ino n. unfold node_at. destruct (_ <? _); [|done]. rewrite Forall_lookup in F. apply F. }
  split; try done.
  - intros ino n ->%E. constructor.
  - intros ino n fh _ ->%E. split; [by intros ?%elem_of_nil|done].
  - intros ino n fh ->%E. by intros ?%elem_of_nil.
Qed.

Lemma tracked_counter s s' opened :
  tracked s opened -> files s' = files s -> file_handle_counter s <= file_handle_counter s' ->
  tracked s' opened.
Proof.
  intros [So Hh B F C] Ef Hc.
  assert (forall i, node_at i s' = node_at i s) as N by (intros i; unfold node_at; by rewrite Ef).
  split.
  - intros i n. rewrite N. apply So.
  - intros i n fh Hi. rewrite N. by apply Hh.
  - intros i n fh. rewrite N. intros E Hf. specialize (B i n fh E Hf). lia.
  - intros fh i Ho. specialize (F fh i Ho). lia.
  - lia.
Qed.

Lemma load_tracked now stream l s opened :
  tracked s opened -> Z.of_nat (length l) < 2 ^ 62 ->
  exists r s', load_file_list now stream l s = Some (r, s') /\
    file_handle_counter s' = file_handle_counter s /\
    tracked s' (match r with Ok _ => ∅ | Err _ => opened end).
Proof.
  intros T Hl. unfold load_file_list, build_tree. destruct (build_tree_base now stream) as [Tb K].
  pose proof (build_loop_spec now stream l [] _ _ Tb K ltac:(constructor) Hl) as Sp.
  destruct (build_loop _ _ _ _ _) as [[tree|e]|]; [| |done].
  - destruct Sp as [_ [_ _ _ _ Hh]]. eexists _, _. split; [reflexivity|]. split; [done|].
    apply (tracked_fresh _ (file_handle_counter s)); [done|done|apply T].
  - eexists _, _. split; [reflexivity|]. done.
Qed.

Lemma opened_tracked ino s entry opened :
  tracked s opened -> in_u 64 ino -> node_at ino s = Some entry ->
  file_handle_counter s + 1 < 2 ^ 64 ->
  let fh := file_handle_counter s in
  let s' := set_node ino (add_handler fh entry) (snd (alloc_fd s)) in
  tracked s' (<[fh := ino]> opened) /\ file_handle_counter s' <= fh + 1 /\ opened !! fh = None.
Proof.
  intros T Hi E Hc fh s'. split_and!.
  - by apply tracked_open.
  - simpl. pose proof (tr_counter _ _ T). rewrite wrap_small by (unfold in_u; lia). done.
  - apply eq_None_not_Some. intros [i Ho]. apply (tr_fresh _ _ T) in Ho. subst fh. lia.
Qed.

(** What one event does to the tracked handles. *)
Definition step_ok (ev : fuse_event) (s : FuseServer) (opened : gmap Z Z) : Prop :=
  let '(r, s') := fuse_step ev s in
  r <> Panicked /\ tracked s' (track ev r opened) /\
  file_handle_counter s' <= file_handle_counter s + 1 /\
  forall fh, r = Replied (ReplyOpened fh) -> opened !! fh = None.

Lemma step_ok_same ev s opened e :
  tracked s opened -> fuse_step ev s = (Replied (ReplyError e), s) -> step_ok ev s opened.
Proof.
  intros T E. unfold step_ok. rewrite E. split_and!; [done| |lia|done].
  by destruct ev.
Qed.

Lemma fuse_step_ok ev s opened :
  tracked s opened -> ev_fits ev -> file_handle_counter s + 1 < 2 ^ 64 -> step_ok ev s opened.
Proof.
  intros T Hf Hc.
  destruct ev as [now stream l|ino|ino|ino fh|ino fh]; simpl in Hf.
  { destruct (load_tracked now stream l s opened T Hf) as (r & s' & E & Ec & T').
    unfold step_ok. simpl. rewrite E. split_and!; [done|by destruct r|lia|done]. }
  all: destruct (node_at ino s) as [entry|] eqn:E;
    [|eapply (step_ok_same _ _ _ ENOENT); [done|]; simpl; unfold open, opendir, release, releasedir;
      by rewrite E].
  all: unfold step_ok; simpl; unfold open, opendir, release, releasedir; rewrite E.
  1-2: destruct (negb _); [split_and!; simpl; [done|done|lia|done]|].
  1-2: destruct (opened_tracked ino s entry opened T Hf E Hc) as (T' & Hc' & Hn).
  1-2: simpl; split_and!; [done|done|done|by intros fh [= <-]].
  - destruct (unregister fh entry) as [entry'|] eqn:U; simpl; split_and!; try done; try lia.
    by apply (tracked_release ino fh s entry).
  - destruct (negb _); [split_and!; simpl; [done|done|lia|done]|].
    unfold have_handler. destruct (binary_search fh (handlers entry)) as [k|] eqn:Bs.
    2: { simpl; split_and!; [done|done|lia|done]. }
    rewrite (bool_decide_true (is_Some (Some k))) by eauto. simpl.
    split_and!; try done; try lia. apply (tracked_release ino fh s entry); try done.
    unfold unregister. by rewrite Bs.
Qed.

Lemma fuse_run_tracked evs s opened :
  tracked s opened -> Forall ev_fits evs ->
  file_handle_counter s + Z.of_nat (length evs) < 2 ^ 64 ->
  let '(s', opened') := fuse_run evs s opened in
  tracked s' opened' /\
  file_handle_counter s' <= file_handle_counter s + Z.of_nat (length evs).
Proof.
  revert s opened. induction evs as [|ev evs IH]; intros s opened T F Hc.
  { simpl. split; [done|lia]. }
  apply Forall_cons in F as [F1 F2]. cbn [length] in Hc.
  pose proof (fuse_step_ok ev s opened T F1 ltac:(lia)) as St. unfold step_ok in St.
  cbn [fuse_run length]. destruct (fuse_step ev s) as [r s'].
  destruct St as (_ & T' & Hc' & _). specialize (IH s' (track ev r opened) T' F2 ltac:(lia)).
  destruct (fuse_run _ _ _) as [s'' opened'']. destruct IH as [? ?]. split; [done|lia].
Qed.

(** Whatever the kernel opens and closes, and however often a new list of files
    is loaded meanwhile, nothing panics, a handle that is given out is one that
    nobody holds, and a handle is accepted for reading a node exactly when it was
    given out for that node after the last list was loaded and not taken back
    since.  The handles of a node are searched by bisection, which is right because
    they stay sorted. *)
Theorem handles_sound evs ev ino fh node :
  Forall ev_fits (evs ++ [ev]) -> Z.of_nat (length evs) + 1 < 2 ^ 64 -> in_u 64 ino ->
  let '(s, opened) := fuse_run evs server_new ∅ in
  fst (fuse_step ev s) <> Panicked /\
  (fst (fuse_step ev s) = Replied (ReplyOpened fh) -> opened !! fh = None) /\
  (node_at ino s = Some node -> have_handler fh node = true <-> opened !! fh = Some ino).
Proof.
  intros [F [F1 _]%Forall_cons]%Forall_app Hc Hi.
  pose proof (tracked_fresh server_new 0 ltac:(constructor) eq_refl ltac:(lia)) as T.
  pose proof (fuse_run_tracked evs server_new ∅ T F ltac:(simpl; lia)) as R.
  destruct (fuse_run evs server_new ∅) as [s opened]. destruct R as [Ts Hcs]. simpl in Hcs.
  pose proof (fuse_step_ok ev s opened Ts F1 ltac:(lia)) as St. unfold step_ok in St.
  destruct (fuse_step ev s) as [r s']. destruct St as (P & _ & _ & Fr). split_and!; [done|apply Fr|].
  intros E. rewrite have_handler_spec by (by apply (tr_sorted _ _ Ts ino)).
  by apply (tr_handlers _ _ Ts).
Qed.

(** ** Witnesses *)

Definition pasted : list FileDescription :=
  [mkDesc 3 (mkPath false ["d"]) Directory 0 0 0 0 0 PERM_RWX;
   mkDesc 3 (mkPath false ["d"; "a.txt"]) File 0 0 0 0 3 PERM_RWX;
   mkDesc 3 (mkPath false ["b.txt"]) File 0 0 0 0 5 PERM_RWX]%string.

Lemma build_tree_correct_witness :
  exists tree, build_tree 9 (fun i => i) pasted = Some (Ok tree) /\ tree_of pasted tree /\
    children <$> tree = [[2; 4]; [3]; []; []].
Proof.
  pose proof (build_tree_correct 9 (fun i => i) pasted ltac:(done)) as H.
  destruct (build_tree 9 (fun i => i) pasted) as [[tree|e]|] eqn:E.
  - exists tree. split_and!; [done|apply H|]. vm_compute in E. injection E as <-. reflexivity.
  - vm_compute in E. discriminate.
  - vm_compute in E. discriminate.
Defined.

Lemma handles_sound_witness :
  let '(s, opened) := fuse_run [EvLoad 9 (fun i => i) pasted; EvOpen 3; EvOpen 3; EvRelease 3 0]
    server_new ∅ in
  opened !! 1 = Some 3 /\ opened !! 0 = None /\
  (forall node, node_at 3 s = Some node -> have_handler 1 node = true).
Proof.
  assert (Forall ev_fits ([EvLoad 9 (fun i => i) pasted; EvOpen 3; EvOpen 3; EvRelease 3 0] ++
    [EvOpen 4])) as F.
  { cbn [app]. repeat apply Forall_cons_2; try apply Forall_nil_2; simpl; unfold in_u; lia. }
  pose proof (fun node => handles_sound _ (EvOpen 4) 3 1 node F ltac:(simpl; lia)
    ltac:(split; lia)) as H.
  destruct (fuse_run _ _ _) as [s opened] eqn:E.
  assert (opened !! 1 = Some 3 /\ opened !! 0 = None) as [O1 O0].
  { vm_compute in E. injection E as _ <-. by vm_compute. }
  split_and!; [done|done|]. intros node Hn. destruct (H node) as (_ & _ & Hh). by apply Hh.
Defined.
