(* ===== verification/Paste.v ===== *)
(** * Reading a pasted file

    A read of the mounted files goes to the other side as a message and is served
    there from the list of the copied files: [FuseTree] and [ClipFiles] joined. *)

From S2P Require Import Prelude Paths FileDesc ClipFiles FuseTree.

(** What the other side answers to a request. *)
Definition serve_request (disk : Disk) (rq : RangeRequest) (c : ClipFiles)
    : option (list (result CliprdrError ClipboardFile) * ClipFiles) :=
  read_file_contents disk (rq_stream rq) (rq_index rq) (rq_flags rq) (rq_low rq) (rq_high rq)
    (rq_cb rq) c.

(** ** The offset *)

Lemma u64_i32 z : in_u 32 z -> u64 (i32 z) = if z <? 2 ^ 31 then z else z + (2 ^ 64 - 2 ^ 32).
Proof.
  intros Hz. unfold in_u in Hz. unfold swrap, wrap. change (2 ^ 32) with 4294967296 in *.
  change (2 ^ (32 - 1)) with 2147483648. change (2 ^ 31) with 2147483648.
  change (2 ^ 64) with 18446744073709551616. zbool; zdm.
Qed.

(** The position the other side computes: a low half whose top bit is set is taken
    for a negative number, which fills the high half with ones. *)
Lemma range_offset_request n off size :
  0 <= off < 2 ^ 63 ->
  let rq := range_request n off size in
  range_offset (rq_high rq) (rq_low rq) =
  if off mod 2 ^ 32 <? 2 ^ 31 then off else 2 ^ 64 - 2 ^ 32 + off mod 2 ^ 32.
Proof.
  intros Ho. cbn [range_request rq_high rq_low]. unfold range_offset.
  replace (2 ^ 32 - 1) with (Z.ones 32) by done. rewrite Z.land_ones, Z.shiftr_div_pow2 by lia.
  pose proof (Z.mod_pos_bound off (2 ^ 32) ltac:(lia)) as Hm.
  assert (0 <= off / 2 ^ 32 < 2 ^ 31) as Hd by zdm.
  rewrite !u64_i32 by (unfold in_u; lia). rewrite (proj2 (Z.ltb_lt (off / _) _)) by lia.
  rewrite Z.shiftl_mul_pow2 by lia. rewrite wrap_small by (unfold in_u; lia).
  rewrite <- Z.shiftl_mul_pow2 by lia. destruct (Z.ltb_spec (off mod 2 ^ 32) (2 ^ 31)).
  - rewrite lor_shiftl_add_r by lia. zdm.
  - replace (off mod 2 ^ 32 + (2 ^ 64 - 2 ^ 32))
      with (off mod 2 ^ 32 + Z.ones 32 * 2 ^ 32) by (change (Z.ones 32) with (2 ^ 32 - 1); lia).
    rewrite <- (lor_shiftl_add (off mod 2 ^ 32) (Z.ones 32) 32) by lia.
    rewrite (Z.lor_comm (off mod 2 ^ 32)), Z.lor_assoc, <- Z.shiftl_lor.
    rewrite (Z.lor_ones_low (off / 2 ^ 32) 32); [|lia|].
    + rewrite lor_shiftl_add_r by lia. change (Z.ones 32) with (2 ^ 32 - 1). lia.
    + destruct (decide (off / 2 ^ 32 = 0)) as [->|]; [done|]. apply Z.log2_lt_pow2; lia.
Qed.

(** The answer of the other side, refused where the two halves of the offset do not fit. *)
Lemma range_served disk c k f content n off size :
  Forall (servable disk) (file_list c) -> (sv_file <$> file_list c) !! k = Some f ->
  is_dir f = false -> disk (lf_path f) = Some content ->
  index n = Z.of_nat k -> Z.of_nat k < 2 ^ 31 ->
  0 <= off <= lf_size f -> 0 <= size < 2 ^ 31 ->
  exists audit c', serve_request disk (range_request n off size) c =
    Some ((Ok <$> audit) ++ [if off mod 2 ^ 32 <? 2 ^ 31
                    then Ok (FileContentsResponse 1 (fn_stream_id n)
                               (take (Z.to_nat size) (drop (Z.to_nat off) content)))
                    else Err invalid_offset], c') /\
    Forall (fun m => exists l, m = Files l) audit /\ (off mod 2 ^ 32 <? 2 ^ 31 = false -> c' = c).
Proof.
  intros F Hf Hd Hc Hi Hk Ho Hz.
  destruct (served_at_file _ c k f eq_refl Hf) as (s & Es & Fs & El).
  assert (0 <= lf_size f < 2 ^ 63) as Hl.
  { rewrite <- Fs. apply (sb_size disk). by eapply Forall_lookup_1. }
  pose proof (range_offset_request n off size ltac:(lia)) as E. simpl in E.
  assert (contents_request (fn_stream_id n) (i32 (index n)) 2 (i32 (Z.land off (2 ^ 32 - 1)))
    (i32 (Z.shiftr off 32)) (i32 size) = Some (Range (fn_stream_id n) (Z.of_nat k)
      (if off mod 2 ^ 32 <? 2 ^ 31 then off else 2 ^ 64 - 2 ^ 32 + off mod 2 ^ 32) size)) as Er.
  { unfold contents_request. change (2 =? 1) with false. change (2 =? 2) with true. cbv iota.
    rewrite E, Hi, !u64_i32 by (unfold in_u; lia). zbool; try lia; done. }
  unfold serve_request, read_file_contents. cbn [range_request rq_stream rq_index rq_flags rq_low
    rq_high rq_cb]. rewrite Er.
  assert (forall req, exists audit, match get_files_for_audit disk req c with Some f => [Ok f] | None => [] end =
    Ok (E := CliprdrError) <$> audit /\ Forall (fun m => exists l, m = Files l) audit) as Au.
  { intros req. destruct (get_files_for_audit disk req c) as [g|] eqn:G; [exists [g]|by exists []].
    split; [done|]. apply Forall_singleton. unfold get_files_for_audit in G.
    destruct req; [done|]. destruct (_ && _); [|done]. case_decide; [done|]. injection G as <-. by eexists. }
  destruct (Au (Range (fn_stream_id n) (Z.of_nat k)
      (if off mod 2 ^ 32 <? 2 ^ 31 then off else 2 ^ 64 - 2 ^ 32 + off mod 2 ^ 32) size)) as (audit & -> & Fa).
  destruct (off mod 2 ^ 32 <? 2 ^ 31) eqn:B.
  - destruct (serve_answered disk _ _ _ c F eq_refl
      (answered_range disk (sv_file <$> file_list c) (fn_stream_id n) k f off size content
        Hf Hd Hc Ho ltac:(lia))) as (c' & -> & _).
    cbn [mbind option_bind]. by exists audit, c'.
  - simpl. rewrite Es, Fs.
    pose proof (Z.mod_pos_bound off (2 ^ 32) ltac:(lia)). apply Z.ltb_ge in B.
    rewrite (proj2 (Z.ltb_lt _ _)) by lia. cbn [mbind option_bind]. by exists audit, c.
Qed.

(** ** The reply *)

(** What the reader passes over: another stream's reply, or a refusal, after which
    the request is sent again. *)
Definition skipped (sid : Z) (i : channel_item) : Prop :=
  match i with
  | Contents flags s _ => s <> sid \/ Z.land flags 1 = 0
  | OtherReply => False
  end.

Definition refusal (sid : Z) (i : channel_item) : bool :=
  match i with Contents flags s _ => s =? sid | OtherReply => false end.

Definition refusals (sid : Z) (l : list channel_item) : Z := zlen (List.filter (refusal sid) l).

Lemma refusals_nil sid : refusals sid [] = 0.
Proof. done. Qed.

Lemma recv_loop_some sid retries rx d retries' after :
  retries <= READ_RETRY ->
  recv_loop sid retries rx = (Some d, retries', after) <->
  exists before flags, rx = before ++ Contents flags sid d :: after /\ Z.land flags 1 <> 0 /\
    Forall (skipped sid) before /\ retries' = retries + refusals sid before /\
    retries' <= READ_RETRY.
Proof.
  revert retries. induction rx as [|i rx IH]; intros retries Hr; cbn [recv_loop].
  { split; [done|]. by intros ([|] & ? & ? & _). }
  assert (forall before flags, i :: rx = before ++ Contents flags sid d :: after ->
    (before = [] /\ i = Contents flags sid d /\ rx = after) \/
    exists b, before = i :: b /\ rx = b ++ Contents flags sid d :: after) as Split.
  { intros [|j b] flags [= -> ->]; eauto. }
  destruct i as [flags s d'|].
  2: { split; [done|]. intros (b & fl & E & _ & Fb & _). apply Split in E.
       destruct E as [(_ & ? & _)|(b' & -> & _)]; [done|]. by inversion Fb. }
  destruct (Z.eqb_spec s sid) as [->|N]; cbn [negb].
  2: { rewrite IH by done. split.
    - intros (b & fl & -> & O & Fb & Er & L). exists (Contents flags s d' :: b), fl.
      split_and!; try done; [constructor; [by left|done]|].
      unfold refusals. simpl. by rewrite (proj2 (Z.eqb_neq _ _)).
    - intros (b & fl & E & O & Fb & Er & L). apply Split in E as [(_ & [= _ Es _] & _)|(b' & -> & ->)];
        [congruence|]. exists b', fl. apply Forall_cons in Fb as [_ Fb].
      unfold refusals in *. simpl in Er. rewrite (proj2 (Z.eqb_neq _ _)) in Er by done. done. }
  destruct (Z.eqb_spec (Z.land flags 1) 0) as [Z0|NZ].
  2: { split.
    - intros [= -> -> ->]. exists [], flags. split_and!; try done.
      rewrite refusals_nil. lia.
    - intros (b & fl & E & O & Fb & Er & L). apply Split in E as [(-> & [= <- <-] & ->)|(b' & -> & _)].
      + rewrite refusals_nil, Z.add_0_r in Er. by subst.
      + apply Forall_cons in Fb as [[?|?] _]; done. }
  assert (forall b, refusals sid (Contents flags sid d' :: b) = 1 + refusals sid b) as Rc.
  { intros b. unfold refusals. simpl. by rewrite Z.eqb_refl, zlen_cons. }
  destruct (Z.ltb_spec READ_RETRY (retries + 1)) as [Hlt|Hge].
  - split; [done|]. intros (b & fl & E & O & Fb & Er & L).
    apply Split in E as [(-> & [= <- <-] & ->)|(b' & -> & _)]; [done|].
    rewrite Rc in Er. pose proof (zlen_nonneg (List.filter (refusal sid) b')).
    unfold refusals in Er. lia.
  - rewrite IH by done. split.
    + intros (b & fl & -> & O & Fb & Er & L). exists (Contents flags sid d' :: b), fl.
      split_and!; try done; [constructor; [by right|done]|]. rewrite Rc. lia.
    + intros (b & fl & E & O & Fb & Er & L). apply Split in E as [(-> & [= <- <-] & ->)|(b' & -> & ->)];
        [done|]. exists b', fl. apply Forall_cons in Fb as [_ Fb]. rewrite Rc in Er.
      split_and!; try done. lia.
Qed.

(** A read returns the first reply of its stream that is not a refusal, if at
    most three refusals and nothing but replies come before it, and asks once more
    for each refusal.  Which reply that is does not depend on the offset and the
    size that were asked for ([late_reply] below). *)
Theorem read_takes_next_reply n off size rx d sent after :
  read_node n off size rx = (Some d, sent, after) <->
  exists before flags,
    rx = before ++ Contents flags (fn_stream_id n) d :: after /\ Z.land flags 1 <> 0 /\
    Forall (skipped (fn_stream_id n)) before /\
    refusals (fn_stream_id n) before <= READ_RETRY /\
    sent = replicate (S (Z.to_nat (refusals (fn_stream_id n) before))) (range_request n off size).
Proof.
  unfold read_node. destruct (recv_loop (fn_stream_id n) 0 rx) as [[r k] rest] eqn:E.
  transitivity (exists k', recv_loop (fn_stream_id n) 0 rx = (Some d, k', after) /\
    sent = replicate (S (Z.to_nat k')) (range_request n off size)).
  - rewrite E. split; [intros [= -> <- ->]; by eexists|]. by intros (k' & [= -> -> ->] & ->).
  - split.
    + intros (k' & Ek & ->). apply recv_loop_some in Ek; [|done].
      destruct Ek as (b & fl & -> & ? & ? & -> & ?). exists b, fl. by rewrite Z.add_0_l in *.
    + intros (b & fl & -> & ? & ? & ? & ->). exists (refusals (fn_stream_id n) b). split; [|done].
      apply recv_loop_some; [done|]. exists b, fl. by rewrite Z.add_0_l.
Qed.

(** ** A read and its answers *)

(** What an answer puts on the channel of the reader: contents, a refusal, or, for the list of
    names, which is for the other side's records, nothing. *)
(* src/src/clipboard_file.rs:366-382 serve_clip_messages *)
Definition channel_of (stream : Z) (r : result CliprdrError ClipboardFile) : list channel_item :=
  match r with
  | Ok (FileContentsResponse flags sid d) => [Contents flags sid d]
  | Ok (Files _) => []
  | Err _ => [Contents 0x2 stream []]
  end.

(** The answers to requests, one after the other. *)
Fixpoint answer_all (disk : Disk) (rqs : list RangeRequest) (c : ClipFiles) : option (list channel_item * ClipFiles) :=
  match rqs with
  | [] => Some ([], c)
  | rq :: rqs =>
      '(rs, c) ← serve_request disk rq c;
      '(items, c) ← answer_all disk rqs c;
      Some (concat (channel_of (rq_stream rq) <$> rs) ++ items, c)
  end.

Lemma audit_silent stream audit : Forall (fun m => exists l, m = Files l) audit ->
  forall r, concat (channel_of stream <$> ((Ok <$> audit) ++ [r])) = channel_of stream r.
Proof. induction 1 as [|m audit [l ->] F IH]; intros r; [apply app_nil_r|apply IH]. Qed.

Lemma answer_again disk rq rs c k : serve_request disk rq c = Some (rs, c) ->
  answer_all disk (replicate k rq) c = Some (concat (replicate k (concat (channel_of (rq_stream rq) <$> rs))), c).
Proof. intros E. induction k as [|k IH]; [done|]. cbn [replicate answer_all]. rewrite E. cbn. by rewrite IH. Qed.

(** Replies of other streams are passed over. *)
Lemma recv_stale sid retries stale rx : Forall (fun i => exists flags s d, i = Contents flags s d /\ s <> sid) stale ->
  recv_loop sid retries (stale ++ rx) = recv_loop sid retries rx.
Proof.
  induction 1 as [|i stale (flags & s & d & -> & N) F IH]; [done|]. cbn [app recv_loop].
  by rewrite (proj2 (Z.eqb_neq _ _) N).
Qed.

(** C37. What a read of a pasted file returns.  The read goes to the other side as a request, again
    after each refusal, and what is answered to just those requests comes back over the
    channel, behind replies to other streams.  Then a read by an open handle returns the bytes of
    the copied file at that offset after one request, wherever bit 31 of the offset is
    clear; where it is set (from 2 GiB on in every 4 GiB) the halves of the offset are put together
    wrongly, the request is refused as beyond the end four times, and the read fails with an I/O
    error.  That nothing is left on the channel of an earlier read of the same file is needed: a
    reply that came too late for its read is what the next one returns (see [late_reply]). *)
Theorem paste_reads_range disk c k f content n off size ino fh s stale after :
  Forall (servable disk) (file_list c) -> (sv_file <$> file_list c) !! k = Some f ->
  is_dir f = false -> disk (lf_path f) = Some content ->
  node_at ino s = Some n -> have_handler fh n = true -> kind (attributes n) = File ->
  index n = Z.of_nat k -> Z.of_nat k < 2 ^ 31 ->
  0 <= off <= lf_size f -> 0 <= size < 2 ^ 31 ->
  Forall (fun i => exists flags s d, i = Contents flags s d /\ s <> fn_stream_id n) stale ->
  exists sent items c', answer_all disk sent c = Some (items, c') /\
    read ino fh off size (stale ++ items ++ after) s =
      (if off mod 2 ^ 32 <? 2 ^ 31 then ReplyData (take (Z.to_nat size) (drop (Z.to_nat off) content))
       else ReplyError EIO, sent, after).
Proof.
  intros F Hf Hd Hc Hn Hh Hk Hi Hl Ho Hz St.
  destruct (range_served disk c k f content n off size F Hf Hd Hc Hi Hl Ho Hz) as (audit & c' & E & Fa & Same).
  unfold read. rewrite Hn, Hh, Hk, bool_decide_true by done. cbn [negb].
  destruct (off mod 2 ^ 32 <? 2 ^ 31).
  - exists [range_request n off size]. eexists _, _. split.
    { cbn [answer_all]. rewrite E. cbn [mbind option_bind]. by rewrite audit_silent. }
    unfold read_node. rewrite recv_stale by done. cbn. by rewrite Z.eqb_refl.
  - rewrite Same in E by done. exists (replicate 4 (range_request n off size)). eexists _, _. split.
    { rewrite (answer_again _ _ _ _ 4 E). by rewrite audit_silent. }
    unfold read_node. rewrite recv_stale by done. cbn. by rewrite !Z.eqb_refl.
Qed.

(** ** Witnesses *)

(** The file is open by handle 0; a reply to another file is on the channel. *)
Definition opened_node : FuseNode := mkNode 3 77 1 (Some 2) "a.txt" (attributes_new 0 3 3 PERM_RWX File) [] [0].
Definition opened_server : FuseServer :=
  mkServer 1 [mkNode 3 0 0 None "" (attributes_new 0 1 0 PERM_RWX Directory) [2] []; opened_node] 1.

Lemma paste_reads_range_witness :
  exists sent items c', answer_all a_disk sent (a_clip a_list) = Some (items, c') /\
    read 2 0 1 4096 ([Contents 1 5 [Byte.x7a]] ++ items ++ []) opened_server = (ReplyData [Byte.x62; Byte.x63], sent, []).
Proof.
  apply (paste_reads_range a_disk (a_clip a_list) 1 a_txt [Byte.x61; Byte.x62; Byte.x63] opened_node 1 4096 2 0
    opened_server [Contents 1 5 [Byte.x7a]] [] a_clip_servable eq_refl eq_refl); try (simpl; lia); try done.
  apply Forall_singleton. by exists 1, 5, [Byte.x7a].
Defined.

(** A file of 3 GiB: the position 2 GiB is sent as the lowest negative number. *)
Example request_beyond_2gib n :
  (fun rq => (rq_high rq, rq_low rq, range_offset (rq_high rq) (rq_low rq)))
    (range_request n (2 ^ 31) 4096) = (0, - 2 ^ 31, 2 ^ 64 - 2 ^ 31).
Proof. reflexivity. Qed.

(** A read times out; its late reply is what a read of another range returns. *)
Example late_reply :
  let n := mkNode 3 77 1 (Some 2) "a.txt" (attributes_new 0 3 5 PERM_RWX File) [] [] in
  let late := Contents 1 77 [Byte.x61; Byte.x62] in
  read_node n 0 2 [] = (None, [range_request n 0 2], []) /\
  fst (fst (read_node n 2 2 [late; Contents 1 77 [Byte.x63; Byte.x64]])) =
    Some [Byte.x61; Byte.x62].
Proof. split; reflexivity. Qed.
