(* ===== verification/Utf8.v ===== *)
(** * Text

    The part of the standard library's strings the modelled code relies on: a
    [String] is a sequence of bytes that is valid UTF-8, [from_utf8_lossy] replaces
    what is not, and [chars] counts the first bytes of the characters. *)

From S2P Require Import Prelude.

(** What the bytes start with: a character of [n] bytes, or [n] bytes that start
    none. *)
Inductive utf8_start : Type := Good (n : nat) | Bad (n : nat).

Definition within (lo hi : Z) (b : option byte) : bool :=
  match b with
  | Some b => (lo <=? byte.unsigned b) && (byte.unsigned b <=? hi)
  | None => false
  end.

Definition cont : option byte -> bool := within 0x80 0xBF.

(** The allowed second bytes depend on the first. *)
Definition second_ok (b0 : Z) (b1 : option byte) : bool :=
  if b0 =? 0xE0 then within 0xA0 0xBF b1
  else if b0 =? 0xED then within 0x80 0x9F b1
  else if b0 =? 0xF0 then within 0x90 0xBF b1
  else if b0 =? 0xF4 then within 0x80 0x8F b1
  else cont b1.

Definition utf8_head (b : byte) (l : bytes) : utf8_start :=
  let b0 := byte.unsigned b in
  if b0 <? 0x80 then Good 1
  else if (b0 <? 0xC2) || (0xF4 <? b0) then Bad 1
  else if negb (second_ok b0 (l !! 0%nat)) then Bad 1
  else if b0 <? 0xE0 then Good 2
  else if negb (cont (l !! 1%nat)) then Bad 2
  else if b0 <? 0xF0 then Good 3
  else if negb (cont (l !! 2%nat)) then Bad 3
  else Good 4.

Definition REPLACEMENT : bytes := [Byte.xef; Byte.xbf; Byte.xbd].

Fixpoint lossy_loop (fuel : nat) (l : bytes) : bytes :=
  match fuel, l with
  | S fuel, b :: rest =>
      match utf8_head b rest with
      | Good n => take n l ++ lossy_loop fuel (drop n l)
      | Bad n => REPLACEMENT ++ lossy_loop fuel (drop n l)
      end
  | _, _ => []
  end.

Fixpoint valid_loop (fuel : nat) (l : bytes) : bool :=
  match l, fuel with
  | [], _ => true
  | b :: rest, S fuel =>
      match utf8_head b rest with
      | Good n => valid_loop fuel (drop n l)
      | Bad n => false
      end
  | _, O => false
  end.

Definition utf8_valid (l : bytes) : bool := valid_loop (length l) l.

(** [String::from_utf8_lossy]. *)
Definition from_utf8_lossy (l : bytes) : string :=
  String.string_of_list_byte (lossy_loop (length l) l).

Definition as_bytes (s : string) : bytes := String.list_byte_of_string s.

(** A [str]. *)
Definition utf8 (s : string) : Prop := utf8_valid (as_bytes s) = true.

#[export] Instance utf8_dec s : Decision (utf8 s).
Proof. unfold utf8. apply _. Defined.

(** [s.chars().count()]: continuation bytes start no character. *)
Definition chars_count (s : string) : Z :=
  zlen (List.filter (fun b => negb (cont (Some b))) (as_bytes s)).

Lemma utf8_head_pos b l : match utf8_head b l with Good n | Bad n => (1 <= n)%nat end.
Proof. unfold utf8_head. repeat case_match; simplify_eq; lia. Qed.

Lemma lossy_valid_loop fuel l : valid_loop fuel l = true -> lossy_loop fuel l = l.
Proof.
  revert l. induction fuel as [|fuel IH]; intros [|b l] V; try done.
  cbn [valid_loop lossy_loop] in *. destruct (utf8_head b l) as [n|]; [|done].
  rewrite IH by done. apply take_drop.
Qed.

Lemma as_bytes_app a b : as_bytes (a +:+ b) = as_bytes a ++ as_bytes b.
Proof.
  unfold as_bytes. induction a as [|c a IH]; [done|].
  change (String.list_byte_of_string (String c a +:+ b))
    with (Ascii.byte_of_ascii c :: String.list_byte_of_string (a +:+ b)).
  by rewrite IH.
Qed.

Lemma as_bytes_inj a b : as_bytes a = as_bytes b -> a = b.
Proof.
  intros E. rewrite <- (String.string_of_list_byte_of_string a), <- (String.string_of_list_byte_of_string b).
  unfold as_bytes in E. by rewrite E.
Qed.

(** Decoding what a string holds gives the string. *)
Lemma from_utf8_lossy_valid s : utf8 s -> from_utf8_lossy (as_bytes s) = s.
Proof.
  intros V. unfold from_utf8_lossy. rewrite lossy_valid_loop by done.
  apply String.string_of_list_byte_of_string.
Qed.

Example lossy_example :
  from_utf8_lossy [Byte.x61; Byte.xff; Byte.xe4; Byte.xbd; Byte.x62] =
  String.string_of_list_byte ([Byte.x61] ++ REPLACEMENT ++ REPLACEMENT ++ [Byte.x62]).
Proof. reflexivity. Qed.

Lemma ascii_valid_loop fuel l :
  Forall (fun b => byte.unsigned b < 128) l -> (length l <= fuel)%nat -> valid_loop fuel l = true.
Proof.
  intros F. revert fuel. induction F as [|b l Hb _ IH]; intros [|fuel] L; simpl in L; try done; [lia|].
  cbn [valid_loop]. unfold utf8_head. rewrite (proj2 (Z.ltb_lt _ _)) by lia.
  apply IH. lia.
Qed.

Lemma ascii_utf8 s : Forall (fun b => byte.unsigned b < 128) (as_bytes s) -> utf8 s.
Proof. intros F. by apply ascii_valid_loop. Qed.

Lemma chars_count_le s : chars_count s <= zlen (as_bytes s).
Proof.
  unfold chars_count, zlen. pose proof (List.filter_length_le (fun b => negb (cont (Some b))) (as_bytes s)).
  lia.
Qed.
