(* ===== verification/PasswordStore.v ===== *)
(** * Secrets at rest

    [libs/hbb_common/src/password_security.rs]: passwords, pins and identifiers are
    written to the configuration files sealed under a key of the machine, with the
    version of the encryption in front, and old files that hold them in the clear
    are still read.

    The secret box is the interface of [Secure]; base64 is an interface; the
    machine's identifier and the making of a key of it are arguments. *)

From S2P Require Import Prelude Utf8 Secure.

Class Base64 : Type := {
  b64_encode : bytes -> string;
  b64_decode : bytes -> option bytes;
  b64_roundtrip : forall d, b64_decode (as_bytes (b64_encode d)) = Some d;
  b64_ascii : forall d, utf8 (b64_encode d);
  b64_nonempty : forall d, b64_encode d = ""%string -> d = [];
}.

(* src/libs/hbb_common/src/password_security.rs:100-100 VERSION_LEN *)
Definition VERSION_LEN : Z := 2.

(* src/libs/hbb_common/src/config.rs:41-41 PASSWORD_ENC_VERSION *)
Definition PASSWORD_ENC_VERSION : string := "00".

(* src/libs/hbb_common/src/config.rs:42-42 ENCRYPT_MAX_LEN *)
Definition ENCRYPT_MAX_LEN : Z := 128.

Definition KEYBYTES : nat := 32.

Section store.
Context {Key : Type} `{SecretBox Key} `{Base64} (mk_key : bytes -> Key) (uuid : bytes).

(** The identifier is cut or filled with zeroes to the length of a key; the nonce is
    zero. *)
Definition crypt_key : Key := mk_key (resize KEYBYTES Byte.x00 uuid).
Definition crypt_nonce : bytes := replicate NONCEBYTES Byte.x00.

(* src/libs/hbb_common/src/password_security.rs:199-213 symmetric_crypt *)
Definition symmetric_crypt (data : bytes) (encrypt : bool) : option bytes :=
  if encrypt then Some (seal data crypt_nonce crypt_key) else open data crypt_nonce crypt_key.

(* src/libs/hbb_common/src/password_security.rs:183-189 encrypt *)
Definition encrypt (v : bytes) : option string :=
  if decide (v = []) then None else b64_encode <$> symmetric_crypt v true.

(* src/libs/hbb_common/src/password_security.rs:191-197 decrypt *)
Definition decrypt (v : bytes) : option bytes :=
  if decide (v = []) then None else d ← b64_decode v; symmetric_crypt d false.

(** [s.starts_with("00")] on the bytes; the version is two bytes long. *)
Definition has_version (v : bytes) : bool :=
  bool_decide (take 2 v = as_bytes PASSWORD_ENC_VERSION).

(* src/libs/hbb_common/src/password_security.rs:123-137 decrypt_str_or_original *)
Definition decrypt_str_or_original (s current_version : string) : string * bool * bool :=
  let original := (s, false, negb (bool_decide (s = ""%string))) in
  if VERSION_LEN <? zlen (as_bytes s) then
    if has_version (as_bytes s) then
      match decrypt (drop 2 (as_bytes s)) with
      | Some v => (from_utf8_lossy v, true, negb (bool_decide (PASSWORD_ENC_VERSION = current_version)))
      | None => original
      end
    else original
  else original.

(* src/libs/hbb_common/src/password_security.rs:102-116 encrypt_str_or_original *)
Definition encrypt_str_or_original (s version : string) (max_len : Z) : string :=
  if snd (fst (decrypt_str_or_original s version)) then s
  else if max_len <? chars_count s then ""%string
  else if decide (version = PASSWORD_ENC_VERSION) then
    match encrypt (as_bytes s) with Some e => version +:+ e | None => s end
  else s.

(** [String::from_utf8_lossy(&v[..2]) == "00"] holds of these two bytes only. *)
(* src/libs/hbb_common/src/password_security.rs:160-171 decrypt_vec_or_original *)
Definition decrypt_vec_or_original (v : bytes) (current_version : string) : bytes * bool * bool :=
  let original := (v, false, negb (bool_decide (v = []))) in
  if VERSION_LEN <? zlen v then
    if bool_decide (from_utf8_lossy (take 2 v) = PASSWORD_ENC_VERSION) then
      match decrypt (drop 2 v) with
      | Some v => (v, true, negb (bool_decide (PASSWORD_ENC_VERSION = current_version)))
      | None => original
      end
    else original
  else original.

(* src/libs/hbb_common/src/password_security.rs:139-155 encrypt_vec_or_original *)
Definition encrypt_vec_or_original (v : bytes) (version : string) (max_len : Z) : bytes :=
  if snd (fst (decrypt_vec_or_original v version)) then v
  else if max_len <? zlen v then []
  else if decide (version = PASSWORD_ENC_VERSION) then
    match encrypt v with Some e => as_bytes version ++ as_bytes e | None => v end
  else v.

(** ** What is kept *)

Lemma decrypt_encrypt v e : encrypt v = Some e -> decrypt (as_bytes e) = Some v.
Proof.
  unfold encrypt, decrypt. case_decide as N; [done|]. intros [= <-].
  assert (as_bytes (b64_encode (seal v crypt_nonce crypt_key)) <> []) as Ne.
  { intros E. assert (b64_encode (seal v crypt_nonce crypt_key) = ""%string) as E'%b64_nonempty
      by (by apply as_bytes_inj).
    pose proof (seal_length v crypt_nonce crypt_key (length_replicate _ _)) as L.
    rewrite E', zlen_nil in L. pose proof macbytes_large. pose proof (zlen_nonneg v). lia. }
  rewrite decide_False by done. rewrite b64_roundtrip. cbn [mbind option_bind symmetric_crypt].
  apply open_seal. apply length_replicate.
Qed.

Lemma encrypt_some v : v <> [] -> exists e, encrypt v = Some e.
Proof. intros N. unfold encrypt. rewrite decide_False by done. by eexists. Qed.

Lemma encrypt_nonempty v e : encrypt v = Some e -> 0 < zlen (as_bytes e).
Proof.
  intros E%decrypt_encrypt. unfold decrypt in E. case_decide as N; [done|].
  destruct (as_bytes e); [done|]. rewrite zlen_cons. pose proof (zlen_nonneg l). lia.
Qed.

(** What is written of a secret that is not sealed yet. *)
Lemma decrypt_sealed v e current :
  encrypt v = Some e ->
  decrypt_str_or_original (PASSWORD_ENC_VERSION +:+ e) current =
  (from_utf8_lossy v, true, negb (bool_decide (PASSWORD_ENC_VERSION = current))).
Proof.
  intros E. unfold decrypt_str_or_original, has_version. rewrite as_bytes_app.
  change (as_bytes PASSWORD_ENC_VERSION) with [Byte.x30; Byte.x30]. cbn [app take drop].
  rewrite !zlen_cons. pose proof (encrypt_nonempty v e E). unfold VERSION_LEN.
  rewrite (proj2 (Z.ltb_lt _ _)) by lia. rewrite bool_decide_true by done.
  by rewrite drop_0, (decrypt_encrypt v e E).
Qed.

Definition sealed (s : string) : bool := snd (fst (decrypt_str_or_original s PASSWORD_ENC_VERSION)).

Lemma decrypt_unsealed s current :
  sealed s = false ->
  decrypt_str_or_original s current = (s, false, negb (bool_decide (s = ""%string))).
Proof.
  unfold sealed, decrypt_str_or_original.
  by destruct (VERSION_LEN <? _), (has_version (as_bytes s)), (decrypt (drop 2 (as_bytes s))).
Qed.

Lemma empty_unsealed : sealed ""%string = false.
Proof. done. Qed.

(** A secret that is stored and loaded again. *)
Lemma store_load_secret s max_len :
  utf8 s -> sealed s = false -> chars_count s <= max_len ->
  decrypt_str_or_original (encrypt_str_or_original s PASSWORD_ENC_VERSION max_len)
    PASSWORD_ENC_VERSION = (s, negb (bool_decide (s = ""%string)), false).
Proof.
  intros U S C. unfold encrypt_str_or_original. unfold sealed in S. rewrite S.
  rewrite (proj2 (Z.ltb_ge _ _)) by lia. rewrite decide_True by done.
  destruct (decide (s = ""%string)) as [->|N]; [done|].
  destruct (encrypt_some (as_bytes s)) as [e E].
  { intros E. apply N. by apply as_bytes_inj. }
  rewrite E, (decrypt_sealed _ e _ E), from_utf8_lossy_valid by done.
  by rewrite !(bool_decide_true (PASSWORD_ENC_VERSION = _)), (bool_decide_false (s = _)).
Qed.

(** A secret survives being stored: a text of at most [max_len] characters that
    is not itself the sealed form of something is read back as it was, needs no
    re-encryption, and what is stored of it is left alone when it is stored again;
    under another version it is read as well, and marked for re-encryption. *)
Theorem secret_roundtrip s max_len current :
  utf8 s -> sealed s = false -> chars_count s <= max_len -> s <> ""%string ->
  let stored := encrypt_str_or_original s PASSWORD_ENC_VERSION max_len in
  decrypt_str_or_original stored PASSWORD_ENC_VERSION = (s, true, false) /\
  encrypt_str_or_original stored PASSWORD_ENC_VERSION max_len = stored /\
  (current <> PASSWORD_ENC_VERSION -> decrypt_str_or_original stored current = (s, true, true)).
Proof.
  intros U S C N stored. pose proof (store_load_secret s max_len U S C) as R. fold stored in R.
  rewrite bool_decide_false in R by done. split_and!; [done| |].
  - unfold encrypt_str_or_original at 1. by rewrite R.
  - intros Nv. revert R. unfold decrypt_str_or_original.
    destruct (VERSION_LEN <? _), (has_version (as_bytes stored)), (decrypt (drop 2 (as_bytes stored)));
      simpl; try done.
    intros [= ->]. by rewrite bool_decide_false.
Qed.

(** The binary form keeps every content in the same way, whatever its bytes. *)
Theorem secret_bytes_roundtrip v max_len :
  snd (fst (decrypt_vec_or_original v PASSWORD_ENC_VERSION)) = false -> zlen v <= max_len ->
  v <> [] ->
  let stored := encrypt_vec_or_original v PASSWORD_ENC_VERSION max_len in
  decrypt_vec_or_original stored PASSWORD_ENC_VERSION = (v, true, false) /\
  encrypt_vec_or_original stored PASSWORD_ENC_VERSION max_len = stored.
Proof.
  intros S C N stored. destruct (encrypt_some v N) as [e E].
  assert (decrypt_vec_or_original stored PASSWORD_ENC_VERSION = (v, true, false)) as R.
  { subst stored. unfold encrypt_vec_or_original. rewrite S, (proj2 (Z.ltb_ge _ _)) by lia.
    rewrite decide_True, E by done. unfold decrypt_vec_or_original.
    change (as_bytes PASSWORD_ENC_VERSION) with [Byte.x30; Byte.x30]. cbn [app take drop].
    rewrite !zlen_cons. pose proof (encrypt_nonempty v e E). unfold VERSION_LEN.
    rewrite (proj2 (Z.ltb_lt _ _)) by lia.
    rewrite bool_decide_true by done.
    rewrite drop_0, (decrypt_encrypt v e E).
    by rewrite bool_decide_true. }
  split; [done|]. unfold encrypt_vec_or_original at 1. by rewrite R.
Qed.

(** A secret that is too long is not kept: nothing is stored of it, and what is
    read back is the empty text. *)
Theorem long_secret_lost s version max_len :
  sealed s = false -> max_len < chars_count s ->
  decrypt_str_or_original (encrypt_str_or_original s version max_len) version =
  (""%string, false, false).
Proof.
  intros S C. unfold encrypt_str_or_original. rewrite (decrypt_unsealed s version S). cbn [fst snd].
  by rewrite (proj2 (Z.ltb_lt _ _)) by done.
Qed.

End store.

(** ** Witnesses

    Hexadecimal digits for base64, and the cipher of [Secure.box_plain]. *)

Definition digit (n : N) : Ascii.ascii := Ascii.ascii_of_N (97 + n).
Definition undigit (c : byte) : N := Byte.to_N c - 97.

Fixpoint hex_encode (d : bytes) : string :=
  match d with
  | [] => ""
  | b :: d => String (digit (Byte.to_N b / 16)) (String (digit (Byte.to_N b mod 16)) (hex_encode d))
  end.

Fixpoint hex_decode (l : bytes) : option bytes :=
  match l with
  | [] => Some []
  | a :: b :: l =>
      x ← Byte.of_N (undigit a * 16 + undigit b); d ← hex_decode l; Some (x :: d)
  | _ => None
  end.

Lemma hex_byte b :
  let x := Ascii.byte_of_ascii (digit (Byte.to_N b / 16)) in
  let y := Ascii.byte_of_ascii (digit (Byte.to_N b mod 16)) in
  Byte.of_N (undigit x * 16 + undigit y) = Some b /\
  byte.unsigned x < 128 /\ byte.unsigned y < 128.
Proof. destruct b; vm_compute; split_and!; reflexivity. Qed.

Definition base64_hex : Base64.
Proof.
  refine {| b64_encode := hex_encode; b64_decode := hex_decode |}.
  - induction d as [|b d IH]; [done|]. unfold as_bytes in *. cbn [hex_encode].
    change (String.list_byte_of_string (String ?x (String ?y ?s)))
      with (Ascii.byte_of_ascii x :: Ascii.byte_of_ascii y :: String.list_byte_of_string s).
    cbn [hex_decode]. destruct (hex_byte b) as (E & _). cbv zeta in E. rewrite E, IH. done.
  - intros d. apply ascii_utf8. induction d as [|b d IH]; [constructor|].
    destruct (hex_byte b) as (_ & E1 & E2). by repeat constructor.
  - by intros [|b d].
Defined.

Definition store := encrypt_str_or_original (H := box_plain) (H0 := base64_hex) (fun _ => tt) [].
Definition load := decrypt_str_or_original (H := box_plain) (H0 := base64_hex) (fun _ => tt) [].

Lemma secret_roundtrip_witness :
  load (store "hunter2" PASSWORD_ENC_VERSION 128) PASSWORD_ENC_VERSION = ("hunter2"%string, true, false)
  /\ load (store "hunter2" PASSWORD_ENC_VERSION 128) "01" = ("hunter2"%string, true, true).
Proof.
  destruct (secret_roundtrip (H := box_plain) (H0 := base64_hex) (fun _ => tt) [] "hunter2" 128 "01")
    as (E1 & _ & E2); [by vm_compute..|]. split; [exact E1|by apply E2].
Defined.

Lemma secret_bytes_roundtrip_witness :
  decrypt_vec_or_original (H := box_plain) (H0 := base64_hex) (fun _ => tt) []
    (encrypt_vec_or_original (H := box_plain) (H0 := base64_hex) (fun _ => tt) [] [Byte.xff] PASSWORD_ENC_VERSION 128)
    PASSWORD_ENC_VERSION = ([Byte.xff], true, false).
Proof.
  by destruct (secret_bytes_roundtrip (H := box_plain) (H0 := base64_hex) (fun _ => tt) [] [Byte.xff] 128)
    as (E & _); [by vm_compute..|].
Defined.

Lemma long_secret_lost_witness :
  load (store "abc" PASSWORD_ENC_VERSION 2) PASSWORD_ENC_VERSION = (""%string, false, false).
Proof. by apply (long_secret_lost (H := box_plain) (H0 := base64_hex) (fun _ => tt) [] "abc" _ 2). Defined.
