(* ===== verification/Options.v ===== *)
(** * Options

    [libs/hbb_common/src/config.rs]: an option is looked up in three maps: what the
    build or the administrator overwrites, what the user set, and the defaults.
    There are three such triples: the options of the machine, of the client, and of
    the display.  Writing to the files is in [Config]; here a setter says whether
    the file is written.  [get_num_string] is generic in the source; reading,
    printing and comparing its numbers are the fields of [Num]. *)

From S2P Require Import Prelude.

Abbreviation settings := (gmap string string).

(** A string that may be absent, as [Option<&str>] of a lookup. *)
Definition or_else {A} (a b : option A) : option A := match a with Some x => Some x | None => b end.

(* src/libs/hbb_common/src/config.rs:2346-2359 get_or *)
Definition get_or (a b c : settings) (k : string) : option string :=
  or_else (a !! k) (or_else (b !! k) (c !! k)).

(* src/libs/hbb_common/src/config.rs:2361-2374 is_option_can_save *)
Definition is_option_can_save (overwrite : settings) (k : string) (defaults : settings) (v : string)
    : bool :=
  negb (bool_decide (is_Some (overwrite !! k)) || bool_decide (defaults !! k = Some v)).

Definition starts_with (prefix s : string) : bool := String.prefix prefix s.

(* src/libs/hbb_common/src/config.rs:2431-2443 option2bool *)
Definition option2bool (option value : string) : bool :=
  if starts_with "enable-" option then negb (bool_decide (value = "N"))%string
  else if starts_with "allow-" option || bool_decide (option = "stop-service")%string ||
          bool_decide (option = "direct-server")%string ||
          bool_decide (option = "force-always-relay")%string
  then bool_decide (value = "Y")%string
  else negb (bool_decide (value = "N"))%string.

(** ** Reading and writing an option *)

(* src/libs/hbb_common/src/config.rs:1025-1033 Config::get_option *)
Definition get_option (overwrite options defaults : settings) (k : string) : string :=
  default ""%string (get_or overwrite options defaults k).

(* src/libs/hbb_common/src/config.rs:1035-1037 Config::get_bool_option *)
Definition get_bool_option (overwrite options defaults : settings) (k : string) : bool :=
  option2bool k (get_option overwrite options defaults k).

(** [extend] lets the later map win. *)
(* src/libs/hbb_common/src/config.rs:1003-1008 Config::get_options *)
Definition get_options (overwrite options defaults : settings) : settings :=
  overwrite ∪ (options ∪ defaults).

(** The new options, and whether they are written. *)
Definition put_value (k v : string) (options : settings) : settings * bool :=
  let v2 := if decide (v = ""%string) then None else Some v in
  if decide (v2 = options !! k) then (options, false)
  else (match v2 with None => delete k options | Some v => <[k := v]> options end, true).

Definition drop_value (k : string) (options : settings) : settings * bool :=
  match options !! k with Some _ => (delete k options, true) | None => (options, false) end.

(* src/libs/hbb_common/src/config.rs:1039-1057 Config::set_option *)
Definition set_option (overwrite defaults : settings) (k v : string) (options : settings)
    : settings * bool :=
  if negb (is_option_can_save overwrite k defaults v) then drop_value k options
  else put_value k v options.

(* src/libs/hbb_common/src/config.rs:1010-1013 Config::purify_options *)
Definition purify_options (overwrite defaults v : settings) : settings :=
  filter (fun p => is_option_can_save overwrite (fst p) defaults (snd p) = true) v.

(* src/libs/hbb_common/src/config.rs:1015-1023 Config::set_options *)
Definition set_options (overwrite defaults v options : settings) : settings * bool :=
  let v := purify_options overwrite defaults v in
  if decide (options = v) then (options, false) else (v, true).

(** ** The client's options *)

(* src/libs/hbb_common/src/config.rs:1735-1750 LocalConfig *)
Record LocalConfig : Type := mkLocalConfig {
  lc_remote_id : string;
  lc_kb_layout_type : string;
  lc_size : Z * Z * Z * Z;
  lc_fav : list string;
  lc_options : settings;
  lc_ui_flutter : settings;
}.

Definition with_lc_options (o : settings) (c : LocalConfig) : LocalConfig :=
  mkLocalConfig (lc_remote_id c) (lc_kb_layout_type c) (lc_size c) (lc_fav c) o (lc_ui_flutter c).

(** The language of a custom client is the only option that is stored empty. *)
(* src/libs/hbb_common/src/config.rs:1836-1861 LocalConfig::set_option *)
Definition local_set_option (overwrite defaults : settings) (k v : string) (c : LocalConfig)
    : LocalConfig * bool :=
  let '(o, stored) :=
    if negb (is_option_can_save overwrite k defaults v) then drop_value k (lc_options c)
    else if bool_decide (k = "lang")%string && bool_decide (v = "default")%string
    then (<[k := ""%string]> (lc_options c), true)
    else put_value k v (lc_options c) in
  (with_lc_options o c, stored).

(* src/libs/hbb_common/src/config.rs:1811-1819 LocalConfig::get_option *)
Definition local_get_option (overwrite defaults : settings) (k : string) (c : LocalConfig) : string :=
  get_option overwrite (lc_options c) defaults k.

(* src/libs/hbb_common/src/config.rs:1863-1871 LocalConfig::get_flutter_option *)
Definition get_flutter_option (overwrite defaults : settings) (k : string) (c : LocalConfig) : string :=
  get_option overwrite (lc_ui_flutter c) defaults k.

(* src/libs/hbb_common/src/config.rs:1873-1884 LocalConfig::set_flutter_option *)
Definition set_flutter_option (k v : string) (c : LocalConfig) : LocalConfig * bool :=
  let '(o, stored) := put_value k v (lc_ui_flutter c) in
  (mkLocalConfig (lc_remote_id c) (lc_kb_layout_type c) (lc_size c) (lc_fav c) (lc_options c) o,
   stored).

(* src/libs/hbb_common/src/config.rs:1775-1783 LocalConfig::set_size *)
Definition set_size (x y w h : Z) (c : LocalConfig) : LocalConfig * bool :=
  if bool_decide ((x, y, w, h) = lc_size c) || (w <? 300) || (h <? 300) then (c, false)
  else (mkLocalConfig (lc_remote_id c) (lc_kb_layout_type c) (x, y, w, h) (lc_fav c)
          (lc_options c) (lc_ui_flutter c), true).

(* src/libs/hbb_common/src/config.rs:1785-1792 LocalConfig::set_remote_id *)
Definition set_remote_id (id : string) (c : LocalConfig) : LocalConfig * bool :=
  if decide (id = lc_remote_id c) then (c, false)
  else (mkLocalConfig id (lc_kb_layout_type c) (lc_size c) (lc_fav c) (lc_options c)
          (lc_ui_flutter c), true).

(* src/libs/hbb_common/src/config.rs:1798-1805 LocalConfig::set_fav *)
Definition set_fav (fav : list string) (c : LocalConfig) : LocalConfig * bool :=
  if decide (lc_fav c = fav) then (c, false)
  else (mkLocalConfig (lc_remote_id c) (lc_kb_layout_type c) (lc_size c) fav (lc_options c)
          (lc_ui_flutter c), true).

(** ** The display's options *)

(* src/libs/hbb_common/src/config.rs:1998-2016 UserDefaultConfig::set *)
Definition user_default_set (overwrite defaults : settings) (k v : string) (options : settings)
    : settings * bool :=
  if negb (is_option_can_save overwrite k defaults v) then drop_value k options
  else (if decide (v = ""%string) then delete k options else <[k := v]> options, true).

(* src/libs/hbb_common/src/config.rs:2019-2030 UserDefaultConfig::get_string *)
Definition get_string (after : option string) (dflt : string) (others : list string) : string :=
  match after with
  | Some option => if bool_decide (option ∈ others) then option else dflt
  | None => dflt
  end.

(** The numbers of [get_num_string]; [num_leb] is [<=] of [PartialOrd], false of what
    cannot be compared. *)
Record Num : Type := mkNum {
  num : Type;
  num_parse : string -> option num;
  num_show : num -> string;
  num_leb : num -> num -> bool;
}.

(* src/libs/hbb_common/src/config.rs:2033-2048 UserDefaultConfig::get_num_string *)
Definition get_num_string (N : Num) (after : option string) (dflt min max : num N) : string :=
  match after with
  | Some option =>
      let v := default dflt (num_parse N option) in
      if num_leb N min v && num_leb N v max then num_show N v else num_show N dflt
  | None => num_show N dflt
  end.

(** The constants of the numeric options, for the two types the source uses. *)
Record DisplayNums : Type := mkDisplayNums {
  f64 : Num; i32 : Num;
  f64_of : Z -> num f64; i32_of : Z -> num i32;
}.

(* src/libs/hbb_common/src/config.rs:1971-1996 UserDefaultConfig::get *)
Definition user_default_get (D : DisplayNums) (overwrite options defaults : settings) (k : string)
    : string :=
  let after := get_or overwrite options defaults k in
  if decide (k = "view_style"%string) then get_string after "original" ["adaptive"%string]
  else if decide (k = "scroll_style"%string)
  then get_string after "scrollauto" ["scrolledge"; "scrollbar"]%string
  else if decide (k = "image_quality"%string)
  then get_string after "balanced" ["best"; "low"; "custom"]%string
  else if decide (k = "codec-preference"%string)
  then get_string after "auto" ["vp8"; "vp9"; "av1"; "h264"; "h265"]%string
  else if decide (k = "custom_image_quality"%string)
  then get_num_string (f64 D) after (f64_of D 50) (f64_of D 10) (f64_of D 0xFFF)
  else if decide (k = "custom-fps"%string)
  then get_num_string (f64 D) after (f64_of D 30) (f64_of D 5) (f64_of D 120)
  else if decide (k = "enable-file-copy-paste"%string)
  then get_string after "Y" [""; "N"]%string
  else if decide (k = "edge-scroll-edge-thickness"%string)
  then get_num_string (i32 D) after (i32_of D 100) (i32_of D 20) (i32_of D 150)
  else if decide (k = "trackpad-speed"%string)
  then get_num_string (i32 D) after (i32_of D 100) (i32_of D 10) (i32_of D 1000)
  else default ""%string after.

(** ** Properties *)

Lemma put_value_lookup k v o :
  fst (put_value k v o) !! k = (if decide (v = ""%string) then None else Some v) /\
  forall k', k' <> k -> fst (put_value k v o) !! k' = o !! k'.
Proof.
  unfold put_value. cbv zeta. destruct (decide (_ = o !! k)) as [E|E]; simpl.
  - split; [by rewrite <- E|done].
  - destruct (decide (v = ""%string)) as [->|N]; simpl.
    + split; [apply lookup_delete_eq|]. intros k' Hk. by apply lookup_delete_ne.
    + split; [apply lookup_insert_eq|]. intros k' Hk. by apply lookup_insert_ne.
Qed.

Lemma drop_value_lookup k o :
  fst (drop_value k o) !! k = None /\ forall k', k' <> k -> fst (drop_value k o) !! k' = o !! k'.
Proof.
  unfold drop_value. destruct (o !! k) eqn:E; simpl; [|done].
  split; [apply lookup_delete_eq|]. intros k' Hk. by apply lookup_delete_ne.
Qed.

Lemma can_save_spec overwrite k defaults v :
  is_option_can_save overwrite k defaults v = true <->
  overwrite !! k = None /\ defaults !! k <> Some v.
Proof.
  unfold is_option_can_save. rewrite negb_true_iff, orb_false_iff, !bool_decide_eq_false.
  by rewrite eq_None_not_Some.
Qed.

(** Options hold nothing that need not be saved. *)
Definition pure (overwrite defaults options : settings) : Prop :=
  forall k v, options !! k = Some v -> is_option_can_save overwrite k defaults v = true /\ v <> ""%string.

(** Setting an option: afterwards it reads as what overwrites it, or else as the
    new value, or as the default when the new value is empty; every other option
    reads as before, the file is written exactly when the options changed, and no
    option is kept that is empty, overwritten, or equal to its default. *)
Theorem set_option_spec overwrite defaults k v options :
  let '(options', stored) := set_option overwrite defaults k v options in
  get_option overwrite options' defaults k =
    default (if decide (v = ""%string) then default ""%string (defaults !! k) else v) (overwrite !! k) /\
  (forall k', k' <> k ->
     get_option overwrite options' defaults k' = get_option overwrite options defaults k') /\
  (stored = true <-> options' <> options) /\
  (pure overwrite defaults options -> pure overwrite defaults options').
Proof.
  unfold set_option. destruct (is_option_can_save overwrite k defaults v) eqn:S; cbn [negb].
  - pose proof (put_value_lookup k v options) as [L1 L2].
    destruct (put_value k v options) as [o' st] eqn:P. simpl in L1, L2.
    apply can_save_spec in S as [S1 S2]. split_and!.
    + unfold get_option, get_or. rewrite S1, L1. simpl. by case_decide.
    + intros k' Hk. unfold get_option, get_or. by rewrite L2.
    + unfold put_value in P. cbv zeta in P.
      destruct (decide (_ = options !! k)) as [E|E]; injection P as <- <-; [split; congruence|].
      split; [|done]. intros _ Eo. rewrite Eo in L1. by apply E.
    + intros Pu k' v' E. destruct (decide (k' = k)) as [->|Hk].
      * rewrite L1 in E. case_decide as Ev; simplify_eq. split; [by apply can_save_spec|done].
      * rewrite L2 in E by done. by apply Pu.
  - pose proof (drop_value_lookup k options) as [L1 L2].
    destruct (drop_value k options) as [o' st] eqn:P. simpl in L1, L2. split_and!.
    + unfold get_option, get_or. rewrite L1. destruct (overwrite !! k) eqn:Eo; simpl; [done|].
      assert (defaults !! k = Some v) as ->.
      { destruct (decide (defaults !! k = Some v)) as [|N]; [done|].
        assert (is_option_can_save overwrite k defaults v = true) as S' by (by apply can_save_spec).
        by rewrite S in S'. }
      simpl. by case_decide as Ev.
    + intros k' Hk. unfold get_option, get_or. by rewrite L2.
    + unfold drop_value in P. destruct (options !! k) eqn:E; injection P as <- <-;
        [|split; congruence].
      split; [|done]. intros _ Eo. rewrite Eo in L1. by rewrite L1 in E.
    + intros Pu k' v' E. destruct (decide (k' = k)) as [->|Hk]; [by rewrite L1 in E|].
      rewrite L2 in E by done. by apply Pu.
Qed.

Lemma get_options_lookup overwrite options defaults k :
  get_options overwrite options defaults !! k = get_or overwrite options defaults k.
Proof.
  unfold get_options, get_or. rewrite !lookup_union.
  by destruct (overwrite !! k), (options !! k), (defaults !! k).
Qed.

(** Reading all options, changing nothing and writing them back changes no
    option: the map that is read agrees with every single lookup, and purifying it
    removes exactly what the other two maps supply anyway. *)
Theorem set_options_get_options overwrite defaults options k :
  let '(options', _) :=
    set_options overwrite defaults (get_options overwrite options defaults) options in
  get_option overwrite options' defaults k = get_option overwrite options defaults k.
Proof.
  unfold set_options. case_decide as E; [done|]. clear E. unfold get_option. f_equal.
  set (o' := purify_options _ _ _). unfold get_or.
  destruct (overwrite !! k) as [x|] eqn:Eo; [done|]. cbn [or_else].
  destruct (o' !! k) as [x|] eqn:Ek.
  - apply map_lookup_filter_Some in Ek as [Eg _]. rewrite get_options_lookup in Eg.
    unfold get_or in Eg. rewrite Eo in Eg. cbn [or_else] in *. by rewrite Eg.
  - simpl. apply map_lookup_filter_None in Ek. rewrite get_options_lookup in Ek.
    unfold get_or in Ek. rewrite Eo in Ek. simpl in Ek.
    destruct (options !! k) as [y|] eqn:Ey; [|done]. simpl in Ek.
    destruct Ek as [?|Ek]; [done|]. specialize (Ek y eq_refl). simpl in Ek.
    destruct (decide (defaults !! k = Some y)) as [->|N]; [done|].
    exfalso. apply Ek. by apply can_save_spec.
Qed.

(** A number of the display's options is printed from the range of its option,
    whatever the files hold, when the default is in the range. *)
Theorem num_string_in_range (N : Num) after dflt min max :
  num_leb N min dflt = true -> num_leb N dflt max = true ->
  exists v, get_num_string N after dflt min max = num_show N v /\
    num_leb N min v = true /\ num_leb N v max = true.
Proof.
  intros L1 L2. unfold get_num_string. destruct after as [o|]; [|by exists dflt].
  destruct (num_leb N min (default dflt (num_parse N o))) eqn:E1; simpl; [|by exists dflt].
  destruct (num_leb N (default dflt (num_parse N o)) max) eqn:E2; [eauto|by exists dflt].
Qed.

Definition z_num : Num :=
  mkNum Z (fun s => if decide (s = "7"%string) then Some 7 else None)
    (fun z => if z =? 7 then "7"%string else "100"%string) Z.leb.

Lemma num_string_in_range_witness :
  exists v, get_num_string z_num (Some "7"%string) 100 10 1000 = num_show z_num v /\
    num_leb z_num 10 v = true /\ num_leb z_num v 1000 = true.
Proof. by apply (num_string_in_range z_num (Some "7"%string) 100 10 1000). Defined.

(** A default cannot be undone by setting the option to nothing. *)
Example default_cannot_be_emptied :
  let '(o, _) := set_option ∅ {["k"%string := "d"%string]} "k" "" ∅ in
  get_option ∅ o {["k"%string := "d"%string]} "k" = "d"%string.
Proof. reflexivity. Qed.
