(* ===== verification/Config.v ===== *)
(** * The configuration of the machine

    [libs/hbb_common/src/config.rs]: [Config] (identifier, password, keys) and
    [Config2] (servers, pin, trusted devices, proxy, options) live in memory and are
    written to a file each when something changed; secrets are sealed on the way
    ([PasswordStore]).

    A file is what was last serialized, and reading it gives that back; a store that
    fails leaves it alone.  Random numbers, the host name, the hardware address and
    the order in which a hash map is iterated are arguments.  The JSON of the trusted
    devices is an interface.  The pair of keys is read by other means and is not
    changed here. *)

From Stdlib Require Import Ascii.
From S2P Require Import Prelude Utf8 Secure PasswordStore Options.

(* src/libs/hbb_common/src/config.rs:175-195 Config *)
Record Config : Type := mkConfig {
  id : string;
  enc_id : string;
  password : string;
  salt : string;
  key_pair : bytes * bytes;
  key_confirmed : bool;
  keys_confirmed : gmap string bool;
}.

(* src/libs/hbb_common/src/config.rs:197-205 Socks5Server *)
Record Socks5Server : Type := mkSocks {
  proxy : string;
  username : string;
  socks_password : string;
}.

#[export] Instance Socks5Server_eq_dec : EqDecision Socks5Server.
Proof. solve_decision. Defined.

(* src/libs/hbb_common/src/config.rs:207-227 Config2 *)
Record Config2 : Type := mkConfig2 {
  rendezvous_server : string;
  nat_type : Z;
  serial : Z;
  unlock_pin : string;
  trusted_devices : string;
  socks : option Socks5Server;
  options : settings;
}.

(* src/libs/hbb_common/src/config.rs:2312-2319 TrustedDevice *)
Record TrustedDevice : Type := mkDevice {
  hwid : bytes;
  time : Z;
  td_id : string;
  td_name : string;
  td_platform : string;
}.

(* src/libs/hbb_common/src/config.rs:2321-2326 TrustedDevice::outdate *)
Definition outdate (now : Z) (d : TrustedDevice) : bool :=
  i64 (time d + 90 * 24 * 60 * 60 * 1000) <? now.

(** [serde_json] of the list; a JSON array starts with a bracket. *)
Class Json : Type := {
  to_json : list TrustedDevice -> string;
  from_json : string -> option (list TrustedDevice);
  json_roundtrip : forall l, from_json (to_json l) = Some l;
  json_utf8 : forall l, utf8 (to_json l);
  json_bracket : forall l, take 1 (as_bytes (to_json l)) = [Byte.x5b];
  json_empty : to_json [] = "[]"%string;
}.

(** The static settings of the build and the administrator. *)
Record Statics : Type := mkStatics {
  s_default : settings;
  s_overwrite : settings;
  s_hard : settings;
  s_builtin : settings;
  s_exe_rendezvous : string;
  s_prod_rendezvous : string;
}.

(** Memory and files. *)
Record World : Type := mkWorld {
  config : Config;
  config2 : Config2;
  trusted : list TrustedDevice * bool;
  online : gmap string Z;
  file : Config;
  file2 : Config2;
  writable : bool;
}.

Definition default_config : Config := mkConfig "" "" "" "" ([], []) false ∅.
Definition default_config2 : Config2 := mkConfig2 "" 0 0 "" "" None ∅.

Definition set_config (c : Config) (w : World) : World :=
  mkWorld c (config2 w) (trusted w) (online w) (file w) (file2 w) (writable w).
Definition set_config2 (c : Config2) (w : World) : World :=
  mkWorld (config w) c (trusted w) (online w) (file w) (file2 w) (writable w).
Definition set_cache (t : list TrustedDevice * bool) (w : World) : World :=
  mkWorld (config w) (config2 w) t (online w) (file w) (file2 w) (writable w).
Definition set_online (o : gmap string Z) (w : World) : World :=
  mkWorld (config w) (config2 w) (trusted w) o (file w) (file2 w) (writable w).

Definition with_id (i : string) (c : Config) : Config :=
  mkConfig i (enc_id c) (password c) (salt c) (key_pair c) (key_confirmed c) (keys_confirmed c).
Definition with_password (p : string) (c : Config) : Config :=
  mkConfig (id c) (enc_id c) p (salt c) (key_pair c) (key_confirmed c) (keys_confirmed c).

Section config.
Context {Key : Type} `{SecretBox Key} `{Base64} `{Json} (mk_key : bytes -> Key) (uuid : bytes)
  (S : Statics).

(** The calls of the secrets' functions, all with the same version and length. *)
Definition seal_str (s : string) : string :=
  encrypt_str_or_original mk_key uuid s PASSWORD_ENC_VERSION ENCRYPT_MAX_LEN.
Definition open_str (s : string) : string * bool * bool :=
  decrypt_str_or_original mk_key uuid s PASSWORD_ENC_VERSION.

(** ** Files *)

(* src/libs/hbb_common/src/config.rs:609-616 Config::store *)
Definition sealed_config (c : Config) : Config :=
  mkConfig "" (seal_str (id c)) (seal_str (password c)) (salt c) (key_pair c) (key_confirmed c)
    (keys_confirmed c).

Definition store (w : World) : World :=
  if writable w
  then mkWorld (config w) (config2 w) (trusted w) (online w) (sealed_config (config w)) (file2 w) true
  else w.

(* src/libs/hbb_common/src/config.rs:485-495 Config2::store *)
Definition sealed_config2 (c : Config2) : Config2 :=
  mkConfig2 (rendezvous_server c) (nat_type c) (serial c) (seal_str (unlock_pin c))
    (trusted_devices c)
    ((fun s => mkSocks (proxy s) (username s) (seal_str (socks_password s))) <$> socks c)
    (options c).

Definition store2 (w : World) : World :=
  if writable w
  then mkWorld (config w) (config2 w) (trusted w) (online w) (file w) (sealed_config2 (config2 w)) true
  else w.

Fixpoint first_some (l : list (option string)) : option string :=
  match l with
  | [] => None
  | Some s :: _ => Some s
  | None :: l => first_some l
  end.

(** [gens] are the answers of the three attempts to make an identifier; beside the
    configuration, whether it is written. *)
(* src/libs/hbb_common/src/config.rs:566-607 Config::load *)
Definition load (gens : list (option string)) (f : Config) : Config * bool :=
  let '(pw, _, store1) := open_str (password f) in
  let c := with_password pw f in
  let '(i, encrypted, store2) := open_str (enc_id c) in
  if encrypted then (with_id i c, store1 || store2)
  else if negb (bool_decide (id c = ""%string)) && bool_decide (enc_id c = ""%string) &&
          negb (snd (fst (open_str (id c))))
  then (c, true)
  else
    match first_some (take 3 gens) with
    | Some i => (with_id i c, true)
    | None => (c, store1)
    end.

(* src/libs/hbb_common/src/config.rs:461-479 Config2::load *)
Definition load2 (f : Config2) : Config2 * bool :=
  let '(sk, st1) :=
    match socks f with
    | Some s =>
        let '(p, _, st) := open_str (socks_password s) in
        (Some (mkSocks (proxy s) (username s) p), st)
    | None => (None, false)
    end in
  let '(pin, _, st2) := open_str (unlock_pin f) in
  (mkConfig2 (rendezvous_server f) (nat_type f) (serial f) pin (trusted_devices f) sk (options f),
   st1 || st2).

(** A start of the program on its files. *)
Definition boot (gens : list (option string)) (f : Config) (f2 : Config2) (ok : bool) : World :=
  let '(c, st) := load gens f in
  let '(c2, st2) := load2 f2 in
  let w := mkWorld c c2 ([], false) ∅ f f2 ok in
  let w := if st then store w else w in
  if st2 then store2 w else w.

Definition restart (gens : list (option string)) (w : World) : World :=
  boot gens (file w) (file2 w) (writable w).

(** ** Identifier, keys, salt *)

(** Both setters of this shape: nothing happens when nothing changes. *)
Definition update (changed : bool) (c : Config) (w : World) : World :=
  if changed then store (set_config c w) else w.
Definition update2 (changed : bool) (c : Config2) (w : World) : World :=
  if changed then store2 (set_config2 c w) else w.

(* src/libs/hbb_common/src/config.rs:821-828 Config::set_id *)
Definition set_id (i : string) (w : World) : World :=
  update (negb (bool_decide (i = id (config w)))) (with_id i (config w)) w.

(* src/libs/hbb_common/src/config.rs:983-992 Config::get_id *)
Definition get_id (gen : option string) (w : World) : string * World :=
  let i := id (config w) in
  if decide (i = ""%string) then
    match gen with Some t => (t, set_id t w) | None => (i, w) end
  else (i, w).

(* src/libs/hbb_common/src/config.rs:994-1001 Config::get_id_or *)
Definition get_id_or (b : string) (w : World) : string :=
  if decide (id (config w) = ""%string) then b else id (config w).

(* src/libs/hbb_common/src/config.rs:1096-1103 Config::set_salt *)
Definition set_salt (s : string) (w : World) : World :=
  let c := config w in
  update (negb (bool_decide (s = salt c)))
    (mkConfig (id c) (enc_id c) (password c) s (key_pair c) (key_confirmed c) (keys_confirmed c)) w.

(* src/libs/hbb_common/src/config.rs:926-936 Config::set_key_confirmed *)
Definition set_key_confirmed (v : bool) (w : World) : World :=
  let c := config w in
  update (negb (Bool.eqb (key_confirmed c) v))
    (mkConfig (id c) (enc_id c) (password c) (salt c) (key_pair c) v
       (if v then keys_confirmed c else ∅)) w.

(* src/libs/hbb_common/src/config.rs:938-940 Config::get_host_key_confirmed *)
Definition get_host_key_confirmed (host : string) (w : World) : bool :=
  bool_decide (keys_confirmed (config w) !! host = Some true).

(* src/libs/hbb_common/src/config.rs:942-949 Config::set_host_key_confirmed *)
Definition set_host_key_confirmed (host : string) (v : bool) (w : World) : World :=
  let c := config w in
  update (negb (Bool.eqb (get_host_key_confirmed host w) v))
    (mkConfig (id c) (enc_id c) (password c) (salt c) (key_pair c) (key_confirmed c)
       (<[host := v]> (keys_confirmed c))) w.

(** The last four bytes of the hardware address, without their top three bits. *)
(* src/libs/hbb_common/src/config.rs:882-905 Config::get_auto_id *)
Definition get_auto_id (mac : option (list Z)) : option Z :=
  m ← mac;
  Some (Z.land (foldl (fun i x => Z.lor (u32 (Z.shiftl i 8)) x) 0 (drop 2 m)) 0x1FFFFFFF).

(* src/libs/hbb_common/src/config.rs:101-107 CHARS *)
Definition NUM_CHARS : string := "0123456789".
Definition CHARS : string := "23456789abcdefghijkmnpqrstuvwxyz".

(** [None]: the table of characters is empty. *)
(* src/libs/hbb_common/src/config.rs:915-920 Config::get_auto_password_with_chars *)
Fixpoint get_auto_password_with_chars (random : list Z) (chars : string) : option string :=
  match random with
  | [] => Some ""%string
  | r :: random =>
      if decide (chars = ""%string) then None
      else
        c ← String.get (Z.to_nat (r mod Z.of_nat (String.length chars))) chars;
        s ← get_auto_password_with_chars random chars;
        Some (String c s)
  end.

(** ** Options *)

Definition with_options (o : settings) (c : Config2) : Config2 :=
  mkConfig2 (rendezvous_server c) (nat_type c) (serial c) (unlock_pin c) (trusted_devices c)
    (socks c) o.

Definition option_of (k : string) (w : World) : string :=
  get_option (s_overwrite S) (options (config2 w)) (s_default S) k.

Definition set_option_of (k v : string) (w : World) : World :=
  let '(o, st) := Options.set_option (s_overwrite S) (s_default S) k v (options (config2 w)) in
  update2 st (with_options o (config2 w)) w.

Definition set_options_of (v : settings) (w : World) : World :=
  let '(o, st) := Options.set_options (s_overwrite S) (s_default S) v (options (config2 w)) in
  update2 st (with_options o (config2 w)) w.

(** ** Proxy, pin, types *)

(* src/libs/hbb_common/src/config.rs:1160-1176 Config::get_socks_from_custom_client_advanced_settings *)
Definition get_socks_from (s : settings) : option Socks5Server :=
  url ← s !! "proxy-url"%string;
  Some (mkSocks url (default ""%string (s !! "proxy-username"%string))
          (default ""%string (s !! "proxy-password"%string))).

(* src/libs/hbb_common/src/config.rs:1178-1184 Config::get_socks *)
Definition get_socks (w : World) : option Socks5Server :=
  or_else (get_socks_from (s_overwrite S))
    (or_else (socks (config2 w)) (get_socks_from (s_default S))).

(* src/libs/hbb_common/src/config.rs:1191-1212 Config::get_network_type *)
Definition get_network_type_is_proxy (w : World) : bool :=
  bool_decide (is_Some (s_overwrite S !! "proxy-url"%string)) ||
  bool_decide (is_Some (socks (config2 w))) ||
  bool_decide (is_Some (s_default S !! "proxy-url"%string)).

(* src/libs/hbb_common/src/config.rs:1114-1158 Config::set_socks *)
Definition set_socks (sk : option Socks5Server) (w : World) : World :=
  if bool_decide (is_Some (s_overwrite S !! "proxy-url"%string)) then w
  else
    let c := config2 w in
    let d := default (mkSocks "" "" "") sk in
    let equal_to_default k v := bool_decide (s_default S !! k = Some v) in
    if bool_decide (socks c = sk) then w
    else if bool_decide (socks c = None) &&
            (bool_decide (is_Some (s_default S !! "proxy-url"%string)) &&
             equal_to_default "proxy-url"%string (proxy d) &&
             equal_to_default "proxy-username"%string (username d) &&
             equal_to_default "proxy-password"%string (socks_password d)) then w
    else store2 (set_config2 (mkConfig2 (rendezvous_server c) (nat_type c) (serial c) (unlock_pin c)
                                (trusted_devices c) sk (options c)) w).

(* src/libs/hbb_common/src/config.rs:1218-1225 Config::set_unlock_pin *)
Definition set_unlock_pin (pin : string) (w : World) : World :=
  let c := config2 w in
  update2 (negb (bool_decide (pin = unlock_pin c)))
    (mkConfig2 (rendezvous_server c) (nat_type c) (serial c) pin (trusted_devices c) (socks c)
       (options c)) w.

(* src/libs/hbb_common/src/config.rs:830-837 Config::set_nat_type *)
Definition set_nat_type (t : Z) (w : World) : World :=
  let c := config2 w in
  update2 (negb (t =? nat_type c))
    (mkConfig2 (rendezvous_server c) t (serial c) (unlock_pin c) (trusted_devices c) (socks c)
       (options c)) w.

(* src/libs/hbb_common/src/config.rs:40-40 SERIAL *)
Definition SERIAL : Z := 3.

(* src/libs/hbb_common/src/config.rs:843-850 Config::set_serial *)
Definition set_serial (s : Z) (w : World) : World :=
  let c := config2 w in
  update2 (negb (s =? serial c))
    (mkConfig2 (rendezvous_server c) (nat_type c) s (unlock_pin c) (trusted_devices c) (socks c)
       (options c)) w.

(* src/libs/hbb_common/src/config.rs:852-854 Config::get_serial *)
Definition get_serial (w : World) : Z := Z.max (serial (config2 w)) SERIAL.

(** ** Rendezvous servers *)

(* src/libs/hbb_common/src/config.rs:109-109 RENDEZVOUS_SERVERS *)
Definition RENDEZVOUS_SERVERS : list string := ["turn.tohocoin.com"%string].

Definition contains (c : Ascii.ascii) (s : string) : bool :=
  bool_decide (c ∈ String.list_ascii_of_string s).

Fixpoint split_char (c : Ascii.ascii) (cur : string) (s : string) : list string :=
  match s with
  | EmptyString => [cur]
  | String x s => if decide (x = c) then cur :: split_char c "" s
                  else split_char c (cur +:+ String x "") s
  end.

(* src/libs/hbb_common/src/config.rs:769-794 Config::get_rendezvous_servers *)
Definition get_rendezvous_servers (w : World) : list string :=
  let custom := option_of "custom-rendezvous-server" w in
  if negb (bool_decide (s_exe_rendezvous S = ""%string)) then [s_exe_rendezvous S]
  else if negb (bool_decide (custom = ""%string)) then [custom]
  else if negb (bool_decide (s_prod_rendezvous S = ""%string)) then [s_prod_rendezvous S]
  else
    let ss := if SERIAL <? serial (config2 w)
              then List.filter (contains "."%char)
                     (split_char ","%char "" (option_of "rendezvous-servers" w))
              else [] in
    if decide (ss = []) then RENDEZVOUS_SERVERS else ss.

(* src/libs/hbb_common/src/config.rs:746-767 Config::get_rendezvous_server *)
Definition get_rendezvous_server (w : World) : string :=
  let first_nonempty := fold_right (fun a b => if decide (a = ""%string) then b else a) ""%string in
  let s := first_nonempty
    [s_exe_rendezvous S; option_of "custom-rendezvous-server" w; s_prod_rendezvous S;
     rendezvous_server (config2 w); default ""%string (head (get_rendezvous_servers w))] in
  if contains ":"%char s then s else s +:+ ":21116".

(** The host of the smallest positive latency, the first one met. *)
Definition best_host (l : list (string * Z)) : string :=
  fst (foldl (fun '(host, delay) '(h, d) =>
    if (0 <? d) && (d <? delay) then (h, d) else (host, delay)) (""%string, 2 ^ 63 - 1) l).

(** [iter] is the order in which the map is iterated. *)
(* src/libs/hbb_common/src/config.rs:800-819 Config::update_latency *)
Definition update_latency (iter : gmap string Z -> list (string * Z)) (host : string) (latency : Z)
    (w : World) : World :=
  let w := set_online (<[host := latency]> (online w)) w in
  let best := best_host (iter (online w)) in
  let c := config2 w in
  update2 (negb (bool_decide (best = ""%string)) && negb (bool_decide (best = rendezvous_server c)))
    (mkConfig2 best (nat_type c) (serial c) (unlock_pin c) (trusted_devices c) (socks c)
       (options c)) w.

(** ** Trusted devices *)

Definition MAX_DEVICES_LEN : Z := 1024 * 1024.

Definition retain_fresh (now : Z) (l : list TrustedDevice) : list TrustedDevice :=
  List.filter (fun d => negb (outdate now d)) l.

(* src/libs/hbb_common/src/config.rs:1253-1266 Config::set_trusted_devices *)
Definition set_trusted_devices (now : Z) (l : list TrustedDevice) (w : World) : World :=
  let l := retain_fresh now l in
  let j := to_json l in
  if MAX_DEVICES_LEN <? zlen (as_bytes j) then w
  else
    let c := config2 w in
    let w := store2 (set_config2 (mkConfig2 (rendezvous_server c) (nat_type c) (serial c)
               (unlock_pin c)
               (encrypt_str_or_original mk_key uuid j PASSWORD_ENC_VERSION MAX_DEVICES_LEN)
               (socks c) (options c)) w) in
    set_cache (l, true) w.

(* src/libs/hbb_common/src/config.rs:1231-1251 Config::get_trusted_devices *)
Definition get_trusted_devices (now : Z) (w : World) : list TrustedDevice * World :=
  if snd (trusted w) then (fst (trusted w), w)
  else
    let '(j, succ, st) := open_str (trusted_devices (config2 w)) in
    if succ then
      let all := default [] (from_json j) in
      let fresh := retain_fresh now all in
      let w := if st || negb (bool_decide (length fresh = length all))
               then set_trusted_devices now fresh w else w in
      (fresh, set_cache (fresh, true) w)
    else ([], w).

(* src/libs/hbb_common/src/config.rs:1268-1273 Config::add_trusted_device *)
Definition add_trusted_device (now : Z) (d : TrustedDevice) (w : World) : World :=
  let '(l, w) := get_trusted_devices now w in
  set_trusted_devices now (List.filter (fun x => negb (bool_decide (hwid x = hwid d))) l ++ [d]) w.

(* src/libs/hbb_common/src/config.rs:1275-1279 Config::remove_trusted_devices *)
Definition remove_trusted_devices (now : Z) (hwids : list bytes) (w : World) : World :=
  let '(l, w) := get_trusted_devices now w in
  set_trusted_devices now (List.filter (fun x => negb (bool_decide (hwid x ∈ hwids))) l) w.

(* src/libs/hbb_common/src/config.rs:1281-1283 Config::clear_trusted_devices *)
Definition clear_trusted_devices (now : Z) (w : World) : World := set_trusted_devices now [] w.

(** ** The permanent password *)

(* src/libs/hbb_common/src/config.rs:1068-1084 Config::set_permanent_password *)
Definition set_permanent_password (now : Z) (p : string) (w : World) : World :=
  if decide (s_hard S !! "password"%string = Some p) then w
  else if decide (p = password (config w)) then w
  else clear_trusted_devices now (store (set_config (with_password p (config w)) w)).

(* src/libs/hbb_common/src/config.rs:1086-1094 Config::get_permanent_password *)
Definition get_permanent_password (w : World) : string :=
  let p := password (config w) in
  if decide (p = ""%string) then default p (s_hard S !! "password"%string) else p.

(** ** What happens to a configuration *)

Inductive config_op : Type :=
| OpSetId (i : string)
| OpSetSalt (s : string)
| OpSetKeyConfirmed (v : bool)
| OpSetHostKeyConfirmed (host : string) (v : bool)
| OpSetPassword (now : Z) (p : string)
| OpSetOption (k v : string)
| OpSetOptions (v : settings)
| OpSetSocks (s : option Socks5Server)
| OpSetPin (p : string)
| OpSetNatType (t : Z)
| OpSetSerial (s : Z)
| OpLatency (iter : gmap string Z -> list (string * Z)) (host : string) (latency : Z)
| OpAddDevice (now : Z) (d : TrustedDevice)
| OpRemoveDevices (now : Z) (hwids : list bytes)
| OpGetDevices (now : Z).

Definition run_op (op : config_op) (w : World) : World :=
  match op with
  | OpSetId i => set_id i w
  | OpSetSalt s => set_salt s w
  | OpSetKeyConfirmed v => set_key_confirmed v w
  | OpSetHostKeyConfirmed h v => set_host_key_confirmed h v w
  | OpSetPassword now p => set_permanent_password now p w
  | OpSetOption k v => set_option_of k v w
  | OpSetOptions v => set_options_of v w
  | OpSetSocks s => set_socks s w
  | OpSetPin p => set_unlock_pin p w
  | OpSetNatType t => set_nat_type t w
  | OpSetSerial s => set_serial s w
  | OpLatency iter h l => update_latency iter h l w
  | OpAddDevice now d => add_trusted_device now d w
  | OpRemoveDevices now h => remove_trusted_devices now h w
  | OpGetDevices now => snd (get_trusted_devices now w)
  end.

Definition run_ops (ops : list config_op) (w : World) : World := foldl (fun w op => run_op op w) w ops.

(** A secret that sealing keeps. *)
Definition storable (s : string) : Prop :=
  utf8 s /\ sealed mk_key uuid s = false /\ chars_count s <= ENCRYPT_MAX_LEN.

Definition op_storable (op : config_op) : Prop :=
  match op with
  | OpSetId i => storable i /\ i <> ""%string
  | OpSetPassword _ p | OpSetPin p => storable p
  | OpSetSocks (Some s) => storable (socks_password s)
  | _ => True
  end.

(** What counts of a configuration in memory: [enc_id] is only for the file. *)
Definition visible (c : Config) : Config :=
  mkConfig (id c) "" (password c) (salt c) (key_pair c) (key_confirmed c) (keys_confirmed c).

(** Files that give back what is in memory. *)
Record kept (w : World) : Prop := mkKept {
  k_writable : writable w = true;
  k_id : storable (id (config w)) /\ id (config w) <> ""%string;
  k_password : storable (password (config w));
  k_pin : storable (unlock_pin (config2 w));
  k_socks : forall s, socks (config2 w) = Some s -> storable (socks_password s);
  k_file : forall gens, visible (fst (load gens (file w))) = visible (config w);
  k_file2 : fst (load2 (file2 w)) = config2 w;
}.

Lemma open_seal_str s : storable s ->
  open_str (seal_str s) = (s, negb (bool_decide (s = ""%string)), false).
Proof. intros (U & Se & C). by apply store_load_secret. Qed.

Lemma load_sealed gens c :
  storable (id c) -> id c <> ""%string -> storable (password c) ->
  visible (fst (load gens (sealed_config c))) = visible c.
Proof.
  intros Hi Ni Hp. unfold load, sealed_config. cbn [password].
  rewrite (open_seal_str (password c) Hp). cbn [with_password enc_id].
  rewrite (open_seal_str (id c) Hi). by rewrite bool_decide_false.
Qed.

Lemma load2_sealed c :
  storable (unlock_pin c) -> (forall s, socks c = Some s -> storable (socks_password s)) ->
  fst (load2 (sealed_config2 c)) = c.
Proof.
  intros Hp Hs. unfold load2, sealed_config2. cbn [socks unlock_pin rendezvous_server nat_type serial
    trusted_devices options]. destruct c as [rs nt se pin td sk o]. cbn in *.
  destruct sk as [s|]; cbn [fmap option_fmap option_map].
  - cbn [socks_password proxy username]. rewrite (open_seal_str (socks_password s)) by auto.
    rewrite (open_seal_str pin Hp). by destruct s.
  - by rewrite (open_seal_str pin Hp).
Qed.

Lemma kept_store w :
  writable w = true -> storable (id (config w)) -> id (config w) <> ""%string ->
  storable (password (config w)) -> storable (unlock_pin (config2 w)) ->
  (forall s, socks (config2 w) = Some s -> storable (socks_password s)) ->
  fst (load2 (file2 w)) = config2 w -> kept (store w).
Proof.
  intros Wr ? ? ? ? ? ?. unfold store. rewrite Wr. split; simpl; try done. intros gens. by apply load_sealed.
Qed.

Lemma kept_store2 w :
  writable w = true -> storable (id (config w)) -> id (config w) <> ""%string ->
  storable (password (config w)) -> storable (unlock_pin (config2 w)) ->
  (forall s, socks (config2 w) = Some s -> storable (socks_password s)) ->
  (forall gens, visible (fst (load gens (file w))) = visible (config w)) -> kept (store2 w).
Proof.
  intros Wr ? ? ? ? ? ?. unfold store2. rewrite Wr. split; simpl; try done. by apply load2_sealed.
Qed.

Lemma kept_update ch c w :
  kept w -> storable (id c) -> id c <> ""%string -> storable (password c) -> kept (update ch c w).
Proof. intros [] ? ? ?. unfold update. destruct ch; [by apply kept_store|done]. Qed.

Lemma kept_set2 c w :
  kept w -> storable (unlock_pin c) -> (forall s, socks c = Some s -> storable (socks_password s)) ->
  kept (store2 (set_config2 c w)).
Proof. intros [? []] ? ?. by apply kept_store2. Qed.

Lemma kept_update2 ch c w :
  kept w -> storable (unlock_pin c) -> (forall s, socks c = Some s -> storable (socks_password s)) ->
  kept (update2 ch c w).
Proof. intros K ? ?. unfold update2. destruct ch; [by apply kept_set2|done]. Qed.

Lemma kept_cache t w : kept w -> kept (set_cache t w).
Proof. by intros []. Qed.

Lemma kept_devices now l w : kept w -> kept (set_trusted_devices now l w).
Proof.
  intros K. unfold set_trusted_devices. case_match; [done|]. apply kept_cache.
  apply kept_set2; [done|apply K|apply K].
Qed.

Lemma kept_get_devices now w : kept w -> kept (snd (get_trusted_devices now w)).
Proof.
  intros K. unfold get_trusted_devices. destruct (snd (trusted w)); [done|].
  destruct (open_str (trusted_devices (config2 w))) as [[j succ] st]. destruct succ; [|done]. simpl. apply kept_cache.
  case_match; [by apply kept_devices|done].
Qed.

Lemma kept_add_device now d w : kept w -> kept (add_trusted_device now d w).
Proof.
  intros K. unfold add_trusted_device. pose proof (kept_get_devices now w K).
  destruct (get_trusted_devices now w) as [l w']. by apply kept_devices.
Qed.

Lemma kept_remove_devices now h w : kept w -> kept (remove_trusted_devices now h w).
Proof.
  intros K. unfold remove_trusted_devices. pose proof (kept_get_devices now w K).
  destruct (get_trusted_devices now w) as [l w']. by apply kept_devices.
Qed.

Lemma kept_step op w : kept w -> op_storable op -> kept (run_op op w).
Proof.
  intros K Ho. pose proof (k_id w K) as [Ki Kn]. pose proof (k_password w K) as Kp.
  pose proof (k_pin w K) as Kpin. pose proof (k_socks w K) as Ks.
  destruct op; cbn [run_op]; simpl in Ho.
  - destruct Ho. by apply kept_update.
  - by apply kept_update.
  - by apply kept_update.
  - by apply kept_update.
  - unfold set_permanent_password. do 2 (case_decide; [done|]). apply kept_devices.
    destruct K. by apply kept_store.
  - unfold set_option_of. destruct (Options.set_option _ _ _ _ _). by apply kept_update2.
  - unfold set_options_of. destruct (Options.set_options _ _ _ _). by apply kept_update2.
  - unfold set_socks. cbv zeta. destruct (bool_decide (is_Some _)); [done|].
    destruct (bool_decide (socks _ = _)); [done|]. destruct (_ && _); [done|].
    apply kept_set2; [done|done|]. simpl. intros x ->. done.
  - by apply kept_update2.
  - by apply kept_update2.
  - by apply kept_update2.
  - unfold update_latency. apply kept_update2; [by destruct K|done|done].
  - by apply kept_add_device.
  - by apply kept_remove_devices.
  - by apply kept_get_devices.
Qed.

Lemma empty_storable : storable ""%string.
Proof. split_and!; [by vm_compute|done|]. unfold ENCRYPT_MAX_LEN. done. Qed.

Lemma boot_kept i :
  storable i -> i <> ""%string -> kept (boot [Some i] default_config default_config2 true).
Proof.
  intros Hi Ni. pose proof empty_storable as E0.
  assert (load [Some i] default_config = (with_id i default_config, true)) as El by done.
  unfold boot. change (load2 default_config2) with (default_config2, false). rewrite El.
  cbn zeta. by apply kept_store.
Qed.

(** C31. A restart loses nothing: on a new machine whose identifier can be stored,
    after any sequence of changes (to the identifier, passwords, keys, options,
    proxy, pin, servers and trusted devices, with secrets of at most 128 characters
    that are not sealed texts themselves), starting again from the two files gives
    the configuration that was in memory.  Every write of a file succeeds; the changes to keys
    are whether they are confirmed, not the key pair itself. *)
Theorem restart_keeps_config i ops gens :
  storable i -> i <> ""%string -> Forall op_storable ops ->
  let w := run_ops ops (boot [Some i] default_config default_config2 true) in
  visible (config (restart gens w)) = visible (config w) /\
  config2 (restart gens w) = config2 w.
Proof.
  intros Hi Ni Ho w.
  assert (kept w) as K.
  { subst w. pose proof (boot_kept i Hi Ni) as K. revert K.
    generalize (boot [Some i] default_config default_config2 true).
    unfold run_ops. induction Ho as [|op ops Hop _ IH]; intros w K; simpl; [done|].
    apply IH. by apply kept_step. }
  clearbody w. destruct K as [Wr [Ki Kn] Kp Kpin Ks Kf Kf2].
  unfold restart, boot.
  specialize (Kf gens).
  destruct (load gens (file w)) as [c st]. destruct (load2 (file2 w)) as [c2 st2].
  simpl in Kf, Kf2. subst c2.
  destruct st, st2; unfold store, store2; rewrite ?Wr; simpl; split; done.
Qed.

(** ** The password and the trusted devices *)

Lemma set_trusted_config now l w : config (set_trusted_devices now l w) = config w.
Proof. unfold set_trusted_devices, store2. case_match; [done|]. simpl. by destruct (writable w). Qed.

Lemma set_trusted_writable now l w : writable (set_trusted_devices now l w) = writable w.
Proof.
  unfold set_trusted_devices, store2. case_match; [done|]. simpl. by destruct (writable w) eqn:E.
Qed.

Lemma get_trusted_writable now w : writable (snd (get_trusted_devices now w)) = writable w.
Proof.
  unfold get_trusted_devices. destruct (snd (trusted w)); [done|].
  destruct (open_str (trusted_devices (config2 w))) as [[j succ] st]. destruct succ; [|done]. simpl.
  case_match; [by rewrite set_trusted_writable|done].
Qed.

Definition devices (now : Z) (w : World) : list TrustedDevice := fst (get_trusted_devices now w).

Lemma devices_set now now' l w :
  zlen (as_bytes (to_json (retain_fresh now l))) <= MAX_DEVICES_LEN ->
  devices now' (set_trusted_devices now l w) = retain_fresh now l.
Proof.
  intros L. unfold devices, set_trusted_devices. by rewrite (proj2 (Z.ltb_ge _ _)).
Qed.

Lemma open_sealed_json l :
  zlen (as_bytes (to_json l)) <= MAX_DEVICES_LEN ->
  open_str (encrypt_str_or_original mk_key uuid (to_json l) PASSWORD_ENC_VERSION MAX_DEVICES_LEN) =
  (to_json l, true, false).
Proof.
  intros L. pose proof (json_bracket l) as B. unfold open_str.
  rewrite store_load_secret; [|apply json_utf8| |].
  - rewrite bool_decide_false; [done|]. intros E. by rewrite E in B.
  - unfold sealed, decrypt_str_or_original, has_version.
    destruct (as_bytes (to_json l)) as [|b rest]; [done|]. injection B as ->.
    rewrite (bool_decide_false (take 2 _ = _)); [by case_match|].
    by destruct rest.
  - etrans; [apply chars_count_le|done].
Qed.

Lemma boot_trusted gens f f2 ok :
  trusted (boot gens f f2 ok) = ([], false) /\
  trusted_devices (config2 (boot gens f f2 ok)) = trusted_devices f2.
Proof.
  assert (trusted_devices (fst (load2 f2)) = trusted_devices f2) as Et.
  { unfold load2. destruct (socks f2) as [s|]; [destruct (open_str (socks_password s)) as [[? ?] ?]|];
      by destruct (open_str (unlock_pin f2)) as [[? ?] ?]. }
  unfold boot, store, store2. destruct (load gens f) as [c st], (load2 f2) as [c2 st2].
  simpl in Et. destruct st, st2, ok; simpl; done.
Qed.

Lemma devices_restart now now' gens l w :
  writable w = true -> zlen (as_bytes (to_json (retain_fresh now l))) <= MAX_DEVICES_LEN ->
  devices now' (restart gens (set_trusted_devices now l w)) = retain_fresh now' (retain_fresh now l).
Proof.
  intros Wr L. unfold restart. set (w1 := set_trusted_devices now l w).
  destruct (boot_trusted gens (file w1) (file2 w1) (writable w1)) as [E1 E2].
  unfold devices, get_trusted_devices. rewrite E1, E2. cbn [snd].
  assert (trusted_devices (file2 w1) =
    encrypt_str_or_original mk_key uuid (to_json (retain_fresh now l)) PASSWORD_ENC_VERSION
      MAX_DEVICES_LEN) as ->.
  { subst w1. unfold set_trusted_devices, store2. rewrite (proj2 (Z.ltb_ge _ _)) by done.
    simpl. by rewrite Wr. }
  rewrite open_sealed_json by done. cbn [fst]. by rewrite json_roundtrip.
Qed.

(** A device that is trusted stays trusted for ninety days: it is added to the
    devices that are not out of date and have another identifier, the list is at once
    the answer, and after a restart at any later time it is what is left of the list
    then.  (A list that does not fit in a mebibyte is not kept.) *)
Theorem trusted_device_added now now' gens d w :
  let l := List.filter (fun x => negb (bool_decide (hwid x = hwid d))) (devices now w) ++ [d] in
  writable w = true -> zlen (as_bytes (to_json (retain_fresh now l))) <= MAX_DEVICES_LEN ->
  let w' := add_trusted_device now d w in
  devices now' w' = retain_fresh now l /\
  devices now' (restart gens w') = retain_fresh now' (retain_fresh now l).
Proof.
  intros l Wr L w'. subst w' l. unfold add_trusted_device, devices in *.
  pose proof (get_trusted_writable now w) as Wg.
  destruct (get_trusted_devices now w) as [ds w1]. cbn [fst snd] in *. split.
  - by apply devices_set.
  - apply devices_restart; [congruence|done].
Qed.

(** Choosing a permanent password: it is the one that is asked for afterwards,
    and all devices lose their trust; an empty one gives the preset password back.
    But choosing the preset password does nothing at all: where another password was
    chosen before, that one stays the permanent password. *)
Theorem permanent_password_set now now' p w :
  let w' := set_permanent_password now p w in
  let old := password (config w) in
  let preset := s_hard S !! "password"%string in
  get_permanent_password w' =
    (if decide (preset = Some p) then (if decide (old = ""%string) then p else old)
     else if decide (p = ""%string) then default ""%string preset else p) /\
  (preset <> Some p -> p <> old -> devices now' w' = []).
Proof.
  intros w' old preset. subst w' old. unfold set_permanent_password, get_permanent_password. fold preset.
  destruct (decide (preset = Some p)) as [E|E].
  { split; [|done]. rewrite E. by case_decide. }
  destruct (decide (p = password (config w))) as [->|N].
  - split; [|done]. case_decide as E'; [|done]. rewrite E'. by destruct preset.
  - unfold clear_trusted_devices. rewrite set_trusted_config. split.
    + assert (password (config (store (set_config (with_password p (config w)) w))) = p) as ->.
      { unfold store. simpl. by destruct (writable w). }
      case_decide as E'; [|done]. rewrite E'. by destruct preset.
    + intros _ _. apply devices_set. change (retain_fresh now []) with ([] : list TrustedDevice).
      by rewrite json_empty.
Qed.

(** An automatic identifier has nine digits at most: whatever the hardware
    address, it is below 2^29. *)
Theorem auto_id_bounded mac i : get_auto_id mac = Some i -> 0 <= i < 2 ^ 29.
Proof.
  unfold get_auto_id. destruct mac as [m|]; [|done]. cbn [mbind option_bind]. intros [= <-].
  change 0x1FFFFFFF with (Z.ones 29). rewrite Z.land_ones by lia. apply Z.mod_pos_bound. lia.
Qed.

End config.

(** ** Witnesses

    The devices as the binary digits of their number in an enumeration, in brackets. *)

Definition device_code (d : TrustedDevice) : list N * Z * (string * string * string) :=
  (Byte.to_N <$> hwid d, time d, (td_id d, td_name d, td_platform d)).
Definition device_of (c : list N * Z * (string * string * string)) : TrustedDevice :=
  let '(h, t, (i, n, p)) := c in
  mkDevice ((fun n => default Byte.x00 (Byte.of_N n)) <$> h) t i n p.

Lemma device_of_code d : device_of (device_code d) = d.
Proof.
  destruct d as [h t i n p]. unfold device_of, device_code. simpl. f_equal.
  rewrite <- list_fmap_compose. rewrite <- (list_fmap_id h) at 2. apply list_fmap_ext.
  intros k b _. unfold compose. by rewrite Byte.of_to_N.
Qed.

Fixpoint digits (p : positive) : string :=
  match p with
  | xH => "]"
  | xO p => String "0" (digits p)
  | xI p => String "1" (digits p)
  end.

Fixpoint undigits (s : string) : positive :=
  match s with
  | String "0" s => xO (undigits s)
  | String "1" s => xI (undigits s)
  | _ => xH
  end.

Definition json_digits_to (l : list TrustedDevice) : string :=
  match l with [] => "[]" | _ => String "[" (digits (encode (device_code <$> l))) end.
Definition json_digits_from (s : string) : option (list TrustedDevice) :=
  if decide (s = "[]"%string) then Some []
  else l ← decode (undigits (String.substring 1 (String.length s) s)); Some (map device_of l).

Lemma substring_tail n s : (String.length s <= n)%nat -> String.substring 0 n s = s.
Proof.
  revert n. induction s as [|c s IH]; intros [|n] L; simpl in *; try done; try lia.
  f_equal. apply IH. lia.
Qed.

Lemma undigits_digits p : undigits (digits p) = p.
Proof. induction p; simpl; congruence. Qed.

Lemma digits_ascii p : Forall (fun b => byte.unsigned b < 128) (as_bytes (digits p)).
Proof.
  unfold as_bytes. induction p as [p IH|p IH|]; simpl; (apply Forall_cons; split; [by vm_compute|]);
    done.
Qed.

Lemma json_digits_roundtrip l : json_digits_from (json_digits_to l) = Some l.
Proof.
  destruct l as [|d l]; [done|]. unfold json_digits_to. set (p := encode (device_code <$> d :: l)).
  assert (decode p = Some (device_code <$> d :: l)) as Ep by apply decode_encode.
  unfold json_digits_from. rewrite decide_False.
  - cbn [String.substring String.length]. rewrite substring_tail by lia.
    rewrite undigits_digits, Ep. cbn [mbind option_bind]. f_equal.
    change (map device_of (map device_code (d :: l)) = d :: l).
    rewrite map_map. rewrite <- (map_id (d :: l)) at 2. apply map_ext. apply device_of_code.
  - intros E. injection E as E. clearbody p. destruct p; try discriminate.
Qed.

Definition json_digits : Json.
Proof.
  refine {| to_json := json_digits_to; from_json := json_digits_from;
            json_roundtrip := json_digits_roundtrip |}.
  - intros [|d l]; apply ascii_utf8; unfold as_bytes, json_digits_to.
    + by vm_compute; repeat (apply Forall_cons_2; [done|]); apply Forall_nil_2.
    + apply Forall_cons_2; [done|]. apply digits_ascii.
  - by intros [|d l].
  - done.
Defined.

Definition no_statics : Statics := mkStatics ∅ ∅ ∅ ∅ "" "".
Definition with_preset : Statics := mkStatics ∅ ∅ {["password"%string := "preset"%string]} ∅ "" "".

(** A new machine with the given settings. *)
Definition machine : World :=
  boot (H := box_plain) (H0 := base64_hex) (fun _ => tt) [] [Some "123456789"%string]
    default_config default_config2 true.

Definition a_device : TrustedDevice := mkDevice [Byte.x07] 5 "1" "pc" "Linux".

Definition changes : list config_op :=
  [OpSetPassword 6 "hunter2"; OpSetOption "enable-audio" "N"; OpAddDevice 6 a_device;
   OpSetSocks (Some (mkSocks "proxy" "me" "secret")); OpSetId "987654321"].

Definition changed : World :=
  run_ops (H := box_plain) (H0 := base64_hex) (H1 := json_digits) (fun _ => tt) [] no_statics
    changes machine.

Lemma restart_keeps_config_witness :
  let w := restart (H := box_plain) (H0 := base64_hex) (fun _ => tt) [] [] changed in
  visible (config w) = visible (config changed) /\ config2 w = config2 changed /\
  password (config changed) = "hunter2"%string.
Proof.
  destruct (restart_keeps_config (H := box_plain) (H0 := base64_hex) (H1 := json_digits)
    (fun _ => tt) [] no_statics "123456789" changes []) as [E1 E2].
  - split_and!; by vm_compute.
  - done.
  - repeat (apply Forall_cons_2; [first [done|split_and!; by vm_compute]|]). apply Forall_nil_2.
  - split_and!; [exact E1|exact E2|by vm_compute].
Defined.

Lemma trusted_device_added_witness :
  devices (H := box_plain) (H0 := base64_hex) (H1 := json_digits) (fun _ => tt) [] 7
    (restart (H := box_plain) (H0 := base64_hex) (fun _ => tt) [] []
       (add_trusted_device (H := box_plain) (H0 := base64_hex) (H1 := json_digits) (fun _ => tt) [] 6
          a_device machine)) = [a_device].
Proof.
  destruct (trusted_device_added (H := box_plain) (H0 := base64_hex) (H1 := json_digits)
    (fun _ => tt) [] 6 7 [] a_device machine) as [_ E]; [by vm_compute|by vm_compute|].
  etrans; [exact E|by vm_compute].
Defined.

Lemma permanent_password_set_witness :
  let w := set_permanent_password (H := box_plain) (H0 := base64_hex) (H1 := json_digits)
             (fun _ => tt) [] with_preset 6 "mine" machine in
  devices (H := box_plain) (H0 := base64_hex) (H1 := json_digits) (fun _ => tt) [] 7 w = [] /\
  get_permanent_password with_preset
    (set_permanent_password (H := box_plain) (H0 := base64_hex) (H1 := json_digits)
       (fun _ => tt) [] with_preset 8 "preset" w) = "mine"%string.
Proof.
  intros w. split.
  - apply (permanent_password_set (H := box_plain) (H0 := base64_hex) (H1 := json_digits)
      (fun _ => tt) [] with_preset 6 7 "mine" machine); by vm_compute.
  - etrans; [apply (permanent_password_set (H := box_plain) (H0 := base64_hex) (H1 := json_digits)
      (fun _ => tt) [] with_preset 8 9 "preset" w)|by vm_compute].
Defined.

Lemma auto_id_bounded_witness : 0 <= 0x1FAABBCC < 2 ^ 29.
Proof. apply (auto_id_bounded (Some [1; 2; 0xFF; 0xAA; 0xBB; 0xCC])). by vm_compute. Defined.
