(* ===== verification/PrivacyMode.v ===== *)
(** * The privacy mode

    While it is on, the person in front of the controlled machine sees nothing and
    cannot interfere.  [src/privacy_mode.rs] keeps at most one implementation, which
    belongs to at most one connection; there are two kinds of implementations, a window
    over everything ([win_topmost_window.rs], for two keys) and a virtual display
    ([win_virtual_display.rs]); [src/server/connection.rs] turns it on and off for the
    peers.

    What Windows answers is an argument of every operation.  The manager is written
    against the class [PrivacyMode], whose laws the two kinds satisfy.  Displays and the
    keyboard hook themselves are not modelled: only whether changing them succeeds. *)

From S2P Require Import Prelude.

(* src/src/privacy_mode.rs:31-35 INVALID_PRIVACY_MODE_CONN_ID, OCCUPIED, TURN_OFF_OTHER_ID *)
Definition INVALID_PRIVACY_MODE_CONN_ID : Z := 0.
Definition OCCUPIED : string := "Privacy occupied by another one.".
Definition TURN_OFF_OTHER_ID : string :=
  "Failed to turn off privacy mode that belongs to someone else.".
Definition NO_PHYSICAL_DISPLAYS : string := "no_need_privacy_mode_no_physical_displays_tip".

(* src/src/privacy_mode.rs:37-40 PRIVACY_MODE_IMPL_WIN_MAG *)
Definition WIN_MAG : string := "privacy_mode_impl_mag".
Definition WIN_EXCLUDE : string := "privacy_mode_impl_exclude_from_capture".
Definition WIN_VIRTUAL : string := "privacy_mode_impl_virtual_display".

(* src/src/privacy_mode.rs:44-48 PrivacyModeState *)
Inductive PrivacyModeState := OffSucceeded | OffByPeer | OffUnknown.

Abbreviation ResultType := (result string).

(** What the person in front of the machine is told. *)
Definition notice : Type := Z * PrivacyModeState * string.

(** What Windows answers while the mode is turned on: the executable and its directory
    ([None]: the call fails, [Some None]: no parent, else whether the library is there),
    the start of the helper and whether it leaves its handles, the window, the hooks, the displays. *)
Record OnEnv : Type := mkOn {
  e_dll : result string (option bool);
  e_start : ResultType unit;
  e_started : bool;
  e_hwnd : ResultType bool;
  e_hook : ResultType unit;
  e_virtual_supported : bool;
  e_displays : bool;
  e_ensure : ResultType unit;
  e_virtuals : bool;
  e_steps : list (ResultType unit);
}.

(** What Windows answers while the mode is turned off. *)
Record OffEnv : Type := mkOff {
  e_unhook : ResultType unit;
  e_find : ResultType bool;
}.

(** ** The interface *)

(** The provided methods of the trait, from the owner. *)
(* src/src/privacy_mode.rs:64-73 PrivacyMode::check_on_conn_id *)
Definition check_on (pre id : Z) : ResultType bool :=
  if pre =? id then Ok true
  else if negb (pre =? INVALID_PRIVACY_MODE_CONN_ID) then Err OCCUPIED
  else Ok false.

(* src/src/privacy_mode.rs:76-85 PrivacyMode::check_off_conn_id *)
Definition check_off (pre id : Z) : ResultType unit :=
  if negb (pre =? INVALID_PRIVACY_MODE_CONN_ID) && negb (id =? INVALID_PRIVACY_MODE_CONN_ID) &&
     negb (pre =? id)
  then Err TURN_OFF_OTHER_ID
  else Ok tt.

(** An implementation, with what the manager relies on. *)
(* src/src/privacy_mode.rs:50-86 PrivacyMode *)
Class PrivacyMode (T : Type) : Type := {
  is_async_privacy_mode : T -> bool;
  turn_on_privacy : OnEnv -> OffEnv -> Z -> T -> ResultType bool * T;
  turn_off_privacy : OffEnv -> Z -> option PrivacyModeState -> T -> ResultType unit * T * list notice;
  pre_conn_id : T -> Z;
  get_impl_key : T -> string;
  off_works : OffEnv -> T -> bool;
  law_on_occupied : forall e f id m,
    pre_conn_id m <> 0 -> pre_conn_id m <> id ->
    exists err, turn_on_privacy e f id m = (Err err, m);
  law_on_owner : forall e f id m, let '(r, m') := turn_on_privacy e f id m in
    match r with
    | Ok true => pre_conn_id m' = id
    | _ => pre_conn_id m' = pre_conn_id m
    end;
  law_on_key : forall e f id m, get_impl_key (snd (turn_on_privacy e f id m)) = get_impl_key m;
  law_off_refused : forall f id st m err,
    check_off (pre_conn_id m) id = Err err -> turn_off_privacy f id st m = (Err err, m, []);
  law_off_done : forall f id st m,
    check_off (pre_conn_id m) id = Ok tt -> off_works f m = true ->
    exists m' n, turn_off_privacy f id st m = (Ok tt, m', n) /\ pre_conn_id m' = 0;
  law_off_failed : forall f id st m,
    let '(r, m', _) := turn_off_privacy f id st m in
    get_impl_key m' = get_impl_key m /\ (pre_conn_id m' = pre_conn_id m \/ pre_conn_id m' = 0);
}.

(** ** The two kinds *)

(** The end of both ways to turn off: the notice and the owner. *)
Definition release (id pre : Z) (st : option PrivacyModeState) (key : string) : list notice :=
  if pre =? INVALID_PRIVACY_MODE_CONN_ID then []
  else match st with Some s => [(id, s, key)] | None => [] end.

Module Topmost.

(* src/src/privacy_mode/win_topmost_window.rs:67-72 PrivacyModeImpl *)
Record PrivacyModeImpl : Type := mkImpl {
  impl_key : string;
  conn_id : Z;
  handlers : bool;
  hwnd : bool;
}.

(* src/src/privacy_mode/win_topmost_window.rs:166-176 PrivacyModeImpl::new *)
Definition new (key : string) : PrivacyModeImpl := mkImpl key INVALID_PRIVACY_MODE_CONN_ID false false.

(* src/src/privacy_mode/win_topmost_window.rs:87-122 PrivacyModeImpl::turn_on_privacy *)
Definition turn_on (e : OnEnv) (id : Z) (m : PrivacyModeImpl)
    : ResultType bool * PrivacyModeImpl :=
  match check_on (conn_id m) id with
  | Err x => (Err x, m)
  | Ok true => (Ok true, m)
  | Ok false =>
      match e_dll e with
      | Err x => (Err x, m)
      | Ok None => (Err "Invalid exe parent"%string, m)
      | Ok (Some false) => (Ok false, m)
      | Ok (Some true) =>
          let start := if handlers m then Ok tt else e_start e in
          let m := mkImpl (impl_key m) (conn_id m) (handlers m || e_started e) (hwnd m) in
          match start with
          | Err x => (Err x, m)
          | Ok tt =>
              match e_hwnd e with
              | Err x => (Err x, m)
              | Ok false => (Err "No privacy window created"%string, m)
              | Ok true =>
                  match e_hook e with
                  | Err x => (Err x, m)
                  | Ok tt => (Ok true, mkImpl (impl_key m) id (handlers m) true)
                  end
              end
          end
      end
  end.

(* src/src/privacy_mode/win_topmost_window.rs:124-153 PrivacyModeImpl::turn_off_privacy *)
Definition turn_off (f : OffEnv) (id : Z) (st : option PrivacyModeState) (m : PrivacyModeImpl)
    : ResultType unit * PrivacyModeImpl * list notice :=
  match check_off (conn_id m) id with
  | Err x => (Err x, m, [])
  | Ok tt =>
      match e_unhook f with
      | Err x => (Err x, m, [])
      | Ok tt =>
          match e_find f with
          | Err x => (Err x, m, [])
          | Ok _ =>
              (Ok tt, mkImpl (impl_key m) INVALID_PRIVACY_MODE_CONN_ID (handlers m) (hwnd m),
               release id (conn_id m) st WIN_MAG)
          end
      end
  end.

End Topmost.

Module Virtual.

(* src/src/privacy_mode/win_virtual_display.rs:40-46 PrivacyModeImpl *)
Record PrivacyModeImpl : Type := mkImpl {
  impl_key : string;
  conn_id : Z;
}.

(* src/src/privacy_mode/win_virtual_display.rs:78-86 PrivacyModeImpl::new *)
Definition new (key : string) : PrivacyModeImpl := mkImpl key INVALID_PRIVACY_MODE_CONN_ID.

(* src/src/privacy_mode/win_virtual_display.rs:518-545 PrivacyModeImpl::turn_off_privacy *)
Definition turn_off (f : OffEnv) (id : Z) (st : option PrivacyModeState) (m : PrivacyModeImpl)
    : ResultType unit * PrivacyModeImpl * list notice :=
  match check_off (conn_id m) id with
  | Err x => (Err x, m, [])
  | Ok tt =>
      match e_unhook f with
      | Err x => (Err x, m, [])
      | Ok tt =>
          (Ok tt, mkImpl (impl_key m) INVALID_PRIVACY_MODE_CONN_ID,
           release id (conn_id m) st WIN_VIRTUAL)
      end
  end.

(** Steps that must all succeed. *)
Definition all_ok (l : list (ResultType unit)) : ResultType unit :=
  fold_right (fun r k => match r with Err x => Err x | Ok tt => k end) (Ok tt) l.

(** When a step fails, the guard turns off what was done so far. *)
(* src/src/privacy_mode/win_virtual_display.rs:459-516 PrivacyModeImpl::turn_on_privacy *)
Definition turn_on (e : OnEnv) (f : OffEnv) (id : Z) (m : PrivacyModeImpl)
    : ResultType bool * PrivacyModeImpl :=
  if negb (e_virtual_supported e) then (Err "idd_not_support_under_win10_2004_tip"%string, m)
  else
    match check_on (conn_id m) id with
    | Err x => (Err x, m)
    | Ok true => (Ok true, m)
    | Ok false =>
        if negb (e_displays e) then (Err NO_PHYSICAL_DISPLAYS, m)
        else
          let undo x := (Err x, snd (fst (turn_off f INVALID_PRIVACY_MODE_CONN_ID None m))) in
          match e_ensure e with
          | Err x => undo x
          | Ok tt =>
              if negb (e_virtuals e) then undo "No virtual displays."%string
              else
                match all_ok (e_steps e) with
                | Err x => undo x
                | Ok tt => (Ok true, mkImpl (impl_key m) id)
                end
          end
    end.

End Virtual.

(** ** The kinds implement the interface *)

Lemma check_on_occupied pre id : pre <> 0 -> pre <> id -> check_on pre id = Err OCCUPIED.
Proof. intros. unfold check_on, INVALID_PRIVACY_MODE_CONN_ID. by zbool. Qed.

Lemma check_on_true pre id : check_on pre id = Ok true -> pre = id.
Proof. unfold check_on. by zbool. Qed.

Lemma check_off_own pre id : pre = id \/ pre = 0 \/ id = 0 -> check_off pre id = Ok tt.
Proof. intros. unfold check_off, INVALID_PRIVACY_MODE_CONN_ID. zbool; simpl; try done. lia. Qed.

Lemma check_off_other pre id :
  pre <> 0 -> id <> 0 -> pre <> id -> check_off pre id = Err TURN_OFF_OTHER_ID.
Proof. intros. unfold check_off, INVALID_PRIVACY_MODE_CONN_ID. by zbool. Qed.

#[export] Instance topmost : PrivacyMode Topmost.PrivacyModeImpl.
Proof.
  refine {|
    is_async_privacy_mode := fun _ => false;
    turn_on_privacy := fun e _ => Topmost.turn_on e;
    turn_off_privacy := Topmost.turn_off;
    pre_conn_id := Topmost.conn_id;
    get_impl_key := Topmost.impl_key;
    off_works := fun f _ => is_ok (e_unhook f) && is_ok (e_find f) |}; unfold Topmost.turn_on, Topmost.turn_off.
  - intros e _ id m N1 N2. rewrite check_on_occupied by done. by eexists.
  - intros e _ id m. destruct (check_on _ _) as [[]|] eqn:C; [by apply check_on_true|split_cases|done].
  - intros e _ id m. split_cases.
  - intros f id st m err ->. done.
  - intros f id st m ->. destruct (e_unhook f) as [[]|], (e_find f); try done. by eauto.
  - intros f id st m. destruct (check_off _ _) as [[]|], (e_unhook f) as [[]|], (e_find f); simpl; auto.
Defined.

(** [amyuni] is whether the driver of the virtual displays is the slow one. *)
Definition virtual (amyuni : bool) : PrivacyMode Virtual.PrivacyModeImpl.
Proof.
  assert (forall f m, Virtual.conn_id (snd (fst (Virtual.turn_off f 0 None m))) = Virtual.conn_id m \/
                      Virtual.conn_id (snd (fst (Virtual.turn_off f 0 None m))) = 0) as U1.
  { intros f m. unfold Virtual.turn_off. destruct (check_off _ _) as [[]|], (e_unhook f) as [[]|]; auto. }
  assert (forall f m, Virtual.impl_key (snd (fst (Virtual.turn_off f 0 None m))) = Virtual.impl_key m) as U2.
  { intros f m. unfold Virtual.turn_off. by destruct (check_off _ _) as [[]|], (e_unhook f) as [[]|]. }
  refine {|
    is_async_privacy_mode := fun _ => amyuni;
    turn_on_privacy := Virtual.turn_on;
    turn_off_privacy := Virtual.turn_off;
    pre_conn_id := Virtual.conn_id;
    get_impl_key := Virtual.impl_key;
    off_works := fun f _ => is_ok (e_unhook f) |}; unfold Virtual.turn_on.
  - intros e f id m N1 N2. rewrite check_on_occupied by done. destruct (negb _); by eexists.
  - intros e f id m. destruct (negb (e_virtual_supported e)); [done|].
    destruct (check_on _ _) as [[]|] eqn:C; [by apply check_on_true| |done].
    assert (Virtual.conn_id m = 0) as Z.
    { unfold check_on, INVALID_PRIVACY_MODE_CONN_ID in C. by zbool. }
    specialize (U1 f m). rewrite Z in *. unfold INVALID_PRIVACY_MODE_CONN_ID.
    destruct (negb (e_displays e)); [done|].
    destruct (e_ensure e) as [[]|]; [|simpl in *; lia].
    destruct (negb (e_virtuals e)); [simpl in *; lia|].
    destruct (Virtual.all_ok _) as [[]|]; simpl in *; lia.
  - intros e f id m. unfold INVALID_PRIVACY_MODE_CONN_ID. specialize (U2 f m). split_cases.
  - intros f id st m err. unfold Virtual.turn_off. by intros ->.
  - intros f id st m. unfold Virtual.turn_off. intros ->. destruct (e_unhook f) as [[]|]; try done. by eauto.
  - intros f id st m. unfold Virtual.turn_off. destruct (check_off _ _) as [[]|], (e_unhook f) as [[]|]; simpl; auto.
Defined.

(** [Box<dyn PrivacyMode>]: one of two kinds. *)
#[export] Instance either_mode {A B} `{PrivacyMode A, PrivacyMode B} : PrivacyMode (A + B).
Proof.
  refine {|
    is_async_privacy_mode m := match m with inl a => is_async_privacy_mode a | inr b => is_async_privacy_mode b end;
    turn_on_privacy e f id m :=
      match m with
      | inl a => let '(r, a) := turn_on_privacy e f id a in (r, inl a)
      | inr b => let '(r, b) := turn_on_privacy e f id b in (r, inr b)
      end;
    turn_off_privacy f id st m :=
      match m with
      | inl a => let '(r, a, n) := turn_off_privacy f id st a in (r, inl a, n)
      | inr b => let '(r, b, n) := turn_off_privacy f id st b in (r, inr b, n)
      end;
    pre_conn_id m := match m with inl a => pre_conn_id a | inr b => pre_conn_id b end;
    get_impl_key m := match m with inl a => get_impl_key a | inr b => get_impl_key b end;
    off_works f m := match m with inl a => off_works f a | inr b => off_works f b end |}.
  - intros e f id [m|m] N1 N2; destruct (law_on_occupied e f id m N1 N2) as [x E]; rewrite E; by eexists.
  - intros e f id [m|m]; pose proof (law_on_owner e f id m);
      by destruct (turn_on_privacy e f id m) as [[[]|] ?].
  - intros e f id [m|m]; pose proof (law_on_key e f id m); by destruct (turn_on_privacy e f id m).
  - intros f id st [m|m] err E; by rewrite (law_off_refused f id st m err E).
  - intros f id st [m|m] C W; destruct (law_off_done f id st m C W) as (m' & n & E & Z);
      rewrite E; by eexists _, n.
  - intros f id st [m|m]; pose proof (law_off_failed f id st m);
      by destruct (turn_off_privacy f id st m) as [[? ?] ?].
Defined.

(** What the system supports, and the option that chooses the implementation. *)
Record System : Type := mkSystem {
  exclude_supported : bool;
  mag_supported : bool;
  installed : bool;
  service_running : bool;
  impl_option : string;
}.

(* src/src/privacy_mode.rs:89-110 DEFAULT_PRIVACY_MODE_IMPL *)
Definition DEFAULT_PRIVACY_MODE_IMPL (s : System) : string :=
  if exclude_supported s then WIN_EXCLUDE
  else if mag_supported s then WIN_MAG
  else if installed s then WIN_VIRTUAL
  else "".

(* src/src/privacy_mode.rs:311-340 get_supported_privacy_mode_impl *)
Definition get_supported_privacy_mode_impl (s : System) : list string :=
  (if exclude_supported s then [WIN_EXCLUDE]
   else if mag_supported s then [WIN_MAG] else []) ++
  (if installed s && service_running s then [WIN_VIRTUAL] else []).

(* src/src/privacy_mode.rs:387-389 is_privacy_mode_supported *)
Definition is_privacy_mode_supported (s : System) : bool :=
  negb (bool_decide (DEFAULT_PRIVACY_MODE_IMPL s = ""%string)).

(* src/src/privacy_mode.rs:177-193 get_supported_impl *)
Definition get_supported_impl (s : System) (key : string) : string :=
  if decide (key ∈ get_supported_privacy_mode_impl s) then key
  else if decide (impl_option s ∈ get_supported_privacy_mode_impl s) then impl_option s
  else DEFAULT_PRIVACY_MODE_IMPL s.

(* src/src/privacy_mode.rs:128-150 PRIVACY_MODE_CREATOR *)
Definition creator (s : System) (key : string)
    : option (Topmost.PrivacyModeImpl + Virtual.PrivacyModeImpl) :=
  if decide (key = if exclude_supported s then WIN_EXCLUDE else WIN_MAG)
  then Some (inl (Topmost.new key))
  else if decide (key = WIN_VIRTUAL) then Some (inr (Virtual.new key))
  else None.

(** ** The manager *)

Section manager.
Context {T : Type} `{PrivacyMode T} (create : string -> option T).

(** A new implementation belongs to nobody. *)
Hypothesis create_fresh : forall k m, create k = Some m -> pre_conn_id m = 0 /\ get_impl_key m = k.

(* src/src/privacy_mode.rs:112-123 PRIVACY_MODE *)
Definition initial (s : System) : option T :=
  let key := if decide (impl_option s ∈ get_supported_privacy_mode_impl s) then impl_option s
             else DEFAULT_PRIVACY_MODE_IMPL s in
  create key.

(* src/src/privacy_mode.rs:392-398 get_privacy_mode_conn_id *)
Definition get_privacy_mode_conn_id (w : option T) : option Z := pre_conn_id <$> w.

(* src/src/privacy_mode.rs:401-408 is_in_privacy_mode *)
Definition is_in_privacy_mode (w : option T) : bool :=
  match w with Some m => negb (pre_conn_id m =? INVALID_PRIVACY_MODE_CONN_ID) | None => false end.

(* src/src/privacy_mode.rs:343-349 get_cur_impl_key *)
Definition get_cur_impl_key (w : option T) : option string := get_impl_key <$> w.

(* src/src/privacy_mode.rs:352-359 is_current_privacy_mode_impl *)
Definition is_current_privacy_mode_impl (key : string) (w : option T) : bool :=
  match w with Some m => bool_decide (get_impl_key m = key) | None => false end.

(** [clear] is the same for all: turn off as the owner, whatever comes of it. *)
(* src/src/privacy_mode/win_topmost_window.rs:83-85 PrivacyModeImpl::clear *)
Definition clear_mode (f : OffEnv) (m : T) : T := snd (fst (turn_off_privacy f (pre_conn_id m) None m)).

(** An implementation that is replaced is cleared and dropped first, which nobody can
    see in the new one. *)
(* src/src/privacy_mode.rs:231-274 turn_on_privacy_sync *)
Definition turn_on_privacy_sync (s : System) (e : OnEnv) (f : OffEnv) (key : string) (id : Z)
    (w : option T) : option (ResultType bool) * option T :=
  let key := get_supported_impl s key in
  let run w :=
    match w with
    | Some m => let '(r, m) := turn_on_privacy e f id m in (Some r, Some m)
    | None => (None, None)
    end in
  let switch cur :=
    if decide (cur = key) then run w
    else
      match create key with
      | Some m => run (Some m)
      | None => (Some (Err ("Unsupported privacy mode: " +:+ key)), w)
      end in
  match w with
  | Some m =>
      match check_on (pre_conn_id m) id with
      | Ok true => if decide (get_impl_key m = key) then (Some (Ok true), w) else switch (get_impl_key m)
      | Err x => (Some (Err x), w)
      | Ok false => switch (get_impl_key m)
      end
  | None => switch ""%string
  end.

(** [timeout]: the thread takes longer than 7.5 seconds; it goes on all the same, and
    whoever looks at the mode next waits for it. *)
(* src/src/privacy_mode.rs:195-229 turn_on_privacy, is_async_privacy_mode, turn_on_privacy_async *)
Definition turn_on_privacy_of (s : System) (timeout : option string) (e : OnEnv) (f : OffEnv)
    (key : string) (id : Z) (w : option T) : option (ResultType bool) * option T :=
  let '(r, w') := turn_on_privacy_sync s e f key id w in
  match w, timeout with
  | Some m, Some x => if is_async_privacy_mode m then (Some (Err x), w') else (r, w')
  | _, _ => (r, w')
  end.

(* src/src/privacy_mode.rs:277-285 turn_off_privacy *)
Definition turn_off_privacy_of (f : OffEnv) (id : Z) (st : option PrivacyModeState) (w : option T)
    : option (ResultType unit) * option T * list notice :=
  match w with
  | Some m => let '(r, m, n) := turn_off_privacy f id st m in (Some r, Some m, n)
  | None => (None, None, [])
  end.

(* src/src/privacy_mode.rs:288-296 check_on_conn_id *)
Definition check_on_conn_id (id : Z) (w : option T) : option (ResultType bool) :=
  m ← w; Some (check_on (pre_conn_id m) id).

(* src/src/privacy_mode.rs:159-161 clear *)
Definition clear (f : OffEnv) (w : option T) : option T := clear_mode f <$> w.

(* src/src/privacy_mode.rs:164-175 switch *)
Definition switch (key : string) (w : option T) : option T :=
  if is_current_privacy_mode_impl key w then w
  else match create key with Some m => Some m | None => w end.

(** ** The requests of a peer *)

Inductive prv_state :=
| PrvNotSupported | PrvOnSucceeded | PrvOnFailed | PrvOnFailedPlugin
| PrvOffSucceeded | PrvOffFailed | PrvOffByPeer | PrvOffUnknown.

#[export] Instance prv_state_eq_dec : EqDecision prv_state.
Proof. solve_decision. Defined.

(** State, details and implementation. *)
(* src/src/common.rs:1357-1381 make_privacy_mode_msg_with_details *)
Definition back_notification : Type := prv_state * string * string.

Definition UNSUPPORTED : string :=
  "Unsupported. 1 Multi-screen is not supported. 2 Please confirm the license is activated.".

(* src/src/server/connection.rs:4048-4069 Connection::turn_off_privacy_to_msg *)
Definition turn_off_privacy_to_msg (f : OffEnv) (id : Z) (w : option T)
    : back_notification * option T :=
  match turn_off_privacy_of f id None w with
  | (Some (Ok _), w, _) => ((PrvOffSucceeded, ""%string, ""%string), w)
  | (Some (Err x), w, _) => ((PrvOffFailed, x, ""%string), w)
  | (None, w, _) => ((PrvOffFailed, "Not supported"%string, ""%string), w)
  end.

(** [capturer]: what the test of a capturer says, for the magnifier. *)
(* src/src/privacy_mode.rs:373-384 check_privacy_mode_err *)
Definition check_privacy_mode_err (capturer : string) (w : option T) : string :=
  if is_current_privacy_mode_impl WIN_MAG w then capturer else "".

(** The answer to what the manager says. *)
(* src/src/server/connection.rs:3979-4029 Connection::turn_on_privacy *)
Definition on_answer (capturer : string) (f : OffEnv) (key : string) (id : Z)
    (r : option (ResultType bool)) (w : option T) : back_notification * option T :=
  match r with
  | Some (Ok true) =>
      let err := check_privacy_mode_err capturer w in
      if decide (err = ""%string) then ((PrvOnSucceeded, ""%string, key), w)
      else ((PrvOnFailed, err, key), snd (turn_off_privacy_to_msg f id w))
  | Some (Ok false) => ((PrvOnFailedPlugin, ""%string, key), w)
  | Some (Err x) =>
      ((PrvOnFailed, x, key),
       if is_in_privacy_mode w
       then snd (turn_off_privacy_to_msg f INVALID_PRIVACY_MODE_CONN_ID w) else w)
  | None => ((PrvOffFailed, "Not supported"%string, key), w)
  end.

(** What is sent, in order. *)
(* src/src/server/connection.rs:3955-4032 Connection::turn_on_privacy *)
Definition request_on (s : System) (timeout : option string) (capturer : string) (e : OnEnv)
    (f f' : OffEnv) (key : string) (id : Z) (w : option T) : list back_notification * option T :=
  if negb (is_privacy_mode_supported s) then ([(PrvNotSupported, UNSUPPORTED, key)], w)
  else
    let off :=
      match get_cur_impl_key w with
      | Some pre =>
          if is_in_privacy_mode w && negb (is_current_privacy_mode_impl pre w)
          then [(PrvOffSucceeded, ""%string, pre)] else []
      | None => []
      end in
    let '(r, w) := turn_on_privacy_of s timeout e f key id w in
    let '(m, w) := on_answer capturer f' key id r w in
    (off ++ [m], w).

(* src/src/server/connection.rs:4034-4046 Connection::turn_off_privacy *)
Definition request_off (s : System) (f : OffEnv) (key : string) (id : Z) (w : option T)
    : back_notification * option T :=
  if negb (is_privacy_mode_supported s) then ((PrvNotSupported, UNSUPPORTED, key), w)
  else turn_off_privacy_to_msg f id w.

(* src/src/server/connection.rs:3608-3614 Connection::toggle_privacy_mode *)
Definition toggle_privacy_mode (s : System) (timeout : option string) (capturer : string) (e : OnEnv)
    (f f' : OffEnv) (on : bool) (key : string) (id : Z) (w : option T)
    : list back_notification * option T :=
  if on then request_on s timeout capturer e f f' key id w
  else let '(m, w) := request_off s f' key id w in ([m], w).

(** The end of a connection. *)
(* src/src/server/connection.rs:918-922 Connection::start *)
Definition connection_ended (f : OffEnv) (id : Z) (w : option T) : option T :=
  if decide (get_privacy_mode_conn_id w = Some id) then snd (turn_off_privacy_to_msg f id w) else w.

(** Whether a login is let through. *)
(* src/src/server/connection.rs:1131-1139 Connection::check_privacy_mode_on *)
Definition check_privacy_mode_on (w : option T) : bool := negb (is_in_privacy_mode w).

(** ** What holds of it *)

(** The connection that has the privacy mode, zero for none. *)
Definition owner (w : option T) : Z := default 0 (get_privacy_mode_conn_id w).

Lemma in_privacy_mode_owner w : is_in_privacy_mode w = negb (owner w =? 0).
Proof. by destruct w. Qed.

Lemma off_idle f id st w :
  (forall m, off_works f m = true) -> owner w = id \/ owner w = 0 \/ id = 0 ->
  owner (snd (fst (turn_off_privacy_of f id st w))) = 0.
Proof.
  intros W O. destruct w as [m|]; [|done]. cbn in *.
  destruct (law_off_done f id st m) as (m' & n & E & Z); [by apply check_off_own|done|]. by rewrite E.
Qed.

Lemma off_msg_state f id w :
  snd (turn_off_privacy_to_msg f id w) = snd (fst (turn_off_privacy_of f id None w)).
Proof. unfold turn_off_privacy_to_msg. by destruct (turn_off_privacy_of _ _ _ _) as [[[[]|] ?] ?]. Qed.

Lemma off_other f id st w :
  owner w <> 0 -> id <> 0 -> owner w <> id ->
  turn_off_privacy_of f id st w = (Some (Err TURN_OFF_OTHER_ID), w, []).
Proof.
  intros N1 N2 N3. destruct w as [m|]; [|done]. cbn in *.
  by rewrite (law_off_refused f id st m TURN_OFF_OTHER_ID) by (by apply check_off_other).
Qed.

Lemma sync_occupied s e f key id w :
  owner w <> 0 -> owner w <> id -> turn_on_privacy_sync s e f key id w = (Some (Err OCCUPIED), w).
Proof.
  intros N1 N2. destruct w as [m|]; [|done]. cbn in *. unfold turn_on_privacy_sync.
  by rewrite check_on_occupied.
Qed.

(** Whom the mode belongs to after turning it on. *)
Lemma sync_owner s e f key id w :
  let '(r, w') := turn_on_privacy_sync s e f key id w in
  match r with
  | Some (Ok true) => owner w' = id
  | Some (Ok false) | None => owner w' = 0
  | Some (Err _) => owner w' = owner w \/ owner w' = 0
  end.
Proof.
  assert (forall m, pre_conn_id m = 0 ->
    let '(r, m') := turn_on_privacy e f id m in
    match r with Ok true => pre_conn_id m' = id | _ => pre_conn_id m' = 0 end) as R.
  { intros m Z. pose proof (law_on_owner e f id m) as L. rewrite Z in L.
    by destruct (turn_on_privacy e f id m) as [[[]|] ?]. }
  assert (forall cur w0, cur <> get_supported_impl s key ->
    let '(r, w') :=
      match create (get_supported_impl s key) with
      | Some m => let '(r, m) := turn_on_privacy e f id m in (Some r, Some m)
      | None => (Some (Err ("Unsupported privacy mode: " +:+ get_supported_impl s key)), w0)
      end in
    match r with
    | Some (Ok true) => owner w' = id
    | Some (Ok false) | None => owner w' = 0
    | Some (Err _) => owner w' = owner w0 \/ owner w' = 0
    end) as Sw.
  { intros cur w0 _. destruct (create _) as [m|] eqn:C; [|by left].
    specialize (R m (proj1 (create_fresh _ _ C))).
    destruct (turn_on_privacy e f id m) as [[[]|] ?]; cbn in *; auto. }
  unfold turn_on_privacy_sync. destruct w as [m|].
  - destruct (check_on (pre_conn_id m) id) as [[]|] eqn:C.
    + apply check_on_true in C. destruct (decide (get_impl_key m = _)); [done|]. by apply (Sw (get_impl_key m)).
    + assert (pre_conn_id m = 0) as Z.
      { unfold check_on, INVALID_PRIVACY_MODE_CONN_ID in C. by zbool. }
      destruct (decide (get_impl_key m = _)); [|by apply (Sw (get_impl_key m))].
      specialize (R m Z). destruct (turn_on_privacy e f id m) as [[[]|] ?]; cbn in *; auto.
    + by left.
  - destruct (decide (""%string = _)); [done|]. by apply (Sw ""%string).
Qed.

(** Nobody is told that an implementation is replaced: what is current is compared with
    itself. *)
Lemma no_off_message w :
  match get_cur_impl_key w with
  | Some pre => if is_in_privacy_mode w && negb (is_current_privacy_mode_impl pre w)
                then [(PrvOffSucceeded, ""%string, pre)] else []
  | None => []
  end = [].
Proof. destruct w as [m|]; [|done]. cbn. by rewrite bool_decide_true, andb_false_r. Qed.

Lemma off_owner f id st w : let w' := snd (fst (turn_off_privacy_of f id st w)) in owner w' = owner w \/ owner w' = 0.
Proof.
  destruct w as [m|]; [|by left]. cbn. pose proof (law_off_failed f id st m) as L.
  destruct (turn_off_privacy f id st m) as [[r m'] n]. exact (proj2 L).
Qed.

(** The manager refuses a second connection, synchronously or not. *)
Lemma on_occupied s to e f key id w : owner w <> 0 -> owner w <> id ->
  snd (turn_on_privacy_of s to e f key id w) = w /\
  exists x, fst (turn_on_privacy_of s to e f key id w) = Some (Err x).
Proof.
  intros N N'. unfold turn_on_privacy_of. rewrite sync_occupied by done.
  split; [destruct w, to; try done; by case_match|]. destruct w, to; try (by eexists). case_match; by eexists.
Qed.

(** What is done after the refusal: the mode is turned off in nobody's name. *)
Lemma refused_on s to cap e f f' key id w : is_privacy_mode_supported s = true -> owner w <> 0 -> owner w <> id ->
  exists x, request_on s to cap e f f' key id w =
    ([(PrvOnFailed, x, key)], snd (fst (turn_off_privacy_of f' INVALID_PRIVACY_MODE_CONN_ID None w))).
Proof.
  intros Su N N'. destruct (on_occupied s to e f key id w N N') as (Es & x & Er). exists x.
  unfold request_on. rewrite Su, no_off_message. cbn [negb].
  destruct (turn_on_privacy_of s to e f key id w) as [r w1]. cbn [fst snd] in *. subst. cbn [on_answer app].
  assert (is_in_privacy_mode w = true) as ->; [|by rewrite off_msg_state].
  rewrite in_privacy_mode_owner. by rewrite (proj2 (Z.eqb_neq _ _) N).
Qed.

(** C32. While the privacy mode belongs to a connection, no other can take it: the manager refuses to turn
    it on for another one, whatever implementation is asked for and however long it takes, and
    refuses to turn it off in another one's name; a request of another connection to turn it off, and
    another one's end, leave it as it is.  It is lost in two ways only, here: a request of another
    connection to turn it on is refused, but the connection that gets the refusal then turns the mode
    off in nobody's name (the id 0), to which the manager agrees, so that afterwards, if turning
    off works, there is no privacy and else it belongs to whom it did; and it ends with the
    connection that has it, if turning off works. *)
Theorem privacy_exclusive s to cap e f f' f'' key id st w :
  owner w <> 0 -> id <> 0 -> owner w <> id ->
  (snd (turn_on_privacy_of s to e f key id w) = w /\
   exists x, fst (turn_on_privacy_of s to e f key id w) = Some (Err x)) /\
  turn_off_privacy_of f id st w = (Some (Err TURN_OFF_OTHER_ID), w, []) /\
  snd (toggle_privacy_mode s to cap e f f' false key id w) = w /\
  connection_ended f' id w = w /\
  (let w' := snd (toggle_privacy_mode s to cap e f f' true key id w) in
   (owner w' = owner w \/ owner w' = 0) /\
   (is_privacy_mode_supported s = true -> (forall m, off_works f' m = true) -> owner w' = 0)) /\
  ((forall m, off_works f'' m = true) -> owner (connection_ended f'' (owner w) w) = 0).
Proof.
  intros N N0 N'.
  split; [by apply on_occupied|split; [by apply off_other|split; [|split; [|split]]]].
  - unfold toggle_privacy_mode, request_off. destruct (negb _); [done|].
    pose proof (off_msg_state f' id w) as E. rewrite off_other in E by done.
    by destruct (turn_off_privacy_to_msg f' id w).
  - unfold connection_ended. rewrite decide_False; [done|].
    intros E. unfold owner in N'. by rewrite E in N'.
  - unfold toggle_privacy_mode. destruct (is_privacy_mode_supported s) eqn:Su.
    + destruct (refused_on s to cap e f f' key id w Su N N') as [x ->]. cbn [snd]. split; [apply off_owner|].
      intros _ W. apply off_idle; [done|by right; right].
    + unfold request_on. rewrite Su. split; [by left|done].
  - intros W. unfold connection_ended. rewrite decide_True.
    + rewrite off_msg_state. apply off_idle; [done|by left].
    + destruct w; [done|]. by unfold owner in N.
Qed.

(** But a peer that asks for the privacy mode while it belongs to somebody else
    turns it off: the answer is that it is occupied, and the connection that got this
    answer from the manager turns off, as nobody in particular, whatever is on. *)
Theorem refused_request_turns_off s cap e f f' key id w :
  is_privacy_mode_supported s = true -> (forall m, off_works f' m = true) ->
  owner w <> 0 -> owner w <> id ->
  let '(ms, w') := request_on s None cap e f f' key id w in
  ms = [(PrvOnFailed, OCCUPIED, key)] /\ is_in_privacy_mode w' = false.
Proof.
  intros Su W N N'. unfold request_on, turn_on_privacy_of. rewrite Su. cbn [negb].
  rewrite sync_occupied, no_off_message by done.
  assert (is_in_privacy_mode w = true) as I.
  { rewrite in_privacy_mode_owner. by rewrite (proj2 (Z.eqb_neq _ _) N). }
  assert (is_in_privacy_mode (snd (turn_off_privacy_to_msg f' INVALID_PRIVACY_MODE_CONN_ID w)) = false) as Z.
  { rewrite in_privacy_mode_owner, off_msg_state, off_idle; [done|done|by (right; right)]. }
  assert (match w, @None string with Some m, Some x => if is_async_privacy_mode m
            then (Some (Err x), w) else (Some (Err OCCUPIED), w) | _, _ => (Some (Err OCCUPIED), w) end
          = (Some (Err OCCUPIED), w)) as -> by by destruct w.
  cbn [on_answer app]. by rewrite I.
Qed.

Lemma on_answer_true cap f key id r w :
  (forall m, off_works f m = true) -> id <> 0 ->
  match r with
  | Some (Ok true) => owner w = id
  | Some (Ok false) | None => owner w = 0
  | Some (Err _) => True
  end ->
  exists st d, fst (on_answer cap f key id r w) = (st, d, key) /\
    let w' := snd (on_answer cap f key id r w) in
    if decide (st = PrvOnSucceeded) then get_privacy_mode_conn_id w' = Some id
    else is_in_privacy_mode w' = false.
Proof.
  intros W N Hr. unfold on_answer.
  assert (forall w0, owner w0 = 0 -> is_in_privacy_mode w0 = false) as Idle.
  { intros w0 E. by rewrite in_privacy_mode_owner, E. }
  destruct r as [[[]|x]|]; cbv zeta.
  - destruct (decide (_ = ""%string)); eexists _, _; (split; [done|]); cbn [snd].
    + rewrite decide_True by done. destruct w; cbn in *; congruence.
    + rewrite decide_False by done. apply Idle. rewrite off_msg_state. apply off_idle; auto.
  - eexists _, _. split; [done|]. rewrite decide_False by done. by apply Idle.
  - eexists _, _. split; [done|]. rewrite decide_False by done. cbn [snd].
    destruct (is_in_privacy_mode w) eqn:I; [|done].
    apply Idle. rewrite off_msg_state. apply off_idle; auto.
  - eexists _, _. split; [done|]. rewrite decide_False by done. by apply Idle.
Qed.

Lemma turn_on_owner s to e f key id w :
  match fst (turn_on_privacy_of s to e f key id w) with
  | Some (Ok true) => owner (snd (turn_on_privacy_of s to e f key id w)) = id
  | Some (Ok false) | None => owner (snd (turn_on_privacy_of s to e f key id w)) = 0
  | Some (Err _) => True
  end.
Proof.
  pose proof (sync_owner s e f key id w) as O. unfold turn_on_privacy_of.
  destruct (turn_on_privacy_sync _ _ _ _ _ _) as [r w1].
  destruct w as [m|], to; [destruct (is_async_privacy_mode m)|..]; by destruct r as [[[]|]|].
Qed.

(** The answer tells what is the case: a request to turn the mode on has exactly
    one answer, with success it belongs to the peer that asked, and with anything else
    there is no privacy any more (where turning off works), a timeout included. *)
Theorem privacy_reply_true s to cap e f f' key id w :
  is_privacy_mode_supported s = true -> (forall m, off_works f' m = true) -> id <> 0 ->
  exists st d, fst (request_on s to cap e f f' key id w) = [(st, d, key)] /\
    let w' := snd (request_on s to cap e f f' key id w) in
    if decide (st = PrvOnSucceeded) then get_privacy_mode_conn_id w' = Some id
    else is_in_privacy_mode w' = false.
Proof.
  intros Su W N. unfold request_on. rewrite Su, no_off_message. cbn [negb].
  pose proof (turn_on_owner s to e f key id w) as O.
  destruct (turn_on_privacy_of s to e f key id w) as [r w1].
  destruct (on_answer_true cap f' key id r w1 W N O) as (st & d & E & R).
  destruct (on_answer cap f' key id r w1) as [m w']. cbn [fst snd app] in *. subst m. by eexists _, _.
Qed.

End manager.

(** ** The program *)

#[local] Instance both : PrivacyMode (Topmost.PrivacyModeImpl + Virtual.PrivacyModeImpl) :=
  either_mode (H0 := virtual true).

Lemma creator_fresh s k m : creator s k = Some m -> pre_conn_id m = 0 /\ get_impl_key m = k.
Proof. unfold creator. repeat case_decide; by intros [= <-]. Qed.

(** Windows 10, where all goes well, and connection 7 has the privacy mode. *)
Definition windows : System := mkSystem true false true true "".
Definition on_fine : OnEnv :=
  mkOn (Ok (Some true)) (Ok tt) true (Ok true) (Ok tt) true true (Ok tt) true [].
Definition off_fine : OffEnv := mkOff (Ok tt) (Ok true).
Definition of_seven : option (Topmost.PrivacyModeImpl + Virtual.PrivacyModeImpl) :=
  Some (inl (Topmost.mkImpl WIN_EXCLUDE 7 true true)).

Lemma both_off_works m : off_works (PrivacyMode := both) off_fine m = true.
Proof. by destruct m. Qed.

Lemma privacy_exclusive_witness :
  turn_off_privacy_of (H := both) off_fine 8 None of_seven =
    (Some (Err TURN_OFF_OTHER_ID), of_seven, []) /\
  connection_ended (H := both) off_fine 8 of_seven = of_seven /\
  owner (H := both) (connection_ended (H := both) off_fine 7 of_seven) = 0.
Proof.
  destruct (privacy_exclusive (H := both) (creator windows) windows None "" on_fine off_fine off_fine off_fine
    "" 8 None of_seven) as (_ & H1 & _ & H2 & _ & H3); [done..|].
  split_and!; [exact H1|exact H2|exact (H3 both_off_works)].
Defined.

Lemma refused_request_turns_off_witness :
  is_in_privacy_mode (H := both) of_seven = true /\
  let '(ms, w') := request_on (H := both) (creator windows) windows None "" on_fine off_fine
                     off_fine "" 8 of_seven in
  ms = [(PrvOnFailed, OCCUPIED, ""%string)] /\ is_in_privacy_mode (H := both) w' = false.
Proof.
  split; [done|].
  by apply (refused_request_turns_off (H := both) (creator windows) windows "" on_fine off_fine
    off_fine "" 8 of_seven eq_refl both_off_works).
Defined.

Lemma privacy_reply_true_witness :
  get_privacy_mode_conn_id (H := both)
    (snd (request_on (H := both) (creator windows) windows None "" on_fine off_fine off_fine
            "" 8 (initial (creator windows) windows))) = Some 8.
Proof.
  destruct (privacy_reply_true (H := both) (creator windows) (creator_fresh windows) windows None ""
    on_fine off_fine off_fine "" 8 (initial (creator windows) windows) eq_refl both_off_works)
    as (st & d & E & R); [done|].
  vm_compute in E. injection E as <- <-. exact R.
Defined.
