(* ===== verification/CodecChoice.v ===== *)
(** * The choice of the video codec

    [libs/scrap/src/common/codec.rs]: every peer tells what it can decode and what it
    would like ([supported_decodings]); the server keeps that of all who watch and
    chooses one format for them ([Encoder::update]); the video service makes its encoder
    from it ([src/server/video_service.rs]); and a peer makes a decoder for what arrives
    ([Decoder::new], [handle_video_frame]).  [vram.rs] and [hwcodec.rs] say what the
    graphics cards offer; the list of codecs that were found and the making of a decoder
    are arguments, and so is the order in which the hash map of the peers is iterated.

    The features [hwcodec] and [vram] are on, as in a build for Windows. *)

From S2P Require Import Prelude.

(* src/libs/scrap/src/common/mod.rs:295-303 CodecFormat *)
Inductive CodecFormat := VP8 | VP9 | AV1 | H264 | H265 | Unknown.

#[export] Instance CodecFormat_eq_dec : EqDecision CodecFormat.
Proof. solve_decision. Defined.

(** Enumerations of messages are numbers; those of the protocol are these. *)
(* src/libs/hbb_common/protos/message.proto:651-658 PreferCodec *)
Definition PreferAuto : Z := 0.
Definition PreferVP9 : Z := 1.
Definition PreferH264 : Z := 2.
Definition PreferH265 : Z := 3.
Definition PreferVP8 : Z := 4.
Definition PreferAV1 : Z := 5.
Definition ChromaI420 : Z := 0.
Definition ChromaI444 : Z := 1.

(* src/libs/hbb_common/protos/message.proto:108-114 CodecAbility *)
Record CodecAbility : Type := mkAbility {
  i_vp8 : bool; i_vp9 : bool; i_av1 : bool; i_h264 : bool; i_h265 : bool;
}.
Definition no_ability : CodecAbility := mkAbility false false false false false.

(* src/libs/hbb_common/protos/message.proto:650-668 SupportedDecoding *)
Record SupportedDecoding : Type := mkDecoding {
  ability_vp8 : Z;
  ability_vp9 : Z;
  ability_av1 : Z;
  ability_h264 : Z;
  ability_h265 : Z;
  prefer : Z;
  prefer_chroma : Z;
  i444 : CodecAbility;
}.

(* src/libs/hbb_common/protos/message.proto:116-122 SupportedEncoding *)
Record SupportedEncoding : Type := mkEncoding {
  se_vp8 : bool; se_av1 : bool; se_h264 : bool; se_h265 : bool; se_i444 : CodecAbility;
}.

Definition ability (f : CodecFormat) (d : SupportedDecoding) : Z :=
  match f with
  | VP8 => ability_vp8 d | VP9 => ability_vp9 d | AV1 => ability_av1 d
  | H264 => ability_h264 d | H265 => ability_h265 d | Unknown => 0
  end.

(** ** What the machine has *)

(** A codec of a graphics card. *)
Record FeatureContext : Type := mkFeature {
  ffmpeg : bool;
  luid : Z;
  data_format : CodecFormat;
}.

(** The options are whether they are on; [hw_*] and [vram_*] is what was found. *)
Record Machine : Type := mkMachine {
  bits32 : bool;
  windows : bool;
  opt_hwcodec : bool;
  opt_directx : bool;
  opt_d3d : bool;
  av1_test : string;
  total_memory : Z;
  hw_encode : CodecFormat -> option string;
  hw_soft : CodecFormat -> bool;
  hw_decode : CodecFormat -> bool;
  vram_encode : list FeatureContext;
  vram_decode : list FeatureContext;
  displays : option (list (option Z));
  fallback_gdi : gset string;
  not_use : gmap string bool;
}.

(* src/libs/scrap/src/common/codec.rs:1033-1037 disable_av1 *)
Definition disable_av1 (m : Machine) : bool := bits32 m.

(* src/libs/scrap/src/common/codec.rs:851-861 enable_hwcodec_option *)
Definition enable_hwcodec_option (m : Machine) : bool := opt_hwcodec m.

(* src/libs/scrap/src/common/codec.rs:863-879 enable_vram_option *)
Definition enable_vram_option (m : Machine) (encode : bool) : bool :=
  windows m && (opt_hwcodec m && if encode then opt_directx m else opt_d3d m).

(* src/libs/scrap/src/common/hwcodec.rs:213-230 HwRamEncoder::try_get *)
Definition hw_try_get (m : Machine) (f : CodecFormat) : option string :=
  match f with H264 | H265 => hw_encode m f | _ => None end.

(* src/libs/scrap/src/common/vram.rs:226-273 VRamEncoder::available *)
Definition vram_available (m : Machine) (f : CodecFormat) : list FeatureContext :=
  if negb (bool_decide (fallback_gdi m = ∅)) then []
  else if bool_decide (map_Exists (fun _ b => b = true) (not_use m)) then []
  else
    match f with
    | H264 | H265 =>
        let v := List.filter (fun c => bool_decide (data_format c = f)) (vram_encode m) in
        match hw_try_get m f with
        | Some _ => v
        | None =>
            match displays m with
            | None | Some [] => []
            | Some luids =>
                if forallb (fun l => existsb (fun c => bool_decide (Some (luid c) = l)) v) luids
                then v else []
            end
        end
    | _ => []
    end.

Definition prefer_ffmpeg (v : list FeatureContext) : option FeatureContext :=
  match List.find ffmpeg v with Some c => Some c | None => head v end.

(* src/libs/scrap/src/common/vram.rs:210-224 VRamEncoder::try_get *)
Definition vram_try_get (m : Machine) (device : Z) (f : CodecFormat) : option FeatureContext :=
  prefer_ffmpeg (List.filter (fun c => luid c =? device) (vram_available m f)).

(* src/libs/scrap/src/common/vram.rs:290-296 VRamEncoder::set_not_use *)
Definition set_not_use (name : string) (b : bool) (m : Machine) : Machine :=
  mkMachine (bits32 m) (windows m) (opt_hwcodec m) (opt_directx m) (opt_d3d m) (av1_test m)
    (total_memory m) (hw_encode m) (hw_soft m) (hw_decode m) (vram_encode m) (vram_decode m)
    (displays m) (fallback_gdi m) (<[name := b]> (not_use m)).

(** ** The server's choice *)

(** The statics: [PEER_DECODINGS], [ENCODE_CODEC_FORMAT], [USABLE_ENCODING]. *)
(* src/libs/scrap/src/common/codec.rs:41-46 ENCODE_CODEC_FORMAT *)
Record Choice : Type := mkChoice {
  decodings : gmap Z SupportedDecoding;
  encode_format : CodecFormat;
  usable : option SupportedEncoding;
}.
Definition initial_choice : Choice := mkChoice ∅ VP9 None.

(* src/libs/scrap/src/common/codec.rs:125-131 EncodingUpdate *)
Inductive EncodingUpdate :=
| Update (id : Z) (d : SupportedDecoding)
| Remove (id : Z)
| NewOnlyVP9 (id : Z)
| Check.

(* src/libs/scrap/src/common/codec.rs:171-191 Encoder::update *)
Definition update_peers (u : EncodingUpdate) (ds : gmap Z SupportedDecoding)
    : gmap Z SupportedDecoding :=
  match u with
  | Update id d => <[id := d]> ds
  | Remove id => delete id ds
  | NewOnlyVP9 id => <[id := mkDecoding 0 1 0 0 0 0 0 no_ability]> ds
  | Check => ds
  end.

Definition all_support (f : CodecFormat) (ds : gmap Z SupportedDecoding) : bool :=
  bool_decide (ds <> ∅ /\ map_Forall (fun _ d => ability f d > 0) ds).

(** The graphics card can encode [f]. *)
(* src/libs/scrap/src/common/codec.rs:201-232 Encoder::update *)
Definition encoder_found (m : Machine) (f : CodecFormat) : bool :=
  enable_vram_option m true && negb (bool_decide (vram_available m f = [])) ||
  enable_hwcodec_option m && bool_decide (is_Some (hw_try_get m f)).

(* src/libs/scrap/src/common/codec.rs:193-236 Encoder::update *)
Definition format_usable (m : Machine) (ds : gmap Z SupportedDecoding) (f : CodecFormat) : bool :=
  match f with
  | VP8 => all_support VP8 ds
  | AV1 => all_support AV1 ds && negb (disable_av1 m)
  | H264 | H265 => all_support f ds && encoder_found m f
  | VP9 | Unknown => false
  end.

(** The filter of the preferences that count. *)
(* src/libs/scrap/src/common/codec.rs:238-248 Encoder::update *)
Definition pref_counts (m : Machine) (ds : gmap Z SupportedDecoding) (p : Z) : bool :=
  (p =? PreferVP9) ||
  (p =? PreferVP8) && format_usable m ds VP8 || (p =? PreferAV1) && format_usable m ds AV1 ||
  (p =? PreferH264) && format_usable m ds H264 || (p =? PreferH265) && format_usable m ds H265.

Fixpoint bump (p : Z) (counts : list (Z * nat)) : list (Z * nat) :=
  match counts with
  | [] => [(p, 1%nat)]
  | (q, n) :: counts => if p =? q then (q, Datatypes.S n) :: counts else (q, n) :: bump p counts
  end.

(** Ties go to the preference that is met first. *)
(* src/libs/scrap/src/common/codec.rs:256-269 Encoder::update *)
Definition most_frequent (prefs : list Z) : Z :=
  let counts := foldl (fun c p => bump p c) [] prefs in
  let max_count := foldr (fun c => Nat.max (snd c)) 0%nat counts in
  match List.find (fun c => bool_decide (snd c = max_count)) counts with
  | Some (p, _) => p
  | None => PreferAuto
  end.

(* src/libs/scrap/src/common/codec.rs:271-291 Encoder::update *)
Definition auto_codec (m : Machine) (ds : gmap Z SupportedDecoding) : CodecFormat :=
  let a := if format_usable m ds AV1 && negb (bool_decide (av1_test m = "N"%string)) then AV1 else VP9 in
  let a := if format_usable m ds H264 then H264 else a in
  let a := if format_usable m ds H265 then H265 else a in
  if bool_decide (a = VP9 \/ a = AV1) && (format_usable m ds VP8 && (total_memory m <=? 4 * 1024 * 1024 * 1024))
  then VP8 else a.

(** What was found for a format: the source asks for the decodings of all first. *)
(* src/libs/scrap/src/common/codec.rs:293-312 Encoder::update *)
Definition format_of_preference (m : Machine) (ds : gmap Z SupportedDecoding) (p : Z) : CodecFormat :=
  let found f := all_support f ds && encoder_found m f in
  if p =? PreferVP8 then VP8
  else if p =? PreferVP9 then VP9
  else if p =? PreferAV1 then AV1
  else if p =? PreferH264 then if found H264 then H264 else auto_codec m ds
  else if p =? PreferH265 then if found H265 then H265 else auto_codec m ds
  else auto_codec m ds.

Section update.
Context (iter : gmap Z SupportedDecoding -> list (Z * SupportedDecoding)).

(* src/libs/scrap/src/common/codec.rs:171-324 Encoder::update *)
Definition update (m : Machine) (u : EncodingUpdate) (c : Choice) : Choice :=
  let ds := update_peers u (decodings c) in
  let prefs := List.filter (pref_counts m ds) ((fun x => prefer (snd x)) <$> iter ds) in
  mkChoice ds (format_of_preference m ds (most_frequent prefs))
    (Some (mkEncoding (format_usable m ds VP8) (format_usable m ds AV1) (format_usable m ds H264)
             (format_usable m ds H265) no_ability)).

(** ** The encoder of the video service *)

(** What counts of a configuration: the kind, and the name or the feature. *)
(* src/libs/scrap/src/common/codec.rs:50-58 EncoderCfg *)
Inductive EncoderCfg :=
| VPX (vp8 : bool)
| AOM
| HWRAM (name : string)
| VRAM (feature : FeatureContext).

(* src/src/server/video_service.rs:957-1031 get_encoder_config *)
Definition get_encoder_config (device : Z) (gdi : bool) (name : string) (portable camera : bool)
    (m : Machine) (c : Choice) : EncoderCfg * Machine * Choice :=
  let m := if portable || gdi || camera then set_not_use name true m else m in
  let c := update m Check c in
  let cfg :=
    match encode_format c with
    | H264 | H265 =>
        match vram_try_get m device (encode_format c) with
        | Some feature => VRAM feature
        | None =>
            match hw_try_get m (encode_format c) with
            | Some name => HWRAM name
            | None => VPX false
            end
        end
    | VP8 => VPX true
    | VP9 => VPX false
    | AV1 => AOM
    | Unknown => VPX false
    end in
  (cfg, m, c).

Definition has_part (part : string) (s : string) : bool :=
  bool_decide (is_Some (String.index 0 part s)).

(** [lower] is the lower case of a text.  [None]: the fallback is given up. *)
(* src/libs/scrap/src/common/codec.rs:361-395 Encoder::set_fallback *)
Definition format_of_config (lower : string -> string) (cfg : EncoderCfg) : option CodecFormat :=
  match cfg with
  | VPX true => Some VP8
  | VPX false => Some VP9
  | AOM => Some AV1
  | HWRAM name =>
      let name := lower name in
      Some (if has_part "vp8" name then VP8
            else if has_part "vp9" name then VP9
            else if has_part "av1" name then AV1
            else if has_part "h264" name then H264
            else H265)
  | VRAM f => match data_format f with H264 => Some H264 | H265 => Some H265 | _ => None end
  end.

(* src/libs/scrap/src/common/codec.rs:361-401 Encoder::set_fallback *)
Definition set_fallback (lower : string -> string) (cfg : EncoderCfg) (c : Choice) : Choice :=
  match format_of_config lower cfg with
  | Some f => mkChoice (decodings c) f (usable c)
  | None => c
  end.

(* src/libs/scrap/src/common/codec.rs:403-421 Encoder::use_i444 *)
Definition use_i444 (cfg : EncoderCfg) (c : Choice) : bool :=
  let all P := bool_decide (map_Forall (fun _ d => P d = true) (decodings c)) in
  let prefer_i444 := all (fun d => prefer_chroma d =? ChromaI444) in
  let i444_useable :=
    match cfg with
    | VPX vp8 => if vp8 then false else all (fun d => i_vp9 (i444 d))
    | AOM => all (fun d => i_av1 (i444 d))
    | HWRAM _ | VRAM _ => false
    end in
  prefer_i444 && i444_useable && negb (bool_decide (decodings c = ∅)).

(* src/src/server/video_service.rs:925-955 setup_encoder *)
Definition setup_encoder (lower : string -> string) (device : Z) (gdi : bool) (name : string)
    (portable camera : bool) (m : Machine) (c : Choice)
    : EncoderCfg * CodecFormat * bool * Machine * Choice :=
  let '(cfg, m, c) := get_encoder_config device gdi name portable camera m c in
  let c := set_fallback lower cfg c in
  (cfg, encode_format c, use_i444 cfg c, m, c).

End update.

(** ** The peer *)

(* src/libs/scrap/src/common/codec.rs:819-848 Decoder::preference *)
Definition preference (id : string) (options : gmap string string) : Z * Z :=
  if bool_decide (id = ""%string) then (PreferAuto, ChromaI420)
  else
    let codec := default ""%string (options !! "codec-preference"%string) in
    (if decide (codec = "vp8"%string) then PreferVP8
     else if decide (codec = "vp9"%string) then PreferVP9
     else if decide (codec = "av1"%string) then PreferAV1
     else if decide (codec = "h264"%string) then PreferH264
     else if decide (codec = "h265"%string) then PreferH265
     else PreferAuto,
     if decide (options !! "i444"%string = Some "Y"%string) then ChromaI444 else ChromaI420).

(* src/libs/scrap/src/common/hwcodec.rs:313-346 HwRamDecoder::try_get *)
Definition hw_decoder (m : Machine) (f : CodecFormat) : bool :=
  match f with
  | H264 | H265 => hw_soft m f || enable_hwcodec_option m && hw_decode m f
  | _ => false
  end.

(* src/libs/scrap/src/common/vram.rs:331-343 VRamDecoder::available *)
Definition vram_decoders (m : Machine) (f : CodecFormat) (l : option Z) : list FeatureContext :=
  let l := default 0 l in
  match f with
  | H264 | H265 =>
      List.filter (fun c => bool_decide (data_format c = f) && (luid c =? l) && negb (l =? 0))
        (vram_decode m)
  | _ => []
  end.

Definition mark (f : CodecFormat) (d : SupportedDecoding) : SupportedDecoding :=
  let on g v := if decide (f = g) then 0 else v in
  mkDecoding (on VP8 (ability_vp8 d)) (on VP9 (ability_vp9 d)) (on AV1 (ability_av1 d))
    (on H264 (ability_h264 d)) (on H265 (ability_h265 d)) (prefer d) (prefer_chroma d) (i444 d).

(* src/libs/scrap/src/common/codec.rs:424-499 Decoder::supported_decodings *)
Definition supported_decodings (m : Machine) (id : string) (options : gmap string string)
    (texture : bool) (l : option Z) (unsupported : list CodecFormat) : SupportedDecoding :=
  let '(p, chroma) := preference id options in
  let of_bool b := if (b : bool) then 1 else 0 in
  let h f :=
    Z.lor (of_bool (hw_decoder m f))
      (if enable_vram_option m false && texture
       then of_bool (negb (bool_decide (vram_decoders m f l = []))) else 0) in
  let d := mkDecoding 1 1 (if disable_av1 m then 0 else 1) (h H264) (h H265) p chroma
             (mkAbility false true true false false) in
  foldl (fun d f => mark f d) d unsupported.

Inductive DecoderKind := DVp8 | DVp9 | DAv1 | DRam (f : CodecFormat) | DVram (f : CodecFormat).

(** The decoder that is there, if any. *)
(* src/libs/scrap/src/common/codec.rs:103-123 Decoder *)
Record Decoder : Type := mkDecoder {
  decoder : option DecoderKind;
  format : CodecFormat;
}.
Definition valid (d : Decoder) : bool := bool_decide (is_Some (decoder d)).

(** [creates]: whether the library makes a decoder of this kind. *)
(* src/libs/scrap/src/common/codec.rs:501-620 Decoder::new *)
Definition new_decoder (m : Machine) (creates : DecoderKind -> bool) (f : CodecFormat)
    (l : option Z) : Decoder :=
  let try_ k := if creates k then Some k else None in
  let d :=
    match f with
    | VP8 => try_ DVp8
    | VP9 => try_ DVp9
    | AV1 => try_ DAv1
    | H264 | H265 =>
        let vram := if enable_vram_option m false && negb (default 0 l =? 0) &&
                       negb (bool_decide (vram_decoders m f l = []))
                    then try_ (DVram f) else None in
        match vram with
        | Some k => Some k
        | None => if hw_decoder m f then try_ (DRam f) else None
        end
    | Unknown => None
    end in
  mkDecoder d f.

(** [run]: what the library's decoder makes of the frames; [video_frame::Union] by its
    format, [Unknown] for what is not compressed video. *)
(* src/libs/scrap/src/common/codec.rs:631-709 Decoder::handle_video_frame *)
Definition handle_video_frame {A} (run : DecoderKind -> A -> result string bool) (frame : CodecFormat)
    (data : A) (d : Decoder) : result string bool :=
  match frame, decoder d with
  | VP8, Some DVp8 => run DVp8 data
  | VP8, _ => Err "vp8 decoder not available"%string
  | VP9, Some DVp9 => run DVp9 data
  | VP9, _ => Err "vp9 decoder not available"%string
  | AV1, Some DAv1 => run DAv1 data
  | AV1, _ => Err "av1 decoder not available"%string
  | H264, Some (DVram H264) => run (DVram H264) data
  | H264, Some (DRam H264) => run (DRam H264) data
  | H264, _ => Err "don't support h264!"%string
  | H265, Some (DVram H265) => run (DVram H265) data
  | H265, Some (DRam H265) => run (DRam H265) data
  | H265, _ => Err "don't support h265!"%string
  | Unknown, _ => Err "unsupported video frame type!"%string
  end.

(** [load]: what half of the idle processors is, rounded. *)
(* src/libs/scrap/src/common/codec.rs:973-1031 codec_thread_num *)
Definition codec_thread_num (cpus load memory limit : Z) : Z :=
  let res := Z.min (Z.min load (cpus / 2)) (memory / 2) in
  let res :=
    if 64 <=? res then 64 else if 32 <=? res then 32 else if 16 <=? res then 16
    else if 8 <=? res then 8 else if 4 <=? res then 4 else if 2 <=? res then 2 else 1 in
  Z.min res limit.

(** ** Counting preferences *)

Lemma bump_spec p c q n :
  NoDup (fst <$> c) ->
  ((q, n) ∈ bump p c <->
   if decide (p = q) then (exists k, (q, k) ∈ c /\ n = Datatypes.S k) \/ q ∉ (fst <$> c) /\ n = 1%nat
   else (q, n) ∈ c).
Proof.
  induction c as [|[r k] c IH]; intros N; simpl.
  - case_decide; set_solver.
  - apply NoDup_cons in N as [N1 N2]. specialize (IH N2). destruct (Z.eqb_spec p r) as [->|E].
    + case_decide as D; [subst r|].
      * rewrite elem_of_cons. split.
        -- intros [[= ->]|I]; [left; eexists; split; [by left|done]|].
           destruct N1. apply list_elem_of_fmap. by exists (q, n).
        -- intros [(k' & [[= ->]|I]%elem_of_cons & ->)|[I _]]; [by left| |set_solver].
           destruct N1. apply list_elem_of_fmap. by exists (q, k').
      * rewrite !elem_of_cons. split; (intros [[= ? ?]|?]; [congruence|by right]).
    + rewrite elem_of_cons, IH. case_decide as D.
      * subst q. split.
        -- intros [[= ? ?]|[(k' & I & ->)|[I ->]]]; [congruence| |].
           ++ left. exists k'. split; [by right|done].
           ++ right. split; [|done]. rewrite not_elem_of_cons. done.
        -- intros [(k' & [[= ? ?]|I]%elem_of_cons & ->)|[I ->]]; [congruence| |].
           ++ right. left. by exists k'.
           ++ right. right. rewrite not_elem_of_cons in I. by destruct I.
      * rewrite elem_of_cons. done.
Qed.

Lemma bump_keys p c q : q ∈ (fst <$> bump p c) <-> q = p \/ q ∈ (fst <$> c).
Proof.
  induction c as [|[r k] c IH]; simpl; [set_solver|].
  destruct (Z.eqb_spec p r) as [->|E]; simpl; set_solver.
Qed.

Lemma bump_nodup p c : NoDup (fst <$> c) -> NoDup (fst <$> bump p c).
Proof.
  induction c as [|[r k] c IH]; intros N; simpl; [apply NoDup_singleton|].
  apply NoDup_cons in N as [N1 N2].
  destruct (Z.eqb_spec p r) as [->|E]; simpl; apply NoDup_cons; [done|].
  split; [|by apply IH]. rewrite bump_keys. intros [?|?]; [congruence|done].
Qed.

Definition count (p : Z) (l : list Z) : nat := count_occ Z.eq_dec l p.

Lemma counts_spec l :
  let c := foldl (fun c p => bump p c) [] l in
  NoDup (fst <$> c) /\ (forall q, q ∈ (fst <$> c) <-> q ∈ l) /\
  (forall q n, (q, n) ∈ c <-> n = count q l /\ q ∈ l).
Proof.
  induction l as [|p l IH] using rev_ind; cbv zeta in *.
  { simpl. split_and!; [constructor|done|set_solver]. }
  rewrite foldl_app. cbn [foldl]. destruct IH as (N & K & C).
  split_and!.
  - by apply bump_nodup.
  - intros q. rewrite bump_keys, K. set_solver.
  - intros q n. rewrite bump_spec by done. unfold count in *. rewrite count_occ_app. cbn [count_occ].
    destruct (Z.eq_dec p q) as [->|E].
    + rewrite decide_True by done. setoid_rewrite C. rewrite K, elem_of_app, list_elem_of_singleton.
      split.
      * intros [(k & [-> I] & ->)|[I ->]]; (split; [|by right]); [lia|].
        rewrite (proj1 (count_occ_not_In Z.eq_dec l q)); [done|]. by rewrite <- list_elem_of_In.
      * intros [-> _]. destruct (decide (q ∈ l)) as [I|I].
        -- left. eexists. split; [by split|]. lia.
        -- right. split; [done|]. rewrite (proj1 (count_occ_not_In Z.eq_dec l q)); [done|].
           by rewrite <- list_elem_of_In.
    + rewrite decide_False by done. rewrite C, elem_of_app, list_elem_of_singleton.
      rewrite Nat.add_0_r. split; intros [-> I]; (split; [done|]); [by left|].
      by destruct I as [?|?].
Qed.

Lemma max_count_spec (c : list (Z * nat)) :
  let mx := foldr (fun x => Nat.max (snd x)) 0%nat c in
  (forall x, x ∈ c -> (snd x <= mx)%nat) /\ (c <> [] -> exists x, x ∈ c /\ snd x = mx).
Proof.
  induction c as [|[p n] c [IH1 IH2]]; simpl in *; [split; [by intros x ?%elem_of_nil|done]|].
  split.
  - intros x [->|I]%elem_of_cons; simpl; [lia|]. specialize (IH1 x I). lia.
  - intros _. destruct (Nat.max_spec n (foldr (fun x => Nat.max (snd x)) 0%nat c)) as [[L ->]|[L ->]].
    + destruct IH2 as (x & I & E); [intros ->; simpl in L; lia|]. exists x. split; [by right|done].
    + exists (p, n). split; [by left|done].
Qed.

(** The most frequent preference is one that nobody outnumbers. *)
Lemma most_frequent_spec l :
  (l = [] -> most_frequent l = PreferAuto) /\
  (l <> [] -> most_frequent l ∈ l /\ forall q, (count q l <= count (most_frequent l) l)%nat).
Proof.
  split; [by intros ->|]. intros Hl. unfold most_frequent.
  destruct (counts_spec l) as (N & K & C). cbv zeta in *.
  set (c := foldl _ _ _) in *. destruct (max_count_spec c) as [M1 M2]. cbv zeta in M1, M2.
  set (mx := foldr _ _ _) in *.
  assert (c <> []) as Hc.
  { destruct l as [|p l]; [done|]. intros E. specialize (K p). rewrite E in K. set_solver. }
  destruct (M2 Hc) as (x & Ix & Ex).
  destruct (List.find _ c) as [[p n]|] eqn:F.
  - apply find_some in F as [F1 F2]. apply bool_decide_eq_true in F2. cbn in F2.
    apply list_elem_of_In in F1. apply C in F1 as [-> I]. split; [done|]. intros q.
    destruct (decide (q ∈ l)) as [Iq|Iq].
    + rewrite F2. apply (M1 (q, count q l)). by apply C.
    + unfold count at 1. rewrite (proj1 (count_occ_not_In Z.eq_dec l q)); [lia|].
      by rewrite <- list_elem_of_In.
  - exfalso. pose proof (find_none _ _ F x (proj1 (list_elem_of_In _ _) Ix)) as D.
    apply bool_decide_eq_false in D. congruence.
Qed.

(** ** What is chosen *)

(** How many peers would like [p]. *)
Definition supporters (p : Z) (ds : gmap Z SupportedDecoding) : nat :=
  count p ((fun x => prefer (snd x)) <$> map_to_list ds).

Definition codec_of (p : Z) : CodecFormat :=
  if p =? PreferVP8 then VP8 else if p =? PreferVP9 then VP9 else if p =? PreferAV1 then AV1
  else if p =? PreferH264 then H264 else H265.

Lemma counted_usable m ds p :
  pref_counts m ds p = true ->
  format_of_preference m ds p = codec_of p /\ (codec_of p = VP9 \/ format_usable m ds (codec_of p) = true).
Proof.
  unfold pref_counts, format_of_preference, codec_of, PreferVP9, PreferVP8, PreferAV1, PreferH264,
    PreferH265. intros P. change (all_support H264 ds && encoder_found m H264) with (format_usable m ds H264).
  change (all_support H265 ds && encoder_found m H265) with (format_usable m ds H265).
  zbool; subst; try lia; cbn [orb andb] in P; rewrite ?orb_false_r in P; try done; rewrite ?P; auto.
Qed.

Lemma auto_usable m ds : auto_codec m ds = VP9 \/ format_usable m ds (auto_codec m ds) = true.
Proof.
  unfold auto_codec. destruct (format_usable m ds H265) eqn:E5, (format_usable m ds H264) eqn:E4,
    (format_usable m ds AV1) eqn:E1, (format_usable m ds VP8) eqn:E8; cbn [andb];
    try destruct (negb (bool_decide (av1_test m = _))); try destruct (total_memory m <=? _);
    simpl; auto.
Qed.

Lemma usable_supported m ds f :
  format_usable m ds f = true -> all_support f ds = true /\ (f = H264 \/ f = H265 -> encoder_found m f = true).
Proof.
  destruct f; simpl; try done; intros E.
  - split; [done|by intros [|]].
  - apply andb_true_iff in E as [E _]. split; [done|by intros [|]].
  - by apply andb_true_iff in E as [? ?].
  - by apply andb_true_iff in E as [? ?].
Qed.

Lemma all_support_ability f ds id d :
  all_support f ds = true -> ds !! id = Some d -> ability f d > 0.
Proof. intros [_ F]%bool_decide_eq_true Hd. exact (F id d Hd). Qed.

Section chosen.
Context (iter : gmap Z SupportedDecoding -> list (Z * SupportedDecoding)).
Hypothesis iter_perm : forall ds, iter ds ≡ₚ map_to_list ds.

Definition prefs_of (m : Machine) (ds : gmap Z SupportedDecoding) : list Z :=
  List.filter (pref_counts m ds) ((fun x => prefer (snd x)) <$> iter ds).

Lemma count_filter (P : Z -> bool) p l :
  count p (List.filter P l) = if P p then count p l else 0%nat.
Proof.
  unfold count. induction l as [|q l IH]; simpl; [by destruct (P p)|].
  destruct (P q) eqn:E; simpl; destruct (Z.eq_dec q p) as [->|N]; rewrite ?IH, ?E; try done.
Qed.

Lemma prefs_count m ds p :
  count p (prefs_of m ds) = if pref_counts m ds p then supporters p ds else 0%nat.
Proof.
  unfold prefs_of. rewrite count_filter. destruct (pref_counts m ds p); [|done].
  unfold supporters, count. apply Permutation_count_occ. by rewrite iter_perm.
Qed.

(** The preference that is used, if one counts. *)
Lemma preference_used m ds :
  (forall p, pref_counts m ds p = true -> supporters p ds = 0%nat) /\
    format_of_preference m ds (most_frequent (prefs_of m ds)) = auto_codec m ds \/
  exists p, pref_counts m ds p = true /\ (0 < supporters p ds)%nat /\
    (forall q, pref_counts m ds q = true -> (supporters q ds <= supporters p ds)%nat) /\
    format_of_preference m ds (most_frequent (prefs_of m ds)) = codec_of p.
Proof.
  destruct (most_frequent_spec (prefs_of m ds)) as [S1 S2]. destruct (decide (prefs_of m ds = [])) as [E|E].
  - left. rewrite S1 by done. split; [|done]. intros p P. pose proof (prefs_count m ds p) as C.
    rewrite P, E in C. by unfold count in C.
  - right. destruct (S2 E) as [I M]. exists (most_frequent (prefs_of m ds)).
    assert (pref_counts m ds (most_frequent (prefs_of m ds)) = true) as P.
    { unfold prefs_of at 2 in I. by apply list_elem_of_In, filter_In in I as [_ ?]. }
    split_and!; [done| | |by apply counted_usable].
    + pose proof (prefs_count m ds (most_frequent (prefs_of m ds))) as C. rewrite P in C. rewrite <- C.
      apply count_occ_In. by apply list_elem_of_In.
    + intros q Q. specialize (M q). rewrite !prefs_count, Q, P in M. done.
Qed.

End chosen.

(** The format is what most peers would like, of what can be encoded here and
    decoded by all; where nobody asks for such a format it is the automatic choice.
    Without ties the order in which the peers are looked at does not matter. *)
Theorem most_wanted_codec iter iter' m u c :
  (forall ds, iter ds ≡ₚ map_to_list ds) -> (forall ds, iter' ds ≡ₚ map_to_list ds) ->
  let c' := update iter m u c in
  let ds := decodings c' in
  ((forall p, pref_counts m ds p = true -> supporters p ds = 0%nat) /\
     encode_format c' = auto_codec m ds \/
   exists p, pref_counts m ds p = true /\ (0 < supporters p ds)%nat /\
     (forall q, pref_counts m ds q = true -> (supporters q ds <= supporters p ds)%nat) /\
     encode_format c' = codec_of p) /\
  ((forall p q, pref_counts m ds p = true -> pref_counts m ds q = true -> p <> q ->
      (0 < supporters p ds)%nat -> supporters p ds <> supporters q ds) ->
   update iter' m u c = c').
Proof.
  intros I1 I2 c' ds. pose proof (preference_used iter I1 m ds) as U1.
  pose proof (preference_used iter' I2 m ds) as U2. split; [exact U1|].
  intros T. unfold c', update. f_equal. change (update_peers u (decodings c)) with ds.
  fold (prefs_of iter m ds). fold (prefs_of iter' m ds).
  destruct U1 as [[N1 ->]|(p & P & P0 & PM & ->)], U2 as [[N2 ->]|(q & Q & Q0 & QM & ->)].
  - done.
  - specialize (N1 q Q). lia.
  - specialize (N2 p P). lia.
  - destruct (decide (p = q)) as [->|Npq]; [done|]. specialize (T p q P Q Npq P0).
    specialize (PM q Q). specialize (QM p P). lia.
Qed.

(** Whatever is chosen, VP9 apart, everybody can decode it and it can be encoded. *)
Lemma chosen_usable iter m u c :
  (forall ds, iter ds ≡ₚ map_to_list ds) ->
  let c' := update iter m u c in
  encode_format c' = VP9 \/ format_usable m (decodings c') (encode_format c') = true.
Proof.
  intros I c'. destruct (preference_used iter I m (decodings c')) as [[_ E]|(p & P & _ & _ & E)].
  - change (encode_format c' = auto_codec m (decodings c')) in E. rewrite E. apply auto_usable.
  - change (encode_format c' = codec_of p) in E. rewrite E. by apply counted_usable.
Qed.

Lemma vram_try_get_format m device f x : vram_try_get m device f = Some x -> data_format x = f.
Proof.
  intros E. assert (x ∈ vram_available m f) as I.
  { unfold vram_try_get, prefer_ffmpeg in E.
    destruct (List.find _ _) as [y|] eqn:F.
    - injection E as ->. apply find_some in F as [F _]. apply filter_In in F as [F _].
      by apply list_elem_of_In.
    - destruct (List.filter _ _) as [|y l] eqn:L; [done|]. injection E as ->.
      assert (In x (List.filter (fun c => luid c =? device) (vram_available m f))) as J by (rewrite L; by left).
      apply filter_In in J as [J _]. by apply list_elem_of_In. }
  assert (forall v, x ∈ List.filter (fun c => bool_decide (data_format c = f)) v -> data_format x = f) as Fl.
  { intros v J. apply list_elem_of_In, filter_In in J as [_ J]. by apply bool_decide_eq_true in J. }
  unfold vram_available in I.
  destruct (negb _); [by apply elem_of_nil in I|]. destruct (bool_decide _); [by apply elem_of_nil in I|].
  destruct f; try (by apply elem_of_nil in I).
  all: destruct (hw_try_get m _); [by eapply Fl|].
  all: destruct (displays m) as [[|? ?]|]; try (by apply elem_of_nil in I).
  all: destruct (forallb _ _); [by eapply Fl|by apply elem_of_nil in I].
Qed.

Lemma format_of_config_vram lower x : (data_format x = H264 \/ data_format x = H265) ->
  format_of_config lower (VRAM x) = Some (data_format x).
Proof. simpl. by intros [->| ->]. Qed.

(** C33. What the video service encodes can be decoded by everybody who watches: the
    encoder that is set up makes the format that is remembered as the negotiated one,
    and unless it is VP9 (which nobody is asked about) every peer said that it can
    decode it; and the full chroma is used only where every peer wants it and can
    decode it.  This is so when the encoder is set up; a peer that comes or says otherwise later
    is met by setting it up again.  (The name of a hardware encoder tells its format.) *)
Theorem encoder_decodable iter lower device gdi name portable camera m c :
  (forall ds, iter ds ≡ₚ map_to_list ds) ->
  (forall f n, hw_try_get m f = Some n -> format_of_config lower (HWRAM n) = Some f) ->
  let '(cfg, f, full, _, c') := setup_encoder iter lower device gdi name portable camera m c in
  format_of_config lower cfg = Some f /\ encode_format c' = f /\ decodings c' = decodings c /\
  forall id d, decodings c' !! id = Some d ->
    (f <> VP9 -> ability f d > 0) /\
    (full = true -> prefer_chroma d = ChromaI444 /\ (f = VP9 /\ i_vp9 (i444 d) = true \/
                                                      f = AV1 /\ i_av1 (i444 d) = true)).
Proof.
  intros I Hw. unfold setup_encoder, get_encoder_config.
  set (m1 := if _ : bool then _ else m).
  assert (forall f, hw_try_get m1 f = hw_try_get m f) as Em by (subst m1; by case_match).
  pose proof (chosen_usable iter m1 Check c I) as U. cbv zeta in U.
  set (c1 := update iter m1 Check c) in *.
  assert (decodings c1 = decodings c) as Ed by done. clearbody c1 m1.
  set (cfg := match encode_format c1 with VP8 => _ | _ => _ end).
  assert (exists f, format_of_config lower cfg = Some f /\ (f = VP9 \/ f = encode_format c1)) as (f & Ef & Cf).
  { subst cfg. destruct (encode_format c1) eqn:E; try by eexists; auto.
    all: destruct (vram_try_get m1 device _) as [x|] eqn:V;
      [apply vram_try_get_format in V; exists (data_format x);
       (rewrite format_of_config_vram by (rewrite V; auto)); rewrite V; by auto|].
    all: rewrite Em; destruct (hw_try_get m _) as [n|] eqn:Hn; eauto. }
  unfold set_fallback. rewrite Ef. cbn [encode_format decodings]. split_and!; [done|done|done|].
  intros id d Hd. split.
  - intros Nf. destruct Cf as [-> | ->]; [done|]. destruct U as [U|U]; [congruence|].
    apply usable_supported in U as [U _]. by eapply all_support_ability.
  - unfold use_i444. cbn [decodings]. intros [[P A]%andb_true_iff _]%andb_true_iff.
    apply bool_decide_eq_true in P. specialize (P id d Hd). cbn in P. apply Z.eqb_eq in P. split; [done|].
    assert (cfg = VPX false /\ f = VP9 \/ cfg = AOM /\ f = AV1) as [[E1 E2]|[E1 E2]].
    { destruct cfg as [[]| |n|x] eqn:Ecfg; try discriminate; cbn in Ef; simplify_eq; auto. }
    all: rewrite E1 in A; apply bool_decide_eq_true in A; specialize (A id d Hd); auto.
Qed.

Lemma mark_zero f g d : ability f (mark g d) > 0 -> ability f d > 0.
Proof. unfold mark. destruct f; simpl; try case_decide; lia. Qed.

Lemma vram_decoders_luid m f l : vram_decoders m f l <> [] -> default 0 l <> 0.
Proof.
  unfold vram_decoders. intros N E. apply N. rewrite E.
  assert (forall v, List.filter (fun c => bool_decide (data_format c = f) && (luid c =? 0) && negb (0 =? 0)) v = [])
    as F by (intros v; induction v as [|c v IH]; simpl; [done|by rewrite andb_false_r]).
  rewrite F. by destruct f.
Qed.

Lemma new_hw_decoder m creates f l :
  (forall k, creates k = true) -> f = H264 \/ f = H265 ->
  hw_decoder m f = true \/ enable_vram_option m false = true /\ vram_decoders m f l <> [] ->
  decoder (new_decoder m creates f l) = Some (DVram f) \/ decoder (new_decoder m creates f l) = Some (DRam f).
Proof.
  intros C Hf Hd. unfold new_decoder. rewrite !C.
  assert (forall o : option DecoderKind, o = (match f with H264 | H265 => o | _ => None end)) as Ho
    by (by destruct Hf as [-> | ->]).
  set (v := enable_vram_option m false && negb (default 0 l =? 0) && _).
  assert (v = true \/ hw_decoder m f = true) as [-> | H].
  { destruct Hd as [Hd|[Hv Hn]]; [by right|left]. subst v. rewrite Hv. pose proof (vram_decoders_luid m f l Hn).
    rewrite (proj2 (Z.eqb_neq _ _)) by done. by rewrite bool_decide_false. }
  - left. by destruct Hf as [-> | ->].
  - rewrite H. destruct v; [left|right]; by destruct Hf as [-> | ->].
Qed.

(** What a peer says it can decode, it can decode: where the libraries make the
    decoders they offer, the decoder for a format of the advertised ones is valid, and
    a frame of that format is given to a decoder for it. *)
Theorem advertised_is_decoded {A} m id options texture l unsupported creates f
    (run : DecoderKind -> A -> result string bool) data :
  (forall k, creates k = true) ->
  ability f (supported_decodings m id options texture l unsupported) > 0 ->
  let d := new_decoder m creates f l in
  valid d = true /\ exists k, decoder d = Some k /\ handle_video_frame run f data d = run k data.
Proof.
  intros C Hab. unfold supported_decodings in Hab. destruct (preference id options) as [p chroma].
  set (d0 := mkDecoding 1 1 _ _ _ _ _ _) in Hab.
  assert (ability f d0 > 0) as A0.
  { clearbody d0. revert d0 Hab. induction unsupported as [|g un IH]; intros d0 Hab; [done|].
    simpl in Hab. apply IH in Hab. by apply mark_zero in Hab. }
  subst d0.
  assert (forall f, f = H264 \/ f = H265 ->
    Z.lor (if hw_decoder m f then 1 else 0)
      (if enable_vram_option m false && texture
       then if negb (bool_decide (vram_decoders m f l = [])) then 1 else 0 else 0) > 0 ->
    let d := new_decoder m creates f l in
    valid d = true /\ exists k, decoder d = Some k /\ handle_video_frame run f data d = run k data) as HW.
  { intros g Hg A1 d.
    assert (hw_decoder m g = true \/ enable_vram_option m false = true /\ vram_decoders m g l <> []) as Hd.
    { destruct (hw_decoder m g); [by left|right].
      destruct (enable_vram_option m false), texture; cbn in A1; try discriminate A1.
      split; [done|]. intros E. by rewrite E in A1. }
    destruct (new_hw_decoder m creates g l C Hg Hd) as [E|E].
    - split; [unfold valid; subst d; by rewrite E|]. exists (DVram g). split; [done|].
      unfold handle_video_frame. subst d. rewrite E. by destruct Hg as [-> | ->].
    - split; [unfold valid; subst d; by rewrite E|]. exists (DRam g). split; [done|].
      unfold handle_video_frame. subst d. rewrite E. by destruct Hg as [-> | ->]. }
  destruct f; try (by apply HW; [auto|]); try (simpl in A0; lia).
  all: split; [unfold valid, new_decoder; by rewrite C|]; unfold new_decoder; rewrite C; by eexists.
Qed.

(** The number of threads of a codec: at most the limit, 64, half of the processors
    and half of the free gigabytes, but one at least where the limit allows it, and a
    power of two unless the limit cuts it. *)
Theorem thread_num_bounds cpus load memory limit :
  1 <= limit ->
  let n := codec_thread_num cpus load memory limit in
  1 <= n <= limit /\ n <= 64 /\ n <= Z.max 1 (cpus / 2) /\ n <= Z.max 1 (memory / 2) /\
  (n = limit \/ exists k, 0 <= k <= 6 /\ n = 2 ^ k).
Proof.
  intros L n. subst n. unfold codec_thread_num. set (r := Z.min (Z.min load _) _).
  assert (r <= cpus / 2 /\ r <= memory / 2) as [R1 R2] by (subst r; lia). clearbody r.
  assert (exists k, 0 <= k <= 6 /\
    (if 64 <=? r then 64 else if 32 <=? r then 32 else if 16 <=? r then 16
     else if 8 <=? r then 8 else if 4 <=? r then 4 else if 2 <=? r then 2 else 1) = 2 ^ k /\
    (k = 0 \/ 2 ^ k <= r)) as (k & K & -> & Kr).
  { zbool; [exists 6|exists 5|exists 4|exists 3|exists 2|exists 1|exists 0];
      (split; [lia|split; [done|first [by left|by right]]]). }
  assert (1 <= 2 ^ k <= 2 ^ 6) as B.
  { split; [change 1 with (2 ^ 0)|]; apply Z.pow_le_mono_r; lia. }
  change (2 ^ 6) with 64 in B.
  assert (2 ^ k <= Z.max 1 r) as B' by (destruct Kr as [-> | ?]; lia).
  destruct (Z.min_spec (2 ^ k) limit) as [[? ->]|[? ->]]; (split_and!; [lia..|]); [|by left].
  right. by exists k.
Qed.

(** ** Witnesses *)

Definition names (f : CodecFormat) : option string :=
  match f with H264 => Some "h264_nvenc"%string | H265 => Some "hevc_nvenc"%string | _ => None end.
Definition pc : Machine :=
  mkMachine false true true true true "" (16 * 1024 * 1024 * 1024) names
    (fun f => bool_decide (f = H264)) (fun _ => true) [mkFeature false 3 H265] [mkFeature true 3 H264]
    (Some [Some 3]) ∅ ∅.
Definition watcher (p : Z) (h264 : Z) : SupportedDecoding :=
  mkDecoding 1 1 1 h264 0 p 1 (mkAbility false true true false false).
Definition watchers : Choice :=
  mkChoice {[1 := watcher PreferH264 1; 2 := watcher PreferAV1 1]} VP9 None.

Definition third : Choice := update map_to_list pc (Update 3 (watcher PreferH264 1)) watchers.

Lemma third_counts x : pref_counts pc (decodings third) x = true -> x = 1 \/ x = 4 \/ x = 5 \/ x = 2.
Proof.
  unfold pref_counts, PreferVP9, PreferVP8, PreferAV1, PreferH264, PreferH265. set (ds := decodings third).
  assert (format_usable pc ds H265 = false) as -> by by vm_compute.
  rewrite andb_false_r, orb_false_r. intros E. zbool; auto; discriminate.
Qed.

Lemma most_wanted_codec_witness :
  encode_format (update (fun ds => rev (map_to_list ds)) pc (Update 3 (watcher PreferH264 1)) watchers) = H264.
Proof.
  destruct (most_wanted_codec map_to_list (fun ds => rev (map_to_list ds)) pc
    (Update 3 (watcher PreferH264 1)) watchers) as [_ E].
  - done.
  - intros ds. symmetry. apply Permutation_rev.
  - rewrite E; [by vm_compute|]. intros p q P Q N. change (pref_counts pc (decodings third) p = true) in P.
    change (pref_counts pc (decodings third) q = true) in Q.
    change (0 < supporters p (decodings third) -> supporters p (decodings third) <> supporters q (decodings third))%nat.
    destruct (third_counts p P) as [-> |[-> |[-> | ->]]], (third_counts q Q) as [-> |[-> |[-> | ->]]];
      vm_compute; lia.
Defined.

Lemma encoder_decodable_witness :
  let '(cfg, f, full, _, _) :=
    setup_encoder map_to_list (fun s => s) 3 false "video0" false false pc third in
  cfg = HWRAM "h264_nvenc" /\ f = H264 /\ full = false.
Proof.
  pose proof (encoder_decodable map_to_list (fun s => s) 3 false "video0" false false pc third) as E.
  assert (setup_encoder map_to_list (fun s => s) 3 false "video0" false false pc third =
          (HWRAM "h264_nvenc", H264, false, pc,
           snd (setup_encoder map_to_list (fun s => s) 3 false "video0" false false pc third))) as Q
    by by vm_compute.
  rewrite Q in *. destruct E as (E & _); [done| |].
  - intros [] n; try discriminate; intros [= <-]; by vm_compute.
  - split; [done|]. cbn in E. split; [done|done].
Defined.

Lemma advertised_is_decoded_witness :
  let d := new_decoder pc (fun _ => true) H264 (Some 3) in
  valid d = true /\ handle_video_frame (fun _ (x : nat) => Ok true) H264 7%nat d = Ok true.
Proof.
  destruct (advertised_is_decoded pc "1" ∅ true (Some 3) [VP8] (fun _ => true) H264
    (fun _ (x : nat) => Ok true) 7%nat) as (V & k & _ & E); [done|by vm_compute|].
  split; [exact V|exact E].
Defined.

Lemma thread_num_bounds_witness : codec_thread_num 16 7 31 64 <= 8.
Proof. by apply (thread_num_bounds 16 7 31 64). Defined.
