(* ===== verification/ConnState.v ===== *)
(** * The state of a connection on the controlled side

    [Connection] of [src/server/connection.rs], in a build for Windows with the flutter
    user interface: what the peer logged in for ([Kind]), what the person at the machine
    permits ([Perms]), what the peer wishes ([Wishes]), and the state of the files, the
    terminal and the talk; the part that decides about a login is that of [LoginGuard].

    What a handler does to the machine, to the connection manager and to the peer is a
    list of [effect]s in order.  The answers of the system and the options are an
    environment.  The handlers are in [ConnLogin] and [ConnMessages]. *)

From Stdlib Require Import Ascii.
From S2P Require Import Prelude Options Config LoginGuard CodecChoice.

(** ** Version numbers *)

Definition digit_of (c : ascii) : option Z :=
  let n := Z.of_nat (nat_of_ascii c) in
  if (48 <=? n) && (n <=? 57) then Some (n - 48) else None.

Fixpoint parse_digits (sign acc : Z) (s : string) : option Z :=
  match s with
  | EmptyString => Some acc
  | String c s =>
      d ← digit_of c;
      let acc := acc * 10 + sign * d in
      if decide (in_i 64 acc) then parse_digits sign acc s else None
  end.

(** [str::parse::<i64>]. *)
Definition parse_i64 (s : string) : option Z :=
  match s with
  | EmptyString | String "-" EmptyString | String "+" EmptyString => None
  | String "-" s => parse_digits (-1) 0 s
  | String "+" s => parse_digits 1 0 s
  | _ => parse_digits 1 0 s
  end.

(* src/libs/hbb_common/src/lib.rs:259-284 get_version_number *)
Definition get_version_number (v : string) : Z :=
  match Config.split_char "-" "" v with
  | [] => 0
  | v :: patch =>
      let '(n, last) := foldl (fun '(n, _) x =>
        let last := default 0 (parse_i64 x) in (i64 (i64 (n * 1000) + last), last))
        (0, 0) (Config.split_char "." "" v) in
      let n := i64 (i64 (n - last) + i64 (last * 10)) in
      match patch with
      | [] => n
      | p :: _ => i64 (n + default 0 (parse_i64 p))
      end
  end.

(** ** Messages of options and logins *)

(* src/libs/hbb_common/protos/message.proto:671-675 OptionMessage.BoolOption *)
Inductive BoolOption := NotSet | No | Yes.

#[export] Instance BoolOption_eq_dec : EqDecision BoolOption.
Proof. solve_decision. Defined.

(** [None] is a number that no constructor has. *)
(* src/libs/hbb_common/protos/message.proto:670-694 OptionMessage *)
Record OptionMessage : Type := mkOption {
  o_image_quality : option Z;
  o_lock_after_session_end : option BoolOption;
  o_show_remote_cursor : option BoolOption;
  o_privacy_mode : option BoolOption;
  o_block_input : option BoolOption;
  o_custom_image_quality : Z;
  o_disable_audio : option BoolOption;
  o_disable_clipboard : option BoolOption;
  o_enable_file_transfer : option BoolOption;
  o_supported_decoding : option SupportedDecoding;
  o_custom_fps : Z;
  o_disable_keyboard : option BoolOption;
  o_follow_remote_cursor : option BoolOption;
  o_follow_remote_window : option BoolOption;
  o_terminal_persistent : option BoolOption;
  o_show_my_cursor : option BoolOption;
}.

Inductive login_kind :=
| LkFileTransfer (dir : string) (show_hidden : bool)
| LkViewCamera
| LkTerminal (service_id : string)
| LkPortForward (host : string) (port : Z)
| LkNone.

(** A login request; [LoginGuard] has the fields that decide about it. *)
Record Login : Type := mkLoginMsg {
  lg : LoginRequest;
  lr_platform : string;
  lr_version : string;
  lr_hwid : bytes;
  lr_option : option OptionMessage;
  lr_kind : login_kind;
  lr_os_username : string;
}.

(** ** The connection *)

(** What the person at the machine permits. *)
Record Perms : Type := mkPerms {
  keyboard : bool;
  clipboard : bool;
  audio : bool;
  file : bool;
  restart : bool;
  recording : bool;
  block_input : bool;
}.

(** What the peer wants. *)
Record Wishes : Type := mkWishes {
  disable_keyboard : bool;
  show_my_cursor : bool;
  disable_clipboard : bool;
  disable_audio : bool;
  enable_file_transfer : bool;
  lock_after_session_end : bool;
  show_remote_cursor : bool;
  follow_remote_cursor : bool;
  follow_remote_window : bool;
}.

(** What the peer logged in for. *)
Record Kind : Type := mkKind {
  file_transfer : option (string * bool);
  view_camera : bool;
  terminal : bool;
  port_forward : bool;
  authed_type : option AuthConnType;
}.

(** Files: the directory that waits for the choice of a session, the jobs that read, the
    documents to print. *)
Record Files : Type := mkFiles {
  delayed_read_dir : option (string * bool);
  read_jobs : list Z;
  printer_data : list string;
  file_transferred : bool;
}.

(** The terminal; the token is whether it is that of the logged-on user. *)
Record Term : Type := mkTerm {
  terminal_service_id : string;
  terminal_persistent : bool;
  terminal_user_token : option bool;
}.

(** Sound, chat and delays. *)
Record Talk : Type := mkTalk {
  audio_sender : bool;
  voice_request : option Z;
  voice_calling : bool;
  chat_unanswered : bool;
  last_test_delay : option Z;
  network_delay : Z;
}.

(* src/src/server/connection.rs:206-298 Connection *)
Record Connection : Type := mkConnection {
  base : LoginGuard.Connection;
  login : Login;
  perms : Perms;
  wishes : Wishes;
  kind : Kind;
  files : Files;
  term : Term;
  talk : Talk;
  options_in_login : option OptionMessage;
  display_idx : Z;
  services_subed : bool;
  closed : bool;
}.

Definition w_keyboard (x : bool) (p : Perms) : Perms :=
  mkPerms x (clipboard p) (audio p) (file p) (restart p) (recording p) (block_input p).
Definition w_clipboard (x : bool) (p : Perms) : Perms :=
  mkPerms (keyboard p) x (audio p) (file p) (restart p) (recording p) (block_input p).
Definition w_audio (x : bool) (p : Perms) : Perms :=
  mkPerms (keyboard p) (clipboard p) x (file p) (restart p) (recording p) (block_input p).
Definition w_file (x : bool) (p : Perms) : Perms :=
  mkPerms (keyboard p) (clipboard p) (audio p) x (restart p) (recording p) (block_input p).
Definition w_restart (x : bool) (p : Perms) : Perms :=
  mkPerms (keyboard p) (clipboard p) (audio p) (file p) x (recording p) (block_input p).
Definition w_recording (x : bool) (p : Perms) : Perms :=
  mkPerms (keyboard p) (clipboard p) (audio p) (file p) (restart p) x (block_input p).
Definition w_block_input (x : bool) (p : Perms) : Perms :=
  mkPerms (keyboard p) (clipboard p) (audio p) (file p) (restart p) (recording p) x.

Definition w_disable_keyboard (x : bool) (w : Wishes) : Wishes :=
  mkWishes x (show_my_cursor w) (disable_clipboard w) (disable_audio w) (enable_file_transfer w)
    (lock_after_session_end w) (show_remote_cursor w) (follow_remote_cursor w)
    (follow_remote_window w).
Definition w_show_my_cursor (x : bool) (w : Wishes) : Wishes :=
  mkWishes (disable_keyboard w) x (disable_clipboard w) (disable_audio w) (enable_file_transfer
    w) (lock_after_session_end w) (show_remote_cursor w) (follow_remote_cursor w)
    (follow_remote_window w).
Definition w_disable_clipboard (x : bool) (w : Wishes) : Wishes :=
  mkWishes (disable_keyboard w) (show_my_cursor w) x (disable_audio w) (enable_file_transfer w)
    (lock_after_session_end w) (show_remote_cursor w) (follow_remote_cursor w)
    (follow_remote_window w).
Definition w_disable_audio (x : bool) (w : Wishes) : Wishes :=
  mkWishes (disable_keyboard w) (show_my_cursor w) (disable_clipboard w) x (enable_file_transfer
    w) (lock_after_session_end w) (show_remote_cursor w) (follow_remote_cursor w)
    (follow_remote_window w).
Definition w_enable_file_transfer (x : bool) (w : Wishes) : Wishes :=
  mkWishes (disable_keyboard w) (show_my_cursor w) (disable_clipboard w) (disable_audio w) x
    (lock_after_session_end w) (show_remote_cursor w) (follow_remote_cursor w)
    (follow_remote_window w).
Definition w_lock_after_session_end (x : bool) (w : Wishes) : Wishes :=
  mkWishes (disable_keyboard w) (show_my_cursor w) (disable_clipboard w) (disable_audio w)
    (enable_file_transfer w) x (show_remote_cursor w) (follow_remote_cursor w)
    (follow_remote_window w).
Definition w_show_remote_cursor (x : bool) (w : Wishes) : Wishes :=
  mkWishes (disable_keyboard w) (show_my_cursor w) (disable_clipboard w) (disable_audio w)
    (enable_file_transfer w) (lock_after_session_end w) x (follow_remote_cursor w)
    (follow_remote_window w).
Definition w_follow_remote_cursor (x : bool) (w : Wishes) : Wishes :=
  mkWishes (disable_keyboard w) (show_my_cursor w) (disable_clipboard w) (disable_audio w)
    (enable_file_transfer w) (lock_after_session_end w) (show_remote_cursor w) x
    (follow_remote_window w).
Definition w_follow_remote_window (x : bool) (w : Wishes) : Wishes :=
  mkWishes (disable_keyboard w) (show_my_cursor w) (disable_clipboard w) (disable_audio w)
    (enable_file_transfer w) (lock_after_session_end w) (show_remote_cursor w)
    (follow_remote_cursor w) x.

Definition w_file_transfer (x : option (string * bool)) (k : Kind) : Kind :=
  mkKind x (view_camera k) (terminal k) (port_forward k) (authed_type k).
Definition w_view_camera (x : bool) (k : Kind) : Kind :=
  mkKind (file_transfer k) x (terminal k) (port_forward k) (authed_type k).
Definition w_terminal (x : bool) (k : Kind) : Kind :=
  mkKind (file_transfer k) (view_camera k) x (port_forward k) (authed_type k).
Definition w_port_forward (x : bool) (k : Kind) : Kind :=
  mkKind (file_transfer k) (view_camera k) (terminal k) x (authed_type k).
Definition w_authed_type (x : option AuthConnType) (k : Kind) : Kind :=
  mkKind (file_transfer k) (view_camera k) (terminal k) (port_forward k) x.

Definition w_delayed_read_dir (x : option (string * bool)) (f : Files) : Files :=
  mkFiles x (read_jobs f) (printer_data f) (file_transferred f).
Definition w_read_jobs (x : list Z) (f : Files) : Files :=
  mkFiles (delayed_read_dir f) x (printer_data f) (file_transferred f).
Definition w_printer_data (x : list string) (f : Files) : Files :=
  mkFiles (delayed_read_dir f) (read_jobs f) x (file_transferred f).
Definition w_file_transferred (x : bool) (f : Files) : Files :=
  mkFiles (delayed_read_dir f) (read_jobs f) (printer_data f) x.

Definition w_terminal_service_id (x : string) (t : Term) : Term :=
  mkTerm x (terminal_persistent t) (terminal_user_token t).
Definition w_terminal_persistent (x : bool) (t : Term) : Term :=
  mkTerm (terminal_service_id t) x (terminal_user_token t).
Definition w_terminal_user_token (x : option bool) (t : Term) : Term :=
  mkTerm (terminal_service_id t) (terminal_persistent t) x.

Definition w_audio_sender (x : bool) (t : Talk) : Talk :=
  mkTalk x (voice_request t) (voice_calling t) (chat_unanswered t) (last_test_delay t)
    (network_delay t).
Definition w_voice_request (x : option Z) (t : Talk) : Talk :=
  mkTalk (audio_sender t) x (voice_calling t) (chat_unanswered t) (last_test_delay t)
    (network_delay t).
Definition w_voice_calling (x : bool) (t : Talk) : Talk :=
  mkTalk (audio_sender t) (voice_request t) x (chat_unanswered t) (last_test_delay t)
    (network_delay t).
Definition w_chat_unanswered (x : bool) (t : Talk) : Talk :=
  mkTalk (audio_sender t) (voice_request t) (voice_calling t) x (last_test_delay t)
    (network_delay t).
Definition w_last_test_delay (x : option Z) (t : Talk) : Talk :=
  mkTalk (audio_sender t) (voice_request t) (voice_calling t) (chat_unanswered t) x
    (network_delay t).
Definition w_network_delay (x : Z) (t : Talk) : Talk :=
  mkTalk (audio_sender t) (voice_request t) (voice_calling t) (chat_unanswered t)
    (last_test_delay t) x.

Definition s_base (x : LoginGuard.Connection) (c : Connection) : Connection :=
  mkConnection x (login c) (perms c) (wishes c) (kind c) (files c) (term c) (talk c)
    (options_in_login c) (display_idx c) (services_subed c) (closed c).
Definition s_login (x : Login) (c : Connection) : Connection :=
  mkConnection (base c) x (perms c) (wishes c) (kind c) (files c) (term c) (talk c)
    (options_in_login c) (display_idx c) (services_subed c) (closed c).
Definition s_perms (x : Perms) (c : Connection) : Connection :=
  mkConnection (base c) (login c) x (wishes c) (kind c) (files c) (term c) (talk c)
    (options_in_login c) (display_idx c) (services_subed c) (closed c).
Definition s_wishes (x : Wishes) (c : Connection) : Connection :=
  mkConnection (base c) (login c) (perms c) x (kind c) (files c) (term c) (talk c)
    (options_in_login c) (display_idx c) (services_subed c) (closed c).
Definition s_kind (x : Kind) (c : Connection) : Connection :=
  mkConnection (base c) (login c) (perms c) (wishes c) x (files c) (term c) (talk c)
    (options_in_login c) (display_idx c) (services_subed c) (closed c).
Definition s_files (x : Files) (c : Connection) : Connection :=
  mkConnection (base c) (login c) (perms c) (wishes c) (kind c) x (term c) (talk c)
    (options_in_login c) (display_idx c) (services_subed c) (closed c).
Definition s_term (x : Term) (c : Connection) : Connection :=
  mkConnection (base c) (login c) (perms c) (wishes c) (kind c) (files c) x (talk c)
    (options_in_login c) (display_idx c) (services_subed c) (closed c).
Definition s_talk (x : Talk) (c : Connection) : Connection :=
  mkConnection (base c) (login c) (perms c) (wishes c) (kind c) (files c) (term c) x
    (options_in_login c) (display_idx c) (services_subed c) (closed c).
Definition s_options_in_login (x : option OptionMessage) (c : Connection) : Connection :=
  mkConnection (base c) (login c) (perms c) (wishes c) (kind c) (files c) (term c) (talk c) x
    (display_idx c) (services_subed c) (closed c).
Definition s_display_idx (x : Z) (c : Connection) : Connection :=
  mkConnection (base c) (login c) (perms c) (wishes c) (kind c) (files c) (term c) (talk c)
    (options_in_login c) x (services_subed c) (closed c).
Definition s_services_subed (x : bool) (c : Connection) : Connection :=
  mkConnection (base c) (login c) (perms c) (wishes c) (kind c) (files c) (term c) (talk c)
    (options_in_login c) (display_idx c) x (closed c).
Definition s_closed (x : bool) (c : Connection) : Connection :=
  mkConnection (base c) (login c) (perms c) (wishes c) (kind c) (files c) (term c) (talk c)
    (options_in_login c) (display_idx c) (services_subed c) x.

Definition set_keyboard (x : bool) (c : Connection) : Connection :=
  s_perms (w_keyboard x (perms c)) c.
Definition set_clipboard (x : bool) (c : Connection) : Connection :=
  s_perms (w_clipboard x (perms c)) c.
Definition set_audio (x : bool) (c : Connection) : Connection :=
  s_perms (w_audio x (perms c)) c.
Definition set_file (x : bool) (c : Connection) : Connection :=
  s_perms (w_file x (perms c)) c.
Definition set_restart (x : bool) (c : Connection) : Connection :=
  s_perms (w_restart x (perms c)) c.
Definition set_recording (x : bool) (c : Connection) : Connection :=
  s_perms (w_recording x (perms c)) c.
Definition set_block_input (x : bool) (c : Connection) : Connection :=
  s_perms (w_block_input x (perms c)) c.

Definition set_disable_keyboard (x : bool) (c : Connection) : Connection :=
  s_wishes (w_disable_keyboard x (wishes c)) c.
Definition set_show_my_cursor (x : bool) (c : Connection) : Connection :=
  s_wishes (w_show_my_cursor x (wishes c)) c.
Definition set_disable_clipboard (x : bool) (c : Connection) : Connection :=
  s_wishes (w_disable_clipboard x (wishes c)) c.
Definition set_disable_audio (x : bool) (c : Connection) : Connection :=
  s_wishes (w_disable_audio x (wishes c)) c.
Definition set_enable_file_transfer (x : bool) (c : Connection) : Connection :=
  s_wishes (w_enable_file_transfer x (wishes c)) c.
Definition set_lock_after_session_end (x : bool) (c : Connection) : Connection :=
  s_wishes (w_lock_after_session_end x (wishes c)) c.
Definition set_show_remote_cursor (x : bool) (c : Connection) : Connection :=
  s_wishes (w_show_remote_cursor x (wishes c)) c.
Definition set_follow_remote_cursor (x : bool) (c : Connection) : Connection :=
  s_wishes (w_follow_remote_cursor x (wishes c)) c.
Definition set_follow_remote_window (x : bool) (c : Connection) : Connection :=
  s_wishes (w_follow_remote_window x (wishes c)) c.

Definition set_file_transfer (x : option (string * bool)) (c : Connection) : Connection :=
  s_kind (w_file_transfer x (kind c)) c.
Definition set_view_camera (x : bool) (c : Connection) : Connection :=
  s_kind (w_view_camera x (kind c)) c.
Definition set_terminal (x : bool) (c : Connection) : Connection :=
  s_kind (w_terminal x (kind c)) c.
Definition set_port_forward (x : bool) (c : Connection) : Connection :=
  s_kind (w_port_forward x (kind c)) c.
Definition set_authed_type (x : option AuthConnType) (c : Connection) : Connection :=
  s_kind (w_authed_type x (kind c)) c.

Definition set_delayed_read_dir (x : option (string * bool)) (c : Connection) : Connection :=
  s_files (w_delayed_read_dir x (files c)) c.
Definition set_read_jobs (x : list Z) (c : Connection) : Connection :=
  s_files (w_read_jobs x (files c)) c.
Definition set_printer_data (x : list string) (c : Connection) : Connection :=
  s_files (w_printer_data x (files c)) c.
Definition set_file_transferred (x : bool) (c : Connection) : Connection :=
  s_files (w_file_transferred x (files c)) c.

Definition set_terminal_service_id (x : string) (c : Connection) : Connection :=
  s_term (w_terminal_service_id x (term c)) c.
Definition set_terminal_persistent (x : bool) (c : Connection) : Connection :=
  s_term (w_terminal_persistent x (term c)) c.
Definition set_terminal_user_token (x : option bool) (c : Connection) : Connection :=
  s_term (w_terminal_user_token x (term c)) c.

Definition set_audio_sender (x : bool) (c : Connection) : Connection :=
  s_talk (w_audio_sender x (talk c)) c.
Definition set_voice_request (x : option Z) (c : Connection) : Connection :=
  s_talk (w_voice_request x (talk c)) c.
Definition set_voice_calling (x : bool) (c : Connection) : Connection :=
  s_talk (w_voice_calling x (talk c)) c.
Definition set_chat_unanswered (x : bool) (c : Connection) : Connection :=
  s_talk (w_chat_unanswered x (talk c)) c.
Definition set_last_test_delay (x : option Z) (c : Connection) : Connection :=
  s_talk (w_last_test_delay x (talk c)) c.
Definition set_network_delay (x : Z) (c : Connection) : Connection :=
  s_talk (w_network_delay x (talk c)) c.

(** ** What is done *)

Inductive fs_op :=
| FsReadEmptyDirs | FsReadDir | FsNewWrite (id : Z) | FsRemoveDir (id : Z) | FsRemoveFile (id : Z)
| FsCreateDir (id : Z) | FsCancelWrite (id : Z) | FsSendConfirm (id : Z) | FsRename (id : Z)
| FsWriteBlock (id : Z) | FsWriteDone (id : Z) | FsCheckDigest (id : Z) | FsWriteError (id : Z).

(* src/libs/hbb_common/protos/message.proto:628-637 PermissionInfo::Permission *)
Inductive Permission := PKeyboard | PClipboard | PAudio | PFile | PRestart | PRecording | PBlockInput.

#[export] Instance Permission_eq_dec : EqDecision Permission.
Proof. solve_decision. Defined.

Inductive effect :=
| EMouse (simulate show : bool)
| EPointer
| EKey (press : bool)
| EBlockInput (on : bool)
| ELockScreen
| EClipboard
| EFileClip
| EFs (op : fs_op)
| EListFiles (id : Z)
| EReadJob (id : Z) (printer : bool)
| ESubscribe (service : string) (on : bool)
| EVideoService (camera : bool) (display : Z)
| EVideo (camera : bool) (display : Z) (on : bool)
| EMonitorServices (without : list string)
| ECameraServices
| ERefreshVideo
| EScreenshot (display : Z)
| EVirtualDisplay (on : bool)
| EPrivacy (on : bool) (key : string)
| EReboot
| EElevate
| EResolution (display : Z)
| EAudioThread
| EAudioFrame
| EVoiceDevice (on : bool)
| ETerminal
| ETerminalService
| ETerminalPersistence (on : bool)
| ESwitchSides
| EUserSession (sid : Z)
| EWhiteboard (on : bool)
| EQos
| ECodec (d : option SupportedDecoding)
| ETrustDevice
| EConnect (host : string) (port : Z)
| EOsLogon (username : string)
| EToCm (what : string)
| ESend (what : string)
| EPermission (p : Permission) (enabled : bool).

(* src/src/server/connection.rs:1119-1129 Connection::send_permission *)
Definition send_permission (p : Permission) (enabled : bool) : effect := EPermission p enabled.

(** A connection starts by telling which permissions it does not give. *)
(* src/src/server/connection.rs:480-501 Connection::start *)
Definition start_permissions (p : Perms) : list effect :=
  let tell q (b : bool) := if b then [] else [send_permission q false] in
  tell PKeyboard (keyboard p) ++ tell PClipboard (clipboard p) ++ tell PAudio (audio p) ++ tell PFile (file p) ++
  tell PRestart (restart p) ++ tell PRecording (recording p) ++ tell PBlockInput (block_input p).

(** ** The surroundings *)

Record Env : Type := mkEnvironment {
  e_opt : string -> string;
  e_builtin : string -> string;
  e_now : Z;
  e_cfg : LoginGuard.Config;
  e_login : LoginGuard.login_env;
  e_trusted : list Config.TrustedDevice;
  e_installed : bool;
  e_prelogin : bool;
  e_admin : result string bool;
  e_user_token : result string unit;
  e_service_user : string -> option bool;
  e_connects : string -> Z -> bool;
  e_privacy_on : bool;
  e_is_dir : string -> bool;
  e_sessions : bool;
  e_displays_ok : bool;
  e_display_count : Z;
  e_video_services : list (bool * Z);
  e_win10 : bool;
  e_portable_running : bool;
  e_new_service_id : string;
  e_read_ok : bool;
  e_idd_resolution : bool;
  e_primary_display : Z;
}.

(** What all connections share: [LoginGuard]'s part and [SWITCH_SIDES_UUID], where an
    entry is the time it was made and the uuid. *)
Record World : Type := mkW {
  g : LoginGuard.Global;
  switch_uuids : gmap string (Z * bytes);
}.

(* src/src/server/connection.rs:1993-2008 Connection::permission *)
Definition permission (env : Env) (key : string) : bool :=
  let access_mode := e_opt env "access-mode" in
  if decide (access_mode = "full"%string) then true
  else if decide (access_mode = "view"%string) then false
  else Options.option2bool key (e_opt env key).

(* src/src/server/connection.rs:2024-2029 Connection::enable_trusted_devices *)
Definition enable_trusted_devices (env : Env) : bool :=
  Options.option2bool "enable-trusted-devices" (e_opt env "enable-trusted-devices").

Definition one_way_file_transfer (env : Env) : bool :=
  bool_decide (e_builtin env "one-way-file-transfer" = "Y"%string).

(** The fields of an accepted connection. *)
(* src/src/server/connection.rs:376-467 Connection::start *)
Definition new_connection (env : Env) (b : LoginGuard.Connection) : Connection :=
  mkConnection b (mkLoginMsg (mkLogin "" [] "" "" 0) "" "" [] None LkNone "")
    (mkPerms (permission env "enable-keyboard") (permission env "enable-clipboard")
       (permission env "enable-audio") (permission env "enable-file-transfer")
       (permission env "enable-remote-restart") (permission env "enable-record-session")
       (permission env "enable-block-input"))
    (mkWishes false false false false false false false false false)
    (mkKind None false false false None) (mkFiles None [] [] false) (mkTerm "" false None)
    (mkTalk false None false false None 0) None 0 false false.

(** ** Questions *)

Definition p_keyboard (c : Connection) : bool := keyboard (perms c).
Definition authorized (c : Connection) : bool := cn_authorized (base c).

(* src/src/server/connection.rs:1689-1694 Connection::is_remote *)
Definition is_remote (c : Connection) : bool :=
  bool_decide (file_transfer (kind c) = None) && negb (port_forward (kind c)) &&
  negb (view_camera (kind c)) && negb (terminal (kind c)).

(* src/src/server/connection.rs:1779-1781 Connection::peer_keyboard_enabled *)
Definition peer_keyboard_enabled (c : Connection) : bool :=
  keyboard (perms c) && negb (disable_keyboard (wishes c)).

(* src/src/server/connection.rs:1783-1785 Connection::clipboard_enabled *)
Definition clipboard_enabled (c : Connection) : bool :=
  clipboard (perms c) && negb (disable_clipboard (wishes c)).

(* src/src/server/connection.rs:1788-1792 Connection::can_sub_clipboard_service *)
Definition can_sub_clipboard_service (env : Env) (c : Connection) : bool :=
  clipboard_enabled c && peer_keyboard_enabled c &&
  negb (bool_decide (e_builtin env "one-way-clipboard-redirection" = "Y"%string)).

(* src/src/server/connection.rs:1794-1796 Connection::audio_enabled *)
Definition audio_enabled (c : Connection) : bool :=
  audio (perms c) && negb (disable_audio (wishes c)).

(* src/src/server/connection.rs:1799-1801 Connection::file_transfer_enabled *)
Definition file_transfer_enabled (c : Connection) : bool :=
  file (perms c) && enable_file_transfer (wishes c).

(* src/src/server/connection.rs:4289-4294 Connection::is_authed_view_camera_conn *)
Definition is_authed_view_camera_conn (c : Connection) : bool :=
  bool_decide (authed_type (kind c) = Some ViewCamera).

(* src/src/server/connection.rs:3479-3485 Connection::video_source *)
Definition video_source_camera (c : Connection) : bool := view_camera (kind c).

(** Handlers without an answer, one after the other. *)
Definition handler : Type := Connection -> Connection * list effect.
Definition skip : handler := fun c => (c, []).
Definition emit (l : list effect) : handler := fun c => (c, l).
Definition modify (f : Connection -> Connection) : handler := fun c => (f c, []).
Definition andthen (a b : handler) : handler := fun c =>
  let '(c, l1) := a c in let '(c, l2) := b c in (c, l1 ++ l2).
Definition when (b : bool) (a : handler) : handler := if b then a else skip.

Declare Scope handler_scope.
Delimit Scope handler_scope with handler.
Notation "a ;;; b" := (andthen a b) (at level 65, right associativity) : handler_scope.
