(* ===== verification/ConnOptions.v ===== *)
(** * The wishes of the peer, and the smaller handlers

    [update_options] of [src/server/connection.rs], which a login and a message of options
    call, and the handlers that [ConnLogin] and [ConnMessages] share. *)

From S2P Require Import Prelude CodecChoice ConnState.
#[local] Open Scope handler_scope.

Definition NAME_CURSOR : string := "mouse_cursor".
Definition NAME_POS : string := "mouse_pos".
Definition NAME_WINDOW_FOCUS : string := "window_focus".
Definition NAME_AUDIO : string := "audio".
Definition NAME_CLIPBOARD : string := "clipboard".

(** A boolean option that is set. *)
Definition on_bool (o : option BoolOption) (f : bool -> handler) : handler :=
  match o with
  | Some Yes => f true
  | Some No => f false
  | Some NotSet | None => skip
  end.

Definition with_conn (f : Connection -> handler) : handler := fun c => f c c.

Definition sub_audio (c : Connection) : handler :=
  if is_authed_view_camera_conn c
  then when (voice_calling (talk c) || negb (audio_enabled c)) (emit [ESubscribe NAME_AUDIO (audio_enabled c)])
  else emit [ESubscribe NAME_AUDIO (audio_enabled c)].

(* src/src/server/connection.rs:3714-3731 Connection::update_options *)
Definition option_image_quality (o : OptionMessage) : handler :=
  match o_image_quality o with
  | None => skip
  | Some q =>
      let image_quality :=
        if q =? 0 then if 0 <? o_custom_image_quality o then o_custom_image_quality o else -1 else q in
      when (0 <? image_quality) (emit [EQos])
  end.

(* src/src/server/connection.rs:3732-3762 Connection::update_options *)
Definition option_video (o : OptionMessage) : handler :=
  when (0 <? o_custom_fps o) (emit [EQos]) ;;;
  match o_supported_decoding o with Some d => emit [ECodec (Some d)] | None => skip end ;;;
  on_bool (o_lock_after_session_end o) (fun b => modify (set_lock_after_session_end b)) ;;;
  on_bool (o_show_remote_cursor o) (fun b =>
    modify (set_show_remote_cursor b) ;;;
    with_conn (fun c =>
      emit [ESubscribe NAME_CURSOR (peer_keyboard_enabled c || show_remote_cursor (wishes c));
            ESubscribe NAME_POS (show_remote_cursor (wishes c))])).

(* src/src/server/connection.rs:3763-3802 Connection::update_options *)
Definition option_follow (o : OptionMessage) : handler :=
  on_bool (o_follow_remote_cursor o) (fun b => modify (set_follow_remote_cursor b)) ;;;
  on_bool (o_follow_remote_window o) (fun b =>
    modify (set_follow_remote_window b) ;;; emit [ESubscribe NAME_WINDOW_FOCUS b]) ;;;
  on_bool (o_disable_audio o) (fun b => modify (set_disable_audio b) ;;; with_conn sub_audio).

(* src/src/server/connection.rs:3803-3860 Connection::update_options *)
Definition option_clipboard (env : Env) (o : OptionMessage) : handler :=
  on_bool (o_enable_file_transfer o) (fun b =>
    modify (set_enable_file_transfer b) ;;; emit [EToCm "ClipboardFileEnabled"]) ;;;
  on_bool (o_disable_clipboard o) (fun b =>
    modify (set_disable_clipboard b) ;;;
    with_conn (fun c => emit [ESubscribe NAME_CLIPBOARD (can_sub_clipboard_service env c)])) ;;;
  on_bool (o_disable_keyboard o) (fun b =>
    modify (set_disable_keyboard b) ;;;
    with_conn (fun c =>
      emit [ESubscribe NAME_CLIPBOARD (can_sub_clipboard_service env c);
            ESubscribe NAME_CURSOR (peer_keyboard_enabled c || show_remote_cursor (wishes c))])).

(** [EPrivacy] is [PrivacyMode.request_on] or [PrivacyMode.request_off]. *)
(* src/src/server/connection.rs:3861-3902 Connection::update_options *)
Definition option_input (o : OptionMessage) : handler := with_conn (fun c =>
  when (get_version_number (lr_version (login c)) <? get_version_number "1.2.4")
    (when (keyboard (perms c)) (on_bool (o_privacy_mode o) (fun b => emit [EPrivacy b ""]))) ;;;
  match o_block_input o with
  | None => skip
  | Some q =>
      if keyboard (perms c) && block_input (perms c)
      then on_bool (Some q) (fun b => emit [EBlockInput b])
      else when (negb (bool_decide (q = NotSet))) (emit [ESend "BlockInputState"])
  end).

(* src/src/server/connection.rs:4357-4360 Connection::update_terminal_persistence *)
Definition update_terminal_persistence (b : bool) : handler :=
  modify (set_terminal_persistent b) ;;; emit [ETerminalPersistence b].

(* src/src/server/connection.rs:3903-3952 Connection::update_options *)
Definition option_terminal (env : Env) (o : OptionMessage) : handler :=
  on_bool (o_terminal_persistent o) update_terminal_persistence ;;;
  on_bool (o_show_my_cursor o) (fun b =>
    modify (set_show_my_cursor b) ;;;
    if e_win10 env then emit [EWhiteboard b]
    else when b (emit [ESend "Windows 10 or greater is required."])).

(* src/src/server/connection.rs:3712-3953 Connection::update_options *)
Definition update_options (env : Env) (o : OptionMessage) : handler :=
  option_image_quality o ;;; option_video o ;;; option_follow o ;;; option_clipboard env o ;;;
  option_input o ;;; option_terminal env o.

(** The display exists and is not a virtual one that is changed otherwise. *)
(* src/src/server/connection.rs:3617-3668 Connection::change_resolution *)
Definition change_resolution (env : Env) (d : option Z) : handler := with_conn (fun c =>
  let display_idx := default (display_idx c) d in
  when (keyboard (perms c) && e_displays_ok env && (display_idx <? e_display_count env))
    (emit [EResolution display_idx])).

(* src/src/server/connection.rs:3448-3507 Connection::handle_switch_display, switch_display_to *)
Definition handle_switch_display (env : Env) (display : Z) (sized : bool) : handler := with_conn (fun c =>
  when (negb (display_idx c =? display))
    (when (negb (display =? e_primary_display env)) (emit [EVideoService (video_source_camera c) display]) ;;;
     when (get_version_number (lr_version (login c)) <? get_version_number "1.2.4")
       (emit [EVideo (video_source_camera c) (display_idx c) false]) ;;;
     emit [EVideo (video_source_camera c) display true] ;;;
     modify (s_display_idx display) ;;;
     when sized (change_resolution env None) ;;;
     emit [ESend "SwitchDisplay"])).

(** Every video service that there is, of whatever source, is subscribed to if it is listed
    and [incl], and left if it is not listed and [excl]. *)
(* src/src/server.rs:449-475 Server::capture_displays *)
Definition server_capture_displays (services : list (bool * Z)) (source : bool) (displays : list Z)
    (incl excl : bool) : list effect :=
  flat_map (fun '(camera, d) =>
    if bool_decide (camera = source /\ d ∈ displays)
    then if incl then [EVideo camera d true] else []
    else if excl then [EVideo camera d false] else []) services.

(** [multi]: more than one display is watched then. *)
(* src/src/server/connection.rs:3531-3564 Connection::capture_displays *)
Definition capture_displays (env : Env) (add sub_ set_ : list Z) (multi : bool) : handler := with_conn (fun c =>
  let source := video_source_camera c in
  let services := foldl (fun l d => if decide ((source, d) ∈ l) then l else l ++ [(source, d)])
                    (e_video_services env) (add ++ set_) in
  emit (EVideoService source <$> add ++ set_) ;;;
  emit (if bool_decide (add <> []) then server_capture_displays services source add true false
        else if bool_decide (sub_ <> []) then server_capture_displays services source sub_ false true
        else server_capture_displays services source set_ true true) ;;;
  when (follow_remote_window (wishes c)) (emit [ESubscribe NAME_WINDOW_FOCUS (negb multi)])).

(* src/src/server/connection.rs:3510-3529 Connection::handle_elevation_request *)
Definition handle_elevation_request (env : Env) : handler := with_conn (fun c =>
  when (keyboard (perms c) && negb (e_installed env) && negb (e_portable_running env)) (emit [EElevate]) ;;;
  emit [ESend "ElevationResponse"]).

(* src/src/server/connection.rs:3670-3696 Connection::handle_voice_call *)
Definition handle_voice_call (accepted : bool) : handler := with_conn (fun c =>
  match voice_request (talk c) with
  | None => skip
  | Some _ =>
      modify (set_voice_request None) ;;;
      (if accepted then emit [EVoiceDevice true; EToCm "StartVoiceCall"] else emit [EToCm "CloseVoiceCall"]) ;;;
      emit [ESend "VoiceCallResponse"] ;;; modify (set_voice_calling accepted) ;;;
      when (is_authed_view_camera_conn c) (emit [ESubscribe NAME_AUDIO (audio_enabled c && accepted)])
  end).

(* src/src/server/connection.rs:3698-3710 Connection::close_voice_call *)
Definition close_voice_call : handler :=
  emit [EVoiceDevice false; EToCm "CloseVoiceCall"] ;;; modify (set_voice_calling false) ;;;
  with_conn (fun c => when (is_authed_view_camera_conn c) (emit [ESubscribe NAME_AUDIO false])).

(* src/src/server/connection.rs:4071-4101 Connection::on_close *)
Definition on_close (lock : bool) : handler := with_conn (fun c =>
  if closed c then skip
  else
    modify (s_closed true) ;;; emit [EVoiceDevice false] ;;;
    when (lock && lock_after_session_end (wishes c) && keyboard (perms c)) (emit [ELockScreen]) ;;;
    emit [EToCm (if chat_unanswered (talk c) || file_transferred (files c) then "Disconnected" else "Close")] ;;;
    modify (set_port_forward false)).
