(* ===== verification/ConnLogin.v ===== *)
(** * Logging in

    The login messages of [Connection::on_message] ([src/server/connection.rs]) around the
    decision of [LoginGuard]: what the peer asks for, whether that is permitted, and what
    happens once the connection is authorized.  The texts that a refused peer gets are not
    modelled, nor the information about the machine that an accepted one gets. *)

From S2P Require Import Prelude Options Config LoginGuard CodecChoice ConnState ConnOptions.
#[local] Open Scope handler_scope.

(* src/src/server/connection.rs:1343-1353 Connection::send_logon_response *)
Definition auth_conn_type (c : Connection) : AuthConnType :=
  if bool_decide (is_Some (file_transfer (kind c))) then FileTransfer
  else if port_forward (kind c) then PortForward
  else if view_camera (kind c) then ViewCamera
  else if terminal (kind c) then Terminal
  else Remote.

(** The decision is about the request and the kind. *)
Definition decided (c : Connection) : LoginGuard.Connection :=
  let b := base c in
  mkConn (cn_id b) (cn_ip b) (cn_salt b) (cn_challenge b) (lg (login c)) (cn_authorized b)
    (cn_require_2fa b) (cn_from_switch b) (auth_conn_type c).

(* src/src/server/connection.rs:2010-2021 Connection::update_codec_on_login *)
Definition update_codec_on_login : handler := with_conn (fun c =>
  emit [ECodec (o ← lr_option (login c); o_supported_decoding o)]).

(* src/src/server/connection.rs:1696-1730 Connection::try_sub_monitor_services *)
Definition try_sub_monitor_services (env : Env) : handler := with_conn (fun c =>
  when (is_remote c && negb (services_subed c))
    (modify (s_services_subed true) ;;;
     emit [EMonitorServices
       ((if negb (peer_keyboard_enabled c) && negb (show_remote_cursor (wishes c)) then [NAME_CURSOR] else []) ++
        (if negb (show_remote_cursor (wishes c)) then [NAME_POS] else []) ++
        (if negb (follow_remote_window (wishes c)) then [NAME_WINDOW_FOCUS] else []) ++
        (if negb (can_sub_clipboard_service env c) then [NAME_CLIPBOARD] else []) ++
        (if negb (audio_enabled c) then [NAME_AUDIO] else []))])).

(* src/src/server/connection.rs:4363-4380 Connection::init_terminal_service *)
Definition init_terminal_service (env : Env) : handler := with_conn (fun c =>
  match terminal_user_token (term c) with
  | None => skip
  | Some _ =>
      when (bool_decide (terminal_service_id (term c) = ""%string))
        (modify (set_terminal_service_id (e_new_service_id env))) ;;;
      emit [ETerminalService]
  end).

(* src/src/server/connection.rs:1732-1756 Connection::handle_windows_specific_session *)
Definition wait_session_id_confirm (env : Env) (c : Connection) : bool :=
  negb (terminal (kind c)) && e_sessions env &&
  (get_version_number "1.2.4" <=? get_version_number (lr_version (login c))).

(** What follows an authorization; [wait]: the peer chooses a session of Windows first. *)
(* src/src/server/connection.rs:1646-1676 Connection::send_logon_response *)
Definition start_session (env : Env) (wait sub_service : bool) : handler := with_conn (fun c =>
  match file_transfer (kind c) with
  | Some (dir, show_hidden) =>
      let dir := if negb (bool_decide (dir = ""%string)) && e_is_dir env dir then dir else ""%string in
      if wait then modify (set_delayed_read_dir (Some (dir, show_hidden))) else emit [EFs FsReadDir]
  | None =>
      if terminal (kind c) then modify (set_keyboard false) ;;; init_terminal_service env
      else if view_camera (kind c) then
        when (negb wait) (emit [ECameraServices]) ;;;
        modify (set_keyboard false) ;;; emit [send_permission PKeyboard false]
      else when (sub_service && negb wait) (try_sub_monitor_services env)
  end).

(** A tunnel gets the answer and nothing else. *)
(* src/src/server/connection.rs:1486-1677 Connection::send_logon_response *)
Definition on_authorized (env : Env) : handler := with_conn (fun c =>
  modify (set_authed_type (Some (auth_conn_type c))) ;;;
  if port_forward (kind c) then emit [ESend "LoginResponse"] else
  let wait := wait_session_id_confirm env c in
  let ft := bool_decide (is_Some (file_transfer (kind c))) in
  let sub_service := negb (ft || terminal (kind c) || view_camera (kind c)) && e_displays_ok env in
  when (negb (ft || terminal (kind c))) update_codec_on_login ;;;
  emit [ESend "LoginResponse"] ;;;
  match options_in_login c with
  | Some o => modify (s_options_in_login None) ;;; update_options env o
  | None => skip
  end ;;;
  start_session env wait sub_service).

Section login.
Context (sha256 : bytes -> bytes) (parse_v6 : string -> option Z).

(** The new decision part; the rest happens when it authorizes. *)
Definition conclude (env : Env) (c : Connection) (w : World) (r : LoginGuard.Connection * LoginGuard.Global)
    : Connection * World * list effect :=
  let was := authorized c in
  let c := s_base (fst r) c in
  let w := mkW (snd r) (switch_uuids w) in
  if negb was && authorized c
  then let '(c, l) := (on_authorized env ;;; emit [EToCm "Login"]) c in (c, w, l)
  else (c, w, []).

(* src/src/server/connection.rs:1307-1677 Connection::send_logon_response *)
Definition send_logon (env : Env) (c : Connection) (w : World) : Connection * World * list effect :=
  conclude env c w (LoginGuard.send_logon_response sha256 (e_now env) (decided c) (g w)).

(* src/src/server/connection.rs:2031-2052 Connection::handle_login_request_without_validation *)
Definition handle_login_request_without_validation (env : Env) (lr : Login) (c : Connection) : Connection :=
  let c := s_login lr c in
  let c := match lr_option lr with Some o => s_options_in_login (Some o) c | None => c end in
  let trusted :=
    match List.find (fun d => bool_decide (Config.hwid d = lr_hwid lr)) (e_trusted env) with
    | Some d =>
        negb (Config.outdate (e_now env / 1000000) d) &&
        bool_decide (Config.td_id d = lr_my_id (lg lr) /\ Config.td_name d = lr_my_name (lg lr) /\
                     Config.td_platform d = lr_platform lr)
    | None => false
    end in
  if cn_require_2fa (base c) && negb (bool_decide (lr_hwid lr = [])) && enable_trusted_devices env && trusted
  then s_base (clear_2fa (base c)) c else c.

(** [None]: the terminal is granted.  A name of a user has the system log that user on. *)
(* src/src/server/connection.rs:3200-3280 Connection::fill_terminal_user_token, handle_administrator_check, handle_installed_user *)
Definition fill_terminal_user_token (env : Env) (username : string) (c : Connection)
    : option string * Connection * list effect :=
  if negb (bool_decide (username = ""%string)) then
    match e_admin env with
    | Ok true => (None, set_terminal_user_token (Some false) c, [EOsLogon username])
    | Ok false => (Some "The user is not an administrator."%string, c, [EOsLogon username])
    | Err e => (Some e, c, [EOsLogon username])
    end
  else if e_prelogin env then
    (Some "No active console user logged on, please connect and logon first."%string,
     set_terminal_user_token None c, [])
  else if e_installed env then
    match e_user_token env with
    | Ok _ => (None, set_terminal_user_token (Some true) c, [])
    | Err e => (Some e, c, [])
    end
  else (None, set_terminal_user_token (Some false) c, []).

(** What a login asks for: whether it goes on, the connection with its new kind, which is
    set in addition to what an earlier request asked for, and what is done for it at once:
    the host of a tunnel is connected to before anything is decided. *)
(* src/src/server/connection.rs:2107-2212 Connection::on_message *)
Definition login_kind_step (env : Env) (lr : Login) (c : Connection) : bool * Connection * list effect :=
  match lr_kind lr with
  | LkFileTransfer dir hidden =>
      if negb (permission env "enable-file-transfer") then (false, c, [])
      else (true, set_file_transfer (Some (dir, hidden)) c, [])
  | LkViewCamera =>
      if negb (permission env "enable-camera") then (false, c, []) else (true, set_view_camera true c, [])
  | LkTerminal service_id =>
      if negb (permission env "enable-terminal") then (false, c, [])
      else if negb (bool_decide (lr_os_username lr = ""%string)) && negb (e_installed env) then (false, c, [])
      else
        let c := set_terminal true c in
        let c := match options_in_login c with
                 | Some o => set_terminal_persistent (bool_decide (o_terminal_persistent o = Some Yes)) c
                 | None => c
                 end in
        let c := set_terminal_service_id service_id c in
        let '(err, c, l) := fill_terminal_user_token env (lr_os_username lr) c in
        match err with
        | Some _ => (false, c, l)
        | None =>
            match e_service_user env service_id, terminal_user_token (term c) with
            | Some is_user, Some has_service_token => (Bool.eqb is_user has_service_token, c, l)
            | _, _ => (true, c, l)
            end
        end
  | LkPortForward host port =>
      if negb (permission env "enable-tunnel") then (false, c, [])
      else
        let rdp := bool_decide (host = "RDP"%string) && (port =? 0) in
        let host := if rdp || bool_decide (host = ""%string) then "localhost"%string else host in
        let port := if rdp then 3389 else port in
        if e_connects env host port then (true, set_port_forward true c, [EConnect host port])
        else (false, c, [EConnect host port])
  | LkNone => (negb (e_privacy_on env), c, [])
  end.

(** Beside the new state, whether the connection is kept. *)
(* src/src/server/connection.rs:2102-2333 Connection::on_message *)
Definition on_login_request (env : Env) (lr : Login) (c : Connection) (w : World)
    : bool * Connection * World * list effect :=
  let c := handle_login_request_without_validation env lr c in
  if authorized c then (true, c, w, [])
  else
    let '(go, c, done) := login_kind_step env lr c in
    if negb go then (false, c, w, done)
    else
      let '(keep, b, g') :=
        LoginGuard.login_request sha256 parse_v6 (e_now env) (e_now env / 60000000000) (e_cfg env) (e_login env)
          (decided c) (g w) in
      let '(c, w, l) := conclude env c w (b, g') in (keep, c, w, done ++ l).

(* src/src/server/connection.rs:2334-2366 Connection::on_message *)
Definition on_auth_2fa (env : Env) (code_ok : option bool) (hwid : bytes) (c : Connection) (w : World)
    : Connection * World * list effect :=
  let minute := e_now env / 60000000000 in
  let '(c', w', l) := conclude env c w
    (LoginGuard.auth_2fa sha256 parse_v6 (e_now env) minute code_ok (decided c) (g w)) in
  let passed := snd (check_failure parse_v6 minute (cn_ip (base c)) (g_failures1 (g w))) &&
                cn_require_2fa (base c) && bool_decide (code_ok = Some true) in
  (c', w', l ++ if passed && negb (bool_decide (hwid = [])) && enable_trusted_devices env
                then [ETrustDevice] else []).

(** Within ten seconds of the request on the other side. *)
(* src/src/server/connection.rs:2383-2407 Connection::on_message *)
Definition on_switch_sides (env : Env) (lr : Login) (uuid : option bytes) (c : Connection) (w : World)
    : Connection * World * list effect :=
  let c := handle_login_request_without_validation env lr c in
  let fresh := filter (fun kv => e_now env - fst (snd kv) < 10000000000) (switch_uuids w) in
  let old := fresh !! lr_my_id (lg lr) in
  let w := mkW (g w) (delete (lr_my_id (lg lr)) fresh) in
  match uuid, old with
  | Some u, Some (_, u') =>
      if decide (u = u') then
        let b := base c in
        let c := s_base (mkConn (cn_id b) (cn_ip b) (cn_salt b) (cn_challenge b) (cn_lr b)
                           (cn_authorized b) (cn_require_2fa b) true (cn_type b)) c in
        let '(c, w, l) := send_logon env c w in (c, w, l ++ [EToCm "Login"])
      else (c, w, [])
  | _, _ => (c, w, [])
  end.

(** The person at the machine accepts. *)
(* src/src/server/connection.rs:546-552 Connection::start *)
Definition on_cm_authorize (env : Env) (c : Connection) (w : World) : Connection * World * list effect :=
  send_logon env (s_base (clear_2fa (base c)) c) w.

End login.
