(* ===== verification/ConnMessages.v ===== *)
(** * The messages of a peer

    [Connection::on_message] of [src/server/connection.rs]: every message that the modelled
    build handles, the messages of the connection manager (the person at the machine)
    that change permissions, and the end of the connection. *)

From S2P Require Import Prelude LoginGuard CodecChoice ConnState ConnOptions ConnLogin.
#[local] Open Scope handler_scope.

(* src/libs/hbb_common/protos/message.proto:404-418 FileAction *)
Inductive file_action :=
| FaReadEmptyDirs
| FaReadDir (path : string) (include_hidden : bool)
| FaAllFiles (id : Z)
| FaSend (id : Z) (path : string) (printer : bool)
| FaReceive (id : Z)
| FaRemoveDir (id : Z)
| FaRemoveFile (id : Z)
| FaCreate (id : Z)
| FaCancel (id : Z)
| FaSendConfirm (id : Z)
| FaRename (id : Z)
| FaOther.

Inductive file_response :=
| FrBlock (id : Z) | FrDone (id : Z) | FrDigest (id : Z) | FrError (id : Z) | FrOther.

Inductive misc :=
| MSwitchDisplay (display : Z) (sized : bool)
| MCaptureDisplays (add sub set : list Z) (multi : bool)
| MToggleVirtualDisplay (on ok : bool)
| MTogglePrivacyMode (on : bool) (key : string)
| MChatMessage
| MOption (o : OptionMessage)
| MRefreshVideo (r : bool)
| MRefreshVideoDisplay (display : Z)
| MVideoReceived
| MRestartRemoteDevice
| MElevationRequest (known : bool)
| MAudioFormat
| MSwitchSidesRequest (uuid_ok : bool)
| MChangeResolution
| MChangeDisplayResolution (display : Z)
| MAutoAdjustFps
| MClientRecordStatus
| MSelectedSid (sid : Z) (other : bool)
| MMessageQuery
| MOther.

Inductive message :=
| CloseReason
| LoginRequestMsg (lr : Login)
| Auth2fa (code_ok : option bool) (hwid : bytes)
| TestDelay (from_client : bool) (now : Z)
| SwitchSidesResponse (lr : option Login) (uuid : option bytes)
| MouseEvent
| PointerDeviceEvent
| KeyEvent (press text : bool)
| Clipboard
| MultiClipboards
| Cliprdr (files known : bool)
| FileAction (a : file_action)
| FileResponse (r : file_response)
| Misc (m : misc)
| AudioFrame
| VoiceCallRequest (is_connect : bool) (timestamp : Z)
| ScreenshotRequest (display : Z)
| TerminalAction
| OtherMessage.

(** ** Files *)

(** What one-way transfer refuses. *)
Definition one_way_refused (a : file_action) : option Z :=
  match a with
  | FaSend id _ _ | FaRemoveFile id | FaRename id | FaCreate id | FaRemoveDir id => Some id
  | _ => None
  end.

(** The bytes of a document to print are taken out of the list. *)
Fixpoint take_printer (path : string) (l : list string) : option (list string) :=
  match l with
  | [] => None
  | p :: l => if decide (p = path) then Some l else cons p <$> take_printer path l
  end.

(* src/src/server/connection.rs:2779-2845 Connection::on_message *)
Definition send_file (env : Env) (id : Z) (path : string) (printer : bool) : handler := with_conn (fun c =>
  let go :=
    (if e_read_ok env
     then emit [ESend "new_dir"; EReadJob id printer] ;;; with_conn (fun c => modify (set_read_jobs (read_jobs (files c) ++ [id])))
     else emit [ESend "error"]) ;;;
    modify (set_file_transferred true) in
  if printer then
    match take_printer path (printer_data (files c)) with
    | Some rest => modify (set_printer_data rest) ;;; go
    | None => skip
    end
  else go).

(* src/src/server/connection.rs:2762-2942 Connection::on_message *)
Definition run_file_action (env : Env) (a : file_action) : handler :=
  match a with
  | FaReadEmptyDirs => emit [EFs FsReadEmptyDirs]
  | FaReadDir _ _ => emit [EFs FsReadDir]
  | FaAllFiles id => emit [EListFiles id]
  | FaSend id path printer => send_file env id path printer
  | FaReceive id => emit [EFs (FsNewWrite id)] ;;; modify (set_file_transferred true)
  | FaRemoveDir id => emit [EFs (FsRemoveDir id)]
  | FaRemoveFile id => emit [EFs (FsRemoveFile id)]
  | FaCreate id => emit [EFs (FsCreateDir id); EToCm "create_dir"]
  | FaCancel id =>
      emit [EFs (FsCancelWrite id)] ;;;
      with_conn (fun c => modify (set_read_jobs (List.filter (fun j => negb (j =? id)) (read_jobs (files c)))))
  | FaSendConfirm id => with_conn (fun c =>
      when (negb (bool_decide (id ∈ read_jobs (files c)))) (emit [EFs (FsSendConfirm id)]))
  | FaRename id => emit [EFs (FsRename id); EToCm "rename"]
  | FaOther => skip
  end.

(* src/src/server/connection.rs:2720-2944 Connection::on_message *)
Definition on_file_action (env : Env) (a : file_action) : handler := with_conn (fun c =>
  let handle_fa :=
    bool_decide (is_Some (file_transfer (kind c))) || match a with FaSend _ _ true => true | _ => false end in
  when handle_fa
    (if bool_decide (is_Some (delayed_read_dir (files c)))
     then match a with FaReadDir path h => modify (set_delayed_read_dir (Some (path, h))) | _ => skip end
     else
       match one_way_refused a with
       | Some _ => if one_way_file_transfer env then emit [ESend "one-way-file-transfer-tip"] else run_file_action env a
       | None => run_file_action env a
       end)).

(* src/src/server/connection.rs:2945-2976 Connection::on_message *)
Definition on_file_response (r : file_response) : handler :=
  match r with
  | FrBlock id => emit [EFs (FsWriteBlock id)]
  | FrDone id => emit [EFs (FsWriteDone id)]
  | FrDigest id => emit [EFs (FsCheckDigest id)]
  | FrError id => emit [EFs (FsWriteError id)]
  | FrOther => skip
  end.

(** ** Input *)

(* src/src/server/connection.rs:2414-2452 Connection::on_message *)
Definition on_mouse : handler := with_conn (fun c =>
  if is_authed_view_camera_conn c then skip
  else if peer_keyboard_enabled c then emit [EMouse true (show_my_cursor (wishes c))]
  else when (show_my_cursor (wishes c)) (emit [EMouse false true])).

(* src/src/server/connection.rs:2453-2491 Connection::on_message *)
Definition on_pointer : handler := with_conn (fun c =>
  if is_authed_view_camera_conn c then skip else when (peer_keyboard_enabled c) (emit [EPointer])).

(** [text]: a character or a sequence, which is not pressed and held. *)
(* src/src/server/connection.rs:2550-2609 Connection::on_message *)
Definition on_key (press text : bool) : handler := with_conn (fun c =>
  if is_authed_view_camera_conn c then skip
  else when (peer_keyboard_enabled c) (emit [EKey (press && negb text)])).

(** ** The rest *)

(** [other]: another session is meant and can be connected to. *)
(* src/src/server/connection.rs:3096-3123 Connection::on_message *)
Definition on_selected_sid (env : Env) (sid : Z) (other : bool) (c : Connection)
    : bool * Connection * list effect :=
  if other then (false, c, [EUserSession sid])
  else
    let '(c, l) :=
      match file_transfer (kind c), delayed_read_dir (files c) with
      | Some _, Some _ => (modify (set_delayed_read_dir None) ;;; emit [EFs FsReadDir]) c
      | Some _, None => (c, [])
      | None, _ =>
          if view_camera (kind c) then (c, [ECameraServices])
          else if negb (terminal (kind c)) then try_sub_monitor_services env c
          else (c, [])
      end in
    (true, c, l).

(** [EPrivacy] is [PrivacyMode.toggle_privacy_mode]. *)
(* src/src/server/connection.rs:2977-3134 Connection::on_message *)
Definition on_misc (env : Env) (m : misc) (c : Connection) : bool * Connection * list effect :=
  let run (h : handler) := let '(c, l) := h c in (true, c, l) in
  match m with
  | MSwitchDisplay display sized => run (handle_switch_display env display sized)
  | MCaptureDisplays add sub_ set_ multi => run (capture_displays env add sub_ set_ multi)
  | MToggleVirtualDisplay on ok => run (emit (EVirtualDisplay on :: if ok then [] else [ESend "Virtual display"]))
  | MTogglePrivacyMode on key => run (emit [EPrivacy on key])
  | MChatMessage => run (emit [EToCm "ChatMessage"] ;;; modify (set_chat_unanswered true))
  | MOption o => run (update_options env o)
  | MRefreshVideo r => run (when r (emit [ERefreshVideo]))
  | MRefreshVideoDisplay _ => run (emit [ERefreshVideo])
  | MVideoReceived => run (emit [EQos])
  | MRestartRemoteDevice => run (when (restart (perms c)) (emit [EReboot]))
  | MElevationRequest known => run (when known (handle_elevation_request env))
  | MAudioFormat =>
      run (when (negb (disable_audio (wishes c))) (modify (set_audio_sender true) ;;; emit [EAudioThread]))
  | MSwitchSidesRequest uuid_ok =>
      if uuid_ok then let '(c, l) := (emit [ESwitchSides] ;;; on_close false) c in (false, c, l) else (true, c, [])
  | MChangeResolution => run (change_resolution env None)
  | MChangeDisplayResolution d => run (change_resolution env (Some d))
  | MAutoAdjustFps | MClientRecordStatus => run (emit [EQos])
  | MSelectedSid sid other => on_selected_sid env sid other c
  | MMessageQuery => run (emit [ESend "SwitchDisplay"])
  | MOther => run skip
  end.

(** The messages that need an authorized connection. *)
(* src/src/server/connection.rs:2408-3179 Connection::on_message *)
Definition on_authorized_message (env : Env) (msg : message) (c : Connection)
    : bool * Connection * list effect :=
  let run (h : handler) := let '(c, l) := h c in (true, c, l) in
  match msg with
  | MouseEvent => run on_mouse
  | PointerDeviceEvent => run on_pointer
  | KeyEvent press text => run (on_key press text)
  | Clipboard | MultiClipboards => run (when (clipboard (perms c)) (emit [EClipboard]))
  | Cliprdr files known => run (if files then skip else when known (emit [EFileClip]))
  | FileAction a => run (on_file_action env a)
  | FileResponse r => run (on_file_response r)
  | Misc m => on_misc env m c
  | AudioFrame =>
      run (when (negb (disable_audio (wishes c)) && audio_sender (talk c)) (emit [EAudioFrame]))
  | VoiceCallRequest is_connect ts =>
      run (if is_connect
           then modify (set_voice_request (Some (if ts =? 0 then e_now env / 1000000 else ts))) ;;; emit [EToCm "VoiceCallIncoming"]
           else close_voice_call)
  | ScreenshotRequest display => run (emit [EScreenshot display; ERefreshVideo])
  | TerminalAction =>
      run (when (bool_decide (is_Some (terminal_user_token (term c)))) (emit [ETerminal]))
  | _ => run skip
  end.

Section messages.
Context (sha256 : bytes -> bytes) (parse_v6 : string -> option Z).

(** Beside the new state, whether the connection goes on. *)
(* src/src/server/connection.rs:2091-3181 Connection::on_message *)
Definition on_message (env : Env) (msg : message) (c : Connection) (w : World)
    : bool * Connection * World * list effect :=
  match msg with
  | CloseReason =>
      let '(c, l) := on_close true c in
      (false, c, mkW (check_remove_session (cn_id (base c)) (session_key (decided c)) (g w)) (switch_uuids w), l)
  | LoginRequestMsg lr => on_login_request sha256 parse_v6 env lr c w
  | Auth2fa code_ok hwid => let '(c, w, l) := on_auth_2fa sha256 parse_v6 env code_ok hwid c w in (true, c, w, l)
  | TestDelay from_client now =>
      if from_client then (true, c, w, [ESend "TestDelay"])
      else
        match last_test_delay (talk c) with
        | Some t =>
            (true, set_network_delay (wrap 32 ((now - t) / 1000000)) (set_last_test_delay None c), w, [EQos])
        | None => (true, c, w, [])
        end
  | SwitchSidesResponse (Some lr) uuid =>
      let '(c, w, l) := on_switch_sides sha256 env lr uuid c w in (true, c, w, l)
  | SwitchSidesResponse None _ => (true, c, w, [])
  | _ =>
      if authorized c then
        if port_forward (kind c) then (true, c, w, [])
        else let '(keep, c, l) := on_authorized_message env msg c in (keep, c, w, l)
      else (true, c, w, [])
  end.

(** The permissions the connection manager can switch, by their names. *)
(* src/src/server/connection.rs:578-648 Connection::start *)
Definition switch_permission (env : Env) (name : string) (enabled : bool) : handler :=
  if decide (name = "keyboard"%string) then
    modify (set_keyboard enabled) ;;; emit [send_permission PKeyboard enabled] ;;;
    with_conn (fun c => emit [ESubscribe NAME_CLIPBOARD (can_sub_clipboard_service env c);
                              ESubscribe NAME_CURSOR (enabled || show_remote_cursor (wishes c))])
  else if decide (name = "clipboard"%string) then
    modify (set_clipboard enabled) ;;; emit [send_permission PClipboard enabled] ;;;
    with_conn (fun c => emit [ESubscribe NAME_CLIPBOARD (can_sub_clipboard_service env c)])
  else if decide (name = "audio"%string) then
    modify (set_audio enabled) ;;; emit [send_permission PAudio enabled] ;;;
    with_conn (fun c => when (authorized c) (sub_audio c))
  else if decide (name = "file"%string) then modify (set_file enabled) ;;; emit [send_permission PFile enabled]
  else if decide (name = "restart"%string) then modify (set_restart enabled) ;;; emit [send_permission PRestart enabled]
  else if decide (name = "recording"%string) then modify (set_recording enabled) ;;; emit [send_permission PRecording enabled]
  else if decide (name = "block_input"%string) then modify (set_block_input enabled) ;;; emit [send_permission PBlockInput enabled]
  else skip.

(** What reaches a connection: messages of the peer, and of the connection manager. *)
Inductive event :=
| FromPeer (m : message)
| FromCmAuthorize
| FromCmSwitch (name : string) (enabled : bool)
| FromCmVoice (accepted : bool).

(* src/src/server/connection.rs:541-750 Connection::start *)
Definition on_event (env : Env) (ev : event) (c : Connection) (w : World)
    : bool * Connection * World * list effect :=
  let run (h : handler) := let '(c, l) := h c in (true, c, w, l) in
  match ev with
  | FromPeer m =>
      let '(keep, c, w, l) := on_message env m c w in
      (keep && negb (port_forward (kind c) && authorized c && bool_decide (last_test_delay (talk c) = None)),
       c, w, l)
  | FromCmAuthorize =>
      let '(c, w, l) := on_cm_authorize sha256 env c w in (negb (port_forward (kind c)), c, w, l)
  | FromCmSwitch name enabled => run (switch_permission env name enabled)
  | FromCmVoice accepted => run (handle_voice_call accepted)
  end.

(** A connection's life; every event has its own surroundings. *)
Fixpoint run_events (evs : list (Env * event)) (c : Connection) (w : World)
    : Connection * World * list effect :=
  match evs with
  | [] => (c, w, [])
  | (env, ev) :: evs =>
      let '(keep, c, w, l) := on_event env ev c w in
      if keep then let '(c, w, l') := run_events evs c w in (c, w, l ++ l') else (c, w, l)
  end.

End messages.
