(* ===== verification/ConnSafety.v ===== *)
(** * What a peer can do

    Theorems on [ConnMessages] and [ConnLogin]: nothing before the login, nothing that the
    person at the machine forbids, and what the code allows although it is not meant. *)

From S2P Require Import Prelude Options LoginGuard CodecChoice ConnState ConnOptions ConnLogin ConnMessages.
#[local] Open Scope handler_scope.

(** ** What is permitted *)

(** Reading, listing and changing files needs a login for file transfer, and so does
    beginning to write one; one-way transfer keeps what is here as it is.  What arrives for
    a file is handed on for any login: the connection manager writes it where writing has
    begun ([Upload.handle_fs], see [FileLogin]). *)
Definition fs_allowed (one_way : bool) (k : Kind) (op : fs_op) : Prop :=
  match op with
  | FsWriteBlock _ | FsWriteDone _ | FsCheckDigest _ | FsWriteError _ => True
  | FsReadEmptyDirs | FsReadDir | FsNewWrite _ | FsCancelWrite _ | FsSendConfirm _ => is_Some (file_transfer k)
  | FsRemoveDir _ | FsRemoveFile _ | FsCreateDir _ | FsRename _ => is_Some (file_transfer k) /\ one_way = false
  end.

(** What an effect needs. *)
Definition allowed (env : Env) (p : Perms) (k : Kind) (e : effect) : Prop :=
  match e with
  | EMouse true _ | EPointer | EKey _ => keyboard p = true /\ authed_type k <> Some ViewCamera
  | EBlockInput _ => keyboard p = true /\ block_input p = true
  | ELockScreen | EResolution _ => keyboard p = true
  | EElevate => keyboard p = true /\ e_installed env = false
  | EClipboard => clipboard p = true
  | EReboot => restart p = true
  | EFs op => fs_allowed (one_way_file_transfer env) k op
  | EListFiles _ => is_Some (file_transfer k)
  | EVideo camera _ true | EVideoService camera _ => camera = view_camera k
  | ECameraServices => view_camera k = true
  | ETerminalService => terminal k = true
  | EConnect _ _ => permission env "enable-tunnel" = true
  | EOsLogon _ => permission env "enable-terminal" = true /\ e_installed env = true
  | EReadJob _ printer => one_way_file_transfer env = false /\ (printer = true \/ is_Some (file_transfer k))
  | ESubscribe s true =>
      (s = NAME_AUDIO -> audio p = true) /\ (s = NAME_CLIPBOARD -> clipboard p = true /\ keyboard p = true)
  | EMonitorServices without =>
      file_transfer k = None /\ view_camera k = false /\ terminal k = false /\
      (audio p = false -> NAME_AUDIO ∈ without) /\
      (clipboard p = false \/ keyboard p = false -> NAME_CLIPBOARD ∈ without)
  | _ => True
  end.

(** ** Handlers *)

(** The kind but for the socket of a tunnel, which is closed with the connection. *)
Definition core (k : Kind) : Kind := w_port_forward false k.

(** A handler that lets the permissions, the decision about the login and its kind alone,
    and of which every effect is allowed. *)
Record quiet (env : Env) (c : Connection) (h : handler) : Prop := mkQuiet {
  q_perms : perms (fst (h c)) = perms c;
  q_base : base (fst (h c)) = base c;
  q_kind : core (kind (fst (h c))) = core (kind c);
  q_effects : Forall (allowed env (perms c) (core (kind c))) (snd (h c));
}.

Lemma quiet_skip env c : quiet env c skip.
Proof. by split. Qed.

Lemma quiet_emit env c l : Forall (allowed env (perms c) (core (kind c))) l -> quiet env c (emit l).
Proof. by split. Qed.

Lemma quiet_modify env c f :
  perms (f c) = perms c -> base (f c) = base c -> core (kind (f c)) = core (kind c) -> quiet env c (modify f).
Proof. by split. Qed.

Lemma quiet_andthen env c a b :
  quiet env c a -> (forall c', perms c' = perms c -> core (kind c') = core (kind c) -> quiet env c' b) ->
  quiet env c (a ;;; b).
Proof.
  intros [P1 B1 K1 E1] Hb. specialize (Hb (fst (a c)) P1 K1). destruct Hb as [P2 B2 K2 E2].
  assert ((a ;;; b) c = (fst (b (fst (a c))), snd (a c) ++ snd (b (fst (a c))))) as E.
  { unfold andthen. destruct (a c) as [c1 l1]. cbn. by destruct (b c1). }
  split; rewrite E; cbn [fst snd]; [congruence..|].
  apply Forall_app. split; [done|]. by rewrite P1, K1 in E2.
Qed.

Lemma quiet_with_conn env c f : quiet env c (f c) -> quiet env c (with_conn f).
Proof. intros [? ? ? ?]. by split. Qed.

Lemma quiet_when env c b h : (b = true -> quiet env c h) -> quiet env c (when b h).
Proof. destruct b; simpl; [auto|]. intros _. apply quiet_skip. Qed.

Lemma quiet_if env c (b : bool) h h' :
  (b = true -> quiet env c h) -> (b = false -> quiet env c h') -> quiet env c (if b then h else h').
Proof. destruct b; auto. Qed.

Lemma quiet_on_bool env c o f : (forall b, quiet env c (f b)) -> quiet env c (on_bool o f).
Proof. intros Hf. unfold on_bool. destruct o as [[]|]; auto using quiet_skip. Qed.

Create HintDb quiet discriminated.

(** One step of the analysis of a handler. *)
Ltac quiet_step :=
  match goal with
  | |- quiet _ _ skip => apply quiet_skip
  | |- quiet _ _ (emit _) => apply quiet_emit
  | |- quiet _ _ (modify _) => apply quiet_modify; reflexivity
  | |- quiet _ _ (_ ;;; _) => apply quiet_andthen; [|intros ? ? ?]
  | |- quiet _ _ (with_conn _) => apply quiet_with_conn; cbv beta zeta
  | |- quiet _ _ (when _ _) => apply quiet_when; intros ?
  | |- quiet _ _ (on_bool _ _) => apply quiet_on_bool; intros ?
  | |- quiet _ _ (if _ then _ else _) => apply quiet_if; intros ?
  | |- quiet _ _ (match ?x with _ => _ end) => destruct x eqn:?
  | |- quiet _ _ _ => solve [auto with quiet]
  end.

Ltac bools :=
  repeat match goal with
  | H : negb _ = true |- _ => apply negb_true_iff in H
  | H : andb _ _ = true |- _ => apply andb_prop in H; destruct H
  end.

(** Effects without needs, and needs that are at hand. *)
Ltac effects :=
  repeat first [apply Forall_nil_2 | apply Forall_cons_2]; cbn; bools; try done.

Lemma sub_allowed env p k s b :
  (b = true -> (s = NAME_AUDIO -> audio p = true) /\ (s = NAME_CLIPBOARD -> clipboard p = true /\ keyboard p = true)) ->
  allowed env p k (ESubscribe s b).
Proof. destruct b; simpl; auto. Qed.

Lemma sub_clipboard env c' : allowed env (perms c') (core (kind c')) (ESubscribe NAME_CLIPBOARD (can_sub_clipboard_service env c')).
Proof.
  apply sub_allowed. unfold can_sub_clipboard_service, clipboard_enabled, peer_keyboard_enabled.
  intros E. bools. by split.
Qed.

Lemma sub_audio_allowed env c' b : allowed env (perms c') (core (kind c')) (ESubscribe NAME_AUDIO (audio_enabled c' && b)).
Proof. apply sub_allowed. unfold audio_enabled. intros E. bools. by split. Qed.

Lemma sub_audio_quiet env c : quiet env c (sub_audio c).
Proof.
  unfold sub_audio. pose proof (sub_audio_allowed env c true) as A. rewrite andb_true_r in A.
  repeat quiet_step; by apply Forall_singleton.
Qed.
#[export] Hint Resolve sub_audio_quiet : quiet.

Lemma cursor_allowed env p k b : allowed env p k (ESubscribe NAME_CURSOR b).
Proof. by apply sub_allowed. Qed.
Lemma pos_allowed env p k b : allowed env p k (ESubscribe NAME_POS b).
Proof. by apply sub_allowed. Qed.
Lemma focus_allowed env p k b : allowed env p k (ESubscribe NAME_WINDOW_FOCUS b).
Proof. by apply sub_allowed. Qed.
#[export] Hint Resolve cursor_allowed pos_allowed focus_allowed sub_clipboard sub_audio_allowed : quiet.

(** What a later state shares with an earlier one. *)
Ltac same_state :=
  repeat match goal with
  | H : perms ?x = perms ?y |- _ => rewrite H in *; clear H
  | H : core (kind ?x) = core (kind ?y) |- _ =>
      pose proof (f_equal file_transfer H : file_transfer (kind x) = file_transfer (kind y));
      pose proof (f_equal view_camera H : view_camera (kind x) = view_camera (kind y));
      pose proof (f_equal terminal H : terminal (kind x) = terminal (kind y));
      pose proof (f_equal authed_type H : authed_type (kind x) = authed_type (kind y)); clear H
  end.

Ltac quiet_all :=
  repeat quiet_step; repeat first [apply Forall_nil_2 | apply Forall_cons_2];
  try solve [auto with quiet];
  try (apply sub_allowed; intros ?; unfold audio_enabled in *; bools; same_state; by split);
  cbn; bools; same_state; try done; try (split; done).

Lemma update_options_quiet env o c : quiet env c (update_options env o).
Proof.
  unfold update_options, option_image_quality, option_video, option_follow, option_clipboard,
    option_input, option_terminal, update_terminal_persistence. quiet_all.
Qed.
#[export] Hint Resolve update_options_quiet : quiet.


Lemma change_resolution_quiet env d c : quiet env c (change_resolution env d).
Proof. unfold change_resolution. quiet_all. Qed.
#[export] Hint Resolve change_resolution_quiet : quiet.

Lemma on_close_quiet env lock c : quiet env c (on_close lock).
Proof.
  unfold on_close. quiet_all.
Qed.
#[export] Hint Resolve on_close_quiet : quiet.

Lemma handle_switch_display_quiet env d sized c : quiet env c (handle_switch_display env d sized).
Proof. unfold handle_switch_display, video_source_camera. quiet_all; congruence. Qed.

Lemma capture_displays_quiet env add sub_ set_ multi c : quiet env c (capture_displays env add sub_ set_ multi).
Proof.
  unfold capture_displays, video_source_camera. quiet_all; [by apply Forall_fmap, Forall_true|].
  assert (forall p k l s d i x, s = view_camera k -> Forall (allowed env p k) (server_capture_displays l s d i x)) as V.
  { intros p k l s d i x ->. apply Forall_flat_map, Forall_true. intros [cam n].
    repeat case_match; repeat constructor. cbn. by match goal with H : bool_decide _ = true |- _ => apply bool_decide_eq_true in H as [-> _] end. }
  repeat case_match; by apply V.
Qed.

Lemma handle_elevation_request_quiet env c : quiet env c (handle_elevation_request env).
Proof. unfold handle_elevation_request. quiet_all. Qed.

Lemma close_voice_call_quiet env c : quiet env c close_voice_call.
Proof. unfold close_voice_call. quiet_all. Qed.

Lemma handle_voice_call_quiet env b c : quiet env c (handle_voice_call b).
Proof. unfold handle_voice_call. quiet_all. Qed.

Lemma not_camera c : is_authed_view_camera_conn c = false -> authed_type (kind c) <> Some ViewCamera.
Proof. by intros E%bool_decide_eq_false. Qed.

Lemma on_mouse_quiet env c : quiet env c on_mouse.
Proof.
  unfold on_mouse. quiet_all. unfold peer_keyboard_enabled in *. bools. by auto using not_camera.
Qed.

Lemma on_pointer_quiet env c : quiet env c on_pointer.
Proof.
  unfold on_pointer. quiet_all. unfold peer_keyboard_enabled in *. bools. by auto using not_camera.
Qed.

Lemma on_key_quiet env press text c : quiet env c (on_key press text).
Proof.
  unfold on_key. quiet_all. unfold peer_keyboard_enabled in *. bools. by auto using not_camera.
Qed.

Lemma try_sub_monitor_services_quiet env c : quiet env c (try_sub_monitor_services env).
Proof.
  unfold try_sub_monitor_services. quiet_all. unfold is_remote in *. bools.
  match goal with H : bool_decide _ = true |- _ => apply bool_decide_eq_true in H end.
  split_and!; try congruence.
  - unfold audio_enabled. same_state. intros E. rewrite E. set_solver.
  - unfold can_sub_clipboard_service, clipboard_enabled, peer_keyboard_enabled. same_state.
    intros [E|E]; rewrite E; rewrite ?andb_false_r; simpl; set_solver.
Qed.

Lemma on_file_response_quiet env r c : quiet env c (on_file_response r).
Proof. unfold on_file_response. quiet_all. Qed.

#[export] Hint Resolve handle_switch_display_quiet capture_displays_quiet handle_elevation_request_quiet
  close_voice_call_quiet handle_voice_call_quiet on_mouse_quiet on_pointer_quiet on_key_quiet
  try_sub_monitor_services_quiet on_file_response_quiet : quiet.

(** ** Files *)

(** The actions that are left when one-way transfer refuses. *)
Lemma run_file_action_quiet env a c :
  (is_Some (file_transfer (kind c)) \/ exists id path, a = FaSend id path true) ->
  (one_way_refused a <> None -> one_way_file_transfer env = false) ->
  quiet env c (run_file_action env a).
Proof.
  intros Hf How.
  assert (is_Some (file_transfer (kind c)) \/ (exists id path, a = FaSend id path true)) as Hf' by done.
  destruct a; cbn [run_file_action]; unfold send_file; quiet_all;
    try (destruct Hf as [Hf|(? & ? & [=])]; cbn; by auto).
  all: split; [by apply How|]. all: destruct Hf' as [Hf'|(? & ? & [= -> -> ->])]; [right|by left].
  all: by match goal with H : file_transfer (kind _) = _ |- _ => rewrite H end.
Qed.

Lemma on_file_action_quiet env a c : quiet env c (on_file_action env a).
Proof.
  unfold on_file_action. apply quiet_with_conn. cbv zeta. apply quiet_when. intros Hf.
  assert (is_Some (file_transfer (kind c)) \/ exists id path, a = FaSend id path true) as Hf'.
  { apply orb_true_iff in Hf as [Hf|Hf]; [left; by apply bool_decide_eq_true in Hf|right].
    destruct a as [| | |? ? []| | | | | | | |]; try done. by eexists _, _. }
  apply quiet_if; intros D.
  - destruct a; quiet_all.
  - destruct (one_way_refused a) eqn:R; [|by apply run_file_action_quiet; rewrite ?R].
    apply quiet_if; intros O; [quiet_all|]. by apply run_file_action_quiet.
Qed.
#[export] Hint Resolve on_file_action_quiet : quiet.

(** ** Messages of an authorized peer *)

Lemma quiet_run env c h :
  quiet env c h ->
  let '(_, c', l) := (let '(c, l) := h c in (true, c, l)) in
  perms c' = perms c /\ base c' = base c /\ core (kind c') = core (kind c) /\
  Forall (allowed env (perms c) (core (kind c))) l.
Proof. intros [P B K E]. by destruct (h c) as [c' l]. Qed.

Lemma selected_sid_quiet env sid other c :
  let '(_, c', l) := on_selected_sid env sid other c in
  perms c' = perms c /\ base c' = base c /\ core (kind c') = core (kind c) /\
  Forall (allowed env (perms c) (core (kind c))) l.
Proof.
  unfold on_selected_sid. destruct other; [split_and!; try done; by apply Forall_singleton|].
  destruct (file_transfer (kind c)) as [[dir h]|] eqn:F.
  - destruct (delayed_read_dir (files c)); [|done]. split_and!; try done.
    apply Forall_singleton. cbn. rewrite F. by eexists.
  - destruct (view_camera (kind c)) eqn:V; [split_and!; try done; by apply Forall_singleton|].
    destruct (negb (terminal (kind c))); [|done].
    apply (quiet_run env c), try_sub_monitor_services_quiet.
Qed.

Lemma misc_quiet env m c :
  let '(_, c', l) := on_misc env m c in
  perms c' = perms c /\ base c' = base c /\ core (kind c') = core (kind c) /\
  Forall (allowed env (perms c) (core (kind c))) l.
Proof.
  destruct m; cbn [on_misc]; try apply selected_sid_quiet.
  all: try (apply quiet_run; by quiet_all).
  - apply quiet_run. destruct ok; quiet_all.
  - destruct uuid_ok; [|done].
    assert (quiet env c (emit [ESwitchSides] ;;; on_close false)) as Q by quiet_all.
    destruct Q as [P B K E]. by destruct ((emit [ESwitchSides] ;;; on_close false) c).
Qed.

Lemma authorized_message_quiet env msg c :
  let '(_, c', l) := on_authorized_message env msg c in
  perms c' = perms c /\ base c' = base c /\ core (kind c') = core (kind c) /\
  Forall (allowed env (perms c) (core (kind c))) l.
Proof.
  destruct msg; cbn [on_authorized_message]; try apply misc_quiet.
  all: try (apply quiet_run; by quiet_all).
Qed.

(** ** Logging in *)

(** Permissions only go. *)
Definition le_perms (p q : Perms) : Prop :=
  (keyboard p = true -> keyboard q = true) /\ (clipboard p = true -> clipboard q = true) /\
  (audio p = true -> audio q = true) /\ (file p = true -> file q = true) /\
  (restart p = true -> restart q = true) /\ (recording p = true -> recording q = true) /\
  (block_input p = true -> block_input q = true).

#[export] Instance le_perms_preorder : PreOrder le_perms.
Proof. split; [by intros p; repeat split|]. unfold le_perms. intros p q r H1 H2. tauto. Qed.

Lemma not_true_false (a b : bool) : (a = true -> b = true) -> b = false -> a = false.
Proof. destruct a, b; auto. intros H. by specialize (H eq_refl). Qed.

Lemma allowed_le env p q k e : le_perms p q -> allowed env p k e -> allowed env q k e.
Proof.
  intros (K & C & A & _ & R & _ & B) H. destruct e; cbn in *; try done; try tauto.
  - destruct simulate; tauto.
  - destruct on; tauto.
  - destruct H as (H1 & H2 & H3 & H4 & H5). split_and!; try done.
    + intros E. apply H4. by eapply not_true_false.
    + intros [E|E]; apply H5; [left|right]; by eapply not_true_false.
Qed.

(** A handler after the authorization: permissions may go. *)
Record lowers (env : Env) (c : Connection) (h : handler) : Prop := mkLowers {
  l_perms : le_perms (perms (fst (h c))) (perms c);
  l_base : base (fst (h c)) = base c;
  l_kind : core (kind (fst (h c))) = core (kind c);
  l_effects : Forall (allowed env (perms c) (core (kind c))) (snd (h c));
}.

Lemma quiet_lowers env c h : quiet env c h -> lowers env c h.
Proof. intros [P B K E]. split; [by rewrite P|done..]. Qed.

Lemma lowers_andthen env c a b :
  lowers env c a ->
  (forall c', le_perms (perms c') (perms c) -> core (kind c') = core (kind c) -> lowers env c' b) ->
  lowers env c (a ;;; b).
Proof.
  intros [P1 B1 K1 E1] Hb. specialize (Hb (fst (a c)) P1 K1). destruct Hb as [P2 B2 K2 E2].
  assert ((a ;;; b) c = (fst (b (fst (a c))), snd (a c) ++ snd (b (fst (a c))))) as E.
  { unfold andthen. destruct (a c) as [c1 l1]. cbn. by destruct (b c1). }
  split; rewrite E; cbn [fst snd]; [by etrans|congruence..|].
  apply Forall_app. split; [done|]. rewrite K1 in E2.
  eapply Forall_impl; [exact E2|]. intros e. by apply allowed_le.
Qed.

Lemma lowers_keyboard env c : lowers env c (modify (set_keyboard false)).
Proof. by split. Qed.

Lemma init_terminal_service_quiet env c : terminal (kind c) = true -> quiet env c (init_terminal_service env).
Proof. intros T. unfold init_terminal_service. quiet_all; congruence. Qed.

Lemma start_session_lowers env wait sub_service c : lowers env c (start_session env wait sub_service).
Proof.
  unfold start_session.
  assert (forall h, lowers env c h -> lowers env c (with_conn (fun _ => h))) as W by (by intros h []).
  enough (lowers env c (match file_transfer (kind c) with
    | Some (dir, show_hidden) =>
        let dir := if negb (bool_decide (dir = ""%string)) && e_is_dir env dir then dir else ""%string in
        if wait then modify (set_delayed_read_dir (Some (dir, show_hidden))) else emit [EFs FsReadDir]
    | None =>
        if terminal (kind c) then modify (set_keyboard false) ;;; init_terminal_service env
        else if view_camera (kind c) then
          when (negb wait) (emit [ECameraServices]) ;;;
          modify (set_keyboard false) ;;; emit [send_permission PKeyboard false]
        else when (sub_service && negb wait) (try_sub_monitor_services env)
    end)) as [? ? ? ?] by done.
  destruct (file_transfer (kind c)) as [[dir h]|] eqn:F; cbv zeta.
  { apply quiet_lowers. quiet_all. }
  destruct (terminal (kind c)) eqn:T.
  { apply lowers_andthen; [apply lowers_keyboard|]. intros c' _ K%(f_equal terminal).
    apply quiet_lowers, init_terminal_service_quiet. by cbn in K; rewrite K. }
  destruct (view_camera (kind c)) eqn:V; [|apply quiet_lowers; quiet_all].
  apply lowers_andthen; [apply quiet_lowers; quiet_all|]. intros c' _ _.
  apply lowers_andthen; [apply lowers_keyboard|]. intros. apply quiet_lowers. quiet_all.
Qed.

(** The rest of [send_logon_response] once the connection is authorized. *)
Lemma on_authorized_lowers env c :
  let c' := fst (on_authorized env c) in
  le_perms (perms c') (perms c) /\ base c' = base c /\
  core (kind c') = core (w_authed_type (Some (auth_conn_type c)) (kind c)) /\
  Forall (allowed env (perms c) (core (kind c'))) (snd (on_authorized env c)).
Proof.
  unfold on_authorized, with_conn. cbv zeta.
  set (wait := wait_session_id_confirm env c). set (sub := _ && e_displays_ok env).
  match goal with |- context [modify _ ;;; ?h] => set (rest := h) end.
  set (c1 := set_authed_type (Some (auth_conn_type c)) c).
  assert (lowers env c1 rest) as [P B K E].
  { subst rest. destruct (port_forward (kind c)); [apply quiet_lowers; by quiet_all|].
    repeat (apply lowers_andthen; [apply quiet_lowers; unfold update_codec_on_login; by quiet_all|intros ? _ _]).
    apply start_session_lowers. }
  assert ((modify (set_authed_type (Some (auth_conn_type c))) ;;; rest) c = rest c1) as ->.
  { unfold andthen, modify. cbn. fold c1. by destruct (rest c1). }
  rewrite K. split_and!; try done.
Qed.

(** What an unauthorized peer causes: answers; and connecting to the host of a tunnel, and
    the system's logon of a user, where the options permit tunnels and terminals. *)
Definition harmless (env : Env) (e : effect) : Prop :=
  match e with
  | ESend _ | EToCm _ | EVoiceDevice false | EQos => True
  | EConnect _ _ => permission env "enable-tunnel" = true
  | EOsLogon _ => permission env "enable-terminal" = true /\ e_installed env = true
  | _ => False
  end.

Section peer.
Context (sha256 : bytes -> bytes) (parse_v6 : string -> option Z).

(** A step that grants nothing: the effects are allowed by the permissions before it and
    the kind after it. *)
Definition step_ok (env : Env) (c c' : Connection) (l : list effect) : Prop :=
  le_perms (perms c') (perms c) /\ Forall (allowed env (perms c) (core (kind c'))) l.

Lemma conn_ok_same env c c' : perms c' = perms c -> step_ok env c c' [].
Proof. intros E. split; [by rewrite E|apply Forall_nil_2]. Qed.

Lemma step_ok_app env c c' l l' :
  step_ok env c c' l -> Forall (fun e => forall env p k, allowed env p k e) l' -> step_ok env c c' (l ++ l').
Proof.
  intros [P L] F. split; [done|]. apply Forall_app. split; [done|].
  eapply Forall_impl; [exact F|]. auto.
Qed.

Lemma conclude_ok env c w r :
  let '(c', _, l) := conclude env c w r in
  step_ok env c c' l /\ (authorized c' = cn_authorized (fst r)) /\
  (negb (authorized c) && authorized c' = false -> l = [] /\ c' = s_base (fst r) c) /\
  authed_type (kind c') = (if negb (authorized c) && authorized c' then Some (auth_conn_type c)
                           else authed_type (kind c)).
Proof.
  unfold conclude. set (c0 := s_base (fst r) c).
  destruct (negb (authorized c) && authorized c0) eqn:F.
  - pose proof (on_authorized_lowers env c0) as (P & B & K & E). cbv zeta in *.
    assert ((on_authorized env ;;; emit [EToCm "Login"]) c0 =
            (fst (on_authorized env c0), snd (on_authorized env c0) ++ [EToCm "Login"])) as ->.
    { unfold andthen, emit. by destruct (on_authorized env c0). }
    set (c1 := fst (on_authorized env c0)) in *.
    assert (authorized c1 = authorized c0) as A by (unfold authorized; by rewrite B).
    split_and!.
    + apply step_ok_app; [by split|]. by apply Forall_singleton.
    + by rewrite A.
    + rewrite A, F. done.
    + rewrite A, F. exact (f_equal authed_type K).
  - split_and!; [by apply conn_ok_same|done|done|]. by rewrite F.
Qed.

Lemma handle_login_perms env lr c :
  let c' := handle_login_request_without_validation env lr c in
  perms c' = perms c /\ wishes c' = wishes c /\ kind c' = kind c /\ authorized c' = authorized c /\
  login c' = lr.
Proof.
  unfold handle_login_request_without_validation, authorized.
  destruct (lr_option lr); destruct (_ && _); done.
Qed.

Lemma fill_token_perms env u c :
  let c' := snd (fst (fill_terminal_user_token env u c)) in
  perms c' = perms c /\ wishes c' = wishes c /\ base c' = base c /\ login c' = login c /\ kind c' = kind c.
Proof.
  unfold fill_terminal_user_token. destruct (negb _); [by destruct (e_admin env) as [[]|]|].
  destruct (e_prelogin env); [done|]. destruct (e_installed env); [|done]. by destruct (e_user_token env).
Qed.

Lemma fill_token_effects env u c :
  snd (fill_terminal_user_token env u c) = if bool_decide (u = ""%string) then [] else [EOsLogon u].
Proof.
  unfold fill_terminal_user_token. destruct (bool_decide (u = ""%string)); cbn [negb]; [|by destruct (e_admin env) as [[]|]].
  destruct (e_prelogin env); [done|]. destruct (e_installed env); [|done]. by destruct (e_user_token env).
Qed.

Lemma login_kind_perms env lr c :
  let c' := snd (fst (login_kind_step env lr c)) in
  perms c' = perms c /\ wishes c' = wishes c /\ base c' = base c /\ login c' = login c /\
  authed_type (kind c') = authed_type (kind c).
Proof.
  unfold login_kind_step. destruct (lr_kind lr) as [dir h| |sid|host port|].
  - by destruct (negb _).
  - by destruct (negb _).
  - destruct (negb _); [done|]. destruct (negb _ && negb _); [done|]. cbv zeta.
    match goal with |- context [fill_terminal_user_token env ?u ?x] => set (c1 := x) end.
    assert (perms c1 = perms c /\ wishes c1 = wishes c /\ base c1 = base c /\ login c1 = login c /\
            authed_type (kind c1) = authed_type (kind c)) as (E1 & E2 & E3 & E4 & E5)
      by (subst c1; by destruct (options_in_login (set_terminal true c))).
    clearbody c1. pose proof (fill_token_perms env (lr_os_username lr) c1) as (F1 & F2 & F3 & F4 & F5).
    destruct (fill_terminal_user_token env (lr_os_username lr) c1) as [[err c2] l]. cbn [fst snd] in *.
    assert (perms c2 = perms c /\ wishes c2 = wishes c /\ base c2 = base c /\ login c2 = login c /\
            authed_type (kind c2) = authed_type (kind c)) by (split_and!; congruence).
    destruct err; [done|]. by destruct (e_service_user env sid), (terminal_user_token (term c2)).
  - destruct (negb _); [done|]. cbv zeta. by destruct (e_connects _ _ _).
  - done.
Qed.

(** What is done for a login before it is decided. *)
Lemma login_kind_effects env lr c :
  Forall (fun e => harmless env e /\ forall p k, allowed env p k e) (snd (login_kind_step env lr c)).
Proof.
  unfold login_kind_step. destruct (lr_kind lr) as [dir h| |sid|host port|]; [by case_match; apply Forall_nil_2..| | |by apply Forall_nil_2].
  - destruct (permission env "enable-terminal") eqn:P; [|by apply Forall_nil_2]. cbn [negb].
    match goal with |- context [fill_terminal_user_token env ?u ?x] =>
      pose proof (fill_token_effects env u x) as F; destruct (fill_terminal_user_token env u x) as [[err c2] l] end.
    cbn [snd] in F. subst l. destruct (bool_decide (lr_os_username lr = ""%string)); cbn [negb andb].
    + destruct err; [by apply Forall_nil_2|]. repeat case_match; by apply Forall_nil_2.
    + destruct (e_installed env) eqn:I; cbn [negb]; [|by apply Forall_nil_2].
      destruct err; [by apply Forall_singleton; split|]. repeat case_match; by apply Forall_singleton; split.
  - destruct (permission env "enable-tunnel") eqn:P; [|by apply Forall_nil_2]. cbn [negb].
    case_match; by apply Forall_singleton; split.
Qed.

Lemma login_request_ok env lr c w :
  let '(_, c', _, l) := on_login_request sha256 parse_v6 env lr c w in
  step_ok env c c' l /\ (authorized c = true -> authorized c' = true) /\
  (authorized c' = false -> Forall (harmless env) l /\ wishes c' = wishes c).
Proof.
  unfold on_login_request. pose proof (handle_login_perms env lr c) as (P1 & W1 & K1 & A1 & L1).
  cbv zeta in *. set (c1 := handle_login_request_without_validation env lr c) in *.
  destruct (authorized c1) eqn:A.
  { split_and!; [by apply conn_ok_same|done|]. intros. congruence. }
  pose proof (login_kind_perms env lr c1) as (P2 & W2 & B2 & _ & T2). pose proof (login_kind_effects env lr c1) as E2.
  destruct (login_kind_step env lr c1) as [[go c2] l0]. cbn [fst snd] in *.
  assert (authorized c2 = false) as A2 by (unfold authorized; by rewrite B2).
  assert (Forall (harmless env) l0) as H0 by (eapply Forall_impl; [exact E2|by intros ? []]).
  assert (forall p k, Forall (allowed env p k) l0) as H1 by (intros; eapply Forall_impl; [exact E2|intros ? []; auto]).
  destruct (negb go).
  { split_and!; [split; [by rewrite P2, P1|apply H1]|congruence|]. intros _. split; [done|congruence]. }
  destruct (LoginGuard.login_request _ _ _ _ _ _ _ _) as [[keep b] g'].
  pose proof (conclude_ok env c2 w (b, g')) as C. destruct (conclude env c2 w (b, g')) as [[c3 w3] l].
  destruct C as (S3 & A3 & N3 & _). rewrite A2 in N3. split_and!.
  - destruct S3 as [S1 S2]. split; [by rewrite P2, P1 in S1|]. apply Forall_app. split; [apply H1|by rewrite P2, P1 in S2].
  - congruence.
  - intros E. rewrite E in N3. destruct (N3 eq_refl) as [-> ->]. rewrite app_nil_r. split; [done|]. cbn. congruence.
Qed.

Lemma send_logon_keeps now c g :
  cn_authorized c = true -> LoginGuard.send_logon_response sha256 now c g = (c, g).
Proof. unfold LoginGuard.send_logon_response. by intros ->. Qed.

Lemma auth_2fa_keeps now minute code c g :
  cn_authorized c = true -> cn_authorized (fst (LoginGuard.auth_2fa sha256 parse_v6 now minute code c g)) = true.
Proof.
  intros Hc. unfold LoginGuard.auth_2fa. destruct (check_failure _ _ _ _) as [[f t] []]; cbn [negb]; [|done].
  destruct (cn_require_2fa c); [|done]. destruct code as [[]|]; try done. by rewrite send_logon_keeps.
Qed.

Lemma auth_2fa_ok env code hwid c w :
  let '(c', _, l) := on_auth_2fa sha256 parse_v6 env code hwid c w in
  step_ok env c c' l /\ (authorized c = true -> authorized c' = true) /\
  (authorized c' = false -> l = [] /\ wishes c' = wishes c).
Proof.
  unfold on_auth_2fa. set (minute := e_now env / 60000000000).
  set (r := LoginGuard.auth_2fa _ _ _ _ _ _ _).
  pose proof (conclude_ok env c w r) as C. destruct (conclude env c w r) as [[c1 w1] l].
  destruct C as (S & A & N & _).
  assert (forall b : bool, Forall (fun e => forall env p k, allowed env p k e) (if b then [ETrustDevice] else [])) as FT.
  { intros []; [by apply Forall_singleton|apply Forall_nil_2]. }
  assert (authorized c = true -> authorized c1 = true) as K.
  { intros Hc. rewrite A. by apply auth_2fa_keeps. }
  split_and!; [by apply step_ok_app|done|]. intros E.
  rewrite E, andb_false_r in N. destruct (N eq_refl) as [-> ->]. split; [|done]. rewrite A in E.
  destruct (snd _ && cn_require_2fa _ && _) eqn:Pass; [|done]. exfalso.
  apply andb_true_iff in Pass as [[P1 P2]%andb_true_iff P3]. apply bool_decide_eq_true in P3.
  assert (cn_authorized (decided c) = false) as Hc.
  { destruct (cn_authorized (decided c)) eqn:Hc; [|done]. subst r. by rewrite auth_2fa_keeps in E. }
  pose proof (proj2 (LoginGuard.auth_2fa_authorized sha256 parse_v6 (e_now env) minute code (decided c)
    (g w) Hc)) as G. fold r in G. rewrite G in E by done. done.
Qed.

Lemma send_logon_ok env c w :
  let '(c', _, l) := send_logon sha256 env c w in
  step_ok env c c' l /\ (authorized c = true -> authorized c' = true) /\
  (authorized c' = false -> l = [] /\ wishes c' = wishes c).
Proof.
  unfold send_logon. set (r := LoginGuard.send_logon_response _ _ _ _).
  pose proof (conclude_ok env c w r) as C. destruct (conclude env c w r) as [[c1 w1] l].
  destruct C as (S & A & N & _). split_and!; [done| |].
  - intros Hc. rewrite A. subst r. by rewrite send_logon_keeps.
  - intros E. rewrite E, andb_false_r in N. by destruct (N eq_refl) as [-> ->].
Qed.


Lemma switch_sides_ok env lr uuid c w :
  let '(c', _, l) := on_switch_sides sha256 env lr uuid c w in
  step_ok env c c' l /\ (authorized c = true -> authorized c' = true) /\
  (authorized c' = false -> Forall (harmless env) l /\ wishes c' = wishes c).
Proof.
  unfold on_switch_sides. pose proof (handle_login_perms env lr c) as (P & W & K & A & _). cbv zeta in *.
  set (c1 := handle_login_request_without_validation env lr c) in *. cbv zeta.
  assert (forall w', let '(c', _, l) := ((c1, w', []) : Connection * World * list effect) in
    step_ok env c c' l /\ (authorized c = true -> authorized c' = true) /\
    (authorized c' = false -> Forall (harmless env) l /\ wishes c' = wishes c)) as Same.
  { intros w'. split_and!; [by apply conn_ok_same|congruence|done]. }
  set (w1 := mkW (g w) (delete _ _)). destruct uuid as [u|]; [|exact (Same w1)].
  match goal with |- context [match ?o with Some _ => _ | None => _ end] => destruct o as [[t u']|] end;
    [|exact (Same w1)].
  destruct (decide (u = u')); [|exact (Same w1)].
  match goal with |- context [send_logon sha256 env ?x ?y] => set (c2 := x); set (w2 := y) end.
  pose proof (send_logon_ok env c2 w2) as S. destruct (send_logon sha256 env c2 w2) as [[c3 w3] l].
  destruct S as (S & A3 & N3). split_and!.
  - apply step_ok_app; [|by apply Forall_singleton]. destruct S as [S1 S2].
    change (perms c2) with (perms c1) in *. by rewrite P in *.
  - intros E. apply A3. change (authorized c2) with (authorized c1). congruence.
  - intros E. destruct (N3 E) as [-> E2]. split; [by apply Forall_singleton|]. rewrite E2. done.
Qed.

Lemma on_close_wishes env lock c :
  wishes (fst (on_close lock c)) = wishes c /\
  (lock_after_session_end (wishes c) = false -> Forall (harmless env) (snd (on_close lock c))).
Proof.
  unfold on_close, with_conn. destruct (closed c); [done|]. split.
  - unfold andthen, modify, emit, when. by destruct (lock && _ && _).
  - intros ->. rewrite andb_false_r. cbn. by repeat apply Forall_cons_2.
Qed.

Lemma on_message_ok env msg c w :
  let '(_, c', _, l) := on_message sha256 parse_v6 env msg c w in
  step_ok env c c' l /\ (authorized c = true -> authorized c' = true) /\
  (authorized c' = false -> lock_after_session_end (wishes c) = false ->
   Forall (harmless env) l /\ wishes c' = wishes c).
Proof.
  assert (forall msg, match msg with CloseReason | LoginRequestMsg _ | Auth2fa _ _ | TestDelay _ _
                                   | SwitchSidesResponse _ _ => True
    | _ => let '(_, c', _, l) := (if authorized c then
        if port_forward (kind c) then (true, c, w, [])
        else let '(keep, c, l) := on_authorized_message env msg c in (keep, c, w, l)
      else (true, c, w, [])) in
    step_ok env c c' l /\ (authorized c = true -> authorized c' = true) /\
    (authorized c' = false -> lock_after_session_end (wishes c) = false ->
     Forall (harmless env) l /\ wishes c' = wishes c) end) as M.
  { intros m. pose proof (authorized_message_quiet env m c) as Q.
    destruct m; try exact I; destruct (authorized c) eqn:A; try destruct (port_forward (kind c));
      try (split_and!; [by apply conn_ok_same|congruence|done]).
    all: destruct (on_authorized_message env _ c) as [[keep c'] l]; destruct Q as (P & B & K & E).
    all: assert (authorized c' = true) as A' by (unfold authorized; by rewrite B).
    all: split_and!; [split; [by rewrite P|by rewrite K]|done|congruence]. }
  destruct msg; cbn [on_message];
    try match goal with |- context [on_authorized_message env ?m c] => exact (M m) end; clear M.
  - pose proof (on_close_quiet env true c) as [P B K E]. destruct (on_close_wishes env true c) as [W H].
    destruct (on_close true c) as [c' l]. cbn [fst snd] in *. split_and!.
    + split; [by rewrite P|by rewrite K].
    + unfold authorized. by rewrite B.
    + auto.
  - pose proof (login_request_ok env lr c w) as L.
    destruct (on_login_request sha256 parse_v6 env lr c w) as [[[keep c'] w'] l].
    destruct L as (S & A & N). split_and!; [done..|]. intros E _. by destruct (N E) as [? ?].
  - pose proof (auth_2fa_ok env code_ok hwid c w) as L.
    destruct (on_auth_2fa sha256 parse_v6 env code_ok hwid c w) as [[c' w'] l].
    destruct L as (S & A & N). split_and!; [done..|]. intros E _. by destruct (N E) as [-> ?].
  - assert (forall x, harmless env x -> (forall k, allowed env (perms c) k x) -> forall c', perms c' = perms c ->
      base c' = base c -> wishes c' = wishes c -> step_ok env c c' [x] /\
      (authorized c = true -> authorized c' = true) /\
      (authorized c' = false -> lock_after_session_end (wishes c) = false ->
       Forall (harmless env) [x] /\ wishes c' = wishes c)) as T.
    { intros x Hx Ax c' Pc Bc Wc. unfold authorized. rewrite Bc, Wc.
      split_and!; [split; [by rewrite Pc|by apply Forall_singleton]|done|].
      intros _ _. by split; [apply Forall_singleton|]. }
    destruct from_client; [by apply T|]. destruct (last_test_delay (talk c)); [by apply T|].
    split_and!; [by apply conn_ok_same|done|done].
  - destruct lr as [lr|]; [|by split_and!].
    pose proof (switch_sides_ok env lr uuid c w) as L.
    destruct (on_switch_sides sha256 env lr uuid c w) as [[c' w'] l].
    destruct L as (S & A & N). split_and!; [done..|]. intros E _. by destruct (N E) as [? ?].
Qed.

(** ** Lives of connections *)

(** The needs of an effect that the person at the machine decides. *)
Definition permitted (p : Perms) (e : effect) : Prop :=
  match e with
  | EMouse true _ | EPointer | EKey _ | ELockScreen | EResolution _ | EElevate => keyboard p = true
  | EBlockInput _ => keyboard p = true /\ block_input p = true
  | EClipboard => clipboard p = true
  | EReboot => restart p = true
  | ESubscribe s true =>
      (s = NAME_AUDIO -> audio p = true) /\ (s = NAME_CLIPBOARD -> clipboard p = true /\ keyboard p = true)
  | EMonitorServices without =>
      (audio p = false -> NAME_AUDIO ∈ without) /\
      (clipboard p = false \/ keyboard p = false -> NAME_CLIPBOARD ∈ without)
  | _ => True
  end.

Lemma allowed_permitted env p k e : allowed env p k e -> permitted p e.
Proof. destruct e; cbn; try done; repeat case_match; tauto. Qed.

Lemma permitted_le p q e : le_perms p q -> permitted p e -> permitted q e.
Proof.
  intros (K & C & A & _ & R & _ & B) H. destruct e; cbn in *; try done; try tauto.
  - destruct simulate; tauto.
  - destruct on; tauto.
  - destruct H as (H4 & H5). split.
    + intros E. apply H4. by eapply not_true_false.
    + intros [E|E]; apply H5; [left|right]; by eapply not_true_false.
Qed.

(** The person at the machine may accept the connection and a call, but changes no
    permission. *)
Definition no_switch (ev : event) : Prop :=
  match ev with FromCmSwitch _ _ => False | _ => True end.

Lemma on_event_ok env ev c w :
  no_switch ev ->
  let '(_, c', _, l) := on_event sha256 parse_v6 env ev c w in
  le_perms (perms c') (perms c) /\ Forall (permitted (perms c)) l.
Proof.
  assert (forall c' l, step_ok env c c' l -> le_perms (perms c') (perms c) /\ Forall (permitted (perms c)) l) as W.
  { intros c' l [P F]. split; [done|]. eapply Forall_impl; [exact F|]. apply allowed_permitted. }
  destruct ev as [m| |name b|b]; intros N; cbn [on_event].
  - pose proof (on_message_ok env m c w) as H.
    destruct (on_message sha256 parse_v6 env m c w) as [[[keep c'] w'] l]. by apply W, H.
  - unfold on_cm_authorize. set (c1 := s_base _ c). pose proof (send_logon_ok env c1 w) as H.
    destruct (send_logon sha256 env c1 w) as [[c' w'] l]. apply W. exact (proj1 H).
  - done.
  - pose proof (handle_voice_call_quiet env b c) as [P B K E].
    destruct (handle_voice_call b c) as [c' l]. cbn [fst snd] in *. apply W. split; [by rewrite P|by rewrite K].
Qed.

Lemma run_events_permitted evs c w :
  Forall (fun x => no_switch (snd x)) evs ->
  let '(c', _, l) := run_events sha256 parse_v6 evs c w in
  le_perms (perms c') (perms c) /\ Forall (permitted (perms c)) l.
Proof.
  revert c w. induction evs as [|[env ev] evs IH]; intros c w N; cbn [run_events]; [by split|].
  apply Forall_cons in N as [N1 N2]. pose proof (on_event_ok env ev c w N1) as H.
  destruct (on_event sha256 parse_v6 env ev c w) as [[[keep c1] w1] l1]. destruct H as [P1 F1].
  destruct keep; [|done]. specialize (IH c1 w1 N2).
  destruct (run_events sha256 parse_v6 evs c1 w1) as [[c2 w2] l2]. destruct IH as [P2 F2]. split; [by etrans|].
  apply Forall_app. split; [done|]. eapply Forall_impl; [exact F2|]. intros e. by apply permitted_le.
Qed.

(** Only the peer speaks. *)
Definition from_peer (evs : list (Env * message)) : list (Env * event) :=
  (fun x => (fst x, FromPeer (snd x))) <$> evs.

Lemma run_authorized evs c w :
  authorized c = true ->
  authorized (fst (fst (run_events sha256 parse_v6 (from_peer evs) c w))) = true.
Proof.
  revert c w. induction evs as [|[env m] evs IH]; intros c w A;
    cbn [from_peer fmap list_fmap run_events on_event fst snd]; [done|].
  pose proof (on_message_ok env m c w) as H.
  destruct (on_message sha256 parse_v6 env m c w) as [[[keep c1] w1] l1]. destruct H as (_ & K & _).
  specialize (K A). destruct (keep && _); [|done]. specialize (IH c1 w1 K). unfold from_peer in IH.
  by destruct (run_events _ _ _ c1 w1) as [[? ?] ?].
Qed.

(** Harmless in the surroundings of one of the messages. *)
Definition harmless_in (evs : list (Env * message)) (e : effect) : Prop := Exists (fun x => harmless (fst x) e) evs.

Lemma run_unauthorized evs c w :
  lock_after_session_end (wishes c) = false ->
  let '(c', _, l) := run_events sha256 parse_v6 (from_peer evs) c w in
  authorized c' = false -> Forall (harmless_in evs) l.
Proof.
  revert c w. induction evs as [|[env m] evs IH]; intros c w L;
    cbn [from_peer fmap list_fmap run_events on_event fst snd]; [done|].
  pose proof (on_message_ok env m c w) as H.
  destruct (on_message sha256 parse_v6 env m c w) as [[[keep c1] w1] l1]. destruct H as (_ & _ & N).
  assert (Hd : Forall (harmless env) l1 -> Forall (harmless_in ((env, m) :: evs)) l1)
    by (intros F; eapply Forall_impl; [exact F|]; intros e; by left).
  destruct (keep && _); [|intros E; by apply Hd, N].
  pose proof (run_authorized evs c1 w1) as Mono. unfold from_peer in Mono, IH.
  destruct (authorized c1) eqn:A1.
  - specialize (Mono eq_refl). destruct (run_events _ _ _ c1 w1) as [[c2 w2] l2]. cbn in Mono. congruence.
  - destruct (N eq_refl L) as [F W]. specialize (IH c1 w1 ltac:(by rewrite W)).
    destruct (run_events _ _ _ c1 w1) as [[c2 w2] l2]. intros E. apply Forall_app. split; [auto|].
    eapply Forall_impl; [by apply IH|]. intros e. by right.
Qed.

(** C6. Nothing before the login: whatever a peer sends to a new connection, in whatever
    surroundings, as long as it is not authorized there is no input, no file, no clipboard,
    no terminal, no service: the machine only answers, and, where the options permit tunnels
    or terminals to this peer as to any other, connects to the host of a tunnel and has the
    system log a user on. *)
Theorem nothing_before_login env b evs w :
  let '(c', _, l) := run_events sha256 parse_v6 (from_peer evs) (new_connection env b) w in
  authorized c' = false -> Forall (harmless_in evs) l.
Proof. by apply run_unauthorized. Qed.

(** C7. What the person at the machine forbids stays forbidden: over the whole life of a
    connection, while no permission is switched there, no message of the peer, no login
    and no accepted call gives a permission that is off, and no effect happens that needs
    one: input and blocking it, the resolution, elevation, the lock, the clipboard, sound,
    a restart. *)
Theorem forbidden_stays_forbidden evs c w :
  Forall (fun x => no_switch (snd x)) evs ->
  let '(c', _, l) := run_events sha256 parse_v6 evs c w in
  le_perms (perms c') (perms c) /\ Forall (permitted (perms c)) l.
Proof. apply run_events_permitted. Qed.


Lemma conclude_authorized env c w r :
  authorized (fst (fst (conclude env c w r))) = cn_authorized (fst r).
Proof.
  pose proof (conclude_ok env c w r) as H. destruct (conclude env c w r) as [[c' w'] l]. apply H.
Qed.

Lemma login_reason env lr c w :
  authorized c = false -> authorized (snd (fst (fst (on_login_request sha256 parse_v6 env lr c w)))) = true ->
  let '(go, c1, _) := login_kind_step env lr (handle_login_request_without_validation env lr c) in
  go = true /\ le_target_ok (e_login env) = true /\
  granted sha256 parse_v6 (e_now env) (e_now env / 60000000000) (e_cfg env) (decided c1) (g w) /\
  second_factor_waived sha256 (e_now env) (decided c1) (g w).
Proof.
  intros Hc. unfold on_login_request. pose proof (handle_login_perms env lr c) as (_ & _ & _ & A1 & _).
  cbv zeta in *. set (c0 := handle_login_request_without_validation env lr c) in *.
  rewrite A1, Hc. pose proof (login_kind_perms env lr c0) as (_ & _ & B2 & _).
  destruct (login_kind_step env lr c0) as [[go c1] l0]. cbn [fst snd] in B2.
  assert (cn_authorized (decided c1) = false) as D.
  { unfold decided. cbn. rewrite B2. unfold authorized in *. congruence. }
  destruct go; cbn [negb]; [|intros E; cbn in E; unfold authorized in E; cbn in D; congruence].
  pose proof (LoginGuard.login_granted sha256 parse_v6 (e_now env) (e_now env / 60000000000) (e_cfg env)
    (e_login env) (decided c1) (g w) D) as G.
  destruct (LoginGuard.login_request _ _ _ _ _ _ _ _) as [[keep b] g'].
  pose proof (conclude_authorized env c1 w (b, g')) as Ca.
  destruct (conclude env c1 w (b, g')) as [[c2 w2] l]. cbn [fst snd] in *.
  intros E. rewrite Ca in E. by destruct (G E).
Qed.

Lemma auth_2fa_reason env code hwid c w :
  authorized c = false -> authorized (fst (fst (on_auth_2fa sha256 parse_v6 env code hwid c w))) = true ->
  cn_require_2fa (base c) = true /\ code = Some true.
Proof.
  intros Hc. unfold on_auth_2fa. set (minute := e_now env / 60000000000).
  pose proof (LoginGuard.auth_2fa_authorized sha256 parse_v6 (e_now env) minute code (decided c) (g w) Hc) as G.
  set (r := LoginGuard.auth_2fa _ _ _ _ _ _ _) in *. pose proof (conclude_authorized env c w r) as Ca.
  destruct (conclude env c w r) as [[c1 w1] l]. cbn [fst snd] in *. rewrite Ca. by intros (? & ? & _)%G.
Qed.

Lemma switch_reason env lr u c w :
  authorized c = false -> authorized (fst (fst (on_switch_sides sha256 env lr u c w))) = true ->
  exists v t, u = Some v /\ switch_uuids w !! lr_my_id (lg lr) = Some (t, v) /\ e_now env - t < 10000000000.
Proof.
  intros Hc. unfold on_switch_sides. pose proof (handle_login_perms env lr c) as (_ & _ & _ & A & _).
  cbv zeta in *. set (c1 := handle_login_request_without_validation env lr c) in *.
  destruct u as [u|]; [|cbn; congruence].
  destruct (filter _ _ !! _) as [[t u']|] eqn:F; [|cbn; congruence].
  destruct (decide (u = u')) as [->|]; [|cbn; congruence]. intros _.
  apply map_lookup_filter_Some in F as [F1 F2]. by exists u', t.
Qed.

(** C8. Every authorization has a reason: a login whose kind is permitted, that addresses
    this machine, is granted and needs no second factor (or was given it); a right code
    where one is required; the other side of a session that asked to switch sides at most
    ten seconds ago; or the person at the machine. *)
Theorem authorization_has_reason env ev c w :
  let '(_, c', _, _) := on_event sha256 parse_v6 env ev c w in
  authorized c = false -> authorized c' = true ->
  match ev with
  | FromCmAuthorize => True
  | FromPeer (LoginRequestMsg lr) =>
      let '(go, c1, _) := login_kind_step env lr (handle_login_request_without_validation env lr c) in
      go = true /\ le_target_ok (e_login env) = true /\
      granted sha256 parse_v6 (e_now env) (e_now env / 60000000000) (e_cfg env) (decided c1) (g w) /\
      second_factor_waived sha256 (e_now env) (decided c1) (g w)
  | FromPeer (Auth2fa code _) => cn_require_2fa (base c) = true /\ code = Some true
  | FromPeer (SwitchSidesResponse (Some lr) (Some u)) =>
      exists t, switch_uuids w !! lr_my_id (lg lr) = Some (t, u) /\ e_now env - t < 10000000000
  | _ => False
  end.
Proof.
  assert (forall h, quiet env c h -> authorized c = false -> authorized (fst (h c)) = true -> False) as Q.
  { intros h [_ B _ _] Hc Hc'. unfold authorized in *. rewrite B in Hc'. congruence. }
  destruct ev as [m| |name b|b]; cbn [on_event].
  - assert (forall P, match m with CloseReason | LoginRequestMsg _ | Auth2fa _ _ | SwitchSidesResponse _ _ => True
      | _ => let '(_, c', _, _) := on_message sha256 parse_v6 env m c w in
             authorized c = false -> authorized c' = true -> P end) as M.
    { intros P. pose proof (on_message_ok env m c w) as H. destruct m; try exact I; cbn [on_message].
      all: destruct (authorized c) eqn:A; try congruence; try (repeat case_match; simplify_eq; done).
      unfold authorized in *. repeat case_match; simplify_eq; cbn; congruence. }
    destruct m; try (specialize (M False); cbv beta iota in M;
      destruct (on_message sha256 parse_v6 env _ c w) as [[[? ?] ?] ?]; exact M).
    all: clear M; cbn [on_message].
    + pose proof (Q _ (on_close_quiet env true c)). by destruct (on_close true c).
    + pose proof (login_reason env lr c w) as R.
      by destruct (on_login_request sha256 parse_v6 env lr c w) as [[[? ?] ?] ?].
    + pose proof (auth_2fa_reason env code_ok hwid c w) as R.
      by destruct (on_auth_2fa sha256 parse_v6 env code_ok hwid c w) as [[? ?] ?].
    + destruct lr as [lr|]; [|intros; congruence]. pose proof (switch_reason env lr uuid c w) as R.
      destruct (on_switch_sides sha256 env lr uuid c w) as [[? ?] ?]. intros Hc Hc'.
      destruct (R Hc Hc') as (v & t & -> & ? & ?). by exists t.
  - destruct (on_cm_authorize sha256 env c w) as [[? ?] ?]. done.
  - assert (base (fst (switch_permission env name b c)) = base c) as B.
    { unfold switch_permission. do 2 (case_decide; [done|]).
      case_decide; [|repeat (case_decide; [done|]); done].
      cbv [andthen modify emit with_conn when skip sub_audio]. by repeat case_match; simplify_eq/=. }
    destruct (switch_permission env name b c) as [c' l]. cbn [fst] in B. unfold authorized. rewrite B. congruence.
  - pose proof (Q _ (handle_voice_call_quiet env b c)). by destruct (handle_voice_call b c).
Qed.

(** What a peer logged in for hardly limits it: a connection that was authorized for
    file transfer only (and one is as soon as it claims the identifier of a connected
    peer) moves the mouse, types, watches the monitors, takes screenshots and turns the
    privacy mode on and off. *)
Theorem file_transfer_controls env c w d key on :
  authorized c = true -> port_forward (kind c) = false -> authed_type (kind c) = Some FileTransfer ->
  view_camera (kind c) = false -> peer_keyboard_enabled c = true ->
  let effects m := snd (on_message sha256 parse_v6 env m c w) in
  EMouse true (show_my_cursor (wishes c)) ∈ effects MouseEvent /\
  EKey true ∈ effects (KeyEvent true false) /\
  EVideo false d true ∈ effects (Misc (MCaptureDisplays [d] [] [] false)) /\
  EScreenshot d ∈ effects (ScreenshotRequest d) /\
  EPrivacy on key ∈ effects (Misc (MTogglePrivacyMode on key)).
Proof.
  intros A P T V K effects. subst effects. cbn [on_message]. rewrite A, P.
  assert (is_authed_view_camera_conn c = false) as Cam by (unfold is_authed_view_camera_conn; by rewrite T).
  unfold on_authorized_message, on_mouse, on_key, with_conn. rewrite Cam, K. split_and!; try (by left).
  cbn [on_misc]. unfold capture_displays, with_conn, video_source_camera. rewrite V.
  rewrite bool_decide_true by done. unfold andthen, emit. cbn [fst snd app].
  set (services := foldl _ _ _).
  assert ((false, d) ∈ services) as I.
  { subst services. cbn. case_decide; [done|]. set_solver. }
  clearbody services.
  assert (EVideo false d true ∈ server_capture_displays services false [d] true false) as E.
  { unfold server_capture_displays. apply list_elem_of_In, in_flat_map. exists (false, d).
    split; [by apply list_elem_of_In|]. rewrite bool_decide_true by set_solver. by left. }
  destruct (when _ _ c) as [c' l]. cbn. apply elem_of_cons. right. apply elem_of_app. by left.
Qed.

End peer.

(** ** Examples

    A machine that asks for a password, where the peer 123456789 controls the desktop over
    another connection; options have their default values. *)

Definition a_machine : Env :=
  mkEnvironment (fun _ => ""%string) (fun _ => ""%string) 0 a_config an_env [] false false (Ok false) (Ok tt)
    (fun _ => None) (fun _ _ => true) true (fun _ => false) false true 1 [(false, 0)] true false "ts_1"
    true false 0.
Definition a_world : World := mkW a_global ∅.
Definition a_new_connection : Connection := new_connection a_machine (a_conn [] Remote false).
Definition a_request (k : login_kind) (p : bytes) : Login :=
  mkLoginMsg (a_login p) "Linux" "1.4.0" [] None k "".

(** A tunnel is connected to before the peer has said who it is: where tunnels are permitted,
    whoever reaches the machine has it open a connection to any host and port, once for each
    request. *)
Lemma tunnel_before_login sha256 parse_v6 env lr host port c w :
  authorized c = false -> permission env "enable-tunnel" = true ->
  lr_kind lr = LkPortForward host port -> host <> ""%string -> host <> "RDP"%string ->
  EConnect host port ∈ snd (on_login_request sha256 parse_v6 env lr c w).
Proof.
  intros A P K N R. unfold on_login_request. pose proof (handle_login_perms env lr c) as (_ & _ & _ & A1 & _). cbv zeta in *.
  rewrite A1, A. unfold login_kind_step. rewrite K, P. cbn [negb].
  rewrite (bool_decide_false (host = "RDP"%string)), (bool_decide_false (host = ""%string)) by done. cbn [andb orb].
  destruct (e_connects env host port); cbn [negb snd]; [|by left].
  destruct (LoginGuard.login_request _ _ _ _ _ _ _ _) as [[keep b] g'].
  match goal with |- context [conclude env ?x ?y ?z] => destruct (conclude env x y z) as [[? ?] ?] end. cbn. by left.
Qed.

(** A connection after a login with the password, for the desktop. *)
Definition logged_in (k : login_kind) : Connection * World * list effect :=
  run_events (fun x => x) (fun _ => None)
    (from_peer [(a_machine, LoginRequestMsg (a_request k (String.list_byte_of_string "tmp123sc")))])
    a_new_connection a_world.

(** The connection after a login for files. *)
Definition for_files : Connection := fst (fst (logged_in (LkFileTransfer "" false))).
Definition for_files_world : World := snd (fst (logged_in (LkFileTransfer "" false))).

Lemma nothing_before_login_witness :
  snd (run_events (fun x => x) (fun _ => None) (from_peer [(a_machine, MouseEvent); (a_machine, TerminalAction)])
    a_new_connection a_world) = [] /\
  Forall (harmless_in [(a_machine, MouseEvent); (a_machine, TerminalAction)]) (snd (run_events (fun x => x) (fun _ => None)
    (from_peer [(a_machine, MouseEvent); (a_machine, TerminalAction)]) a_new_connection a_world)).
Proof.
  split; [vm_compute; reflexivity|].
  exact (nothing_before_login (fun x => x) (fun _ => None) a_machine (a_conn [] Remote false)
    [(a_machine, MouseEvent); (a_machine, TerminalAction)] a_world ltac:(vm_compute; reflexivity)).
Defined.

Lemma file_transfer_controls_witness :
  authorized for_files = true /\
  EPrivacy true "" ∈ snd (on_message (fun x => x) (fun _ => None) a_machine
    (Misc (MTogglePrivacyMode true "")) for_files for_files_world).
Proof.
  split; [vm_compute; reflexivity|].
  exact (proj2 (proj2 (proj2 (proj2 (file_transfer_controls (fun x => x) (fun _ => None) a_machine
    for_files for_files_world 0 "" true
    ltac:(vm_compute; reflexivity) ltac:(vm_compute; reflexivity) ltac:(vm_compute; reflexivity)
    ltac:(vm_compute; reflexivity) ltac:(vm_compute; reflexivity)))))).
Defined.

Lemma forbidden_stays_forbidden_witness :
  let r := run_events (fun x => x) (fun _ => None)
    [(a_machine, FromPeer (KeyEvent true false)); (a_machine, FromCmAuthorize)]
    (s_perms (w_keyboard false (perms for_files)) for_files) for_files_world in
  le_perms (perms (fst (fst r))) (w_keyboard false (perms for_files)) /\
  Forall (permitted (w_keyboard false (perms for_files))) (snd r).
Proof.
  cbv zeta.
  pose proof (forbidden_stays_forbidden (fun x => x) (fun _ => None)
    [(a_machine, FromPeer (KeyEvent true false)); (a_machine, FromCmAuthorize)]
    (s_perms (w_keyboard false (perms for_files)) for_files) for_files_world
    ltac:(repeat constructor)) as H.
  destruct (run_events _ _ _ _ _) as [[c' w'] l]. exact H.
Defined.

Lemma authorization_has_reason_witness :
  let lr := a_request (LkFileTransfer "" false) (String.list_byte_of_string "tmp123sc") in
  authorized a_new_connection = false /\
  authorized (snd (fst (fst (on_event (fun x => x) (fun _ => None) a_machine (FromPeer (LoginRequestMsg lr))
    a_new_connection a_world)))) = true /\
  fst (fst (login_kind_step a_machine lr (handle_login_request_without_validation a_machine lr a_new_connection))) = true.
Proof.
  cbv zeta. set (lr := a_request _ _). split; [vm_compute; reflexivity|]. split; [vm_compute; reflexivity|].
  pose proof (authorization_has_reason (fun x => x) (fun _ => None) a_machine (FromPeer (LoginRequestMsg lr))
    a_new_connection a_world) as H.
  assert (authorized a_new_connection = false) as A by (vm_compute; reflexivity).
  assert (authorized (snd (fst (fst (on_event (fun x => x) (fun _ => None) a_machine (FromPeer (LoginRequestMsg lr))
    a_new_connection a_world)))) = true) as B by (vm_compute; reflexivity).
  destruct (on_event _ _ _ _ _ _) as [[[k c'] w'] l]. specialize (H A B).
  destruct (login_kind_step _ _ _) as [[go c1] l0]. exact (proj1 H).
Defined.
