(* ===== verification/PeerConfig.v ===== *)
(** * What is remembered of a peer

    [PeerConfig] of [libs/hbb_common/src/config.rs]: a file for every machine this one
    connected to, with the hash of its password, the options of its sessions and how it
    is shown.  The password and three of the options are sealed ([PasswordStore]).

    A file holds what was last serialized.  Reading it gives that back but for what the
    attributes of the fields replace: an empty style by the default, a number out of its
    range by the default.  The defaults are the user's ([UserDefaultConfig::read], see
    [Options.user_default_get]), which is an argument, as is the parser of floating-point
    numbers. *)

From Stdlib Require Import Ascii.
From S2P Require Import Prelude Utf8 Secure PasswordStore Options ConnState.

(** [str::parse::<i32>]. *)
Definition parse_i32 (s : string) : option Z :=
  z ← parse_i64 s; if decide (in_i 32 z) then Some z else None.

(* src/libs/hbb_common/src/config.rs:229-233 Resolution *)
Record Resolution : Type := mkResolution { res_w : Z; res_h : Z }.

(* src/libs/hbb_common/src/config.rs:405-415 PeerInfoSerde *)
Record PeerInfoSerde : Type := mkInfo {
  username : string;
  hostname : string;
  platform : string;
  os_version : string;
}.

(* src/libs/hbb_common/src/config.rs:417-423 TransferSerde *)
Record TransferSerde : Type := mkTransfer {
  write_jobs : list string;
  read_jobs : list string;
}.

(** The fields that are switched on and off. *)
Record Toggles : Type := mkToggles {
  show_remote_cursor : bool;
  lock_after_session_end : bool;
  terminal_persistent : bool;
  privacy_mode : bool;
  allow_swap_key : bool;
  disable_audio : bool;
  disable_clipboard : bool;
  enable_file_copy_paste : bool;
  show_quality_monitor : bool;
  follow_remote_cursor : bool;
  follow_remote_window : bool;
  view_only : bool;
  show_my_cursor : bool;
  sync_init_clipboard : bool;
}.

(** The fields that are texts. *)
Record Styles : Type := mkStyles {
  view_style : string;
  scroll_style : string;
  image_quality : string;
  keyboard_mode : string;
  reverse_mouse_wheel : string;
  displays_as_individual_windows : string;
  use_all_my_displays_for_the_remote_session : string;
}.

(** Position and size of a window. *)
Definition Size : Type := Z * Z * Z * Z.

(** [sizes]: of the windows of the desktop, of files and of ports. *)
(* src/libs/hbb_common/src/config.rs:235-360 PeerConfig *)
Record PeerConfig : Type := mkPeer {
  password : bytes;
  sizes : Size * Size * Size;
  styles : Styles;
  edge_scroll_edge_thickness : Z;
  custom_image_quality : list Z;
  toggles : Toggles;
  port_forwards : list (Z * string * Z);
  direct_failures : Z;
  trackpad_speed : Z;
  custom_resolutions : gmap string Resolution;
  options : settings;
  ui_flutter : settings;
  info : PeerInfoSerde;
  transfer : TransferSerde;
}.

Abbreviation peer_files := (gmap string PeerConfig).

(** ** Changing a field *)

Definition t_set_show_remote_cursor (v : bool) (t : Toggles) : Toggles :=
  mkToggles v (lock_after_session_end t) (terminal_persistent t) (privacy_mode t)
    (allow_swap_key t) (disable_audio t) (disable_clipboard t)
    (enable_file_copy_paste t) (show_quality_monitor t) (follow_remote_cursor t)
    (follow_remote_window t) (view_only t) (show_my_cursor t) (sync_init_clipboard
    t).
Definition t_set_lock_after_session_end (v : bool) (t : Toggles) : Toggles :=
  mkToggles (show_remote_cursor t) v (terminal_persistent t) (privacy_mode t)
    (allow_swap_key t) (disable_audio t) (disable_clipboard t)
    (enable_file_copy_paste t) (show_quality_monitor t) (follow_remote_cursor t)
    (follow_remote_window t) (view_only t) (show_my_cursor t) (sync_init_clipboard
    t).
Definition t_set_terminal_persistent (v : bool) (t : Toggles) : Toggles :=
  mkToggles (show_remote_cursor t) (lock_after_session_end t) v (privacy_mode t)
    (allow_swap_key t) (disable_audio t) (disable_clipboard t)
    (enable_file_copy_paste t) (show_quality_monitor t) (follow_remote_cursor t)
    (follow_remote_window t) (view_only t) (show_my_cursor t) (sync_init_clipboard
    t).
Definition t_set_allow_swap_key (v : bool) (t : Toggles) : Toggles :=
  mkToggles (show_remote_cursor t) (lock_after_session_end t) (terminal_persistent
    t) (privacy_mode t) v (disable_audio t) (disable_clipboard t)
    (enable_file_copy_paste t) (show_quality_monitor t) (follow_remote_cursor t)
    (follow_remote_window t) (view_only t) (show_my_cursor t) (sync_init_clipboard
    t).
Definition t_set_disable_audio (v : bool) (t : Toggles) : Toggles :=
  mkToggles (show_remote_cursor t) (lock_after_session_end t) (terminal_persistent
    t) (privacy_mode t) (allow_swap_key t) v (disable_clipboard t)
    (enable_file_copy_paste t) (show_quality_monitor t) (follow_remote_cursor t)
    (follow_remote_window t) (view_only t) (show_my_cursor t) (sync_init_clipboard
    t).
Definition t_set_disable_clipboard (v : bool) (t : Toggles) : Toggles :=
  mkToggles (show_remote_cursor t) (lock_after_session_end t) (terminal_persistent
    t) (privacy_mode t) (allow_swap_key t) (disable_audio t) v
    (enable_file_copy_paste t) (show_quality_monitor t) (follow_remote_cursor t)
    (follow_remote_window t) (view_only t) (show_my_cursor t) (sync_init_clipboard
    t).
Definition t_set_enable_file_copy_paste (v : bool) (t : Toggles) : Toggles :=
  mkToggles (show_remote_cursor t) (lock_after_session_end t) (terminal_persistent
    t) (privacy_mode t) (allow_swap_key t) (disable_audio t) (disable_clipboard t) v
    (show_quality_monitor t) (follow_remote_cursor t) (follow_remote_window t)
    (view_only t) (show_my_cursor t) (sync_init_clipboard t).
Definition t_set_show_quality_monitor (v : bool) (t : Toggles) : Toggles :=
  mkToggles (show_remote_cursor t) (lock_after_session_end t) (terminal_persistent
    t) (privacy_mode t) (allow_swap_key t) (disable_audio t) (disable_clipboard t)
    (enable_file_copy_paste t) v (follow_remote_cursor t) (follow_remote_window t)
    (view_only t) (show_my_cursor t) (sync_init_clipboard t).
Definition t_set_follow_remote_cursor (v : bool) (t : Toggles) : Toggles :=
  mkToggles (show_remote_cursor t) (lock_after_session_end t) (terminal_persistent
    t) (privacy_mode t) (allow_swap_key t) (disable_audio t) (disable_clipboard t)
    (enable_file_copy_paste t) (show_quality_monitor t) v (follow_remote_window t)
    (view_only t) (show_my_cursor t) (sync_init_clipboard t).
Definition t_set_follow_remote_window (v : bool) (t : Toggles) : Toggles :=
  mkToggles (show_remote_cursor t) (lock_after_session_end t) (terminal_persistent
    t) (privacy_mode t) (allow_swap_key t) (disable_audio t) (disable_clipboard t)
    (enable_file_copy_paste t) (show_quality_monitor t) (follow_remote_cursor t) v
    (view_only t) (show_my_cursor t) (sync_init_clipboard t).
Definition t_set_view_only (v : bool) (t : Toggles) : Toggles :=
  mkToggles (show_remote_cursor t) (lock_after_session_end t) (terminal_persistent
    t) (privacy_mode t) (allow_swap_key t) (disable_audio t) (disable_clipboard t)
    (enable_file_copy_paste t) (show_quality_monitor t) (follow_remote_cursor t)
    (follow_remote_window t) v (show_my_cursor t) (sync_init_clipboard t).
Definition t_set_show_my_cursor (v : bool) (t : Toggles) : Toggles :=
  mkToggles (show_remote_cursor t) (lock_after_session_end t) (terminal_persistent
    t) (privacy_mode t) (allow_swap_key t) (disable_audio t) (disable_clipboard t)
    (enable_file_copy_paste t) (show_quality_monitor t) (follow_remote_cursor t)
    (follow_remote_window t) (view_only t) v (sync_init_clipboard t).
Definition y_set_view_style (v : string) (y : Styles) : Styles :=
  mkStyles v (scroll_style y) (image_quality y) (keyboard_mode y)
    (reverse_mouse_wheel y) (displays_as_individual_windows y)
    (use_all_my_displays_for_the_remote_session y).
Definition y_set_scroll_style (v : string) (y : Styles) : Styles :=
  mkStyles (view_style y) v (image_quality y) (keyboard_mode y) (reverse_mouse_wheel
    y) (displays_as_individual_windows y)
    (use_all_my_displays_for_the_remote_session y).
Definition y_set_image_quality (v : string) (y : Styles) : Styles :=
  mkStyles (view_style y) (scroll_style y) v (keyboard_mode y) (reverse_mouse_wheel
    y) (displays_as_individual_windows y)
    (use_all_my_displays_for_the_remote_session y).
Definition y_set_keyboard_mode (v : string) (y : Styles) : Styles :=
  mkStyles (view_style y) (scroll_style y) (image_quality y) v (reverse_mouse_wheel
    y) (displays_as_individual_windows y)
    (use_all_my_displays_for_the_remote_session y).
Definition y_set_reverse_mouse_wheel (v : string) (y : Styles) : Styles :=
  mkStyles (view_style y) (scroll_style y) (image_quality y) (keyboard_mode y) v
    (displays_as_individual_windows y) (use_all_my_displays_for_the_remote_session
    y).
Definition y_set_displays_as_individual_windows (v : string) (y : Styles) : Styles :=
  mkStyles (view_style y) (scroll_style y) (image_quality y) (keyboard_mode y)
    (reverse_mouse_wheel y) v (use_all_my_displays_for_the_remote_session y).
Definition y_set_use_all_my_displays_for_the_remote_session (v : string) (y : Styles) : Styles :=
  mkStyles (view_style y) (scroll_style y) (image_quality y) (keyboard_mode y)
    (reverse_mouse_wheel y) (displays_as_individual_windows y) v.
Definition p_set_password (v : bytes) (c : PeerConfig) : PeerConfig :=
  mkPeer v (sizes c) (styles c) (edge_scroll_edge_thickness c) (custom_image_quality
    c) (toggles c) (port_forwards c) (direct_failures c) (trackpad_speed c)
    (custom_resolutions c) (options c) (ui_flutter c) (info c) (transfer c).
Definition p_set_styles (v : Styles) (c : PeerConfig) : PeerConfig :=
  mkPeer (password c) (sizes c) v (edge_scroll_edge_thickness c)
    (custom_image_quality c) (toggles c) (port_forwards c) (direct_failures c)
    (trackpad_speed c) (custom_resolutions c) (options c) (ui_flutter c) (info c)
    (transfer c).
Definition p_set_edge_scroll_edge_thickness (v : Z) (c : PeerConfig) : PeerConfig :=
  mkPeer (password c) (sizes c) (styles c) v (custom_image_quality c) (toggles c)
    (port_forwards c) (direct_failures c) (trackpad_speed c) (custom_resolutions c)
    (options c) (ui_flutter c) (info c) (transfer c).
Definition p_set_custom_image_quality (v : list Z) (c : PeerConfig) : PeerConfig :=
  mkPeer (password c) (sizes c) (styles c) (edge_scroll_edge_thickness c) v (toggles
    c) (port_forwards c) (direct_failures c) (trackpad_speed c) (custom_resolutions
    c) (options c) (ui_flutter c) (info c) (transfer c).
Definition p_set_toggles (v : Toggles) (c : PeerConfig) : PeerConfig :=
  mkPeer (password c) (sizes c) (styles c) (edge_scroll_edge_thickness c)
    (custom_image_quality c) v (port_forwards c) (direct_failures c) (trackpad_speed
    c) (custom_resolutions c) (options c) (ui_flutter c) (info c) (transfer c).
Definition p_set_direct_failures (v : Z) (c : PeerConfig) : PeerConfig :=
  mkPeer (password c) (sizes c) (styles c) (edge_scroll_edge_thickness c)
    (custom_image_quality c) (toggles c) (port_forwards c) v (trackpad_speed c)
    (custom_resolutions c) (options c) (ui_flutter c) (info c) (transfer c).
Definition p_set_trackpad_speed (v : Z) (c : PeerConfig) : PeerConfig :=
  mkPeer (password c) (sizes c) (styles c) (edge_scroll_edge_thickness c)
    (custom_image_quality c) (toggles c) (port_forwards c) (direct_failures c) v
    (custom_resolutions c) (options c) (ui_flutter c) (info c) (transfer c).
Definition p_set_custom_resolutions (v : gmap string Resolution) (c : PeerConfig) : PeerConfig :=
  mkPeer (password c) (sizes c) (styles c) (edge_scroll_edge_thickness c)
    (custom_image_quality c) (toggles c) (port_forwards c) (direct_failures c)
    (trackpad_speed c) v (options c) (ui_flutter c) (info c) (transfer c).
Definition p_set_options (v : settings) (c : PeerConfig) : PeerConfig :=
  mkPeer (password c) (sizes c) (styles c) (edge_scroll_edge_thickness c)
    (custom_image_quality c) (toggles c) (port_forwards c) (direct_failures c)
    (trackpad_speed c) (custom_resolutions c) v (ui_flutter c) (info c) (transfer c).
Definition p_set_ui_flutter (v : settings) (c : PeerConfig) : PeerConfig :=
  mkPeer (password c) (sizes c) (styles c) (edge_scroll_edge_thickness c)
    (custom_image_quality c) (toggles c) (port_forwards c) (direct_failures c)
    (trackpad_speed c) (custom_resolutions c) (options c) v (info c) (transfer c).
Definition p_set_info (v : PeerInfoSerde) (c : PeerConfig) : PeerConfig :=
  mkPeer (password c) (sizes c) (styles c) (edge_scroll_edge_thickness c)
    (custom_image_quality c) (toggles c) (port_forwards c) (direct_failures c)
    (trackpad_speed c) (custom_resolutions c) (options c) (ui_flutter c) v (transfer
    c).

(** ** Defaults *)

Section peers.
Context {Key : Type} `{SecretBox Key} `{Base64} (mk_key : bytes -> Key) (uuid : bytes).
(** [UserDefaultConfig::read], and [parse::<f64>] with the conversion to [i32]. *)
Context (read : string -> string) (parse_f64_as_i32 : string -> option Z).

(* src/libs/hbb_common/src/config.rs:146-151 serde_field_bool *)
Definition default_bool (field_name : string) : bool := bool_decide (read field_name = "Y"%string).

Definition default_toggles : Toggles :=
  mkToggles (default_bool "show_remote_cursor") (default_bool "lock_after_session_end")
    (default_bool "terminal-persistent") (default_bool "privacy_mode") (default_bool "allow_swap_key")
    (default_bool "disable_audio") (default_bool "disable_clipboard") (default_bool "enable-file-copy-paste")
    (default_bool "show_quality_monitor") (default_bool "follow_remote_cursor")
    (default_bool "follow_remote_window") (default_bool "view_only") (default_bool "show_my_cursor")
    (default_bool "sync-init-clipboard").

Definition default_styles : Styles :=
  mkStyles (read "view_style") (read "scroll_style") (read "image_quality") "" (read "reverse_mouse_wheel")
    (read "displays_as_individual_windows") (read "use_all_my_displays_for_the_remote_session").

(* src/libs/hbb_common/src/config.rs:1573-1578 PeerConfig::default_custom_image_quality *)
Definition default_custom_image_quality : list Z :=
  [default 50 (parse_f64_as_i32 (read "custom_image_quality"))].

(* src/libs/hbb_common/src/config.rs:1608-1612 PeerConfig::default_trackpad_speed *)
Definition default_trackpad_speed : Z := default 100 (parse_i32 (read "trackpad-speed")).

(* src/libs/hbb_common/src/config.rs:1626-1630 PeerConfig::default_edge_scroll_edge_thickness *)
Definition default_edge_scroll_edge_thickness : Z :=
  default 100 (parse_i32 (read "edge-scroll-edge-thickness")).

(* src/libs/hbb_common/src/config.rs:1592-1606 PeerConfig::default_options *)
Definition default_options : settings :=
  list_to_map ((fun k => (k, read k)) <$>
    ["codec-preference"; "custom-fps"; "zoom-cursor"; "i444"; "swap-left-right-mouse"; "collapse_toolbar"]%string).

(* src/libs/hbb_common/src/config.rs:362-403 PeerConfig::default *)
Definition default_peer : PeerConfig :=
  let no_size := (0, 0, 0, 0) in
  mkPeer [] (no_size, no_size, no_size) default_styles default_edge_scroll_edge_thickness
    default_custom_image_quality default_toggles [] 0 default_trackpad_speed ∅ default_options ∅
    (mkInfo "" "" "" "") (mkTransfer [] []).

(** ** Reading a file *)

(* src/libs/hbb_common/src/config.rs:117-135 serde_field_string *)
Definition read_string (dflt s : string) : string := if decide (s = ""%string) then dflt else s.

(* src/libs/hbb_common/src/config.rs:1580-1590 PeerConfig::deserialize_custom_image_quality *)
Definition deserialize_custom_image_quality (v : list Z) : list Z :=
  match v with
  | [q] => if (10 <=? q) && (q <=? 0xFFF) then v else default_custom_image_quality
  | _ => default_custom_image_quality
  end.

(* src/libs/hbb_common/src/config.rs:1614-1624 PeerConfig::deserialize_trackpad_speed *)
Definition deserialize_trackpad_speed (v : Z) : Z :=
  if (10 <=? v) && (v <=? 1000) then v else default_trackpad_speed.

(* src/libs/hbb_common/src/config.rs:1632-1642 PeerConfig::deserialize_edge_scroll_edge_thickness *)
Definition deserialize_edge_scroll_edge_thickness (v : Z) : Z :=
  if (20 <=? v) && (v <=? 150) then v else default_edge_scroll_edge_thickness.

(* src/libs/hbb_common/src/config.rs:1542-1571 PeerConfig::deserialize_view_style *)
Definition deserialize_styles (y : Styles) : Styles :=
  mkStyles (read_string (view_style default_styles) (view_style y))
    (read_string (scroll_style default_styles) (scroll_style y))
    (read_string (image_quality default_styles) (image_quality y))
    (keyboard_mode y)
    (read_string (reverse_mouse_wheel default_styles) (reverse_mouse_wheel y))
    (read_string (displays_as_individual_windows default_styles) (displays_as_individual_windows y))
    (read_string (use_all_my_displays_for_the_remote_session default_styles)
       (use_all_my_displays_for_the_remote_session y)).

(** What is read of what was serialized. *)
(* src/libs/hbb_common/src/config.rs:235-360 PeerConfig *)
Definition deserialize (c : PeerConfig) : PeerConfig :=
  mkPeer (password c) (sizes c) (deserialize_styles (styles c))
    (deserialize_edge_scroll_edge_thickness (edge_scroll_edge_thickness c))
    (deserialize_custom_image_quality (custom_image_quality c)) (toggles c) (port_forwards c)
    (direct_failures c) (deserialize_trackpad_speed (trackpad_speed c)) (custom_resolutions c) (options c)
    (ui_flutter c) (info c) (transfer c).

(** ** Files *)

Definition SEALED_OPTIONS : list string := ["rdp_password"; "os-username"; "os-password"]%string.

(** Characters that no file name has. *)
Definition forbidden (c : ascii) : bool :=
  bool_decide (c ∈ (["<"; ">"; ":"; "/"; "\"; "|"; "?"; "*"]%char : list ascii)).

Fixpoint has_forbidden (s : string) : bool :=
  match s with EmptyString => false | String c s => forbidden c || has_forbidden s end.

(** The name of the file, but for its extension. *)
(* src/libs/hbb_common/src/config.rs:1372-1391 PeerConfig::path *)
Definition path (id : string) : string :=
  if has_forbidden id then "base64_" +:+ b64_encode (as_bytes id) else id.

(** The identifier of a file that is listed. *)
(* src/libs/hbb_common/src/config.rs:1417-1430 PeerConfig::get_vec_id_modified_time_path *)
Definition id_of_path (stem : string) : string :=
  if bool_decide (take 7 (as_bytes stem) = as_bytes "base64_") && negb (zlen (as_bytes stem) =? 7)
  then from_utf8_lossy (default [] (b64_decode (drop 7 (as_bytes stem))))
  else stem.

Definition seal_str (s : string) : string :=
  encrypt_str_or_original mk_key uuid s PASSWORD_ENC_VERSION ENCRYPT_MAX_LEN.

(** What is written of a configuration. *)
(* src/libs/hbb_common/src/config.rs:1353-1366 PeerConfig::store_ *)
Definition sealed_peer (c : PeerConfig) : PeerConfig :=
  let c := p_set_password (encrypt_vec_or_original mk_key uuid (password c) PASSWORD_ENC_VERSION ENCRYPT_MAX_LEN) c in
  p_set_options (foldl (fun o k => alter seal_str k o) (options c) SEALED_OPTIONS) c.

(* src/libs/hbb_common/src/config.rs:1348-1351 PeerConfig::store *)
Definition store (id : string) (c : PeerConfig) (f : peer_files) : peer_files :=
  <[path id := sealed_peer c]> f.

(** The options with the secret ones in the clear, and whether one of them has to be
    sealed again. *)
Definition open_option (p : settings * bool) (k : string) : settings * bool :=
  let '(o, again) := p in
  match o !! k with
  | Some v => let '(s, _, st) := decrypt_str_or_original mk_key uuid v PASSWORD_ENC_VERSION in
              (<[k := s]> o, again || st)
  | None => (o, again)
  end.

(** The configuration, and the files, where what was not sealed is sealed now. *)
(* src/libs/hbb_common/src/config.rs:1313-1346 PeerConfig::load *)
Definition load (id : string) (f : peer_files) : PeerConfig * peer_files :=
  match f !! path id with
  | None => (default_peer, f)
  | Some c =>
      let c := deserialize c in
      let '(pw, _, again) := decrypt_vec_or_original mk_key uuid (password c) PASSWORD_ENC_VERSION in
      let '(o, again) := foldl open_option (options c, again) SEALED_OPTIONS in
      let c := p_set_options o (p_set_password pw c) in
      (c, if again then store id c f else f)
  end.

(* src/libs/hbb_common/src/config.rs:1368-1370 PeerConfig::remove *)
Definition remove (id : string) (f : peer_files) : peer_files := delete (path id) f.

(* src/libs/hbb_common/src/config.rs:1538-1540 PeerConfig::exists *)
Definition exists_ (id : string) (f : peer_files) : bool := bool_decide (is_Some (f !! path id)).

(** A card of the list: a file without a platform is removed and not listed. *)
(* src/libs/hbb_common/src/config.rs:1524-1534 PeerConfig::batch_peers *)
Definition load_card (stem : string) (f : peer_files) : option (string * PeerConfig) * peer_files :=
  let id := id_of_path stem in
  let '(c, f) := load id f in
  if decide (platform (info c) = ""%string) then (None, delete stem f) else (Some (id, c), f).

Definition BATCH_LOADING_COUNT : Z := 100.

(** The cards [from] to [to] of the listed files, in their order, and where the next batch
    starts. *)
(* src/libs/hbb_common/src/config.rs:1505-1536 PeerConfig::batch_peers *)
Definition batch_peers (all : list string) (from : nat) (to : option nat) (f : peer_files)
    : list (string * PeerConfig) * nat * peer_files :=
  if (length all <=? from)%nat then ([], 0%nat, f)
  else
    let to := Nat.min (match to with Some to => to | None => from + Z.to_nat BATCH_LOADING_COUNT end)%nat
                (length all) in
    if (to <=? from)%nat then ([], from, f)
    else
      let '(cards, f) := foldl (fun '(cards, f) stem =>
        let '(card, f) := load_card stem f in
        (cards ++ match card with Some x => [x] | None => [] end, f)) ([], f) (take (to - from) (drop from all)) in
      (cards, to, f).

(** ** What is kept *)

(** A text that survives being sealed. *)
Definition secret_ok (s : string) : Prop :=
  utf8 s /\ sealed mk_key uuid s = false /\ chars_count s <= ENCRYPT_MAX_LEN.

(** Secrets that survive, and values in the ranges of their fields. *)
Record storable (c : PeerConfig) : Prop := {
  st_password : snd (fst (decrypt_vec_or_original mk_key uuid (password c) PASSWORD_ENC_VERSION)) = false;
  st_length : zlen (password c) <= ENCRYPT_MAX_LEN;
  st_options : forall k s, k ∈ SEALED_OPTIONS -> options c !! k = Some s -> secret_ok s;
}.

Record in_range (c : PeerConfig) : Prop := {
  ir_styles : view_style (styles c) <> ""%string /\ scroll_style (styles c) <> ""%string /\
    image_quality (styles c) <> ""%string /\ reverse_mouse_wheel (styles c) <> ""%string /\
    displays_as_individual_windows (styles c) <> ""%string /\
    use_all_my_displays_for_the_remote_session (styles c) <> ""%string;
  ir_thickness : 20 <= edge_scroll_edge_thickness c <= 150;
  ir_quality : exists q, custom_image_quality c = [q] /\ 10 <= q <= 0xFFF;
  ir_speed : 10 <= trackpad_speed c <= 1000;
}.

Lemma read_string_same d s : s <> ""%string -> read_string d s = s.
Proof. intros N. unfold read_string. by rewrite decide_False. Qed.

Lemma deserialize_same c : in_range c -> deserialize c = c.
Proof.
  intros [(? & ? & ? & ? & ? & ?) ? (q & Q & ?) ?]. destruct c as [pw sz [] th qs t pf df sp cr o u i tr]; simpl in *.
  unfold deserialize, deserialize_styles, deserialize_edge_scroll_edge_thickness, deserialize_trackpad_speed.
  simpl. rewrite !read_string_same by done. subst qs. simpl.
  by rewrite !(proj2 (Z.leb_le _ _)) by lia.
Qed.

Lemma seal_options_lookup (ks : list string) (o : settings) k :
  NoDup ks ->
  foldl (fun o k => alter seal_str k o) o ks !! k = (if decide (k ∈ ks) then seal_str <$> o !! k else o !! k).
Proof.
  revert o. induction ks as [|k' ks IH]; intros o N; simpl; [done|].
  apply NoDup_cons in N as [N1 N2]. rewrite IH by done. destruct (decide (k = k')) as [->|Nk].
  - rewrite lookup_alter_eq. repeat case_decide; set_solver.
  - rewrite lookup_alter_ne by done. do 2 case_decide; set_solver.
Qed.

Lemma open_options_lookup (ks : list string) (o : settings) again k :
  NoDup ks -> (forall k s, k ∈ ks -> o !! k = Some s ->
    snd (decrypt_str_or_original mk_key uuid s PASSWORD_ENC_VERSION) = false) ->
  let '(o', again') := foldl open_option (o, again) ks in
  again' = again /\
  o' !! k = (if decide (k ∈ ks)
             then (fun s => fst (fst (decrypt_str_or_original mk_key uuid s PASSWORD_ENC_VERSION))) <$> o !! k
             else o !! k).
Proof.
  revert o. induction ks as [|k' ks IH]; intros o N S; simpl; [done|].
  apply NoDup_cons in N as [N1 N2]. destruct (o !! k') as [s|] eqn:E.
  - pose proof (S k' s ltac:(by left) E) as S1.
    destruct (decrypt_str_or_original mk_key uuid s PASSWORD_ENC_VERSION) as [[s' d] st] eqn:D. simpl in S1. subst st.
    rewrite orb_false_r. specialize (IH (<[k':=s']> o) N2). destruct (foldl _ _ _) as [o' again'].
    destruct IH as [-> ->].
    { intros k0 s0 K L. rewrite lookup_insert_ne in L by set_solver. apply (S k0); set_solver. }
    split; [done|]. destruct (decide (k = k')) as [->|Nk].
    + rewrite lookup_insert_eq, E. simpl. rewrite D. repeat case_decide; set_solver.
    + rewrite lookup_insert_ne by done. do 2 case_decide; set_solver.
  - specialize (IH o N2). destruct (foldl _ _ _) as [o' again']. destruct IH as [-> ->].
    { intros k0 s0 K L. apply (S k0); set_solver. }
    split; [done|]. destruct (decide (k = k')) as [->|Nk].
    + rewrite E. repeat case_decide; set_solver.
    + do 2 case_decide; set_solver.
Qed.

Lemma sealed_options_nodup : NoDup SEALED_OPTIONS.
Proof. apply (bool_decide_unpack _). by vm_compute. Qed.

Lemma store_load_bytes v :
  snd (fst (decrypt_vec_or_original mk_key uuid v PASSWORD_ENC_VERSION)) = false -> zlen v <= ENCRYPT_MAX_LEN ->
  exists b, decrypt_vec_or_original mk_key uuid
    (encrypt_vec_or_original mk_key uuid v PASSWORD_ENC_VERSION ENCRYPT_MAX_LEN) PASSWORD_ENC_VERSION = (v, b, false).
Proof.
  intros S L. destruct (decide (v = [])) as [->|N]; [by eexists|].
  destruct (secret_bytes_roundtrip mk_key uuid v ENCRYPT_MAX_LEN S L N) as [E _]. by eexists.
Qed.

(** What is read of a file that was written. *)
Lemma peer_load_sealed id c f :
  storable c -> f !! path id = Some (sealed_peer c) -> load id f = (deserialize c, f).
Proof.
  intros [Sp Sl So] E. unfold load. rewrite E.
  destruct (store_load_bytes (password c) Sp Sl) as [b Eb]. cbn [deserialize sealed_peer password p_set_options p_set_password].
  rewrite Eb. change (options (deserialize (sealed_peer c))) with
    (foldl (fun o k => alter seal_str k o) (options c) SEALED_OPTIONS).
  set (o := foldl _ (options c) SEALED_OPTIONS).
  assert (forall k, o !! k = if decide (k ∈ SEALED_OPTIONS) then seal_str <$> options c !! k else options c !! k) as Lo
    by (intros k; apply seal_options_lookup, sealed_options_nodup).
  assert (forall k s, k ∈ SEALED_OPTIONS -> o !! k = Some s -> exists s0, options c !! k = Some s0 /\
    decrypt_str_or_original mk_key uuid s PASSWORD_ENC_VERSION = (s0, negb (bool_decide (s0 = ""%string)), false)) as D.
  { intros k s K Es. rewrite Lo, decide_True in Es by done. apply fmap_Some in Es as (s0 & E0 & ->).
    destruct (So k s0 K E0) as (? & ? & ?). exists s0. split; [done|]. by apply store_load_secret. }
  pose proof (fun k => open_options_lookup SEALED_OPTIONS o false k sealed_options_nodup
    ltac:(intros k' s K Es; by destruct (D k' s K Es) as (? & ? & ->))) as P.
  destruct (foldl open_option (o, false) SEALED_OPTIONS) as [o' again].
  destruct (P ""%string) as [-> _].
  assert (o' = options c) as ->; [|reflexivity].
  apply map_eq. intros k. destruct (P k) as [_ ->]. case_decide as K; [|by rewrite Lo, decide_False].
  destruct (o !! k) as [s|] eqn:Es; simpl.
  - destruct (D k s K Es) as (s0 & -> & ->). done.
  - rewrite Lo, decide_True in Es by done. by apply fmap_None in Es.
Qed.

(** What is remembered of a peer is read back: after storing a configuration, whose
    secrets have at most 128 characters and are not sealed texts themselves, loading it
    gives the same one, with empty styles and numbers out of range replaced by the
    defaults, and writes nothing; and the other peers keep theirs. *)
Theorem peer_config_roundtrip id id' c f :
  storable c -> path id' <> path id ->
  load id (store id c f) = (deserialize c, store id c f) /\
  (in_range c -> fst (load id (store id c f)) = c) /\
  fst (load id' (store id c f)) = fst (load id' f) /\
  exists_ id (store id c f) = true /\ exists_ id' (store id c f) = exists_ id' f /\
  fst (load id (remove id (store id c f))) = default_peer.
Proof.
  intros S N. assert (load id (store id c f) = (deserialize c, store id c f)) as E.
  { apply peer_load_sealed; [done|]. apply lookup_insert_eq. }
  split_and!; [done|..].
  - intros R. rewrite E. by apply deserialize_same.
  - unfold load, store. rewrite lookup_insert_ne by done.
    destruct (f !! path id') as [c'|]; [|done]. destruct (decrypt_vec_or_original _ _ _ _) as [[pw d] again].
    by destruct (foldl _ _ _).
  - unfold exists_, store. by rewrite lookup_insert_eq.
  - unfold exists_, store. by rewrite lookup_insert_ne.
  - unfold load, remove. by rewrite lookup_delete_eq.
Qed.

Lemma path_decodes id : utf8 id -> take 7 (as_bytes id) <> as_bytes "base64_" -> id_of_path (path id) = id.
Proof.
  intros U N. unfold path, id_of_path. destruct (has_forbidden id) eqn:F; [|by rewrite bool_decide_false].
  assert (as_bytes (b64_encode (as_bytes id)) <> []) as Ne.
  { intros E. assert (b64_encode (as_bytes id) = ""%string) as E' by (by apply as_bytes_inj).
    apply b64_nonempty in E'. assert (id = ""%string) as -> by (by apply as_bytes_inj). done. }
  rewrite as_bytes_app. let v := eval vm_compute in (as_bytes "base64_") in change (as_bytes "base64_") with v.
  cbn [app take drop]. rewrite take_0, drop_0, bool_decide_true, !zlen_cons by done.
  assert (0 < zlen (as_bytes (b64_encode (as_bytes id)))) as L.
  { destruct (as_bytes (b64_encode (as_bytes id))) as [|x l]; [done|]. rewrite zlen_cons. pose proof (zlen_nonneg l). lia. }
  rewrite (proj2 (Z.eqb_neq _ _)) by lia. cbn [negb andb].
  rewrite b64_roundtrip. by apply from_utf8_lossy_valid.
Qed.

(** The list of peers is the list of files: the name of a peer's file gives back its
    identifier, so that different peers have different files, and the card that is loaded
    for a file is the configuration of its peer; a file that knows no platform is removed.
    (Identifiers that begin with base64_ apart.) *)
Theorem cards_of_files id c f :
  utf8 id -> take 7 (as_bytes id) <> as_bytes "base64_" -> storable c ->
  (forall id', utf8 id' -> take 7 (as_bytes id') <> as_bytes "base64_" -> path id' = path id -> id' = id) /\
  load_card (path id) (store id c f) =
    (if decide (platform (info c) = ""%string) then (None, remove id (store id c f))
     else (Some (id, deserialize c), store id c f)).
Proof.
  intros U N S. split.
  - intros id' U' N' E. rewrite <- (path_decodes id U N), <- E. by rewrite path_decodes.
  - unfold load_card. rewrite path_decodes by done.
    rewrite (peer_load_sealed id c (store id c f) S) by apply lookup_insert_eq.
    done.
Qed.

End peers.

(** ** Witnesses *)

Definition a_peer : PeerConfig :=
  p_set_password [Byte.x61; Byte.x62] (p_set_options {["os-password" := "pw"]}%string
    (p_set_info (mkInfo "alice" "desk" "Windows" "") (default_peer (fun _ => "x"%string) (fun _ => Some 50)))).

Lemma a_peer_storable : storable (H := box_plain) (H0 := base64_hex) (fun _ => tt) [] a_peer.
Proof.
  split; [by vm_compute..|]. intros k s K L.
  assert (k = "os-password"%string \/ k <> "os-password"%string) as [->|N] by (by destruct (decide (k = "os-password"%string)); auto).
  - vm_compute in L. injection L as <-. by split_and!; vm_compute.
  - unfold a_peer in L. cbn [options p_set_password p_set_options] in L. by rewrite lookup_singleton_ne in L.
Qed.

Lemma peer_config_roundtrip_witness :
  let read := fun _ => "x"%string in
  let f := store (H := box_plain) (H0 := base64_hex) (fun _ => tt) [] "9:1" a_peer ∅ in
  fst (load (H := box_plain) (H0 := base64_hex) (fun _ => tt) [] read (fun _ => Some 50) "9:1" f) = a_peer /\
  f !! "9:1"%string = None.
Proof.
  cbv zeta. split; [|by vm_compute].
  refine (proj1 (proj2 (peer_config_roundtrip (H := box_plain) (H0 := base64_hex) (fun _ => tt) [] (fun _ => "x"%string)
    (fun _ => Some 50) "9:1" "7" a_peer ∅ a_peer_storable _)) _); [by vm_compute|].
  split; [by vm_compute|by vm_compute| |by vm_compute]. by exists 50.
Defined.

Lemma cards_of_files_witness :
  fst (load_card (H := box_plain) (H0 := base64_hex) (fun _ => tt) [] (fun _ => "x"%string) (fun _ => Some 50) (path (H0 := base64_hex) "9:1")
    (store (H := box_plain) (H0 := base64_hex) (fun _ => tt) [] "9:1" a_peer ∅)) = Some ("9:1"%string, a_peer).
Proof.
  rewrite (proj2 (cards_of_files (H := box_plain) (H0 := base64_hex) (fun _ => tt) [] (fun _ => "x"%string) (fun _ => Some 50)
    "9:1" a_peer ∅ ltac:(by vm_compute) ltac:(by vm_compute) a_peer_storable)).
  by vm_compute.
Defined.
