(* ===== verification/LoginConfig.v ===== *)
(** * The session of the controlling side

    [LoginConfigHandler] of [src/client.rs], in a build with the flutter user interface:
    the options of a session, which live in the file of the peer ([PeerConfig]), where the
    password of a login comes from, what a login says, and what is remembered of it.

    The files of the peers are an interface, [PeerStore]: what is stored is loaded again.
    [Session] proves that [PeerConfig] implements it.  Messages go out as those of [ConnState], so that
    [ConnLogin] and [ConnMessages] are the other end; a dialog is its kind and its title.
    Random numbers, the address book, the options of the program and what the system knows
    of itself are an environment. *)

From Stdlib Require Import Ascii.
From S2P Require Import Prelude Utf8 Secure PasswordStore Options Config LoginGuard CodecChoice ConnState PeerConfig.

(** ** The files of the peers *)

Class PeerStore : Type := {
  ps_files : Type;
  ps_load : string -> ps_files -> PeerConfig * ps_files;
  ps_store : string -> PeerConfig -> ps_files -> ps_files;
  (** Secrets that a file can hold; what reading a file replaces. *)
  ps_ok : PeerConfig -> Prop;
  ps_norm : PeerConfig -> PeerConfig;
  ps_load_store id c f : ps_ok c -> ps_load id (ps_store id c f) = (ps_norm c, ps_store id c f);
  ps_load_settles id f : ps_ok (fst (ps_load id f)) ->
    ps_load id (snd (ps_load id f)) = (fst (ps_load id f), snd (ps_load id f));
  ps_norm_toggles c : toggles (ps_norm c) = toggles c;
  ps_norm_password c : password (ps_norm c) = password c;
  ps_norm_options c : options (ps_norm c) = options c;
  ps_ok_secrets c c' : password c' = password c -> options c' = options c -> ps_ok c -> ps_ok c';
}.

(** ** The state *)

(* src/libs/hbb_common/protos/rendezvous.proto:9-16 ConnType *)
Inductive ConnType := DEFAULT_CONN | FILE_TRANSFER | PORT_FORWARD | RDP | VIEW_CAMERA | TERMINAL.

#[export] Instance ConnType_eq_dec : EqDecision ConnType.
Proof. solve_decision. Defined.

(* src/libs/hbb_common/protos/message.proto:328-331 Hash *)
Record Hash : Type := mkHash { h_salt : string; h_challenge : string }.

(* src/src/client.rs:1672-1678 PasswordSource *)
Inductive PasswordSource :=
| PersonalAb (p : bytes)
| SharedAb (p : string)
| Undefined.

(* src/src/client.rs:1719-1724 ConnToken *)
Record ConnToken : Type := mkToken {
  tk_password : bytes;
  tk_source : PasswordSource;
  tk_session_id : Z;
}.

(* src/src/client.rs:1726-1759 LoginConfigHandler *)
Record LoginConfigHandler : Type := mkLch {
  lc_id : string;
  conn_type : ConnType;
  is_terminal_admin : bool;
  lc_hash : Hash;
  lc_password : bytes;
  remember : bool;
  config : PeerConfig;
  lc_port_forward : string * Z;
  lc_version : Z;
  features : option bool;
  lc_session_id : Z;
  supported_encoding : option SupportedEncoding;
  restarting_remote_device : bool;
  force_relay : bool;
  direct : option bool;
  received : bool;
  switch_uuid : option string;
  other_server : option (string * string * string);
  lc_custom_fps : option Z;
  adapter_luid : option Z;
  selected_windows_session_id : option Z;
  password_source : PasswordSource;
  shared_password : option string;
  record_state : bool;
  record_permission : bool;
}.

Definition l_set_lc_hash (v : Hash) (lc : LoginConfigHandler) : LoginConfigHandler :=
  mkLch (lc_id lc) (conn_type lc) (is_terminal_admin lc) v (lc_password lc)
    (remember lc) (config lc) (lc_port_forward lc) (lc_version lc) (features lc)
    (lc_session_id lc) (supported_encoding lc) (restarting_remote_device lc)
    (force_relay lc) (direct lc) (received lc) (switch_uuid lc) (other_server lc)
    (lc_custom_fps lc) (adapter_luid lc) (selected_windows_session_id lc)
    (password_source lc) (shared_password lc) (record_state lc) (record_permission
    lc).
Definition l_set_lc_password (v : bytes) (lc : LoginConfigHandler) : LoginConfigHandler :=
  mkLch (lc_id lc) (conn_type lc) (is_terminal_admin lc) (lc_hash lc) v (remember
    lc) (config lc) (lc_port_forward lc) (lc_version lc) (features lc)
    (lc_session_id lc) (supported_encoding lc) (restarting_remote_device lc)
    (force_relay lc) (direct lc) (received lc) (switch_uuid lc) (other_server lc)
    (lc_custom_fps lc) (adapter_luid lc) (selected_windows_session_id lc)
    (password_source lc) (shared_password lc) (record_state lc) (record_permission
    lc).
Definition l_set_remember (v : bool) (lc : LoginConfigHandler) : LoginConfigHandler :=
  mkLch (lc_id lc) (conn_type lc) (is_terminal_admin lc) (lc_hash lc) (lc_password
    lc) v (config lc) (lc_port_forward lc) (lc_version lc) (features lc)
    (lc_session_id lc) (supported_encoding lc) (restarting_remote_device lc)
    (force_relay lc) (direct lc) (received lc) (switch_uuid lc) (other_server lc)
    (lc_custom_fps lc) (adapter_luid lc) (selected_windows_session_id lc)
    (password_source lc) (shared_password lc) (record_state lc) (record_permission
    lc).
Definition l_set_config (v : PeerConfig) (lc : LoginConfigHandler) : LoginConfigHandler :=
  mkLch (lc_id lc) (conn_type lc) (is_terminal_admin lc) (lc_hash lc) (lc_password
    lc) (remember lc) v (lc_port_forward lc) (lc_version lc) (features lc)
    (lc_session_id lc) (supported_encoding lc) (restarting_remote_device lc)
    (force_relay lc) (direct lc) (received lc) (switch_uuid lc) (other_server lc)
    (lc_custom_fps lc) (adapter_luid lc) (selected_windows_session_id lc)
    (password_source lc) (shared_password lc) (record_state lc) (record_permission
    lc).
Definition l_set_lc_version (v : Z) (lc : LoginConfigHandler) : LoginConfigHandler :=
  mkLch (lc_id lc) (conn_type lc) (is_terminal_admin lc) (lc_hash lc) (lc_password
    lc) (remember lc) (config lc) (lc_port_forward lc) v (features lc)
    (lc_session_id lc) (supported_encoding lc) (restarting_remote_device lc)
    (force_relay lc) (direct lc) (received lc) (switch_uuid lc) (other_server lc)
    (lc_custom_fps lc) (adapter_luid lc) (selected_windows_session_id lc)
    (password_source lc) (shared_password lc) (record_state lc) (record_permission
    lc).
Definition l_set_features (v : option bool) (lc : LoginConfigHandler) : LoginConfigHandler :=
  mkLch (lc_id lc) (conn_type lc) (is_terminal_admin lc) (lc_hash lc) (lc_password
    lc) (remember lc) (config lc) (lc_port_forward lc) (lc_version lc) v
    (lc_session_id lc) (supported_encoding lc) (restarting_remote_device lc)
    (force_relay lc) (direct lc) (received lc) (switch_uuid lc) (other_server lc)
    (lc_custom_fps lc) (adapter_luid lc) (selected_windows_session_id lc)
    (password_source lc) (shared_password lc) (record_state lc) (record_permission
    lc).
Definition l_set_supported_encoding (v : option SupportedEncoding) (lc : LoginConfigHandler) : LoginConfigHandler :=
  mkLch (lc_id lc) (conn_type lc) (is_terminal_admin lc) (lc_hash lc) (lc_password
    lc) (remember lc) (config lc) (lc_port_forward lc) (lc_version lc) (features lc)
    (lc_session_id lc) v (restarting_remote_device lc) (force_relay lc) (direct lc)
    (received lc) (switch_uuid lc) (other_server lc) (lc_custom_fps lc)
    (adapter_luid lc) (selected_windows_session_id lc) (password_source lc)
    (shared_password lc) (record_state lc) (record_permission lc).
Definition l_set_direct (v : option bool) (lc : LoginConfigHandler) : LoginConfigHandler :=
  mkLch (lc_id lc) (conn_type lc) (is_terminal_admin lc) (lc_hash lc) (lc_password
    lc) (remember lc) (config lc) (lc_port_forward lc) (lc_version lc) (features lc)
    (lc_session_id lc) (supported_encoding lc) (restarting_remote_device lc)
    (force_relay lc) v (received lc) (switch_uuid lc) (other_server lc)
    (lc_custom_fps lc) (adapter_luid lc) (selected_windows_session_id lc)
    (password_source lc) (shared_password lc) (record_state lc) (record_permission
    lc).
Definition l_set_received (v : bool) (lc : LoginConfigHandler) : LoginConfigHandler :=
  mkLch (lc_id lc) (conn_type lc) (is_terminal_admin lc) (lc_hash lc) (lc_password
    lc) (remember lc) (config lc) (lc_port_forward lc) (lc_version lc) (features lc)
    (lc_session_id lc) (supported_encoding lc) (restarting_remote_device lc)
    (force_relay lc) (direct lc) v (switch_uuid lc) (other_server lc) (lc_custom_fps
    lc) (adapter_luid lc) (selected_windows_session_id lc) (password_source lc)
    (shared_password lc) (record_state lc) (record_permission lc).
Definition l_set_switch_uuid (v : option string) (lc : LoginConfigHandler) : LoginConfigHandler :=
  mkLch (lc_id lc) (conn_type lc) (is_terminal_admin lc) (lc_hash lc) (lc_password
    lc) (remember lc) (config lc) (lc_port_forward lc) (lc_version lc) (features lc)
    (lc_session_id lc) (supported_encoding lc) (restarting_remote_device lc)
    (force_relay lc) (direct lc) (received lc) v (other_server lc) (lc_custom_fps
    lc) (adapter_luid lc) (selected_windows_session_id lc) (password_source lc)
    (shared_password lc) (record_state lc) (record_permission lc).
Definition l_set_lc_custom_fps (v : option Z) (lc : LoginConfigHandler) : LoginConfigHandler :=
  mkLch (lc_id lc) (conn_type lc) (is_terminal_admin lc) (lc_hash lc) (lc_password
    lc) (remember lc) (config lc) (lc_port_forward lc) (lc_version lc) (features lc)
    (lc_session_id lc) (supported_encoding lc) (restarting_remote_device lc)
    (force_relay lc) (direct lc) (received lc) (switch_uuid lc) (other_server lc) v
    (adapter_luid lc) (selected_windows_session_id lc) (password_source lc)
    (shared_password lc) (record_state lc) (record_permission lc).
Definition l_set_password_source (v : PasswordSource) (lc : LoginConfigHandler) : LoginConfigHandler :=
  mkLch (lc_id lc) (conn_type lc) (is_terminal_admin lc) (lc_hash lc) (lc_password
    lc) (remember lc) (config lc) (lc_port_forward lc) (lc_version lc) (features lc)
    (lc_session_id lc) (supported_encoding lc) (restarting_remote_device lc)
    (force_relay lc) (direct lc) (received lc) (switch_uuid lc) (other_server lc)
    (lc_custom_fps lc) (adapter_luid lc) (selected_windows_session_id lc) v
    (shared_password lc) (record_state lc) (record_permission lc).
Definition l_set_shared_password (v : option string) (lc : LoginConfigHandler) : LoginConfigHandler :=
  mkLch (lc_id lc) (conn_type lc) (is_terminal_admin lc) (lc_hash lc) (lc_password
    lc) (remember lc) (config lc) (lc_port_forward lc) (lc_version lc) (features lc)
    (lc_session_id lc) (supported_encoding lc) (restarting_remote_device lc)
    (force_relay lc) (direct lc) (received lc) (switch_uuid lc) (other_server lc)
    (lc_custom_fps lc) (adapter_luid lc) (selected_windows_session_id lc)
    (password_source lc) v (record_state lc) (record_permission lc).

(** The message with a field changed, and the one that changes nothing. *)
Definition set_o_image_quality (v : option Z) (m : OptionMessage) : OptionMessage :=
  mkOption v (o_lock_after_session_end m) (o_show_remote_cursor m) (o_privacy_mode
    m) (o_block_input m) (o_custom_image_quality m) (o_disable_audio m)
    (o_disable_clipboard m) (o_enable_file_transfer m) (o_supported_decoding m)
    (o_custom_fps m) (o_disable_keyboard m) (o_follow_remote_cursor m)
    (o_follow_remote_window m) (o_terminal_persistent m) (o_show_my_cursor m).
Definition set_o_lock_after_session_end (v : option BoolOption) (m : OptionMessage) : OptionMessage :=
  mkOption (o_image_quality m) v (o_show_remote_cursor m) (o_privacy_mode m)
    (o_block_input m) (o_custom_image_quality m) (o_disable_audio m)
    (o_disable_clipboard m) (o_enable_file_transfer m) (o_supported_decoding m)
    (o_custom_fps m) (o_disable_keyboard m) (o_follow_remote_cursor m)
    (o_follow_remote_window m) (o_terminal_persistent m) (o_show_my_cursor m).
Definition set_o_show_remote_cursor (v : option BoolOption) (m : OptionMessage) : OptionMessage :=
  mkOption (o_image_quality m) (o_lock_after_session_end m) v (o_privacy_mode m)
    (o_block_input m) (o_custom_image_quality m) (o_disable_audio m)
    (o_disable_clipboard m) (o_enable_file_transfer m) (o_supported_decoding m)
    (o_custom_fps m) (o_disable_keyboard m) (o_follow_remote_cursor m)
    (o_follow_remote_window m) (o_terminal_persistent m) (o_show_my_cursor m).
Definition set_o_privacy_mode (v : option BoolOption) (m : OptionMessage) : OptionMessage :=
  mkOption (o_image_quality m) (o_lock_after_session_end m) (o_show_remote_cursor m)
    v (o_block_input m) (o_custom_image_quality m) (o_disable_audio m)
    (o_disable_clipboard m) (o_enable_file_transfer m) (o_supported_decoding m)
    (o_custom_fps m) (o_disable_keyboard m) (o_follow_remote_cursor m)
    (o_follow_remote_window m) (o_terminal_persistent m) (o_show_my_cursor m).
Definition set_o_block_input (v : option BoolOption) (m : OptionMessage) : OptionMessage :=
  mkOption (o_image_quality m) (o_lock_after_session_end m) (o_show_remote_cursor m)
    (o_privacy_mode m) v (o_custom_image_quality m) (o_disable_audio m)
    (o_disable_clipboard m) (o_enable_file_transfer m) (o_supported_decoding m)
    (o_custom_fps m) (o_disable_keyboard m) (o_follow_remote_cursor m)
    (o_follow_remote_window m) (o_terminal_persistent m) (o_show_my_cursor m).
Definition set_o_custom_image_quality (v : Z) (m : OptionMessage) : OptionMessage :=
  mkOption (o_image_quality m) (o_lock_after_session_end m) (o_show_remote_cursor m)
    (o_privacy_mode m) (o_block_input m) v (o_disable_audio m) (o_disable_clipboard
    m) (o_enable_file_transfer m) (o_supported_decoding m) (o_custom_fps m)
    (o_disable_keyboard m) (o_follow_remote_cursor m) (o_follow_remote_window m)
    (o_terminal_persistent m) (o_show_my_cursor m).
Definition set_o_disable_audio (v : option BoolOption) (m : OptionMessage) : OptionMessage :=
  mkOption (o_image_quality m) (o_lock_after_session_end m) (o_show_remote_cursor m)
    (o_privacy_mode m) (o_block_input m) (o_custom_image_quality m) v
    (o_disable_clipboard m) (o_enable_file_transfer m) (o_supported_decoding m)
    (o_custom_fps m) (o_disable_keyboard m) (o_follow_remote_cursor m)
    (o_follow_remote_window m) (o_terminal_persistent m) (o_show_my_cursor m).
Definition set_o_disable_clipboard (v : option BoolOption) (m : OptionMessage) : OptionMessage :=
  mkOption (o_image_quality m) (o_lock_after_session_end m) (o_show_remote_cursor m)
    (o_privacy_mode m) (o_block_input m) (o_custom_image_quality m) (o_disable_audio
    m) v (o_enable_file_transfer m) (o_supported_decoding m) (o_custom_fps m)
    (o_disable_keyboard m) (o_follow_remote_cursor m) (o_follow_remote_window m)
    (o_terminal_persistent m) (o_show_my_cursor m).
Definition set_o_enable_file_transfer (v : option BoolOption) (m : OptionMessage) : OptionMessage :=
  mkOption (o_image_quality m) (o_lock_after_session_end m) (o_show_remote_cursor m)
    (o_privacy_mode m) (o_block_input m) (o_custom_image_quality m) (o_disable_audio
    m) (o_disable_clipboard m) v (o_supported_decoding m) (o_custom_fps m)
    (o_disable_keyboard m) (o_follow_remote_cursor m) (o_follow_remote_window m)
    (o_terminal_persistent m) (o_show_my_cursor m).
Definition set_o_supported_decoding (v : option SupportedDecoding) (m : OptionMessage) : OptionMessage :=
  mkOption (o_image_quality m) (o_lock_after_session_end m) (o_show_remote_cursor m)
    (o_privacy_mode m) (o_block_input m) (o_custom_image_quality m) (o_disable_audio
    m) (o_disable_clipboard m) (o_enable_file_transfer m) v (o_custom_fps m)
    (o_disable_keyboard m) (o_follow_remote_cursor m) (o_follow_remote_window m)
    (o_terminal_persistent m) (o_show_my_cursor m).
Definition set_o_custom_fps (v : Z) (m : OptionMessage) : OptionMessage :=
  mkOption (o_image_quality m) (o_lock_after_session_end m) (o_show_remote_cursor m)
    (o_privacy_mode m) (o_block_input m) (o_custom_image_quality m) (o_disable_audio
    m) (o_disable_clipboard m) (o_enable_file_transfer m) (o_supported_decoding m) v
    (o_disable_keyboard m) (o_follow_remote_cursor m) (o_follow_remote_window m)
    (o_terminal_persistent m) (o_show_my_cursor m).
Definition set_o_disable_keyboard (v : option BoolOption) (m : OptionMessage) : OptionMessage :=
  mkOption (o_image_quality m) (o_lock_after_session_end m) (o_show_remote_cursor m)
    (o_privacy_mode m) (o_block_input m) (o_custom_image_quality m) (o_disable_audio
    m) (o_disable_clipboard m) (o_enable_file_transfer m) (o_supported_decoding m)
    (o_custom_fps m) v (o_follow_remote_cursor m) (o_follow_remote_window m)
    (o_terminal_persistent m) (o_show_my_cursor m).
Definition set_o_follow_remote_cursor (v : option BoolOption) (m : OptionMessage) : OptionMessage :=
  mkOption (o_image_quality m) (o_lock_after_session_end m) (o_show_remote_cursor m)
    (o_privacy_mode m) (o_block_input m) (o_custom_image_quality m) (o_disable_audio
    m) (o_disable_clipboard m) (o_enable_file_transfer m) (o_supported_decoding m)
    (o_custom_fps m) (o_disable_keyboard m) v (o_follow_remote_window m)
    (o_terminal_persistent m) (o_show_my_cursor m).
Definition set_o_follow_remote_window (v : option BoolOption) (m : OptionMessage) : OptionMessage :=
  mkOption (o_image_quality m) (o_lock_after_session_end m) (o_show_remote_cursor m)
    (o_privacy_mode m) (o_block_input m) (o_custom_image_quality m) (o_disable_audio
    m) (o_disable_clipboard m) (o_enable_file_transfer m) (o_supported_decoding m)
    (o_custom_fps m) (o_disable_keyboard m) (o_follow_remote_cursor m) v
    (o_terminal_persistent m) (o_show_my_cursor m).
Definition set_o_terminal_persistent (v : option BoolOption) (m : OptionMessage) : OptionMessage :=
  mkOption (o_image_quality m) (o_lock_after_session_end m) (o_show_remote_cursor m)
    (o_privacy_mode m) (o_block_input m) (o_custom_image_quality m) (o_disable_audio
    m) (o_disable_clipboard m) (o_enable_file_transfer m) (o_supported_decoding m)
    (o_custom_fps m) (o_disable_keyboard m) (o_follow_remote_cursor m)
    (o_follow_remote_window m) v (o_show_my_cursor m).
Definition set_o_show_my_cursor (v : option BoolOption) (m : OptionMessage) : OptionMessage :=
  mkOption (o_image_quality m) (o_lock_after_session_end m) (o_show_remote_cursor m)
    (o_privacy_mode m) (o_block_input m) (o_custom_image_quality m) (o_disable_audio
    m) (o_disable_clipboard m) (o_enable_file_transfer m) (o_supported_decoding m)
    (o_custom_fps m) (o_disable_keyboard m) (o_follow_remote_cursor m)
    (o_follow_remote_window m) (o_terminal_persistent m) v.

Definition no_option : OptionMessage :=
  let n := Some NotSet in mkOption (Some 0) n n n n 0 n n n None 0 n n n n n.

Definition yes_no (b : bool) : option BoolOption := Some (if b then Yes else No).

(** ** The surroundings *)

Record AbPeer : Type := mkAbPeer { ab_id : string; ab_hash : string }.

Record AbEntry : Type := mkAbEntry { ab_name : string; ab_peers : list AbPeer }.

Record CEnv : Type := mkCEnv {
  ce_rand : Z;
  ce_use_ws : bool;
  ce_is_proxy : bool;
  ce_terminal_admin : bool;
  ce_public_server : bool;
  ce_my_id : string;
  ce_rendezvous_server : string;
  ce_display_name : string;
  ce_platform : string;
  ce_version : string;
  ce_hwid : bytes;
  ce_default_password : string;
  ce_access_token : string;
  ce_ab_token : string;
  ce_ab : list AbEntry;
  ce_remote_dir : string;
  ce_decoding : SupportedDecoding;
}.

(** What the peer tells about itself when it accepts; the version of its system was
    looked up in the JSON of its additions. *)
Record PeerInfo : Type := mkPeerInfo {
  pi_username : string;
  pi_hostname : string;
  pi_platform : string;
  pi_version : string;
  pi_os_version : string;
  pi_features : option bool;
  pi_encoding : option SupportedEncoding;
}.

(** What leaves the session. *)
Inductive output :=
| OLogin (lr : Login)
| OSwitch (lr : Login) (uuid : bytes)
| OOption (o : OptionMessage)
| OMsgbox (msgtype title text link : string)
| OSyncAb (hash : bytes).

(** [str::split_once]. *)
Fixpoint split_once (c : ascii) (s : string) : option (string * string) :=
  match s with
  | EmptyString => None
  | String x s =>
      if decide (x = c) then Some (""%string, s)
      else '(a, b) ← split_once c s; Some (String x a, b)
  end.

Definition ends_with2 (e s : string) : bool :=
  bool_decide (String.substring (String.length s - 2) 2 s = e).

(* src/src/ui_interface.rs:1525-1531 handle_relay_id *)
Definition handle_relay_id (id : string) : string :=
  if ends_with2 "\r" id || ends_with2 "/r" id then String.substring 0 (String.length id - 2) id else id.

Definition PUBLIC_SERVER : string := "public".

Section client.
Context (sha256 : bytes -> bytes) (lower : string -> string) (b64_decode : string -> option bytes)
  (parse_uuid : string -> option bytes) (parse_token : string -> option ConnToken)
  (show_token : ConnToken -> string) (RS_PUB_KEY : string).
Context `{PeerStore}.
Implicit Types (lc : LoginConfigHandler) (f : ps_files).

(** ** Sources of passwords *)

(** The hash that stands for a password. *)
(* src/src/client.rs:3569-3572 handle_login_from_ui *)
Definition salted (p : string) (h : Hash) : bytes :=
  sha256 (String.list_byte_of_string p ++ String.list_byte_of_string (h_salt h)).

(* src/src/client.rs:1709-1716 PasswordSource::equal *)
Definition equal (p : string) (connected : bytes) (h : Hash) : bool := bool_decide (connected = salted p h).

(* src/src/client.rs:1687-1696 PasswordSource::is_personal_ab *)
Definition is_personal_ab (s : PasswordSource) (p : bytes) : bool :=
  if decide (p = []) then false
  else match s with PersonalAb q => bool_decide (q = p) | _ => false end.

(* src/src/client.rs:1698-1707 PasswordSource::is_shared_ab *)
Definition is_shared_ab (s : PasswordSource) (p : bytes) (h : Hash) : bool :=
  if decide (p = []) then false
  else match s with SharedAb q => equal q p h | _ => false end.

(** ** Options *)

(* src/src/client.rs:2451-2457 LoginConfigHandler::get_option *)
Definition get_option (lc : LoginConfigHandler) (k : string) : string :=
  default ""%string (options (config lc) !! k).

(* src/src/client.rs:1888-1892 LoginConfigHandler::load_config *)
Definition load_config (lc : LoginConfigHandler) (f : ps_files) : PeerConfig * ps_files := ps_load (lc_id lc) f.

(* src/src/client.rs:1899-1902 LoginConfigHandler::save_config *)
Definition save_config (c : PeerConfig) (lc : LoginConfigHandler) (f : ps_files) : LoginConfigHandler * ps_files :=
  (l_set_config c lc, ps_store (lc_id lc) c f).

(** Loading, changing and saving, which most setters do. *)
Definition change (g : PeerConfig -> PeerConfig) (lc : LoginConfigHandler) (f : ps_files)
    : LoginConfigHandler * ps_files :=
  let '(c, f) := load_config lc f in save_config (g c) lc f.

(* src/src/client.rs:1910-1917 LoginConfigHandler::set_option *)
Definition set_option (k v : string) (lc : LoginConfigHandler) (f : ps_files) : LoginConfigHandler * ps_files :=
  let '(c, f) := load_config lc f in
  if decide (v = get_option lc k) then (lc, f) else save_config (p_set_options (<[k := v]> (options c)) c) lc f.

Definition change_style (g : Styles -> Styles) : LoginConfigHandler -> ps_files -> LoginConfigHandler * ps_files :=
  change (fun c => p_set_styles (g (styles c)) c).

(* src/src/client.rs:1926-1930 LoginConfigHandler::save_view_style *)
Definition save_view_style (v : string) := change_style (y_set_view_style v).

(* src/src/client.rs:1937-1941 LoginConfigHandler::save_keyboard_mode *)
Definition save_keyboard_mode (v : string) := change_style (y_set_keyboard_mode v).

(* src/src/client.rs:1948-1952 LoginConfigHandler::save_reverse_mouse_wheel *)
Definition save_reverse_mouse_wheel (v : string) := change_style (y_set_reverse_mouse_wheel v).

(* src/src/client.rs:1959-1963 LoginConfigHandler::save_displays_as_individual_windows *)
Definition save_displays_as_individual_windows (v : string) := change_style (y_set_displays_as_individual_windows v).

(* src/src/client.rs:1970-1974 LoginConfigHandler::save_use_all_my_displays_for_the_remote_session *)
Definition save_use_all_my_displays (v : string) :=
  change_style (y_set_use_all_my_displays_for_the_remote_session v).

(* src/src/client.rs:1981-1985 LoginConfigHandler::save_scroll_style *)
Definition save_scroll_style (v : string) := change_style (y_set_scroll_style v).

(* src/src/client.rs:1992-1996 LoginConfigHandler::save_edge_scroll_edge_thickness *)
Definition save_edge_scroll_edge_thickness (v : Z) := change (p_set_edge_scroll_edge_thickness v).

(* src/src/client.rs:2004-2012 LoginConfigHandler::save_ui_flutter *)
Definition save_ui_flutter (k v : string) :=
  change (fun c => p_set_ui_flutter
    (if decide (v = ""%string) then delete k (ui_flutter c) else <[k := v]> (ui_flutter c)) c).

(* src/src/client.rs:2014-2018 LoginConfigHandler::set_direct_failure *)
Definition set_direct_failure (v : Z) := change (p_set_direct_failures v).

(* src/src/client.rs:2026-2032 LoginConfigHandler::get_ui_flutter *)
Definition get_ui_flutter (lc : LoginConfigHandler) (k : string) : string :=
  default ""%string (ui_flutter (config lc) !! k).

(* src/src/client.rs:2420-2424 LoginConfigHandler::save_trackpad_speed *)
Definition save_trackpad_speed (v : Z) := change (p_set_trackpad_speed v).

(* src/src/client.rs:2459-2465 LoginConfigHandler::get_custom_resolution *)
Definition get_custom_resolution (lc : LoginConfigHandler) (display : string) : option (Z * Z) :=
  (fun r => (res_w r, res_h r)) <$> custom_resolutions (config lc) !! display.

(* src/src/client.rs:2467-2482 LoginConfigHandler::set_custom_resolution *)
Definition set_custom_resolution (display : string) (wh : option (Z * Z)) :=
  change (fun c => p_set_custom_resolutions
    (match wh with
     | Some (w, h) => <[display := mkResolution w h]> (custom_resolutions c)
     | None => delete display (custom_resolutions c)
     end) c).

(* src/src/client.rs:1877-1886 LoginConfigHandler::should_auto_login *)
Definition should_auto_login (lc : LoginConfigHandler) : string :=
  let p := get_option lc "os-password" in
  if negb (bool_decide (p = ""%string)) && lock_after_session_end (toggles (config lc)) &&
     negb (bool_decide (get_option lc "auto-login" = ""%string))
  then p else ""%string.

(* src/src/client.rs:2318-2348 LoginConfigHandler::get_toggle_option *)
Definition get_toggle_option (lc : LoginConfigHandler) (name : string) : bool :=
  let t := toggles (config lc) in
  if decide (name = "show-remote-cursor"%string) then show_remote_cursor t
  else if decide (name = "lock-after-session-end"%string) then lock_after_session_end t
  else if decide (name = "terminal-persistent"%string) then terminal_persistent t
  else if decide (name = "privacy-mode"%string) then privacy_mode t
  else if decide (name = "enable-file-copy-paste"%string) then enable_file_copy_paste t
  else if decide (name = "disable-audio"%string) then disable_audio t
  else if decide (name = "disable-clipboard"%string) then disable_clipboard t
  else if decide (name = "show-quality-monitor"%string) then show_quality_monitor t
  else if decide (name = "allow_swap_key"%string) then allow_swap_key t
  else if decide (name = "view-only"%string) then view_only t
  else if decide (name = "show-my-cursor"%string) then show_my_cursor t
  else if decide (name = "follow-remote-cursor"%string) then follow_remote_cursor t
  else if decide (name = "follow-remote-window"%string) then follow_remote_window t
  else negb (bool_decide (get_option lc name = ""%string)).

Definition contains (sub s : string) : bool := bool_decide (is_Some (String.index 0 sub s)).

(** A toggle that the other side is told about. *)
Definition flip (get : Toggles -> bool) (set : bool -> Toggles -> Toggles)
    (tell : option BoolOption -> OptionMessage -> OptionMessage) (c : PeerConfig) : PeerConfig * OptionMessage :=
  let v := negb (get (toggles c)) in
  (p_set_toggles (set v (toggles c)) c, tell (yes_no v) no_option).

(** Watching without input, which overrides other toggles on the other side. *)
(* src/src/client.rs:2126-2151 LoginConfigHandler::toggle_option *)
Definition toggle_view_only (lc : LoginConfigHandler) (c : PeerConfig) : PeerConfig * OptionMessage :=
  let t := t_set_view_only (negb (view_only (toggles c))) (toggles c) in
  if view_only t then
    (p_set_toggles t c,
     set_o_disable_keyboard (yes_no true) (set_o_disable_clipboard (yes_no true)
      (set_o_show_remote_cursor (yes_no true) (set_o_enable_file_transfer (yes_no false)
        (set_o_lock_after_session_end (yes_no false) no_option)))))
  else
    let o :=
      set_o_disable_keyboard (yes_no false)
        (set_o_disable_clipboard (yes_no (get_toggle_option lc "disable-clipboard"))
          (set_o_show_remote_cursor (yes_no (get_toggle_option lc "show-remote-cursor"))
            (set_o_enable_file_transfer (yes_no (enable_file_copy_paste (toggles (config lc))))
              (set_o_lock_after_session_end (yes_no (lock_after_session_end (toggles (config lc)))) no_option)))) in
    if show_my_cursor t
    then (p_set_toggles (t_set_show_my_cursor false t) c, set_o_show_my_cursor (yes_no false) o)
    else (p_set_toggles t c, o).

(** The toggles with a name; [None]: any other option, which is only kept. *)
(* src/src/client.rs:2043-2160 LoginConfigHandler::toggle_option *)
Definition toggled (name : string) (lc : LoginConfigHandler) (c : PeerConfig) : option (PeerConfig * OptionMessage) :=
  if decide (name = "show-remote-cursor"%string)
  then Some (flip show_remote_cursor t_set_show_remote_cursor set_o_show_remote_cursor c)
  else if decide (name = "follow-remote-cursor"%string)
  then Some (flip follow_remote_cursor t_set_follow_remote_cursor set_o_follow_remote_cursor c)
  else if decide (name = "follow-remote-window"%string)
  then Some (flip follow_remote_window t_set_follow_remote_window set_o_follow_remote_window c)
  else if decide (name = "disable-audio"%string)
  then Some (flip disable_audio t_set_disable_audio set_o_disable_audio c)
  else if decide (name = "disable-clipboard"%string)
  then Some (flip disable_clipboard t_set_disable_clipboard set_o_disable_clipboard c)
  else if decide (name = "lock-after-session-end"%string)
  then Some (flip lock_after_session_end t_set_lock_after_session_end set_o_lock_after_session_end c)
  else if decide (name = "terminal-persistent"%string)
  then Some (flip terminal_persistent t_set_terminal_persistent set_o_terminal_persistent c)
  else if decide (name = "privacy-mode"%string)
  then Some (c, set_o_privacy_mode (yes_no (negb (privacy_mode (toggles c)))) no_option)
  else if decide (name = "enable-file-copy-paste"%string)
  then Some (flip enable_file_copy_paste t_set_enable_file_copy_paste set_o_enable_file_transfer c)
  else if decide (name = "block-input"%string) then Some (c, set_o_block_input (yes_no true) no_option)
  else if decide (name = "unblock-input"%string) then Some (c, set_o_block_input (yes_no false) no_option)
  else if decide (name = "show-quality-monitor"%string)
  then Some (flip show_quality_monitor t_set_show_quality_monitor (fun _ o => o) c)
  else if decide (name = "allow_swap_key"%string)
  then Some (flip allow_swap_key t_set_allow_swap_key (fun _ o => o) c)
  else if decide (name = "view-only"%string) then Some (toggle_view_only lc c)
  else if decide (name = "show-my-cursor"%string)
  then Some (flip show_my_cursor t_set_show_my_cursor set_o_show_my_cursor c)
  else None.

(* src/src/client.rs:2043-2188 LoginConfigHandler::toggle_option *)
Definition toggle_option (name : string) (lc : LoginConfigHandler) (f : ps_files)
    : option OptionMessage * LoginConfigHandler * ps_files :=
  let '(c, f) := load_config lc f in
  match toggled name lc c with
  | Some (c, o) =>
      let '(lc, f) := if contains "block-input" name then (lc, f) else save_config c lc f in (Some o, lc, f)
  | None =>
      let o := options (config lc) in
      let is_set := negb (bool_decide (default ""%string (o !! name) = ""%string)) in
      let c := p_set_options (if is_set then delete name o else <[name := "Y"%string]> o) (config lc) in
      (None, l_set_config c lc, ps_store (lc_id lc) c f)
  end.

(* src/src/client.rs:2293-2307 LoginConfigHandler::get_image_quality_enum *)
Definition get_image_quality_enum (q : string) (ignore_default : bool) : option Z :=
  if decide (q = "low"%string) then Some 2
  else if decide (q = "best"%string) then Some 4
  else if decide (q = "balanced"%string) then if ignore_default then None else Some 3
  else None.

(** Quality and rate; beside them, the rate that is remembered for the session. *)
(* src/src/client.rs:2219-2244 LoginConfigHandler::get_option_message *)
Definition quality_message (env : CEnv) (ignore_default : bool) (lc : LoginConfigHandler) (f : ps_files)
    (m : OptionMessage) : OptionMessage * LoginConfigHandler * ps_files :=
  let q := image_quality (styles (config lc)) in
  match get_image_quality_enum q ignore_default with
  | Some q => (set_o_image_quality (Some q) m, lc, f)
  | None =>
      if decide (q = "custom"%string) then
        let '(c, f) := load_config lc f in
        let allow_more := negb (ce_public_server env) || bool_decide (direct lc = Some true) in
        let quality := match custom_image_quality c with
                       | [] => 50
                       | q :: _ => if negb allow_more && (100 <? q) then 50 else q
                       end in
        let m := set_o_custom_image_quality (Prelude.i32 (Z.shiftl quality 8)) m in
        match options (config lc) !! "custom-fps"%string with
        | Some s =>
            let fps := default 30 (parse_i32 s) in
            let fps := if negb allow_more && (30 <? fps) then 30 else fps in
            (set_o_custom_fps fps m, l_set_lc_custom_fps (Some (u64 fps)) lc, f)
        | None => (m, lc, f)
        end
      else (m, lc, f)
  end.

Definition say (b : bool) (set : option BoolOption -> OptionMessage -> OptionMessage) (m : OptionMessage)
    : OptionMessage := if b then set (yes_no true) m else m.

(* src/src/client.rs:2245-2272 LoginConfigHandler::get_option_message *)
Definition toggles_message (lc : LoginConfigHandler) (m : OptionMessage) : OptionMessage :=
  let on := get_toggle_option lc in
  let view_only := on "view-only"%string in
  let m := say view_only set_o_disable_keyboard m in
  let m := say (view_only || on "show-remote-cursor"%string) set_o_show_remote_cursor m in
  let m := say (view_only && on "show-my-cursor"%string) set_o_show_my_cursor m in
  let m := say (on "follow-remote-cursor"%string) set_o_follow_remote_cursor m in
  let m := say (on "follow-remote-window"%string) set_o_follow_remote_window m in
  let m := say (negb view_only && on "lock-after-session-end"%string) set_o_lock_after_session_end m in
  let m := say (on "disable-audio"%string) set_o_disable_audio m in
  let m := say (negb view_only && on "enable-file-copy-paste"%string) set_o_enable_file_transfer m in
  say (view_only || on "disable-clipboard"%string) set_o_disable_clipboard m.

(* src/src/client.rs:2203-2275 LoginConfigHandler::get_option_message *)
Definition get_option_message (env : CEnv) (ignore_default : bool) (lc : LoginConfigHandler) (f : ps_files)
    : option OptionMessage * LoginConfigHandler * ps_files :=
  if decide (conn_type lc ∈ [PORT_FORWARD; RDP; FILE_TRANSFER]) then (None, lc, f)
  else if decide (conn_type lc = TERMINAL) then
    (if get_toggle_option lc "terminal-persistent"
     then Some (set_o_terminal_persistent (yes_no true) no_option) else None, lc, f)
  else
    let '(m, lc, f) := quality_message env ignore_default lc f no_option in
    (Some (set_o_supported_decoding (Some (ce_decoding env)) (toggles_message lc m)), lc, f).

(* src/src/client.rs:2382-2395 LoginConfigHandler::save_custom_image_quality *)
Definition save_custom_image_quality (q : Z) (lc : LoginConfigHandler) (f : ps_files)
    : OptionMessage * LoginConfigHandler * ps_files :=
  let '(lc, f) := change (fun c => p_set_custom_image_quality [q]
    (p_set_styles (y_set_image_quality "custom" (styles c)) c)) lc f in
  (set_o_custom_image_quality (Prelude.i32 (Z.shiftl q 8)) no_option, lc, f).

(* src/src/client.rs:2402-2418 LoginConfigHandler::save_image_quality *)
Definition save_image_quality (v : string) (lc : LoginConfigHandler) (f : ps_files)
    : option OptionMessage * LoginConfigHandler * ps_files :=
  let res := (fun q => set_o_image_quality (Some q) no_option) <$> get_image_quality_enum v false in
  let '(lc, f) := change_style (y_set_image_quality v) lc f in (res, lc, f).

(** [text]: the number in decimal. *)
(* src/src/client.rs:2432-2449 LoginConfigHandler::set_custom_fps *)
Definition set_custom_fps (fps : Z) (text : string) (save : bool) (lc : LoginConfigHandler) (f : ps_files)
    : OptionMessage * LoginConfigHandler * ps_files :=
  let '(lc, f) := if save then change (fun c => p_set_options (<["custom-fps"%string := text]> (options c)) c) lc f
                  else (lc, f) in
  (set_o_custom_fps fps no_option, l_set_lc_custom_fps (Some (u64 fps)) lc, f).

(* src/src/client.rs:2350-2356 LoginConfigHandler::is_privacy_mode_supported *)
Definition is_privacy_mode_supported (lc : LoginConfigHandler) : bool := default false (features lc).

(** ** Beginning *)

(** The arguments after the question mark: the last one with the name [key]. *)
(* src/src/client.rs:1796-1805 LoginConfigHandler::initialize *)
Definition key_of_args (args : string) : string :=
  foldl (fun key arg =>
    match split_once "=" arg with
    | Some (k, v) => if decide (lower k = "key"%string) then v else key
    | None => key
    end) ""%string (Config.split_char "&" "" args).

(** The identifier without its server, whether a relay is asked for, and the server with
    its key. *)
(* src/src/client.rs:1786-1822 LoginConfigHandler::initialize *)
Definition parse_id (id : string) : string * bool * option (string * string * string) :=
  match Config.split_char "@" "" id with
  | raw_id :: rest :: _ =>
      let parts := Config.split_char "?" "" rest in
      let server := hd ""%string parts in
      let key := if decide (server = PUBLIC_SERVER) then RS_PUB_KEY
                 else key_of_args (nth 1 parts ""%string) in
      let real_id := handle_relay_id raw_id in
      (real_id +:+ "@" +:+ server, negb (bool_decide (real_id = raw_id)), Some (real_id, server, key))
  | _ =>
      let real_id := handle_relay_id id in (real_id, negb (bool_decide (real_id = id)), None)
  end.

(** The handler keeps from before what is not set here. *)
(* src/src/client.rs:1776-1873 LoginConfigHandler::initialize *)
Definition initialize (env : CEnv) (id : string) (ct : ConnType) (uuid : option string) (relay : bool)
    (luid : option Z) (shared conn_token : option string) (lc : LoginConfigHandler) (f : ps_files)
    : LoginConfigHandler * ps_files :=
  let '(id, relay', server) := parse_id id in
  let '(c, f) := ps_load id f in
  let token := t ← conn_token; parse_token t in
  let sid := default 0 (tk_session_id <$> token) in
  let sid := if sid =? 0 then if ce_rand env =? 0 then 1 else ce_rand env else sid in
  let opt k := default ""%string (options c !! k) in
  let server := match server with Some s => Some s | None => other_server lc end in
  let server :=
    match server with
    | Some (real_id, s, ""%string) =>
        if decide (opt "other-server-key"%string = ""%string) then server
        else Some (real_id, s, opt "other-server-key"%string)
    | s => s
    end in
  let force := Options.option2bool "force-always-relay" (opt "force-always-relay"%string) || (relay || relay') ||
               ce_use_ws env || ce_is_proxy env in
  (mkLch id ct (bool_decide (ct = TERMINAL) && ce_terminal_admin env) (lc_hash lc)
     (match token with Some t => tk_password t | None => lc_password lc end)
     (negb (bool_decide (password c = []))) c (lc_port_forward lc) (lc_version lc) (features lc) sid None false
     force None false uuid server (lc_custom_fps lc) luid None
     (match token with Some t => tk_source t | None => password_source lc end) shared false true, f).

(* src/src/client.rs:2752-2762 LoginConfigHandler::get_conn_token *)
Definition get_conn_token (lc : LoginConfigHandler) : option string :=
  if decide (lc_password lc = []) then None
  else Some (show_token (mkToken (lc_password lc) (password_source lc) (lc_session_id lc))).

(** ** Logging in *)

(* src/src/client.rs:2768-2774 LoginConfigHandler::get_key_terminal_service_id *)
Definition get_key_terminal_service_id (lc : LoginConfigHandler) : string :=
  if is_terminal_admin lc then "terminal-admin-service-id" else "terminal-service-id".

(* src/src/client.rs:2702-2720 LoginConfigHandler::create_login_msg *)
Definition kind_of_login (env : CEnv) (lc : LoginConfigHandler) : login_kind :=
  match conn_type lc with
  | FILE_TRANSFER => LkFileTransfer (ce_remote_dir env)
      (negb (bool_decide (get_option lc "remote_show_hidden" = ""%string)))
  | VIEW_CAMERA => LkViewCamera
  | PORT_FORWARD | RDP => LkPortForward (fst (lc_port_forward lc)) (snd (lc_port_forward lc))
  | TERMINAL => LkTerminal (get_option lc (get_key_terminal_service_id lc))
  | DEFAULT_CONN => LkNone
  end.

(** The system password of the message is not read by what [ConnLogin] models. *)
(* src/src/client.rs:2627-2725 LoginConfigHandler::create_login_msg *)
Definition create_login_msg (env : CEnv) (os_username : string) (pw : bytes) (lc : LoginConfigHandler) (f : ps_files)
    : Login * LoginConfigHandler * ps_files :=
  let '(my_id, pure_id) :=
    match other_server lc with
    | Some (id, _, _) => (ce_my_id env +:+ "@" +:+ ce_rendezvous_server env, id)
    | None => (ce_my_id env, lc_id lc)
    end in
  let hwid := if decide (get_option lc "trust-this-device" = "Y"%string) then ce_hwid env else [] in
  let '(o, lc, f) := get_option_message env true lc f in
  (mkLoginMsg (mkLogin pure_id pw my_id (ce_display_name env) (lc_session_id lc)) (ce_platform env) (ce_version env)
     hwid o (kind_of_login env lc) os_username, lc, f).

(* src/src/client.rs:3493-3515 try_get_password_from_personal_ab *)
Definition try_get_password_from_personal_ab (env : CEnv) (lc : LoginConfigHandler)
    : option (bytes * PasswordSource) :=
  if bool_decide (ce_access_token env = ""%string) || negb (bool_decide (ce_access_token env = ce_ab_token env)) then None
  else
    e ← List.find (fun e => bool_decide (ab_name e = "My address book"%string \/
                                         ab_name e = "Legacy address book"%string)) (ce_ab env);
    p ← List.find (fun p => bool_decide (ab_id p = lc_id lc)) (ab_peers e);
    h ← b64_decode (ab_hash p);
    if decide (h = []) then None else Some (h, PersonalAb h).

(** One source of a password after the other. *)
Definition or_password (p q : bytes * PasswordSource) : bytes * PasswordSource :=
  if decide (fst p = []) then q else p.

(** The password (its hash), and where it comes from: the last one, the one that was
    given, the shared one before both, the remembered one, the address book's, the
    built-in one. *)
(* src/src/client.rs:3403-3453 handle_hash *)
Definition choose_password (env : CEnv) (preset : string) (h : Hash) (lc : LoginConfigHandler)
    : bytes * PasswordSource :=
  let from p s := if decide (p = ""%string) then ([], password_source lc) else (salted p h, s) in
  let p := or_password (lc_password lc, password_source lc) (from preset Undefined) in
  let p := match shared_password lc with
           | Some s => if decide (s = ""%string) then p else (salted s h, SharedAb s)
           | None => p
           end in
  let p := or_password p (password (config lc), if decide (password (config lc) = []) then snd p else Undefined) in
  let p := or_password p (default p (try_get_password_from_personal_ab env lc)) in
  or_password p
    (if decide (ce_default_password env = ""%string) then p
     else (salted (ce_default_password env) h, SharedAb (ce_default_password env))).

(** The answer to a challenge. *)
(* src/src/client.rs:3577-3580 handle_login_from_ui *)
Definition challenged (pw : bytes) (h : Hash) : bytes :=
  sha256 (pw ++ String.list_byte_of_string (h_challenge h)).

(* src/src/client.rs:3384-3490 handle_hash *)
Definition handle_hash (env : CEnv) (preset : string) (h : Hash) (lc : LoginConfigHandler) (f : ps_files)
    : LoginConfigHandler * ps_files * list output :=
  let lc := l_set_lc_hash h lc in
  let uuid := u ← switch_uuid lc; parse_uuid u in
  let lc := l_set_switch_uuid None lc in
  match uuid with
  | Some uuid =>
      let '(lr, lc, f) := create_login_msg env "" [] lc f in
      (l_set_password_source Undefined lc, f, [OSwitch lr uuid])
  | None =>
      let '(pw, source) := choose_password env preset h lc in
      let lc := l_set_lc_password pw (l_set_password_source source (l_set_shared_password None lc)) in
      if bool_decide (conn_type lc = TERMINAL) && is_terminal_admin lc then
        (lc, f, [OMsgbox (if decide (pw = []) then "terminal-admin-login-password" else "terminal-admin-login") "" "" ""])
      else
        let '(ask, answer) := if decide (pw = []) then ([OMsgbox "input-password" "Password Required" "" ""], [])
                              else ([], challenged pw h) in
        let os_username := if decide (conn_type lc = TERMINAL) then ""%string else get_option lc "os-username" in
        let '(lr, lc, f) := create_login_msg env os_username answer lc f in
        (lc, f, ask ++ [OLogin lr])
  end.

(* src/src/client.rs:3550-3583 handle_login_from_ui *)
Definition handle_login_from_ui (env : CEnv) (os_username pw : string) (remember' : bool)
    (lc : LoginConfigHandler) (f : ps_files) : LoginConfigHandler * ps_files * list output :=
  let '(h, lc) :=
    if decide (pw = ""%string) then
      if decide (lc_password lc = []) then
        let p := password (config lc) in
        (p, if decide (p = []) then lc else l_set_password_source Undefined lc)
      else (lc_password lc, lc)
    else
      (salted pw (lc_hash lc), l_set_remember remember' (l_set_password_source Undefined lc)) in
  let lc := l_set_lc_password h lc in
  let '(lr, lc, f) := create_login_msg env os_username (challenged h (lc_hash lc)) lc f in
  (lc, f, [OLogin lr]).

(* src/libs/hbb_common/src/config.rs:91-92 LINK_HEADLESS_LINUX_SUPPORT *)
Definition LINK_HEADLESS_LINUX_SUPPORT : string := "https://github.com/rustdesk/rustdesk/wiki/Headless-Linux-Support".
(* src/src/client.rs:126-126 SCRAP_X11_REQUIRED *)
Definition SCRAP_X11_REQUIRED : string := "x11 expected".
(* src/src/client.rs:127-127 SCRAP_X11_REF_URL *)
Definition SCRAP_X11_REF_URL : string := "https://rustdesk.com/docs/en/manual/linux/#x11-required".
Definition LOGIN_SCREEN_LINK : string := "https://rustdesk.com/docs/en/manual/linux/#login-screen".

(** The dialogs of the errors a peer may answer (their type, title, text and link), and
    whether it can be tried again. *)
(* src/src/client.rs:3258-3325 LOGIN_ERROR_MAP *)
Definition LOGIN_ERROR_MAP : gmap string (string * string * string * string * bool) :=
  list_to_map
    [("Wayland login screen is not supported", ("error", "Login Error", "Login screen using Wayland is not supported",
        LOGIN_SCREEN_LINK, true));
     ("Desktop session not ready", ("session-login", "", "", "", true));
     ("Desktop xsession failed", ("session-re-login", "", "", "", true));
     ("Desktop session another user login", ("info-nocancel", "another_user_login_title_tip",
        "another_user_login_text_tip", "", false));
     ("Desktop xorg not found", ("info-nocancel", "xorg_not_found_title_tip", "xorg_not_found_text_tip",
        LINK_HEADLESS_LINUX_SUPPORT, true));
     ("Desktop none", ("info-nocancel", "no_desktop_title_tip", "no_desktop_text_tip", LINK_HEADLESS_LINUX_SUPPORT, true));
     ("Desktop session not ready, password empty", ("session-login-password", "", "", "", true));
     ("Desktop session not ready, password wrong", ("session-login-re-password", "", "", "", true));
     ("No Password Access", ("wait-remote-accept-nook", "Prompt",
        "Please wait for the remote side to accept your session request...", "", true))]%string.

(** The answer: whether the login may be tried again. *)
(* src/src/client.rs:3330-3373 handle_login_error *)
Definition handle_login_error (err : string) (lc : LoginConfigHandler) (f : ps_files)
    : bool * LoginConfigHandler * ps_files * list output :=
  if decide (err = "Empty Password"%string) then
    (true, l_set_lc_password [] lc, f, [OMsgbox "input-password" "Password Required" "" ""])
  else if decide (err = "Wrong Password"%string) then
    (true, l_set_lc_password [] lc, f, [OMsgbox "re-input-password" err "Do you want to enter again?" ""])
  else if decide (err = "Wrong 2FA Code"%string \/ err = "2FA Required"%string) then
    let '(lc, f) := if decide (get_option lc "trust-this-device" = "Y"%string)
                    then set_option "trust-this-device" "" lc f else (lc, f) in
    (true, lc, f, [OMsgbox "input-2fa" err "" ""])
  else
    match LOGIN_ERROR_MAP !! err with
    | Some (msgtype, title, text, link, again) => (again, lc, f, [OMsgbox msgtype title text link])
    | None =>
        (false, lc, f,
         [OMsgbox "error" "Login Error" err
            (if bool_decide (is_Some (String.index 0 SCRAP_X11_REQUIRED err)) then SCRAP_X11_REF_URL else "")])
    end.

(** ** After the login *)

(* src/libs/hbb_common/protos/message.proto:201-206 KeyboardMode *)
Inductive KeyboardMode := Legacy | Map | Translate | Auto.

#[export] Instance KeyboardMode_eq_dec : EqDecision KeyboardMode.
Proof. solve_decision. Defined.

(* src/libs/hbb_common/src/keyboard.rs:5-14 KeyboardMode::fmt *)
Definition mode_to_string (m : KeyboardMode) : string :=
  match m with Legacy => "legacy" | Map => "map" | Translate => "translate" | Auto => "auto" end.

(* src/libs/hbb_common/src/keyboard.rs:16-27 KeyboardMode::from_str *)
Definition mode_of_string (s : string) : option KeyboardMode :=
  if decide (s = "legacy"%string) then Some Legacy
  else if decide (s = "map"%string) then Some Map
  else if decide (s = "translate"%string) then Some Translate
  else if decide (s = "auto"%string) then Some Auto
  else None.

(* src/src/common.rs:1383-1400 is_keyboard_mode_supported *)
Definition is_keyboard_mode_supported (m : KeyboardMode) (version : Z) (platform : string) : bool :=
  let recent := get_version_number "1.2.0" <=? version in
  match m with
  | Legacy => true
  | Map => if decide (lower platform = lower "Android"%string) then false else recent
  | Translate | Auto => recent
  end.

(* src/src/common.rs:1402-1407 get_supported_keyboard_modes *)
Definition get_supported_keyboard_modes (version : Z) (platform : string) : list KeyboardMode :=
  List.filter (fun m => is_keyboard_mode_supported m version platform) [Legacy; Map; Translate; Auto].

(* src/src/client.rs:2584-2601 LoginConfigHandler::handle_peer_info *)
Definition keyboard_mode_for (mode : string) (pi : PeerInfo) : string :=
  let v := get_version_number (pi_version pi) in
  if decide (mode = ""%string) then
    mode_to_string (if is_keyboard_mode_supported Map v (pi_platform pi) then Map else Legacy)
  else if decide (default Legacy (mode_of_string mode) ∈ get_supported_keyboard_modes v (pi_platform pi)) then mode
  else mode_to_string Legacy.

(** The password that is remembered. *)
(* src/src/client.rs:2529-2554 LoginConfigHandler::handle_peer_info *)
Definition password_to_keep (lc : LoginConfigHandler) (password0 : bytes) : bytes :=
  let p := lc_password lc in
  if remember lc then
    if negb (bool_decide (p = [])) && negb (bool_decide (p = password0)) &&
       negb (is_shared_ab (password_source lc) p (lc_hash lc))
    then p else password0
  else if is_personal_ab (password_source lc) p then p
  else [].

(* src/src/client.rs:2555-2566 LoginConfigHandler::handle_peer_info *)
Definition options_to_keep (lc : LoginConfigHandler) (o : settings) : settings :=
  let o := match other_server lc with
           | Some (_, b, c) => if decide (b = PUBLIC_SERVER) then o else <["other-server-key"%string := c]> o
           | None => o
           end in
  if force_relay lc then <["force-always-relay"%string := "Y"%string]> o else o.

(* src/src/client.rs:2504-2606 LoginConfigHandler::handle_peer_info *)
Definition handle_peer_info (pi : PeerInfo) (lc : LoginConfigHandler) (f : ps_files)
    : LoginConfigHandler * ps_files * list output :=
  let lc := if decide (pi_version pi = ""%string) then lc
            else l_set_lc_version (get_version_number (pi_version pi)) lc in
  let lc := l_set_features (pi_features pi) lc in
  let '(c, f) := load_config lc f in
  let c := p_set_info (mkInfo (pi_username pi) (pi_hostname pi) (pi_platform pi) (pi_os_version pi)) c in
  let c := p_set_password (password_to_keep lc (password c)) c in
  let c := p_set_options (options_to_keep lc (options c)) c in
  let out := if negb (bool_decide (password c = [])) &&
                negb (is_shared_ab (password_source lc) (lc_password lc) (lc_hash lc)) &&
                negb (is_personal_ab (password_source lc) (lc_password lc))
             then [OSyncAb (password c)] else [] in
  let c := p_set_styles (y_set_keyboard_mode (keyboard_mode_for (keyboard_mode (styles c)) pi) (styles c)) c in
  let '(lc, f) := save_config c lc f in
  (l_set_supported_encoding (pi_encoding pi) lc, f, out).

(* src/src/client.rs:2490-2496 LoginConfigHandler::get_username *)
Definition get_username (pi : PeerInfo) (lc : LoginConfigHandler) : string :=
  if decide (pi_username pi = ""%string) then username (info (config lc)) else pi_username pi.

End client.
