(* ===== verification/SessionPasswords.v ===== *)
(** * Passwords of a session

    Where the password of a login comes from and what is remembered of it, on the
    controlling side ([LoginConfig]): a shared password is not kept, a typed one is when
    the user wants it, and a relay that was forced stays.  The theorems use the files of
    the peers through [PeerStore]; [peer_store] shows that [PeerConfig] implements it.
    [Session] has what both sides do together. *)

From S2P Require Import Prelude Utf8 Secure PasswordStore Options LoginGuard CodecChoice ConnState PeerConfig LoginConfig.

Section session.
Context (sha256 : bytes -> bytes) (lower : string -> string) (b64_decode : string -> option bytes)
  (parse_uuid : string -> option bytes) (parse_token : string -> option ConnToken) (RS_PUB_KEY : string).
Context `{PeerStore}.
Implicit Types (lc : LoginConfigHandler) (f : ps_files).

Local Notation choose_password := (choose_password sha256 b64_decode).
Local Notation handle_hash := (handle_hash sha256 b64_decode parse_uuid).
Local Notation handle_login_from_ui := (handle_login_from_ui sha256).
Local Notation handle_peer_info := (handle_peer_info sha256 lower).
Local Notation initialize := (initialize lower parse_token RS_PUB_KEY).
Local Notation salted := (salted sha256).
Local Notation challenged := (challenged sha256).

(** ** What a login says *)

Lemma quality_message_keeps env ig lc f m :
  let '(_, lc', _) := quality_message env ig lc f m in
  exists fps, lc' = l_set_lc_custom_fps fps lc.
Proof.
  assert (lc = l_set_lc_custom_fps (lc_custom_fps lc) lc) as Same by by destruct lc.
  unfold quality_message. repeat case_match; simplify_eq; by eexists.
Qed.

(** Writing the message changes the rate that is remembered at most. *)
Lemma create_login_msg_spec env os pw lc f :
  let '(lr, lc', _) := create_login_msg env os pw lc f in
  lr_password (lg lr) = pw /\ exists fps, lc' = l_set_lc_custom_fps fps lc.
Proof.
  assert (lc = l_set_lc_custom_fps (lc_custom_fps lc) lc) as Same by by destruct lc.
  unfold create_login_msg, get_option_message.
  destruct (other_server lc) as [[[? ?] ?]|]; (case_decide; [by split; [|eexists]|]);
    (case_decide; [by split; [|eexists]|]);
    pose proof (quality_message_keeps env true lc f no_option) as Q;
    destruct (quality_message env true lc f no_option) as [[m lc'] f']; by split.
Qed.

Ltac login_msg :=
  match goal with |- context [create_login_msg ?e ?os ?a ?l ?g] =>
    let L := fresh in let lr := fresh "lr" in let fps := fresh "fps" in
    pose proof (create_login_msg_spec e os a l g) as L;
    destruct (create_login_msg e os a l g) as [[lr ?] ?]; destruct L as [L (fps & ->)]
  end.

(** The answer to a hash: what is sent, and what is remembered for the session. *)
Lemma handle_hash_spec env preset h lc f :
  (u ← switch_uuid lc; parse_uuid u) = None ->
  bool_decide (conn_type lc = TERMINAL) && is_terminal_admin lc = false ->
  let '(pw, source) := choose_password env preset h (l_set_switch_uuid None (l_set_lc_hash h lc)) in
  let '(lc', f', out) := handle_hash env preset h lc f in
  lc_password lc' = pw /\ password_source lc' = source /\ lc_hash lc' = h /\ remember lc' = remember lc /\
  lc_id lc' = lc_id lc /\ config lc' = config lc /\
  exists lr, lr_password (lg lr) = (if decide (pw = []) then [] else challenged pw h) /\
    out = (if decide (pw = []) then [OMsgbox "input-password" "Password Required" "" ""] else []) ++ [OLogin lr].
Proof.
  intros U T. unfold handle_hash. cbn [l_set_switch_uuid l_set_lc_hash switch_uuid].
  rewrite U. set (lc1 := l_set_switch_uuid None _). destruct (choose_password env preset h lc1) as [pw source].
  set (lc2 := l_set_lc_password _ _).
  change (bool_decide (conn_type lc2 = TERMINAL) && is_terminal_admin lc2)
    with (bool_decide (conn_type lc = TERMINAL) && is_terminal_admin lc).
  rewrite T. destruct (decide (pw = [])) as [->|N].
  all: login_msg; split_and!; try done; by eexists.
Qed.

(** A login that the user typed. *)
Lemma login_from_ui_spec env os pw b lc f :
  pw <> ""%string ->
  let '(lc', f', out) := handle_login_from_ui env os pw b lc f in
  lc_password lc' = salted pw (lc_hash lc) /\ password_source lc' = Undefined /\ lc_hash lc' = lc_hash lc /\
  remember lc' = b /\ lc_id lc' = lc_id lc /\ config lc' = config lc /\
  exists lr, lr_password (lg lr) = challenged (salted pw (lc_hash lc)) (lc_hash lc) /\ out = [OLogin lr].
Proof.
  intros N. unfold handle_login_from_ui. rewrite decide_False by done.
  login_msg. split_and!; try done. by eexists.
Qed.

(** What is remembered when the peer accepts. *)
Lemma peer_info_spec pi lc f :
  let '(lc', f', out) := handle_peer_info pi lc f in
  let c := fst (ps_load (lc_id lc) f) in
  lc_id lc' = lc_id lc /\ f' = ps_store (lc_id lc) (config lc') (snd (ps_load (lc_id lc) f)) /\
  toggles (config lc') = toggles c /\
  password (config lc') = password_to_keep sha256 lc (password c) /\
  options (config lc') = options_to_keep lc (options c) /\
  keyboard_mode (styles (config lc')) = keyboard_mode_for lower (keyboard_mode (styles c)) pi /\
  out = (if negb (bool_decide (password (config lc') = [])) &&
            negb (is_shared_ab sha256 (password_source lc) (lc_password lc) (lc_hash lc)) &&
            negb (is_personal_ab (password_source lc) (lc_password lc))
         then [OSyncAb (password (config lc'))] else []).
Proof.
  unfold handle_peer_info, load_config, save_config. set (lc1 := l_set_features _ _).
  assert (forall a b, password_to_keep sha256 lc1 a = password_to_keep sha256 lc a /\
                      options_to_keep lc1 b = options_to_keep lc b /\ lc_id lc1 = lc_id lc /\
                      lc_password lc1 = lc_password lc /\ password_source lc1 = password_source lc /\
                      lc_hash lc1 = lc_hash lc) as E by (intros a b; subst lc1; by case_decide).
  clearbody lc1. destruct (E [] ∅) as (_ & _ & -> & -> & -> & ->).
  destruct (ps_load (lc_id lc) f) as [c f1]. cbn -[password_to_keep options_to_keep].
  destruct (E (password c) (options c)) as (-> & -> & -> & _). done.
Qed.

(** ** Passwords *)

(** The keyboard mode that is remembered is one the peer has: an unset one becomes
    [map] where the peer has it, one it lacks becomes [legacy]. *)
Theorem keyboard_mode_supported pi lc f :
  let m := keyboard_mode (styles (config (fst (fst (handle_peer_info pi lc f))))) in
  default Legacy (mode_of_string m) ∈
    get_supported_keyboard_modes lower (get_version_number (pi_version pi)) (pi_platform pi) /\ m <> ""%string.
Proof.
  pose proof (peer_info_spec pi lc f) as P. destruct (handle_peer_info pi lc f) as [[lc' f'] out].
  destruct P as (_ & _ & _ & _ & _ & E & _). cbn [fst]. rewrite E. unfold keyboard_mode_for, get_supported_keyboard_modes.
  set (v := get_version_number _).
  case_decide as N; [|case_decide as I; [by split|]].
  - destruct (is_keyboard_mode_supported lower Map v (pi_platform pi)) eqn:S; (split; [|done]);
      apply list_elem_of_In, filter_In; (split; [simpl; auto|done]).
  - split; [|done]. apply list_elem_of_In, filter_In. split; [simpl; auto|done].
Qed.

(** A handler that has no side to switch to and starts no terminal of an administrator. *)
Definition plain lc : Prop :=
  (u ← switch_uuid lc; parse_uuid u) = None /\ bool_decide (conn_type lc = TERMINAL) && is_terminal_admin lc = false.

Lemma choose_shared env preset h lc p :
  (forall x, sha256 x <> []) -> shared_password lc = Some p -> p <> ""%string ->
  choose_password env preset h lc = (salted p h, SharedAb p).
Proof.
  intros Sh S N. unfold choose_password. rewrite S, decide_False by done. unfold or_password. cbn [fst].
  do 3 (rewrite ?(decide_False (P := salted p h = [])) by apply Sh; cbn [fst snd]). done.
Qed.

(** Nothing but what is remembered, the address book and the built-in password. *)
Lemma choose_remembered env h lc :
  lc_password lc = [] -> shared_password lc = None -> password (config lc) <> [] ->
  choose_password env "" h lc = (password (config lc), Undefined).
Proof.
  intros P S N. unfold choose_password. rewrite P, S. cbn -[try_get_password_from_personal_ab].
  unfold or_password. cbn [fst snd]. rewrite !(decide_True (P := @nil byte = [])) by done. cbn [fst snd].
  by rewrite !(decide_False (P := password (config lc) = [])) by done.
Qed.

Lemma choose_nothing env h lc :
  lc_password lc = [] -> shared_password lc = None -> password (config lc) = [] ->
  try_get_password_from_personal_ab b64_decode env lc = None -> ce_default_password env = ""%string ->
  fst (choose_password env "" h lc) = [].
Proof.
  intros P S N A D. unfold choose_password. rewrite P, S, N, A, D. unfold or_password. cbn.
  by rewrite ?decide_True by done.
Qed.

(** A password that was shared opens the session and is not remembered: the login has
    its hash, and when the peer accepts, the password that is kept is the one that was
    kept before or none, and none is put into the address book. *)
Theorem shared_password_not_kept env preset p h pi lc f :
  (forall x, sha256 x <> []) -> plain lc -> shared_password lc = Some p -> p <> ""%string ->
  let '(lc1, f1, out1) := handle_hash env preset h lc f in
  let '(lc2, _, out2) := handle_peer_info pi lc1 f1 in
  (exists lr, out1 = [OLogin lr] /\ lr_password (lg lr) = challenged (salted p h) h) /\
  out2 = [] /\ password (config lc2) ∈ [password (fst (ps_load (lc_id lc) f1)); []].
Proof.
  intros Sh [U T] S N. pose proof (handle_hash_spec env preset h lc f U T) as A.
  rewrite (choose_shared env preset h _ p Sh) in A by done.
  destruct (handle_hash env preset h lc f) as [[lc1 f1] out1].
  destruct A as (P & So & Hh & _ & I & _ & lr & L & ->). rewrite decide_False in L by apply Sh.
  pose proof (peer_info_spec pi lc1 f1) as B. destruct (handle_peer_info pi lc1 f1) as [[lc2 f2] out2].
  destruct B as (_ & _ & _ & K & _ & _ & ->).
  assert (is_shared_ab sha256 (password_source lc1) (lc_password lc1) (lc_hash lc1) = true) as Is.
  { unfold is_shared_ab, equal. rewrite P, So, Hh, decide_False by apply Sh. by apply bool_decide_eq_true. }
  assert (is_personal_ab (password_source lc1) (lc_password lc1) = false) as Ip.
  { unfold is_personal_ab. rewrite So. by destruct (decide _). }
  rewrite Is, K. rewrite andb_false_r. unfold password_to_keep. rewrite Is, Ip, andb_false_r, I.
  rewrite decide_False by apply Sh. split_and!; [by exists lr|done|]. destruct (remember lc1); [by left|by right; left].
Qed.

(** A new session with a peer that was connected to before. *)
Lemma initialize_again env id ct relay lc c f :
  ps_ok c ->
  let lc0 := fst (initialize env id ct None relay None None None lc (ps_store (fst (fst (parse_id lower RS_PUB_KEY id))) c f)) in
  config lc0 = ps_norm c /\ lc_password lc0 = lc_password lc /\ shared_password lc0 = None /\
  switch_uuid lc0 = None /\ conn_type lc0 = ct /\
  is_terminal_admin lc0 = bool_decide (ct = TERMINAL) && ce_terminal_admin env /\
  (options c !! "force-always-relay"%string = Some "Y"%string -> force_relay lc0 = true).
Proof.
  intros O. unfold initialize. destruct (parse_id lower RS_PUB_KEY id) as [[i r] s]. cbn [fst].
  rewrite ps_load_store by done. cbn. split_and!; try done.
  rewrite ps_norm_options. intros ->. done.
Qed.

(** A password that was typed is asked for again only if it was not to be remembered:
    in a new session with the same peer, whatever the new challenge, the login has the
    answer for that password, without a question; when it was not to be remembered (and
    neither the address book nor the program has one) the user is asked. *)
Theorem remembered_password_used env env' os pw b pi lc lc' f id ct relay challenge :
  (forall x, sha256 x <> []) -> pw <> ""%string -> lc_id lc = fst (fst (parse_id lower RS_PUB_KEY id)) ->
  lc_password lc' = [] -> bool_decide (ct = TERMINAL) && ce_terminal_admin env' = false ->
  let '(lc1, f1, _) := handle_login_from_ui env os pw b lc f in
  let '(lc2, f2, _) := handle_peer_info pi lc1 f1 in
  ps_ok (config lc2) ->
  let h := mkHash (h_salt (lc_hash lc)) challenge in
  let '(lc3, f3) := initialize env' id ct None relay None None None lc' f2 in
  let '(_, _, out) := handle_hash env' "" h lc3 f3 in
  (b = true -> exists lr, out = [OLogin lr] /\ lr_password (lg lr) = challenged (salted pw h) h) /\
  (b = false -> try_get_password_from_personal_ab b64_decode env' lc3 = None -> ce_default_password env' = ""%string ->
   exists lr, out = [OMsgbox "input-password" "Password Required" "" ""; OLogin lr] /\ lr_password (lg lr) = []).
Proof.
  intros Sh N I P T. pose proof (login_from_ui_spec env os pw b lc f N) as A.
  destruct (handle_login_from_ui env os pw b lc f) as [[lc1 f1] o1].
  destruct A as (A1 & A2 & A3 & A4 & A5 & _ & _).
  pose proof (peer_info_spec pi lc1 f1) as B. destruct (handle_peer_info pi lc1 f1) as [[lc2 f2] o2].
  destruct B as (_ & -> & _ & K & _). intros O h.
  pose proof (initialize_again env' id ct relay lc' (config lc2) (snd (ps_load (lc_id lc1) f1)) O) as C.
  rewrite A5, I in *. cbv zeta in C. destruct (initialize _ _ _ _ _ _ _ _ _ _) as [lc3 f3]. cbn [fst] in C.
  destruct C as (C1 & C2 & C3 & C4 & C5 & C6 & _). rewrite P in C2.
  assert (plain lc3) as [U T3] by (split; [by rewrite C4|by rewrite C5, C6, andb_assoc, andb_diag]).
  pose proof (handle_hash_spec env' "" h lc3 f3 U T3) as D.
  set (lc4 := l_set_switch_uuid None (l_set_lc_hash h lc3)) in D.
  assert (lc_password lc4 = [] /\ shared_password lc4 = None /\ password (config lc4) = password (config lc2))
    as (Q1 & Q2 & Q3) by (split_and!; [done|done|change (config lc4) with (config lc3); by rewrite C1, ps_norm_password]).
  assert (is_shared_ab sha256 (password_source lc1) (lc_password lc1) (lc_hash lc1) = false /\
          is_personal_ab (password_source lc1) (lc_password lc1) = false) as [Is Ip].
  { unfold is_shared_ab, is_personal_ab. rewrite A2. by destruct (decide _). }
  unfold password_to_keep in K. rewrite A1, A4 in *. rewrite Is, Ip, bool_decide_false in K by apply Sh.
  destruct (choose_password env' "" h lc4) as [pw' so] eqn:Ch.
  destruct (handle_hash env' "" h lc3 f3) as [[lc5 f5] out]. destruct D as (_ & _ & _ & _ & _ & _ & lr & L & ->).
  split; intros ->.
  - assert (password (config lc2) = salted pw h) as K'.
    { rewrite K. change (salted pw h) with (salted pw (lc_hash lc)). cbn [negb andb]. rewrite andb_true_r.
      destruct (bool_decide _) eqn:E in |- *; cbn [negb]; [|done]. symmetry. by apply bool_decide_eq_true in E. }
    rewrite (choose_remembered env' h lc4 Q1 Q2), Q3, K' in Ch by (rewrite Q3, K'; apply Sh). injection Ch as <- <-.
    rewrite decide_False in L by apply Sh. rewrite decide_False by apply Sh. by exists lr.
  - intros Ab Dp. pose proof (choose_nothing env' h lc4 Q1 Q2 ltac:(by rewrite Q3) Ab Dp) as E.
    rewrite Ch in E. cbn [fst] in E. subst pw'. by exists lr.
Qed.

(** A relay that was forced once is forced for good: a session that is relayed only
    because a proxy or a web socket is in use remembers, when the peer accepts, that this
    peer is always relayed, and later sessions are, without the proxy. *)
Theorem proxy_relays_for_good env env' pi lc lc' f id ct ct' :
  ce_is_proxy env = true \/ ce_use_ws env = true ->
  let '(lc1, f1) := initialize env id ct None false None None None lc f in
  let '(lc2, f2, _) := handle_peer_info pi lc1 f1 in
  force_relay lc1 = true /\
  (ps_ok (config lc2) -> force_relay (fst (initialize env' id ct' None false None None None lc' f2)) = true).
Proof.
  intros Px. assert (force_relay (fst (initialize env id ct None false None None None lc f)) = true /\
    lc_id (fst (initialize env id ct None false None None None lc f)) = fst (fst (parse_id lower RS_PUB_KEY id))) as [R I].
  { unfold initialize. destruct (parse_id _ _ _) as [[i r] s]. destruct (ps_load i f) as [c f']. cbn.
    split; [|done]. destruct Px as [-> | ->]; by rewrite ?orb_true_r. }
  destruct (initialize env id ct None false None None None lc f) as [lc1 f1]. cbn [fst] in R, I.
  pose proof (peer_info_spec pi lc1 f1) as B. destruct (handle_peer_info pi lc1 f1) as [[lc2 f2] out].
  destruct B as (_ & -> & _ & _ & Op & _). split; [done|]. intros O. rewrite I.
  apply (initialize_again env' id ct' false lc' (config lc2)); [done|].
  rewrite Op. unfold options_to_keep. rewrite R. apply lookup_insert_eq.
Qed.

End session.

(** ** The files of [PeerConfig] *)

Section files.
Context {Key : Type} `{SecretBox Key} `{Base64} (mk_key : bytes -> Key) (uuid : bytes).
Context (read : string -> string) (parse_f64_as_i32 : string -> option Z).

Lemma read_string_idem d s : read_string d (read_string d s) = read_string d s.
Proof. unfold read_string. repeat case_decide; congruence. Qed.

Lemma deserialize_idem pw o c :
  let c' := p_set_options o (p_set_password pw (deserialize read parse_f64_as_i32 c)) in
  deserialize read parse_f64_as_i32 c' = c'.
Proof.
  cbv zeta. unfold deserialize, deserialize_styles. cbn -[read_string]. rewrite !read_string_idem.
  assert (forall v, deserialize_edge_scroll_edge_thickness read (deserialize_edge_scroll_edge_thickness read v) =
    deserialize_edge_scroll_edge_thickness read v) as E1.
  { intros v. unfold deserialize_edge_scroll_edge_thickness. by destruct ((20 <=? v) && (v <=? 150)) eqn:E; rewrite ?E; [|case_match]. }
  assert (forall v, deserialize_trackpad_speed read (deserialize_trackpad_speed read v) = deserialize_trackpad_speed read v) as E2.
  { intros v. unfold deserialize_trackpad_speed. by destruct ((10 <=? v) && (v <=? 1000)) eqn:E; rewrite ?E; [|case_match]. }
  assert (forall v, deserialize_custom_image_quality read parse_f64_as_i32
    (deserialize_custom_image_quality read parse_f64_as_i32 v) = deserialize_custom_image_quality read parse_f64_as_i32 v) as E3.
  { assert (deserialize_custom_image_quality read parse_f64_as_i32 (default_custom_image_quality read parse_f64_as_i32) =
      default_custom_image_quality read parse_f64_as_i32) as D
      by (unfold deserialize_custom_image_quality, default_custom_image_quality; by case_match).
    intros [|q [|? ?]]; cbn; [exact D| |exact D]. destruct ((10 <=? q) && (q <=? 4095)) eqn:E; cbn; [by rewrite E|exact D]. }
  by rewrite E1, E2, E3.
Qed.

Lemma load_settles id f :
  storable mk_key uuid (fst (load mk_key uuid read parse_f64_as_i32 id f)) ->
  load mk_key uuid read parse_f64_as_i32 id (snd (load mk_key uuid read parse_f64_as_i32 id f)) =
  (fst (load mk_key uuid read parse_f64_as_i32 id f), snd (load mk_key uuid read parse_f64_as_i32 id f)).
Proof.
  destruct (load mk_key uuid read parse_f64_as_i32 id f) as [c0 f0] eqn:L. cbn [fst snd]. intros S. revert L. unfold load at 1.
  destruct (f !! path id) as [c|] eqn:E; [|intros [= <- <-]; unfold load; by rewrite E].
  destruct (decrypt_vec_or_original _ _ _ _) as [[pw d] again] eqn:Dv.
  destruct (foldl _ _ _) as [o again'] eqn:Fo. destruct again'; intros [= <- <-].
  - rewrite (peer_load_sealed mk_key uuid read parse_f64_as_i32 id _ _ S) by apply lookup_insert_eq. by rewrite deserialize_idem.
  - unfold load. by rewrite E, Dv, Fo.
Qed.

#[export] Instance peer_store : PeerStore.
Proof.
  refine {| ps_files := peer_files; ps_load := load mk_key uuid read parse_f64_as_i32;
            ps_store := store mk_key uuid; ps_ok := storable mk_key uuid;
            ps_norm := deserialize read parse_f64_as_i32 |}.
  - intros id c f S. apply peer_load_sealed; [done|]. apply lookup_insert_eq.
  - apply load_settles.
  - done.
  - done.
  - done.
  - intros c c' P O [S1 S2 S3]. split; rewrite ?P, ?O; auto.
Defined.

End files.

(** ** Examples *)

(** A toy hash and files without real sealing; defaults of the options are empty. *)
Definition toy_hash (l : bytes) : bytes := Byte.x01 :: l.
Definition a_store : PeerStore :=
  peer_store (H := box_plain) (H0 := base64_hex) (fun _ => tt) [] (fun _ => ""%string) (fun _ => None).
Definition a_session (shared : option string) : LoginConfigHandler :=
  mkLch "1" DEFAULT_CONN false (mkHash "s" "c") [] false (default_peer (fun _ => ""%string) (fun _ => None)) (""%string, 0) 0
    None 1 None false false None false None None None None None Undefined shared false true.
Definition a_client (proxy : bool) : CEnv :=
  mkCEnv 5 false proxy false false "9" "server" "Bob" "Linux" "1.4.0" [] "" "" "" [] ""
    (mkDecoding 1 1 1 1 1 PreferAuto ChromaI420 no_ability).
Definition a_peer_info : PeerInfo := mkPeerInfo "alice" "desk" "Windows" "1.4.0" "11" None None.
Definition no_files : ps_files (PeerStore := a_store) := ∅.

Lemma storable_plain c :
  snd (fst (decrypt_vec_or_original (H := box_plain) (H0 := base64_hex) (fun _ => tt) [] (password c) PASSWORD_ENC_VERSION)) = false ->
  zlen (password c) <= ENCRYPT_MAX_LEN -> Forall (fun k => options c !! k = None) SEALED_OPTIONS ->
  ps_ok (PeerStore := a_store) c.
Proof. intros P L F. split; [done|done|]. intros k s K. rewrite Forall_forall in F. by rewrite F. Qed.

Lemma shared_password_not_kept_witness :
  exists lr, snd (handle_hash toy_hash (fun _ => None) (fun _ => None) (H := a_store) (a_client false) "" (mkHash "s" "c")
    (a_session (Some "pw"%string)) no_files) = [OLogin lr].
Proof.
  pose proof (shared_password_not_kept toy_hash (fun s => s) (fun _ => None) (fun _ => None) (H := a_store) (a_client false)
    "" "pw" (mkHash "s" "c") a_peer_info (a_session (Some "pw"%string)) no_files
    ltac:(done) ltac:(by split) eq_refl ltac:(done)) as W.
  destruct (handle_hash _ _ _ _ _ _ _ _) as [[lc1 f1] out1].
  destruct (handle_peer_info _ _ _ _ _) as [[lc2 f2] out2].
  destruct W as ((lr & -> & _) & _). exists lr. reflexivity.
Defined.

Lemma remembered_password_used_witness :
  let '(lc1, f1, _) := handle_login_from_ui toy_hash (H := a_store) (a_client false) "" "pw" true (a_session None) no_files in
  let '(lc2, f2, _) := handle_peer_info toy_hash (fun s => s) (H := a_store) a_peer_info lc1 f1 in
  let '(lc3, f3) := initialize (fun s => s) (fun _ => None) "" (H := a_store) (a_client false) "1" DEFAULT_CONN None false
    None None None (a_session None) f2 in
  exists lr, snd (handle_hash toy_hash (fun _ => None) (fun _ => None) (H := a_store) (a_client false) ""
    (mkHash "s" "other") lc3 f3) = [OLogin lr].
Proof.
  pose proof (remembered_password_used toy_hash (fun s => s) (fun _ => None) (fun _ => None) (fun _ => None) "" (H := a_store)
    (a_client false) (a_client false) "" "pw" true a_peer_info (a_session None) (a_session None) no_files "1" DEFAULT_CONN
    false "other" ltac:(done) ltac:(done) ltac:(by vm_compute) eq_refl ltac:(by vm_compute)) as W.
  assert (forall lc2, config lc2 = config (fst (fst (handle_peer_info toy_hash (fun s => s) (H := a_store) a_peer_info
      (fst (fst (handle_login_from_ui toy_hash (H := a_store) (a_client false) "" "pw" true (a_session None) no_files)))
      (snd (fst (handle_login_from_ui toy_hash (H := a_store) (a_client false) "" "pw" true (a_session None) no_files))))))
    -> ps_ok (PeerStore := a_store) (config lc2)) as O.
  { intros lc2 ->. apply storable_plain; [by vm_compute|by vm_compute|]. repeat (apply Forall_cons_2; [by vm_compute|]).
    apply Forall_nil_2. }
  destruct (handle_login_from_ui _ _ _ _ _ _ _) as [[lc1 f1] o1]. cbn [fst snd] in O.
  destruct (handle_peer_info _ _ _ _ _) as [[lc2 f2] o2]. cbn [fst] in O. specialize (W (O lc2 eq_refl)). cbv zeta in W.
  destruct (initialize _ _ _ _ _ _ _ _ _ _ _ _) as [lc3 f3].
  change (mkHash (h_salt (lc_hash (a_session None))) "other") with (mkHash "s" "other") in W.
  destruct (handle_hash _ _ _ _ _ _ _ _) as [[lc4 f4] out].
  destruct W as [W _]. destruct (W eq_refl) as (lr & -> & _). exists lr. reflexivity.
Defined.

Lemma proxy_relays_for_good_witness :
  force_relay (fst (initialize (fun s => s) (fun _ => None) "" (H := a_store) (a_client true) "1" DEFAULT_CONN None false
    None None None (a_session None) no_files)) = true.
Proof.
  pose proof (proxy_relays_for_good toy_hash (fun s => s) (fun _ => None) "" (H := a_store) (a_client true) (a_client false)
    a_peer_info (a_session None) (a_session None) no_files "1" DEFAULT_CONN DEFAULT_CONN ltac:(left; done)) as W.
  destruct (initialize _ _ _ _ _ _ _ _ _ _ _ _) as [lc1 f1]. destruct (handle_peer_info _ _ _ _ _) as [[lc2 f2] o].
  exact (proj1 W).
Defined.
