(* ===== verification/Session.v ===== *)
(** * Both ends of a session

    What the controlling side ([LoginConfig]) and the controlled side ([ConnLogin],
    [ConnMessages]) do together: a password that is typed, remembered or shared opens the
    session, and the options the controlling side shows are the ones the other side acts
    on.  The theorems use the files of the peers through [PeerStore]; [PeerConfig] is an
    instance. *)

From S2P Require Import ConnSafety.
From S2P Require Import Prelude Utf8 Secure PasswordStore Options LoginGuard CodecChoice ConnState ConnOptions ConnLogin.
From S2P Require Import ConnMessages PeerConfig LoginConfig SessionPasswords.

(** Handlers that leave a part of the state alone. *)
Definition keeps {A} (p : Connection -> A) (h : handler) : Prop := forall c, p (fst (h c)) = p c.

Section keeps.
Context {A : Type} (p : Connection -> A).

Lemma keeps_skip : keeps p skip.
Proof. done. Qed.

Lemma keeps_emit l : keeps p (emit l).
Proof. done. Qed.

Lemma keeps_when b h : keeps p h -> keeps p (when b h).
Proof. by destruct b. Qed.

Lemma keeps_andthen a b : keeps p a -> keeps p b -> keeps p (andthen a b).
Proof.
  intros Ha Hb c. unfold andthen. specialize (Ha c). destruct (a c) as [c1 l]. specialize (Hb c1).
  destruct (b c1) as [c2 l']. cbn in *. congruence.
Qed.

Lemma keeps_with_conn k : (forall c, keeps p (k c)) -> keeps p (with_conn k).
Proof. intros K c. apply K. Qed.

Lemma keeps_modify k : (forall c, p (k c) = p c) -> keeps p (modify k).
Proof. done. Qed.

Lemma keeps_on_bool o k : (forall b, keeps p (k b)) -> keeps p (on_bool o k).
Proof. intros K. by destruct o as [[]|]; cbn [on_bool]. Qed.
End keeps.

Ltac keeps_step :=
  match goal with
  | |- keeps _ (andthen _ _) => apply keeps_andthen
  | |- keeps _ (with_conn _) => apply keeps_with_conn; intros ?; cbv beta zeta
  | |- keeps _ (modify _) => apply keeps_modify; reflexivity
  | |- keeps _ (emit _) => apply keeps_emit
  | |- keeps _ skip => apply keeps_skip
  | |- keeps _ (when _ _) => apply keeps_when
  | |- keeps _ (on_bool _ _) => apply keeps_on_bool; intros ?
  | |- keeps _ (if _ then _ else _) => case_match
  | |- keeps _ (match ?x with _ => _ end) => destruct x eqn:?
  end.

Lemma sub_audio_keeps {A} (p : Connection -> A) c : keeps p (sub_audio c).
Proof. unfold sub_audio. repeat keeps_step. Qed.

Section session.
Context (sha256 : bytes -> bytes) (b64_decode parse_uuid : string -> option bytes) (parse_v6 : string -> option Z).
Context `{PeerStore}.
Implicit Types (lc : LoginConfigHandler) (f : ps_files).

Local Notation choose_password := (choose_password sha256 b64_decode).
Local Notation handle_hash := (handle_hash sha256 b64_decode parse_uuid).
Local Notation handle_login_from_ui := (handle_login_from_ui sha256).
Local Notation salted := (salted sha256).
Local Notation challenged := (challenged sha256).
Local Notation plain := (plain parse_uuid).

(** ** Options *)

(** What the other side should act on. *)
Definition expected (t : Toggles) : Wishes :=
  mkWishes (view_only t) (view_only t && show_my_cursor t) (view_only t || disable_clipboard t) (disable_audio t)
    (negb (view_only t) && enable_file_copy_paste t) (negb (view_only t) && lock_after_session_end t)
    (view_only t || show_remote_cursor t) (follow_remote_cursor t) (follow_remote_window t).

Definition wish (o : option BoolOption) (old : bool) : bool :=
  match o with Some Yes => true | Some No => false | _ => old end.

(** What a message of options does to the wishes. *)
Definition apply_option (o : OptionMessage) (w : Wishes) : Wishes :=
  mkWishes (wish (o_disable_keyboard o) (ConnState.disable_keyboard w))
    (wish (o_show_my_cursor o) (ConnState.show_my_cursor w))
    (wish (o_disable_clipboard o) (ConnState.disable_clipboard w))
    (wish (o_disable_audio o) (ConnState.disable_audio w))
    (wish (o_enable_file_transfer o) (ConnState.enable_file_transfer w))
    (wish (o_lock_after_session_end o) (ConnState.lock_after_session_end w))
    (wish (o_show_remote_cursor o) (ConnState.show_remote_cursor w))
    (wish (o_follow_remote_cursor o) (ConnState.follow_remote_cursor w))
    (wish (o_follow_remote_window o) (ConnState.follow_remote_window w)).

Definition acts (h : handler) (g : Wishes -> Wishes) : Prop := forall c, wishes (fst (h c)) = g (wishes c).

Lemma acts_andthen a b g g' : acts a g -> acts b g' -> acts (andthen a b) (fun w => g' (g w)).
Proof.
  intros A B c. unfold andthen. specialize (A c). destruct (a c) as [c1 l]. specialize (B c1).
  destruct (b c1) as [c2 l']. cbn in *. congruence.
Qed.

Local Notation idle := (keeps wishes).

(** Setting one wish, and telling the services. *)
Lemma wish_acts o (set : bool -> Connection -> Connection) (get : Wishes -> bool) (g : bool -> Wishes -> Wishes) h :
  (forall b c, wishes (set b c) = g b (wishes c)) -> (forall w, g (get w) w = w) -> (forall b, idle (h b)) ->
  acts (on_bool o (fun b => modify (set b) ;;; h b)%handler) (fun w => g (wish o (get w)) w).
Proof.
  intros S G Hh c. assert (forall b, wishes (fst ((modify (set b) ;;; h b)%handler c)) = g b (wishes c)) as E.
  { intros b. exact (acts_andthen (modify (set b)) (h b) (g b) (fun w => w) (S b) (Hh b) c). }
  destruct o as [[]|]; cbn [on_bool wish]; rewrite ?G; auto.
Qed.

Lemma wish_acts0 o (set : bool -> Connection -> Connection) (get : Wishes -> bool) (g : bool -> Wishes -> Wishes) :
  (forall b c, wishes (set b c) = g b (wishes c)) -> (forall w, g (get w) w = w) ->
  acts (on_bool o (fun b => modify (set b))) (fun w => g (wish o (get w)) w).
Proof. intros S G c. destruct o as [[]|]; cbn [on_bool wish]; rewrite ?G; [done|apply S|apply S|done]. Qed.

Lemma acts_idle a b g : idle a -> acts b g -> acts (andthen a b) g.
Proof. intros A B. exact (acts_andthen a b _ _ A B). Qed.

Lemma acts_ext h g g' : acts h g -> (forall w, g w = g' w) -> acts h g'.
Proof. intros A E c. by rewrite A. Qed.

Ltac one_wish get w_set :=
  first [apply (wish_acts _ _ get w_set) | apply (wish_acts0 _ _ get w_set)];
  [done|by intros []|try (intros ?; repeat keeps_step; try apply sub_audio_keeps)..].

Lemma update_options_wishes env o : acts (update_options env o) (apply_option o).
Proof.
  assert (idle (option_image_quality o)) as Q by (unfold option_image_quality; repeat keeps_step).
  assert (idle (option_input o)) as I by (unfold option_input; repeat keeps_step).
  assert (idle (on_bool (o_terminal_persistent o) update_terminal_persistence)) as T
    by (unfold update_terminal_persistence; repeat keeps_step).
  eassert (acts (option_video o) _) as V.
  { unfold option_video. apply acts_idle; [repeat keeps_step|]. apply acts_idle; [by destruct (o_supported_decoding o)|].
    apply acts_andthen; [one_wish ConnState.lock_after_session_end w_lock_after_session_end
                        |one_wish ConnState.show_remote_cursor w_show_remote_cursor]. }
  eassert (acts (option_follow o) _) as F.
  { unfold option_follow. apply acts_andthen; [one_wish ConnState.follow_remote_cursor w_follow_remote_cursor|].
    apply acts_andthen; [one_wish ConnState.follow_remote_window w_follow_remote_window
                        |one_wish ConnState.disable_audio w_disable_audio]. }
  eassert (acts (option_clipboard env o) _) as C.
  { unfold option_clipboard. apply acts_andthen; [one_wish ConnState.enable_file_transfer w_enable_file_transfer|].
    apply acts_andthen; [one_wish ConnState.disable_clipboard w_disable_clipboard
                        |one_wish ConnState.disable_keyboard w_disable_keyboard]. }
  eassert (acts (option_terminal env o) _) as Tm.
  { unfold option_terminal. apply acts_idle; [exact T|]. one_wish ConnState.show_my_cursor w_show_my_cursor. }
  unfold update_options. apply acts_idle; [exact Q|].
  pose proof (acts_andthen _ _ _ _ V (acts_andthen _ _ _ _ F (acts_andthen _ _ _ _ C (acts_idle _ _ _ I Tm)))) as A.
  refine (acts_ext _ _ _ A _). by intros [].
Qed.

(** What a new authorization makes of the options of the login. *)
Definition taken (o : option OptionMessage) (w : Wishes) : Wishes :=
  match o with Some o => apply_option o w | None => w end.

Lemma start_session_idle env wait sub_service : idle (start_session env wait sub_service).
Proof. unfold start_session, try_sub_monitor_services, init_terminal_service. repeat keeps_step. Qed.

(** A tunnel takes no options. *)
Lemma on_authorized_wishes env c :
  port_forward (kind c) = false -> wishes (fst (on_authorized env c)) = taken (options_in_login c) (wishes c).
Proof.
  intros P. unfold on_authorized, with_conn. rewrite P. cbv zeta.
  match goal with |- wishes (fst ((_ ;;; when ?b ?u ;;; _ ;;; ?m ;;; start_session ?e ?wt ?sb)%handler c)) = _ =>
    assert (acts m (taken (options_in_login c))) as M end.
  { destruct (options_in_login c) as [o|]; [|done]. apply acts_idle; [by apply keeps_modify|apply update_options_wishes]. }
  assert (idle (when (negb (bool_decide (is_Some (file_transfer (kind c))) || terminal (kind c))) update_codec_on_login)) as U
    by (apply keeps_when; unfold update_codec_on_login; repeat keeps_step).
  exact (acts_idle _ _ _ (keeps_modify wishes (set_authed_type (Some (auth_conn_type c))) (fun _ => eq_refl)) (acts_idle _ _ _ U (acts_idle _ _ _ (keeps_emit wishes _)
    (acts_andthen _ _ _ (fun w => w) M (start_session_idle _ _ _)))) c).
Qed.

Lemma login_kind_keeps env lr c :
  (forall h p, lr_kind lr <> LkPortForward h p) ->
  wishes (snd (fst (login_kind_step env lr c))) = wishes c /\
  port_forward (kind (snd (fst (login_kind_step env lr c)))) = port_forward (kind c) /\
  options_in_login (snd (fst (login_kind_step env lr c))) = options_in_login c /\
  authorized (snd (fst (login_kind_step env lr c))) = authorized c.
Proof.
  intros N. unfold login_kind_step, fill_terminal_user_token.
  destruct (lr_kind lr); repeat case_match; simplify_eq/=; try (by split_and!); by destruct (N host port).
Qed.

Lemma without_validation_keeps env lr c :
  let c' := handle_login_request_without_validation env lr c in
  wishes c' = wishes c /\ authorized c' = authorized c /\ port_forward (kind c') = port_forward (kind c) /\
  options_in_login c' = match lr_option lr with Some o => Some o | None => options_in_login c end.
Proof. unfold handle_login_request_without_validation. repeat case_match; by split_and!. Qed.

(** The wishes after a login that authorizes. *)
Lemma login_wishes env lr c w :
  authorized c = false -> options_in_login c = None -> port_forward (kind c) = false ->
  (forall h p, lr_kind lr <> LkPortForward h p) ->
  let '(_, c', _, _) := on_login_request sha256 parse_v6 env lr c w in
  authorized c' = true -> wishes c' = taken (lr_option lr) (wishes c).
Proof.
  intros A O Pf N. unfold on_login_request. pose proof (without_validation_keeps env lr c) as (W & A1 & P1 & O1).
  rewrite O in O1. set (c1 := handle_login_request_without_validation env lr c) in *. rewrite A1, A.
  pose proof (login_kind_keeps env lr c1 N) as (W2 & P2 & O2 & A2).
  destruct (login_kind_step env lr c1) as [[go c2] l0]. cbn [fst snd] in *.
  destruct go; cbn [negb]; [|congruence].
  destruct (LoginGuard.login_request _ _ _ _ _ _ _ _) as [[keep b] g'].
  unfold conclude. rewrite A2, A1, A. cbn [negb andb fst].
  destruct (authorized (s_base b c2)) eqn:Au; [|congruence].
  pose proof (on_authorized_wishes env (s_base b c2) ltac:(cbn; congruence)) as Wa.
  unfold andthen. destruct (on_authorized env (s_base b c2)) as [c3 l]. cbn [fst emit] in *. intros _.
  rewrite Wa. change (options_in_login (s_base b c2)) with (options_in_login c2).
  change (wishes (s_base b c2)) with (wishes c2). rewrite O2, W2, O1, W. by destruct (lr_option lr).
Qed.

Lemma login_msg_kind env lc f : conn_type (snd (fst (get_option_message env true lc f))) = conn_type lc.
Proof.
  unfold get_option_message. do 2 (case_decide; [done|]). pose proof (quality_message_keeps env true lc f no_option) as Q.
  destruct (quality_message env true lc f no_option) as [[m lc'] f']. by destruct Q as [? ->].
Qed.

(** A connection has no wishes at first. *)
Definition no_wishes : Wishes := mkWishes false false false false false false false false false.

(** A message about quality and rate only. *)
Definition about_quality (m : OptionMessage) : Prop :=
  exists q cq fps, m = set_o_image_quality q (set_o_custom_image_quality cq (set_o_custom_fps fps no_option)).

Lemma quality_message_about env ig lc f :
  about_quality (fst (fst (quality_message env ig lc f no_option))).
Proof.
  unfold quality_message, about_quality.
  destruct (get_image_quality_enum _ _) as [q|]; [by exists (Some q), 0, 0|].
  case_decide; [|by exists (Some 0), 0, 0]. destruct (load_config lc f) as [c f'].
  destruct (options (config lc) !! "custom-fps"%string); cbn [fst]; eexists (Some 0), _, _; cbv [set_o_image_quality set_o_custom_image_quality set_o_custom_fps no_option]; cbn; reflexivity.
Qed.

Lemma toggles_message_apply lc m d :
  about_quality m ->
  apply_option (set_o_supported_decoding d (toggles_message lc m)) no_wishes = expected (toggles (config lc)).
Proof.
  intros (q & cq & fps & ->). unfold toggles_message.
  change (get_toggle_option lc "view-only") with (view_only (toggles (config lc))).
  change (get_toggle_option lc "show-remote-cursor") with (show_remote_cursor (toggles (config lc))).
  change (get_toggle_option lc "show-my-cursor") with (show_my_cursor (toggles (config lc))).
  change (get_toggle_option lc "follow-remote-cursor") with (follow_remote_cursor (toggles (config lc))).
  change (get_toggle_option lc "follow-remote-window") with (follow_remote_window (toggles (config lc))).
  change (get_toggle_option lc "lock-after-session-end") with (lock_after_session_end (toggles (config lc))).
  change (get_toggle_option lc "disable-audio") with (disable_audio (toggles (config lc))).
  change (get_toggle_option lc "enable-file-copy-paste") with (enable_file_copy_paste (toggles (config lc))).
  change (get_toggle_option lc "disable-clipboard") with (disable_clipboard (toggles (config lc))).
  destruct (toggles (config lc)) as [a b ? ? ? c d' e ? g h i j ?]. cbn -[apply_option say expected].
  destruct i, a, b, c, d', e, g, h, j; reflexivity.
Qed.

Lemma login_option_expected env os pw lc f :
  conn_type lc = DEFAULT_CONN \/ conn_type lc = VIEW_CAMERA ->
  let '(lr, lc', f') := create_login_msg env os pw lc f in
  taken (lr_option lr) no_wishes = expected (toggles (config lc)) /\ config lc' = config lc /\ lc_id lc' = lc_id lc.
Proof.
  intros T. unfold create_login_msg, get_option_message.
  rewrite decide_False by (destruct T as [-> | ->]; apply (bool_decide_unpack _); done). rewrite decide_False by (by destruct T as [-> | ->]).
  pose proof (quality_message_about env true lc f) as Q. pose proof (quality_message_keeps env true lc f no_option) as K.
  destruct (other_server lc) as [[[? ?] ?]|]; destruct (quality_message env true lc f no_option) as [[m lc1] f1];
    destruct K as [fps ->]; cbn [fst] in Q; cbn [lr_option taken].
  all: split; [|by split]. all: by rewrite toggles_message_apply.
Qed.

(** ** Toggling *)

(** The files have the configuration of the session, and its secrets survive. *)
Definition in_step lc f : Prop :=
  exists c, ps_load (lc_id lc) f = (c, f) /\ ps_ok c /\ toggles c = toggles (config lc).

(** The names of the menu. *)
Definition NAMES : list string :=
  ["show-remote-cursor"; "follow-remote-cursor"; "follow-remote-window"; "disable-audio"; "disable-clipboard";
   "lock-after-session-end"; "terminal-persistent"; "privacy-mode"; "enable-file-copy-paste"; "block-input";
   "unblock-input"; "show-quality-monitor"; "allow_swap_key"; "view-only"]%string.

(** What view mode disables in the menu. *)
Definition OVERRIDDEN : list string :=
  ["show-remote-cursor"; "disable-clipboard"; "lock-after-session-end"; "enable-file-copy-paste"]%string.

(** What a user does: a toggle of the menu, or the cursor of the viewer, which brings view
    mode with it. *)
Definition presses (lc : LoginConfigHandler) (name : string) : list string :=
  if decide (name = "show-my-cursor"%string) then
    if view_only (toggles (config lc)) then ["show-my-cursor"%string] else ["show-my-cursor"; "view-only"]%string
  else if decide (name ∈ NAMES) then
    if view_only (toggles (config lc)) && bool_decide (name ∈ OVERRIDDEN) then [] else [name]
  else [].

(** The name is pressed: the handler of the session, and the message to the other side. *)
Definition toggle_step (env : Env) (name : string) (s : LoginConfigHandler * ps_files * Connection * World)
    : LoginConfigHandler * ps_files * Connection * World :=
  let '(lc, f, c, w) := s in
  let '(o, lc, f) := toggle_option name lc f in
  match o with
  | Some o => let '(_, c, w, _) := on_message sha256 parse_v6 env (Misc (MOption o)) c w in (lc, f, c, w)
  | None => (lc, f, c, w)
  end.

Definition press (s : LoginConfigHandler * ps_files * Connection * World) (a : Env * string)
    : LoginConfigHandler * ps_files * Connection * World :=
  foldl (fun s name => toggle_step (fst a) name s) s (presses (fst (fst (fst s))) (snd a)).

Lemma update_options_keeps env o : keeps (fun c => (base c, port_forward (kind c))) (update_options env o).
Proof.
  unfold update_options, option_image_quality, option_video, option_follow, option_clipboard, option_input,
    option_terminal, update_terminal_persistence.
  repeat first [keeps_step | apply sub_audio_keeps].
Qed.

(** A message of options reaches an authorized connection. *)
Lemma option_delivered env o c w :
  authorized c = true -> port_forward (kind c) = false ->
  exists c' l, on_message sha256 parse_v6 env (Misc (MOption o)) c w = (true, c', w, l) /\
    wishes c' = apply_option o (wishes c) /\ authorized c' = true /\ port_forward (kind c') = false.
Proof.
  intros A P. cbn [on_message on_authorized_message on_misc]. rewrite A, P.
  pose proof (update_options_wishes env o c) as W. pose proof (update_options_keeps env o c) as K.
  destruct (update_options env o c) as [c' l]. cbn [fst] in *. injection K as K1 K2.
  exists c', l. split_and!; [done|done|unfold authorized in *; by rewrite K1|congruence].
Qed.

Lemma wish_yes_no b old : wish (yes_no b) old = b.
Proof. by destruct b. Qed.

(** The cursor of the viewer is shown in view mode only. *)
Definition cursor_ok (t : Toggles) : Prop := show_my_cursor t = true -> view_only t = true.

(** A toggle changes nothing but toggles, and its message keeps the other side in step. *)
Definition toggle_ok (lc : LoginConfigHandler) (c : PeerConfig) (r : option (PeerConfig * OptionMessage)) : Prop :=
  match r with
  | Some (c', o) => password c' = password c /\ options c' = options c /\
      apply_option o (expected (toggles c)) = expected (toggles c') /\ cursor_ok (toggles c')
  | None => False
  end.

Lemma flip_ok lc get set tell c :
  (forall t, cursor_ok t -> cursor_ok (set (negb (get t)) t)) ->
  (apply_option (tell (yes_no (negb (get (toggles c)))) no_option) (expected (toggles c)) =
    expected (set (negb (get (toggles c))) (toggles c))) ->
  cursor_ok (toggles c) -> toggle_ok lc c (Some (flip get set tell c)).
Proof. intros S E K. unfold flip. split_and!; [done|done|done|by apply S]. Qed.

Lemma view_only_ok lc c :
  toggles c = toggles (config lc) -> cursor_ok (toggles c) -> toggle_ok lc c (Some (toggle_view_only lc c)).
Proof.
  intros T K. unfold toggle_view_only.
  change (get_toggle_option lc "disable-clipboard") with (disable_clipboard (toggles (config lc))).
  change (get_toggle_option lc "show-remote-cursor") with (show_remote_cursor (toggles (config lc))).
  rewrite <- T. clear T. destruct c as [? ? ? ? ? [a b ? ? ? d e f ? h i v s ?] ? ? ? ? ? ? ? ?].
  unfold cursor_ok in K. cbn in K.
  destruct v, s; try (by specialize (K eq_refl)); clear K; destruct a, b, e, f; by split_and!.
Qed.

(** A name whose toggle is a flip. *)
Ltac by_flip get set tell :=
  lazymatch goal with |- toggle_ok ?lc ?c _ =>
    change (toggle_ok lc c (Some (flip get set tell c)));
    apply flip_ok; [by intros []| |assumption];
    destruct (toggles c) as [? ? ? ? ? ? ? ? ? ? ? v s ?]; cbn [view_only] in *; unfold apply_option, expected;
    cbn -[wish yes_no]; rewrite ?wish_yes_no; first [reflexivity|by destruct v]
  end.

Lemma toggled_ok name lc c :
  toggles c = toggles (config lc) -> cursor_ok (toggles c) -> name ∈ NAMES ->
  view_only (toggles c) && bool_decide (name ∈ OVERRIDDEN) = false ->
  toggle_ok lc c (toggled name lc c).
Proof.
  intros T K N V. unfold NAMES in N. rewrite !elem_of_cons, elem_of_nil in N.
  destruct N as [->|[->|[->|[->|[->|[->|[->|[->|[->|[->|[->|[->|[->|[->|[]]]]]]]]]]]]]]].
  - by_flip show_remote_cursor t_set_show_remote_cursor set_o_show_remote_cursor.
  - by_flip follow_remote_cursor t_set_follow_remote_cursor set_o_follow_remote_cursor.
  - by_flip follow_remote_window t_set_follow_remote_window set_o_follow_remote_window.
  - by_flip disable_audio t_set_disable_audio set_o_disable_audio.
  - by_flip disable_clipboard t_set_disable_clipboard set_o_disable_clipboard.
  - by_flip lock_after_session_end t_set_lock_after_session_end set_o_lock_after_session_end.
  - by_flip terminal_persistent t_set_terminal_persistent set_o_terminal_persistent.
  - by split_and!.
  - by_flip enable_file_copy_paste t_set_enable_file_copy_paste set_o_enable_file_transfer.
  - by split_and!.
  - by split_and!.
  - by_flip show_quality_monitor t_set_show_quality_monitor (fun (_ : option BoolOption) (o : OptionMessage) => o).
  - by_flip allow_swap_key t_set_allow_swap_key (fun (_ : option BoolOption) (o : OptionMessage) => o).
  - change (toggle_ok lc c (Some (toggle_view_only lc c))). by apply view_only_ok.
Qed.

(** A named toggle keeps the files and the session in step, and gives its message. *)
Lemma toggle_option_spec name lc f c c' o :
  ps_load (lc_id lc) f = (c, f) -> ps_ok c -> toggles c = toggles (config lc) ->
  toggled name lc c = Some (c', o) -> password c' = password c -> options c' = options c ->
  (contains "block-input" name = true -> toggles c' = toggles c) ->
  let '(r, lc', f') := toggle_option name lc f in
  r = Some o /\ in_step lc' f' /\ toggles (config lc') = toggles c' /\ conn_type lc' = conn_type lc.
Proof.
  intros L O T E P Op B. unfold toggle_option, load_config. rewrite L, E. destruct (contains "block-input" name).
  - split_and!; [done| |by rewrite B|done]. by exists c.
  - assert (ps_ok c') as O' by (by apply (ps_ok_secrets c)).
    unfold save_config. split_and!; try done. exists (ps_norm c'). cbn [lc_id l_set_config config].
    rewrite ps_load_store by done. split_and!; [done| |by rewrite ps_norm_toggles].
    apply (ps_ok_secrets c'); [by rewrite ps_norm_password|by rewrite ps_norm_options|done].
Qed.

(** Both sides agree. *)
Definition mirrored (s : LoginConfigHandler * ps_files * Connection * World) : Prop :=
  let '(lc, f, c, _) := s in
  in_step lc f /\ cursor_ok (toggles (config lc)) /\ authorized c = true /\ port_forward (kind c) = false /\
  wishes c = expected (toggles (config lc)).

Lemma block_input_only name : name ∈ NAMES -> contains "block-input" name = true ->
  name = "block-input"%string \/ name = "unblock-input"%string.
Proof.
  intros N. assert (Forall (fun n => contains "block-input" n = true -> n = "block-input"%string \/ n = "unblock-input"%string) NAMES)
    as A by (repeat (apply Forall_cons_2; [by vm_compute; intros; (try discriminate); auto|]); apply Forall_nil_2).
  rewrite Forall_forall in A. by apply A.
Qed.

Lemma toggle_mirrored env name lc f c w :
  mirrored (lc, f, c, w) -> name ∈ NAMES -> view_only (toggles (config lc)) && bool_decide (name ∈ OVERRIDDEN) = false ->
  mirrored (toggle_step env name (lc, f, c, w)).
Proof.
  intros ((c0 & L & O & T) & K & A & P & W) N V. rewrite <- T in K, V, W.
  pose proof (toggled_ok name lc c0 T K N V) as Ok. unfold toggle_step.
  destruct (toggled name lc c0) as [[c' o]|] eqn:E; [|done]. destruct Ok as (Pw & Op & Ap & K').
  assert (contains "block-input" name = true -> toggles c' = toggles c0) as B.
  { intros [-> | ->]%block_input_only; [| |done].
    all: by (cbn in E; injection E as <- _). }
  pose proof (toggle_option_spec name lc f c0 c' o L O T E Pw Op B) as S.
  destruct (toggle_option name lc f) as [[r lc'] f']. destruct S as (-> & I & T' & _).
  destruct (option_delivered env o c w A P) as (c1 & l & -> & W1 & A1 & P1).
  unfold mirrored. rewrite T', W1, W, Ap. by split_and!.
Qed.

(** The cursor of the viewer, with view mode where it is not on. *)
Lemma cursor_mirrored env lc f c w :
  mirrored (lc, f, c, w) ->
  mirrored (foldl (fun s name => toggle_step env name s) (lc, f, c, w) (presses lc "show-my-cursor")).
Proof.
  intros ((c0 & L & O & T) & K & A & P & W).
  pose proof (toggle_option_spec "show-my-cursor" lc f c0 _ _ L O T eq_refl eq_refl eq_refl ltac:(by vm_compute)) as S.
  assert (presses lc "show-my-cursor" = if view_only (toggles (config lc)) then ["show-my-cursor"%string]
    else ["show-my-cursor"; "view-only"]%string) as -> by done.
  set (s1 := toggle_step env "show-my-cursor" (lc, f, c, w)). rewrite <- T in *.
  assert (let '(lc1, f1, c1, _) := s1 in in_step lc1 f1 /\ authorized c1 = true /\ port_forward (kind c1) = false /\
    toggles (config lc1) = t_set_show_my_cursor (negb (show_my_cursor (toggles c0))) (toggles c0) /\
    wishes c1 = w_show_my_cursor (negb (show_my_cursor (toggles c0))) (expected (toggles c0))) as S1.
  { subst s1. unfold toggle_step. destruct (toggle_option "show-my-cursor" lc f) as [[r lc1] f1].
    destruct S as (-> & I1 & T1 & _).
    match goal with |- context [MOption ?o] => destruct (option_delivered env o c w A P) as (c1 & l & -> & W1 & A1 & P1) end.
    split_and!; try done. rewrite W1, W. unfold apply_option. cbn -[wish yes_no]. by rewrite wish_yes_no. }
  destruct (view_only (toggles c0)) eqn:V; cbn [foldl]; fold s1; destruct s1 as [[[lc1 f1] c1] w1];
    destruct S1 as (I1 & A1 & P1 & T1 & W1).
  - unfold mirrored. rewrite T1, W1. split_and!; [done|by intros _|done|done|]. destruct (toggles c0); cbn in *. by subst.
  - assert (show_my_cursor (toggles c0) = false) as Sf
      by (destruct (show_my_cursor (toggles c0)) eqn:Sf; [unfold cursor_ok in K; rewrite Sf in K; specialize (K eq_refl); congruence|done]).
    destruct I1 as (c2 & L2 & O2 & T2). rewrite T1 in T2.
    assert (view_only (toggles c2) = false) as V2 by by rewrite T2.
    assert (toggled "view-only" lc1 c2 = Some (p_set_toggles (t_set_view_only true (toggles c2)) c2,
      set_o_disable_keyboard (yes_no true) (set_o_disable_clipboard (yes_no true)
      (set_o_show_remote_cursor (yes_no true) (set_o_enable_file_transfer (yes_no false)
        (set_o_lock_after_session_end (yes_no false) no_option)))))) as E.
    { change (toggled "view-only" lc1 c2) with (Some (toggle_view_only lc1 c2)). unfold toggle_view_only.
      by rewrite V2. }
    pose proof (toggle_option_spec "view-only" lc1 f1 c2 _ _ L2 O2 ltac:(by rewrite T1, T2) E eq_refl eq_refl ltac:(by vm_compute)) as S2.
    unfold toggle_step. destruct (toggle_option "view-only" lc1 f1) as [[r lc2] f2]. destruct S2 as (-> & I2 & T3 & _).
    match goal with |- context [MOption ?o] => destruct (option_delivered env o c1 w1 A1 P1) as (c3 & l & -> & W3 & A3 & P3) end.
    unfold mirrored. rewrite T3, W3, W1. cbn [toggles p_set_toggles]. rewrite T2, Sf.
    split_and!; [done|by intros _|done|done|]. by destruct (toggles c0).
Qed.

Lemma press_mirrored a s : mirrored s -> mirrored (press s a).
Proof.
  destruct s as [[[lc f] c] w], a as [env name]. intros M. unfold press. cbn [fst snd].
  destruct (decide (name = "show-my-cursor"%string)) as [->|N]; [by apply cursor_mirrored|].
  unfold presses. rewrite decide_False by done. case_decide as I; [|done].
  destruct (view_only (toggles (config lc)) && bool_decide (name ∈ OVERRIDDEN)) eqn:V; [done|]. cbn [foldl].
  by apply toggle_mirrored.
Qed.

Lemma presses_mirrored acts0 s : mirrored s -> mirrored (foldl press s acts0).
Proof. revert s. induction acts0 as [|a l IH]; intros s M; [done|]. by apply IH, press_mirrored. Qed.

Lemma login_msg_files env os pw lc f :
  in_step lc f -> snd (create_login_msg env os pw lc f) = f.
Proof.
  intros (c & L & _). unfold create_login_msg, get_option_message, quality_message, load_config. rewrite L.
  repeat case_match; simplify_eq/=; done.
Qed.

Lemma login_keeps_tunnel env lr c w :
  lr_kind lr = LkNone \/ lr_kind lr = LkViewCamera ->
  port_forward (kind (snd (fst (fst (on_login_request sha256 parse_v6 env lr c w))))) = port_forward (kind c).
Proof.
  intros Lk. unfold on_login_request.
  assert (port_forward (kind (handle_login_request_without_validation env lr c)) = port_forward (kind c)) as E1
    by (unfold handle_login_request_without_validation; by repeat case_match).
  set (c1 := handle_login_request_without_validation env lr c) in *. destruct (authorized c1); [done|].
  assert (port_forward (kind (snd (fst (login_kind_step env lr c1)))) = port_forward (kind c1)) as E2
    by (unfold login_kind_step; destruct Lk as [-> | ->]; by repeat case_match).
  destruct (login_kind_step env lr c1) as [[go c2] l0]. cbn [fst snd] in E2. destruct go; cbn [negb fst snd]; [|congruence].
  destruct (LoginGuard.login_request _ _ _ _ _ _ _ _) as [[keep b] g']. unfold conclude.
  assert (keeps (fun c => port_forward (kind c)) (on_authorized env)) as K.
  { unfold on_authorized, update_codec_on_login, start_session, init_terminal_service, try_sub_monitor_services.
    repeat keeps_step. intros c'. pose proof (update_options_keeps env o c') as U. cbn in U. by injection U. }
  destruct (negb (authorized c2) && _); [|cbn; congruence].
  specialize (K (s_base b c2)). unfold andthen. cbn [fst snd] in *.
  destruct (on_authorized env (s_base b c2)) as [c3 l]. cbn [fst snd emit] in *. rewrite K. cbn. congruence.
Qed.

(** C14. Both sides agree on the options: after a login for the desktop or the camera that
    authorizes, and after any toggles of the menu (where view mode disables the four that
    it overrides, and showing one's own cursor brings view mode with it), the other side
    acts on what this side shows: the wishes of the connection are those of the
    configuration of the session, and the file of the peer has it too. *)
Theorem options_mirrored env envs cenv os pw lc f b w acts0 :
  conn_type lc = DEFAULT_CONN \/ conn_type lc = VIEW_CAMERA ->
  in_step lc f -> cursor_ok (toggles (config lc)) -> cn_authorized b = false ->
  let '(lr, lc1, f1) := create_login_msg cenv os pw lc f in
  let '(_, c1, w1, _) := on_login_request sha256 parse_v6 env lr (new_connection envs b) w in
  authorized c1 = true ->
  let '(lc2, f2, c2, _) := foldl press (lc1, f1, c1, w1) acts0 in
  wishes c2 = expected (toggles (config lc2)) /\
  exists c, ps_load (lc_id lc2) f2 = (c, f2) /\ toggles c = toggles (config lc2).
Proof.
  intros T I K A. pose proof (login_option_expected cenv os pw lc f T) as E.
  pose proof (login_msg_files cenv os pw lc f I) as F.
  assert (lr_kind (fst (fst (create_login_msg cenv os pw lc f))) = LkNone \/
          lr_kind (fst (fst (create_login_msg cenv os pw lc f))) = LkViewCamera) as Lk.
  { unfold create_login_msg. destruct (other_server lc) as [[[? ?] ?]|];
      pose proof (login_msg_kind cenv lc f) as Q; destruct (get_option_message cenv true lc f) as [[o lc'] f'];
      cbn [fst lr_kind]; unfold kind_of_login; cbn in Q; rewrite Q; destruct T as [-> | ->]; auto. }
  destruct (create_login_msg cenv os pw lc f) as [[lr lc1] f1]. cbn [fst snd] in *. subst f1. destruct E as (E & C & Id).
  pose proof (login_wishes env lr (new_connection envs b) w A eq_refl eq_refl ltac:(destruct Lk as [-> | ->]; done)) as W.
  pose proof (login_keeps_tunnel env lr (new_connection envs b) w Lk) as P.
  destruct (on_login_request sha256 parse_v6 env lr (new_connection envs b) w) as [[[keep c1] w1] l].
  intros Au. specialize (W Au). cbn [fst snd] in P.
  assert (mirrored (foldl press (lc1, f, c1, w1) acts0)) as M.
  { apply presses_mirrored. unfold mirrored. rewrite C. split_and!; try done; [|by rewrite W, <- E].
    destruct I as (c & L & O & Tc). exists c. by rewrite Id, C. }
  destruct (foldl press (lc1, f, c1, w1) acts0) as [[[lc2 f2] c2] w2].
  destruct M as ((c & L & _ & Tc) & _ & _ & _ & Wf). split; [done|by exists c].
Qed.

(** ** The password and the guard *)

(** The password is one that the machine asks for. *)
Definition asked_for (cfg : LoginGuard.Config) (pw : string) : Prop :=
  temporary_enabled cfg = true /\ cfg_temporary_password cfg = pw \/
  permanent_enabled cfg = true /\ cfg_permanent_password cfg = pw.

(** What the guard needs beside the password. *)
Record open_door (env : Env) (b : LoginGuard.Connection) (w : World) : Prop := {
  od_mode : approve_mode (e_cfg env) = Password;
  od_target : le_target_ok (e_login env) = true;
  od_desktop : le_err_msg (e_login env) = ""%string;
  od_failures : snd (check_failure parse_v6 (e_now env / 60000000000) (cn_ip b) (g_failures0 (g w))) = true;
}.

Lemma validate_right cfg c g now pw :
  asked_for cfg pw -> pw <> ""%string ->
  lr_password (cn_lr c) = challenged (salted pw (mkHash (cn_salt c) (cn_challenge c))) (mkHash (cn_salt c) (cn_challenge c)) ->
  fst (validate_password sha256 now cfg c g) = true.
Proof.
  intros Af N L. assert (validate_one_password sha256 c pw = true) as V.
  { unfold validate_one_password, is_empty. rewrite bool_decide_false by done. by apply bool_decide_eq_true. }
  unfold validate_password. destruct Af as [[-> ->]|[-> ->]]; rewrite V; [done|]. by destruct (temporary_enabled _ && _).
Qed.

Lemma logon_authorizes now c g :
  cn_require_2fa c = false -> cn_authorized (fst (send_logon_response sha256 now c g)) = true.
Proof. intros F. unfold send_logon_response. rewrite F. by destruct (cn_authorized c) eqn:A. Qed.

Lemma right_answer_granted env c w pw :
  asked_for (e_cfg env) pw -> pw <> ""%string -> open_door env c w -> cn_require_2fa c = false ->
  lr_password (cn_lr c) <> [] ->
  lr_password (cn_lr c) = challenged (salted pw (mkHash (cn_salt c) (cn_challenge c))) (mkHash (cn_salt c) (cn_challenge c)) ->
  cn_authorized (snd (fst (LoginGuard.login_request sha256 parse_v6 (e_now env) (e_now env / 60000000000) (e_cfg env)
    (e_login env) c (g w)))) = true.
Proof.
  intros Af N [M Tg D Fl] F Ne L. unfold LoginGuard.login_request. rewrite Tg, M, D. cbn [negb].
  assert (forall c g, (let '(c, g) := send_logon_response sha256 (e_now env) c g in (true, c, g)) =
    (true, fst (send_logon_response sha256 (e_now env) c g), snd (send_logon_response sha256 (e_now env) c g))) as Lg
    by (intros c' g'; by destruct (send_logon_response _ _ c' g')).
  assert (forall g, cn_authorized (fst (send_logon_response sha256 (e_now env) c g)) = true) as La
    by (intros g'; by apply logon_authorizes).
  destruct (should_auto_approve_file_transfer _ _ _); [rewrite Lg; apply La|].
  rewrite decide_False, !bool_decide_false by done. cbn [andb orb].
  assert (g_failures0 (snd (is_recent_session sha256 (e_now env) false c (g w))) = g_failures0 (g w)) as R by done.
  destruct (is_recent_session sha256 (e_now env) false c (g w)) as [recent g1]. cbn [snd] in R.
  change (is_empty "") with true. cbv iota. destruct recent; [rewrite Lg; apply La|]. rewrite decide_False by done. rewrite R.
  destruct (check_failure _ _ _ _) as [[fl time] res]. cbn [snd] in Fl. subst res. cbn [negb].
  pose proof (validate_right (e_cfg env) c g1 (e_now env) pw Af N L) as V.
  destruct (validate_password sha256 (e_now env) (e_cfg env) c g1) as [ok g2]. cbn [fst] in V. subst ok.
  rewrite Lg. apply La.
Qed.

(** The login with the right answer authorizes, when its kind is permitted. *)
Lemma right_answer_opens env lr c w pw :
  asked_for (e_cfg env) pw -> pw <> ""%string -> open_door env (base c) w ->
  authorized c = false -> cn_require_2fa (base c) = false -> lr_password (lg lr) <> [] ->
  lr_password (lg lr) = challenged (salted pw (mkHash (cn_salt (base c)) (cn_challenge (base c))))
    (mkHash (cn_salt (base c)) (cn_challenge (base c))) ->
  fst (fst (login_kind_step env lr (handle_login_request_without_validation env lr c))) = true ->
  authorized (snd (fst (fst (on_login_request sha256 parse_v6 env lr c w)))) = true.
Proof.
  intros Af N O A F Ne L Go. unfold on_login_request.
  assert (base (handle_login_request_without_validation env lr c) = base c /\
          login (handle_login_request_without_validation env lr c) = lr) as [B1 Lr1].
  { unfold handle_login_request_without_validation. cbv zeta.
    assert (forall c', base c' = base c -> cn_require_2fa (base c') = false) as F' by (intros ? ->; done).
    destruct (lr_option lr); cbn [base s_options_in_login s_login]; rewrite F; by split. }
  set (c1 := handle_login_request_without_validation env lr c) in *.
  assert (authorized c1 = false) as -> by (unfold authorized in *; by rewrite B1).
  assert (base (snd (fst (login_kind_step env lr c1))) = base c1 /\ login (snd (fst (login_kind_step env lr c1))) = login c1) as [B2 Lr2].
  { unfold login_kind_step, fill_terminal_user_token. destruct (lr_kind lr); repeat case_match; simplify_eq/=; by split. }
  destruct (login_kind_step env lr c1) as [[go c2] l0]. cbn [fst snd] in *. subst go. cbn [negb].
  rewrite B1 in B2. rewrite Lr1 in Lr2.
  assert (cn_authorized (snd (fst (LoginGuard.login_request sha256 parse_v6 (e_now env) (e_now env / 60000000000)
    (e_cfg env) (e_login env) (decided c2) (g w)))) = true) as G.
  { apply (right_answer_granted env (decided c2) w pw); unfold decided; cbn; rewrite ?B2, ?Lr2; try done.
    destruct O as [O1 O2 O3 O4]. by split. }
  destruct (LoginGuard.login_request _ _ _ _ _ _ _ _) as [[keep b'] g']. cbn [fst snd] in G.
  assert (authorized (fst (fst (conclude env c2 w (b', g')))) = true) as Cn.
  { unfold conclude. cbn [fst snd]. change (authorized (s_base b' c2)) with (cn_authorized b'). rewrite G.
    assert (authorized c2 = false) as -> by (unfold authorized in *; by rewrite B2). cbn [negb andb].
    assert (keeps base (on_authorized env)) as K.
    { unfold on_authorized, update_codec_on_login, start_session, init_terminal_service, try_sub_monitor_services.
      repeat keeps_step. intros c'. pose proof (update_options_keeps env o c') as U. cbn in U. by injection U. }
    specialize (K (s_base b' c2)). unfold andthen. destruct (on_authorized env (s_base b' c2)) as [c3 l].
    cbn [fst snd emit] in *. unfold authorized. by rewrite K. }
  destruct (conclude env c2 w (b', g')) as [[c3 w3] l]. exact Cn.
Qed.

(** C15. Who knows the password gets in: on a machine that asks for a password, the answer
    to its hash of a session that was given the password, and that of a user who types
    it, authorizes the connection, when the kind of the login is permitted, this machine
    is meant, the address is not throttled and no second factor is asked for.  The session has
    no password of its own yet and none of a shared address book, and the machine approves by
    password. *)
Theorem password_opens env cenv envs os pw rem lc f b w :
  (forall x, sha256 x <> []) -> pw <> ""%string -> asked_for (e_cfg env) pw -> open_door env b w ->
  cn_authorized b = false -> cn_require_2fa b = false ->
  let h := mkHash (cn_salt b) (cn_challenge b) in
  let c := new_connection envs b in
  let lets_in out := exists lr, out = [OLogin lr] /\
    (fst (fst (login_kind_step env lr (handle_login_request_without_validation env lr c))) = true ->
     authorized (snd (fst (fst (on_login_request sha256 parse_v6 env lr c w)))) = true) in
  (plain lc -> lc_password lc = [] -> shared_password lc = None -> lets_in (snd (handle_hash cenv pw h lc f))) /\
  (lc_hash lc = h -> lets_in (snd (handle_login_from_ui cenv os pw rem lc f))).
Proof.
  intros Sh N Af O A F h c lets_in. split.
  - intros [U T] P S. pose proof (handle_hash_spec sha256 b64_decode parse_uuid cenv pw h lc f U T) as Sp.
    assert (choose_password cenv pw h (l_set_switch_uuid None (l_set_lc_hash h lc)) = (salted pw h, Undefined)) as E.
    { unfold choose_password. cbn [lc_password shared_password l_set_switch_uuid l_set_lc_hash]. rewrite P, S.
      unfold or_password. cbn [fst snd]. rewrite (decide_True (P := @nil byte = [])), (decide_False (P := pw = ""%string)) by done.
      do 3 (rewrite ?(decide_False (P := salted pw h = [])) by apply Sh; cbn [fst snd]). done. }
    rewrite E in Sp. destruct (handle_hash cenv pw h lc f) as [[lc' f'] out]. cbn [snd].
    destruct Sp as (_ & _ & _ & _ & _ & _ & lr & L & ->). rewrite decide_False in L by apply Sh.
    rewrite decide_False by apply Sh. exists lr. split; [done|].
    apply (right_answer_opens env lr c w pw); try done. rewrite L. apply Sh.
  - intros Hh. pose proof (login_from_ui_spec sha256 cenv os pw rem lc f N) as Sp.
    destruct (handle_login_from_ui cenv os pw rem lc f) as [[lc' f'] out]. cbn [snd].
    destruct Sp as (_ & _ & _ & _ & _ & _ & lr & L & ->). rewrite Hh in L. exists lr. split; [done|].
    apply (right_answer_opens env lr c w pw); try done. rewrite L. apply Sh.
Qed.

End session.

(** ** Examples *)

(** View mode, pressed after a login to a machine that accepts everybody. *)
Definition an_open_machine : Env :=
  mkEnvironment (fun _ => ""%string) (fun _ => ""%string) 0 (LoginGuard.mkConfig (fun _ => ""%string) "" "")
    LoginGuard.an_env [] false false (Ok false) (Ok tt) (fun _ => None) (fun _ _ => true) false (fun _ => false) false true
    1 [(false, 0)] true false "ts_1" true false 0.

Lemma options_mirrored_witness :
  let '(lr, lc1, f1) := create_login_msg (H := a_store) (a_client false) "" [] (a_session None) no_files in
  let '(_, c1, w1, _) := on_login_request toy_hash (fun _ => None) an_open_machine lr
    (new_connection an_open_machine (LoginGuard.a_conn [] Remote false)) ConnSafety.a_world in
  let '(lc2, _, c2, _) := foldl (press toy_hash (H := a_store) (fun _ => None)) (lc1, f1, c1, w1) [(an_open_machine, "view-only"%string)] in
  wishes c2 = expected (toggles (config lc2)).
Proof.
  pose proof (options_mirrored toy_hash (H := a_store) (fun _ => None) an_open_machine an_open_machine (a_client false) "" []
    (a_session None) no_files (LoginGuard.a_conn [] Remote false) ConnSafety.a_world [(an_open_machine, "view-only"%string)]
    ltac:(left; done)) as W.
  assert (in_step (H := a_store) (a_session None) no_files) as I.
  { eexists. split; [reflexivity|]. split; [|by vm_compute]. apply storable_plain; [by vm_compute|by vm_compute|].
    repeat (apply Forall_cons_2; [by vm_compute|]). apply Forall_nil_2. }
  specialize (W I ltac:(by vm_compute) eq_refl).
  assert (authorized (snd (fst (fst (on_login_request toy_hash (fun _ => None) an_open_machine
    (fst (fst (create_login_msg (H := a_store) (a_client false) "" [] (a_session None) no_files)))
    (new_connection an_open_machine (LoginGuard.a_conn [] Remote false)) ConnSafety.a_world)))) = true) as A by by vm_compute.
  destruct (create_login_msg _ _ _ _ _) as [[lr lc1] f1]. cbn [fst snd] in A.
  destruct (on_login_request _ _ _ _ _ _) as [[[k c1] w1] l]. cbn [fst snd] in A. specialize (W A).
  destruct (foldl _ _ _) as [[[lc2 f2] c2] w2]. exact (proj1 W).
Defined.

(** The same machine, asking for a password. *)
Definition an_asking_machine : Env :=
  mkEnvironment (fun _ => ""%string) (fun _ => ""%string) 0 LoginGuard.a_config
    LoginGuard.an_env [] false false (Ok false) (Ok tt) (fun _ => None) (fun _ _ => true) false (fun _ => false) false true
    1 [(false, 0)] true false "ts_1" true false 0.

Lemma password_opens_witness :
  exists lr, snd (handle_hash toy_hash (fun _ => None) (fun _ => None) (H := a_store) (a_client false) "tmp123" (mkHash "s" "c")
    (a_session None) no_files) = [OLogin lr] /\
  authorized (snd (fst (fst (on_login_request toy_hash (fun _ => None) an_asking_machine lr
    (new_connection an_asking_machine (LoginGuard.a_conn [] Remote false)) ConnSafety.a_world)))) = true.
Proof.
  destruct (password_opens toy_hash (fun _ => None) (fun _ => None) (H := a_store) (fun _ => None) an_asking_machine (a_client false)
    an_asking_machine "" "tmp123" false (a_session None) no_files (LoginGuard.a_conn [] Remote false) ConnSafety.a_world
    ltac:(done) ltac:(done) ltac:(left; by vm_compute) ltac:(split; by vm_compute) eq_refl eq_refl) as [W _].
  destruct (W ltac:(by split) eq_refl eq_refl) as (lr & E & Au). exists lr. split; [exact E|].
  apply Au. vm_compute in E. injection E as <-. by vm_compute.
Defined.
