(* ===== verification/FileLogin.v ===== *)
(** * Files need a login for files

    The effects of a connection ([ConnMessages]) together with the connection manager that
    carries them out ([Upload.handle_fs], [src/ui_cm_interface.rs]): contents that arrive are
    handed on for any login, and reach a file only where a login for file transfer has begun
    to write one. *)

From S2P Require Import Prelude Compress FileSys FileTransfer Upload LoginGuard CodecChoice ConnState ConnOptions ConnLogin ConnMessages ConnSafety Session.
#[local] Open Scope Z_scope.

(** The request that an effect sends, whatever else it holds. *)
Definition carries (op : fs_op) (m : FSMsg) : Prop :=
  match op, m with
  | FsNewWrite id, NewWrite _ i _ _ _ _ _ => i = id
  | FsCancelWrite id, CancelWrite i => i = id
  | FsSendConfirm id, FSConfirm r => r_id r = id
  | FsWriteBlock id, WriteBlock i _ _ _ => i = id
  | FsWriteDone id, WriteDone i _ => i = id
  | FsCheckDigest id, CheckDigest i _ _ _ _ _ => i = id
  | FsWriteError id, WriteError i _ _ => i = id
  | _, _ => False
  end.

Definition fs_ops (l : list effect) : list fs_op := omap (fun e => match e with EFs op => Some op | _ => None end) l.

(** What is handed on for any login. *)
Definition handed_on (op : fs_op) : Prop :=
  match op with FsWriteBlock _ | FsWriteDone _ | FsCheckDigest _ | FsWriteError _ => True | _ => False end.

Definition no_files (e : effect) : Prop :=
  match e with
  | EFs op => handed_on op
  | EListFiles _ => False
  | EReadJob _ printer => printer = true
  | _ => True
  end.

Lemma allowed_no_files env p k e : file_transfer k = None -> allowed env p k e -> no_files e.
Proof.
  intros F. destruct e; cbn; try done; rewrite ?F.
  - destruct op; cbn; rewrite ?F; try done; try (by intros [? ?]); by intros [[? ?] ?].
  - by intros [? ?].
  - intros [_ [?|[? ?]]]; done.
Qed.

(** A request for files stays. *)
Definition sticks (c c' : Connection) : Prop := file_transfer (kind c') = None -> file_transfer (kind c) = None.

Lemma core_sticks c c' : core (kind c') = core (kind c) -> sticks c c'.
Proof. intros K%(f_equal file_transfer) E. cbn in K. congruence. Qed.

Section login.
Context (sha256 : bytes -> bytes) (parse_v6 : string -> option Z).

Lemma conclude_sticks env c w r : sticks c (fst (fst (conclude env c w r))).
Proof.
  unfold conclude. destruct (_ && _); [|intros E; exact E]. unfold andthen.
  pose proof (on_authorized_lowers env (s_base (fst r) c)) as (_ & _ & K & _).
  destruct (on_authorized env (s_base (fst r) c)) as [c1 l]. cbn in *.
  intros E. apply (f_equal file_transfer) in K. cbn in K. congruence.
Qed.

Lemma login_kind_sticks env lr c : sticks c (snd (fst (login_kind_step env lr c))).
Proof. unfold sticks, login_kind_step, fill_terminal_user_token. repeat case_match; simplify_eq/=; done. Qed.

Lemma login_request_sticks env lr c w : sticks c (snd (fst (fst (on_login_request sha256 parse_v6 env lr c w)))).
Proof.
  unfold on_login_request. pose proof (handle_login_perms env lr c) as (_ & _ & K & _). cbv zeta in *.
  set (c1 := handle_login_request_without_validation env lr c) in *.
  assert (S1 : sticks c c1) by (unfold sticks; by rewrite K).
  destruct (authorized c1); [exact S1|]. pose proof (login_kind_sticks env lr c1) as S2.
  destruct (login_kind_step env lr c1) as [[go c2] l0]. cbn [fst snd] in S2.
  destruct go; cbn [negb]; [|intros E; by apply S1, S2].
  destruct (LoginGuard.login_request _ _ _ _ _ _ _ _) as [[keep b] g'].
  pose proof (conclude_sticks env c2 w (b, g')) as S3. destruct (conclude env c2 w (b, g')) as [[c3 w3] l].
  intros E. by apply S1, S2, S3.
Qed.

Lemma message_sticks env msg c w : sticks c (snd (fst (fst (on_message sha256 parse_v6 env msg c w)))).
Proof.
  assert (M : forall m, sticks c (snd (fst (fst (if authorized c then
      if port_forward (kind c) then (true, c, w, [])
      else let '(keep, c, l) := on_authorized_message env m c in (keep, c, w, l)
    else (true, c, w, [])))))).
  { intros m. destruct (authorized c); [|intros E; exact E]. destruct (port_forward (kind c)); [intros E; exact E|].
    pose proof (authorized_message_quiet env m c) as Q. destruct (on_authorized_message env m c) as [[keep c'] l].
    apply core_sticks, Q. }
  destruct msg; cbn [on_message];
    try match goal with |- context [on_authorized_message env ?m c] => exact (M m) end; clear M.
  - pose proof (on_close_quiet env true c) as [_ _ K _]. destruct (on_close true c) as [c' l]. by apply core_sticks.
  - apply login_request_sticks.
  - unfold on_auth_2fa. set (r := LoginGuard.auth_2fa _ _ _ _ _ _ _). pose proof (conclude_sticks env c w r) as S.
    by destruct (conclude env c w r) as [[? ?] ?].
  - destruct from_client; [intros E; exact E|]. destruct (last_test_delay (talk c)); intros E; exact E.
  - destruct lr as [lr|]; [|intros E; exact E]. unfold on_switch_sides.
    pose proof (handle_login_perms env lr c) as (_ & _ & K & _). cbv zeta in *.
    set (c1 := handle_login_request_without_validation env lr c) in *.
    assert (S1 : sticks c c1) by (unfold sticks; by rewrite K).
    destruct uuid as [u|]; [|exact S1].
    match goal with |- context [match ?o with Some _ => _ | None => _ end] => destruct o as [[t u']|] end; [|exact S1].
    destruct (decide (u = u')); [|exact S1]. unfold send_logon.
    match goal with |- context [conclude env ?x ?y ?z] => pose proof (conclude_sticks env x y z) as S;
      destruct (conclude env x y z) as [[? ?] ?] end.
    intros E. apply S1, (S E).
Qed.

Lemma event_no_files env ev c w :
  let '(_, c', _, l) := on_event sha256 parse_v6 env ev c w in
  sticks c c' /\ (file_transfer (kind c') = None -> Forall no_files l).
Proof.
  assert (Ok : forall c' l, step_ok env c c' l -> file_transfer (kind c') = None -> Forall no_files l).
  { intros c' l [_ F] N. eapply Forall_impl; [exact F|]. intros e. by apply allowed_no_files. }
  destruct ev as [m| |name b|b]; cbn [on_event].
  - pose proof (message_sticks env m c w) as S. pose proof (on_message_ok sha256 parse_v6 env m c w) as O.
    destruct (on_message sha256 parse_v6 env m c w) as [[[keep c'] w'] l]. split; [exact S|]. apply Ok, O.
  - unfold on_cm_authorize. set (c1 := s_base _ c). pose proof (send_logon_ok sha256 env c1 w) as O. unfold send_logon in *.
    match goal with |- context [conclude env c1 w ?r] => pose proof (conclude_sticks env c1 w r) as S;
      destruct (conclude env c1 w r) as [[c' w'] l] end.
    split; [exact S|]. apply Ok. apply O.
  - assert (S : forall h : handler, keeps (fun c => file_transfer (kind c)) h -> (forall c, Forall no_files (snd (h c))) ->
      let '(_, c', _, l) := (let '(c', l) := h c in (true, c', w, l)) in
      sticks c c' /\ (file_transfer (kind c') = None -> Forall no_files l)).
    { intros h K F. specialize (K c). specialize (F c). destruct (h c) as [c' l]. cbn in *. split; [|done].
      intros E. congruence. }
    apply S; unfold switch_permission, send_permission, sub_audio.
    + repeat keeps_step.
    + intros c0. cbv [andthen modify emit with_conn when skip]. repeat case_match; simplify_eq/=; by repeat constructor.
  - pose proof (handle_voice_call_quiet env b c) as [P B K E]. destruct (handle_voice_call b c) as [c' l]. cbn [fst snd] in *.
    split; [by apply core_sticks|]. apply Ok. split; [by rewrite P|by rewrite K].
Qed.

Lemma run_no_files evs c w :
  let '(c', _, l) := run_events sha256 parse_v6 evs c w in
  sticks c c' /\ (file_transfer (kind c') = None -> Forall no_files l).
Proof.
  revert c w. induction evs as [|[env ev] evs IH]; intros c w; cbn [run_events]; [by split; [intros E|intros _; constructor]|].
  pose proof (event_no_files env ev c w) as H.
  destruct (on_event sha256 parse_v6 env ev c w) as [[[keep c1] w1] l1]. destruct H as [S1 F1].
  destruct keep; [|done]. specialize (IH c1 w1). destruct (run_events sha256 parse_v6 evs c1 w1) as [[c2 w2] l2].
  destruct IH as [S2 F2]. split; [intros E; by apply S1, S2|]. intros E. apply Forall_app. split; [by apply F1, S2|by apply F2].
Qed.
End login.

Section files.
Context `{Zstd} (permits : fsop -> string -> bool).
Context (digest_json : FileDigest -> bytes) (parse_digest : bytes -> option FileDigest).
Context (sha256 : bytes -> bytes) (parse_v6 : string -> option Z).

(** The requests of a connection to its connection manager, one after the other. *)
Fixpoint cm_run (ms : list FSMsg) (s : cm_state) : option (cm_state * list Message) :=
  match ms with
  | [] => Some (s, [])
  | m :: ms =>
      '(s, out) ← handle_fs permits digest_json parse_digest m s;
      '(s, outs) ← cm_run ms s;
      Some (s, out ++ outs)
  end.

(** Without a job nothing that is handed on does anything. *)
Lemma no_job_nothing op m f :
  handed_on op -> carries op m -> handle_fs permits digest_json parse_digest m ([], f) = Some ([], f, []).
Proof. by destruct op, m. Qed.

Lemma cm_run_nothing ops ms f :
  Forall handed_on ops -> Forall2 carries ops ms -> cm_run ms ([], f) = Some ([], f, []).
Proof.
  intros Hd C. induction C as [|op m ops ms Hc C IH]; [done|]. apply Forall_cons in Hd as [H1 H2].
  cbn [cm_run]. rewrite (no_job_nothing op m f H1 Hc). cbn. by rewrite IH.
Qed.

Lemma no_files_ops l : Forall no_files l -> Forall handed_on (fs_ops l).
Proof.
  induction 1 as [|e l N _ IH]; [by constructor|]. unfold fs_ops. cbn. destruct e; try exact IH.
  by constructor.
Qed.

End files.

(** A peer that logged in for a camera sends contents of a file it never asked to write. *)
Definition sends_a_block : list (Env * event) :=
  from_peer [(a_machine, LoginRequestMsg (a_request LkViewCamera (String.list_byte_of_string "tmp123sc")));
             (a_machine, FileResponse (FrBlock 7)); (a_machine, FileAction (FaReceive 7)); (a_machine, FileResponse (FrDone 7))].

