(* ===== verification/ClaimedId.v ===== *)
(** * Claiming an identifier

    The requests of one connection add up ([ConnLogin.login_kind_step]), and a request for
    files is accepted of whoever claims the identifier of a connected peer
    ([LoginGuard.should_auto_approve_file_transfer]): together they open a terminal. *)

From S2P Require Import Prelude LoginGuard CodecChoice ConnState ConnOptions ConnLogin ConnMessages ConnSafety Session.

(** Where anybody may ask for a terminal: it is permitted, somebody is logged on whose token
    can be had, and the service that is named has no user of its own. *)
Record terminal_offered (env : Env) (sid : string) : Prop := mkOffered {
  of_permitted : permission env "enable-terminal" = true;
  of_logged_on : e_prelogin env = false;
  of_token : e_installed env = true -> exists u, e_user_token env = Ok u;
  of_service : e_service_user env sid = None;
}.

(** A connection with a terminal prepared, that no second factor keeps. *)
Definition prepared (c : Connection) : Prop :=
  port_forward (kind c) = false /\ cn_require_2fa (base c) = false /\ is_Some (terminal_user_token (term c)).

Section claim.
Context (sha256 : bytes -> bytes) (parse_v6 : string -> option Z).

Lemma on_authorized_keeps env :
  keeps (fun c => (base c, port_forward (kind c), terminal_user_token (term c))) (on_authorized env).
Proof.
  unfold on_authorized, update_codec_on_login, start_session, init_terminal_service, try_sub_monitor_services,
    update_options, option_image_quality, option_video, option_follow, option_clipboard, option_input,
    option_terminal, update_terminal_persistence.
  repeat first [keeps_step | apply sub_audio_keeps].
Qed.

Lemma validate_authed now cfg c g : g_authed (snd (validate_password sha256 now cfg c g)) = g_authed g.
Proof. unfold validate_password. by destruct (_ && _). Qed.

(** A request to this machine keeps the connection, whatever its password. *)
Lemma login_request_keeps now minute cfg env c g a :
  le_target_ok env = true -> cn_authorized c = false -> cn_require_2fa c = false -> a ∈ g_authed g ->
  let '(keep, c', g') := LoginGuard.login_request sha256 parse_v6 now minute cfg env c g in
  keep = true /\ cn_require_2fa c' = false /\ a ∈ g_authed g'.
Proof.
  intros T A F Ha. unfold LoginGuard.login_request. rewrite T. cbn [negb].
  assert (S : forall g, a ∈ g_authed g -> let '(keep, c', g') :=
    (let '(c, g) := LoginGuard.send_logon_response sha256 now c g in (true, c, g)) in
    keep = true /\ cn_require_2fa c' = false /\ a ∈ g_authed g').
  { intros g' Hg. unfold LoginGuard.send_logon_response. rewrite A, F. cbn. split_and!; try done. set_solver. }
  destruct (should_auto_approve_file_transfer _ _ _); [by apply S|]. destruct (decide _); [by apply S|].
  destruct (_ || _); [done|].
  destruct (is_recent_session sha256 now false c g) as [recent g1] eqn:R.
  assert (Ha1 : a ∈ g_authed g1) by (unfold is_recent_session in R; by injection R as _ <-).
  destruct recent; [destruct (is_empty _); [by apply S|done]|].
  destruct (decide _); [done|]. destruct (check_failure _ _ _ _) as [[f t] []]; cbn [negb]; [|done].
  pose proof (validate_authed now cfg c g1) as V. destruct (validate_password sha256 now cfg c g1) as [ok g2].
  cbn [snd] in V. rewrite <- V in Ha1. destruct ok; [|done]. destruct (is_empty _); [by apply S|done].
Qed.

Lemma handled env lr c :
  let c' := handle_login_request_without_validation env lr c in
  authorized c' = authorized c /\ kind c' = kind c /\ term c' = term c /\ login c' = lr /\
  (cn_require_2fa (base c) = false -> cn_require_2fa (base c') = false).
Proof. unfold handle_login_request_without_validation. repeat case_match; by split_and!. Qed.

(** A request whose kind is accepted, with what it leaves. *)
Lemma request_prepared env lr c w a c2 :
  le_target_ok (e_login env) = true -> authorized c = false -> a ∈ g_authed (g w) ->
  login_kind_step env lr (handle_login_request_without_validation env lr c) = (true, c2, []) ->
  authorized c2 = false -> prepared c2 ->
  let '(keep, c', w', l) := on_login_request sha256 parse_v6 env lr c w in
  keep = true /\ prepared c' /\ a ∈ g_authed (g w').
Proof.
  intros T A Ha K A2 (P & F & Tk). unfold on_login_request. destruct (handled env lr c) as (E1 & _).
  cbv zeta. rewrite E1, A, K. cbn [negb].
  pose proof (login_request_keeps (e_now env) (e_now env / 60000000000) (e_cfg env) (e_login env) (decided c2) (g w) a
    T A2 F Ha) as L.
  destruct (LoginGuard.login_request _ _ _ _ _ _ _ _) as [[keep b] g']. destruct L as (-> & F' & Ha').
  unfold conclude. cbn [fst snd].
  destruct (negb (authorized c2) && authorized (s_base b c2)); cbn [app]; [|by split_and!].
  pose proof (on_authorized_keeps env (s_base b c2)) as Kp. unfold andthen.
  destruct (on_authorized env (s_base b c2)) as [c3 l]. cbn [fst] in Kp. injection Kp as B P' T'.
  cbn. unfold prepared. by rewrite B, P', T'.
Qed.

(** Claiming an identifier is enough for a terminal.  Whoever gets the port of a machine
    open, with any connection that is not authorized: where terminals and files are
    permitted and no second factor is required, a request for a terminal and then one for
    files, both with any password or none, and the second with the identifier of a peer that
    is connected, authorize the connection, and its terminal actions are carried out. *)
Theorem claimed_id_opens_terminal env c w a sid dir hidden lr1 lr2 :
  authorized c = false -> port_forward (kind c) = false -> cn_require_2fa (base c) = false ->
  le_target_ok (e_login env) = true -> permission env "enable-file-transfer" = true -> terminal_offered env sid ->
  a ∈ g_authed (g w) -> ac_conn_type a ∈ [Remote; ViewCamera; Terminal] ->
  lr_kind lr1 = LkTerminal sid -> lr_os_username lr1 = ""%string ->
  lr_kind lr2 = LkFileTransfer dir hidden -> lr_my_id (lg lr2) = peer_id (ac_session_key a) ->
  let '(c', _, l) := run_events sha256 parse_v6
    (from_peer [(env, LoginRequestMsg lr1); (env, LoginRequestMsg lr2); (env, TerminalAction)]) c w in
  authorized c' = true /\ ETerminal ∈ l.
Proof.
  intros A P F T Ff [Op Ol Ot Os] Ha Ht K1 U1 K2 Id. cbn [from_peer fmap list_fmap run_events on_event on_message fst snd].
  assert (exists c2, login_kind_step env lr1 (handle_login_request_without_validation env lr1 c) = (true, c2, []) /\
    authorized c2 = false /\ prepared c2) as (c2 & E1 & A2 & Pr2).
  { destruct (handled env lr1 c) as (H1 & H2 & H3 & H4 & H5). cbv zeta in *.
    unfold login_kind_step, fill_terminal_user_token. rewrite K1, U1, Op. cbn [negb].
    rewrite bool_decide_true by done. cbn [negb andb]. rewrite Ol, Os.
    assert (X : forall x t, authorized x = false -> port_forward (kind x) = false -> cn_require_2fa (base x) = false ->
      prepared (set_terminal_user_token (Some t) x)) by (intros x t _ X2 X3; by split_and!).
    pose proof (eq_trans H1 A) as Au. pose proof (eq_trans (f_equal port_forward H2) P) as Pf. specialize (H5 F).
    destruct (e_installed env); [destruct (Ot eq_refl) as [u ->]|]; (eexists; split; [done|]);
      destruct (options_in_login _); (split; [exact Au|apply X; [exact Au|exact Pf|exact H5]]). }
  pose proof (request_prepared env lr1 c w a c2 T A Ha E1 A2 Pr2) as R1.
  destruct (on_login_request sha256 parse_v6 env lr1 c w) as [[[k1 c3] w3] l1]. destruct R1 as (-> & Pr3 & Ha3).
  assert (R2 : let '(keep, c', w', l) := on_login_request sha256 parse_v6 env lr2 c3 w3 in
    keep = true /\ prepared c' /\ authorized c' = true).
  { destruct Pr3 as (P3 & F3 & T3). destruct (handled env lr2 c3) as (H1 & H2 & H3 & H4 & H5). cbv zeta in *.
    destruct (authorized c3) eqn:A3.
    { unfold on_login_request. cbv zeta. rewrite H1. unfold prepared. rewrite H2, H3.
      by split_and!; auto. }
    set (c4 := set_file_transfer (Some (dir, hidden)) (handle_login_request_without_validation env lr2 c3)).
    assert (E4 : login_kind_step env lr2 (handle_login_request_without_validation env lr2 c3) = (true, c4, []))
      by (unfold login_kind_step; by rewrite K2, Ff).
    assert (A4 : authorized c4 = false) by exact H1.
    assert (Pr4 : prepared c4) by (unfold prepared, c4; cbn; rewrite H2, H3; auto).
    pose proof (request_prepared env lr2 c3 w3 a c4 T A3 Ha3 E4 A4 Pr4) as R.
    pose proof (claimed_id_authorizes sha256 parse_v6 (e_now env) (e_now env / 60000000000) (e_cfg env) (e_login env)
      (decided c4) (g w3) a Ha3 Ht eq_refl) as G.
    unfold on_login_request in *. cbv zeta in *. rewrite H1, E4 in *. cbn [negb] in *.
    destruct (LoginGuard.login_request _ _ _ _ _ _ _ _) as [[k b] g'].
    pose proof (conclude_authorized env c4 w3 (b, g')) as Ca.
    destruct (conclude env c4 w3 (b, g')) as [[c5 w5] l5]. destruct R as (-> & Pr5 & _). split_and!; [done..|].
    cbn in Ca, G. rewrite Ca. apply G; [|done|apply Pr4].
    change (lr_my_id (lg (login c4)) = peer_id (ac_session_key a)). by rewrite <- Id, <- H4. }
  destruct (on_login_request sha256 parse_v6 env lr2 c3 w3) as [[[k2 c5] w5] l2]. destruct R2 as (-> & (P5 & _ & T5) & A5).
  rewrite (proj1 Pr3), P5, A5. cbn [andb negb]. unfold on_authorized_message. rewrite bool_decide_true by done.
  cbn [when emit]. rewrite P5. cbn. split; [done|]. rewrite !elem_of_app. right. right. by left.
Qed.
End claim.

Lemma claimed_id_opens_terminal_witness :
  let '(c', _, l) := run_events (fun x => x) (fun _ => None)
    (from_peer [(a_machine, LoginRequestMsg (a_request (LkTerminal "") []));
                (a_machine, LoginRequestMsg (a_request (LkFileTransfer "" false) []));
                (a_machine, TerminalAction)]) a_new_connection a_world in
  authorized c' = true /\ ETerminal ∈ l.
Proof.
  apply (claimed_id_opens_terminal (fun x => x) (fun _ => None) a_machine a_new_connection a_world
    (mkAuthed 9 Remote a_peer) "" "" false (a_request (LkTerminal "") [])
    (a_request (LkFileTransfer "" false) [])); try (vm_compute; reflexivity).
  - split; try (vm_compute; reflexivity). intros H. vm_compute in H. done.
  - vm_compute. by left.
  - by left.
Defined.
