(* ===== verification/ServerCore.v ===== *)
(** * The server of connections and services

    [Server] of [src/server.rs]: the connections that are served and the services by their
    names, each a hub ([ServiceHub]); what [ConnMessages] asks of it by its effects; and
    the services of a new server.

    Which identifier is subscribed to which service is a relation, and every operation does
    to it what a line of the specification [spec_op] says.  The display services watch a
    display or a camera each, and are named after it. *)

From S2P Require Import Prelude ServiceHub CodecChoice ConnState ConnOptions.
From stdpp Require Import pretty.
#[local] Open Scope Z_scope.

(* src/src/server/video_service.rs:239-241 get_service_name *)
Definition get_service_name (camera : bool) (idx : Z) : string :=
  (if camera then "camera" else "monitor") +:+ pretty idx.

(* src/src/server.rs:304-307 Server::is_video_service_name *)
Definition is_video_service_name (name : string) : bool :=
  String.prefix "monitor" name || String.prefix "camera" name.

Definition NAME_DISPLAY : string := "display".
Definition PRIMARY_CAMERA_IDX : Z := 0.

Section server.
Context {Conn Msg T : Type} `{Sub : Subscriber Conn Msg T}.
Local Notation Service := (ServiceInner (T := T)).

(* src/src/server.rs:96-100 Server *)
Record Server : Type := mkServer {
  connections : gmap Z Conn;
  services : gmap string Service;
  id_count : Z;
}.

Definition with_services (f : gmap string Service -> gmap string Service) (s : Server) : Server :=
  mkServer (connections s) (f (services s)) (id_count s).
Definition with_connections (f : gmap Z Conn -> gmap Z Conn) (s : Server) : Server :=
  mkServer (f (connections s)) (services s) (id_count s).

(* src/src/server.rs:386-389 Server::add_service *)
Definition add_service (service : Service) (s : Server) : Server :=
  with_services <[ServiceHub.name service := service]> s.

(* src/src/server.rs:391-393 Server::contains *)
Definition contains (name : string) (s : Server) : bool := bool_decide (is_Some (services s !! name)).

(** [random] is the random number; [cursor] and [focus] say whether the platform has those
    services. *)
(* src/src/server.rs:105-153 new *)
Definition new (random : Z) (cursor focus printer : bool) : Server :=
  let s := mkServer ∅ ∅ (i32 (Z.rem random 1000 + 1000)) in
  let s := add_service (hub_new NAME_AUDIO true) s in
  let s := add_service (hub_new NAME_DISPLAY true) s in
  let s := add_service (hub_new NAME_CLIPBOARD false) s in
  let s := if cursor then
             let s := add_service (hub_new NAME_CURSOR true) s in
             let s := add_service (hub_new NAME_POS false) s in
             if focus then add_service (hub_new NAME_WINDOW_FOCUS false) s else s
           else s in
  if printer then add_service (hub_new "remote-printer" false) s else s.

(** A service of a display is started unless there is one. *)
(* src/src/server/connection.rs:3536-3546 Connection::capture_displays *)
Definition try_add_video_service (camera : bool) (idx : Z) (s : Server) : Server :=
  if contains (get_service_name camera idx) s then s
  else add_service (hub_new (get_service_name camera idx) true) s.

(* src/src/server.rs:309-321 Server::try_add_primary_camera_service *)
Definition try_add_primary_camera_service (exists_ : bool) (s : Server) : Server :=
  if exists_ then try_add_video_service true PRIMARY_CAMERA_IDX s else s.

(* src/src/server.rs:323-334 Server::try_add_primay_video_service *)
Definition try_add_primay_video_service (primary : Z) (s : Server) : Server :=
  try_add_video_service false primary s.

(* src/src/server.rs:336-345 Server::add_camera_connection *)
Definition add_camera_connection (exists_ : bool) (conn : Conn) (s : Server) : Server :=
  let s := if exists_
           then with_services (alter (on_subscribe conn) (get_service_name true PRIMARY_CAMERA_IDX)) s
           else s in
  with_connections <[conn_id conn := conn]> s.

(* src/src/server.rs:347-364 Server::add_connection *)
Definition add_connection (primary : Z) (conn : Conn) (noperms : list string) (s : Server) : Server :=
  let s := with_services (fmap (fun h =>
      let name := ServiceHub.name h in
      if is_video_service_name name && negb (bool_decide (name = get_service_name false primary)) then h
      else if bool_decide (name ∈ noperms) then h
      else on_subscribe conn h)) s in
  with_connections <[conn_id conn := conn]> s.

(* src/src/server.rs:366-373 Server::remove_connection *)
Definition remove_connection (conn : Conn) (s : Server) : Server :=
  with_connections (delete (conn_id conn)) (with_services (fmap (on_unsubscribe (conn_id conn))) s).

(** The connections that are told to stop. *)
(* src/src/server.rs:375-384 Server::close_connections *)
Definition close_connections (send : Conn -> Conn) (s : Server) : Server :=
  with_connections (fmap send) s.

(* src/src/server.rs:395-408 Server::subscribe *)
Definition subscribe (name : string) (conn : Conn) (sub : bool) (s : Server) : Server :=
  match services s !! name with
  | Some h =>
      if Bool.eqb (is_subed (conn_id conn) h) sub then s
      else with_services <[name := if sub then on_subscribe conn h else on_unsubscribe (conn_id conn) h]> s
  | None => s
  end.

(* src/src/server.rs:411-414 Server::get_new_id *)
Definition get_new_id (s : Server) : Z * Server :=
  let id := i32 (id_count s + 1) in (id, mkServer (connections s) (services s) id).

(* src/src/server.rs:416-433 Server::set_video_service_opt *)
Definition set_video_service_opt (display : option (bool * Z)) (opt value : string) (s : Server) : Server :=
  with_services (map_imap (fun k h => Some
    (if match display with Some (source, d) => bool_decide (k = get_service_name source d) | None => true end
        && is_video_service_name k
     then snd (set_option opt value h) else h))) s.

(* src/src/server.rs:435-447 Server::get_subbed_displays_count *)
Definition get_subbed_displays_count (id : Z) (s : Server) : nat :=
  size (filter (fun kv => is_video_service_name (fst kv) && is_subed id (snd kv) = true) (services s)).

(** The services are visited in the order [keys] lists them. *)
(* src/src/server.rs:449-475 Server::capture_displays *)
Definition capture_displays (keys : list string) (conn : Conn) (source : bool) (displays : list Z)
    (incl excl : bool) (s : Server) : Server :=
  let displays := get_service_name source <$> displays in
  foldl (fun s name =>
    if is_video_service_name name then
      if bool_decide (name ∈ displays) then if incl then subscribe name conn true s else s
      else if excl then subscribe name conn false s else s
    else s) s keys.

(** ** What a connection asks for

    The effects of a connection's handlers that are calls of the server. *)
(* src/src/server/connection.rs:1676-1730 Connection::try_sub_camera_displays, try_sub_monitor_services *)
Definition apply_effect (primary : Z) (camera_exists : bool) (conn : Conn) (s : Server) (e : effect) : Server :=
  match e with
  | ESubscribe name on => subscribe name conn on s
  | EVideoService camera d => try_add_video_service camera d s
  | EVideo camera d on => subscribe (get_service_name camera d) conn on s
  | EMonitorServices noperms =>
      add_connection primary conn noperms (try_add_primay_video_service primary s)
  | ECameraServices =>
      add_camera_connection camera_exists conn (try_add_primary_camera_service camera_exists s)
  | _ => s
  end.

Definition apply_effects (primary : Z) (camera_exists : bool) (conn : Conn) (s : Server) (l : list effect) : Server :=
  foldl (apply_effect primary camera_exists conn) s l.

(** ** The specification

    Which services there are, and who is subscribed to them. *)

Definition Subs : Type := string -> Z -> bool.

Definition subed (s : Server) : Subs := fun name id =>
  match services s !! name with Some h => is_subed id h | None => false end.

(** Services have their names, and are well formed; the display services are those of
    displays and cameras; connections have their identifiers. *)
Record server_wf (s : Server) : Prop := mkServerWf {
  wf_name : forall k h, services s !! k = Some h -> ServiceHub.name h = k;
  wf_hub : forall k h, services s !! k = Some h -> hub_wf h;
  wf_video : forall k h, services s !! k = Some h -> is_video_service_name k = true ->
    exists camera d, k = get_service_name camera d;
  wf_conn : forall i c, connections s !! i = Some c -> conn_id c = i;
}.

(** The calls of the server. *)
Inductive server_op : Type :=
| OpConnect (conn : Conn) (noperms : list string)
| OpCamera (conn : Conn)
| OpRemove (conn : Conn)
| OpSubscribe (name : string) (conn : Conn) (on : bool)
| OpCapture (keys : list string) (conn : Conn) (source : bool) (displays : list Z) (incl excl : bool)
| OpStart (camera : bool) (idx : Z)
| OpOption (display : option (bool * Z)) (opt value : string).

Definition run_op (primary : Z) (camera_exists : bool) (s : Server) (op : server_op) : Server :=
  match op with
  | OpConnect conn noperms => add_connection primary conn noperms s
  | OpCamera conn => add_camera_connection camera_exists conn s
  | OpRemove conn => remove_connection conn s
  | OpSubscribe name conn on => subscribe name conn on s
  | OpCapture keys conn source displays incl excl => capture_displays keys conn source displays incl excl s
  | OpStart camera idx => try_add_video_service camera idx s
  | OpOption display opt value => set_video_service_opt display opt value s
  end.

(** The keys are visited in some order. *)
Definition op_ok (s : Server) (op : server_op) : Prop :=
  match op with
  | OpCapture keys _ _ _ _ _ => forall n, n ∈ keys <-> is_Some (services s !! n)
  | _ => True
  end.

Definition spec_has (op : server_op) (has : string -> bool) (n : string) : bool :=
  match op with
  | OpStart camera idx => bool_decide (n = get_service_name camera idx) || has n
  | _ => has n
  end.

Definition spec_sub (primary : Z) (camera_exists : bool) (op : server_op) (has : string -> bool) (sub : Subs) : Subs :=
  fun n i =>
  match op with
  | OpConnect conn noperms =>
      sub n i || bool_decide (conn_id conn = i) && has n && negb (bool_decide (n ∈ noperms)) &&
                 (negb (is_video_service_name n) || bool_decide (n = get_service_name false primary))
  | OpCamera conn =>
      sub n i || bool_decide (conn_id conn = i) && has n && camera_exists &&
                 bool_decide (n = get_service_name true PRIMARY_CAMERA_IDX)
  | OpRemove conn => negb (bool_decide (conn_id conn = i)) && sub n i
  | OpSubscribe name conn on => if bool_decide (n = name /\ conn_id conn = i) then has n && on else sub n i
  | OpCapture _ conn source displays incl excl =>
      if bool_decide (conn_id conn = i) && has n && is_video_service_name n
      then if bool_decide (n ∈ get_service_name source <$> displays) then incl || sub n i else negb excl && sub n i
      else sub n i
  | OpStart _ _ | OpOption _ _ _ => sub n i
  end.

(** ** Lemmas *)

Lemma is_subed_abs id (h : Service) : is_subed id h = match abs h id with Absent => false | _ => true end.
Proof. unfold is_subed, abs. by destruct (subscribes h !! id), (new_subscribes h !! id). Qed.

Lemma is_subed_subscribe c (h : Service) id :
  hub_wf h -> is_subed id (on_subscribe c h) = bool_decide (conn_id c = id) || is_subed id h.
Proof.
  intros W. destruct (hub_step_refines h (HubSubscribe c) W) as (_ & _ & A).
  rewrite !is_subed_abs. cbn in A. rewrite A. cbn. case_decide as E.
  - rewrite bool_decide_true by done. destruct (abs h id); by try destruct (need_snapshot h).
  - by rewrite bool_decide_false.
Qed.

Lemma is_subed_unsubscribe i (h : Service) id :
  hub_wf h -> is_subed id (on_unsubscribe i h) = negb (bool_decide (i = id)) && is_subed id h.
Proof.
  intros W. destruct (hub_step_refines h (HubUnsubscribe i) W) as (_ & _ & A).
  rewrite !is_subed_abs. cbn in A. rewrite A. cbn. case_decide as E.
  - by rewrite bool_decide_true.
  - by rewrite bool_decide_false.
Qed.

Lemma hub_step_wf ev (h : Service) : hub_wf h -> hub_wf (hub_step h ev).
Proof. intros W. apply (hub_step_refines h ev W). Qed.

Lemma name_subscribe c (h : Service) : ServiceHub.name (on_subscribe c h) = ServiceHub.name h.
Proof. unfold on_subscribe. destruct (_ !! _); [done|]. by destruct (need_snapshot h). Qed.

Lemma name_unsubscribe i (h : Service) : ServiceHub.name (on_unsubscribe i h) = ServiceHub.name h.
Proof. unfold on_unsubscribe. by destruct (_ !! _). Qed.

(** A hub changed in a way that keeps its name and well-formedness. *)
Definition fair (f : Service -> Service) : Prop :=
  forall h, hub_wf h -> hub_wf (f h) /\ ServiceHub.name (f h) = ServiceHub.name h.

Lemma fair_subscribe c : fair (on_subscribe c).
Proof. intros h W. split; [exact (hub_step_wf (HubSubscribe c) h W)|apply name_subscribe]. Qed.

Lemma fair_unsubscribe i : fair (on_unsubscribe i).
Proof. intros h W. split; [exact (hub_step_wf (HubUnsubscribe i) h W)|apply name_unsubscribe]. Qed.

Lemma fair_id : fair (fun h => h).
Proof. by intros h W. Qed.

Lemma fair_option o v : fair (fun h => snd (set_option o v h)).
Proof. intros h W. split; [exact (hub_step_wf (HubSetOption o v) h W)|done]. Qed.

(** Every hub changed by a function of its name. *)
Lemma with_services_wf (f : string -> Service -> Service) g s :
  server_wf s -> (forall k, fair (f k)) ->
  (forall k, g (services s) !! k = f k <$> services s !! k) -> server_wf (with_services g s).
Proof.
  intros [N H V C] F L. split; cbn [services connections with_services]; try done.
  - intros k h E. rewrite L in E. apply fmap_Some in E as (h0 & E & ->). destruct (F k h0) as [_ ->]; eauto.
  - intros k h E. rewrite L in E. apply fmap_Some in E as (h0 & E & ->). apply (F k h0). eauto.
  - intros k h E. rewrite L in E. apply fmap_Some in E as (h0 & E & _). eauto.
Qed.

Lemma with_connections_wf g s :
  server_wf s -> (forall i c, g (connections s) !! i = Some c -> conn_id c = i) -> server_wf (with_connections g s).
Proof. intros [N H V C] G. by split. Qed.

Lemma insert_conn_wf conn s : server_wf s -> server_wf (with_connections <[conn_id conn := conn]> s).
Proof.
  intros W. apply with_connections_wf; [done|]. intros i c. rewrite lookup_insert. case_decide as E.
  - by intros [= <-].
  - intros L. by apply (wf_conn s W).
Qed.

(** The relation after such a change. *)
Lemma with_services_subed (f : string -> Service -> Service) g s n i :
  (forall k, g (services s) !! k = f k <$> services s !! k) ->
  subed (with_services g s) n i = match services s !! n with Some h => is_subed i (f n h) | None => false end.
Proof. intros L. unfold subed. cbn. rewrite L. by destruct (services s !! n). Qed.

Lemma contains_with (f : string -> Service -> Service) g s n :
  (forall k, g (services s) !! k = f k <$> services s !! k) -> contains n (with_services g s) = contains n s.
Proof.
  intros L. unfold contains. cbn. rewrite L. by destruct (services s !! n).
Qed.

Lemma subed_has s n i : subed s n i = true -> contains n s = true.
Proof. unfold subed, contains. by destruct (services s !! n). Qed.

(** What an operation should leave behind. *)
Definition becomes (s : Server) (has : string -> bool) (sub : Subs) : Prop :=
  server_wf s /\ (forall n, contains n s = has n) /\ forall n i, subed s n i = sub n i.

(** Every hub is changed by its name; then connections come and go. *)
Lemma changed_becomes (f : string -> Service -> Service) g s (sub : Subs) :
  server_wf s -> (forall k, fair (f k)) -> (forall k, g (services s) !! k = f k <$> services s !! k) ->
  (forall n i h, services s !! n = Some h -> is_subed i (f n h) = sub n i) ->
  (forall n i, services s !! n = None -> sub n i = false) ->
  becomes (with_services g s) (fun n => contains n s) sub.
Proof.
  intros W F L E0 E1. split_and!.
  - by eapply with_services_wf.
  - intros n. by eapply contains_with.
  - intros n i. rewrite (with_services_subed f) by done. destruct (services s !! n) eqn:E; [by apply E0|by rewrite E1].
Qed.

Lemma becomes_conn g s has sub :
  becomes s has sub -> (forall i c, g (connections s) !! i = Some c -> conn_id c = i) ->
  becomes (with_connections g s) has sub.
Proof. intros (W & H & U) G. split_and!; [by apply with_connections_wf|done..]. Qed.

Lemma becomes_ext s has sub has' sub' :
  becomes s has sub -> (forall n, has n = has' n) -> (forall n i, sub n i = sub' n i) -> becomes s has' sub'.
Proof. intros (W & H & U) E1 E2. split_and!; [done|intros n; by rewrite H|intros n i; by rewrite U]. Qed.

Lemma no_service_sub s n i : services s !! n = None -> subed s n i = false /\ contains n s = false.
Proof. intros E. unfold subed, contains. by rewrite E. Qed.

Lemma conn_inserted s conn i c :
  server_wf s -> <[conn_id conn := conn]> (connections s) !! i = Some c -> conn_id c = i.
Proof. intros W E. apply (wf_conn _ (insert_conn_wf conn s W) i c E). Qed.

Lemma subscribe_becomes name conn on s :
  server_wf s ->
  becomes (subscribe name conn on s) (fun n => contains n s)
    (fun n i => if bool_decide (n = name /\ conn_id conn = i) then contains n s && on else subed s n i).
Proof.
  intros W. unfold subscribe. destruct (services s !! name) as [h|] eqn:E.
  2: { split_and!; [done|done|]. intros n i. case_bool_decide as D; [|done]. destruct D as [-> <-].
       by destruct (no_service_sub s name (conn_id conn) E) as [-> ->]. }
  assert (contains name s = true) as Hc by (unfold contains; by rewrite E).
  destruct (Bool.eqb _ on) eqn:B.
  - apply eqb_prop in B. split_and!; [done|done|]. intros n i. case_bool_decide as D; [|done].
    destruct D as [-> <-]. unfold subed. by rewrite E, B, Hc.
  - apply (changed_becomes (fun k h => if decide (k = name) then
      if on then on_subscribe conn h else on_unsubscribe (conn_id conn) h else h)).
    + done.
    + intros k. case_decide; [|apply fair_id]. destruct on; [apply fair_subscribe|apply fair_unsubscribe].
    + intros k. rewrite lookup_insert. case_decide as D.
      * rewrite <- D, E. cbn. by rewrite decide_True.
      * destruct (services s !! k); [|done]. cbn. by rewrite decide_False.
    + intros n i h' E'. case_decide as D.
      * subst n. rewrite E in E'. injection E' as <-. pose proof (wf_hub s W _ _ E) as Wh. rewrite Hc.
        destruct on; rewrite ?is_subed_subscribe, ?is_subed_unsubscribe by done; unfold subed; rewrite E;
          (destruct (decide (conn_id conn = i)); [rewrite !bool_decide_true by done|rewrite !bool_decide_false by naive_solver]; done).
      * rewrite bool_decide_false by naive_solver. unfold subed. by rewrite E'.
    + intros n i E'. destruct (no_service_sub s n i E') as [-> ->]. by case_bool_decide.
Qed.

Lemma start_becomes camera idx s :
  server_wf s ->
  becomes (try_add_video_service camera idx s)
    (fun n => bool_decide (n = get_service_name camera idx) || contains n s) (subed s).
Proof.
  intros W. unfold try_add_video_service. set (name := get_service_name camera idx).
  destruct (contains name s) eqn:C.
  { split_and!; [done| |done]. intros n. case_bool_decide as D; [by subst n|done]. }
  assert (services s !! name = None) as E
    by (unfold contains in C; apply bool_decide_eq_false, eq_None_not_Some in C; exact C).
  destruct W as [N H V K]. unfold add_service. split_and!.
  - split; cbn [services connections with_services ServiceHub.name hub_new]; try done.
    + intros k h. rewrite lookup_insert. case_decide as D; [intros [= <-]; done|by apply N].
    + intros k h. rewrite lookup_insert. case_decide as D; [intros [= <-]; apply hub_new_wf|by apply (H k)].
    + intros k h. rewrite lookup_insert. case_decide as D; [intros _ _; subst k; by exists camera, idx|by apply V].
  - intros n. unfold contains. cbn [services with_services ServiceHub.name hub_new]. rewrite lookup_insert.
    case_decide as D; [by rewrite (bool_decide_true (n = name))|by rewrite (bool_decide_false (n = name))].
  - intros n i. unfold subed. cbn [services with_services ServiceHub.name hub_new]. rewrite lookup_insert.
    case_decide as D; [|done]. subst n. by rewrite E.
Qed.

Lemma capture_becomes keys conn source displays incl excl s :
  server_wf s -> (forall n, n ∈ keys -> is_Some (services s !! n)) ->
  becomes (capture_displays keys conn source displays incl excl s) (fun n => contains n s)
    (fun n i =>
      if bool_decide (conn_id conn = i /\ n ∈ keys) && is_video_service_name n
      then if bool_decide (n ∈ get_service_name source <$> displays) then incl || subed s n i else negb excl && subed s n i
      else subed s n i).
Proof.
  unfold capture_displays. generalize (get_service_name source <$> displays) as names. intros names.
  revert s. induction keys as [|k keys IH]; intros s W K.
  { split_and!; [done|done|]. intros n i. rewrite bool_decide_false; [done|]. intros [_ []%not_elem_of_nil]. }
  cbn [foldl]. set (s1 := if is_video_service_name k then _ else s).
  assert (becomes s1 (fun n => contains n s) (fun n i =>
    if bool_decide (conn_id conn = i /\ n = k) && is_video_service_name n
    then if bool_decide (n ∈ names) then incl || subed s n i else negb excl && subed s n i else subed s n i)) as (W1 & C1 & U1).
  { assert (contains k s = true) as Ck by (unfold contains; apply bool_decide_eq_true, K; by left).
    subst s1. destruct (is_video_service_name k) eqn:V.
    - assert (forall b, becomes (subscribe k conn b s) (fun n => contains n s) (fun n i =>
        if bool_decide (conn_id conn = i /\ n = k) then b else subed s n i)) as Sb.
      { intros b. eapply becomes_ext; [by apply subscribe_becomes|done|]. intros n i. cbv beta.
        rewrite (bool_decide_ext (n = k /\ conn_id conn = i) (conn_id conn = i /\ n = k)) by naive_solver.
        case_bool_decide as D; [|done]. destruct D as [_ ->]. by rewrite Ck. }
      case_bool_decide as D; [destruct incl eqn:I|destruct excl eqn:X]; (eapply becomes_ext; [first [apply Sb|by split_and!]|done|]);
        intros n i; cbv beta; (destruct (decide (conn_id conn = i /\ n = k)) as [[Ei ->]|Ne];
          [rewrite ?V, ?(bool_decide_true (conn_id conn = i /\ k = k)) by done|rewrite ?(bool_decide_false (conn_id conn = i /\ n = k)) by done]);
        cbn [andb]; rewrite ?(bool_decide_true (k ∈ names)), ?(bool_decide_false (k ∈ names)) by done; done.
    - split_and!; [done|done|]. intros n i. case_bool_decide as D; [|done]. destruct D as [_ ->]. by rewrite V. }
  assert (forall n, n ∈ keys -> is_Some (services s1 !! n)) as K1.
  { intros n Hn. specialize (C1 n). unfold contains in C1. apply (bool_decide_eq_true (is_Some (services s1 !! n))).
    rewrite C1. apply bool_decide_eq_true, K. by right. }
  eapply becomes_ext; [by apply IH|intros n; apply C1|]. intros n i. cbv beta. rewrite U1.
  destruct (is_video_service_name n); rewrite ?andb_false_r, ?andb_true_r; [|done].
  rewrite (bool_decide_ext (conn_id conn = i /\ n ∈ k :: keys) (conn_id conn = i /\ (n = k \/ n ∈ keys)))
    by (by rewrite elem_of_cons).
  destruct (decide (conn_id conn = i)) as [E|E]; [|by rewrite !bool_decide_false by (by intros [])].
  destruct (decide (n = k)) as [En|En], (decide (n ∈ keys)) as [Ek|Ek].
  all: rewrite ?(bool_decide_true (_ /\ n ∈ keys)), ?(bool_decide_false (_ /\ n ∈ keys)) by tauto.
  all: rewrite ?(bool_decide_true (_ /\ n = k)), ?(bool_decide_false (_ /\ n = k)) by tauto.
  all: rewrite ?(bool_decide_true (_ /\ (n = k \/ n ∈ keys))), ?(bool_decide_false (_ /\ (n = k \/ n ∈ keys))) by tauto.
  all: try done. by destruct (bool_decide (n ∈ names)), incl, excl.
Qed.

Lemma connect_becomes primary camera_exists conn noperms s :
  server_wf s ->
  becomes (run_op primary camera_exists s (OpConnect conn noperms)) (fun n => contains n s)
    (spec_sub primary camera_exists (OpConnect conn noperms) (fun n => contains n s) (subed s)).
Proof.
  intros W. cbn [run_op].
  unfold add_connection. cbv zeta. apply becomes_conn; [|intros i c; exact (conn_inserted s conn i c W)].
  eapply becomes_ext; [apply (changed_becomes (fun _ h =>
    if is_video_service_name (ServiceHub.name h) && negb (bool_decide (ServiceHub.name h = get_service_name false primary))
    then h else if bool_decide (ServiceHub.name h ∈ noperms) then h else on_subscribe conn h)
    _ _ (spec_sub primary camera_exists (OpConnect conn noperms) (fun n => contains n s) (subed s)))|done|done].
  + done.
  + intros _ h Wh. destruct (_ && _); [by apply fair_id|]. case_bool_decide; [by apply fair_id|by apply fair_subscribe].
  + intros k. apply lookup_fmap.
  + intros n i h E. cbn [spec_sub]. pose proof (wf_hub s W _ _ E) as Wh. rewrite (wf_name s W _ _ E).
    assert (contains n s = true) as -> by (unfold contains; by rewrite E). unfold subed. rewrite E.
    destruct (is_video_service_name n), (bool_decide (n = get_service_name false primary)), (bool_decide (n ∈ noperms));
      cbn [andb negb orb]; rewrite ?is_subed_subscribe by done; rewrite ?andb_false_r, ?andb_true_r, ?orb_false_r; try done;
      by rewrite orb_comm.
  + intros n i E. cbn [spec_sub]. destruct (no_service_sub s n i E) as [-> ->]. by rewrite andb_false_r.
Qed.

Lemma camera_becomes primary camera_exists conn s :
  server_wf s ->
  becomes (run_op primary camera_exists s (OpCamera conn)) (fun n => contains n s)
    (spec_sub primary camera_exists (OpCamera conn) (fun n => contains n s) (subed s)).
Proof.
  intros W. cbn [run_op].
  unfold add_camera_connection. cbv zeta.
  assert (becomes (if camera_exists then with_services (alter (on_subscribe conn) (get_service_name true PRIMARY_CAMERA_IDX)) s else s)
    (fun n => contains n s) (spec_sub primary camera_exists (OpCamera conn) (fun n => contains n s) (subed s))) as B.
  { destruct camera_exists; [|split_and!; [done|done|]; intros n i; cbn [spec_sub]; by rewrite !andb_false_r, orb_false_r].
    apply (changed_becomes (fun k h => if decide (k = get_service_name true PRIMARY_CAMERA_IDX) then on_subscribe conn h else h)).
    - done.
    - intros k. case_decide; [apply fair_subscribe|apply fair_id].
    - intros k. rewrite lookup_alter. destruct (services s !! k) eqn:Ek; repeat case_decide; subst; rewrite ?Ek; cbn; try done; congruence.
    - intros n i h E. cbn [spec_sub]. assert (contains n s = true) as -> by (unfold contains; by rewrite E). unfold subed. rewrite E.
      case_decide as D; [rewrite (bool_decide_true (n = _)) by done|rewrite (bool_decide_false (n = _)) by done].
      + rewrite is_subed_subscribe by (by eapply wf_hub). rewrite !andb_true_r. by rewrite orb_comm.
      + by rewrite andb_false_r, orb_false_r.
    - intros n i E. cbn [spec_sub]. destruct (no_service_sub s n i E) as [-> ->]. by rewrite andb_false_r. }
  destruct camera_exists; (apply becomes_conn; [exact B|]); intros i c; exact (conn_inserted s conn i c W).
Qed.

Lemma remove_becomes primary camera_exists conn s :
  server_wf s ->
  becomes (run_op primary camera_exists s (OpRemove conn)) (fun n => contains n s)
    (spec_sub primary camera_exists (OpRemove conn) (fun n => contains n s) (subed s)).
Proof.
  intros W. cbn [run_op].
  unfold remove_connection. apply becomes_conn.
  + apply (changed_becomes (fun _ => on_unsubscribe (conn_id conn))).
    * done.
    * intros _. apply fair_unsubscribe.
    * intros k. apply lookup_fmap.
    * intros n i h E. cbn [spec_sub]. rewrite is_subed_unsubscribe by (by eapply wf_hub). unfold subed. by rewrite E.
    * intros n i E. cbn [spec_sub]. destruct (no_service_sub s n i E) as [-> _]. by rewrite andb_false_r.
  + intros i c E. apply lookup_delete_Some in E as [_ E]. by apply (wf_conn s W).
Qed.

Lemma option_becomes primary camera_exists d o v s :
  server_wf s ->
  becomes (run_op primary camera_exists s (OpOption d o v)) (fun n => contains n s)
    (spec_sub primary camera_exists (OpOption d o v) (fun n => contains n s) (subed s)).
Proof.
  intros W. cbn [run_op].
  eapply becomes_ext; [apply (changed_becomes (fun k h =>
    if match d with Some (source, d) => bool_decide (k = get_service_name source d) | None => true end && is_video_service_name k
    then snd (set_option o v h) else h) _ _ (subed s))|done|done].
  + done.
  + intros k. destruct (_ && _); [apply fair_option|apply fair_id].
  + intros k. rewrite map_lookup_imap. by destruct (services s !! k).
  + intros n i h E. unfold subed. rewrite E. by destruct (_ && _).
  + intros n i E. apply (no_service_sub s n i E).
Qed.

(** C24. The server is the relation of who is subscribed to what: every call, in whatever
    order it visits the services, leaves a well-formed server and changes the relation as
    its specification says, a line for each.  A new connection gets all services it is
    permitted but those of other displays, one that leaves is subscribed to nothing, and
    capturing displays touches display services only. *)
Theorem server_refines primary camera_exists s op :
  server_wf s -> op_ok s op ->
  becomes (run_op primary camera_exists s op) (spec_has op (fun n => contains n s))
    (spec_sub primary camera_exists op (fun n => contains n s) (subed s)).
Proof.
  intros W O. destruct op as [conn noperms|conn|conn|name conn on|keys conn source displays incl excl|camera idx|d o v].
  - by apply connect_becomes.
  - by apply camera_becomes.
  - by apply remove_becomes.
  - by apply subscribe_becomes.
  - eapply becomes_ext; [apply capture_becomes; [done|intros n; apply O]|done|]. intros n i. cbn [spec_sub]. cbv beta.
    rewrite <- andb_assoc. rewrite (bool_decide_ext (conn_id conn = i /\ n ∈ keys) (conn_id conn = i /\ is_Some (services s !! n)))
      by (by rewrite (O n)). unfold contains. by rewrite bool_decide_and, andb_assoc.
  - by apply start_becomes.
  - by apply option_becomes.
Qed.

(** ** Names *)

Lemma video_name camera d : is_video_service_name (get_service_name camera d) = true.
Proof.
  unfold get_service_name, is_video_service_name, String.append. destruct camera; cbn; by destruct (pretty d).
Qed.

#[export] Instance get_service_name_inj : Inj2 eq eq eq get_service_name.
Proof.
  unfold get_service_name, String.append. intros [] d [] d' E; cbn in E; try discriminate E; (split; [done|]); apply (inj pretty); congruence.
Qed.

(** The effects of a captured display are the server's own loop over its services. *)
Lemma capture_effects primary ex conn l source displays incl excl s :
  apply_effects primary ex conn s (server_capture_displays l source displays incl excl) =
  capture_displays (uncurry get_service_name <$> l) conn source displays incl excl s.
Proof.
  unfold apply_effects, capture_displays. revert s. induction l as [|[cam d] l IH]; intros s; [done|].
  cbn [server_capture_displays flat_map fmap list_fmap foldl uncurry]. rewrite foldl_app, IH. f_equal.
  rewrite video_name. rewrite (bool_decide_ext (get_service_name cam d ∈ get_service_name source <$> displays)
    (cam = source /\ d ∈ displays)).
  - case_bool_decide; [by destruct incl|by destruct excl].
  - rewrite list_elem_of_fmap. split.
    + intros (d' & [-> ->]%(inj2 get_service_name) & Hd). done.
    + intros [-> Hd]. by exists d.
Qed.

(** Identifiers do not come back before 2^31 - 2000 of them were given. *)
Lemma new_ids (n : nat) s :
  (1 <= id_count s)%Z -> (id_count s + Z.of_nat n < 2 ^ 31)%Z ->
  forall m : nat, (m <= n)%nat -> id_count (Nat.iter m (fun s => snd (get_new_id s)) s) = id_count s + Z.of_nat m.
Proof.
  intros L U. induction m as [|m IH]; intros Hm; [cbn; lia|].
  rewrite Nat.iter_succ. unfold get_new_id at 1. cbn [snd id_count]. rewrite IH by lia.
  rewrite swrap_small; [lia|lia|]. unfold in_i. lia.
Qed.

Lemma new_server_wf random cursor focus printer :
  server_wf (new random cursor focus printer) /\ (forall n i, subed (new random cursor focus printer) n i = false) /\
  1 <= id_count (new random cursor focus printer) <= 1999.
Proof.
  assert (forall name snap s, server_wf s /\ (forall n i, subed s n i = false) /\ 1 <= id_count s <= 1999 ->
    is_video_service_name name = false ->
    let s' := add_service (hub_new name snap) s in
    server_wf s' /\ (forall n i, subed s' n i = false) /\ 1 <= id_count s' <= 1999) as Add.
  { intros name snap s ([N H V K] & U & I) Nv. split_and!; [split| |apply I..]; cbn [services connections add_service with_services ServiceHub.name hub_new]; try done.
    - intros k h. rewrite lookup_insert. case_decide as D; [intros [= <-]; exact D|by apply N].
    - intros k h. rewrite lookup_insert. case_decide as D; [intros [= <-]; apply hub_new_wf|by apply (H k)].
    - intros k h. rewrite lookup_insert. case_decide as D; [intros _; subst k; by rewrite Nv|by apply V].
    - intros n i. unfold subed. cbn [services add_service with_services ServiceHub.name hub_new]. rewrite lookup_insert.
      case_decide; [done|apply U]. }
  unfold new. cbv zeta.
  assert (server_wf (mkServer ∅ ∅ (i32 (Z.rem random 1000 + 1000))) /\
    (forall n i, subed (mkServer ∅ ∅ (i32 (Z.rem random 1000 + 1000))) n i = false) /\
    1 <= i32 (Z.rem random 1000 + 1000) <= 1999) as B.
  { pose proof (Z.rem_bound_abs random 1000 ltac:(lia)) as R. split_and!.
    - by split.
    - done.
    - rewrite swrap_small; [lia|lia|]. unfold in_i. lia.
    - rewrite swrap_small; [lia|lia|]. unfold in_i. lia. }
  destruct cursor, focus, printer; repeat (apply Add; [|done]); exact B.
Qed.

End server.

(** ** Examples *)

(** A server with its services. *)
Definition a_server : Server (Conn := Z) (T := Z * list Z) := new 77 true true false.

Lemma a_server_wf : server_wf (Sub := inbox) a_server /\ forall n i, subed a_server n i = false.
Proof. destruct (new_server_wf (Sub := inbox) 77 true true false) as (W & U & _). by split. Qed.

Lemma server_refines_witness :
  let s := run_op (Sub := inbox) 0 false a_server (OpConnect 5 [NAME_AUDIO]) in
  subed s NAME_CLIPBOARD 5 = true /\ subed s NAME_AUDIO 5 = false /\ subed s NAME_CLIPBOARD 6 = false.
Proof.
  destruct (server_refines (Sub := inbox) 0 false a_server (OpConnect 5 [NAME_AUDIO]) (proj1 a_server_wf) I) as (_ & _ & U).
  cbv zeta. rewrite !U. by vm_compute.
Defined.
