(* ===== verification/Subscriptions.v ===== *)
(** * What a connection is subscribed to

    The handlers of a connection ([ConnMessages]) together with the server that carries
    their calls out ([ServerCore]): over the life of a connection, the services it is
    subscribed to are ones that the person at the machine permits and the peer has not
    turned off; other connections are not touched; and a permission that is switched
    before the login subscribes a peer that is not authorized. *)

From S2P Require Import Prelude Options LoginGuard ServiceHub CodecChoice ConnState ConnOptions ConnLogin ConnMessages.
From S2P Require Import ConnSafety ServerCore.
#[local] Open Scope handler_scope.
#[local] Open Scope Z_scope.

(** ** What a connection is entitled to *)

(** The login to a camera or to a terminal takes the keyboard away, and no subscription. *)
Definition seated (c : Connection) : bool := keyboard (perms c) || view_camera (kind c) || terminal (kind c).

(** [blt]: the options of the build. *)
Definition entitled (blt : string -> string) (c : Connection) (n : string) : bool :=
  if decide (n = NAME_AUDIO) then authorized c && audio_enabled c
  else if decide (n = NAME_CLIPBOARD) then
    clipboard_enabled c && seated c && negb (disable_keyboard (wishes c)) &&
    negb (bool_decide (blt "one-way-clipboard-redirection"%string = "Y"%string))
  else if decide (n = NAME_CURSOR) then seated c || show_remote_cursor (wishes c)
  else if decide (n = NAME_POS) then show_remote_cursor (wishes c)
  else if decide (n = NAME_WINDOW_FOCUS) then follow_remote_window (wishes c)
  else true.

(** What an effect does at most to the services one is subscribed to. *)
Definition own (e : effect) (sub : string -> bool) (n : string) : bool :=
  match e with
  | ESubscribe name on => if decide (n = name) then on else sub n
  | EVideo camera d on => if decide (n = get_service_name camera d) then on else sub n
  | EMonitorServices noperms => sub n || negb (bool_decide (n ∈ noperms))
  | ECameraServices => sub n || is_video_service_name n
  | _ => sub n
  end.

Definition owns (l : list effect) (sub : string -> bool) : string -> bool := foldl (fun s e => own e s) sub l.

Definition within (blt : string -> string) (c : Connection) (sub : string -> bool) : Prop :=
  forall n, sub n = true -> entitled blt c n = true.

(** ** Handlers that keep to it *)

Section tame.
Context (blt : string -> string).

Definition safe (c : Connection) (sub : string -> bool) : Prop := authorized c = true /\ within blt c sub.

Definition tame (h : handler) : Prop := forall c sub, safe c sub -> safe (fst (h c)) (owns (snd (h c)) sub).

Lemma tame_skip : tame skip.
Proof. intros c sub W. exact W. Qed.

Lemma tame_emit l : (forall c sub, within blt c sub -> within blt c (owns l sub)) -> tame (emit l).
Proof. intros E c sub [A W]. split; [exact A|exact (E c sub W)]. Qed.

Lemma tame_modify f :
  (forall c, authorized (f c) = authorized c) -> (forall c n, entitled blt c n = true -> entitled blt (f c) n = true) -> tame (modify f).
Proof. intros A E c sub [Au W]. split; [cbn; by rewrite A|]. intros n S. apply E, W, S. Qed.

Lemma tame_andthen a b : tame a -> tame b -> tame (a ;;; b).
Proof.
  intros A B c sub W. unfold andthen. specialize (A c sub W). destruct (a c) as [c1 l]. cbn [fst snd] in A.
  specialize (B c1 _ A). destruct (b c1) as [c2 l']. cbn [fst snd] in *. unfold owns in *. by rewrite foldl_app.
Qed.

Lemma tame_when b h : tame h -> tame (when b h).
Proof. destruct b; [done|intros _; apply tame_skip]. Qed.

Lemma tame_with_conn k : (forall c, tame (k c)) -> tame (with_conn k).
Proof. intros K c. apply K. Qed.

Lemma tame_on_bool o k : (forall b, tame (k b)) -> tame (on_bool o k).
Proof. intros K. destruct o as [[]|]; cbn [on_bool]; auto using tame_skip. Qed.

(** A change after which the services it matters for are subscribed to again. *)
Lemma tame_set f h :
  (forall c sub, safe c sub -> safe (fst (h (f c))) (owns (snd (h (f c))) sub)) -> tame (modify f ;;; h).
Proof. intros K c sub W. unfold andthen, modify. specialize (K c sub W). by destruct (h (f c)). Qed.

(** Effects without subscriptions. *)
Definition mute (e : effect) : Prop := forall sub, own e sub = sub.

Lemma owns_mute l sub : Forall mute l -> owns l sub = sub.
Proof. intros F. revert sub. induction F as [|e l M _ IH]; intros sub; [done|].
  change (owns (e :: l) sub) with (owns l (own e sub)). by rewrite M.
Qed.

Lemma tame_mute l : Forall mute l -> tame (emit l).
Proof. intros F. apply tame_emit. intros c sub W. by rewrite owns_mute. Qed.

Lemma within_video camera d b c sub : within blt c sub -> within blt c (own (EVideo camera d b) sub).
Proof.
  intros W n. cbn. case_decide as E; [|apply W]. intros _. subst n. unfold entitled.
  pose proof (video_name camera d) as V.
  repeat (case_decide; [match goal with H : get_service_name _ _ = _ |- _ => rewrite H in V; discriminate V end|]). done.
Qed.

Ltac tame_step :=
  match goal with
  | |- tame skip => apply tame_skip
  | |- tame (modify _ ;;; _) =>
      first [apply tame_andthen; [apply tame_modify; solve [done]|]
            |apply tame_set; intros ? ? ?; unfold with_conn, emit, andthen; cbn [fst snd owns foldl app]]
  | |- tame (_ ;;; _) => apply tame_andthen
  | |- tame (emit _) => apply tame_mute; solve [repeat (first [apply Forall_nil_2 | apply Forall_cons_2; [done|]])]
  | |- tame (modify _) => apply tame_modify; solve [done]
  | |- tame (when _ _) => apply tame_when
  | |- tame (on_bool _ _) => apply tame_on_bool; intros ?
  | |- tame (with_conn _) => apply tame_with_conn; intros ?; cbv beta zeta
  | |- tame (if _ then _ else _) => case_match
  | |- tame (match ?x with _ => _ end) => destruct x eqn:?
  end.
Ltac tame_all := repeat tame_step.

(** A subscription that agrees with what one is entitled to. *)
Lemma within_sub c n b sub :
  within blt c sub -> (b = true -> entitled blt c n = true) -> within blt c (own (ESubscribe n b) sub).
Proof. intros W E m. cbn. case_decide as D; [subst m; exact E|apply W]. Qed.

(** The subscription is renewed; for the other services nothing changes. *)
Lemma within_but c c' n sub b :
  within blt c sub -> (forall m, m <> n -> entitled blt c m = true -> entitled blt c' m = true) ->
  (b = true -> entitled blt c' n = true) -> within blt c' (own (ESubscribe n b) sub).
Proof. intros W K E m. cbn. case_decide as D; [subst m; exact E|]. intros S. by apply K, W. Qed.

(** The services in turn. *)
Ltac renew_from W :=
  let n := fresh "n" in intros n; specialize (W n); revert W;
  unfold own, entitled, seated, can_sub_clipboard_service, audio_enabled, clipboard_enabled, peer_keyboard_enabled in *;
  cbn in *; repeat case_decide; subst; try discriminate; try done;
  repeat first [rewrite andb_true_iff | rewrite orb_true_iff | rewrite negb_true_iff]; try tauto.

Ltac renew :=
  match goal with H : safe _ _ |- _ => let A := fresh "A" in let W := fresh "W" in destruct H as [A W]; split; [exact A|];
    renew_from W end.

Lemma option_video_tame o : tame (option_video o).
Proof. unfold option_video. tame_all. renew. Qed.

(** Sound is turned off, or on where it is wanted. *)
Lemma sub_audio_within c sub :
  authorized c = true -> (forall n, n <> NAME_AUDIO -> sub n = true -> entitled blt c n = true) ->
  safe (fst (sub_audio c c)) (owns (snd (sub_audio c c)) sub).
Proof.
  intros A K.
  assert (entitled blt c NAME_AUDIO = audio_enabled c) as Ea by (unfold entitled; cbn; by rewrite A).
  assert (forall b, (b = true -> audio_enabled c = true) -> safe c (owns [ESubscribe NAME_AUDIO b] sub)) as S.
  { intros b B. split; [exact A|]. intros n. cbn. case_decide as D; [subst n; by rewrite Ea|by apply K]. }
  unfold sub_audio. destruct (is_authed_view_camera_conn c); [|by apply S].
  destruct (voice_calling (talk c) || negb (audio_enabled c)) eqn:V; [by apply S|].
  apply orb_false_iff in V as [_ V%negb_false_iff]. split; [exact A|]. intros n. cbn. intros Hn.
  destruct (decide (n = NAME_AUDIO)) as [->|N]; [by rewrite Ea|by apply K].
Qed.

Lemma audio_switch_within c c' sub :
  safe c sub -> authorized c' = authorized c -> (forall n, n <> NAME_AUDIO -> entitled blt c n = entitled blt c' n) ->
  safe (fst (sub_audio c' c')) (owns (snd (sub_audio c' c')) sub).
Proof. intros [A W] A' K. apply sub_audio_within; [by rewrite A'|]. intros n N S. rewrite <- K by done. by apply W. Qed.

Lemma option_follow_tame o : tame (option_follow o).
Proof.
  unfold option_follow. tame_all; [renew|]. eapply audio_switch_within; [done|done|].
  intros n N. unfold entitled. by destruct (decide (n = NAME_AUDIO)).
Qed.

Lemma update_options_tame env o : e_builtin env = blt -> tame (update_options env o).
Proof.
  intros E. unfold update_options. repeat match goal with |- tame (_ ;;; _) => apply tame_andthen end.
  - unfold option_image_quality. tame_all.
  - apply option_video_tame.
  - apply option_follow_tame.
  - unfold option_clipboard. tame_all; renew.
  - unfold option_input. tame_all.
  - unfold option_terminal, update_terminal_persistence. tame_all.
Qed.

(** ** The handlers *)

Lemma tame_videos c l sub : (forall e, e ∈ l -> exists cam d b, e = EVideo cam d b) -> within blt c sub -> within blt c (owns l sub).
Proof.
  revert sub. induction l as [|e l IH]; intros sub V W; [exact W|].
  change (owns (e :: l) sub) with (owns l (own e sub)). apply IH; [intros; apply V; by right|].
  destruct (V e ltac:(by left)) as (cam & d & b & ->). by apply within_video.
Qed.

Lemma change_resolution_tame env d : tame (change_resolution env d).
Proof. unfold change_resolution. tame_all. Qed.

Lemma handle_switch_display_tame env d sized : tame (handle_switch_display env d sized).
Proof.
  unfold handle_switch_display. tame_all; try (apply tame_emit; intros; apply within_video; done).
  apply change_resolution_tame.
Qed.

Lemma server_capture_videos l source ds incl excl e :
  e ∈ server_capture_displays l source ds incl excl -> exists cam d b, e = EVideo cam d b.
Proof.
  unfold server_capture_displays. intros He. apply list_elem_of_In, in_flat_map in He as ([cam d] & _ & He).
  repeat case_match; try done; destruct He as [<-|[]]; by eexists _, _, _.
Qed.

Lemma owns_app l l' sub : owns (l ++ l') sub = owns l' (owns l sub).
Proof. apply foldl_app. Qed.

(** Another state with the same rights. *)
Lemma within_same c c' sub :
  authorized c' = authorized c -> perms c' = perms c -> wishes c' = wishes c -> kind c' = kind c ->
  within blt c sub -> within blt c' sub.
Proof.
  intros A P Wi K W n S. specialize (W n S). revert W.
  unfold entitled, seated, clipboard_enabled, audio_enabled. by rewrite A, P, Wi, K.
Qed.

Lemma capture_displays_tame env add sub_ set_ multi : tame (ConnOptions.capture_displays env add sub_ set_ multi).
Proof.
  intros c sub [A W]. unfold ConnOptions.capture_displays, with_conn, andthen, emit, when. cbv zeta.
  match goal with |- context [if bool_decide (add <> []) then ?a else ?b] => set (vs := if bool_decide (add <> []) then a else b) end.
  assert (within blt c (owns vs (owns (EVideoService (video_source_camera c) <$> add ++ set_) sub))) as V.
  { rewrite (owns_mute (_ <$> _)) by (by apply Forall_fmap, Forall_true).
    apply tame_videos; [|done]. intros e. subst vs. repeat case_match; apply server_capture_videos. }
  destruct (follow_remote_window (wishes c)) eqn:F; cbn [fst snd skip]; rewrite !owns_app; (split; [exact A|]); [|exact V].
  apply within_sub; [exact V|]. intros _. exact F.
Qed.

Lemma close_voice_call_tame : tame close_voice_call.
Proof. unfold close_voice_call. tame_all. apply tame_emit. intros ? sub W. by apply within_sub. Qed.

Lemma handle_voice_call_tame b : tame (handle_voice_call b).
Proof.
  intros c sub [A W]. unfold handle_voice_call, with_conn. destruct (voice_request (talk c)); [|by split].
  assert (entitled blt c NAME_AUDIO = audio_enabled c) as Ea by (unfold entitled; cbn; by rewrite A).
  destruct b; unfold andthen, modify, emit, when; destruct (is_authed_view_camera_conn c); cbn [fst snd app owns foldl skip].
  all: split; [exact A|]; repeat first [rewrite andb_true_r | rewrite andb_false_r].
  all: first [by eapply within_same|apply within_sub; [by eapply within_same|]]; try done.
  intros E. rewrite <- E. exact Ea.
Qed.

Lemma on_close_tame lock : tame (on_close lock).
Proof. unfold on_close. tame_all. Qed.

Lemma try_sub_monitor_services_tame env : e_builtin env = blt -> tame (try_sub_monitor_services env).
Proof.
  intros E c sub [A W]. unfold try_sub_monitor_services, with_conn. destruct (is_remote c && negb (services_subed c)); [|by split].
  unfold when, andthen, modify, emit. cbn [fst snd app owns foldl]. split; [exact A|]. intros n Hn. apply orb_true_iff in Hn as [Hn|Hn]; [by apply W|].
  apply negb_true_iff, bool_decide_eq_false in Hn. rewrite !not_elem_of_app in Hn. destruct Hn as (H1 & H2 & H3 & H4 & H5).
  revert H1 H2 H3 H4 H5. unfold can_sub_clipboard_service, entitled, seated, peer_keyboard_enabled. rewrite E. cbn [perms wishes kind s_services_subed].
  change (audio_enabled (s_services_subed true c)) with (audio_enabled c).
  change (authorized (s_services_subed true c)) with (authorized c). rewrite A.
  change (clipboard_enabled (s_services_subed true c)) with (clipboard_enabled c).
  destruct (decide (n = NAME_AUDIO)) as [->|_].
  { intros _ _ _ _ H5. destruct (audio_enabled c); [done|]. exfalso. apply H5. by left. }
  destruct (decide (n = NAME_CLIPBOARD)) as [->|_].
  { intros _ _ _ H4 _. destruct (keyboard (perms c)), (clipboard_enabled c), (disable_keyboard (wishes c)), (bool_decide _) in H4 |- *;
      cbn in *; try done; exfalso; apply H4; by left. }
  destruct (decide (n = NAME_CURSOR)) as [->|_].
  { intros H1 _ _ _ _. destruct (keyboard (perms c)), (show_remote_cursor (wishes c)); cbn in *;
      try done; rewrite ?orb_true_r; try done. exfalso; apply H1; by left. }
  destruct (decide (n = NAME_POS)) as [->|_].
  { intros _ H2 _ _ _. destruct (show_remote_cursor (wishes c)); [done|]. exfalso. apply H2. by left. }
  destruct (decide (n = NAME_WINDOW_FOCUS)) as [->|_]; [|done].
  intros _ _ H3 _ _. destruct (follow_remote_window (wishes c)); [done|]. exfalso. apply H3. by left.
Qed.

(** ** The login *)

Lemma video_entitled c n : is_video_service_name n = true -> entitled blt c n = true.
Proof.
  intros V. unfold entitled. repeat (case_decide; [subst n; discriminate V|]). done.
Qed.

Lemma within_camera c sub : within blt c sub -> within blt c (own ECameraServices sub).
Proof. intros W n. cbn. intros [Hn|Hn]%orb_true_iff; [by apply W|by apply video_entitled]. Qed.

(** The keyboard is taken from a session for a terminal or a camera. *)
Lemma within_unseat c sub :
  terminal (kind c) || view_camera (kind c) = true -> within blt c sub -> within blt (set_keyboard false c) sub.
Proof.
  intros T W n Hn. specialize (W n Hn). revert W. unfold entitled, seated, clipboard_enabled, audio_enabled.
  cbn [perms wishes kind set_keyboard s_perms keyboard clipboard audio w_keyboard].
  assert (false || view_camera (kind c) || terminal (kind c) = true) as -> by (cbn; by rewrite orb_comm).
  assert (keyboard (perms c) || view_camera (kind c) || terminal (kind c) = true) as ->.
  { rewrite <- orb_assoc, (orb_comm (view_camera _)), T. apply orb_true_r. }
  done.
Qed.

Lemma init_terminal_service_tame env : tame (init_terminal_service env).
Proof. unfold init_terminal_service. tame_all. Qed.

Lemma start_session_tame env wait sub_service : e_builtin env = blt -> tame (start_session env wait sub_service).
Proof.
  intros E c sub [A W]. unfold start_session, with_conn.
  destruct (file_transfer (kind c)) as [[dir h]|]; [cbv zeta; by destruct wait|].
  destruct (terminal (kind c)) eqn:T.
  { pose proof (init_terminal_service_tame env (set_keyboard false c) sub
      (conj A (within_unseat c sub ltac:(by rewrite T) W))) as I.
    unfold andthen, modify. destruct (init_terminal_service env (set_keyboard false c)). exact I. }
  destruct (view_camera (kind c)) eqn:V.
  { assert (within blt c (owns (if wait then [] else [ECameraServices]) sub)) as C
      by (destruct wait; [exact W|by apply within_camera]).
    pose proof (within_unseat c _ ltac:(by rewrite T, V) C) as U. unfold when, andthen, modify, emit.
    split; [by destruct wait|]. by destruct wait. }
  destruct (sub_service && negb wait); [|by split]. by apply try_sub_monitor_services_tame.
Qed.

Lemma on_authorized_tame env : e_builtin env = blt -> tame (on_authorized env).
Proof.
  intros E. unfold on_authorized, update_codec_on_login. apply tame_with_conn. intros c. cbv zeta.
  repeat match goal with |- tame (_ ;;; _) => apply tame_andthen end.
  { by apply tame_modify. }
  destruct (port_forward (kind c)); [tame_all|].
  repeat match goal with |- tame (_ ;;; _) => apply tame_andthen end.
  - tame_all.
  - tame_all.
  - destruct (options_in_login c); [|apply tame_skip]. apply tame_andthen; [by apply tame_modify|by apply update_options_tame].
  - by apply start_session_tame.
Qed.

(** Between the events: a call waits for an answer only once the peer is authorized. *)
Definition sound (c : Connection) (sub : string -> bool) : Prop :=
  within blt c sub /\ (authorized c = false -> voice_request (talk c) = None).

(** A step with its effects. *)
Definition kept_in (c c' : Connection) (l : list effect) : Prop :=
  forall sub, sound c sub -> sound c' (owns l sub).

Lemma kept_same c c' :
  authorized c' = authorized c -> perms c' = perms c -> wishes c' = wishes c -> kind c' = kind c -> talk c' = talk c ->
  kept_in c c' [].
Proof. intros A P Wi K T sub [W V]. split; [by eapply within_same|]. rewrite A, T. exact V. Qed.

Lemma kept_trans c1 c2 c3 l l' : kept_in c1 c2 l -> kept_in c2 c3 l' -> kept_in c1 c3 (l ++ l').
Proof. intros A B sub W. rewrite owns_app. by apply B, A. Qed.

Lemma kept_mute c c' l l' : kept_in c c' l -> Forall mute l' -> kept_in c c' (l ++ l').
Proof. intros A F sub W. rewrite owns_app, owns_mute by done. by apply A. Qed.

(** Authorizations and what a request asks for only add up. *)
Lemma kind_grows c c' :
  perms c' = perms c -> wishes c' = wishes c -> talk c' = talk c ->
  (authorized c = true -> authorized c' = true) ->
  (view_camera (kind c) = true -> view_camera (kind c') = true) -> (terminal (kind c) = true -> terminal (kind c') = true) ->
  kept_in c c' [].
Proof.
  intros P Wi Ta A V T sub [W Vo]. split.
  2: { rewrite Ta. intros N. apply Vo. destruct (authorized c); [|done]. by rewrite A in N. }
  intros n Hn. specialize (W n Hn). revert W.
  assert (seated c = true -> seated c' = true) as G.
  { unfold seated. rewrite P. destruct (keyboard (perms c)); [done|]. intros [E|E]%orb_true_iff.
    - rewrite V by exact E. done.
    - rewrite T by exact E. apply orb_true_r. }
  unfold entitled, clipboard_enabled, audio_enabled. rewrite P, Wi.
  destruct (authorized c); [rewrite A by done|]; (destruct (seated c); [rewrite G by done|]);
    repeat case_decide; rewrite ?andb_false_r; cbn; try done; by intros ->; rewrite orb_true_r.
Qed.

Lemma conclude_kept env c w r :
  e_builtin env = blt -> (authorized c = true -> cn_authorized (fst r) = true) ->
  let '(c', _, l) := conclude env c w r in kept_in c c' l.
Proof.
  intros E A. unfold conclude. set (c0 := s_base (fst r) c).
  assert (kept_in c c0 []) as K by (by apply kind_grows).
  destruct (negb (authorized c) && authorized c0) eqn:F; [|exact K].
  apply andb_true_iff in F as [_ F].
  pose proof (on_authorized_tame env E c0) as T. unfold andthen, emit. destruct (on_authorized env c0) as [c1 l].
  apply kept_mute; [|by repeat constructor]. intros sub W. destruct (K sub W) as [W0 _].
  destruct (T sub (conj F W0)) as [A1 W1]. cbn [fst snd] in *. split; [exact W1|]. by rewrite A1.
Qed.

Lemma login_kind_mute env lr c : Forall mute (snd (login_kind_step env lr c)).
Proof.
  unfold login_kind_step, fill_terminal_user_token.
  repeat case_match; simplify_eq/=; repeat constructor.
Qed.

Lemma login_kind_kept env lr c : kept_in c (snd (fst (login_kind_step env lr c))) [].
Proof.
  pose proof (login_kind_perms env lr c) as (P & Wi & B & _). cbv zeta in *.
  apply kind_grows; [done|done| |by unfold authorized; rewrite B|..];
    unfold login_kind_step, fill_terminal_user_token; repeat case_match; simplify_eq/=; done.
Qed.

Lemma handle_login_kept env lr c : kept_in c (handle_login_request_without_validation env lr c) [].
Proof.
  pose proof (handle_login_perms env lr c) as (P & W & K & A & _). cbv zeta in *. apply kept_same; try done.
  unfold handle_login_request_without_validation. by destruct (lr_option lr), (_ && _).
Qed.

Section peer.
Context (sha256 : bytes -> bytes) (parse_v6 : string -> option Z).

Lemma login_request_kept env lr c w :
  e_builtin env = blt -> let '(_, c', _, l) := on_login_request sha256 parse_v6 env lr c w in kept_in c c' l.
Proof.
  intros E. unfold on_login_request. pose proof (handle_login_kept env lr c) as S1.
  set (c1 := handle_login_request_without_validation env lr c) in *. destruct (authorized c1) eqn:A1; [exact S1|].
  pose proof (login_kind_kept env lr c1) as S2. pose proof (login_kind_perms env lr c1) as (_ & _ & B & _). cbv zeta in *.
  pose proof (login_kind_mute env lr c1) as Mu.
  destruct (login_kind_step env lr c1) as [[go c2] l0]. cbn [fst snd] in S2, B, Mu.
  pose proof (kept_mute _ _ _ _ (kept_trans _ _ _ _ _ S1 S2) Mu) as S. destruct (negb go); [exact S|].
  destruct (LoginGuard.login_request _ _ _ _ _ _ _ _) as [[keep b] g'].
  pose proof (conclude_kept env c2 w (b, g') E ltac:(unfold authorized in *; congruence)) as S3.
  destruct (conclude env c2 w (b, g')) as [[c3 w3] l].
  exact (kept_trans _ _ _ _ _ S S3).
Qed.

Lemma auth_2fa_kept env code hwid c w :
  e_builtin env = blt -> let '(c', _, l) := on_auth_2fa sha256 parse_v6 env code hwid c w in kept_in c c' l.
Proof.
  intros E. unfold on_auth_2fa. cbv zeta. set (r := LoginGuard.auth_2fa _ _ _ _ _ _ _).
  pose proof (conclude_kept env c w r E ltac:(intros A; by apply auth_2fa_keeps)) as S.
  destruct (conclude env c w r) as [[c1 w1] l]. apply kept_mute; [exact S|]. case_match; by repeat constructor.
Qed.

Lemma send_logon_kept env c w :
  e_builtin env = blt -> let '(c', _, l) := send_logon sha256 env c w in kept_in c c' l.
Proof. intros E. unfold send_logon. apply conclude_kept; [done|]. intros A. by rewrite send_logon_keeps. Qed.

Lemma switch_sides_kept env lr uuid c w :
  e_builtin env = blt -> let '(c', _, l) := on_switch_sides sha256 env lr uuid c w in kept_in c c' l.
Proof.
  intros E. unfold on_switch_sides. pose proof (handle_login_kept env lr c) as S. cbv zeta in *.
  set (c1 := handle_login_request_without_validation env lr c) in *.
  set (w1 := mkW (g w) (delete _ _)). destruct uuid as [u|]; [|exact S].
  match goal with |- context [match ?o with Some _ => _ | None => _ end] => destruct o as [[t u']|] end; [|exact S].
  destruct (decide (u = u')); [|exact S].
  match goal with |- context [send_logon sha256 env ?x ?y] => set (c2 := x); set (w2 := y) end.
  pose proof (send_logon_kept env c2 w2 E) as S2. destruct (send_logon sha256 env c2 w2) as [[c3 w3] l].
  apply kept_mute; [|by repeat constructor]. intros sub Wi. apply S2. exact (S sub Wi).
Qed.

Lemma tame_kept h c : authorized c = true -> tame h -> let '(c', l) := h c in kept_in c c' l.
Proof.
  intros A T. specialize (T c). destruct (h c) as [c' l]. intros sub [W _]. destruct (T sub (conj A W)) as [A' W'].
  cbn [fst snd] in *. split; [exact W'|]. by rewrite A'.
Qed.

(** A handler run by a message. *)
Lemma tame_run h c : authorized c = true -> tame h -> let '(_, c', l) := (let '(c, l) := h c in (true, c, l)) in kept_in c c' l.
Proof. intros A T. pose proof (tame_kept h c A T) as K. by destruct (h c). Qed.

Lemma selected_sid_kept env sid other c :
  e_builtin env = blt -> authorized c = true -> let '(_, c', l) := on_selected_sid env sid other c in kept_in c c' l.
Proof.
  intros E A. unfold on_selected_sid. destruct other; [by intros sub W|].
  destruct (file_transfer (kind c)) as [[dir h]|].
  { destruct (delayed_read_dir (files c)); by intros sub W. }
  destruct (view_camera (kind c)); [intros sub [W V]; split; [by apply within_camera|exact V]|].
  destruct (negb (terminal (kind c))); [|by intros sub W].
  apply (tame_run (try_sub_monitor_services env)); [exact A|exact (try_sub_monitor_services_tame env E)].
Qed.

Lemma on_file_action_tame env a : tame (on_file_action env a).
Proof.
  unfold on_file_action. tame_all.
  all: unfold run_file_action, send_file; tame_all.
Qed.

Lemma misc_kept env m c :
  e_builtin env = blt -> authorized c = true -> let '(_, c', l) := on_misc env m c in kept_in c c' l.
Proof.
  intros E A. destruct m; cbn [on_misc]; try (by apply selected_sid_kept).
  all: try (apply tame_run; [exact A|]; tame_all).
  - apply handle_switch_display_tame.
  - apply capture_displays_tame.
  - apply tame_mute. by destruct ok; repeat constructor.
  - by apply update_options_tame.
  - unfold handle_elevation_request. tame_all.
  - destruct uuid_ok; [|by intros sub W].
    assert (tame (emit [ESwitchSides] ;;; on_close false)) as T by (apply tame_andthen; [tame_all|apply on_close_tame]).
    pose proof (tame_kept _ c A T) as K. by destruct ((emit [ESwitchSides] ;;; on_close false) c).
  - apply change_resolution_tame.
  - apply change_resolution_tame.
Qed.

Lemma authorized_message_kept env msg c :
  e_builtin env = blt -> authorized c = true -> let '(_, c', l) := on_authorized_message env msg c in kept_in c c' l.
Proof.
  intros E A. destruct msg; cbn [on_authorized_message]; try (by apply misc_kept).
  all: apply tame_run; [exact A|]; unfold on_mouse, on_pointer, on_key, on_file_response; tame_all.
  - apply on_file_action_tame.
  - apply close_voice_call_tame.
Qed.

Lemma on_close_kept lock c : let '(c', l) := on_close lock c in kept_in c c' l.
Proof.
  unfold on_close, with_conn. destruct (closed c); [by intros sub W|].
  destruct (lock && lock_after_session_end (wishes c) && keyboard (perms c)); cbn; intros sub [W V]; (split; [|exact V]);
    rewrite owns_mute by (by repeat constructor); exact W.
Qed.

Lemma on_message_kept env msg c w :
  e_builtin env = blt -> let '(_, c', _, l) := on_message sha256 parse_v6 env msg c w in kept_in c c' l.
Proof.
  intros E. assert (forall m, let '(_, c', _, l) := (if authorized c then
        if port_forward (kind c) then (true, c, w, [])
        else let '(keep, c, l) := on_authorized_message env m c in (keep, c, w, l)
      else (true, c, w, [])) in kept_in c c' l) as M.
  { intros m. destruct (authorized c) eqn:A; [|by intros sub W]. destruct (port_forward (kind c)); [by intros sub W|].
    pose proof (authorized_message_kept env m c E A) as K. by destruct (on_authorized_message env m c) as [[? ?] ?]. }
  destruct msg; cbn [on_message];
    try match goal with |- context [on_authorized_message env ?m c] => exact (M m) end; clear M.
  - pose proof (on_close_kept true c) as K. by destruct (on_close true c).
  - by apply login_request_kept.
  - pose proof (auth_2fa_kept env code_ok hwid c w E) as K.
    by destruct (on_auth_2fa _ _ _ _ _ _ _) as [[? ?] ?].
  - destruct from_client; [by intros sub W|]. destruct (last_test_delay (talk c)); by intros sub W.
  - destruct lr as [lr|]; [|by intros sub W]. pose proof (switch_sides_kept env lr uuid c w E) as K.
    by destruct (on_switch_sides _ _ _ _ _ _) as [[? ?] ?].
Qed.

(** A switch works before the login too. *)
Lemma switch_permission_kept env name enabled c :
  e_builtin env = blt -> let '(c', l) := switch_permission env name enabled c in kept_in c c' l.
Proof.
  intros E. unfold switch_permission. repeat case_decide.
  all: unfold andthen, modify, emit, with_conn.
  3: { assert (forall n, n <> NAME_AUDIO -> entitled blt c n = entitled blt (set_audio enabled c) n) as K
         by (intros n N; unfold entitled; by destruct (decide (n = NAME_AUDIO))).
       destruct (authorized (set_audio enabled c)) eqn:A; cbn [when].
       - pose proof (fun sub S => audio_switch_within c (set_audio enabled c) sub S eq_refl K) as Sw.
         destruct (sub_audio (set_audio enabled c) (set_audio enabled c)) as [c' l]. cbn [fst snd] in *.
         intros sub [W V]. destruct (Sw sub (conj A W)) as [A' W']. split; [exact W'|by rewrite A'].
       - intros sub [W V]. split; [|exact V]. intros n Hn. specialize (W n Hn). change (authorized c = false) in A.
         destruct (decide (n = NAME_AUDIO)) as [->|N]; [|by rewrite <- K].
         exfalso. unfold entitled in W. cbn in W. by rewrite A in W. }
  all: intros sub [W V]; (split; [|exact V]); cbn [owns foldl app]; try exact W; renew_from W.
Qed.

Lemma on_event_kept env ev c w :
  e_builtin env = blt -> let '(_, c', _, l) := on_event sha256 parse_v6 env ev c w in kept_in c c' l.
Proof.
  intros E. destruct ev as [m| |name enabled|accepted]; cbn [on_event].
  - pose proof (on_message_kept env m c w E) as K. by destruct (on_message _ _ _ _ _ _) as [[[? ?] ?] ?].
  - unfold on_cm_authorize. set (c0 := s_base (clear_2fa (base c)) c).
    assert (kept_in c c0 []) as S by (by apply kept_same).
    pose proof (send_logon_kept env c0 w E) as K. destruct (send_logon sha256 env c0 w) as [[c1 w1] l].
    intros sub W. apply K. exact (S sub W).
  - pose proof (switch_permission_kept env name enabled c E) as K. by destruct (switch_permission env name enabled c).
  - destruct (authorized c) eqn:A.
    + pose proof (tame_kept _ c A (handle_voice_call_tame accepted)) as K. by destruct (handle_voice_call accepted c).
    + destruct (handle_voice_call accepted c) as [c' l] eqn:Hv. intros sub [W V]. unfold handle_voice_call, with_conn in Hv.
      rewrite (V A) in Hv. by injection Hv as <- <-.
Qed.

Lemma run_events_kept evs c w :
  Forall (fun x => e_builtin (fst x) = blt) evs ->
  let '(c', _, l) := run_events sha256 parse_v6 evs c w in kept_in c c' l.
Proof.
  intros F. revert c w. induction F as [|[env ev] evs E F IH]; intros c w; [by intros sub W|].
  cbn [run_events]. pose proof (on_event_kept env ev c w E) as K.
  destruct (on_event sha256 parse_v6 env ev c w) as [[[keep c1] w1] l]. destruct keep; [|exact K].
  specialize (IH c1 w1). destruct (run_events sha256 parse_v6 evs c1 w1) as [[c2 w2] l'].
  exact (kept_trans _ _ _ _ _ K IH).
Qed.

End peer.

End tame.

(** ** The server *)

Section server.
Context {Conn Msg T : Type} `{Sub : Subscriber Conn Msg T}.
Context (primary : Z) (camera_exists : bool) (conn : Conn).

(** An effect leaves a well-formed server, other connections alone, and this one with at
    most what it asked for. *)
Lemma apply_effect_own (s : Server (T := T)) e (sub : string -> bool) :
  server_wf s -> (forall n, subed s n (conn_id conn) = true -> sub n = true) ->
  let s' := apply_effect primary camera_exists conn s e in
  server_wf s' /\ (forall n, subed s' n (conn_id conn) = true -> own e sub n = true) /\
  (forall n i, i <> conn_id conn -> subed s' n i = subed s n i).
Proof.
  intros W U. cbv zeta.
  assert (forall name b, becomes (subscribe name conn b s) (fun n => contains n s)
    (spec_sub primary camera_exists (OpSubscribe name conn b) (fun n => contains n s) (subed s))) as Sb
    by (intros; by apply subscribe_becomes).
  assert (forall name b, let s' := subscribe name conn b s in server_wf s' /\
    (forall n, subed s' n (conn_id conn) = true -> (if decide (n = name) then b else sub n) = true) /\
    (forall n i, i <> conn_id conn -> subed s' n i = subed s n i)) as S.
  { intros name b. destruct (Sb name b) as (W' & _ & U'). split_and!; [done|..].
    - intros n. rewrite U'. cbn [spec_sub]. case_decide as D.
      + rewrite bool_decide_true by done. by intros [_ ->]%andb_true_iff.
      + rewrite bool_decide_false by naive_solver. apply U.
    - intros n i N. rewrite U'. cbn [spec_sub]. by rewrite bool_decide_false by naive_solver. }
  destruct e; cbn [apply_effect own]; try (by split_and!); try apply S.
  - destruct (start_becomes camera display s W) as (W' & _ & U'). split_and!; [done|..]; intros n; [|intros i _]; rewrite U'; auto.
  - unfold try_add_primay_video_service. destruct (start_becomes false primary s W) as (W1 & _ & U1).
    destruct (connect_becomes primary camera_exists conn without _ W1) as (W' & _ & U'). cbn [run_op spec_sub] in U'.
    split_and!; [done|..]; intros n.
    + rewrite U', U1. intros [E|E]%orb_true_iff; [by rewrite U|]. apply orb_true_iff. right.
      by apply andb_true_iff in E as [[_ ?]%andb_true_iff _].
    + intros i N. rewrite U', U1. rewrite bool_decide_false by congruence. by rewrite orb_false_r.
  - assert (becomes (try_add_primary_camera_service camera_exists s) (fun n => contains n (try_add_primary_camera_service camera_exists s)) (subed s)) as (W1 & _ & U1).
    { unfold try_add_primary_camera_service. destruct camera_exists; [|done].
      destruct (start_becomes true PRIMARY_CAMERA_IDX s W) as (W1 & _ & U1). done. }
    destruct (camera_becomes primary camera_exists conn _ W1) as (W' & _ & U'). cbn [run_op spec_sub] in U'.
    split_and!; [done|..]; intros n.
    + rewrite U', U1. intros [E|E]%orb_true_iff; [by rewrite U|]. apply orb_true_iff. right.
      apply andb_true_iff in E as [_ E%bool_decide_eq_true]. subst n. apply video_name.
    + intros i N. rewrite U', U1. rewrite bool_decide_false by congruence. by rewrite orb_false_r.
Qed.

Lemma apply_effects_own (l : list effect) (s : Server (T := T)) (sub : string -> bool) :
  server_wf s -> (forall n, subed s n (conn_id conn) = true -> sub n = true) ->
  let s' := apply_effects primary camera_exists conn s l in
  server_wf s' /\ (forall n, subed s' n (conn_id conn) = true -> owns l sub n = true) /\
  (forall n i, i <> conn_id conn -> subed s' n i = subed s n i).
Proof.
  revert s sub. induction l as [|e l IH]; intros s sub W U; [done|].
  destruct (apply_effect_own s e sub W U) as (W1 & U1 & O1). cbn [apply_effects foldl].
  destruct (IH _ _ W1 U1) as (W2 & U2 & O2). split_and!; [done|done|]. intros n i N. by rewrite O2, O1.
Qed.

(** C10. Over the whole life of a connection, whatever the peer sends and the person at the
    machine switches, and whatever else the server serves, the connection is only
    subscribed to services it is entitled to: sound while it is authorized, permitted and
    not turned off; the clipboard while it is permitted and not turned off and the keyboard
    is, and the cursor while the keyboard is permitted or the cursor is wanted, where a
    connection that has asked for a camera or a terminal counts as having the keyboard
    (its login takes the keyboard away and leaves the subscriptions, see [camera_keeps_clipboard]); position and focus
    as wanted.  Nobody else's subscriptions change, and when the connection ends it has
    none. *)
Theorem subscriptions_permitted sha256 parse_v6 blt env b evs w (s : Server (T := T)) :
  server_wf s -> (forall n, subed s n (conn_id conn) = false) ->
  Forall (fun x => e_builtin (fst x) = blt) evs ->
  let '(c, _, l) := run_events sha256 parse_v6 evs (new_connection env b) w in
  let s' := apply_effects primary camera_exists conn s l in
  let gone := remove_connection conn s' in
  server_wf s' /\ server_wf gone /\
  (forall n, subed s' n (conn_id conn) = true -> entitled blt c n = true) /\
  (forall n, subed gone n (conn_id conn) = false) /\
  (forall n i, i <> conn_id conn -> subed s' n i = subed s n i /\ subed gone n i = subed s n i).
Proof.
  intros W U F. pose proof (run_events_kept blt sha256 parse_v6 evs (new_connection env b) w F) as K.
  destruct (run_events _ _ _ _ _) as [[c w'] l]. cbv zeta.
  destruct (apply_effects_own l s (fun _ => false) W ltac:(intros n; by rewrite U)) as (W1 & U1 & O1).
  destruct (K (fun _ => false)) as [Kw _]; [by split|].
  destruct (remove_becomes primary camera_exists conn _ W1) as (W2 & _ & U2). cbn [run_op spec_sub] in *.
  split_and!; [done|done|..].
  - intros n E. by apply Kw, U1.
  - intros n. rewrite U2. by rewrite bool_decide_true.
  - intros n i N. rewrite U2, bool_decide_false by congruence. cbn. rewrite O1 by done. done.
Qed.

Lemma subscribe_service name b (s : Server (T := T)) k h :
  server_wf s -> services s !! k = Some h ->
  exists h', services (subscribe name conn b s) !! k = Some h' /\ need_snapshot h' = need_snapshot h.
Proof.
  intros W E. unfold subscribe. destruct (services s !! name) as [h0|] eqn:E0; [|by exists h].
  destruct (Bool.eqb _ b); [by exists h|]. cbn [services with_services]. rewrite lookup_insert.
  case_decide as D; [|by exists h]. subst k. rewrite E in E0. injection E0 as <-. eexists. split; [done|].
  pose proof (wf_hub s W _ _ E) as Wh.
  destruct b; [apply (hub_step_refines h (HubSubscribe conn) Wh)|apply (hub_step_refines h (HubUnsubscribe (conn_id conn)) Wh)].
Qed.

(** A hub without snapshots serves its subscribers at once. *)
Lemma live_at_once (h : ServiceInner (T := T)) i :
  hub_wf h -> need_snapshot h = false -> is_subed i h = true -> exists x, abs h i = Live x.
Proof.
  intros (_ & _ & _ & N) Ns. rewrite is_subed_abs. unfold abs. rewrite (N Ns).
  destruct (subscribes h !! i); [by eexists|]. by rewrite lookup_empty.
Qed.

(** A switch of the clipboard does not ask whether the peer has logged in: when it is
    turned off and on (or the keyboard is) while the peer still waits to be accepted, the
    peer, which is not authorized, is served like every subscriber, and gets what is copied. *)
Theorem clipboard_before_login sha256 parse_v6 env b w (s : Server (T := T)) h :
  server_wf s -> services s !! NAME_CLIPBOARD = Some h -> need_snapshot h = false ->
  permission env "enable-keyboard" = true -> cn_authorized b = false ->
  e_builtin env "one-way-clipboard-redirection" <> "Y"%string ->
  let '(c, _, l) := run_events sha256 parse_v6
    [(env, FromCmSwitch "clipboard" false); (env, FromCmSwitch "clipboard" true)] (new_connection env b) w in
  let s' := apply_effects primary camera_exists conn s l in
  authorized c = false /\
  exists h', services s' !! NAME_CLIPBOARD = Some h' /\ exists x, abs h' (conn_id conn) = Live x.
Proof.
  intros W E N K A B. cbn [run_events on_event]. unfold switch_permission.
  rewrite !(decide_False (P := "clipboard"%string = "keyboard"%string)), !(decide_True (P := "clipboard"%string = "clipboard"%string)) by done.
  unfold andthen, modify, emit, with_conn. cbn [fst snd app apply_effects foldl apply_effect send_permission].
  split; [exact A|]. match goal with |- context [subscribe NAME_CLIPBOARD conn ?b1 (subscribe NAME_CLIPBOARD conn ?b2 s)] =>
    set (on := b1); set (off := b2) end.
  assert (on = true) as ->.
  { subst on. unfold can_sub_clipboard_service, clipboard_enabled, peer_keyboard_enabled. cbn. rewrite K. cbn.
    by rewrite bool_decide_false. }
  destruct (subscribe_becomes NAME_CLIPBOARD conn off s W) as (W1 & C1 & _).
  destruct (subscribe_becomes NAME_CLIPBOARD conn true _ W1) as (W2 & _ & U2).
  destruct (subscribe_service NAME_CLIPBOARD off s _ h W E) as (h1 & E1 & N1).
  destruct (subscribe_service NAME_CLIPBOARD true _ _ h1 W1 E1) as (h2 & E2 & N2).
  specialize (U2 NAME_CLIPBOARD (conn_id conn)). assert (contains NAME_CLIPBOARD s = true) as Cs by (unfold contains; by rewrite E).
  rewrite bool_decide_true, C1, Cs in U2 by done. exists h2. split; [exact E2|].
  apply live_at_once; [by eapply wf_hub|congruence|]. unfold subed in U2. by rewrite E2 in U2.
Qed.

End server.

(** ** Examples *)

Lemma subscriptions_permitted_witness :
  let r := run_events (fun x => x) (fun _ => None) [(a_machine, FromCmSwitch "clipboard" true)]
             (new_connection a_machine (a_conn [] Remote false)) a_world in
  subed (remove_connection (Sub := inbox) 5 (apply_effects (Sub := inbox) 0 false 5 a_server (snd r))) NAME_CLIPBOARD 5 = false.
Proof.
  pose proof (subscriptions_permitted (Sub := inbox) 0 false 5 (fun x => x) (fun _ => None) (e_builtin a_machine) a_machine
    (a_conn [] Remote false) [(a_machine, FromCmSwitch "clipboard" true)] a_world a_server (proj1 a_server_wf)
    (fun n => proj2 a_server_wf n 5) ltac:(by repeat constructor)) as P.
  cbv zeta. destruct (run_events _ _ _ _ _) as [[c w] l]. exact (proj1 (proj2 (proj2 (proj2 P))) NAME_CLIPBOARD).
Defined.

Lemma clipboard_before_login_witness :
  let l := snd (run_events (fun x => x) (fun _ => None)
    [(a_machine, FromCmSwitch "clipboard" false); (a_machine, FromCmSwitch "clipboard" true)]
    (new_connection a_machine (a_conn [] Remote false)) a_world) in
  exists h, services (apply_effects (Sub := inbox) 0 false 5 a_server l) !! NAME_CLIPBOARD = Some h /\
    exists x, abs h 5 = Live x.
Proof.
  pose proof (clipboard_before_login (Sub := inbox) 0 false 5 (fun x => x) (fun _ => None) a_machine
    (a_conn [] Remote false) a_world a_server (hub_new NAME_CLIPBOARD false) (proj1 a_server_wf)
    ltac:(by vm_compute) ltac:(done) ltac:(by vm_compute) ltac:(done) ltac:(done)) as P.
  cbv zeta. destruct (run_events _ _ _ _ _) as [[c w] l]. apply P.
Defined.

(** Who asks for a camera keeps what he is subscribed to: the clipboard was switched off and on
    while he waited to be accepted, and he goes on getting what is copied, although the
    login for a camera takes the keyboard away. *)
Example camera_keeps_clipboard :
  let '(c, w, l) := run_events (fun x => x) (fun _ => None)
    [(a_machine, FromCmSwitch "clipboard" false); (a_machine, FromCmSwitch "clipboard" true);
     (a_machine, FromPeer (LoginRequestMsg (a_request LkViewCamera []))); (a_machine, FromCmAuthorize)]
    (new_connection a_machine (a_conn [] Remote false)) a_world in
  authorized c = true /\ keyboard (perms c) = false /\ view_camera (kind c) = true /\
  subed (apply_effects (Sub := inbox) 0 false 5 a_server l) NAME_CLIPBOARD 5 = true.
Proof. vm_compute. by split_and!. Qed.
