(* ===== verification/Handshake.v ===== *)
(** * Agreeing on the key of a connection

    The client's [secure_connection] (src/client.rs) and the server's
    [create_tcp_connection] (src/server.rs) exchange one message each: the server
    offers a fresh public key of a box, signed with the key the rendezvous server
    attests, and the client answers with a symmetric key sealed for it.
    [secure_tcp] (src/common.rs) does the same with the rendezvous server.

    The streams are those of [Secure]; signatures, the box and the encoding of the
    messages are interfaces.  Waiting and sending can fail: what a wait brings and
    whether the line is up are arguments. *)

From stdpp Require Import strings.
From S2P Require Import Prelude BytesCodec Secure Utf8 PasswordStore Options Config.

(** [sign]: what verifies is the text that was signed. *)
Class Signature : Type := {
  sign : bytes -> bytes -> bytes;
  verify : bytes -> bytes -> option bytes;
  verify_text : forall m sk vk t, verify (sign m sk) vk = Some t -> t = m;
}.

(** [sk] and [vk] belong together. *)
Definition sign_pair `{Signature} (sk vk : bytes) : Prop := forall m, verify (sign m sk) vk = Some m.

(** The [IdPk] message. *)
Record IdPk : Type := mkIdPk { ip_id : string; ip_pk : bytes }.

(** The parts of [Message] and [RendezvousMessage] the exchange looks at; [None]
    is a message without content. *)
Inductive message_union : Type :=
| SignedId (id : bytes)
| PublicKey (asymmetric_value symmetric_value : bytes)
| OtherMessage (b : bytes).
Inductive rendezvous_union : Type :=
| KeyExchange (keys : list bytes)
| OtherRendezvous (b : bytes).

(** protobuf's encoding: what is written is read back. *)
Class Protobuf : Type := {
  write_id : IdPk -> bytes;
  parse_id : bytes -> option IdPk;
  write_message : option message_union -> bytes;
  parse_message : bytes -> option (option message_union);
  write_rendezvous : option rendezvous_union -> bytes;
  parse_rendezvous : bytes -> option (option rendezvous_union);
  id_roundtrip : forall i, parse_id (write_id i) = Some i;
  message_roundtrip : forall m, parse_message (write_message m) = Some m;
  rendezvous_roundtrip : forall m, parse_rendezvous (write_rendezvous m) = Some m;
}.

(* src/libs/hbb_common/src/config.rs:110-110 RS_PUB_KEY *)
Definition RS_PUB_KEY : string := "mzcXkqIjQIqRoukKv3JOIBvLGqPLKdIpH4DkFILnxOo=".

Definition SIGN_PUBLICKEYBYTES : Z := 32.
Definition SIGN_SECRETKEYBYTES : Z := 64.

(** Why an exchange is given up. *)
Inductive error : Type :=
| TimedOut
| ResetByPeer
| Broken
| Io (e : io_error)
| SendFailed
| Encoding (e : codec_error)
| DecodeKey (e : handshake_error)
| InvalidFormat
| InvalidKeyLengthFromPeer
| InvalidRendezvousKey
| InvalidKeyExchange
| SignatureMismatch
| WrongPublicLength.

(** What waiting for the next frame brings. *)
Inductive incoming : Type :=
| NothingInTime
| EndOfStream
| BrokenStream
| Frame (f : bytes).

Section keys.
Context `{Signature} `{Protobuf} `{Base64}.

(* src/src/common.rs:1677-1686 get_pk *)
Definition get_pk (pk : bytes) : option bytes := if zlen pk =? 32 then Some pk else None.

(* src/src/common.rs:1688-1695 get_rs_pk *)
Definition get_rs_pk (str_base64 : string) : option bytes := b64_decode (as_bytes str_base64) ≫= get_pk.

(* src/src/common.rs:1697-1706 decode_id_pk *)
Definition decode_id_pk (signed key : bytes) : result error (string * bytes) :=
  match verify signed key with
  | None => Err SignatureMismatch
  | Some t =>
      match parse_id t with
      | None => Err InvalidFormat
      | Some res =>
          match get_pk (ip_pk res) with
          | Some pk => Ok (ip_id res, pk)
          | None => Err WrongPublicLength
          end
      end
  end.
End keys.

Section handshake.
Context {Key SK : Type} `{SecretBox Key} `{PublicBox SK} `{Signature} `{Protobuf} `{Base64} `{Json}
        (mk_key : bytes -> Key) (uuid : bytes).
Local Abbreviation Stream := (FramedStream (Key := Key)).

(** [timeout(conn.next())]: what comes, opened. *)
Definition next (inc : incoming) (conn : Stream) : result error (option bytes) * Stream :=
  match inc with
  | NothingInTime => (Err TimedOut, conn)
  | EndOfStream => (Ok None, conn)
  | BrokenStream => (Err Broken, conn)
  | Frame f =>
      match open_frame conn f with
      | (Ok b, conn) => (Ok (Some b), conn)
      | (Err e, conn) => (Err (Io e), conn)
      end
  end.

(** [conn.send]; [up]: the line takes it in time. *)
Definition send (up : bool) (m : bytes) (conn : Stream) : result error bytes * Stream :=
  match send_raw conn m [] with
  | (Ok _, conn, wire) => if up then (Ok wire, conn) else (Err SendFailed, conn)
  | (Err e, conn, _) => (Err (Encoding e), conn)
  end.

(** ** The client *)

(** The key the rendezvous server attests for the peer. *)
(* src/src/client.rs:762-782 Client::secure_connection *)
Definition attested_pk (peer_id : string) (signed_id_pk : bytes) (key : string) : option bytes :=
  if decide (signed_id_pk = []) then None
  else
    rs_pk ← get_rs_pk (if decide (key = ""%string) then RS_PUB_KEY else key);
    match decode_id_pk signed_id_pk rs_pk with
    | Ok (id, pk) => if decide (id = peer_id) then Some pk else None
    | Err _ => None
    end.

(** What the client answers to the first message, and the key it takes. *)
(* src/src/client.rs:795-826 Client::secure_connection *)
Definition answer (peer_id : string) (sign_pk : bytes) (ephemeral : SK) (new_key : bytes) (b : bytes)
    : option message_union * option bytes :=
  match parse_message b with
  | Some (Some (SignedId si)) =>
      match decode_id_pk si sign_pk with
      | Ok (id, their_pk_b) =>
          if decide (id = peer_id) then
            let '(asymmetric_value, symmetric_value, key) :=
              create_symmetric_key_msg ephemeral new_key their_pk_b in
            (Some (PublicKey asymmetric_value symmetric_value), Some key)
          else (None, None)
      | Err _ => (Some (PublicKey [] []), None)
      end
  | _ => (None, None)
  end.

(** The result is the peer's key, if it is attested, and what was sent. *)
(* src/src/client.rs:755-832 Client::secure_connection *)
Definition secure_connection (peer_id : string) (signed_id_pk : bytes) (key : string)
    (ephemeral : SK) (new_key : bytes) (up : bool) (inc : incoming) (conn : Stream)
    : result error (option bytes * bytes) * Stream :=
  match attested_pk peer_id signed_id_pk key with
  | None =>
      match send up (write_message None) conn with
      | (Ok wire, conn) => (Ok (None, wire), conn)
      | (Err e, conn) => (Err e, conn)
      end
  | Some sign_pk =>
      match next inc conn with
      | (Err e, conn) => (Err e, conn)
      | (Ok None, conn) => (Err ResetByPeer, conn)
      | (Ok (Some b), conn) =>
          let '(m, k) := answer peer_id sign_pk ephemeral new_key b in
          match send up (write_message m) conn with
          | (Ok wire, conn) =>
              (Ok (Some sign_pk, wire), match k with Some k => set_key (mk_key k) conn | None => conn end)
          | (Err e, conn) => (Err e, conn)
          end
      end
  end.

(** ** The server *)

(* src/src/server.rs:180-181 create_tcp_connection *)
Definition offers (secure : bool) (pair : bytes * bytes) : bool :=
  secure && (zlen (snd pair) =? SIGN_PUBLICKEYBYTES) && (zlen (fst pair) =? SIGN_SECRETKEYBYTES).

(** The first half: the signed key that is offered; [our] is the fresh pair. *)
(* src/src/server.rs:182-202 create_tcp_connection *)
Definition offer (pair : bytes * bytes) (id : string) (our : SK) (up : bool) (conn : Stream)
    : result error bytes * Stream :=
  send up (write_message (Some (SignedId (sign (write_id (mkIdPk id (pk_of our))) (fst pair))))) conn.

(** The second half: what the answer makes of the stream. *)
(* src/src/server.rs:203-229 create_tcp_connection *)
Definition take_answer (our : SK) (inc : incoming) (conn : Stream) (w : World)
    : result error unit * Stream * World :=
  match next inc conn with
  | (Err e, conn) => (Err e, conn, w)
  | (Ok None, conn) => (Err ResetByPeer, conn, w)
  | (Ok (Some b), conn) =>
      match parse_message b with
      | None => (Err InvalidFormat, conn, w)
      | Some (Some (PublicKey asymmetric_value symmetric_value)) =>
          if zlen asymmetric_value =? PUBLICKEYBYTES then
            match encrypt_decode symmetric_value asymmetric_value our with
            | Ok k => (Ok tt, set_key (mk_key k) conn, w)
            | Err e => (Err (DecodeKey e), conn, w)
            end
          else if decide (asymmetric_value = []) then
            (Ok tt, conn, set_key_confirmed mk_key uuid false w)
          else (Err InvalidKeyLengthFromPeer, conn, w)
      | Some _ => (Ok tt, conn, w)
      end
  end.

(** Where it succeeds the connection is started on the stream. *)
(* src/src/server.rs:171-245 create_tcp_connection *)
Definition create_tcp_connection (secure : bool) (pair : bytes * bytes) (id : string) (our : SK)
    (up : bool) (inc : incoming) (conn : Stream) (w : World) : result error unit * Stream * World :=
  if offers secure pair then
    match offer pair id our up conn with
    | (Ok _, conn) => take_answer our inc conn w
    | (Err e, conn) => (Err e, conn, w)
    end
  else (Ok tt, conn, w).

(** ** The rendezvous server *)

(** [ws]: the connection is a WebSocket. The result is what was sent. *)
(* src/src/common.rs:1633-1675 secure_tcp *)
Definition secure_tcp (ws : bool) (key : string) (ephemeral : SK) (new_key : bytes) (up : bool)
    (inc : incoming) (conn : Stream) : result error bytes * Stream :=
  if ws then (Ok [], conn)
  else
    match get_rs_pk key with
    | None => (Err InvalidRendezvousKey, conn)
    | Some rs_pk =>
        match next inc conn with
        | (Err TimedOut, conn) => (Err TimedOut, conn)
        | (Ok (Some b), conn) =>
            match parse_rendezvous b with
            | Some (Some (KeyExchange keys)) =>
                match keys with
                | [signed] =>
                    match verify signed rs_pk with
                    | None => (Err SignatureMismatch, conn)
                    | Some their_pk_b =>
                        match get_pk their_pk_b with
                        | None => (Err WrongPublicLength, conn)
                        | Some their_pk_b =>
                            let '(asymmetric_value, symmetric_value, k) :=
                              create_symmetric_key_msg ephemeral new_key their_pk_b in
                            match send up (write_rendezvous (Some (KeyExchange [asymmetric_value; symmetric_value]))) conn with
                            | (Ok wire, conn) => (Ok wire, set_key (mk_key k) conn)
                            | (Err e, conn) => (Err e, conn)
                            end
                        end
                    end
                | _ => (Err InvalidKeyExchange, conn)
                end
            | _ => (Ok [], conn)
            end
        | (_, conn) => (Ok [], conn)
        end
    end.
End handshake.

(** ** An exchange over a faithful line *)

Section exchange.
Context {Key SK : Type} `{SecretBox Key} `{PublicBox SK} `{Signature} `{Protobuf} `{Base64} `{Json}
        (mk_key : bytes -> Key) (uuid : bytes).
Local Abbreviation Stream := (FramedStream (Key := Key)).

(** A stream as both ends start with. *)
Definition fresh (c : Stream) : Prop := f_codec c = codec_new /\ f_encrypt c = None.

(** The one frame some bytes are. *)
Definition deliver (rx : Stream) (chunks : list bytes) : option bytes :=
  match feed_all (f_codec rx) [] chunks with (Ok [f], _, []) => Some f | _ => None end.

(** The server offers, the client answers, and the network cuts what is sent. *)
Definition exchange (cut : bytes -> list bytes) (pair : bytes * bytes) (id : string) (our : SK)
    (peer_id : string) (signed_id_pk : bytes) (key : string) (ephemeral : SK) (new_key : bytes)
    (c s : Stream) (w : World) : option (option bytes * Stream * Stream * World) :=
  match offer pair id our true s with
  | (Ok w1, s) =>
      f1 ← deliver c (cut w1);
      match secure_connection mk_key peer_id signed_id_pk key ephemeral new_key true (Frame f1) c with
      | (Ok (pk, w2), c) =>
          f2 ← deliver s (cut w2);
          match take_answer mk_key uuid our (Frame f2) s w with
          | (Ok _, s, w) => Some (pk, c, s, w)
          | _ => None
          end
      | _ => None
      end
  | _ => None
  end.

Definition hello (pair : bytes * bytes) (id : string) (our : SK) : option message_union :=
  Some (SignedId (sign (write_id (mkIdPk id (pk_of our))) (fst pair))).

Definition sealed_answer (ephemeral : SK) (new_key their_pk : bytes) : option message_union :=
  Some (PublicKey (pk_of ephemeral) (box_seal new_key box_nonce their_pk ephemeral)).

(** A message of a length the codec can frame. *)
Definition fits (m : option message_union) : Prop := zlen (write_message m) <= 0x3FFFFFFF.

(** What the ends make of each other: the key they share, and whether the server
    was told to have its key confirmed again. *)
Definition outcome (pair : bytes * bytes) (id : string) (our : SK) (peer_id : string)
    (attested : option bytes) (new_key : bytes) : option bytes * bool :=
  match attested with
  | None => (None, false)
  | Some vk =>
      match verify (sign (write_id (mkIdPk id (pk_of our))) (fst pair)) vk with
      | None => (None, true)
      | Some _ => if decide (id = peer_id) then (Some new_key, false) else (None, false)
      end
  end.

Lemma deliver_frame c m cut :
  fresh c -> zlen m <= 0x3FFFFFFF -> mjoin (cut (frame m)) = frame m -> deliver c (cut (frame m)) = Some m.
Proof.
  intros [E _] F C. unfold deliver. rewrite E.
  assert (sendable codec_new m) as S by (unfold sendable, codec_new, usize_max; cbn; lia).
  rewrite (feed_frames codec_new codec_new [m]); [done|done|done|done|by constructor|by constructor|].
  rewrite encode_all_spec; [|done|by constructor]. cbn. by rewrite app_nil_r, C.
Qed.

Lemma send_plain c m : fresh c -> zlen m <= 0x3FFFFFFF -> send true m c = (Ok (frame m), c).
Proof.
  intros [E N] F. destruct c as [codec e t]. cbn in E, N. subst.
  unfold send, send_raw, send_bytes. cbn [f_encrypt f_codec f_send_timeout].
  by rewrite encode_spec.
Qed.

Lemma next_plain c f : fresh c -> next (Frame f) c = (Ok (Some f), c).
Proof. intros [_ N]. unfold next, open_frame. by rewrite N. Qed.

Lemma fresh_set_key k c : fresh c -> f_codec (set_key k c) = codec_new.
Proof. by intros [E _]. Qed.

(** The first message of the server, as a client that knows [vk] reads it. *)
Lemma decode_hello (pair : bytes * bytes) id our vk :
  decode_id_pk (sign (write_id (mkIdPk id (pk_of our))) (fst pair)) vk =
  match verify (sign (write_id (mkIdPk id (pk_of our))) (fst pair)) vk with
  | Some _ => Ok (id, pk_of our)
  | None => Err SignatureMismatch
  end.
Proof.
  unfold decode_id_pk. destruct (verify _ _) as [t|] eqn:V; [|done].
  apply verify_text in V as ->. rewrite id_roundtrip. unfold get_pk. cbn [ip_pk ip_id].
  rewrite pk_length. done.
Qed.

Lemma take_sealed our ephemeral new_key s w :
  fresh s -> zlen new_key = Secure.KEYBYTES ->
  take_answer mk_key uuid our (Frame (write_message (sealed_answer ephemeral new_key (pk_of our)))) s w =
    (Ok tt, set_key (mk_key new_key) s, w).
Proof.
  intros F K. unfold take_answer. rewrite next_plain by done. rewrite message_roundtrip.
  unfold sealed_answer. rewrite pk_length, Z.eqb_refl.
  pose proof (key_exchange ephemeral our new_key K) as E.
  unfold create_symmetric_key_msg in E. by rewrite E.
Qed.

Lemma take_plain our s w m :
  fresh s -> m = None \/ m = Some (PublicKey [] []) ->
  take_answer mk_key uuid our (Frame (write_message m)) s w =
    (Ok tt, s, if decide (m = None) then w else set_key_confirmed mk_key uuid false w).
Proof.
  intros F [->| ->]; unfold take_answer; rewrite next_plain by done; by rewrite message_roundtrip.
Qed.

(** The exchange ends, and both ends make of each other what [outcome] says. *)
Lemma exchange_spec cut pair id our peer_id signed_id_pk key ephemeral new_key c s w :
  fresh c -> fresh s -> (forall b, mjoin (cut b) = b) -> zlen new_key = Secure.KEYBYTES ->
  fits (hello pair id our) -> fits None -> fits (Some (PublicKey [] [])) ->
  fits (sealed_answer ephemeral new_key (pk_of our)) ->
  let attested := attested_pk peer_id signed_id_pk key in
  let '(k, confirm) := outcome pair id our peer_id attested new_key in
  let keyed t := match k with Some k => set_key (mk_key k) t | None => t end in
  exchange cut pair id our peer_id signed_id_pk key ephemeral new_key c s w =
    Some (attested, keyed c, keyed s, if confirm then set_key_confirmed mk_key uuid false w else w).
Proof.
  intros Fc Fs C K F0 F1 F2 F3 attested. unfold exchange, outcome, offer. fold (hello pair id our).
  rewrite send_plain by done. cbn [mbind option_bind]. rewrite (deliver_frame c) by (done || apply C).
  cbn [mbind option_bind]. unfold secure_connection. fold attested.
  destruct attested as [vk|].
  - rewrite next_plain by done. unfold answer. rewrite message_roundtrip. unfold hello. rewrite decode_hello.
    destruct (verify _ vk); [case_decide as E|].
    + unfold create_symmetric_key_msg. fold (sealed_answer ephemeral new_key (pk_of our)).
      rewrite send_plain by done. rewrite (deliver_frame s) by (done || apply C).
      cbn [mbind option_bind]. by rewrite take_sealed.
    + rewrite send_plain by done. rewrite (deliver_frame s) by (done || apply C).
      cbn [mbind option_bind]. rewrite take_plain by auto. by rewrite decide_True.
    + rewrite send_plain by done. rewrite (deliver_frame s) by (done || apply C).
      cbn [mbind option_bind]. rewrite take_plain by auto. by rewrite decide_False.
  - rewrite send_plain by done. rewrite (deliver_frame s) by (done || apply C).
    cbn [mbind option_bind]. rewrite take_plain by auto. by rewrite decide_True.
Qed.

(** The client and the server always agree on whether their connection is secured,
    and on the key: over a line that delivers what is sent, however it cuts it,
    the exchange of an offering server and a client ends, whatever key the
    rendezvous server attested to the client; then either both ends encrypt
    with the client's new key, or neither end encrypts; the server has its key
    confirmed again exactly when its signature is not by the attested key. *)
Theorem handshake_agrees cut pair id our peer_id signed_id_pk key ephemeral new_key c s w :
  fresh c -> fresh s -> (forall b, mjoin (cut b) = b) -> zlen new_key = Secure.KEYBYTES ->
  fits (hello pair id our) -> fits None -> fits (Some (PublicKey [] [])) ->
  fits (sealed_answer ephemeral new_key (pk_of our)) ->
  exists pk c' s' w',
    exchange cut pair id our peer_id signed_id_pk key ephemeral new_key c s w = Some (pk, c', s', w') /\
    f_encrypt c' = f_encrypt s' /\
    (f_encrypt c' = None \/ f_encrypt c' = Some (encrypt_new (mk_key new_key))) /\
    (w' = w \/ w' = set_key_confirmed mk_key uuid false w /\
       exists vk, pk = Some vk /\ verify (sign (write_id (mkIdPk id (pk_of our))) (fst pair)) vk = None).
Proof.
  intros Fc Fs C K F0 F1 F2 F3.
  pose proof (exchange_spec cut pair id our peer_id signed_id_pk key ephemeral new_key c s w
    Fc Fs C K F0 F1 F2 F3) as X. cbv zeta in X.
  set (attested := attested_pk peer_id signed_id_pk key) in *. unfold outcome in X.
  destruct Fc as [_ Nc], Fs as [_ Ns].
  destruct attested as [vk|]; [destruct (verify _ vk) eqn:V; [case_decide|]|];
    (eexists _, _, _, _; split; [exact X|]); cbn [f_encrypt set_key];
    rewrite ?Nc, ?Ns; split_and!; eauto 6.
Qed.

(** Between a genuine pair of ends the connection is secured and works: where the
    rendezvous server attests the key the server signs with under the name the
    client asked for, the client learns that key, and afterwards every sequence
    of messages either end sends is received by the other, in order, however
    the network cuts it. *)
Theorem handshake_delivers cut pair id our signed_id_pk key rs_pk ephemeral new_key c s w :
  fresh c -> fresh s -> (forall b, mjoin (cut b) = b) -> zlen new_key = Secure.KEYBYTES ->
  fits (hello pair id our) -> fits None -> fits (Some (PublicKey [] [])) ->
  fits (sealed_answer ephemeral new_key (pk_of our)) ->
  sign_pair (fst pair) (snd pair) -> zlen (snd pair) = 32 -> signed_id_pk <> [] ->
  get_rs_pk (if decide (key = ""%string) then RS_PUB_KEY else key) = Some rs_pk ->
  verify signed_id_pk rs_pk = Some (write_id (mkIdPk id (snd pair))) ->
  exists c' s',
    exchange cut pair id our id signed_id_pk key ephemeral new_key c s w = Some (Some (snd pair), c', s', w) /\
    is_secured c' = true /\
    forall tx rx ms chunks tx', (tx, rx) = (c', s') \/ (tx, rx) = (s', c') ->
      zlen ms < 2 ^ 64 -> Forall (fun m => zlen m + MACBYTES <= 0x3FFFFFFF) ms ->
      send_all tx ms [] = (Ok tt, tx', mjoin chunks) ->
      fst (fst (receive_all rx [] chunks)) = Ok ms.
Proof.
  intros Fc Fs C K F0 F1 F2 F3 P L N R V.
  pose proof (exchange_spec cut pair id our id signed_id_pk key ephemeral new_key c s w
    Fc Fs C K F0 F1 F2 F3) as X. cbv zeta in X.
  assert (attested_pk id signed_id_pk key = Some (snd pair)) as A.
  { unfold attested_pk. rewrite decide_False by done. rewrite R. cbn. unfold decode_id_pk. rewrite V.
    rewrite id_roundtrip. unfold get_pk. cbn [ip_pk ip_id]. rewrite L. cbn. by rewrite decide_True. }
  rewrite A in X. unfold outcome in X. rewrite P, decide_True in X by done.
  eexists _, _. split; [exact X|]. split; [done|].
  intros tx rx ms chunks tx' E Z M S.
  destruct Fc as [Cc Nc], Fs as [Cs Ns].
  assert (f_codec tx = codec_new /\ f_codec rx = codec_new /\
          f_encrypt tx = Some (mkEncrypt (mk_key new_key) 0 0) /\
          f_encrypt rx = Some (mkEncrypt (mk_key new_key) 0 0)) as (T1 & T2 & T3 & T4)
    by (destruct E as [[= -> ->]|[= -> ->]]; cbn; auto).
  destruct (stream_delivers tx rx (mk_key new_key) 0 0 0 ms chunks tx') as [Q _];
    rewrite ?T1, ?T2; try done.
  rewrite Q. done.
Qed.

Lemma decode_id_pk_ok s vk i p :
  decode_id_pk s vk = Ok (i, p) -> exists t, verify s vk = Some t /\ parse_id t = Some (mkIdPk i p).
Proof.
  unfold decode_id_pk, get_pk. destruct (verify s vk) as [t|]; [|done].
  destruct (parse_id t) as [[i' p']|] eqn:E; [|done]. cbn [ip_pk ip_id].
  destruct (zlen p' =? 32); [|done]. intros [= <- <-]. eauto.
Qed.

Lemma attested_inv peer_id signed_id_pk key vk :
  attested_pk peer_id signed_id_pk key = Some vk ->
  exists rs_pk t, get_rs_pk (if decide (key = ""%string) then RS_PUB_KEY else key) = Some rs_pk /\
    verify signed_id_pk rs_pk = Some t /\ parse_id t = Some (mkIdPk peer_id vk).
Proof.
  unfold attested_pk. case_decide; [done|]. intros (rs_pk & R & A)%bind_Some.
  destruct (decode_id_pk signed_id_pk rs_pk) as [[i p]|e] eqn:D; [|done].
  case_decide; [subst|done]. injection A as [= ->]. apply decode_id_pk_ok in D as (t & D1 & D2). eauto.
Qed.

(** A stream without a key stays one, but for [set_key]. *)
Lemma next_fresh inc c r c' : fresh c -> next inc c = (r, c') -> c' = c.
Proof.
  intros F E. destruct inc as [| | |f]; try (cbn in E; by injection E).
  rewrite next_plain in E by done. by injection E.
Qed.

Lemma send_fresh up m c r c' : fresh c -> send up m c = (r, c') -> c' = c.
Proof.
  intros [_ N] E. destruct c as [codec e t]. cbn in N. subst. unfold send, send_raw in E. cbn in E.
  destruct (send_bytes _ _ _) as [[[]|e] b]; [destruct up|]; by injection E.
Qed.

Lemma send_up up m c wire c' : send up m c = (Ok wire, c') -> send true m c = (Ok wire, c').
Proof. unfold send. destruct (send_raw c m []) as [[[[]|e] c0] b]; [destruct up|]; done. Qed.

(** A key is taken only in answer to a key that the attested key signed. *)
Lemma answer_key peer_id vk (ephemeral : SK) new_key b m k :
  answer peer_id vk ephemeral new_key b = (m, Some k) ->
  k = new_key /\ exists si t p, verify si vk = Some t /\ parse_id t = Some (mkIdPk peer_id p) /\
    m = sealed_answer ephemeral new_key p.
Proof.
  unfold answer. destruct (parse_message b) as [[[si|? ?|?]|]|]; try done.
  destruct (decode_id_pk si vk) as [[i p]|e] eqn:D; [|done]. case_decide; [subst|done].
  intros [= <- <-]. split; [done|]. apply decode_id_pk_ok in D as (t & D1 & D2). by eauto 8.
Qed.

(** C20. A secured connection is a connection to the peer, whatever the network and the
    rendezvous server deliver: where signatures cannot be forged ([signed] is
    what was signed with a key), the rendezvous server only ever signed the
    peer's key under the peer's name, and the peer only ever signed its own box
    keys, the client that has a key set sent this key nowhere but in a box that
    one of the peer's own secrets opens. *)
Theorem secured_to_peer (signed : bytes -> bytes -> Prop) (offered : SK -> Prop) peer_id peer_pk rs_pk
    signed_id_pk key ephemeral new_key up inc c pk wire c' :
  (forall s vk m, verify s vk = Some m -> signed vk m) ->
  (forall m p, signed rs_pk m -> parse_id m = Some (mkIdPk peer_id p) -> p = peer_pk) ->
  (forall m p, signed peer_pk m -> parse_id m = Some (mkIdPk peer_id p) -> exists sk, offered sk /\ p = pk_of sk) ->
  get_rs_pk (if decide (key = ""%string) then RS_PUB_KEY else key) = Some rs_pk ->
  fresh c -> zlen new_key = Secure.KEYBYTES ->
  secure_connection mk_key peer_id signed_id_pk key ephemeral new_key up inc c = (Ok (pk, wire), c') ->
  is_secured c' = true ->
  pk = Some peer_pk /\ exists sk, offered sk /\
    send true (write_message (sealed_answer ephemeral new_key (pk_of sk))) c = (Ok wire, c) /\
    encrypt_decode (box_seal new_key box_nonce (pk_of sk) ephemeral) (pk_of ephemeral) sk = Ok new_key /\
    f_encrypt c' = Some (encrypt_new (mk_key new_key)).
Proof.
  intros U R P G F K E S. unfold secure_connection in E.
  destruct (attested_pk peer_id signed_id_pk key) as [vk|] eqn:A.
  2:{ destruct (send up _ c) as [[w|e] c0] eqn:D; [|done]. injection E as _ _ <-.
      apply send_fresh in D as ->; [|done]. destruct F as [_ N]. unfold is_secured in S. by rewrite N in S. }
  apply attested_inv in A as (rs & t & G' & V & T). rewrite G' in G. injection G as ->.
  assert (vk = peer_pk) as -> by eauto.
  destruct (next inc c) as [[[b|]|e] c1] eqn:X; [|done..]. apply next_fresh in X as ->; [|done].
  destruct (answer peer_id peer_pk ephemeral new_key b) as [m k] eqn:Q.
  destruct (send up _ c) as [[w|e] c0] eqn:D; [|done]. injection E as <- <- <-.
  pose proof (send_fresh _ _ _ _ _ F D) as ->. apply send_up in D.
  destruct k as [k|]; [|destruct F as [_ N]; unfold is_secured in S; by rewrite N in S].
  apply answer_key in Q as (-> & si & t' & p & V' & T' & ->).
  destruct (P t' p) as (sk & O & ->); [by eauto..|].
  split; [done|]. exists sk. split_and!; [done|done|by apply (key_exchange ephemeral sk new_key)|done].
Qed.

(** With the rendezvous server: a key is set only where the server's key signed the
    box key it is sealed for; in every other case that succeeds nothing was sent. *)
Lemma secure_tcp_secured ws key (ephemeral : SK) new_key up inc c wire c' :
  fresh c -> secure_tcp mk_key ws key ephemeral new_key up inc c = (Ok wire, c') ->
  if is_secured c' then
    exists rs_pk s p, get_rs_pk key = Some rs_pk /\ verify s rs_pk = Some p /\ zlen p = 32 /\
      f_encrypt c' = Some (encrypt_new (mk_key new_key)) /\
      send true (write_rendezvous (Some (KeyExchange [pk_of ephemeral; box_seal new_key box_nonce p ephemeral]))) c =
        (Ok wire, c)
  else wire = [] /\ c' = c.
Proof.
  intros F E.
  assert (is_secured c = false) as N by (destruct F as [_ N]; unfold is_secured; by rewrite N).
  unfold secure_tcp in E. destruct ws; [by injection E as <- <-; rewrite N|].
  destruct (get_rs_pk key) as [rs_pk|]; [|done].
  destruct (next inc c) as [r c0] eqn:X. apply next_fresh in X as ->; [|done].
  destruct r as [[b|]|e]; [|by injection E as <- <-; rewrite N|destruct e; try done; by injection E as <- <-; rewrite N].
  destruct (parse_rendezvous b) as [[[ks|?]|]|]; try by (injection E as <- <-; rewrite N).
  destruct ks as [|s [|]]; [done| |done]. destruct (verify s rs_pk) as [p|] eqn:V; [|done].
  unfold get_pk in E. destruct (zlen p =? 32) eqn:L; [|done]. unfold create_symmetric_key_msg in E.
  destruct (send up _ c) as [[w|e] c0] eqn:D; [|done]. injection E as <- <-.
  pose proof (send_fresh _ _ _ _ _ F D) as ->. apply send_up in D.
  cbn. exists rs_pk, s, p. split_and!; try done. by apply Z.eqb_eq.
Qed.
End exchange.

(** ** Concrete interfaces for the witnesses *)

(** A byte string that tells its own length, in unary. *)
Definition field (a : bytes) : bytes := replicate (length a) Byte.x01 ++ Byte.x00 :: a.

Fixpoint unfield (n : nat) (b : bytes) : option (bytes * bytes) :=
  match b with
  | Byte.x01 :: b => unfield (S n) b
  | Byte.x00 :: b => Some (take n b, drop n b)
  | _ => None
  end.

Lemma unfield_field a rest : unfield 0 (field a ++ rest) = Some (a, rest).
Proof.
  unfold field. rewrite <- app_assoc.
  cut (forall n k, unfield n (replicate k Byte.x01 ++ (Byte.x00 :: a) ++ rest) =
                   Some (take (n + k) (a ++ rest), drop (n + k) (a ++ rest))).
  { intros ->. cbn [Nat.add]. by rewrite take_app_length, drop_app_length. }
  intros n k. revert n. induction k as [|k IH]; intros n; [by rewrite Nat.add_0_r|].
  cbn [replicate app unfield]. rewrite IH. by rewrite <- Nat.add_succ_comm.
Qed.

Fixpoint unfields (fuel : nat) (b : bytes) : option (list bytes) :=
  match b, fuel with
  | [], _ => Some []
  | _, O => None
  | _, S fuel => '(a, b) ← unfield 0 b; l ← unfields fuel b; Some (a :: l)
  end.

Lemma unfields_fields l fuel :
  (length (mjoin (field <$> l)) <= fuel)%nat -> unfields fuel (mjoin (field <$> l)) = Some l.
Proof.
  revert fuel. induction l as [|a l IH]; intros fuel L; [by destruct fuel|].
  change (mjoin (field <$> a :: l)) with (field a ++ mjoin (field <$> l)) in *. rewrite length_app in L.
  assert (1 <= length (field a))%nat by (unfold field; rewrite length_app; cbn; lia).
  assert (forall b, field a ++ b <> []) as NE by (intros b; unfold field; by destruct (length a)).
  destruct fuel as [|fuel]; [cbn in L; lia|]. cbn [unfields].
  destruct (field a ++ mjoin (field <$> l)) eqn:E; [by apply NE in E|]. rewrite <- E, unfield_field.
  cbn. rewrite IH by lia. done.
Qed.

Definition protobuf_fields : Protobuf.
Proof.
  refine {|
    write_id i := field (as_bytes (ip_id i)) ++ ip_pk i;
    parse_id b := '(i, p) ← unfield 0 b; Some (mkIdPk (String.string_of_list_byte i) p);
    write_message m := match m with
      | None => [] | Some (SignedId b) => Byte.x01 :: b
      | Some (PublicKey a s) => Byte.x02 :: field a ++ s | Some (OtherMessage b) => Byte.x03 :: b end;
    parse_message b := match b with
      | [] => Some None | Byte.x01 :: b => Some (Some (SignedId b))
      | Byte.x02 :: b => '(a, s) ← unfield 0 b; Some (Some (PublicKey a s))
      | Byte.x03 :: b => Some (Some (OtherMessage b)) | _ => None end;
    write_rendezvous m := match m with
      | None => [] | Some (KeyExchange ks) => Byte.x01 :: mjoin (field <$> ks)
      | Some (OtherRendezvous b) => Byte.x02 :: b end;
    parse_rendezvous b := match b with
      | [] => Some None | Byte.x01 :: b => ks ← unfields (length b) b; Some (Some (KeyExchange ks))
      | Byte.x02 :: b => Some (Some (OtherRendezvous b)) | _ => None end |}.
  - intros [i p]. cbn [ip_id ip_pk]. rewrite unfield_field. cbn. unfold as_bytes.
    by rewrite String.string_of_list_byte_of_string.
  - intros [[b|a s|b]|]; try done. by rewrite unfield_field.
  - intros [[ks|b]|]; try done. by rewrite unfields_fields.
Defined.

(** The secret key in front of the text; [ok] says which texts verify. *)
Definition sign_prefix (ok : bytes -> bytes -> bool) : Signature.
Proof.
  refine {| sign m sk := resize 64 Byte.x00 sk ++ m;
            verify s vk := if bool_decide (take 32 s = vk) && ok vk (drop 64 s) then Some (drop 64 s) else None |}.
  intros m sk vk t. case_match; [|done]. intros [= <-].
  rewrite <- (length_resize sk 64 Byte.x00) at 1. by rewrite drop_app_length.
Defined.

Definition box_open_all : PublicBox bytes.
Proof.
  refine {| pk_of := resize 32 Byte.x00; box_seal m n pk sk := m; box_open c n pk sk := Some c |}; [|done].
  intros sk. unfold zlen. by rewrite length_resize.
Defined.

Definition rs_vk : bytes := replicate 32 Byte.x0a.
Definition peer_pair : bytes * bytes := (replicate 64 Byte.x0b, replicate 32 Byte.x0b).
Definition peer_box : bytes := replicate 32 Byte.x0c.
Definition a_key : bytes := replicate 32 Byte.x0d.
Definition any_text : Signature := sign_prefix (fun _ _ => true).
Definition attestation : bytes :=
  sign (Signature := any_text) (write_id (Protobuf := protobuf_fields) (mkIdPk "peer" (snd peer_pair)))
    (replicate 64 Byte.x0a).
Definition start_stream : FramedStream (Key := unit) := stream_from.
Definition a_machine : World := machine.

Lemma handshake_agrees_witness :
  exists pk c' s' w',
    exchange (H := box_plain) (H0 := box_open_all) (H1 := any_text) (H2 := protobuf_fields) (H3 := base64_hex)
      (fun _ => tt) [] (fun b => [b]) peer_pair "peer" peer_box
      "peer" [] "" peer_box a_key start_stream start_stream a_machine = Some (pk, c', s', w') /\
    f_encrypt c' = f_encrypt s'.
Proof.
  destruct (handshake_agrees (H := box_plain) (H0 := box_open_all) (H1 := any_text) (H2 := protobuf_fields)
    (H3 := base64_hex) (fun _ => tt) [] (fun b => [b]) peer_pair "peer" peer_box
    "peer" [] "" peer_box a_key start_stream start_stream a_machine) as (pk & c' & s' & w' & E & A & _).
  - done.
  - done.
  - intros b. apply app_nil_r.
  - done.
  - vm_compute. discriminate.
  - vm_compute. discriminate.
  - vm_compute. discriminate.
  - vm_compute. discriminate.
  - exists pk, c', s', w'. split; [exact E|exact A].
Defined.

Lemma handshake_delivers_witness :
  exists c' s',
    exchange (H := box_plain) (H0 := box_open_all) (H1 := any_text) (H2 := protobuf_fields) (H3 := base64_hex)
      (fun _ => tt) [] (fun b => [b]) peer_pair "peer" peer_box
      "peer" attestation (b64_encode (Base64 := base64_hex) rs_vk) peer_box a_key start_stream start_stream a_machine =
      Some (Some (snd peer_pair), c', s', a_machine) /\ is_secured c' = true.
Proof.
  destruct (handshake_delivers (H := box_plain) (H0 := box_open_all) (H1 := any_text) (H2 := protobuf_fields)
    (H3 := base64_hex) (fun _ => tt) [] (fun b => [b]) peer_pair "peer" peer_box
    attestation (b64_encode (Base64 := base64_hex) rs_vk) rs_vk peer_box a_key start_stream start_stream a_machine)
    as (c' & s' & E & A & _).
  - done.
  - done.
  - intros b. apply app_nil_r.
  - done.
  - vm_compute. discriminate.
  - vm_compute. discriminate.
  - vm_compute. discriminate.
  - vm_compute. discriminate.
  - intros m. reflexivity.
  - reflexivity.
  - discriminate.
  - vm_compute. reflexivity.
  - vm_compute. reflexivity.
  - exists c', s'. split; [exact E|exact A].
Defined.

(** What the rendezvous server and the peer signed, and nothing else. *)
Definition signed_texts (vk : bytes) : bytes :=
  write_id (Protobuf := protobuf_fields)
    (mkIdPk "peer" (if decide (vk = rs_vk) then snd peer_pair else pk_of (PublicBox := box_open_all) peer_box)).
Definition known_texts : Signature := sign_prefix (fun vk t => bool_decide (t = signed_texts vk)).
Definition peer_hello : bytes :=
  write_message (Protobuf := protobuf_fields)
    (hello (H0 := box_open_all) (H1 := known_texts) (H2 := protobuf_fields) peer_pair "peer" peer_box).

Lemma secured_to_peer_witness :
  exists wire c',
    secure_connection (H := box_plain) (H0 := box_open_all) (H1 := known_texts) (H2 := protobuf_fields)
      (H3 := base64_hex) (fun _ => tt) "peer" attestation (b64_encode (Base64 := base64_hex) rs_vk)
      peer_box a_key true (Frame peer_hello) start_stream = (Ok (Some (snd peer_pair), wire), c') /\
    exists sk, sk = peer_box /\
      encrypt_decode (H := box_open_all)
        (box_seal (PublicBox := box_open_all) a_key box_nonce (pk_of (PublicBox := box_open_all) sk) peer_box)
        (pk_of (PublicBox := box_open_all) peer_box) sk = Ok a_key.
Proof.
  eexists _, _. split; [vm_compute; reflexivity|].
  destruct (secured_to_peer (H := box_plain) (H0 := box_open_all) (H1 := known_texts) (H2 := protobuf_fields)
    (H3 := base64_hex) (fun _ => tt) (fun vk t => t = signed_texts vk) (fun sk => sk = peer_box)
    "peer" (snd peer_pair) rs_vk attestation (b64_encode (Base64 := base64_hex) rs_vk) peer_box a_key true
    (Frame peer_hello) start_stream
    (fst (default (None, []) (ok_opt (fst
       (secure_connection (H := box_plain) (H0 := box_open_all) (H1 := known_texts) (H2 := protobuf_fields)
         (H3 := base64_hex) (fun _ => tt) "peer" attestation (b64_encode (Base64 := base64_hex) rs_vk)
         peer_box a_key true (Frame peer_hello) start_stream)))))
    (snd (default (None, []) (ok_opt (fst
       (secure_connection (H := box_plain) (H0 := box_open_all) (H1 := known_texts) (H2 := protobuf_fields)
         (H3 := base64_hex) (fun _ => tt) "peer" attestation (b64_encode (Base64 := base64_hex) rs_vk)
         peer_box a_key true (Frame peer_hello) start_stream)))))
    (set_key tt start_stream)) as (_ & sk & -> & _ & D & _).
  - intros s vk m. cbn. destruct (bool_decide _); [|done]. case_bool_decide; [|done]. by intros [= <-].
  - intros m p ->. vm_compute. by intros [= <-].
  - intros m p ->. vm_compute. intros [= <-]. by exists peer_box.
  - vm_compute. reflexivity.
  - done.
  - done.
  - vm_compute. reflexivity.
  - reflexivity.
  - exists peer_box. split; [done|exact D].
Defined.
