(* ===== verification/Regex.v ===== *)
(** * Regular expressions

    What the anchored patterns of the source mean ([regex::Regex] with [^] and [$]),
    as languages of byte strings, and a matcher by derivatives that is proved to
    decide them. *)

From Stdlib Require Import Ascii.
From stdpp Require Import strings.
From S2P Require Import Prelude.

Inductive re : Type :=
| Void
| Eps
| Cls (f : ascii -> bool)
| Cat (a b : re)
| Alt (a b : re)
| Star (a : re).

(** The strings an expression matches as a whole. *)
Inductive in_re : re -> list ascii -> Prop :=
| in_eps : in_re Eps []
| in_cls f c : f c = true -> in_re (Cls f) [c]
| in_cat a b s t : in_re a s -> in_re b t -> in_re (Cat a b) (s ++ t)
| in_alt_l a b s : in_re a s -> in_re (Alt a b) s
| in_alt_r a b s : in_re b s -> in_re (Alt a b) s
| in_star_nil a : in_re (Star a) []
| in_star_cons a s t : in_re a s -> in_re (Star a) t -> in_re (Star a) (s ++ t).

Fixpoint nullable (r : re) : bool :=
  match r with
  | Void | Cls _ => false
  | Eps | Star _ => true
  | Cat a b => nullable a && nullable b
  | Alt a b => nullable a || nullable b
  end.

(** Sums and products that drop what cannot match. *)
Definition alt (a b : re) : re := match a, b with Void, r | r, Void => r | _, _ => Alt a b end.
Definition cat (a b : re) : re := match a, b with Void, _ | _, Void => Void | Eps, r => r | _, _ => Cat a b end.

Fixpoint deriv (c : ascii) (r : re) : re :=
  match r with
  | Void | Eps => Void
  | Cls f => if f c then Eps else Void
  | Cat a b => let d := cat (deriv c a) b in if nullable a then alt d (deriv c b) else d
  | Alt a b => alt (deriv c a) (deriv c b)
  | Star a => cat (deriv c a) (Star a)
  end.

Definition matches_list (r : re) (s : list ascii) : bool := nullable (foldl (fun r c => deriv c r) r s).
Definition matches (r : re) (s : string) : bool := matches_list r (String.list_ascii_of_string s).

(** [a{n}], [a{n,m}], [a?], [a+], one character, a set of characters. *)
Definition rep (n : nat) (a : re) : re := Nat.iter n (Cat a) Eps.
Definition opt (a : re) : re := Alt Eps a.
Definition upto (n : nat) (a : re) : re := Nat.iter n (fun r => opt (Cat a r)) Eps.
Definition between (n m : nat) (a : re) : re := Cat (rep n a) (upto (m - n) a).
Definition plus (a : re) : re := Cat a (Star a).
Definition chr (c : ascii) : re := Cls (fun x => bool_decide (x = c)).
Definition range (lo hi : ascii) : ascii -> bool :=
  fun c => (N.leb (N_of_ascii lo) (N_of_ascii c)) && (N.leb (N_of_ascii c) (N_of_ascii hi)).

(** ** The matcher decides the language *)

Lemma in_alt a b s : in_re (Alt a b) s <-> in_re a s \/ in_re b s.
Proof. split; [inversion 1; auto|]. intros [?|?]; by constructor. Qed.

Lemma in_cat_inv a b s : in_re (Cat a b) s <-> exists x y, s = x ++ y /\ in_re a x /\ in_re b y.
Proof. split; [inversion 1; eauto|]. intros (x & y & -> & ? & ?). by constructor. Qed.

Lemma in_void s : ~ in_re Void s.
Proof. inversion 1. Qed.

Lemma in_eps_inv s : in_re Eps s <-> s = [].
Proof. split; [by inversion 1|]. intros ->. constructor. Qed.

Lemma in_cls_inv f s : in_re (Cls f) s <-> exists c, s = [c] /\ f c = true.
Proof. split; [inversion 1; eauto|]. intros (c & -> & ?). by constructor. Qed.

Lemma alt_spec a b s : in_re (alt a b) s <-> in_re a s \/ in_re b s.
Proof.
  assert (forall s, in_re Void s <-> False) as V by (intros t; split; [apply in_void|done]).
  unfold alt. destruct a, b; rewrite ?V, ?in_alt; tauto.
Qed.

Lemma cat_spec a b s : in_re (cat a b) s <-> in_re (Cat a b) s.
Proof.
  assert (forall c t, ~ in_re (Cat Void c) t) as V1
    by (intros c t (x & y & _ & I & _)%in_cat_inv; by apply in_void in I).
  assert (forall c t, ~ in_re (Cat c Void) t) as V2
    by (intros c t (x & y & _ & _ & I)%in_cat_inv; by apply in_void in I).
  assert (forall c t, in_re (Cat Eps c) t <-> in_re c t) as E.
  { intros c t. rewrite in_cat_inv. split.
    - by intros (x & y & -> & ->%in_eps_inv & ?).
    - intros I. exists [], t. split_and!; [done|constructor|done]. }
  pose proof in_void as V.
  destruct a, b; cbn [cat]; try tauto; try rewrite E; try tauto; split; intros I;
    solve [by apply V in I | by apply V1 in I | by apply V2 in I | tauto].
Qed.

Lemma nullable_spec r : nullable r = true <-> in_re r [].
Proof.
  induction r as [| |f|a IHa b IHb|a IHa b IHb|a IHa]; cbn.
  - split; [done|]. intros I. by apply in_void in I.
  - split; [constructor|done].
  - split; [done|]. by intros (c & ? & _)%in_cls_inv.
  - rewrite andb_true_iff, IHa, IHb, in_cat_inv. split.
    + intros [? ?]. by exists [], [].
    + intros (x & y & E & ? & ?). symmetry in E. by apply app_eq_nil in E as [-> ->].
  - by rewrite orb_true_iff, IHa, IHb, in_alt.
  - split; [constructor|done].
Qed.

(** A nonempty string of a star starts with a nonempty string of its body. *)
Lemma in_star_cons_inv a c s :
  in_re (Star a) (c :: s) -> exists x y, s = x ++ y /\ in_re a (c :: x) /\ in_re (Star a) y.
Proof.
  intros I. remember (Star a) as r eqn:R. remember (c :: s) as t eqn:T.
  revert c s T.
  induction I as [| | | | | |b x y I1 _ I2 IH]; intros h z T; try done.
  injection R as ->. destruct x as [|c0 x]; [by apply IH|].
  injection T as -> <-. by exists x, y.
Qed.

Lemma deriv_spec c r s : in_re (deriv c r) s <-> in_re r (c :: s).
Proof.
  revert s. induction r as [| |f|a IHa b IHb|a IHa b IHb|a IHa]; intros s; cbn [deriv].
  - split; intros I; by apply in_void in I.
  - split; intros I; [by apply in_void in I|by apply in_eps_inv in I].
  - rewrite in_cls_inv. destruct (f c) eqn:F.
    + rewrite in_eps_inv. split; [intros ->; by eauto|]. by intros (c' & [= <- ->] & _).
    + split; [intros I; by apply in_void in I|]. intros (c' & [= <- ->] & ?). congruence.
  - assert (in_re (cat (deriv c a) b) s <-> exists x y, s = x ++ y /\ in_re a (c :: x) /\ in_re b y) as C.
    { rewrite cat_spec, in_cat_inv. by setoid_rewrite IHa. }
    assert (in_re (Cat a b) (c :: s) <->
            (exists x y, s = x ++ y /\ in_re a (c :: x) /\ in_re b y) \/ in_re a [] /\ in_re b (c :: s)) as D.
    { rewrite in_cat_inv. split.
      - intros (x & y & E & ? & ?). destruct x as [|c' x]; cbn in E.
        + right. by subst y.
        + injection E as <- ->. left. by exists x, y.
      - intros [(x & y & -> & ? & ?)|[? ?]]; [by exists (c :: x), y|by exists [], (c :: s)]. }
    rewrite D, <- C, <- nullable_spec, <- IHb. destruct (nullable a); [rewrite alt_spec; intuition|].
    split; [by left|]. by intros [?|[? _]].
  - rewrite alt_spec, in_alt. by rewrite IHa, IHb.
  - rewrite cat_spec, in_cat_inv. setoid_rewrite IHa. split.
    + intros (x & y & -> & ? & ?). by apply (in_star_cons a (c :: x) y).
    + intros I. apply in_star_cons_inv in I as (x & y & ? & ? & ?). eauto.
Qed.

Lemma matches_list_spec r s : matches_list r s = true <-> in_re r s.
Proof.
  unfold matches_list. revert r. induction s as [|c s IH]; intros r; cbn [foldl].
  - apply nullable_spec.
  - rewrite IH. apply deriv_spec.
Qed.

Lemma matches_spec r s : matches r s = true <-> in_re r (String.list_ascii_of_string s).
Proof. apply matches_list_spec. Qed.

(** All characters of a match satisfy what every class of the expression does. *)
Fixpoint classes (P : ascii -> Prop) (r : re) : Prop :=
  match r with
  | Void | Eps => True
  | Cls f => forall c, f c = true -> P c
  | Cat a b | Alt a b => classes P a /\ classes P b
  | Star a => classes P a
  end.

Lemma in_classes P r s : classes P r -> in_re r s -> Forall P s.
Proof.
  intros C I. induction I; cbn in C; try done.
  - constructor; auto.
  - apply Forall_app_2; [apply IHI1|apply IHI2]; apply C.
  - apply IHI, C.
  - apply IHI, C.
  - apply Forall_app_2; auto.
Qed.

Lemma in_upto n a s k : (forall t, in_re a t -> length t = k) -> in_re (upto n a) s -> (length s <= n * k)%nat.
Proof.
  intros L. revert s. induction n as [|n IH]; intros s I.
  - apply in_eps_inv in I as ->. done.
  - unfold upto in I. cbn in I. fold (upto n a) in I. apply in_alt in I as [->%in_eps_inv|I]; [cbn; lia|].
    apply in_cat_inv in I as (x & y & -> & X & Y). rewrite length_app, (L x X). apply IH in Y. lia.
Qed.

Lemma in_rep n a s k : (forall t, in_re a t -> length t = k) -> in_re (rep n a) s -> length s = (n * k)%nat.
Proof.
  intros L. revert s. induction n as [|n IH]; intros s I.
  - apply in_eps_inv in I as ->. done.
  - unfold rep in I. cbn in I. fold (rep n a) in I.
    apply in_cat_inv in I as (x & y & -> & X & Y). rewrite length_app, (L x X). apply IH in Y. lia.
Qed.

Lemma in_between n m f s :
  (n <= m)%nat -> in_re (between n m (Cls f)) s -> (n <= length s <= m)%nat.
Proof.
  intros L I. apply in_cat_inv in I as (x & y & -> & X & Y).
  assert (forall t, in_re (Cls f) t -> length t = 1%nat) as O by (by intros t (c & -> & _)%in_cls_inv).
  apply (in_rep _ _ _ 1) in X; [|done]. apply (in_upto _ _ _ 1) in Y; [|done]. rewrite length_app. lia.
Qed.
