(* ===== verification/Hosts.v ===== *)
(** * Hosts and ports

    The functions of [libs/hbb_common/src/lib.rs] that tell addresses from names, those
    of [libs/hbb_common/src/socket_client.rs] that put a port on a host, change it and
    take it off, [check_ws] of [libs/hbb_common/src/websocket.rs], and
    [get_host_prefix] of [src/rendezvous_mediator.rs].

    Strings are UTF-8.  The digits of [\d] that are not ASCII are an argument: an
    expression that matches no ASCII character. *)

From Stdlib Require Import Ascii.
From stdpp Require Import pretty.
From S2P Require Import Prelude Utf8 Config ConnState PeerConfig Regex.
#[local] Open Scope Z_scope.

Section hosts.
Context (other_digit : re).

Definition digit : re := Alt (Cls (range "0" "9")) other_digit.

(** [25[0-5]|2[0-4][0-9]|[01]?[0-9][0-9]?] *)
Definition octet : re :=
  let d := Cls (range "0" "9") in
  Alt (Cat (chr "2") (Cat (chr "5") (Cls (range "0" "5"))))
    (Alt (Cat (chr "2") (Cat (Cls (range "0" "4")) d))
         (Cat (opt (Cls (range "0" "1"))) (Cat d (opt d)))).

Definition dot : re := chr ".".
Definition colon : re := chr ":".

Definition ipv4_re : re :=
  Cat octet (Cat dot (Cat octet (Cat dot (Cat octet (Cat dot (Cat octet (opt (Cat colon (plus digit))))))))).

Definition hex (c : ascii) : bool := range "a" "f" c || range "A" "F" c || range "0" "9" c.
Definition groups : re := Cat (plus (Cat (between 1 4 (Cls hex)) (between 1 2 colon))) (between 1 4 (Cls hex)).
Definition ipv6_re : re :=
  Alt groups (Cat (chr "[") (Cat groups (Cat (chr "]") (Cat colon (plus digit))))).

(** Without case, [s] and [k] also match the long s and the sign of Kelvin. *)
Definition long_s : re := Cat (chr (ascii_of_N 197)) (chr (ascii_of_N 191)).
Definition kelvin : re := Cat (chr (ascii_of_N 226)) (Cat (chr (ascii_of_N 132)) (chr (ascii_of_N 170))).
Definition letter (c : ascii) : bool := range "a" "z" c || range "A" "Z" c.
Definition folded (f : ascii -> bool) : re := Alt (Cls f) (Alt long_s kelvin).

Definition domain_port_re : re :=
  let alnum := folded (fun c => letter c || range "0" "9" c) in
  let alnum_ := folded (fun c => letter c || range "0" "9" c || bool_decide (c = "-"%char)) in
  let alpha := folded letter in
  let alpha_ := folded (fun c => letter c || bool_decide (c = "-"%char)) in
  Cat (plus (Cat alnum (Cat (opt (Cat (upto 61 alnum_) alnum)) dot)))
    (Cat alpha (Cat (upto 61 alpha_) (Cat alpha (Cat colon (between 1 5 digit))))).

(* src/libs/hbb_common/src/lib.rs:326-335 is_ipv4_str *)
Definition is_ipv4_str (id : string) : bool := matches ipv4_re id.

(* src/libs/hbb_common/src/lib.rs:337-346 is_ipv6_str *)
Definition is_ipv6_str (id : string) : bool := matches ipv6_re id.

(* src/libs/hbb_common/src/lib.rs:348-351 is_ip_str *)
Definition is_ip_str (id : string) : bool := is_ipv4_str id || is_ipv6_str id.

(* src/libs/hbb_common/src/lib.rs:353-366 is_domain_port_str *)
Definition is_domain_port_str (id : string) : bool := matches domain_port_re id.

(** ** Ports *)

Definition bracketed (s : string) : bool := match s with String "[" _ => true | _ => false end.

(** [split("]:")]. *)
Fixpoint split_bracket (cur s : string) : list string :=
  match s with
  | String "]" (String ":" s) => cur :: split_bracket "" s
  | String c s => split_bracket (cur +:+ String c "") s
  | EmptyString => [cur]
  end.

(* src/libs/hbb_common/src/socket_client.rs:15-29 check_port *)
Definition check_port (host : string) (port : Z) : string :=
  if is_ipv6_str host then
    if bracketed host then host else "[" +:+ host +:+ "]:" +:+ pretty port
  else if negb (contains ":" host) then host +:+ ":" +:+ pretty port
  else host.

(* src/libs/hbb_common/src/socket_client.rs:31-54 increase_port *)
Definition increase_port (host : string) (offset : Z) : string :=
  let on_parts sep l :=
    match l with
    | [h; p] =>
        let port := default 0 (parse_i32 p) in
        if 0 <? port then h +:+ sep +:+ pretty (i32 (port + offset)) else host
    | _ => host
    end in
  if is_ipv6_str host then
    if bracketed host then on_parts "]:"%string (split_bracket "" host) else host
  else if contains ":" host then on_parts ":"%string (split_char ":" "" host)
  else host.

(* src/libs/hbb_common/src/socket_client.rs:56-79 split_host_port *)
Definition split_host_port (host : string) : option (string * Z) :=
  let on_parts suffix l :=
    match l with
    | [h; p] =>
        let port := default 0 (parse_i32 p) in
        if 0 <? port then Some (h +:+ suffix, port) else None
    | _ => None
    end in
  if is_ipv6_str host then
    if bracketed host then on_parts "]"%string (split_bracket "" host) else None
  else if contains ":" host then on_parts ""%string (split_char ":" "" host)
  else None.

(** [addr.replace(ip, new)], for an [ip] that is not empty. *)
Fixpoint replace_in (fuel : nat) (ip new s : string) : string :=
  match fuel, s with
  | O, _ | _, EmptyString => s
  | S fuel, String c s' =>
      if String.prefix ip s
      then new +:+ replace_in fuel ip new (String.substring (String.length ip) (String.length s - String.length ip) s)
      else String c (replace_in fuel ip new s')
  end.

(* src/libs/hbb_common/src/socket_client.rs:196-204 ipv4_to_ipv6 *)
Definition ipv4_to_ipv6 (addr : string) (ipv4 : bool) : string :=
  if negb ipv4 && is_ipv4_str addr then
    match split_char ":" "" addr with
    | ip :: _ => replace_in (String.length addr) ip (ip +:+ ".nip.io") addr
    | [] => addr
    end
  else addr.

(* src/src/rendezvous_mediator.rs:143-154 RendezvousMediator::get_host_prefix *)
Definition get_host_prefix (host : string) : string :=
  match split_char "." "" host with
  | x :: _ => if decide (is_Some (parse_i32 x)) then host else x
  | [] => host
  end.

(** ** Web sockets *)

Definition RENDEZVOUS_PORT : Z := 21116.
Definition RELAY_PORT : Z := 21117.

(* src/libs/hbb_common/src/websocket.rs:316-318 is_ws_endpoint *)
Definition is_ws_endpoint (endpoint : string) : bool :=
  String.prefix "ws://" endpoint || String.prefix "wss://" endpoint.

(** The settings it reads are arguments; the assertion is of debugging builds. *)
(* src/libs/hbb_common/src/websocket.rs:330-397 check_ws *)
Definition check_ws (use_ws : bool) (rendezvous_server relay_server api_server endpoint : string) : string :=
  if negb use_ws || bool_decide (endpoint = ""%string) || is_ws_endpoint endpoint then endpoint
  else
    match split_host_port endpoint with
    | None => endpoint
    | Some (host, port) =>
        let rendezvous_port := from_option snd RENDEZVOUS_PORT (split_host_port rendezvous_server) in
        let relay_port := from_option snd RELAY_PORT (split_host_port relay_server) in
        let '(relay, dst_port) :=
          if port =? rendezvous_port then (false, i32 (port + 2))
          else if port =? i32 (rendezvous_port - 1) then (false, i32 (port + 3))
          else if (port =? relay_port) || (port =? i32 (rendezvous_port + 1)) then (true, i32 (port + 2))
          else (true, i32 (port + 2)) in
        if is_ip_str endpoint then "ws://" +:+ host +:+ ":" +:+ pretty dst_port
        else (if String.prefix "https" api_server then "wss" else "ws") +:+ "://" +:+ host +:+
             (if relay then "/ws/relay" else "/ws/id")
    end.
End hosts.

(** ** The examples of the source's tests *)

Definition ascii_only : re := Void.

Example ports_checked :
  List.map (fun '(h, p) => check_port ascii_only h p)
    [("[1:2]:12", 32); ("1:2", 32); ("z1:2", 32); ("1.1.1.1", 32); ("1.1.1.1:32", 32); ("test.com:32", 0)]%string =
  ["[1:2]:12"; "[1:2]:32"; "z1:2"; "1.1.1.1:32"; "1.1.1.1:32"; "test.com:32"]%string.
Proof. vm_compute. reflexivity. Qed.

Example ports_increased :
  List.map (fun '(h, p) => increase_port ascii_only h p)
    [("[1:2]:12", 1); ("1.2.2.4:12", 1); ("1.2.2.4", 1); ("test.com", 1); ("test.com:13", 4); ("1:13", 4);
     ("22:1:13", 4); ("z1:2", 1)]%string =
  ["[1:2]:13"; "1.2.2.4:13"; "1.2.2.4"; "test.com"; "test.com:17"; "1:13"; "22:1:13"; "z1:3"]%string.
Proof. vm_compute. reflexivity. Qed.

Example addresses_told :
  List.forallb (is_ipv4_str ascii_only) ["1.2.3.4"; "1.2.3.4:90"; "0.0.0.0"; "255.255.255.255"]%string &&
  negb (List.existsb (is_ipv4_str ascii_only) ["256.0.0.0"; "1:2:"; "192.168.0.256"; "192.168.0.1/24"; "192.168.0."; "192.168..1"]%string) &&
  List.forallb (is_ipv6_str ascii_only) ["[ab:2:3]:12"; "[ABEF:2a:3]:12"; "1:2::0"; "[1:2::0]:1"]%string &&
  negb (List.existsb (is_ipv6_str ascii_only) ["[ABEG:2a:3]:12"; "1[ab:2:3]:12"; "1.1.1.1"; "1:2:"; "[1:2::0]:"; "1:2::0]:1"]%string) &&
  List.forallb (is_domain_port_str ascii_only) ["test.com:12"; "test-UPPER.com:12"; "some-other.domain.com:12"; "test.com:98989"]%string &&
  negb (List.existsb (is_domain_port_str ascii_only) ["a:12"; "a.b.c:12"; "under_score:12"; "1.1.1.1:12"; "a.b.c:123456"; "---:12"; ".:12"]%string) = true.
Proof. vm_compute. reflexivity. Qed.

Example nat64 :
  ipv4_to_ipv6 ascii_only "1.1.1.1:8080" false = "1.1.1.1.nip.io:8080"%string /\
  ipv4_to_ipv6 ascii_only "onedesk.co.kr" false = "onedesk.co.kr"%string.
Proof. vm_compute. by split. Qed.

Example web_sockets :
  List.map (check_ws ascii_only true "" "" "")
    ["127.0.0.1:21115"; "127.0.0.1:21116"; "127.0.0.1:21117"; "onedesk.co.kr:21115"; "onedesk.co.kr:21116";
     "onedesk.co.kr:21117"]%string =
  ["ws://127.0.0.1:21118"; "ws://127.0.0.1:21118"; "ws://127.0.0.1:21119"; "ws://onedesk.co.kr/ws/id";
   "ws://onedesk.co.kr/ws/id"; "ws://onedesk.co.kr/ws/relay"]%string.
Proof. vm_compute. reflexivity. Qed.

(** ** Numbers written in decimal *)

Abbreviation chars := String.list_ascii_of_string.

Lemma chars_app a b : chars (a +:+ b) = chars a ++ chars b.
Proof. unfold String.append. induction a as [|c a IH]; [done|]. cbn. by rewrite IH. Qed.

Lemma chars_inj a b : chars a = chars b -> a = b.
Proof.
  intros E. rewrite <- (String.string_of_list_ascii_of_string a), <- (String.string_of_list_ascii_of_string b).
  by rewrite E.
Qed.

Definition is_digit (c : ascii) : Prop := exists d, 0 <= d < 10 /\ digit_of c = Some d.

Lemma pretty_char_digit n : (n < 10)%N -> digit_of (pretty_N_char n) = Some (Z.of_N n).
Proof.
  intros L. assert (Forall (fun d => digit_of (pretty_N_char (N.of_nat d)) = Some (Z.of_nat d)) (seq 0 10)) as D
    by by repeat constructor.
  rewrite Forall_forall in D. specialize (D (N.to_nat n)). rewrite N2Nat.id, N_nat_Z in D.
  apply D, elem_of_seq. lia.
Qed.

(** Reading the digits of [x] and going on is going on with [x]. *)
Lemma parse_pretty_go x s :
  in_i 64 (Z.of_N x) -> parse_digits 1 0 (pretty_N_go x s) = parse_digits 1 (Z.of_N x) s.
Proof.
  revert s. induction (N.lt_wf_0 x) as [x _ IH]; intros s R.
  destruct (decide (x = 0)%N) as [->|N]; [done|].
  rewrite pretty_N_go_step by lia. rewrite IH; [|apply N.div_lt; lia|unfold in_i in *; rewrite N2Z.inj_div; zdm].
  cbn [parse_digits]. rewrite pretty_char_digit by (apply N.mod_lt; lia). cbn [mbind option_bind].
  rewrite N2Z.inj_div, N2Z.inj_mod. replace (Z.of_N x / Z.of_N 10 * 10 + 1 * (Z.of_N x mod Z.of_N 10)) with (Z.of_N x) by zdm.
  by rewrite decide_True.
Qed.

Lemma pretty_go_chars x s (P : ascii -> Prop) :
  (forall c, is_digit c -> P c) -> Forall P (chars s) -> Forall P (chars (pretty_N_go x s)).
Proof.
  intros D. revert s. induction (N.lt_wf_0 x) as [x _ IH]; intros s F.
  destruct (decide (x = 0)%N) as [->|N]; [done|].
  rewrite pretty_N_go_step by lia. apply IH; [apply N.div_lt; lia|]. constructor; [|done].
  apply D. exists (Z.of_N (x mod 10)). split; [|apply pretty_char_digit, N.mod_lt; lia].
  rewrite N2Z.inj_mod. zdm.
Qed.

Lemma pretty_go_length k x s :
  (10 ^ N.of_nat k <= x)%N -> (length (chars s) + S k <= length (chars (pretty_N_go x s)))%nat.
Proof.
  assert (forall y t, (length (chars t) <= length (chars (pretty_N_go y t)))%nat) as M.
  { intros y. induction (N.lt_wf_0 y) as [y _ IH]; intros t.
    destruct (decide (y = 0)%N) as [->|N]; [done|]. rewrite pretty_N_go_step by lia.
    etrans; [|apply IH, N.div_lt; lia]. cbn. lia. }
  revert x s. induction k as [|k IH]; intros x s L.
  - change (10 ^ N.of_nat 0)%N with 1%N in L. rewrite pretty_N_go_step by lia. etrans; [|apply M]. cbn. lia.
  - assert (10 * 10 ^ N.of_nat k <= x)%N as L' by (by rewrite Nat2N.inj_succ, N.pow_succ_r' in L).
    rewrite pretty_N_go_step by (pose proof (N.pow_nonzero 10 (N.of_nat k)); lia).
    etrans; [|apply IH, N.div_le_lower_bound; lia]. cbn. lia.
Qed.

Lemma pretty_go_pos p : 0 < p -> pretty p = pretty_N_go (Z.to_N p) "".
Proof.
  intros L. destruct p as [|p|p]; [done|reflexivity|lia].
Qed.

Lemma pretty_digits p : 0 < p -> Forall is_digit (chars (pretty p)).
Proof. intros L. rewrite pretty_go_pos by done. by apply pretty_go_chars. Qed.

Lemma is_digit_not (c d : ascii) : is_digit c -> digit_of d = None -> c <> d.
Proof. intros (n & _ & E) N ->. by rewrite N in E. Qed.

Lemma pretty_without p (c : ascii) : 0 < p -> digit_of c = None -> c ∉ chars (pretty p).
Proof.
  intros L N I. pose proof (pretty_digits p L) as F. rewrite Forall_forall in F.
  by apply (is_digit_not c c (F c I) N).
Qed.

Lemma parse_pretty p : 0 < p < 2 ^ 31 -> parse_i32 (pretty p) = Some p.
Proof.
  intros L. unfold parse_i32, parse_i64.
  assert (parse_digits 1 0 (pretty p) = Some p) as E.
  { rewrite pretty_go_pos by lia. rewrite parse_pretty_go by (unfold in_i; lia). cbn. f_equal. lia. }
  pose proof (pretty_digits p ltac:(lia)) as F.
  assert (pretty p <> ""%string) as NE
    by (intros Q; pose proof (pretty_go_length 0 (Z.to_N p) "" ltac:(cbn; lia)) as X;
        rewrite <- pretty_go_pos, Q in X by lia; cbn in X; lia).
  destruct (pretty p) as [|c t]; [done|]. cbn in F.
  assert (c <> "-"%char /\ c <> "+"%char) as [N1 N2]
    by (inversion F; subst; split; apply is_digit_not; done).
  replace (match String c t with
           | "" | String "-" "" | String "+" "" => None
           | String "-" s => parse_digits (-1) 0 s
           | String "+" s => parse_digits 1 0 s
           | _ => parse_digits 1 0 (String c t) end)%string with (parse_digits 1 0 (String c t)).
  - rewrite E. cbn. rewrite decide_True; [done|]. unfold in_i. lia.
  - destruct c as [[] [] [] [] [] [] [] []]; done.
Qed.

Lemma pretty_length_pos p : 0 < p -> (1 <= length (chars (pretty p)))%nat.
Proof.
  intros L. rewrite pretty_go_pos by lia. etrans; [|apply (pretty_go_length 0)]; cbn; lia.
Qed.

Lemma append_nil s : (s +:+ "")%string = s.
Proof. apply chars_inj. by rewrite chars_app, app_nil_r. Qed.

Lemma pretty_length p : 10000 <= p -> (5 <= length (chars (pretty p)))%nat.
Proof.
  intros L. rewrite pretty_go_pos by lia. etrans; [|apply (pretty_go_length 4)]; cbn; lia.
Qed.

(** ** Splitting *)

Lemma contains_spec c s : contains c s = bool_decide (c ∈ chars s).
Proof. done. Qed.

Lemma contains_app c a b : contains c (a +:+ b) = contains c a || contains c b.
Proof. rewrite !contains_spec, chars_app. apply eq_bool_prop_intro. rewrite orb_True, !bool_decide_spec. set_solver. Qed.

Lemma split_char_none c cur s : contains c s = false -> split_char c cur s = [cur +:+ s].
Proof.
  rewrite contains_spec, bool_decide_eq_false. revert cur. induction s as [|x s IH]; intros cur N; cbn.
  - f_equal. apply chars_inj. by rewrite chars_app, app_nil_r.
  - cbn in N. rewrite decide_False by set_solver. rewrite IH by set_solver.
    f_equal. apply chars_inj. by rewrite !chars_app, <- app_assoc.
Qed.

Lemma split_char_one c cur a b :
  contains c a = false -> contains c b = false ->
  split_char c cur (a +:+ String c b) = [cur +:+ a; b].
Proof.
  rewrite (contains_spec c a), bool_decide_eq_false. intros N B. unfold String.append.
  revert cur. induction a as [|x a IH]; intros cur; cbn.
  - rewrite decide_True by done. rewrite split_char_none by done.
    f_equal. apply chars_inj. by rewrite chars_app, app_nil_r.
  - cbn in N. rewrite decide_False by set_solver. rewrite IH by set_solver.
    f_equal. apply chars_inj. by rewrite !chars_app, <- app_assoc.
Qed.

Lemma split_bracket_step cur x s :
  x <> "]"%char -> split_bracket cur (String x s) = split_bracket (cur +:+ String x "") s.
Proof. intros N. by destruct x as [[] [] [] [] [] [] [] []]. Qed.

Lemma split_bracket_none cur s : "]"%char ∉ chars s -> split_bracket cur s = [cur +:+ s].
Proof.
  revert cur. induction s as [|x s IH]; intros cur N.
  - cbn. f_equal. apply chars_inj. by rewrite chars_app, app_nil_r.
  - cbn in N. rewrite split_bracket_step by set_solver. rewrite IH by set_solver.
    f_equal. apply chars_inj. by rewrite !chars_app, <- app_assoc.
Qed.

Lemma split_bracket_one cur a b :
  "]"%char ∉ chars a -> "]"%char ∉ chars b -> split_bracket cur (a +:+ "]:" +:+ b) = [cur +:+ a; b].
Proof.
  intros N B. revert cur. induction a as [|x a IH]; intros cur.
  - change (("" +:+ "]:" +:+ b)%string) with ("]:" +:+ b)%string.
    change (split_bracket cur ("]:" +:+ b)) with (cur :: split_bracket "" b).
    rewrite split_bracket_none by done. f_equal. apply chars_inj. by rewrite chars_app, app_nil_r.
  - cbn in N. change ((String x a +:+ "]:" +:+ b)%string) with (String x (a +:+ "]:" +:+ b)%string).
    rewrite split_bracket_step by set_solver. rewrite IH by set_solver.
    f_equal. apply chars_inj. by rewrite !chars_app, <- app_assoc.
Qed.

(** The last separator of a list is found where the rest has none. *)
Lemma last_separator {A} (c : A) h p x y :
  c ∉ p -> c ∉ y -> h ++ c :: p = x ++ c :: y -> h = x /\ p = y.
Proof.
  intros P Y E. revert x E. induction h as [|a h IH]; intros x E.
  - destruct x as [|b x]; cbn in E; [by injection E as ->|]. injection E as E1 E2. subst. set_solver.
  - destruct x as [|b x]; cbn in E; injection E as E1 E2.
    + subst. set_solver.
    + subst. by destruct (IH x E2) as [-> ->].
Qed.

(** ** The ports of hosts *)

Section laws.
Context (other_digit : re).
Hypothesis other_high : forall s, in_re other_digit s -> Forall (fun c => (128 <= N_of_ascii c)%N) s.

Lemma in_digit s (c : ascii) :
  (N_of_ascii c < 128)%N -> ~ is_digit c -> in_re (plus (digit other_digit)) s -> c ∉ s.
Proof.
  intros L D I M.
  assert (Forall (fun x => x <> c) s) as F.
  { clear M. unfold plus in I. apply in_cat_inv in I as (x & y & -> & X & Y).
    assert (forall t, in_re (digit other_digit) t -> Forall (fun x => x <> c) t) as A.
    { intros t T. unfold digit in T. apply in_alt in T as [T|T].
      - apply in_cls_inv in T as (d & -> & R). constructor; [|done]. intros ->. apply D.
        unfold range in R. apply andb_true_iff in R as [R1 R2]. apply N.leb_le in R1, R2.
        exists (Z.of_N (N_of_ascii c) - 48). unfold digit_of, nat_of_ascii. cbn in R1, R2.
        rewrite N_nat_Z. rewrite (proj2 (Z.leb_le _ _)) by lia. rewrite (proj2 (Z.leb_le _ _)) by lia. split; [lia|done].
      - apply other_high in T. eapply Forall_impl; [exact T|]. cbn. intros d ? ->. lia. }
    apply Forall_app_2; [by apply A|]. clear X x.
    remember (Star (digit other_digit)) as r eqn:R. induction Y as [| | | | | |a t1 t2 I1 _ I2 IH]; try done.
    injection R as ->. apply Forall_app_2; [by apply A|by apply IH]. }
  rewrite Forall_forall in F. by apply (F c M).
Qed.

(** A repetition ends the way its body does. *)
Lemma in_plus_last (a : re) (c : ascii) s :
  (forall t, in_re a t -> exists t', t = t' ++ [c]) -> in_re (plus a) s -> exists s', s = s' ++ [c].
Proof.
  intros L I. unfold plus in I. apply in_cat_inv in I as (x & y & -> & X & Y).
  assert (y = [] \/ exists s', y = s' ++ [c]) as [->|(s' & ->)].
  - clear X x. remember (Star a) as r eqn:R. induction Y as [| | | | | |b t1 t2 I1 _ I2 IH]; try done; [by left|].
    injection R as ->. destruct (IH eq_refl) as [->|(s' & ->)]; right.
    + rewrite app_nil_r. auto.
    + exists (t1 ++ s'). by rewrite app_assoc.
  - rewrite app_nil_r. auto.
  - exists (x ++ s'). by rewrite app_assoc.
Qed.

Lemma hex_neq (d c : ascii) : hex d = true -> hex c = false -> d <> c.
Proof. intros H N ->. by rewrite H in N. Qed.

(** Groups end with at most four hexadecimal digits after a colon, and hold neither
    brackets nor anything else. *)
Lemma in_groups s :
  in_re groups s -> exists x y, s = x ++ ":"%char :: y /\ (length y <= 4)%nat /\ Forall (fun c => hex c = true) y /\
    Forall (fun c => hex c = true \/ c = ":"%char) s.
Proof.
  intros I. assert (classes (fun c => hex c = true \/ c = ":"%char) groups) as C.
  { repeat split; try (intros c F; by left); intros c F; right; by apply bool_decide_eq_true in F. }
  pose proof (in_classes _ _ _ C I) as F. clear C.
  unfold groups in I. apply in_cat_inv in I as (x & y & -> & X & Y).
  apply (in_plus_last _ ":"%char) in X as (x' & ->).
  - exists x', y. rewrite <- app_assoc. split_and!; [done| | |by rewrite <- app_assoc in F].
    + apply in_between in Y; lia.
    + apply (in_classes (fun c => hex c = true)) in Y; [done|]. repeat split; by intros c E.
  - intros t T. apply in_cat_inv in T as (t1 & t2 & -> & _ & T2).
    unfold between in T2. apply in_cat_inv in T2 as (u & v & -> & U & V).
    cbn in U. apply in_cat_inv in U as (u1 & u2 & -> & U1 & ->%in_eps_inv).
    apply in_cls_inv in U1 as (c & -> & ->%bool_decide_eq_true).
    cbn in V. apply in_alt in V as [->%in_eps_inv|V]; [by exists t1; rewrite !app_nil_r|].
    apply in_cat_inv in V as (v1 & v2 & -> & V1 & ->%in_eps_inv).
    apply in_cls_inv in V1 as (c & -> & ->%bool_decide_eq_true).
    exists (t1 ++ [":"%char]). cbn; by rewrite <- app_assoc.
Qed.

(** A host without a colon and a port of five digits are no address. *)
Lemma host_port_no_ipv6 h p :
  contains ":" h = false -> 10000 <= p -> is_ipv6_str other_digit (h +:+ ":" +:+ pretty p) = false.
Proof.
  rewrite contains_spec, bool_decide_eq_false. intros N L. apply not_true_iff_false. intros M.
  apply matches_spec in M. rewrite !chars_app in M. cbn [chars app] in M.
  assert (":"%char ∉ chars (pretty p)) as NP by (apply pretty_without; [lia|done]).
  pose proof (pretty_length p L) as LP. apply in_alt in M as [M|M].
  - apply in_groups in M as (x & y & E & Y & F & _). apply last_separator in E as [_ E]; [rewrite E in LP; lia|done|].
    intros I. rewrite Forall_forall in F. by apply F in I.
  - apply in_cat_inv in M as (b & r & E & _ & M). apply in_cat_inv in M as (g & r2 & -> & G & M).
    apply in_cat_inv in M as (b2 & r3 & -> & _ & M). apply in_cat_inv in M as (k & d & -> & K & D).
    apply in_cls_inv in K as (k' & -> & ->%bool_decide_eq_true). rewrite !app_assoc in E.
    rewrite <- (app_assoc ((b ++ g) ++ b2)) in E. apply last_separator in E as [E _]; [|done|].
    + apply in_groups in G as (x & y & -> & _). rewrite E in N. set_solver.
    + apply (in_digit d ":"%char); [done| |done]. intros (n & _ & [=]).
Qed.

(** An address without brackets is groups of digits; with brackets and a port it is an
    address again. *)
Lemma ipv6_groups h : is_ipv6_str other_digit h = true -> bracketed h = false -> in_re groups (chars h).
Proof.
  intros M B. apply matches_spec in M. apply in_alt in M as [M|M]; [done|].
  apply in_cat_inv in M as (b & r & E & I & _). apply in_cls_inv in I as (c & -> & ->%bool_decide_eq_true).
  destruct h as [|c h]; [done|]. cbn in E. by injection E as -> _.
Qed.

Lemma bracketed_ipv6 h p :
  in_re groups (chars h) -> 0 < p -> is_ipv6_str other_digit ("[" +:+ h +:+ "]:" +:+ pretty p) = true.
Proof.
  intros G L. apply matches_spec. rewrite !chars_app. apply in_alt. right.
  assert (forall c, in_re (chr c) [c]) as K by (intros c; constructor; by apply bool_decide_eq_true).
  apply (in_cat _ _ ["["%char]); [apply K|]. apply in_cat; [done|].
  apply (in_cat _ _ ["]"%char] (":"%char :: _)); [apply K|]. apply (in_cat _ _ [":"%char]); [apply K|].
  pose proof (pretty_digits p L) as F. pose proof (pretty_length_pos p L) as N.
  assert (forall c, is_digit c -> in_re (digit other_digit) [c]) as D.
  { intros c (n & R & E). apply in_alt. left. constructor. unfold digit_of, nat_of_ascii in E.
    rewrite N_nat_Z in E. destruct (_ && _) eqn:Q; [|done]. apply andb_true_iff in Q as [Q1 Q2].
    apply Z.leb_le in Q1, Q2. unfold range. apply andb_true_iff.
    split; apply N.leb_le; cbn; lia. }
  destruct (chars (pretty p)) as [|c l]; [cbn in N; lia|]. inversion F as [|?? F1 F2]. subst.
  apply (in_cat _ _ [c] l); [by apply D|]. clear F F1 N. induction F2 as [|c' l F1 F2 IH]; [constructor|].
  apply (in_star_cons _ [c'] l); [by apply D|done].
Qed.

Lemma groups_without c h : in_re groups (chars h) -> hex c = false -> c <> ":"%char -> c ∉ chars h.
Proof.
  intros G N NE I. apply in_groups in G as (_ & _ & _ & _ & _ & F). rewrite Forall_forall in F.
  destruct (F c I) as [E|E]; congruence.
Qed.

Lemma no_colon_no_ipv6 h : contains ":" h = false -> is_ipv6_str other_digit h = false.
Proof.
  rewrite contains_spec, bool_decide_eq_false. intros N. apply not_true_iff_false. intros M.
  apply matches_spec in M. apply in_alt in M as [M|M].
  - apply in_groups in M as (x & y & E & _). rewrite E in N. set_solver.
  - apply in_cat_inv in M as (b & r & E & _ & M). apply in_cat_inv in M as (g & r2 & -> & G & _).
    apply in_groups in G as (x & y & -> & _). rewrite E in N. set_solver.
Qed.

(** A host without a colon, with a port of five digits put on it. *)
Lemma plain_host h p :
  contains ":" h = false -> 10000 <= p ->
  let s := check_port other_digit h p in
  is_ipv6_str other_digit s = false /\ contains ":" s = true /\ split_char ":" "" s = [h; pretty p].
Proof.
  intros N L. assert (contains ":" (pretty p) = false) as NP
    by (apply bool_decide_eq_false, pretty_without; [lia|done]).
  cbv zeta. unfold check_port. rewrite (no_colon_no_ipv6 h N), N. cbn [negb]. split_and!.
  - by apply host_port_no_ipv6.
  - rewrite contains_app, orb_true_iff. by right.
  - exact (split_char_one ":" "" h (pretty p) N NP).
Qed.

Lemma increase_check_port h p k :
  contains ":" h = false -> 10000 <= p < 2 ^ 31 -> 10000 <= p + k < 2 ^ 31 ->
  increase_port other_digit (check_port other_digit h p) k = check_port other_digit h (p + k).
Proof.
  intros N L R. destruct (plain_host h p N ltac:(lia)) as (E1 & E2 & E3). unfold increase_port.
  rewrite E1, E2, E3, parse_pretty by lia. change (default 0 (Some p)) with p.
  rewrite (proj2 (Z.ltb_lt 0 p)) by lia. unfold check_port. rewrite (no_colon_no_ipv6 h N), N. cbn [negb].
  by rewrite swrap_small by (unfold in_i; lia).
Qed.

(** The port that is put on a host is the one that is taken off again and counted
    on from: for a port of five digits, a name or an IPv4 address (a host
    without a colon) and an IPv6 address without brackets both come back from
    [split_host_port] (the address in brackets) with the port; putting a port
    on a host a second time changes nothing, whatever the host; and increasing
    the port of such a host is putting the increased port on it. *)
Theorem ports_roundtrip h p q k :
  10000 <= p < 2 ^ 31 ->
  let s := check_port other_digit h p in
  (contains ":" h = false -> split_host_port other_digit s = Some (h, p) /\
     (10000 <= p + k < 2 ^ 31 -> increase_port other_digit s k = check_port other_digit h (p + k))) /\
  (is_ipv6_str other_digit h = true -> bracketed h = false ->
     split_host_port other_digit s = Some ("[" +:+ h +:+ "]", p)%string) /\
  check_port other_digit s q = s.
Proof.
  intros L s. split_and!.
  - intros N. destruct (plain_host h p N ltac:(lia)) as (E1 & E2 & E3).
    split; [|intros R; by apply increase_check_port]. unfold split_host_port. fold s in E1, E2, E3.
    rewrite E1, E2, E3, parse_pretty by lia. change (default 0 (Some p)) with p.
    rewrite (proj2 (Z.ltb_lt 0 p)) by lia. by rewrite append_nil.
  - intros I B. unfold s, check_port. rewrite I, B. pose proof (ipv6_groups h I B) as G.
    unfold split_host_port. rewrite bracketed_ipv6 by (done || lia). change (bracketed _) with true.
    change ("[" +:+ h +:+ "]:" +:+ pretty p)%string with (String "[" h +:+ "]:" +:+ pretty p)%string.
    cbn iota. rewrite split_bracket_one, parse_pretty by first [lia|apply pretty_without; [lia|done]|
      cbn; pose proof (groups_without "]" h G eq_refl ltac:(done)); set_solver].
    change (default 0 (Some p)) with p. rewrite (proj2 (Z.ltb_lt 0 p)) by lia. done.
  - destruct (contains ":" h) eqn:N.
    + unfold s, check_port. rewrite N. cbn [negb]. destruct (is_ipv6_str other_digit h) eqn:I.
      * destruct (bracketed h) eqn:B; [by rewrite I, B|].
        by rewrite bracketed_ipv6 by (try apply ipv6_groups; done || lia).
      * by rewrite I, N.
    + destruct (plain_host h p N ltac:(lia)) as (E1 & E2 & _). unfold check_port at 1. fold s in E1, E2.
      by rewrite E1, E2.
Qed.
End laws.

Lemma ports_roundtrip_witness :
  split_host_port ascii_only (check_port ascii_only "onedesk.co.kr" 21116) = Some ("onedesk.co.kr"%string, 21116) /\
  increase_port ascii_only (check_port ascii_only "onedesk.co.kr" 21116) 1 = "onedesk.co.kr:21117"%string.
Proof.
  destruct (ports_roundtrip ascii_only (fun s (I : in_re Void s) => False_ind _ (in_void s I))
    "onedesk.co.kr" 21116 0 1 ltac:(lia)) as (E & _).
  destruct (E eq_refl) as [E1 E2]. split; [exact E1|]. exact (E2 ltac:(lia)).
Defined.
