(* ===== verification/Rendezvous.v ===== *)
(** * Registering with a rendezvous server

    [src/rendezvous_mediator.rs]: the loops that keep the machine registered, over UDP
    and over TCP; what they do with the server's messages; the decisions about
    peers that want to connect (punch a hole, use the local network, use a
    relay); and the listener for direct access.

    Instants are in microseconds.  Sockets, the clock, random numbers and fresh
    identifiers are fields of [Env], one for every event; what a task does once
    it is decided is an [action].  Registering uses the configuration of [Config]. *)

From Stdlib Require Import Ascii.
From stdpp Require Import strings.
From S2P Require Import Prelude Utf8 Secure PasswordStore Options NetAddr Regex Hosts Config.
#[local] Open Scope Z_scope.

(* src/libs/hbb_common/src/config.rs:38-38 REG_INTERVAL *)
Definition REG_INTERVAL : Z := 15000.
(* src/src/common.rs:64-64 DEFAULT_KEEP_ALIVE *)
Definition DEFAULT_KEEP_ALIVE : Z := 60000.

Definition elapsed_ms (now t : Z) : Z := (now - t) / 1000.

(** ** State *)

(* src/src/rendezvous_mediator.rs:43-49 RendezvousMediator *)
Record RendezvousMediator : Type := mkRz {
  rz_ipv4 : bool;   (** [is_ipv4(&self.addr)] *)
  rz_host : string;
  rz_host_prefix : string;
  rz_keep_alive : Z;
}.

(** What the tasks share: the configuration, the cached key pair and the statics. *)
(* src/src/rendezvous_mediator.rs:36-41 SOLVING_PK_MISMATCH *)
Record Shared : Type := mkShared {
  sh_config : World;
  sh_pair : option (bytes * bytes);
  sh_solving : string;
  sh_exit : bool;
  sh_restarted : bool;
  sh_last : SocketAddr * Z;
  sh_last_relay : SocketAddr * Z;
}.

Definition on_config (f : World -> World) (sh : Shared) : Shared :=
  mkShared (f (sh_config sh)) (sh_pair sh) (sh_solving sh) (sh_exit sh) (sh_restarted sh) (sh_last sh)
    (sh_last_relay sh).
Definition set_solving (s : string) (sh : Shared) : Shared :=
  mkShared (sh_config sh) (sh_pair sh) s (sh_exit sh) (sh_restarted sh) (sh_last sh) (sh_last_relay sh).
Definition set_pair (p : option (bytes * bytes)) (sh : Shared) : Shared :=
  mkShared (sh_config sh) p (sh_solving sh) (sh_exit sh) (sh_restarted sh) (sh_last sh) (sh_last_relay sh).
Definition set_last (l : SocketAddr * Z) (sh : Shared) : Shared :=
  mkShared (sh_config sh) (sh_pair sh) (sh_solving sh) (sh_exit sh) (sh_restarted sh) l (sh_last_relay sh).
Definition set_last_relay (l : SocketAddr * Z) (sh : Shared) : Shared :=
  mkShared (sh_config sh) (sh_pair sh) (sh_solving sh) (sh_exit sh) (sh_restarted sh) (sh_last sh) l.

(* src/src/rendezvous_mediator.rs:52-56 RendezvousMediator::restart *)
Definition restart_loops (sh : Shared) : Shared :=
  mkShared (sh_config sh) (sh_pair sh) (sh_solving sh) true true (sh_last sh) (sh_last_relay sh).

Record Env : Type := mkEnv {
  e_now : Z;
  e_auto_id : option string;
  e_new_id : string;
  e_new_pair : bytes * bytes;
  e_machine : option bytes;
  e_public : bool;
  e_iter : gmap string Z -> list (string * Z);
  e_up : bool;
  e_rebind : bool;
}.

(** ** Messages *)

Inductive pk_result : Type := PkOk | PkUuidMismatch | PkOther.

Record PunchHole : Type := mkPunch {
  ph_socket_addr : bytes;
  ph_socket_addr_v6 : bytes;
  ph_relay_server : string;
  ph_nat_type : Z;
  ph_force_relay : bool;
  ph_udp_port : Z;
}.
Record RequestRelay : Type := mkRequest {
  rr_socket_addr : bytes;
  rr_relay_server : string;
  rr_uuid : string;
  rr_secure : bool;
}.
Record FetchLocalAddr : Type := mkFetch {
  fla_socket_addr : bytes;
  fla_socket_addr_v6 : bytes;
  fla_relay_server : string;
}.

Inductive message : Type :=
| RegisterPeerResponse (request_pk : bool)
| RegisterPkResponse (r : pk_result) (keep_alive : Z)
| MPunchHole (ph : PunchHole)
| MRequestRelay (rr : RequestRelay)
| MFetchLocalAddr (fla : FetchLocalAddr)
| ConfigureUpdate (servers : list string) (serial : Z)
| MOther.

(** What a loop sends, and the tasks it starts. *)
Inductive out : Type :=
| RegisterPk (id : string) (uuid pk : bytes) (no_register_device : bool)
| RegisterPeer (id : string) (serial : Z)
| Heartbeat
| Spawn (m : message).

Section rendezvous.
Context {Key : Type} `{SecretBox Key} `{Base64} `{Json} (mk_key : bytes -> Key) (uuid : bytes) (S : Statics)
        (other_digit : re).

(** ** The identity of the machine *)

(** The thread that stores a new pair is taken to run at once. *)
(* src/libs/hbb_common/src/config.rs:951-972 Config::get_key_pair *)
Definition get_key_pair (env : Env) (sh : Shared) : (bytes * bytes) * Shared :=
  match sh_pair sh with
  | Some p => (p, sh)
  | None =>
      let c := file (sh_config sh) in
      if decide (fst (key_pair c) = []) then
        (e_new_pair env,
         set_pair (Some (e_new_pair env))
           (on_config (fun w => let c := config w in
              store mk_key uuid (set_config (mkConfig (id c) (enc_id c) (password c) (salt c) (e_new_pair env)
                (key_confirmed c) (keys_confirmed c)) w)) sh))
      else (key_pair c, set_pair (Some (key_pair c)) sh)
  end.

(* src/libs/hbb_common/src/lib.rs:310-316 get_uuid *)
Definition get_uuid (env : Env) (sh : Shared) : bytes * Shared :=
  match e_machine env with
  | Some i => (i, sh)
  | None => let '(p, sh) := get_key_pair env sh in (snd p, sh)
  end.

(* src/libs/hbb_common/src/config.rs:974-981 Config::no_register_device *)
Definition no_register_device : bool := bool_decide (s_builtin S !! "register-device"%string = Some "N"%string).

(* src/libs/hbb_common/src/config.rs:1059-1066 Config::update_id *)
Definition update_id (env : Env) (w : World) : World :=
  set_id mk_key uuid (e_new_id env) (snd (get_id mk_key uuid (e_auto_id env) w)).

Definition get_id_of (env : Env) (sh : Shared) : string * Shared :=
  let '(i, w) := get_id mk_key uuid (e_auto_id env) (sh_config sh) in (i, on_config (fun _ => w) sh).

(** A result, the state, and what was sent; a send that fails ends the loop. *)
(* src/src/rendezvous_mediator.rs:644-658 RendezvousMediator::register_pk *)
Definition register_pk (env : Env) (sh : Shared) : bool * Shared * list out :=
  let '(p, sh) := get_key_pair env sh in
  let '(u, sh) := get_uuid env sh in
  let '(i, sh) := get_id_of env sh in
  (e_up env, sh, if e_up env then [RegisterPk i u (snd p) no_register_device] else []).

(* src/src/rendezvous_mediator.rs:660-673 RendezvousMediator::handle_uuid_mismatch *)
Definition handle_uuid_mismatch (env : Env) (rz : RendezvousMediator) (sh : Shared) : bool * Shared * list out :=
  if decide (sh_solving sh = ""%string \/ sh_solving sh = rz_host rz) then
    let sh := on_config (fun w => update_id env (set_key_confirmed mk_key uuid false w)) sh in
    register_pk env (set_solving (rz_host rz) sh)
  else (true, sh, []).

(* src/src/rendezvous_mediator.rs:675-703 RendezvousMediator::register_peer *)
Definition register_peer (env : Env) (rz : RendezvousMediator) (sh : Shared) : bool * Shared * list out :=
  if negb (bool_decide (sh_solving sh = ""%string) || bool_decide (sh_solving sh = rz_host rz)) then (true, sh, [])
  else if negb (key_confirmed (config (sh_config sh))) ||
          negb (get_host_key_confirmed (rz_host_prefix rz) (sh_config sh)) then register_pk env sh
  else
    let '(i, sh) := get_id_of env sh in
    (e_up env, sh, if e_up env then [RegisterPeer i (get_serial (sh_config sh))] else []).

(** ** The server's messages

    [latency] is the loop's own reaction to a response. *)
(* src/src/rendezvous_mediator.rs:269-339 RendezvousMediator::handle_resp *)
Definition handle_resp {A : Type} (latency : A * Shared -> A * Shared) (env : Env) (m : message)
    (rz : RendezvousMediator) (a : A) (sh : Shared) : bool * RendezvousMediator * A * Shared * list out :=
  match m with
  | RegisterPeerResponse request_pk =>
      let '(a, sh) := latency (a, sh) in
      if request_pk then let '(ok, sh, o) := register_pk env sh in (ok, rz, a, sh, o) else (true, rz, a, sh, [])
  | RegisterPkResponse r keep_alive =>
      let '(a, sh) := latency (a, sh) in
      let '(ok, sh, o) :=
        match r with
        | PkOk =>
            (true, set_solving "" (on_config (fun w =>
               set_host_key_confirmed mk_key uuid (rz_host_prefix rz) true (set_key_confirmed mk_key uuid true w)) sh), [])
        | PkUuidMismatch => handle_uuid_mismatch env rz sh
        | PkOther => (true, sh, [])
        end in
      if ok then
        (true, mkRz (rz_ipv4 rz) (rz_host rz) (rz_host_prefix rz)
                 (if 0 <? keep_alive then Prelude.i32 (keep_alive * 1000) else rz_keep_alive rz), a, sh, o)
      else (false, rz, a, sh, o)
  | MPunchHole _ | MRequestRelay _ | MFetchLocalAddr _ => (true, rz, a, sh, [Spawn m])
  | ConfigureUpdate servers n =>
      let v0 := get_rendezvous_servers S (sh_config sh) in
      let sh := on_config (fun w =>
        Config.set_serial mk_key uuid n (set_option_of mk_key uuid S "rendezvous-servers" (String.concat "," servers) w)) sh in
      (true, rz, a, if decide (v0 = get_rendezvous_servers S (sh_config sh)) then sh else restart_loops sh, [])
  | MOther => (true, rz, a, sh, [])
  end.

Inductive status : Type := Continue | Exited | Failed.

(** ** The loop over UDP *)

Definition MIN_REG_TIMEOUT : Z := 3000.
Definition MAX_REG_TIMEOUT : Z := 30000.
Definition MAX_FAILS1 : Z := 2.
Definition MAX_FAILS2 : Z := 4.
Definition DNS_INTERVAL : Z := 60000.

Record Udp : Type := mkUdp {
  u_reg_timeout : Z;
  u_fails : Z;
  u_resp : option Z;
  u_sent : option Z;
  u_dns : Z;
  u_old : Z;
  u_ema : Z;
}.

(* src/src/rendezvous_mediator.rs:156-182 RendezvousMediator::start_udp *)
Definition udp_start (env : Env) (host : string) (ipv4 : bool) : RendezvousMediator * Udp :=
  let host := check_port other_digit host RENDEZVOUS_PORT in
  (mkRz ipv4 host (get_host_prefix host) DEFAULT_KEEP_ALIVE,
   mkUdp MIN_REG_TIMEOUT 0 None None (e_now env) 0 0).

(* src/src/rendezvous_mediator.rs:184-211 RendezvousMediator::start_udp *)
Definition udp_latency (env : Env) (host : string) (s : Udp * Shared) : Udp * Shared :=
  let '(u, sh) := s in
  let latency := match u_sent u with Some x => e_now env - x | None => 0 end in
  let stay := mkUdp MIN_REG_TIMEOUT 0 (Some (e_now env)) None (u_dns u) (u_old u) (u_ema u) in
  if (latency <? 0) || (1000000 <? latency) then (stay, sh)
  else
    let ema := if u_ema u =? 0 then latency
               else i64 (Z.quot latency 30 + Z.quot (i64 (u_ema u * 29)) 30) in
    let latency := if u_ema u =? 0 then latency else ema in
    let n := Z.max 3000 (Z.quot latency 5) in
    if (n <? Z.abs (i64 (latency - u_old u))) || (u_old u <=? 0) then
      (mkUdp MIN_REG_TIMEOUT 0 (Some (e_now env)) None (u_dns u) latency ema,
       on_config (update_latency mk_key uuid (e_iter env) host latency) sh)
    else (mkUdp MIN_REG_TIMEOUT 0 (Some (e_now env)) None (u_dns u) (u_old u) ema, sh).

(** What failing registrations do; the server may have to be looked up again, which may fail. *)
(* src/src/rendezvous_mediator.rs:240-260 RendezvousMediator::start_udp *)
Definition udp_timed_out (env : Env) (host : string) (u : Udp) (sh : Shared) : bool * Udp * Shared :=
  let fails := i64 (u_fails u + 1) in
  let forget ok v dns :=
    (ok, mkUdp (u_reg_timeout u) fails (u_resp u) (u_sent u) dns 0 (u_ema u),
     on_config (update_latency mk_key uuid (e_iter env) host v) sh) in
  if MAX_FAILS2 <=? fails then
    if DNS_INTERVAL <? elapsed_ms (e_now env) (u_dns u) then
      forget (e_rebind env) (-1) (if e_rebind env then e_now env else u_dns u)
    else forget true (-1) (u_dns u)
  else if MAX_FAILS1 <=? fails then forget true 0 (u_dns u)
  else (true, mkUdp (u_reg_timeout u) fails (u_resp u) (u_sent u) (u_dns u) (u_old u) (u_ema u), sh).

(* src/src/rendezvous_mediator.rs:227-265 RendezvousMediator::start_udp *)
Definition udp_tick (env : Env) (rz : RendezvousMediator) (u : Udp) (sh : Shared)
    : status * Udp * Shared * list out :=
  if sh_exit sh then (Exited, u, sh, [])
  else
    let expired := match u_resp u with Some x => REG_INTERVAL <=? elapsed_ms (e_now env) x | None => true end in
    let timeout := match u_sent u with Some x => u_reg_timeout u <=? elapsed_ms (e_now env) x | None => false end in
    let u := if e_public env && timeout && (u_reg_timeout u <? MAX_REG_TIMEOUT)
             then mkUdp (u_reg_timeout u + MIN_REG_TIMEOUT) (u_fails u) (u_resp u) (u_sent u) (u_dns u) (u_old u) (u_ema u)
             else u in
    if timeout || (bool_decide (u_sent u = None) && expired) then
      let '(bound, u, sh) := if timeout then udp_timed_out env (rz_host rz) u sh else (true, u, sh) in
      if bound then
        let '(ok, sh, o) := register_peer env rz sh in
        if ok then
          (Continue, mkUdp (u_reg_timeout u) (u_fails u) (u_resp u) (Some (e_now env)) (u_dns u) (u_old u) (u_ema u),
           sh, o)
        else (Failed, u, sh, o)
      else (Failed, u, sh, [])
    else (Continue, u, sh, []).

Inductive udp_event : Type :=
| UTick
| UMessage (m : message)
| UGarbage
| USocketError.

(* src/src/rendezvous_mediator.rs:183-267 RendezvousMediator::start_udp *)
Definition udp_step (env : Env) (ev : udp_event) (s : RendezvousMediator * Udp * Shared)
    : status * (RendezvousMediator * Udp * Shared) * list out :=
  let '(rz, u, sh) := s in
  match ev with
  | UTick => let '(st, u, sh, o) := udp_tick env rz u sh in (st, (rz, u, sh), o)
  | UMessage m =>
      let '(ok, rz, u, sh, o) := handle_resp (udp_latency env (rz_host rz)) env m rz u sh in
      (if ok then Continue else Failed, (rz, u, sh), o)
  | UGarbage => (Continue, s, [])
  | USocketError => (Failed, s, [])
  end.

(** A loop, until it ends. *)
Fixpoint udp_run (evs : list (Env * udp_event)) (s : RendezvousMediator * Udp * Shared)
    : status * (RendezvousMediator * Udp * Shared) * list out :=
  match evs with
  | [] => (Continue, s, [])
  | (env, ev) :: evs =>
      match udp_step env ev s with
      | (Continue, s, o) => let '(st, s, o') := udp_run evs s in (st, s, o ++ o')
      | r => r
      end
  end.

(** ** The loop over TCP *)

Record Tcp : Type := mkTcp { t_sent : option Z; t_recv : Z }.

(** The handshake of [Handshake.secure_tcp] is before this. *)
(* src/src/rendezvous_mediator.rs:341-357 RendezvousMediator::start_tcp *)
Definition tcp_start (env : Env) (host : string) (ipv4 : bool) (sh : Shared) : RendezvousMediator * Tcp * Shared :=
  let host := check_port other_digit host RENDEZVOUS_PORT in
  let rz := mkRz ipv4 host (get_host_prefix host) DEFAULT_KEEP_ALIVE in
  (rz, mkTcp None (e_now env), on_config (set_host_key_confirmed mk_key uuid (rz_host_prefix rz) false) sh).

(* src/src/rendezvous_mediator.rs:359-365 RendezvousMediator::start_tcp *)
Definition tcp_latency (env : Env) (host : string) (s : Tcp * Shared) : Tcp * Shared :=
  let '(t, sh) := s in
  let latency := match t_sent t with Some x => e_now env - x | None => 0 end in
  (t, on_config (update_latency mk_key uuid (e_iter env) host latency) sh).

Inductive tcp_event : Type :=
| TTick
| TMessage (m : message)
| THeartbeat
| TGarbage
| TReset.

(* src/src/rendezvous_mediator.rs:366-396 RendezvousMediator::start_tcp *)
Definition tcp_step (env : Env) (ev : tcp_event) (s : RendezvousMediator * Tcp * Shared)
    : status * (RendezvousMediator * Tcp * Shared) * list out :=
  let '(rz, t, sh) := s in
  let received := mkTcp (t_sent t) (e_now env) in
  match ev with
  | TTick =>
      if sh_exit sh then (Exited, s, [])
      else if u64 (u64 (rz_keep_alive rz) * 3) / 2 <? elapsed_ms (e_now env) (t_recv t) then (Failed, s, [])
      else if (negb (key_confirmed (config (sh_config sh))) ||
               negb (get_host_key_confirmed (rz_host_prefix rz) (sh_config sh))) &&
              (REG_INTERVAL <=? match t_sent t with Some x => elapsed_ms (e_now env) x | None => REG_INTERVAL end) then
        let '(ok, sh, o) := register_pk env sh in
        if ok then (Continue, (rz, mkTcp (Some (e_now env)) (t_recv t), sh), o) else (Failed, (rz, t, sh), o)
      else (Continue, s, [])
  | TMessage m =>
      let '(ok, rz, t, sh, o) := handle_resp (tcp_latency env (rz_host rz)) env m rz received sh in
      (if ok then Continue else Failed, (rz, t, sh), o)
  | THeartbeat =>
      if e_up env then (Continue, (rz, received, sh), [Heartbeat]) else (Failed, (rz, received, sh), [])
  | TGarbage | TReset => (Failed, (rz, received, sh), [])
  end.

Fixpoint tcp_run (evs : list (Env * tcp_event)) (s : RendezvousMediator * Tcp * Shared)
    : status * (RendezvousMediator * Tcp * Shared) * list out :=
  match evs with
  | [] => (Continue, s, [])
  | (env, ev) :: evs =>
      match tcp_step env ev s with
      | (Continue, s, o) => let '(st, s, o') := tcp_run evs s in (st, s, o ++ o')
      | r => r
      end
  end.

(* src/src/rendezvous_mediator.rs:399-411 RendezvousMediator::start *)
Definition start_uses_tcp (debug_tcp : bool) (w : World) : bool :=
  debug_tcp || get_network_type_is_proxy S w ||
  option2bool "allow-websocket" (option_of S "allow-websocket" w) ||
  bool_decide (option_of S "disable-udp" w = "Y"%string).

(** ** Peers that want to connect *)

(* src/src/rendezvous_mediator.rs:705-714 RendezvousMediator::get_relay_server *)
Definition get_relay_server (rz : RendezvousMediator) (provided : string) (w : World) : string :=
  let relay_server := option_of S "relay-server" w in
  let relay_server := if decide (relay_server = ""%string) then provided else relay_server in
  if decide (relay_server = ""%string) then increase_port other_digit (rz_host rz) 1 else relay_server.

Definition use_ws (w : World) : bool := option2bool "allow-websocket" (option_of S "allow-websocket" w).

(* src/libs/hbb_common/src/config.rs:2403-2406 is_disable_tcp_listen *)
Definition is_disable_tcp_listen : bool := bool_decide (s_hard S !! "disable-tcp-listen"%string = Some "Y"%string).

(** What is done for a peer; the local IPv6 address is the one [start_ipv6] gives. *)
Inductive action : Type :=
| StartIpv6 (peer_v6 peer_v4 : SocketAddr)
| CreateRelay (socket_addr : bytes) (relay_server relay_uuid : string) (secure initiate : bool) (v6 : bytes)
| PunchUdp (peer : SocketAddr) (relay_server : string) (nat_type : Z) (v6 : bytes)
| PunchTcp (peer : SocketAddr) (relay_server : string) (nat_type : Z) (v6 : bytes)
| Intranet (peer : SocketAddr) (relay_server : string) (v6 : bytes).

(** [any]: the address a malformed one is read as; [v6]: what [start_ipv6] gives;
    [fresh]: a new identifier of a relay session. *)
Context (any : SocketAddr).
Let decode_addr := addr_decode any.

Definition port_of (a : SocketAddr) : Z := match a with V4 _ p | V6 _ p => p end.
Definition with_port (p : Z) (a : SocketAddr) : SocketAddr := match a with V4 ip _ => V4 ip p | V6 ip _ => V6 ip p end.

(** A message is a duplicate when the last one of its kind was from the same address
    less than a tenth of a second ago. *)
Definition duplicate (now : Z) (addr : SocketAddr) (last : SocketAddr * Z) : bool :=
  bool_decide (fst last = addr) && (elapsed_ms now (snd last) <? 100).

(* src/src/rendezvous_mediator.rs:413-432 RendezvousMediator::handle_request_relay *)
Definition handle_request_relay (now : Z) (rr : RequestRelay) (sh : Shared) : list action * Shared :=
  let addr := decode_addr (rr_socket_addr rr) in
  let last := sh_last_relay sh in
  let sh := set_last_relay (addr, now) sh in
  if duplicate now addr last then ([], sh)
  else ([CreateRelay (rr_socket_addr rr) (rr_relay_server rr) (rr_uuid rr) (rr_secure rr) false []], sh).

(** [done]: connecting over the local network works. *)
(* src/src/rendezvous_mediator.rs:481-529 RendezvousMediator::handle_intranet *)
Definition handle_intranet (now : Z) (rz : RendezvousMediator) (fla : FetchLocalAddr) (v6 : bytes) (fresh : string)
    (done : bool) (sh : Shared) : list action * Shared :=
  let addr := decode_addr (fla_socket_addr fla) in
  let last := sh_last sh in
  let sh := set_last (addr, now) sh in
  if duplicate now addr last then ([], sh)
  else
    let w := sh_config sh in
    let peer_v6 := decode_addr (fla_socket_addr_v6 fla) in
    let relay_server := get_relay_server rz (fla_relay_server fla) w in
    let relay := use_ws w || get_network_type_is_proxy S w in
    let over_v6 := (0 <? port_of peer_v6) && negb relay in
    let v6 := if over_v6 then v6 else [] in
    let o := if over_v6 then [StartIpv6 peer_v6 addr] else [] in
    let local := rz_ipv4 rz && negb relay && negb is_disable_tcp_listen in
    let o := o ++ if local then [Intranet addr relay_server v6] else [] in
    (o ++ (if local && done then []
           else [CreateRelay (fla_socket_addr fla) relay_server fresh true true v6]), sh).

(** [NatType]: unknown, asymmetric, symmetric. *)
Definition SYMMETRIC : Z := 2.
Definition nat_type_of (n : Z) : Z := if (0 <=? n) && (n <=? 2) then n else 0.

(* src/src/rendezvous_mediator.rs:560-619 RendezvousMediator::handle_punch_hole *)
Definition handle_punch_hole (now : Z) (rz : RendezvousMediator) (ph : PunchHole) (v6 : bytes) (fresh : string)
    (sh : Shared) : list action * Shared :=
  let peer := decode_addr (ph_socket_addr ph) in
  let last := sh_last sh in
  let sh := set_last (peer, now) sh in
  if duplicate now peer last then ([], sh)
  else
    let w := sh_config sh in
    let peer_v6 := decode_addr (ph_socket_addr_v6 ph) in
    let relay := use_ws w || get_network_type_is_proxy S w || ph_force_relay ph in
    let over_v6 := (0 <? port_of peer_v6) && negb relay in
    let v6 := if over_v6 then v6 else [] in
    let o := if over_v6 then [StartIpv6 peer_v6 peer] else [] in
    let relay_server := get_relay_server rz (ph_relay_server ph) w in
    let my_nat := nat_type (config2 w) in
    if (ph_nat_type ph =? SYMMETRIC) || (my_nat =? SYMMETRIC) || relay ||
       (is_disable_tcp_listen && (ph_udp_port ph <=? 0)) then
      (o ++ [CreateRelay (ph_socket_addr ph) relay_server fresh true true v6], sh)
    else if 0 <? ph_udp_port ph then
      (o ++ [PunchUdp (with_port (u16 (ph_udp_port ph)) peer) relay_server (nat_type_of my_nat) v6], sh)
    else (o ++ [PunchTcp peer relay_server (nat_type_of my_nat) v6], sh).

(** ** Direct access *)

(* src/src/rendezvous_mediator.rs:717-725 get_direct_port *)
Definition get_direct_port (w : World) : Z :=
  let port := default 0 (PeerConfig.parse_i32 (option_of S "direct-access-port" w)) in
  if port <=? 0 then RENDEZVOUS_PORT + 2 else port.

Definition direct_disabled (w : World) : bool :=
  negb (option2bool "direct-server" (option_of S "direct-server" w)) ||
  option2bool "stop-service" (option_of S "stop-service" w).

(** The listener's port, where there is one; where listening failed, the loop waits
    for another port. *)
Inductive direct : Type :=
| Idle
| Listening (port : Z)
| WaitingForPort (port : Z).

(** One round: [free]: the port can be listened on; [arrives]: a connection arrives in
    time. The result says on which port a connection is taken. *)
(* src/src/rendezvous_mediator.rs:727-804 direct_server *)
Definition direct_step (w : World) (free arrives : bool) (d : direct) : direct * option Z :=
  let disabled := direct_disabled w in
  let port := get_direct_port w in
  let d := match d with WaitingForPort p => if port =? p then d else Idle | _ => d end in
  match d with
  | WaitingForPort _ => (d, None)
  | Idle =>
      if disabled then (Idle, None)
      else if free then (Listening port, if arrives then Some port else None)
      else (WaitingForPort port, None)
  | Listening p =>
      if disabled || negb (p =? port) then (Idle, None)
      else (Listening p, if arrives then Some p else None)
  end.
End rendezvous.

(** ** What leaves the confirmation alone *)

Section lemmas.
Context {Key : Type} `{SecretBox Key} `{Base64} `{Json} (mk_key : bytes -> Key) (uuid : bytes) (S : Statics)
        (other_digit : re).

(** The flags of the confirmed keys. *)
Definition flags (w : World) : bool * gmap string bool := (key_confirmed (config w), keys_confirmed (config w)).

Lemma flags_store w : flags (store mk_key uuid w) = flags w.
Proof. unfold store. by destruct (writable w). Qed.

Lemma flags_store2 w : flags (store2 mk_key uuid w) = flags w.
Proof. unfold store2. by destruct (writable w). Qed.

Lemma flags_update ch c w :
  flags (update mk_key uuid ch c w) = if ch then (key_confirmed c, keys_confirmed c) else flags w.
Proof. unfold update. destruct ch; [|done]. by rewrite flags_store. Qed.

Lemma flags_update2 ch c w : flags (update2 mk_key uuid ch c w) = flags w.
Proof. unfold update2. destruct ch; [|done]. by rewrite flags_store2. Qed.

Lemma flags_set_id i w : flags (set_id mk_key uuid i w) = flags w.
Proof. unfold set_id. rewrite flags_update. by case_match. Qed.

Lemma flags_get_id g w : flags (snd (get_id mk_key uuid g w)) = flags w.
Proof. unfold get_id. case_decide; [|done]. destruct g; [apply flags_set_id|done]. Qed.

Lemma flags_latency iter host l w : flags (update_latency mk_key uuid iter host l w) = flags w.
Proof. unfold update_latency. by rewrite flags_update2. Qed.

Lemma flags_configure n k v w : flags (Config.set_serial mk_key uuid n (set_option_of mk_key uuid S k v w)) = flags w.
Proof.
  unfold Config.set_serial. rewrite flags_update2. unfold set_option_of.
  destruct (Options.set_option _ _ _ _ _) as [o st]. by rewrite flags_update2.
Qed.

Lemma flags_key v w :
  flags (set_key_confirmed mk_key uuid v w) =
    if Bool.eqb (key_confirmed (config w)) v then flags w else (v, if v then keys_confirmed (config w) else ∅).
Proof. unfold set_key_confirmed. rewrite flags_update. by destruct (Bool.eqb _ _). Qed.

Lemma flags_host h v w :
  flags (set_host_key_confirmed mk_key uuid h v w) =
    if Bool.eqb (get_host_key_confirmed h w) v then flags w
    else (key_confirmed (config w), <[h := v]> (keys_confirmed (config w))).
Proof. unfold set_host_key_confirmed. rewrite flags_update. by destruct (Bool.eqb _ _). Qed.

Local Ltac shared := unfold on_config, set_pair, set_solving; cbn.

(** Registering keeps the flags and whose mismatch is being solved. *)
Definition same_flags (sh sh' : Shared) : Prop :=
  flags (sh_config sh') = flags (sh_config sh) /\ sh_solving sh' = sh_solving sh.

Lemma get_key_pair_same env sh : same_flags sh (snd (get_key_pair mk_key uuid env sh)).
Proof.
  unfold get_key_pair. destruct (sh_pair sh); [done|]. case_decide; [|done].
  shared. split; [|done]. cbn. by rewrite flags_store.
Qed.

Lemma get_uuid_same env sh : same_flags sh (snd (get_uuid mk_key uuid env sh)).
Proof.
  unfold get_uuid. destruct (e_machine env); [done|].
  pose proof (get_key_pair_same env sh) as F. by destruct (get_key_pair _ _ _ _) as [p sh'].
Qed.

Lemma get_id_same env sh : same_flags sh (snd (get_id_of mk_key uuid env sh)).
Proof.
  unfold get_id_of. pose proof (flags_get_id (e_auto_id env) (sh_config sh)) as F.
  by destruct (get_id _ _ _ _) as [i w].
Qed.

Lemma same_trans a b c : same_flags a b -> same_flags b c -> same_flags a c.
Proof. intros [F1 S1] [F2 S2]. split; congruence. Qed.

(** A registration of the key: the flags stay, and it is sent when the line is up. *)
Lemma register_pk_spec env sh :
  exists sh' i u p, register_pk mk_key uuid S env sh =
    (e_up env, sh', if e_up env then [RegisterPk i u p (no_register_device S)] else []) /\ same_flags sh sh'.
Proof.
  unfold register_pk.
  pose proof (get_key_pair_same env sh) as F1. destruct (get_key_pair _ _ _ _) as [p sh1].
  pose proof (get_uuid_same env sh1) as F2. destruct (get_uuid _ _ _ _) as [u sh2].
  pose proof (get_id_same env sh2) as F3. destruct (get_id_of _ _ _ _) as [i sh3].
  exists sh3, i, u, (snd p). split; [done|]. eapply same_trans; [exact F1|]. by eapply same_trans.
Qed.

Definition confirmed (rz : RendezvousMediator) (sh : Shared) : bool :=
  key_confirmed (config (sh_config sh)) && get_host_key_confirmed (rz_host_prefix rz) (sh_config sh).

Definition unblocked (rz : RendezvousMediator) (sh : Shared) : Prop :=
  sh_solving sh = ""%string \/ sh_solving sh = rz_host rz.

Lemma confirmed_flags rz sh :
  confirmed rz sh = fst (flags (sh_config sh)) && bool_decide (snd (flags (sh_config sh)) !! rz_host_prefix rz = Some true).
Proof. done. Qed.

Lemma confirmed_same rz sh sh' : same_flags sh sh' -> confirmed rz sh' = confirmed rz sh.
Proof. intros [F _]. by rewrite !confirmed_flags, F. Qed.

Lemma unblocked_same rz sh sh' : same_flags sh sh' -> unblocked rz sh -> unblocked rz sh'.
Proof. intros [_ E]. unfold unblocked. by rewrite E. Qed.

Definition registers (o : out) : bool := match o with RegisterPk _ _ _ _ | RegisterPeer _ _ => true | _ => false end.

(** The peer is registered, or first its key, unless another server's mismatch is
    being solved. *)
Lemma register_peer_spec env rz sh :
  exists sh' o, register_peer mk_key uuid S env rz sh = (e_up env || negb (bool_decide (unblocked rz sh)), sh', o) /\
    same_flags sh sh' /\
    (unblocked rz sh -> e_up env = true ->
       exists x, o = [x] /\ registers x = true /\ (forall i n, x = RegisterPeer i n -> confirmed rz sh = true)) /\
    (~ unblocked rz sh -> o = []) /\ (e_up env = false -> o = []).
Proof.
  unfold register_peer. destruct (decide (unblocked rz sh)) as [U|U].
  - assert (negb (bool_decide (sh_solving sh = "")%string || bool_decide (sh_solving sh = rz_host rz)) = false) as ->
      by (apply negb_false_iff, orb_true_iff; destruct U; [left|right]; by apply bool_decide_eq_true).
    rewrite (bool_decide_eq_true_2 _ U), orb_false_r.
    destruct (negb _ || negb _) eqn:C.
    + destruct (register_pk_spec env sh) as (sh' & i & u & p & E & F). rewrite E. exists sh', (if e_up env then [RegisterPk i u p (no_register_device S)] else []).
      split_and!; [done|done| |done|by intros ->]. intros _ ->. eexists. by split_and!.
    + pose proof (get_id_same env sh) as F. destruct (get_id_of _ _ _ _) as [i sh']. eexists _, _.
      split_and!; [done|done| |done|by intros ->]. intros _ ->. eexists. split_and!; [done..|].
      intros _ _ _. unfold confirmed. apply orb_false_iff in C as [C1 C2].
      by rewrite (negb_false_iff _) in C1; rewrite (negb_false_iff _) in C2; rewrite C1, C2.
  - assert (negb (bool_decide (sh_solving sh = "")%string || bool_decide (sh_solving sh = rz_host rz)) = true) as ->.
    { apply negb_true_iff, orb_false_iff. split; apply bool_decide_eq_false; intros ?; apply U; [by left|by right]. }
    rewrite (bool_decide_eq_false_2 _ U), orb_true_r. exists sh, []. by split_and!.
Qed.

(** *** The loop over UDP *)

Record udp_wf (u : Udp) : Prop := mkUdpWf {
  wf_timeout : MIN_REG_TIMEOUT <= u_reg_timeout u <= MAX_REG_TIMEOUT /\ u_reg_timeout u mod MIN_REG_TIMEOUT = 0;
  wf_fails : in_i 64 (u_fails u);
  wf_old : 0 <= u_old u <= 1000000;
  wf_ema : 0 <= u_ema u <= 1000000;
}.

Lemma udp_latency_wf env host u sh : udp_wf u -> udp_wf (fst (udp_latency mk_key uuid env host (u, sh))).
Proof.
  intros [T F O E]. unfold udp_latency, MIN_REG_TIMEOUT, MAX_REG_TIMEOUT in *.
  set (latency := match u_sent u with Some x => e_now env - x | None => 0 end).
  destruct ((latency <? 0) || (1000000 <? latency)) eqn:R.
  { split; cbn; (done || (unfold in_i; lia) || lia). }
  apply orb_false_iff in R as [R1 R2]. apply Z.ltb_ge in R1, R2.
  assert (0 <= (if u_ema u =? 0 then latency else i64 (Z.quot latency 30 + Z.quot (i64 (u_ema u * 29)) 30)) <= 1000000) as B.
  { destruct (u_ema u =? 0); [lia|]. rewrite (swrap_small 64 (u_ema u * 29)) by (unfold in_i; lia).
    rewrite !Z.quot_div_nonneg by lia. rewrite swrap_small by (unfold in_i; zdm). zdm. }
  cbv zeta. destruct (_ || _); split; cbn [fst u_reg_timeout u_fails u_old u_ema]; try done;
    try (unfold in_i; lia); destruct (u_ema u =? 0); lia.
Qed.

Lemma udp_timed_out_wf env host u sh : udp_wf u -> udp_wf (snd (fst (udp_timed_out mk_key uuid env host u sh))).
Proof.
  intros [T F O E]. unfold udp_timed_out. pose proof (swrap_range 64 (u_fails u + 1) ltac:(lia)).
  repeat case_match; split; cbn; try done; lia.
Qed.

Lemma udp_timed_out_same env host u sh :
  same_flags sh (snd (udp_timed_out mk_key uuid env host u sh)).
Proof. unfold udp_timed_out. repeat case_match; (split; [|done]); cbn; rewrite ?flags_latency; done. Qed.

Lemma udp_latency_same env host u sh :
  same_flags sh (snd (udp_latency mk_key uuid env host (u, sh))).
Proof. unfold udp_latency. cbv zeta. repeat case_match; (split; [|done]); cbn; rewrite ?flags_latency; done. Qed.

(** A tick either tries to register, with the time of the tick written down, or
    changes nothing; it tries when nothing came back in time. *)
Lemma udp_tick_spec env rz u sh st u' sh' o :
  udp_wf u -> udp_tick mk_key uuid S env rz u sh = (st, u', sh', o) ->
  udp_wf u' /\ same_flags sh sh' /\
  (forall i n, RegisterPeer i n ∈ o -> confirmed rz sh = true) /\
  (st = Continue ->
     (u' = u /\ o = [] /\ sh' = sh /\
        match u_sent u, u_resp u with
        | Some x, _ => elapsed_ms (e_now env) x < MAX_REG_TIMEOUT
        | None, Some x => elapsed_ms (e_now env) x < REG_INTERVAL
        | None, None => False
        end) \/
     (u_sent u' = Some (e_now env) /\ (unblocked rz sh -> exists x, o = [x] /\ registers x = true))).
Proof.
  intros W. unfold udp_tick. destruct (sh_exit sh).
  { intros [= <- <- <- <-]. split_and!; [done|done|set_solver|done]. }
  set (expired := match u_resp u with Some x => REG_INTERVAL <=? elapsed_ms (e_now env) x | None => true end).
  set (timeout := match u_sent u with Some x => u_reg_timeout u <=? elapsed_ms (e_now env) x | None => false end).
  set (v := if e_public env && timeout && (u_reg_timeout u <? MAX_REG_TIMEOUT) then _ else u). cbv zeta.
  assert (udp_wf v /\ u_sent v = u_sent u) as [Wv Sv].
  { unfold v. destruct (_ && (_ <? _)) eqn:C; [|done]. split; [|done]. destruct W as [[T1 T2] F O E].
    apply andb_true_iff in C as [_ C]. apply Z.ltb_lt in C. split; cbn; try done.
    unfold MIN_REG_TIMEOUT, MAX_REG_TIMEOUT in *. split; zdm. }
  destruct (timeout || (bool_decide (u_sent v = None) && expired)) eqn:G.
  - pose proof (udp_timed_out_wf env (rz_host rz) v sh Wv) as Wt.
    pose proof (udp_timed_out_same env (rz_host rz) v sh) as St.
    assert (exists ok t sh1, (if timeout then udp_timed_out mk_key uuid env (rz_host rz) v sh else (true, v, sh)) =
              (ok, t, sh1) /\ udp_wf t /\ same_flags sh sh1) as (ok & t & sh1 & -> & Wt1 & St1).
    { destruct timeout; [|by exists true, v, sh]. destruct (udp_timed_out _ _ _ _ _ _) as [[ok t] sh1]. by eauto 8. }
    destruct ok; [|intros [= <- <- <- <-]; split_and!; [done|done|set_solver|done]].
    destruct (register_peer_spec env rz sh1) as (sh2 & o2 & E & S2 & R1 & R2 & R3). rewrite E.
    assert (forall i n, RegisterPeer i n ∈ o2 -> confirmed rz sh = true) as RP.
    { intros i n I. rewrite <- (confirmed_same rz sh sh1 St1). destruct (e_up env) eqn:U; [|by rewrite R3 in I by done; set_solver].
      destruct (decide (unblocked rz sh1)) as [B|B]; [|by rewrite R2 in I by done; set_solver].
      destruct (R1 B eq_refl) as (x & -> & _ & C). apply (C i n). set_solver. }
    assert (same_flags sh sh2) as S3 by (by eapply same_trans).
    destruct (e_up env || _) eqn:U; intros [= <- <- <- <-]; (split_and!; [|done|exact RP|]); try done.
    + by destruct Wt1; split.
    + intros _. right. split; [done|]. intros B. apply (unblocked_same rz sh sh1 St1) in B as B1.
      rewrite (bool_decide_eq_true_2 _ B1), orb_false_r in U. destruct (R1 B1 U) as (x & -> & X & _). eauto.
  - intros [= <- <- <- <-]. apply orb_false_iff in G as [G1 G2].
    assert (v = u) as -> by (unfold v; by rewrite G1, andb_false_r).
    split_and!; [done|done|set_solver|]. intros _. left. split_and!; [done..|]. destruct W as [[T1 T2] F O E].
    unfold timeout, expired in *. destruct (u_sent u) as [x|]; [apply Z.leb_gt in G1; lia|].
    rewrite bool_decide_eq_true_2 in G2 by done. destruct (u_resp u); [by apply Z.leb_gt in G2|done].
Qed.

(** *** The server's messages *)

Definition is_ok (m : message) : bool := match m with RegisterPkResponse PkOk _ => true | _ => false end.
Definition is_mismatch (m : message) : bool := match m with RegisterPkResponse PkUuidMismatch _ => true | _ => false end.
Definition is_response (m : message) : bool :=
  match m with RegisterPeerResponse _ | RegisterPkResponse _ _ => true | _ => false end.

Lemma confirmed_host rz rz' sh : rz_host_prefix rz' = rz_host_prefix rz -> confirmed rz' sh = confirmed rz sh.
Proof. intros E. unfold confirmed. by rewrite E. Qed.

(** After an OK the key of this server is confirmed and nothing is being solved. *)
Lemma confirm_spec rz w :
  flags (set_host_key_confirmed mk_key uuid (rz_host_prefix rz) true (set_key_confirmed mk_key uuid true w)) =
    (true, if get_host_key_confirmed (rz_host_prefix rz) w then keys_confirmed (config w)
           else <[rz_host_prefix rz := true]> (keys_confirmed (config w))).
Proof.
  rewrite flags_host. set (w' := set_key_confirmed mk_key uuid true w).
  assert (flags w' = (true, keys_confirmed (config w))) as F.
  { unfold w'. rewrite flags_key. unfold flags. by destruct (key_confirmed (config w)). }
  unfold flags in F. injection F as F1 F2. unfold get_host_key_confirmed. rewrite F2.
  case_bool_decide; cbn; unfold flags; by rewrite F1, ?F2.
Qed.

(** After a mismatch that is dealt with the key is not confirmed. *)
Lemma mismatch_spec env rz sh :
  unblocked rz sh ->
  exists sh' i u p, handle_uuid_mismatch mk_key uuid S env rz sh =
    (e_up env, sh', if e_up env then [RegisterPk i u p (no_register_device S)] else []) /\
    confirmed rz sh' = false /\ unblocked rz sh'.
Proof.
  intros U. unfold handle_uuid_mismatch. rewrite decide_True by done.
  set (sh1 := set_solving _ _). destruct (register_pk_spec env sh1) as (sh' & i & u & p & E & F).
  rewrite E. exists sh', i, u, p. split; [done|]. rewrite (confirmed_same rz sh1 sh' F).
  split; [|apply (unblocked_same rz sh1 sh' F); by right].
  rewrite confirmed_flags. unfold sh1, set_solving, on_config, update_id. cbn [sh_config].
  rewrite flags_set_id, flags_get_id, flags_key.
  destruct (Bool.eqb _ false) eqn:B; [|done]. apply Bool.eqb_prop in B. unfold flags. by rewrite B.
Qed.

Lemma handle_resp_spec {A} (latency : A * Shared -> A * Shared) env m rz a sh ok rz' a' sh' o :
  (forall a sh, same_flags sh (snd (latency (a, sh)))) ->
  handle_resp mk_key uuid S latency env m rz a sh = (ok, rz', a', sh', o) ->
  (rz_host rz' = rz_host rz /\ rz_host_prefix rz' = rz_host_prefix rz) /\
  (forall i n, RegisterPeer i n ∉ o) /\
  (unblocked rz sh -> unblocked rz sh') /\
  (is_ok m = true -> unblocked rz sh') /\
  (confirmed rz sh' = true -> is_ok m = true \/ confirmed rz sh = true /\ (unblocked rz sh -> is_mismatch m = false)) /\
  (is_response m = false -> a' = a).
Proof.
  intros L. destruct m as [rq|r k|ph|rr|fl|ss n|]; cbn [handle_resp is_ok is_mismatch is_response];
    try (intros [= <- <- <- <- <-]; split_and!; (done || set_solver || by auto)).
  - specialize (L a sh). destruct (latency (a, sh)) as [a1 sh1]. cbn in L. destruct rq.
    + destruct (register_pk_spec env sh1) as (sh2 & i & u & p & E & F). rewrite E.
      pose proof (same_trans _ _ _ L F) as G.
      intros [= <- <- <- <- <-]. rewrite (confirmed_same rz sh sh2 G).
      split_and!; [done|done|destruct (e_up env); set_solver|by apply unblocked_same|done|by auto|done].
    + intros [= <- <- <- <- <-]. rewrite (confirmed_same rz sh sh1 L).
      split_and!; [done|done|set_solver|by apply unblocked_same|done|by auto|done].
  - specialize (L a sh). destruct (latency (a, sh)) as [a1 sh1]. cbn in L. destruct r.
    + intros [= <- <- <- <- <-]. split_and!; [done|done|set_solver|by left|by left|by left|done].
    + destruct (decide (unblocked rz sh1)) as [U|U].
      * destruct (mismatch_spec env rz sh1 U) as (sh2 & i & u & p & E & C & U2). rewrite E. clear E.
        destruct (e_up env); intros [= <- <- <- <- <-]; (split_and!; [done|done|set_solver|done|done|congruence|done]).
      * unfold handle_uuid_mismatch. rewrite decide_False by done. intros [= <- <- <- <- <-].
        rewrite (confirmed_same rz sh sh1 L). split_and!; [done|done|set_solver|by apply unblocked_same|done| |done].
        intros C. right. split; [done|]. intros B. by apply (unblocked_same rz sh sh1 L) in B.
    + intros [= <- <- <- <- <-]. rewrite (confirmed_same rz sh sh1 L).
      split_and!; [done|done|set_solver|by apply unblocked_same|done|by auto|done].
  - set (sh1 := on_config _ sh).
    assert (same_flags sh sh1) as F by (split; [by cbn; rewrite flags_configure|done]).
    case_decide; intros [= <- <- <- <- <-].
    + rewrite (confirmed_same rz sh sh1 F). split_and!; [done|done|set_solver|by apply unblocked_same|done|by auto|done].
    + change (confirmed rz (restart_loops sh1)) with (confirmed rz sh1). rewrite (confirmed_same rz sh sh1 F).
      split_and!; [done|done|set_solver|by apply unblocked_same|done|by auto|done].
Qed.

(** ** The theorems *)

Definition state := (RendezvousMediator * Udp * Shared)%type.
Definition event_is (f : message -> bool) (ev : udp_event) : bool := match ev with UMessage m => f m | _ => false end.

(** One step of the loop. *)
Lemma udp_step_spec env ev rz u sh st rz' u' sh' o :
  udp_wf u -> udp_step mk_key uuid S env ev (rz, u, sh) = (st, (rz', u', sh'), o) ->
  udp_wf u' /\ (rz_host rz' = rz_host rz /\ rz_host_prefix rz' = rz_host_prefix rz) /\
  (forall i n, RegisterPeer i n ∈ o -> confirmed rz sh = true) /\
  (unblocked rz sh -> unblocked rz sh') /\
  (event_is is_ok ev = true -> unblocked rz sh') /\
  (confirmed rz sh' = true -> event_is is_ok ev = true \/
     confirmed rz sh = true /\ (unblocked rz sh -> event_is is_mismatch ev = false)).
Proof.
  intros W. destruct ev as [|m| |]; cbn [udp_step event_is].
  - destruct (udp_tick _ _ _ _ _ _ _) as [[[st0 u0] sh0] o0] eqn:E. intros [= <- <- <- <- <-].
    apply udp_tick_spec in E as (W' & F & R & _); [|done]. rewrite (confirmed_same rz sh sh0 F).
    split_and!; [done|done|done|done|by apply unblocked_same|done|by auto].
  - destruct (handle_resp _ _ _ _ _ _ _ _ _) as [[[[ok rz0] u0] sh0] o0] eqn:E. intros [= <- <- <- <- <-].
    assert (udp_wf u0) as W0.
    { destruct m as [rq|r k|ph|rr|fl|ss n|]; cbn [handle_resp] in E; try by injection E as _ _ <- _ _.
      - pose proof (udp_latency_wf env (rz_host rz) u sh W) as WL.
        destruct (udp_latency _ _ _ _ _) as [u1 sh1]. cbn in WL. destruct rq; [destruct (register_pk _ _ _ _ _) as [[? ?] ?]|];
          by injection E as _ _ <- _ _.
      - pose proof (udp_latency_wf env (rz_host rz) u sh W) as WL.
        destruct (udp_latency _ _ _ _ _) as [u1 sh1]. cbn in WL.
        destruct (match r with PkOk => _ | PkUuidMismatch => _ | PkOther => _ end) as [[b ?] ?].
        destruct b; by injection E as _ _ <- _ _. }
    apply handle_resp_spec in E as (Hh & R & U & UO & C & _); [|intros; apply udp_latency_same].
    split_and!; [done|apply Hh|apply Hh|intros i n I; by apply R in I|done|done|done].
  - intros [= <- <- <- <- <-]. split_and!; [done|done|done|set_solver|done|done|by auto].
  - intros [= <- <- <- <- <-]. split_and!; [done|done|done|set_solver|done|done|by auto].
Qed.

(** C30. The numbers of the UDP loop stay in their types and ranges: whatever events
    arrive and whatever the clock says, the time allowed for an answer stays a
    multiple of three seconds between three and thirty, and both latencies between zero
    and a second, so that no sum or product of those overflows; the count of failures
    stays in 64 bits, which it does by wrapping. *)
Theorem udp_run_typed evs (s : state) st s' o :
  udp_wf (snd (fst s)) -> udp_run mk_key uuid S evs s = (st, s', o) ->
  udp_wf (snd (fst s')).
Proof.
  revert s st s' o. induction evs as [|[env ev] evs IH]; intros [[rz u] sh] st s' o W E.
  { by injection E as <- <- <-. }
  cbn [udp_run] in E. destruct (udp_step _ _ _ env ev (rz, u, sh)) as [[st1 [[rz1 u1] sh1]] o1] eqn:X.
  apply udp_step_spec in X as [W1 _]; [|done].
  destruct st1; [|by injection E as <- <- <-..].
  destruct (udp_run _ _ _ evs _) as [[st2 s2] o2] eqn:Y. injection E as <- <- <-. exact (IH (rz1, u1, sh1) _ _ _ W1 Y).
Qed.

(** C29. The machine keeps trying to register: from any state of the loop, when no answer
    comes and half a minute later (by the clock of the last tick) the loop is
    still running, at least one registration was sent in between, whatever
    other messages arrived and whenever the ticks were; only another server's
    identifier conflict can hold it back. *)
Theorem registration_retried evs env rz u sh t0 s' o :
  udp_wf u -> unblocked rz sh ->
  (forall x, u_sent u = Some x \/ u_resp u = Some x -> x <= t0) ->
  Forall (fun e => event_is is_response (snd e) = false) evs ->
  t0 + 1000 * MAX_REG_TIMEOUT <= e_now env ->
  udp_run mk_key uuid S (evs ++ [(env, UTick)]) (rz, u, sh) = (Continue, s', o) ->
  exists x, x ∈ o /\ registers x = true.
Proof.
  intros W U T F L. revert rz u sh W U T s' o. induction F as [|[env1 ev] evs NR F IH]; intros rz u sh W U T s' o E.
  - cbn [app udp_run udp_step] in E. destruct (udp_tick _ _ _ env rz u sh) as [[[st u'] sh'] o'] eqn:X.
    apply udp_tick_spec in X as (_ & _ & _ & P); [|done].
    destruct st; [|done..]. injection E as <- <-. destruct (P eq_refl) as [(_ & _ & _ & N)|[_ R]].
    + exfalso. unfold elapsed_ms, MAX_REG_TIMEOUT, REG_INTERVAL in *. destruct (u_sent u) as [x|].
      * specialize (T x (or_introl eq_refl)). zdm.
      * destruct (u_resp u) as [x|]; [|done]. specialize (T x (or_intror eq_refl)). zdm.
    + destruct (R U) as (x & -> & Rx). exists x. split; [set_solver|done].
  - cbn [app udp_run] in E. destruct (udp_step _ _ _ env1 ev (rz, u, sh)) as [[st1 [[rz1 u1] sh1]] o1] eqn:X.
    pose proof (udp_step_spec _ _ _ _ _ _ _ _ _ _ W X) as (W1 & [Hh Hp] & _ & U1 & _).
    specialize (U1 U). destruct st1; [|done..].
    destruct (udp_run _ _ _ (evs ++ _) _) as [[st2 s2] o2] eqn:Y. injection E as -> -> <-.
    assert (unblocked rz1 sh1) as U2 by (unfold unblocked in *; by rewrite Hh).
    assert ((exists x, x ∈ o1 /\ registers x = true) \/ u1 = u) as [(x & I & R)|Eu].
    { destruct ev as [|m| |]; cbn [udp_step] in X.
      - destruct (udp_tick _ _ _ env1 rz u sh) as [[[st u'] sh'] o'] eqn:Z. injection X as -> <- <- <- <-.
        apply udp_tick_spec in Z as (_ & _ & _ & P); [|done]. destruct (P eq_refl) as [(-> & _)|[_ R]]; [by right|left].
        destruct (R U) as (x & -> & Rx). exists x. split; [set_solver|done].
      - destruct (handle_resp _ _ _ _ _ _ _ _ _) as [[[[ok rz0] u0] sh0] o0] eqn:Z. injection X as _ <- <- <- <-.
        apply handle_resp_spec in Z as (_ & _ & _ & _ & _ & A); [|intros; apply udp_latency_same]. right. by apply A.
      - injection X as _ <- _ _. by right.
      - done. }
    + exists x. split; [set_solver|done].
    + subst u1. destruct (IH rz1 u sh1 W1 U2 T _ _ Y) as (x & I & R). exists x. split; [set_solver|done].
Qed.

(** The confirmations seen so far: an OK, and no mismatch since. *)
Definition accepted (evs : list (Env * udp_event)) : Prop :=
  exists a e b, evs = a ++ e :: b /\ event_is is_ok (snd e) = true /\
    Forall (fun e => event_is is_mismatch (snd e) = false) b.

Lemma accepted_step evs e :
  event_is is_ok (snd e) = true \/ (accepted evs /\ event_is is_mismatch (snd e) = false) -> accepted (evs ++ [e]).
Proof.
  intros [O|[(a & e0 & b & -> & O & F) M]].
  - by exists evs, e, [].
  - exists a, e0, (b ++ [e]). split_and!; [by rewrite <- app_assoc|done|by apply Forall_app_2; [|constructor]].
Qed.

Lemma registered_after before evs rz u sh st s' o i n :
  udp_wf u -> (confirmed rz sh = true -> accepted before /\ unblocked rz sh) ->
  udp_run mk_key uuid S evs (rz, u, sh) = (st, s', o) -> RegisterPeer i n ∈ o ->
  exists sofar later, evs = sofar ++ later /\ accepted (before ++ sofar).
Proof.
  revert before rz u sh st s' o. induction evs as [|[env ev] evs IH]; intros before rz u sh st s' o W C E I.
  { injection E as <- <- <-. set_solver. }
  cbn [udp_run] in E. destruct (udp_step _ _ _ env ev (rz, u, sh)) as [[st1 [[rz1 u1] sh1]] o1] eqn:X.
  pose proof (udp_step_spec _ _ _ _ _ _ _ _ _ _ W X) as (W1 & [Hh Hp] & R & U1 & UO & CC).
  assert (RegisterPeer i n ∈ o1 -> accepted before) as HERE by (intros J; by apply C, (R i n)).
  destruct st1.
  - destruct (udp_run _ _ _ evs _) as [[st2 s2] o2] eqn:Y. injection E as <- <- <-.
    apply elem_of_app in I as [I|I]; [exists [], ((env, ev) :: evs); rewrite app_nil_r; auto|].
    destruct (IH (before ++ [(env, ev)]) rz1 u1 sh1 st2 s2 o2 W1) as (dn & later & -> & A); [|exact Y|exact I|].
    + rewrite (confirmed_host rz rz1 sh1 Hp). intros K. unfold unblocked. rewrite Hh.
      destruct (CC K) as [O|[K0 M]].
      * split; [apply accepted_step; by left|by apply UO].
      * destruct (C K0) as [A U]. split; [apply accepted_step; right; split; [done|by apply M]|by apply U1].
    + exists ((env, ev) :: dn), later. split; [done|]. by rewrite <- app_assoc in A.
  - injection E as <- <- <-. exists [], ((env, ev) :: evs). rewrite app_nil_r. auto.
  - injection E as <- <- <-. exists [], ((env, ev) :: evs). rewrite app_nil_r. auto.
Qed.

(** An identifier is announced only after the server has accepted the machine's key
    for it: in a run of the loop that starts with a key that is not confirmed,
    every registration of the peer comes after an OK of the server since which
    the server reported no conflict of the identifier. *)
Theorem registered_only_when_accepted evs rz u sh st s' o i n :
  udp_wf u -> confirmed rz sh = false ->
  udp_run mk_key uuid S evs (rz, u, sh) = (st, s', o) -> RegisterPeer i n ∈ o ->
  exists before later, evs = before ++ later /\ accepted before.
Proof. intros W C E I. apply (registered_after [] evs rz u sh st s' o i n); try done. by rewrite C. Qed.

(** *** Peers *)

Definition secure_relay (a : action) : Prop :=
  exists addr server relay_uuid, a = CreateRelay addr server relay_uuid true true [].

(** A machine that is to be reached through a relay only never opens a way of its
    own: with a web socket or a proxy configured (or where the peer asks for a
    relay), whatever a punch-hole or local-address message holds, all that is
    done is to open a relay, secured, without giving away an IPv6 address and
    without listening or connecting to the peer. *)
Theorem relay_only any now rz ph fla v6 fresh done sh a :
  use_ws S (sh_config sh) = true \/ get_network_type_is_proxy S (sh_config sh) = true ->
  (a ∈ fst (handle_punch_hole S other_digit any now rz ph v6 fresh sh) -> secure_relay a) /\
  (a ∈ fst (handle_intranet S other_digit any now rz fla v6 fresh done sh) -> secure_relay a).
Proof.
  intros D. assert (use_ws S (sh_config sh) || get_network_type_is_proxy S (sh_config sh) = true) as R
    by (apply orb_true_iff; exact D). clear D. split.
  - unfold handle_punch_hole. destruct (duplicate _ _ _); [set_solver|]. cbn zeta.
    cbn [set_last sh_config]. rewrite R, andb_false_r, !orb_true_r. cbn. intros I.
    apply list_elem_of_singleton in I as ->. eexists _, _, _. reflexivity.
  - unfold handle_intranet. destruct (duplicate _ _ _); [set_solver|]. cbn zeta.
    cbn [set_last sh_config]. rewrite R, !andb_false_r. cbn. intros I.
    apply list_elem_of_singleton in I as ->. eexists _, _, _. reflexivity.
Qed.

(** The relay is the one of the settings, else the one the server names, else the
    port after the server's own. *)
Lemma default_relay h ipv4 prefix ka w :
  (forall t, in_re other_digit t -> Forall (fun c => (128 <= Ascii.N_of_ascii c)%N) t) ->
  contains ":"%char h = false -> option_of S "relay-server" w = ""%string ->
  get_relay_server S other_digit (mkRz ipv4 (check_port other_digit h RENDEZVOUS_PORT) prefix ka) "" w =
    check_port other_digit h RELAY_PORT.
Proof.
  intros OH N E. unfold get_relay_server. rewrite E, !decide_True by done. cbn [rz_host].
  by apply (increase_check_port other_digit OH h RENDEZVOUS_PORT 1).
Qed.

(** A connection for direct access is taken only while that is enabled, on the port
    that is configured then. *)
Lemma direct_port_configured w free arrives d d' p :
  direct_step S w free arrives d = (d', Some p) ->
  direct_disabled S w = false /\ p = get_direct_port S w /\ d' = Listening p.
Proof.
  unfold direct_step. destruct d as [|q|q].
  - destruct (direct_disabled S w); [done|]. destruct free, arrives; intros [= <- <-]; auto.
  - destruct (direct_disabled S w); [done|]. destruct (q =? get_direct_port S w) eqn:E; [|done].
    apply Z.eqb_eq in E as ->. destruct arrives; intros [= <- <-]; auto.
  - destruct (get_direct_port S w =? q); [done|]. destruct (direct_disabled S w); [done|].
    destruct free, arrives; intros [= <- <-]; auto.
Qed.
End lemmas.

(** ** Concrete runs *)

Definition env_at (now : Z) : Env :=
  mkEnv (now * 1000000) None "1234567890" ([Byte.x01], [Byte.x02]) (Some [Byte.x03]) true map_to_list true true.

Definition a_mediator : RendezvousMediator := mkRz true "rs.example.org:21116" "rs" DEFAULT_KEEP_ALIVE.
Definition a_loop : Udp := mkUdp MIN_REG_TIMEOUT 0 None None 0 0 0.
Definition shared (w : World) : Shared := mkShared w None "" false false (V4 [] 0, 0) (V4 [] 0, 0).

Lemma a_loop_wf : udp_wf a_loop.
Proof. split; vm_compute; repeat split; discriminate. Qed.

Definition run_udp evs := udp_run (H := box_plain) (H0 := base64_hex) (fun _ => tt) [] no_statics evs
  (a_mediator, a_loop, shared machine).

Lemma udp_run_typed_witness :
  udp_wf (snd (fst (snd (fst (run_udp [(env_at 1, UTick); (env_at 2, UMessage (RegisterPkResponse PkOk 0))]))))).
Proof.
  destruct (run_udp [(env_at 1, UTick); (env_at 2, UMessage (RegisterPkResponse PkOk 0))]) as [[st s'] o] eqn:E.
  exact (udp_run_typed (H := box_plain) (H0 := base64_hex) (fun _ => tt) [] no_statics _ (a_mediator, a_loop, shared machine) st s' o a_loop_wf E).
Defined.

Lemma registration_retried_witness :
  exists x, x ∈ snd (run_udp [(env_at 30, UTick)]) /\ registers x = true.
Proof.
  apply (registration_retried (H := box_plain) (H0 := base64_hex) (fun _ => tt) [] no_statics []
    (env_at 30) a_mediator a_loop (shared machine) 0 (snd (fst (run_udp [(env_at 30, UTick)])))).
  - exact a_loop_wf.
  - by left.
  - intros x [E|E]; discriminate E.
  - constructor.
  - vm_compute. discriminate.
  - vm_compute. reflexivity.
Defined.

Definition a_registration : list (Env * udp_event) :=
  [(env_at 1, UTick); (env_at 2, UMessage (RegisterPkResponse PkOk 0)); (env_at 17, UTick)].

Lemma registered_only_when_accepted_witness :
  RegisterPeer "123456789" 3 ∈ snd (run_udp a_registration) /\
  exists before later, a_registration = before ++ later /\ accepted before.
Proof.
  assert (RegisterPeer "123456789" 3 ∈ snd (run_udp a_registration)) as I
    by (vm_compute; apply elem_of_cons; right; apply elem_of_cons; by left).
  split; [exact I|].
  apply (registered_only_when_accepted (H := box_plain) (H0 := base64_hex) (fun _ => tt) [] no_statics
    a_registration a_mediator a_loop (shared machine) (fst (fst (run_udp a_registration)))
    (snd (fst (run_udp a_registration))) (snd (run_udp a_registration)) "123456789" 3 a_loop_wf eq_refl
    ltac:(vm_compute; reflexivity) I).
Defined.

Definition proxied : Statics := mkStatics ∅ {["proxy-url"%string := "socks5://10.0.0.1"%string]} ∅ ∅ "" "".

Lemma relay_only_witness :
  Forall secure_relay (fst (handle_punch_hole proxied ascii_only (V6 [] 0) 1000000 a_mediator
                              (mkPunch [] [] "" 0 false 5000) [Byte.x01] "u" (shared machine))).
Proof.
  apply Forall_forall. intros a.
  apply (relay_only proxied ascii_only (V6 [] 0) 1000000 a_mediator (mkPunch [] [] "" 0 false 5000)
    (mkFetch [] [] "") [Byte.x01] "u" true (shared machine) a).
  right. reflexivity.
Defined.
