(* ===== verification/ClientConnect.v ===== *)
(** * Reaching a peer

    [src/client.rs], [Client::start] and what it calls: a connection to an address, or
    with the help of a rendezvous server, to the peer directly, over UDP, over IPv6
    or through a relay; and what is remembered of it in the session's handler
    ([LoginConfig]).

    What the network, the clock and the system answer are the fields of [Net]: one
    for the whole of an attempt, with one entry per round where there are rounds.
    The exchange of keys is that of [Handshake]; its outcome is a field. *)

From Stdlib Require Import Ascii.
From stdpp Require Import strings.
From S2P Require Import Prelude Utf8 NetAddr Regex Hosts Config ConnState PeerConfig LoginConfig SessionPasswords.
#[local] Open Scope Z_scope.

Definition CONNECT_TIMEOUT : Z := 18000.
Definition UNKNOWN_NAT : Z := 0.
Definition ASYMMETRIC : Z := 1.
Definition SYMMETRIC : Z := 2.

(** How a connection was made. *)
Inductive typ : Type := TCP | UDP | IPv6 | Relay | WebSocket.
#[export] Instance typ_eq_dec : EqDecision typ.
Proof. solve_decision. Defined.

(** A stream, whether it is direct, the peer's key, whether a KCP endpoint is kept
    with it, and the name of its kind. *)
Record Conn : Type := mkConn {
  cn_direct : bool;
  cn_pk : option bytes;
  cn_kcp : bool;
  cn_typ : typ;
}.

(** The messages of the rendezvous server that are looked at. *)
Inductive failure : Type := ID_NOT_EXIST | OFFLINE | LICENSE_MISMATCH | LICENSE_OVERUSE | OtherFailure.

Record PunchHoleResponse : Type := mkPunchResponse {
  pr_socket_addr : bytes;
  pr_pk : bytes;
  pr_failure : failure;
  pr_other_failure : string;
  pr_relay_server : string;
  pr_nat_type : Z;
  pr_is_local : bool;
  pr_feedback : Z;
  pr_is_udp : bool;
  pr_socket_addr_v6 : bytes;
}.

Record RelayResponse : Type := mkRelayResponse {
  rl_pk : bytes;
  rl_uuid : string;
  rl_relay_server : string;
  rl_refuse_reason : string;
  rl_socket_addr_v6 : bytes;
  rl_feedback : Z;
}.

Inductive reply : Type :=
| KeyExchangeReply
| PunchReply (ph : PunchHoleResponse)
| RelayReply (rr : RelayResponse)
| OtherReply.

(** What is sent to servers. *)
Inductive request : Type :=
| PunchHoleRequest (id token key : string) (nat_type udp_port : Z) (force_relay : bool) (v6 : bytes)
| RequestRelay (id token uuid relay_server : string) (secure : bool)
| JoinRelay (target key id uuid : string).

(** The answers of the surroundings.  [select_ok] gives the first of the attempts
    that works. *)
Record Net : Type := mkNet {
  n_reach : string -> bool;                  (** [connect_tcp] of a server, [connect_tcp_local] of a host *)
  n_secure_tcp : nat -> option string;       (** the error of [secure_tcp] in a round *)
  n_frames : nat -> list (option reply);     (** what arrives in a round; [None]: not a message *)
  n_up : nat -> bool;                        (** sending in a round *)
  n_ipv4 : nat -> bool;                      (** the local address of a round's socket *)
  n_uuid : nat -> string;
  n_select : list typ -> option typ;
  n_secure : bytes -> string + option bytes; (** [secure_connection] with the signed key *)
  n_udp_port : Z;
  n_v6 : option bytes;                       (** the local IPv6 socket's address *)
  n_v6_connects : bool;
  n_my_nat : Z;
  n_nat_again : Z;                           (** asking for it once more *)
  n_punch_ms : Z;
  n_join : bool;                             (** sending to the relay *)
  n_error : string;                          (** the error of an operation that fails *)
  n_any : SocketAddr;
}.

(** [select_ok] answers with one of the attempts. *)
Definition selects (net : Net) : Prop := forall l t, n_select net l = Some t -> t ∈ l.

(** The first message that is not an exchange of keys, among two. *)
(* src/src/common.rs:1536-1557 get_next_nonkeyexchange_msg *)
Definition get_next_nonkeyexchange_msg (frames : list (option reply)) : option reply :=
  let fix go (n : nat) (frames : list (option reply)) : option reply :=
    match n, frames with
    | S n, Some KeyExchangeReply :: frames => go n frames
    | S n, Some r :: _ => Some r
    | _, _ => None
    end in
  go 2%nat frames.

Section connect.
Context `{PeerStore} (other_digit : re).

(** ** Relays *)

(* src/src/client.rs:895-925 Client::create_relay *)
Definition create_relay (net : Net) (peer uuid relay_server key : string) (ipv4 : bool)
    : (string + unit) * list request :=
  let target := ipv4_to_ipv6 other_digit (check_port other_digit relay_server RELAY_PORT) ipv4 in
  if negb (n_reach net target) then (inl "Failed to connect to relay server"%string, [])
  else if n_join net then (inr tt, [JoinRelay target key peer uuid])
  else (inl (n_error net), []).

(** Is the connection to a server secured first? *)
Definition secures (key token : string) : bool :=
  negb (bool_decide (key = ""%string)) && negb (bool_decide (token = ""%string)).

(** The rounds: the session that was accepted, with the requests that were sent. *)
(* src/src/client.rs:845-889 Client::request_relay *)
Fixpoint request_rounds (net : Net) (rounds : list nat) (peer relay_server rendezvous_server : string) (secure : bool)
    (key token : string) : (string + option (string * bool)) * list request :=
  match rounds with
  | [] => (inr None, [])
  | i :: rounds =>
      if negb (n_reach net rendezvous_server) then (inl "Failed to connect to rendezvous server"%string, [])
      else
        match (if secures key token then n_secure_tcp net i else None) with
        | Some e => (inl e, [])
        | None =>
            let uuid := n_uuid net i in
            let sent := RequestRelay peer token uuid relay_server secure in
            if negb (n_up net i) then (inl (n_error net), [])
            else
              match get_next_nonkeyexchange_msg (n_frames net i) with
              | Some (RelayReply rs) =>
                  (if decide (rl_refuse_reason rs = ""%string) then inr (Some (uuid, n_ipv4 net i))
                   else inl (rl_refuse_reason rs), [sent])
              | _ =>
                  let '(r, l) := request_rounds net rounds peer relay_server rendezvous_server secure key token in
                  (r, sent :: l)
              end
        end
  end.

(* src/src/client.rs:835-893 Client::request_relay *)
Definition request_relay (net : Net) (peer relay_server rendezvous_server : string) (secure : bool) (key token : string)
    : (string + unit) * list request :=
  match request_rounds net [1; 2; 3]%nat peer relay_server rendezvous_server secure key token with
  | (inl e, sent) => (inl e, sent)
  | (inr None, sent) => (inl "Timeout"%string, sent)
  | (inr (Some (uuid, ipv4)), sent) =>
      let '(r, joined) := create_relay net peer uuid relay_server key ipv4 in (r, sent ++ joined)
  end.

(** ** To the peer *)

Definition MIN : Z := 1000.

(** [nat_again]: asking for the own type of NAT once more. *)
(* src/src/client.rs:646-677 Client::connect *)
Definition connect_timeout (is_local : bool) (peer_nat my_nat nat_again : Z) (relay_server : string)
    (direct_failures punch_ms : Z) : Z :=
  if is_local || (peer_nat =? SYMMETRIC) then MIN
  else
    let t :=
      if decide (relay_server = ""%string) then CONNECT_TIMEOUT
      else
        let t :=
          if peer_nat =? ASYMMETRIC then
            let my_nat := if my_nat =? UNKNOWN_NAT then nat_again else my_nat in
            if my_nat =? ASYMMETRIC then
              if 0 <? direct_failures then u64 (punch_ms * 6) else CONNECT_TIMEOUT
            else if my_nat =? SYMMETRIC then MIN else 0
          else 0 in
        if t =? 0 then u64 (punch_ms * (if 0 <? direct_failures then 3 else 6)) else t in
    if t <? MIN then MIN else t.

Definition set_direct_failure (v : Z) (lc : LoginConfigHandler) (f : ps_files) : LoginConfigHandler * ps_files :=
  let '(c, f) := load_config lc f in save_config (p_set_direct_failures v c) lc f.

(** The attempts run at once; where none works or a relay is forced, a relay is asked
    for. The requests that were sent come with the result. *)
(* src/src/client.rs:623-752 Client::connect *)
Definition connect (net : Net) (peer_id : string) (signed_id_pk : bytes) (relay_server rendezvous_server : string)
    (key token : string) (udp v6 : bool) (lc : LoginConfigHandler)
    : (string + Conn) * LoginConfigHandler * list request :=
  let kinds := [TCP] ++ (if udp then [UDP] else []) ++ (if v6 then [IPv6] else []) in
  let first := n_select net kinds in
  let kcp := match first with Some UDP | Some IPv6 => true | _ => false end in
  let finish (direct : bool) (t : typ) (sent : list request) : (string + Conn) * LoginConfigHandler * list request :=
    match n_secure net signed_id_pk with
    | inr pk => (inr (mkConn direct pk kcp t), lc, sent)
    | inl e => (inl e, l_set_direct (Some direct) lc, sent)
    end in
  match force_relay lc, first with
  | false, Some t => finish true t []
  | _, _ =>
      if decide (relay_server = ""%string) then
        (inl "Failed to make direct connection to remote desktop"%string, lc, [])
      else
        match request_relay net peer_id relay_server rendezvous_server (negb (bool_decide (signed_id_pk = []))) key token with
        | (inl e, sent) => (inl ("Failed to connect via relay server: " +:+ e)%string, l_set_direct (Some false) lc, sent)
        | (inr _, sent) => finish false Relay sent
        end
  end.

(** ** With the help of a rendezvous server *)

(** The server that is reached: the one given, else the first of the others. *)
(* src/src/client.rs:389-411 Client::_start_inner *)
Definition choose_server (net : Net) (rendezvous_server : string) (servers : list string) : option string :=
  if n_reach net rendezvous_server then Some rendezvous_server
  else List.find (n_reach net) (List.map (fun s => check_port other_digit s RENDEZVOUS_PORT) servers).

Definition failure_text (ph : PunchHoleResponse) : string :=
  if negb (bool_decide (pr_other_failure ph = ""%string)) then pr_other_failure ph
  else
    match pr_failure ph with
    | ID_NOT_EXIST => "ID does not exist"
    | OFFLINE => "Remote desktop is offline"
    | LICENSE_MISMATCH => "Key mismatch"
    | LICENSE_OVERUSE => "Key overuse"
    | OtherFailure => "other punch hole failure"
    end.

(** What the rounds of punching come to. *)
Inductive punched : Type :=
| NoAnswer
| PunchError (e : string)
| Punched (ph : PunchHoleResponse)
| RelayOffered (rr : RelayResponse).

(* src/src/client.rs:478-620 Client::_start_inner *)
Fixpoint punch_rounds (net : Net) (rounds : list nat) (req : request) : punched * list request :=
  match rounds with
  | [] => (NoAnswer, [])
  | i :: rounds =>
      if negb (n_up net i) then (PunchError (n_error net), [])
      else
        match get_next_nonkeyexchange_msg (n_frames net i) with
        | Some (PunchReply ph) =>
            (if decide (pr_socket_addr ph = []) then PunchError (failure_text ph) else Punched ph, [req])
        | Some (RelayReply rr) => (RelayOffered rr, [req])
        | _ => let '(r, l) := punch_rounds net rounds req in (r, req :: l)
        end
  end.

Definition port_of (a : SocketAddr) : Z := match a with V4 _ p | V6 _ p => p end.

(** A connection, the feedback and the server for the user, and whether failures of
    direct connections are counted. *)
Definition started : Type := Conn * (Z * string) * bool.

(** [udp]: there is a socket whose port outside is looked for. *)
(* src/src/client.rs:360-621 Client::_start_inner *)
Definition start_inner (net : Net) (use_ws : bool) (peer key token : string) (udp : bool)
    (rendezvous_server : string) (servers : list string) (lc : LoginConfigHandler)
    : (string + started) * LoginConfigHandler * list request :=
  match choose_server net rendezvous_server servers with
  | None => (inl (n_error net), lc, [])
  | Some rendezvous_server =>
      match (if secures key token then n_secure_tcp net 0 else None) with
      | Some e => (inl ("Failed to secure tcp: " +:+ e)%string, lc, [])
      | None =>
          let nat_type := if force_relay lc then SYMMETRIC
                          else if (0 <=? n_my_nat net) && (n_my_nat net <=? 2) then n_my_nat net else UNKNOWN_NAT in
          let udp_port := if udp then n_udp_port net else 0 in
          let req := PunchHoleRequest peer token key nat_type udp_port (force_relay lc) (default [] (n_v6 net)) in
          let has_v6 := bool_decide (is_Some (n_v6 net)) in
          match punch_rounds net [1; 2; 3]%nat req with
          | (PunchError e, sent) => (inl e, lc, sent)
          | (NoAnswer, sent) => (inl "Failed to connect via rendezvous server"%string, lc, sent)
          | (Punched ph, sent) =>
              let peer_addr := addr_decode (n_any net) (pr_socket_addr ph) in
              if port_of peer_addr =? 0 then (inl "Failed to connect via rendezvous server"%string, lc, sent)
              else
                let over_v6 := has_v6 && negb (bool_decide (pr_socket_addr_v6 ph = [])) &&
                               (0 <? port_of (addr_decode (n_any net) (pr_socket_addr_v6 ph))) in
                match connect net peer (pr_pk ph) (pr_relay_server ph) rendezvous_server key token
                        (udp && pr_is_udp ph) over_v6 lc with
                | (inl e, lc, l) => (inl e, lc, sent ++ l)
                | (inr c, lc, l) => (inr (c, (pr_feedback ph, rendezvous_server), true), lc, sent ++ l)
                end
          | (RelayOffered rr, sent) =>
              let over_v6 := has_v6 && (0 <? port_of (addr_decode (n_any net) (rl_socket_addr_v6 rr))) &&
                             n_v6_connects net in
              let '(relay, joined) := create_relay net peer (rl_uuid rr) (rl_relay_server rr) key (n_ipv4 net 0) in
              let kinds := (if over_v6 then [IPv6] else []) ++
                           (if relay is inr _ then [if use_ws then WebSocket else Relay] else []) in
              match n_select net kinds with
              | None => (inl (match relay with inl e => if over_v6 then n_error net else e | inr _ => n_error net end),
                         lc, sent ++ joined)
              | Some t =>
                  match n_secure net (rl_pk rr) with
                  | inl e => (inl e, lc, sent ++ joined)
                  | inr pk =>
                      (inr (mkConn (bool_decide (t = IPv6)) pk (bool_decide (t = IPv6)) t,
                            (rl_feedback rr, rendezvous_server), false), lc, sent ++ joined)
                  end
              end
          end
      end
  end.

(** ** Starting *)

(** Two attempts at once: the first that works, else the error of the last; the one
    that is given up is taken to have sent its requests. *)
Definition select_ok {A} (first : bool) (a b : string + A) : string + A :=
  match a, b with
  | inr _, inl _ => a
  | inl _, inr _ => b
  | _, _ => if first then a else b
  end.

(** The answers that are the same for the attempts of a start; [st_udp]: a socket for
    UDP could be opened; [st_first]: which of two attempts is done first. *)
Record Start : Type := mkStart {
  st_incoming_only : bool;
  st_use_ws : bool;
  st_udp_enabled : bool;
  st_udp : bool;
  st_first : bool;
  st_rendezvous : string * list string;
}.

(** A peer that is an address is connected to; else the server of the identifier, or
    the configured one, helps, over UDP and without it at once. *)
(* src/src/client.rs:234-358 Client::_start *)
Definition start_ (st : Start) (net net2 : Net) (peer key token : string) (lc : LoginConfigHandler)
    : (string + started) * LoginConfigHandler * list request :=
  let direct target :=
    if n_reach net target then (inr (mkConn true None false TCP, (0, ""%string), false), lc, [])
    else (inl (n_error net), lc, []) in
  if st_incoming_only st then (inl "Incoming only mode"%string, lc, [])
  else if is_ip_str other_digit peer then direct (check_port other_digit peer (RELAY_PORT + 1))
  else if is_domain_port_str other_digit peer then direct peer
  else
    let '(peer, other, key, token) :=
      match other_server lc with Some (a, b, c) => (a, b, c, ""%string) | None => (peer, ""%string, key, token) end in
    let '(server, servers) :=
      if decide (other = ""%string) then st_rendezvous st
      else if decide (other = PUBLIC_SERVER) then
        (check_port other_digit (hd ""%string RENDEZVOUS_SERVERS) RENDEZVOUS_PORT, tl RENDEZVOUS_SERVERS)
      else (check_port other_digit other RENDEZVOUS_PORT, []) in
    let udp := st_udp_enabled st && negb (force_relay lc) && st_udp st in
    if negb udp then start_inner net (st_use_ws st) peer key token false server servers lc
    else
      let '(r1, lc1, l1) := start_inner net (st_use_ws st) peer key token true server servers lc in
      let '(r2, lc2, l2) := start_inner net2 (st_use_ws st) peer key token false server servers lc1 in
      (select_ok (st_first st) r1 r2, lc2, l1 ++ l2).

(* src/src/client.rs:188-232 Client::start *)
Definition start (st : Start) (net net2 : Net) (peer key token : string) (lc : LoginConfigHandler) (f : ps_files)
    : (string + Conn * (Z * string)) * LoginConfigHandler * ps_files * list request :=
  let lc := l_set_received false (l_set_direct None lc) in
  match start_ st net net2 peer key token lc with
  | (inl e, lc, l) =>
      (inl (if String.prefix "Failed" e then (e +:+ ": Please try later")%string else e), lc, f, l)
  | (inr (c, x, counted), lc, l) =>
      let '(lc, f) :=
        if counted && negb (force_relay lc) && negb (Bool.eqb (direct_failures (config lc) =? 0) (cn_direct c))
        then set_direct_failure (if cn_direct c then 0 else 1) lc f else (lc, f) in
      (inr (c, x), lc, f, l)
  end.

(** ** Lemmas *)

(** The attempt that works. *)
Local Ltac pick t T :=
  match goal with |- context [n_select ?net ?l] => destruct (n_select net l) as [t|] eqn:T end.

Local Ltac failed := intros [= <- <- <-]; split; [by eauto|by intros].

Definition is_direct (t : typ) : bool := match t with TCP | UDP | IPv6 => true | Relay | WebSocket => false end.

Lemma direct_fields d lc :
  force_relay (l_set_direct d lc) = force_relay lc /\ config (l_set_direct d lc) = config lc /\
  lc_id (l_set_direct d lc) = lc_id lc.
Proof. done. Qed.

(** What [connect] leaves of the handler, and the kind it answers with. *)
Lemma connect_spec net peer pk relay server key token udp v6 lc r lc' sent :
  selects net -> connect net peer pk relay server key token udp v6 lc = (r, lc', sent) ->
  (lc' = lc \/ exists d, lc' = l_set_direct d lc) /\
  forall c, r = inr c -> cn_direct c = is_direct (cn_typ c) /\ (force_relay lc = true -> cn_typ c = Relay).
Proof.
  intros Sel. unfold connect. cbv zeta. destruct (request_relay _ _ _ _ _ _ _) as [[e|[]] l].
  all: destruct (force_relay lc) eqn:F; try pick t T; try case_decide.
  all: try (destruct (n_secure net pk)).
  all: intros [= <- <- <-]; (split; [eauto|intros c [= <-]; cbn; (split; [|done])]); try done.
  all: apply Sel in T; destruct udp, v6, t; cbn in T; try done; set_solver.
Qed.

Lemma start_inner_spec net ws peer key token udp server servers lc r lc' sent :
  selects net -> start_inner net ws peer key token udp server servers lc = (r, lc', sent) ->
  (lc' = lc \/ exists d, lc' = l_set_direct d lc) /\
  forall c x n, r = inr (c, x, n) -> cn_direct c = is_direct (cn_typ c) /\
    (force_relay lc = true -> n_v6 net = None -> is_direct (cn_typ c) = false).
Proof.
  intros Sel. unfold start_inner. cbv zeta. destruct (choose_server _ _ _) as [s|]; [|failed].
  destruct (if secures key token then _ else _); [failed|].
  destruct (punch_rounds _ _ _) as [[|e|ph|rr] l]; [failed..| |].
  - case_match; [failed|].
    destruct (connect _ _ _ _ _ _ _ _ _ _) as [[[e|c] lc1] l1] eqn:C;
      (apply connect_spec in C as [L K]; [|done]); intros [= <- <- <-]; (split; [exact L|]); [by intros|].
    intros c' x n [= <- _ _]. destruct (K c eq_refl) as [K1 K2]. split; [done|]. intros F _. by rewrite K2.
  - destruct (create_relay _ _ _ _ _ _) as [rl joined].
    pick t T; [|failed].
    apply Sel in T. destruct (n_secure net (rl_pk rr)); intros [= <- <- <-]; (split; [by eauto|]); [by intros|].
    intros c x n [= <- _ _]. cbn. destruct (n_v6 net) eqn:V; cbn in T.
    + destruct (_ && n_v6_connects net), rl, ws; cbn in T; destruct t; cbn; (split; intros; first [done|set_solver]).
    + destruct rl, ws; cbn in T; destruct t; cbn; (split; intros; first [done|set_solver]).
Qed.

(** Every request to punch a hole is the one given. *)
Lemma punch_rounds_sent net rounds req p sent : punch_rounds net rounds req = (p, sent) -> Forall (eq req) sent.
Proof.
  revert p sent. induction rounds as [|i rounds IH]; intros p sent; cbn [punch_rounds]; [intros [= <- <-]; constructor|].
  destruct (negb (n_up net i)); [intros [= <- <-]; constructor|].
  destruct (get_next_nonkeyexchange_msg (n_frames net i)) as [[|ph|rr|]|];
    try (destruct (punch_rounds net rounds req) as [r l] eqn:E); intros [= <- <-]; constructor; try done; try constructor; eauto.
Qed.

Definition asks_for_relay (r : request) : Prop :=
  match r with PunchHoleRequest _ _ _ nat _ force _ => nat = SYMMETRIC /\ force = true | _ => True end.

Lemma request_rounds_relay net rounds peer relay server secure key token r l :
  request_rounds net rounds peer relay server secure key token = (r, l) -> Forall asks_for_relay l.
Proof.
  revert r l. induction rounds as [|i rounds IH]; intros r l; cbn [request_rounds]; [by intros [= <- <-]|].
  destruct (negb (n_reach net server)); [by intros [= <- <-]|].
  destruct (if secures key token then _ else _); [by intros [= <- <-]|].
  destruct (negb (n_up net i)); [by intros [= <- <-]|].
  destruct (get_next_nonkeyexchange_msg (n_frames net i)) as [[|ph|rr|]|];
    try (destruct (request_rounds net rounds _ _ _ _ _ _) as [r' l'] eqn:E); intros [= <- <-];
    constructor; try done; eauto.
Qed.

Lemma request_relay_relay net peer relay server secure key token r l :
  request_relay net peer relay server secure key token = (r, l) -> Forall asks_for_relay l.
Proof.
  unfold request_relay. destruct (request_rounds _ _ _ _ _ _ _ _) as [[e|[[u v4]|]] l'] eqn:E; apply request_rounds_relay in E;
    try (intros [= <- <-]; exact E).
  unfold create_relay. destruct (negb _); [|destruct (n_join net)]; intros [= <- <-]; apply Forall_app_2; try done.
  by repeat constructor.
Qed.

Lemma connect_relay net peer pk relay server key token udp v6 lc r lc' l :
  connect net peer pk relay server key token udp v6 lc = (r, lc', l) -> Forall asks_for_relay l.
Proof.
  unfold connect. cbv zeta. destruct (request_relay _ _ _ _ _ _ _) as [[e|[]] l'] eqn:E; apply request_relay_relay in E;
    destruct (force_relay lc); try pick t T; try case_decide; try destruct (n_secure net pk);
    intros [= _ _ <-]; done.
Qed.

Lemma start_inner_relay net ws peer key token udp server servers lc r lc' l :
  force_relay lc = true -> start_inner net ws peer key token udp server servers lc = (r, lc', l) -> Forall asks_for_relay l.
Proof.
  intros F. unfold start_inner. cbv zeta. rewrite F.
  destruct (choose_server _ _ _) as [s|]; [|by intros [= _ _ <-]].
  destruct (if secures key token then _ else _); [by intros [= _ _ <-]|].
  destruct (punch_rounds _ _ _) as [p sent] eqn:P. apply punch_rounds_sent in P.
  assert (Forall asks_for_relay sent) as R by (eapply Forall_impl; [exact P|]; by intros q <-).
  destruct p as [|e|ph|rr]; [by intros [= _ _ <-]..| |].
  - destruct (port_of _ =? 0); [by intros [= _ _ <-]|].
    destruct (connect _ _ _ _ _ _ _ _ _ _) as [[[e|c] lc1] l1] eqn:C; apply connect_relay in C;
      intros [= _ _ <-]; by apply Forall_app_2.
  - unfold create_relay. destruct (negb _), (n_join net); pick t T; try destruct (n_secure net (rl_pk rr));
      intros [= _ _ <-]; apply Forall_app_2; try done; by repeat constructor.
Qed.

(** A session that is forced to a relay gets one: where the peer is an identifier,
    every request for it says so to the rendezvous server (with the type of NAT
    that makes the other end use a relay), and a connection that results is not
    direct and is not counted as a failure of direct connections.  (An IPv6
    socket is still offered where there is one, which is why none is assumed.) *)
Theorem forced_relay st net net2 peer key token lc f c x lc' f' l :
  selects net -> force_relay lc = true -> n_v6 net = None ->
  is_ip_str other_digit peer = false -> is_domain_port_str other_digit peer = false ->
  start st net net2 peer key token lc f = (inr (c, x), lc', f', l) ->
  cn_direct c = false /\ (cn_typ c = Relay \/ cn_typ c = WebSocket) /\
  f' = f /\ config lc' = config lc /\ Forall asks_for_relay l.
Proof.
  intros Sel F V I D. unfold start, start_. rewrite I, D.
  set (lc0 := l_set_received false (l_set_direct None lc)).
  assert (force_relay lc0 = true /\ config lc0 = config lc) as [F0 C0] by done.
  destruct (st_incoming_only st); [done|].
  destruct (match other_server lc0 with Some _ => _ | None => _ end) as [[[p o] k] t].
  destruct (if decide (o = ""%string) then _ else _) as [server servers].
  rewrite F0, andb_false_r. cbn [negb andb].
  destruct (start_inner _ _ _ _ _ _ _ _ lc0) as [[[e|[[c1 x1] n]] lc1] l1] eqn:E; [done|].
  pose proof (start_inner_relay _ _ _ _ _ _ _ _ _ _ _ _ F0 E) as R.
  apply start_inner_spec in E as [L K]; [|done]. destruct (K _ _ _ eq_refl) as [K1 K2]. specialize (K2 F0 V).
  assert (force_relay lc1 = true /\ config lc1 = config lc) as [F1 C1] by (by destruct L as [->|[d ->]]).
  rewrite F1, andb_false_r. cbn [negb andb]. intros [= <- <- <- <- <-].
  split_and!; [by rewrite K1|by destruct (cn_typ c1); auto|done|done|done].
Qed.

(** A peer that cannot be reached directly is reached through the relay: where the
    rendezvous server answers one of the three requests with an acceptance, and
    not before with a refusal, and the relay can be joined, [connect] answers
    with a connection over the relay, joined under the identifier of the request
    that was accepted. *)
Theorem relay_fallback net peer pk relay server key token udp v6 lc k rs spk :
  (forall l, n_select net l = None) -> relay <> ""%string ->
  let target := ipv4_to_ipv6 other_digit (check_port other_digit relay RELAY_PORT) (n_ipv4 net k) in
  n_reach net server = true -> n_reach net target = true -> n_join net = true ->
  (forall i, n_up net i = true /\ n_secure_tcp net i = None) ->
  (1 <= k <= 3)%nat -> get_next_nonkeyexchange_msg (n_frames net k) = Some (RelayReply rs) ->
  rl_refuse_reason rs = ""%string ->
  (forall i, (i < k)%nat -> get_next_nonkeyexchange_msg (n_frames net i) = None) ->
  n_secure net pk = inr spk ->
  connect net peer pk relay server key token udp v6 lc =
    (inr (mkConn false spk false Relay), lc,
     ((fun i => RequestRelay peer token (n_uuid net i) relay (negb (bool_decide (pk = [])))) <$> seq 1 k) ++
     [JoinRelay target key peer (n_uuid net k)]).
Proof.
  intros N RN target R1 R2 J U K A RF B SC. unfold connect. cbv zeta. rewrite N, decide_False by done.
  assert (request_rounds net [1; 2; 3]%nat peer relay server (negb (bool_decide (pk = []))) key token =
    (inr (Some (n_uuid net k, n_ipv4 net k)),
     (fun i => RequestRelay peer token (n_uuid net i) relay (negb (bool_decide (pk = [])))) <$> seq 1 k)) as E.
  { assert (forall i, (if secures key token then n_secure_tcp net i else None) = None) as Sc
      by (intros i; destruct (U i) as [_ ->]; by destruct (secures _ _)).
    assert (k = 1 \/ k = 2 \/ k = 3)%nat as [->|[->| ->]] by lia; cbn [request_rounds];
      rewrite R1, !Sc, ?(proj1 (U 1%nat)), ?(proj1 (U 2%nat)), ?(proj1 (U 3%nat)); cbn [negb];
      rewrite ?(B 1%nat), ?(B 2%nat) by lia; by rewrite A, decide_True. }
  unfold request_relay. rewrite E. unfold create_relay. fold target. rewrite R2, J, SC. cbn.
  by destruct (force_relay lc).
Qed.

(** A direct connection is waited for at least a second, and no longer than the
    usual timeout or six times what finding the peer took: the arithmetic does
    not overflow for a search of less than seventy million years. *)
Theorem connect_timeout_bounds is_local peer_nat my_nat again relay failures punch_ms :
  0 <= punch_ms < 2 ^ 61 ->
  MIN <= connect_timeout is_local peer_nat my_nat again relay failures punch_ms <= Z.max CONNECT_TIMEOUT (6 * punch_ms).
Proof.
  intros L. unfold connect_timeout, MIN, CONNECT_TIMEOUT. destruct (0 <? failures); rewrite !wrap_small by (unfold in_u; lia);
    repeat case_match; lia.
Qed.
End connect.

(** ** Concrete attempts *)

(** A network where servers are reached and direct connections are not; the third
    request of each kind is answered. *)
Definition a_relay : RelayResponse := mkRelayResponse [] "s" "relay.example.org" "" [] 0.
Definition a_net : Net :=
  mkNet (fun _ => true) (fun _ => None)
    (fun i => if decide (i = 3%nat) then [Some KeyExchangeReply; Some (RelayReply a_relay)] else [])
    (fun _ => true) (fun _ => true) (fun i => if decide (i = 3%nat) then "third" else "other")%string
    (fun _ => None) (fun _ => inr (Some [Byte.x01])) 0 None false ASYMMETRIC ASYMMETRIC 100 true "io"
    (V4 [Byte.x00; Byte.x00; Byte.x00; Byte.x00] 0).

(** The same network, where the first of the attempts works. *)
Definition first_net : Net :=
  mkNet (n_reach a_net) (n_secure_tcp a_net) (n_frames a_net) (n_up a_net) (n_ipv4 a_net) (n_uuid a_net)
    head (n_secure a_net) 0 None false ASYMMETRIC ASYMMETRIC 100 true "io" (n_any a_net).

Lemma first_selects : selects first_net.
Proof. intros [|t l] t'; [done|]. intros [= <-]. by left. Qed.

Definition forced_session : LoginConfigHandler :=
  mkLch "123456789" DEFAULT_CONN false (mkHash "" "") [] false (config (a_session None)) (""%string, 0) 0 None 0 None
    false true None false None None None None None Undefined None false false.

Definition a_start : Start := mkStart false false true true true ("rs.example.org:21116"%string, []).

Definition forced_result :=
  start (H := a_store) ascii_only a_start first_net first_net "123456789" "" "" forced_session no_files.

Lemma forced_relay_witness :
  match forced_result with
  | (inr (c, _), _, _, _) => cn_direct c = false /\ (cn_typ c = Relay \/ cn_typ c = WebSocket)
  | _ => False
  end.
Proof.
  destruct forced_result as [[[[e|[c x]] lc'] f'] l] eqn:E; [vm_compute in E; discriminate E|].
  destruct (forced_relay (H := a_store) ascii_only a_start first_net first_net "123456789" "" "" forced_session no_files
    c x lc' f' l first_selects eq_refl eq_refl) as (D & K & _).
  - vm_compute. reflexivity.
  - vm_compute. reflexivity.
  - exact E.
  - split; [exact D|exact K].
Defined.

Lemma relay_fallback_witness :
  exists sent, connect ascii_only a_net "123456789" [Byte.x02] "relay.example.org" "rs.example.org:21116" "" "" false false
    (a_session None) = (inr (mkConn false (Some [Byte.x01]) false Relay), a_session None, sent).
Proof.
  eexists. apply (relay_fallback ascii_only a_net "123456789" [Byte.x02] "relay.example.org" "rs.example.org:21116"
    "" "" false false (a_session None) 3 a_relay (Some [Byte.x01])).
  - intros l. reflexivity.
  - discriminate.
  - reflexivity.
  - reflexivity.
  - reflexivity.
  - intros i. by split.
  - split; repeat constructor.
  - reflexivity.
  - reflexivity.
  - intros i L. cbn [n_frames a_net]. rewrite decide_False; [reflexivity|]. intros ->. by apply PeanoNat.Nat.lt_irrefl in L.
  - reflexivity.
Defined.

Lemma connect_timeout_bounds_witness :
  MIN <= connect_timeout false ASYMMETRIC ASYMMETRIC UNKNOWN_NAT "relay" 1 300 <= Z.max CONNECT_TIMEOUT (6 * 300).
Proof. apply connect_timeout_bounds. split; [discriminate|reflexivity]. Defined.
