(* ===== verification/ClientVideo.v ===== *)
(** * The video threads of the client

    [src/client/io_loop.rs] and [src/client.rs]: frames that arrive are handed to a thread
    for each display, which decodes them.  A key frame goes through the thread's channel; any
    other goes into a queue of 120, and a token through the channel says that it is there.
    When the queue is full its oldest frame is lost and the video is asked for anew, which
    has the frames up to the next key frame skipped.  Every second the rate asked of the
    other side is adapted to the speed of decoding ([fps_control]).

    The events are interleaved freely: a frame arrives, the event loop takes a message of the
    session, a thread takes an item of its channel.  The decoder is that of [CodecChoice]. *)

From S2P Require Import Prelude VideoQos CodecChoice.

Definition VIDEO_QUEUE_SIZE : Z := 120.
Definition MAX_DECODE_FAIL_COUNTER : Z := 3.

(** ** Frames *)

(* src/libs/hbb_common/protos/message.proto:4-8 EncodedVideoFrame *)
Record EncodedVideoFrame : Type := mkEncoded { ef_data : bytes; ef_key : bool; ef_pts : Z }.

(* src/libs/hbb_common/protos/message.proto:25-36 VideoFrame *)
Inductive vf_union : Type :=
| Vp9s (l : list EncodedVideoFrame)
| RGB (compress : bool)
| YUV (compress : bool) (stride : Z)
| H264s (l : list EncodedVideoFrame)
| H265s (l : list EncodedVideoFrame)
| Vp8s (l : list EncodedVideoFrame)
| Av1s (l : list EncodedVideoFrame).

Record VideoFrame : Type := mkFrame { vf_of : option vf_union; vf_display : Z }.

#[export] Instance EncodedVideoFrame_eq_dec : EqDecision EncodedVideoFrame.
Proof. solve_decision. Defined.
#[export] Instance vf_union_eq_dec : EqDecision vf_union.
Proof. solve_decision. Defined.
#[export] Instance VideoFrame_eq_dec : EqDecision VideoFrame.
Proof. solve_decision. Defined.

(* src/libs/scrap/src/common/mod.rs:305-316 CodecFormat::from *)
Definition format_of (vf : VideoFrame) : CodecFormat :=
  match vf_of vf with
  | Some (Vp8s _) => VP8
  | Some (Vp9s _) => VP9
  | Some (Av1s _) => AV1
  | Some (H264s _) => H264
  | Some (H265s _) => H265
  | _ => Unknown
  end.

Definition encoded (vf : VideoFrame) : list EncodedVideoFrame :=
  match vf_of vf with
  | Some (Vp8s l) | Some (Vp9s l) | Some (Av1s l) | Some (H264s l) | Some (H265s l) => l
  | _ => []
  end.

(* src/src/client/io_loop.rs:1122-1131 Remote::contains_key_frame *)
Definition contains_key_frame (vf : VideoFrame) : bool := existsb ef_key (encoded vf).

(** [vf.display as usize]. *)
Definition display_of (vf : VideoFrame) : Z := usize (vf_display vf).

(** ** The state *)

(** What the audio thread gets is left out. *)
(* src/src/client.rs:2778-2785 MediaData *)
Inductive MediaData : Type :=
| VideoQueue
| MVideoFrame (vf : VideoFrame)
| Reset
| RecordScreen (start : bool).

(** Instants are milliseconds. *)
(* src/src/client/io_loop.rs:2418-2424 FpsControl *)
Record FpsControl : Type := mkFps {
  refresh_times : Z;
  last_refresh_instant : option Z;
  idle_counter : Z;
  inactive_counter : Z;
}.

Definition no_fps : FpsControl := mkFps 0 None 0 0.

(* src/src/client/io_loop.rs:2426-2433 VideoThread *)
Record VideoThread : Type := mkThread {
  video_queue : list VideoFrame;
  video_sender : list MediaData;
  decode_fps : option Z;
  frame_count : Z;
  discard_queue : bool;
  vt_fps_control : FpsControl;
}.

Definition t_set_queue (q : list VideoFrame) (t : VideoThread) : VideoThread :=
  mkThread q (video_sender t) (decode_fps t) (frame_count t) (discard_queue t) (vt_fps_control t).
Definition t_set_sender (c : list MediaData) (t : VideoThread) : VideoThread :=
  mkThread (video_queue t) c (decode_fps t) (frame_count t) (discard_queue t) (vt_fps_control t).
Definition t_set_decode (f : option Z) (n : Z) (t : VideoThread) : VideoThread :=
  mkThread (video_queue t) (video_sender t) f n (discard_queue t) (vt_fps_control t).
Definition t_set_discard (b : bool) (t : VideoThread) : VideoThread :=
  mkThread (video_queue t) (video_sender t) (decode_fps t) (frame_count t) b (vt_fps_control t).
Definition t_set_control (c : FpsControl) (t : VideoThread) : VideoThread :=
  mkThread (video_queue t) (video_sender t) (decode_fps t) (frame_count t) (discard_queue t) c.

(** [VideoThread::video_sender.send]. *)
Definition t_send (m : MediaData) (t : VideoThread) : VideoThread :=
  t_set_sender (video_sender t ++ [m]) t.

(** [recorder]: whether there is one. *)
(* src/src/client.rs:1537-1546 VideoHandler *)
Record VideoHandler : Type := mkHandler {
  vh_decoder : Decoder;
  recorder : bool;
  vh_record : bool;
  fail_counter : Z;
  vh_first_frame : bool;
}.

(** The variables of a thread that decodes; [duration] in nanoseconds. *)
Record Locals : Type := mkLocals {
  video_handler : option VideoHandler;
  dl_count : Z;
  duration : Z;
  skip_beginning : Z;
  last_chroma : option Z;
}.
Definition no_locals : Locals := mkLocals None 0 0 0 None.

(** The fields of [LoginConfigHandler] that the threads read and write. *)
Record VideoLc : Type := mkVlc {
  vl_custom_fps : option Z;
  last_auto_fps : option Z;
  mark_unsupported : list CodecFormat;
  record_state : bool;
  record_permission : bool;
  multi_ui : bool;           (** the other side's version has sessions with several windows *)
}.
Definition vl_set_auto (f : option Z) (lc : VideoLc) : VideoLc :=
  mkVlc (vl_custom_fps lc) f (mark_unsupported lc) (record_state lc) (record_permission lc) (multi_ui lc).
Definition vl_set_unsupported (l : list CodecFormat) (lc : VideoLc) : VideoLc :=
  mkVlc (vl_custom_fps lc) (last_auto_fps lc) l (record_state lc) (record_permission lc) (multi_ui lc).
Definition vl_set_record (s : bool) (lc : VideoLc) : VideoLc :=
  mkVlc (vl_custom_fps lc) (last_auto_fps lc) (mark_unsupported lc) s (record_permission lc) (multi_ui lc).
Definition vl_set_permission (p : bool) (lc : VideoLc) : VideoLc :=
  mkVlc (vl_custom_fps lc) (last_auto_fps lc) (mark_unsupported lc) (record_state lc) p (multi_ui lc).

(** Messages for the other side; [MOther] stands for those the video is not concerned with. *)
Inductive message : Type :=
| MRefreshVideo
| MRefreshVideoDisplay (display : Z)
| MCustomFps (fps : Z)
| MSupportedDecoding (unsupported : list CodecFormat)
| MClientRecordStatus (start : bool)
| MOther (n : Z).

(** The part of [Remote] that is about video, with the threads' variables and the messages
    [Data::Message] that wait in the session's channel. *)
Record Video : Type := mkVideo {
  first_frame : bool;
  video_format : CodecFormat;
  video_threads : gmap Z (VideoThread * Locals);
  chroma : option Z;
  last_record_state : bool;
  lc : VideoLc;
  to_loop : list message;
}.

Definition v_set_threads (m : gmap Z (VideoThread * Locals)) (v : Video) : Video :=
  mkVideo (first_frame v) (video_format v) m (chroma v) (last_record_state v) (lc v) (to_loop v).
Definition v_set_lc (l : VideoLc) (v : Video) : Video :=
  mkVideo (first_frame v) (video_format v) (video_threads v) (chroma v) (last_record_state v) l (to_loop v).
Definition v_set_loop (q : list message) (v : Video) : Video :=
  mkVideo (first_frame v) (video_format v) (video_threads v) (chroma v) (last_record_state v) (lc v) q.
Definition v_set_seen (f : CodecFormat) (v : Video) : Video :=
  mkVideo true f (video_threads v) (chroma v) (last_record_state v) (lc v) (to_loop v).
Definition v_set_chroma (c : option Z) (v : Video) : Video :=
  mkVideo (first_frame v) (video_format v) (video_threads v) c (last_record_state v) (lc v) (to_loop v).
Definition v_set_last_record (b : bool) (v : Video) : Video :=
  mkVideo (first_frame v) (video_format v) (video_threads v) (chroma v) b (lc v) (to_loop v).

(** [session.send(Data::Message(m))]. *)
Definition post (m : message) (v : Video) : Video := v_set_loop (to_loop v ++ [m]) v.
Definition update_threads (f : VideoThread -> VideoThread) (v : Video) : Video :=
  v_set_threads ((fun t => (f t.1, t.2)) <$> video_threads v) v.
Definition update_thread (k : Z) (f : VideoThread -> VideoThread) (v : Video) : Video :=
  v_set_threads (alter (fun t => (f t.1, t.2)) k (video_threads v)) v.

(** What happens: a message goes out, a frame is given to the decoder, a frame that was
    decoded is shown, a frame is written to the record, a frame is dropped from a full
    queue; and what is done when the first frame arrives. *)
Inductive veffect : Type :=
| FirstFrame
| Sent (m : message)
| Decoded (k : Z) (vf : VideoFrame)
| Shown (k : Z)
| Written (k : Z) (vf : VideoFrame)
| Dropped (k : Z) (vf : VideoFrame)
| RecordStatus (start : bool).

(** ** A frame arrives *)

(* src/src/ui_session_interface.rs:420-429 Session::refresh_video *)
Definition refresh_video (display : Z) (v : Video) : Video :=
  if multi_ui (lc v) then post (MRefreshVideoDisplay display) v else post MRefreshVideo v.

(* src/src/client/io_loop.rs:2361-2384 Remote::update_record_state *)
Definition update_record_state (v : Video) : Video * list veffect :=
  let permission := record_permission (lc v) in
  let v := if permission then v else v_set_lc (vl_set_record false (lc v)) v in
  let start := record_state (lc v) && permission in
  if bool_decide (last_record_state v = start) then (v, [])
  else
    let v := update_threads (t_send (RecordScreen start)) (v_set_last_record start v) in
    (post (MClientRecordStatus start) v, [RecordStatus start]).

(** [auto_record]: the option to record what goes out. *)
(* src/src/client/io_loop.rs:2316-2359 Remote::new_video_thread *)
Definition new_video_thread (auto_record : bool) (display : Z) (v : Video) : Video * list veffect :=
  let thread := mkThread [] [] None 0 false no_fps in
  let v := v_set_threads (<[display := (thread, no_locals)]> (video_threads v)) v in
  if bool_decide (size (video_threads v) = 1%nat) then
    update_record_state (v_set_lc (vl_set_record auto_record (lc v)) v)
  else (v, []).

(** [ArrayQueue::force_push]: the oldest element is returned when the queue is full. *)
Definition force_push (q : list VideoFrame) (vf : VideoFrame) : option VideoFrame * list VideoFrame :=
  if zlen q <? VIDEO_QUEUE_SIZE then (None, q ++ [vf])
  else match q with
       | [] => (None, [vf])
       | old :: q => (Some old, q ++ [vf])
       end.

(* src/src/client/io_loop.rs:1301-1317 Remote::handle_msg_from_peer *)
Definition queue_frame (k : Z) (vf : VideoFrame) (v : Video) : Video * list veffect :=
  match video_threads v !! k with
  | None => (v, [])
  | Some (t, l) =>
      let set t := v_set_threads (<[k := (t, l)]> (video_threads v)) v in
      if contains_key_frame vf then (set (t_send (MVideoFrame vf) t), [])
      else
        let '(old, q) := force_push (video_queue t) vf in
        match old with
        | Some old => (refresh_video (i32 k) (set (t_set_queue q t)), [Dropped k old])
        | None => (set (t_send VideoQueue (t_set_queue q t)), [])
        end
  end.

(* src/src/client/io_loop.rs:1286-1318 Remote::handle_msg_from_peer *)
Definition on_video_frame (auto_record : bool) (vf : VideoFrame) (v : Video) : Video * list veffect :=
  let e0 := if first_frame v then [] else [FirstFrame] in
  let v := v_set_seen (format_of vf) v in
  let k := display_of vf in
  let '(v, e1) := match video_threads v !! k with
                  | None => new_video_thread auto_record k v
                  | Some _ => (v, [])
                  end in
  let '(v, e2) := queue_frame k vf v in
  (v, e0 ++ e1 ++ e2).

(** ** The event loop takes a message of the session *)

(* src/src/client/io_loop.rs:552-571 Remote::handle_msg_from_ui *)
Definition on_ui_message (m : message) (v : Video) : Video * list veffect :=
  let v := match m with
           | MRefreshVideo => update_threads (t_set_discard true) v
           | MRefreshVideoDisplay d => update_thread (usize d) (t_set_discard true) v
           | _ => v
           end in
  (v, [Sent m]).

Definition take_ui_message (v : Video) : Video * list veffect :=
  match to_loop v with
  | [] => (v, [])
  | m :: q => on_ui_message m (v_set_loop q v)
  end.

(* src/src/client/io_loop.rs:983-994 Remote::handle_msg_from_ui *)
Definition on_reset_decoder (display : option Z) (v : Video) : Video :=
  match display with
  | Some k => update_thread k (t_send Reset) v
  | None => update_threads (t_send Reset) v
  end.

(* src/src/client/io_loop.rs:938-941 Remote::handle_msg_from_ui *)
Definition on_record_screen (start : bool) (v : Video) : Video * list veffect :=
  update_record_state (v_set_lc (vl_set_record start (lc v)) v).

(* src/src/client/io_loop.rs:1743-1747 Remote::handle_msg_from_peer *)
Definition on_record_permission (enabled : bool) (v : Video) : Video * list veffect :=
  update_record_state (v_set_lc (vl_set_permission enabled (lc v)) v).

(** ** A thread decodes *)

(** What the machine and the libraries answer while a frame is decoded. *)
Record DecodeEnv : Type := mkDecodeEnv {
  de_machine : Machine;
  de_creates : DecoderKind -> bool;
  de_luid : option Z;
  de_run : DecoderKind -> list EncodedVideoFrame -> result string bool;
  de_chroma : option Z;      (** what decoding writes to [tmp_chroma] *)
  de_recorder : bool;        (** [Recorder::new] gives one *)
  de_elapsed : Z;            (** the time decoding takes, in nanoseconds *)
}.

Section decode.
Context (env : DecodeEnv).

Definition make_decoder (f : CodecFormat) : Decoder :=
  new_decoder (de_machine env) (de_creates env) f (de_luid env).

(* src/src/client.rs:1560-1579 VideoHandler::new *)
Definition new_handler (f : CodecFormat) : VideoHandler :=
  mkHandler (make_decoder f) false false 0 true.

(* src/src/client.rs:1636-1648 VideoHandler::reset *)
Definition reset (f : option CodecFormat) (h : VideoHandler) : VideoHandler :=
  mkHandler (make_decoder (default (format (vh_decoder h)) f)) (recorder h) (vh_record h) 0 true.

(* src/src/client.rs:1651-1669 VideoHandler::record_screen *)
Definition record_screen (start : bool) (h : VideoHandler) : VideoHandler :=
  mkHandler (vh_decoder h) (start && de_recorder env) start (fail_counter h) (vh_first_frame h).

(** The result, and whether the frame is written to the record. *)
(* src/src/client.rs:1583-1633 VideoHandler::handle_frame *)
Definition handle_frame (vf : VideoFrame) (h : VideoHandler) : result string bool * VideoHandler * bool :=
  let h := if bool_decide (format_of vf = format (vh_decoder h)) then h
           else reset (Some (format_of vf)) h in
  match vf_of vf with
  | Some _ =>
      let res := handle_video_frame (de_run env) (format_of vf) (encoded vf) (vh_decoder h) in
      let fails :=
        if bool_decide (res = Ok true) then 0
        else if fail_counter h <? 2 ^ 64 - 1 then
          if vh_first_frame h && (fail_counter h <? MAX_DECODE_FAIL_COUNTER) then MAX_DECODE_FAIL_COUNTER
          else fail_counter h + 1
        else fail_counter h in
      (res, mkHandler (vh_decoder h) (recorder h) (vh_record h) fails false,
       vh_record h && recorder h)
  | None => (Ok false, h, false)
  end.

(** [count], [duration] and [skip_beginning], with the rate when it is known anew. *)
(* src/src/client.rs:2973-3003 fps_calculate *)
Definition fps_calculate (format_changed : bool) (elapsed : Z) (l : Locals) (fps : option Z)
    : Locals * option Z :=
  let l := if format_changed then mkLocals (video_handler l) 0 0 0 (last_chroma l) else l in
  if skip_beginning l <? 3 then
    (mkLocals (video_handler l) (dl_count l) (duration l) (skip_beginning l + 1) (last_chroma l), fps)
  else
    let d := duration l + elapsed in
    let c := dl_count l + 1 in
    let ms := d / 1000000 in
    let fps := if (c `mod` 10 =? 0) && (0 <? ms) then Some (c * 1000 / usize ms) else fps in
    let '(c, d) := if 30 <=? c then (0, 0) else (c, d) in
    (mkLocals (video_handler l) c d (skip_beginning l) (last_chroma l), fps).

Definition set_handler (h : option VideoHandler) (l : Locals) : Locals :=
  mkLocals h (dl_count l) (duration l) (skip_beginning l) (last_chroma l).
Definition set_last_chroma (c : option Z) (l : Locals) : Locals :=
  mkLocals (video_handler l) (dl_count l) (duration l) (skip_beginning l) c.

(** A decoder that does not work is not asked for again. *)
(* src/src/client.rs:2904-2923 start_video_thread *)
Definition check_decoder (h : VideoHandler) (v : Video) : Video :=
  if negb (valid (vh_decoder h)) || (MAX_DECODE_FAIL_COUNTER <=? fail_counter h) then
    let f := format (vh_decoder h) in
    if bool_decide (f ∈ mark_unsupported (lc v)) then v
    else
      let l := mark_unsupported (lc v) ++ [f] in
      post (MSupportedDecoding l) (v_set_lc (vl_set_unsupported l (lc v)) v)
  else v.

(* src/src/client.rs:2841-2923 start_video_thread *)
Definition decode_frame (k : Z) (vf : VideoFrame) (t : VideoThread) (l : Locals) (v : Video)
    : Video * list veffect :=
  let h := match video_handler l with
           | Some h => h
           | None =>
               let h := new_handler (format_of vf) in
               if record_state (lc v) && record_permission (lc v) then record_screen true h else h
           end in
  let format_changed := negb (bool_decide (format (vh_decoder h) = format_of vf)) in
  let '(res, h, written) := handle_frame vf h in
  let l := set_handler (Some h) l in
  let w := if written then [Written k vf] else [] in
  let set t l v := v_set_threads (<[k := (t, l)]> (video_threads v)) v in
  match res with
  | Ok true =>
      let changed := negb (bool_decide (de_chroma env = None)) &&
                     negb (bool_decide (last_chroma l = de_chroma env)) in
      let v := if changed then v_set_chroma (de_chroma env) v else v in
      let l := if changed then set_last_chroma (de_chroma env) l else l in
      let '(l, fps) := fps_calculate format_changed (de_elapsed env) l (decode_fps t) in
      (check_decoder h (set (t_set_decode fps (frame_count t + 1) t) l v), Decoded k vf :: w ++ [Shown k])
  | Ok false => (check_decoder h (set t l v), Decoded k vf :: w)
  | Err _ => (check_decoder h (refresh_video (i32 (display_of vf)) (set t l v)), Decoded k vf :: w)
  end.

(** One turn of the thread's loop; nothing to receive: it waits.  Taking a frame and asking whether
    the queue is discarded are one step: only another thread's refresh can come in between, and
    that is as if it had come before the frame was taken. *)
(* src/src/client.rs:2816-2940 start_video_thread *)
Definition video_turn (k : Z) (v : Video) : Video * list veffect :=
  match video_threads v !! k with
  | None => (v, [])
  | Some (t, l) =>
      match video_sender t with
      | [] => (v, [])
      | m :: c =>
          let t := t_set_sender c t in
          let set t l := v_set_threads (<[k := (t, l)]> (video_threads v)) v in
          match m with
          | MVideoFrame vf =>
              let t := t_set_discard false t in decode_frame k vf t l (set t l)
          | VideoQueue =>
              match video_queue t with
              | [] => (set t l, [])
              | vf :: q =>
                  let t := t_set_queue q t in
                  if discard_queue t then (set t l, []) else decode_frame k vf t l (set t l)
              end
          | Reset => (set t (set_handler (reset None <$> video_handler l) l), [])
          | RecordScreen start =>
              (set t (set_handler (record_screen start <$> video_handler l) l), [])
          end
      end
  end.

End decode.

(** ** The rate that is asked for *)

Definition c_set_idle (n : Z) (c : FpsControl) : FpsControl :=
  mkFps (refresh_times c) (last_refresh_instant c) n (inactive_counter c).

Definition inactive_threshold : Z := 15.

Definition count_inactive (real : Z) (c : FpsControl) : FpsControl :=
  mkFps (refresh_times c) (last_refresh_instant c) (idle_counter c)
    (if real =? 0 then inactive_counter c + 1 else 0).

(** [Option]'s order has [None] first. *)
Definition min_option (a b : option Z) : option Z :=
  match a, b with Some a, Some b => Some (Z.min a b) | _, _ => None end.
Definition min_flatten (l : list (option Z)) : option Z :=
  match l with [] => None | x :: l => foldl min_option x l end.

(* src/src/client/io_loop.rs:1145-1150 Remote::fps_control *)
Definition usable_custom_fps (custom : option Z) : Z :=
  let f := default 30 custom in if (f <? 5) || (120 <? f) then 30 else f.

(* src/src/client/io_loop.rs:1157-1166 Remote::fps_control *)
Definition min_decode_fps (m : gmap Z (VideoThread * Locals)) : option Z :=
  min_flatten (decode_fps <$>
    filter (fun t => inactive_counter (vt_fps_control t) < inactive_threshold)
      (fst <$> (map_to_list m).*2)).

(* src/src/client/io_loop.rs:1152-1156 Remote::fps_control *)
Definition max_queue_len (m : gmap Z (VideoThread * Locals)) : Z :=
  foldr Z.max 0 ((fun t => zlen (video_queue (t.2.1))) <$> map_to_list m).

(* src/src/client/io_loop.rs:1167-1175 Remote::fps_control *)
Definition limited_fps (direct : bool) (decode custom : Z) : Z :=
  Z.min (if direct then decode * 9 / 10 else decode * 4 / 5) custom.

(* src/src/client/io_loop.rs:1178-1202 Remote::fps_control::fps_trending *)
Definition fps_trending (limited last : Z) (t : VideoThread) : FpsControl * option bool :=
  let ctl := vt_fps_control t in
  let len := zlen (video_queue t) in
  match decode_fps t with
  | None => (ctl, None)
  | Some fps =>
      if inactive_threshold <? inactive_counter ctl then (ctl, None)
      else if ((1 <? len) && (limited <? last)) || (Z.max 1 (fps / 2) <? len) then
        (c_set_idle 0 ctl, Some false)
      else if len <=? 1 then
        let ctl := c_set_idle (idle_counter ctl + 1) ctl in
        (ctl, if (3 <? idle_counter ctl) && (last + 3 <=? limited) then Some true else None)
      else (c_set_idle 0 ctl, None)
  end.

(** Is the video of a display asked for anew, because too many frames wait? *)
(* src/src/client/io_loop.rs:1231-1237 Remote::fps_control *)
Definition wants_refresh (now decode : Z) (t : VideoThread) : bool :=
  let ctl := vt_fps_control t in
  (refresh_times ctl <? 20) &&
  ((Z.min decode (VIDEO_QUEUE_SIZE / 2) <? zlen (video_queue t)) &&
   ((refresh_times ctl =? 0) ||
    match last_refresh_instant ctl with Some i => 10 <? (now - i) / 1000 | None => false end)).

Definition count_refresh (now : Z) (c : FpsControl) : FpsControl :=
  mkFps (refresh_times c + 1) (Some now) (idle_counter c) (inactive_counter c).

Definition map_threads (f : Z -> VideoThread -> VideoThread) (m : gmap Z (VideoThread * Locals))
    : gmap Z (VideoThread * Locals) :=
  map_imap (fun k t => Some (f k t.1, t.2)) m.

(** The rate that is asked for, if it is another. *)
(* src/src/client/io_loop.rs:1203-1214 Remote::fps_control *)
Definition new_auto_fps (limited : Z) (last : option Z) (queue : Z) (trendings : list (option bool))
    : option Z :=
  let should_decrease := existsb (fun v => bool_decide (v = Some false)) trendings in
  let should_increase := negb should_decrease && existsb (fun v => bool_decide (v = Some true)) trendings in
  if bool_decide (last = None) || should_decrease || should_increase then
    let auto := if should_decrease && (limited <? queue) then limited / 2 else limited in
    let auto := if auto <? 1 then 1 else auto in
    if bool_decide (Some auto = last) then None else Some auto
  else None.

(* src/src/client/io_loop.rs:1137-1144 Remote::fps_control *)
Definition count_all (real : gmap Z Z) : gmap Z (VideoThread * Locals) -> gmap Z (VideoThread * Locals) :=
  map_threads (fun k t => t_set_control (count_inactive (default 0 (real !! k)) (vt_fps_control t)) t).

(* src/src/client/io_loop.rs:1230-1243 Remote::fps_control *)
Definition refresh_slow (now decode : Z) (v : Video) : Video :=
  let slow := filter (fun t => wants_refresh now decode (t.2.1) = true) (map_to_list (video_threads v)) in
  let v := foldl (fun v k => refresh_video (i32 k) v) v (slow.*1) in
  v_set_threads (map_threads (fun _ t =>
    if wants_refresh now decode t then t_set_control (count_refresh now (vt_fps_control t)) t else t)
    (video_threads v)) v.

(* src/src/client/io_loop.rs:1214-1226 Remote::fps_control *)
Definition ask_fps (auto : option Z) (v : Video) : Video :=
  match auto with
  | Some f => post (MCustomFps f) (v_set_lc (vl_set_auto (Some f) (lc v)) v)
  | None => v
  end.

(** [real]: the frames shown in the last second, by display. *)
(* src/src/client/io_loop.rs:1136-1244 Remote::fps_control *)
Definition fps_control (direct : bool) (real : gmap Z Z) (now : Z) (v : Video) : Video :=
  let v := v_set_threads (count_all real (video_threads v)) v in
  let custom := usable_custom_fps (vl_custom_fps (lc v)) in
  match min_decode_fps (video_threads v) with
  | None => v
  | Some decode =>
      let limited := limited_fps direct decode custom in
      let last := last_auto_fps (lc v) in
      let trend := fps_trending limited (default custom last) in
      let trendings := (fun t => (trend (t.2.1)).2) <$> map_to_list (video_threads v) in
      let queue := max_queue_len (video_threads v) in
      let v := v_set_threads (map_threads (fun _ t => t_set_control (trend t).1 t) (video_threads v)) v in
      refresh_slow now decode (ask_fps (new_auto_fps limited last queue trendings) v)
  end.

(** Once a second; [elapsed] milliseconds since the last time. *)
(* src/src/client/io_loop.rs:280-295 Remote::io_loop *)
Definition on_status_tick (direct : bool) (elapsed now : Z) (v : Video) : Video :=
  if elapsed <? 1000 then v
  else
    let real := (fun t : VideoThread * Locals =>
                   Z.quot (i32 (i32 (frame_count t.1) * 1000)) (i32 elapsed)) <$> video_threads v in
    fps_control direct real now
      (update_threads (fun t => t_set_decode (decode_fps t) 0 t) v).

(** ** Runs *)

Inductive vevent : Type :=
| Arrives (auto_record : bool) (vf : VideoFrame)
| Post (m : message)                       (** anything else in the session sends a message *)
| TakeUi
| Turn (k : Z) (env : DecodeEnv)
| ResetDecoder (display : option Z)
| Record_ (start : bool)
| Permission (enabled : bool)
| Tick (direct : bool) (elapsed now : Z).

Definition vstep (e : vevent) (v : Video) : Video * list veffect :=
  match e with
  | Arrives r vf => on_video_frame r vf v
  | Post m => (post m v, [])
  | TakeUi => take_ui_message v
  | Turn k env => video_turn env k v
  | ResetDecoder d => (on_reset_decoder d v, [])
  | Record_ b => on_record_screen b v
  | Permission b => on_record_permission b v
  | Tick d e n => (on_status_tick d e n v, [])
  end.

Fixpoint vrun (es : list vevent) (v : Video) : Video * list veffect :=
  match es with
  | [] => (v, [])
  | e :: es =>
      let '(v, e1) := vstep e v in
      let '(v, e2) := vrun es v in
      (v, e1 ++ e2)
  end.

Definition video_new (l : VideoLc) : Video := mkVideo false Unknown ∅ None false l [].

(** ** The order of frames *)

(** The frames of a display that have arrived, and those given to the decoder. *)
Definition arrived (k : Z) (es : list vevent) : list VideoFrame :=
  omap (fun e => match e with
                 | Arrives _ vf => if bool_decide (display_of vf = k) then Some vf else None
                 | _ => None
                 end) es.
Definition decoded (k : Z) (effs : list veffect) : list VideoFrame :=
  omap (fun e => match e with
                 | Decoded k' vf => if bool_decide (k' = k) then Some vf else None
                 | _ => None
                 end) effs.

Definition is_refresh (m : message) : bool :=
  match m with MRefreshVideo | MRefreshVideoDisplay _ => true | _ => false end.
Definition asked (effs : list veffect) : bool :=
  existsb (fun e => match e with Sent m => is_refresh m | _ => false end) effs.
Definition drops (k : Z) (effs : list veffect) : bool :=
  existsb (fun e => match e with Dropped k' _ => bool_decide (k' = k) | _ => false end) effs.

(** What waits in the channel of a thread, each token with the frame it stands for. *)
Definition items (c : list MediaData) : list (option VideoFrame) :=
  omap (fun m => match m with
                 | VideoQueue => Some None
                 | MVideoFrame vf => Some (Some vf)
                 | _ => None
                 end) c.
Fixpoint resolve (i : list (option VideoFrame)) (q : list VideoFrame) : list VideoFrame :=
  match i, q with
  | Some vf :: i, _ => vf :: resolve i q
  | None :: i, vf :: q => vf :: resolve i q
  | None :: i, [] => resolve i []
  | [], _ => []
  end.
Definition waiting (k : Z) (v : Video) : list VideoFrame :=
  match video_threads v !! k with
  | Some (t, _) => resolve (items (video_sender t)) (video_queue t)
  | None => []
  end.

(** [follows done dec lost]: of the frames [done], in their order, those of [dec] were
    decoded and the others skipped; after a frame that was skipped, only a key frame
    is decoded.  [lost]: the last one was skipped. *)
Inductive follows : list VideoFrame -> list VideoFrame -> bool -> Prop :=
| follows_none : follows [] [] false
| follows_take done dec lost vf :
    follows done dec lost -> (lost = true -> contains_key_frame vf = true) ->
    follows (done ++ [vf]) (dec ++ [vf]) false
| follows_skip done dec lost vf :
    follows done dec lost -> follows (done ++ [vf]) dec true.

Definition tokens (i : list (option VideoFrame)) : nat := length (filter (fun x => x = None) i).

(** A thread's channel, its queue and whether it skips. *)
Definition tview : Type := list (option VideoFrame) * list VideoFrame * bool.
Definition tv (t : VideoThread) : tview := (items (video_sender t), video_queue t, discard_queue t).
Definition view (v : Video) (k : Z) : option tview := (fun t => tv t.1) <$> video_threads v !! k.

Record tv_wf (w : tview) : Prop := {
  wf_tokens : tokens w.1.1 = length w.1.2;
  wf_bound : zlen w.1.2 <= VIDEO_QUEUE_SIZE;
  wf_keys : forall vf, Some vf ∈ w.1.1 -> contains_key_frame vf = true;
}.

Definition view_wf (v : Video) (k : Z) : Prop := forall w, view v k = Some w -> tv_wf w.

Record tv_flow (recv dec : list VideoFrame) (ask : bool) (w : tview) : Prop := {
  fl_parts : exists done lost,
    recv = done ++ resolve w.1.1 w.1.2 /\ follows done dec lost /\ (lost = true -> w.2 = true) /\
    (ask = false -> done = dec /\ w.2 = false);
}.

Definition flow (k : Z) (recv dec : list VideoFrame) (ask : bool) (v : Video) : Prop :=
  match view v k with
  | None => recv = [] /\ dec = []
  | Some w => tv_flow recv dec ask w
  end.

(** *** Steps that do not touch the frames *)

Lemma items_app c c' : items (c ++ c') = items c ++ items c'.
Proof. apply omap_app. Qed.

Lemma resolve_app_key i q vf : tokens i = length q -> resolve (i ++ [Some vf]) q = resolve i q ++ [vf].
Proof.
  revert q. induction i as [|[x|] i IH]; intros q E; simpl.
  - done.
  - f_equal. apply IH. done.
  - destruct q as [|y q]; [done|]. simpl. f_equal. apply IH. unfold tokens in *. simpl in *. lia.
Qed.

Lemma resolve_app_token i q vf :
  tokens i = length q -> resolve (i ++ [None]) (q ++ [vf]) = resolve i q ++ [vf].
Proof.
  revert q. induction i as [|[x|] i IH]; intros q E; simpl.
  - by destruct q.
  - f_equal. apply IH. done.
  - destruct q as [|y q]; [done|]. simpl. f_equal. apply IH. unfold tokens in *. simpl in *. lia.
Qed.

Lemma tokens_app i j : tokens (i ++ j) = (tokens i + tokens j)%nat.
Proof. unfold tokens. by rewrite filter_app, length_app. Qed.

Lemma decoded_app k a b : decoded k (a ++ b) = decoded k a ++ decoded k b.
Proof. apply omap_app. Qed.
Lemma asked_app a b : asked (a ++ b) = asked a || asked b.
Proof. apply existsb_app. Qed.
Lemma drops_app k a b : drops k (a ++ b) = drops k a || drops k b.
Proof. apply existsb_app. Qed.

Lemma view_update_threads f v k : (forall t, tv (f t) = tv t) -> view (update_threads f v) k = view v k.
Proof.
  intros H. unfold view, update_threads. simpl. rewrite lookup_fmap, <- option_fmap_compose.
  destruct (video_threads v !! k); [|done]. simpl. by rewrite H.
Qed.

Lemma view_update_thread f v j k : (forall t, tv (f t) = tv t) -> view (update_thread j f v) k = view v k.
Proof.
  intros H. unfold view, update_thread. simpl. destruct (decide (j = k)) as [->|E].
  - rewrite lookup_alter_eq. destruct (video_threads v !! k); [|done]. simpl. by rewrite H.
  - by rewrite lookup_alter_ne.
Qed.

Lemma view_map_threads f v k :
  (forall j t, tv (f j t) = tv t) -> view (v_set_threads (map_threads f (video_threads v)) v) k = view v k.
Proof.
  intros H. unfold view, map_threads. simpl. rewrite map_lookup_imap.
  destruct (video_threads v !! k); [|done]. simpl. by rewrite H.
Qed.

Lemma view_refresh j v k : view (refresh_video j v) k = view v k.
Proof. unfold refresh_video. by destruct (multi_ui (lc v)). Qed.

Lemma view_check h v k : view (check_decoder h v) k = view v k.
Proof. unfold check_decoder. by repeat case_match. Qed.

Lemma view_insert k t l v k' :
  view (v_set_threads (<[k := (t, l)]> (video_threads v)) v) k' =
  if decide (k = k') then Some (tv t) else view v k'.
Proof. unfold view. simpl. case_decide as E; [subst; by rewrite lookup_insert_eq|by rewrite lookup_insert_ne]. Qed.

Lemma tv_send_plain m t :
  match m with VideoQueue | MVideoFrame _ => False | _ => True end -> tv (t_send m t) = tv t.
Proof.
  intros H. unfold tv, t_send. simpl. rewrite items_app. destruct m; try done; simpl; by rewrite app_nil_r.
Qed.

Lemma view_update_record v k : view (update_record_state v).1 k = view v k.
Proof.
  unfold update_record_state. set (v1 := if record_permission (lc v) then _ else _).
  assert (H : view v1 k = view v k) by (unfold v1; by case_match).
  case_bool_decide; simpl; [done|]. rewrite <- H.
  change (view (update_threads (t_send (RecordScreen (record_state (lc v1) && record_permission (lc v))))
                 (v_set_last_record (record_state (lc v1) && record_permission (lc v)) v1)) k = view v1 k).
  rewrite view_update_threads; [done|]. intros t. by apply tv_send_plain.
Qed.

Lemma update_record_quiet v k :
  decoded k (update_record_state v).2 = [] /\ asked (update_record_state v).2 = false /\
  drops k (update_record_state v).2 = false.
Proof. unfold update_record_state. by case_bool_decide. Qed.

Lemma view_decode_frame env j vf t l v k :
  view (decode_frame env j vf t l v).1 k = if decide (j = k) then Some (tv t) else view v k.
Proof.
  unfold decode_frame. destruct (handle_frame _ _ _) as [[res h] written].
  destruct res as [[|]|]; [destruct (fps_calculate _ _ _ _) as [l' fps]|..]; simpl;
    rewrite view_check, ?view_refresh.
  - case_match; rewrite view_insert; by repeat case_decide.
  - by rewrite view_insert.
  - by rewrite view_insert.
Qed.

Lemma decode_frame_effects env j vf t l v k :
  decoded k (decode_frame env j vf t l v).2 = (if decide (j = k) then [vf] else []) /\
  asked (decode_frame env j vf t l v).2 = false /\
  drops k (decode_frame env j vf t l v).2 = false.
Proof.
  unfold decode_frame. destruct (handle_frame _ _ _) as [[res h] [|]];
    (destruct res as [[|]|]; [destruct (fps_calculate _ _ _ _) as [l' fps]|..]); simpl;
    (case_bool_decide; case_decide; done).
Qed.

Lemma view_refresh_slow now d v k : view (refresh_slow now d v) k = view v k.
Proof.
  unfold refresh_slow. cbv zeta. rewrite view_map_threads; [|intros; by case_match].
  generalize (filter (fun t => wants_refresh now d (t.2.1) = true) (map_to_list (video_threads v))).*1.
  intros l. revert v. induction l as [|x l IH]; intros v; simpl; [done|]. by rewrite IH, view_refresh.
Qed.

Lemma view_fps_control direct real now v k : view (fps_control direct real now v) k = view v k.
Proof.
  unfold fps_control. cbv zeta. set (v1 := v_set_threads (count_all _ _) v).
  assert (H1 : view v1 k = view v k) by by apply view_map_threads.
  destruct (min_decode_fps (video_threads v1)) as [d|]; [|done].
  rewrite view_refresh_slow, <- H1. unfold ask_fps. set (x := new_auto_fps _ _ _ _). clearbody x.
  by destruct x; apply (view_map_threads (fun _ t => t_set_control _ t) v1).
Qed.

(** *** What the steps do to the frames of a thread *)

Lemma wf_new b : tv_wf ([], [], b).
Proof. split; [done|done|]. by intros ? ?%elem_of_nil. Qed.

Lemma flow_new ask : tv_flow [] [] ask ([], [], false).
Proof. split. exists [], false. split_and!; [done|constructor|done|done]. Qed.

Lemma wf_key i q b vf : tv_wf (i, q, b) -> contains_key_frame vf = true -> tv_wf (i ++ [Some vf], q, b).
Proof.
  intros [T B K] H. split; simpl in *; [|done|].
  - rewrite tokens_app, T. unfold tokens. simpl. lia.
  - intros x [I|[= ->]%list_elem_of_singleton]%elem_of_app; auto.
Qed.

Lemma wf_token i q b vf :
  tv_wf (i, q, b) -> zlen q < VIDEO_QUEUE_SIZE -> tv_wf (i ++ [None], q ++ [vf], b).
Proof.
  intros [T B K] H. split; simpl in *.
  - rewrite tokens_app, T, length_app. unfold tokens. simpl. lia.
  - rewrite zlen_app, zlen_cons, zlen_nil. lia.
  - intros x [I|[=]%list_elem_of_singleton]%elem_of_app; auto.
Qed.

Lemma wf_drop i y q b vf : tv_wf (i, y :: q, b) -> tv_wf (i, q ++ [vf], b).
Proof.
  intros [T B K]. split; simpl in *; [|rewrite zlen_app, !zlen_cons, zlen_nil in *; lia|done].
  rewrite length_app, T. simpl. lia.
Qed.

Lemma wf_discard i q b b' : tv_wf (i, q, b) -> tv_wf (i, q, b').
Proof. intros [T B K]. by split. Qed.

Lemma wf_take_key x i q b b' : tv_wf (Some x :: i, q, b) -> tv_wf (i, q, b').
Proof. intros [T B K]. split; simpl in *; [done|done|]. intros. apply K. by right. Qed.

Lemma wf_take_token i y q b b' : tv_wf (None :: i, y :: q, b) -> tv_wf (i, q, b').
Proof.
  intros [T B K]. split; simpl in *; [unfold tokens in *; simpl in *; lia|rewrite zlen_cons in *; lia|].
  intros. apply K. by right.
Qed.

Lemma flow_push recv dec ask i q i' q' b vf :
  tv_flow recv dec ask (i, q, b) -> resolve i' q' = resolve i q ++ [vf] ->
  tv_flow (recv ++ [vf]) dec ask (i', q', b).
Proof.
  intros [(done & lost & -> & F & D & A)] R. split. exists done, lost. simpl in *.
  rewrite R. by rewrite app_assoc.
Qed.

Lemma flow_discard recv dec ask i q b : tv_flow recv dec ask (i, q, b) -> tv_flow recv dec true (i, q, true).
Proof. intros [(done & lost & -> & F & D & A)]. split. by exists done, lost. Qed.

Lemma flow_take recv dec ask i q b vf i' q' :
  tv_flow recv dec ask (i, q, b) -> resolve i q = vf :: resolve i' q' ->
  (b = true -> contains_key_frame vf = true) ->
  tv_flow recv (dec ++ [vf]) ask (i', q', false).
Proof.
  intros [(done & lost & -> & F & D & A)] R K. split. exists (done ++ [vf]), false. simpl in *.
  rewrite R, cons_middle, app_assoc. split_and!; [done| |done|].
  - apply follows_take with lost; auto.
  - intros E. destruct (A E) as [-> _]. done.
Qed.

Lemma flow_skip recv dec ask i q vf i' q' :
  tv_flow recv dec ask (i, q, true) -> resolve i q = vf :: resolve i' q' ->
  tv_flow recv dec ask (i', q', true).
Proof.
  intros [(done & lost & -> & F & D & A)] R. split. exists (done ++ [vf]), true. simpl in *.
  rewrite R, cons_middle, app_assoc. split_and!; [done| |done|].
  - by apply follows_skip with lost.
  - intros E. destruct (A E) as [_ [=]].
Qed.

(** *** The steps *)

Definition fine (k : Z) (recv dec : list VideoFrame) (ask : bool) (v : Video) : Prop :=
  view_wf v k /\ flow k recv dec ask v.

Lemma fine_view k recv dec ask v v' : view v' k = view v k -> fine k recv dec ask v -> fine k recv dec ask v'.
Proof. unfold fine, view_wf, flow. by intros ->. Qed.

Lemma view_new_thread r j v k :
  view (new_video_thread r j v).1 k = if decide (j = k) then Some ([], [], false) else view v k.
Proof.
  unfold new_video_thread. set (v1 := v_set_threads _ v).
  assert (V : view v1 k = if decide (j = k) then Some ([], [], false) else view v k) by apply view_insert.
  case_bool_decide; [|exact V]. rewrite <- V.
  exact (view_update_record (v_set_lc (vl_set_record r (lc v1)) v1) k).
Qed.

Lemma new_thread_quiet r j v k :
  decoded k (new_video_thread r j v).2 = [] /\ asked (new_video_thread r j v).2 = false /\
  drops k (new_video_thread r j v).2 = false.
Proof. unfold new_video_thread. case_bool_decide; [apply update_record_quiet|done]. Qed.

Lemma new_thread_fine r j v k recv dec ask :
  video_threads v !! j = None -> fine k recv dec ask v -> fine k recv dec ask (new_video_thread r j v).1.
Proof.
  intros N [W F]. unfold fine, view_wf, flow in *. rewrite view_new_thread. case_decide as E; [|done]. subst j.
  split; [intros w [= <-]; apply wf_new|]. unfold view in F. rewrite N in F. destruct F as [-> ->]. apply flow_new.
Qed.

Lemma view_some v k : is_Some (view v k) <-> is_Some (video_threads v !! k).
Proof. unfold view. by rewrite fmap_is_Some. Qed.

Lemma queue_frame_wf j vf v k : view_wf v k -> view_wf (queue_frame j vf v).1 k.
Proof.
  intros W. unfold queue_frame. destruct (video_threads v !! j) as [[t l]|] eqn:E; [|done].
  assert (Wt : j = k -> tv_wf (tv t)).
  { intros <-. apply W. unfold view. by rewrite E. }
  destruct (contains_key_frame vf) eqn:K.
  - intros w. simpl. rewrite view_insert. case_decide as D; [|apply W]. intros [= <-].
    unfold tv. simpl. rewrite items_app. simpl. by apply wf_key; [apply Wt|].
  - unfold force_push. destruct (Z.ltb_spec (zlen (video_queue t)) VIDEO_QUEUE_SIZE).
    + intros w. simpl. rewrite view_insert. case_decide as D; [|apply W]. intros [= <-].
      unfold tv. simpl. rewrite items_app. simpl. by apply wf_token; [apply Wt|].
    + destruct (video_queue t) as [|y q] eqn:Q; [done|].
      intros w. simpl. rewrite view_refresh, view_insert. case_decide as D; [|apply W]. intros [= <-].
      unfold tv. simpl. apply wf_drop with y. specialize (Wt D). unfold tv in Wt. by rewrite Q in Wt.
Qed.

Lemma queue_frame_effects j vf v k :
  decoded k (queue_frame j vf v).2 = [] /\ asked (queue_frame j vf v).2 = false.
Proof.
  unfold queue_frame. destruct (video_threads v !! j) as [[t l]|]; [|done]. case_match; [done|].
  destruct (force_push _ _) as [[|] q]; done.
Qed.

Lemma queue_frame_flow j vf v k recv dec ask :
  is_Some (video_threads v !! j) -> fine k recv dec ask v -> drops k (queue_frame j vf v).2 = false ->
  flow k (recv ++ if decide (j = k) then [vf] else []) dec ask (queue_frame j vf v).1.
Proof.
  intros [[t l] E] [W F]. unfold queue_frame. rewrite E. intros Dr.
  case_decide as D; [subst j|].
  - assert (V : view v k = Some (tv t)) by (unfold view; by rewrite E).
    specialize (W _ V). unfold flow in F. rewrite V in F. destruct W as [T B K]. unfold tv in *. simpl in *.
    destruct (contains_key_frame vf) eqn:Kf.
    + unfold flow. simpl. rewrite view_insert, decide_True by done. unfold tv. simpl.
      rewrite items_app. eapply flow_push; [exact F|]. by apply resolve_app_key.
    + unfold force_push in *. destruct (Z.ltb_spec (zlen (video_queue t)) VIDEO_QUEUE_SIZE).
      * unfold flow. simpl. rewrite view_insert, decide_True by done. unfold tv. simpl.
        rewrite items_app. eapply flow_push; [exact F|]. by apply resolve_app_token.
      * destruct (video_queue t) as [|y q] eqn:Q; [done|]. exfalso. simpl in Dr. by case_bool_decide.
  - rewrite app_nil_r. unfold flow in *.
    assert (V : view (queue_frame j vf v).1 k = view v k).
    { unfold queue_frame. rewrite E. destruct (contains_key_frame vf); simpl.
      - by rewrite view_insert, decide_False.
      - destruct (force_push _ _) as [[old|] q]; simpl; rewrite ?view_refresh, view_insert, decide_False by done; done. }
    unfold queue_frame in V. rewrite E in V. by rewrite V.
Qed.

Lemma view_decode_set env j vf t l t' l' v k :
  view (decode_frame env j vf t l (v_set_threads (<[j := (t', l')]> (video_threads v)) v)).1 k =
  if decide (j = k) then Some (tv t) else view v k.
Proof. rewrite view_decode_frame, view_insert. by case_decide. Qed.

Lemma video_turn_wf env j v k : view_wf v k -> view_wf (video_turn env j v).1 k.
Proof.
  intros W. unfold video_turn. destruct (video_threads v !! j) as [[t l]|] eqn:E; [|done].
  assert (Wt : j = k -> tv_wf (tv t)) by (intros <-; apply W; unfold view; by rewrite E).
  destruct (video_sender t) as [|m c] eqn:C; [done|].
  assert (P : forall (u : tview) w, (j = k -> tv_wf u) ->
                (if decide (j = k) then Some u else view v k) = Some w -> tv_wf w).
  { intros u w H. case_decide as D; [intros [= <-]; by apply H|apply W]. }
  unfold tv in Wt. rewrite C in Wt. simpl in Wt.
  destruct m as [|vf| |start]; simpl in *; intros w; [|rewrite ?view_decode_set, ?view_insert; apply P..].
  - destruct (video_queue t) as [|y q] eqn:Q.
    + simpl. rewrite view_insert. apply P. intros D. by destruct (Wt D) as [T _ _].
    + destruct (discard_queue t) eqn:Di; simpl; rewrite ?view_decode_set, ?view_insert; apply P;
        intros D; unfold tv; simpl; by apply (wf_take_token _ y _ (discard_queue t)); rewrite Di; apply Wt.
  - intros D. unfold tv. simpl. by apply wf_take_key with vf (discard_queue t), Wt.
  - intros D. by apply Wt.
  - intros D. by apply Wt.
Qed.

Lemma video_turn_flow env j v k recv dec ask :
  fine k recv dec ask v ->
  asked (video_turn env j v).2 = false /\ drops k (video_turn env j v).2 = false /\
  flow k recv (dec ++ decoded k (video_turn env j v).2) ask (video_turn env j v).1.
Proof.
  intros [W F]. unfold video_turn.
  assert (Fn : flow k recv (dec ++ []) ask v) by by rewrite app_nil_r.
  destruct (video_threads v !! j) as [[t l]|] eqn:E; [|done].
  destruct (video_sender t) as [|m c] eqn:C; [done|].
  assert (V : j = k -> view v k = Some (tv t)) by (intros <-; unfold view; by rewrite E).
  assert (Wt : j = k -> tv_wf (tv t)) by (intros D; by apply W, V).
  assert (Ft : j = k -> tv_flow recv dec ask (tv t)).
  { intros D. unfold flow in F. by rewrite (V D) in F. }
  (* what is left to show, by the view of the new state *)
  assert (P : forall v' d (u : tview), view v' k = (if decide (j = k) then Some u else view v k) ->
                (j = k -> tv_flow recv (dec ++ d) ask u) -> (j <> k -> d = []) ->
                flow k recv (dec ++ d) ask v').
  { intros v' d u V' H N. unfold flow. rewrite V'. case_decide as D; [by apply H|].
    rewrite (N D), app_nil_r. exact F. }
  unfold tv in Wt, Ft. rewrite C in Wt, Ft. simpl in Wt, Ft.
  assert (Same : forall u, (j = k -> tv_flow recv dec ask u) -> j = k -> tv_flow recv (dec ++ []) ask u).
  { intros u H D. rewrite app_nil_r. by apply H. }
  destruct m as [|vf| |start]; simpl in *.
  - destruct (video_queue t) as [|y q] eqn:Q.
    + simpl. split_and!; [done..|]. eapply P; [apply view_insert| |done]. intros D. by destruct (Wt D) as [T _ _].
    + destruct (discard_queue t) eqn:Di.
      * simpl. split_and!; [done..|]. eapply P; [apply view_insert| |done]. apply Same.
        intros D. unfold tv. simpl. rewrite Di. eapply flow_skip; [exact (Ft D)|done].
      * edestruct decode_frame_effects as (-> & -> & ->). split_and!; [done..|].
        eapply P; [apply view_decode_set| |intros D; by case_decide].
        intros D. rewrite decide_True by done. unfold tv. simpl. rewrite Di.
        eapply flow_take; [exact (Ft D)|done|done].
  - edestruct decode_frame_effects as (-> & -> & ->). split_and!; [done..|].
    eapply P; [apply view_decode_set| |intros D; by case_decide].
    intros D. rewrite decide_True by done. unfold tv. simpl.
    eapply flow_take; [exact (Ft D)|done|]. intros _. destruct (Wt D) as [_ _ K]. apply K. by left.
  - split_and!; [done..|]. eapply P; [apply view_insert| |done]. by apply Same.
  - split_and!; [done..|]. eapply P; [apply view_insert| |done]. by apply Same.
Qed.

Lemma flow_asked k recv dec ask ask' v :
  (ask' = false -> ask = false) -> flow k recv dec ask v -> flow k recv dec ask' v.
Proof.
  unfold flow. intros A. destruct (view v k) as [[[i q] b]|]; [|done].
  intros [(done & lost & E & Fo & L & A')]. split. exists done, lost. split_and!; [done..|]. auto.
Qed.

Definition skipping (w : tview) : tview := (w.1.1, w.1.2, true).

Lemma view_ui_message m v k :
  view (on_ui_message m v).1 k = view v k \/
  is_refresh m = true /\ view (on_ui_message m v).1 k = skipping <$> view v k.
Proof.
  destruct m as [|d| | | |]; simpl; try by left.
  - right. split; [done|]. unfold view, update_threads. simpl. rewrite lookup_fmap. by destruct (video_threads v !! k).
  - destruct (decide (usize d = k)) as [<-|N].
    + right. split; [done|]. unfold view, update_thread. simpl. rewrite lookup_alter_eq.
      by destruct (video_threads v !! usize d).
    + left. unfold view, update_thread. simpl. by rewrite lookup_alter_ne.
Qed.

Lemma skipping_wf v v' k : view v' k = skipping <$> view v k -> view_wf v k -> view_wf v' k.
Proof.
  unfold view_wf. intros -> W. destruct (view v k) as [[[i q] b]|]; [|done].
  intros w [= <-]. eapply wf_discard. by apply W.
Qed.

Lemma ui_message_fine m v k recv dec ask :
  fine k recv dec ask v -> fine k recv dec (ask || is_refresh m) (on_ui_message m v).1.
Proof.
  intros [W F]. destruct (view_ui_message m v k) as [V|[R V]].
  - eapply fine_view; [exact V|]. split; [done|]. eapply flow_asked; [|exact F]. by intros [? _]%orb_false_iff.
  - split; [by eapply skipping_wf|]. unfold flow in *. rewrite V, R, orb_true_r.
    destruct (view v k) as [[[i q] b]|]; [|done]. by eapply flow_discard.
Qed.

(** The thread of the frame's display is there. *)
Definition with_thread (r : bool) (vf : VideoFrame) (v : Video) : Video * list veffect :=
  let v := v_set_seen (format_of vf) v in
  match video_threads v !! display_of vf with
  | None => new_video_thread r (display_of vf) v
  | Some _ => (v, [])
  end.

Lemma on_video_frame_split r vf v :
  on_video_frame r vf v =
  ((queue_frame (display_of vf) vf (with_thread r vf v).1).1,
   (if first_frame v then [] else [FirstFrame]) ++ (with_thread r vf v).2 ++
     (queue_frame (display_of vf) vf (with_thread r vf v).1).2).
Proof.
  unfold on_video_frame, with_thread. cbv zeta.
  destruct (video_threads _ !! _) as [p|]; simpl.
  - by destruct (queue_frame _ _ _).
  - destruct (new_video_thread _ _ _) as [v1 e1]. simpl. by destruct (queue_frame _ _ _).
Qed.

Lemma with_thread_view r vf v k :
  is_Some (video_threads (with_thread r vf v).1 !! display_of vf) /\
  (view (with_thread r vf v).1 k = view v k \/
   view v k = None /\ view (with_thread r vf v).1 k = Some ([], [], false)).
Proof.
  unfold with_thread. destruct (video_threads (v_set_seen _ v) !! _) as [p|] eqn:E; simpl.
  - split; [|by left]. simpl in E. by rewrite E.
  - split.
    + apply view_some. rewrite view_new_thread, decide_True by done. done.
    + rewrite view_new_thread. case_decide as D; [|by left]. right. split; [|done]. subst k.
      unfold view. simpl in E. by rewrite E.
Qed.

Lemma with_thread_quiet r vf v k :
  decoded k (with_thread r vf v).2 = [] /\ asked (with_thread r vf v).2 = false /\
  drops k (with_thread r vf v).2 = false.
Proof. unfold with_thread. case_match; [done|apply new_thread_quiet]. Qed.


(** A step that does not concern the frames of a display. *)
Definition idle_event (e : vevent) : bool :=
  match e with Arrives _ _ | TakeUi | Turn _ _ => false | _ => true end.

Lemma view_reset_decoder d v k : view (on_reset_decoder d v) k = view v k.
Proof.
  destruct d as [d|]; [apply view_update_thread|apply view_update_threads]; intros t; by apply tv_send_plain.
Qed.

Lemma view_status_tick d el now v k : view (on_status_tick d el now v) k = view v k.
Proof.
  unfold on_status_tick. case_match; [done|]. rewrite view_fps_control. by apply view_update_threads.
Qed.

Lemma idle_step e v k :
  idle_event e = true ->
  view (vstep e v).1 k = view v k /\
  decoded k (vstep e v).2 = [] /\ asked (vstep e v).2 = false /\ drops k (vstep e v).2 = false /\
  arrived k [e] = [].
Proof.
  destruct e as [r vf|m| |j env|d|b|b|d el now]; try done; intros _; simpl.
  - by rewrite view_reset_decoder.
  - edestruct update_record_quiet as (Q1 & Q2 & Q3). split_and!; [|done..].
    exact (view_update_record (v_set_lc (vl_set_record b (lc v)) v) k).
  - edestruct update_record_quiet as (Q1 & Q2 & Q3). split_and!; [|done..].
    exact (view_update_record (v_set_lc (vl_set_permission b (lc v)) v) k).
  - by rewrite view_status_tick.
Qed.

Lemma vstep_wf e v k : view_wf v k -> view_wf (vstep e v).1 k.
Proof.
  intros W. assert (V : forall v', view v' k = view v k -> view_wf v' k) by (unfold view_wf; by intros v' ->).
  destruct (idle_event e) eqn:I; [apply V; by apply idle_step|].
  destruct e as [r vf|m| |j env|d|b|b|d el now]; try done; simpl.
  - rewrite on_video_frame_split. simpl. apply queue_frame_wf.
    destruct (with_thread_view r vf v k) as [_ [V'|[_ V']]]; [by apply V|].
    intros w. rewrite V'. intros [= <-]. apply wf_new.
  - unfold take_ui_message. destruct (to_loop v) as [|m q]; [done|].
    destruct (view_ui_message m (v_set_loop q v) k) as [V'|[_ V']]; [by apply V|by eapply skipping_wf].
  - by apply video_turn_wf.
Qed.

Lemma vstep_fine e v k recv dec ask :
  fine k recv dec ask v -> drops k (vstep e v).2 = false ->
  fine k (recv ++ arrived k [e]) (dec ++ decoded k (vstep e v).2) (ask || asked (vstep e v).2) (vstep e v).1.
Proof.
  intros H D. split; [apply vstep_wf, H|].
  destruct (idle_event e) eqn:I.
  { destruct (idle_step e v k I) as (V & -> & -> & _ & ->). rewrite !app_nil_r, orb_false_r.
    eapply fine_view; [exact V|done]. }
  destruct e as [r vf|m| |j env|d|b|b|d el now]; try done; simpl.
  - revert D. simpl. rewrite on_video_frame_split. simpl. rewrite !decoded_app, !asked_app, !drops_app.
    destruct (with_thread_quiet r vf v k) as (-> & -> & ->).
    destruct (queue_frame_effects (display_of vf) vf (with_thread r vf v).1 k) as [-> ->].
    intros Dr. assert (Z0 : decoded k (if first_frame v then [] else [FirstFrame]) = [] /\
                       asked (if first_frame v then [] else [FirstFrame]) = false) by by case_match.
    destruct Z0 as [-> ->]. rewrite !app_nil_r, orb_false_r.
    destruct (with_thread_view r vf v k) as [T V].
    assert (F1 : fine k recv dec ask (with_thread r vf v).1).
    { destruct V as [V|[V V']]; [by eapply fine_view|]. destruct H as [_ F]. unfold flow in F. rewrite V in F.
      destruct F as [-> ->]. split; [intros w; rewrite V'; intros [= <-]; apply wf_new|].
      unfold flow. rewrite V'. apply flow_new. }
    assert (Dq : drops k (queue_frame (display_of vf) vf (with_thread r vf v).1).2 = false).
    { by apply orb_false_iff in Dr as [_ Dr]. }
    unfold arrived. simpl. pose proof (queue_frame_flow _ vf _ k recv dec ask T F1 Dq) as Fq.
    case_bool_decide as B; by case_decide.
  - unfold take_ui_message. rewrite app_nil_r. destruct (to_loop v) as [|m q].
    + rewrite app_nil_r, orb_false_r. apply H.
    + assert (E : decoded k (on_ui_message m (v_set_loop q v)).2 = [] /\
                  asked (on_ui_message m (v_set_loop q v)).2 = is_refresh m).
      { simpl. by rewrite orb_false_r. }
      destruct E as [-> ->]. rewrite app_nil_r. by apply ui_message_fine.
  - destruct (video_turn_flow env j v k recv dec ask H) as (-> & _ & F). by rewrite app_nil_r, orb_false_r.
Qed.

(** *** Runs *)

Lemma vrun_app es es' v :
  vrun (es ++ es') v = ((vrun es' (vrun es v).1).1, (vrun es v).2 ++ (vrun es' (vrun es v).1).2).
Proof.
  revert v. induction es as [|e es IH]; intros v; simpl; [by destruct (vrun es' v)|].
  destruct (vstep e v) as [v1 e1]. specialize (IH v1). destruct (vrun (es ++ es') v1) as [v2 e2].
  destruct (vrun es v1) as [v3 e3]. simpl in *. simplify_eq. by rewrite app_assoc.
Qed.

Lemma arrived_cons k e es : arrived k (e :: es) = arrived k [e] ++ arrived k es.
Proof. unfold arrived. simpl. by repeat case_match. Qed.

Lemma vrun_wf es v k : view_wf v k -> view_wf (vrun es v).1 k.
Proof.
  revert v. induction es as [|e es IH]; intros v W; simpl; [done|].
  pose proof (vstep_wf e v k W) as W1. destruct (vstep e v) as [v1 e1]. specialize (IH v1 W1).
  by destruct (vrun es v1).
Qed.

Lemma vrun_fine es v k recv dec ask :
  fine k recv dec ask v -> drops k (vrun es v).2 = false ->
  fine k (recv ++ arrived k es) (dec ++ decoded k (vrun es v).2) (ask || asked (vrun es v).2) (vrun es v).1.
Proof.
  revert v recv dec ask. induction es as [|e es IH]; intros v recv dec ask H D.
  { simpl. by rewrite !app_nil_r, orb_false_r. }
  rewrite arrived_cons. simpl in *. pose proof (vstep_fine e v k recv dec ask H) as S.
  destruct (vstep e v) as [v1 e1]. specialize (IH v1). destruct (vrun es v1) as [v2 e2]. simpl in *.
  rewrite drops_app in D. apply orb_false_iff in D as [D1 D2].
  rewrite decoded_app, asked_app, orb_assoc, !app_assoc. apply IH; [by apply S|done].
Qed.

Lemma new_fine l k : fine k [] [] false (video_new l).
Proof. split; [intros w; by unfold view|]. by unfold flow, view. Qed.

Lemma fine_parts k recv dec ask v :
  fine k recv dec ask v ->
  exists done lost, recv = done ++ waiting k v /\ follows done dec lost /\ (ask = false -> done = dec).
Proof.
  intros [_ F]. unfold flow, view, waiting in *. destruct (video_threads v !! k) as [[t l]|].
  - destruct F as [(done & lost & E & Fo & _ & A)]. exists done, lost. split_and!; [done..|].
    intros H. by destruct (A H).
  - destruct F as [-> ->]. exists [], false. split_and!; [done|constructor|done].
Qed.

Lemma turn_consumes env k v t l :
  video_threads v !! k = Some (t, l) ->
  exists t' l', video_threads (video_turn env k v).1 !! k = Some (t', l') /\
    video_sender t' = tail (video_sender t).
Proof.
  intros E. unfold video_turn. rewrite E. destruct (video_sender t) as [|m c] eqn:C.
  { exists t, l. by rewrite C. }
  assert (D : forall vf t1 l1 v1, video_sender t1 = c -> exists t' l',
            video_threads (decode_frame env k vf t1 l1 v1).1 !! k = Some (t', l') /\ video_sender t' = c).
  { intros vf t1 l1 v1 <-. unfold decode_frame. destruct (handle_frame _ _ _) as [[res h] w].
    assert (K : forall w', video_threads (check_decoder h w') = video_threads w')
      by (intros w'; unfold check_decoder; by repeat case_match).
    assert (R : forall d w', video_threads (refresh_video d w') = video_threads w')
      by (intros d w'; unfold refresh_video; by case_match).
    destruct res as [[|]|]; [destruct (fps_calculate _ _ _ _) as [l' fps]|..];
      cbn [fst]; rewrite K, ?R; simpl; rewrite lookup_insert_eq; eauto. }
  assert (I : forall t1 l1, video_sender t1 = c -> exists t' l',
            <[k := (t1, l1)]> (video_threads v) !! k = Some (t', l') /\ video_sender t' = c).
  { intros t1 l1 H. exists t1, l1. by rewrite lookup_insert_eq. }
  destruct m as [|vf| |b]; cbn [fst]; [|by apply D|by apply I|by apply I].
  change (video_queue (t_set_sender c t)) with (video_queue t).
  destruct (video_queue t) as [|y q]; [by apply I|]. cbv zeta.
  destruct (discard_queue (t_set_queue q (t_set_sender c t))); [by apply I|by apply D].
Qed.

Lemma turns_quiet k envs v :
  asked (vrun (Turn k <$> envs) v).2 = false /\ drops k (vrun (Turn k <$> envs) v).2 = false.
Proof.
  revert v. induction envs as [|env envs IH]; intros v; [done|]. simpl.
  assert (Q : asked (video_turn env k v).2 = false /\ drops k (video_turn env k v).2 = false).
  { unfold video_turn. destruct (video_threads v !! k) as [[t l]|]; [|done].
    assert (D : forall vf t1 l1 v1, asked (decode_frame env k vf t1 l1 v1).2 = false /\
                  drops k (decode_frame env k vf t1 l1 v1).2 = false) by (intros vf t1 l1 v1; apply decode_frame_effects).
    destruct (video_sender t) as [|m c]; [done|]. destruct m as [|vf| |b]; [|apply D|done|done].
    cbv zeta. destruct (video_queue _) as [|y q]; [done|]. destruct (discard_queue _); [done|apply D]. }
  destruct (video_turn env k v) as [v1 e1]. specialize (IH v1). destruct (vrun _ v1) as [v2 e2]. simpl in *.
  rewrite asked_app, drops_app. destruct Q as [-> ->]. done.
Qed.

Lemma turns_drain k envs v :
  (forall t l, video_threads v !! k = Some (t, l) -> (length (video_sender t) <= length envs)%nat) ->
  waiting k (vrun (Turn k <$> envs) v).1 = [].
Proof.
  revert v. induction envs as [|env envs IH]; intros v H; simpl.
  - unfold waiting. destruct (video_threads v !! k) as [[t l]|] eqn:E; [|done].
    specialize (H t l eq_refl). destruct (video_sender t); [done|simpl in H; lia].
  - destruct (video_turn env k v) as [v1 e1] eqn:T. specialize (IH v1).
    destruct (vrun _ v1) as [v2 e2]. simpl in *. apply IH. intros t' l' E'.
    destruct (video_threads v !! k) as [[t l]|] eqn:E.
    + destruct (turn_consumes env k v t l E) as (t1 & l1 & E1 & L). rewrite T in E1. simpl in E1.
      simplify_eq. rewrite L. specialize (H t l eq_refl). destruct (video_sender t); simpl in *; lia.
    + unfold video_turn in T. rewrite E in T. simplify_eq.
Qed.

(** C28. The two ways of a frame, the channel for key frames and the queue with its tokens for
    the others, together are one stream: as long as no frame is dropped from a full queue, the
    frames of a display that have arrived are, in the order in which they arrived, those that
    were taken and then those that wait; of those taken every frame was decoded or skipped, a
    frame is decoded after a skipped one only if it is a key frame, and none is skipped unless
    the video was asked for anew. *)
Theorem frames_decodable l es k v effs :
  vrun es (video_new l) = (v, effs) -> drops k effs = false ->
  exists done lost,
    arrived k es = done ++ waiting k v /\ follows done (decoded k effs) lost /\
    (asked effs = false -> done = decoded k effs).
Proof.
  intros R D. pose proof (vrun_fine es (video_new l) k [] [] false (new_fine l k)) as F.
  rewrite R in F. simpl in F. apply fine_parts in F as (done & lost & E & Fo & A); eauto.
Qed.

(** Nothing that arrives is left undecoded: if no frame was dropped and the video was not
    asked for anew, then whatever the decoder answers, once the thread has had as many turns as
    there are items in its channel it has been given all the frames that arrived, in their order. *)
Theorem frames_all_decoded l es k v effs t loc envs :
  vrun es (video_new l) = (v, effs) -> drops k effs = false -> asked effs = false ->
  video_threads v !! k = Some (t, loc) -> length envs = length (video_sender t) ->
  decoded k (vrun (es ++ (Turn k <$> envs)) (video_new l)).2 = arrived k es.
Proof.
  intros R D A T L. pose proof (vrun_app es (Turn k <$> envs) (video_new l)) as R'. rewrite R in R'. simpl in R'.
  destruct (turns_quiet k envs v) as [A' D'].
  pose proof (turns_drain k envs v) as W. rewrite T in W.
  pose proof (vrun_fine (es ++ (Turn k <$> envs)) (video_new l) k [] [] false (new_fine l k)) as F.
  rewrite R' in *. simpl in *. rewrite drops_app, asked_app, A, A' in F.
  apply fine_parts in F as (done & lost & E & Fo & S); [|by rewrite D, D'].
  rewrite W, app_nil_r in E; [|intros t' l' [= <- <-]; lia]. rewrite <- S by done. rewrite <- E.
  unfold arrived. rewrite omap_app. set (x := omap _ (Turn k <$> envs)).
  assert (x = []) as ->; [|by rewrite app_nil_r]. subst x. clear. induction envs; done.
Qed.

(** C39. Whatever happens, a thread's queue holds at most 120 frames, and there is a token in its
    channel for each of them, so that no token finds the queue empty. *)
Theorem queue_has_tokens l es k v effs t loc :
  vrun es (video_new l) = (v, effs) -> video_threads v !! k = Some (t, loc) ->
  tokens (items (video_sender t)) = length (video_queue t) /\ zlen (video_queue t) <= VIDEO_QUEUE_SIZE.
Proof.
  intros R T. destruct (new_fine l k) as [W _]. apply (vrun_wf es) in W. rewrite R in W.
  specialize (W (tv t)). unfold view in W. simpl in W. rewrite T in W. destruct (W eq_refl) as [A B _]. done.
Qed.

(** *** Examples *)

Definition a_frame (key : bool) (n : Z) : VideoFrame := mkFrame (Some (Vp9s [mkEncoded [] key n])) 0.
Definition a_vlc : VideoLc := mkVlc None None [] false true true.
Definition plain_machine : Machine :=
  mkMachine false false false false false "" 0 (fun _ => None) (fun _ => false) (fun _ => false) [] [] None ∅ ∅.
Definition decodes : DecodeEnv :=
  mkDecodeEnv plain_machine (fun _ => true) None (fun _ _ => Ok true) None true 10000000.

Lemma follows_in done dec lost vf : follows done dec lost -> vf ∈ dec -> vf ∈ done.
Proof. induction 1; set_solver. Qed.

(** A frame that is no key frame is decoded only if the one before it was. *)
Lemma follows_prev done dec lost a b :
  follows (done ++ [a; b]) dec lost -> b ∉ done ++ [a] -> contains_key_frame b = false -> b ∈ dec -> a ∈ dec.
Proof.
  replace (done ++ [a; b]) with ((done ++ [a]) ++ [b]) by by rewrite <- app_assoc. intros F Nb Kb Ib.
  inversion F as [|d1 e1 l1 vf F1 K1 E1|d1 e1 l1 vf F1 E1]; [by destruct done| |];
    apply app_inj_tail in E1 as [-> ->].
  - inversion F1 as [|d2 e2 l2 vf F2 K2 E2|d2 e2 l2 vf F2 E2]; [by destruct done| |];
      apply app_inj_tail in E2 as [-> ->]; [set_solver|]. subst. rewrite K1 in Kb by done. done.
  - destruct Nb. by eapply follows_in.
Qed.

Definition overflow_run : list vevent :=
  [Arrives false (a_frame true 0); Turn 0 decodes] ++
  ((fun n => Arrives false (a_frame false (Z.of_nat n))) <$> seq 1 120) ++
  [Arrives false (a_frame true 121); Arrives false (a_frame false 122); TakeUi] ++
  ((fun _ => Turn 0 decodes) <$> seq 0 121) ++
  [Arrives false (a_frame false 123); Turn 0 decodes].

(** Once a frame is dropped the order is lost: with 120 frames in the queue and a key frame
    behind them in the channel, one more frame takes the place of the oldest, so that a token from
    before the key frame stands for it; it is skipped with the others, for the video was asked for
    anew, but the key frame that was already there ends the skipping, and the next frame is
    decoded although the one it builds on was not. *)
Theorem overflow_breaks_stream :
  exists l es k, waiting k (vrun es (video_new l)).1 = [] /\ asked (vrun es (video_new l)).2 = true /\
    forall lost, ~ follows (arrived k es) (decoded k (vrun es (video_new l)).2) lost.
Proof.
  exists a_vlc, overflow_run, 0. split_and!; [by vm_compute..|]. intros lost F.
  assert (E : arrived 0 overflow_run =
                take 122 (arrived 0 overflow_run) ++ [a_frame false 122; a_frame false 123])
    by by vm_compute.
  assert (D : decoded 0 (vrun overflow_run (video_new a_vlc)).2 = [a_frame true 0; a_frame true 121; a_frame false 123])
    by by vm_compute.
  rewrite E, D in F. apply follows_prev in F.
  - revert F. rewrite !elem_of_cons, elem_of_nil. by intros [[=]|[[=]|[[=]|[]]]].
  - apply (bool_decide_unpack _). by vm_compute.
  - done.
  - apply (bool_decide_unpack _). by vm_compute.
Qed.

(** ** Witnesses *)

Definition short_run : list vevent :=
  [Arrives false (a_frame true 0); Arrives false (a_frame false 1); Turn 0 decodes; Arrives false (a_frame false 2)].

Lemma frames_decodable_witness :
  exists done lost,
    arrived 0 short_run = done ++ waiting 0 (vrun short_run (video_new a_vlc)).1 /\
    follows done (decoded 0 (vrun short_run (video_new a_vlc)).2) lost /\
    (asked (vrun short_run (video_new a_vlc)).2 = false -> done = decoded 0 (vrun short_run (video_new a_vlc)).2).
Proof. apply (frames_decodable a_vlc); [apply surjective_pairing|reflexivity]. Defined.

Definition short_end : Video := (vrun short_run (video_new a_vlc)).1.
Definition thread_0 (v : Video) : VideoThread * Locals :=
  default (mkThread [] [] None 0 false no_fps, no_locals) (video_threads v !! 0).

Lemma frames_all_decoded_witness :
  decoded 0 (vrun (short_run ++ (Turn 0 <$> [decodes; decodes])) (video_new a_vlc)).2 = arrived 0 short_run.
Proof.
  apply (frames_all_decoded a_vlc short_run 0 short_end (vrun short_run (video_new a_vlc)).2
           (thread_0 short_end).1 (thread_0 short_end).2); by vm_compute.
Defined.

Lemma queue_has_tokens_witness :
  tokens (items (video_sender (thread_0 short_end).1)) = length (video_queue (thread_0 short_end).1) /\
  zlen (video_queue (thread_0 short_end).1) <= VIDEO_QUEUE_SIZE.
Proof.
  apply (queue_has_tokens a_vlc short_run 0 short_end (vrun short_run (video_new a_vlc)).2
           (thread_0 short_end).1 (thread_0 short_end).2); by vm_compute.
Defined.
