(* ===== verification/VideoRate.v ===== *)
(** * The rate of the client's video, and its decoders

    The second half of [ClientVideo]: the rate the client asks for is the one the other side
    keeps for it ([VideoQos]), a rate lowered by slow decoding comes back, and a decoder that
    fails is given up and reported. *)

From S2P Require Import Prelude VideoQos CodecChoice ClientVideo.

(** ** The rate that is asked for, and the one the other side gives *)

Definition fps_of (l : list message) : list Z :=
  omap (fun m => match m with MCustomFps f => Some f | _ => None end) l.
Definition sent (effs : list veffect) : list message :=
  omap (fun e => match e with Sent m => Some m | _ => None end) effs.

(** The part of the server's [update_options] that is about the rate. *)
(* src/src/server/connection.rs:3732-3737 Connection::update_options *)
Definition serve_fps (id : Z) (q : VideoQoS) (m : message) : VideoQoS :=
  match m with
  | MCustomFps f => if 0 <? f then user_custom_fps q id f else q
  | _ => q
  end.

(** The event is not of the session asking for a rate itself. *)
Definition posts_no_fps (e : vevent) : bool :=
  match e with Post (MCustomFps _) => false | _ => true end.

Definition same_fps (v v' : Video) : Prop :=
  fps_of (to_loop v') = fps_of (to_loop v) /\ last_auto_fps (lc v') = last_auto_fps (lc v) /\
  vl_custom_fps (lc v') = vl_custom_fps (lc v).

#[export] Instance same_fps_preorder : PreOrder same_fps.
Proof.
  split; [by intros v|]. intros a b c (A1 & A2 & A3) (B1 & B2 & B3).
  unfold same_fps. by rewrite B1, B2, B3.
Qed.

Lemma fps_of_app a b : fps_of (a ++ b) = fps_of a ++ fps_of b.
Proof. apply omap_app. Qed.

Lemma same_post m v : (forall f, m <> MCustomFps f) -> same_fps v (post m v).
Proof.
  intros H. unfold same_fps, post. simpl. rewrite fps_of_app. destruct m as [| |f| | |]; simpl; rewrite ?app_nil_r; try done.
  by destruct (H f).
Qed.

Lemma same_refresh d v : same_fps v (refresh_video d v).
Proof. unfold refresh_video. case_match; by apply same_post. Qed.

Lemma same_check h v : same_fps v (check_decoder h v).
Proof.
  unfold check_decoder. case_match; [|done]. case_bool_decide; [done|]. etrans; [|by apply same_post]. done.
Qed.

Lemma same_record v : same_fps v (update_record_state v).1.
Proof.
  unfold update_record_state. cbv zeta. set (v1 := if record_permission (lc v) then v else _).
  assert (H : same_fps v v1) by (unfold v1; by case_match).
  case_bool_decide; [exact H|]. etrans; [exact H|]. cbn [fst]. etrans; [|by apply same_post]. done.
Qed.

Lemma same_decode env k vf t l v : same_fps v (decode_frame env k vf t l v).1.
Proof.
  unfold decode_frame. destruct (handle_frame _ _ _) as [[res h] w].
  destruct res as [[|]|]; [destruct (fps_calculate _ _ _ _) as [l' fps]|..]; cbn [fst].
  - etrans; [|apply same_check]. by case_match.
  - etrans; [|apply same_check]. done.
  - etrans; [|apply same_check]. etrans; [|apply same_refresh]. done.
Qed.

Lemma same_turn env k v : same_fps v (video_turn env k v).1.
Proof.
  unfold video_turn. destruct (video_threads v !! k) as [[t l]|]; [|done].
  destruct (video_sender t) as [|m c]; [done|]. cbv zeta.
  destruct m as [|vf| |b]; [|etrans; [|apply same_decode]; done|done..].
  destruct (video_queue _) as [|y q]; [done|]. destruct (discard_queue _); [done|].
  etrans; [|apply same_decode]. done.
Qed.

Lemma same_queue k vf v : same_fps v (queue_frame k vf v).1.
Proof.
  unfold queue_frame. destruct (video_threads v !! k) as [[t l]|]; [|done]. case_match; [done|].
  destruct (force_push _ _) as [[old|] q]; cbn [fst]; [|done]. etrans; [|apply same_refresh]. done.
Qed.

Lemma same_with_thread r vf v : same_fps v (with_thread r vf v).1.
Proof.
  unfold with_thread. case_match; [done|]. unfold new_video_thread. case_bool_decide; [|done].
  etrans; [|apply same_record]. done.
Qed.

(** What [fps_control] asks for is within what the other side accepts. *)
Lemma new_auto_fps_range limited custom last queue l f :
  limited <= custom -> 1 <= custom -> new_auto_fps limited last queue l = Some f ->
  1 <= f <= custom /\ Some f <> last.
Proof.
  unfold new_auto_fps. intros L C. case_match; [|done].
  match goal with |- context [bool_decide (Some ?a = last)] => destruct (bool_decide_reflect (Some a = last)) as [|B] end;
    [done|].
  intros [= <-]. split; [|exact B]. clear B. set (a := if _ && _ then limited / 2 else limited).
  assert (a < 1 \/ a <= custom).
  { subst a. case_match; [|lia]. destruct (Z.le_gt_cases limited 0); [left|right]; zdm. }
  zbool; lia.
Qed.

Lemma usable_range c : 5 <= usable_custom_fps c <= 120.
Proof. unfold usable_custom_fps. destruct (default 30 c <? 5) eqn:A, (120 <? default 30 c) eqn:B; simpl; lia. Qed.

Lemma refresh_all_same l v : same_fps v (foldl (fun v k => refresh_video (i32 k) v) v l).
Proof.
  revert v. induction l as [|k l IH]; intros v; simpl; [done|]. etrans; [apply same_refresh|apply IH].
Qed.

Lemma refresh_slow_same now d v : same_fps v (refresh_slow now d v).
Proof. unfold refresh_slow. cbv zeta. etrans; [apply refresh_all_same|done]. Qed.

Lemma fps_control_asks direct real now v :
  let v' := fps_control direct real now v in
  vl_custom_fps (lc v') = vl_custom_fps (lc v) /\
  (same_fps v v' \/
   exists f, 1 <= f <= usable_custom_fps (vl_custom_fps (lc v)) /\ last_auto_fps (lc v) <> Some f /\
     fps_of (to_loop v') = fps_of (to_loop v) ++ [f] /\ last_auto_fps (lc v') = Some f).
Proof.
  cbv zeta. unfold fps_control. cbv zeta. destruct (min_decode_fps _) as [d|]; [|split; [done|by left]].
  match goal with |- context [refresh_slow now d ?x] => destruct (refresh_slow_same now d x) as (S1 & S2 & S3) end.
  rewrite S1, S2, S3. destruct (new_auto_fps _ _ _ _) as [f|] eqn:N; [|split; [done|by left]].
  pose proof (usable_range (vl_custom_fps (lc v))) as C.
  apply new_auto_fps_range with (custom := usable_custom_fps (vl_custom_fps (lc v))) in N as [N1 N2];
    [|unfold limited_fps; simpl; lia|lia].
  split; [done|]. right. exists f. simpl. rewrite fps_of_app.
  split_and!; [lia|lia|exact (fun Q => N2 (eq_sym Q))|done|done].
Qed.

(** What was sent and what will be, the rates of it. *)
Definition rates (out : list message) (v : Video) : list Z := fps_of (out ++ to_loop v).

Record asked_rates (out : list message) (v : Video) : Prop := {
  ar_last : last (rates out v) = last_auto_fps (lc v);
  ar_range : Forall (fun f => 1 <= f <= usable_custom_fps (vl_custom_fps (lc v))) (rates out v);
}.

Lemma asked_same out v v' : same_fps v v' -> asked_rates out v -> asked_rates out v'.
Proof.
  intros (A & B & C) [L R]. assert (E : rates out v' = rates out v).
  { unfold rates. by rewrite !fps_of_app, A. }
  split; by rewrite E, ?B, ?C.
Qed.

Lemma asked_step out e v :
  posts_no_fps e = true -> asked_rates out v ->
  asked_rates (out ++ sent (vstep e v).2) (vstep e v).1 /\
  vl_custom_fps (lc (vstep e v).1) = vl_custom_fps (lc v).
Proof.
  intros P H.
  assert (S : forall v' effs, sent effs = [] -> same_fps v v' ->
            asked_rates (out ++ sent effs) v' /\ vl_custom_fps (lc v') = vl_custom_fps (lc v)).
  { intros v' effs E Q. rewrite E, app_nil_r. split; [by eapply asked_same|apply Q]. }
  assert (R : forall v, sent (update_record_state v).2 = []) by (intros w; unfold update_record_state; by case_match).
  destruct e as [r vf|m| |j env|d|b|b|d el now]; cbn [vstep fst snd].
  - rewrite on_video_frame_split. cbn [fst snd]. apply S.
    + unfold sent. rewrite !omap_app. fold (sent (with_thread r vf v).2).
      assert (T : sent (with_thread r vf v).2 = []).
      { unfold with_thread. case_match; [done|]. unfold new_video_thread. case_match; [apply R|done]. }
      rewrite T. unfold queue_frame. repeat case_match; done.
    + etrans; [apply same_with_thread|apply same_queue].
  - apply (S _ []); [done|]. apply same_post. by intros f ->.
  - unfold take_ui_message. destruct (to_loop v) as [|m q] eqn:T; [by apply (S _ [])|].
    assert (E : lc (on_ui_message m (v_set_loop q v)).1 = lc v /\
                to_loop (on_ui_message m (v_set_loop q v)).1 = q) by by destruct m.
    destruct E as [E1 E2]. rewrite E1. split; [|done]. destruct H as [L F].
    assert (E : rates (out ++ [m]) (on_ui_message m (v_set_loop q v)).1 = rates out v).
    { unfold rates. by rewrite E2, T, <- app_assoc. }
    change (sent (on_ui_message m (v_set_loop q v)).2) with [m]. split; by rewrite E, E1.
  - apply S; [|apply same_turn]. unfold video_turn.
    assert (D : forall vf t l w, sent (decode_frame env j vf t l w).2 = []).
    { intros vf t l w. unfold decode_frame. destruct (handle_frame _ _ _) as [[res h] [|]];
        (destruct res as [[|]|]; [destruct (fps_calculate _ _ _ _)|..]); done. }
    destruct (video_threads v !! j) as [[t l]|]; [|done]. destruct (video_sender t) as [|m c]; [done|].
    cbv zeta. destruct m as [|vf| |b]; [|apply D|done|done].
    destruct (video_queue _) as [|y q]; [done|]. destruct (discard_queue _); [done|apply D].
  - apply (S _ []); [done|]. by destruct d.
  - apply S; [apply R|]. etrans; [|apply same_record]. done.
  - apply S; [apply R|]. etrans; [|apply same_record]. done.
  - rewrite app_nil_r. unfold on_status_tick. case_match; [done|].
    match goal with |- context [fps_control d ?r now ?w] =>
      destruct (fps_control_asks d r now w) as [C [Q|(f & F1 & F2 & F3 & F4)]] end.
    + split; [|exact C]. eapply asked_same; [exact Q|]. by eapply asked_same; [|exact H].
    + split; [|exact C]. destruct H as [L Fo]. simpl in *.
      assert (E : forall w, fps_of (to_loop w) = fps_of (to_loop v) ++ [f] -> rates out w = rates out v ++ [f]).
      { intros w Q. unfold rates. by rewrite !fps_of_app, Q, app_assoc. }
      split; rewrite (E _ F3); [by rewrite last_snoc, F4|]. rewrite C. apply Forall_app. split; [done|].
      by constructor.
Qed.

Lemma asked_run es : forall out v,
  Forall (fun e => posts_no_fps e = true) es -> asked_rates out v ->
  asked_rates (out ++ sent (vrun es v).2) (vrun es v).1 /\
  vl_custom_fps (lc (vrun es v).1) = vl_custom_fps (lc v).
Proof.
  induction es as [|e es IH]; intros out v P H; simpl; [by rewrite app_nil_r|].
  inversion P as [|? ? P1 P2]; subst. destruct (asked_step out e v P1 H) as [H1 C1].
  destruct (vstep e v) as [v1 e1]. specialize (IH (out ++ sent e1) v1 P2 H1) as [H2 C2].
  destruct (vrun es v1) as [v2 e2]. simpl in *. split; [|congruence].
  unfold sent in *. by rewrite omap_app, app_assoc.
Qed.

Lemma asked_new l : last_auto_fps l = None -> asked_rates [] (video_new l).
Proof. intros E. split; [simpl; by rewrite E|constructor]. Qed.

Lemma serve_rates id out : forall q u,
  users q !! id = Some u -> Forall (fun f => 1 <= f <= 120) (fps_of out) ->
  (users (foldl (serve_fps id) q out) !! id) ≫= custom_fps =
  match last (fps_of out) with Some f => Some f | None => custom_fps u end.
Proof.
  induction out as [|m out IH]; intros q u U F; simpl; [by rewrite U|].
  assert (K : forall q u', users q !! id = Some u' ->
    custom_fps u' = match m with MCustomFps f => Some f | _ => custom_fps u end ->
    Forall (fun f => 1 <= f <= 120) (fps_of out) ->
    (users (foldl (serve_fps id) q out) !! id) ≫= custom_fps =
    match last (fps_of (m :: out)) with Some f => Some f | None => custom_fps u end).
  { intros q' u' U' C' F'. rewrite (IH _ _ U' F'), C'. destruct m as [| |f| | |]; try done.
    change (fps_of (MCustomFps f :: out)) with (f :: fps_of out). rewrite last_cons.
    by destruct (last (fps_of out)). }
  destruct m as [| |f| | |]; simpl in *; try by apply (K q u).
  inversion F as [|? ? F1 F2]; subst. destruct (Z.ltb_spec 0 f); [|lia].
  apply K with (mkUser (auto_adjust_fps u) (Some f) (quality u) (delay u) (u_record u)); [|done|done].
  unfold user_custom_fps.
  replace (_ || _) with false; [unfold update_user; simpl; by rewrite lookup_alter_eq, U|].
  symmetry. apply orb_false_iff. unfold MIN_FPS, MAX_FPS. split; lia.
Qed.

(** The two ends agree about the rate: every rate the client asks for is between 1 and the
    one its user has chosen, so within what the other side accepts, and whenever no message is
    under way the rate that the quality control of the other side keeps for it is the last one
    the client has decided on. *)
Theorem client_fps_reaches_server l es v effs id q u :
  vrun es (video_new l) = (v, effs) -> Forall (fun e => posts_no_fps e = true) es ->
  last_auto_fps l = None -> users q !! id = Some u -> custom_fps u = None -> to_loop v = [] ->
  (users (foldl (serve_fps id) q (sent effs)) !! id) ≫= custom_fps = last_auto_fps (lc v) /\
  Forall (fun f => 1 <= f <= usable_custom_fps (vl_custom_fps l)) (fps_of (sent effs)).
Proof.
  intros R P N U C T. destruct (asked_run es [] (video_new l) P (asked_new l N)) as [[L F] K].
  rewrite R in *. unfold rates in *. simpl in *. rewrite T, app_nil_r, K in *. split; [|exact F].
  rewrite (serve_rates _ _ _ _ U), L, C; [by destruct (last_auto_fps (lc v))|].
  eapply Forall_impl; [exact F|]. intros f. pose proof (usable_range (vl_custom_fps l)). simpl. lia.
Qed.

(** *** The rate comes back *)

(** Hardly a frame waits, and every thread decodes at least [d] frames a second, one of them
    [d]; the counters of calm seconds are [n] or more. *)
Record calm (d n : Z) (v : Video) : Prop := {
  calm_all : forall k t l, video_threads v !! k = Some (t, l) ->
    zlen (video_queue t) <= 1 /\ (exists f, decode_fps t = Some f /\ d <= f) /\ n <= idle_counter (vt_fps_control t);
  calm_some : exists k t l, video_threads v !! k = Some (t, l) /\ decode_fps t = Some d;
}.

(** Every display shows frames. *)
Definition lively (real : gmap Z Z) (v : Video) : Prop :=
  forall k, is_Some (video_threads v !! k) -> default 0 (real !! k) <> 0.

Lemma min_option_fold l : forall x d,
  (forall y, y ∈ x :: l -> exists f, y = Some f /\ d <= f) -> Some d ∈ x :: l -> foldl min_option x l = Some d.
Proof.
  induction l as [|y l IH]; intros x d A S; simpl.
  - set_solver.
  - destruct (A x) as (f & -> & Hf); [by left|]. destruct (A y) as (g & -> & Hg); [by right; left|].
    apply IH.
    + intros z [->|I]%elem_of_cons; simpl; [eexists; split; [done|lia]|]. apply A. by do 2 right.
    + simpl. rewrite !elem_of_cons in *. destruct S as [[= ->]|[[= ->]|S]];
        [left; f_equal; lia|left; f_equal; lia|by right].
Qed.

Lemma min_decode_calm d m :
  (forall k t l, m !! k = Some (t, l) ->
     inactive_counter (vt_fps_control t) < inactive_threshold /\ exists f, decode_fps t = Some f /\ d <= f) ->
  (exists k t l, m !! k = Some (t, l) /\ decode_fps t = Some d) ->
  min_decode_fps m = Some d.
Proof.
  intros A (k & t & l & E & D). unfold min_decode_fps.
  set (l0 := decode_fps <$> _).
  assert (S : Some d ∈ l0).
  { subst l0. rewrite <- D. apply list_elem_of_fmap_2, list_elem_of_filter. split; [by apply (A k t l)|].
    apply list_elem_of_fmap. exists (t, l). split; [done|]. apply list_elem_of_fmap. exists (k, (t, l)).
    split; [done|]. by apply elem_of_map_to_list. }
  assert (F : forall y, y ∈ l0 -> exists f, y = Some f /\ d <= f).
  { subst l0. intros y (t' & -> & [_ I]%list_elem_of_filter)%list_elem_of_fmap.
    apply list_elem_of_fmap in I as ([t1 l1] & -> & I). apply list_elem_of_fmap in I as ([k1 p] & ? & I).
    simpl in *. subst p. apply elem_of_map_to_list in I. by apply (A k1 t1 l1). }
  clearbody l0. destruct l0 as [|x l0]; [by apply elem_of_nil in S|]. by apply min_option_fold.
Qed.

Lemma calm_trending limited last t :
  zlen (video_queue t) <= 1 -> inactive_counter (vt_fps_control t) = 0 -> is_Some (decode_fps t) ->
  fps_trending limited last t =
  (c_set_idle (idle_counter (vt_fps_control t) + 1) (vt_fps_control t),
   if (3 <? idle_counter (vt_fps_control t) + 1) && (last + 3 <=? limited) then Some true else None).
Proof.
  intros Q I [f D]. unfold fps_trending. rewrite D, I. unfold inactive_threshold.
  destruct (Z.ltb_spec 15 0); [lia|]. destruct (Z.ltb_spec 1 (zlen (video_queue t))); [lia|].
  destruct (Z.ltb_spec (Z.max 1 (f / 2)) (zlen (video_queue t))); [lia|]. simpl.
  destruct (Z.leb_spec (zlen (video_queue t)) 1); [done|lia].
Qed.

Lemma existsb_false {A} (f : A -> bool) l : (forall x, x ∈ l -> f x = false) -> existsb f l = false.
Proof.
  intros H. apply not_true_iff_false. rewrite existsb_exists. intros (x & I & E).
  rewrite H in E; [done|]. by apply list_elem_of_In.
Qed.

Lemma existsb_true {A} (f : A -> bool) l x : x ∈ l -> f x = true -> existsb f l = true.
Proof. intros I E. apply existsb_exists. exists x. split; [by apply list_elem_of_In|done]. Qed.

(** What [fps_control] does to a thread's counters when hardly a frame waits. *)
Lemma map_threads_lookup f m k t l :
  map_threads f m !! k = Some (t, l) -> exists t0, m !! k = Some (t0, l) /\ t = f k t0.
Proof.
  unfold map_threads. rewrite map_lookup_imap. destruct (m !! k) as [[t0 l0]|]; [|done].
  intros [= <- <-]. by exists t0.
Qed.

Lemma map_threads_is_some f m k : is_Some (map_threads f m !! k) <-> is_Some (m !! k).
Proof. unfold map_threads. rewrite map_lookup_imap. by destruct (m !! k). Qed.

Lemma refresh_slow_threads now d v : exists f,
  video_threads (refresh_slow now d v) = map_threads f (video_threads v) /\
  forall k t, video_queue (f k t) = video_queue t /\ decode_fps (f k t) = decode_fps t /\
    idle_counter (vt_fps_control (f k t)) = idle_counter (vt_fps_control t).
Proof.
  unfold refresh_slow. cbv zeta. eexists. split.
  - set (l := (filter _ _).*1). assert (E : forall v, video_threads (foldl (fun v k => refresh_video (i32 k) v) v l) = video_threads v).
    { induction l as [|x l IH]; intros w; simpl; [done|]. rewrite IH. unfold refresh_video. by case_match. }
    cbn [v_set_threads video_threads]. by rewrite E.
  - intros k t. simpl. by case_match.
Qed.

Lemma count_all_calm d n real v :
  calm d n v -> lively real v ->
  calm d n (v_set_threads (count_all real (video_threads v)) v) /\
  forall k t l, count_all real (video_threads v) !! k = Some (t, l) -> inactive_counter (vt_fps_control t) = 0.
Proof.
  intros [A (k0 & t0 & l0 & E0 & D0)] Li. split; [split|]; simpl.
  - intros k t l (t1 & E & ->)%map_threads_lookup. by apply (A k t1 l).
  - exists k0. unfold count_all, map_threads. rewrite map_lookup_imap, E0. simpl. eauto.
  - intros k t l (t1 & E & ->)%map_threads_lookup. simpl.
    destruct (Z.eqb_spec (default 0 (real !! k)) 0) as [Z0|]; [|done]. by destruct (Li k); [rewrite E|].
Qed.

(** With no display falling behind, the rate changes only to the one that is possible. *)
Lemma calm_step direct real now d n v a :
  let L := limited_fps direct d (usable_custom_fps (vl_custom_fps (lc v))) in
  calm d n v -> lively real v -> 0 <= a ->
  last_auto_fps (lc v) = Some L \/ last_auto_fps (lc v) = Some a /\ a + 3 <= L ->
  let v' := fps_control direct real now v in
  calm d (n + 1) v' /\ (forall k, is_Some (video_threads v' !! k) <-> is_Some (video_threads v !! k)) /\
  (last_auto_fps (lc v') = Some L \/ last_auto_fps (lc v') = last_auto_fps (lc v) /\ n < 3).
Proof.
  cbv zeta. set (L := limited_fps _ _ _). intros H Li Ha Last. unfold fps_control. cbv zeta.
  destruct (count_all_calm d n real v H Li) as [[A B] I]. set (v1 := v_set_threads (count_all _ _) v) in *.
  change (video_threads v1) with (count_all real (video_threads v)) in I.
  assert (L1 : lc v1 = lc v) by done.
  assert (K1 : forall k, is_Some (video_threads v1 !! k) <-> is_Some (video_threads v !! k))
    by (intros k; apply map_threads_is_some).
  change (count_all real (video_threads v)) with (video_threads v1) in I. clearbody v1.
  rewrite (min_decode_calm d); [|intros k t l E; rewrite (I k t l E); split; [done|by apply (A k t l)]|exact B].
  rewrite L1. fold L. set (trend := fps_trending L _).
  assert (T : forall k t l, video_threads v1 !! k = Some (t, l) ->
    trend t = (c_set_idle (idle_counter (vt_fps_control t) + 1) (vt_fps_control t),
     if (3 <? idle_counter (vt_fps_control t) + 1) &&
        (default (usable_custom_fps (vl_custom_fps (lc v))) (last_auto_fps (lc v)) + 3 <=? L) then Some true else None)).
  { intros k t l E. destruct (A k t l E) as (Q & (f & D & _) & _). apply calm_trending; [done|by eapply I|by eexists]. }
  set (trendings := (fun t : Z * (VideoThread * Locals) => (trend (t.2.1)).2) <$> map_to_list (video_threads v1)).
  set (v2 := v_set_threads _ v1). set (auto := new_auto_fps _ _ _ _).
  destruct (refresh_slow_threads now d (ask_fps auto v2)) as (g & G1 & G2).
  destruct (refresh_slow_same now d (ask_fps auto v2)) as (_ & S2 & S3).
  assert (V2 : video_threads (ask_fps auto v2) = map_threads (fun _ t => t_set_control (trend t).1 t) (video_threads v1))
    by by destruct auto.
  rewrite V2 in G1. split_and!.
  - split; rewrite G1.
    + intros k t l (t1 & (t2 & E & ->)%map_threads_lookup & ->)%map_threads_lookup.
      destruct (G2 k (t_set_control (trend t2).1 t2)) as (-> & -> & ->).
      destruct (A k t2 l E) as (Q & F & N). rewrite (T k t2 l E). simpl. split_and!; [done..|lia].
    + destruct B as (k & t & l & E & D). exists k. unfold map_threads. rewrite !map_lookup_imap, E. simpl.
      eexists _, _. split; [done|]. by destruct (G2 k (t_set_control (trend t).1 t)) as (_ & -> & _).
  - intros k. rewrite G1, !map_threads_is_some. apply K1.
  - rewrite S2. assert (Tr : forall x, x ∈ trendings -> exists k t l, video_threads v1 !! k = Some (t, l) /\ x = (trend t).2).
    { intros x ([k [t l]] & -> & E)%list_elem_of_fmap. apply elem_of_map_to_list in E. by exists k, t, l. }
    assert (Dn : existsb (fun v => bool_decide (v = Some false)) trendings = false).
    { apply existsb_false. intros x (k & t & l & E & ->)%Tr. rewrite (T k t l E). simpl. by case_match. }
    destruct B as (k & t & l & E & D). destruct (A k t l E) as (_ & _ & N).
    assert (Ik : (trend t).2 ∈ trendings).
    { apply list_elem_of_fmap. exists (k, (t, l)). split; [done|]. by apply elem_of_map_to_list. }
    rewrite (T k t l E) in Ik. unfold auto, new_auto_fps. rewrite Dn.
    destruct Last as [Last|[Last Hl]]; rewrite Last in *; simpl in *.
    + assert (Un : existsb (fun v => bool_decide (v = Some true)) trendings = false).
      { apply existsb_false. intros x (k' & t' & l' & E' & ->)%Tr. rewrite (T k' t' l' E'). simpl.
        destruct (Z.leb_spec (L + 3) L); [lia|]. by rewrite andb_false_r. }
      rewrite Un. left. change (lc (ask_fps None v2)) with (lc v1). by rewrite L1.
    + destruct (Z.leb_spec (a + 3) L); [|lia]. rewrite andb_true_r in Ik.
      destruct (existsb (fun v => bool_decide (v = Some true)) trendings) eqn:Up; simpl.
      * destruct (Z.ltb_spec L 1); [lia|]. rewrite bool_decide_false by (intros [=]; lia). by left.
      * right. change (lc (ask_fps None v2)) with (lc v1). rewrite L1. split; [exact Last|]. destruct (Z.ltb_spec 3 (idle_counter (vt_fps_control t) + 1)); [|lia].
        by rewrite (existsb_true _ _ _ Ik) in Up.
Qed.

(** In calm seconds the rate settles. *)
Lemma fps_settles direct d a ticks : forall n v,
  let L := limited_fps direct d (usable_custom_fps (vl_custom_fps (lc v))) in
  calm d n v -> Forall (fun t => lively t.1 v) ticks -> 0 <= a ->
  (last_auto_fps (lc v) = Some L \/ last_auto_fps (lc v) = Some a /\ a + 3 <= L /\ 4 <= n + zlen ticks) ->
  (n <= 3 \/ ticks <> [] \/ last_auto_fps (lc v) = Some L) ->
  last_auto_fps (lc (foldl (fun v t => fps_control direct t.1 t.2 v) v ticks)) = Some L.
Proof.
  induction ticks as [|[real now] ticks IH]; intros n v L H Li Ha La Nz; simpl.
  - destruct La as [La|(_ & _ & B)]; [done|]. rewrite zlen_nil in B. destruct Nz as [?|[?|?]]; [lia|congruence|done].
  - inversion Li as [|? ? Li1 Li2]; subst. simpl in Li1.
    destruct (calm_step direct real now d n v a) as (H1 & K1 & L1); [done|done|done|naive_solver|]. fold L in L1.
    destruct (fps_control_asks direct real now v) as [C _]. set (v1 := fps_control direct real now v) in *.
    assert (EL : limited_fps direct d (usable_custom_fps (vl_custom_fps (lc v1))) = L) by by rewrite C.
    rewrite <- EL. apply IH with (n + 1); rewrite ?EL; try done.
    + eapply Forall_impl; [exact Li2|]. intros t Lt k Is. apply Lt, K1, Is.
    + rewrite zlen_cons in La. destruct L1 as [L1|[L1 N]]; [by left|]. rewrite L1. destruct La as [La|(La & Ll & Z)]; [by left|].
      right. split_and!; [done..|lia].
    + destruct L1 as [L1|[L1 N]]; [by right; right|left; lia].
Qed.

(** The rate comes back once the machine keeps up: if every display shows frames, hardly a
    frame waits and the slowest decoder manages [d] frames a second, then however low the rate was
    set before, as long as it is 3 below what [d] allows, four seconds later the client has asked
    for nine tenths of [d] (four fifths through a relay) or for what its user chose, whichever is less. *)
Theorem fps_recovers direct d a n v ticks :
  let L := limited_fps direct d (usable_custom_fps (vl_custom_fps (lc v))) in
  calm d n v -> 0 <= n -> (4 <= length ticks)%nat -> Forall (fun t => lively t.1 v) ticks ->
  last_auto_fps (lc v) = Some a -> 0 <= a -> a + 3 <= L ->
  last_auto_fps (lc (foldl (fun v t => fps_control direct t.1 t.2 v) v ticks)) = Some L.
Proof.
  cbv zeta. intros H N Len Li Last Ha HL. apply (fps_settles direct d a ticks n v); [done|done|done| |].
  - right. split; [exact Last|]. split; [exact HL|]. unfold zlen. lia.
  - right. left. destruct ticks; [simpl in Len; lia|congruence].
Qed.

(** ** A decoder that fails *)

Definition fails_next (h : VideoHandler) : Prop := vh_first_frame h = true \/ 2 <= fail_counter h.

Lemma handle_frame_fails env vf h :
  vf_of vf <> None -> format (vh_decoder h) = format_of vf ->
  handle_video_frame (de_run env) (format_of vf) (encoded vf) (vh_decoder h) <> Ok true ->
  fails_next h -> 0 <= fail_counter h < 2 ^ 64 - 1 ->
  exists r w, handle_frame env vf h = (r, w.1, w.2) /\ r <> Ok true /\
    vh_decoder w.1 = vh_decoder h /\ MAX_DECODE_FAIL_COUNTER <= fail_counter w.1.
Proof.
  intros U F R N B. unfold handle_frame. rewrite bool_decide_true by done. destruct (vf_of vf); [|done].
  eexists _, (_, _). split; [done|]. split; [done|]. split; [done|]. simpl.
  rewrite (bool_decide_false _ R). destruct (Z.ltb_spec (fail_counter h) (2 ^ 64 - 1)); [|lia].
  unfold fails_next in N. unfold MAX_DECODE_FAIL_COUNTER in *.
  destruct (vh_first_frame h); simpl; [|destruct N; [done|lia]].
  destruct (Z.ltb_spec (fail_counter h) 3); lia.
Qed.

Lemma check_decoder_marks h v :
  MAX_DECODE_FAIL_COUNTER <= fail_counter h ->
  let f := format (vh_decoder h) in let v' := check_decoder h v in
  f ∈ mark_unsupported (lc v') /\
  (f ∉ mark_unsupported (lc v) -> to_loop v' = to_loop v ++ [MSupportedDecoding (mark_unsupported (lc v) ++ [f])]).
Proof.
  intros B. cbv zeta. unfold check_decoder. destruct (Z.leb_spec MAX_DECODE_FAIL_COUNTER (fail_counter h)); [|lia].
  rewrite orb_true_r. case_bool_decide as M; simpl; [done|]. split; [set_solver|done].
Qed.

(** A decoder that fails on its first frame, or on three in a row, is given up: its format is
    marked, the other side is told once that it cannot be decoded any more, and the frame's video
    is asked for anew where the decoder gave an error. *)
Theorem broken_decoder_marked env k vf t l v h :
  video_handler l = Some h -> vf_of vf <> None -> format (vh_decoder h) = format_of vf ->
  handle_video_frame (de_run env) (format_of vf) (encoded vf) (vh_decoder h) <> Ok true ->
  fails_next h -> 0 <= fail_counter h < 2 ^ 64 - 1 ->
  let v' := (decode_frame env k vf t l v).1 in
  format_of vf ∈ mark_unsupported (lc v') /\
  (format_of vf ∉ mark_unsupported (lc v) ->
   MSupportedDecoding (mark_unsupported (lc v) ++ [format_of vf]) ∈ to_loop v').
Proof.
  intros H U F R N B. cbv zeta. unfold decode_frame. rewrite H.
  destruct (handle_frame_fails env vf h U F R N B) as (r & [h' w] & E & Nr & D & M). rewrite E. simpl in D, M.
  rewrite <- F, <- D.
  assert (G : forall w', lc w' = lc v -> let v' := check_decoder h' w' in
            format (vh_decoder h') ∈ mark_unsupported (lc v') /\
            (format (vh_decoder h') ∉ mark_unsupported (lc v) ->
             MSupportedDecoding (mark_unsupported (lc v) ++ [format (vh_decoder h')]) ∈ to_loop v')).
  { intros w' L. destruct (check_decoder_marks h' w' M) as [A C]. rewrite L in *. split; [done|].
    intros X. rewrite (C X). set_solver. }
  destruct r as [[|]|]; [done| |]; cbn [fst]; apply G; [done|].
  unfold refresh_video. by case_match.
Qed.

(** ** Witnesses *)

Definition fps_run : list vevent :=
  ((fun n => Arrives false (a_frame (n =? 0)%nat (Z.of_nat n))) <$> seq 0 20) ++
  ((fun _ => Turn 0 decodes) <$> seq 0 20) ++ [Tick true 1000 1000; TakeUi].
Definition fps_end : Video := (vrun fps_run (video_new a_vlc)).1.
Definition one_user : VideoQoS := with_users (qos_default 0) (<[7 := user_default]> ∅).

Lemma client_fps_reaches_server_witness :
  (users (foldl (serve_fps 7) one_user (sent (vrun fps_run (video_new a_vlc)).2)) !! 7) ≫= custom_fps =
    last_auto_fps (lc fps_end) /\
  Forall (fun f => 1 <= f <= usable_custom_fps None) (fps_of (sent (vrun fps_run (video_new a_vlc)).2)).
Proof.
  apply (client_fps_reaches_server a_vlc fps_run fps_end (vrun fps_run (video_new a_vlc)).2 7 one_user user_default);
    [apply surjective_pairing|repeat constructor|by vm_compute..].
Defined.

Example fps_end_30 : last_auto_fps (lc fps_end) = Some 30 /\ decode_fps (thread_0 fps_end).1 = Some 100.
Proof. by vm_compute. Qed.

Definition quick_thread : VideoThread := mkThread [] [] (Some 100) 20 false no_fps.
Definition slow_end : Video :=
  mkVideo true VP9 {[0 := (quick_thread, no_locals)]} None false (vl_set_auto (Some 5) a_vlc) [].

Lemma slow_end_calm : calm 100 0 slow_end.
Proof.
  split; simpl.
  - intros k t l [<- [= <- <-]]%lookup_singleton_Some. split; [by vm_compute|]. split; [by exists 100|done].
  - by exists 0, quick_thread, no_locals.
Qed.

Lemma fps_recovers_witness :
  last_auto_fps (lc (foldl (fun v t => fps_control true t.1 t.2 v) slow_end
                       (replicate 4 (({[0 := 20]} : gmap Z Z), 5000)))) = Some 30.
Proof.
  apply (fps_recovers true 100 5 0 slow_end); [exact slow_end_calm|done|simpl; lia| |done|done|done].
  apply Forall_replicate. intros k. simpl. destruct (decide (k = 0)) as [->|N]; [done|].
  intros [x E]. by apply lookup_singleton_Some in E as [<- _].
Defined.

Definition bad_decoder : DecodeEnv :=
  mkDecodeEnv plain_machine (fun _ => true) None (fun _ _ => Err "bad"%string) None true 0.

Lemma broken_decoder_marked_witness :
  let v' := (decode_frame bad_decoder 0 (a_frame true 0) quick_thread
               (mkLocals (Some (new_handler bad_decoder VP9)) 0 0 0 None) slow_end).1 in
  VP9 ∈ mark_unsupported (lc v') /\
  (VP9 ∉ mark_unsupported (lc slow_end) -> MSupportedDecoding (mark_unsupported (lc slow_end) ++ [VP9]) ∈ to_loop v').
Proof.
  apply (broken_decoder_marked bad_decoder 0 (a_frame true 0) quick_thread
           (mkLocals (Some (new_handler bad_decoder VP9)) 0 0 0 None) slow_end (new_handler bad_decoder VP9));
    [done|done|done|done|by left|by vm_compute].
Defined.

(** The rate decided in an earlier connection is kept by the session, so a new connection, whose
    other side knows nothing of it, is not told. *)
Example reconnected_not_told :
  fps_of (sent (vrun fps_run (video_new (vl_set_auto (Some 30) a_vlc))).2) = [] /\
  last_auto_fps (lc (vrun fps_run (video_new (vl_set_auto (Some 30) a_vlc))).1) = Some 30.
Proof. by vm_compute. Qed.
