(* ===== verification/ClientFiles.v ===== *)
(** * The files of the client

    The part of the client's event loop ([src/client/io_loop.rs]) that is about files: what
    the user asks for (transfers in both directions, removing, creating, renaming), what the
    other side answers, and the progress that is shown; and the reading side of the server
    ([src/server/connection.rs]) for what is downloaded.  The jobs are those of
    [FileTransfer].  [None] is a panic.

    [Download] has the theorem that a download delivers the files. *)

From S2P Require Import Prelude ConnState Compress FileSys FileTransfer Upload.
#[local] Open Scope Z_scope.

(** [can_enable_overwrite_detection] and [is_support_file_transfer_resume_num] of a version. *)
(* src/libs/hbb_common/src/fs.rs:257-259 can_enable_overwrite_detection *)
Definition can_enable_overwrite_detection (version : Z) : bool := get_version_number "1.1.10" <=? version.
(* src/src/common.rs:174-176 is_support_file_transfer_resume_num *)
Definition is_support_file_transfer_resume_num (version : Z) : bool := get_version_number "1.4.2" <=? version.

(* src/src/client/io_loop.rs:2387-2394 RemoveJob *)
Record RemoveJob : Type := mkRemove {
  rm_files : list FileEntry;
  rm_path : string;
  rm_sep : string;
  rm_is_remote : bool;
  rm_no_confirm : bool;
  rm_last_update : Z;
}.

(* src/src/client/io_loop.rs:2397-2406 RemoveJob::new *)
Definition remove_new (files : list FileEntry) (path sep : string) (is_remote : bool) (now : Z) : RemoveJob :=
  mkRemove files path sep is_remote false now.

Definition rm_with_files (l : list FileEntry) (j : RemoveJob) : RemoveJob :=
  mkRemove l (rm_path j) (rm_sep j) (rm_is_remote j) (rm_no_confirm j) (rm_last_update j).
Definition rm_confirmed (j : RemoveJob) : RemoveJob :=
  mkRemove (rm_files j) (rm_path j) (rm_sep j) (rm_is_remote j) true (rm_last_update j).
Definition rm_updated (now : Z) (j : RemoveJob) : RemoveJob :=
  mkRemove (rm_files j) (rm_path j) (rm_sep j) (rm_is_remote j) (rm_no_confirm j) now.

(** The messages of the user interface about files. *)
(* src/src/client.rs:3658-3719 Data *)
Inductive FData : Type :=
| SendFiles (id : Z) (t : JobType) (path to : string) (file_num : Z) (include_hidden is_remote : bool)
| AddJob (id : Z) (t : JobType) (path to : string) (file_num : Z) (include_hidden is_remote : bool)
| ResumeJob (id : Z) (is_remote : bool)
| SetNoConfirm (id : Z)
| ConfirmDeleteFiles (id file_num : Z)
| SetConfirmOverrideFile (id file_num : Z) (need_override remember is_upload : bool)
| RemoveDirAll (id : Z) (path : string) (is_remote include_hidden : bool)
| CancelJob (id : Z)
| RemoveDir (id : Z) (path : string)
| RemoveFile (id : Z) (path : string) (file_num : Z) (is_remote : bool)
| CreateDir (id : Z) (path : string) (is_remote : bool)
| RenameFile (id : Z) (path new_name : string) (is_remote : bool).

(** What is asked of the other side. *)
Inductive action : Type :=
| ASend (id : Z) (t : JobType) (path : string) (file_num : Z) (include_hidden : bool)
| AReceive (id : Z) (path : string) (file_num : Z) (files : list FileEntry) (total : Z)
| AAllFiles (id : Z) (path : string) (include_hidden : bool)
| ACancel (id : Z)
| ARemoveDir (id : Z) (path : string)
| ARemoveFile (id : Z) (path : string) (file_num : Z)
| ACreate (id : Z) (path : string)
| ARename (id : Z) (path new_name : string)
| AConfirm (r : SendConfirm).

Inductive jerr : Type := JErr (e : terror) | JText (s : string).

(** What leaves the loop: a message, or something shown. *)
Inductive feffect : Type :=
| FSend (a : action)
| FRead (m : Message)             (** of the jobs that are read *)
| FJobError (id : Z) (e : jerr) (file_num : Z)
| FJobDone (id file_num : Z)
| FFolder (id : Z) (files : list FileEntry) (path : string) (is_local only_count : bool)
| FConfirmDelete (id file_num : Z) (name : string)
| FOverride (id file_num : Z) (path : string) (is_upload is_identical : bool)
| FProgress (id file_num : Z) (bytes elapsed finished : Z)
| FEmptyDirs
| FPrint (id : Z) (data : bytes).

(** [cf_queue]: what the loop sends to itself; [cf_last]: when the progress was shown last, and the
    bytes of each job then; [cf_fast]: the timer ticks every millisecond. *)
Record ClientFiles : Type := mkCf {
  cf_read : list TransferJob;
  cf_write : list TransferJob;
  cf_remove : gmap Z RemoveJob;
  cf_fs : FS;
  cf_queue : list FData;
  cf_last : Z * gmap Z Z;
  cf_fast : bool;
}.

Definition cf_set_read (l : list TransferJob) (s : ClientFiles) : ClientFiles :=
  mkCf l (cf_write s) (cf_remove s) (cf_fs s) (cf_queue s) (cf_last s) (cf_fast s).
Definition cf_set_write (l : list TransferJob) (s : ClientFiles) : ClientFiles :=
  mkCf (cf_read s) l (cf_remove s) (cf_fs s) (cf_queue s) (cf_last s) (cf_fast s).
Definition cf_set_remove (m : gmap Z RemoveJob) (s : ClientFiles) : ClientFiles :=
  mkCf (cf_read s) (cf_write s) m (cf_fs s) (cf_queue s) (cf_last s) (cf_fast s).
Definition cf_set_fs (f : FS) (s : ClientFiles) : ClientFiles :=
  mkCf (cf_read s) (cf_write s) (cf_remove s) f (cf_queue s) (cf_last s) (cf_fast s).
Definition cf_set_queue (q : list FData) (s : ClientFiles) : ClientFiles :=
  mkCf (cf_read s) (cf_write s) (cf_remove s) (cf_fs s) q (cf_last s) (cf_fast s).
Definition cf_set_last (l : Z * gmap Z Z) (s : ClientFiles) : ClientFiles :=
  mkCf (cf_read s) (cf_write s) (cf_remove s) (cf_fs s) (cf_queue s) l (cf_fast s).
Definition cf_set_fast (b : bool) (s : ClientFiles) : ClientFiles :=
  mkCf (cf_read s) (cf_write s) (cf_remove s) (cf_fs s) (cf_queue s) (cf_last s) b.

(** The surroundings. *)
Record FilesEnv : Type := mkFilesEnv {
  fv_version : Z;                 (** the other side's *)
  own_windows : bool;
  peer_windows : bool;
  fv_found : string -> bool -> result terror (list FileEntry);   (** [get_recursive_files] *)
  fv_create_dir : string -> option terror;
  fv_renamed : string -> string -> option string;  (** the new name within the directory of the old *)
  fv_now : Z;
}.

(** [name.replace('\\', "/")]. *)
Definition slashes (s : string) : string :=
  String.string_of_list_ascii
    ((fun c => if Ascii.eqb c (Ascii.ascii_of_nat 92) then Ascii.ascii_of_nat 47 else c) <$>
     String.list_ascii_of_string s).

(* src/libs/hbb_common/src/fs.rs:1248-1252 transform_windows_path *)
Definition transform_windows_path (l : list FileEntry) : list FileEntry :=
  (fun e => mkEntry (slashes (fe_name e)) (fe_size e) (fe_modified_time e)) <$> l.

(* src/src/ui_session_interface.rs:663-670 Session::get_path_sep *)
Definition get_path_sep (env : FilesEnv) (is_remote : bool) : string :=
  if if is_remote then peer_windows env else own_windows env
  then String.String (Ascii.ascii_of_nat 92) "" else "/"%string.

Definition with_is_last_job (v : bool) (j : TransferJob) : TransferJob :=
  mkJob (jid j) (jtype j) (remote j) (data_source j) (show_hidden j) (is_remote j) v (is_resume j) (file_num j)
    (files j) (conn_id j) (data_stream j) (total_size j) (finished_size j) (transferred j)
    (enable_overwrite_detection j) (file_confirmed j) (file_skipped j) (file_is_waiting j)
    (default_overwrite_strategy j) (digest j).

Section files.
Context `{Zstd} (allowed : fsop -> string -> bool).
Context (digest_json : FileDigest -> bytes) (parse_digest : bytes -> option FileDigest).
Context (env : FilesEnv).

(** ** Telling how a job ended *)

(* src/src/client/io_loop.rs:410-436 Remote::handle_job_status *)
Definition handle_job_status (id file_num : Z) (err : option jerr) (s : ClientFiles)
    : ClientFiles * list feffect :=
  let tell := [match err with Some e => FJobError id e file_num | None => FJobDone id file_num end] in
  match cf_remove s !! id with
  | Some job =>
      if rm_no_confirm job then
        let n := usize (i32 (file_num + 1)) in
        match (if n <? zlen (rm_files job) then rm_files job !! Z.to_nat n else None) with
        | Some e =>
            let path := rm_path job +:+ rm_sep job +:+ fe_name e in
            let s := cf_set_queue (cf_queue s ++ [RemoveFile id path (i32 n) (rm_is_remote job)]) s in
            if 1000 <=? i32 (fv_now env - rm_last_update job)
            then (cf_set_remove (<[id := rm_updated (fv_now env) job]> (cf_remove s)) s, tell)
            else (s, [])
        | None => (cf_set_remove (delete id (cf_remove s)) s, tell)
        end
      else (s, tell)
  | None => (s, tell)
  end.

(* src/src/client/io_loop.rs:1009-1034 Remote::update_job_status *)
Definition update_job_status (elapsed : Z) (j : TransferJob) (last : gmap Z Z) : gmap Z Z * list feffect :=
  if elapsed <=? 0 then (last, [])
  else
    (<[jid j := transferred j]> last,
     [FProgress (jid j) (i32 (file_num j - 1)) (u64 (transferred j - default 0 (last !! jid j))) elapsed
        (finished_size j)]).

(* src/src/client/io_loop.rs:1036-1057 Remote::update_jobs_status *)
Definition update_jobs_status (s : ClientFiles) : ClientFiles * list feffect :=
  let elapsed := i32 (fv_now env - fst (cf_last s)) in
  if 1000 <=? elapsed then
    let '(last, out) :=
      foldl (fun '(last, out) j => let '(last, o) := update_job_status elapsed j last in (last, out ++ o))
        (snd (cf_last s), []) (cf_read s ++ cf_write s) in
    (cf_set_last (fv_now env, last) s, out)
  else (s, []).

(** ** What the user asks for *)

Definition job_files (j : TransferJob) : list FileEntry :=
  if own_windows env && negb (peer_windows env) then transform_windows_path (files j) else files j.

Definition from_terror (e : terror) : option jerr := Some (JErr e).

(* src/src/client/io_loop.rs:572-637 Remote::handle_msg_from_ui *)
Definition send_files (id : Z) (t : JobType) (path to : string) (n : Z) (hidden is_remote : bool) (s : ClientFiles)
    : ClientFiles * list feffect :=
  let od := can_enable_overwrite_detection (fv_version env) in
  if is_remote then
    let ds := match t with Generic => FilePath to | Printer => MemoryCursor [] 0 end in
    (cf_set_write (cf_write s ++ [new_write id t path ds n hidden is_remote [] od]) s,
     [FSend (ASend id t path n hidden)])
  else
    match new_read id t to (FilePath path) n hidden is_remote od (fun p => fv_found env p hidden) with
    | Err e => handle_job_status id (-1) (from_terror e) s
    | Ok job =>
        (cf_set_fast true (cf_set_read (cf_read s ++ [job]) s),
         [FFolder id (files job) path true true; FSend (AReceive id to n (job_files job) (total_size job))])
    end.

(* src/src/client/io_loop.rs:638-694 Remote::handle_msg_from_ui *)
Definition add_job (id : Z) (t : JobType) (path to : string) (n : Z) (hidden is_remote : bool) (s : ClientFiles)
    : ClientFiles * list feffect :=
  let od := can_enable_overwrite_detection (fv_version env) in
  if is_remote then
    (cf_set_write (cf_write s ++ [with_is_last_job true (new_write id t path (FilePath to) n hidden is_remote [] od)]) s, [])
  else
    match new_read id t to (FilePath path) n hidden is_remote od (fun p => fv_found env p hidden) with
    | Err e => handle_job_status id (-1) (from_terror e) s
    | Ok job =>
        (cf_set_fast true (cf_set_read (cf_read s ++ [with_is_last_job true job]) s),
         [FFolder id (files job) path true true])
    end.

(* src/src/client/io_loop.rs:695-742 Remote::handle_msg_from_ui *)
Definition resume_job (id : Z) (is_remote : bool) (s : ClientFiles) : ClientFiles * list feffect :=
  if is_remote then
    match get_job id (cf_write s) with
    | Some (i, job) =>
        let job := with_is_resume true (with_is_last_job false job) in
        (cf_set_write (with_job i job (cf_write s)) s,
         [FSend (ASend id Generic (remote job) (file_num job) (show_hidden job))])
    | None => (s, [])
    end
  else
    match get_job id (cf_read s) with
    | Some (i, job) =>
        match data_source job with
        | FilePath _ =>
            let job := set_finished_size_on_resume (with_is_resume true (with_is_last_job false job)) in
            (cf_set_read (with_job i job (cf_read s)) s,
             [FSend (AReceive id (remote job) (file_num job) (job_files job) (total_size job))])
        | MemoryCursor _ _ => (s, [])
        end
    | None => (s, [])
    end.

(* src/src/client/io_loop.rs:769-810 Remote::handle_msg_from_ui *)
Definition confirm_override (id n : Z) (need_override remember is_upload : bool) (s : ClientFiles)
    : option (ClientFiles * list feffect) :=
  if is_upload then
    jobs ← set_confirm_override_upload allowed (cf_fs s) id n need_override remember (cf_read s);
    Some (cf_set_read jobs s, [])
  else
    match get_job id (cf_write s) with
    | None => Some (s, [])
    | Some (i, job) =>
        let job := if remember then with_default_overwrite_strategy (Some need_override) job else job in
        let req := mkConfirm id n (Some (if need_override then OffsetBlk 0 else Skip true)) in
        job ← confirm allowed req (cf_fs s) job;
        Some (cf_set_write (with_job i job (cf_write s)) s, [FSend (AConfirm req)])
    end.

(* src/src/client/io_loop.rs:811-847 Remote::handle_msg_from_ui *)
Definition remove_dir_all (id : Z) (path : string) (is_remote hidden : bool) (s : ClientFiles)
    : ClientFiles * list feffect :=
  let sep := get_path_sep env is_remote in
  if is_remote then
    (cf_set_remove (<[id := remove_new [] path sep is_remote (fv_now env)]> (cf_remove s)) s,
     [FSend (AAllFiles id path hidden)])
  else
    match fv_found env path hidden with
    | Ok entries =>
        (cf_set_remove (<[id := remove_new entries path sep is_remote (fv_now env)]> (cf_remove s)) s,
         [FFolder id entries path true false])
    | Err e => handle_job_status id (-1) (from_terror e) s
    end.

(* src/src/client/io_loop.rs:848-863 Remote::handle_msg_from_ui *)
Definition cancel_job (id : Z) (s : ClientFiles) : ClientFiles * list feffect :=
  let '(job, jobs) := remove_job id (cf_write s) in
  let f := match job with Some job => remove_download_file allowed job (cf_fs s) | None => cf_fs s end in
  let s := cf_set_fs f (cf_set_write jobs s) in
  let s := cf_set_read (snd (remove_job id (cf_read s))) s in
  (cf_set_remove (delete id (cf_remove s)) s, [FSend (ACancel id)]).

(* src/src/client/io_loop.rs:876-898 Remote::handle_msg_from_ui *)
Definition on_remove_file (id : Z) (path : string) (n : Z) (is_remote : bool) (s : ClientFiles)
    : ClientFiles * list feffect :=
  if is_remote then (s, [FSend (ARemoveFile id path n)])
  else
    match remove_file allowed path (cf_fs s) with
    | None => handle_job_status id n (from_terror Io) s
    | Some f => handle_job_status id n None (cf_set_fs f s)
    end.

(* src/src/client/io_loop.rs:899-919 Remote::handle_msg_from_ui *)
Definition on_create_dir (id : Z) (path : string) (is_remote : bool) (s : ClientFiles) : ClientFiles * list feffect :=
  if is_remote then (s, [FSend (ACreate id path)])
  else handle_job_status id (-1) (JErr <$> fv_create_dir env path) s.

(* src/src/client/io_loop.rs:920-937 Remote::handle_msg_from_ui *)
Definition on_rename_file (id : Z) (path new_name : string) (is_remote : bool) (s : ClientFiles)
    : ClientFiles * list feffect :=
  if is_remote then (s, [FSend (ARename id path new_name)])
  else
    match to ← fv_renamed env path new_name; rename allowed path to (cf_fs s) with
    | Some f => handle_job_status id (-1) None (cf_set_fs f s)
    | None => handle_job_status id (-1) (from_terror Io) s
    end.

(* src/src/client/io_loop.rs:743-768 Remote::handle_msg_from_ui *)
Definition on_delete_dialog (d : FData) (s : ClientFiles) : ClientFiles * list feffect :=
  match d with
  | SetNoConfirm id => (cf_set_remove (alter rm_confirmed id (cf_remove s)) s, [])
  | ConfirmDeleteFiles id n =>
      match cf_remove s !! id with
      | Some job =>
          match (if usize n <? zlen (rm_files job) then rm_files job !! Z.to_nat (usize n) else None) with
          | Some e => (s, [FConfirmDelete id n (fe_name e)])
          | None => (s, [])
          end
      | None => (s, [])
      end
  | _ => (s, [])
  end.

(* src/src/client/io_loop.rs:572-937 Remote::handle_msg_from_ui *)
Definition on_ui (d : FData) (s : ClientFiles) : option (ClientFiles * list feffect) :=
  match d with
  | SendFiles id t path to n h r => Some (send_files id t path to n h r s)
  | AddJob id t path to n h r => Some (add_job id t path to n h r s)
  | ResumeJob id r => Some (resume_job id r s)
  | SetNoConfirm _ | ConfirmDeleteFiles _ _ => Some (on_delete_dialog d s)
  | SetConfirmOverrideFile id n o r u => confirm_override id n o r u s
  | RemoveDirAll id path r h => Some (remove_dir_all id path r h s)
  | CancelJob id => Some (cancel_job id s)
  | RemoveDir id path => Some (s, [FSend (ARemoveDir id path)])
  | RemoveFile id path n r => Some (on_remove_file id path n r s)
  | CreateDir id path r => Some (on_create_dir id path r s)
  | RenameFile id path new_name r => Some (on_rename_file id path new_name r s)
  end.

(** ** What the other side answers *)

(* src/src/client/io_loop.rs:1459-1482 Remote::handle_msg_from_peer *)
Definition on_dir (id : Z) (path : string) (entries : list FileEntry) (s : ClientFiles)
    : ClientFiles * list feffect :=
  let entries := if negb (own_windows env) && peer_windows env then transform_windows_path entries else entries in
  (match get_job id (cf_write s) with
   | Some (i, job) => cf_set_write (with_job i (set_finished_size_on_resume (with_files entries job)) (cf_write s)) s
   | None => cf_set_remove (alter (rm_with_files entries) id (cf_remove s)) s
   end, [FFolder id entries path false false]).

(** The strategy and the offset, when there is something under the file's name. *)
Definition strategy_of (d : FileTransferDigest) (job : TransferJob) : option bool * Z :=
  if d_is_identical d && is_resume job && (0 <? d_transferred_size d)
  then (Some true, u32 (d_transferred_size d))
  else (default_overwrite_strategy job, 0).

(* src/src/client/io_loop.rs:1530-1620 Remote::handle_msg_from_peer *)
Definition on_download_digest (d : FileTransferDigest) (s : ClientFiles) : option (ClientFiles * list feffect) :=
  match get_job (d_id d) (cf_write s) with
  | None => Some (s, [])
  | Some (i, job) =>
      match entry_at (d_file_num d) job, data_source job with
      | Some file, FilePath p =>
          let path := join p (fe_name file) in
          let job := with_digest (mkDigest (d_file_size d) (d_last_modified d)) job in
          let s := cf_set_write (with_job i job (cf_write s)) s in
          let resume := is_support_file_transfer_resume_num (fv_version env) && is_resume job in
          let answer u :=
            let req := mkConfirm (d_id d) (d_file_num d) (Some u) in
            job ← confirm allowed req (cf_fs s) job;
            Some (cf_set_write (with_job i job (cf_write s)) s, [FSend (AConfirm req)]) in
          match is_write_need_confirmation parse_digest (cf_fs s) resume path d with
          | Ok IsSame => answer (Skip true)
          | Ok (NeedConfirm d') =>
              let '(strategy, offset) := strategy_of d' job in
              match strategy with
              | Some overwrite => answer (if overwrite : bool then OffsetBlk offset else Skip true)
              | None => Some (s, [FOverride (d_id d') (d_file_num d') path false (d_is_identical d')])
              end
          | Ok NoSuchFile => answer (OffsetBlk 0)
          | Err _ => Some (s, [])
          end
      | _, _ => Some (s, [])
      end
  end.

(** About an upload: what is sent is that of [Upload.client_digest]; without a strategy the user
    is asked. *)
(* src/src/client/io_loop.rs:1484-1529 Remote::handle_msg_from_peer *)
Definition on_upload_digest (d : FileTransferDigest) (s : ClientFiles) : option (ClientFiles * list feffect) :=
  '(jobs, out) ← client_digest allowed (cf_fs s) d (cf_read s);
  let ask :=
    match get_job (d_id d) (cf_read s) with
    | Some (_, job) =>
        match entry_at (d_file_num d) job, data_source job with
        | Some file, FilePath p =>
            if bool_decide (fst (strategy_of d job) = None)
            then [FOverride (d_id d) (d_file_num d) (join p (fe_name file)) true (d_is_identical d)] else []
        | _, _ => []
        end
    | None => []
    end in
  Some (cf_set_read jobs s,
        omap (fun m => match m with MConfirm r => Some (FSend (AConfirm r)) | _ => None end) out ++ ask).

(* src/src/client/io_loop.rs:1621-1630 Remote::handle_msg_from_peer *)
Definition on_block (b : FileTransferBlock) (s : ClientFiles) : ClientFiles * list feffect :=
  match get_job (b_id b) (cf_write s) with
  | Some (i, job) =>
      let '(_, job, f) := write allowed digest_json b job (cf_fs s) in
      let s := cf_set_fs f (cf_set_write (with_job i job (cf_write s)) s) in
      if bool_decide (jtype job = Generic) then update_jobs_status s else (s, [])
  | None => (s, [])
  end.

(* src/libs/hbb_common/src/fs.rs:525-533 TransferJob::get_buf_data *)
Definition get_buf_data (j : TransferJob) : option bytes :=
  match data_stream j with Some (BufStream d _) => Some d | _ => None end.

(* src/src/client/io_loop.rs:1631-1675 Remote::handle_msg_from_peer *)
Definition on_done (id n : Z) (s : ClientFiles) : ClientFiles * list feffect :=
  match remove_job id (cf_write s) with
  | (Some job, jobs) =>
      let s := cf_set_fs (modify_time allowed job (cf_fs s)) (cf_set_write jobs s) in
      match jtype job with
      | Generic => handle_job_status id n (JErr <$> job_error job) s
      | Printer =>
          (s, match job_error job, get_buf_data job with
              | None, Some d => if own_windows env then [FPrint id d] else []
              | _, _ => []
              end)
      end
  | (None, _) => handle_job_status id n None s
  end.

(* src/src/client/io_loop.rs:1676-1690 Remote::handle_msg_from_peer *)
Definition on_error (id : Z) (e : jerr) (n : Z) (s : ClientFiles) : ClientFiles * list feffect :=
  match remove_job id (cf_write s) with
  | (Some job, jobs) =>
      let s := cf_set_write jobs s in
      match jtype job with
      | Generic => handle_job_status id n (Some e) s
      | Printer => (s, [])
      end
  | (None, _) => handle_job_status id n (Some e) s
  end.

(** What arrives about files. *)
Inductive FileResponse : Type :=
| REmptyDirs
| RDir (id : Z) (path : string) (entries : list FileEntry)
| RDigest (d : FileTransferDigest)
| RBlock (b : FileTransferBlock)
| RDone (id n : Z)
| RError (id : Z) (e : jerr) (n : Z)
| RConfirm (r : SendConfirm).

(* src/src/client/io_loop.rs:1455-1694 Remote::handle_msg_from_peer *)
Definition on_peer (r : FileResponse) (s : ClientFiles) : option (ClientFiles * list feffect) :=
  match r with
  | REmptyDirs => Some (s, [FEmptyDirs])
  | RDir id path entries => Some (on_dir id path entries s)
  | RDigest d => if d_is_upload d then on_upload_digest d s else on_download_digest d s
  | RBlock b => Some (on_block b s)
  | RDone id n => Some (on_done id n s)
  | RError id e n => Some (on_error id e n s)
  | RConfirm c => jobs ← client_confirm allowed (cf_fs s) c (cf_read s); Some (cf_set_read jobs s, [])
  end.

(** The timer of the loop, when something was received in the last half minute. *)
(* src/src/client/io_loop.rs:266-279 Remote::io_loop *)
Definition on_timer (sched : list (option nat)) (s : ClientFiles) : ClientFiles * list feffect :=
  match cf_read s with
  | [] => (cf_set_fast false s, [])
  | jobs =>
      let '(jobs, out) := handle_read_jobs allowed sched (cf_fs s) jobs in
      let '(s, shown) := update_jobs_status (cf_set_read jobs s) in
      (s, (FRead <$> out) ++ shown)
  end.

(** What the loop has sent to itself. *)
Definition take_queue (s : ClientFiles) : option (ClientFiles * list feffect) :=
  match cf_queue s with
  | [] => Some (s, [])
  | d :: q => on_ui d (cf_set_queue q s)
  end.

(** ** The server reads *)

(** Of the requests about files, those that make the connection itself read; the jobs, and what is
    sent.  The others go to the connection manager ([Upload]). *)
(* src/src/server/connection.rs:2773-2841 Connection::on_message *)
Definition server_send (found : string -> bool -> result terror (list FileEntry)) (version : Z) (conn : Z)
    (id : Z) (path : string) (n : Z) (hidden : bool) (jobs : list TransferJob) : list TransferJob * list FileResponse :=
  let od := can_enable_overwrite_detection version in
  match new_read id Generic "" (FilePath path) n hidden false od (fun p => found p hidden) with
  | Err e => (jobs, [RError id (JErr e) 0])
  | Ok job =>
      let job := mkJob (jid job) (jtype job) (remote job) (data_source job) (show_hidden job) true
        (is_last_job job) (is_resume job) (file_num job) (files job) conn (data_stream job) (total_size job)
        (finished_size job) (transferred job) (enable_overwrite_detection job) (file_confirmed job)
        (file_skipped job) (file_is_waiting job) (default_overwrite_strategy job) (digest job) in
      (jobs ++ [job], [RDir id path (files job)])
  end.

(* src/src/server/connection.rs:2916-2924 Connection::on_message *)
Definition server_confirm (f : FS) (r : SendConfirm) (jobs : list TransferJob)
    : option (list TransferJob * list FSMsg) :=
  match get_job (r_id r) jobs with
  | Some (i, job) => job ← confirm allowed r f job; Some (with_job i job jobs, [])
  | None => Some (jobs, [FSConfirm r])
  end.

(** What a job that reads sends, as it arrives. *)
Definition as_response (m : Message) : FileResponse :=
  match m with
  | MBlock b => RBlock b
  | MDigest d => RDigest d
  | MConfirm r => RConfirm r
  | MDone id n => RDone id n
  | MError id e n => RError id (JErr e) n
  end.

End files.
