(* ===== verification/Download.v ===== *)
(** * Downloading files

    The two ends of a download: the server connection reads, the client writes.  Its messages
    are handled by [ClientFiles]; what is proved of a reading and a writing job in [Upload] is
    used again with the roles exchanged.  And what the other side can do to the files of the
    client: nothing without a job that the user started, but to a job that removes local files
    it can give files of its own choice. *)

From S2P Require Import Prelude ConnState Compress FileSys FileTransfer Upload ClientFiles.
#[local] Open Scope Z_scope.

Section download.
Context `{Zstd} (allowed : fsop -> string -> bool).
Context (digest_json : FileDigest -> bytes) (parse_digest : bytes -> option FileDigest).
Context (env : FilesEnv).

Abbreviation on_peer' := (on_peer allowed digest_json parse_digest env).

(** ** Both together *)

(** Messages for the client, one after the other. *)
Fixpoint to_client_files (rs : list FileResponse) (s : ClientFiles) : option (ClientFiles * list feffect) :=
  match rs with
  | [] => Some (s, [])
  | r :: rs =>
      '(s, out) ← on_peer' r s;
      '(s, outs) ← to_client_files rs s;
      Some (s, out ++ outs)
  end.

(** Of what the client sends, the confirmations reach the server's jobs. *)
Definition confirms (es : list feffect) : list SendConfirm :=
  omap (fun e => match e with FSend (AConfirm r) => Some r | _ => None end) es.

Fixpoint to_reader (f : FS) (rs : list SendConfirm) (jobs : list TransferJob) : option (list TransferJob) :=
  match rs with
  | [] => Some jobs
  | r :: rs => '(jobs, _) ← server_confirm allowed f r jobs; to_reader f rs jobs
  end.

(** One tick of the server's timer, and the messages it causes. *)
Definition dround (fc : FS) (sched : list (option nat)) (jobs : list TransferJob) (s : ClientFiles)
    : option (list TransferJob * ClientFiles) :=
  let '(jobs, out) := handle_read_jobs allowed sched fc jobs in
  '(s, es) ← to_client_files (as_response <$> out) s;
  jobs ← to_reader fc (confirms es) jobs;
  Some (jobs, s).

(** ** A download delivers the files *)

Section delivery.
Context (id : Z) (src dst : string) (ents : list FileEntry) (fc f0 : FS).
Context (Hmod : forall op p, op <> OpCreate -> allowed op p = true).
Context (Hcreate : forall p, allowed OpCreate p = true).
Context (Hz : forall d, zcompress d <> None).
Context (Hsrc : forall e, e ∈ ents ->
  exists n, file fc (join src (fe_name e)) = Some n /\ 0 <= mtime n).
Context (Hf0 : wf f0).
Context (Hm0 : forall e n, e ∈ ents -> file f0 (target dst e) = Some n -> 0 <= mtime n).
Context (Hsep : separate dst ents).
Context (Hlen : zlen ents < 2 ^ 31).

Abbreviation before_file' := (before_file id src dst ents fc f0).
Abbreviation at_file' := (at_file id src dst ents fc f0).
Abbreviation confirm_k := (confirm_all id).

(** The client's job was told to overwrite, and is not resumed. *)
Record told (j : TransferJob) : Prop := {
  told_overwrite : default_overwrite_strategy j = Some true;
  told_fresh : is_resume j = false;
}.

(** The job and the files in the client's state. *)
Record holds_client (js : TransferJob) (f : FS) (s : ClientFiles) : Prop := {
  hc_jobs : cf_write s = [js];
  hc_fs : cf_fs s = f;
  hc_told : told js;
}.

Lemma write_told b j f e j' f' : write allowed digest_json b j f = (e, j', f') -> told j -> told j'.
Proof.
  unfold write, write_stream. intros E [T1 T2].
  repeat case_match; simplify_eq; by split.
Qed.

Lemma jobs_status_keeps s :
  cf_write (fst (update_jobs_status env s)) = cf_write s /\ cf_fs (fst (update_jobs_status env s)) = cf_fs s.
Proof. unfold update_jobs_status. case_match; [|done]. by destruct (foldl _ _ _). Qed.

Lemma jobs_status_confirms s : confirms (snd (update_jobs_status env s)) = [].
Proof.
  unfold update_jobs_status. case_match; [|done].
  assert (P : forall el js acc, confirms acc.2 = [] ->
    confirms (foldl (fun '(last, out) j => let '(last, o) := update_job_status el j last in (last, out ++ o)) acc js).2 = []).
  { intros el. induction js as [|j js IH]; intros [l o] Hc; [done|]. cbn [foldl]. apply IH.
    unfold update_job_status. simpl in Hc. unfold confirms in *. destruct (el <=? 0); simpl; by rewrite omap_app, Hc. }
  specialize (P (i32 (fv_now env - (cf_last s).1)) (cf_read s ++ cf_write s) ((cf_last s).2, []) eq_refl).
  by destruct (foldl _ _ _).
Qed.

Lemma job_status_keeps i n e s :
  let s' := fst (handle_job_status env i n e s) in cf_write s' = cf_write s /\ cf_fs s' = cf_fs s.
Proof. unfold handle_job_status. repeat case_match; done. Qed.

(** The client lets the server go on with file [k]. *)
Lemma client_confirms k e lm size s js f :
  before_file' k js f -> holds_client js f s -> ents !! k = Some e ->
  exists js' s', on_peer' (RDigest (mkFtd id (Z.of_nat k) lm size false false 0 false)) s =
      Some (s', [FSend (AConfirm (confirm_k k))]) /\
    before_file' k js' f /\ holds_client js' f s'.
Proof.
  intros B [Hj Hf T] Ek. pose proof (before_file_ok _ _ _ _ _ _ _ _ _ B) as So.
  destruct (server_entry_at _ _ _ Hlen _ _ _ So Ek) as (e0 & E0 & N0 & _).
  cbn [on_peer d_is_upload]. unfold on_download_digest. cbn [d_id d_file_num d_file_size d_last_modified].
  rewrite Hj, (get_job_one id js (so_id _ _ _ _ So)), E0, (so_src _ _ _ _ So), N0. fold (target dst e).
  cbn [is_resume with_digest cf_fs cf_set_write]. rewrite Hf.
  set (js1 := with_digest (mkDigest size lm) js).
  assert (B1 : before_file' k js1 f).
  { apply (before_file_same _ _ _ _ _ _ k js); auto. intros [? ? ? ?]; by split. }
  assert (T1 : told js1) by (destruct T; by split).
  assert (A : exists js', confirm allowed (confirm_k k) f js1 = Some js' /\ before_file' k js' f /\ told js').
  { unfold confirm. cbn [confirm_all r_file_num r_union]. destruct (negb _); simpl.
    - by exists js1.
    - exists (set_file_confirmed true js1). split_and!; [done| |destruct T1; by split].
      apply (before_file_same _ _ _ _ _ _ k js1); auto. intros [? ? ? ?]; by split. }
  destruct A as (js' & C & B' & T').
  assert (G : exists s', (job ← confirm allowed (confirm_k k) f js1;
             Some (cf_set_write (with_job 0 job [js1]) (cf_set_write [js1] s), [FSend (AConfirm (confirm_k k))])) =
             Some (s', [FSend (AConfirm (confirm_k k))]) /\ holds_client js' f s').
  { rewrite C. cbn [mbind option_bind]. eexists. split; [reflexivity|]. by split. }
  destruct G as (s' & G & Hs'). exists js', s'. split; [|done].
  unfold is_write_need_confirmation. rewrite (told_fresh _ T), andb_false_r. cbn [andb].
  destruct (file f (target dst e)) as [n|] eqn:Fl.
  - assert (0 <= mtime n) as Hm.
    { apply (Hm0 e); [by eapply list_elem_of_lookup_2|].
      by rewrite <- (target_untouched allowed id src dst ents fc f0 Hmod Hcreate Hz Hsrc Hf0 Hm0 Hsep Hlen _ _ _ _ B Ek). }
    rewrite (proj2 (Z.ltb_ge _ _)) by lia. unfold strategy_of. cbn [d_is_identical is_resume with_digest].
    rewrite (told_fresh _ T1), andb_false_r. cbn [andb]. rewrite (told_overwrite _ T1). exact G.
  - exact G.
Qed.

(** The round in which the server asks about file [k]. *)
Lemma ask_download sched k e jr js f s :
  client_at id src ents false None k jr -> before_file' k js f -> holds_client js f s -> ents !! k = Some e ->
  exists jr' js' s', dround fc sched [jr] s = Some ([jr'], s') /\ holds_client js' f s' /\
    client_open id src ents fc false None k 0 true jr' /\ before_file' k js' f.
Proof.
  intros Ca B Ho Ek.
  destruct (tick_ask allowed id src ents fc Hmod Hsrc Hlen false None sched _ _ _ Ca Ek) as (jr1 & n & _ & T & Cs).
  destruct (client_confirms k e (mtime n / 1000000000) (zlen (data n)) s js f B Ho Ek) as (js' & s' & P & B' & Ho').
  destruct (reader_confirmed allowed id src ents fc None k jr1 Cs) as [C Cs'].
  exists (set_file_confirmed true jr1), js', s'. split; [|done]. unfold dround. rewrite T.
  cbn [fmap list_fmap as_response to_client_files]. rewrite P. cbn [mbind option_bind app].
  change (confirms [FSend (AConfirm (confirm_k k))]) with [confirm_k k]. cbn [to_reader].
  unfold server_confirm. change (r_id (confirm_k k)) with id.
  rewrite (get_job_one id jr1 (co_id _ _ _ _ _ _ (cs_ok _ _ _ _ _ _ _ _ _ _ Cs))), C. done.
Qed.

(** The round in which a block of file [k] arrives. *)
Lemma open_download sched k e pos jr js f s :
  client_open id src ents fc false None k pos true jr -> server_has id src dst ents fc f0 k pos js f ->
  holds_client js f s -> ents !! k = Some e -> None ∉ sched -> 0 <= pos ->
  let buf := take (Z.to_nat BUF_SIZE) (drop (Z.to_nat pos) (source_data src ents fc k)) in
  exists jr' js' f' s', dround fc sched [jr] s = Some ([jr'], s') /\ holds_client js' f' s' /\
    at_file' k (take (Z.to_nat pos) (source_data src ents fc k) ++ buf) js' f' /\
    match buf with
    | [] => client_at id src ents false None (S k) jr'
    | _ => client_open id src ents fc false None k (pos + zlen buf) true jr'
    end.
Proof.
  intros Cs Sh [Hj Hf T] Ek Hs Hp buf.
  destruct (tick_open allowed id src ents fc Hz Hlen false None sched k pos jr e Cs Ek Hs Hp)
    as (d & c & jr' & Tk & U & Hr). fold buf in U, Hr.
  destruct (writer_block allowed digest_json parse_digest id src dst ents fc f0 Hmod Hcreate Hz Hsrc Hf0 Hm0 Hsep Hlen
    k e pos d c js f Sh Ek) as (js' & f' & E & A). rewrite U in A.
  pose proof (server_has_ok _ _ _ _ _ _ _ _ _ _ Sh) as So.
  set (s1 := cf_set_fs f' (cf_set_write [js'] s)).
  exists jr', js', f', (fst (if bool_decide (jtype js' = Generic) then update_jobs_status env s1 else (s1, []))).
  split_and!; [| |done|done].
  - unfold dround. rewrite Tk. cbn [fmap list_fmap as_response to_client_files on_peer]. unfold on_block. cbn [b_id].
    rewrite Hj, (get_job_one id js (so_id _ _ _ _ So)), Hf, E. unfold with_job. cbn [list_insert insert]. fold s1.
    set (r := if bool_decide _ then _ else _).
    assert (Q : confirms r.2 = []) by (subst r; case_bool_decide; [apply jobs_status_confirms|done]).
    destruct r as [s2 out]. cbn [mbind option_bind]. rewrite app_nil_r. simpl in Q. by rewrite Q.
  - assert (K : forall s2, cf_write s2 = cf_write s1 -> cf_fs s2 = cf_fs s1 -> holds_client js' f' s2).
    { intros s2 K1 K2. split; [by rewrite K1|by rewrite K2|]. by eapply write_told. }
    case_bool_decide; [|by apply K]. apply K; apply jobs_status_keeps.
Qed.

(** The round in which the server is done. *)
Lemma done_download sched jr js f s :
  client_at id src ents false None (length ents) jr -> before_file' (length ents) js f -> holds_client js f s ->
  exists s', dround fc sched [jr] s = Some ([], s') /\ cf_write s' = [] /\ delivered src dst ents fc f0 (cf_fs s').
Proof.
  intros Ca B [Hj Hf T]. pose proof (before_file_ok _ _ _ _ _ _ _ _ _ B) as So.
  unfold dround. rewrite (tick_done allowed id src ents fc Hlen _ _ _ _ Ca).
  cbn [fmap list_fmap as_response to_client_files on_peer]. unfold on_done. rewrite Hj. cbn [remove_job].
  rewrite (so_id _ _ _ _ So), Z.eqb_refl, (so_type _ _ _ _ So). cbn [mbind option_bind].
  set (s1 := cf_set_fs _ _). destruct (job_status_keeps id (zlen ents) (JErr <$> job_error js) s1) as [K1 K2].
  assert (Q : confirms (handle_job_status env id (zlen ents) (JErr <$> job_error js) s1).2 = []).
  { unfold handle_job_status. repeat case_match; done. }
  destruct (handle_job_status _ _ _ _ _) as [s2 out]. cbn [mbind option_bind]. rewrite app_nil_r.
  simpl in Q, K1, K2. rewrite Q. cbn [to_reader mbind option_bind]. exists s2. split; [done|]. rewrite K1, K2.
  split; [done|]. simpl. rewrite Hf.
  by apply (writer_done allowed id src dst ents fc f0 Hmod Hcreate Hz Hsrc Hf0 Hm0 Hsep Hlen).
Qed.

Lemma idle_download scheds s : steps (dround fc) scheds [] s = Some ([], s).
Proof. induction scheds as [|sched scheds IH]; [done|]. simpl. exact IH. Qed.

(** The client's state after the user has asked for the files and chosen to overwrite. *)
Definition overwrite_all (s : ClientFiles) : ClientFiles :=
  cf_set_write (with_default_overwrite_strategy (Some true) <$> cf_write s) s.

(** C3. A download delivers the files.  The user asks for any number of files of the other side
    and has chosen to overwrite; the client starts with any files, leftovers of earlier transfers
    included, under names that do not clash, every access is permitted and reading never fails.
    Then the server's job is made, the client's job is told its files, and after enough ticks of the
    server's timer, whatever amounts its reads return, both have finished, nothing panicked, every
    file is on the client under its name with the source's content and modification time, no
    partial file or digest of it is left, and every other file of the client is as it was.
    Compressing a block succeeds, times are not before 1970, and there are fewer than 2^31 files. *)
Theorem download_delivers found version conn hidden s scheds :
  can_enable_overwrite_detection version = true -> found src hidden = Ok ents ->
  cf_write s = [] -> cf_fs s = f0 ->
  (negb (own_windows env) && peer_windows env = true -> transform_windows_path ents = ents) ->
  no_error scheds -> (upload_rounds src ents fc (length ents) < length scheds)%nat ->
  let '(s1, asked) := send_files env id Generic src dst 0 hidden true s in
  let '(jobs, listed) := server_send found version conn id src 0 hidden [] in
  asked = [FSend (ASend id Generic src 0 hidden)] /\
  exists s2 shown s3,
    to_client_files listed (overwrite_all s1) = Some (s2, shown) /\
    steps (dround fc) scheds jobs s2 = Some ([], s3) /\
    cf_write s3 = [] /\ delivered src dst ents fc f0 (cf_fs s3).
Proof.
  intros Hv Hfound Hw Hfs Ht Hs HL. unfold send_files, server_send, new_read. rewrite Hfound, Hw. cbn [mbind result_bind].
  split; [done|]. set (n := upload_rounds src ents fc (length ents)) in *.
  set (jr := mkJob _ _ _ _ _ _ _ _ _ _ _ _ _ _ _ _ _ _ _ _ _).
  set (js0 := with_default_overwrite_strategy (Some true)
    (new_write id Generic src (FilePath dst) 0 hidden true [] (can_enable_overwrite_detection (fv_version env)))).
  set (js := set_finished_size_on_resume (with_files ents js0)).
  set (s2 := cf_set_write [js] (cf_set_write [js0] s)).
  assert (L : to_client_files [RDir id src ents] (overwrite_all (cf_set_write [js0] s)) =
              Some (s2, [FFolder id ents src false false])).
  { cbn [to_client_files on_peer]. unfold on_dir.
    assert (Te : (if negb (own_windows env) && peer_windows env then transform_windows_path ents else ents) = ents).
    { destruct (negb (own_windows env) && peer_windows env); auto. }
    rewrite Te. cbn [overwrite_all cf_write cf_set_write fmap list_fmap].
    change (with_default_overwrite_strategy (Some true) js0) with js0. by rewrite (get_job_one id js0). }
  assert (So : server_ok id dst ents js) by by split.
  assert (B : before_file' 0 js f0) by (split_and!; done).
  assert (Ho : holds_client js f0 s2) by by split.
  assert (Ca : client_at id src ents false None 0 jr).
  { by split. }
  destruct (lookup_lt_is_Some_2 scheds n HL) as [sched En].
  rewrite <- (take_drop_middle _ _ _ En) in Hs |- *. apply Forall_app in Hs as [Hs1 _].
  destruct (step_files id src dst ents fc f0 (dround fc) holds_client false None ask_download open_download
    (length ents) 0 (take n scheds) jr js f0 s2 eq_refl Hs1)
    as (jr1 & js1 & f1 & t1 & R & Ho1 & Ca1 & B1); [|exact Ca|exact B|exact Ho|].
  { rewrite length_take. fold (upload_rounds src ents fc (length ents)). fold n. lia. }
  destruct (done_download sched jr1 js1 f1 t1 Ca1 B1 Ho1) as (s3 & R2 & W & D).
  exists s2, [FFolder id ents src false false], s3. split_and!; [exact L| |done|done].
  cbn [app]. rewrite steps_app, R. cbn [mbind option_bind steps]. rewrite R2. cbn [mbind option_bind]. apply idle_download.
Qed.

End delivery.

(** ** What the other side can do to the client's files *)

(** No local removal goes on without asking for each file. *)
Definition asks (s : ClientFiles) : Prop := forall id j, cf_remove s !! id = Some j -> rm_no_confirm j = false.

(** Without a job that writes: the files, the jobs that write and what the loop sends to itself. *)
Definition untouched (s s' : ClientFiles) : Prop :=
  cf_fs s' = cf_fs s /\ cf_write s' = [] /\ cf_queue s' = cf_queue s /\ asks s'.

Lemma status_untouched id n e s : cf_write s = [] -> asks s -> untouched s (fst (handle_job_status env id n e s)).
Proof.
  intros W A. unfold handle_job_status. destruct (cf_remove s !! id) as [j|] eqn:E; [|done].
  by rewrite (A _ _ E).
Qed.

Lemma peer_untouched r s s' out :
  cf_write s = [] -> asks s -> on_peer' r s = Some (s', out) -> untouched s s'.
Proof.
  intros W A. destruct r as [|id p l|d|b|id n|id e n|c]; cbn [on_peer].
  - by intros [= <- _].
  - intros [= <- _]. unfold on_dir. rewrite W. cbn [get_job list_find].
    split_and!; [done|done|done|]. intros i j. cbn [cf_remove cf_set_remove].
    destruct (decide (id = i)) as [->|N]; [|rewrite lookup_alter_ne by done; apply A].
    rewrite lookup_alter_eq. destruct (cf_remove s !! i) as [j0|] eqn:E; [|done]. intros [= <-]. exact (A i j0 E).
  - case_match.
    + unfold on_upload_digest. destruct (client_digest _ _ _ _) as [[jobs o]|]; [|done]. by intros [= <- _].
    + unfold on_download_digest. rewrite W. by intros [= <- _].
  - unfold on_block. rewrite W. by intros [= <- _].
  - unfold on_done. rewrite W. cbn [remove_job]. pose proof (status_untouched id n None s W A) as U.
    destruct (handle_job_status _ _ _ _ _). by intros [= <- _].
  - unfold on_error. rewrite W. cbn [remove_job]. pose proof (status_untouched id n (Some e) s W A) as U.
    destruct (handle_job_status _ _ _ _ _). by intros [= <- _].
  - destruct (client_confirm _ _ _ _) as [jobs|]; [|done]. by intros [= <- _].
Qed.

(** The other side writes and removes nothing on the client by itself: as long as the user has
    not started a job that writes, and has not told a removal of local files to go on without
    asking, no sequence of messages about files, in whatever order and with whatever identifiers,
    names and contents, changes a file of the client, makes a job that writes, or makes the client
    ask itself to remove one. *)
Theorem peer_needs_a_job rs s s' out :
  cf_write s = [] -> asks s -> to_client_files rs s = Some (s', out) ->
  cf_fs s' = cf_fs s /\ cf_write s' = [] /\ cf_queue s' = cf_queue s.
Proof.
  revert s out. induction rs as [|r rs IH]; intros s out W A; cbn [to_client_files]; [by intros [= <- _]|].
  destruct (on_peer' r s) as [[s1 o1]|] eqn:P; [|done]. cbn [mbind option_bind].
  destruct (peer_untouched r s s1 o1 W A P) as (F & W1 & Q & A1).
  destruct (to_client_files rs s1) as [[s2 o2]|] eqn:R; [|done]. cbn [mbind option_bind]. intros [= <- _].
  destruct (IH s1 o2 W1 A1 R) as (F2 & W2 & Q2). split_and!; [congruence|done|congruence].
Qed.

Lemma no_job_removed id jobs : get_job id jobs = None -> remove_job id jobs = (None, jobs).
Proof.
  intros G. apply list_find_None in G. induction G as [|j jobs Nj G IH]; [done|]. cbn [remove_job].
  rewrite (proj2 (Z.eqb_neq _ _) Nj). by rewrite IH.
Qed.

(** A removal of local files can be led to others: while the client removes a directory of its
    own without asking for each file, two messages of the other side, a listing under the
    identifier of that removal and a word that a file is done, make the client remove the file
    that the other side has named, below the directory or, with [..] in the name, anywhere. *)
Theorem local_removal_hijacked id job first name dir s f :
  cf_queue s = [] -> get_job id (cf_write s) = None -> cf_remove s !! id = Some job ->
  rm_is_remote job = false -> rm_no_confirm job = true -> negb (own_windows env) && peer_windows env = false ->
  let victim := rm_path job +:+ rm_sep job +:+ fe_name name in
  remove_file allowed victim (cf_fs s) = Some f ->
  exists s1 o1 s2 o2,
    to_client_files [RDir id dir [first; name]; RDone id 0] s = Some (s1, o1) /\
    cf_queue s1 = [RemoveFile id victim 1 false] /\
    take_queue allowed env s1 = Some (s2, o2) /\ cf_fs s2 = f /\ file f victim = None.
Proof.
  intros Q G R L N Tr victim F. cbn [to_client_files on_peer]. unfold on_dir. rewrite Tr, G. cbn [mbind option_bind].
  set (s0 := cf_set_remove _ s). set (job' := rm_with_files [first; name] job).
  assert (R0 : cf_remove s0 !! id = Some job').
  { subst s0. cbn [cf_remove cf_set_remove]. by rewrite lookup_alter_eq, R. }
  unfold on_done. change (cf_write s0) with (cf_write s). rewrite (no_job_removed _ _ G).
  assert (H1 : exists s1 o1, handle_job_status env id 0 None s0 = (s1, o1) /\ cf_queue s1 = [RemoveFile id victim 1 false] /\
            cf_fs s1 = cf_fs s).
  { unfold handle_job_status. rewrite R0. change (rm_no_confirm job') with (rm_no_confirm job). rewrite N.
    cbn -[i32]. change (cf_queue s0) with (cf_queue s). rewrite Q, L. cbn [app].
    destruct (1000 <=? _); eexists _, _; split_and!; done. }
  destruct H1 as (s1 & o1 & -> & Q1 & F1). cbn [mbind option_bind].
  assert (H2 : exists s2 o2, take_queue allowed env s1 = Some (s2, o2) /\ cf_fs s2 = f).
  { unfold take_queue. rewrite Q1. cbn [on_ui]. unfold on_remove_file. cbn [cf_fs cf_set_queue]. rewrite F1, F.
    eexists _, _. split; [rewrite <- surjective_pairing; reflexivity|]. apply job_status_keeps. }
  destruct H2 as (s2 & o2 & T & F2). eexists s1, _, s2, o2. split_and!; [reflexivity|done|done|done|].
  unfold remove_file in F. case_match; [|done]. injection F as <-. unfold file. simpl. by rewrite lookup_delete_eq.
Qed.

End download.

(** ** Witnesses *)

Definition an_env : FilesEnv :=
  mkFilesEnv (get_version_number "1.4.2") false false (fun _ _ => Ok Witness.ents) (fun _ => None)
    (fun _ _ => None) 5000.
Definition client_start : ClientFiles := mkCf [] [] ∅ Witness.receiver [] (0, ∅) false.

Lemma download_delivers_witness :
  let '(s1, asked) := send_files an_env 7 Generic "src" "dst" 0 false true client_start in
  let '(jobs, listed) :=
    server_send (fun _ _ => Ok Witness.ents) (get_version_number "1.4.2") 1 7 "src" 0 false [] in
  asked = [FSend (ASend 7 Generic "src" 0 false)] /\
  exists s2 shown s3,
    @to_client_files zstd_store Witness.yes Witness.json (fun _ => None) an_env listed (overwrite_all s1) =
      Some (s2, shown) /\
    steps (@dround zstd_store Witness.yes Witness.json (fun _ => None) an_env Witness.sender) Witness.scheds jobs s2 =
      Some ([], s3) /\
    cf_write s3 = [] /\ delivered "src" "dst" Witness.ents Witness.sender Witness.receiver (cf_fs s3).
Proof.
  apply (@download_delivers zstd_store Witness.yes Witness.json (fun _ => None) an_env 7 "src" "dst"
    Witness.ents Witness.sender Witness.receiver); try reflexivity.
  - intros d [=].
  - intros e He. apply list_elem_of_In in He. destruct He as [<-|[<-|[]]];
      eexists; (split; [vm_compute; reflexivity|done]).
  - split.
    + cbn [names Witness.receiver]. intros p i [<- <-]%lookup_singleton_Some. simpl. lia.
    + cbn [names Witness.receiver]. intros p q i [<- _]%lookup_singleton_Some.
      by intros [<- _]%lookup_singleton_Some.
  - intros e n He Hf. exfalso. apply list_elem_of_In in He.
    destruct He as [<-|[<-|[]]]; vm_compute in Hf; discriminate Hf.
  - intros i j e e' q Hi Hj Q1%list_elem_of_In Q2%list_elem_of_In.
    destruct i as [|[|i]], j as [|[|j]]; try done; simpl in Hi, Hj; simplify_eq; exfalso;
      vm_compute in Q1, Q2; intuition congruence.
  - repeat constructor; intros Q%list_elem_of_In; simpl in Q; intuition congruence.
  - vm_compute. lia.
Defined.

Lemma peer_needs_a_job_witness :
  exists s' out,
    @to_client_files zstd_store Witness.yes Witness.json (fun _ => None) an_env
      [RDir 7 "x" Witness.ents; RBlock (mkBlock 7 0 [Byte.x61] false); RDone 7 1] client_start = Some (s', out) /\
    cf_fs s' = cf_fs client_start /\ cf_write s' = [] /\ cf_queue s' = cf_queue client_start.
Proof.
  eexists _, _. split; [reflexivity|].
  eapply (@peer_needs_a_job zstd_store Witness.yes Witness.json (fun _ => None) an_env
    [RDir 7 "x" Witness.ents; RBlock (mkBlock 7 0 [Byte.x61] false); RDone 7 1] client_start); [done| |reflexivity].
  intros i j E. cbn in E. by rewrite lookup_empty in E.
Defined.

(** The user removes the directory [tmp]; the other side names [../keep]. *)
Definition removing : ClientFiles :=
  mkCf [] [] {[3 := mkRemove [mkEntry "a" 1 1] "tmp" "/" false true 5000]}
    (mkFS {["tmp/../keep"%string := 0%nat]} [mkNode [Byte.x61] 1] 2) [] (0, ∅) false.

Lemma local_removal_hijacked_witness :
  exists s1 o1 s2 o2 f,
    @to_client_files zstd_store Witness.yes Witness.json (fun _ => None) an_env
      [RDir 3 "" [mkEntry "a" 1 1; mkEntry "../keep" 0 0]; RDone 3 0] removing = Some (s1, o1) /\
    cf_queue s1 = [RemoveFile 3 "tmp/../keep" 1 false] /\
    take_queue Witness.yes an_env s1 = Some (s2, o2) /\ cf_fs s2 = f /\ file f "tmp/../keep" = None.
Proof.
  destruct (@local_removal_hijacked zstd_store Witness.yes Witness.json (fun _ => None) an_env 3
    (mkRemove [mkEntry "a" 1 1] "tmp" "/" false true 5000) (mkEntry "a" 1 1) (mkEntry "../keep" 0 0) "" removing
    (mkFS ∅ [mkNode [Byte.x61] 1] 2))
    as (s1 & o1 & s2 & o2 & E); try reflexivity.
  exists s1, o1, s2, o2, (mkFS ∅ [mkNode [Byte.x61] 1] 2). exact E.
Defined.
