(* ===== verification/ClientLoop.v ===== *)
(** * The event loop of the client

    [Remote] of [src/client/io_loop.rs] with the [Session] it belongs to
    ([src/ui_session_interface.rs]), in a build for Windows with the flutter user interface:
    what a message of the other side does on the controlling machine, what the user asks
    for, and the end of the loop.  The video, the files and the login are those of
    [ClientVideo], [ClientFiles] and [LoginConfig]; the rest is here: permissions, the
    clipboards, sound and calls, dialogs, the privacy mode, elevation, and what the other
    side tells of itself.

    A handler answers whether the loop goes on, the new state and what is done, in order;
    [None] is a panic.  Serving the file clipboard, drawing, plugins and the texts written
    to the log are left out. *)

From Stdlib Require Import Ascii.
From stdpp Require Import pretty.
From S2P Require Import Prelude Secure Options Compress FileSys FileTransfer Upload VideoQos CodecChoice ClientVideo ClientFiles LoginGuard Config ConnState PeerConfig LoginConfig.
#[local] Open Scope Z_scope.

(** ** What arrives *)

(* src/libs/hbb_common/protos/message.proto:43-53 DisplayInfo *)
Record DisplayInfo : Type := mkDisplay {
  di_x : Z; di_y : Z; di_w : Z; di_h : Z; di_cursor_embedded : bool; di_scale : Z
}.

(** The JSON of the platform's additions, where it can be parsed. *)
(* src/src/client/io_loop.rs:2034-2053 Remote::set_peer_info *)
Record Additions : Type := mkAdditions { ad_installed : bool; ad_idd_impl : string; ad_view_camera : bool }.

(** [PeerInfo] as the loop reads it; [lp_info] is the part that [LoginConfig] keeps. *)
Record LoginPeer : Type := mkLoginPeer {
  lp_info : PeerInfo;
  lp_terminal : option bool;
  lp_additions : option Additions;
  lp_displays : list DisplayInfo;
  lp_current : Z;
  lp_sessions : list Z;
  lp_current_sid : Z;
}.
Definition lp_set_current (v : Z) (p : LoginPeer) : LoginPeer :=
  mkLoginPeer (lp_info p) (lp_terminal p) (lp_additions p) (lp_displays p) v (lp_sessions p) (lp_current_sid p).

(* src/libs/clipboard/src/lib.rs:99-138 ClipboardFile *)
Inductive ClipboardFile : Type :=
| NotifyCallback (type title text : string)
| MonitorReady
| FormatList
| FormatListResponse
| FormatDataRequest
| FormatDataResponse
| FileContentsRequest
| FileContentsResponse
| TryEmpty
| Files.

#[export] Instance ClipboardFile_eq_dec : EqDecision ClipboardFile.
Proof. solve_decision. Defined.

(* src/libs/clipboard/src/lib.rs:154-161 ClipboardFile::is_stopping_allowed *)
Definition is_stopping_allowed (c : ClipboardFile) : bool :=
  match c with MonitorReady | FormatList | FormatDataRequest => true | _ => false end.

(* src/libs/clipboard/src/lib.rs:163-168 ClipboardFile::is_beginning_message *)
Definition is_beginning_message (c : ClipboardFile) : bool :=
  match c with MonitorReady | FormatList => true | _ => false end.

(* src/libs/hbb_common/protos/message.proto:735-775 BackNotification *)
Inductive BlockInputState := BlkStateUnknown | BlkOnSucceeded | BlkOnFailed | BlkOffSucceeded | BlkOffFailed.
Inductive PrivacyModeState :=
| PrvStateUnknown | PrvOnByOther | PrvNotSupported | PrvOnSucceeded | PrvOnFailedDenied | PrvOnFailedPlugin
| PrvOnFailed | PrvOffSucceeded | PrvOffByPeer | PrvOffFailed | PrvOffUnknown.

#[export] Instance PrivacyModeState_eq_dec : EqDecision PrivacyModeState.
Proof. solve_decision. Defined.

Inductive peer_message : Type :=
| PVideoFrame (vf : VideoFrame)
| PHash (h : Hash)
| PLoginError (err : string) (trusted : bool)
| PLoginOk (pi : LoginPeer)
| PCursor
| PClip
| PClips
| PCliprdr (clip : option ClipboardFile)          (** [None]: it cannot be decoded *)
| PFileResponse (r : FileResponse)
| PPrinterJob (path : string)
| PAudioFormat
| PAudioFrame
| PChat (text : string)
| PPermission (p : Permission) (enabled : bool)
| PSwitchDisplay (display : Z) (at_ : DisplayInfo) (original : Z * Z)
| PCloseReason (c : string)
| PBlockState (s : BlockInputState) (details : string)
| PPrivacyState (s : PrivacyModeState) (details impl_key : string)
| PUac (on : bool)
| PElevatedWindow (on : bool)
| PElevationResponse (err : string)
| PPortableService (running : bool)
| PSwitchBack
| PSupportedEncoding (e : SupportedEncoding)
| PFollowDisplay (display : Z)
| PTestDelay (from_client : bool)
| PMessageBox (msgtype title text link : string)
| PVoiceRequest (is_connect : bool)
| PVoiceResponse (ts : Z) (accepted : bool)
| PPeerInfo (displays : list DisplayInfo)
| PScreenshot
| PTerminal (opened : option (bool * string))     (** an answer that one was opened, with its service *)
| POther.

(** ** The state *)

(** What the loops of a session share. *)
Record SessionState : Type := mkSession {
  s_lc : LoginConfigHandler;
  s_peer : option LoginPeer;               (** [lc.peer_info] *)
  server_keyboard : bool;
  server_clipboard : bool;
  server_file_transfer : bool;
  trusted_devices : bool;                  (** [lc.enable_trusted_devices] *)
  last_change : Z * (Z * Z * Z);           (** [last_change_display] *)
}.
Definition s_set_lc (v : LoginConfigHandler) (s : SessionState) : SessionState :=
  mkSession v (s_peer s) (server_keyboard s) (server_clipboard s) (server_file_transfer s) (trusted_devices s) (last_change s).
Definition s_set_peer (v : option LoginPeer) (s : SessionState) : SessionState :=
  mkSession (s_lc s) v (server_keyboard s) (server_clipboard s) (server_file_transfer s) (trusted_devices s) (last_change s).
Definition s_set_keyboard (v : bool) (s : SessionState) : SessionState :=
  mkSession (s_lc s) (s_peer s) v (server_clipboard s) (server_file_transfer s) (trusted_devices s) (last_change s).
Definition s_set_clipboard (v : bool) (s : SessionState) : SessionState :=
  mkSession (s_lc s) (s_peer s) (server_keyboard s) v (server_file_transfer s) (trusted_devices s) (last_change s).
Definition s_set_file (v : bool) (s : SessionState) : SessionState :=
  mkSession (s_lc s) (s_peer s) (server_keyboard s) (server_clipboard s) v (trusted_devices s) (last_change s).
Definition s_set_trusted (v : bool) (s : SessionState) : SessionState :=
  mkSession (s_lc s) (s_peer s) (server_keyboard s) (server_clipboard s) (server_file_transfer s) v (last_change s).
Definition s_set_change (v : Z * (Z * Z * Z)) (s : SessionState) : SessionState :=
  mkSession (s_lc s) (s_peer s) (server_keyboard s) (server_clipboard s) (server_file_transfer s) (trusted_devices s) v.

(* src/src/client/io_loop.rs:83-90 ParsedPeerInfo *)
Record ParsedPeerInfo : Type := mkParsed {
  pp_platform : string;
  is_installed : bool;
  idd_impl : string;
  support_view_camera : bool;
  support_terminal : bool;
}.
Definition no_peer_info : ParsedPeerInfo := mkParsed "" false "" false false.

(* src/src/client/io_loop.rs:92-98 ParsedPeerInfo::is_support_virtual_display *)
Definition is_support_virtual_display (p : ParsedPeerInfo) : bool :=
  is_installed p && bool_decide (pp_platform p = "Windows"%string) &&
  (bool_decide (idd_impl p = "onedesk_idd"%string) || bool_decide (idd_impl p = "amyuni_idd"%string)).

(** What is sent, and what is done on this machine.  [CQueue]: sent to the loop itself, which
    sends it on. *)
Inductive cmsg : Type :=
| CmVirtualDisplay (display : Z)
| CmPrivacyMode (impl_key : string)
| CmTestDelay
| CmElevation
| CmScreenshot (display : Z)
| CmResolution (display w h : Z)
| CmSelectedSid (sid : Z)
| CmFileClip (c : ClipboardFile)
| CmClipboard
| CmAudio.

Inductive ceffect : Type :=
| CCloseReason (reason : string)
| CVoiceCall (is_connect : bool) (ts : Z)
| CSend (m : cmsg)
| CQueue (m : cmsg)
| CLogin (o : output)
| CVideo (e : veffect)
| CFile (e : feffect)
| CMsgbox (msgtype title text link : string)
| CCancelMsgbox (tag : string)
| CUpdateClipboard                        (** the machine's clipboard is set *)
| CServerClipFile (c : ClipboardFile)     (** the file clipboard serves the message *)
| CReadClipboard                          (** a task is started that sends the clipboard *)
| CTextRequired (on : bool)               (** whether this session wants what is copied *)
| CAudioFrame
| CAudioFormat
| CRecord                                 (** the microphone is recorded and sent *)
| CStopRecord                             (** the recording is told to end *)
| CDropRecord                             (** the recording ends, as nobody can tell it to any more *)
| CVoiceStarted
| CVoiceClosed (reason : string)
| CVoiceWaiting
| CPermission (name : string) (on : bool)
| CBlockInputState (on : bool)
| CPrivacyState
| CInputPassword (p : string)
| CSetDisplay (at_ : DisplayInfo)
| CLoadLastJobs
| CPrinterRequest (id : Z) (path : string)
| CUi (what : string).

(** ** What is asked of the surroundings *)

Record LoopEnv : Type := mkLoopEnv {
  le_client : CEnv;
  le_files : FilesEnv;
  le_password : string;                   (** [Session::password] *)
  le_auto_record : bool;
  le_clipboard : bool;                    (** there is something on this machine's clipboard *)
  le_current_peer : bool;                 (** the session in front is this one *)
  le_printer : string * bool;             (** what to do with a print job, and whether at once *)
  le_job_id : Z;
  le_temp : string;
  le_now : Z;                             (** [get_time], milliseconds *)
  le_clock : Z;                           (** [Instant::now], seconds *)
}.

(** [str::parse] of every part between commas that is a number. *)
Definition display_list (s : string) : list Z := omap parse_i32 (split_char "," "" s).

Definition CHANGE_RESOLUTION_VALID_TIMEOUT_SECS : Z := 15.
Definition SCALE_1 : Z := 0x3FF0000000000000.

(** The addresses a peer's dialog may link to, by the names it may use. *)
(* src/libs/hbb_common/src/config.rs:89-100 HELPER_URL *)
Definition HELPER_URL : gmap string string :=
  list_to_map
    [("onedesk docs home", "https://rustdesk.com/docs/en/");
     ("onedesk docs x11-required", "https://rustdesk.com/docs/en/manual/linux/#x11-required");
     ("onedesk x11 headless", "https://github.com/rustdesk/rustdesk/wiki/Headless-Linux-Support")]%string.

Section loop.
Context (sha256 : bytes -> bytes) (lower : string -> string) (b64_decode : string -> option bytes)
  (parse_uuid : string -> option bytes).
Context `{PeerStore} `{Compress.Zstd} (allowed : fsop -> string -> bool) (show_digest : FileDigest -> bytes)
  (parse_digest : bytes -> option FileDigest).

(** [Remote], with the files of the peers, which outlive it. *)
(* src/src/client/io_loop.rs:57-81 Remote *)
Record Remote : Type := mkRemote {
  r_session : SessionState;
  r_store : ps_files;
  r_video : Video;
  r_files : ClientFiles;
  r_peer : ParsedPeerInfo;
  is_connected : bool;
  elevation_requested : bool;
  stop_voice_call_sender : bool;           (** whether there is one: the microphone is recorded *)
  voice_call_request : option Z;           (** [voice_call_request_timestamp] *)
  sent_close_reason : bool;
}.
Definition r_set_session (v : SessionState) (r : Remote) : Remote :=
  mkRemote v (r_store r) (r_video r) (r_files r) (r_peer r) (is_connected r) (elevation_requested r)
    (stop_voice_call_sender r) (voice_call_request r) (sent_close_reason r).
Definition r_set_store (v : ps_files) (r : Remote) : Remote :=
  mkRemote (r_session r) v (r_video r) (r_files r) (r_peer r) (is_connected r) (elevation_requested r)
    (stop_voice_call_sender r) (voice_call_request r) (sent_close_reason r).
Definition r_set_video (v : Video) (r : Remote) : Remote :=
  mkRemote (r_session r) (r_store r) v (r_files r) (r_peer r) (is_connected r) (elevation_requested r)
    (stop_voice_call_sender r) (voice_call_request r) (sent_close_reason r).
Definition r_set_files (v : ClientFiles) (r : Remote) : Remote :=
  mkRemote (r_session r) (r_store r) (r_video r) v (r_peer r) (is_connected r) (elevation_requested r)
    (stop_voice_call_sender r) (voice_call_request r) (sent_close_reason r).
Definition r_set_peer (v : ParsedPeerInfo) (r : Remote) : Remote :=
  mkRemote (r_session r) (r_store r) (r_video r) (r_files r) v (is_connected r) (elevation_requested r)
    (stop_voice_call_sender r) (voice_call_request r) (sent_close_reason r).
Definition r_set_connected (v : bool) (r : Remote) : Remote :=
  mkRemote (r_session r) (r_store r) (r_video r) (r_files r) (r_peer r) v (elevation_requested r)
    (stop_voice_call_sender r) (voice_call_request r) (sent_close_reason r).
Definition r_set_elevation (v : bool) (r : Remote) : Remote :=
  mkRemote (r_session r) (r_store r) (r_video r) (r_files r) (r_peer r) (is_connected r) v
    (stop_voice_call_sender r) (voice_call_request r) (sent_close_reason r).
Definition r_set_calling (v : bool) (r : Remote) : Remote :=
  mkRemote (r_session r) (r_store r) (r_video r) (r_files r) (r_peer r) (is_connected r) (elevation_requested r)
    v (voice_call_request r) (sent_close_reason r).
Definition r_set_request (v : option Z) (r : Remote) : Remote :=
  mkRemote (r_session r) (r_store r) (r_video r) (r_files r) (r_peer r) (is_connected r) (elevation_requested r)
    (stop_voice_call_sender r) v (sent_close_reason r).
Definition r_set_sent (v : bool) (r : Remote) : Remote :=
  mkRemote (r_session r) (r_store r) (r_video r) (r_files r) (r_peer r) (is_connected r) (elevation_requested r)
    (stop_voice_call_sender r) (voice_call_request r) v.

Definition on_session (f : SessionState -> SessionState) (r : Remote) : Remote := r_set_session (f (r_session r)) r.
Definition r_lc (r : Remote) : LoginConfigHandler := s_lc (r_session r).
Definition set_lc_files (p : LoginConfigHandler * ps_files) (r : Remote) : Remote :=
  r_set_store p.2 (on_session (s_set_lc p.1) r).
Definition r_toggles (r : Remote) : Toggles := toggles (config (r_lc r)).

(* src/src/client/io_loop.rs:100-131 Remote::new *)
Definition remote_new (s : SessionState) (store : ps_files) (v : Video) (f : ClientFiles) : Remote :=
  mkRemote s store v f no_peer_info false false false None false.

(** ** Questions *)

(* src/src/ui_session_interface.rs:204-210 Session::is_default *)
Definition is_default (r : Remote) : bool := bool_decide (conn_type (r_lc r) = DEFAULT_CONN).
(* src/src/ui_session_interface.rs:196-202 Session::is_file_transfer *)
Definition is_file_transfer (r : Remote) : bool := bool_decide (conn_type (r_lc r) = FILE_TRANSFER).
(* src/src/ui_session_interface.rs:212-214 Session::is_view_camera *)
Definition is_view_camera (r : Remote) : bool := bool_decide (conn_type (r_lc r) = VIEW_CAMERA).
(* src/src/ui_session_interface.rs:216-218 Session::is_terminal *)
Definition is_terminal (r : Remote) : bool := bool_decide (conn_type (r_lc r) = TERMINAL).
(* src/src/ui_session_interface.rs:220-223 Session::is_port_forward *)
Definition is_port_forward (r : Remote) : bool :=
  bool_decide (conn_type (r_lc r) = PORT_FORWARD) || bool_decide (conn_type (r_lc r) = RDP).

(* src/src/ui_session_interface.rs:407-411 Session::is_text_clipboard_required *)
Definition is_text_clipboard_required (s : SessionState) : bool :=
  server_clipboard s && server_keyboard s && negb (disable_clipboard (toggles (config (s_lc s)))).

(* src/src/ui_session_interface.rs:414-418 Session::is_file_clipboard_required *)
Definition is_file_clipboard_required (s : SessionState) : bool :=
  server_keyboard s && server_file_transfer s && enable_file_copy_paste (toggles (config (s_lc s))).

(* src/src/ui_session_interface.rs:161-166 ChangeDisplayRecord::is_the_same_record *)
Definition is_the_same_record (clock : Z) (c : Z * (Z * Z * Z)) (display w h : Z) : bool :=
  (clock - c.1 <? CHANGE_RESOLUTION_VALID_TIMEOUT_SECS) && bool_decide (c.2 = (display, w, h)).

(** ** Small steps *)

Definition handles : Type := Remote -> bool * Remote * list ceffect.
Definition goes (f : Remote -> Remote) (l : list ceffect) : handles := fun r => (true, f r, l).
Definition shows (l : list ceffect) : handles := goes (fun r => r) l.
Definition msgbox (msgtype title text : string) : ceffect := CMsgbox msgtype title text "".
(* src/src/client.rs:3614-3616 Interface::on_error *)
Definition error_box (text : string) : ceffect := msgbox "error" "Error" text.

(* src/src/client/io_loop.rs:524-534 Remote::send_close_reason *)
Definition send_close_reason (reason : string) (r : Remote) : Remote * list ceffect :=
  if sent_close_reason r then (r, []) else (r_set_sent true r, [CCloseReason reason]).

(* src/src/client/io_loop.rs:437-442 Remote::stop_voice_call *)
Definition stop_voice_call (r : Remote) : Remote * list ceffect :=
  (r_set_calling false r, if stop_voice_call_sender r then [CStopRecord] else []).

(** The channel that was there is dropped, which ends its recording. *)
(* src/src/client/io_loop.rs:445-522 Remote::start_voice_call *)
Definition start_voice_call (r : Remote) : bool :=
  negb (is_file_transfer r || is_port_forward r || is_terminal r).

(** ** The other side accepts *)

(* src/src/client/io_loop.rs:2025-2053 Remote::set_peer_info *)
Definition set_peer_info (pi : LoginPeer) (p : ParsedPeerInfo) : ParsedPeerInfo :=
  let terminal := default (support_terminal p) (lp_terminal pi) in
  let platform := pi_platform (lp_info pi) in
  match lp_additions pi with
  | Some a => mkParsed platform (ad_installed a) (ad_idd_impl a) (ad_view_camera a) terminal
  | None => mkParsed platform (is_installed p) (idd_impl p) (support_view_camera p) terminal
  end.

(* src/src/client/io_loop.rs:1246-1263 Remote::check_view_camera_support *)
Definition check_view_camera_support (version platform : string) (r : Remote) : bool * list ceffect :=
  if support_view_camera (r_peer r) then (true, [])
  else if (get_version_number version <? get_version_number "1.3.9") &&
          (bool_decide (platform = "Windows"%string) || bool_decide (platform = "Linux"%string))
  then (false, [msgbox "error" "Download new version" "upgrade_remote_onedesk_client_to_{1.3.9}_tip"])
  else (false, [error_box "view_camera_unsupported_tip"]).

(* src/src/client/io_loop.rs:1265-1281 Remote::check_terminal_support *)
Definition check_terminal_support (version : string) (r : Remote) : bool * list ceffect :=
  if support_terminal (r_peer r) then (true, [])
  else if get_version_number version <? get_version_number "1.4.1"
  then (false, [msgbox "error" "Remote terminal not supported"
    "Remote terminal is not supported by the remote side. Please upgrade to version 1.4.1 or higher."])
  else (false, [error_box "Remote terminal is not supported by the remote side"]).

Definition handle_lc_peer_info (pi : LoginPeer) (r : Remote) : Remote * list ceffect :=
  let '(lc, f, out) := LoginConfig.handle_peer_info sha256 lower (lp_info pi) (r_lc r) (r_store r) in
  (set_lc_files (lc, f) r, CLogin <$> out).

(* src/src/ui_session_interface.rs:1534-1565 Session::change_resolution *)
Definition change_resolution (clock display w h : Z) (r : Remote) : Remote * list ceffect :=
  (on_session (s_set_change (clock, (display, w, h))) r, [CQueue (CmResolution display w h)]).

(* src/src/ui_session_interface.rs:1542-1547 Session::try_change_init_resolution *)
Definition try_change_init_resolution (clock display : Z) (r : Remote) : Remote * list ceffect :=
  match get_custom_resolution (r_lc r) (pretty display) with
  | Some (w, h) => change_resolution clock display w h r
  | None => (r, [])
  end.

Definition lc_set_selected (sid : Z) (lc : LoginConfigHandler) : LoginConfigHandler :=
  mkLch (lc_id lc) (conn_type lc) (is_terminal_admin lc) (lc_hash lc) (lc_password lc) (remember lc) (config lc)
    (lc_port_forward lc) (lc_version lc) (features lc) (lc_session_id lc) (supported_encoding lc)
    (restarting_remote_device lc) (force_relay lc) (direct lc) (received lc) (switch_uuid lc) (other_server lc)
    (lc_custom_fps lc) (adapter_luid lc) (Some sid) (password_source lc) (shared_password lc)
    (LoginConfig.record_state lc) (LoginConfig.record_permission lc).

(* src/src/ui_session_interface.rs:1582-1619 Session::send_selected_session_id *)
Definition send_selected_session_id (sid : Z) (r : Remote) : Remote * list ceffect :=
  let r := on_session (fun s => s_set_lc (lc_set_selected sid (s_lc s)) s) r in
  let more := match s_peer (r_session r) with
    | Some pi =>
        if decide (lp_current_sid pi = sid) then
          if is_file_transfer r then
            if decide (pi_username (lp_info pi) = ""%string)
            then [error_box "No active console user logged on, please connect and logon first."] else []
          else if negb (is_terminal r) then [msgbox "success" "Successful" "Connected, waiting for image..."]
          else []
        else []
    | None => []
    end in
  (r, CQueue (CmSelectedSid sid) :: more).

(** The sessions of Windows of the other side, at the end of [handle_peer_info]. *)
(* src/src/ui_session_interface.rs:1835-1847 Session::handle_peer_info *)
Definition choose_session (pi : LoginPeer) (r : Remote) : Remote * list ceffect :=
  match lp_sessions pi with
  | [] => (r, [])
  | _ =>
      if decide (selected_windows_session_id (r_lc r) = Some (lp_current_sid pi))
      then send_selected_session_id (lp_current_sid pi) r
      else (r, [CUi "set_multiple_windows_session"])
  end.

(** What [handle_peer_info] does of a session that shows a screen or a camera; [None]: it goes
    no further. *)
(* src/src/ui_session_interface.rs:1783-1809 Session::handle_peer_info *)
Definition prepare_display (env : LoopEnv) (pi : LoginPeer) (r : Remote) : option Remote * Remote * list ceffect :=
  match lp_displays pi !! Z.to_nat (usize (lp_current pi)) with
  | None =>
      let '(r, l) := handle_lc_peer_info pi r in
      (None, r, l ++ [CPrivacyState; msgbox "error" "Error" (if is_view_camera r then "No cameras" else "No displays")])
  | Some current =>
      let '(r, l) := try_change_init_resolution (le_clock env) (lp_current pi) r in
      let p := should_auto_login (r_lc r) in
      (Some r, r, l ++ (if decide (p = ""%string) then [] else [CInputPassword p]) ++ [CSetDisplay current])
  end.

(* src/src/ui_session_interface.rs:1769-1848 Session::handle_peer_info *)
Definition handle_peer_info (env : LoopEnv) (pi : LoginPeer) (r : Remote) : Remote * list ceffect :=
  let r := on_session (s_set_peer (Some pi)) r in
  let pi := if zlen (lp_displays pi) <=? usize (lp_current pi) then lp_set_current 0 pi else pi in
  let l0 := if get_version_number (pi_version (lp_info pi)) <? get_version_number "1.1.10"
            then [CPermission "restart" false] else [] in
  let screen := negb (is_file_transfer r) && negb (is_port_forward r) && negb (is_terminal r) in
  if is_file_transfer r && bool_decide (pi_username (lp_info pi) = ""%string) && bool_decide (lp_sessions pi = []) then
    (r, l0 ++ [error_box "No active console user logged on, please connect and logon first."])
  else
    let '(next, r, l1) := if screen then prepare_display env pi r else (Some r, r, []) in
    match next with
    | None => (r, l0 ++ l1)
    | Some r =>
        let '(r, l2) := handle_lc_peer_info pi r in
        let shown := if is_file_transfer r then [CUi "close_success"]
                     else if screen then [msgbox "success" "Successful" "Connected, waiting for image..."] else [] in
        let '(r, l3) := choose_session pi r in
        (r, l0 ++ l1 ++ [CPrivacyState] ++ l2 ++ [CUi "set_peer_info"] ++ shown ++ [CUi "on_connected"; CUi "add_recent_document"] ++ l3)
    end.

(** The clipboard of a session that shows a screen. *)
(* src/src/client/io_loop.rs:1352-1398 Remote::handle_msg_from_peer *)
Definition start_clipboard (env : LoopEnv) (r : Remote) : list ceffect :=
  if is_default r then
    [CUi "start_clipboard"] ++
    (if sync_init_clipboard (r_toggles r) && le_clipboard env then [CReadClipboard] else []) ++
    [CTextRequired (is_text_clipboard_required (r_session r))]
  else [].

(* src/src/client/io_loop.rs:1333-1414 Remote::handle_msg_from_peer *)
Definition on_login_ok (env : LoopEnv) (pi : LoginPeer) : handles := fun r =>
  let r := r_set_peer (set_peer_info pi (r_peer r)) r in
  let version := pi_version (lp_info pi) in
  let refused l := let '(r, l') := handle_lc_peer_info pi r in (false, r, l ++ l') in
  let '(camera, lc) := if is_view_camera r then check_view_camera_support version (pi_platform (lp_info pi)) r
                       else (true, []) in
  let '(term, lt) := if is_terminal r then check_terminal_support version r else (true, []) in
  if negb camera then refused lc
  else if negb term then refused lt
  else
    let '(r, l) := handle_peer_info env pi r in
    (true, r_set_connected true r,
     l ++ start_clipboard env r ++ (if is_file_transfer r then [CLoadLastJobs] else [])).

(** ** What the other side tells *)

(** [update_text_clipboard_required] of [src/flutter.rs], as far as this session goes. *)
Definition text_required (r : Remote) : ceffect := CTextRequired (is_text_clipboard_required (r_session r)).

(* src/src/client/io_loop.rs:1700-1753 Remote::handle_msg_from_peer *)
Definition on_permission (p : Permission) (on : bool) : handles := fun r =>
  match p with
  | PKeyboard => let r := on_session (s_set_keyboard on) r in (true, r, [text_required r; CPermission "keyboard" on])
  | PClipboard => let r := on_session (s_set_clipboard on) r in (true, r, [text_required r; CPermission "clipboard" on])
  | PAudio => (true, r, [CPermission "audio" on])
  | PFile =>
      let r := on_session (s_set_file on) r in
      (true, r, if negb on && is_file_transfer r then [] else [CPermission "file" on])
  | PRestart => (true, r, [CPermission "restart" on])
  | PRecording =>
      let '(v, l) := on_record_permission on (r_video r) in
      (true, r_set_video v r, (CVideo <$> l) ++ [CPermission "recording" on])
  | PBlockInput => (true, r, [CPermission "block_input" on])
  end.

(* src/src/ui_session_interface.rs:1499-1526 Session::set_custom_resolution *)
Definition set_custom_resolution (clock display w h : Z) (original : Z * Z) (r : Remote) : Remote :=
  let store wh := set_lc_files (LoginConfig.set_custom_resolution (pretty display) wh (r_lc r) (r_store r)) r in
  if decide ((w, h) = original) then store None
  else if decide ((last_change (r_session r)).2.1.1 = display) then
    store (if is_the_same_record clock (last_change (r_session r)) display w h then Some (w, h) else None)
  else r.

(* src/src/client/io_loop.rs:1754-1777 Remote::handle_msg_from_peer *)
Definition on_switch_display (env : LoopEnv) (display : Z) (d : DisplayInfo) (original : Z * Z) : handles := fun r =>
  let r := set_custom_resolution (le_clock env) display (di_w d) (di_h d) original r in
  let r := r_set_video (on_reset_decoder (Some (usize display)) (r_video r)) r in
  let scale := match s_peer (r_session r) with
    | Some pi => default SCALE_1 (di_scale <$> (lp_displays pi !! Z.to_nat (usize display)))
    | None => SCALE_1
    end in
  (true, r, CUi "switch_display" ::
     if (0 <? di_w d) && (0 <? di_h d)
     then [CSetDisplay (mkDisplay (di_x d) (di_y d) (di_w d) (di_h d) (di_cursor_embedded d) scale)] else []).

Definition detailed (details or_else : string) : string := if decide (details = ""%string) then or_else else details.

(* src/src/client/io_loop.rs:2085-2125 Remote::handle_back_msg_block_input *)
Definition on_block_input (s : BlockInputState) (details : string) : list ceffect :=
  match s with
  | BlkOnSucceeded => [CBlockInputState true]
  | BlkOnFailed => [msgbox "custom-error" "Block user input" (detailed details "Failed"); CBlockInputState false]
  | BlkOffSucceeded => [CBlockInputState false]
  | BlkOffFailed => [msgbox "custom-error" "Unblock user input" (detailed details "Failed")]
  | BlkStateUnknown => []
  end.

Definition t_set_privacy_mode (v : bool) (t : Toggles) : Toggles :=
  mkToggles (show_remote_cursor t) (lock_after_session_end t) (terminal_persistent t) v (allow_swap_key t)
    (disable_audio t) (disable_clipboard t) (enable_file_copy_paste t) (show_quality_monitor t)
    (follow_remote_cursor t) (follow_remote_window t) (view_only t) (show_my_cursor t) (sync_init_clipboard t).

(* src/src/client/io_loop.rs:2127-2145 Remote::update_privacy_mode *)
Definition update_privacy_mode (impl_key : string) (on : bool) (r : Remote) : Remote * list ceffect :=
  let '(c, f) := load_config (r_lc r) (r_store r) in
  let c := p_set_toggles (t_set_privacy_mode on (toggles c)) c in
  let c := if on then p_set_options (<["privacy-mode-impl-key"%string := detailed impl_key "privacy_mode_impl_mag"]> (options c)) c
           else c in
  (set_lc_files (save_config c (r_lc r) f) r, [CPrivacyState]).

(** The dialog that tells of a change, and what it says of the privacy mode. *)
(* src/src/client/io_loop.rs:2147-2227 Remote::handle_back_msg_privacy_mode *)
Definition privacy_dialog (s : PrivacyModeState) (details : string) : list ceffect * option bool :=
  let failed text := [msgbox "custom-error" "Privacy mode" text] in
  match s with
  | PrvStateUnknown => ([], None)
  | PrvOnByOther => ([msgbox "error" "Connecting..." "Someone turns on privacy mode, exit"], None)
  | PrvNotSupported => (failed "Unsupported", Some false)
  | PrvOnSucceeded => ([msgbox "custom-nocancel" "Privacy mode" "Enter privacy mode"], Some true)
  | PrvOnFailedDenied => (failed "Peer denied", Some false)
  | PrvOnFailedPlugin => (failed "Please install plugins", Some false)
  | PrvOnFailed => (failed (detailed details "Failed"), Some false)
  | PrvOffSucceeded => ([msgbox "custom-nocancel" "Privacy mode" "Exit privacy mode"], Some false)
  | PrvOffByPeer => (failed "Peer exit", Some false)
  | PrvOffFailed => (failed (detailed details "Failed to turn off"), None)
  | PrvOffUnknown => (failed "Turned off", Some false)
  end.

(* src/src/client/io_loop.rs:2147-2227 Remote::handle_back_msg_privacy_mode *)
Definition on_privacy_mode (s : PrivacyModeState) (details impl_key : string) : handles := fun r =>
  let '(l, on) := privacy_dialog s details in
  let '(r, l') := match on with Some on => update_privacy_mode impl_key on r | None => (r, []) end in
  (negb (bool_decide (s = PrvOnByOther)), r, l ++ l').

(* src/src/client/io_loop.rs:1788-1853 Remote::handle_msg_from_peer *)
Definition on_elevation_prompt (tag text : string) (on : bool) : handles := fun r =>
  shows (if on && server_keyboard (r_session r) then [msgbox tag "Prompt" text]
         else [CCancelMsgbox tag; CCancelMsgbox "wait-uac"; CCancelMsgbox "elevation-error"]) r.

(* src/src/client/io_loop.rs:1854-1862 Remote::handle_msg_from_peer *)
Definition on_elevation_response (err : string) : list ceffect :=
  if decide (err = ""%string) then [msgbox "wait-uac" "" ""]
  else [CCancelMsgbox "wait-uac"; msgbox "elevation-error" "Elevation Error" err].

(* src/src/client/io_loop.rs:1917-1949 Remote::handle_msg_from_peer *)
Definition on_printer_job (env : LoopEnv) (path : string) (r : Remote) : Remote * list ceffect :=
  let '(action, auto) := le_printer env in
  if decide (action = "dismiss"%string) then (r, [])
  else if auto then
    let d := SendFiles (le_job_id env) Printer path (le_temp env) 0 false true in
    (r_set_files (cf_set_queue (cf_queue (r_files r) ++ [d]) (r_files r)) r, [])
  else (r, [CPrinterRequest (le_job_id env) path]).

(* src/src/client/io_loop.rs:1960-1970 Remote::handle_msg_from_peer *)
Definition on_message_box (msgtype title text link : string) : list ceffect :=
  [CMsgbox msgtype title text (default ""%string (HELPER_URL !! link))].

(* src/src/client/io_loop.rs:1971-1981 Remote::handle_msg_from_peer *)
Definition on_voice_request (is_connect : bool) : handles := fun r =>
  if is_connect then (true, r, [])
  else if stop_voice_call_sender r then (true, r_set_calling false r, [CStopRecord; CVoiceClosed ""])
  else (true, r, []).

(* src/src/client/io_loop.rs:1982-1998 Remote::handle_msg_from_peer *)
Definition on_voice_response (ts : Z) (accepted : bool) : handles := fun r =>
  let request := voice_call_request r in
  let r := r_set_request None r in
  match request with
  | Some t =>
      if negb (ts =? t) then (true, r, [])
      else if accepted then
        let started := start_voice_call r in
        (true, r_set_calling started r,
         CVoiceStarted :: (if started then [CRecord] else []) ++ (if stop_voice_call_sender r then [CDropRecord] else []))
      else (true, r, [CVoiceClosed ""])
  | None => (true, r, [])
  end.

(* src/src/client/io_loop.rs:2008-2018 Remote::handle_msg_from_peer *)
Definition on_terminal (opened : option (bool * string)) : handles := fun r =>
  let r := match opened with
    | Some (true, service) =>
        if decide (service = ""%string) then r
        else set_lc_files (set_option (get_key_terminal_service_id (r_lc r)) service (r_lc r) (r_store r)) r
    | _ => r
    end in
  (true, r, [CUi "handle_terminal_response"]).

(* src/src/client/io_loop.rs:2237-2277 Remote::handle_cliprdr_msg *)
Definition on_cliprdr (env : LoopEnv) (clip : option ClipboardFile) : handles := fun r =>
  match clip with
  | None => (true, r, [])
  | Some c =>
      if bool_decide (c = FormatList) && negb (le_current_peer env) then (true, r, [])
      else if is_beginning_message c && negb (is_file_clipboard_required (r_session r)) then (true, r, [])
      else (true, r, [CServerClipFile c])
  end.

(** The messages sent when the first frame arrives. *)
(* src/src/client/io_loop.rs:1078-1097 Remote::send_toggle_virtual_display_msg *)
Definition send_toggle_virtual_display_msg (r : Remote) : list ceffect :=
  if negb (is_support_virtual_display (r_peer r)) then []
  else (fun d => CSend (CmVirtualDisplay d)) <$> display_list (get_option (r_lc r) "virtual-display").

(* src/src/client/io_loop.rs:1099-1120 Remote::send_toggle_privacy_mode_msg *)
Definition send_toggle_privacy_mode_msg (r : Remote) : list ceffect :=
  if (get_version_number "1.2.4" <=? lc_version (r_lc r)) && get_toggle_option (r_lc r) "privacy-mode" then
    let key := get_option (r_lc r) "privacy-mode-impl-key" in
    if bool_decide (key = "privacy_mode_impl_virtual_display"%string) && negb (is_support_virtual_display (r_peer r))
    then [] else [CSend (CmPrivacyMode key)]
  else [].

(* src/src/client/io_loop.rs:1286-1318 Remote::handle_msg_from_peer *)
Definition on_frame (env : LoopEnv) (vf : VideoFrame) : handles := fun r =>
  let first := if first_frame (r_video r) then []
               else [CUi "close_success"; CUi "adapt_size"] ++
                    send_toggle_virtual_display_msg r ++ send_toggle_privacy_mode_msg r in
  let '(v, l) := on_video_frame (le_auto_record env) vf (r_video r) in
  (true, r_set_video v r, first ++ (CVideo <$> l)).

(** ** A message of the other side *)

Definition of_login (p : LoginConfigHandler * ps_files * list output) (r : Remote) : Remote * list ceffect :=
  (set_lc_files p.1 r, CLogin <$> p.2).

(* src/src/client/io_loop.rs:1325-1332 Remote::handle_msg_from_peer *)
Definition on_login_error (err : string) (trusted : bool) : handles := fun r =>
  let r := if decide (err = "2FA Required"%string) then on_session (s_set_trusted trusted) r else r in
  let '(again, lc, f, out) := handle_login_error err (r_lc r) (r_store r) in
  (again, set_lc_files (lc, f) r, CLogin <$> out).

(** Every message but those about files. *)
(* src/src/client/io_loop.rs:1283-2023 Remote::handle_msg_from_peer *)
Definition on_peer_message (env : LoopEnv) (m : peer_message) : handles := fun r =>
  match m with
  | PVideoFrame vf => on_frame env vf r
  | PHash h =>
      let '(r, l) := of_login (handle_hash sha256 b64_decode parse_uuid (le_client env) (le_password env) h (r_lc r) (r_store r)) r in
      (true, r, l)
  | PLoginError err trusted => on_login_error err trusted r
  | PLoginOk pi => on_login_ok env pi r
  | PCursor => shows [CUi "set_cursor"] r
  | PClip | PClips => shows (if disable_clipboard (r_toggles r) then [] else [CUpdateClipboard]) r
  | PCliprdr clip => on_cliprdr env clip r
  | PFileResponse _ => (true, r, [])
  | PPrinterJob path => let '(r, l) := on_printer_job env path r in (true, r, l)
  | PAudioFormat => shows [CAudioFormat] r
  | PAudioFrame => shows (if disable_audio (r_toggles r) then [] else [CAudioFrame]) r
  | PChat _ => shows [CUi "new_message"] r
  | PPermission p on => on_permission p on r
  | PSwitchDisplay k d original => on_switch_display env k d original r
  | PCloseReason c => (false, r_set_sent true r, [msgbox "error" "Connection decline" c])
  | PBlockState s details => shows (on_block_input s details) r
  | PPrivacyState s details key => on_privacy_mode s details key r
  | PUac on => on_elevation_prompt "on-uac" "Please wait for confirmation of UAC..." on r
  | PElevatedWindow on => on_elevation_prompt "on-foreground-elevated" "elevated_foreground_window_tip" on r
  | PElevationResponse err => shows (on_elevation_response err) r
  | PPortableService on =>
      shows (CUi "portable_service_running" ::
             if elevation_requested r && on then [msgbox "custom-nocancel-success" "Successful" "Elevate successfully"] else []) r
  | PSwitchBack => shows [CUi "switch_back"] r
  | PSupportedEncoding e => (true, on_session (fun s => s_set_lc (l_set_supported_encoding (Some e) (s_lc s)) s) r, [])
  | PFollowDisplay _ => shows [CUi "set_current_display"] r
  | PTestDelay from_client => shows (if from_client then [] else [CUi "update_quality_status"; CSend CmTestDelay]) r
  | PMessageBox msgtype title text link => shows (on_message_box msgtype title text link) r
  | PVoiceRequest is_connect => on_voice_request is_connect r
  | PVoiceResponse ts accepted => on_voice_response ts accepted r
  | PPeerInfo _ => shows [CUi "set_displays"; CUi "set_platform_additions"] r
  | PScreenshot => shows [CUi "set_screenshot"; CUi "handle_screenshot_resp"] r
  | PTerminal opened => on_terminal opened r
  | POther => (true, r, [])
  end.

Definition with_files (g : ClientFiles -> option (ClientFiles * list feffect)) (r : Remote)
    : option (bool * Remote * list ceffect) :=
  match g (r_files r) with
  | Some (f, l) => Some (true, r_set_files f r, CFile <$> l)
  | None => None
  end.

(* src/src/client/io_loop.rs:1283-2023 Remote::handle_msg_from_peer *)
Definition handle_msg_from_peer (env : LoopEnv) (m : peer_message) (r : Remote) : option (bool * Remote * list ceffect) :=
  match m with
  | PFileResponse fr => with_files (ClientFiles.on_peer allowed show_digest parse_digest (le_files env) fr) r
  | _ => Some (on_peer_message env m r)
  end.

(** ** What the user asks for *)

(* src/src/client.rs:3681-3713 Data *)
Inductive Data : Type :=
| DClose
| DLogin (os_username password : string) (remember : bool)
| DVideo (m : ClientVideo.message)
| DMessage (m : cmsg)
| DFiles (d : FData)
| DRecordScreen (start : bool)
| DElevate
| DNewVoiceCall
| DCloseVoiceCall
| DResetDecoder (display : option Z)
| DTakeScreenshot (display : Z).

Definition with_video (p : Video * list veffect) (r : Remote) : bool * Remote * list ceffect :=
  (true, r_set_video p.1 r, CVideo <$> p.2).

(* src/src/client/io_loop.rs:538-541 Remote::handle_msg_from_ui *)
Definition on_close : handles := fun r => let '(r, l) := send_close_reason "" r in (false, r, l).

(* src/src/client/io_loop.rs:966-975 Remote::handle_msg_from_ui *)
Definition on_new_voice_call (env : LoopEnv) : handles := fun r =>
  (true, r_set_request (Some (le_now env)) r, [CVoiceCall true (le_now env); CVoiceWaiting]).

(* src/src/client/io_loop.rs:976-982 Remote::handle_msg_from_ui *)
Definition on_close_voice_call (env : LoopEnv) : handles := fun r =>
  let '(r, l) := stop_voice_call r in
  (true, r, l ++ [CVoiceClosed "Closed manually by the peer"; CVoiceCall false (le_now env)]).

(* src/src/client/io_loop.rs:536-1007 Remote::handle_msg_from_ui *)
Definition handle_msg_from_ui (env : LoopEnv) (d : Data) (r : Remote) : option (bool * Remote * list ceffect) :=
  match d with
  | DClose => Some (on_close r)
  | DLogin os_username pw remember =>
      let '(r, l) := of_login (handle_login_from_ui sha256 (le_client env) os_username pw remember (r_lc r) (r_store r)) r in
      Some (true, r, l)
  | DVideo m => Some (with_video (on_ui_message m (r_video r)) r)
  | DMessage m => Some (shows [CSend m] r)
  | DFiles d => with_files (ClientFiles.on_ui allowed (le_files env) d) r
  | DRecordScreen start => Some (with_video (on_record_screen start (r_video r)) r)
  | DElevate => Some (goes (r_set_elevation true) [CSend CmElevation] r)
  | DNewVoiceCall => Some (on_new_voice_call env r)
  | DCloseVoiceCall => Some (on_close_voice_call env r)
  | DResetDecoder display => Some (true, r_set_video (on_reset_decoder display (r_video r)) r, [])
  | DTakeScreenshot display => Some (shows [CSend (CmScreenshot display)] r)
  end.

(* src/src/client/io_loop.rs:358-408 Remote::handle_local_clipboard_msg *)
Definition handle_local_clipboard_msg (c : ClipboardFile) : handles := fun r =>
  match c with
  | NotifyCallback type title text => shows [msgbox type title text] r
  | _ =>
      let stop := is_stopping_allowed c &&
        (view_only (r_toggles r) || negb (is_connected r) ||
         negb (server_file_transfer (r_session r) && enable_file_copy_paste (r_toggles r))) in
      shows (if stop then [CUi "set_is_stopped"] else [CSend (CmFileClip c)]) r
  end.

(** ** The loop *)

Inductive levent : Type :=
| LPeer (m : peer_message)
| LUi (d : Data)
| LClip (c : ClipboardFile)
| LTimer (quiet : bool) (sched : list (option nat))   (** [quiet]: nothing has come for half a minute *)
| LStatus (is_direct : bool) (elapsed now : Z)
| LTurn (k : Z) (env : DecodeEnv)                     (** a thread decodes *)
| LVideoQueue | LFilesQueue                           (** the loop takes what the session sent it *)
| LClipboardTask                                      (** the task of [CReadClipboard] *)
| LEnd                                                (** the stream ends *)
| LError (err : string) (errno : Z).                  (** the stream fails *)

Definition set_received (r : Remote) : Remote := on_session (fun s => s_set_lc (l_set_received true (s_lc s)) s) r.

(* src/src/client.rs:3648-3679 Interface::on_establish_connection_error *)
Definition on_establish_connection_error (err : string) (errno : Z) (r : Remote) : ceffect :=
  let has := LoginConfig.contains in
  let relay_hint := bool_decide (direct (r_lc r) = Some true) &&
    ((errno =? 10054) || has "10054"%string err || (negb (has "Failed"%string err) && has "deadline"%string err)) in
  msgbox (if relay_hint then if received (r_lc r) then "relay-hint" else "relay-hint2" else "error") "Connection decline" err.

(* src/src/client/io_loop.rs:223-320 Remote::io_loop *)
Definition lstep (env : LoopEnv) (e : levent) (r : Remote) : option (bool * Remote * list ceffect) :=
  match e with
  | LPeer m => handle_msg_from_peer env m (set_received r)
  | LUi d => handle_msg_from_ui env d r
  | LClip c => Some (handle_local_clipboard_msg c r)
  | LTimer true _ => Some (false, r, [msgbox "error" "Connection decline" "Timeout"])
  | LTimer false sched => with_files (fun f => Some (ClientFiles.on_timer allowed (le_files env) sched f)) r
  | LStatus is_direct elapsed now => Some (true, r_set_video (on_status_tick is_direct elapsed now (r_video r)) r, [])
  | LTurn k denv => Some (with_video (video_turn denv k (r_video r)) r)
  | LVideoQueue => Some (with_video (take_ui_message (r_video r)) r)
  | LFilesQueue => with_files (ClientFiles.take_queue allowed (le_files env)) r
  | LClipboardTask => Some (shows (if is_text_clipboard_required (r_session r) then [CQueue CmClipboard] else []) r)
  | LEnd => Some (false, r, [if restarting_remote_device (r_lc r)
                             then msgbox "restarting" "Restarting remote device" "remote_restarting_tip"
                             else msgbox "error" "Connection decline" "Reset by the peer"])
  | LError err errno => Some (false, r, [on_establish_connection_error err errno r])
  end.

(** After the loop: the recording ends; over KCP the other side is told. *)
(* src/src/client/io_loop.rs:322-332 Remote::io_loop *)
Definition loop_end (kcp : bool) (r : Remote) : Remote * list ceffect :=
  let '(r, l) := stop_voice_call r in
  let '(r, l') := if kcp then send_close_reason "kcp" r else (r, []) in
  (r, l ++ l').

(** The first answer: whether the loop still runs. *)
(* src/src/client/io_loop.rs:223-332 Remote::io_loop *)
Fixpoint loop_run (kcp : bool) (evs : list (LoopEnv * levent)) (r : Remote) : option (bool * Remote * list ceffect) :=
  match evs with
  | [] => Some (true, r, [])
  | (env, e) :: evs =>
      match lstep env e r with
      | None => None
      | Some (true, r, l) =>
          match loop_run kcp evs r with
          | Some (on, r, l') => Some (on, r, l ++ l')
          | None => None
          end
      | Some (false, r, l) => let '(r, l') := loop_end kcp r in Some (false, r, l ++ l')
      end
  end.

End loop.
