(* ===== verification/ClientSafety.v ===== *)
(** * What the other side can do to the client

    Theorems on [ClientLoop]: what a message does on the controlling machine is allowed by
    the options of the session and by what the user asked for, the microphone is recorded
    only in a call, and the other side is told once that the loop ends. *)

From S2P Require Import Prelude Secure Options Compress FileSys FileTransfer Upload VideoQos CodecChoice ClientVideo ClientFiles LoginGuard Config ConnState PeerConfig LoginConfig SessionPasswords ClientLoop.
#[local] Open Scope Z_scope.

(** ** Effects that are counted *)

Definition count (p : ceffect -> bool) (l : list ceffect) : Z := zlen (List.filter p l).

Lemma count_app p l l' : count p (l ++ l') = count p l + count p l'.
Proof. unfold count, zlen. rewrite List.filter_app, length_app. lia. Qed.

Lemma count_nonneg p l : 0 <= count p l.
Proof. unfold count, zlen. lia. Qed.

(** The close reason is sent; the microphone begins to be recorded, and ends. *)
Definition closes (e : ceffect) : bool := match e with CCloseReason _ => true | _ => false end.
Definition starts (e : ceffect) : bool := match e with CRecord => true | _ => false end.
Definition ends (e : ceffect) : bool := match e with CStopRecord | CDropRecord => true | _ => false end.

(** How many recordings run after the effects. *)
Definition recordings (l : list ceffect) : Z := count starts l - count ends l.

Definition is_new_call (e : levent) : bool := match e with LUi DNewVoiceCall => true | _ => false end.
Definition is_peer_close (e : levent) : bool := match e with LPeer (PCloseReason _) => true | _ => false end.

Definition z_of (b : bool) : Z := if b then 1 else 0.

Section safety.
Context (sha256 : bytes -> bytes) (lower : string -> string) (b64_decode : string -> option bytes)
  (parse_uuid : string -> option bytes).
Context `{PeerStore} `{Compress.Zstd} (allowed : fsop -> string -> bool) (show_digest : FileDigest -> bytes)
  (parse_digest : bytes -> option FileDigest).
Implicit Types (r : Remote).
Local Abbreviation lstep := (lstep sha256 lower b64_decode parse_uuid allowed show_digest parse_digest).
Local Abbreviation loop_run := (loop_run sha256 lower b64_decode parse_uuid allowed show_digest parse_digest).
Local Abbreviation from_peer := (handle_msg_from_peer sha256 lower b64_decode parse_uuid allowed show_digest parse_digest).
Local Abbreviation on_peer_message := (on_peer_message sha256 lower b64_decode parse_uuid).

(** ** What a message may do *)

(** The password of the system that the session enters by itself, when it was told to. *)
Definition auto_password r (p : string) : Prop :=
  p = get_option (r_lc r) "os-password" /\ lock_after_session_end (toggles (config (r_lc r))) = true /\
  get_option (r_lc r) "auto-login" <> ""%string.

(** Messages that are neither about a call nor the end. *)
Definition plain_message (m : peer_message) : bool :=
  match m with PCloseReason _ | PVoiceRequest _ | PVoiceResponse _ _ => false | _ => true end.

(** Where the dialogs of login errors may link to. *)
Definition LOGIN_LINKS : list string := [""; LINK_HEADLESS_LINUX_SUPPORT; SCRAP_X11_REF_URL; LOGIN_SCREEN_LINK]%string.

(** What the login has done: an answer is for a challenge, the address book is told after a
    login, and the dialogs are of challenges and of errors. *)
Definition login_output (m : peer_message) (o : output) : Prop :=
  match o with
  | OLogin _ | OSwitch _ _ => exists h, m = PHash h
  | OSyncAb _ => exists pi, m = PLoginOk pi
  | OMsgbox _ _ _ link =>
      ((exists h, m = PHash h) \/ exists err trusted, m = PLoginError err trusted) /\ link ∈ LOGIN_LINKS
  | OOption _ => False
  end.

(** A frame may begin the display and a recording and push an older frame out of the queue, a
    permission ends or begins a recording. *)
Definition video_output (m : peer_message) (e : veffect) : Prop :=
  match e with
  | FirstFrame | Dropped _ _ => exists vf, m = PVideoFrame vf
  | RecordStatus _ => (exists vf, m = PVideoFrame vf) \/ exists on, m = PPermission PRecording on
  | _ => False
  end.

(** What needs nothing but the message that is about it. *)
Definition harmless (m : peer_message) (e : ceffect) : Prop :=
  match e with
  | CUpdateClipboard | CAudioFrame | CServerClipFile _ | CRecord | CVoiceStarted | CStopRecord | CDropRecord
  | CReadClipboard | CTextRequired _ | CInputPassword _ | CCloseReason _ | CVoiceCall _ _ | CSend _ => False
  | CMsgbox _ _ _ link => link = ""%string
  | CQueue s => match s with CmResolution _ _ _ | CmSelectedSid _ => exists pi, m = PLoginOk pi | _ => False end
  | CLogin o => login_output m o
  | CVideo v => video_output m v
  | CFile _ => exists fr, m = PFileResponse fr
  | _ => True
  end.

(** What an effect of message [m] needs, in state [r] before it and [r'] after it. *)
Definition callowed (m : peer_message) r r' (e : ceffect) : Prop :=
  match e with
  | CUpdateClipboard => disable_clipboard (r_toggles r) = false
  | CAudioFrame => disable_audio (r_toggles r) = false
  | CServerClipFile c => is_beginning_message c = true -> is_file_clipboard_required (r_session r) = true
  | CRecord => exists ts, m = PVoiceResponse ts true /\ voice_call_request r = Some ts /\
      (conn_type (r_lc r) = DEFAULT_CONN \/ conn_type (r_lc r) = VIEW_CAMERA)
  | CVoiceStarted => exists ts, m = PVoiceResponse ts true /\ voice_call_request r = Some ts
  | CStopRecord | CDropRecord => plain_message m = false /\ stop_voice_call_sender r = true
  | CMsgbox _ _ _ link => link = ""%string \/ exists name, HELPER_URL !! name = Some link
  | CReadClipboard => is_connected r' = true /\ conn_type (r_lc r') = DEFAULT_CONN /\ sync_init_clipboard (r_toggles r') = true
  | CTextRequired on => on = is_text_clipboard_required (r_session r')
  | CInputPassword p => auto_password r p
  | CCloseReason _ | CVoiceCall _ _ => False
  | CSend s =>
      s = CmTestDelay /\ m = PTestDelay false \/
      first_frame (r_video r) = false /\ (exists vf, m = PVideoFrame vf) /\
      match s with
      | CmVirtualDisplay _ => is_support_virtual_display (r_peer r) = true
      | CmPrivacyMode key =>
          get_toggle_option (r_lc r) "privacy-mode" = true /\ key = get_option (r_lc r) "privacy-mode-impl-key"
      | _ => False
      end
  | _ => harmless m e
  end.

Lemma harmless_allowed m r r' e : harmless m e -> callowed m r r' e.
Proof. destruct e; simpl; auto; done. Qed.

Lemma harmless_all m r r' l : Forall (harmless m) l -> Forall (callowed m r r') l.
Proof. intros F. eapply Forall_impl; [exact F|]. intros e. apply harmless_allowed. Qed.

Lemma plain_counted m r r' e : plain_message m = true -> callowed m r r' e -> closes e || starts e || ends e = false.
Proof. intros P. destruct e; simpl; try done; [intros (ts & -> & _)|intros [Q _]..]; congruence || done. Qed.

Lemma map_all {A} (P : ceffect -> Prop) (f : A -> ceffect) l : (forall x, P (f x)) -> Forall P (f <$> l).
Proof. intros F. apply Forall_fmap, Forall_true, F. Qed.

(** Lists of effects, one after the other. *)
Ltac effects :=
  repeat first
    [ apply Forall_nil_2 | apply Forall_cons_2; [first [done | by left | by eexists | by repeat eexists | idtac]|] | apply Forall_app_2
    | apply map_all; done | apply map_all; by eexists | case_match | case_decide | done ].

(** ** Handlers that leave the calls and the end alone *)

Record same_talk r r' : Prop := {
  st_sent : sent_close_reason r' = sent_close_reason r;
  st_calling : stop_voice_call_sender r' = stop_voice_call_sender r;
  st_request : voice_call_request r' = voice_call_request r;
}.

#[local] Instance same_talk_preorder : PreOrder same_talk.
Proof. split; [done|]. intros r1 r2 r3 [A B C] [A' B' C']. split; congruence. Qed.

(** A part of a handler, of which every effect is of a kind. *)
Definition still2 (P : ceffect -> Prop) r (p : Remote * list ceffect) : Prop := same_talk r p.1 /\ Forall P p.2.

Lemma still2_elim P r p : still2 P r p -> exists r' l, p = (r', l) /\ same_talk r r' /\ Forall P l.
Proof. destruct p as [r' l]. intros [S F]. by exists r', l. Qed.

Lemma lc_info_still pi0 pi r : still2 (harmless (PLoginOk pi0)) r (handle_lc_peer_info sha256 lower pi r).
Proof.
  unfold handle_lc_peer_info. pose proof (peer_info_spec sha256 lower (lp_info pi) (r_lc r) (r_store r)) as Sp.
  destruct (LoginConfig.handle_peer_info _ _ _ _ _) as [[lc f] out]. destruct Sp as (_ & _ & _ & _ & _ & _ & ->).
  split; [done|]. simpl. case_match; [|by effects]. apply Forall_singleton. by exists pi0.
Qed.

Lemma change_init_still pi0 clock k r :
  still2 (harmless (PLoginOk pi0)) r (try_change_init_resolution clock k r) /\ r_lc (try_change_init_resolution clock k r).1 = r_lc r.
Proof.
  unfold try_change_init_resolution, change_resolution.
  destruct (get_custom_resolution _ _) as [[w h]|]; (split; [split; simpl; effects|done]).
Qed.

Lemma choose_session_still pi0 pi r : still2 (harmless (PLoginOk pi0)) r (choose_session pi r).
Proof.
  unfold choose_session, send_selected_session_id. destruct (lp_sessions pi); [by split; simpl; effects|].
  case_decide; split; simpl; effects.
Qed.

Definition harmless_or_password pi0 r (e : ceffect) : Prop := harmless (PLoginOk pi0) e \/ exists p, e = CInputPassword p /\ auto_password r p.

Lemma auto_login_password r r' :
  r_lc r' = r_lc r -> should_auto_login (r_lc r') <> ""%string -> auto_password r (should_auto_login (r_lc r')).
Proof.
  intros -> N. unfold should_auto_login in *.
  destruct (_ && _ && _) eqn:E; [|done]. apply andb_true_iff in E as [E A]. apply andb_true_iff in E as [_ L].
  split_and!; [done|done|]. apply negb_true_iff in A. by apply bool_decide_eq_false in A.
Qed.

Lemma weaken_all (P Q : ceffect -> Prop) l : (forall e, P e -> Q e) -> Forall P l -> Forall Q l.
Proof. intros I F. by eapply Forall_impl. Qed.

Lemma prepare_display_still pi0 env pi r :
  match prepare_display sha256 lower env pi r with
  | (next, r', l) => same_talk r r' /\ Forall (harmless_or_password pi0 r) l /\ (next = None \/ next = Some r')
  end.
Proof.
  unfold prepare_display. destruct (lp_displays pi !! _).
  - destruct (change_init_still pi0 (le_clock env) (lp_current pi) r) as [S L].
    destruct (still2_elim _ _ _ S) as (r' & l & E & S' & F). rewrite E in *. simpl in L.
    split_and!; [done| |by right]. apply Forall_app_2; [by eapply weaken_all; [|exact F]; left|].
    effects. right. eexists. split; [done|]. by apply auto_login_password.
  - destruct (still2_elim _ _ _ (lc_info_still pi0 pi r)) as (r' & l & -> & S & F).
    split_and!; [done| |by left]. apply Forall_app_2; [by eapply weaken_all; [|exact F]; left|]. effects.
Qed.

Lemma peer_info_still pi0 env pi r : still2 (harmless_or_password pi0 r) r (handle_peer_info sha256 lower env pi r).
Proof.
  unfold handle_peer_info. cbv zeta. set (r0 := on_session _ r).
  assert (same_talk r r0) as S0 by done. assert (r_lc r0 = r_lc r) as L0 by done. clearbody r0.
  set (pi' := if _ <=? _ then _ else _). clearbody pi'.
  destruct (_ && _ && _); [split; [done|]; simpl; effects|].
  set (screen := negb _ && negb _ && negb _). clearbody screen.
  assert (let '(next, r1, l1) := if screen then prepare_display sha256 lower env pi' r0 else (Some r0, r0, []) in
          same_talk r0 r1 /\ Forall (harmless_or_password pi0 r) l1 /\ (next = None \/ next = Some r1)) as P.
  { destruct screen; [|by split_and!; [done|effects|right]].
    pose proof (prepare_display_still pi0 env pi' r0) as Q. destruct (prepare_display _ _ _ _ _) as [[next r1] l1].
    unfold harmless_or_password, auto_password in *. by rewrite L0 in Q. }
  destruct (if screen then _ else _) as [[next r1] l1]. destruct P as (S1 & F1 & [->| ->]).
  - split; [by etrans|]. simpl. effects.
  - destruct (still2_elim _ _ _ (lc_info_still pi0 pi' r1)) as (r2 & l2 & -> & S2 & F2).
    destruct (still2_elim _ _ _ (choose_session_still pi0 pi' r2)) as (r3 & l3 & -> & S3 & F3).
    split; [simpl; by do 3 (etrans; [eassumption|])|]. simpl.
    assert (forall l, Forall (harmless (PLoginOk pi0)) l -> Forall (harmless_or_password pi0 r) l) as W by (intros l; apply weaken_all; by left).
    effects; by apply W.
Qed.

(** A handler of message [m] that leaves the talk alone and does what is allowed. *)
Definition decent (m : peer_message) r (p : bool * Remote * list ceffect) : Prop :=
  same_talk r p.1.2 /\ Forall (callowed m r p.1.2) p.2.

Lemma decent_intro m r go r' l : same_talk r r' -> Forall (callowed m r r') l -> decent m r (go, r', l).
Proof. done. Qed.

Lemma decent_harmless m r go r' l : same_talk r r' -> Forall (harmless m) l -> decent m r (go, r', l).
Proof. intros S F. split; [done|by apply harmless_all]. Qed.

Lemma login_ok_decent env pi r : decent (PLoginOk pi) r (on_login_ok sha256 lower env pi r).
Proof.
  unfold on_login_ok. cbv zeta. set (r0 := r_set_peer _ r).
  assert (same_talk r r0) as S0 by done. assert (r_lc r0 = r_lc r) as L0 by done. clearbody r0.
  assert (forall l, Forall (harmless (PLoginOk pi)) l ->
    decent (PLoginOk pi) r (let '(r', l') := handle_lc_peer_info sha256 lower pi r0 in (false, r', l ++ l'))) as R.
  { intros l F. destruct (still2_elim _ _ _ (lc_info_still pi pi r0)) as (r' & l' & -> & S & F').
    apply decent_harmless; [by etrans|effects]. }
  assert (forall v q, Forall (harmless (PLoginOk pi)) (check_view_camera_support v q r0).2) as Fc.
  { intros v q. unfold check_view_camera_support. repeat case_match; simpl; effects. }
  assert (forall v, Forall (harmless (PLoginOk pi)) (check_terminal_support v r0).2) as Ft.
  { intros v. unfold check_terminal_support. repeat case_match; simpl; effects. }
  set (c := if is_view_camera r0 then _ else _). set (t := if is_terminal r0 then _ else _).
  assert (Forall (harmless (PLoginOk pi)) c.2) as Fc' by (subst c; destruct (is_view_camera r0); [apply Fc|effects]).
  assert (Forall (harmless (PLoginOk pi)) t.2) as Ft' by (subst t; destruct (is_terminal r0); [apply Ft|effects]).
  destruct c as [[] lc], t as [[] lt]; cbn [negb]; [|by apply R..].
  destruct (still2_elim _ _ _ (peer_info_still pi env pi r0)) as (r1 & l & -> & S & F).
  split; [by transitivity r0; [|transitivity r1]|]. cbn [fst snd].
  apply Forall_app_2; [|apply Forall_app_2; [|by apply harmless_all; effects]].
  - eapply weaken_all; [|exact F]. intros e [X|(q & -> & X)]; [by apply harmless_allowed|].
    unfold auto_password in X. by rewrite L0 in X.
  - unfold start_clipboard. destruct (is_default r1) eqn:D; [|effects]. apply bool_decide_eq_true in D.
    destruct (sync_init_clipboard (r_toggles r1)) eqn:Y, (le_clipboard env); simpl; effects.
Qed.

Lemma privacy_still m key on r : still2 (harmless m) r (update_privacy_mode key on r).
Proof.
  unfold update_privacy_mode. destruct (load_config _ _) as [c f]. destruct (save_config _ _ _) as [lc f'].
  split; [done|]. simpl. effects.
Qed.

Lemma privacy_decent st details key r : decent (PPrivacyState st details key) r (on_privacy_mode st details key r).
Proof.
  unfold on_privacy_mode. destruct (privacy_dialog st details) as [l o] eqn:E.
  assert (Forall (harmless (PPrivacyState st details key)) l) as F by (destruct st; simplify_eq/=; effects).
  destruct o as [on|]; [destruct (still2_elim _ _ _ (privacy_still (PPrivacyState st details key) key on r)) as (r' & l' & -> & S & F')|];
    apply decent_harmless; simpl; try done; effects.
Qed.

Lemma record_state_output m v : (forall on, video_output m (RecordStatus on)) -> Forall (video_output m) (update_record_state v).2.
Proof. intros X. unfold update_record_state. cbv zeta. case_match; simpl; [done|]. by apply Forall_singleton. Qed.

Lemma video_frame_output env vf v : Forall (video_output (PVideoFrame vf)) (on_video_frame env vf v).2.
Proof.
  assert (forall on, video_output (PVideoFrame vf) (RecordStatus on)) as Rc by (intros on; left; by exists vf).
  rewrite on_video_frame_split. unfold with_thread, new_video_thread, queue_frame. cbn [snd].
  apply Forall_app_2; [|apply Forall_app_2].
  - destruct (first_frame v); [done|]. apply Forall_singleton. by exists vf.
  - repeat case_match; simplify_eq/=; try done; by apply record_state_output.
  - repeat case_match; simplify_eq/=; try done; apply Forall_singleton; by exists vf.
Qed.

Lemma frame_decent env vf r : decent (PVideoFrame vf) r (on_frame env vf r).
Proof.
  unfold on_frame. pose proof (video_frame_output (le_auto_record env) vf (r_video r)) as O.
  destruct (on_video_frame _ _ _) as [v l]. split; [done|]. cbn [fst snd].
  apply Forall_app_2; [|by apply harmless_all, Forall_fmap]. destruct (first_frame (r_video r)) eqn:Fi; [effects|].
  apply Forall_app_2; [by effects|]. unfold send_toggle_virtual_display_msg, send_toggle_privacy_mode_msg.
  apply Forall_app_2.
  - destruct (is_support_virtual_display _) eqn:V; [|effects].
    apply map_all. intros d. right. split_and!; [done|by exists vf|done].
  - destruct (_ && get_toggle_option _ _) eqn:T; [|effects]. apply andb_true_iff in T as [_ T].
    case_match; [effects|]. apply Forall_singleton. right. split_and!; [done|by exists vf|done|done].
Qed.

Lemma permission_decent q on r : decent (PPermission q on) r (on_permission q on r).
Proof.
  destruct q; simpl; try (split; [done|]; simpl; effects).
  unfold on_record_permission. pose proof (record_state_output (PPermission PRecording on)
    (v_set_lc (vl_set_permission on (lc (r_video r))) (r_video r)) ltac:(right; by exists on)) as O.
  destruct (update_record_state _) as [v l]. apply decent_harmless; [done|]. cbn [snd].
  effects. by apply Forall_fmap.
Qed.

(** What the login answers a challenge and an error with. *)
Lemma hash_output env preset h lc f :
  Forall (login_output (PHash h)) (handle_hash sha256 b64_decode parse_uuid env preset h lc f).2.
Proof.
  assert (forall t ti te, login_output (PHash h) (OMsgbox t ti te "")) as B
    by (intros; split; [left; by exists h|left]).
  unfold handle_hash. cbv zeta. repeat case_match; simplify_eq/=; effects; try exact (B ""%string ""%string ""%string).
Qed.

Lemma error_output err trusted lc f :
  Forall (login_output (PLoginError err trusted)) (handle_login_error err lc f).2.
Proof.
  assert (forall t ti te link, link ∈ LOGIN_LINKS -> login_output (PLoginError err trusted) (OMsgbox t ti te link)) as B
    by (intros; split; [right; by exists err, trusted|done]).
  assert (map_Forall (fun _ v => (let '(_, _, _, link, _) := v in bool_decide (link ∈ LOGIN_LINKS)) = true) LOGIN_ERROR_MAP) as M
    by (apply (bool_decide_eq_true_1 _); vm_compute; reflexivity).
  unfold handle_login_error.
  do 2 (case_decide; [by apply Forall_singleton, B; left|]).
  case_decide; [destruct (if decide _ then _ else _); by apply Forall_singleton, B; left|].
  destruct (LOGIN_ERROR_MAP !! err) as [[[[[msgtype title] text] link] again]|] eqn:E; apply Forall_singleton, B.
  - apply M in E. by apply bool_decide_eq_true in E.
  - destruct (bool_decide _); [do 2 right; left|left].
Qed.

Lemma message_box_link t ti te link : exists link', on_message_box t ti te link = [CMsgbox t ti te link'] /\
  (link' = ""%string \/ exists name, HELPER_URL !! name = Some link').
Proof.
  unfold on_message_box. destruct (HELPER_URL !! link) as [l'|] eqn:E; eexists; (split; [done|]); [right; by exists link|by left].
Qed.

Lemma message_decent env m r : plain_message m = true -> decent m r (on_peer_message env m r).
Proof.
  destruct m; try discriminate; intros _; cbn [ClientLoop.on_peer_message];
    try solve [split; [done|]; simpl; unfold on_elevation_response; effects].
  - apply frame_decent.
  - pose proof (hash_output (le_client env) (le_password env) h (r_lc r) (r_store r)) as O.
    unfold of_login. destruct (handle_hash _ _ _ _ _ _ _ _) as [[lc f] out].
    apply decent_harmless; [done|]. by apply Forall_fmap.
  - unfold on_login_error. cbv zeta. set (r0 := if decide _ then _ else r).
    assert (same_talk r r0) as S0 by (subst r0; by case_decide). clearbody r0.
    pose proof (error_output err trusted (r_lc r0) (r_store r0)) as O.
    destruct (handle_login_error _ _ _) as [[[again lc] f] out].
    apply decent_harmless; [by etrans|]. by apply Forall_fmap.
  - apply login_ok_decent.
  - unfold on_cliprdr. destruct clip as [c|]; [|by split; effects].
    destruct (bool_decide (c = FormatList) && _); [by split; effects|].
    destruct (is_beginning_message c && _) eqn:E; (split; [done|]); simpl; effects.
    simpl. intros B. rewrite B in E. simpl in E. by apply negb_false_iff in E.
  - unfold on_printer_job. destruct (le_printer env) as [action auto].
    repeat case_match; simplify_eq; apply decent_harmless; simpl; try done; effects.
  - apply permission_decent.
  - unfold on_switch_display, set_custom_resolution. repeat case_match; split; simpl; effects.
  - destruct s; split; simpl; effects.
  - apply privacy_decent.
  - destruct (message_box_link msgtype title text link) as (l' & -> & X). split; [done|]. simpl. effects.
  - unfold on_terminal. repeat case_match; split; simpl; try done; effects.
Qed.

(** C9. Which effects a message of the other side may have on the controlling machine.  The machine's
    clipboard is set and sound is played only if the session has not turned that off; the file
    clipboard begins an exchange only if the other side permits the keyboard and files and the
    session wants them; the microphone is recorded only on the acceptance of the call that was
    asked for, by its time, in a session with a screen or a camera, and a running recording is
    only ended by messages about calls; the clipboard is offered only after the login of a session
    with a screen that wants it; the password of the system is typed only if the session was told
    to.  A login is sent only in answer to a challenge, and the address book learns a password only
    after an accepted login; a dialog links only to the pages of two fixed tables, the one of
    message boxes and the one of login errors, which are for messages of the login; what is asked of
    the files (an answer to the other side or a change of a file) answers a message about files,
    and which paths it touches is the subject of the theorems on downloads; frames alone begin the
    display or are dropped from the queue, and a recording to a file is begun or ended by a frame or
    by its permission; a size or a login session is asked for only after an accepted login; and what
    is otherwise sent at once is the answer to a test of the delay and, at the first frame, the
    virtual displays where the other side has them and the privacy mode if the session has it on.
    The remaining effects inform the user interface.  What the session posts to itself and does in a
    later turn, such as the request of a key frame or a print job that is stored at once, is not an
    effect of the message. *)
Theorem client_effects_allowed env m r go r' l :
  from_peer env m r = Some (go, r', l) -> Forall (callowed m r r') l.
Proof.
  unfold handle_msg_from_peer. intros E.
  assert (forall p, Some p = Some (go, r', l) -> decent m r p -> Forall (callowed m r r') l) as D by (by intros p [= ->] []).
  destruct (plain_message m) eqn:P.
  - pose proof (message_decent env m r P) as M. destruct m; try discriminate; try (by eapply D).
    unfold with_files in E. destruct (ClientFiles.on_peer _ _ _ _ _ _) as [[f out]|]; [|done].
    eapply D; [exact E|]. apply decent_harmless; [done|effects].
  - destruct m; try discriminate; cbn [ClientLoop.on_peer_message] in E; injection E as E.
    + by simplify_eq; effects.
    + unfold on_voice_request in E. destruct is_connect; [|destruct (stop_voice_call_sender r) eqn:S]; simplify_eq; effects.
    + unfold on_voice_response in E. destruct (voice_call_request r) as [t|] eqn:V; cbv zeta in E; [|simplify_eq; effects].
      destruct (Z.eqb_spec ts t) as [->|]; cbn [negb] in E; [|simplify_eq; effects].
      destruct accepted; [|simplify_eq; effects]. simplify_eq.
      change (start_voice_call (r_set_request None r)) with (start_voice_call r).
      change (stop_voice_call_sender (r_set_request None r)) with (stop_voice_call_sender r).
      apply Forall_cons_2; [by exists t|]. unfold start_voice_call, is_file_transfer, is_port_forward, is_terminal.
      destruct (stop_voice_call_sender r) eqn:S, (conn_type (r_lc r)) eqn:Ct; simpl; effects;
        exists t; (split_and!; [done|done|]); auto.
Qed.

(** ** Steps that leave the talk alone *)

Definition counted (e : ceffect) : bool := closes e || starts e || ends e.

Definition still r (p : bool * Remote * list ceffect) : Prop :=
  same_talk r p.1.2 /\ Forall (fun e => counted e = false) p.2.

Lemma counted_count p l : (forall e, p e = true -> counted e = true) -> Forall (fun e => counted e = false) l -> count p l = 0.
Proof.
  intros P. induction 1 as [|e l E F IH]; [done|]. unfold count in *. simpl.
  destruct (p e) eqn:X; [|done]. apply P in X. congruence.
Qed.

Lemma message_still env m r : plain_message m = true -> still r (on_peer_message env m r).
Proof.
  intros P. destruct (message_decent env m r P) as [S F]. split; [exact S|].
  eapply weaken_all; [|exact F]. intros e. by apply plain_counted.
Qed.

(** ** What a step does to the calls and the end *)

Definition asked_call r : bool := bool_decide (is_Some (voice_call_request r)).

Record step_talk (e : levent) r r' (l : list ceffect) : Prop := {
  sk_close : count closes l + z_of (sent_close_reason r) <= z_of (sent_close_reason r');
  sk_told : count closes l = 0 -> sent_close_reason r' = sent_close_reason r \/ is_peer_close e = true;
  sk_record : recordings l = z_of (stop_voice_call_sender r') - z_of (stop_voice_call_sender r);
  sk_start : count starts l + z_of (asked_call r') <= z_of (asked_call r) + z_of (is_new_call e);
}.

Lemma z_of_nonneg b : 0 <= z_of b.
Proof. by destruct b. Qed.

Lemma still_talk e r p : still r p -> step_talk e r p.1.2 p.2.
Proof.
  intros [[A B C] F].
  assert (forall q, (forall e, q e = true -> counted e = true) -> count q p.2 = 0) as Z by (intros q Q; by eapply counted_count).
  assert (count closes p.2 = 0) as Zc by (apply Z; by intros []).
  assert (count starts p.2 = 0) as Zs by (apply Z; by intros []).
  assert (count ends p.2 = 0) as Ze by (apply Z; by intros []).
  pose proof (z_of_nonneg (is_new_call e)). 
  split; unfold asked_call, recordings; rewrite ?A, ?B, ?C, ?Zc, ?Zs, ?Ze; [lia|auto|lia|lia].
Qed.

Lemma with_files_still g r go r' l : with_files g r = Some (go, r', l) -> still r (go, r', l).
Proof.
  unfold with_files. destruct (g (r_files r)) as [[f out]|]; [|done]. intros [= <- <- <-]. split; [done|]. simpl. effects.
Qed.

Lemma with_video_still v r : still r (with_video v r).
Proof. split; [done|]. simpl. effects. Qed.

Lemma send_close_talk reason r : let p := send_close_reason reason r in
  sent_close_reason p.1 = true /\ count closes p.2 = 1 - z_of (sent_close_reason r) /\
  recordings p.2 = 0 /\ count starts p.2 = 0 /\
  stop_voice_call_sender p.1 = stop_voice_call_sender r /\ voice_call_request p.1 = voice_call_request r.
Proof. unfold send_close_reason. by destruct (sent_close_reason r) eqn:E. Qed.

Lemma voice_response_talk ts accepted r :
  let p := on_voice_response ts accepted r in step_talk (LPeer (PVoiceResponse ts accepted)) r p.1.2 p.2.
Proof.
  unfold on_voice_response. destruct (voice_call_request r) as [t|] eqn:E; cbv zeta.
  - assert (asked_call r = true) as A by (unfold asked_call; by rewrite E).
    destruct (ts =? t); cbn [negb]; [destruct accepted|].
    + unfold r_set_request. change (start_voice_call _) with (start_voice_call r).
      destruct (start_voice_call r), (stop_voice_call_sender r) eqn:S; split; rewrite ?A; simpl; rewrite ?S; by auto.
    + split; rewrite ?A; simpl; auto; by rewrite ?Z.sub_diag; try lia.
    + split; rewrite ?A; simpl; auto; by rewrite ?Z.sub_diag; try lia.
  - assert (asked_call r = false) as A by (unfold asked_call; by rewrite E).
    split; rewrite ?A; simpl; auto; by rewrite ?Z.sub_diag; try lia.
Qed.
(** Counting in a list that is given. *)
Ltac tally := unfold recordings, count, zlen, asked_call; simpl; auto; try lia.

Lemma peer_message_talk env m r : step_talk (LPeer m) r (on_peer_message env m r).1.2 (on_peer_message env m r).2.
Proof.
  destruct (plain_message m) eqn:P; [by apply still_talk, message_still|].
  destruct m; try discriminate.
  - split; tally. by destruct (sent_close_reason r).
  - simpl. unfold on_voice_request.
    destruct is_connect; [|destruct (stop_voice_call_sender r) eqn:S]; split; simpl; rewrite ?S; tally.
  - apply voice_response_talk.
Qed.

Lemma lstep_talk env e r go r' l : lstep env e r = Some (go, r', l) -> step_talk e r r' l.
Proof.
  assert (forall p, Some p = Some (go, r', l) -> still r p -> step_talk e r r' l) as Q.
  { intros p [= ->] S. exact (still_talk e r _ S). }
  destruct e as [m|d|c|quiet sched|dir elapsed now|k denv| | | | |err errno]; cbn [ClientLoop.lstep].
  - unfold handle_msg_from_peer.
    assert (forall p, p = (go, r', l) -> p = on_peer_message env m (set_received r) -> step_talk (LPeer m) r r' l) as P.
    { intros p -> E. pose proof (peer_message_talk env m (set_received r)) as T. rewrite <- E in T. by destruct T. }
    destruct m; intros X; cbv beta iota in X; try (match type of X with Some ?p = _ => apply (P p); [congruence|reflexivity] end).
    eapply Q; [done|]. apply with_files_still in X as [[? ? ?] F]. by split.
  - destruct d; cbn [handle_msg_from_ui]; try (intros X; eapply Q; [exact X|split; [done|]; simpl; effects]).
    + unfold on_close. intros [= X]. destruct (send_close_talk "" r) as (A & B & C & D & E & F).
      destruct (send_close_reason "" r) as [r1 l1]. simplify_eq/=.
      split; [rewrite A, B; simpl; lia| |rewrite C, E; lia|unfold asked_call; rewrite D, F; simpl; lia].
      intros Z. left. destruct (sent_close_reason r); simpl in *; [done|lia].
    + intros X. eapply Q; [done|]. by apply with_files_still in X.
    + unfold on_new_voice_call. intros [= <- <- <-]. pose proof (z_of_nonneg (bool_decide (is_Some (voice_call_request r)))).
      split; tally.
    + unfold on_close_voice_call, stop_voice_call. intros [= <- <- <-].
      destruct (stop_voice_call_sender r) eqn:S; split; simpl; rewrite ?S; tally.
  - intros X. eapply Q; [exact X|]. unfold handle_local_clipboard_msg. destruct c; split; simpl; try done; effects.
  - destruct quiet; [intros X; eapply Q; [exact X|split; [done|]; simpl; effects]|].
    intros X. eapply Q; [done|]. by apply with_files_still in X.
  - intros X. eapply Q; [exact X|split; [done|]; simpl; effects].
  - intros X. eapply Q; [exact X|apply with_video_still].
  - intros X. eapply Q; [exact X|apply with_video_still].
  - intros X. eapply Q; [done|]. by apply with_files_still in X.
  - intros X. eapply Q; [exact X|split; [done|]; simpl; effects].
  - intros X. eapply Q; [exact X|split; [done|]; simpl; effects].
  - intros X. eapply Q; [exact X|split; [done|]; simpl; effects].
Qed.

(** ** Runs *)

Definition calls (evs : list (LoopEnv * levent)) : Z := zlen (List.filter (fun e => is_new_call e.2) evs).

Lemma loop_end_talk kcp r : let p := loop_end kcp r in
  stop_voice_call_sender p.1 = false /\ recordings p.2 = - z_of (stop_voice_call_sender r) /\ count starts p.2 = 0 /\
  voice_call_request p.1 = voice_call_request r /\
  count closes p.2 + z_of (sent_close_reason r) = z_of (sent_close_reason p.1) /\
  (kcp = true -> sent_close_reason p.1 = true).
Proof.
  unfold loop_end, stop_voice_call, send_close_reason.
  destruct kcp, (stop_voice_call_sender r); simpl; destruct (sent_close_reason r) eqn:E; simpl; rewrite ?E; split_and!; done || lia.
Qed.

Record run_talk (kcp : bool) (evs : list (LoopEnv * levent)) r (on : bool) r' (l : list ceffect) : Prop := {
  rk_close : count closes l + z_of (sent_close_reason r) <= z_of (sent_close_reason r');
  rk_told : count closes l = 0 -> sent_close_reason r' = sent_close_reason r \/ exists env c, (env, LPeer (PCloseReason c)) ∈ evs;
  rk_record : recordings l = z_of (stop_voice_call_sender r') - z_of (stop_voice_call_sender r);
  rk_start : count starts l + z_of (asked_call r') <= z_of (asked_call r) + calls evs;
  rk_off : on = false -> stop_voice_call_sender r' = false /\ (kcp = true -> sent_close_reason r' = true);
}.

Lemma calls_nonneg evs : 0 <= calls evs.
Proof. unfold calls, zlen. lia. Qed.

Lemma calls_cons env e evs : calls ((env, e) :: evs) = z_of (is_new_call e) + calls evs.
Proof. unfold calls, zlen. simpl. destruct (is_new_call e); simpl; lia. Qed.

Lemma peer_close_is e : is_peer_close e = true -> exists c, e = LPeer (PCloseReason c).
Proof. destruct e as [[]| | | | | | | | | |]; simpl; try done. eauto. Qed.

Lemma loop_run_talk kcp evs : forall r on r' l, loop_run kcp evs r = Some (on, r', l) -> run_talk kcp evs r on r' l.
Proof.
  induction evs as [|[env e] evs IH]; intros r on r' l; cbn [ClientLoop.loop_run].
  - intros [= <- <- <-]. split; unfold calls; tally.
  - destruct (lstep env e r) as [[[go r1] l1]|] eqn:E; [|done]. apply lstep_talk in E as [A B C D].
    destruct go.
    + destruct (loop_run kcp evs r1) as [[[on2 r2] l2]|] eqn:E2; [|done]. intros [= <- <- <-].
      destruct (IH _ _ _ _ E2) as [A2 B2 C2 D2 F2]. unfold recordings in *.
      pose proof (count_nonneg closes l1). pose proof (count_nonneg closes l2).
      split; unfold recordings; rewrite ?count_app, ?calls_cons; [lia| |lia|lia|exact F2].
      intros Z. destruct B2 as [B2|(env' & c & I)]; [lia| |right; exists env', c; by apply elem_of_cons; right].
      destruct B as [B|B]; [lia|left; congruence|]. apply peer_close_is in B as [c ->].
      right. exists env, c. apply elem_of_cons. by left.
    + pose proof (loop_end_talk kcp r1) as T. destruct (loop_end kcp r1) as [r2 l2]. simpl in T.
      destruct T as (T1 & T2 & T3 & T4 & T5 & T6). intros [= <- <- <-]. pose proof (calls_nonneg evs).
      pose proof (count_nonneg closes l1). pose proof (count_nonneg closes l2).
      assert (asked_call r2 = asked_call r1) as Ea by (unfold asked_call; by rewrite T4).
      split; unfold recordings in *; rewrite ?count_app, ?calls_cons, ?Ea, ?T1, ?T3; [lia| |simpl; lia|lia|done].
      intros Z. destruct B as [B|B]; [lia| |].
      * left. rewrite <- B. destruct (sent_close_reason r1), (sent_close_reason r2); simpl in *; congruence || lia.
      * apply peer_close_is in B as [c ->]. right. exists env, c. apply elem_of_cons. by left.
Qed.

(** C12. The microphone is recorded only in calls the user has asked for: in any run of the loop,
    whatever the other side sends, it begins to be recorded at most once for every call that was
    asked for, at most one recording runs at a time, it runs exactly as long as the loop can end
    it, and none runs once the loop has ended. *)
Theorem microphone_only_in_calls kcp evs s store v f on r' l :
  loop_run kcp evs (remote_new s store v f) = Some (on, r', l) ->
  count starts l <= calls evs /\
  recordings l = z_of (stop_voice_call_sender r') /\
  (on = false -> recordings l = 0).
Proof.
  intros R. destruct (loop_run_talk _ _ _ _ _ _ R) as [_ _ C D F]. simpl in C, D.
  pose proof (z_of_nonneg (asked_call r')).
  split_and!; [lia|lia|]. intros E. destruct (F E) as [F1 _]. rewrite F1 in C. simpl in C. lia.
Qed.

(** The other side is told at most once why the loop ends, and never after it has said so
    itself; over KCP, which does not notice a closed socket, either it was told when the loop has
    ended or it has said so itself. *)
Theorem close_reason_once kcp evs s store v f on r' l :
  loop_run kcp evs (remote_new s store v f) = Some (on, r', l) ->
  count closes l <= 1 /\
  (kcp = true -> on = false -> count closes l = 1 \/ exists env c, (env, LPeer (PCloseReason c)) ∈ evs).
Proof.
  intros R. destruct (loop_run_talk _ _ _ _ _ _ R) as [A B _ _ F]. simpl in A, B.
  assert (z_of (sent_close_reason r') <= 1) by by destruct (sent_close_reason r').
  pose proof (count_nonneg closes l). split; [lia|]. intros K O. destruct (F O) as [_ S]. specialize (S K).
  destruct (Z.eq_dec (count closes l) 0) as [Z|N]; [|left; lia]. destruct (B Z) as [E|E]; [congruence|by right].
Qed.

(** A call that the user has given up is recorded all the same: closing a call does not forget
    that it was asked for, so that an acceptance that arrives afterwards, sent before the other
    side knew or at any later time, has the microphone recorded and sent. *)
Theorem cancelled_call_recorded kcp e1 e2 e3 r :
  start_voice_call r = true -> stop_voice_call_sender r = false ->
  exists r' l, loop_run kcp [(e1, LUi DNewVoiceCall); (e2, LUi DCloseVoiceCall);
                             (e3, LPeer (PVoiceResponse (le_now e1) true))] r = Some (true, r', l) /\
    CRecord ∈ l /\ recordings l = 1 /\ stop_voice_call_sender r' = true.
Proof.
  intros S N. cbn [ClientLoop.loop_run ClientLoop.lstep handle_msg_from_ui handle_msg_from_peer ClientLoop.on_peer_message].
  unfold on_new_voice_call, on_close_voice_call, stop_voice_call, on_voice_response. cbv zeta.
  cbn [voice_call_request r_set_request r_set_calling set_received on_session r_set_session].
  rewrite Z.eqb_refl. cbn [negb].
  match goal with |- context [start_voice_call ?x] => change (start_voice_call x) with (start_voice_call r) end.
  rewrite S. cbn. rewrite N. cbn. eexists _, _. split; [done|]. split_and!; [set_solver|done|done].
Qed.

End safety.

(** ** Witnesses *)

Definition a_files_env : FilesEnv := mkFilesEnv 0 true true (fun _ _ => Ok []) (fun _ => None) (fun _ _ => None) 0.
Definition a_loop (now : Z) : LoopEnv :=
  mkLoopEnv (a_client false) a_files_env "" false true true ("", false) 1 "tmp" now 0.
Definition a_screen : SessionState := mkSession (a_session None) None true true true false (0, (0, 0, 0)).
Definition a_remote : @Remote a_store :=
  remote_new (H := a_store) a_screen ∅ (video_new (mkVlc None None [] false true true))
    (mkCf [] [] ∅ (mkFS ∅ [] 0) [] (0, ∅) false).
Definition no_digest : bytes -> option FileDigest := fun _ => None.
Definition all_files : fsop -> string -> bool := fun _ _ => true.
Definition a_run := loop_run toy_hash (fun s => s) (fun _ => None) (fun _ => None) (H := a_store) (H0 := zstd_store)
  all_files (fun _ => []) no_digest.

(** A call that is accepted, and the stream ends. *)
Definition a_call : list (LoopEnv * levent) :=
  [(a_loop 5, LUi DNewVoiceCall); (a_loop 6, LPeer (PVoiceResponse 5 true)); (a_loop 7, LEnd)].

Definition ended (o : option (bool * @Remote a_store * list ceffect)) : bool :=
  match o with Some (false, _, _) => true | _ => false end.

Lemma microphone_only_in_calls_witness :
  match a_run true a_call a_remote with
  | Some (false, _, l) => count starts l <= calls a_call /\ recordings l = 0
  | _ => False
  end.
Proof.
  assert (ended (a_run true a_call a_remote) = true) as A by by vm_compute.
  destruct (a_run true a_call a_remote) as [[[[] r'] l]|] eqn:E; try discriminate A.
  destruct (microphone_only_in_calls toy_hash (fun s => s) (fun _ => None) (fun _ => None) (H := a_store) (H0 := zstd_store)
    all_files (fun _ => []) no_digest true a_call _ _ _ _ _ _ _ E) as (B & _ & C).
  split; [exact B|exact (C eq_refl)].
Defined.

Lemma close_reason_once_witness :
  match a_run true a_call a_remote with
  | Some (false, _, l) => count closes l = 1 \/ exists env c, (env, LPeer (PCloseReason c)) ∈ a_call
  | _ => False
  end.
Proof.
  assert (ended (a_run true a_call a_remote) = true) as A by by vm_compute.
  destruct (a_run true a_call a_remote) as [[[[] r'] l]|] eqn:E; try discriminate A.
  exact (proj2 (close_reason_once toy_hash (fun s => s) (fun _ => None) (fun _ => None) (H := a_store) (H0 := zstd_store)
    all_files (fun _ => []) no_digest true a_call _ _ _ _ _ _ _ E) eq_refl eq_refl).
Defined.

Lemma cancelled_call_recorded_witness :
  exists r' l, a_run true [(a_loop 5, LUi DNewVoiceCall); (a_loop 6, LUi DCloseVoiceCall);
                           (a_loop 7, LPeer (PVoiceResponse 5 true))] a_remote = Some (true, r', l) /\
    CRecord ∈ l /\ recordings l = 1 /\ stop_voice_call_sender r' = true.
Proof.
  apply (cancelled_call_recorded toy_hash (fun s => s) (fun _ => None) (fun _ => None) (H := a_store) (H0 := zstd_store)
    all_files (fun _ => []) no_digest true (a_loop 5) (a_loop 6) (a_loop 7) a_remote); reflexivity.
Defined.

Definition a_dialog : peer_message := PMessageBox "info" "t" "x" "https://example.com".

Lemma client_effects_allowed_witness :
  match handle_msg_from_peer toy_hash (fun s => s) (fun _ => None) (fun _ => None) (H := a_store) (H0 := zstd_store)
    all_files (fun _ => []) no_digest (a_loop 0) a_dialog a_remote with
  | Some (_, r', l) => Forall (callowed a_dialog a_remote r') l
  | None => False
  end.
Proof.
  destruct (handle_msg_from_peer _ _ _ _ _ _ _ _ _ _) as [[[go r'] l]|] eqn:E; [|discriminate E].
  exact (client_effects_allowed toy_hash (fun s => s) (fun _ => None) (fun _ => None) (H := a_store) (H0 := zstd_store)
    all_files (fun _ => []) no_digest (a_loop 0) _ _ _ _ _ E).
Defined.

(** Nothing asks whether the other side has been logged in to: what it puts into the clipboard is
    taken at once, in a session for files as well. *)
Example clipboard_before_the_login :
  let r := on_session (fun s => s_set_lc (mkLch "1" FILE_TRANSFER false (mkHash "" "") [] false (config (a_session None)) (""%string, 0) 0 None 0
    None false false None false None None None None None Undefined None false true) s) a_remote in
  (on_peer_message toy_hash (fun s => s) (fun _ => None) (fun _ => None) (H := a_store) (a_loop 0) PClip r).2 = [CUpdateClipboard].
Proof. reflexivity. Qed.
