(* ===== verification/Permissions.v ===== *)
(** * The permissions on both sides of a connection

    The controlled machine tells the client what it does not permit when a connection starts
    ([ConnState.start_permissions]) and whenever the person there switches a permission; the
    client keeps three of them ([ClientLoop.on_permission]) and decides by them what it
    sends of its own clipboard.  Both sides agree during a connection, but the client's
    part outlives it. *)

From S2P Require Import Prelude Options LoginGuard CodecChoice PeerConfig LoginConfig SessionPasswords ClientVideo ClientFiles FileSys ClientLoop ClientSafety ConnState ConnOptions ConnLogin ConnMessages ConnSafety Session.
#[local] Open Scope handler_scope.

Section permissions.
Context `{PeerStore}.
Implicit Types (r : @Remote _) (c : Connection).

(** What the client makes of what the connection does. *)
Definition hear r (e : effect) : @Remote _ :=
  match e with EPermission p on => (on_permission p on r).1.2 | _ => r end.

Definition hear_all (l : list effect) r : @Remote _ := foldl hear r l.

Lemma hear_all_app l l' r : hear_all (l ++ l') r = hear_all l' (hear_all l r).
Proof. apply foldl_app. Qed.

(** The two sides agree; only that the keyboard is taken from a session with a terminal is
    not told. *)
Record agrees c r : Prop := {
  ag_clipboard : server_clipboard (r_session r) = clipboard (perms c);
  ag_file : server_file_transfer (r_session r) = file (perms c);
  ag_keyboard : server_keyboard (r_session r) = keyboard (perms c) \/
                (terminal (kind c) = true /\ keyboard (perms c) = false);
}.

(** ** Handlers that tell nothing *)

Definition untold (e : effect) : Prop := match e with EPermission _ _ => False | _ => True end.

Lemma hear_untold l r : Forall untold l -> hear_all l r = r.
Proof. unfold hear_all. induction 1 as [|e l E F IH]; [done|]. simpl. destruct e; done. Qed.

Record mute_at c (p : Connection * list effect) : Prop := {
  mu_perms : perms p.1 = perms c;
  mu_terminal : terminal (kind p.1) = terminal (kind c);
  mu_untold : Forall untold p.2;
}.

Definition mute (h : handler) : Prop := forall c, mute_at c (h c).

Lemma mute_skip : mute skip.
Proof. by split. Qed.

Lemma mute_emit l : Forall untold l -> mute (emit l).
Proof. by split. Qed.

Lemma mute_modify f : (forall c, perms (f c) = perms c) -> (forall c, terminal (kind (f c)) = terminal (kind c)) -> mute (modify f).
Proof. intros P K c. split; [apply P|apply K|constructor]. Qed.

Lemma mute_andthen a b : mute a -> mute b -> mute (a ;;; b).
Proof.
  intros A B c. unfold andthen. destruct (A c) as [P K F]. destruct (a c) as [c1 l]. destruct (B c1) as [P' K' F'].
  destruct (b c1) as [c2 l']. simpl in *. split; simpl; [congruence..|by apply Forall_app_2].
Qed.

Lemma mute_with_conn k : (forall c, mute (k c)) -> mute (with_conn k).
Proof. intros K c. apply K. Qed.

Lemma mute_when b h : mute h -> mute (when b h).
Proof. by destruct b. Qed.

Lemma mute_on_bool o k : (forall b, mute (k b)) -> mute (on_bool o k).
Proof. intros K. by destruct o as [[]|]; cbn [on_bool]. Qed.

Create HintDb mute discriminated.

Ltac mute_step :=
  match goal with
  | |- mute (_ ;;; _) => apply mute_andthen
  | |- mute (with_conn _) => apply mute_with_conn; intros ?; cbv beta zeta
  | |- mute (modify _) => apply mute_modify; intros ?; reflexivity
  | |- mute (emit _) => apply mute_emit; repeat first [apply Forall_nil_2 | apply Forall_cons_2; [done|]]
  | |- mute skip => apply mute_skip
  | |- mute (when _ _) => apply mute_when
  | |- mute (on_bool _ _) => apply mute_on_bool; intros ?
  | |- mute _ => solve [auto with mute]
  | |- mute (if _ then _ else _) => case_match
  | |- mute (match ?x with _ => _ end) => destruct x eqn:?
  end.
Ltac mute_all := repeat mute_step; try done; repeat case_match; repeat first [apply Forall_nil_2 | apply Forall_cons_2; [done|]].

Lemma sub_audio_mute c : mute (sub_audio c).
Proof. unfold sub_audio. mute_all. Qed.
#[local] Hint Resolve sub_audio_mute : mute.

Lemma update_options_mute env o : mute (update_options env o).
Proof.
  unfold update_options, option_image_quality, option_video, option_follow, option_clipboard,
    option_input, option_terminal, update_terminal_persistence. mute_all.
Qed.

Lemma on_close_mute lock : mute (on_close lock).
Proof. unfold on_close. mute_all. Qed.

Lemma capture_displays_mute env add sub_ set_ multi : mute (capture_displays env add sub_ set_ multi).
Proof.
  assert (forall l s d i x, Forall untold (server_capture_displays l s d i x)) as V.
  { intros l s d i x. apply Forall_flat_map, Forall_true. intros [cam n]. repeat case_match; by repeat constructor. }
  unfold capture_displays. repeat mute_step; first [by apply Forall_fmap, Forall_true|repeat case_match; apply V].
Qed.

Lemma try_sub_monitor_services_mute env : mute (try_sub_monitor_services env).
Proof. unfold try_sub_monitor_services. mute_all. Qed.

Lemma run_file_action_mute env a : mute (run_file_action env a).
Proof. destruct a; cbn [run_file_action]; unfold send_file; mute_all. Qed.
#[local] Hint Resolve update_options_mute on_close_mute capture_displays_mute try_sub_monitor_services_mute
  run_file_action_mute : mute.

Lemma on_file_action_mute env a : mute (on_file_action env a).
Proof. unfold on_file_action. mute_all. Qed.

Lemma handle_voice_call_mute b : mute (handle_voice_call b).
Proof. unfold handle_voice_call. mute_all. Qed.

Lemma init_terminal_service_mute env : mute (init_terminal_service env).
Proof. unfold init_terminal_service. mute_all. Qed.
#[local] Hint Resolve on_file_action_mute handle_voice_call_mute init_terminal_service_mute : mute.

(** ** Messages of an authorized peer *)

Lemma mute_run h c (b : bool) : mute h -> let p := (let '(c, l) := h c in (b, c, l)) in mute_at c (p.1.2, p.2).
Proof. intros M. specialize (M c). by destruct (h c). Qed.

Lemma misc_mute env m c : let p := on_misc env m c in mute_at c (p.1.2, p.2).
Proof.
  destruct m; cbn [on_misc];
    try (apply mute_run; unfold handle_switch_display, change_resolution, handle_elevation_request; by mute_all).
  - destruct uuid_ok; [|by split]. apply mute_run. mute_all.
  - unfold on_selected_sid. destruct other; [by split; repeat constructor|].
    destruct (file_transfer (kind c)) as [[dir h]|]; [destruct (delayed_read_dir (files c)); by split; repeat constructor|].
    destruct (view_camera (kind c)); [by split; repeat constructor|].
    destruct (negb (terminal (kind c))); [|by split; repeat constructor].
    apply mute_run, try_sub_monitor_services_mute.
Qed.

Lemma authorized_message_mute env msg c : let p := on_authorized_message env msg c in mute_at c (p.1.2, p.2).
Proof.
  destruct msg; cbn [on_authorized_message]; try apply misc_mute;
    apply mute_run; unfold on_mouse, on_pointer, on_key, on_file_response, close_voice_call; mute_all.
Qed.

(** ** Steps after which both sides agree again *)

Definition tells c (p : Connection * list effect) : Prop := forall r, agrees c r -> agrees p.1 (hear_all p.2 r).

Lemma mute_tells c p : mute_at c p -> tells c p.
Proof. intros [P K F] r [A B C]. rewrite hear_untold by done. split; rewrite ?P, ?K; done. Qed.

Lemma tells_same c c' : perms c' = perms c -> (terminal (kind c) = true -> terminal (kind c') = true) -> tells c (c', []).
Proof. intros P K r [A B [C|[C D]]]; split; simpl; rewrite ?P; auto. Qed.

Lemma tells_then c c1 l1 c2 l2 : tells c (c1, l1) -> tells c1 (c2, l2) -> tells c (c2, l1 ++ l2).
Proof. intros A B r R. simpl. rewrite hear_all_app. apply (B _ (A _ R)). Qed.

Lemma tells_andthen c a b : tells c (a c) -> (forall c1, tells c1 (b c1)) -> tells c ((a ;;; b) c).
Proof.
  intros A B. unfold andthen. destruct (a c) as [c1 l1]. specialize (B c1). destruct (b c1) as [c2 l2]. by eapply tells_then.
Qed.

(** Switching a permission and telling it. *)
Lemma switch_tells q on (set : bool -> Connection -> Connection) c :
  (forall r, agrees c r -> agrees (set on c) (hear r (EPermission q on))) ->
  tells c ((modify (set on) ;;; emit [send_permission q on])%handler c).
Proof. intros S r R. exact (S r R). Qed.

(** What is heard, on what the loops of a session share. *)
Definition heard (q : Permission) (on : bool) (s : SessionState) : SessionState :=
  match q with
  | PKeyboard => s_set_keyboard on s
  | PClipboard => s_set_clipboard on s
  | PFile => s_set_file on s
  | _ => s
  end.

Lemma session_hear q on r : r_session (hear r (EPermission q on)) = heard q on (r_session r).
Proof. destruct q; try done. simpl. by destruct (on_record_permission on (r_video r)). Qed.

Lemma start_session_tells env wait sub_service c : tells c (start_session env wait sub_service c).
Proof.
  unfold start_session, with_conn. cbv beta zeta. destruct (file_transfer (kind c)) as [[dir hidden]|].
  { apply mute_tells. destruct wait; split; by repeat constructor. }
  destruct (terminal (kind c)) eqn:T.
  - unfold andthen, modify. pose proof (init_terminal_service_mute env (set_keyboard false c)) as [P K F].
    destruct (init_terminal_service env (set_keyboard false c)) as [c1 l1]. simpl in *. intros r [A B C]. simpl.
    rewrite hear_untold by done. split; rewrite ?P, ?K; simpl; auto.
  - destruct (view_camera (kind c)).
    + apply tells_andthen; [apply mute_tells; destruct wait; split; by repeat constructor|]. intros c1.
      apply switch_tells. intros r [A B C]. split; simpl; auto.
    + apply mute_tells. destruct (sub_service && negb wait); [apply try_sub_monitor_services_mute|apply mute_skip].
Qed.

Lemma on_authorized_tells env c : tells c (on_authorized env c).
Proof.
  unfold on_authorized, with_conn. cbv zeta.
  set (ft := bool_decide _). set (sub := _ && e_displays_ok env). set (wait := wait_session_id_confirm env c).
  apply tells_andthen; [apply mute_tells; by split; repeat constructor|]. intros c1.
  destruct (port_forward (kind c)); [apply mute_tells; by split; repeat constructor|].
  apply tells_andthen.
  { assert (forall b, mute (when b update_codec_on_login)) as M by (intros b; unfold update_codec_on_login; mute_all).
    apply mute_tells, M. }
  intros c2. apply tells_andthen; [apply mute_tells; by split; repeat constructor|]. intros c3.
  apply tells_andthen; [|intros c4; apply start_session_tells].
  apply mute_tells. destruct (options_in_login c) as [o|]; [|apply mute_skip].
  assert (mute (modify (s_options_in_login None) ;;; update_options env o)) as M by mute_all. apply M.
Qed.

Section login.
Context (sha256 : bytes -> bytes) (parse_v6 : string -> option Z).

Definition tells3 c (p : Connection * World * list effect) : Prop := tells c (p.1.1, p.2).

Lemma conclude_tells env c w g : tells3 c (conclude env c w g).
Proof.
  unfold conclude, tells3. destruct (negb (authorized c) && _); [|by apply tells_same].
  pose proof (tells_andthen (s_base (fst g) c) (on_authorized env) (emit [EToCm "Login"])) as T.
  destruct ((on_authorized env ;;; emit [EToCm "Login"]) (s_base (fst g) c)) as [c1 l1].
  intros r [A B C]. apply (T (on_authorized_tells env _)); [|by split].
  intros c2. apply mute_tells. by split; repeat constructor.
Qed.

Lemma send_logon_tells env c w : tells3 c (send_logon sha256 env c w).
Proof. apply conclude_tells. Qed.

Lemma tells_from c0 c p : (forall r, agrees c0 r -> agrees c r) -> tells c p -> tells c0 p.
Proof. intros A T r R. by apply T, A. Qed.

Lemma same_agrees c c' r :
  perms c' = perms c -> (terminal (kind c) = true -> terminal (kind c') = true) -> agrees c r -> agrees c' r.
Proof. intros P K R. exact (tells_same c c' P K r R). Qed.

Lemma fill_token_terminal env u c : terminal (kind (snd (fst (fill_terminal_user_token env u c)))) = terminal (kind c).
Proof. by rewrite (proj2 (proj2 (proj2 (proj2 (fill_token_perms env u c))))). Qed.

Lemma login_kind_untold env lr c : Forall untold (snd (login_kind_step env lr c)).
Proof. unfold login_kind_step, fill_terminal_user_token. repeat case_match; simplify_eq/=; repeat constructor. Qed.

Lemma login_kind_terminal env lr c : terminal (kind c) = true -> terminal (kind (snd (fst (login_kind_step env lr c)))) = true.
Proof.
  intros T. unfold login_kind_step. destruct (lr_kind lr) as [dir h| |sid|host port|]; try done; try by case_match.
  - destruct (negb _); [done|]. destruct (negb _ && negb _); [done|]. cbv zeta.
    match goal with |- context [fill_terminal_user_token env ?u ?x] =>
      pose proof (fill_token_terminal env u x) as F; assert (terminal (kind x) = true) as X by (by case_match);
      destruct (fill_terminal_user_token env u x) as [[err c2] l] end.
    simpl in F. destruct err; [by simpl; rewrite F|]. repeat case_match; simpl; by rewrite F.
  - destruct (negb _); [done|]. cbv zeta. by destruct (e_connects _ _ _).
Qed.

Lemma on_message_tells env msg c w : let p := on_message sha256 parse_v6 env msg c w in tells c (p.1.1.2, p.2).
Proof.
  assert (forall m, let p := (if authorized c then if port_forward (kind c) then (true, c, w, [])
      else let '(keep, c, l) := on_authorized_message env m c in (keep, c, w, l) else (true, c, w, [])) in
    tells c (p.1.1.2, p.2)) as M.
  { intros m. destruct (authorized c); [|by apply tells_same]. destruct (port_forward (kind c)); [by apply tells_same|].
    pose proof (authorized_message_mute env m c) as A. destruct (on_authorized_message env m c) as [[keep c'] l]. by apply mute_tells. }
  destruct msg; cbn [on_message];
    try match goal with |- context [on_authorized_message env ?m c] => exact (M m) end; clear M.
  - pose proof (on_close_mute true c) as A. destruct (on_close true c) as [c' l]. by apply mute_tells.
  - unfold on_login_request. pose proof (handle_login_perms env lr c) as (P1 & _ & K1 & _ & _). cbv zeta in *.
    set (c1 := handle_login_request_without_validation env lr c) in *.
    assert (forall r, agrees c r -> agrees c1 r) as A1 by (intros r; apply same_agrees; [done|by rewrite K1]).
    destruct (authorized c1); [exact A1|].
    pose proof (login_kind_perms env lr c1) as (P2 & _). pose proof (login_kind_terminal env lr c1) as T2.
    pose proof (login_kind_untold env lr c1) as Q.
    destruct (login_kind_step env lr c1) as [[go c2] l0]. cbn [fst snd] in *. apply (tells_from c c1); [done|].
    destruct (negb go).
    { intros r R. simpl. rewrite hear_untold by done. by eapply (same_agrees c1). }
    destruct (LoginGuard.login_request _ _ _ _ _ _ _ _) as [[keep b] g'].
    pose proof (conclude_tells env c2 w (b, g')) as C. destruct (conclude env c2 w (b, g')) as [[c3 w3] l].
    intros r R. simpl. rewrite hear_all_app, (hear_untold l0) by done. apply C. by apply (same_agrees c1).
  - unfold on_auth_2fa. match goal with |- context [conclude env c w ?g] => pose proof (conclude_tells env c w g) as C;
      destruct (conclude env c w g) as [[c1 w1] l] end.
    simpl. eapply tells_then; [exact C|]. apply mute_tells. split; try done. simpl. case_match; by repeat constructor.
  - destruct from_client; [apply mute_tells; by split; repeat constructor|].
    destruct (last_test_delay (talk c)); apply mute_tells; by split; repeat constructor.
  - destruct lr as [lr|]; [|by apply tells_same]. unfold on_switch_sides.
    pose proof (handle_login_perms env lr c) as (P & _ & K & _ & _). cbv zeta in *.
    set (c1 := handle_login_request_without_validation env lr c) in *.
    assert (tells c (c1, [])) as S by (apply tells_same; [done|by rewrite K]).
    destruct uuid as [u|]; [|exact S].
    match goal with |- context [match ?o with Some _ => _ | None => _ end] => destruct o as [[t u']|] end; [|exact S].
    destruct (decide (u = u')); [|exact S].
    match goal with |- context [send_logon sha256 env ?x ?y] => set (c2 := x); set (w2 := y) end.
    pose proof (send_logon_tells env c2 w2) as L. destruct (send_logon sha256 env c2 w2) as [[c3 w3] l].
    simpl. eapply tells_then; [|apply mute_tells; by split; repeat constructor].
    apply (tells_from c c2); [|exact L]. intros r. apply same_agrees; [done|by rewrite <- K].
Qed.

Lemma switch_permission_tells env name on c : tells c (switch_permission env name on c).
Proof.
  assert (forall q (set : bool -> Connection -> Connection) (h : handler),
    (forall r, agrees c r -> agrees (set on c) (hear r (EPermission q on))) -> mute h ->
    tells c ((modify (set on) ;;; emit [send_permission q on] ;;; h)%handler c)) as S.
  { intros q set h Q M. pose proof (tells_andthen c (modify (set on) ;;; emit [send_permission q on]) h) as T.
    assert (((modify (set on) ;;; emit [send_permission q on]) ;;; h)%handler c =
            (modify (set on) ;;; emit [send_permission q on] ;;; h)%handler c) as E.
    { unfold andthen, modify, emit. simpl. by destruct (h (set on c)). }
    rewrite <- E. apply T; [by apply switch_tells|]. intros c1. by apply mute_tells, M. }
  assert (forall q (set : bool -> Connection -> Connection),
    (forall r, agrees c r -> agrees (set on c) (hear r (EPermission q on))) ->
    tells c ((modify (set on) ;;; emit [send_permission q on])%handler c)) as S' by (intros q set; apply switch_tells).
  unfold switch_permission. repeat case_decide;
    first [apply S; [|mute_all] | apply S' | apply mute_tells, mute_skip];
    intros r [A B C]; split; rewrite ?session_hear; simpl; auto.
Qed.

(** ** The life of a connection *)

Lemma on_event_tells env ev c w : let p := on_event sha256 parse_v6 env ev c w in tells c (p.1.1.2, p.2).
Proof.
  destruct ev as [m| |name on|accepted]; cbn [on_event].
  - pose proof (on_message_tells env m c w) as M. by destruct (on_message sha256 parse_v6 env m c w) as [[[keep c1] w1] l].
  - unfold on_cm_authorize. set (c1 := s_base _ c). pose proof (send_logon_tells env c1 w) as M.
    destruct (send_logon sha256 env c1 w) as [[c2 w2] l]. intros r [A B C]. apply M. by split.
  - pose proof (switch_permission_tells env name on c) as M. by destruct (switch_permission env name on c).
  - pose proof (handle_voice_call_mute accepted c) as M. destruct (handle_voice_call accepted c). by apply mute_tells.
Qed.

Lemma run_events_tells evs : forall c w, tells3 c (run_events sha256 parse_v6 evs c w).
Proof.
  induction evs as [|[env ev] evs IH]; intros c w; cbn [run_events]; [by apply tells_same|].
  pose proof (on_event_tells env ev c w) as T. destruct (on_event sha256 parse_v6 env ev c w) as [[[keep c1] w1] l1].
  destruct keep; [|exact T]. specialize (IH c1 w1). destruct (run_events sha256 parse_v6 evs c1 w1) as [[c2 w2] l2].
  by eapply tells_then.
Qed.

(** What is told at the start makes a client agree that thought everything permitted. *)
Lemma start_agrees c r :
  server_keyboard (r_session r) = true -> server_clipboard (r_session r) = true ->
  server_file_transfer (r_session r) = true -> agrees c (hear_all (start_permissions (perms c)) r).
Proof.
  intros K C F. unfold start_permissions, send_permission, hear_all. rewrite !foldl_app.
  destruct (keyboard (perms c)) eqn:EK, (clipboard (perms c)) eqn:EC, (audio (perms c)), (file (perms c)) eqn:EF,
    (restart (perms c)), (recording (perms c)), (block_input (perms c));
    (split; [rewrite EC|rewrite EF|left; rewrite EK]);
    cbn [foldl]; rewrite ?session_hear; simpl; rewrite ?K, ?C, ?F; done.
Qed.

(** C11. The client of a fresh session knows what the machine permits.  In a session that so far takes
    the keyboard, the clipboard and files for permitted, as a new one does, from the start of a
    connection and over any life of it (logins of every kind, permissions switched by the person
    there, messages in any order), once the client has heard what was sent it takes the clipboard
    and files for permitted just when they are, and the keyboard too, but in a session with a
    terminal, from which the keyboard is taken silently; so it sends its own clipboard only where
    the machine permits that.  Only the first connection of a session is like that: what one
    connection took away is remembered by the session and is not given back when a reconnection
    finds it permitted (see [lost_permission_outlives_connection]). *)
Theorem permissions_mirrored env b evs w r :
  server_keyboard (r_session r) = true -> server_clipboard (r_session r) = true ->
  server_file_transfer (r_session r) = true ->
  let c0 := new_connection env b in
  let '(c, _, l) := run_events sha256 parse_v6 evs c0 w in
  let s := r_session (hear_all (start_permissions (perms c0) ++ l) r) in
  server_clipboard s = clipboard (perms c) /\ server_file_transfer s = file (perms c) /\
  (keyboard (perms c) = true -> server_keyboard s = true) /\
  (server_keyboard s = true -> keyboard (perms c) = true \/ terminal (kind c) = true) /\
  (is_text_clipboard_required s = true -> clipboard (perms c) = true) /\
  (is_file_clipboard_required s = true -> file (perms c) = true).
Proof.
  intros K C F. cbv zeta. pose proof (run_events_tells evs (new_connection env b) w) as T.
  destruct (run_events sha256 parse_v6 evs (new_connection env b) w) as [[c w'] l].
  rewrite hear_all_app. pose proof (start_agrees (new_connection env b) r K C F) as S.
  set (r1 := hear_all (start_permissions _) r) in *. destruct (T r1 S) as [A B D]. cbn [fst snd] in A, B, D.
  split_and!; [exact A|exact B| | | |].
  - intros E. destruct D as [D|[_ D]]; [by rewrite D|congruence].
  - intros E. destruct D as [D|[D _]]; [left; congruence|by right].
  - unfold is_text_clipboard_required. rewrite A. intros X. by apply andb_true_iff in X as [[X _]%andb_true_iff _].
  - unfold is_file_clipboard_required. rewrite B. intros X. by apply andb_true_iff in X as [[_ X]%andb_true_iff _].
Qed.
End login.

(** After a reconnection the client may be wrong: what an earlier connection took away is kept
    in the session, and a new connection tells only what it does not permit; where it permits
    the keyboard, a client that had lost it before goes on without, and does not send its
    clipboard. *)
Theorem lost_permission_outlives_connection env b (r : @Remote _) store v f :
  permission env "enable-keyboard" = true -> server_keyboard (r_session r) = false ->
  let c := new_connection env b in
  let s := r_session (hear_all (start_permissions (perms c)) (remote_new (r_session r) store v f)) in
  keyboard (perms c) = true /\ server_keyboard s = false /\ is_text_clipboard_required s = false.
Proof.
  intros P K c s. assert (keyboard (perms c) = true) as Kc by exact P.
  assert (server_keyboard s = false) as Ks.
  { subst s. unfold start_permissions, send_permission, hear_all. rewrite Kc, !foldl_app.
    destruct (clipboard (perms c)), (audio (perms c)), (file (perms c)), (restart (perms c)), (recording (perms c)),
      (block_input (perms c)); cbn [foldl]; rewrite ?session_hear; exact K. }
  split_and!; [exact Kc|exact Ks|]. unfold is_text_clipboard_required. rewrite Ks. by rewrite andb_false_r.
Qed.
End permissions.

(** ** Witnesses *)

(** The person at the machine takes the clipboard away. *)
Definition taken_away : list (Env * event) := [(a_machine, FromCmSwitch "clipboard" false)].

Lemma permissions_mirrored_witness :
  let '(c, _, l) := run_events (fun x => x) (fun _ => None) taken_away a_new_connection a_world in
  let s := r_session (hear_all (H := a_store) (start_permissions (perms a_new_connection) ++ l) a_remote) in
  server_clipboard s = false /\ clipboard (perms c) = false /\ server_keyboard s = keyboard (perms c).
Proof.
  pose proof (permissions_mirrored (H := a_store) (fun x => x) (fun _ => None) a_machine (a_conn [] LoginGuard.Remote false) taken_away a_world
    a_remote eq_refl eq_refl eq_refl) as (A & B & C & D & E & F).
  split_and!; [exact A|reflexivity|]. symmetry. exact (eq_sym (C eq_refl)).
Defined.

(** A session that has lost the keyboard, and a machine that permits it. *)
Definition a_lost_keyboard : @Remote a_store := on_session (s_set_keyboard false) a_remote.

Lemma lost_permission_outlives_connection_witness :
  let s := r_session (hear_all (H := a_store) (start_permissions (perms a_new_connection))
             (remote_new (r_session a_lost_keyboard) (r_store a_lost_keyboard) (r_video a_lost_keyboard) (r_files a_lost_keyboard))) in
  keyboard (perms a_new_connection) = true /\ server_keyboard s = false /\ is_text_clipboard_required s = false.
Proof. apply (lost_permission_outlives_connection (H := a_store)); reflexivity. Defined.
