(* ===== verification/ClientRounds.v ===== *)
(** * The rounds of a session

    A session of the client is connected again and again; every connection is a round with a
    loop of its own, in a thread of its own ([reconnect] and [ConnectionRoundState] of
    [src/ui_session_interface.rs], the beginning and the end of [io_loop] of
    [src/client/io_loop.rs]).  The threads' steps are interleaved freely; the lock of the
    round state makes each of them atomic. *)

From S2P Require Import Prelude.
#[local] Open Scope Z_scope.

(* src/src/ui_session_interface.rs:89-93 ConnectionState *)
Inductive ConnectionState : Type := Connecting | Connected | Disconnected.

(* src/src/ui_session_interface.rs:96-99 ConnectionRoundState *)
Record ConnectionRoundState : Type := mkRounds { round : Z; rstate : ConnectionState }.

(* src/src/ui_session_interface.rs:131-138 ConnectionRoundState::default *)
Definition rounds_default : ConnectionRoundState := mkRounds 0 Connecting.

(* src/src/ui_session_interface.rs:102-106 ConnectionRoundState::new_round *)
Definition new_round (s : ConnectionRoundState) : ConnectionRoundState := mkRounds (u32 (round s + 1)) Connecting.

(* src/src/ui_session_interface.rs:108-110 ConnectionRoundState::set_connected *)
Definition set_connected (s : ConnectionRoundState) : ConnectionRoundState := mkRounds (round s) Connected.

(* src/src/ui_session_interface.rs:112-118 ConnectionRoundState::is_round_gt *)
Definition is_round_gt (n : Z) (s : ConnectionRoundState) : bool :=
  if (n =? 2 ^ 32 - 1) && (round s =? 0) then true else n <? round s.

(* src/src/ui_session_interface.rs:120-128 ConnectionRoundState::set_disconnected *)
Definition set_disconnected (n : Z) (s : ConnectionRoundState) : bool * ConnectionRoundState :=
  if is_round_gt n s then (false, s) else (true, mkRounds (round s) Disconnected).

(** ** The threads of a session *)

(** A loop has been spawned; it has made its channel the session's and connects; it is
    connected.  [told]: there is a [Data::Close] in its channel. *)
Inductive phase : Type := Spawned | Starting (told : bool) | Running (told : bool).

#[export] Instance phase_eq_dec : EqDecision phase.
Proof. solve_decision. Defined.

(** The loops by their rounds, and the loop to whose channel the session sends.  [thread] is
    whether the session has a thread's handle. *)
Record Rounds : Type := mkSystem {
  rounds : ConnectionRoundState;
  thread : bool;
  loops : gmap Z phase;
  sender : option Z;
}.

Definition rounds_start : Rounds := mkSystem rounds_default false ∅ None.

(** [Data::Close] for the loop that listens; one that connects takes it when it is connected. *)
Definition send_close (s : Rounds) : Rounds :=
  match sender s with
  | Some n => mkSystem (rounds s) (thread s) (alter (fun p => match p with Spawned => Spawned | Starting _ => Starting true | Running _ => Running true end) n (loops s)) (sender s)
  | None => s
  end.

Definition spawn (has_handle : bool) (s : Rounds) : Rounds :=
  let r := new_round (rounds s) in mkSystem r has_handle (<[round r := Spawned]> (loops s)) (sender s).

(* src/src/ui_session_interface.rs:1271-1302 Session::reconnect *)
Definition reconnect (s : Rounds) : Rounds :=
  if thread s then
    match rstate (rounds s) with
    | Connecting => s
    | Connected => spawn true (send_close s)
    | Disconnected => spawn true s
    end
  else spawn true s.

(** How the flutter user interface starts a session: its thread's handle is not kept. *)
(* src/src/flutter.rs:1406-1417 session_start_ *)
Definition session_start_ (s : Rounds) : Rounds := spawn (thread s) s.

Definition loop_gone (n : Z) (s : Rounds) : Rounds :=
  mkSystem (set_disconnected n (rounds s)).2 (thread s) (delete n (loops s)) (sender s).

(** Every loop has been told to close. *)
Definition all_told (s : Rounds) : bool := bool_decide (map_Forall (fun _ p => p = Running true) (loops s)).

(** The steps of the threads and of the user.  The label is whether a loop is spawned without a
    look at the one that is there: by a reconnection while the session has no handle, or by the
    user interface.  [step_close] is the user's ([Session::close]); the user interface starts a
    session when its first window has got its stream of events. *)
Inductive rstep : bool -> Rounds -> Rounds -> Prop :=
| step_start s : rstep (negb (all_told s)) s (session_start_ s)
| step_reconnect s : rstep (negb (thread s || all_told s)) s (reconnect s)
| step_close s : rstep false s (send_close s)
| step_listen s n : loops s !! n = Some Spawned ->
    rstep false s (mkSystem (rounds s) (thread s) (<[n := Starting false]> (loops s)) (Some n))
| step_connected s n told : loops s !! n = Some (Starting told) ->
    rstep false s (mkSystem (set_connected (rounds s)) (thread s) (<[n := Running told]> (loops s)) (sender s))
| step_failed s n told : loops s !! n = Some (Starting told) -> rstep false s (loop_gone n s)
| step_ended s n told : loops s !! n = Some (Running told) -> rstep false s (loop_gone n s).

(** There have been fewer rounds than a [u32] counts. *)
Definition few (s : Rounds) : Prop := round (rounds s) < 2 ^ 32 - 1.

(** Runs, and whether one of their steps spawned without a look. *)
Inductive rsteps : bool -> Rounds -> Rounds -> Prop :=
| rsteps_refl s : rsteps false s s
| rsteps_next b b' s s' s'' : rsteps b s s' -> few s' -> rstep b' s' s'' -> rsteps (b || b') s s''.

(** ** The current round, and those before it *)

(** What the state says of the present round's loop. *)
Definition state_true (s : Rounds) : Prop :=
  match rstate (rounds s), loops s !! round (rounds s) with
  | Connecting, Some Spawned => True
  | Connecting, Some (Starting _) | Connected, Some (Running _) => sender s = Some (round (rounds s))
  | Disconnected, None => True
  | _, _ => False
  end.

(** The state is true unless nothing has been spawned, and every loop but the present round's
    has been told to close. *)
Record rounds_wf (s : Rounds) : Prop := {
  rw_range : 0 <= round (rounds s);
  rw_old : forall n p, loops s !! n = Some p -> n < round (rounds s) -> p = Running true;
  rw_new : forall n, is_Some (loops s !! n) -> 0 < n <= round (rounds s);
  rw_state : (rounds s = rounds_default /\ thread s = false) \/ state_true s;
}.

Lemma rounds_start_wf : rounds_wf rounds_start.
Proof.
  split; [done| | |by left]; cbn [rounds_start loops].
  - intros n p E. by rewrite lookup_empty in E.
  - intros n [x E]. by rewrite lookup_empty in E.
Qed.

Lemma set_disconnected_old n s : 0 < n < round s -> set_disconnected n s = (false, s).
Proof.
  intros L. unfold set_disconnected, is_round_gt.
  destruct (Z.eqb_spec (round s) 0); [lia|]. rewrite andb_false_r. by rewrite (proj2 (Z.ltb_lt _ _)) by lia.
Qed.

Lemma set_disconnected_now s : round s < 2 ^ 32 - 1 -> set_disconnected (round s) s = (true, mkRounds (round s) Disconnected).
Proof.
  intros L. unfold set_disconnected, is_round_gt. rewrite (proj2 (Z.eqb_neq _ _)) by lia. simpl. by rewrite Z.ltb_irrefl.
Qed.

Lemma spawn_wf h s :
  0 <= round (rounds s) -> few s -> (forall n p, loops s !! n = Some p -> 0 < n <= round (rounds s) /\ p = Running true) ->
  rounds_wf (spawn h s).
Proof.
  intros R F O. unfold few in F.
  assert (round (new_round (rounds s)) = round (rounds s) + 1) as E by (simpl; apply Z.mod_small; lia).
  unfold spawn. cbv zeta. split; cbn [rounds loops thread sender]; rewrite ?E; [lia| | |right].
  - intros n p L Ln. rewrite lookup_insert_ne in L by lia. by destruct (O _ _ L).
  - intros n [p L]. destruct (decide (n = round (rounds s) + 1)) as [->|N]; [lia|].
    rewrite lookup_insert_ne in L by done. destruct (O _ _ L). lia.
  - unfold state_true. cbn [rounds loops sender]. by rewrite ?E, lookup_insert_eq.
Qed.

(** A loop that is not told to close is the present round's. *)
Lemma wf_now s n p : rounds_wf s -> loops s !! n = Some p -> p <> Running true -> n = round (rounds s).
Proof.
  intros W L N. destruct (rw_new _ W n (ex_intro _ p L)) as [_ Le].
  destruct (Z.eq_dec n (round (rounds s))) as [|D]; [done|]. destruct N. apply (rw_old _ W n p L). lia.
Qed.

Lemma wf_true s n p : rounds_wf s -> loops s !! n = Some p -> state_true s.
Proof.
  intros W L. destruct (rw_state _ W) as [[D _]|S]; [|done].
  pose proof (rw_new _ W n (ex_intro _ p L)) as R. rewrite D in R. simpl in R. lia.
Qed.

Lemma all_told_spec s n p : all_told s = true -> loops s !! n = Some p -> p = Running true.
Proof. intros A. apply bool_decide_eq_true in A. exact (A n p). Qed.

Lemma spawn_told_wf h s : rounds_wf s -> few s -> all_told s = true -> rounds_wf (spawn h s).
Proof.
  intros W F A. apply spawn_wf; [apply W|exact F|]. intros n p L.
  split; [apply W; by eexists|by eapply all_told_spec].
Qed.

Lemma send_close_wf s : rounds_wf s -> rounds_wf (send_close s).
Proof.
  intros W. unfold send_close. destruct (sender s) as [k|] eqn:Sd; [|done].
  split; cbn [rounds loops thread sender].
  - apply W.
  - intros n p L Lt. destruct (decide (n = k)) as [->|N]; [|rewrite lookup_alter_ne in L by done; by apply (rw_old _ W n)].
    rewrite lookup_alter_eq in L. destruct (loops s !! k) as [q|] eqn:E; [|done]. simpl in L.
    rewrite (rw_old _ W k q E Lt) in L. by simplify_eq.
  - intros n. rewrite lookup_alter_is_Some. apply W.
  - destruct (rw_state _ W) as [D|S]; [by left|right]. unfold state_true in *. cbn [rounds loops sender].
    rewrite Sd in S. destruct (decide (k = round (rounds s))) as [->|N]; [|rewrite lookup_alter_ne by done; exact S].
    rewrite lookup_alter_eq. by destruct (rstate (rounds s)), (loops s !! round (rounds s)) as [[]|].
Qed.

(** The loop of the present round is the one that is told when the session is connected. *)
Lemma close_connected_told s : rounds_wf s -> state_true s -> rstate (rounds s) = Connected -> all_told (send_close s) = true.
Proof.
  intros W S C. unfold state_true in S. rewrite C in S.
  destruct (loops s !! round (rounds s)) as [[| |told]|] eqn:L; try done.
  apply bool_decide_eq_true. intros n p Ln. unfold send_close in Ln. rewrite S in Ln. cbn [loops] in Ln.
  destruct (decide (n = round (rounds s))) as [->|N].
  - rewrite lookup_alter_eq, L in Ln. simpl in Ln. by simplify_eq.
  - rewrite lookup_alter_ne in Ln by done. pose proof (rw_new _ W n (ex_intro _ p Ln)).
    apply (rw_old _ W n p Ln). lia.
Qed.

Lemma disconnected_told s : rounds_wf s -> state_true s -> rstate (rounds s) = Disconnected -> all_told s = true.
Proof.
  intros W S D. unfold state_true in S. rewrite D in S. apply bool_decide_eq_true. intros n p L.
  pose proof (rw_new _ W n (ex_intro _ p L)). apply (rw_old _ W n p L).
  destruct (Z.eq_dec n (round (rounds s))) as [->|]; [by rewrite L in S|lia].
Qed.

Lemma reconnect_wf s : rounds_wf s -> few s -> thread s || all_told s = true -> rounds_wf (reconnect s).
Proof.
  intros W F G. unfold reconnect. destruct (thread s) eqn:T; [|by apply spawn_told_wf].
  destruct (rw_state _ W) as [[_ X]|S]; [congruence|]. destruct (rstate (rounds s)) eqn:R; [done| |].
  - assert (few (send_close s)) by (unfold few, send_close in *; by destruct (sender s)).
    apply spawn_told_wf; [by apply send_close_wf|done|by apply close_connected_told].
  - apply spawn_told_wf; [done..|by apply disconnected_told].
Qed.

Lemma gone_wf s n p : rounds_wf s -> few s -> loops s !! n = Some p -> rounds_wf (loop_gone n s).
Proof.
  intros W F L. pose proof (rw_new _ W n (ex_intro _ p L)) as R. pose proof (wf_true _ _ _ W L) as T.
  assert (forall rs, round rs = round (rounds s) -> forall m q, delete n (loops s) !! m = Some q ->
    (m < round rs -> q = Running true) /\ 0 < m <= round rs) as O.
  { intros rs -> m q Lm. apply lookup_delete_Some in Lm as [_ Lm]. split; [by apply (rw_old _ W)|]. apply W. by exists q. }
  unfold loop_gone. destruct (Z.eq_dec n (round (rounds s))) as [->|N].
  - rewrite set_disconnected_now by exact F.
    split; cbn [rounds loops thread sender snd]; [apply W| | |right].
    + intros m q Lm. by apply (O (mkRounds (round (rounds s)) Disconnected)).
    + intros m [q Lm]. by eapply (O (mkRounds (round (rounds s)) Disconnected)).
    + unfold state_true. cbn [rounds loops sender rstate round]. by rewrite lookup_delete_eq.
  - rewrite set_disconnected_old by lia. split; cbn [rounds loops thread sender snd]; [apply W| | |right].
    + intros m q Lm. by apply (O (rounds s)).
    + intros m [q Lm]. by eapply (O (rounds s)).
    + unfold state_true in *. cbn [rounds loops sender]. by rewrite lookup_delete_ne by lia.
Qed.

(** The present round's loop takes a step that the state follows. *)
Lemma now_wf s n p rs q snd' :
  rounds_wf s -> loops s !! n = Some p -> p <> Running true -> round rs = round (rounds s) ->
  match rstate rs, q with
  | Connecting, Starting _ | Connected, Running _ => snd' = Some n
  | _, _ => False
  end ->
  rounds_wf (mkSystem rs (thread s) (<[n := q]> (loops s)) snd').
Proof.
  intros W L N R Q. pose proof (wf_now _ _ _ W L N) as ->.
  split; cbn [rounds loops thread sender]; rewrite ?R; [apply W| | |right].
  - intros m x Lm Lt. rewrite lookup_insert_ne in Lm by lia. by apply (rw_old _ W m).
  - intros m [x Lm]. destruct (decide (m = round (rounds s))) as [->|M]; [apply W; by eexists|].
    rewrite lookup_insert_ne in Lm by done. apply W. by exists x.
  - unfold state_true. cbn [rounds loops sender]. rewrite R, lookup_insert_eq. destruct (rstate rs), q; done.
Qed.

Lemma rstep_wf s s' : rounds_wf s -> few s -> rstep false s s' -> rounds_wf s'.
Proof.
  intros W F St. remember false as b eqn:B.
  destruct St as [s|s|s|s n L|s n told L|s n told L|s n told L]; try (apply negb_false_iff in B).
  - by apply spawn_told_wf.
  - by apply reconnect_wf.
  - by apply send_close_wf.
  - apply (now_wf s n Spawned); [done..|]. pose proof (wf_now _ _ _ W L ltac:(done)) as E.
    pose proof (wf_true _ _ _ W L) as S. unfold state_true in S. rewrite <- E, L in S. by destruct (rstate (rounds s)).
  - apply (now_wf s n (Starting told)); [done..|]. pose proof (wf_now _ _ _ W L ltac:(done)) as E.
    pose proof (wf_true _ _ _ W L) as S. unfold state_true in S. rewrite <- E, L in S. by destruct (rstate (rounds s)).
  - by apply (gone_wf s n (Starting told)).
  - by apply (gone_wf s n (Running told)).
Qed.

Lemma rsteps_wf b s s' : rsteps b s s' -> b = false -> rounds_wf s -> rounds_wf s'.
Proof.
  induction 1 as [|b b' s s' s'' R IH F St]; [done|]. intros [-> ->]%orb_false_iff W.
  by apply (rstep_wf s'); [apply IH| |].
Qed.

(** C13. The rounds of a session.  The user interface starts it, the user reconnects and closes it as
    often as he likes, and the steps of the threads fall in any order.  Unless a loop is spawned
    without a look at the one that is there (see [first_reconnect_closes_nothing]: the user
    interface keeps no handle of the thread it starts, so a reconnection while that one is still
    there neither waits for it nor closes it), at most one loop has not been told to close, that
    of the present round; the others may still be there, but only until they have taken what they
    have been told.  The state is true: connected is when the present round's loop runs, and after a
    disconnection every loop has been told; a loop of an older round changes nothing when it ends;
    and after a disconnection a reconnection starts a loop.  There are fewer than 2^32 rounds. *)
Theorem one_connection s :
  rsteps false rounds_start s -> few s ->
  (forall n p, loops s !! n = Some p -> p <> Running true -> n = round (rounds s)) /\
  (rstate (rounds s) = Connected <-> exists told, loops s !! round (rounds s) = Some (Running told)) /\
  (rstate (rounds s) = Disconnected -> forall n p, loops s !! n = Some p -> p = Running true) /\
  (forall n, is_Some (loops s !! n) -> n <> round (rounds s) -> rounds (loop_gone n s) = rounds s) /\
  (rstate (rounds s) = Disconnected -> loops (reconnect s) !! round (rounds (reconnect s)) = Some Spawned).
Proof.
  intros R F. pose proof (rsteps_wf _ _ _ R eq_refl rounds_start_wf) as W.
  assert (rstate (rounds s) <> Connecting -> state_true s) as T.
  { intros N. destruct (rw_state _ W) as [[Z _]|]; [|done]. by rewrite Z in N. }
  split_and!.
  - intros n p L N. by apply (wf_now _ _ _ W L).
  - split.
    + intros E. pose proof (T ltac:(by rewrite E)) as S. unfold state_true in S. rewrite E in S.
      destruct (loops s !! round (rounds s)) as [[| |told]|]; try done. by exists told.
    + intros [told L]. pose proof (wf_true _ _ _ W L) as S. unfold state_true in S. rewrite L in S.
      by destruct (rstate (rounds s)).
  - intros E n p. apply all_told_spec, disconnected_told; [done|apply T; by rewrite E|done].
  - intros n I N. pose proof (rw_new _ W n I). unfold loop_gone. cbn [rounds]. by rewrite set_disconnected_old by lia.
  - intros E. unfold reconnect. rewrite E. destruct (thread s); unfold spawn; cbn [loops rounds]; by rewrite lookup_insert_eq.
Qed.

(** A session that the flutter user interface has started keeps no handle of its first thread, and
    [reconnect] then takes it for one that has none: it neither waits for the first connection
    nor closes it, so that two connections of one session are there at once, neither of which
    has been told to close. *)
Theorem first_reconnect_closes_nothing :
  exists s n m, rsteps true rounds_start s /\ n <> m /\
    loops s !! n = Some (Running false) /\ loops s !! m = Some (Running false).
Proof.
  set (s0 := session_start_ rounds_start).
  set (s1 := mkSystem (rounds s0) false (<[1 := Starting false]> (loops s0)) (Some 1)).
  set (s2 := mkSystem (set_connected (rounds s1)) false (<[1 := Running false]> (loops s1)) (Some 1)).
  set (s3 := reconnect s2).
  set (s4 := mkSystem (rounds s3) true (<[2 := Starting false]> (loops s3)) (Some 2)).
  set (s5 := mkSystem (set_connected (rounds s4)) true (<[2 := Running false]> (loops s4)) (Some 2)).
  exists s5, 1, 2. split; [|by split_and!].
  apply (rsteps_next true false _ s4); [|done|by apply (step_connected s4 2 false)].
  apply (rsteps_next true false _ s3); [|done|by apply (step_listen s3 2)].
  apply (rsteps_next false true _ s2); [|done|apply (step_reconnect s2)].
  apply (rsteps_next false false _ s1); [|done|by apply (step_connected s1 1 false)].
  apply (rsteps_next false false _ s0); [|done|by apply (step_listen s0 1)].
  apply (rsteps_next false false _ rounds_start); [apply rsteps_refl|done|apply (step_start rounds_start)].
Qed.

(** ** Witness *)

(** Started by the user interface, the connection lost, and connected again. *)
Definition lost_once : Rounds := mkSystem (mkRounds 1 Disconnected) false ∅ (Some 1).

Definition connected_again : Rounds :=
  mkSystem (mkRounds 2 Connected) true {[2 := Running false]} (Some 2).

Lemma connected_again_steps : rsteps false rounds_start connected_again.
Proof.
  set (s1 := mkSystem (mkRounds 1 Connecting) false {[1 := Starting false]} (Some 1)).
  set (s2 := mkSystem (mkRounds 2 Connecting) true {[2 := Starting false]} (Some 2)).
  apply (rsteps_next false false _ s2); [|done|exact (step_connected s2 2 false eq_refl)].
  apply (rsteps_next false false _ (reconnect lost_once)); [|done|exact (step_listen (reconnect lost_once) 2 eq_refl)].
  apply (rsteps_next false false _ lost_once); [|done|apply (step_reconnect lost_once)].
  apply (rsteps_next false false _ s1); [|done|exact (step_failed s1 1 false eq_refl)].
  apply (rsteps_next false false _ (session_start_ rounds_start)); [|done|exact (step_listen (session_start_ rounds_start) 1 eq_refl)].
  apply (rsteps_next false false _ rounds_start); [apply rsteps_refl|done|apply (step_start rounds_start)].
Qed.

Lemma one_connection_witness : exists told, loops connected_again !! 2 = Some (Running told).
Proof. exact (proj1 (proj1 (proj2 (one_connection connected_again connected_again_steps eq_refl))) eq_refl). Defined.
