(* ===== verification/Keys.v ===== *)
(** * Keys and the events that carry them

    The keys as the protocol names them ([ControlKey], [KeyEvent] and [MouseEvent] of
    [message.proto]), as the library that injects them does ([Key] of [libs/enigo]), and
    the tables between the two and the virtual keys of Windows. *)

From S2P Require Import Prelude LoginConfig.
#[local] Open Scope Z_scope.

Module ControlKey.

(* src/libs/hbb_common/protos/message.proto:208-293 ControlKey *)
Inductive ControlKey : Type :=
| Unknown | Alt | Backspace | CapsLock | Control | Delete | DownArrow | End | Escape | F1 | F10 | F11 | F12
| F2 | F3 | F4 | F5 | F6 | F7 | F8 | F9 | Home | LeftArrow | Meta | Option | PageDown | PageUp | Return
| RightArrow | Shift | Space | Tab | UpArrow | Numpad0 | Numpad1 | Numpad2 | Numpad3 | Numpad4 | Numpad5
| Numpad6 | Numpad7 | Numpad8 | Numpad9 | Cancel | Clear | Menu | Pause | Kana | Hangul | Junja | Final
| Hanja | Kanji | Convert | Select | Print | Execute | Snapshot | Insert | Help | Sleep | Separator | Scroll
| NumLock | RWin | Apps | Multiply | Add | Subtract | Decimal | Divide | Equals | NumpadEnter | RShift
| RControl | RAlt | VolumeMute | VolumeUp | VolumeDown | Power | CtrlAltDel | LockScreen.

(** [value()]: the number of a key on the wire. *)
(* src/libs/hbb_common/protos/message.proto:208-293 ControlKey::value *)
Definition value (k : ControlKey) : Z :=
  match k with
  | Unknown => 0 | Alt => 1 | Backspace => 2 | CapsLock => 3 | Control => 4 | Delete => 5 | DownArrow => 6
  | End => 7 | Escape => 8 | F1 => 9 | F10 => 10 | F11 => 11 | F12 => 12 | F2 => 13 | F3 => 14 | F4 => 15
  | F5 => 16 | F6 => 17 | F7 => 18 | F8 => 19 | F9 => 20 | Home => 21 | LeftArrow => 22 | Meta => 23
  | Option => 24 | PageDown => 25 | PageUp => 26 | Return => 27 | RightArrow => 28 | Shift => 29
  | Space => 30 | Tab => 31 | UpArrow => 32 | Numpad0 => 33 | Numpad1 => 34 | Numpad2 => 35 | Numpad3 => 36
  | Numpad4 => 37 | Numpad5 => 38 | Numpad6 => 39 | Numpad7 => 40 | Numpad8 => 41 | Numpad9 => 42
  | Cancel => 43 | Clear => 44 | Menu => 45 | Pause => 46 | Kana => 47 | Hangul => 48 | Junja => 49
  | Final => 50 | Hanja => 51 | Kanji => 52 | Convert => 53 | Select => 54 | Print => 55 | Execute => 56
  | Snapshot => 57 | Insert => 58 | Help => 59 | Sleep => 60 | Separator => 61 | Scroll => 62 | NumLock => 63
  | RWin => 64 | Apps => 65 | Multiply => 66 | Add => 67 | Subtract => 68 | Decimal => 69 | Divide => 70
  | Equals => 71 | NumpadEnter => 72 | RShift => 73 | RControl => 74 | RAlt => 75 | VolumeMute => 76
  | VolumeUp => 77 | VolumeDown => 78 | Power => 79 | CtrlAltDel => 100 | LockScreen => 101
  end.

(** [enum_value]: the key of a number, when there is one. *)
(* src/libs/hbb_common/protos/message.proto:208-293 ControlKey::from_i32 *)
Definition of_value (z : Z) : option ControlKey :=
  match z with
  | 0 => Some Unknown | 1 => Some Alt | 2 => Some Backspace | 3 => Some CapsLock | 4 => Some Control
  | 5 => Some Delete | 6 => Some DownArrow | 7 => Some End | 8 => Some Escape | 9 => Some F1 | 10 => Some F10
  | 11 => Some F11 | 12 => Some F12 | 13 => Some F2 | 14 => Some F3 | 15 => Some F4 | 16 => Some F5
  | 17 => Some F6 | 18 => Some F7 | 19 => Some F8 | 20 => Some F9 | 21 => Some Home | 22 => Some LeftArrow
  | 23 => Some Meta | 24 => Some Option | 25 => Some PageDown | 26 => Some PageUp | 27 => Some Return
  | 28 => Some RightArrow | 29 => Some Shift | 30 => Some Space | 31 => Some Tab | 32 => Some UpArrow
  | 33 => Some Numpad0 | 34 => Some Numpad1 | 35 => Some Numpad2 | 36 => Some Numpad3 | 37 => Some Numpad4
  | 38 => Some Numpad5 | 39 => Some Numpad6 | 40 => Some Numpad7 | 41 => Some Numpad8 | 42 => Some Numpad9
  | 43 => Some Cancel | 44 => Some Clear | 45 => Some Menu | 46 => Some Pause | 47 => Some Kana
  | 48 => Some Hangul | 49 => Some Junja | 50 => Some Final | 51 => Some Hanja | 52 => Some Kanji
  | 53 => Some Convert | 54 => Some Select | 55 => Some Print | 56 => Some Execute | 57 => Some Snapshot
  | 58 => Some Insert | 59 => Some Help | 60 => Some Sleep | 61 => Some Separator | 62 => Some Scroll
  | 63 => Some NumLock | 64 => Some RWin | 65 => Some Apps | 66 => Some Multiply | 67 => Some Add
  | 68 => Some Subtract | 69 => Some Decimal | 70 => Some Divide | 71 => Some Equals | 72 => Some NumpadEnter
  | 73 => Some RShift | 74 => Some RControl | 75 => Some RAlt | 76 => Some VolumeMute | 77 => Some VolumeUp
  | 78 => Some VolumeDown | 79 => Some Power | 100 => Some CtrlAltDel | 101 => Some LockScreen
  | _ => None
  end.

End ControlKey.

Abbreviation ControlKey := ControlKey.ControlKey.
Abbreviation ck_value := ControlKey.value.

Lemma of_value_value k : ControlKey.of_value (ck_value k) = Some k.
Proof. by destruct k. Qed.

#[export] Instance ck_value_inj : Inj (=) (=) ck_value.
Proof. intros k k' [=E%(f_equal ControlKey.of_value)]. rewrite !of_value_value in E. congruence. Qed.

#[export] Instance ControlKey_eq_dec : EqDecision ControlKey.
Proof. intros k k'. destruct (decide (ck_value k = ck_value k')) as [E|E]; [left; by apply (inj ck_value)|right; congruence]. Defined.

(** [enum_value_or(ControlKey::Unknown)]. *)
Definition enum_value_or_unknown (z : Z) : ControlKey := default ControlKey.Unknown (ControlKey.of_value z).

(** [enum_value] of a keyboard mode. *)
Definition mode_value (z : Z) : option KeyboardMode :=
  match z with 0 => Some Legacy | 1 => Some Map | 2 => Some Translate | 3 => Some Auto | _ => None end.
Definition mode_number (m : KeyboardMode) : Z :=
  match m with Legacy => 0 | Map => 1 | Translate => 2 | Auto => 3 end.

(** ** Events

    An enumeration on the wire may have any number, so modifiers and the mode are kept as
    numbers ([EnumOrUnknown]). *)

(* src/libs/hbb_common/protos/message.proto:300-307 KeyEvent::union *)
Inductive key_union : Type :=
| UControlKey (ck : Z)
| UChr (code : Z)
| UUnicode (code : Z)
| USeq (chars : list Z)                  (** the characters of a string *)
| UWin2winHotkey (code : Z).

(* src/libs/hbb_common/protos/message.proto:295-310 KeyEvent *)
Record KeyEvent : Type := mkKeyEvent {
  ke_down : bool; ke_press : bool; ke_union : option key_union; ke_modifiers : list Z; ke_mode : Z
}.

(** [KeyEvent::new()], and the fields that are set one by one. *)
Definition new_key_event : KeyEvent := mkKeyEvent false false None [] 0.
Definition ke_set_down (v : bool) (e : KeyEvent) : KeyEvent :=
  mkKeyEvent v (ke_press e) (ke_union e) (ke_modifiers e) (ke_mode e).
Definition ke_set_press (v : bool) (e : KeyEvent) : KeyEvent :=
  mkKeyEvent (ke_down e) v (ke_union e) (ke_modifiers e) (ke_mode e).
Definition ke_set_union (u : key_union) (e : KeyEvent) : KeyEvent :=
  mkKeyEvent (ke_down e) (ke_press e) (Some u) (ke_modifiers e) (ke_mode e).
Definition ke_set_mode (m : Z) (e : KeyEvent) : KeyEvent :=
  mkKeyEvent (ke_down e) (ke_press e) (ke_union e) (ke_modifiers e) m.
Definition push_modifier (k : ControlKey) (e : KeyEvent) : KeyEvent :=
  mkKeyEvent (ke_down e) (ke_press e) (ke_union e) (ke_modifiers e ++ [ck_value k]) (ke_mode e).

(** [chr()]: 0 when the event carries something else. *)
Definition ke_chr (e : KeyEvent) : Z := match ke_union e with Some (UChr c) => c | _ => 0 end.

(* src/libs/hbb_common/protos/message.proto:194-199 MouseEvent *)
Record MouseEvent : Type := mkMouseEvent { me_mask : Z; me_x : Z; me_y : Z; me_modifiers : list Z }.

(* src/src/common.rs:877-884 is_control_key *)
Definition is_control_key (evt : KeyEvent) (key : ControlKey) : bool :=
  match ke_union evt with Some (UControlKey ck) => ck =? ck_value key | _ => false end.

(* src/src/common.rs:886-901 is_modifier *)
Definition is_modifier (evt : KeyEvent) : bool :=
  match ke_union evt with
  | Some (UControlKey v) =>
      (v =? ck_value ControlKey.Alt) || (v =? ck_value ControlKey.Shift) ||
      (v =? ck_value ControlKey.Control) || (v =? ck_value ControlKey.Meta) ||
      (v =? ck_value ControlKey.RAlt) || (v =? ck_value ControlKey.RShift) ||
      (v =? ck_value ControlKey.RControl) || (v =? ck_value ControlKey.RWin)
  | _ => false
  end.

(** ** Keys of the library *)

Module Key.

(** [Layout] carries a character, [Raw] a virtual key. *)
(* src/libs/enigo/src/lib.rs:266-436 Key *)
Inductive Key : Type :=
| Alt | Backspace | CapsLock | Command | Control | Delete | DownArrow | End | Escape | F1 | F10 | F11 | F12
| F2 | F3 | F4 | F5 | F6 | F7 | F8 | F9 | Home | LeftArrow | Meta | Option | PageDown | PageUp | Return
| RightArrow | Shift | Space | Super | Tab | UpArrow | Windows | Numpad0 | Numpad1 | Numpad2 | Numpad3
| Numpad4 | Numpad5 | Numpad6 | Numpad7 | Numpad8 | Numpad9 | Cancel | Clear | Pause | Kana | Hangul | Junja
| Final | Hanja | Kanji | Convert | Select | Print | Execute | Snapshot | Insert | Help | Sleep | Separator
| VolumeUp | VolumeDown | Mute | Scroll | NumLock | RWin | Apps | Multiply | Add | Subtract | Decimal
| Divide | Equals | NumpadEnter | RightShift | RightControl | RightAlt | Layout (c : Z) | Raw (c : Z).

#[global] Instance Key_eq_dec : EqDecision Key.
Proof. solve_decision. Defined.

End Key.
Abbreviation Key := Key.Key.

(** The virtual keys that the theorems speak of; the others ([keycodes.rs]) are written
    out in the table. *)
(* src/libs/enigo/src/win/keycodes.rs:13-13 EVK_SHIFT *)
Definition EVK_SHIFT : Z := 0x10.
(* src/libs/enigo/src/win/keycodes.rs:15-15 EVK_RSHIFT *)
Definition EVK_RSHIFT : Z := 0xa1.
(* src/libs/enigo/src/win/keycodes.rs:19-19 EVK_MENU *)
Definition EVK_MENU : Z := 0x12.
(* src/libs/enigo/src/win/keycodes.rs:17-17 EVK_RMENU *)
Definition EVK_RMENU : Z := 0xa5.
(* src/libs/enigo/src/win/keycodes.rs:20-20 EVK_LCONTROL *)
Definition EVK_LCONTROL : Z := 0xa2.
(* src/libs/enigo/src/win/keycodes.rs:21-21 EVK_RCONTROL *)
Definition EVK_RCONTROL : Z := 0xa3.
(* src/libs/enigo/src/win/keycodes.rs:12-12 EVK_LWIN *)
Definition EVK_LWIN : Z := 0x5b.
(* src/libs/enigo/src/win/keycodes.rs:76-76 EVK_RWIN *)
Definition EVK_RWIN : Z := 0x5C.
(* src/libs/enigo/src/win/keycodes.rs:18-18 EVK_CAPITAL *)
Definition EVK_CAPITAL : Z := 0x14.
(* src/libs/enigo/src/win/keycodes.rs:74-74 EVK_NUMLOCK *)
Definition EVK_NUMLOCK : Z := 0x90.

(* src/libs/enigo/src/win/win_impl.rs:361-453 Enigo::key_to_keycode *)
Definition key_to_keycode (key : Key) : Z :=
  match key with
  | Key.Alt => EVK_MENU | Key.Backspace => 0x08 | Key.CapsLock => EVK_CAPITAL | Key.Control => EVK_LCONTROL
  | Key.Delete => 0x2E | Key.DownArrow => 0x28 | Key.End => 0x23 | Key.Escape => 0x1b | Key.F1 => 0x70
  | Key.F10 => 0x79 | Key.F11 => 0x7a | Key.F12 => 0x7b | Key.F2 => 0x71 | Key.F3 => 0x72 | Key.F4 => 0x73
  | Key.F5 => 0x74 | Key.F6 => 0x75 | Key.F7 => 0x76 | Key.F8 => 0x77 | Key.F9 => 0x78 | Key.Home => 0x24
  | Key.LeftArrow => 0x25 | Key.Option => EVK_MENU | Key.PageDown => 0x22 | Key.PageUp => 0x21
  | Key.Return => 0x0D | Key.RightArrow => 0x27 | Key.Shift => EVK_SHIFT | Key.Space => 0x20
  | Key.Tab => 0x09 | Key.UpArrow => 0x26 | Key.Numpad0 => 0x60 | Key.Numpad1 => 0x61 | Key.Numpad2 => 0x62
  | Key.Numpad3 => 0x63 | Key.Numpad4 => 0x64 | Key.Numpad5 => 0x65 | Key.Numpad6 => 0x66
  | Key.Numpad7 => 0x67 | Key.Numpad8 => 0x68 | Key.Numpad9 => 0x69 | Key.Cancel => 0x03 | Key.Clear => 0x0C
  | Key.Pause => 0x13 | Key.Kana => 0x15 | Key.Hangul => 0x15 | Key.Junja => 0x17 | Key.Final => 0x18
  | Key.Hanja => 0x19 | Key.Kanji => 0x19 | Key.Convert => 0x1C | Key.Select => 0x29 | Key.Print => 0x2A
  | Key.Execute => 0x2B | Key.Snapshot => 0x2C | Key.Insert => 0x2D | Key.Help => 0x2F | Key.Sleep => 0x5F
  | Key.Separator => 0x6C | Key.Mute => 0xAD | Key.VolumeDown => 0xAE | Key.VolumeUp => 0xAF
  | Key.Scroll => 0x91 | Key.NumLock => EVK_NUMLOCK | Key.RWin => EVK_RWIN | Key.Apps => 0x5D
  | Key.Add => 0x6B | Key.Multiply => 0x6A | Key.Decimal => 0x6E | Key.Subtract => 0x6D | Key.Divide => 0x6F
  | Key.NumpadEnter => 0x0D | Key.RightShift => EVK_RSHIFT | Key.RightControl => EVK_RCONTROL
  | Key.RightAlt => EVK_RMENU
  | Key.Equals => 0x3d
  | Key.Raw raw_keycode => raw_keycode
  | Key.Super | Key.Command | Key.Windows | Key.Meta => EVK_LWIN
  | Key.Layout _ => 0
  end.

(** [HashMap]s by the number of the control key. *)
(* src/src/server/input_service.rs:1896-1973 KEY_MAP *)
Definition KEY_MAP_table : list (ControlKey * Key) :=
  [(ControlKey.Alt, Key.Alt); (ControlKey.Backspace, Key.Backspace); (ControlKey.CapsLock, Key.CapsLock);
   (ControlKey.Control, Key.Control); (ControlKey.Delete, Key.Delete); (ControlKey.DownArrow, Key.DownArrow);
   (ControlKey.End, Key.End); (ControlKey.Escape, Key.Escape); (ControlKey.F1, Key.F1);
   (ControlKey.F10, Key.F10); (ControlKey.F11, Key.F11); (ControlKey.F12, Key.F12); (ControlKey.F2, Key.F2);
   (ControlKey.F3, Key.F3); (ControlKey.F4, Key.F4); (ControlKey.F5, Key.F5); (ControlKey.F6, Key.F6);
   (ControlKey.F7, Key.F7); (ControlKey.F8, Key.F8); (ControlKey.F9, Key.F9); (ControlKey.Home, Key.Home);
   (ControlKey.LeftArrow, Key.LeftArrow); (ControlKey.Meta, Key.Meta); (ControlKey.Option, Key.Option);
   (ControlKey.PageDown, Key.PageDown); (ControlKey.PageUp, Key.PageUp); (ControlKey.Return, Key.Return);
   (ControlKey.RightArrow, Key.RightArrow); (ControlKey.Shift, Key.Shift); (ControlKey.Space, Key.Space);
   (ControlKey.Tab, Key.Tab); (ControlKey.UpArrow, Key.UpArrow); (ControlKey.Numpad0, Key.Numpad0);
   (ControlKey.Numpad1, Key.Numpad1); (ControlKey.Numpad2, Key.Numpad2); (ControlKey.Numpad3, Key.Numpad3);
   (ControlKey.Numpad4, Key.Numpad4); (ControlKey.Numpad5, Key.Numpad5); (ControlKey.Numpad6, Key.Numpad6);
   (ControlKey.Numpad7, Key.Numpad7); (ControlKey.Numpad8, Key.Numpad8); (ControlKey.Numpad9, Key.Numpad9);
   (ControlKey.Cancel, Key.Cancel); (ControlKey.Clear, Key.Clear); (ControlKey.Menu, Key.Alt);
   (ControlKey.Pause, Key.Pause); (ControlKey.Kana, Key.Kana); (ControlKey.Hangul, Key.Hangul);
   (ControlKey.Junja, Key.Junja); (ControlKey.Final, Key.Final); (ControlKey.Hanja, Key.Hanja);
   (ControlKey.Kanji, Key.Kanji); (ControlKey.Convert, Key.Convert); (ControlKey.Select, Key.Select);
   (ControlKey.Print, Key.Print); (ControlKey.Execute, Key.Execute); (ControlKey.Snapshot, Key.Snapshot);
   (ControlKey.Insert, Key.Insert); (ControlKey.Help, Key.Help); (ControlKey.Sleep, Key.Sleep);
   (ControlKey.Separator, Key.Separator); (ControlKey.Scroll, Key.Scroll); (ControlKey.NumLock, Key.NumLock);
   (ControlKey.RWin, Key.RWin); (ControlKey.Apps, Key.Apps); (ControlKey.Multiply, Key.Multiply);
   (ControlKey.Add, Key.Add); (ControlKey.Subtract, Key.Subtract); (ControlKey.Decimal, Key.Decimal);
   (ControlKey.Divide, Key.Divide); (ControlKey.Equals, Key.Equals);
   (ControlKey.NumpadEnter, Key.NumpadEnter); (ControlKey.RAlt, Key.RightAlt);
   (ControlKey.RControl, Key.RightControl); (ControlKey.RShift, Key.RightShift)].
Definition KEY_MAP : gmap Z Key := list_to_map (prod_map ck_value id <$> KEY_MAP_table).

(* src/src/server/input_service.rs:1974-1986 NUMPAD_KEY_MAP *)
Definition NUMPAD_KEYS : list ControlKey :=
  [ControlKey.Home; ControlKey.UpArrow; ControlKey.PageUp; ControlKey.LeftArrow; ControlKey.RightArrow;
   ControlKey.End; ControlKey.DownArrow; ControlKey.PageDown; ControlKey.Insert; ControlKey.Delete].
Definition in_NUMPAD_KEY_MAP (v : Z) : bool := bool_decide (v ∈ (ck_value <$> NUMPAD_KEYS)).

(** ** Keys of rdev

    The library that reads and injects keys is not part of the repository; these are its
    keys that the repository names.  [Unknown] stands for all others. *)

Module RKey.

Inductive RKey : Type :=
| ShiftLeft | ShiftRight | ControlLeft | ControlRight | Alt | AltGr | MetaLeft | MetaRight | CapsLock
| NumLock | Kp0 | Kp1 | Kp2 | Kp3 | Kp4 | Kp5 | Kp6 | Kp7 | Kp8 | Kp9 | KpMinus | KpMultiply | KpDivide
| KpPlus | KpDecimal | KeyA | KeyB | KeyC | KeyD | KeyE | KeyF | KeyG | KeyH | KeyI | KeyJ | KeyK | KeyL
| KeyM | KeyN | KeyO | KeyP | KeyQ | KeyR | KeyS | KeyT | KeyU | KeyV | KeyW | KeyX | KeyY | KeyZ
| LeftBracket | RightBracket | SemiColon | Quote | Comma | Dot | Insert | Delete | End | DownArrow | PageDown
| LeftArrow | Clear | RightArrow | Home | UpArrow | PageUp | Backspace | Escape | F1 | F10 | F11 | F12 | F2
| F3 | F4 | F5 | F6 | F7 | F8 | F9 | Return | Space | Tab | Apps | Cancel | Kana | Hangul | Junja | Final
| Hanja | Hanji | Lang2 | Print | Select | Execute | PrintScreen | Help | Sleep | Separator | KpReturn
| ScrollLock | Pause | Num1 | Num2 | Num3 | Num4 | Num5 | Num6 | Num7 | Num8 | Num9 | Num0 | Slash
| BackSlash | Minus | Equal | BackQuote
| Unknown (code : Z).

#[global] Instance RKey_eq_dec : EqDecision RKey.
Proof. solve_decision. Defined.

(** A number for every key. *)
Definition code (k : RKey) : Z * Z :=
  match k with
  | ShiftLeft => (1, 0) | ShiftRight => (2, 0) | ControlLeft => (3, 0) | ControlRight => (4, 0)
  | Alt => (5, 0) | AltGr => (6, 0) | MetaLeft => (7, 0) | MetaRight => (8, 0) | CapsLock => (9, 0)
  | NumLock => (10, 0) | Kp0 => (11, 0) | Kp1 => (12, 0) | Kp2 => (13, 0) | Kp3 => (14, 0) | Kp4 => (15, 0)
  | Kp5 => (16, 0) | Kp6 => (17, 0) | Kp7 => (18, 0) | Kp8 => (19, 0) | Kp9 => (20, 0) | KpMinus => (21, 0)
  | KpMultiply => (22, 0) | KpDivide => (23, 0) | KpPlus => (24, 0) | KpDecimal => (25, 0) | KeyA => (26, 0)
  | KeyB => (27, 0) | KeyC => (28, 0) | KeyD => (29, 0) | KeyE => (30, 0) | KeyF => (31, 0) | KeyG => (32, 0)
  | KeyH => (33, 0) | KeyI => (34, 0) | KeyJ => (35, 0) | KeyK => (36, 0) | KeyL => (37, 0) | KeyM => (38, 0)
  | KeyN => (39, 0) | KeyO => (40, 0) | KeyP => (41, 0) | KeyQ => (42, 0) | KeyR => (43, 0) | KeyS => (44, 0)
  | KeyT => (45, 0) | KeyU => (46, 0) | KeyV => (47, 0) | KeyW => (48, 0) | KeyX => (49, 0) | KeyY => (50, 0)
  | KeyZ => (51, 0) | LeftBracket => (52, 0) | RightBracket => (53, 0) | SemiColon => (54, 0)
  | Quote => (55, 0) | Comma => (56, 0) | Dot => (57, 0) | Insert => (58, 0) | Delete => (59, 0)
  | End => (60, 0) | DownArrow => (61, 0) | PageDown => (62, 0) | LeftArrow => (63, 0) | Clear => (64, 0)
  | RightArrow => (65, 0) | Home => (66, 0) | UpArrow => (67, 0) | PageUp => (68, 0) | Backspace => (69, 0)
  | Escape => (70, 0) | F1 => (71, 0) | F10 => (72, 0) | F11 => (73, 0) | F12 => (74, 0) | F2 => (75, 0)
  | F3 => (76, 0) | F4 => (77, 0) | F5 => (78, 0) | F6 => (79, 0) | F7 => (80, 0) | F8 => (81, 0)
  | F9 => (82, 0) | Return => (83, 0) | Space => (84, 0) | Tab => (85, 0) | Apps => (86, 0)
  | Cancel => (87, 0) | Kana => (88, 0) | Hangul => (89, 0) | Junja => (90, 0) | Final => (91, 0)
  | Hanja => (92, 0) | Hanji => (93, 0) | Lang2 => (94, 0) | Print => (95, 0) | Select => (96, 0)
  | Execute => (97, 0) | PrintScreen => (98, 0) | Help => (99, 0) | Sleep => (100, 0) | Separator => (101, 0)
  | KpReturn => (102, 0) | ScrollLock => (103, 0) | Pause => (104, 0) | Num1 => (105, 0) | Num2 => (106, 0)
  | Num3 => (107, 0) | Num4 => (108, 0) | Num5 => (109, 0) | Num6 => (110, 0) | Num7 => (111, 0)
  | Num8 => (112, 0) | Num9 => (113, 0) | Num0 => (114, 0) | Slash => (115, 0) | BackSlash => (116, 0)
  | Minus => (117, 0) | Equal => (118, 0) | BackQuote => (119, 0)
  | Unknown c => (0, c)
  end.
Definition of_code (z : Z * Z) : RKey :=
  match z.1 with
  | 1 => ShiftLeft | 2 => ShiftRight | 3 => ControlLeft | 4 => ControlRight | 5 => Alt | 6 => AltGr
  | 7 => MetaLeft | 8 => MetaRight | 9 => CapsLock | 10 => NumLock | 11 => Kp0 | 12 => Kp1 | 13 => Kp2
  | 14 => Kp3 | 15 => Kp4 | 16 => Kp5 | 17 => Kp6 | 18 => Kp7 | 19 => Kp8 | 20 => Kp9 | 21 => KpMinus
  | 22 => KpMultiply | 23 => KpDivide | 24 => KpPlus | 25 => KpDecimal | 26 => KeyA | 27 => KeyB | 28 => KeyC
  | 29 => KeyD | 30 => KeyE | 31 => KeyF | 32 => KeyG | 33 => KeyH | 34 => KeyI | 35 => KeyJ | 36 => KeyK
  | 37 => KeyL | 38 => KeyM | 39 => KeyN | 40 => KeyO | 41 => KeyP | 42 => KeyQ | 43 => KeyR | 44 => KeyS
  | 45 => KeyT | 46 => KeyU | 47 => KeyV | 48 => KeyW | 49 => KeyX | 50 => KeyY | 51 => KeyZ
  | 52 => LeftBracket | 53 => RightBracket | 54 => SemiColon | 55 => Quote | 56 => Comma | 57 => Dot
  | 58 => Insert | 59 => Delete | 60 => End | 61 => DownArrow | 62 => PageDown | 63 => LeftArrow
  | 64 => Clear | 65 => RightArrow | 66 => Home | 67 => UpArrow | 68 => PageUp | 69 => Backspace
  | 70 => Escape | 71 => F1 | 72 => F10 | 73 => F11 | 74 => F12 | 75 => F2 | 76 => F3 | 77 => F4 | 78 => F5
  | 79 => F6 | 80 => F7 | 81 => F8 | 82 => F9 | 83 => Return | 84 => Space | 85 => Tab | 86 => Apps
  | 87 => Cancel | 88 => Kana | 89 => Hangul | 90 => Junja | 91 => Final | 92 => Hanja | 93 => Hanji
  | 94 => Lang2 | 95 => Print | 96 => Select | 97 => Execute | 98 => PrintScreen | 99 => Help | 100 => Sleep
  | 101 => Separator | 102 => KpReturn | 103 => ScrollLock | 104 => Pause | 105 => Num1 | 106 => Num2
  | 107 => Num3 | 108 => Num4 | 109 => Num5 | 110 => Num6 | 111 => Num7 | 112 => Num8 | 113 => Num9
  | 114 => Num0 | 115 => Slash | 116 => BackSlash | 117 => Minus | 118 => Equal | 119 => BackQuote
  | _ => Unknown z.2
  end.

End RKey.
Abbreviation RKey := RKey.RKey.

#[export] Program Instance RKey_countable : Countable RKey := inj_countable' RKey.code RKey.of_code _.
Next Obligation. by destruct x. Qed.

(** [RawKey] in a build for Windows. *)
Inductive RawKey : Type := ScanCode (code : Z) | WinVirtualKeycode (code : Z).

#[export] Instance RawKey_eq_dec : EqDecision RawKey.
Proof. solve_decision. Defined.
