(* ===== verification/Enigo.v ===== *)
(** * Injecting keys and the mouse

    [Enigo] of [libs/enigo/src/win/win_impl.rs]: how keys, characters and the mouse become
    inputs for [SendInput].  What Windows answers is an interface ([Windows]); every input
    that is handed over is kept in a trace. *)

From S2P Require Import Prelude Keys.
#[local] Open Scope Z_scope.

(** ** Computations with a state *)

Definition M (S A : Type) : Type := S -> A * S.
#[export] Instance M_ret S : MRet (M S) := fun A a s => (a, s).
#[export] Instance M_bind S : MBind (M S) := fun A B f m s => let '(a, s) := m s in f a s.

Definition gets {S A} (f : S -> A) : M S A := fun s => (f s, s).
Definition modify {S} (f : S -> S) : M S unit := fun s => (tt, f s).
Definition when {S} (b : bool) (m : M S unit) : M S unit := if b then m else mret tt.

Fixpoint each {S A} (f : A -> M S unit) (l : list A) : M S unit :=
  match l with [] => mret tt | x :: l => f x ;; each f l end.

(** ** Windows *)

(** An [INPUT] for [SendInput]. *)
Inductive input : Type :=
| SMouse (flags data dx dy : Z)
| SKey (flags vk scan : Z).

#[export] Instance input_eq_dec : EqDecision input.
Proof. solve_decision. Defined.

(** What is asked of rdev. *)
Inductive rdev_call : Type :=
| Simulate (press : bool) (key : RawKey)
| SimulateKey (press : bool) (key : RKey)
| SimulateChar (c : Z) (try_unicode : bool)
| SimulateUnicode (c : Z)
| SimulateKeyUnicode (c : Z) (try_unicode : bool)
| SimulateCode (vk scan : option Z) (press : bool).

#[export] Instance rdev_call_eq_dec : EqDecision rdev_call.
Proof. solve_decision. Defined.

(** The calls of Windows and of rdev: the state [S] is all that they depend on. *)
Class Windows (S : Type) := {
  SendInput : input -> S -> Z * S;              (** the number of inputs that are inserted *)
  GetKeyState : Z -> S -> Z;                    (** of a virtual key, 16 bits *)
  foreground_layout : S -> Z;                   (** the layout of the window in front; not 0 *)
  MapVirtualKeyEx : Z -> Z -> S -> Z;           (** virtual key, layout: the scan code *)
  VkKeyScanEx : Z -> Z -> S -> Z;               (** character, layout: 16 bits *)
  error_text : S -> list Z;                     (** what [FormatMessageW] writes *)
  virtual_screen : S -> Z * Z * (Z * Z);        (** origin and size *)
  try_change_desktop : S -> S;
  rdev : rdev_call -> S -> bool * S;            (** whether rdev could do it *)
  vk_to_scancode : Z -> Z;
  win_key_from_scancode : Z -> RKey;
  key_code : Z -> Z;                            (** the conversion to the type of key codes *)
}.

(** What is done, in order. *)
Inductive event : Type :=
| Sent (i : input) (n : Z)
| Rdev (c : rdev_call) (ok : bool)
| Desktop                                       (** the desktop of the input is looked for *)
| SendSas                                       (** a thread that sends Ctrl+Alt+Del *)
| LockScreen                                    (** a thread that locks the screen *)
| Whiteboard (conn x y argb btns : Z) (text : string).

#[export] Instance event_eq_dec : EqDecision event.
Proof. solve_decision. Defined.

Record Device (S : Type) : Type := mkDevice { os : S; LAYOUT : Z; trace : list event }.
Arguments mkDevice {S} _ _ _.
Arguments os {S} _.
Arguments LAYOUT {S} _.
Arguments trace {S} _.

(** The constants of [winuser.h]. *)
Definition KEYEVENTF_EXTENDEDKEY : Z := 1.
Definition KEYEVENTF_KEYUP : Z := 2.
Definition KEYEVENTF_UNICODE : Z := 4.
Definition MOUSEEVENTF_MOVE : Z := 0x0001.
Definition MOUSEEVENTF_LEFTDOWN : Z := 0x0002.
Definition MOUSEEVENTF_LEFTUP : Z := 0x0004.
Definition MOUSEEVENTF_RIGHTDOWN : Z := 0x0008.
Definition MOUSEEVENTF_RIGHTUP : Z := 0x0010.
Definition MOUSEEVENTF_MIDDLEDOWN : Z := 0x0020.
Definition MOUSEEVENTF_MIDDLEUP : Z := 0x0040.
Definition MOUSEEVENTF_XDOWN : Z := 0x0080.
Definition MOUSEEVENTF_XUP : Z := 0x0100.
Definition MOUSEEVENTF_WHEEL : Z := 0x0800.
Definition MOUSEEVENTF_HWHEEL : Z := 0x1000.
Definition MOUSEEVENTF_VIRTUALDESK : Z := 0x4000.
Definition MOUSEEVENTF_ABSOLUTE : Z := 0x8000.
Definition XBUTTON1 : Z := 1.
Definition XBUTTON2 : Z := 2.

(* src/libs/enigo/src/lib.rs:102-122 MouseButton *)
Inductive MouseButton : Type := Left | Middle | Right | Back | Forward | ScrollUp | ScrollDown | ScrollLeft | ScrollRight.

(** An error of the library. *)
Inductive key_error : Type := OsError (text : list Z) | NoCode | NoKeycode (c : Z).

Section Enigo.
Context {S : Type} `{Windows S}.
Abbreviation D := (Device S).

Definition log (e : event) : M D unit := modify (fun d => mkDevice (os d) (LAYOUT d) (trace d ++ [e])).

(** One call of [SendInput]. *)
Definition send_input (i : input) : M D Z := fun d =>
  let '(n, s) := SendInput i (os d) in (n, mkDevice s (LAYOUT d) (trace d ++ [Sent i n])).

Definition call_rdev (c : rdev_call) : M D bool := fun d =>
  let '(ok, s) := rdev c (os d) in (ok, mkDevice s (LAYOUT d) (trace d ++ [Rdev c ok])).

Definition change_desktop : M D unit := fun d =>
  (tt, mkDevice (try_change_desktop (os d)) (LAYOUT d) (trace d ++ [Desktop])).

(* src/libs/enigo/src/win/win_impl.rs:23-40 mouse_event *)
Definition mouse_event (flags data dx dy : Z) : M D Z := send_input (SMouse flags data dx dy).

(** The scan code of a key in the layout that is known, or that of the window in front. *)
Definition layout_scan (vk : Z) : M D Z := fun d =>
  let l := if LAYOUT d =? 0 then foreground_layout (os d) else LAYOUT d in
  (u16 (MapVirtualKeyEx vk l (os d)), mkDevice (os d) l (trace d)).

(* src/libs/enigo/src/win/win_impl.rs:42-82 keybd_event *)
Definition keybd_event (flags vk scan : Z) : M D Z :=
  scan ← (if scan =? 0 then layout_scan vk else mret scan);
  let high := Z.shiftr scan 8 in
  let flags := if (Z.land flags KEYEVENTF_UNICODE =? 0) && ((high =? 0xE0) || (high =? 0xE1))
               then Z.lor flags KEYEVENTF_EXTENDEDKEY else flags in
  send_input (SKey flags vk scan).

(** The loop walks back from the end of the text to the last character that is not a
    control character; the text before it is what is kept. *)
Fixpoint text_end (buff : list Z) (curr_char : nat) : nat :=
  match curr_char with
  | O => O
  | Datatypes.S c => if 32 <=? nth curr_char buff 0 then curr_char else text_end buff c
  end.

(** [String::from_utf16] of text without surrogates. *)
(* src/libs/enigo/src/win/win_impl.rs:84-116 get_error *)
Definition get_error (d : D) : list Z :=
  let text := error_text (os d) in
  if (length text =? 0)%nat then [] else take (text_end text (length text)) text.

Definition button_down (button : MouseButton) : option (Z * Z) :=
  match button with
  | Left => Some (MOUSEEVENTF_LEFTDOWN, 0)
  | Middle => Some (MOUSEEVENTF_MIDDLEDOWN, 0)
  | Right => Some (MOUSEEVENTF_RIGHTDOWN, 0)
  | Back => Some (MOUSEEVENTF_XDOWN, XBUTTON1)
  | Forward => Some (MOUSEEVENTF_XDOWN, XBUTTON2)
  | _ => None
  end.

Definition button_up (button : MouseButton) : option (Z * Z) :=
  match button with
  | Left => Some (MOUSEEVENTF_LEFTUP, 0)
  | Middle => Some (MOUSEEVENTF_MIDDLEUP, 0)
  | Right => Some (MOUSEEVENTF_RIGHTUP, 0)
  | Back => Some (MOUSEEVENTF_XUP, XBUTTON1)
  | Forward => Some (MOUSEEVENTF_XUP, XBUTTON2)
  | _ => None
  end.

(** The answer of a call that inserted [n] inputs. *)
Definition outcome (n : Z) : M D (result key_error unit) :=
  err ← gets get_error;
  mret (if (n =? 0) && negb (length err =? 0)%nat then Err (OsError err) else Ok tt).

(* src/libs/enigo/src/win/win_impl.rs:143-171 Enigo::mouse_down *)
Definition mouse_down (button : MouseButton) : M D (result key_error unit) :=
  match button_down button with
  | None => mret (Ok tt)
  | Some (flags, data) => n ← mouse_event flags data 0 0; outcome n
  end.

(* src/libs/enigo/src/win/win_impl.rs:173-194 Enigo::mouse_up *)
Definition mouse_up (button : MouseButton) : M D unit :=
  match button_up button with
  | None => mret tt
  | Some (flags, data) => mouse_event flags data 0 0 ;; mret tt
  end.

(** A coordinate in the 65535ths of the screen; [None]: a division that panics. *)
Definition absolute (x origin size : Z) : option Z :=
  let n := i32 (i32 (x - origin) * 65535) in
  if (size =? 0) || ((n =? - 2 ^ 31) && (size =? -1)) then None else Some (Z.quot n size).

(* src/libs/enigo/src/win/win_impl.rs:128-137 Enigo::mouse_move_to *)
Definition mouse_move_to (x y : Z) : M D (option unit) :=
  '(x0, y0, (cx, cy)) ← gets (fun d => virtual_screen (os d));
  match absolute x x0 cx, absolute y y0 cy with
  | Some dx, Some dy =>
      mouse_event (Z.lor MOUSEEVENTF_MOVE (Z.lor MOUSEEVENTF_ABSOLUTE MOUSEEVENTF_VIRTUALDESK)) 0 dx dy ;;
      mret (Some tt)
  | _, _ => mret None
  end.

(* src/libs/enigo/src/win/win_impl.rs:139-141 Enigo::mouse_move_relative *)
Definition mouse_move_relative (x y : Z) : M D unit := mouse_event MOUSEEVENTF_MOVE 0 x y ;; mret tt.

(* src/libs/enigo/src/win/win_impl.rs:201-203 Enigo::mouse_scroll_x *)
Definition mouse_scroll_x (len : Z) : M D unit := mouse_event MOUSEEVENTF_HWHEEL (u32 len) 0 0 ;; mret tt.

(* src/libs/enigo/src/win/win_impl.rs:205-207 Enigo::mouse_scroll_y *)
Definition mouse_scroll_y (len : Z) : M D unit := mouse_event MOUSEEVENTF_WHEEL (u32 len) 0 0 ;; mret tt.

(* src/libs/enigo/src/win/win_impl.rs:353-355 Enigo::unicode_key_down *)
Definition unicode_key_down (c : Z) : M D unit := keybd_event KEYEVENTF_UNICODE 0 c ;; mret tt.

(* src/libs/enigo/src/win/win_impl.rs:357-359 Enigo::unicode_key_up *)
Definition unicode_key_up (c : Z) : M D unit :=
  keybd_event (Z.lor KEYEVENTF_UNICODE KEYEVENTF_KEYUP) 0 c ;; mret tt.

(* src/libs/enigo/src/win/win_impl.rs:348-351 Enigo::unicode_key_click *)
Definition unicode_key_click (c : Z) : M D unit := unicode_key_down c ;; unicode_key_up c.

(** [char::encode_utf16]. *)
Definition encode_utf16 (c : Z) : list Z :=
  if c <? 0x10000 then [c]
  else [0xD800 + Z.shiftr (c - 0x10000) 10; 0xDC00 + Z.land (c - 0x10000) 0x3FF].

(* src/libs/enigo/src/win/win_impl.rs:219-241 Enigo::key_sequence *)
Definition key_sequence (s : list Z) : M D unit :=
  each (fun c => match encode_utf16 c with
                 | [u] => unicode_key_click u
                 | us => each unicode_key_down us
                 end) s.

(* src/libs/enigo/src/win/win_impl.rs:300-302 Enigo::key_up *)
Definition key_up (key : Key) : M D unit :=
  keybd_event KEYEVENTF_KEYUP (key_to_keycode key) 0 ;; mret tt.

(* src/libs/enigo/src/win/win_impl.rs:243-247 Enigo::key_click *)
Definition key_click (key : Key) : M D unit :=
  let vk := key_to_keycode key in
  keybd_event 0 vk 0 ;; keybd_event KEYEVENTF_KEYUP vk 0 ;; mret tt.

(* src/libs/enigo/src/win/win_impl.rs:455-466 Enigo::get_layoutdependent_keycode *)
Definition get_layoutdependent_keycode (chr : Z) : M D Z := fun d =>
  let l := foreground_layout (os d) in
  (u16 (VkKeyScanEx (u16 chr) l (os d)), mkDevice (os d) l (trace d)).

(* src/libs/enigo/src/win/win_impl.rs:283-297 Enigo::key_down *)
Definition key_down_code (key : Key) : M D (result key_error unit) :=
  let code := key_to_keycode key in
  if (code =? 0) || (code =? 65535) then mret (Err NoCode)
  else n ← keybd_event 0 code 0; outcome n.

(** The modifiers that a character needs, by their bit. *)
Definition shift_state (flag : Z) : list Key :=
  omap (fun '(pos, k) => if Z.land flag (Z.shiftl 1 pos) =? 0 then None else Some k)
    [(0, Key.Shift); (1, Key.Control); (2, Key.Alt)].

(** They are pressed in order, up to the first that cannot be. *)
Fixpoint press_all (ks : list Key) : M D (result key_error unit) :=
  match ks with
  | [] => mret (Ok tt)
  | k :: ks => r ← key_down_code k; match r with Ok _ => press_all ks | Err e => mret (Err e) end
  end.

(* src/libs/enigo/src/win/win_impl.rs:249-298 Enigo::key_down *)
Definition key_down (key : Key) : M D (result key_error unit) :=
  match key with
  | Key.Layout c =>
      code ← get_layoutdependent_keycode c;
      if code =? 0xFFFF then mret (Err (NoKeycode c))
      else
        let vk := Z.land code 0x00FF in
        let modifiers := shift_state (Z.shiftr code 8) in
        r ← press_all modifiers;
        match r with
        | Err e => mret (Err e)
        | Ok _ =>
            n ← keybd_event 0 vk 0;
            err ← gets (fun d => if n =? 0 then get_error d else []);
            each key_up (rev modifiers) ;;
            mret (if (length err =? 0)%nat then Ok tt else Err (OsError err))
        end
  | _ => key_down_code key
  end.

(* src/libs/enigo/src/win/win_impl.rs:304-311 Enigo::get_key_state *)
Definition get_key_state (key : Key) (d : D) : bool :=
  let x := GetKeyState (key_to_keycode key) (os d) in
  if decide (key = Key.CapsLock \/ key = Key.NumLock \/ key = Key.Scroll)
  then Z.land x 0x1 =? 0x1
  else Z.land (u16 x) 0x8000 =? 0x8000.

End Enigo.

(** ** Reasoning about computations *)

Section Rules.
Context {S : Type}.

Lemma bind_eq {A B} (m : M S A) (f : A -> M S B) s : (m ≫= f) s = f (fst (m s)) (snd (m s)).
Proof. unfold mbind, M_bind. by destruct (m s). Qed.

Lemma each_app {A} (f : A -> M S unit) l k s : each f (l ++ k) s = each f k (snd (each f l s)).
Proof. revert s. induction l as [|x l IH]; intros s; [done|]. cbn [app each]. by rewrite !bind_eq. Qed.

(** [m] leads from a state with [P] to one with [Q]. *)
Definition triple {A} (P : S -> Prop) (m : M S A) (Q : A -> S -> Prop) : Prop :=
  forall s, P s -> Q (fst (m s)) (snd (m s)).

(** [m] keeps [P]. *)
Definition keeps {A} (P : S -> Prop) (m : M S A) : Prop := triple P m (fun _ => P).

Lemma triple_bind {A B} P (m : M S A) (f : A -> M S B) Q R :
  triple P m Q -> (forall a, triple (Q a) (f a) R) -> triple P (m ≫= f) R.
Proof. intros Hm Hf s Hs. rewrite bind_eq. apply (Hf _), Hm, Hs. Qed.

Lemma keeps_ret {A} P (a : A) : keeps P (mret a).
Proof. by intros s Hs. Qed.
Lemma keeps_gets {A} P (f : S -> A) : keeps P (gets f).
Proof. by intros s Hs. Qed.
Lemma keeps_bind {A B} P (m : M S A) (f : A -> M S B) : keeps P m -> (forall a, keeps P (f a)) -> keeps P (m ≫= f).
Proof. intros Hm Hf. apply triple_bind with (Q := fun _ => P); auto. Qed.
Lemma keeps_if_when P b (m : M S unit) : (b = true -> keeps P m) -> keeps P (when b m).
Proof. destruct b; cbn; auto using keeps_ret. Qed.
Lemma keeps_each {A} P (f : A -> M S unit) l : (forall x, x ∈ l -> keeps P (f x)) -> keeps P (each f l).
Proof.
  induction l as [|x l IH]; intros Hf; cbn [each]; [apply keeps_ret|].
  apply keeps_bind; [apply Hf; set_solver|intros _; apply IH; set_solver].
Qed.
End Rules.

#[export] Hint Resolve keeps_ret keeps_gets keeps_bind keeps_if_when : desk.

(** ** Inputs and the trace *)

(** The virtual key of an input for the keyboard, and whether it goes down. *)
Definition key_of (e : event) : option (Z * bool) :=
  match e with Sent (SKey flags vk _) _ => Some (vk, negb (Z.testbit flags 1)) | _ => None end.

Section Traces.
Context {S : Type} `{Windows S}.
Abbreviation D := (Device S).

(** [m] adds to the trace, and [Q] holds of its answer and of what it adds. *)
Definition emits {A} (m : M D A) (Q : A -> list event -> Prop) : Prop :=
  forall d, exists l, trace (snd (m d)) = trace d ++ l /\ Q (fst (m d)) l.

Lemma emits_ret {A} (a : A) Q : Q a [] -> emits (mret a) Q.
Proof. intros HQ d. exists []. by rewrite app_nil_r. Qed.

Lemma emits_gets {A} (f : D -> A) Q : (forall a, Q a []) -> emits (gets f) Q.
Proof. intros HQ d. exists []. rewrite app_nil_r. by split; [|apply HQ]. Qed.

Lemma emits_bind {A B} (m : M D A) (f : A -> M D B) Q R :
  emits m Q -> (forall a l, Q a l -> emits (f a) (fun b k => R b (l ++ k))) -> emits (m ≫= f) R.
Proof.
  intros Hm Hf d. rewrite bind_eq. destruct (Hm d) as (l & E & HQ).
  destruct (Hf _ _ HQ (snd (m d))) as (k & E' & HR). exists (l ++ k). by rewrite E', E, app_assoc.
Qed.

Lemma emits_weaken {A} (m : M D A) (Q R : A -> list event -> Prop) :
  emits m Q -> (forall a l, Q a l -> R a l) -> emits m R.
Proof. intros Hm HQR d. destruct (Hm d) as (l & E & HQ). eauto. Qed.

Lemma emits_log e Q : Q tt [e] -> emits (log e) Q.
Proof. intros HQ d. by exists [e]. Qed.

Lemma emits_send i Q : (forall n, Q n [Sent i n]) -> emits (send_input i) Q.
Proof. intros HQ d. unfold send_input. destruct (SendInput i (os d)) as [n s]. by exists [Sent i n]. Qed.

Lemma emits_rdev c Q : (forall ok, Q ok [Rdev c ok]) -> emits (call_rdev c) Q.
Proof. intros HQ d. unfold call_rdev. destruct (rdev c (os d)) as [ok s]. by exists [Rdev c ok]. Qed.

Lemma emits_desktop Q : Q tt [Desktop] -> emits change_desktop Q.
Proof. intros HQ d. by exists [Desktop]. Qed.

Lemma emits_scan vk Q : (forall n, Q n []) -> emits (layout_scan vk) Q.
Proof. intros HQ d. exists []. by rewrite app_nil_r. Qed.

(** A keyboard input is for the key it is meant for, in the direction it is meant to. *)
Lemma emits_keybd flags vk scan Q :
  (forall n f sc, Z.testbit f 1 = Z.testbit flags 1 -> Q n [Sent (SKey f vk sc) n]) -> emits (keybd_event flags vk scan) Q.
Proof.
  intros HQ. unfold keybd_event. apply emits_bind with (Q := fun _ l => l = []).
  { destruct (scan =? 0); [by apply emits_scan|by apply emits_ret]. }
  intros sc l ->. cbn [app]. apply emits_send. intros n. apply HQ.
  destruct (_ && _); [|done]. rewrite Z.lor_spec. by destruct (Z.testbit flags 1).
Qed.

Lemma emits_outcome n Q : (forall r, Q r []) -> emits (outcome n) Q.
Proof. intros HQ. unfold outcome. apply emits_bind with (Q := fun _ l => l = []); [by apply emits_gets|]. intros a l ->. by apply emits_ret. Qed.

Lemma emits_key_up key Q :
  (forall n f sc, Z.testbit f 1 = true -> Q tt [Sent (SKey f (key_to_keycode key) sc) n]) -> emits (key_up key) Q.
Proof.
  intros HQ. unfold key_up.
  apply emits_bind with (Q := fun n l => exists f sc, Z.testbit f 1 = true /\ l = [Sent (SKey f (key_to_keycode key) sc) n]).
  { apply emits_keybd. intros n f sc E. eauto. }
  intros n l (f & sc & E & ->). by apply emits_ret, HQ.
Qed.

(** Adding to what is there already. *)
Lemma emits_has {A} (m : M D A) Q l0 l d : emits m Q -> trace d = l0 ++ l ->
  exists k, trace (snd (m d)) = l0 ++ l ++ k /\ Q (fst (m d)) k.
Proof. intros Hm E. destruct (Hm d) as (k & E' & HQ). exists k. by rewrite E', E, app_assoc. Qed.
End Traces.

(** A keyboard on which the theorems can be tried out: the keys that are down and the
    lights that are on.  It takes every input, and knows the letters only. *)
Record keyboard : Type := mkKeyboard { kb_down : gset Z; kb_on : gset Z }.

Definition kb_input (i : input) (k : keyboard) : keyboard :=
  match i with
  | SMouse _ _ _ _ => k
  | SKey flags vk _ =>
      if Z.testbit flags 1 then mkKeyboard (kb_down k ∖ {[vk]}) (kb_on k)
      else if decide (vk ∈ kb_down k) then k
      else mkKeyboard ({[vk]} ∪ kb_down k) (if decide (vk ∈ kb_on k) then kb_on k ∖ {[vk]} else {[vk]} ∪ kb_on k)
  end.

#[export] Instance keyboard_windows : Windows keyboard := {|
  SendInput i k := (1, kb_input i k);
  GetKeyState vk k := (if decide (vk ∈ kb_down k) then 0x8000 else 0) + (if decide (vk ∈ kb_on k) then 1 else 0);
  foreground_layout _ := 0x409;
  MapVirtualKeyEx vk _ _ := vk;
  VkKeyScanEx c _ _ := if (97 <=? c) && (c <=? 122) then c - 32 else -1;
  error_text _ := [];
  virtual_screen _ := (0, 0, (1920, 1080));
  try_change_desktop k := k;
  rdev _ k := (true, k);
  vk_to_scancode vk := vk;
  win_key_from_scancode c := RKey.Unknown c;
  key_code c := c;
|}.

Definition a_device (k : keyboard) : Device keyboard := mkDevice k 0 [].
