(* ===== verification/Input.v ===== *)
(** * Keyboard and mouse of the controlled machine

    [src/server/input_service.rs] in a build for Windows: what an event of the other side
    does to the keyboard and the mouse of this machine, which keys are remembered as held
    down, and how they are let go of after a time or at the end. *)

From S2P Require Import Prelude LoginConfig Keys Enigo.
#[local] Open Scope Z_scope.

(* src/src/server/input_service.rs:438-442 KeysDown *)
Inductive KeysDown : Type := RdevKey (k : RawKey) | EnigoKey (key : Z).

#[export] Instance KeysDown_eq_dec : EqDecision KeysDown.
Proof. solve_decision. Defined.

Definition keys_down_code (k : KeysDown) : Z * Z :=
  match k with
  | RdevKey (ScanCode c) => (0, c) | RdevKey (WinVirtualKeycode c) => (1, c) | EnigoKey c => (2, c)
  end.

#[export] Program Instance KeysDown_countable : Countable KeysDown :=
  inj_countable' keys_down_code (fun '(t, c) => if t =? 0 then RdevKey (ScanCode c)
    else if t =? 1 then RdevKey (WinVirtualKeycode c) else EnigoKey c) _.
Next Obligation. by intros [[]|]. Qed.

(* src/src/server/input_service.rs:104-110 Input *)
Record Input : Type := mkInput { in_conn : Z; in_time : Z; in_x : Z; in_y : Z }.

(** The statics of the file; [clock] is what [Instant::now] reads, in milliseconds, and
    [wall] what [get_time] does. *)
(* src/src/server/input_service.rs:444-452 KEYS_DOWN *)
Record Server (S : Type) : Type := mkServer {
  dev : Device S;
  keys_down : gmap KeysDown Z;
  exiting : bool;
  latest_peer_input : Input;
  clock : Z;
  wall : Z;
}.
Arguments mkServer {S} _ _ _ _ _ _.
Arguments dev {S} _.
Arguments keys_down {S} _.
Arguments exiting {S} _.
Arguments latest_peer_input {S} _.
Arguments clock {S} _.
Arguments wall {S} _.

Definition KEY_CHAR_START : Z := 9999.
Definition WHEEL_DELTA : Z := 120.

(* src/src/common.rs:69-79 MOUSE_TYPE *)
Definition MOUSE_TYPE_MOVE : Z := 0.
Definition MOUSE_TYPE_DOWN : Z := 1.
Definition MOUSE_TYPE_UP : Z := 2.
Definition MOUSE_TYPE_WHEEL : Z := 3.
Definition MOUSE_TYPE_TRACKPAD : Z := 4.

(** The button of the upper bits of a mask. *)
Definition button_of (buttons : Z) : option MouseButton :=
  match buttons with
  | 0x01 => Some Left | 0x02 => Some Right | 0x04 => Some Middle | 0x08 => Some Back | 0x10 => Some Forward
  | _ => None
  end.

(* src/src/server/input_service.rs:646-650 is_left_up *)
Definition is_left_up (evt : MouseEvent) : bool :=
  (Z.shiftr (me_mask evt) 3 =? 1) && (Z.land (me_mask evt) 0x7 =? 2).

(* src/src/server/input_service.rs:1202-1210 is_enter *)
Definition is_enter (evt : KeyEvent) : bool :=
  match ke_union evt with
  | Some (UControlKey ck) => (ck =? ck_value ControlKey.Return) || (ck =? ck_value ControlKey.NumpadEnter)
  | _ => false
  end.

(* src/src/server/input_service.rs:1380-1382 control_key_value_to_key *)
Definition control_key_value_to_key (value : Z) : option Key := KEY_MAP !! value.

(** [char::from_u32]. *)
Definition char_from_u32 (v : Z) : option Z :=
  if (v <? 0xD800) || ((0xDFFF <? v) && (v <? 0x110000)) then Some v else None.

(* src/src/server/input_service.rs:1385-1387 char_value_to_key *)
Definition char_value_to_key (value : Z) : Key := Key.Layout (default 0 (char_from_u32 value)).

(* src/src/server/input_service.rs:773-775 record_key_is_control_key *)
Definition record_key_is_control_key (record_key : Z) : bool := record_key <? KEY_CHAR_START.

(* src/src/server/input_service.rs:778-780 record_key_is_chr *)
Definition record_key_is_chr (record_key : Z) : bool := record_key <? KEY_CHAR_START.

(* src/src/server/input_service.rs:783-792 record_key_to_key *)
Definition record_key_to_key (record_key : Z) : option Key :=
  if record_key_is_control_key record_key then control_key_value_to_key (i32 record_key)
  else if record_key_is_chr record_key then Some (char_value_to_key (u32 (record_key - KEY_CHAR_START)))
  else None.

(* src/src/server/input_service.rs:1689-1702 skip_led_sync_control_key *)
Definition skip_led_sync_control_key (key : ControlKey) : bool :=
  match key with
  | ControlKey.Control | ControlKey.RControl | ControlKey.Meta | ControlKey.Shift | ControlKey.RShift
  | ControlKey.Alt | ControlKey.RAlt | ControlKey.Tab | ControlKey.Return => true
  | _ => false
  end.

(* src/src/server/input_service.rs:1706-1721 is_numpad_control_key *)
Definition is_numpad_control_key (key : ControlKey) : bool :=
  match key with
  | ControlKey.Numpad0 | ControlKey.Numpad1 | ControlKey.Numpad2 | ControlKey.Numpad3 | ControlKey.Numpad4
  | ControlKey.Numpad5 | ControlKey.Numpad6 | ControlKey.Numpad7 | ControlKey.Numpad8 | ControlKey.Numpad9
  | ControlKey.NumpadEnter => true
  | _ => false
  end.

(* src/src/server/input_service.rs:1729-1743 skip_led_sync_rdev_key *)
Definition skip_led_sync_rdev_key (key : RKey) : bool :=
  match key with
  | RKey.ControlLeft | RKey.ControlRight | RKey.MetaLeft | RKey.MetaRight | RKey.ShiftLeft | RKey.ShiftRight
  | RKey.Alt | RKey.AltGr | RKey.Tab | RKey.Return => true
  | _ => false
  end.

(* src/src/keyboard.rs:434-453 is_numpad_rdev_key *)
Definition is_numpad_rdev_key (key : RKey) : bool :=
  match key with
  | RKey.Kp0 | RKey.Kp1 | RKey.Kp2 | RKey.Kp3 | RKey.Kp4 | RKey.Kp5 | RKey.Kp6 | RKey.Kp7 | RKey.Kp8 | RKey.Kp9
  | RKey.KpMinus | RKey.KpMultiply | RKey.KpDivide | RKey.KpPlus | RKey.KpDecimal => true
  | _ => false
  end.

(* src/src/server/input_service.rs:1747-1749 is_legacy_mode *)
Definition is_legacy_mode (evt : KeyEvent) : bool :=
  bool_decide (default Legacy (mode_value (ke_mode evt)) = Legacy).

(* src/src/server/input_service.rs:284-294 should_disable_numlock *)
Definition should_disable_numlock (evt : KeyEvent) : bool :=
  match ke_union evt with
  | Some (UControlKey ck) => is_legacy_mode evt && in_NUMPAD_KEY_MAP ck
  | _ => false
  end.

(* src/src/server/input_service.rs:164-166 LockModesHandler::is_modifier_enabled *)
Definition is_modifier_enabled (evt : KeyEvent) (modifier : ControlKey) : bool :=
  bool_decide (ck_value modifier ∈ ke_modifiers evt).

(* src/src/server/input_service.rs:1422-1428 get_control_key_value *)
Definition get_control_key_value (evt : KeyEvent) : Z :=
  match ke_union evt with Some (UControlKey ck) => ck | _ => -1 end.

(** The scale of a touch event; the other events of pointers do nothing. *)
Inductive PointerEvent : Type := ScaleUpdate (scale : Z) | OtherPointer.

Section Input.
Context {S : Type} `{Windows S}.
Context (to_uppercase : Z -> list Z).          (** [char::to_uppercase] *)
Abbreviation D := (Device S).
Abbreviation SV := (Server S).

(** [ENIGO.lock().unwrap()]: a computation of the device. *)
Definition en {A} (m : M D A) : M SV A := fun s =>
  let '(a, d) := m (dev s) in
  (a, mkServer d (keys_down s) (exiting s) (latest_peer_input s) (clock s) (wall s)).

Definition set_keys (f : gmap KeysDown Z -> gmap KeysDown Z) (s : SV) : SV :=
  mkServer (dev s) (f (keys_down s)) (exiting s) (latest_peer_input s) (clock s) (wall s).
Definition set_exiting (s : SV) : SV :=
  mkServer (dev s) (keys_down s) true (latest_peer_input s) (clock s) (wall s).
Definition set_latest (i : Input) (s : SV) : SV :=
  mkServer (dev s) (keys_down s) (exiting s) i (clock s) (wall s).

(* src/src/server/input_service.rs:688-704 get_modifier_state *)
Definition get_modifier_state (key : Key) (d : D) : bool :=
  let x := get_key_state key d in
  match key with
  | Key.Shift => x || get_key_state Key.RightShift d
  | Key.Control => x || get_key_state Key.RightControl d
  | Key.Alt => x || get_key_state Key.RightAlt d
  | Key.Meta => x || get_key_state Key.RWin d
  | Key.RightShift => x || get_key_state Key.Shift d
  | Key.RightControl => x || get_key_state Key.Control d
  | Key.RightAlt => x || get_key_state Key.Alt d
  | Key.RWin => x || get_key_state Key.Meta d
  | _ => x
  end.

(** ** Modifiers *)

(* src/src/server/input_service.rs:850-865 fix_modifier *)
Definition fix_modifier (modifiers : list Z) (key0 : ControlKey) (key1 : Key) : M D unit :=
  held ← gets (get_modifier_state key1);
  alt ← gets (get_modifier_state Key.Alt);
  when (held && negb (bool_decide (ck_value key0 ∈ modifiers)) &&
        negb (bool_decide (key0 = ControlKey.Control) && alt))
    (key_up key1).

(** For each key: the number of its own event, its modifier, and the key. *)
Definition modifier_keys : list (ControlKey * ControlKey * Key) :=
  [(ControlKey.Shift, ControlKey.Shift, Key.Shift); (ControlKey.RShift, ControlKey.Shift, Key.RightShift);
   (ControlKey.Alt, ControlKey.Alt, Key.Alt); (ControlKey.RAlt, ControlKey.Alt, Key.RightAlt);
   (ControlKey.Control, ControlKey.Control, Key.Control);
   (ControlKey.RControl, ControlKey.Control, Key.RightControl);
   (ControlKey.Meta, ControlKey.Meta, Key.Meta); (ControlKey.RWin, ControlKey.Meta, Key.RWin)].

(* src/src/server/input_service.rs:867-892 fix_modifiers *)
Definition fix_modifiers (modifiers : list Z) (ck : Z) : M D unit :=
  each (fun '(own, key0, key1) => when (negb (ck =? ck_value own)) (fix_modifier modifiers key0 key1)) modifier_keys.

(** The modifiers that are not down are pressed; the answer is the list of those. *)
Fixpoint press_missing (skip : Key -> bool) (modifiers : list Z) : M D (list Key) :=
  match modifiers with
  | [] => mret []
  | ck :: rest =>
      match KEY_MAP !! ck with
      | None => press_missing skip rest
      | Some key =>
          pressed ← gets (get_modifier_state key);
          if skip key || pressed then press_missing skip rest
          else key_down key ;; to_release ← press_missing skip rest; mret (key :: to_release)
      end
  end.

(* src/src/server/input_service.rs:1446-1461 press_modifiers *)
Definition press_modifiers (evt : KeyEvent) : M D (list Key) := press_missing (fun _ => false) (ke_modifiers evt).

(* src/src/server/input_service.rs:1463-1472 sync_modifiers *)
Definition sync_modifiers (evt : KeyEvent) : M D (list Key) :=
  if ke_down evt then
    fix_modifiers (ke_modifiers evt) (get_control_key_value evt) ;; press_modifiers evt
  else mret [].

(* src/src/server/input_service.rs:1519-1523 release_keys *)
Definition release_keys (to_release : list Key) : M D unit := each key_up to_release.

(* src/src/server/input_service.rs:794-810 release_device_modifiers *)
Definition release_device_modifiers : M D unit :=
  each (fun modifier => held ← gets (get_modifier_state modifier); when held (key_up modifier))
    [Key.Shift; Key.Control; Key.Alt; Key.Meta; Key.RightShift; Key.RightControl; Key.RightAlt; Key.RWin].

(** ** Keys that are held down *)

(* src/src/server/input_service.rs:1525-1532 record_pressed_key *)
Definition record_pressed_key (record_key : KeysDown) (down : bool) : M SV unit :=
  now ← gets clock;
  modify (set_keys (if down then <[record_key := now]> else delete record_key)).

(* src/src/server/input_service.rs:1370-1377 simulate_ *)
Definition simulate_ (press : bool) (key : RawKey) : M D unit := call_rdev (Simulate press key) ;; mret tt.

(* src/src/server/input_service.rs:813-830 release_record_key *)
Definition release_record_key (record_key : KeysDown) : M D unit :=
  match record_key with
  | RdevKey raw_key => simulate_ false raw_key
  | EnigoKey key => match record_key_to_key key with Some key => key_up key | None => mret tt end
  end.

(* src/src/server/input_service.rs:832-847 fix_key_down_timeout *)
Definition fix_key_down_timeout (force : bool) : M SV unit :=
  cloned ← gets (fun s => map_to_list (keys_down s));
  each (fun '(record_key, time) =>
    now ← gets clock;
    when (force || (360000 <=? now - time))
      (record_pressed_key record_key false ;; en (release_record_key record_key))) cloned.

(* src/src/server/input_service.rs:757-764 fix_key_down_timeout_at_exit *)
Definition fix_key_down_timeout_at_exit : M SV unit :=
  over ← gets exiting;
  if (over : bool) then mret tt else modify set_exiting ;; fix_key_down_timeout true.

(** ** Keys *)

(* src/src/server/input_service.rs:1474-1482 process_control_key *)
Definition process_control_key (ck : Z) (down : bool) : M D unit :=
  match control_key_value_to_key ck with
  | Some key => if down then key_down key ;; mret tt else key_up key
  | None => mret tt
  end.

(* src/src/server/input_service.rs:1485-1487 need_to_uppercase *)
Definition need_to_uppercase (d : D) : bool := get_modifier_state Key.Shift d || get_modifier_state Key.CapsLock d.

(* src/src/server/input_service.rs:1489-1506 process_chr *)
Definition process_chr (chr : Z) (down : bool) : M D unit :=
  let key := char_value_to_key chr in
  if down then
    r ← key_down key;
    match r with
    | Ok _ => mret tt
    | Err _ =>
        match char_from_u32 chr with
        | Some c => upper ← gets need_to_uppercase; key_sequence (if upper : bool then to_uppercase c else [c])
        | None => mret tt
        end
    end
  else key_up key.

(* src/src/server/input_service.rs:1508-1512 process_unicode *)
Definition process_unicode (chr : Z) : M D unit :=
  match char_from_u32 chr with Some c => key_sequence [c] | None => mret tt end.

(* src/src/server/input_service.rs:1534-1550 is_function_key *)
Definition is_function_key (ck : Z) : M D bool :=
  if ck =? ck_value ControlKey.CtrlAltDel then log SendSas ;; mret true
  else if ck =? ck_value ControlKey.LockScreen then log LockScreen ;; mret true
  else mret false.

(* src/src/server/input_service.rs:1552-1582 legacy_keyboard_mode *)
Definition legacy_keyboard_mode (evt : KeyEvent) : M SV unit :=
  en change_desktop ;;
  to_release ← en (sync_modifiers evt);
  let down := ke_down evt in
  match ke_union evt with
  | Some (UControlKey ck) =>
      function ← en (is_function_key ck);
      if (function : bool) then mret tt
      else
        record_pressed_key (EnigoKey (u64 ck)) down ;;
        en (process_control_key ck down) ;;
        en (release_keys to_release)
  | Some (UChr chr) =>
      record_pressed_key (EnigoKey (u64 (chr + KEY_CHAR_START))) down ;;
      en (process_chr chr down) ;;
      en (release_keys to_release)
  | Some (UUnicode chr) => en (process_unicode chr) ;; en (release_keys to_release)
  | Some (USeq seq) => en (key_sequence seq) ;; en (release_keys to_release)
  | _ => en (release_keys to_release)
  end.

(* src/src/server/input_service.rs:1293-1313 sim_rdev_rawkey_position *)
Definition sim_rdev_rawkey_position (code : Z) (keydown : bool) : M SV unit :=
  record_pressed_key (RdevKey (ScanCode (key_code code))) keydown ;;
  en (simulate_ keydown (ScanCode (key_code code))).

(* src/src/server/input_service.rs:1316-1325 sim_rdev_rawkey_virtual *)
Definition sim_rdev_rawkey_virtual (code : Z) (keydown : bool) : M SV unit :=
  record_pressed_key (RdevKey (WinVirtualKeycode code)) keydown ;;
  en (simulate_ keydown (WinVirtualKeycode code)).

(* src/src/server/input_service.rs:1389-1407 map_keyboard_mode *)
Definition map_keyboard_mode (evt : KeyEvent) : M SV unit :=
  en change_desktop ;; sim_rdev_rawkey_position (ke_chr evt) (ke_down evt).

(* src/src/server/input_service.rs:1585-1591 translate_process_code *)
Definition translate_process_code (code : Z) (down : bool) : M SV unit :=
  en change_desktop ;;
  if Z.shiftr code 16 =? 0 then sim_rdev_rawkey_position code down
  else sim_rdev_rawkey_virtual (Z.shiftr code 16) down.

(* src/src/server/input_service.rs:1655-1662 is_hot_key_modifiers_down *)
Definition is_hot_key_modifiers_down (d : D) : bool :=
  get_key_state Key.Control d || get_key_state Key.RightControl d || get_key_state Key.Alt d ||
  get_key_state Key.RightAlt d || get_key_state Key.Meta d || get_key_state Key.RWin d.

(* src/src/server/input_service.rs:1665-1676 simulate_win2win_hotkey *)
Definition simulate_win2win_hotkey (code : Z) (down : bool) : M D unit :=
  let unicode := u16 (Z.land code 0xFFFF) in
  done ← (if down then call_rdev (SimulateKeyUnicode unicode false) else mret false);
  if (done : bool) then mret tt
  else
    let keycode := u16 (Z.land (Z.shiftr code 16) 0xFFFF) in
    call_rdev (SimulateCode None (Some (vk_to_scancode keycode)) down) ;; mret tt.

(* src/src/server/input_service.rs:1593-1651 translate_keyboard_mode *)
Definition translate_keyboard_mode (evt : KeyEvent) : M SV unit :=
  match ke_union evt with
  | Some (USeq seq) => en (
      hot_key ← gets is_hot_key_modifiers_down;
      when (negb hot_key) (
        shift ← gets (get_modifier_state Key.Shift);
        when shift (call_rdev (SimulateKey false RKey.ShiftLeft) ;; mret tt) ;;
        right_shift ← gets (get_modifier_state Key.RightShift);
        when right_shift (call_rdev (SimulateKey false RKey.ShiftRight) ;; mret tt)) ;;
      each (fun chr =>
        call_rdev (if hot_key : bool then SimulateChar chr true else SimulateUnicode (u16 chr)) ;; mret tt) seq)
  | Some (UChr chr) => translate_process_code chr (ke_down evt)
  | Some (UUnicode _) => mret tt
  | Some (UWin2winHotkey code) => en (simulate_win2win_hotkey code (ke_down evt))
  | _ => mret tt
  end.

(** ** The lights of the keyboard *)

(** Which of the two lights were switched for the event. *)
(* src/src/server/input_service.rs:153-157 LockModesHandler *)
Record LockModesHandler : Type := mkLock { caps_lock_changed : bool; num_lock_changed : bool }.

(* src/src/server/input_service.rs:198-233 LockModesHandler::new *)
Definition lock_new (evt : KeyEvent) (is_numpad_key : bool) : M D LockModesHandler :=
  let event_caps_enabled := is_modifier_enabled evt ControlKey.CapsLock in
  local_caps_enabled ← gets (get_key_state Key.CapsLock);
  let caps_lock_changed := negb (Bool.eqb event_caps_enabled local_caps_enabled) in
  when caps_lock_changed (key_click Key.CapsLock) ;;
  local_num_enabled ← gets (get_key_state Key.NumLock);
  let num_lock_changed :=
    if is_numpad_key then negb (Bool.eqb (is_modifier_enabled evt ControlKey.NumLock) local_num_enabled)
    else is_legacy_mode evt && should_disable_numlock evt && local_num_enabled in
  when num_lock_changed (key_click Key.NumLock) ;;
  mret (mkLock caps_lock_changed num_lock_changed).

(* src/src/server/input_service.rs:262-279 LockModesHandler::drop *)
Definition lock_drop (h : LockModesHandler) : M D unit :=
  when (caps_lock_changed h) (key_click Key.CapsLock) ;;
  when (num_lock_changed h) (key_click Key.NumLock).

(** Whether the lights are switched for an event, and whether its key is of the number pad. *)
(* src/src/server/input_service.rs:1756-1790 handle_key_ *)
Definition lock_handling (evt : KeyEvent) : option bool :=
  match ke_union evt with
  | Some (UUnicode _) | Some (USeq _) => Some false
  | Some (UControlKey ck) =>
      let key := enum_value_or_unknown ck in
      if skip_led_sync_control_key key then None else Some (is_numpad_control_key key)
  | Some (UChr code) =>
      if is_legacy_mode evt then Some false
      else
        let key := win_key_from_scancode code in
        if skip_led_sync_rdev_key key then None else Some (is_numpad_rdev_key key)
  | _ => None
  end.

Definition inject (evt : KeyEvent) : M SV unit :=
  match mode_value (ke_mode evt) with
  | Some Map => map_keyboard_mode evt
  | Some Translate => translate_keyboard_mode evt
  | _ => legacy_keyboard_mode evt
  end.

(* src/src/server/input_service.rs:1751-1809 handle_key_ *)
Definition handle_key_ (evt : KeyEvent) : M SV unit :=
  over ← gets exiting;
  if (over : bool) then mret tt
  else
    match lock_handling evt with
    | None => inject evt
    | Some is_numpad_key =>
        handler ← en (lock_new evt is_numpad_key);
        inject evt ;;
        en (lock_drop handler)
    end.

(** ** The mouse *)

(* src/src/server/input_service.rs:1012-1153 handle_mouse_simulation_ *)
Definition handle_mouse_simulation_ (evt : MouseEvent) (conn : Z) : M SV (option unit) :=
  over ← gets exiting;
  if (over : bool) then mret (Some tt)
  else
    en change_desktop ;;
    let buttons := Z.shiftr (me_mask evt) 3 in
    let evt_type := Z.land (me_mask evt) 0x7 in
    to_release ← en (
      if evt_type =? MOUSE_TYPE_DOWN then
        fix_modifiers (me_modifiers evt) 0 ;;
        press_missing (fun key => bool_decide (key = Key.CapsLock \/ key = Key.NumLock)) (me_modifiers evt)
      else mret []);
    r ← (if evt_type =? MOUSE_TYPE_MOVE then
           moved ← en (mouse_move_to (me_x evt) (me_y evt));
           match moved with
           | None => mret None
           | Some _ =>
               now ← gets wall;
               modify (set_latest (mkInput conn now (me_x evt) (me_y evt))) ;; mret (Some tt)
           end
         else if evt_type =? MOUSE_TYPE_DOWN then
           match button_of buttons with
           | Some b => en (mouse_down b) ;; mret (Some tt)
           | None => mret (Some tt)
           end
         else if evt_type =? MOUSE_TYPE_UP then
           match button_of buttons with
           | Some b => en (mouse_up b) ;; mret (Some tt)
           | None => mret (Some tt)
           end
         else if (evt_type =? MOUSE_TYPE_WHEEL) || (evt_type =? MOUSE_TYPE_TRACKPAD) then
           let k := if evt_type =? MOUSE_TYPE_TRACKPAD then 1 else WHEEL_DELTA in
           let x := i32 (i32 (- me_x evt) * k) in
           let y := i32 (me_y evt * k) in
           en (when (negb (y =? 0)) (mouse_scroll_y y) ;; when (negb (x =? 0)) (mouse_scroll_x x)) ;;
           mret (Some tt)
         else mret (Some tt));
    match r with
    | None => mret None
    | Some _ => en (each key_up to_release) ;; mret (Some tt)
    end.

(* src/src/server/input_service.rs:1156-1188 handle_mouse_show_cursor_ *)
Definition handle_mouse_show_cursor_ (evt : MouseEvent) (conn : Z) (username : string) (argb : Z) : M D unit :=
  let buttons := Z.shiftr (me_mask evt) 3 in
  let evt_type := Z.land (me_mask evt) 0x7 in
  if evt_type =? MOUSE_TYPE_MOVE then log (Whiteboard conn (me_x evt) (me_y evt) argb 0 username)
  else if (evt_type =? MOUSE_TYPE_UP) && (buttons =? 0x01) then
    log (Whiteboard conn (me_x evt) (me_y evt) argb buttons username)
  else mret tt.

(* src/src/server/input_service.rs:995-1010 handle_mouse_ *)
Definition handle_mouse_ (evt : MouseEvent) (conn : Z) (username : string) (argb : Z) (simulate show_cursor : bool) :
    M SV (option unit) :=
  r ← (if simulate then handle_mouse_simulation_ evt conn else mret (Some tt));
  match r with
  | None => mret None
  | Some _ => when show_cursor (en (handle_mouse_show_cursor_ evt conn username argb)) ;; mret (Some tt)
  end.

(* src/src/server/input_service.rs:1191-1200 handle_scale *)
Definition handle_scale (scale : Z) : M D unit :=
  if scale =? 0 then key_up Key.Control
  else r ← key_down Key.Control; when (is_ok r) (mouse_scroll_y scale).

(* src/src/server/input_service.rs:974-993 handle_pointer_ *)
Definition handle_pointer_ (evt : PointerEvent) : M SV unit :=
  over ← gets exiting;
  if (over : bool) then mret tt
  else match evt with ScaleUpdate scale => en (handle_scale scale) | OtherPointer => mret tt end.

(* src/src/server/input_service.rs:897-901 update_latest_input_cursor_time *)
Definition update_latest_input_cursor_time (conn : Z) : M SV unit :=
  modify (fun s => set_latest (mkInput conn (wall s) (in_x (latest_peer_input s)) (in_y (latest_peer_input s))) s).

End Input.
