(* ===== verification/HeldKeys.v ===== *)
(** * Keys that are held down

    What [Input] remembers of the keys that the other side holds, over any sequence of
    events, against what rdev has been told to press and to release; how they are let go of,
    by the thread that looks for old ones and when the program ends; and the two kinds of keys
    that escape this, characters of the older mode and hotkeys between two Windows. *)

From S2P Require Import Prelude LoginConfig Keys Enigo Input.
#[local] Open Scope Z_scope.

Section Held.
Context {S : Type} `{Windows S}.
Context (to_uppercase : Z -> list Z).
Abbreviation SV := (Server S).
Abbreviation handle := (handle_key_ to_uppercase).

(** The key that an event is remembered by, and whether it goes down; none for events that the code
    does not remember, such as texts and the hotkeys between two Windows. *)
Definition about (evt : KeyEvent) : option (KeysDown * bool) :=
  (fun k => (k, ke_down evt)) <$>
  match mode_value (ke_mode evt), ke_union evt with
  | Some Map, _ => Some (RdevKey (ScanCode (key_code (ke_chr evt))))
  | Some Translate, Some (UChr c) =>
      Some (RdevKey (if Z.shiftr c 16 =? 0 then ScanCode (key_code c) else WinVirtualKeycode (Z.shiftr c 16)))
  | Some Translate, _ => None
  | _, Some (UControlKey ck) =>
      if (ck =? ck_value ControlKey.CtrlAltDel) || (ck =? ck_value ControlKey.LockScreen) then None
      else Some (EnigoKey (u64 ck))
  | _, Some (UChr c) => Some (EnigoKey (u64 (c + KEY_CHAR_START)))
  | _, _ => None
  end.

(** What the keys are after an event at the time [now]. *)
Definition noted (evt : KeyEvent) (now : Z) (m : gmap KeysDown Z) : gmap KeysDown Z :=
  match about evt with
  | Some (k, true) => <[k := now]> m
  | Some (k, false) => delete k m
  | None => m
  end.

(** The part of the state that the device does not touch. *)
Definition memory (s : SV) : gmap KeysDown Z * bool * Z := (keys_down s, exiting s, clock s).

Lemma en_memory {A} (m : M (Device S) A) s : memory (snd (en m s)) = memory s.
Proof. unfold en. by destruct (m (dev s)). Qed.

Lemma record_memory k down s :
  memory (snd (record_pressed_key k down s)) =
  ((if down then <[k := clock s]> else delete k) (keys_down s), exiting s, clock s).
Proof. done. Qed.

Lemma ret_memory {A} (a : A) (s : SV) : memory (snd (mret (M := M SV) a s)) = memory s.
Proof. done. Qed.

Ltac memories := repeat first [rewrite bind_eq | rewrite ret_memory | rewrite en_memory | rewrite record_memory].

Lemma position_memory code down s :
  memory (snd (sim_rdev_rawkey_position code down s)) =
  ((if down then <[RdevKey (ScanCode (key_code code)) := clock s]>
    else delete (RdevKey (ScanCode (key_code code)))) (keys_down s), exiting s, clock s).
Proof. unfold sim_rdev_rawkey_position. by memories. Qed.

Lemma virtual_memory code down s :
  memory (snd (sim_rdev_rawkey_virtual code down s)) =
  ((if down then <[RdevKey (WinVirtualKeycode code) := clock s]>
    else delete (RdevKey (WinVirtualKeycode code))) (keys_down s), exiting s, clock s).
Proof. unfold sim_rdev_rawkey_virtual. by memories. Qed.

Lemma memory_fields s s' : memory s = memory s' ->
  keys_down s = keys_down s' /\ exiting s = exiting s' /\ clock s = clock s'.
Proof. unfold memory. naive_solver. Qed.

Lemma function_key_answer ck (d : Device S) :
  fst (is_function_key ck d) = (ck =? ck_value ControlKey.CtrlAltDel) || (ck =? ck_value ControlKey.LockScreen).
Proof.
  unfold is_function_key.
  destruct (ck =? ck_value ControlKey.CtrlAltDel); [done|].
  by destruct (ck =? ck_value ControlKey.LockScreen).
Qed.

(** A map note of [memory s]. *)
Definition noted_memory (evt : KeyEvent) (s : SV) := (noted evt (clock s) (keys_down s), exiting s, clock s).

Lemma noted_memory_eq evt s s' : memory s = memory s' -> noted_memory evt s = noted_memory evt s'.
Proof. intros (E1 & E2 & E3)%memory_fields. unfold noted_memory. by rewrite E1, E2, E3. Qed.

Lemma en_noted {A} evt (m : M (Device S) A) s : noted_memory evt (snd (en m s)) = noted_memory evt s.
Proof. apply noted_memory_eq, en_memory. Qed.

Lemma en_fst {A} (m : M (Device S) A) s : fst (en m s) = fst (m (dev s)).
Proof. unfold en. by destruct (m (dev s)). Qed.

Lemma en_dev {A} (m : M (Device S) A) s : dev (snd (en m s)) = snd (m (dev s)).
Proof. unfold en. by destruct (m (dev s)). Qed.

Lemma record_noted evt k s :
  about evt = Some (k, ke_down evt) -> memory (snd (record_pressed_key k (ke_down evt) s)) = noted_memory evt s.
Proof. intros E. rewrite record_memory. unfold noted_memory, noted. rewrite E. by destruct (ke_down evt). Qed.

Lemma legacy_memory evt s :
  mode_value (ke_mode evt) <> Some Map -> mode_value (ke_mode evt) <> Some Translate ->
  memory (snd (legacy_keyboard_mode to_uppercase evt s)) = noted_memory evt s.
Proof.
  intros HM HT. unfold legacy_keyboard_mode. rewrite bind_eq, bind_eq.
  set (s0 := snd (en change_desktop s)).
  assert (E0 : noted_memory evt s0 = noted_memory evt s) by apply en_noted.
  set (s1 := snd (en (sync_modifiers evt) s0)).
  assert (E1 : noted_memory evt s1 = noted_memory evt s) by (rewrite <- E0; apply en_noted).
  assert (about_legacy : about evt = (fun k => (k, ke_down evt)) <$>
    match ke_union evt with
    | Some (UControlKey ck) =>
        if (ck =? ck_value ControlKey.CtrlAltDel) || (ck =? ck_value ControlKey.LockScreen) then None
        else Some (EnigoKey (u64 ck))
    | Some (UChr c) => Some (EnigoKey (u64 (c + KEY_CHAR_START)))
    | _ => None
    end) by (unfold about; destruct (mode_value (ke_mode evt)) as [[]|]; congruence).
  assert (nothing : about evt = None -> noted_memory evt s1 = memory s1)
    by (intros E; unfold noted_memory, noted; by rewrite E).
  destruct (ke_union evt) as [[ck|c|c|l|c]|].
  - rewrite bind_eq, en_fst, function_key_answer. rewrite <- E1.
    destruct (_ || _) eqn:F.
    + cbn. rewrite en_memory. by rewrite nothing.
    + memories. rewrite <- record_memory, record_noted by done. apply en_noted.
  - memories. rewrite <- record_memory, record_noted by done. exact E1.
  - rewrite <- E1, nothing by done. by memories.
  - rewrite <- E1, nothing by done. by memories.
  - rewrite <- E1, nothing by done. by memories.
  - rewrite <- E1, nothing by done. by memories.
Qed.

Lemma inject_memory evt s : memory (snd (inject to_uppercase evt s)) = noted_memory evt s.
Proof.
  unfold inject.
  destruct (mode_value (ke_mode evt)) as [[]|] eqn:E; try (apply legacy_memory; congruence).
  - unfold map_keyboard_mode. rewrite bind_eq, position_memory, <- (en_noted _ change_desktop).
    unfold noted_memory, noted, about. rewrite E. by destruct (ke_down evt).
  - unfold translate_keyboard_mode.
    assert (nothing : about evt = None -> noted_memory evt s = memory s)
      by (intros F; unfold noted_memory, noted; by rewrite F).
    destruct (ke_union evt) as [[ck|c|c|l|c]|] eqn:U; rewrite ?en_memory; cbn [snd mret M_ret];
      try (rewrite nothing by (unfold about; by rewrite E, U); done).
    unfold translate_process_code. rewrite bind_eq, <- (en_noted _ change_desktop).
    unfold noted_memory, noted, about. rewrite E, U.
    destruct (Z.shiftr c 16 =? 0); rewrite ?position_memory, ?virtual_memory; by destruct (ke_down evt).
Qed.

(** An event changes the memory as [noted] says. *)
Lemma handle_memory evt s : exiting s = false -> memory (snd (handle evt s)) = noted_memory evt s.
Proof.
  intros E. unfold handle_key_. rewrite bind_eq. cbn [fst snd gets]. rewrite E.
  destruct (lock_handling evt) as [pad|]; [|apply inject_memory].
  memories. rewrite inject_memory. apply en_noted.
Qed.

Lemma handle_fields evt s : exiting s = false ->
  keys_down (snd (handle evt s)) = noted evt (clock s) (keys_down s) /\
  exiting (snd (handle evt s)) = false /\ clock (snd (handle evt s)) = clock s.
Proof. intros E. pose proof (handle_memory evt s E) as F. unfold memory, noted_memory in F. split_and!; congruence. Qed.

(** Once the program is ending, events do nothing. *)
Lemma handle_exiting evt s : exiting s = true -> handle evt s = (tt, s).
Proof. intros E. unfold handle_key_. rewrite bind_eq. cbn [fst snd gets]. by rewrite E. Qed.

(** Whether a key is down after some events, by what they say: its last event decides. *)
Definition down_after (k : KeysDown) : bool -> list KeyEvent -> bool :=
  foldl (fun held evt => match about evt with Some (k', down) => if decide (k' = k) then down else held | None => held end).

Definition is_held (k : KeysDown) (s : SV) : bool := bool_decide (is_Some (keys_down s !! k)).

Lemma is_held_noted k evt now m :
  bool_decide (is_Some (noted evt now m !! k)) =
  match about evt with Some (k', down) => if decide (k' = k) then down else bool_decide (is_Some (m !! k)) | None => bool_decide (is_Some (m !! k)) end.
Proof.
  unfold noted. destruct (about evt) as [[k' []]|]; [| |done].
  - destruct (decide (k' = k)) as [->|]; [|by rewrite lookup_insert_ne by done].
    rewrite lookup_insert_eq. by apply bool_decide_eq_true.
  - destruct (decide (k' = k)) as [->|]; [|by rewrite lookup_delete_ne by done].
    rewrite lookup_delete_eq. apply bool_decide_eq_false. by intros [? ?].
Qed.

(** By key events alone, in any mixture of the modes, a key is remembered when the last event
    about it pressed it. *)
Lemma remembered_by_events (evts : list KeyEvent) (s : SV) (k : KeysDown) :
  exiting s = false -> is_held k (snd (each handle evts s)) = down_after k (is_held k s) evts.
Proof.
  revert s. induction evts as [|evt evts IH]; intros s E; [done|].
  destruct (handle_fields evt s E) as (K & E' & _).
  cbn [each]. rewrite bind_eq, IH by done. cbn [down_after foldl]. unfold down_after. f_equal.
  unfold is_held. by rewrite K, is_held_noted.
Qed.

(** ** What is remembered and what rdev has been told *)

Definition wait (ms : Z) (s : SV) : SV :=
  mkServer (dev s) (keys_down s) (exiting s) (latest_peer_input s) (clock s + ms) (wall s + ms).

(** What the other side, time, the thread that looks for old keys and the end of the program do. *)
Inductive act : Type :=
| AKey (evt : KeyEvent)
| AMouse (evt : MouseEvent) (conn : Z)
| APointer (evt : PointerEvent)
| AWait (ms : Z)
| ALook
| AExit.

Definition perform (a : act) : M SV unit :=
  match a with
  | AKey evt => handle evt
  | AMouse evt conn => handle_mouse_simulation_ evt conn ;; mret tt
  | APointer evt => handle_pointer_ evt
  | AWait ms => modify (wait ms)
  | ALook => fix_key_down_timeout false
  | AExit => fix_key_down_timeout_at_exit
  end.

(** Whether the last that rdev was told of a raw key is that it goes down. *)
Definition raw_told (k : RawKey) : list event -> bool :=
  foldl (fun held e => match e with Rdev (Simulate press k') _ => if decide (k' = k) then press else held | _ => held end) false.

Create HintDb silent discriminated.

(** A computation that tells rdev nothing of raw keys. *)
Definition silent {A} (m : M (Device S) A) : Prop := forall k b, keeps (fun d => raw_told k (trace d) = b) m.

Lemma silent_bind {A B} (m : M (Device S) A) (f : A -> M (Device S) B) : silent m -> (forall a, silent (f a)) -> silent (m ≫= f).
Proof. intros Hm Hf k b. apply keeps_bind; [apply Hm|intros a; apply Hf]. Qed.
Lemma silent_ret {A} (a : A) : silent (mret a).
Proof. intros k b. apply keeps_ret. Qed.
Lemma silent_gets {A} (f : Device S -> A) : silent (gets f).
Proof. intros k b. apply keeps_gets. Qed.
Lemma silent_when c (m : M (Device S) unit) : silent m -> silent (when c m).
Proof. intros Hm k b. apply keeps_if_when. intros _. apply Hm. Qed.
Lemma silent_each {A} (f : A -> M (Device S) unit) l : (forall x, silent (f x)) -> silent (each f l).
Proof. intros Hf k b. apply keeps_each. intros x _. apply Hf. Qed.

Lemma told_snoc k l e : (forall press k' ok, e <> Rdev (Simulate press k') ok) -> raw_told k (l ++ [e]) = raw_told k l.
Proof. intros N. unfold raw_told. rewrite foldl_app. destruct e as [| [] | | | |]; try done. by destruct (N press key ok). Qed.

Lemma silent_send i : silent (send_input i).
Proof. intros k b d E. unfold send_input. destruct (SendInput i (os d)). cbn [snd trace]. by rewrite told_snoc. Qed.
Lemma silent_desktop : silent change_desktop.
Proof. intros k b d E. cbn [change_desktop snd trace]. by rewrite told_snoc. Qed.
Lemma silent_log e : (forall press k' ok, e <> Rdev (Simulate press k') ok) -> silent (log e).
Proof. intros N k b d E. cbn. by rewrite told_snoc. Qed.
Lemma silent_rdev c : (forall press k', c <> Simulate press k') -> silent (call_rdev c).
Proof.
  intros N k b d E. unfold call_rdev. destruct (rdev c (os d)). cbn [snd trace]. rewrite told_snoc; [done|]. intros press k' ok' [= -> _]. by apply (N press k').
Qed.
Lemma silent_scan vk : silent (layout_scan vk).
Proof. by intros k b d E. Qed.
Lemma silent_layout c : silent (get_layoutdependent_keycode c).
Proof. by intros k b d E. Qed.

#[local] Hint Resolve silent_ret silent_gets silent_send silent_desktop silent_scan silent_layout : silent.

Ltac silence :=
  repeat first
    [ solve [auto with silent] | apply silent_bind; [|intros ?] | apply silent_when | apply silent_each; intros ?
    | apply silent_log; done | apply silent_rdev; done | progress cbv beta zeta | case_match ].

Lemma silent_keybd flags vk scan : silent (keybd_event flags vk scan).
Proof. unfold keybd_event. silence. Qed.
#[local] Hint Resolve silent_keybd : silent.
Lemma silent_outcome n : silent (outcome n).
Proof. unfold outcome. silence. Qed.
Lemma silent_key_up key : silent (key_up key).
Proof. unfold key_up. silence. Qed.
Lemma silent_key_click key : silent (key_click key).
Proof. unfold key_click. silence. Qed.
Lemma silent_sequence l : silent (key_sequence l).
Proof. unfold key_sequence, unicode_key_click, unicode_key_down, unicode_key_up. silence. Qed.
#[local] Hint Resolve silent_outcome silent_key_up silent_key_click silent_sequence : silent.
Lemma silent_down_code key : silent (key_down_code key).
Proof. unfold key_down_code. silence. Qed.
#[local] Hint Resolve silent_down_code : silent.
Lemma silent_press_all l : silent (press_all l).
Proof. induction l as [|key l IH]; cbn [press_all]; silence. Qed.
#[local] Hint Resolve silent_press_all : silent.
Lemma silent_key_down key : silent (key_down key).
Proof. unfold key_down. destruct key; silence. Qed.
#[local] Hint Resolve silent_key_down : silent.
Lemma silent_missing skip l : silent (press_missing skip l).
Proof. induction l as [|ck l IH]; cbn [press_missing]; silence. Qed.
Lemma silent_fix_modifiers l ck : silent (fix_modifiers l ck).
Proof. unfold fix_modifiers, fix_modifier. silence. Qed.
#[local] Hint Resolve silent_missing silent_fix_modifiers : silent.
Lemma silent_sync evt : silent (sync_modifiers evt).
Proof. unfold sync_modifiers, press_modifiers. silence. Qed.
Lemma silent_release l : silent (release_keys l).
Proof. unfold release_keys. silence. Qed.
Lemma silent_function ck : silent (is_function_key ck).
Proof. unfold is_function_key. silence. Qed.
Lemma silent_control ck down : silent (process_control_key ck down).
Proof. unfold process_control_key. silence. Qed.
Lemma silent_chr chr down : silent (process_chr to_uppercase chr down).
Proof. unfold process_chr. silence. Qed.
Lemma silent_unicode chr : silent (process_unicode chr).
Proof. unfold process_unicode. silence. Qed.
Lemma silent_hotkey code down : silent (simulate_win2win_hotkey code down).
Proof. unfold simulate_win2win_hotkey. silence. Qed.
Lemma silent_lock evt pad : silent (lock_new evt pad).
Proof. unfold lock_new. silence. Qed.
Lemma silent_unlock h : silent (lock_drop h).
Proof. unfold lock_drop. silence. Qed.
#[local] Hint Resolve silent_sync silent_release silent_function silent_control silent_chr silent_unicode silent_hotkey
  silent_lock silent_unlock : silent.

(** Every raw key is remembered exactly if rdev was last told that it goes down. *)
Definition in_step (s : SV) : Prop := forall k, is_held (RdevKey k) s = raw_told k (trace (dev s)).

Lemma step_en {A} (m : M (Device S) A) : silent m -> keeps in_step (en m).
Proof.
  intros Q s I k. destruct (memory_fields _ _ (en_memory m s)) as (K & _). unfold is_held. rewrite K.
  fold (is_held (RdevKey k) s). rewrite I. unfold en. pose proof (Q k _ (dev s) eq_refl) as E. by destruct (m (dev s)).
Qed.

Lemma step_record c down : keeps in_step (record_pressed_key (EnigoKey c) down).
Proof.
  intros s I k. change (dev (snd (record_pressed_key (EnigoKey c) down s))) with (dev s). rewrite <- I.
  unfold is_held.
  change (keys_down (snd (record_pressed_key (EnigoKey c) down s)))
    with ((if down then <[EnigoKey c := clock s]> else delete (EnigoKey c)) (keys_down s)).
  by destruct down; [rewrite lookup_insert_ne|rewrite lookup_delete_ne].
Qed.

(** A raw key that is remembered, or forgotten, and told. *)
Lemma step_raw raw down : keeps in_step (record_pressed_key (RdevKey raw) down ;; en (simulate_ down raw)).
Proof.
  intros s I k. rewrite bind_eq. set (s1 := snd (record_pressed_key (RdevKey raw) down s)).
  destruct (memory_fields _ _ (en_memory (simulate_ down raw) s1)) as (K & _). unfold is_held. rewrite K.
  assert (exists ok, trace (dev (snd (en (simulate_ down raw) s1))) = trace (dev s) ++ [Rdev (Simulate down raw) ok]) as [ok ->].
  { unfold en, simulate_. rewrite bind_eq. change (dev s1) with (dev s).
    destruct (call_rdev (Simulate down raw) (dev s)) as [ok d] eqn:C. unfold call_rdev in C.
    destruct (rdev (Simulate down raw) (os (dev s))) as [ok' o]. injection C as <- <-. by exists ok'. }
  unfold raw_told. rewrite foldl_app. fold (raw_told k (trace (dev s))). rewrite <- I. cbn [foldl]. subst s1. unfold is_held.
  change (keys_down (snd (record_pressed_key (RdevKey raw) down s)))
    with ((if down then <[RdevKey raw := clock s]> else delete (RdevKey raw)) (keys_down s)).
  destruct (decide (raw = k)) as [->|N].
  - destruct down; [rewrite lookup_insert_eq; by apply bool_decide_eq_true|]. rewrite lookup_delete_eq.
    apply bool_decide_eq_false. by intros [? ?].
  - destruct down; [rewrite lookup_insert_ne|rewrite lookup_delete_ne]; try done; congruence.
Qed.

#[local] Hint Resolve step_record step_raw : silent.

Lemma step_when c (m : M SV unit) : keeps in_step m -> keeps in_step (when c m).
Proof. intros Hm. by apply keeps_if_when. Qed.

Ltac stepping :=
  repeat first
    [ solve [auto with silent] | apply keeps_ret | apply keeps_gets | apply step_en; solve [silence]
    | apply keeps_bind; [|intros ?] | apply step_when | progress cbv beta zeta | case_match ].

Lemma step_inject evt : keeps in_step (inject to_uppercase evt).
Proof.
  unfold inject, legacy_keyboard_mode, map_keyboard_mode, translate_keyboard_mode, translate_process_code.
  unfold sim_rdev_rawkey_position, sim_rdev_rawkey_virtual. stepping.
Qed.

Lemma step_let_go force : keeps in_step (fix_key_down_timeout force).
Proof.
  unfold fix_key_down_timeout. apply keeps_bind; [apply keeps_gets|]. intros l.
  apply keeps_each. intros [k t] _. apply keeps_bind; [apply keeps_gets|]. intros now. apply step_when.
  destruct k as [raw|c]; [apply step_raw|]. apply keeps_bind; [apply step_record|]. intros _. apply step_en.
  cbn [release_record_key]. silence.
Qed.

Lemma step_perform a : keeps in_step (perform a).
Proof.
  destruct a as [evt|evt conn|evt|ms| |]; cbn [perform].
  - unfold handle_key_. pose proof (step_inject evt). stepping.
  - unfold handle_mouse_simulation_, mouse_move_to, mouse_down, mouse_up, mouse_scroll_x, mouse_scroll_y, mouse_event. stepping.
    all: intros s I; exact I.
  - unfold handle_pointer_, handle_scale, mouse_scroll_y, mouse_event. stepping.
  - intros s I. exact I.
  - apply step_let_go.
  - unfold fix_key_down_timeout_at_exit. pose proof (step_let_go true). stepping. intros s I. exact I.
Qed.


Lemma rdev_answer c (d : Device S) : fst (call_rdev c d) = fst (rdev c (os d)).
Proof. unfold call_rdev. by destruct (rdev c (os d)). Qed.

Lemma rdev_trace c (d : Device S) : trace (snd (call_rdev c d)) = trace d ++ [Rdev c (fst (rdev c (os d)))].
Proof. unfold call_rdev. by destruct (rdev c (os d)). Qed.

(** A hotkey that rdev cannot enter as a character is pressed by its scan code, and not remembered:
    when its release does not come, nothing lets go of it. *)
Theorem hotkey_unremembered (evt : KeyEvent) (code : Z) (s : SV) :
  exiting s = false -> mode_value (ke_mode evt) = Some Translate -> ke_union evt = Some (UWin2winHotkey code) ->
  ke_down evt = true ->
  let unicode := SimulateKeyUnicode (u16 (Z.land code 0xFFFF)) false in
  fst (rdev unicode (os (dev s))) = false ->
  let s' := snd (handle evt s) in
  keys_down s' = keys_down s /\
  exists ok, trace (dev s') = trace (dev s) ++ [Rdev unicode false;
    Rdev (SimulateCode None (Some (vk_to_scancode (u16 (Z.land (Z.shiftr code 16) 0xFFFF)))) true) ok].
Proof.
  intros E M U D unicode R s'. split.
  - destruct (handle_fields evt s E) as (K & _). subst s'. rewrite K. unfold noted, about. by rewrite M, U.
  - subst s'. unfold handle_key_. rewrite bind_eq. cbn [fst snd gets]. rewrite E. unfold lock_handling, inject.
    rewrite U, M. unfold translate_keyboard_mode. rewrite U, en_dev, D.
    unfold simulate_win2win_hotkey. fold unicode. rewrite bind_eq, rdev_answer, R. cbv zeta. rewrite bind_eq.
    cbn [snd mret M_ret]. rewrite !rdev_trace, R, <- app_assoc. by eexists.
Qed.

(** ** Letting go *)

(** Whether a key that went down at [time] is let go of at [now]. *)
Definition overdue (force : bool) (now time : Z) : bool := force || (360000 <=? now - time).

(** What the loop over the copy of [KEYS_DOWN] does. *)
Definition let_go (force : bool) : list (KeysDown * Z) -> M SV unit :=
  each (fun '(record_key, time) =>
    now ← gets clock;
    when (force || (360000 <=? now - time))
      (record_pressed_key record_key false ;; en (release_record_key record_key))).

Lemma let_go_cons force k t l s :
  let_go force ((k, t) :: l) s =
  let_go force l (if overdue force (clock s) t
                  then snd (en (release_record_key k) (snd (record_pressed_key k false s))) else s).
Proof.
  unfold let_go, overdue. cbn [each]. rewrite bind_eq. f_equal. rewrite bind_eq. cbn [fst snd gets].
  destruct (force || _); cbn [when]; [by rewrite bind_eq|done].
Qed.

Lemma let_go_memory force l s :
  let s' := snd (let_go force l s) in
  (forall k, keys_down s' !! k =
     if bool_decide (Exists (fun '(k', t) => k' = k /\ overdue force (clock s) t = true) l) then None
     else keys_down s !! k) /\
  exiting s' = exiting s /\ clock s' = clock s.
Proof.
  revert s. induction l as [|[k t] l IH]; intros s; cbn zeta.
  { split; [|done]. intros k. rewrite bool_decide_eq_false_2; [done|]. by intros F%Exists_nil. }
  rewrite let_go_cons.
  destruct (overdue force (clock s) t) eqn:O.
  - destruct (IH (snd (en (release_record_key k) (snd (record_pressed_key k false s))))) as (K & E & C).
    destruct (memory_fields _ _ (en_memory (release_record_key k) (snd (record_pressed_key k false s)))) as (K' & E' & C').
    rewrite E, C, E', C'. split; [|done]. intros k'. rewrite K, K', C'.
    change (keys_down (snd (record_pressed_key k false s))) with (delete k (keys_down s)).
    change (clock (snd (record_pressed_key k false s))) with (clock s).
    destruct (decide (k = k')) as [<-|N].
    + rewrite lookup_delete_eq. rewrite (bool_decide_eq_true_2 (Exists _ ((k, t) :: l))) by (by left).
      by case_bool_decide.
    + rewrite lookup_delete_ne by done. erewrite bool_decide_ext; [reflexivity|]. rewrite Exists_cons.
      split; [by right|intros [[? _]|?]; [congruence|done]].
  - destruct (IH s) as (K & E & C). split; [|done]. intros k'. rewrite K.
    erewrite bool_decide_ext; [reflexivity|]. rewrite Exists_cons.
    split; [by right|intros [[? ?]|?]; [congruence|done]].
Qed.

Lemma timeout_lets_go force s : fix_key_down_timeout force s = let_go force (map_to_list (keys_down s)) s.
Proof. done. Qed.

(** What is remembered after [fix_key_down_timeout]. *)
Lemma timeout_memory force s :
  let s' := snd (fix_key_down_timeout force s) in
  (forall k, keys_down s' !! k = t ← keys_down s !! k; if overdue force (clock s) t then None else Some t) /\
  exiting s' = exiting s /\ clock s' = clock s.
Proof.
  cbn zeta. rewrite timeout_lets_go.
  destruct (let_go_memory force (map_to_list (keys_down s)) s) as (K & E & C).
  split; [|done]. intros k. rewrite K.
  case_bool_decide as X.
  - apply Exists_exists in X as ([k' t] & I%elem_of_map_to_list & -> & O). cbn. rewrite I. cbn. by rewrite O.
  - destruct (keys_down s !! k) as [t|] eqn:L; [|done]. cbn.
    destruct (overdue force (clock s) t) eqn:O; [|done].
    destruct X. apply Exists_exists. exists (k, t). by rewrite elem_of_map_to_list.
Qed.

(** ** What is let go of *)

(** The inputs that release a key that is remembered. *)
Definition releases (k : KeysDown) (e : event) : Prop :=
  match k with
  | RdevKey raw => exists ok, e = Rdev (Simulate false raw) ok
  | EnigoKey c =>
      exists key flags scan n, control_key_value_to_key (i32 c) = Some key /\
        e = Sent (SKey flags (key_to_keycode key) scan) n /\ Z.testbit flags 1 = true
  end.

(** Every key but those that stand for a character. *)
Definition not_character (k : KeysDown) : Prop :=
  match k with
  | RdevKey _ => True
  | EnigoKey c => c < KEY_CHAR_START /\ is_Some (control_key_value_to_key (i32 c))
  end.

Lemma releases_emitted k : not_character k ->
  emits (release_record_key k) (fun _ l => Exists (releases k) l).
Proof.
  destruct k as [raw|c]; cbn [release_record_key not_character].
  - intros _. unfold simulate_. apply emits_bind with (Q := fun ok l => l = [Rdev (Simulate false raw) ok]).
    { by apply emits_rdev. }
    intros ok l ->. apply emits_ret. left. by exists ok.
  - intros [C%Z.ltb_lt [key E]]. unfold record_key_to_key, record_key_is_control_key. rewrite C, E.
    apply emits_key_up. intros n f sc F. left. by exists key, f, sc, n.
Qed.

Lemma release_emits k : emits (release_record_key k) (fun _ _ => True).
Proof.
  destruct k as [raw|c]; cbn [release_record_key].
  - unfold simulate_. apply emits_bind with (Q := fun _ _ => True); [by apply emits_rdev|]. intros. by apply emits_ret.
  - destruct (record_key_to_key c); [by apply emits_key_up|by apply emits_ret].
Qed.

Lemma let_go_trace force l s : exists k, trace (dev (snd (let_go force l s))) = trace (dev s) ++ k.
Proof.
  revert s. induction l as [|[k t] l IH]; intros s; [exists []; by rewrite app_nil_r|].
  rewrite let_go_cons. destruct (overdue force (clock s) t); [|apply IH].
  destruct (IH (snd (en (release_record_key k) (snd (record_pressed_key k false s))))) as (k2 & E2).
  rewrite en_dev in E2. destruct (release_emits k (dev s)) as (k1 & E1 & _).
  change (dev (snd (record_pressed_key k false s))) with (dev s) in E2. rewrite E1, <- app_assoc in E2. eauto.
Qed.

Lemma let_go_releases force l k t s : (k, t) ∈ l -> overdue force (clock s) t = true -> not_character k ->
  exists a, trace (dev (snd (let_go force l s))) = trace (dev s) ++ a /\ Exists (releases k) a.
Proof.
  revert s. induction l as [|[k' t'] l IH]; intros s I O N; [by apply elem_of_nil in I|].
  rewrite let_go_cons. set (s1 := snd (en (release_record_key k') (snd (record_pressed_key k' false s)))).
  assert (D1 : dev s1 = snd (release_record_key k' (dev s))) by (unfold s1; by rewrite en_dev).
  assert (C1 : clock s1 = clock s).
  { unfold s1. by destruct (memory_fields _ _ (en_memory (release_record_key k') (snd (record_pressed_key k' false s)))) as (_ & _ & ->). }
  apply elem_of_cons in I as [[= <- <-]|I].
  - rewrite O. destruct (let_go_trace force l s1) as (a2 & E2).
    destruct (releases_emitted k N (dev s)) as (a1 & E1 & X). rewrite D1, E1, <- app_assoc in E2.
    exists (a1 ++ a2). split; [done|]. apply Exists_app. by left.
  - destruct (overdue force (clock s) t'); [|by apply IH].
    destruct (IH s1) as (a2 & E2 & X); [done|by rewrite C1|done|].
    destruct (release_emits k' (dev s)) as (a1 & E1 & _). rewrite D1, E1, <- app_assoc in E2.
    exists (a1 ++ a2). split; [done|]. apply Exists_app. by right.
Qed.

(** Nothing is left behind when the program ends: after the handler of the end, no key
    is remembered, every key that was remembered (other than one of a character) has been
    released, and no event of the other side does anything any more. *)
Theorem exit_releases_all (s : SV) (evts : list KeyEvent) :
  exiting s = false ->
  let s' := snd (fix_key_down_timeout_at_exit s) in
  keys_down s' = ∅ /\
  (forall k, is_Some (keys_down s !! k) -> not_character k ->
     exists a, trace (dev s') = trace (dev s) ++ a /\ Exists (releases k) a) /\
  each handle evts s' = (tt, s').
Proof.
  intros E. cbn zeta.
  set (s' := snd (fix_key_down_timeout_at_exit s)).
  assert (F : s' = snd (fix_key_down_timeout true (set_exiting s))).
  { unfold s', fix_key_down_timeout_at_exit. rewrite bind_eq. cbn [fst snd gets]. rewrite E. by rewrite bind_eq. }
  rewrite F. destruct (timeout_memory true (set_exiting s)) as (K & X & _). split_and!.
  - apply map_eq. intros k. rewrite K, lookup_empty. by destruct (keys_down (set_exiting s) !! k).
  - intros k [t L] N. rewrite timeout_lets_go.
    apply (let_go_releases true _ k t (set_exiting s)); [by apply elem_of_map_to_list|done|done].
  - induction evts as [|evt evts IH]; [done|]. cbn [each]. rewrite bind_eq, handle_exiting by done. exact IH.
Qed.

(** A character is forgotten without being released: what [legacy_keyboard_mode]
    remembers of a character is above the codes that [record_key_to_key] knows. *)
Theorem character_forgotten (chr : Z) (s : SV) :
  0 <= chr < 2 ^ 32 ->
  keys_down s = {[ EnigoKey (u64 (chr + KEY_CHAR_START)) := clock s ]} ->
  keys_down (snd (fix_key_down_timeout true s)) = ∅ /\
  dev (snd (fix_key_down_timeout true s)) = dev s.
Proof.
  intros R E. split.
  - apply map_eq. intros k. destruct (timeout_memory true s) as (K & _). rewrite K, lookup_empty.
    by destruct (keys_down s !! k).
  - rewrite timeout_lets_go, E, map_to_list_singleton, let_go_cons. cbn [overdue orb].
    change (dev (snd (en (release_record_key (EnigoKey (u64 (chr + KEY_CHAR_START))))
      (snd (record_pressed_key (EnigoKey (u64 (chr + KEY_CHAR_START))) false s)))) = dev s).
    rewrite en_dev. cbn [release_record_key].
    replace (record_key_to_key _) with (@None Key); [done|]. unfold record_key_to_key, record_key_is_control_key, record_key_is_chr.
    destruct (Z.ltb_spec (u64 (chr + KEY_CHAR_START)) KEY_CHAR_START) as [L|]; [|done].
    rewrite wrap_small in L; unfold KEY_CHAR_START, in_u in *; lia.
Qed.

(** ** The thread that looks for old keys *)

(** Events, time and the thread, which is due at the time that goes with the state. *)
Inductive watch : act -> SV * Z -> SV * Z -> Prop :=
| Event a s due : (match a with AKey _ | AMouse _ _ | APointer _ => True | _ => False end) ->
    watch a (s, due) (snd (perform a s), due)
| Wait ms s due : 0 <= ms -> clock s + ms <= due -> watch (AWait ms) (s, due) (wait ms s, due)
| Look s due : clock s = due -> watch ALook (s, due) (snd (fix_key_down_timeout false s), due + 10000).

(** Runs of which every step is a [p]. *)
Definition runs (p : act -> bool) : SV * Z -> SV * Z -> Prop := rtc (fun c c' => exists a, p a = true /\ watch a c c').

Definition anything (_ : act) : bool := true.

(** No event about a key. *)
Definition leaves (k : KeysDown) (a : act) : bool :=
  match a with AKey evt => negb (bool_decide (fst <$> about evt = Some k)) | _ => true end.

(** Every key went down less than six minutes before the thread last looked. *)
Definition watched (c : SV * Z) : Prop :=
  clock c.1 <= c.2 <= clock c.1 + 10000 /\ forall k t, keys_down c.1 !! k = Some t -> t <= clock c.1 /\ c.2 - 10000 - t < 360000.

Lemma mouse_memory evt conn s : memory (snd (handle_mouse_simulation_ evt conn s)) = memory s.
Proof.
  unfold handle_mouse_simulation_. rewrite bind_eq. cbn [fst snd gets]. destruct (exiting s); [done|].
  rewrite bind_eq, bind_eq, bind_eq.
  set (s1 := snd (en _ (snd (en change_desktop s)))).
  assert (E1 : memory s1 = memory s) by (unfold s1; by rewrite !en_memory).
  match goal with |- context [fst (?m s1)] => assert (E2 : memory (snd (m s1)) = memory s1) end.
  { repeat case_match; memories; try done; try apply en_memory.
    case_match; memories; try done; apply (en_memory (mouse_move_to (me_x evt) (me_y evt)) s1). }
  match goal with |- context [fst (?m s1)] => destruct (fst (m s1)) end; memories; congruence.
Qed.

Lemma key_event a : (exists evt, a = AKey evt) \/
  ((match a with AKey _ | AMouse _ _ | APointer _ => True | _ => False end) ->
   match a with AMouse _ _ | APointer _ => True | _ => False end).
Proof. destruct a; [left; eauto|by right..]. Qed.

Lemma pointer_memory evt s : memory (snd (handle_pointer_ evt s)) = memory s.
Proof.
  unfold handle_pointer_. rewrite bind_eq. cbn [fst snd gets]. destruct (exiting s); [done|]. destruct evt; [apply en_memory|done].
Qed.

(** What events other than those about a key leave of the memory. *)
Lemma event_memory a s : exiting s = false -> (match a with AMouse _ _ | APointer _ => True | _ => False end) ->
  memory (snd (perform a s)) = memory s.
Proof.
  intros E. destruct a; try done; intros _; cbn [perform]; [|apply pointer_memory].
  rewrite bind_eq. cbn [snd mret M_ret]. apply mouse_memory.
Qed.

Lemma watch_kept a c c' : watch a c c' -> exiting c.1 = false -> watched c -> watched c' /\ exiting c'.1 = false.
Proof.
  intros St E [T K]. destruct St as [a s due Ev|ms s due Pos Le|s due Due]; cbn in *.
  - destruct (key_event a) as [(evt & ->)|N].
    + destruct (handle_fields evt s E) as (Kd & E' & C'). split; [|done]. split; cbn; rewrite C'; [done|].
      intros k t. rewrite Kd. unfold noted. destruct (about evt) as [[k' []]|]; [| |by apply K].
      * intros [[_ <-]|[_ L]]%lookup_insert_Some; [lia|by eapply K].
      * intros [_ L]%lookup_delete_Some. by eapply K.
    + destruct (memory_fields _ _ (event_memory a s E (N Ev))) as (Kd & E' & C').
      split; [|by rewrite E']. split; cbn; rewrite C'; [done|]. intros k t. rewrite Kd. apply K.
  - split; [|done]. split; cbn; [lia|]. intros k t L. destruct (K k t L). lia.
  - destruct (timeout_memory false s) as (Kd & E' & C'). split; [|by rewrite E'].
    split; cbn; rewrite C'; [lia|]. intros k t. rewrite Kd.
    destruct (keys_down s !! k) as [t'|] eqn:L; [|done]. cbn.
    destruct (Z.leb_spec 360000 (clock s - t')); [done|]. intros [= <-]. destruct (K k t' L). lia.
Qed.

Definition fine (c : SV * Z) : Prop := watched c /\ exiting c.1 = false.

Lemma runs_fine p c c' : runs p c c' -> fine c -> fine c'.
Proof. induction 1 as [|a b c (x & _ & St) R IH]; [done|]. intros [W E]. by apply IH, (watch_kept x a b). Qed.

(** A step without events about a key keeps what is remembered of it, unless the thread lets go. *)
Lemma leaves_kept k a c c' : watch a c c' -> exiting c.1 = false -> leaves k a = true ->
  keys_down c'.1 !! k = keys_down c.1 !! k \/
  exists t, a = ALook /\ c' = (snd (fix_key_down_timeout false c.1), c.2 + 10000) /\
    keys_down c.1 !! k = Some t /\ overdue false (clock c.1) t = true /\ keys_down c'.1 !! k = None.
Proof.
  intros St E L. destruct St as [a s due Ev|ms s due Pos Le|s due Due]; cbn in *; [left|by left|].
  - destruct (key_event a) as [(evt & ->)|N].
    + cbn in L. apply negb_true_iff, bool_decide_eq_false in L. destruct (handle_fields evt s E) as (Kd & _). cbn. rewrite Kd.
      unfold noted. destruct (about evt) as [[k' []]|]; [| |done]; cbn in L.
      * apply lookup_insert_ne. congruence.
      * apply lookup_delete_ne. congruence.
    + by destruct (memory_fields _ _ (event_memory a s E (N Ev))) as (-> & _).
  - destruct (timeout_memory false s) as (Kd & _). pose proof (Kd k) as X.
    destruct (keys_down s !! k) as [t|] eqn:Lk; [|by left]. cbn in X.
    destruct (360000 <=? clock s - t) eqn:O; [right; exists t; by split_and!|by left].
Qed.

Lemma none_stays k c c' : runs (leaves k) c c' -> fine c -> keys_down c.1 !! k = None -> keys_down c'.1 !! k = None.
Proof.
  induction 1 as [|a b c (x & Lx & St) R IH]; [done|]. intros [W E] N. apply IH; [by apply (watch_kept x a b)|].
  destruct (leaves_kept k x a b St E Lx) as [->|(t & _ & _ & S' & _)]; [done|congruence].
Qed.

(** The moment at which the thread lets go of a key. *)
Record let_go_at (k : KeysDown) (t : Z) (c1 : SV * Z) (s : SV) (due : Z) (c2 : SV * Z) : Prop := {
  lg_before : runs (leaves k) c1 (s, due);
  lg_held : keys_down s !! k = Some t;
  lg_soon : 360000 <= clock s - t < 370000;
  lg_after : runs (leaves k) (snd (fix_key_down_timeout false s), due + 10000) c2;
  lg_gone : keys_down c2.1 !! k = None;
}.

Lemma held_or_let_go k t c1 c2 : runs (leaves k) c1 c2 -> fine c1 -> keys_down c1.1 !! k = Some t ->
  keys_down c2.1 !! k = Some t \/ exists s due, let_go_at k t c1 s due c2.
Proof.
  induction 1 as [|a b c (x & Lx & St) R IH]; [by left|]. intros F Hk. pose proof F as [W E].
  assert (fine b) as Fb by by apply (watch_kept x a b).
  destruct (leaves_kept k x a b St E Lx) as [K|(t' & -> & -> & S' & O & N)].
  - rewrite Hk in K. destruct (IH Fb K) as [|(s & due & [B Hh So Af Go])]; [by left|right].
    exists s, due. split; try done. eapply rtc_l; [by exists x|exact B].
  - right. rewrite Hk in S'. injection S' as <-. destruct a as [s due]. cbn in *. exists s, due.
    destruct W as [T K]. cbn in *. destruct (K k t Hk). apply Z.leb_le in O. split; try done; [lia|by apply (none_stays k _ _ R)].
Qed.

(** C19. No key stays down for long: whatever the other side sends and whenever, if in the six minutes and
    ten seconds after a key went down (as [KEYS_DOWN] has it) no event is about it, the thread lets
    go of it in that time, not before six minutes are over: it injects the key's release and forgets
    it, and it stays forgotten while no event is about it.  For a key that stands for a character
    nothing is injected; it is only forgotten (see [character_forgotten]). *)
Theorem no_key_stuck (s0 s1 s2 : SV) (due0 due1 due2 : Z) (k : KeysDown) (t : Z) :
  exiting s0 = false -> keys_down s0 = ∅ -> clock s0 <= due0 <= clock s0 + 10000 ->
  runs anything (s0, due0) (s1, due1) -> keys_down s1 !! k = Some t ->
  runs (leaves k) (s1, due1) (s2, due2) -> t + 370000 <= clock s2 ->
  exists s due l, let_go_at k t (s1, due1) s due (s2, due2) /\
    trace (dev (snd (fix_key_down_timeout false s))) = trace (dev s) ++ l /\
    (not_character k -> Exists (releases k) l).
Proof.
  intros E K0 T0 R1 Hk R2 Late.
  assert (fine (s0, due0)) as F0 by (split; [split; [done|]|done]; cbn; intros ? ?; by rewrite K0, lookup_empty).
  pose proof (runs_fine _ _ _ R1 F0) as F1. pose proof (runs_fine _ _ _ R2 F1) as [[T2 K2] _]. cbn in *.
  destruct (held_or_let_go k t _ _ R2 F1 Hk) as [X|(s & due & G)].
  - cbn in X. destruct (K2 k t X). lia.
  - pose proof (lg_held _ _ _ _ _ _ G) as Hs. pose proof (lg_soon _ _ _ _ _ _ G) as So.
    destruct (let_go_trace false (map_to_list (keys_down s)) s) as [l L]. rewrite <- timeout_lets_go in L.
    exists s, due, l. split_and!; [done|done|]. intros N.
    destruct (let_go_releases false (map_to_list (keys_down s)) k t s) as (l' & L' & X);
      [by apply elem_of_map_to_list|apply Z.leb_le; lia|done|].
    rewrite <- timeout_lets_go, L in L'. by apply app_inv_head in L' as ->.
Qed.

End Held.

(** A press of the key with scan code 30, and of the letter x in the older mode. *)
Definition press_a : KeyEvent := mkKeyEvent true false (Some (UChr 30)) [] 1.
Definition press_x : KeyEvent := mkKeyEvent true false (Some (UChr 120)) [] 0.
Definition a_server : Server keyboard :=
  mkServer (a_device (mkKeyboard ∅ ∅)) ∅ false (mkInput 0 0 0 0) 0 0.

(** Both are pressed; six minutes later the thread lets go of them. *)
Definition some_acts : list act :=
  [AKey press_a; AMouse (mkMouseEvent 0 3 4 []) 7; AKey press_x; AWait 360000; ALook].


Lemma exit_releases_all_witness :
  let s := snd (handle_key_ (fun c => [c]) press_a a_server) in
  let s' := snd (fix_key_down_timeout_at_exit s) in
  is_Some (keys_down s !! RdevKey (ScanCode 30)) /\ keys_down s' = ∅ /\
  each (handle_key_ (fun c => [c])) [press_a; press_x] s' = (tt, s').
Proof.
  pose proof (exit_releases_all (fun c => [c]) (snd (handle_key_ (fun c => [c]) press_a a_server))
    [press_a; press_x] eq_refl) as (E & _ & F).
  cbn zeta in *. split_and!; [vm_compute; eauto|exact E|exact F].
Defined.

Lemma character_forgotten_witness :
  let s := snd (handle_key_ (fun c => [c]) press_x a_server) in
  keys_down (snd (fix_key_down_timeout true s)) = ∅ /\ kb_down (os (dev s)) = {[ 88 ]} /\
  os (dev (snd (fix_key_down_timeout true s))) = os (dev s).
Proof.
  cbn zeta. set (s := snd (handle_key_ (fun c => [c]) press_x a_server)).
  assert (K : keys_down s = {[ EnigoKey (u64 (120 + KEY_CHAR_START)) := clock s ]}) by (vm_compute; reflexivity).
  pose proof (character_forgotten 120 s ltac:(lia) K) as E. split_and!.
  - exact (proj1 E).
  - vm_compute; reflexivity.
  - exact (f_equal os (proj2 E)).
Defined.

(** Nothing happens, but that the thread looks for old keys when it is due. *)
Fixpoint idle (n : nat) (c : Server keyboard * Z) : Server keyboard * Z :=
  match n with
  | O => c
  | Datatypes.S n =>
      let s := wait (c.2 - clock c.1) c.1 in idle n (snd (fix_key_down_timeout false s), c.2 + 10000)
  end.

Lemma idle_runs up k n c : clock c.1 <= c.2 -> runs up (leaves k) c (idle n c) /\ clock (idle n c).1 <= (idle n c).2.
Proof.
  revert c. induction n as [|n IH]; intros [s due] L; cbn [idle]; [split; [apply rtc_refl|done]|]. cbn in L |- *.
  set (s' := wait (due - clock s) s).
  assert (clock s' = due) as D by (unfold s', wait; cbn; lia).
  assert (clock (snd (fix_key_down_timeout false s')) <= due + 10000) as L'.
  { destruct (timeout_memory false s') as (_ & _ & ->). lia. }
  destruct (IH (snd (fix_key_down_timeout false s'), due + 10000) L') as [R F]. split; [|done].
  apply rtc_l with (s', due).
  { exists (AWait (due - clock s)). split; [done|]. apply Wait; lia. }
  eapply rtc_l; [|exact R]. exists ALook. split; [done|]. by apply Look.
Qed.

Lemma no_key_stuck_witness :
  let s1 := snd (handle_key_ (fun c => [c]) press_a a_server) in
  let s2 := (idle 38 (s1, 10000)).1 in
  keys_down s1 !! RdevKey (ScanCode 30) = Some 0 /\ clock s2 = 380000 /\ keys_down s2 = ∅ /\
  exists s l, clock s < 370000 /\ trace (dev (snd (fix_key_down_timeout false s))) = trace (dev s) ++ l /\
    Exists (releases (RdevKey (ScanCode 30))) l.
Proof.
  cbn zeta. split; [vm_compute; reflexivity|]. split; [vm_compute; reflexivity|]. split; [vm_compute; reflexivity|].
  destruct (no_key_stuck (fun c => [c]) a_server (snd (handle_key_ (fun c => [c]) press_a a_server))
    (idle 38 (snd (handle_key_ (fun c => [c]) press_a a_server), 10000)).1 10000 10000
    (idle 38 (snd (handle_key_ (fun c => [c]) press_a a_server), 10000)).2 (RdevKey (ScanCode 30)) 0
    eq_refl eq_refl ltac:(split; discriminate)) as (s & due & l & G & T & X).
  - eapply rtc_l; [|apply rtc_refl]. exists (AKey press_a). split; [done|].
    exact (Event (fun c => [c]) (AKey press_a) a_server 10000 I).
  - vm_compute. reflexivity.
  - rewrite <- surjective_pairing. apply idle_runs. vm_compute. discriminate.
  - vm_compute. discriminate.
  - exists s, l. split; [|split; [exact T|exact (X I)]]. pose proof (lg_soon _ _ _ _ _ _ _ G). lia.
Defined.
