(* ===== verification/Modifiers.v ===== *)
(** * Modifiers and the lights of the keyboard

    What an event of the other side leaves behind on the keyboard of this machine: the
    modifiers that [Input] presses for an event are released with it, and the lights are
    as they were. *)

From S2P Require Import Prelude LoginConfig Keys Enigo Input HeldKeys.
#[local] Open Scope Z_scope.

Definition keys_of (l : list event) : list (Z * bool) := omap key_of l.
Definition downs (ks : list Key) : list (Z * bool) := (fun k => (key_to_keycode k, true)) <$> ks.
Definition ups (ks : list Key) : list (Z * bool) := (fun k => (key_to_keycode k, false)) <$> ks.
Definition click (k : Key) : list (Z * bool) := downs [k] ++ ups [k].

Lemma keys_of_app l k : keys_of (l ++ k) = keys_of l ++ keys_of k.
Proof. apply omap_app. Qed.

Lemma keys_of_key f vk sc n b : Z.testbit f 1 = b -> keys_of [Sent (SKey f vk sc) n] = [(vk, negb b)].
Proof. intros <-. reflexivity. Qed.

(** The keys of the table have a virtual key, and only two of them are lights. *)
Definition plain (ck : ControlKey) (k : Key) : bool :=
  let vk := key_to_keycode k in
  (0 <? vk) && (vk <? 65535) && match k with Key.Layout _ | Key.Raw _ => false | _ => true end &&
  Bool.eqb (vk =? EVK_CAPITAL) (bool_decide (k = Key.CapsLock)) &&
  Bool.eqb (vk =? EVK_NUMLOCK) (bool_decide (k = Key.NumLock)) &&
  Bool.eqb (bool_decide (k = Key.CapsLock)) (bool_decide (ck = ControlKey.CapsLock)) &&
  Bool.eqb (bool_decide (k = Key.NumLock)) (bool_decide (ck = ControlKey.NumLock)).

Lemma KEY_MAP_plain v k : KEY_MAP !! v = Some k -> exists ck, v = ck_value ck /\ plain ck k = true.
Proof.
  intros (x & E & I)%elem_of_list_to_map_2%list_elem_of_fmap. destruct x as [ck k'].
  injection E as -> ->. exists ck. split; [done|].
  assert (F : forallb (fun p => plain p.1 p.2) KEY_MAP_table = true) by (vm_compute; reflexivity).
  by apply (proj1 (forallb_forall _ _) F (ck, k')), list_elem_of_In.
Qed.

Section Modifiers.
Context {S : Type} `{Windows S}.
Context (to_uppercase : Z -> list Z).
Abbreviation SV := (Server S).
Abbreviation handle := (handle_key_ to_uppercase).

(** ** What the device emits *)

Lemma keys_key_up key : emits (S := S) (key_up key) (fun _ l => keys_of l = ups [key]).
Proof. apply emits_key_up. intros n f sc F. exact (keys_of_key _ _ _ _ _ F). Qed.

Lemma keys_key_down_code key : 0 < key_to_keycode key < 65535 ->
  emits (S := S) (key_down_code key) (fun _ l => keys_of l = downs [key]).
Proof.
  intros R. unfold key_down_code.
  destruct (Z.eqb_spec (key_to_keycode key) 0); [lia|]. destruct (Z.eqb_spec (key_to_keycode key) 65535); [lia|].
  cbn [orb]. apply emits_bind with (Q := fun _ l => keys_of l = downs [key]).
  - apply emits_keybd. intros n' f sc F. exact (keys_of_key _ _ _ _ _ F).
  - intros n' l E. apply emits_outcome. intros _. by rewrite app_nil_r.
Qed.

Lemma keys_key_down ck key : KEY_MAP !! ck = Some key ->
  emits (S := S) (key_down key) (fun _ l => keys_of l = downs [key]).
Proof.
  intros (ck' & -> & P)%KEY_MAP_plain. unfold plain in P. rewrite !andb_true_iff in P.
  destruct P as [[[[[[P1 P2] P3] _] _] _] _].
  replace (key_down key) with (key_down_code (S := S) key) by (by destruct key).
  apply keys_key_down_code. lia.
Qed.

Lemma keys_click key : emits (S := S) (key_click key) (fun _ l => keys_of l = click key).
Proof.
  unfold key_click.
  apply emits_bind with (Q := fun _ l => keys_of l = downs [key]).
  { apply emits_keybd. intros n f sc F. exact (keys_of_key _ _ _ _ _ F). }
  intros ? l E. apply emits_bind with (Q := fun _ l => keys_of l = ups [key]).
  { apply emits_keybd. intros n f sc F. exact (keys_of_key _ _ _ _ _ F). }
  intros ? k E'. apply emits_ret. by rewrite app_nil_r, keys_of_app, E, E'.
Qed.

Lemma keys_each {A} (f : A -> M (Device S) unit) (g : A -> list (Z * bool)) xs :
  (forall x, x ∈ xs -> emits (f x) (fun _ l => keys_of l = g x)) ->
  emits (each f xs) (fun _ l => keys_of l = xs ≫= g).
Proof.
  induction xs as [|x xs IH]; intros Hf; cbn [each]; [by apply emits_ret|].
  eapply emits_bind; [apply Hf; set_solver|]. intros ? l E. cbn beta in E.
  eapply emits_weaken; [apply IH; set_solver|]. intros ? k E'. cbn beta in E'.
  by rewrite keys_of_app, E, E'.
Qed.

Lemma keys_release ks : emits (S := S) (release_keys ks) (fun _ l => keys_of l = ups ks).
Proof.
  eapply emits_weaken.
  { apply (keys_each key_up (fun k => ups [k]) ks). intros k _. apply keys_key_up. }
  intros _ l ->. induction ks as [|k ks IH]; [done|]. cbn. by f_equal.
Qed.

Lemma keys_press skip modifiers :
  emits (S := S) (press_missing skip modifiers) (fun ks l => keys_of l = downs ks).
Proof.
  induction modifiers as [|ck rest IH]; cbn [press_missing]; [by apply emits_ret|].
  destruct (KEY_MAP !! ck) as [key|] eqn:E; [|done].
  apply emits_bind with (Q := fun _ l => l = []); [by apply emits_gets|]. intros pressed l ->. cbn [app].
  destruct (skip key || pressed); [exact IH|].
  eapply emits_bind; [by apply keys_key_down in E|]. intros ? l El. cbn beta in El.
  eapply emits_bind; [exact IH|]. intros ks k Ek. cbn beta in Ek.
  apply emits_ret. by rewrite app_nil_r, keys_of_app, El, Ek.
Qed.

Definition all_up (l : list event) : Prop := Forall (fun '(_, down) => down = false) (keys_of l).

Lemma all_up_app l k : all_up l -> all_up k -> all_up (l ++ k).
Proof. unfold all_up. rewrite keys_of_app. apply Forall_app_2. Qed.

Lemma all_up_nil : all_up [].
Proof. apply Forall_nil_2. Qed.
#[local] Hint Resolve all_up_nil : core.

Lemma keys_fix modifiers ck : emits (S := S) (fix_modifiers modifiers ck) (fun _ => all_up).
Proof.
  unfold fix_modifiers. induction modifier_keys as [|[[own key0] key1] rest IH]; cbn [each]; [by apply emits_ret|].
  eapply emits_bind with (Q := fun _ => all_up).
  - destruct (negb _); [|by apply emits_ret]. cbn [when]. unfold fix_modifier.
    apply emits_bind with (Q := fun _ l => l = []); [by apply emits_gets|]. intros held l ->.
    apply emits_bind with (Q := fun _ l => l = []); [by apply emits_gets|]. intros alt l ->. cbn [app].
    destruct (_ && _); [|by apply emits_ret]. cbn [when].
    eapply emits_weaken; [apply keys_key_up|]. intros ? l E. unfold all_up. rewrite E. by repeat constructor.
  - intros ? l U. eapply emits_weaken; [exact IH|]. intros ? k U'. by apply all_up_app.
Qed.

(** Computations about which nothing more is said. *)
Abbreviation emitting m := (emits (S := S) m (fun _ _ => True)).

Lemma emitting_each {A} (f : A -> M (Device S) unit) xs : (forall x, emitting (f x)) -> emitting (each f xs).
Proof.
  intros Hf. induction xs as [|x xs IH]; cbn [each]; [by apply emits_ret|].
  eapply emits_bind; [apply Hf|]. intros. eapply emits_weaken; [exact IH|done].
Qed.

Lemma emitting_unicode f c : emitting (keybd_event f 0 c ;; mret tt).
Proof. eapply emits_bind with (Q := fun _ _ => True); [by apply emits_keybd|]. intros. by apply emits_ret. Qed.

Lemma emitting_sequence s : emitting (key_sequence s).
Proof.
  apply emitting_each. intros c. case_match; [|case_match].
  - by apply emitting_each, emitting_unicode.
  - unfold unicode_key_click. eapply emits_bind; [apply emitting_unicode|]. intros. eapply emits_weaken; [apply emitting_unicode|done].
  - apply emitting_each. intros; apply emitting_unicode.
Qed.

Lemma emitting_code key : emitting (key_down_code key).
Proof.
  unfold key_down_code. destruct (_ || _); [by apply emits_ret|].
  apply emits_bind with (Q := fun _ _ => True); [by apply emits_keybd|]. intros. by apply emits_outcome.
Qed.

Lemma emitting_press_all ks : emitting (press_all ks).
Proof.
  induction ks as [|k ks IH]; cbn [press_all]; [by apply emits_ret|].
  eapply emits_bind; [apply emitting_code|]. intros [] l _; [eapply emits_weaken; [exact IH|done]|by apply emits_ret].
Qed.

Lemma emitting_down key : emitting (key_down key).
Proof.
  destruct key; try apply emitting_code. cbn [key_down].
  apply emits_bind with (Q := fun _ _ => True).
  { intros d. exists []. by rewrite app_nil_r. }
  intros code l _. destruct (code =? 0xFFFF); [by apply emits_ret|].
  eapply emits_bind; [apply emitting_press_all|]. intros [] l1 _; [|by apply emits_ret].
  apply emits_bind with (Q := fun _ _ => True); [by apply emits_keybd|]. intros n l2 _.
  apply emits_bind with (Q := fun _ _ => True); [by apply emits_gets|]. intros err l3 _.
  eapply emits_bind; [apply emitting_each|intros; by apply emits_ret].
  intros k. eapply emits_weaken; [apply keys_key_up|done].
Qed.

Lemma emitting_chr c down : emitting (process_chr to_uppercase c down).
Proof.
  unfold process_chr. destruct down; [|eapply emits_weaken; [apply keys_key_up|done]].
  eapply emits_bind; [apply emitting_down|]. intros [] l _; [by apply emits_ret|].
  destruct (char_from_u32 c); [|by apply emits_ret].
  apply emits_bind with (Q := fun _ _ => True); [by apply emits_gets|]. intros.
  eapply emits_weaken; [apply emitting_sequence|done].
Qed.

(** ** What an event sends *)

Definition sends {A} (m : M SV A) (Q : A -> list event -> Prop) : Prop :=
  forall s, exists l, trace (dev (snd (m s))) = trace (dev s) ++ l /\ Q (fst (m s)) l.

Lemma sends_en {A} (m : M (Device S) A) Q : emits m Q -> sends (en m) Q.
Proof. intros Hm s. rewrite en_dev, en_fst. apply Hm. Qed.

Lemma sends_bind {A B} (m : M SV A) (f : A -> M SV B) Q R :
  sends m Q -> (forall a l, Q a l -> sends (f a) (fun b k => R b (l ++ k))) -> sends (m ≫= f) R.
Proof.
  intros Hm Hf s. rewrite bind_eq. destruct (Hm s) as (l & E & HQ).
  destruct (Hf _ _ HQ (snd (m s))) as (k & E' & HR). exists (l ++ k). by rewrite E', E, app_assoc.
Qed.

Lemma sends_record k down Q : Q tt [] -> sends (record_pressed_key k down) Q.
Proof. intros HQ s. exists []. by rewrite app_nil_r. Qed.

Lemma sends_weaken {A} (m : M SV A) (Q R : A -> list event -> Prop) :
  sends m Q -> (forall a l, Q a l -> R a l) -> sends m R.
Proof. intros Hm HQR s. destruct (Hm s) as (l & E & HQ). eauto. Qed.

(** The lights that are switched. *)
Definition clicks (h : LockModesHandler) : list (Z * bool) :=
  (if caps_lock_changed h then click Key.CapsLock else []) ++ (if num_lock_changed h then click Key.NumLock else []).

Lemma keys_when (b : bool) (m : M (Device S) unit) ks :
  emits m (fun _ l => keys_of l = ks) -> emits (when b m) (fun _ l => keys_of l = if b then ks else []).
Proof. destruct b; [done|]. intros _. by apply emits_ret. Qed.

Lemma keys_lock_new evt pad : emits (S := S) (lock_new evt pad) (fun h l => keys_of l = clicks h).
Proof.
  unfold lock_new. apply emits_bind with (Q := fun _ l => l = []); [by apply emits_gets|]. intros caps l ->. cbn [app].
  eapply emits_bind; [apply keys_when, keys_click|]. intros ? l E. cbn beta in E.
  apply emits_bind with (Q := fun _ l => l = []); [by apply emits_gets|]. intros num k ->.
  eapply emits_bind; [apply keys_when, keys_click|]. intros ? k E'. cbn beta in E'.
  apply emits_ret. cbn [app]. by rewrite app_nil_r, keys_of_app, E, E'.
Qed.

Lemma keys_lock_drop h : emits (S := S) (lock_drop h) (fun _ l => keys_of l = clicks h).
Proof.
  unfold lock_drop. eapply emits_bind; [apply keys_when, keys_click|]. intros ? l E. cbn beta in E.
  eapply emits_weaken; [apply keys_when, keys_click|]. intros ? k E'. by rewrite keys_of_app, E, E'.
Qed.

(** Inputs that only release keys. *)
Definition only_ups (ks : list (Z * bool)) : Prop := Forall (fun '(_, down) => down = false) ks.

Lemma keys_sync evt : emits (S := S) (sync_modifiers evt)
  (fun pressed l => exists fixes, keys_of l = fixes ++ downs pressed /\ only_ups fixes).
Proof.
  unfold sync_modifiers. destruct (ke_down evt); [|apply emits_ret; exists []; by split; [|apply Forall_nil_2]].
  eapply emits_bind; [apply keys_fix|]. intros ? l U. eapply emits_weaken; [apply keys_press|].
  intros pressed k E. exists (keys_of l). by rewrite keys_of_app, E.
Qed.

Definition is_function (evt : KeyEvent) : bool :=
  match ke_union evt with
  | Some (UControlKey ck) => (ck =? ck_value ControlKey.CtrlAltDel) || (ck =? ck_value ControlKey.LockScreen)
  | _ => false
  end.

(** The inputs for the key itself, where the event names a key. *)
Definition own_inputs (evt : KeyEvent) (ks : list (Z * bool)) : Prop :=
  forall ck, ke_union evt = Some (UControlKey ck) ->
    ks = match KEY_MAP !! ck with Some key => [(key_to_keycode key, ke_down evt)] | None => [] end.

(** Keys released, modifiers pressed, the key, and the modifiers released. *)
Definition sandwich (evt : KeyEvent) (ks : list (Z * bool)) : Prop :=
  exists fixes pressed own, ks = fixes ++ downs pressed ++ own ++ ups pressed /\ only_ups fixes /\ own_inputs evt own.

Lemma keys_process ck down : emits (S := S) (process_control_key ck down)
  (fun _ l => keys_of l = match KEY_MAP !! ck with Some key => [(key_to_keycode key, down)] | None => [] end).
Proof.
  unfold process_control_key, control_key_value_to_key.
  destruct (KEY_MAP !! ck) as [key|] eqn:E; [|by apply emits_ret].
  destruct down; [|apply keys_key_up].
  eapply emits_bind; [by apply keys_key_down in E|]. intros ? l El. apply emits_ret. by rewrite app_nil_r.
Qed.

(** The key between its modifiers. *)
Lemma sends_between (m : M (Device S) unit) (Q : list (Z * bool) -> Prop) pressed :
  emits m (fun _ l => Q (keys_of l)) ->
  sends (en m ;; en (release_keys pressed)) (fun _ l => exists own, keys_of l = own ++ ups pressed /\ Q own).
Proof.
  intros Hm. eapply sends_bind; [apply sends_en, Hm|]. intros ? l E. cbn beta in E.
  eapply sends_weaken; [apply sends_en, keys_release|]. intros ? k E'. exists (keys_of l). by rewrite keys_of_app, E'.
Qed.

Lemma sends_legacy evt : is_function evt = false ->
  sends (legacy_keyboard_mode to_uppercase evt) (fun _ l => sandwich evt (keys_of l)).
Proof.
  intros F. unfold legacy_keyboard_mode.
  eapply sends_bind; [apply sends_en; by apply (emits_desktop (fun _ l => keys_of l = []))|].
  intros ? l0 E0. cbn beta in E0.
  eapply sends_bind; [apply sends_en, keys_sync|]. intros pressed l1 (fixes & E1 & U).
  assert (wrap_up : forall own l, own_inputs evt own -> keys_of l = own ++ ups pressed -> sandwich evt (keys_of (l0 ++ l1 ++ l))).
  { intros own l O E. exists fixes, pressed, own. by rewrite !keys_of_app, E0, E1, E, <- app_assoc. }
  assert (other : (forall ck, ke_union evt <> Some (UControlKey ck)) -> forall m : M (Device S) unit, emitting m ->
    sends (en m ;; en (release_keys pressed)) (fun _ l => sandwich evt (keys_of (l0 ++ l1 ++ l)))).
  { intros N m Hm. eapply sends_weaken; [apply (sends_between m (fun _ => True)); eapply emits_weaken; [exact Hm|done]|].
    intros ? l (own & E & _). apply (wrap_up own); [|done]. intros ck Eck. by destruct (N ck). }
  destruct (ke_union evt) as [[ck|c|c|l|c]|] eqn:Un.
  - unfold is_function in F. rewrite Un in F.
    eapply sends_bind.
    { apply sends_en with (Q := fun b l => b = false /\ l = []). intros d. exists [].
      unfold is_function_key. apply orb_false_elim in F as [-> ->]. by rewrite app_nil_r. }
    intros ? l [-> ->]. cbn [app].
    eapply sends_bind; [by apply (sends_record _ _ (fun _ l => l = []))|]. intros ? l ->. cbn [app].
    eapply sends_weaken; [apply (sends_between _ (fun ks => ks = match KEY_MAP !! ck with Some key => [(key_to_keycode key, ke_down evt)] | None => [] end)), keys_process|].
    intros ? l (own & E & O). apply (wrap_up own); [|done]. intros ck' Eck. rewrite Un in Eck. by injection Eck as <-.
  - eapply sends_bind; [by apply (sends_record _ _ (fun _ l => l = []))|]. intros ? l ->. cbn [app].
    apply other; [done|apply emitting_chr].
  - apply other; [done|]. unfold process_unicode. destruct (char_from_u32 c); [apply emitting_sequence|by apply emits_ret].
  - apply other; [done|apply emitting_sequence].
  - eapply sends_weaken; [apply sends_en, keys_release|]. intros ? l E. apply (wrap_up []); [|done].
    intros ck Eck. by rewrite Un in Eck.
  - eapply sends_weaken; [apply sends_en, keys_release|]. intros ? l E. apply (wrap_up []); [|done].
    intros ck Eck. by rewrite Un in Eck.
Qed.

(** In the older keyboard mode an event gives back what it takes: the inputs sent for
    it are clicks on the lights, releases of modifiers that the other side does not hold,
    presses of the missing ones, the key itself, and then the releases of exactly the
    modifiers that were pressed and the same clicks once more.  (Not so for Ctrl+Alt+Del and
    the locking of the screen.) *)
Theorem modifiers_given_back (evt : KeyEvent) (s : SV) :
  exiting s = false -> is_function evt = false ->
  mode_value (ke_mode evt) <> Some Map -> mode_value (ke_mode evt) <> Some Translate ->
  exists l lights keys, trace (dev (snd (handle evt s))) = trace (dev s) ++ l /\
    keys_of l = lights ++ keys ++ lights /\ sandwich evt keys /\
    (lights <> [] -> exists h, lights = clicks h).
Proof.
  intros E F HM HT.
  assert (I : sends (inject to_uppercase evt) (fun _ l => sandwich evt (keys_of l))).
  { unfold inject. destruct (mode_value (ke_mode evt)) as [[]|]; try congruence; by apply sends_legacy. }
  unfold handle_key_. rewrite bind_eq. cbn [fst snd gets]. rewrite E.
  destruct (lock_handling evt) as [pad|].
  - assert (Hs : sends (handler ← en (lock_new evt pad); inject to_uppercase evt ;; en (lock_drop handler))
      (fun _ l => exists h keys, keys_of l = clicks h ++ keys ++ clicks h /\ sandwich evt keys)).
    { eapply sends_bind; [apply sends_en, keys_lock_new|]. intros h l1 E1. cbn beta in E1.
      eapply sends_bind; [exact I|]. intros ? l2 E2. cbn beta in E2.
      eapply sends_weaken; [apply sends_en, keys_lock_drop|]. intros ? l3 E3. cbn beta in E3.
      exists h, (keys_of l2). by rewrite !keys_of_app, E1, E3. }
    destruct (Hs s) as (l & T & h & keys & Ek & Sw). exists l, (clicks h), keys. split_and!; [done..|]. by exists h.
  - destruct (I s) as (l & T & Sw). exists l, [], (keys_of l). split_and!; [done|by rewrite app_nil_r|done|done].
Qed.

End Modifiers.

(** ** The lights *)

Definition toggled {S} `{Windows S} (vk : Z) (s : S) : bool := Z.testbit (GetKeyState vk s) 0.
Definition pressed {S} `{Windows S} (vk : Z) (s : S) : bool := Z.testbit (GetKeyState vk s) 15.
Definition is_light (vk : Z) : Prop := vk = EVK_CAPITAL \/ vk = EVK_NUMLOCK.

(** What Windows documents of the two keys that switch a light: a press of a key that is
    not down switches it, other inputs do not, and [GetKeyState] tells both. *)
Class LightLaws (S : Type) `{Windows S} : Prop := {
  light_down : forall vk f sc s, is_light vk -> Z.testbit f 1 = false -> pressed vk s = false ->
    let s' := snd (SendInput (SKey f vk sc) s) in toggled vk s' = negb (toggled vk s) /\ pressed vk s' = true;
  light_up : forall vk f sc s, is_light vk -> Z.testbit f 1 = true ->
    let s' := snd (SendInput (SKey f vk sc) s) in toggled vk s' = toggled vk s /\ pressed vk s' = false;
  light_other : forall vk f vk' sc s, is_light vk -> vk' <> vk ->
    let s' := snd (SendInput (SKey f vk' sc) s) in toggled vk s' = toggled vk s /\ pressed vk s' = pressed vk s;
  light_desktop : forall vk s, is_light vk ->
    toggled vk (try_change_desktop s) = toggled vk s /\ pressed vk (try_change_desktop s) = pressed vk s;
  light_no_character : forall c l s, ~ is_light (Z.land (u16 (VkKeyScanEx c l s)) 0xFF);
}.

Section Lights.
Context {S : Type} `{LightLaws S}.
Context (to_uppercase : Z -> list Z).
Abbreviation D := (Device S).

(** The two lights, whose keys are not down. *)
Definition lights (c n : bool) (d : D) : Prop :=
  toggled EVK_CAPITAL (os d) = c /\ toggled EVK_NUMLOCK (os d) = n /\
  pressed EVK_CAPITAL (os d) = false /\ pressed EVK_NUMLOCK (os d) = false.

Lemma capital_light : is_light EVK_CAPITAL. Proof. by left. Qed.
Lemma numlock_light : is_light EVK_NUMLOCK. Proof. by right. Qed.
#[local] Hint Resolve capital_light numlock_light : core.

Lemma send_os i (d : D) : os (snd (send_input i d)) = snd (SendInput i (os d)).
Proof. unfold send_input. by destruct (SendInput i (os d)). Qed.

Lemma keybd_os f vk sc (d : D) : exists f' sc', Z.testbit f' 1 = Z.testbit f 1 /\
  os (snd (keybd_event f vk sc d)) = snd (SendInput (SKey f' vk sc') (os d)).
Proof.
  unfold keybd_event, mbind, M_bind.
  destruct ((if sc =? 0 then layout_scan vk else mret sc) d) as [sc1 d1] eqn:E1.
  assert (E : os d1 = os d) by (destruct (sc =? 0); by injection E1 as <- <-).
  eexists _, sc1. split.
  2:{ rewrite send_os, E. reflexivity. }
  destruct (_ && _); [|done]. rewrite Z.lor_spec. by destruct (Z.testbit f 1).
Qed.

Lemma lights_keybd c n f vk sc : ~ is_light vk -> keeps (lights c n) (keybd_event f vk sc).
Proof.
  intros N d (C & M' & PC & PN). destruct (keybd_os f vk sc d) as (f' & sc' & _ & E).
  unfold lights. rewrite E.
  destruct (light_other EVK_CAPITAL f' vk sc' (os d)) as [-> ->]; [done|intros ->; by destruct N|].
  by destruct (light_other EVK_NUMLOCK f' vk sc' (os d)) as [-> ->]; [|intros ->; destruct N|].
Qed.

Definition not_light (k : Key) : Prop := ~ is_light (key_to_keycode k).

Lemma lights_key_up c n k : not_light k -> keeps (lights c n) (key_up k).
Proof. intros N. apply keeps_bind; [by apply lights_keybd|intros; apply keeps_ret]. Qed.

Lemma lights_outcome c n r : keeps (lights c n) (outcome r).
Proof. apply keeps_bind; [apply keeps_gets|intros; apply keeps_ret]. Qed.

Lemma lights_down_code c n k : not_light k -> keeps (lights c n) (key_down_code k).
Proof.
  intros N. unfold key_down_code. destruct (_ || _); [apply keeps_ret|].
  apply keeps_bind; [by apply lights_keybd|intros; apply lights_outcome].
Qed.

Lemma shift_state_plain flag k : k ∈ shift_state flag -> not_light k.
Proof.
  unfold shift_state. rewrite list_elem_of_omap. intros ([pos k'] & I & E).
  assert (k' = k) as -> by (destruct (_ =? 0); congruence).
  repeat (apply elem_of_cons in I as [[= _ ->]|I]); [by intros [?|?]..|by apply elem_of_nil in I].
Qed.

Lemma lights_press_all c n ks : (forall k, k ∈ ks -> not_light k) -> keeps (lights c n) (press_all ks).
Proof.
  induction ks as [|k ks IH]; intros N; cbn [press_all]; [apply keeps_ret|].
  apply keeps_bind; [apply lights_down_code, N; set_solver|].
  intros []; [apply IH; set_solver|apply keeps_ret].
Qed.

Lemma lights_key_down c n k : not_light k -> keeps (lights c n) (key_down k).
Proof.
  intros N. destruct k; try (by apply lights_down_code). cbn [key_down]. clear N.
  apply triple_bind with (Q := fun code d => ~ is_light (Z.land code 0xFF) /\ lights c n d).
  { intros d L. split; [apply light_no_character|exact L]. }
  intros code. destruct (code =? 0xFFFF); [by intros d [_ L]|].
  intros d [V L]. revert d L. change (keeps (lights c n) (r ← press_all (shift_state (Z.shiftr code 8));
    match r with
    | Err e => mret (Err e)
    | Ok _ =>
        n ← keybd_event 0 (Z.land code 0x00FF) 0;
        err ← gets (fun d => if n =? 0 then get_error d else []);
        each key_up (rev (shift_state (Z.shiftr code 8))) ;;
        mret (if (length err =? 0)%nat then Ok tt else Err (OsError err))
    end)).
  apply keeps_bind; [apply lights_press_all; intros; by eapply shift_state_plain|].
  intros []; [|apply keeps_ret]. apply keeps_bind; [by apply lights_keybd|]. intros n'.
  apply keeps_bind; [apply keeps_gets|]. intros err.
  apply keeps_bind; [|intros; apply keeps_ret]. apply keeps_each. intros k I.
  apply lights_key_up, (shift_state_plain (Z.shiftr code 8)). by apply list_elem_of_In, in_rev, list_elem_of_In in I.
Qed.

Lemma land_1 x : (Z.land x 1 =? 1) = Z.testbit x 0.
Proof. rewrite Z.bit0_odd. change 1 with (Z.ones 1) at 1. rewrite Z.land_ones by lia. rewrite Zmod_odd. by destruct (Z.odd x). Qed.

Lemma capslock_state (d : D) : get_modifier_state Key.CapsLock d = toggled EVK_CAPITAL (os d).
Proof. unfold get_modifier_state, get_key_state. rewrite decide_True by auto. apply land_1. Qed.

Lemma numlock_state (d : D) : get_modifier_state Key.NumLock d = toggled EVK_NUMLOCK (os d).
Proof. unfold get_modifier_state, get_key_state. rewrite decide_True by auto. apply land_1. Qed.

(** A click switches its light and no other. *)
Lemma click_switches k other (d : D) :
  is_light (key_to_keycode k) -> is_light other -> key_to_keycode k <> other ->
  pressed (key_to_keycode k) (os d) = false ->
  let d' := snd (key_click k d) in
  toggled (key_to_keycode k) (os d') = negb (toggled (key_to_keycode k) (os d)) /\
  pressed (key_to_keycode k) (os d') = false /\
  toggled other (os d') = toggled other (os d) /\ pressed other (os d') = pressed other (os d).
Proof.
  intros L L' N P. unfold key_click. rewrite !bind_eq. cbn zeta. cbn [snd mret M_ret].
  set (vk := key_to_keycode k) in *. set (d1 := snd (keybd_event 0 vk 0 d)).
  destruct (keybd_os KEYEVENTF_KEYUP vk 0 d1) as (f2 & sc2 & F2 & ->).
  destruct (keybd_os 0 vk 0 d) as (f1 & sc1 & F1 & E1). fold d1 in E1.
  destruct (light_up vk f2 sc2 (os d1)) as [-> ->]; [done..|].
  destruct (light_other other f2 vk sc2 (os d1)) as [-> ->]; [done..|]. rewrite E1.
  destruct (light_down vk f1 sc1 (os d)) as [-> _]; [done..|].
  by destruct (light_other other f1 vk sc1 (os d)) as [-> ->].
Qed.

Lemma lights_click_caps c n : triple (lights c n) (key_click Key.CapsLock) (fun _ => lights (negb c) n).
Proof.
  intros d (C & N & PC & PN).
  destruct (click_switches Key.CapsLock EVK_NUMLOCK d) as (E1 & E2 & E3 & E4); [done..|].
  unfold lights. cbn [key_to_keycode] in *. by rewrite E1, E2, E3, E4, C.
Qed.

Lemma lights_click_num c n : triple (lights c n) (key_click Key.NumLock) (fun _ => lights c (negb n)).
Proof.
  intros d (C & N & PC & PN).
  destruct (click_switches Key.NumLock EVK_CAPITAL d) as (E1 & E2 & E3 & E4); [done..|].
  unfold lights. cbn [key_to_keycode] in *. by rewrite E1, E2, E3, E4, N.
Qed.

(** ** What an event needs *)

(** The modifiers that are lights are lit. *)
Definition lit (c n : bool) (modifiers : list Z) : Prop :=
  (ck_value ControlKey.CapsLock ∈ modifiers -> c = true) /\ (ck_value ControlKey.NumLock ∈ modifiers -> n = true).

Lemma plain_not_light ck k : plain ck k = true -> k <> Key.CapsLock -> k <> Key.NumLock -> not_light k.
Proof.
  unfold plain. rewrite !andb_true_iff, !eqb_true_iff. intros ((((((_ & _) & _) & C) & N) & _) & _) NC NN [E|E]; rewrite E in *.
  - by rewrite Z.eqb_refl, bool_decide_eq_false_2 in C.
  - by rewrite Z.eqb_refl, bool_decide_eq_false_2 in N.
Qed.

Lemma plain_light ck k : plain ck k = true ->
  (k = Key.CapsLock <-> ck = ControlKey.CapsLock) /\ (k = Key.NumLock <-> ck = ControlKey.NumLock).
Proof.
  unfold plain. rewrite !andb_true_iff, !eqb_true_iff. intros (((((_ & _) & _) & _) & C) & N).
  revert C N. repeat case_bool_decide; intros; simplify_eq; tauto.
Qed.

Lemma lights_press c n skip modifiers : lit c n modifiers ->
  triple (lights c n) (press_missing skip modifiers) (fun ks d => lights c n d /\ Forall not_light ks).
Proof.
  induction modifiers as [|ck rest IH]; intros [LC LN]; cbn [press_missing].
  { intros d L. by split; [|apply Forall_nil_2]. }
  assert (IH' : triple (lights c n) (press_missing skip rest) (fun ks d => lights c n d /\ Forall not_light ks)).
  { apply IH. split; intros I; [apply LC|apply LN]; by right. }
  destruct (KEY_MAP !! ck) as [key|] eqn:E; [|exact IH'].
  apply KEY_MAP_plain in E as (ck' & -> & P). destruct (plain_light ck' key P) as [PC PN].
  apply triple_bind with (Q := fun held d => lights c n d /\ (not_light key \/ held = true)).
  { intros d L. split; [exact L|].
    destruct (decide (key = Key.CapsLock)) as [->|NC].
    { right. cbn [fst gets]. rewrite capslock_state. destruct L as [-> _]. apply LC. rewrite (proj1 PC eq_refl). by left. }
    destruct (decide (key = Key.NumLock)) as [->|NN].
    { right. cbn [fst gets]. rewrite numlock_state. destruct L as [_ [-> _]]. apply LN. rewrite (proj1 PN eq_refl). by left. }
    left. by eapply plain_not_light. }
  intros held d [L K]. destruct (skip key || held) eqn:SK; [by apply IH'|].
  destruct K as [K| ->]; [|by rewrite orb_true_r in SK]. revert d L.
  change (triple (lights c n) (key_down key ;; to_release ← press_missing skip rest; mret (key :: to_release))
    (fun ks d => lights c n d /\ Forall not_light ks)).
  apply triple_bind with (Q := fun _ => lights c n); [by apply lights_key_down|]. intros _.
  eapply triple_bind; [exact IH'|]. intros ks d [L F]. split; [exact L|]. by constructor.
Qed.

Lemma lights_fix c n modifiers ck : keeps (lights c n) (fix_modifiers modifiers ck).
Proof.
  unfold fix_modifiers. apply keeps_each. intros [[own key0] key1] I. apply keeps_if_when. intros _.
  unfold fix_modifier. apply keeps_bind; [apply keeps_gets|]. intros held.
  apply keeps_bind; [apply keeps_gets|]. intros alt. apply keeps_if_when. intros _. apply lights_key_up.
  repeat (apply elem_of_cons in I as [[= _ _ ->]|I]); [by intros [?|?]..|by apply elem_of_nil in I].
Qed.

Lemma lights_release c n ks : Forall not_light ks -> keeps (lights c n) (release_keys ks).
Proof. intros F. apply keeps_each. intros k I. apply lights_key_up. by eapply Forall_forall in F. Qed.

Lemma zero_not_light : ~ is_light 0. Proof. by intros [?|?]. Qed.

Lemma lights_sequence c n s : keeps (lights c n) (key_sequence s).
Proof.
  assert (U : forall f u, keeps (lights c n) (keybd_event f 0 u ;; mret tt)).
  { intros. apply keeps_bind; [apply lights_keybd, zero_not_light|intros; apply keeps_ret]. }
  apply keeps_each. intros ch _. destruct (encode_utf16 ch) as [|u [|v us]]; [apply keeps_ret| |].
  - apply keeps_bind; [apply U|intros; apply U].
  - apply keeps_each. intros; apply U.
Qed.

Lemma lights_chr c n chr down : keeps (lights c n) (process_chr to_uppercase chr down).
Proof.
  assert (N : not_light (char_value_to_key chr)) by apply zero_not_light.
  unfold process_chr. destruct down; [|by apply lights_key_up].
  apply keeps_bind; [by apply lights_key_down|]. intros []; [apply keeps_ret|].
  destruct (char_from_u32 chr); [|apply keeps_ret].
  apply keeps_bind; [apply keeps_gets|intros; apply lights_sequence].
Qed.

Lemma lights_process c n ck down :
  ck <> ck_value ControlKey.CapsLock -> ck <> ck_value ControlKey.NumLock ->
  keeps (lights c n) (process_control_key ck down).
Proof.
  intros NC NN. unfold process_control_key, control_key_value_to_key.
  destruct (KEY_MAP !! ck) as [key|] eqn:E; [|apply keeps_ret].
  apply KEY_MAP_plain in E as (ck' & -> & P). destruct (plain_light ck' key P) as [PC PN].
  assert (N : not_light key) by (eapply plain_not_light; [done|intros ->; apply NC; by rewrite (proj1 PC)|intros ->; apply NN; by rewrite (proj1 PN)]).
  destruct down; [|by apply lights_key_up]. apply keeps_bind; [by apply lights_key_down|intros; apply keeps_ret].
Qed.

Abbreviation slights c n := (fun s : Server S => lights c n (dev s)).

Lemma keeps_en {A} c n (m : M D A) : keeps (lights c n) m -> keeps (slights c n) (en m).
Proof. intros Hm s L. rewrite en_dev. by apply Hm. Qed.

Lemma keeps_record c n k down : keeps (slights c n) (record_pressed_key k down).
Proof. by intros s L. Qed.

Lemma lights_legacy c n evt : lit c n (ke_modifiers evt) ->
  ke_union evt <> Some (UControlKey (ck_value ControlKey.CapsLock)) ->
  ke_union evt <> Some (UControlKey (ck_value ControlKey.NumLock)) ->
  keeps (slights c n) (legacy_keyboard_mode to_uppercase evt).
Proof.
  intros L NC NN. unfold legacy_keyboard_mode. apply keeps_bind.
  { apply keeps_en. intros d (C & N & PC & PN). unfold lights, change_desktop. cbn [snd os].
    destruct (light_desktop EVK_CAPITAL (os d)) as [-> ->]; [done|].
    by destruct (light_desktop EVK_NUMLOCK (os d)) as [-> ->]. }
  intros _.
  apply triple_bind with (Q := fun ks s => lights c n (dev s) /\ Forall not_light ks).
  { intros s Ls. rewrite en_dev, en_fst. revert Ls. generalize (dev s). unfold sync_modifiers.
    destruct (ke_down evt); [|intros d Ld; by split; [|apply Forall_nil_2]].
    exact (triple_bind _ _ _ (fun _ => lights c n) _ (lights_fix c n _ _) (fun _ => lights_press c n _ _ L)). }
  intros to_release s [Ls F]. revert s Ls.
  pose proof (keeps_en c n _ (lights_release c n to_release F)) as R.
  match goal with |- forall s, lights c n (dev s) -> lights c n (dev (snd (?m s))) => change (keeps (slights c n) m) end.
  destruct (ke_union evt) as [[ck|ch|ch|l|code]|]; try exact R.
  - apply keeps_bind.
    { apply keeps_en. unfold is_function_key. destruct (ck =? _); [by intros d Ld|].
      destruct (ck =? _); by intros d Ld. }
    intros []; [apply keeps_ret|]. apply keeps_bind; [apply keeps_record|]. intros _.
    apply keeps_bind; [apply keeps_en, lights_process; congruence|intros; exact R].
  - apply keeps_bind; [apply keeps_record|]. intros _. apply keeps_bind; [apply keeps_en, lights_chr|intros; exact R].
  - apply keeps_bind; [apply keeps_en|intros; exact R]. unfold process_unicode.
    destruct (char_from_u32 ch); [apply lights_sequence|apply keeps_ret].
  - apply keeps_bind; [apply keeps_en, lights_sequence|intros; exact R].
Qed.

(** What the event wants the lights to be. *)
Definition wanted (evt : KeyEvent) (pad n : bool) : bool :=
  if pad then is_modifier_enabled evt ControlKey.NumLock
  else n && negb (is_legacy_mode evt && should_disable_numlock evt).

Lemma lights_when_caps b c n : triple (lights c n) (when b (key_click Key.CapsLock)) (fun _ => lights (xorb b c) n).
Proof. destruct b; [apply lights_click_caps|apply keeps_ret]. Qed.
Lemma lights_when_num b c n : triple (lights c n) (when b (key_click Key.NumLock)) (fun _ => lights c (xorb b n)).
Proof. destruct b; [apply lights_click_num|apply keeps_ret]. Qed.

Lemma lights_lock_new c n evt pad : triple (lights c n) (lock_new evt pad) (fun h d =>
  lights (is_modifier_enabled evt ControlKey.CapsLock) (wanted evt pad n) d /\
  h = mkLock (xorb (is_modifier_enabled evt ControlKey.CapsLock) c) (xorb (wanted evt pad n) n)).
Proof.
  unfold lock_new. set (caps := is_modifier_enabled evt ControlKey.CapsLock).
  apply triple_bind with (Q := fun a d => lights c n d /\ a = c).
  { intros d L. split; [exact L|]. cbn [fst gets]. rewrite <- (proj1 L). apply land_1. }
  intros a. apply triple_bind with (Q := fun _ d => lights caps n d /\ a = c).
  { intros d [L ->]. split; [|done].
    pose proof (lights_when_caps (negb (Bool.eqb caps c)) c n d L) as Q.
    by replace (xorb (negb (Bool.eqb caps c)) c) with caps in Q by (by destruct caps, c). }
  intros _. apply triple_bind with (Q := fun b d => lights caps n d /\ a = c /\ b = n).
  { intros d [L ->]. split_and!; [exact L|done|]. cbn [fst gets]. rewrite <- (proj1 (proj2 L)). apply land_1. }
  intros b. set (ch := if pad then _ else _).
  apply triple_bind with (Q := fun _ d => lights caps (wanted evt pad n) d /\ a = c /\ b = n).
  { intros d (L & -> & ->). split_and!; [|done..].
    replace (wanted evt pad n) with (xorb ch n); [exact (lights_when_num ch caps n d L)|].
    unfold wanted, ch. destruct pad; [by destruct (is_modifier_enabled evt ControlKey.NumLock), n|].
    by destruct (is_legacy_mode evt), (should_disable_numlock evt), n. }
  intros _ d (L & -> & ->). split; [exact L|]. cbn [fst mret M_ret]. f_equal; [by destruct caps, c|].
  unfold wanted, ch. destruct pad; [by destruct (is_modifier_enabled evt ControlKey.NumLock), n|]. by destruct (is_legacy_mode evt), (should_disable_numlock evt), n.
Qed.

Lemma lights_lock_drop c n c' n' :
  triple (lights c' n') (lock_drop (mkLock (xorb c' c) (xorb n' n))) (fun _ => lights c n).
Proof.
  unfold lock_drop. cbn [caps_lock_changed num_lock_changed].
  apply triple_bind with (Q := fun _ => lights c n').
  { pose proof (lights_when_caps (xorb c' c) c' n') as Q.
    by replace (xorb (xorb c' c) c') with c in Q by (by destruct c, c'). }
  intros _. pose proof (lights_when_num (xorb n' n) c n') as Q.
  by replace (xorb (xorb n' n) n') with n in Q by (by destruct n, n').
Qed.

Lemma handle_keeps_lights (evt : KeyEvent) (s : Server S) (c n : bool) :
  exiting s = false -> lights c n (dev s) ->
  mode_value (ke_mode evt) <> Some Map -> mode_value (ke_mode evt) <> Some Translate ->
  ke_union evt <> Some (UControlKey (ck_value ControlKey.CapsLock)) ->
  ke_union evt <> Some (UControlKey (ck_value ControlKey.NumLock)) ->
  (ck_value ControlKey.CapsLock ∈ ke_modifiers evt -> lock_handling evt <> None) ->
  (ck_value ControlKey.NumLock ∈ ke_modifiers evt -> lock_handling evt = Some true) ->
  lights c n (dev (snd (handle_key_ to_uppercase evt s))).
Proof.
  intros E L HM HT NC NN LC LN.
  assert (I : forall c' n', lit c' n' (ke_modifiers evt) -> keeps (slights c' n') (inject to_uppercase evt)).
  { intros c' n' Lit. unfold inject. destruct (mode_value (ke_mode evt)) as [[]|]; try congruence; by apply lights_legacy. }
  unfold handle_key_. rewrite bind_eq. cbn [fst snd gets]. rewrite E.
  destruct (lock_handling evt) as [pad|].
  - pose proof (lights_lock_new c n evt pad (dev s) L) as [L1 Eh].
    rewrite bind_eq, en_fst, Eh, bind_eq, en_dev. apply lights_lock_drop, I; [|by rewrite en_dev].
    split; [intros C; by apply bool_decide_eq_true|]. intros N. specialize (LN N). injection LN as ->.
    by apply bool_decide_eq_true.
  - apply (I c n); [|done]. split; [intros C; by destruct (LC C)|intros N; by specialize (LN N)].
Qed.

(** The lights of the keyboard are left as they are: whatever the state of Caps Lock
    and Num Lock on either side, after an event in the older keyboard mode both are what
    they were.  The event is not for one of the two keys itself, it carries the state of
    Caps Lock only where the lights are looked at, and that of Num Lock only for a key of
    the number pad. *)
Theorem lights_restored (evt : KeyEvent) (s : Server S) (c n : bool) :
  exiting s = false -> lights c n (dev s) ->
  mode_value (ke_mode evt) <> Some Map -> mode_value (ke_mode evt) <> Some Translate ->
  ke_union evt <> Some (UControlKey (ck_value ControlKey.CapsLock)) ->
  ke_union evt <> Some (UControlKey (ck_value ControlKey.NumLock)) ->
  (ck_value ControlKey.CapsLock ∈ ke_modifiers evt -> lock_handling evt <> None) ->
  (ck_value ControlKey.NumLock ∈ ke_modifiers evt -> lock_handling evt = Some true) ->
  lights c n (dev (snd (handle_key_ to_uppercase evt s))).
Proof. intros. by apply handle_keeps_lights. Qed.
End Lights.

(** ** The keyboard of the examples *)

Lemma kb_toggled vk k : toggled vk k = bool_decide (vk ∈ kb_on k).
Proof. unfold toggled. cbn [GetKeyState keyboard_windows]. case_bool_decide; repeat case_decide; done. Qed.

Lemma kb_pressed vk k : pressed vk k = bool_decide (vk ∈ kb_down k).
Proof. unfold pressed. cbn [GetKeyState keyboard_windows]. case_bool_decide; repeat case_decide; done. Qed.

#[export] Instance keyboard_lights : LightLaws keyboard.
Proof.
  split; cbn zeta; intros; rewrite ?kb_toggled, ?kb_pressed; cbn [SendInput keyboard_windows snd kb_input try_change_desktop] in *.
  - rewrite kb_pressed in *. rewrite H0. apply bool_decide_eq_false in H1. rewrite decide_False by done. cbn [kb_on kb_down].
    split; [|by apply bool_decide_eq_true; set_solver].
    case_decide; [rewrite bool_decide_eq_false_2, (bool_decide_eq_true_2 (vk ∈ kb_on s)) by set_solver|
      rewrite bool_decide_eq_true_2, (bool_decide_eq_false_2 (vk ∈ kb_on s)) by set_solver]; done.
  - rewrite H0. cbn [kb_on kb_down]. split; [done|]. apply bool_decide_eq_false. set_solver.
  - destruct (Z.testbit f 1); [|case_decide]; cbn [kb_on kb_down]; [split; [done|]..|];
      [apply bool_decide_ext; set_solver|done|].
    split; [|apply bool_decide_ext; set_solver]. case_decide; apply bool_decide_ext; set_solver.
  - done.
  - cbn [VkKeyScanEx keyboard_windows].
    assert (K : let code := Z.land (u16 (if (97 <=? c) && (c <=? 122) then c - 32 else -1)) 255 in
                65 <= code <= 90 \/ code = 255).
    { cbn zeta. destruct (97 <=? c) eqn:C1, (c <=? 122) eqn:C2; [left|by right..].
      rewrite Z.leb_le in C1, C2. change 255 with (Z.ones 8).
      cbn [andb]. rewrite Z.land_ones, wrap_small, Z.mod_small by (unfold in_u; lia). lia. }
    revert K. generalize (Z.land (u16 (if (97 <=? c) && (c <=? 122) then c - 32 else -1)) 255).
    unfold is_light, EVK_CAPITAL, EVK_NUMLOCK. cbn zeta. intros code K E. clear -K E. lia.
Qed.

(** Ctrl and the letter x; Num Lock is on here and off at the other side. *)
Definition control_x : KeyEvent := mkKeyEvent true false (Some (UChr 120)) [ck_value ControlKey.Control] 0.
Definition num_server : Server keyboard :=
  mkServer (a_device (mkKeyboard ∅ {[ EVK_NUMLOCK ]})) ∅ false (mkInput 0 0 0 0) 0 0.

Lemma modifiers_given_back_witness :
  exists l lights keys, trace (dev (snd (handle_key_ (fun c => [c]) control_x num_server))) = [] ++ l /\
    keys_of l = lights ++ keys ++ lights /\ sandwich control_x keys /\
    (lights <> [] -> exists h, lights = clicks h).
Proof. exact (modifiers_given_back (fun c => [c]) control_x num_server eq_refl eq_refl ltac:(discriminate) ltac:(discriminate)). Defined.

(** The key 7 of the number pad: Num Lock is switched off for it, and on again. *)
Definition home : KeyEvent := mkKeyEvent true false (Some (UControlKey (ck_value ControlKey.Home))) [] 0.

Lemma lights_restored_witness :
  lights false true (dev (snd (handle_key_ (fun c => [c]) home num_server))) /\
  keys_of (trace (dev (snd (handle_key_ (fun c => [c]) home num_server)))) =
    click Key.NumLock ++ downs [Key.Home] ++ click Key.NumLock.
Proof.
  split; [|vm_compute; reflexivity].
  apply (lights_restored (fun c => [c]) home num_server false true eq_refl);
    [repeat split; vm_compute; reflexivity|discriminate..| |]; intros I; by apply elem_of_nil in I.
Defined.

(** The minus key of the number pad, from a client where Num Lock is on, to a machine where
    it is off: it is not among the keys for which the light is looked at, so Num Lock is
    pressed as a missing modifier and stays on. *)
Example numpad_minus_switches_numlock :
  let minus := mkKeyEvent true false (Some (UControlKey (ck_value ControlKey.Subtract))) [ck_value ControlKey.NumLock] 0 in
  let s := snd (handle_key_ (fun c => [c]) minus a_server) in
  toggled EVK_NUMLOCK (os (dev a_server)) = false /\ toggled EVK_NUMLOCK (os (dev s)) = true.
Proof. vm_compute. split; reflexivity. Qed.

(** Ctrl+Alt+Del with modifiers: they stay down. *)
Example function_key_keeps_modifiers :
  let cad := mkKeyEvent true false (Some (UControlKey (ck_value ControlKey.CtrlAltDel))) [ck_value ControlKey.Shift] 0 in
  let s := snd (handle_key_ (fun c => [c]) cad a_server) in
  pressed EVK_SHIFT (os (dev s)) = true /\ keys_down s = ∅.
Proof. vm_compute. split; reflexivity. Qed.
