(* ===== verification/Keyboard.v ===== *)
(** * Keyboard of the controlling machine

    [src/keyboard.rs] in a build for Windows, with [send_key_event] of
    [src/ui_session_interface.rs]: how the keys of this machine become events for the other
    side in the three keyboard modes, which modifiers and keys are remembered as down, and
    how all are released when the window is left. *)

From S2P Require Import Prelude LoginConfig Keys Enigo Input.
#[local] Open Scope Z_scope.

(** ** Events of the local keyboard *)

(** [UnicodeInfo] of rdev: the characters of the name. *)
Record UnicodeInfo : Type := mkUnicode { u_name : option (list Z); u_is_dead : bool }.

Inductive EventType : Type := KeyPress (k : RKey) | KeyRelease (k : RKey) | OtherEvent.

Record Event : Type := mkEvent {
  event_type : EventType; unicode : option UnicodeInfo; platform_code : Z; position_code : Z
}.
Definition with_type (t : EventType) (e : Event) : Event :=
  mkEvent t (unicode e) (platform_code e) (position_code e).

(** The tables of rdev. *)
Class Rdev := {
  win_scancode_to_macos_iso_code : Z -> option Z;
  win_scancode_to_macos_code : Z -> option Z;
  win_scancode_to_android_key_code : Z -> option Z;
  win_scancode_to_linux_code : Z -> option Z;
  key_from_code : bool -> Z -> RKey;               (** of macOS, of the others but Windows *)
  code_from_key : bool -> RKey -> option Z;
  win_key_of_scancode : Z -> RKey;
  win_scancode_from_key : RKey -> option Z;
}.

(** What else an event depends on: the state of the local keys, the platform of the other
    side, the layout that is set, the characters of the local layout, and the option to swap
    Control and Command. *)
Record Local : Type := mkLocal {
  local_key : Key -> bool;
  win_key : bool;
  peer_platform : list Z;
  kb_layout_iso : bool;
  char_from_vk : Z -> option Z;
  unicode_from_vk : Z -> option Z;
  allow_swap_key : bool;
}.

(** What the file keeps, with the modifiers that rdev has been told and the events sent. *)
(* src/src/keyboard.rs:42-56 TO_RELEASE *)
Record Keyboard : Type := mkKbd {
  TO_RELEASE : gmap RKey Event;
  MODIFIERS_STATE : gmap RKey bool;
  IS_ALT_GR : bool;
  IS_0X021D_DOWN : bool;
  KEYBOARD_HOOKED : bool;
  rdev_modifiers : gmap RKey bool;
  outbox : list KeyEvent;
}.
Definition k_set_release (v : gmap RKey Event) (k : Keyboard) : Keyboard :=
  mkKbd v (MODIFIERS_STATE k) (IS_ALT_GR k) (IS_0X021D_DOWN k) (KEYBOARD_HOOKED k) (rdev_modifiers k) (outbox k).
Definition k_set_modifiers (v : gmap RKey bool) (k : Keyboard) : Keyboard :=
  mkKbd (TO_RELEASE k) v (IS_ALT_GR k) (IS_0X021D_DOWN k) (KEYBOARD_HOOKED k) (rdev_modifiers k) (outbox k).
Definition k_set_alt_gr (v : bool) (k : Keyboard) : Keyboard :=
  mkKbd (TO_RELEASE k) (MODIFIERS_STATE k) v (IS_0X021D_DOWN k) (KEYBOARD_HOOKED k) (rdev_modifiers k) (outbox k).
Definition k_set_021d (v : bool) (k : Keyboard) : Keyboard :=
  mkKbd (TO_RELEASE k) (MODIFIERS_STATE k) (IS_ALT_GR k) v (KEYBOARD_HOOKED k) (rdev_modifiers k) (outbox k).
Definition k_set_hooked (v : bool) (k : Keyboard) : Keyboard :=
  mkKbd (TO_RELEASE k) (MODIFIERS_STATE k) (IS_ALT_GR k) (IS_0X021D_DOWN k) v (rdev_modifiers k) (outbox k).
Definition k_set_rdev (v : gmap RKey bool) (k : Keyboard) : Keyboard :=
  mkKbd (TO_RELEASE k) (MODIFIERS_STATE k) (IS_ALT_GR k) (IS_0X021D_DOWN k) (KEYBOARD_HOOKED k) v (outbox k).
Definition k_send (e : KeyEvent) (k : Keyboard) : Keyboard :=
  mkKbd (TO_RELEASE k) (MODIFIERS_STATE k) (IS_ALT_GR k) (IS_0X021D_DOWN k) (KEYBOARD_HOOKED k) (rdev_modifiers k) (outbox k ++ [e]).

(* src/src/keyboard.rs:406-418 is_modifier *)
Definition is_modifier_rdev (key : RKey) : bool :=
  match key with
  | RKey.ShiftLeft | RKey.ShiftRight | RKey.ControlLeft | RKey.ControlRight | RKey.MetaLeft | RKey.MetaRight
  | RKey.Alt | RKey.AltGr => true
  | _ => false
  end.

(* src/src/keyboard.rs:44-55 MODIFIERS_STATE *)
Definition modifiers_up : gmap RKey bool :=
  list_to_map ((fun k => (k, false)) <$> [RKey.ShiftLeft; RKey.ShiftRight; RKey.ControlLeft; RKey.ControlRight;
                                          RKey.Alt; RKey.AltGr; RKey.MetaLeft; RKey.MetaRight]).
Definition new_keyboard : Keyboard := mkKbd ∅ modifiers_up false false false ∅ [].

(** [*modifiers_lock.get(..).unwrap()]: the keys are always there. *)
Definition modifier_down (k : Keyboard) (key : RKey) : bool := default false (MODIFIERS_STATE k !! key).
(** [rdev::get_modifier]. *)
Definition rdev_down (k : Keyboard) (key : RKey) : bool := default false (rdev_modifiers k !! key).

(* src/src/keyboard.rs:396-403 get_keyboard_mode_enum *)
Definition get_keyboard_mode_enum (keyboard_mode : string) : KeyboardMode :=
  if decide (keyboard_mode = "translate"%string) then Translate
  else if decide (keyboard_mode = "legacy"%string) then Legacy
  else Map.

(** [char::is_whitespace], and [to_lowercase]: the names below are plain letters, and no
    other character has one of their letters as its lower case. *)
Definition is_whitespace (c : Z) : bool :=
  ((9 <=? c) && (c <=? 13)) || bool_decide (c ∈ [0x20; 0x85; 0xA0; 0x1680; 0x2028; 0x2029; 0x202F; 0x205F; 0x3000]) ||
  ((0x2000 <=? c) && (c <=? 0x200A)).
Definition to_lower (c : Z) : Z := if (65 <=? c) && (c <=? 90) then c + 32 else c.
Definition chars_of (s : string) : list Z := (fun b => byte.unsigned b) <$> String.list_byte_of_string s.

Inductive Peer : Type := PeerWindows | PeerMacos | PeerAndroid | PeerLinux.

#[export] Instance Peer_eq_dec : EqDecision Peer.
Proof. solve_decision. Defined.

(** The name with spaces taken out, in small letters, as it is compared; all other names
    are treated like Linux but by [try_fill_unicode]. *)
Definition lower_platform (platform : list Z) : list Z :=
  filter (fun c => is_whitespace c = false) (to_lower <$> platform).
Definition peer_of (platform : list Z) : Peer :=
  if decide (lower_platform platform = chars_of "windows") then PeerWindows
  else if decide (lower_platform platform = chars_of "macos") then PeerMacos
  else if decide (lower_platform platform = chars_of "android") then PeerAndroid
  else PeerLinux.
Definition is_linux_name (platform : list Z) : bool := bool_decide (lower_platform platform = chars_of "linux").

(** [peer_platform() == "Windows"]. *)
Definition is_win (l : Local) : bool := bool_decide (peer_platform l = chars_of "Windows").

(** ** Classes of keys *)

(* src/src/keyboard.rs:455-485 is_letter_rdev_key *)
Definition is_letter_rdev_key (key : RKey) : bool :=
  match key with
  | RKey.KeyA | RKey.KeyB | RKey.KeyC | RKey.KeyD | RKey.KeyE | RKey.KeyF | RKey.KeyG | RKey.KeyH | RKey.KeyI
  | RKey.KeyJ | RKey.KeyK | RKey.KeyL | RKey.KeyM | RKey.KeyN | RKey.KeyO | RKey.KeyP | RKey.KeyQ | RKey.KeyR
  | RKey.KeyS | RKey.KeyT | RKey.KeyU | RKey.KeyV | RKey.KeyW | RKey.KeyX | RKey.KeyY | RKey.KeyZ => true
  | _ => false
  end.

(* src/src/keyboard.rs:490-495 is_letter_rdev_key_ex *)
Definition is_letter_rdev_key_ex (key : RKey) : bool :=
  match key with
  | RKey.LeftBracket | RKey.RightBracket | RKey.SemiColon | RKey.Quote | RKey.Comma | RKey.Dot => true
  | _ => false
  end.

(** The key of an event, and whether it goes down. *)
Definition key_event_of (e : Event) : option (RKey * bool) :=
  match event_type e with KeyPress k => Some (k, true) | KeyRelease k => Some (k, false) | OtherEvent => None end.

(* src/src/keyboard.rs:498-500 is_numpad_key *)
Definition is_numpad_key (e : Event) : bool :=
  match key_event_of e with Some (k, _) => is_numpad_rdev_key k | None => false end.

(* src/src/keyboard.rs:505-507 is_letter_key_4_lock_modes *)
Definition is_letter_key_4_lock_modes (e : Event) : bool :=
  match key_event_of e with Some (k, _) => is_letter_rdev_key k || is_letter_rdev_key_ex k | None => false end.

(* src/src/keyboard.rs:509-527 parse_add_lock_modes_modifiers *)
Definition parse_add_lock_modes_modifiers (lock_modes : Z) (is_numpad is_letter : bool) (e : KeyEvent) : KeyEvent :=
  let e := if is_letter && negb (Z.land lock_modes (Z.shiftl 1 1) =? 0) then push_modifier ControlKey.CapsLock e else e in
  if is_numpad && negb (Z.land lock_modes (Z.shiftl 1 2) =? 0) then push_modifier ControlKey.NumLock e else e.

(* src/src/keyboard.rs:530-537 add_lock_modes_modifiers *)
Definition add_lock_modes_modifiers (l : Local) (is_numpad is_letter : bool) (e : KeyEvent) : KeyEvent :=
  let e := if is_letter && local_key l Key.CapsLock then push_modifier ControlKey.CapsLock e else e in
  if is_numpad && local_key l Key.NumLock then push_modifier ControlKey.NumLock e else e.

(* src/src/keyboard.rs:540-558 convert_numpad_keys *)
Definition convert_numpad_keys (l : Local) (key : RKey) : RKey :=
  if local_key l Key.NumLock then key
  else match key with
       | RKey.Kp0 => RKey.Insert | RKey.KpDecimal => RKey.Delete | RKey.Kp1 => RKey.End | RKey.Kp2 => RKey.DownArrow
       | RKey.Kp3 => RKey.PageDown | RKey.Kp4 => RKey.LeftArrow | RKey.Kp5 => RKey.Clear
       | RKey.Kp6 => RKey.RightArrow | RKey.Kp7 => RKey.Home | RKey.Kp8 => RKey.UpArrow | RKey.Kp9 => RKey.PageUp
       | _ => key
       end.

(** ** What is remembered *)

(* src/src/keyboard.rs:560-576 update_modifiers_state *)
Definition update_modifiers_state (e : Event) (k : Keyboard) : Keyboard :=
  match key_event_of e with
  | Some (key, down) =>
      if decide (is_Some (MODIFIERS_STATE k !! key)) then k_set_modifiers (<[key := down]> (MODIFIERS_STATE k)) k else k
  | None => k
  end.

(* src/src/keyboard.rs:589-597 event_to_key_events *)
Definition update_to_release (e : Event) (k : Keyboard) : Keyboard :=
  match event_type e with
  | KeyPress key => k_set_release (<[key := e]> (TO_RELEASE k)) k
  | KeyRelease key => k_set_release (delete key (TO_RELEASE k)) k
  | OtherEvent => k
  end.

(* src/src/keyboard.rs:363-376 is_long_press *)
Definition is_long_press (e : Event) (k : Keyboard) : bool :=
  match event_type e with KeyPress key => modifier_down k key | _ => false end.

(** ** The older mode *)

(* src/src/keyboard.rs:134-155 get_modifiers_state *)
Definition get_modifiers_state (k : Keyboard) (alt ctrl shift command : bool) : bool * bool * bool * bool :=
  (modifier_down k RKey.Alt || modifier_down k RKey.AltGr || alt,
   modifier_down k RKey.ControlLeft || modifier_down k RKey.ControlRight || ctrl,
   modifier_down k RKey.ShiftLeft || modifier_down k RKey.ShiftRight || shift,
   modifier_down k RKey.MetaLeft || modifier_down k RKey.MetaRight || command).

Definition push_unless (b : bool) (m own other : ControlKey) (e : KeyEvent) : KeyEvent :=
  if b && negb (is_control_key e own) && negb (is_control_key e other) then push_modifier m e else e.

(* src/src/keyboard.rs:157-188 legacy_modifiers *)
Definition legacy_modifiers (alt ctrl shift command : bool) (e : KeyEvent) : KeyEvent :=
  let e := push_unless alt ControlKey.Alt ControlKey.Alt ControlKey.RAlt e in
  let e := push_unless shift ControlKey.Shift ControlKey.Shift ControlKey.RShift e in
  let e := push_unless ctrl ControlKey.Control ControlKey.Control ControlKey.RControl e in
  push_unless command ControlKey.Meta ControlKey.Meta ControlKey.RWin e.

(* src/src/keyboard.rs:205-211 event_lock_screen *)
Definition event_lock_screen : KeyEvent :=
  ke_set_mode (mode_number Legacy)
    (ke_set_down true (ke_set_union (UControlKey (ck_value ControlKey.LockScreen)) new_key_event)).

(* src/src/keyboard.rs:219-231 event_ctrl_alt_del *)
Definition event_ctrl_alt_del (l : Local) : KeyEvent :=
  ke_set_mode (mode_number Legacy)
    (if is_win l then ke_set_down true (ke_set_union (UControlKey (ck_value ControlKey.CtrlAltDel)) new_key_event)
     else ke_set_press true (legacy_modifiers true true false false
            (ke_set_union (UControlKey (ck_value ControlKey.Delete)) new_key_event))).

(** The keys with a name of their own. *)
(* src/src/keyboard.rs:697-788 legacy_keyboard_mode *)
Definition legacy_control_key (key : RKey) : option ControlKey :=
  match key with
  | RKey.Alt => Some ControlKey.Alt | RKey.AltGr => Some ControlKey.RAlt
  | RKey.Backspace => Some ControlKey.Backspace | RKey.ControlRight => Some ControlKey.RControl
  | RKey.DownArrow => Some ControlKey.DownArrow | RKey.Escape => Some ControlKey.Escape
  | RKey.F1 => Some ControlKey.F1 | RKey.F10 => Some ControlKey.F10 | RKey.F11 => Some ControlKey.F11
  | RKey.F12 => Some ControlKey.F12 | RKey.F2 => Some ControlKey.F2 | RKey.F3 => Some ControlKey.F3
  | RKey.F4 => Some ControlKey.F4 | RKey.F5 => Some ControlKey.F5 | RKey.F6 => Some ControlKey.F6
  | RKey.F7 => Some ControlKey.F7 | RKey.F8 => Some ControlKey.F8 | RKey.F9 => Some ControlKey.F9
  | RKey.LeftArrow => Some ControlKey.LeftArrow | RKey.MetaLeft => Some ControlKey.Meta
  | RKey.MetaRight => Some ControlKey.RWin | RKey.Return => Some ControlKey.Return
  | RKey.RightArrow => Some ControlKey.RightArrow | RKey.ShiftLeft => Some ControlKey.Shift
  | RKey.ShiftRight => Some ControlKey.RShift | RKey.Space => Some ControlKey.Space
  | RKey.Tab => Some ControlKey.Tab | RKey.UpArrow => Some ControlKey.UpArrow
  | RKey.Apps => Some ControlKey.Apps | RKey.Cancel => Some ControlKey.Cancel
  | RKey.Clear => Some ControlKey.Clear | RKey.Kana => Some ControlKey.Kana
  | RKey.Hangul => Some ControlKey.Hangul | RKey.Junja => Some ControlKey.Junja
  | RKey.Final => Some ControlKey.Final | RKey.Hanja => Some ControlKey.Hanja
  | RKey.Hanji => Some ControlKey.Hanja | RKey.Lang2 => Some ControlKey.Convert
  | RKey.Print => Some ControlKey.Print | RKey.Select => Some ControlKey.Select
  | RKey.Execute => Some ControlKey.Execute | RKey.PrintScreen => Some ControlKey.Snapshot
  | RKey.Help => Some ControlKey.Help | RKey.Sleep => Some ControlKey.Sleep
  | RKey.Separator => Some ControlKey.Separator | RKey.KpReturn => Some ControlKey.NumpadEnter
  | RKey.Kp0 => Some ControlKey.Numpad0 | RKey.Kp1 => Some ControlKey.Numpad1
  | RKey.Kp2 => Some ControlKey.Numpad2 | RKey.Kp3 => Some ControlKey.Numpad3
  | RKey.Kp4 => Some ControlKey.Numpad4 | RKey.Kp5 => Some ControlKey.Numpad5
  | RKey.Kp6 => Some ControlKey.Numpad6 | RKey.Kp7 => Some ControlKey.Numpad7
  | RKey.Kp8 => Some ControlKey.Numpad8 | RKey.Kp9 => Some ControlKey.Numpad9
  | RKey.KpDivide => Some ControlKey.Divide | RKey.KpMultiply => Some ControlKey.Multiply
  | RKey.KpDecimal => Some ControlKey.Decimal | RKey.KpMinus => Some ControlKey.Subtract
  | RKey.KpPlus => Some ControlKey.Add | RKey.Home => Some ControlKey.Home | RKey.End => Some ControlKey.End
  | RKey.Insert => Some ControlKey.Insert | RKey.PageUp => Some ControlKey.PageUp
  | RKey.PageDown => Some ControlKey.PageDown | RKey.Pause => Some ControlKey.Pause
  | RKey.ControlLeft => Some ControlKey.Control | RKey.Delete => Some ControlKey.Delete
  | _ => None
  end.

(** The character of a key whose event names none. *)
(* src/src/keyboard.rs:812-861 legacy_keyboard_mode *)
Definition legacy_char (key : RKey) : Z :=
  match key with
  | RKey.Num1 => 49 | RKey.Num2 => 50 | RKey.Num3 => 51 | RKey.Num4 => 52 | RKey.Num5 => 53 | RKey.Num6 => 54
  | RKey.Num7 => 55 | RKey.Num8 => 56 | RKey.Num9 => 57 | RKey.Num0 => 48 | RKey.KeyA => 97 | RKey.KeyB => 98
  | RKey.KeyC => 99 | RKey.KeyD => 100 | RKey.KeyE => 101 | RKey.KeyF => 102 | RKey.KeyG => 103
  | RKey.KeyH => 104 | RKey.KeyI => 105 | RKey.KeyJ => 106 | RKey.KeyK => 107 | RKey.KeyL => 108
  | RKey.KeyM => 109 | RKey.KeyN => 110 | RKey.KeyO => 111 | RKey.KeyP => 112 | RKey.KeyQ => 113
  | RKey.KeyR => 114 | RKey.KeyS => 115 | RKey.KeyT => 116 | RKey.KeyU => 117 | RKey.KeyV => 118
  | RKey.KeyW => 119 | RKey.KeyX => 120 | RKey.KeyY => 121 | RKey.KeyZ => 122 | RKey.Comma => 44
  | RKey.Dot => 46 | RKey.SemiColon => 59 | RKey.Quote => 39 | RKey.LeftBracket => 91
  | RKey.RightBracket => 93 | RKey.Slash => 47 | RKey.BackSlash => 92 | RKey.Minus => 45 | RKey.Equal => 61
  | RKey.BackQuote => 96
  | _ => 0
  end.

(** The length of a character in UTF-8. *)
Definition utf8_len (c : Z) : Z := if c <? 0x80 then 1 else if c <? 0x800 then 2 else if c <? 0x10000 then 3 else 4.
Definition str_len (s : list Z) : Z := foldr (fun c n => utf8_len c + n) 0 s.

(* src/src/keyboard.rs:793-861 legacy_keyboard_mode *)
Definition char_of_event (e : Event) (key : RKey) : Z :=
  let chr := match unicode e ≫= u_name with
             | Some s => if str_len s <=? 2 then default 0 (head s) else 0
             | None => 0
             end in
  let chr := if chr =? 0xB7 then 0x60 else chr in
  if chr =? 0 then legacy_char key else chr.

Section Keyboard.
Context `{Rdev}.
Abbreviation K := Keyboard.

(** Keys whose codes are swapped. *)
Definition swap_rdev_key (key : RKey) : RKey :=
  match key with
  | RKey.ControlLeft => RKey.MetaLeft | RKey.MetaLeft => RKey.ControlLeft
  | RKey.ControlRight => RKey.MetaLeft | RKey.MetaRight => RKey.ControlLeft
  | _ => key
  end.
Definition swap_control_key (v : Z) : Z :=
  ck_value (match default ControlKey.Unknown (ControlKey.of_value v) with
            | ControlKey.Control => ControlKey.Meta | ControlKey.Meta => ControlKey.Control
            | ControlKey.RControl => ControlKey.Meta | ControlKey.RWin => ControlKey.Control
            | ck => ck
            end).

(* src/src/ui_session_interface.rs:684-757 Session::swap_modifier_key *)
Definition swap_modifier_key (l : Local) (msg : KeyEvent) : KeyEvent :=
  if allow_swap_key l then
    let msg := match ke_union msg with Some (UControlKey ck) => ke_set_union (UControlKey (swap_control_key ck)) msg | _ => msg end in
    let msg := mkKeyEvent (ke_down msg) (ke_press msg) (ke_union msg) (swap_control_key <$> ke_modifiers msg) (ke_mode msg) in
    let code := ke_chr msg in
    if code =? 0 then msg
    else
      ke_set_union (UChr (default 0 (match peer_of (peer_platform l) with
        | PeerWindows => win_scancode_from_key (swap_rdev_key (win_key_of_scancode code))
        | PeerMacos => code_from_key true (swap_rdev_key (key_from_code true code))
        | _ => code_from_key false (swap_rdev_key (key_from_code false code))
        end))) msg
  else msg.

(* src/src/ui_session_interface.rs:759-767 Session::send_key_event *)
Definition send_key_event (l : Local) (e : KeyEvent) : M K unit := modify (k_send (swap_modifier_key l e)).

(* src/src/keyboard.rs:656-882 legacy_keyboard_mode *)
Definition legacy_keyboard_mode (l : Local) (e : Event) (key_event : KeyEvent) : M K (list KeyEvent) :=
  match key_event_of e with
  | None => mret []
  | Some (key, down) =>
      let is_win := is_win l in
      let key := if is_win then convert_numpad_keys l key else key in
      let alt := local_key l Key.Alt in
      let tmp := local_key l Key.Control || local_key l Key.RightControl in
      alt_gr ← gets IS_ALT_GR;
      let kept := alt || bool_decide (key = RKey.AltGr) in
      modify (k_set_alt_gr (alt_gr && kept)) ;;
      let ctrl := if alt_gr && kept then false else tmp in
      let shift := local_key l Key.Shift || local_key l Key.RightShift in
      let command := win_key l in
      let finish (key_event : KeyEvent) : M K (list KeyEvent) :=
        '(alt, ctrl, shift, command) ← gets (fun k => get_modifiers_state k alt ctrl shift command);
        let key_event := legacy_modifiers alt ctrl shift command key_event in
        mret [if (down : bool) then ke_set_down true key_event else key_event] in
      if decide (key = RKey.ControlLeft /\ Z.shiftr (position_code e) 8 = 0xE0) then
        modify (k_set_alt_gr true) ;; mret []
      else if decide (key = RKey.Delete) then
        if is_win && ctrl && alt then send_key_event l (event_ctrl_alt_del l) ;; mret []
        else finish (ke_set_union (UControlKey (ck_value ControlKey.Delete)) key_event)
      else if decide (key = RKey.CapsLock \/ key = RKey.NumLock \/ key = RKey.ScrollLock) then mret []
      else
        match legacy_control_key key with
        | Some ck => finish (ke_set_union (UControlKey (ck_value ck)) key_event)
        | None =>
            let chr := char_of_event e key in
            if chr =? 0 then mret []
            else if (chr =? 0x6c) && is_win && command then send_key_event l event_lock_screen ;; mret []
            else finish (ke_set_union (UChr chr) key_event)
        end
  end.

(** ** Mode "map" *)

(* src/src/keyboard.rs:891-958 _map_keyboard_mode *)
Definition map_keyboard_mode (l : Local) (e : Event) (key_event : KeyEvent) : list KeyEvent :=
  match key_event_of e with
  | None => []
  | Some (_, down) =>
      let keycode :=
        match peer_of (peer_platform l) with
        | PeerWindows =>
            if (255 <? position_code e) && negb (Z.shiftr (position_code e) 8 =? 0xE0) then None
            else Some (position_code e)
        | PeerMacos =>
            if kb_layout_iso l then win_scancode_to_macos_iso_code (position_code e)
            else win_scancode_to_macos_code (position_code e)
        | PeerAndroid => win_scancode_to_android_key_code (position_code e)
        | PeerLinux => win_scancode_to_linux_code (position_code e)
        end in
      match keycode with
      | Some keycode => [ke_set_union (UChr (u32 keycode)) (ke_set_down down key_event)]
      | None => []
      end
  end.

(** ** Mode "translate" *)

(* src/src/keyboard.rs:1021-1032 is_hot_key_modifiers_down *)
Definition is_hot_key_modifiers_down (k : K) : bool :=
  rdev_down k RKey.ControlLeft || rdev_down k RKey.ControlRight || rdev_down k RKey.Alt || rdev_down k RKey.AltGr ||
  rdev_down k RKey.MetaLeft || rdev_down k RKey.MetaRight.

(* src/src/keyboard.rs:961-988 try_fill_unicode *)
Definition try_fill_unicode (l : Local) (e : Event) (key_event : KeyEvent) (k : K) : list KeyEvent :=
  let seq s := [ke_set_down true (ke_set_union (USeq s) key_event)] in
  match unicode e with
  | Some info =>
      match u_name info with
      | Some name => if 0 <? str_len name then seq name else []
      | None => []
      end
  | None =>
      if is_linux_name (peer_platform l) && is_hot_key_modifiers_down k && negb (IS_0X021D_DOWN k) then
        match char_from_vk l (platform_code e) with Some chr => seq [chr] | None => [] end
      else []
  end.

(* src/src/keyboard.rs:991-1018 try_fill_win2win_hotkey *)
Definition try_fill_win2win_hotkey (l : Local) (e : Event) (key_event : KeyEvent) (k : K) : list KeyEvent :=
  if bool_decide (peer_of (peer_platform l) = PeerWindows) && is_hot_key_modifiers_down k && negb (IS_0X021D_DOWN k) then
    let high := u32 (Z.shiftl (platform_code e) 16) in
    let hotkey :=
      match event_type e with
      | KeyPress _ => (fun u => Z.lor (Z.land u 0xFFFF) high) <$> unicode_from_vk l (platform_code e)
      | KeyRelease _ => Some high
      | OtherEvent => None
      end in
    match hotkey with
    | Some code =>
        [ke_set_down (match event_type e with KeyPress _ => true | _ => false end)
           (ke_set_union (UWin2winHotkey code) key_event)]
    | None => []
    end
  else [].

(* src/src/keyboard.rs:1036-1050 is_altgr *)
Definition is_altgr (e : Event) (k : K) : bool := IS_0X021D_DOWN k && (position_code e =? 0xE038).

(* src/src/keyboard.rs:1054-1056 is_press *)
Definition is_press (e : Event) : bool := match event_type e with KeyPress _ => true | _ => false end.

(* src/src/keyboard.rs:1059-1123 translate_keyboard_mode *)
Definition translate_keyboard_mode (l : Local) (e : Event) (key_event : KeyEvent) (k : K) : list KeyEvent :=
  if match unicode e with Some info => u_is_dead info | None => false end then []
  else if is_numpad_key e then map_keyboard_mode l e key_event
  else if is_altgr e k then []
  else if position_code e =? 0x021D then []
  else
    let events := try_fill_win2win_hotkey l e key_event k in
    let events :=
      match events with
      | [] => if is_press e then try_fill_unicode l e key_event k else []
      | _ => events
      end in
    if IS_0X021D_DOWN k then events
    else match events with [] => map_keyboard_mode l e key_event | _ => events end.

(** ** All modes *)

(* src/src/keyboard.rs:578-629 event_to_key_events *)
Definition event_to_key_events (l : Local) (e : Event) (mode : KeyboardMode) (lock_modes : option Z) : M K (list KeyEvent) :=
  modify (update_modifiers_state e) ;;
  modify (update_to_release e) ;;
  let key_event := ke_set_mode (mode_number mode) new_key_event in
  key_events ← (match mode with
                | Map => mret (map_keyboard_mode l e key_event)
                | Translate => gets (translate_keyboard_mode l e key_event)
                | _ => legacy_keyboard_mode l e key_event
                end);
  mret (if negb (bool_decide (mode = Translate)) || is_numpad_key e then
          match lock_modes with
          | Some lock_modes =>
              parse_add_lock_modes_modifiers lock_modes (is_numpad_key e) (is_letter_key_4_lock_modes e) <$> key_events
          | None => add_lock_modes_modifiers l (is_numpad_key e) (is_letter_key_4_lock_modes e) <$> key_events
          end
        else key_events).

(* src/src/keyboard.rs:107-116 process_event *)
Definition process_event (l : Local) (keyboard_mode : string) (e : Event) (lock_modes : option Z) : M K unit :=
  long ← gets (is_long_press e);
  if (long : bool) then mret tt
  else
    key_events ← event_to_key_events l e (get_keyboard_mode_enum keyboard_mode) lock_modes;
    each (send_key_event l) key_events.

(** [into_iter] of the copy of the map. *)
(* src/src/keyboard.rs:378-394 release_remote_keys *)
Definition release_remote_keys (l : Local) (keyboard_mode : string) : M K unit :=
  to_release ← gets (fun k => map_to_list (TO_RELEASE k));
  modify (k_set_release ∅) ;;
  each (fun '(key, event) =>
    process_event l keyboard_mode (with_type (KeyRelease key) event) None ;;
    when (bool_decide (key = RKey.Alt \/ key = RKey.AltGr))
      (process_event l keyboard_mode (with_type (KeyPress key) event) None ;;
       process_event l keyboard_mode (with_type (KeyRelease key) event) None)) to_release.

Inductive GrabState : Type := Ready | Run | Wait | Exit.

(* src/src/keyboard.rs:75-105 change_grab_status *)
Definition change_grab_status (l : Local) (rdev_enabled : bool) (state : GrabState) (keyboard_mode : string) : M K unit :=
  if negb rdev_enabled then mret tt
  else
    match state with
    | Ready | Exit => mret tt
    | Run => modify (k_set_hooked true)
    | Wait => release_remote_keys l keyboard_mode ;; modify (k_set_hooked false)
    end.

(** The key that rdev is told of, by scan code. *)
Definition modifier_of_scan (scan : Z) : option RKey :=
  match scan with
  | 0x1D | 0x021D => Some RKey.ControlLeft
  | 0xE01D => Some RKey.ControlRight
  | 0x2A => Some RKey.ShiftLeft
  | 0x36 => Some RKey.ShiftRight
  | 0x38 => Some RKey.Alt
  | 0xE038 => Some RKey.AltGr
  | 0xE05B => Some RKey.MetaLeft
  | 0xE05C => Some RKey.MetaRight
  | _ => None
  end.

(** The answer: whether the local system gets the event too. *)
(* src/src/keyboard.rs:273-327 start_grab_loop *)
Definition grabbed (l : Local) (keyboard_mode : string) (e : Event) : M K bool :=
  match key_event_of e with
  | None => mret true
  | Some (key, press) =>
      if decide (key = RKey.CapsLock \/ key = RKey.NumLock) then mret true
      else
        hooked ← gets KEYBOARD_HOOKED;
        (if (hooked : bool) then process_event l keyboard_mode e None else mret tt) ;;
        (match modifier_of_scan (position_code e) with
         | Some m => modify (fun k => k_set_rdev (<[m := press]> (rdev_modifiers k)) k)
         | None => mret tt
         end) ;;
        (if position_code e =? 0x021D then modify (k_set_021d press) else mret tt) ;;
        mret (if (hooked : bool) then negb press else true)
  end.

(** ** Keys from the user interface *)

(* src/src/ui_session_interface.rs:1024-1088 Session::_handle_key_non_flutter_simulation *)
Definition handle_key_non_flutter (l : Local) (win_code : RKey -> option Z) (keyboard_mode : string) (character : list Z)
    (key : RKey) (lock_modes : Z) (down : bool) : M K unit :=
  process_event l keyboard_mode
    (mkEvent (if down then KeyPress key else KeyRelease key)
       (match character with [] => None | _ => Some (mkUnicode (Some character) false) end)
       (default 0 (win_code key)) (default 0 (win_scancode_from_key key)))
    (Some lock_modes).

(* src/src/ui_session_interface.rs:1000-1022 Session::_handle_key_flutter_simulation *)
Definition handle_key_flutter (l : Local) (platform_code : Z) (down : bool) : M K unit :=
  match (match platform_code with
         | 0x007f => Some ControlKey.VolumeMute | 0x0080 => Some ControlKey.VolumeUp
         | 0x0081 => Some ControlKey.VolumeDown | 0x0066 => Some ControlKey.Power
         | _ => None
         end) with
  | Some ck => send_key_event l (mkKeyEvent down false (Some (UControlKey (ck_value ck))) [] (mode_number Translate))
  | None => mret tt
  end.

Inductive UiKey : Type := UiControlKey (ck : ControlKey) | UiChr (c : Z).

(* src/src/ui_session_interface.rs:1091-1130 Session::_input_key *)
Definition input_key (l : Local) (key : UiKey) (down press alt ctrl shift command : bool) : M K unit :=
  let e := ke_set_union (match key with UiControlKey ck => UControlKey (ck_value ck) | UiChr c => UChr c end) new_key_event in
  let e := if press then ke_set_press true e else if down then ke_set_down true e else e in
  send_key_event l (ke_set_mode (mode_number Legacy) (legacy_modifiers alt ctrl shift command e)).

End Keyboard.
