(* ===== verification/Leaving.v ===== *)
(** * The keyboard on both sides

    The events of [Keyboard], sent over a connection, at the other side: the thread that
    takes them ([handle_input] of [src/server/connection.rs]) hands them to [Input].  When
    the window is left, nothing stays down at the other side. *)

From S2P Require Import Prelude LoginConfig Keys Enigo Input HeldKeys Keyboard.
#[local] Open Scope Z_scope.

Section Leaving.
Context {S : Type} `{Windows S} `{Rdev}.
Context (to_uppercase : Z -> list Z).
Abbreviation handle := (handle_key_ to_uppercase).

(* src/src/server/connection.rs:974-985 Connection::handle_input *)
Definition handle_input_key (msg : KeyEvent) (press : bool) : M (Server S) unit :=
  let msg := ke_set_press false msg in
  let msg := if press then ke_set_down true msg else msg in
  handle msg ;;
  when press (handle (ke_set_down false msg)).

(** The decision what to hand to the thread, in a build for Windows. *)
(* src/src/server/connection.rs:2580-2609 Connection::on_message *)
Definition on_key_event (me : KeyEvent) : M (Server S) unit :=
  if ke_press me then
    match ke_union me with
    | Some (UUnicode _) | Some (USeq _) => handle_input_key me false
    | _ => handle_input_key me true
    end
  else handle_input_key me false.

(** ** One event in the mode "map" *)

(** Scan codes that are sent to a machine with Windows. *)
Definition passes (code : Z) : bool := negb ((255 <? code) && negb (Z.shiftr code 8 =? 0xE0)).

Definition map_event (code : Z) (down : bool) (mods : list Z) : KeyEvent :=
  mkKeyEvent down false (Some (UChr (u32 code))) mods 1.

(** The other side is a machine with Windows, and keys are not swapped. *)
Definition to_windows (l : Local) : Prop := peer_of (peer_platform l) = PeerWindows /\ allow_swap_key l = false.

Lemma add_locks_shape l pad letter code down : exists mods,
  add_lock_modes_modifiers l pad letter (map_event code down []) = map_event code down mods.
Proof.
  unfold add_lock_modes_modifiers.
  destruct (letter && _), (pad && _); unfold map_event, push_modifier; eauto.
Qed.

Lemma process_map l e key down k : to_windows l -> key_event_of e = Some (key, down) ->
  is_long_press e k = false ->
  let k' := snd (process_event l "map" e None k) in
  TO_RELEASE k' = (if down then <[key := e]> else delete key) (TO_RELEASE k) /\
  modifier_down k' key = (if decide (is_Some (MODIFIERS_STATE k !! key)) then down else false) /\
  exists mods, outbox k' = outbox k ++ (if passes (position_code e) then [map_event (position_code e) down mods] else []).
Proof.
  intros [PW NS] KE NL. unfold process_event. rewrite bind_eq. cbn [fst snd gets]. rewrite NL.
  rewrite bind_eq. cbn [get_keyboard_mode_enum].
  set (k1 := update_to_release e (update_modifiers_state e k)).
  assert (E1 : event_to_key_events l e (get_keyboard_mode_enum "map") None k =
    (add_lock_modes_modifiers l (is_numpad_key e) (is_letter_key_4_lock_modes e) <$>
       (if passes (position_code e) then [map_event (position_code e) down []] else []), k1)).
  { unfold event_to_key_events. rewrite !bind_eq. cbn [fst snd modify mret M_ret get_keyboard_mode_enum].
    fold k1. f_equal. unfold map_keyboard_mode. rewrite KE, PW.
    change (negb (bool_decide (Map = Translate))) with true. cbn [orb].
    unfold passes. by destruct ((255 <? position_code e) && _). }
  rewrite E1. cbn [fst snd].
  assert (T1 : TO_RELEASE k1 = (if down then <[key := e]> else delete key) (TO_RELEASE k) /\
    modifier_down k1 key = (if decide (is_Some (MODIFIERS_STATE k !! key)) then down else false) /\ outbox k1 = outbox k).
  { unfold k1, update_to_release, update_modifiers_state, modifier_down. rewrite KE.
    unfold key_event_of in KE. destruct (event_type e) as [r|r|]; [injection KE as <- <-|injection KE as <- <-|done].
    all: destruct (decide _) as [D|D]; cbn; rewrite ?lookup_insert_eq; split_and!; try done;
      by rewrite (proj2 (eq_None_not_Some _) D). }
  destruct (add_locks_shape l (is_numpad_key e) (is_letter_key_4_lock_modes e) (position_code e) down) as (mods & Em).
  destruct T1 as (T & Md & O). destruct (passes (position_code e)); cbn [fmap list_fmap each].
  - rewrite Em. unfold send_key_event, swap_modifier_key. rewrite NS, bind_eq. cbn. rewrite O.
    split_and!; [exact T|exact Md|by exists mods].
  - cbn. rewrite O, app_nil_r. split_and!; [exact T|exact Md|by exists []].
Qed.

(** ** Both sides *)

Context (code : RKey -> Z).

(** The name under which the other side remembers a key. *)
Definition remote_key (key : RKey) : KeysDown := RdevKey (ScanCode (key_code (u32 (code key)))).

Definition serve (evts : list KeyEvent) (s : Server S) : Server S := snd (each on_key_event evts s).

Lemma serve_app evts evts' s : serve (evts ++ evts') s = serve evts' (serve evts s).
Proof. unfold serve. by rewrite each_app. Qed.

(** The other side takes an event of the mode "map". *)
Lemma serve_map key down mods s : exiting s = false ->
  let s' := serve [map_event (code key) down mods] s in
  exiting s' = false /\
  keys_down s' = (if down then <[remote_key key := clock s]> else delete (remote_key key)) (keys_down s).
Proof.
  intros E. cbn zeta.
  assert (F : serve [map_event (code key) down mods] s = snd (handle (map_event (code key) down mods) s)).
  { unfold serve. cbn [each]. rewrite bind_eq. unfold on_key_event, handle_input_key. cbn [ke_press map_event].
    rewrite bind_eq. done. }
  rewrite F. destruct (handle_fields to_uppercase (map_event (code key) down mods) s E) as (Kd & X & _).
  split; [done|]. rewrite Kd. by destruct down.
Qed.

(** Every key that the other side holds satisfies [P]; what is kept to be released carries
    the code of its key. *)
Definition covered (s0 : Server S) (P : RKey -> Prop) (k : Keyboard) : Prop :=
  let s := serve (outbox k) s0 in
  exiting s = false /\
  (forall x, is_Some (keys_down s !! x) -> exists key, P key /\ passes (code key) = true /\ x = remote_key key) /\
  (forall key e, TO_RELEASE k !! key = Some e -> position_code e = code key).

Lemma covered_step s0 P l e key down k : to_windows l ->
  key_event_of e = Some (key, down) -> position_code e = code key -> is_long_press e k = false ->
  covered s0 P k ->
  covered s0 (fun key' => if down then P key' \/ key' = key else P key' /\ key' <> key)
    (snd (process_event l "map" e None k)).
Proof.
  intros W KE PC NL (E & C & T).
  destruct (process_map l e key down k W KE NL) as (T' & _ & mods & O).
  unfold covered. rewrite O, serve_app, PC. split_and!.
  - destruct (passes (code key)); [|done]. by apply serve_map.
  - destruct (passes (code key)) eqn:Pa.
    + destruct (serve_map key down mods (serve (outbox k) s0) E) as (_ & ->). intros x.
      destruct down.
      * destruct (decide (x = remote_key key)) as [->|N]; [intros _; exists key; auto|].
        rewrite lookup_insert_ne by done. intros (key' & HP & ? & ->)%C. exists key'. auto.
      * destruct (decide (x = remote_key key)) as [->|N]; [rewrite lookup_delete_eq; by intros [? ?]|].
        rewrite lookup_delete_ne by done. intros (key' & HP & ? & ->)%C. exists key'. split_and!; [done| |done|done].
        intros ->. by destruct N.
    + intros x (key' & HP & Pa' & ->)%C. exists key'. split_and!; [|done..].
      destruct down; [by left|]. split; [done|]. intros ->. congruence.
  - intros key' e'. rewrite T'. destruct down.
    + intros [[<- <-]|[_ L]]%lookup_insert_Some; [done|by eapply T].
    + intros [_ L]%lookup_delete_Some. by eapply T.
Qed.

Lemma covered_weaken s0 (P Q : RKey -> Prop) k : (forall key, P key -> Q key) -> covered s0 P k -> covered s0 Q k.
Proof. intros PQ (E & C & T). split_and!; [done| |done]. intros x (key & HP & ? & ->)%C. exists key. auto. Qed.

Definition kept (k : Keyboard) (key : RKey) : Prop := is_Some (TO_RELEASE k !! key).

(** The local events before the window is left. *)
Lemma covered_event s0 l e k : to_windows l ->
  (forall key down, key_event_of e = Some (key, down) -> position_code e = code key) ->
  covered s0 (kept k) k -> covered s0 (kept (snd (process_event l "map" e None k))) (snd (process_event l "map" e None k)).
Proof.
  intros W PC C. destruct (is_long_press e k) eqn:NL.
  { unfold process_event. rewrite bind_eq. cbn [fst snd gets]. by rewrite NL. }
  destruct (key_event_of e) as [[key down]|] eqn:KE.
  - destruct (process_map l e key down k W KE NL) as (T' & _ & _).
    eapply covered_weaken, (covered_step s0 (kept k)); [|done|exact KE|by eapply PC|done|done].
    intros key' HP. unfold kept. rewrite T'. destruct down.
    + destruct (decide (key' = key)) as [->|N]; [by rewrite lookup_insert_eq|].
      rewrite lookup_insert_ne by done. by destruct HP as [HP|HP].
    + destruct HP as [HP N]. by rewrite lookup_delete_ne.
  - assert (E : snd (process_event l "map" e None k) = k); [|by rewrite E].
    unfold process_event. rewrite bind_eq. cbn [fst snd gets]. rewrite NL, bind_eq.
    cbn [get_keyboard_mode_enum]. unfold event_to_key_events. rewrite !bind_eq. cbn [fst snd modify mret M_ret].
    unfold map_keyboard_mode, update_to_release, update_modifiers_state. rewrite KE.
    unfold key_event_of in KE. by destruct (event_type e).
Qed.

Lemma covered_events s0 l evts k : to_windows l ->
  (forall e key down, e ∈ evts -> key_event_of e = Some (key, down) -> position_code e = code key) ->
  covered s0 (kept k) k ->
  let k' := snd (each (fun e => process_event l "map" e None) evts k) in covered s0 (kept k') k'.
Proof.
  intros W. revert k. induction evts as [|e evts IH]; intros k PC C; [exact C|].
  cbn [each]. cbn zeta. rewrite bind_eq. apply IH; [set_solver|]. apply covered_event; [done| |done].
  intros key down. apply PC. set_solver.
Qed.

(** ** Leaving the window *)

(** One key of the copy. *)
Definition let_go_of (l : Local) : RKey * Event -> M Keyboard unit := fun '(key, event) =>
  process_event l "map" (with_type (KeyRelease key) event) None ;;
  when (bool_decide (key = RKey.Alt \/ key = RKey.AltGr))
    (process_event l "map" (with_type (KeyPress key) event) None ;;
     process_event l "map" (with_type (KeyRelease key) event) None).

Lemma let_go_covered s0 P l key event k : to_windows l -> position_code event = code key ->
  TO_RELEASE k = ∅ -> covered s0 P k ->
  let k' := snd (let_go_of l (key, event) k) in
  TO_RELEASE k' = ∅ /\ covered s0 (fun key' => P key' /\ key' <> key) k'.
Proof.
  intros W PC T C. cbn zeta. unfold let_go_of. rewrite bind_eq.
  set (k1 := snd (process_event l "map" (with_type (KeyRelease key) event) None k)).
  destruct (process_map l (with_type (KeyRelease key) event) key false k W eq_refl eq_refl) as (T1 & M1 & _).
  fold k1 in T1, M1. rewrite T, delete_empty in T1.
  assert (M1' : modifier_down k1 key = false) by (rewrite M1; by destruct (decide _)).
  pose proof (covered_step s0 P l (with_type (KeyRelease key) event) key false k W eq_refl PC eq_refl C) as C1.
  fold k1 in C1. cbn beta iota in C1.
  case_bool_decide; [|by split]. cbn [when]. rewrite bind_eq.
  set (k2 := snd (process_event l "map" (with_type (KeyPress key) event) None k1)).
  destruct (process_map l (with_type (KeyPress key) event) key true k1 W eq_refl M1') as (T2 & _ & _).
  fold k2 in T2. rewrite T1 in T2.
  pose proof (covered_step s0 _ l (with_type (KeyPress key) event) key true k1 W eq_refl PC M1' C1) as C2. fold k2 in C2.
  destruct (process_map l (with_type (KeyRelease key) event) key false k2 W eq_refl eq_refl) as (T3 & _ & _).
  rewrite T2 in T3. split.
  - rewrite T3. cbn. by rewrite delete_insert_eq, delete_empty.
  - eapply covered_weaken, (covered_step s0 _ l (with_type (KeyRelease key) event) key false k2 W eq_refl PC eq_refl C2).
    cbn beta iota. naive_solver.
Qed.

Lemma let_go_all s0 l L k : to_windows l ->
  (forall key e, (key, e) ∈ L -> position_code e = code key) ->
  TO_RELEASE k = ∅ -> covered s0 (fun key => key ∈ L.*1) k ->
  let k' := snd (each (let_go_of l) L k) in TO_RELEASE k' = ∅ /\ covered s0 (fun _ => False) k'.
Proof.
  intros W. revert k. induction L as [|[key e] L IH]; intros k PC T C.
  { split; [done|]. eapply covered_weaken; [|exact C]. cbn. intros key. apply not_elem_of_nil. }
  cbn [each]. cbn zeta. rewrite bind_eq.
  destruct (let_go_covered s0 _ l key e k W (PC _ _ ltac:(by left)) T C) as (T1 & C1).
  apply IH; [|done|].
  - intros key' e' I. eapply PC. by right.
  - eapply covered_weaken; [|exact C1]. cbn. intros key' [[->|I]%elem_of_cons N]; [by destruct N|exact I].
Qed.

(** C16. Leaving the window lets go of everything: whatever keys were pressed and released in
    the mode "map", once the window of a machine with Windows is left, no key is kept on
    this side, and when the events have arrived none is held at the other side.  No keys are
    swapped, and the events name each key by the one scan code it has. *)
Theorem leaving_releases_all (l : Local) (evts : list Event) (k0 : Keyboard) (s0 : Server S) :
  to_windows l ->
  (forall e key down, e ∈ evts -> key_event_of e = Some (key, down) -> position_code e = code key) ->
  TO_RELEASE k0 = ∅ -> outbox k0 = [] -> exiting s0 = false -> keys_down s0 = ∅ ->
  let k := snd ((each (fun e => process_event l "map" e None) evts ;; release_remote_keys l "map") k0) in
  TO_RELEASE k = ∅ /\ keys_down (serve (outbox k) s0) = ∅.
Proof.
  intros W PC T0 O0 E0 D0. cbn zeta. rewrite bind_eq.
  set (k1 := snd (each _ evts k0)).
  assert (C1 : covered s0 (kept k1) k1).
  { apply covered_events; [done..|]. split_and!; rewrite ?O0.
    - exact E0.
    - intros x. cbn. rewrite D0, lookup_empty. by intros [? ?].
    - intros key e. by rewrite T0, lookup_empty. }
  unfold release_remote_keys. rewrite bind_eq. cbn [fst snd gets]. rewrite bind_eq. cbn [fst snd modify].
  destruct C1 as (E & C & T).
  destruct (let_go_all s0 l (map_to_list (TO_RELEASE k1)) (k_set_release ∅ k1) W) as (T2 & _ & C2 & _).
  - intros key e I%elem_of_map_to_list. by eapply T.
  - done.
  - split_and!; [exact E| |intros key e; cbn; by rewrite lookup_empty].
    intros x (key & [e L] & ? & ->)%C. exists key. split_and!; [|done..].
    apply list_elem_of_fmap. exists (key, e). by rewrite elem_of_map_to_list.
  - split; [exact T2|]. apply map_eq. intros x. rewrite lookup_empty. apply eq_None_not_Some.
    intros (key & [] & _)%C2.
Qed.
End Leaving.

(** A keyboard with two keys, and its machine. *)
#[export] Instance a_rdev : Rdev := {|
  win_scancode_to_macos_iso_code _ := None; win_scancode_to_macos_code _ := None;
  win_scancode_to_android_key_code _ := None; win_scancode_to_linux_code _ := None;
  key_from_code _ c := RKey.Unknown c; code_from_key _ _ := None;
  win_key_of_scancode c := RKey.Unknown c; win_scancode_from_key _ := None;
|}.
Definition a_local : Local :=
  mkLocal (fun _ => false) false (chars_of "Windows") false (fun _ => None) (fun _ => None) false.
Definition a_code (key : RKey) : Z := match key with RKey.KeyA => 30 | RKey.Alt => 56 | _ => 0 end.
Definition press_key (key : RKey) : Event := mkEvent (KeyPress key) None 0 (a_code key).

Lemma leaving_releases_all_witness :
  let run := each (fun e => process_event a_local "map" e None) [press_key RKey.KeyA; press_key RKey.Alt] in
  let sent := snd (run new_keyboard) in
  let k := snd ((run ;; release_remote_keys a_local "map") new_keyboard) in
  size (keys_down (serve (fun c => [c]) (outbox sent) a_server)) = 2%nat /\
  TO_RELEASE k = ∅ /\ keys_down (serve (fun c => [c]) (outbox k) a_server) = ∅.
Proof.
  cbn zeta. split; [vm_compute; reflexivity|].
  apply (leaving_releases_all (fun c => [c]) a_code a_local [press_key RKey.KeyA; press_key RKey.Alt] new_keyboard a_server);
    [split; reflexivity| |reflexivity..].
  intros e key down I. repeat (apply elem_of_cons in I as [->|I]; [by intros [= <- <-]|]). by apply elem_of_nil in I.
Defined.
