(* ===== verification/Typing.v ===== *)
(** * Typing and the lights

    [Keyboard] in the older mode against [Modifiers]: what is typed on this machine leaves
    the lights of the other one as they are, but for five keys of the number pad. *)

From S2P Require Import Prelude LoginConfig Keys Enigo Input HeldKeys Modifiers Keyboard Leaving.
#[local] Open Scope Z_scope.

(** The keys of the number pad for which one side looks at the light and the other does not. *)
Definition pad_sign (key : RKey) : bool :=
  match key with
  | RKey.KpMinus | RKey.KpMultiply | RKey.KpDivide | RKey.KpPlus | RKey.KpDecimal => true
  | _ => false
  end.

Section Typing.
Context {S : Type} `{LightLaws S} `{Rdev}.
Context (to_uppercase : Z -> list Z).
Abbreviation CAPS := (ck_value ControlKey.CapsLock).
Abbreviation NUM := (ck_value ControlKey.NumLock).

Lemma other_key ck ck' : ck <> ck' -> Some (UControlKey (ck_value ck)) <> Some (UControlKey (ck_value ck')).
Proof. intros N [= X%(inj ck_value)]. done. Qed.

(** What [lights_restored] asks of an event. *)
Definition harmless (ev : KeyEvent) : Prop :=
  ke_press ev = false /\ ke_mode ev = 0 /\
  ke_union ev <> Some (UControlKey CAPS) /\ ke_union ev <> Some (UControlKey NUM) /\
  (CAPS ∈ ke_modifiers ev -> lock_handling ev <> None) /\
  (NUM ∈ ke_modifiers ev -> lock_handling ev = Some true).

(** Modifiers that are no lights. *)
Definition no_lights (ms : list Z) : Prop := CAPS ∉ ms /\ NUM ∉ ms.

Lemma push_unless_shape b m own other e :
  m <> ControlKey.CapsLock -> m <> ControlKey.NumLock -> no_lights (ke_modifiers e) ->
  let e' := push_unless b m own other e in
  no_lights (ke_modifiers e') /\ ke_union e' = ke_union e /\ ke_mode e' = ke_mode e /\
  ke_down e' = ke_down e /\ ke_press e' = ke_press e.
Proof.
  intros NC NN [C N]. unfold push_unless. destruct (_ && _); [|by repeat split]. cbn.
  split_and!; try done. split; rewrite elem_of_app, list_elem_of_singleton; intros [X|X%(inj ck_value)]; congruence.
Qed.

Lemma legacy_modifiers_shape alt ctrl shift command e : no_lights (ke_modifiers e) ->
  let e' := legacy_modifiers alt ctrl shift command e in
  no_lights (ke_modifiers e') /\ ke_union e' = ke_union e /\ ke_mode e' = ke_mode e /\ ke_press e' = ke_press e.
Proof.
  intros N. unfold legacy_modifiers.
  destruct (push_unless_shape alt ControlKey.Alt ControlKey.Alt ControlKey.RAlt e) as (N1 & U1 & M1 & _ & P1); [done..|].
  destruct (push_unless_shape shift ControlKey.Shift ControlKey.Shift ControlKey.RShift _ ltac:(done) ltac:(done) N1) as (N2 & U2 & M2 & _ & P2).
  destruct (push_unless_shape ctrl ControlKey.Control ControlKey.Control ControlKey.RControl _ ltac:(done) ltac:(done) N2) as (N3 & U3 & M3 & _ & P3).
  destruct (push_unless_shape command ControlKey.Meta ControlKey.Meta ControlKey.RWin _ ltac:(done) ltac:(done) N3) as (N4 & U4 & M4 & _ & P4).
  cbn zeta. split_and!; [exact N4|congruence..].
Qed.

(** The key of an event in the older mode, after the keys of the number pad are converted. *)
Definition legacy_key (l : Local) (key : RKey) : RKey := if is_win l then convert_numpad_keys l key else key.

(** An event of the older mode before the lights are added: for a key with a name, that
    name; for another, a character. *)
Definition typed (l : Local) (key : RKey) (ev : KeyEvent) : Prop :=
  no_lights (ke_modifiers ev) /\ ke_press ev = false /\ ke_mode ev = 0 /\
  match legacy_control_key (legacy_key l key) with
  | Some ck => ke_union ev = Some (UControlKey (ck_value ck))
  | None => exists c, ke_union ev = Some (UChr c)
  end.

Lemma legacy_control_key_plain key ck : legacy_control_key key = Some ck ->
  ck <> ControlKey.CapsLock /\ ck <> ControlKey.NumLock.
Proof. destruct key; cbn; intros [= <-]; done. Qed.

Lemma special_plain l : allow_swap_key l = false -> is_win l = true -> harmless (event_ctrl_alt_del l) /\ harmless event_lock_screen.
Proof.
  intros _ W. unfold event_ctrl_alt_del. rewrite W.
  split; (split_and!; try done); intros I; by apply elem_of_nil in I.
Qed.

Lemma legacy_typed l e key down k : allow_swap_key l = false -> key_event_of e = Some (key, down) ->
  let r := legacy_keyboard_mode l e (ke_set_mode 0 new_key_event) k in
  Forall (typed l key) (fst r) /\
  exists sent, outbox (snd r) = outbox k ++ sent /\ Forall harmless sent.
Proof.
  intros NS KE. unfold legacy_keyboard_mode. rewrite KE. fold (legacy_key l key).
  assert (none : forall k', outbox k' = outbox k -> Forall (typed l key) [] /\
    exists sent, outbox k' = outbox k ++ sent /\ Forall harmless sent).
  { intros k' ->. split; [apply Forall_nil_2|]. exists []. rewrite app_nil_r. split; [done|apply Forall_nil_2]. }
  assert (sends_one : forall ev k', outbox k' = outbox k -> harmless ev ->
    Forall (typed l key) [] /\ exists sent, outbox (k_send (swap_modifier_key l ev) k') = outbox k ++ sent /\ Forall harmless sent).
  { intros ev k' O Hev. split; [apply Forall_nil_2|]. exists [ev]. unfold swap_modifier_key. rewrite NS. cbn. rewrite O.
    split; [done|by apply Forall_singleton]. }
  assert (finish : forall k' alt ctrl shift command u, outbox k' = outbox k ->
    match legacy_control_key (legacy_key l key) with Some ck => u = UControlKey (ck_value ck) | None => exists c, u = UChr c end ->
    let ev := legacy_modifiers alt ctrl shift command (ke_set_union u (ke_set_mode 0 new_key_event)) in
    Forall (typed l key) [if down then ke_set_down true ev else ev] /\
    exists sent, outbox k' = outbox k ++ sent /\ Forall harmless sent).
  { intros k' alt ctrl shift command u O Hu ev. split; [|by apply (none k' O)].
    destruct (legacy_modifiers_shape alt ctrl shift command (ke_set_union u (ke_set_mode 0 new_key_event))) as (N & U & Mo & P).
    { split; apply not_elem_of_nil. }
    fold ev in N, U, Mo, P. apply Forall_singleton. unfold typed.
    replace (ke_modifiers (if down then ke_set_down true ev else ev)) with (ke_modifiers ev) by (by destruct down).
    replace (ke_union (if down then ke_set_down true ev else ev)) with (ke_union ev) by (by destruct down).
    replace (ke_press (if down then ke_set_down true ev else ev)) with (ke_press ev) by (by destruct down).
    replace (ke_mode (if down then ke_set_down true ev else ev)) with (ke_mode ev) by (by destruct down).
    rewrite U, Mo, P. split_and!; [done..|]. destruct (legacy_control_key _); [by rewrite Hu|].
    destruct Hu as [c ->]. by exists c. }
  rewrite bind_eq. cbn [fst snd gets]. rewrite bind_eq. cbn [fst snd modify].
  set (k1 := k_set_alt_gr _ k). assert (O1 : outbox k1 = outbox k) by done.
  set (ctrl := if _ : bool then false else _). set (key1 := legacy_key l key) in *.
  destruct (decide (key1 = RKey.ControlLeft /\ _)) as [[E _]|_]; [by apply none|].
  destruct (decide (key1 = RKey.Delete)) as [E|_].
  { destruct (is_win l && ctrl && local_key l Key.Alt) eqn:W.
    - apply sends_one; [done|]. apply special_plain; [done|]. by destruct (is_win l).
    - rewrite bind_eq. cbn [fst snd gets]. destruct (get_modifiers_state _ _ _ _ _) as [[[a b] c] d].
      apply finish; [done|]. by rewrite E. }
  destruct (decide (key1 = RKey.CapsLock \/ _)) as [_|_]; [by apply none|].
  destruct (legacy_control_key key1) as [ck|] eqn:CK.
  { rewrite bind_eq. cbn [fst snd gets]. destruct (get_modifiers_state _ _ _ _ _) as [[[a b] c] d].
    by apply finish. }
  destruct (char_of_event e key1 =? 0); [by apply none|].
  destruct (_ && win_key l) eqn:W.
  - apply sends_one; [done|]. apply (special_plain l); [done|]. by destruct (is_win l), (char_of_event e key1 =? 0x6c).
  - rewrite bind_eq. cbn [fst snd gets]. destruct (get_modifiers_state _ _ _ _ _) as [[[a b] c] d].
    apply finish; [done|]. by exists (char_of_event e key1).
Qed.

(** ** The lights are added *)

Lemma letter_types_character l key : is_letter_rdev_key key || is_letter_rdev_key_ex key = true ->
  legacy_control_key (legacy_key l key) = None.
Proof. unfold legacy_key, convert_numpad_keys. destruct key; try done; by destruct (is_win l), (local_key l Key.NumLock). Qed.

Lemma digit_of_pad l key : is_numpad_rdev_key key = true -> pad_sign key = false -> local_key l Key.NumLock = true ->
  exists ck, legacy_control_key (legacy_key l key) = Some ck /\ skip_led_sync_control_key ck = false /\
    is_numpad_control_key ck = true.
Proof.
  intros P NS N. unfold legacy_key, convert_numpad_keys. rewrite N.
  destruct key; try done; destruct (is_win l); by eexists.
Qed.

Lemma lock_handling_pushed m ev : lock_handling (S := S) (push_modifier m ev) = lock_handling ev.
Proof. done. Qed.

Lemma locked_harmless l e key down ev : key_event_of e = Some (key, down) -> pad_sign key = false -> typed l key ev ->
  harmless (add_lock_modes_modifiers l (is_numpad_key e) (is_letter_key_4_lock_modes e) ev).
Proof.
  intros KE PS ((NC & NN) & P & Mo & U). unfold is_numpad_key, is_letter_key_4_lock_modes. rewrite KE.
  unfold add_lock_modes_modifiers.
  destruct (is_letter_rdev_key key || is_letter_rdev_key_ex key) eqn:Letter.
  { rewrite (letter_types_character l key Letter) in U. destruct U as [c U].
    replace (is_numpad_rdev_key key) with false by (by destruct key). cbn [andb].
    assert (LH : lock_handling (S := S) ev = Some false) by (unfold lock_handling, is_legacy_mode; by rewrite U, Mo).
    destruct (local_key l Key.CapsLock); unfold harmless; rewrite ?lock_handling_pushed, LH; cbn [ke_press ke_mode ke_union ke_modifiers push_modifier];
      rewrite U; split_and!; try done.
    intros [I|I%list_elem_of_singleton]%elem_of_app; done. }
  cbn [andb]. destruct (is_numpad_rdev_key key && local_key l Key.NumLock) eqn:Pad.
  - apply andb_true_iff in Pad as [Pad On]. destruct (digit_of_pad l key Pad PS On) as (ck & E & Sk & Np).
    rewrite E in U. destruct (legacy_control_key_plain _ _ E) as [N1 N2].
    assert (LH : lock_handling (S := S) ev = Some true)
      by (unfold lock_handling; rewrite U; unfold enum_value_or_unknown; rewrite of_value_value; cbn [default from_option id]; by rewrite Sk, Np).
    unfold harmless. rewrite lock_handling_pushed, LH. cbn [ke_press ke_mode ke_union ke_modifiers push_modifier]. rewrite U.
    split_and!; try done; by apply other_key.
  - unfold harmless. split_and!; try done.
    + destruct (legacy_control_key (legacy_key l key)) as [ck|] eqn:E; [|by destruct U as [c ->]].
      destruct (legacy_control_key_plain _ _ E). rewrite U. by apply other_key.
    + destruct (legacy_control_key (legacy_key l key)) as [ck|] eqn:E; [|by destruct U as [c ->]].
      destruct (legacy_control_key_plain _ _ E). rewrite U. by apply other_key.
Qed.

Lemma send_all l evs k : allow_swap_key l = false -> outbox (snd (each (send_key_event l) evs k)) = outbox k ++ evs.
Proof.
  intros NS. revert k. induction evs as [|ev evs IH]; intros k; [by rewrite app_nil_r|].
  cbn [each]. rewrite bind_eq, IH. unfold send_key_event, swap_modifier_key. rewrite NS. cbn. by rewrite <- app_assoc.
Qed.

(** What the older mode sends is harmless. *)
Lemma process_harmless l e k : allow_swap_key l = false ->
  (forall key down, key_event_of e = Some (key, down) -> pad_sign key = false) ->
  exists sent, outbox (snd (process_event l "legacy" e None k)) = outbox k ++ sent /\ Forall harmless sent.
Proof.
  intros NS PS. unfold process_event. rewrite bind_eq. cbn [fst snd gets].
  destruct (is_long_press e k); [exists []; rewrite app_nil_r; split; [done|apply Forall_nil_2]|].
  rewrite bind_eq, send_all by done. cbn [get_keyboard_mode_enum].
  unfold event_to_key_events. rewrite !bind_eq. cbn [fst snd modify mret M_ret].
  set (k1 := update_to_release e (update_modifiers_state e k)).
  assert (O1 : outbox k1 = outbox k).
  { unfold k1, update_to_release, update_modifiers_state. destruct (key_event_of e) as [[? ?]|], (event_type e); try done; by case_decide. }
  change (get_keyboard_mode_enum "legacy") with Legacy. cbn [mode_number].
  change (negb (bool_decide (Legacy = Translate))) with true. cbn [orb].
  destruct (key_event_of e) as [[key down]|] eqn:KE.
  - destruct (legacy_typed l e key down k1 NS KE) as (T & sent & E & F).
    exists (sent ++ (add_lock_modes_modifiers l (is_numpad_key e) (is_letter_key_4_lock_modes e) <$>
      fst (legacy_keyboard_mode l e (ke_set_mode 0 new_key_event) k1))).
    rewrite E, O1, <- app_assoc. split; [done|]. apply Forall_app_2; [done|].
    apply Forall_fmap. eapply Forall_impl; [exact T|]. intros ev. by eapply locked_harmless, PS.
  - unfold legacy_keyboard_mode. rewrite KE. cbn. exists []. by rewrite O1.
Qed.

Lemma serve_harmless c n evs (s : Server S) : Forall harmless evs -> exiting s = false -> lights c n (dev s) ->
  exiting (serve to_uppercase evs s) = false /\ lights c n (dev (serve to_uppercase evs s)).
Proof.
  intros F. revert s. induction F as [|ev evs (P & Mo & N1 & N2 & LC & LN) F IH]; intros s E L; [done|].
  unfold serve. cbn [each]. rewrite bind_eq. fold (serve to_uppercase evs). 
  assert (X : snd (on_key_event to_uppercase ev s) = snd (handle_key_ to_uppercase (ke_set_press false ev) s)).
  { unfold on_key_event, handle_input_key. rewrite P. by rewrite bind_eq. }
  rewrite X. apply IH.
  - by apply handle_fields.
  - apply handle_keeps_lights; try done; cbn [ke_mode ke_set_press]; by rewrite Mo.
Qed.

(** C17. Typing leaves the lights of the other side as they are: whatever is typed in the
    older mode, with Caps Lock and Num Lock on or off on either side, both are at the other
    side what they were once the events have been handled; only the signs of the number pad
    are excepted, and no keys are swapped. *)
Theorem typing_keeps_lights (l : Local) (evts : list Event) (k0 : Keyboard) (s0 : Server S) (c n : bool) :
  allow_swap_key l = false -> outbox k0 = [] -> exiting s0 = false -> lights c n (dev s0) ->
  (forall e key down, e ∈ evts -> key_event_of e = Some (key, down) -> pad_sign key = false) ->
  lights c n (dev (serve to_uppercase (outbox (snd (each (fun e => process_event l "legacy" e None) evts k0))) s0)).
Proof.
  intros NS O0 E0 L0 PS.
  assert (A : exists sent, outbox (snd (each (fun e => process_event l "legacy" e None) evts k0)) = outbox k0 ++ sent /\ Forall harmless sent).
  { clear O0. revert k0 PS. induction evts as [|e evts IH]; intros k0 PS.
    { exists []. rewrite app_nil_r. split; [done|apply Forall_nil_2]. }
    cbn [each]. rewrite bind_eq.
    destruct (process_harmless l e k0 NS) as (s1 & E1 & F1); [intros key down; apply PS; set_solver|].
    destruct (IH (snd (process_event l "legacy" e None k0))) as (s2 & E2 & F2); [intros e' key down I; apply PS; set_solver|].
    exists (s1 ++ s2). rewrite E2, E1, app_assoc. split; [done|by apply Forall_app_2]. }
  destruct A as (sent & -> & F). rewrite O0. by apply serve_harmless.
Qed.
End Typing.

(** Caps Lock is on here and off there: the letter comes out right, and the light there is
    off again. *)
Definition caps_local : Local :=
  mkLocal (fun k => bool_decide (k = Key.CapsLock)) false (chars_of "Windows") false (fun _ => None) (fun _ => None) false.

Lemma typing_keeps_lights_witness :
  let sent := outbox (snd (each (fun e => process_event caps_local "legacy" e None) [press_key RKey.KeyA] new_keyboard)) in
  sent = [mkKeyEvent true false (Some (UChr 97)) [ck_value ControlKey.CapsLock] 0] /\
  keys_of (trace (dev (serve (fun c => [c]) sent num_server))) = click Key.CapsLock ++ [(65, true)] ++ click Key.CapsLock /\
  lights false true (dev (serve (fun c => [c]) sent num_server)).
Proof.
  cbn zeta. split_and!; [vm_compute; reflexivity..|].
  apply (typing_keeps_lights (fun c => [c]) caps_local [press_key RKey.KeyA] new_keyboard num_server false true); try reflexivity.
  - repeat split; vm_compute; reflexivity.
  - intros e key down I. repeat (apply elem_of_cons in I as [->|I]; [by intros [= <- <-]|]). by apply elem_of_nil in I.
Defined.
