(* ===== verification/DisplayService.v ===== *)
(** * The displays of the machine

    [src/server/display_service.rs] in a build for Windows: what is known of the displays,
    when the viewers are told about them, and the resolutions that are to be restored; and
    the subscriber of the services ([ConnInner] of [src/server/connection.rs]), that sorts
    what it is sent into two channels. *)

From S2P Require Import Prelude ServiceHub.
#[local] Open Scope Z_scope.

(** ** Data *)

(** A display of [scrap] as its methods show it. *)
Record Display : Type := mkScreen {
  origin : Z * Z;
  width : Z;
  height : Z;
  display_name : string;
  is_online : bool;
  is_primary : bool;
}.

(** The scale is 1 on Windows. *)
(* src/src/server/display_service.rs:332-343 check_update_displays *)
Record DisplayInfo : Type := mkInfo {
  di_x : Z;
  di_y : Z;
  di_width : Z;
  di_height : Z;
  di_name : string;
  di_online : bool;
  di_original : Z * Z;
}.

#[export] Instance DisplayInfo_eq_dec : EqDecision DisplayInfo.
Proof. solve_decision. Defined.

(** The messages of the services; [F] is the type of a frame of video. *)
Inductive message (F : Type) : Type :=
| MVideoFrame (display : Z) (frame : F)
| MSwitchDisplay (display : Z) (at_ : DisplayInfo) (cursor_embedded : bool) (resolutions : list (Z * Z))
| MPeerInfo (displays : list DisplayInfo) (platform_additions : option string)
| MPrivacyModeOnByOther
| MScreenshot (sid : string) (png : list byte) (msg : string).
Arguments MVideoFrame {F} _ _.
Arguments MSwitchDisplay {F} _ _ _ _.
Arguments MPeerInfo {F} _ _.
Arguments MPrivacyModeOnByOther {F}.
Arguments MScreenshot {F} _ _ _.

(** A channel is what was put into it. *)
(* src/src/server/connection.rs:125-129 ConnInner *)
Record ConnInner (F : Type) : Type := mkConnInner {
  ci_id : Z;
  tx : option (list (message F));
  tx_video : option (list (message F));
}.
Arguments mkConnInner {F} _ _ _.
Arguments ci_id {F} _.
Arguments tx {F} _.
Arguments tx_video {F} _.

Definition is_tx_video {F} (msg : message F) : bool :=
  match msg with MVideoFrame _ _ | MSwitchDisplay _ _ _ _ => true | _ => false end.

(* src/src/server/connection.rs:313-331 ConnInner::send *)
Definition conn_send {F} (msg : message F) (self : ConnInner F) : ConnInner F :=
  let put tx := (fun l => l ++ [msg]) <$> tx in
  if is_tx_video msg
  then mkConnInner (ci_id self) (tx self) (put (tx_video self))
  else mkConnInner (ci_id self) (put (tx self)) (tx_video self).

#[export] Instance conn_subscriber F : Subscriber (ConnInner F) (message F) (ConnInner F).
Proof.
  refine {| conn_id := ci_id; from_conn := fun c => c; sub_id := ci_id; sub_send := conn_send |}; [|done].
  intros m s. unfold conn_send. by destruct (is_tx_video m).
Defined.

(** What Windows and the virtual displays answer. *)
Class Screens (S : Type) := {
  all_displays : S -> result string (list Display);
  supported_resolutions : string -> S -> list (Z * Z);
  change_resolution : string -> Z -> Z -> S -> result string unit * S;
  plug_in_headless : S -> result string unit * S;
  screens_installed : bool;
  virtual_display_supported : bool;
  amyuni_idd : bool;
  is_virtual_display : string -> bool;
  platform_additions : S -> string;
}.

(** ** State *)

(* src/src/server/display_service.rs:38-41 SyncDisplaysInfo *)
Record SyncDisplaysInfo : Type := mkSync {
  known : list DisplayInfo;
  is_synced : bool;
}.

(** The statics of the file. *)
(* src/src/server/display_service.rs:25-36 SYNC_DISPLAYS *)
Record Displays : Type := mkDisplays {
  sync : SyncDisplaysInfo;
  ignored : bool;
  changed_resolutions : gmap string ((Z * Z) * (Z * Z));
}.

(* src/src/server/display_service.rs:16-16 DUMMY_DISPLAY_SIDE_MAX_SIZE *)
Definition DUMMY_DISPLAY_SIDE_MAX_SIZE : Z := 1024.

Definition with_sync (x : SyncDisplaysInfo) (d : Displays) : Displays :=
  mkDisplays x (ignored d) (changed_resolutions d).

Definition unsync (d : Displays) : Displays := with_sync (mkSync (known (sync d)) false) d.

(** ** Operations *)

(* src/src/server/display_service.rs:44-61 SyncDisplaysInfo::check_changed *)
Definition check_changed (displays : list DisplayInfo) (d : Displays) : Displays :=
  let replaced := with_sync (mkSync displays (if ignored d then is_synced (sync d) else false)) d in
  if negb (zlen (known (sync d)) =? zlen displays) then replaced
  else if existsb (fun p => negb (bool_decide (fst p = snd p))) (combine displays (known (sync d)))
       then replaced else d.

(* src/src/server/display_service.rs:63-69 SyncDisplaysInfo::get_update_sync_displays *)
Definition get_update_sync_displays (d : Displays) : option (list DisplayInfo) * Displays :=
  if is_synced (sync d) then (None, d)
  else (Some (known (sync d)), with_sync (mkSync (known (sync d)) true) d).

(** The two ends of it: the second is a second later. *)
(* src/src/server/display_service.rs:73-73 temp_ignore_displays_changed *)
Definition ignore_changes (d : Displays) : Displays :=
  mkDisplays (sync d) true (changed_resolutions d).
(* src/src/server/display_service.rs:76-83 temp_ignore_displays_changed *)
Definition heed_changes (d : Displays) : Displays :=
  unsync (mkDisplays (sync d) false (changed_resolutions d)).

(** [None]: nothing changed, or the display is not known. *)
(* src/src/server/display_service.rs:91-118 check_display_changed *)
Definition check_display_changed (ndisplay idx : Z) (at_ : Z * Z) (w h : Z) (d : Displays) : option DisplayInfo :=
  info ← known (sync d) !! Z.to_nat idx;
  if negb (ndisplay =? zlen (known (sync d))) then Some info
  else if negb ((di_x info =? fst at_) && (di_y info =? snd at_) &&
                (di_width info =? i32 w) && (di_height info =? i32 h))
       then Some info else None.

(* src/src/server/display_service.rs:121-132 set_last_changed_resolution *)
Definition set_last_changed_resolution (name : string) (original changed : Z * Z) (d : Displays) : Displays :=
  mkDisplays (sync d) (ignored d)
    (match changed_resolutions d !! name with
     | Some (first, _) => <[name := (first, changed)]> (changed_resolutions d)
     | None => <[name := (original, changed)]> (changed_resolutions d)
     end).

Section screens.
Context {S : Type} `{Screens S}.

(** Those that cannot be restored are reported and forgotten. *)
(* src/src/server/display_service.rs:136-152 restore_resolutions *)
Definition restore_resolutions (d : Displays) (s : S) : Displays * S :=
  (mkDisplays (sync d) (ignored d) ∅,
   foldl (fun s '(name, (original, _)) => snd (change_resolution name (fst original) (snd original) s)) s
     (map_to_list (changed_resolutions d))).

(* src/src/server/display_service.rs:252-294 get_original_resolution *)
Definition get_original_resolution (name : string) (w h : Z) (d : Displays) : Z * Z :=
  if is_virtual_display name then (0, 0)
  else match changed_resolutions d !! name with
       | Some (original, _) => original
       | None => (i32 w, i32 h)
       end.

(* src/src/server/display_service.rs:306-350 check_update_displays *)
Definition check_update_displays (all : list Display) (d : Displays) : Displays :=
  check_changed
    ((fun x => mkInfo (fst (origin x)) (snd (origin x)) (i32 (width x)) (i32 (height x))
                 (display_name x) (is_online x)
                 (get_original_resolution (display_name x) (width x) (height x) d)) <$> all) d.

(* src/src/server/display_service.rs:397-418 no_displays *)
Definition no_displays (displays : list Display) (s : S) : bool :=
  let large x := DUMMY_DISPLAY_SIDE_MAX_SIZE <? x in
  match displays with
  | [] => true
  | [x] =>
      if large (width x) || large (height x) then false
      else negb (existsb (fun r => large (snd r) || large (fst r)) (supported_resolutions (display_name x) s))
  | _ => false
  end.

(* src/src/server/display_service.rs:444-488 try_get_displays_ *)
Definition try_get_displays_ (add_amyuni_headless : bool) (s : S) : result string (list Display) * S :=
  match all_displays s with
  | Err e => (Err e, s)
  | Ok displays =>
      if negb screens_installed || negb virtual_display_supported then (Ok displays, s)
      else if amyuni_idd && negb add_amyuni_headless then (Ok displays, s)
      else if no_displays displays s then
        match plug_in_headless s with
        | (Err _, s) => (Ok displays, s)
        | (Ok tt, s) => (all_displays s, s)
        end
      else (Ok displays, s)
  end.

(* src/src/server/display_service.rs:428-430 try_get_displays *)
Definition try_get_displays (s : S) : result string (list Display) * S := try_get_displays_ false s.

(* src/src/server/display_service.rs:211-222 check_displays_changed *)
Definition check_displays_changed (d : Displays) (s : S) : result string unit * Displays * S :=
  match try_get_displays s with
  | (Ok all, s) => (Ok tt, check_update_displays all d, s)
  | (Err e, s) => (Err e, d, s)
  end.

(* src/src/server/display_service.rs:180-198 displays_to_msg *)
Definition displays_to_msg {F} (displays : list DisplayInfo) (s : S) : message F :=
  MPeerInfo displays (if screens_installed then Some (platform_additions s) else None).

(* src/src/server/display_service.rs:224-227 get_displays_msg *)
Definition get_displays_msg {F} (d : Displays) (s : S) : option (message F) * Displays :=
  let '(displays, d) := get_update_sync_displays d in
  ((fun l => displays_to_msg l s) <$> displays, d).

(* src/src/server/display_service.rs:200-209 check_get_displays_changed_msg *)
Definition check_get_displays_changed_msg {F} (d : Displays) (s : S) : option (message F) * Displays * S :=
  match try_get_displays s with
  | (Ok all, s) => let '(m, d) := get_displays_msg (check_update_displays all d) s in (m, d, s)
  | (Err _, s) => (None, d, s)
  end.

(** One round: the error is "new subscriber". *)
(* src/src/server/display_service.rs:230-245 run *)
Definition display_round {F} (sp : ServiceInner (T := ConnInner F)) (d : Displays) (s : S)
    : result string unit * ServiceInner (T := ConnInner F) * Displays * S :=
  let refuse := negb (ignored d) && swap_has_subscribes sp in
  let d1 := if (0 <? Z.of_nat (size (new_subscribes sp))) && refuse then unsync d else d in
  match snapshot (fun sp => (if refuse then Err "new subscriber"%string else Ok tt, sp)) sp with
  | (Err e, sp) => (Err e, sp, d1, s)
  | (Ok tt, sp) =>
      let '(m, d, s) := check_get_displays_changed_msg d1 s in
      (Ok tt, match m with Some m => send m sp | None => sp end, d, s)
  end.

(* src/src/server/display_service.rs:300-302 get_display_info *)
Definition get_display_info (idx : Z) (d : Displays) : option DisplayInfo := known (sync d) !! Z.to_nat idx.

(* src/src/server/display_service.rs:360-373 update_get_sync_displays_on_login *)
Definition update_get_sync_displays_on_login (d : Displays) (s : S)
    : result string (list DisplayInfo) * Displays * S :=
  match try_get_displays_ true s with
  | (Ok all, s) => let d := check_update_displays all d in (Ok (known (sync d)), d, s)
  | (Err e, s) => (Err e, d, s)
  end.

(* src/src/server/display_service.rs:391-393 get_primary_2 *)
Definition get_primary_2 (all : list Display) : Z :=
  default 0 (Z.of_nat ∘ fst <$> list_find is_primary all).

(* src/src/server/display_service.rs:376-388 get_primary *)
Definition get_primary (s : S) : Z * S :=
  match try_get_displays s with (Ok all, s) => (get_primary_2 all, s) | (Err _, s) => (0, s) end.
End screens.
