(* ===== verification/VideoService.v ===== *)
(** * The video service

    [src/server/video_service.rs] in a build for Windows with the hardware codecs: a thread
    for every display and camera that is watched takes frames from a capturer, has them
    encoded, sends them to the subscribers of its hub ([ServiceHub]) and waits until they
    have arrived.

    The thread shares its statics with the rest of the program.  What the others do is a
    [schedule]: a list of batches of events, of which one takes effect whenever the thread
    takes time ([interfere]), and one at a time while it waits for the subscribers. *)

From S2P Require Import Prelude F32 VideoQos ServiceHub CodecChoice ServerCore DisplayService.
#[local] Open Scope Z_scope.

(* src/src/server/video_service.rs:63-63 OPTION_REFRESH *)
Definition OPTION_REFRESH : string := "refresh".
Definition PRIVACY_MODE_IMPL_WIN_MAG : string := "privacy_mode_impl_mag".
Definition INVALID_PRIVACY_MODE_CONN_ID : Z := 0.
(* src/libs/scrap/src/common/codec.rs:48-48 ENCODE_NEED_SWITCH *)
Definition ENCODE_NEED_SWITCH : string := "ENCODE_NEED_SWITCH".

(* src/src/server/video_service.rs:195-199 VideoSource *)
Inductive VideoSource : Type := Monitor | Camera.

#[export] Instance VideoSource_eq_dec : EqDecision VideoSource.
Proof. solve_decision. Defined.

(* src/src/server/video_service.rs:209-211 VideoSource::is_monitor *)
Definition is_monitor (s : VideoSource) : bool := bool_decide (s = Monitor).

(** A buffer of pixels with its stride, or a texture and its rotation. *)
(* src/libs/scrap/src/common/mod.rs:176-179 Frame *)
Inductive Frame : Type :=
| PixelBuffer (data : bytes) (w h : Z) (stride : list Z)
| Texture (texture : Z) (rotation : Z).

(* src/libs/scrap/src/common/mod.rs:183-188 Frame::valid *)
Definition frame_valid (f : Frame) : bool :=
  match f with
  | PixelBuffer data _ _ _ => negb (bool_decide (data = []))
  | Texture t _ => negb (t =? 0)
  end.

(* src/libs/scrap/src/common/mod.rs:206-209 EncodeInput *)
Inductive EncodeInput : Type := YUV (data : bytes) | InTexture (texture rotation : Z).

(** What a capturer fails with. *)
Inductive capture_error : Type := WouldBlock | CaptureFailed (e : string).

(** An encoder of [scrap] ([EncoderApi]) with frames [F]; the clearing of the codecs
    ([disable]) acts on the machine. *)
(* src/libs/scrap/src/common/codec.rs:60-83 EncoderApi *)
Class EncoderApi (E F : Type) := {
  new_encoder : EncoderCfg -> Z * Z -> f32 -> option Z -> bool -> result string E;
  encode_to_message : EncodeInput -> Z -> E -> result string F * E;
  to_yuv : Frame -> E -> result string bytes;    (** [convert_to_yuv] with its [yuvfmt] *)
  input_texture : E -> bool;
  set_quality : f32 -> E -> result string unit * E;
  enc_bitrate : E -> Z;
  enc_support_changing_quality : E -> bool;
  latency_free : E -> bool;
  is_hardware : E -> bool;
  disable : E -> Machine -> Machine;
}.

(** A capturer of [scrap]. *)
(* src/libs/scrap/src/common/mod.rs:129-144 TraitCapturer *)
Class TraitCapturer (C : Type) := {
  capture : Z -> C -> result capture_error Frame * C;
  is_gdi : C -> bool;
  set_gdi : C -> C;
  adapter : C -> Z;
  set_output_texture : bool -> C -> C;
}.

(** What else the service asks of the system. *)
Class VideoSystem (S C : Type) := {
  is_process_consent_running : S -> result string bool;
  desktop_changed : S -> bool;
  mag_capturer : Display -> S -> result string C;          (** the magnifier without the privacy window *)
  capturer_portable : Z -> C;
  capturer_new : Display -> S -> result string C;
  cameras : S -> list DisplayInfo;                         (** [get_sync_cameras] *)
  camera_resolution : Z -> S -> option (Z * Z);
  camera_capturer : Z -> S -> result string C;
  lower : string -> string;
  option_value : string -> S -> bool;                      (** an option of the configuration *)
  decodings_in_order : gmap Z SupportedDecoding -> list (Z * SupportedDecoding);
  to_rgba : bytes -> Z * Z -> result string bytes;        (** [scrap::convert] *)
  encode_png : Z -> Z -> bytes -> result string bytes;
}.

(* src/src/server/video_service.rs:83-87 Screenshot *)
Record Screenshot : Type := mkScreenshot { sid : string; sh_tx : Z; restore_vram : bool }.

(** ** Screenshots *)

(** The pixel at [i] with the colours in the other order: outside of the data it panics. *)
Definition pixel_at (bgra : bytes) (i : Z) : option bytes :=
  let at_ k := bgra !! Z.to_nat (i + k) in
  r ← at_ 2; g ← at_ 1; b ← at_ 0; a ← at_ 3; Some [r; g; b; a].

Fixpoint row_at (bgra : bytes) (i : Z) (w : nat) : option bytes :=
  match w with
  | O => Some []
  | Datatypes.S w => p ← pixel_at bgra i; rest ← row_at bgra (i + 4) w; Some (p ++ rest)
  end.

Fixpoint rows_at (bgra : bytes) (i s : Z) (w h : nat) : option bytes :=
  match h with
  | O => Some []
  | Datatypes.S h => r ← row_at bgra i w; rest ← rows_at bgra (i + s) s w h; Some (r ++ rest)
  end.

(** [None]: it panics. *)
(* src/src/server/video_service.rs:1356-1379 get_rgba_from_pixelbuf *)
Definition get_rgba_from_pixelbuf (to_rgba : bytes -> Z * Z -> result string bytes)
    (data : bytes) (w h : Z) (stride : list Z) : option (result string bytes) :=
  match stride with
  | [] => Some (Err "Invalid pixel buf stride."%string)
  | s :: _ =>
      if s =? w * 4 then Some (to_rgba data (w, h))
      else Ok <$> rows_at data 0 s (Z.to_nat w) (Z.to_nat h)
  end.

(** The answer: the other side's identifier, and the message. *)
(* src/src/server/video_service.rs:1381-1416 handle_screenshot *)
Definition handle_screenshot {F} (encode_png : Z -> Z -> bytes -> result string bytes)
    (shot : Screenshot) (msg : string) (w h : Z) (data : bytes) : Z * message F :=
  (sh_tx shot,
   if bool_decide (msg = ""%string) then
     if bool_decide (data = [])
     then MScreenshot (sid shot) [] "Failed to take screenshot, please try again later."
     else match encode_png w h data with
          | Ok png => MScreenshot (sid shot) png ""
          | Err e => MScreenshot (sid shot) [] ("Error encoding png: " +:+ e)
          end
   else MScreenshot (sid shot) [] msg).

Section service.
Context {S C E F : Type} `{Screens S, VideoSystem S C, TraitCapturer C, EncoderApi E F}.
Local Notation Conn := (ConnInner F).
Local Notation Hub := (ServiceInner (T := ConnInner F)).

(** ** State *)

(** What the others do. *)
Inductive event : Type :=
| Passed (ns : Z)                            (** time *)
| Subscribed (c : Conn)
| Unsubscribed (id : Z)
| Fetched (display_idx id : Z)               (** a frame is handed to the network *)
| FetchedBy (id : Z)                         (** a web client has it, or a connection ends *)
| OptionSet (opt val : string)
| Quality (e : qos_event)
| Decodings (u : EncodingUpdate)
| PrivacyMode (pm : option (Z * string))     (** connection, implementation *)
| Portable (running : bool)
| TakeScreenshot (display_idx : Z) (sid : string) (tx : Z)
| SystemIs (s : S)
| DisplaysAre (d : Displays)
| OtherSent (display_idx : Z) (ids : gset Z) (** the service of the camera with this number *)
| OtherTakes (display_idx : Z)
| OtherDone (display_idx : Z).

(** The statics of the program that the thread uses, and its hub; [answers] are the
    screenshots that were sent. *)
(* src/src/server/video_service.rs:68-81 FRAME_FETCHED_NOTIFIERS *)
Record World : Type := mkWorld {
  sp : Hub;
  qos : VideoQoS;
  machine : Machine;
  choice : Choice;
  notifiers : gmap Z (list Z);
  display_conn_ids : gmap Z (gset Z);
  screenshots : gmap Z Screenshot;
  answers : list (Z * message F);
  displays_ : Displays;
  system : S;
  privacy : option (Z * string);
  portable : bool;
  now : Z;
  schedule : list (list event);
}.

Definition set_sp x (s : World) : World := mkWorld x (qos s) (machine s) (choice s) (notifiers s)
  (display_conn_ids s) (screenshots s) (answers s) (displays_ s) (system s) (privacy s) (portable s) (now s)
  (schedule s).
Definition set_qos x (s : World) : World := mkWorld (sp s) x (machine s) (choice s) (notifiers s)
  (display_conn_ids s) (screenshots s) (answers s) (displays_ s) (system s) (privacy s) (portable s) (now s)
  (schedule s).
Definition set_machine x (s : World) : World := mkWorld (sp s) (qos s) x (choice s) (notifiers s)
  (display_conn_ids s) (screenshots s) (answers s) (displays_ s) (system s) (privacy s) (portable s) (now s)
  (schedule s).
Definition set_choice x (s : World) : World := mkWorld (sp s) (qos s) (machine s) x (notifiers s)
  (display_conn_ids s) (screenshots s) (answers s) (displays_ s) (system s) (privacy s) (portable s) (now s)
  (schedule s).
Definition set_notifiers x (s : World) : World := mkWorld (sp s) (qos s) (machine s) (choice s) x
  (display_conn_ids s) (screenshots s) (answers s) (displays_ s) (system s) (privacy s) (portable s) (now s)
  (schedule s).
Definition set_display_conn_ids x (s : World) : World := mkWorld (sp s) (qos s) (machine s) (choice s)
  (notifiers s) x (screenshots s) (answers s) (displays_ s) (system s) (privacy s) (portable s) (now s)
  (schedule s).
Definition set_screenshots x (s : World) : World := mkWorld (sp s) (qos s) (machine s) (choice s) (notifiers
  s) (display_conn_ids s) x (answers s) (displays_ s) (system s) (privacy s) (portable s) (now s) (schedule
  s).
Definition set_answers x (s : World) : World := mkWorld (sp s) (qos s) (machine s) (choice s) (notifiers s)
  (display_conn_ids s) (screenshots s) x (displays_ s) (system s) (privacy s) (portable s) (now s) (schedule
  s).
Definition set_displays_ x (s : World) : World := mkWorld (sp s) (qos s) (machine s) (choice s) (notifiers
  s) (display_conn_ids s) (screenshots s) (answers s) x (system s) (privacy s) (portable s) (now s)
  (schedule s).
Definition set_system x (s : World) : World := mkWorld (sp s) (qos s) (machine s) (choice s) (notifiers s)
  (display_conn_ids s) (screenshots s) (answers s) (displays_ s) x (privacy s) (portable s) (now s)
  (schedule s).
Definition set_privacy x (s : World) : World := mkWorld (sp s) (qos s) (machine s) (choice s) (notifiers s)
  (display_conn_ids s) (screenshots s) (answers s) (displays_ s) (system s) x (portable s) (now s) (schedule
  s).
Definition set_portable x (s : World) : World := mkWorld (sp s) (qos s) (machine s) (choice s) (notifiers s)
  (display_conn_ids s) (screenshots s) (answers s) (displays_ s) (system s) (privacy s) x (now s) (schedule
  s).
Definition set_now x (s : World) : World := mkWorld (sp s) (qos s) (machine s) (choice s) (notifiers s)
  (display_conn_ids s) (screenshots s) (answers s) (displays_ s) (system s) (privacy s) (portable s) x
  (schedule s).
Definition set_schedule x (s : World) : World := mkWorld (sp s) (qos s) (machine s) (choice s) (notifiers s)
  (display_conn_ids s) (screenshots s) (answers s) (displays_ s) (system s) (privacy s) (portable s) (now s)
  x.

(* src/src/server/video_service.rs:362-371 CapturerInfo *)
Record CapturerInfo : Type := mkCapturerInfo {
  c_origin : Z * Z;
  c_size : Z * Z;
  ndisplay : Z;
  current : Z;
  privacy_mode_id : Z;
  capturer_privacy_mode_id : Z;
  capturer : C;
}.

Definition set_c_origin x (s : CapturerInfo) : CapturerInfo := mkCapturerInfo x (c_size s) (ndisplay s)
  (current s) (privacy_mode_id s) (capturer_privacy_mode_id s) (capturer s).
Definition set_c_size x (s : CapturerInfo) : CapturerInfo := mkCapturerInfo (c_origin s) x (ndisplay s)
  (current s) (privacy_mode_id s) (capturer_privacy_mode_id s) (capturer s).
Definition set_ndisplay x (s : CapturerInfo) : CapturerInfo := mkCapturerInfo (c_origin s) (c_size s) x
  (current s) (privacy_mode_id s) (capturer_privacy_mode_id s) (capturer s).
Definition set_current x (s : CapturerInfo) : CapturerInfo := mkCapturerInfo (c_origin s) (c_size s)
  (ndisplay s) x (privacy_mode_id s) (capturer_privacy_mode_id s) (capturer s).
Definition set_privacy_mode_id x (s : CapturerInfo) : CapturerInfo := mkCapturerInfo (c_origin s) (c_size s)
  (ndisplay s) (current s) x (capturer_privacy_mode_id s) (capturer s).
Definition set_capturer_privacy_mode_id x (s : CapturerInfo) : CapturerInfo := mkCapturerInfo (c_origin s)
  (c_size s) (ndisplay s) (current s) (privacy_mode_id s) x (capturer s).
Definition set_capturer x (s : CapturerInfo) : CapturerInfo := mkCapturerInfo (c_origin s) (c_size s)
  (ndisplay s) (current s) (privacy_mode_id s) (capturer_privacy_mode_id s) x.

(** The variables of the loop; [emitted] is what the encoder has made since it is there. *)
(* src/src/server/video_service.rs:634-653 run *)
Record Loop : Type := mkLoop {
  encoder : E;
  emitted : list F;
  info : CapturerInfo;
  quality_ : f32;
  spf_ : Z;
  send_counter_ : Z;
  second_instant : Z;
  last_check_displays : Z;
  try_gdi : Z;
  yuv : bytes;
  repeat_encode_counter : Z;
  encode_fail_counter : Z;
  first_frame : bool;
  send_conn_ids : gset Z;
  recorded : option (list (message F));
  try_vram : bool;
}.

Definition set_encoder x (s : Loop) : Loop := mkLoop x (emitted s) (info s) (quality_ s) (spf_ s)
  (send_counter_ s) (second_instant s) (last_check_displays s) (try_gdi s) (yuv s) (repeat_encode_counter s)
  (encode_fail_counter s) (first_frame s) (send_conn_ids s) (recorded s) (try_vram s).
Definition set_emitted x (s : Loop) : Loop := mkLoop (encoder s) x (info s) (quality_ s) (spf_ s)
  (send_counter_ s) (second_instant s) (last_check_displays s) (try_gdi s) (yuv s) (repeat_encode_counter s)
  (encode_fail_counter s) (first_frame s) (send_conn_ids s) (recorded s) (try_vram s).
Definition set_info x (s : Loop) : Loop := mkLoop (encoder s) (emitted s) x (quality_ s) (spf_ s)
  (send_counter_ s) (second_instant s) (last_check_displays s) (try_gdi s) (yuv s) (repeat_encode_counter s)
  (encode_fail_counter s) (first_frame s) (send_conn_ids s) (recorded s) (try_vram s).
Definition set_quality_ x (s : Loop) : Loop := mkLoop (encoder s) (emitted s) (info s) x (spf_ s)
  (send_counter_ s) (second_instant s) (last_check_displays s) (try_gdi s) (yuv s) (repeat_encode_counter s)
  (encode_fail_counter s) (first_frame s) (send_conn_ids s) (recorded s) (try_vram s).
Definition set_spf_ x (s : Loop) : Loop := mkLoop (encoder s) (emitted s) (info s) (quality_ s) x
  (send_counter_ s) (second_instant s) (last_check_displays s) (try_gdi s) (yuv s) (repeat_encode_counter s)
  (encode_fail_counter s) (first_frame s) (send_conn_ids s) (recorded s) (try_vram s).
Definition set_send_counter_ x (s : Loop) : Loop := mkLoop (encoder s) (emitted s) (info s) (quality_ s)
  (spf_ s) x (second_instant s) (last_check_displays s) (try_gdi s) (yuv s) (repeat_encode_counter s)
  (encode_fail_counter s) (first_frame s) (send_conn_ids s) (recorded s) (try_vram s).
Definition set_second_instant x (s : Loop) : Loop := mkLoop (encoder s) (emitted s) (info s) (quality_ s)
  (spf_ s) (send_counter_ s) x (last_check_displays s) (try_gdi s) (yuv s) (repeat_encode_counter s)
  (encode_fail_counter s) (first_frame s) (send_conn_ids s) (recorded s) (try_vram s).
Definition set_last_check_displays x (s : Loop) : Loop := mkLoop (encoder s) (emitted s) (info s) (quality_
  s) (spf_ s) (send_counter_ s) (second_instant s) x (try_gdi s) (yuv s) (repeat_encode_counter s)
  (encode_fail_counter s) (first_frame s) (send_conn_ids s) (recorded s) (try_vram s).
Definition set_try_gdi x (s : Loop) : Loop := mkLoop (encoder s) (emitted s) (info s) (quality_ s) (spf_ s)
  (send_counter_ s) (second_instant s) (last_check_displays s) x (yuv s) (repeat_encode_counter s)
  (encode_fail_counter s) (first_frame s) (send_conn_ids s) (recorded s) (try_vram s).
Definition set_yuv x (s : Loop) : Loop := mkLoop (encoder s) (emitted s) (info s) (quality_ s) (spf_ s)
  (send_counter_ s) (second_instant s) (last_check_displays s) (try_gdi s) x (repeat_encode_counter s)
  (encode_fail_counter s) (first_frame s) (send_conn_ids s) (recorded s) (try_vram s).
Definition set_repeat_encode_counter x (s : Loop) : Loop := mkLoop (encoder s) (emitted s) (info s)
  (quality_ s) (spf_ s) (send_counter_ s) (second_instant s) (last_check_displays s) (try_gdi s) (yuv s) x
  (encode_fail_counter s) (first_frame s) (send_conn_ids s) (recorded s) (try_vram s).
Definition set_encode_fail_counter x (s : Loop) : Loop := mkLoop (encoder s) (emitted s) (info s) (quality_
  s) (spf_ s) (send_counter_ s) (second_instant s) (last_check_displays s) (try_gdi s) (yuv s)
  (repeat_encode_counter s) x (first_frame s) (send_conn_ids s) (recorded s) (try_vram s).
Definition set_first_frame x (s : Loop) : Loop := mkLoop (encoder s) (emitted s) (info s) (quality_ s) (spf_
  s) (send_counter_ s) (second_instant s) (last_check_displays s) (try_gdi s) (yuv s) (repeat_encode_counter
  s) (encode_fail_counter s) x (send_conn_ids s) (recorded s) (try_vram s).
Definition set_send_conn_ids x (s : Loop) : Loop := mkLoop (encoder s) (emitted s) (info s) (quality_ s)
  (spf_ s) (send_counter_ s) (second_instant s) (last_check_displays s) (try_gdi s) (yuv s)
  (repeat_encode_counter s) (encode_fail_counter s) (first_frame s) x (recorded s) (try_vram s).
Definition set_recorded x (s : Loop) : Loop := mkLoop (encoder s) (emitted s) (info s) (quality_ s) (spf_ s)
  (send_counter_ s) (second_instant s) (last_check_displays s) (try_gdi s) (yuv s) (repeat_encode_counter s)
  (encode_fail_counter s) (first_frame s) (send_conn_ids s) x (try_vram s).
Definition set_try_vram x (s : Loop) : Loop := mkLoop (encoder s) (emitted s) (info s) (quality_ s) (spf_ s)
  (send_counter_ s) (second_instant s) (last_check_displays s) (try_gdi s) (yuv s) (repeat_encode_counter s)
  (encode_fail_counter s) (first_frame s) (send_conn_ids s) (recorded s) x.

(** What is fixed in a run. *)
Record Fixed : Type := mkFixed {
  display_idx : Z;
  source : VideoSource;
  last_portable_service_running : bool;
  client_record : bool;
  encoder_cfg : EncoderCfg;
  codec_format : CodecFormat;
  use_i444_ : bool;
  start : Z;
}.

(** The state of the thread: outside of the loop the variables are not there, and what
    happens there is written on [World]. *)
Record VS : Type := mkVS {
  w : World;
  l : Loop;
}.

Definition set_w x (s : VS) : VS := mkVS x (l s).
Definition set_l x (s : VS) : VS := mkVS (w s) x.

(** [Bail] is the error of the source, [Panic] an [unwrap] of nothing, and [NoFuel] is a
    loop that was not followed to its end. *)
Inductive stop : Type := Bail (e : string) | Panic | NoFuel.

Definition M (A : Type) : Type := VS -> result stop A * VS.
#[local] Instance M_ret : MRet M := fun A a s => (Ok a, s).
#[local] Instance M_bind : MBind M := fun A B f m s =>
  match m s with (Ok a, s) => f a s | (Err e, s) => (Err e, s) end.

Definition ask {A} (f : VS -> A) : M A := fun s => (Ok (f s), s).
Definition world (f : World -> World) : M unit := fun s => (Ok tt, mkVS (f (w s)) (l s)).
Definition loop (f : Loop -> Loop) : M unit := fun s => (Ok tt, mkVS (w s) (f (l s))).
Definition bail {A} (e : string) : M A := fun s => (Err (Bail e), s).
Definition when (b : bool) (m : M unit) : M unit := if b then m else mret tt.
(** [?] on what was computed. *)
Definition try_ {A} (r : result string A) : M A := match r with Ok a => mret a | Err e => bail e end.
Definition some_or_panic {A} (o : option A) : M A :=
  match o with Some a => mret a | None => fun s => (Err Panic, s) end.
(** [.ok()] on a result of the source: a panic goes on. *)
Definition ignoring (m : M unit) : M unit := fun s =>
  match m s with (Err (Bail _), s) => (Ok tt, s) | r => r end.

(** ** The others *)

(* src/src/server/video_service.rs:90-94 notify_video_frame_fetched *)
Definition notify_video_frame_fetched (idx id : Z) (s : World) : World :=
  set_notifiers (alter (fun q => q ++ [id]) idx (notifiers s)) s.

(* src/src/server/video_service.rs:97-117 notify_video_frame_fetched_by_conn_id *)
Definition notify_video_frame_fetched_by_conn_id (id : Z) (s : World) : World :=
  set_notifiers
    (map_imap (fun idx q => Some (if decide (id ∈ default ∅ (display_conn_ids s !! idx)) then q ++ [id] else q))
       (notifiers s)) s.

(* src/src/server/video_service.rs:1344-1353 set_take_screenshot *)
Definition set_take_screenshot (idx : Z) (id : string) (tx : Z) (s : World) : World :=
  set_screenshots (<[idx := mkScreenshot id tx false]> (screenshots s)) s.

(** A subscriber of the service with this channel. *)
Definition apply_event (e : event) (s : World) : World :=
  match e with
  | Passed ns => set_now (now s + Z.max 0 ns) s
  | Subscribed c => set_sp (on_subscribe c (sp s)) s
  | Unsubscribed id => set_sp (on_unsubscribe id (sp s)) s
  | Fetched idx id => notify_video_frame_fetched idx id s
  | FetchedBy id => notify_video_frame_fetched_by_conn_id id s
  | OptionSet opt val => set_sp (snd (set_option opt val (sp s))) s
  | Quality e => set_qos (default (qos s) (qos_step (qos s) e)) s
  | Decodings u => set_choice (update decodings_in_order (machine s) u (choice s)) s
  | PrivacyMode pm => set_privacy pm s
  | Portable b => set_portable b s
  | TakeScreenshot idx id tx => set_take_screenshot idx id tx s
  | SystemIs o => set_system o s
  | DisplaysAre d => set_displays_ d s
  | OtherSent idx ids => set_display_conn_ids (<[idx := ids]> (display_conn_ids s)) s
  | OtherTakes idx => set_notifiers (alter (fun q => tail q) idx (notifiers s)) s
  | OtherDone idx => set_display_conn_ids (delete idx (display_conn_ids s)) s
  end.

Definition interfere : M unit := world (fun s =>
  match schedule s with
  | [] => s
  | batch :: rest => set_schedule rest (foldl (fun s e => apply_event e s) s batch)
  end).

(** ** Waiting for the subscribers *)

Definition seconds (n : Z) : Z := n * 1000000000.
Definition millis (n : Z) : Z := n * 1000000.
(** [Instant::elapsed]. *)
Definition elapsed_ms (since : Z) (s : World) : Z := Z.max 0 (now s - since) / 1000000.

(* src/src/server/video_service.rs:134-136 VideoFrameController::reset *)
Definition reset_controller : M unit := loop (set_send_conn_ids ∅).

(* src/src/server/video_service.rs:138-147 VideoFrameController::set_send *)
Definition set_send (fx : Fixed) (conn_ids : gset Z) : M unit :=
  when (negb (bool_decide (conn_ids = ∅)))
    (loop (set_send_conn_ids conn_ids) ;;
     world (fun s => set_display_conn_ids (<[display_idx fx := conn_ids]> (display_conn_ids s)) s)).

(** [recv] with a deadline: the events happen until something is there; without any more
    the deadline is reached. *)
Fixpoint wait_events (idx deadline : Z) (evs : list event) (s : World) : list event * World :=
  match notifiers s !! idx with
  | Some (_ :: _) => (evs, s)
  | _ =>
      if deadline <=? now s then (evs, s)
      else match evs with
           | [] => ([], set_now deadline s)
           | e :: evs => wait_events idx deadline evs (apply_event e s)
           end
  end.

Definition recv_timeout (idx deadline : Z) (s : World) : World :=
  match schedule s with
  | [] => snd (wait_events idx deadline [] s)
  | batch :: rest =>
      let '(left_, s) := wait_events idx deadline batch s in
      set_schedule (match left_ with [] => rest | _ => left_ :: rest end) s
  end.

(** All that is there is taken. *)
(* src/src/server/video_service.rs:150-192 VideoFrameController::try_wait_next *)
Definition try_wait_next (fx : Fixed) (fetched : gset Z) (timeout_millis : Z) : M (gset Z) :=
  sent ← ask (fun s => send_conn_ids (l s));
  notifier ← ask (fun s => notifiers (w s) !! display_idx fx);
  if bool_decide (sent = ∅) then mret fetched
  else match notifier with
       | None => mret fetched
       | Some _ =>
           deadline ← ask (fun s => now (w s) + millis timeout_millis);
           world (recv_timeout (display_idx fx) deadline) ;;
           ids ← ask (fun s => default [] (notifiers (w s) !! display_idx fx));
           world (fun s => set_notifiers (<[display_idx fx := []]> (notifiers s)) s) ;;
           mret (fetched ∪ list_to_set ids)
       end.

(** ** The parts of the loop *)

Definition hub (f : Hub -> Hub) : M unit := world (fun s => set_sp (f (sp s)) s).
Definition hub_snapshot (callback : Hub -> result string unit * Hub) : M unit := fun s =>
  let '(r, h) := snapshot callback (sp (w s)) in
  try_ r (mkVS (set_sp h (w s)) (l s)).

Definition cap (f : C -> C) : M unit :=
  loop (fun s => set_info (set_capturer (f (capturer (info s))) (info s)) s).

(** [None]: there is no such display. *)
(* src/src/server/video_service.rs:1256-1305 make_display_changed_msg *)
Definition make_display_changed_msg (idx : Z) (opt_display : option DisplayInfo) (src : VideoSource)
    (d : Displays) (s : S) : option (message F) :=
  display ← match opt_display with
            | Some d => Some d
            | None => match src with
                      | Monitor => get_display_info idx d
                      | Camera => cameras s !! Z.to_nat idx
                      end
            end;
  Some (MSwitchDisplay idx display false
          match src with
          | Monitor => if bool_decide (di_name display = ""%string) then []
                       else supported_resolutions (di_name display) s
          | Camera => match camera_resolution idx s with Some r => [r] | None => [] end
          end).

(* src/src/server/video_service.rs:1224-1254 try_broadcast_display_changed *)
Definition try_broadcast_display_changed (fx : Fixed) (refresh : bool) : M unit :=
  when refresh (world (fun s =>
    let '(_, d, o) := check_displays_changed (displays_ s) (system s) in set_displays_ d (set_system o s))) ;;
  found ← ask (fun s => let c := info (l s) in
    check_display_changed (ndisplay c) (current c) (c_origin c) (fst (c_size c)) (snd (c_size c)) (displays_ (w s)));
  msg ← ask (fun s => found ≫= fun d =>
    make_display_changed_msg (display_idx fx) (Some d) Monitor (displays_ (w s)) (system (w s)));
  match msg with
  | None => mret tt
  | Some m => hub (send_shared m) ;; hub_snapshot (fun h => (Ok tt, swap_send m h)) ;; bail "SWITCH"
  end.

(* src/src/server/video_service.rs:1104-1123 check_privacy_mode_changed *)
Definition check_privacy_mode_changed (fx : Fixed) : M unit :=
  id ← ask (fun s => privacy_mode_id (info (l s)));
  id2 ← ask (fun s => default INVALID_PRIVACY_MODE_CONN_ID (fst <$> privacy (w s)));
  if id =? id2 then mret tt
  else
    when (negb (id2 =? INVALID_PRIVACY_MODE_CONN_ID)) (hub (send_to_others MPrivacyModeOnByOther id2)) ;;
    ignoring (try_broadcast_display_changed fx true) ;;
    bail "SWITCH".

Definition is_current_privacy_mode_impl (key : string) (s : World) : bool :=
  bool_decide (snd <$> privacy s = Some key).

(* src/src/server/video_service.rs:344-360 check_uac_switch *)
Definition check_uac_switch : M unit :=
  id ← ask (fun s => privacy_mode_id (info (l s)));
  cid ← ask (fun s => capturer_privacy_mode_id (info (l s)));
  mag ← ask (fun s => is_current_privacy_mode_impl PRIVACY_MODE_IMPL_WIN_MAG (w s));
  let running := r ← ask (fun s => is_process_consent_running (system (w s))); try_ r in
  when (negb (cid =? INVALID_PRIVACY_MODE_CONN_ID) && mag && negb screens_installed)
    (when (negb (id =? cid)) (b ← running; when (negb b) (bail "consent.exe is not running")) ;;
     b ← running; when b (bail "consent.exe is running")).

(* src/src/server/video_service.rs:1307-1342 check_qos *)
Definition check_qos (fx : Fixed) (name : string) : M unit :=
  spf' ← ask (fun s => spf (qos (w s)));
  spf' ← some_or_panic spf';
  loop (set_spf_ spf') ;;
  r ← ask (fun s => fst (ratio (qos (w s))));
  world (fun s => set_qos (snd (ratio (qos s))) s) ;;
  old ← ask (fun s => quality_ (l s));
  when (negb (SFeqb old r))
    (loop (set_quality_ r) ;;
     e ← ask (fun s => encoder (l s));
     if enc_support_changing_quality e then
       let e := snd (set_quality r e) in
       loop (set_encoder e) ;; world (fun s => set_qos (store_bitrate (qos s) (enc_bitrate e)) s)
     else
       q ← ask (fun s => qos (w s));
       when (negb (in_vbr_state q) && negb (is_custom (latest_quality q))) (bail "SWITCH")) ;;
  rec ← ask (fun s => record (qos (w s)));
  when (negb (eqb (client_record fx) rec)) (bail "SWITCH") ;;
  t ← ask (fun s => now (w s));
  since ← ask (fun s => second_instant (l s));
  when (seconds 1 <? t - since)
    (loop (set_second_instant t) ;;
     n ← ask (fun s => send_counter_ (l s));
     q ← ask (fun s => update_display_data t (qos (w s)) name n);
     q ← some_or_panic q;
     world (set_qos q) ;; loop (set_send_counter_ 0)).

(* src/src/server/video_service.rs:1126-1195 handle_one_frame *)
Definition handle_one_frame (fx : Fixed) (input : EncodeInput) (ms : Z) : M (gset Z) :=
  hub_snapshot (fun h => (if swap_has_subscribes h then Err "SWITCH"%string else Ok tt, h)) ;;
  first ← ask (fun s => first_frame (l s));
  loop (set_first_frame false) ;;
  interfere ;;
  e ← ask (fun s => encoder (l s));
  let '(r, e) := encode_to_message input ms e in
  loop (set_encoder e) ;;
  match r with
  | Ok vf =>
      let msg := MVideoFrame (display_idx fx) vf in
      loop (set_encode_fail_counter 0) ;;
      loop (fun s => set_emitted (emitted s ++ [vf]) s) ;;
      loop (fun s => set_recorded ((fun r => r ++ [msg]) <$> recorded s) s) ;;
      ids ← ask (fun s => fst (send_video_frame msg (sp (w s))));
      hub (fun h => snd (send_video_frame msg h)) ;;
      interfere ;;
      mret ids
  | Err why =>
      loop (fun s => set_encode_fail_counter (encode_fail_counter s + 1) s) ;;
      fails ← ask (fun s => encode_fail_counter (l s));
      let disabled := world (fun s => set_machine (disable e (machine s)) s) ;; bail "SWITCH" in
      when (first && latency_free e || (3 <=? fails))
        (loop (set_encode_fail_counter 0) ;; when (is_hardware e) disabled) ;;
      when (bool_decide (why = ENCODE_NEED_SWITCH)) disabled ;;
      mret ∅
  end.

(* src/libs/scrap/src/common/vram.rs:298-310 VRamEncoder::set_fallback_gdi *)
Definition set_fallback_gdi (name : string) (fallback : bool) (m : Machine) : Machine :=
  mkMachine (bits32 m) (windows m) (opt_hwcodec m) (opt_directx m) (opt_d3d m) (av1_test m)
    (total_memory m) (hw_encode m) (hw_soft m) (hw_decode m) (vram_encode m) (vram_decode m)
    (CodecChoice.displays m)
    (if fallback then fallback_gdi m ∪ {[name]} else fallback_gdi m ∖ {[name]}) (not_use m).

(** A screenshot that is wanted is taken of this frame. *)
(* src/src/server/video_service.rs:724-765 run *)
Definition take_screenshot (fx : Fixed) (name : string) (f : Frame) : M unit :=
  shot ← ask (fun s => screenshots (w s) !! display_idx fx);
  world (fun s => set_screenshots (delete (display_idx fx) (screenshots s)) s) ;;
  match shot with
  | None => mret tt
  | Some shot =>
      x ← match f with
          | PixelBuffer data fw fh stride =>
              r ← some_or_panic (get_rgba_from_pixelbuf (to_rgba (C := C)) data fw fh stride);
              mret match r with
                   | Ok rgba => (""%string, fw, fh, rgba)
                   | Err e => ("Convert pixfmt: " +:+ e, 0, 0, [])
                   end
          | Texture _ _ =>
              if restore_vram shot then mret ("Please change codec and try again."%string, 0, 0, [])
              else
                world (fun s => set_machine (set_not_use name true (machine s)) s) ;;
                world (fun s => set_screenshots
                  (<[display_idx fx := mkScreenshot (sid shot) (sh_tx shot) true]> (screenshots s)) s) ;;
                loop (set_try_vram false) ;;
                bail "SWITCH"
          end;
      let '(msg, sw, sh, data) := x in
      world (fun s => set_answers
        (answers s ++ [handle_screenshot (encode_png (C := C)) shot msg sw sh data]) s) ;;
      when (restore_vram shot) (bail "SWITCH")
  end.

(* src/libs/scrap/src/common/mod.rs:190-203 Frame::to *)
Definition frame_to (f : Frame) : M EncodeInput :=
  match f with
  | PixelBuffer _ _ _ _ =>
      e ← ask (fun s => encoder (l s));
      data ← try_ (to_yuv f e);
      loop (set_yuv data) ;; mret (YUV data)
  | Texture t r => mret (InTexture t r)
  end.

(** A frame is encoded, sent, and counted. *)
(* src/src/server/video_service.rs:768-781 run *)
Definition send_frame (fx : Fixed) (input : EncodeInput) (ms : Z) : M unit :=
  ids ← handle_one_frame fx input ms;
  set_send fx ids ;;
  loop (fun s => set_send_counter_ (send_counter_ s + 1) s).

(* src/src/server/video_service.rs:721-792 run *)
Definition on_frame (fx : Fixed) (name : string) (f : Frame) (ms : Z) : M unit :=
  loop (set_repeat_encode_counter 0) ;;
  when (frame_valid f) (take_screenshot fx name f ;; input ← frame_to f; send_frame fx input ms) ;;
  gdi ← ask (fun s => is_gdi (capturer (info (l s))));
  first ← ask (fun s => try_gdi (l s));
  when ((first =? 1) && negb gdi)
    (world (fun s => set_machine (set_fallback_gdi name false (machine s)) s)) ;;
  loop (set_try_gdi 0).

(** Nothing new: after four times another way of capturing is taken, and an encoder that
    keeps frames back gets the last one again. *)
(* src/src/server/video_service.rs:797-843 run *)
Definition on_would_block (fx : Fixed) (ms : Z) : M unit :=
  gdi ← ask (fun s => is_gdi (capturer (info (l s))));
  n ← ask (fun s => try_gdi (l s));
  when ((0 <? n) && negb gdi)
    (when (3 <? n) (cap set_gdi ;; loop (set_try_gdi 0)) ;;
     loop (fun s => set_try_gdi (try_gdi s + 1) s)) ;;
  s ← ask (fun s => l s);
  when (negb (latency_free (encoder s)) && negb (bool_decide (yuv s = [])) && (repeat_encode_counter s <? 10))
    (loop (fun s => set_repeat_encode_counter (repeat_encode_counter s + 1) s) ;;
     send_frame fx (YUV (yuv s)) ms).

(** Whether to go on with this round. *)
(* src/src/server/video_service.rs:844-857 run *)
Definition on_capture_failed (fx : Fixed) (e : string) : M bool :=
  when (is_monitor (source fx)) (try_broadcast_display_changed fx true) ;;
  gdi ← ask (fun s => is_gdi (capturer (info (l s))));
  if negb gdi then cap set_gdi ;; mret false else bail e.

(** Until everybody has the frame, or for three seconds; [fuel]: see [wait_enough]. *)
(* src/src/server/video_service.rs:867-879 run *)
Fixpoint wait_frames (fx : Fixed) (fuel : nat) (wait_begin : Z) (fetched : gset Z) : M (gset Z) :=
  match fuel with
  | O => fun s => (Err NoFuel, s)
  | Datatypes.S fuel =>
      e ← ask (fun s => elapsed_ms wait_begin (w s));
      if e <? 3000 then
        when (is_monitor (source fx)) (check_privacy_mode_changed fx) ;;
        fetched ← try_wait_next fx fetched 300;
        n ← ask (fun s => size (send_conn_ids (l s)));
        if (n <=? size fetched)%nat then mret fetched else wait_frames fx fuel wait_begin fetched
      else mret fetched
  end.

Definition events_left (s : World) : nat := length (concat (schedule s)).
Definition wait_fuel (idx : Z) (s : World) : nat :=
  (12 + length (default [] (notifiers s !! idx)) + events_left s)%nat.

(* src/src/server/video_service.rs:656-706 run *)
Definition check_switch (fx : Fixed) (name : string) : M unit :=
  check_uac_switch ;;
  check_qos fx name ;;
  refresh ← ask (fun s => is_option_true OPTION_REFRESH (sp (w s)));
  when refresh
    (when (is_monitor (source fx)) (ignoring (try_broadcast_display_changed fx true)) ;; bail "SWITCH") ;;
  s ← ask (fun s => w s);
  when (negb (bool_decide (codec_format fx = encode_format (choice s)))) (bail "SWITCH") ;;
  when (negb (eqb (last_portable_service_running fx) (portable s))) (bail "SWITCH") ;;
  when (negb (eqb (use_i444 (encoder_cfg fx) (choice s)) (use_i444_ fx))) (bail "SWITCH") ;;
  v ← ask (fun s => l s);
  when (is_gdi (capturer (info v)) && input_texture (encoder v))
    (world (fun s => set_machine (set_fallback_gdi name true (machine s)) s) ;; bail "SWITCH") ;;
  when (is_monitor (source fx)) (check_privacy_mode_changed fx) ;;
  when (desktop_changed (C := C) (system s) && negb (portable s)) (bail "Desktop changed").

(* src/src/server/video_service.rs:655-888 run *)
Definition round (fx : Fixed) (name : string) : M unit :=
  interfere ;;
  check_switch fx name ;;
  began ← ask (fun s => now (w s));
  checked ← ask (fun s => elapsed_ms (last_check_displays (l s)) (w s));
  when (is_monitor (source fx) && (1000 <? checked))
    (loop (set_last_check_displays began) ;; try_broadcast_display_changed fx false) ;;
  reset_controller ;;
  let ms := Z.max 0 (began - start fx) / 1000000 in
  v ← ask (fun s => l s);
  let '(r, c) := capture (spf_ v) (capturer (info v)) in
  cap (fun _ => c) ;;
  interfere ;;
  go_on ← match r with
          | Ok f => on_frame fx name f ms ;; mret true
          | Err WouldBlock => on_would_block fx ms ;; mret true
          | Err (CaptureFailed e) => on_capture_failed fx e
          end;
  if negb go_on then mret tt
  else
    wait_begin ← ask (fun s => now (w s));
    fuel ← ask (fun s => wait_fuel (display_idx fx) (w s));
    wait_frames fx fuel wait_begin ∅ ;;
    world (fun s => set_display_conn_ids (delete (display_idx fx) (display_conn_ids s)) s) ;;
    spf' ← ask (fun s => spf_ (l s));
    world (fun s => set_now (Z.max (now s) (began + spf')) s).

Fixpoint rounds (fx : Fixed) (name : string) (n : nat) : M unit :=
  match n with
  | O => fun s => (Err NoFuel, s)
  | Datatypes.S n =>
      go ← ask (fun s => ok (sp (w s)));
      if go : bool then round fx name ;; rounds fx name n else mret tt
  end.

(** ** Beginning and end *)

(* src/src/server/portable_service.rs:912-929 client::create_capturer *)
Definition portable_create_capturer (idx : Z) (d : Display) (running : bool) (s : S) : result string C :=
  if running && is_primary d then Ok (capturer_portable (S := S) idx) else capturer_new d s.

(* src/src/server/video_service.rs:262-307 create_capturer *)
Definition create_capturer (privacy_mode_id : Z) (d : Display) (idx : Z) (running : bool) (s : World)
    : result string C :=
  if (0 <? privacy_mode_id) && is_current_privacy_mode_impl PRIVACY_MODE_IMPL_WIN_MAG s
  then mag_capturer d (system s)
  else portable_create_capturer idx d running (system s).

(* src/src/server/video_service.rs:387-479 get_capturer_monitor *)
Definition get_capturer_monitor (idx : Z) (running : bool) (s : World) : result string CapturerInfo :=
  all ← all_displays (system s);
  match all !! Z.to_nat idx with
  | None => Err "Failed to get display"%string
  | Some d =>
      let id := default INVALID_PRIVACY_MODE_CONN_ID (fst <$> privacy s) in
      cid ← (if negb (id =? INVALID_PRIVACY_MODE_CONN_ID) &&
                is_current_privacy_mode_impl PRIVACY_MODE_IMPL_WIN_MAG s && negb screens_installed
             then b ← is_process_consent_running (C := C) (system s);
                  Ok (if (b : bool) then INVALID_PRIVACY_MODE_CONN_ID else id)
             else Ok id);
      c ← create_capturer cid d idx running s;
      Ok (mkCapturerInfo (origin d) (width d, height d) (zlen all) idx id cid c)
  end.

(* src/src/server/video_service.rs:481-520 get_capturer_camera *)
Definition get_capturer_camera (idx : Z) (s : World) : result string CapturerInfo :=
  match cameras (C := C) (system s) !! Z.to_nat idx with
  | None => Err "Failed to get camera"%string
  | Some camera =>
      c ← camera_capturer idx (system s);
      let id := default INVALID_PRIVACY_MODE_CONN_ID (fst <$> privacy s) in
      Ok (mkCapturerInfo (di_x camera, di_y camera) (di_width camera, di_height camera)
            (zlen (cameras (C := C) (system s))) idx id id c)
  end.

(* src/src/server/video_service.rs:521-530 get_capturer *)
Definition get_capturer (src : VideoSource) (idx : Z) (running : bool) (s : World) : result string CapturerInfo :=
  match src with
  | Monitor => get_capturer_monitor idx running s
  | Camera => get_capturer_camera idx s
  end.

(** The configuration, the format, whether it is i444, and the encoder. *)
(* src/src/server/video_service.rs:925-955 setup_encoder *)
Definition setup (name : string) (quality : f32) (record_ running : bool) (src : VideoSource)
    (c : CapturerInfo) (s : World) : result string (EncoderCfg * CodecFormat * bool * E) * World :=
  let '(cfg, format, i444, m, ch) :=
    setup_encoder decodings_in_order (lower (S := S) (C := C)) (adapter (capturer c)) (is_gdi (capturer c)) name running
      (bool_decide (src = Camera)) (machine s) (choice s) in
  ((fun e => (cfg, format, i444, e)) <$>
     new_encoder cfg (c_size c) quality (if record_ then Some 240 else None) i444,
   set_choice ch (set_machine m s)).

(* src/src/server/video_service.rs:900-908 Raii::new *)
Definition raii_new (name : string) (s : World) : World := set_qos (new_display (qos s) name) s.

(* src/src/server/video_service.rs:912-922 Raii::drop *)
Definition raii_drop (idx : Z) (name : string) (try_vram : bool) (s : World) : World :=
  let s := if try_vram then set_machine (set_not_use name false (machine s)) s else s in
  let s := set_choice (update decodings_in_order (machine s) Check (choice s)) s in
  set_display_conn_ids (delete idx (display_conn_ids s)) (set_qos (remove_display (qos s) name) s).

(** The loop's first state. *)
(* src/src/server/video_service.rs:532-653 run *)
Definition prepare (src : VideoSource) (idx : Z) (name : string) (s : World) : result stop (Fixed * VS) * World :=
  let running := portable s in
  match get_capturer src idx running s with
  | Err e => (Err (Bail e), s)
  | Ok c =>
      let c := if negb (opt_directx (machine s)) && negb (is_gdi (capturer c))
               then set_capturer (set_gdi (capturer c)) c else c in
      match spf (qos s) with
      | None => (Err Panic, s)
      | Some spf0 =>
          let '(quality, q) := ratio (qos s) in
          let s := set_qos q s in
          let incoming := option_value (C := C) "allow-auto-record-incoming" (system s) in
          let recording := record (qos s) in
          let setup_ := setup name quality (recording || incoming) running src c in
          let '(r, s) :=
            match setup_ s with
            | (Err _, s) => setup_ (set_choice (set_fallback (lower (S := S) (C := C)) (VPX false) (choice s)) s)
            | r => r
            end in
          match r with
          | Err e => (Err (Bail e), s)
          | Ok (cfg, format, i444, e) =>
              let c := set_capturer (set_output_texture (input_texture e) (capturer c)) c in
              let s := set_qos (set_support_changing_quality (store_bitrate (qos s) (enc_bitrate e)) name
                                  (enc_support_changing_quality e)) s in
              let s := if is_option_true OPTION_REFRESH (sp s)
                       then set_sp (set_option_bool OPTION_REFRESH false (sp s)) s else s in
              (Ok (mkFixed idx src running recording cfg format i444 (now s),
                   mkVS s (mkLoop e [] c quality spf0 0 (now s) (now s) 1 [] 0 0 true ∅
                             (if incoming then Some [] else None) true)), s)
          end
      end
  end.

(** [n] rounds at most. *)
(* src/src/server/video_service.rs:532-891 run *)
Definition run (n : nat) (src : VideoSource) (idx : Z) (s : World) : result stop unit * World :=
  let name := ServiceHub.name (sp s) in
  match prepare src idx name (raii_new name s) with
  | (Err e, s) => (Err e, raii_drop idx name true s)
  | (Ok (fx, v), _) =>
      let '(r, v) := rounds fx name n v in
      (r, raii_drop idx name (try_vram (l v)) (w v))
  end.

(** The service, and its channel. *)
(* src/src/server/video_service.rs:243-259 new *)
Definition new_video_service (src : VideoSource) (idx : Z) (s : World) : World :=
  let s := set_notifiers (partial_alter (fun q => Some (default [] q)) idx (notifiers s)) s in
  set_sp (hub_new (get_service_name (bool_decide (src = Camera)) idx) true) s.

(** ** Every viewer follows the encoder *)

Definition frames_of (c : Conn) : list F :=
  omap (fun m => match m with MVideoFrame _ f => Some f | _ => None end) (default [] (tx_video c)).

(** Whoever is subscribed has every frame since the encoder is there, in order. *)
Definition followed (s : VS) : Prop :=
  forall id c, subscribes (sp (w s)) !! id = Some c -> tx_video c = None \/ emitted (l s) `suffix_of` frames_of c.

(** Somebody who is subscribed, and stays. *)
Definition stays (k : Z) (s : VS) : Prop :=
  is_Some (subscribes (sp (w s)) !! k) /\ Unsubscribed k ∉ concat (schedule (w s)).

(** What the parts of the loop keep, also where it is no longer followed; errors end it. *)
Definition keeps (I : VS -> Prop) {A} (m : M A) : Prop :=
  forall s, I s -> match m s with (Ok _, s) | (Err NoFuel, s) => I s | (Err _, _) => True end.

Lemma keeps_then I {A B} (m : M A) (f : A -> M B) : keeps I m -> (forall a, keeps I (f a)) -> keeps I (m ≫= f).
Proof.
  intros Hm Hf s HI. specialize (Hm s HI). unfold mbind, M_bind.
  destruct (m s) as [[a|e] s']; [exact (Hf a s' Hm)|exact Hm].
Qed.

Lemma keeps_ask I {A} (f : VS -> A) : keeps I (ask f).
Proof. by intros s HI. Qed.
Lemma keeps_mret I {A} (a : A) : keeps I (mret a).
Proof. by intros s HI. Qed.
Lemma keeps_try I {A} (r : result string A) : keeps I (try_ r).
Proof. by destruct r; intros s HI. Qed.
Lemma keeps_or_panic I {A} (o : option A) : keeps I (some_or_panic o).
Proof. by destruct o; intros s HI. Qed.
Lemma keeps_on I b (m : M unit) : keeps I m -> keeps I (when b m).
Proof. by destruct b; intros ? s HI; [apply H3|]. Qed.

(** What always ends in an error of the source. *)
Definition fails {A} (m : M A) : Prop := forall s, exists e s', m s = (Err e, s') /\ e <> NoFuel.

Lemma keeps_fails I {A} (m : M A) : fails m -> keeps I m.
Proof. intros Fm s _. destruct (Fm s) as (e & s' & -> & N). by destruct e. Qed.

Lemma fails_bail {A} e : fails (bail e : M A).
Proof. intros s. by exists (Bail e), s. Qed.

(** Before that something that is not endless. *)
Definition ends {A} (m : M A) : Prop := forall s, fst (m s) <> Err NoFuel.

Lemma fails_then {A B} (m : M A) (f : A -> M B) : ends m -> (forall a, fails (f a)) -> fails (m ≫= f).
Proof.
  intros Em Ff s. unfold mbind, M_bind. specialize (Em s). destruct (m s) as [[a|e] s']; [apply Ff|].
  exists e, s'. split; [done|]. by intros ->.
Qed.

Lemma ends_then {A B} (m : M A) (f : A -> M B) : ends m -> (forall a, ends (f a)) -> ends (m ≫= f).
Proof.
  intros Em Ef s. unfold mbind, M_bind. specialize (Em s). destruct (m s) as [[a|e] s']; [apply Ef|].
  cbn in *. congruence.
Qed.

Lemma ends_fails {A} (m : M A) : fails m -> ends m.
Proof. intros Fm s. destruct (Fm s) as (e & s' & -> & N). cbn. congruence. Qed.
Lemma ends_on b (m : M unit) : ends m -> ends (when b m).
Proof. by destruct b. Qed.
Lemma ends_try {A} (r : result string A) : ends (try_ r).
Proof. by destruct r. Qed.
Lemma ends_snapshot callback : ends (hub_snapshot callback).
Proof. intros s. unfold hub_snapshot. destruct (snapshot _ _) as [[] h]; cbn; congruence. Qed.
Lemma ends_ignoring m : ends m -> ends (ignoring m).
Proof. intros Em s. unfold ignoring. specialize (Em s). by destruct (m s) as [[a|[]] s']. Qed.

(** What only the hub, the encoder's frames and the schedule decide. *)
Definition hub_only (I : VS -> Prop) : Prop := forall s s',
  sp (w s') = sp (w s) -> schedule (w s') = schedule (w s) -> emitted (l s') = emitted (l s) -> I s -> I s'.

Section keeping.
Context (I : VS -> Prop) (local_ : hub_only I).

Lemma keeps_world f : (forall s, sp (f s) = sp s) -> (forall s, schedule (f s) = schedule s) -> keeps I (world f).
Proof using local_. intros E1 E2 s HI. eapply local_; [..|exact HI]; cbn; by rewrite ?E1, ?E2. Qed.
Lemma keeps_loop f : (forall s, emitted (f s) = emitted s) -> keeps I (loop f).
Proof using local_. intros E1 s HI. eapply local_; [..|exact HI]; cbn; by rewrite ?E1. Qed.

Ltac keep1 :=
  first
    [ match goal with |- keeps _ (_ ≫= _) => apply keeps_then; [|intros ?] end | apply keeps_ask | apply keeps_mret | apply keeps_try
    | apply keeps_or_panic | apply keeps_fails, fails_bail | apply keeps_on
    | apply keeps_loop; done | apply keeps_world; done
    | match goal with |- keeps _ (if ?b then _ else _) => destruct b end ].
Ltac keep := repeat keep1.

Lemma ends_broadcast fx refresh : ends (try_broadcast_display_changed fx refresh).
Proof.
  unfold try_broadcast_display_changed. apply ends_then; [by apply ends_on|intros _].
  apply ends_then; [done|intros found]. apply ends_then; [done|intros [m|]]; [|done].
  apply ends_then; [done|intros _]. apply ends_then; [apply ends_snapshot|done].
Qed.

Lemma keeps_broadcast fx refresh : keeps I (try_broadcast_display_changed fx refresh).
Proof using local_.
  unfold try_broadcast_display_changed. keep.
  - apply keeps_world; intros s; by destruct (check_displays_changed _ _) as [[]].
  - destruct _ as [m|]; [|apply keeps_mret]. apply keeps_fails, fails_then; [done|intros _].
    apply fails_then; [apply ends_snapshot|intros _; apply fails_bail].
Qed.

Lemma keeps_privacy fx : keeps I (check_privacy_mode_changed fx).
Proof using.
  unfold check_privacy_mode_changed. apply keeps_then; [apply keeps_ask|intros id].
  apply keeps_then; [apply keeps_ask|intros id2]. destruct (id =? id2); [apply keeps_mret|].
  apply keeps_fails, fails_then; [by apply ends_on|intros _].
  apply fails_then; [apply ends_ignoring, ends_broadcast|intros _; apply fails_bail].
Qed.

Lemma keeps_qos fx name : keeps I (check_qos fx name).
Proof using local_. unfold check_qos. keep. Qed.

Lemma keeps_switch fx name : keeps I (check_switch fx name).
Proof using local_.
  unfold check_switch, check_uac_switch. repeat lazymatch goal with
    | |- keeps _ (check_qos _ _) => apply keeps_qos
    | |- keeps _ (check_privacy_mode_changed _) => apply keeps_privacy
    | |- keeps _ (when _ (ignoring _) ≫= _) =>
        apply keeps_fails, fails_then; [apply ends_on, ends_ignoring, ends_broadcast|intros _; apply fails_bail]
    | |- _ => keep1
    end.
Qed.

Lemma keeps_screenshot fx name f : keeps I (take_screenshot fx name f).
Proof using local_.
  unfold take_screenshot. keep. destruct _ as [shot|]; [|apply keeps_mret]. keep.
  - destruct f; keep.
  - destruct _ as [[[msg sw] sh] data]. keep.
Qed.
End keeping.

(** The hub's part: the subscribers [k] among them have the frames [em]. *)
Definition hub_follows (k : Z) (em : list F) (h : Hub) : Prop :=
  need_snapshot h = true /\
  (forall id c, subscribes h !! id = Some c -> tx_video c = None \/ em `suffix_of` frames_of c) /\
  is_Some (subscribes h !! k).

Definition follows (k : Z) (s : VS) : Prop :=
  hub_follows k (emitted (l s)) (sp (w s)) /\ Unsubscribed k ∉ concat (schedule (w s)).

Lemma follows_local k : hub_only (follows k).
Proof. intros s s' E1 E2 E3. unfold follows. by rewrite E1, E2, E3. Qed.

Lemma event_follows k em e s : e <> Unsubscribed k -> hub_follows k em (sp s) -> hub_follows k em (sp (apply_event e s)).
Proof.
  intros N (Sn & Fo & K). destruct e as [| c | id | | | | | | | | | | | | | ]; cbn; try (by split_and!).
  - unfold on_subscribe. case_match; [by split_and!|]. rewrite Sn. by split_and!.
  - unfold on_unsubscribe. destruct (subscribes (sp s) !! id) eqn:Es; [|by split_and!].
    split_and!; [done| |].
    + intros id' c'. cbn. rewrite lookup_delete_Some. intros [_ L]. by eapply Fo.
    + cbn. rewrite lookup_delete_ne; [done|]. intros ->. by destruct N.
Qed.

Lemma event_schedule e s : schedule (apply_event e s) = schedule s.
Proof. by destruct e. Qed.

Lemma events_follow k em evs s : Unsubscribed k ∉ evs -> hub_follows k em (sp s) ->
  hub_follows k em (sp (foldl (fun s e => apply_event e s) s evs)).
Proof.
  revert s. induction evs as [|e evs IH]; intros s N Fo; [done|]. cbn.
  apply not_elem_of_cons in N as [N1 N2]. apply IH; [done|]. by apply event_follows.
Qed.

Lemma wait_events_follow k em idx deadline evs s : Unsubscribed k ∉ evs -> hub_follows k em (sp s) ->
  let '(left_, s') := wait_events idx deadline evs s in
  hub_follows k em (sp s') /\ left_ `suffix_of` evs /\ schedule s' = schedule s.
Proof.
  revert s. induction evs as [|e evs IH]; intros s N Fo; cbn.
  - by destruct (notifiers s !! idx) as [[|]|]; destruct (deadline <=? now s).
  - apply not_elem_of_cons in N as [N1 N2].
    assert (W : let '(left_, s') := wait_events idx deadline evs (apply_event e s) in
              hub_follows k em (sp s') /\ left_ `suffix_of` (e :: evs) /\ schedule s' = schedule s).
    { specialize (IH (apply_event e s) N2 (event_follows k em e s (not_eq_sym N1) Fo)).
      destruct (wait_events _ _ _ _) as [left_ s']. rewrite event_schedule in IH.
      destruct IH as (? & ? & ?). split_and!; [done| |done]. by apply suffix_cons_r. }
    destruct (notifiers s !! idx) as [[|]|]; [|by split_and!|];
      (destruct (deadline <=? now s); [by split_and!|exact W]).
Qed.

Lemma keeps_interfere k : keeps (follows k) interfere.
Proof.
  intros s [Fo N]. cbn. destruct (schedule (w s)) as [|batch rest] eqn:Es; split; cbn; rewrite ?Es; try done.
  - apply events_follow; [|done]. cbn in N. set_solver.
  - cbn in N. set_solver.
Qed.

Lemma keeps_recv k idx deadline : keeps (follows k) (world (recv_timeout idx deadline)).
Proof.
  intros s [Fo N]. cbn. unfold recv_timeout. destruct (schedule (w s)) as [|batch rest] eqn:Es.
  - pose proof (wait_events_follow k (emitted (l s)) idx deadline [] (w s) ltac:(set_solver) Fo) as W.
    destruct (wait_events _ _ _ _) as [left_ s']. destruct W as (? & _ & Ew). split; [done|]. cbn. by rewrite Ew, Es.
  - cbn in N. pose proof (wait_events_follow k (emitted (l s)) idx deadline batch (w s) ltac:(set_solver) Fo) as W.
    destruct (wait_events _ _ _ _) as [left_ s']. destruct W as (? & [pre ->] & _). split; [done|]. cbn.
    destruct left_ as [|e left_]; cbn; set_solver.
Qed.

Ltac keep1 :=
  first
    [ apply keeps_ask | apply keeps_mret | apply keeps_try
    | apply keeps_or_panic | apply keeps_fails, fails_bail | apply keeps_on
    | apply keeps_interfere | apply keeps_recv
    | apply keeps_loop; [apply follows_local|done] | apply keeps_world; [apply follows_local|done|done]
    | apply keeps_broadcast, follows_local | apply keeps_privacy | apply keeps_switch, follows_local
    | apply keeps_screenshot, follows_local
    | match goal with |- keeps _ (_ ≫= _) => apply keeps_then; [|intros ?] end
    | match goal with |- keeps _ (if ?b then _ else _) => destruct b end ].
Ltac keep := repeat keep1.

(** A frame goes to all who are subscribed. *)
Lemma frames_send (c : Conn) idx (vf : F) em :
  tx_video c = None \/ em `suffix_of` frames_of c ->
  tx_video (conn_send (MVideoFrame idx vf) c) = None \/
  (em ++ [vf]) `suffix_of` frames_of (conn_send (MVideoFrame idx vf) c).
Proof.
  intros Fo. unfold frames_of, conn_send in *. cbn. destruct (tx_video c) as [q|]; cbn in *; [right|by left].
  destruct Fo as [|[pre Fo]]; [done|]. exists pre. by rewrite omap_app, Fo, <-app_assoc.
Qed.

Lemma hub_follows_send k em idx vf h : hub_follows k em h ->
  hub_follows k (em ++ [vf]) (snd (send_video_frame (MVideoFrame idx vf) h)).
Proof.
  intros (Sn & Fo & K). split_and!; cbn; [done| |by rewrite lookup_fmap, fmap_is_Some].
  intros id c. rewrite lookup_fmap, fmap_Some. intros (c0 & L & ->). eapply frames_send, Fo, L.
Qed.

Lemma keeps_frame k fx input ms : keeps (follows k) (handle_one_frame fx input ms).
Proof.
  unfold handle_one_frame. apply keeps_then.
  { intros s [(Sn & Fo & K) N]. unfold hub_snapshot, snapshot, swap_has_subscribes.
    destruct (0 <? Z.of_nat (size (new_subscribes (sp (w s))))); [|by split].
    rewrite (proj2 (Z.ltb_lt _ _)); [done|]. destruct K as [c K].
    enough (size (subscribes (sp (w s))) <> 0%nat) by lia.
    intros E0%map_size_empty_iff. by rewrite E0, lookup_empty in K. }
  intros _. keep. destruct (encode_to_message input ms _) as [r e]. keep. destruct r as [vf|why]; [|keep].
  apply keeps_then; [keep|intros _]. intros s [Fo N]. unfold mbind, M_bind. cbn [loop ask hub world mret M_ret].
  apply (keeps_then _ interfere (fun _ => mret _)); [apply keeps_interfere|intros _; apply keeps_mret|].
  split; [|exact N]. by apply hub_follows_send.
Qed.

Lemma keeps_wait k fx fuel begin fetched : keeps (follows k) (wait_frames fx fuel begin fetched).
Proof.
  revert fetched. induction fuel as [|fuel IH]; intros fetched; [by intros s HI|].
  cbn [wait_frames]. unfold try_wait_next. keep. apply IH.
Qed.

Lemma keeps_send k fx input ms : keeps (follows k) (send_frame fx input ms).
Proof. unfold send_frame, set_send. keep. apply keeps_frame. Qed.

Lemma keeps_round k fx name : keeps (follows k) (round fx name).
Proof.
  unfold round, reset_controller. keep. destruct (capture _ _) as [r c]. unfold cap. keep.
  - destruct r as [f|[|e]].
    + unfold on_frame, frame_to. keep; [destruct f; keep|apply keeps_send].
    + unfold on_would_block, cap. keep. apply keeps_send.
    + unfold on_capture_failed, cap. keep.
  - apply keeps_wait.
Qed.

Lemma keeps_rounds k fx name n : keeps (follows k) (rounds fx name n).
Proof.
  induction n as [|n IH]; [by intros s HI|]. cbn [rounds]. keep; [apply keeps_round|apply IH].
Qed.

(** ** The wait for the viewers *)

Notation queue idx s := (default [] (notifiers s !! idx)).

(** Those who say that they have a frame of this display are among [sent]. *)
Definition from_viewers (idx : Z) (sent : gset Z) (e : event) : Prop :=
  match e with Fetched i id => i = idx -> id ∈ sent | OtherSent i _ => i <> idx | _ => True end.

Record heard (idx : Z) (sent : gset Z) (s : World) : Prop := {
  heard_channel : is_Some (notifiers s !! idx);
  heard_queue : Forall (fun id => id ∈ sent) (queue idx s);
  heard_conns : default ∅ (display_conn_ids s !! idx) ⊆ sent;
}.

Lemma event_heard idx sent e s : from_viewers idx sent e -> heard idx sent s ->
  let s' := apply_event e s in
  heard idx sent s' /\ (length (queue idx s') <= 1 + length (queue idx s))%nat /\ now s <= now s'.
Proof.
  intros V [[q Q] HQ HC]. rewrite Q in HQ. cbn in HQ.
  destruct e as [ns|c|id|i id|id|opt val|e|u|pm|b|i id tx|o|d|i ids|i|i]; cbn -[Z.max] in *;
    try (split_and!; [constructor; cbn; rewrite ?Q; done|cbn; rewrite ?Q; lia|lia]).
  - destruct (decide (i = idx)) as [->|N].
    + rewrite lookup_alter_eq, Q. cbn. split_and!; [constructor; cbn; rewrite ?lookup_alter_eq, ?Q; cbn; try done|rewrite length_app; cbn; lia|lia].
      apply Forall_app. split; [done|]. constructor; [by apply V|done].
    + rewrite lookup_alter_ne, Q by done. cbn. split_and!; [constructor; cbn; rewrite ?lookup_alter_ne, ?Q by done; done|lia|lia].
  - rewrite map_lookup_imap, Q. cbn. split_and!; [|case_decide; rewrite ?length_app; cbn; lia|lia].
    constructor; cbn; rewrite ?map_lookup_imap, ?Q; cbn; [by eexists| |done].
    case_decide; [|done]. apply Forall_app. split; [done|]. constructor; [set_solver|done].
  - split_and!; [constructor; cbn; rewrite ?Q, ?lookup_insert_ne by done; done|rewrite Q; lia|lia].
  - destruct (decide (i = idx)) as [->|N].
    + rewrite lookup_alter_eq, Q. cbn. split_and!; [constructor; cbn; rewrite ?lookup_alter_eq, ?Q; cbn; try done|destruct q; cbn; lia|lia].
      destruct q; [done|]. by inversion HQ.
    + rewrite lookup_alter_ne, Q by done. cbn. split_and!; [constructor; cbn; rewrite ?lookup_alter_ne, ?Q by done; done|lia|lia].
  - split_and!; [|rewrite Q; lia|lia]. constructor; cbn; rewrite ?Q; [done..|].
    destruct (decide (i = idx)) as [->|N]; [by rewrite lookup_delete_eq|by rewrite lookup_delete_ne].
Qed.

Lemma wait_events_heard idx sent deadline evs s : Forall (from_viewers idx sent) evs -> heard idx sent s ->
  let '(left_, s') := wait_events idx deadline evs s in
  heard idx sent s' /\ (length (queue idx s') + length left_ <= length (queue idx s) + length evs)%nat /\
  now s <= now s' /\ left_ `suffix_of` evs /\ (queue idx s' <> [] \/ deadline <= now s').
Proof.
  revert s. induction evs as [|e evs IH]; intros s V Hd; cbn [wait_events];
    pose proof (heard_channel _ _ _ Hd) as [[|id q] Q]; rewrite Q.
  - destruct (Z.leb_spec deadline (now s)) as [D|D]; (split_and!; [by destruct Hd|cbn; rewrite ?Q; cbn; lia|cbn; lia|done|right; cbn; lia]).
  - split_and!; [done|rewrite Q; done|lia|done|by rewrite Q; left].
  - destruct (Z.leb_spec deadline (now s)) as [D|D]; [split_and!; [done|rewrite Q; done|lia|done|right; lia]|].
    inversion V as [|?? Ve Vs]; subst. destruct (event_heard idx sent e s Ve Hd) as (Hd' & L & T).
    specialize (IH (apply_event e s) Vs Hd'). destruct (wait_events _ _ _ _) as [left_ s'].
    destruct IH as (? & ? & ? & ? & ?). rewrite Q in L.
    split_and!; [done|cbn in *; lia|lia|by apply suffix_cons_r|done].
  - split_and!; [done|rewrite Q; done|lia|done|by rewrite Q; left].
Qed.

Definition listening (idx : Z) (sent : gset Z) (s : World) : Prop :=
  heard idx sent s /\ Forall (from_viewers idx sent) (concat (schedule s)).

Lemma recv_listening idx sent deadline s : listening idx sent s ->
  let s' := recv_timeout idx deadline s in
  listening idx sent s' /\
  (length (queue idx s') + events_left s' <= length (queue idx s) + events_left s)%nat /\
  now s <= now s' /\ (queue idx s' <> [] \/ deadline <= now s').
Proof.
  intros [Hd V]. unfold recv_timeout, events_left, listening. destruct (schedule s) as [|batch rest] eqn:Es.
  - pose proof (wait_events_heard idx sent deadline [] s ltac:(constructor) Hd) as W.
    assert (Sc : schedule (snd (wait_events idx deadline [] s)) = []).
    { cbn. destruct (notifiers s !! idx) as [[|]|]; try destruct (deadline <=? now s); done. }
    destruct (wait_events _ _ _ _) as [left_ s']. cbn in Sc |- *. rewrite Sc.
    destruct W as (? & Le & ? & _ & ?). split_and!; [done|constructor|cbn in *; lia|done|done].
  - cbn [concat] in V. apply Forall_app in V as [V1 V2].
    pose proof (wait_events_heard idx sent deadline batch s V1 Hd) as W.
    destruct (wait_events _ _ _ _) as [left_ s']. destruct W as (Hd' & Le & ? & [pre ->] & ?).
    apply Forall_app in V1 as [_ V1].
    assert (L : concat (match left_ with [] => rest | _ => left_ :: rest end) = left_ ++ concat rest) by by destruct left_.
    cbn. rewrite L. split_and!; [by destruct Hd'|by apply Forall_app| |done|done].
    cbn in Le. rewrite !length_app in *. lia.
Qed.

Definition rounds_left (begin : Z) (s : World) : nat :=
  Z.to_nat ((begin + seconds 3 - now s + 299999999) / millis 300).

Lemma rounds_left_mono begin s s' : now s <= now s' -> (rounds_left begin s' <= rounds_left begin s)%nat.
Proof.
  intros T. unfold rounds_left. enough (K : (begin + seconds 3 - now s' + 299999999) / millis 300 <=
    (begin + seconds 3 - now s + 299999999) / millis 300) by lia.
  apply Z.div_le_mono; unfold millis; lia.
Qed.

Lemma rounds_left_step begin s s' : elapsed_ms begin s < 3000 -> now s + millis 300 <= now s' ->
  (rounds_left begin s' < rounds_left begin s)%nat.
Proof.
  unfold elapsed_ms, rounds_left. intros El T.
  assert (K : now s - begin < seconds 3).
  { unfold seconds. destruct (Z.lt_ge_cases (now s - begin) (3 * 1000000000)) as [|G]; [done|].
    enough (3000 <= Z.max 0 (now s - begin) / 1000000) by lia. apply Z.div_le_lower_bound; lia. }
  assert (A : (begin + seconds 3 - now s' + 299999999) / millis 300 <=
              (begin + seconds 3 - now s + 299999999 + -1 * millis 300) / millis 300)
    by (apply Z.div_le_mono; unfold millis in *; lia).
  rewrite Z.div_add in A by done.
  assert (B : 1 <= (begin + seconds 3 - now s + 299999999) / millis 300)
    by (apply Z.div_le_lower_bound; unfold millis; lia).
  lia.
Qed.

Lemma privacy_step fx s :
  check_privacy_mode_changed fx s = (Ok tt, s) \/ exists e s', check_privacy_mode_changed fx s = (Err e, s') /\ e <> NoFuel.
Proof.
  unfold check_privacy_mode_changed at 1 2, mbind, M_bind. cbn [ask].
  destruct (_ =? _); [by left|right]. refine (fails_then _ _ _ _ s); [by apply ends_on|intros _].
  apply fails_then; [apply ends_ignoring, ends_broadcast|intros _; apply fails_bail].
Qed.

Lemma bind_ok {A B} (m : M A) (f : A -> M B) a s s' : m s = (Ok a, s') -> (m ≫= f) s = f a s'.
Proof. unfold mbind, M_bind. by intros ->. Qed.
Lemma bind_err {A B} (m : M A) (f : A -> M B) e s s' : m s = (Err e, s') -> (m ≫= f) s = (Err e, s').
Proof. unfold mbind, M_bind. by intros ->. Qed.

Lemma bind_ask {A B} (f : VS -> A) (g : A -> M B) s : (ask f ≫= g) s = g (f s) s.
Proof. done. Qed.

(** One wait for the next answer: what is left to wait gets less. *)
Lemma next_listening fx sent begin fetched s :
  send_conn_ids (l s) = sent -> sent <> ∅ -> listening (display_idx fx) sent (w s) -> fetched ⊆ sent ->
  elapsed_ms begin (w s) < 3000 ->
  exists got s', try_wait_next fx fetched 300 s = (Ok got, s') /\ got ⊆ sent /\ send_conn_ids (l s') = sent /\
    listening (display_idx fx) sent (w s') /\
    (rounds_left begin (w s') + length (queue (display_idx fx) (w s')) + events_left (w s') <
     rounds_left begin (w s) + length (queue (display_idx fx) (w s)) + events_left (w s))%nat.
Proof.
  set (idx := display_idx fx). intros Sn Ne Li Sub El. destruct (heard_channel _ _ _ (proj1 Li)) as [q Q].
  unfold try_wait_next. fold idx. rewrite !bind_ask.
  rewrite Sn, bool_decide_eq_false_2, Q by done. rewrite bind_ask.
  set (s1 := recv_timeout idx (now (w s) + millis 300) (w s)).
  destruct (recv_listening idx sent (now (w s) + millis 300) (w s) Li) as ([[Ch HQ HC] V] & Le & T & Or).
  fold s1 in Ch, HQ, HC, V, Le, T, Or.
  eexists _, _. split; [reflexivity|]. cbn [w l]. fold s1. cbn [set_notifiers notifiers].
  rewrite lookup_insert_eq. cbn [default length].
  split_and!; [|done| |].
  - apply union_subseteq; split; [done|]. intros id I%elem_of_list_to_set. rewrite Forall_forall in HQ. by apply HQ.
  - split; [constructor; cbn; rewrite ?lookup_insert_eq; [by eexists|constructor|done]|done].
  - rewrite Q in Le. cbn in Le. unfold events_left in *. cbn [set_notifiers schedule].
    change (rounds_left begin (set_notifiers _ _)) with (rounds_left begin s1). unfold id. cbn [length].
    destruct Or as [Nq|D]; [pose proof (rounds_left_mono begin _ _ T); destruct (queue idx s1); [done|cbn in Le]|
                            pose proof (rounds_left_step begin _ _ El D)]; lia.
Qed.

Lemma wait_listening fx sent begin fuel fetched s :
  send_conn_ids (l s) = sent -> listening (display_idx fx) sent (w s) -> fetched ⊆ sent ->
  (rounds_left begin (w s) + length (queue (display_idx fx) (w s)) + events_left (w s) < fuel)%nat ->
  match wait_frames fx fuel begin fetched s with
  | (Ok got, s') => got = sent \/ 3000 <= elapsed_ms begin (w s')
  | (Err e, _) => e <> NoFuel
  end.
Proof.
  revert fetched s. induction fuel as [|fuel IH]; intros fetched s Sn Li Sub Fu; [lia|].
  cbn [wait_frames]. rewrite bind_ask.
  destruct (Z.ltb_spec (elapsed_ms begin (w s)) 3000) as [El|El]; [|by right].
  assert (P : when (is_monitor (source fx)) (check_privacy_mode_changed fx) s = (Ok tt, s) \/
              exists e s', when (is_monitor (source fx)) (check_privacy_mode_changed fx) s = (Err e, s') /\ e <> NoFuel).
  { destruct (is_monitor _); [apply privacy_step|by left]. }
  destruct P as [Ep|(e & s' & Ep & N)]; [rewrite (bind_ok _ _ _ _ _ Ep)|by rewrite (bind_err _ _ _ _ _ Ep)].
  destruct (decide (sent = ∅)) as [Em|Em].
  { assert (En : try_wait_next fx fetched 300 s = (Ok fetched, s)).
    { unfold try_wait_next. by rewrite !bind_ask, Sn, bool_decide_eq_true_2. }
    rewrite (bind_ok _ _ _ _ _ En), bind_ask, Sn, Em, size_empty. left. set_solver. }
  destruct (next_listening fx sent begin fetched s Sn Em Li Sub El) as (got & s' & En & Sub' & Sn' & Li' & Me).
  rewrite (bind_ok _ _ _ _ _ En), bind_ask, Sn'.
  destruct (Nat.leb_spec (size sent) (size got)) as [Sz|Sz]; [|apply IH; [done..|lia]].
  left. by apply set_subseteq_size_eq.
Qed.

Lemma prepare_state src idx name s fx v s1 : prepare src idx name s = (Ok (fx, v), s1) ->
  subscribes (sp (w v)) = subscribes (sp s) /\ need_snapshot (sp (w v)) = need_snapshot (sp s) /\
  schedule (w v) = schedule s /\ emitted (l v) = [].
Proof.
  unfold prepare. destruct (get_capturer _ _ _ _) as [c|]; [|done]. destruct (spf _); [|done].
  destruct (ratio _) as [quality q]. cbn zeta.
  assert (Same : forall r s0, subscribes (sp s0) = subscribes (sp s) -> need_snapshot (sp s0) = need_snapshot (sp s) ->
    schedule s0 = schedule s -> forall name0 quality0 b running src0 c0,
    setup name0 quality0 b running src0 c0 s0 = r ->
    subscribes (sp (snd r)) = subscribes (sp s) /\ need_snapshot (sp (snd r)) = need_snapshot (sp s) /\ schedule (snd r) = schedule s).
  { intros r s0 E1 E2 E3 name0 quality0 b running src0 c0 <-. unfold setup.
    by destruct (setup_encoder _ _ _ _ _ _ _ _ _) as [[[[cfg f] i] m] ch]. }
  match goal with |- context [setup ?a ?b ?x ?y ?z ?u ?s0] =>
    pose proof (Same _ s0 eq_refl eq_refl eq_refl a b x y z u eq_refl) as E1;
    destruct (setup a b x y z u s0) as [[r1|] s2] end; cbn [snd] in E1; destruct E1 as (E1 & E2 & E3).
  - destruct r1 as [[[cfg fm] i] enc]. intros [= _ <- _]. cbn. destruct (is_option_true _ _); by split_and!.
  - match goal with |- context [setup ?a ?b ?x ?y ?z ?u ?s0] =>
      pose proof (Same _ s0 E1 E2 E3 a b x y z u eq_refl) as E4;
      destruct (setup a b x y z u s0) as [[r1|] s3] end; [|done]. cbn [snd] in E4. destruct E4 as (E4 & E5 & E6).
    destruct r1 as [[[cfg fm] i] enc]. intros [= _ <- _]. cbn. destruct (is_option_true _ _); by split_and!.
Qed.

(** C25. Every viewer can follow: as long as somebody keeps watching, whoever is subscribed
    has got every frame of the encoder that is in use, from its first one and in order;
    also those who come while frames are sent, for whom the encoder is made anew. *)
Theorem viewers_follow (src : VideoSource) (idx : Z) (name : string) (s s1 : World) (fx : Fixed) (v : VS) (k : Z) (n : nat) :
  prepare src idx name s = (Ok (fx, v), s1) ->
  need_snapshot (sp s) = true -> is_Some (subscribes (sp s) !! k) -> Unsubscribed k ∉ concat (schedule s) ->
  match rounds fx name n v with
  | (Ok _, s') | (Err NoFuel, s') => followed s'
  | (Err _, _) => True
  end.
Proof.
  intros Pr Sn K N. destruct (prepare_state _ _ _ _ _ _ _ Pr) as (E1 & E2 & E3 & E4).
  assert (Fo : follows k v).
  { unfold follows, hub_follows. rewrite E1, E2, E3, E4. split_and!; [done| |done..].
    intros id c _. right. apply suffix_nil. }
  pose proof (keeps_rounds k fx name n v Fo) as Kr. 
  destruct (rounds fx name n v) as [[a|[]] s']; try done; exact (proj1 (proj2 (proj1 Kr))).
Qed.

(** ** What is heard, and when the wait ends *)

(** Who has answered when the others have done [evs], had nobody listened. *)
Definition answered (idx : Z) (evs : list event) (s : World) : gset Z :=
  list_to_set (queue idx (foldl (fun s e => apply_event e s) s evs)).

(** Nobody but this service takes answers for the display or says whom its frames are sent to. *)
Definition only_viewers (idx : Z) (sent : gset Z) (e : event) : Prop :=
  from_viewers idx sent e /\ match e with OtherTakes i | OtherDone i => i <> idx | _ => True end.

(** A world in which nobody has listened, and the world of a wait that has got [fetched]. *)
Record overheard (idx : Z) (u : World) (fetched : gset Z) (s : World) : Prop := {
  ov_there : is_Some (notifiers u !! idx);
  ov_listens : is_Some (notifiers s !! idx);
  ov_conns : display_conn_ids u = display_conn_ids s;
  ov_queue : list_to_set (queue idx u) = fetched ∪ list_to_set (queue idx s);
}.

Lemma event_overheard idx sent u fetched e s : only_viewers idx sent e ->
  overheard idx u fetched s -> overheard idx (apply_event e u) fetched (apply_event e s).
Proof.
  intros [_ V] [[qu Qu] [qs Qs] Cn Q]. rewrite Qu, Qs in Q. cbn in Q.
  assert (forall u' s', notifiers u' = notifiers u -> notifiers s' = notifiers s ->
    display_conn_ids u' = display_conn_ids s' -> overheard idx u' fetched s') as Same.
  { intros u' s' E1 E2 E3. split; rewrite ?E1, ?E2, ?Qu, ?Qs; [by eexists..|done|exact Q]. }
  destruct e as [ns|c|id|i id|id|opt val|e|x|pm|b|i id tx|o|d|i ids|i|i]; try (by apply Same).
  - cbn. split; cbn; [by rewrite lookup_alter_is_Some, Qu|by rewrite lookup_alter_is_Some, Qs|done|].
    destruct (decide (i = idx)) as [->|N]; [|rewrite !lookup_alter_ne, Qu, Qs by done; exact Q].
    rewrite !lookup_alter_eq, Qu, Qs. cbn. rewrite !list_to_set_app_L, Q. set_solver.
  - cbn. split; cbn; rewrite ?map_lookup_imap, ?Qu, ?Qs; [by eexists..|done|]. cbn. rewrite Cn.
    case_decide; [|exact Q]. rewrite !list_to_set_app_L, Q. set_solver.
  - apply Same; [done..|]. cbn. by rewrite Cn.
  - cbn. split; cbn; rewrite ?lookup_alter_ne, ?Qu, ?Qs by done; [by eexists..|done|exact Q].
  - apply Same; [done..|]. cbn. by rewrite Cn.
Qed.

Lemma wait_overheard idx sent u fetched deadline evs s :
  Forall (only_viewers idx sent) evs -> overheard idx u fetched s ->
  let '(left_, s') := wait_events idx deadline evs s in
  exists pre, evs = pre ++ left_ /\
    overheard idx (foldl (fun s e => apply_event e s) u pre) fetched s' /\
    forall pre' rest, pre = pre' ++ rest -> rest <> [] -> answered idx pre' u = fetched.
Proof.
  revert u s. induction evs as [|e evs IH]; intros u s V Ov; cbn [wait_events];
    pose proof (ov_listens _ _ _ _ Ov) as [[|id q] Q]; rewrite Q.
  - assert (forall t, overheard idx u fetched (set_now t s)) as Ov' by (intros t; by destruct Ov).
    destruct (deadline <=? now s); exists []; (split_and!; [done|first [exact Ov|apply Ov']|by intros [|??] [|??]]).
  - exists []. split_and!; [done|done|by intros [|??] [|??]].
  - assert (answered idx [] u = fetched) as An.
    { unfold answered. cbn [foldl]. rewrite (ov_queue _ _ _ _ Ov), Q. set_solver. }
    destruct (deadline <=? now s); [exists []; split_and!; [done|done|by intros [|??] [|??]]|].
    inversion V as [|?? Ve Vs]; subst. specialize (IH (apply_event e u) (apply_event e s) Vs (event_overheard _ _ _ _ _ _ Ve Ov)).
    destruct (wait_events _ _ _ _) as [left_ s']. destruct IH as (pre & -> & Ov' & Mi).
    exists (e :: pre). split_and!; [done|exact Ov'|]. intros [|e' pre'] rest Eq N; [done|].
    cbn in Eq. simplify_eq. by apply (Mi pre' rest).
  - exists []. split_and!; [done|done|by intros [|??] [|??]].
Qed.

(** The events that have happened, from the world [b] on, and what is heard of them. *)
Record waited (idx : Z) (sent : gset Z) (b : World) (pre : list event) (fetched : gset Z) (s : World) : Prop := {
  wt_events : concat (schedule b) = pre ++ concat (schedule s);
  wt_heard : overheard idx (foldl (fun s e => apply_event e s) b pre) fetched s;
  wt_viewers : Forall (only_viewers idx sent) (concat (schedule s));
  wt_none : forall pre' rest, pre = pre' ++ rest -> rest <> [] -> ~ sent ⊆ answered idx pre' b;
}.

Lemma recv_waited idx sent b pre fetched deadline s :
  waited idx sent b pre fetched s -> ~ sent ⊆ fetched ->
  exists pre', let s' := recv_timeout idx deadline s in
    waited idx sent b pre' (fetched ∪ list_to_set (queue idx s')) (set_notifiers (<[idx := []]> (notifiers s')) s').
Proof.
  intros [Ev Ov V No] Ne. unfold recv_timeout.
  assert (forall evs rest, concat (schedule s) = evs ++ rest ->
    let '(left_, s') := wait_events idx deadline evs s in
    exists pre', forall bs, concat bs = left_ ++ rest ->
      let s'' := set_schedule bs s' in
      waited idx sent b pre' (fetched ∪ list_to_set (queue idx s'')) (set_notifiers (<[idx := []]> (notifiers s'')) s'')) as Go.
  { intros evs rest Er. rewrite Er in V. apply Forall_app in V as [V1 V2].
    pose proof (wait_overheard idx sent _ fetched deadline evs s V1 Ov) as W.
    destruct (wait_events idx deadline evs s) as [left_ s']. destruct W as (new & -> & Ov' & Mi). exists (pre ++ new).
    intros bs Bs. cbn zeta. apply Forall_app in V1 as [_ V1]. rewrite <- foldl_app in Ov'. split; cbn.
    - by rewrite Ev, Er, Bs, !app_assoc.
    - destruct Ov' as [A1 A2 A3 A4]. split; cbn; rewrite ?lookup_insert_eq; [done|by eexists|done|].
      cbn. rewrite A4. set_solver.
    - rewrite Bs. by apply Forall_app.
    - assert (forall y r, new = y ++ r -> r <> [] -> ~ sent ⊆ answered idx (pre ++ y) b) as Fresh.
      { intros y r Eq Nr. unfold answered. rewrite foldl_app.
        fold (answered idx y (foldl (fun s e => apply_event e s) b pre)). by rewrite (Mi y r Eq Nr). }
      intros pre' r Ep Nr. apply app_eq_app in Ep as ([|x k] & [[Ek El]|[Ek El]]); rewrite ?app_nil_r in *; subst.
      + rewrite <- (app_nil_r pre'). by apply (Fresh [] new).
      + rewrite <- (app_nil_r pre). by apply (Fresh [] r).
      + by apply (No pre' (x :: k)).
      + by apply (Fresh (x :: k) r). }
  destruct (schedule s) as [|batch rest] eqn:Es.
  - specialize (Go [] [] eq_refl).
    assert (schedule (snd (wait_events idx deadline [] s)) = []) as Sc.
    { cbn. destruct (notifiers s !! idx) as [[|]|]; try destruct (deadline <=? now s); done. }
    destruct (wait_events idx deadline [] s) as [left_ s'] eqn:We. destruct Go as [pre' Go]. exists pre'. cbn [snd] in *.
    assert (left_ = []) as ->.
    { cbn in We. destruct (notifiers s !! idx) as [[|]|]; try destruct (deadline <=? now s); by simplify_eq. }
    specialize (Go (schedule s') ltac:(by rewrite Sc)). by destruct s'.
  - specialize (Go batch (concat rest) eq_refl). destruct (wait_events idx deadline batch s) as [left_ s'].
    destruct Go as [pre' Go]. exists pre'. apply Go. by destruct left_.
Qed.

(** The person before the screen, or somebody else, has switched the privacy mode. *)
Definition privacy_changed (s : VS) : Prop :=
  privacy_mode_id (info (l s)) <> default INVALID_PRIVACY_MODE_CONN_ID (fst <$> privacy (w s)).

Lemma privacy_stops fx s :
  when (is_monitor (source fx)) (check_privacy_mode_changed fx) s = (Ok tt, s) \/
  (is_monitor (source fx) = true /\ privacy_changed s /\
   exists e s', when (is_monitor (source fx)) (check_privacy_mode_changed fx) s = (Err e, s')).
Proof.
  destruct (is_monitor _) eqn:M; [|by left]. cbn [when]. destruct (Z.eq_dec (privacy_mode_id (info (l s)))
    (default INVALID_PRIVACY_MODE_CONN_ID (fst <$> privacy (w s)))) as [Eq|N].
  - left. unfold check_privacy_mode_changed, mbind, M_bind. cbn [ask]. by rewrite Eq, Z.eqb_refl.
  - right. split_and!; [done|done|]. set (other := default _ _) in N.
    assert (fails (when (negb (other =? INVALID_PRIVACY_MODE_CONN_ID)) (hub (send_to_others MPrivacyModeOnByOther other)) ;;
      ignoring (try_broadcast_display_changed fx true) ;; bail (A := unit) "SWITCH")) as Fl.
    { apply fails_then; [by apply ends_on|intros _]. apply fails_then; [apply ends_ignoring, ends_broadcast|intros _; apply fails_bail]. }
    destruct (Fl s) as (e & s' & Ef & _). exists e, s'. rewrite <- Ef.
    unfold check_privacy_mode_changed. rewrite !bind_ask. fold other. by rewrite (proj2 (Z.eqb_neq _ _) N).
Qed.

(** The wait goes on only while somebody has not answered. *)
Lemma wait_heard fx b begin fuel fetched pre s : let idx := display_idx fx in let sent := send_conn_ids (l s) in
  waited idx sent b pre fetched (w s) -> (sent = ∅ /\ queue idx (w s) = [] \/ ~ sent ⊆ fetched) ->
  (elapsed_ms begin (w s) < 3000 \/ queue idx (w s) = []) ->
  match wait_frames fx fuel begin fetched s with
  | (Ok got, s') => queue idx (w s') = [] /\ exists pre', waited idx sent b pre' got (w s')
  | (Err e, _) => e = NoFuel \/ is_monitor (source fx) = true
  end.
Proof.
  cbn zeta. set (idx := display_idx fx).
  revert fetched pre s. induction fuel as [|fuel IH]; intros fetched pre s W Ne Em0; [by left|].
  cbn [wait_frames]. rewrite bind_ask.
  destruct (Z.ltb_spec (elapsed_ms begin (w s)) 3000) as [El|El]; [|destruct Em0; [lia|]; split; [done|by exists pre]].
  destruct (privacy_stops fx s) as [Ep|(Mo & _ & e & s' & Ep)]; [rewrite (bind_ok _ _ _ _ _ Ep)|
    rewrite (bind_err _ _ _ _ _ Ep); by right].
  destruct (decide (send_conn_ids (l s) = ∅)) as [Em|Em].
  { assert (En : try_wait_next fx fetched 300 s = (Ok fetched, s)).
    { unfold try_wait_next. by rewrite !bind_ask, bool_decide_eq_true_2. }
    rewrite (bind_ok _ _ _ _ _ En), bind_ask, Em, size_empty. rewrite Em in W.
    destruct Ne as [[_ Qe]|Ne]; [split; [done|by exists pre]|]. destruct Ne. rewrite Em. set_solver. }
  destruct Ne as [[Ze _]|Ne]; [done|]. destruct (ov_listens _ _ _ _ (wt_heard _ _ _ _ _ _ W)) as [q Q].
  destruct (recv_waited idx _ b pre fetched (now (w s) + millis 300) (w s) W Ne) as [pre' W'].
  set (s1 := recv_timeout idx (now (w s) + millis 300) (w s)) in *.
  set (got := fetched ∪ list_to_set (queue idx s1)) in *.
  assert (try_wait_next fx fetched 300 s =
    (Ok got, mkVS (set_notifiers (<[idx := []]> (notifiers s1)) s1) (l s))) as En.
  { unfold try_wait_next. fold idx. rewrite !bind_ask, bool_decide_eq_false_2, Q by done. by rewrite bind_ask. }
  rewrite (bind_ok _ _ _ _ _ En), bind_ask. cbn [l].
  destruct (Nat.leb_spec (size (send_conn_ids (l s))) (size got)) as [Sz|Sz].
  { split; [cbn; by rewrite lookup_insert_eq|by exists pre']. }
  apply (IH got pre' (mkVS (set_notifiers (<[idx := []]> (notifiers s1)) s1) (l s))); [exact W'| |right; cbn; by rewrite lookup_insert_eq].
  right. cbn [l]. intros Sub. apply subseteq_size in Sub. lia.
Qed.

(** When everybody has answered already, nothing is waited for. *)
Lemma wait_at_once fx fuel begin s : let idx := display_idx fx in
  listening idx (send_conn_ids (l s)) (w s) -> send_conn_ids (l s) ⊆ list_to_set (queue idx (w s)) ->
  match wait_frames fx fuel begin ∅ s with (Ok _, s') => now (w s') = now (w s) | _ => True end.
Proof.
  cbn zeta. set (idx := display_idx fx). intros Li Sub. destruct fuel as [|fuel]; [done|].
  cbn [wait_frames]. rewrite bind_ask. destruct (_ <? 3000); [|done].
  destruct (privacy_stops fx s) as [Ep|(_ & _ & e & s' & Ep)]; [rewrite (bind_ok _ _ _ _ _ Ep)|by rewrite (bind_err _ _ _ _ _ Ep)].
  destruct (decide (send_conn_ids (l s) = ∅)) as [Em|Em].
  { assert (En : try_wait_next fx ∅ 300 s = (Ok ∅, s)).
    { unfold try_wait_next. by rewrite !bind_ask, bool_decide_eq_true_2. }
    by rewrite (bind_ok _ _ _ _ _ En), bind_ask, Em. }
  destruct (heard_channel _ _ _ (proj1 Li)) as [q Q]. rewrite Q in Sub. cbn in Sub.
  assert (q <> []) as Nq by (intros ->; set_solver).
  assert (recv_timeout idx (now (w s) + millis 300) (w s) =
    set_schedule (match schedule (w s) with [] => [] | [] :: rest => rest | x => x end) (w s)) as R.
  { unfold recv_timeout. destruct q as [|id q]; [done|].
    destruct (schedule (w s)) as [|[|e batch] rest] eqn:Es; cbn; rewrite Q; try done.
    cbn. rewrite <- Es. by destruct (w s). }
  assert (try_wait_next fx ∅ 300 s = (Ok (list_to_set q),
    mkVS (set_notifiers (<[idx := []]> (notifiers (w s))) (recv_timeout idx (now (w s) + millis 300) (w s))) (l s))) as En.
  { unfold try_wait_next. fold idx. rewrite !bind_ask, bool_decide_eq_false_2, Q by done. rewrite bind_ask.
    unfold world, mbind, M_bind. cbn [ask w l]. rewrite R. cbn [set_schedule notifiers]. rewrite Q. cbn.
    by rewrite union_empty_l_L. }
  rewrite (bind_ok _ _ _ _ _ En), bind_ask. cbn [l].
  destruct (Nat.leb_spec (size (send_conn_ids (l s))) (size (list_to_set q : gset Z))) as [Sz|Sz].
  - cbn [mret M_ret w]. by rewrite R.
  - apply subseteq_size in Sub. lia.
Qed.

(** C26. A frame is waited for as long as it must be.  When only the viewers to whom it was sent answer
    for this display, and no service of a camera shares its number, the wait comes to its end
    whatever happens.  Unless the privacy mode is switched, which makes a monitor's service start
    again at once, it ends when every viewer has answered, with the end of its connection too, or
    when three seconds have passed and not before; what was heard are the answers given by then;
    and it does not go on: at every earlier moment an answer was missing, and if none is
    missing at the beginning no time passes at all. *)
Theorem frame_awaited (fx : Fixed) (s : VS) :
  let idx := display_idx fx in let sent := send_conn_ids (l s) in
  listening idx sent (w s) -> Forall (only_viewers idx sent) (concat (schedule (w s))) ->
  match wait_frames fx (wait_fuel idx (w s)) (now (w s)) ∅ s with
  | (Ok got, s') =>
      (got = sent \/ 3000 <= elapsed_ms (now (w s)) (w s')) /\
      (sent ⊆ list_to_set (queue idx (w s)) -> now (w s') = now (w s)) /\
      exists evs, concat (schedule (w s)) = evs ++ concat (schedule (w s')) /\
        got = answered idx evs (w s) /\
        (forall pre rest, evs = pre ++ rest -> rest <> [] -> ~ sent ⊆ answered idx pre (w s))
  | (Err e, _) => e <> NoFuel /\ is_monitor (source fx) = true
  end.
Proof.
  cbn zeta. set (idx := display_idx fx). intros Li V.
  assert (rounds_left (now (w s)) (w s) + length (queue idx (w s)) + events_left (w s) < wait_fuel idx (w s))%nat as Fu.
  { unfold wait_fuel, rounds_left. replace (now (w s) + seconds 3 - now (w s) + 299999999) with (seconds 3 + 299999999) by lia.
    change (Z.to_nat ((seconds 3 + 299999999) / millis 300)) with 10%nat. lia. }
  pose proof (wait_listening fx (send_conn_ids (l s)) (now (w s)) (wait_fuel idx (w s)) ∅ s eq_refl Li ltac:(set_solver) Fu) as A1.
  pose proof (wait_at_once fx (wait_fuel idx (w s)) (now (w s)) s Li) as A2.
  assert (waited idx (send_conn_ids (l s)) (w s) [] ∅ (w s)) as W.
  { pose proof (heard_channel _ _ _ (proj1 Li)). split; [done| |exact V|by intros [|??] [|??]].
    split; [done..|]. cbn [foldl]. by rewrite union_empty_l_L. }
  assert ((send_conn_ids (l s) = ∅ /\ queue idx (w s) = []) \/ ~ send_conn_ids (l s) ⊆ ∅) as Ne.
  { destruct (decide (send_conn_ids (l s) = ∅)) as [Em|Em]; [left; split; [done|]|right; set_solver].
    pose proof (heard_queue _ _ _ (proj1 Li)) as HQ. rewrite Em in HQ. destruct (queue idx (w s)) as [|id q]; [done|].
    inversion HQ. set_solver. }
  assert (elapsed_ms (now (w s)) (w s) < 3000) as El by (unfold elapsed_ms; rewrite Z.sub_diag; done).
  pose proof (wait_heard fx (w s) (now (w s)) (wait_fuel idx (w s)) ∅ [] s W Ne (or_introl El)) as A3.
  cbn zeta in A2, A3. fold idx in A1, A2, A3.
  destruct (wait_frames fx (wait_fuel idx (w s)) (now (w s)) ∅ s) as [[got|e] s'].
  - split; [exact A1|split; [exact A2|]]. destruct A3 as (Qe & evs & [Ev Ov _ No]). exists evs. split_and!; [exact Ev| |exact No].
    unfold answered. rewrite (ov_queue _ _ _ _ Ov), Qe. cbn. by rewrite union_empty_r_L.
  - split; [exact A1|]. by destruct A3.
Qed.

(** When an encoder cannot be made, the second try asks for the same encoder: choosing the
    configuration undoes the change to VP9. *)
Theorem fallback_undone (name : string) (quality : f32) (record_ running : bool) (src : VideoSource)
    (c : CapturerInfo) (s : World) :
  let '(r1, s1) := setup name quality record_ running src c s in
  fst (setup name quality record_ running src c
         (set_choice (set_fallback (lower (S := S) (C := C)) (VPX false) (choice s1)) s1)) = r1.
Proof.
  unfold setup, setup_encoder, get_encoder_config.
  set (m1 := if _ || _ then set_not_use name true (machine s) else machine s).
  set (ch1 := update _ m1 Check (choice s)).
  assert (Em : (if running || is_gdi (capturer c) || bool_decide (src = Camera) then set_not_use name true m1 else m1) = m1).
  { unfold m1. destruct (_ || _); [|done]. unfold set_not_use. cbn. by rewrite insert_insert_eq. }
  cbn [fst snd set_choice set_machine machine choice]. rewrite Em.
  match goal with |- context [update _ m1 Check (set_fallback ?lo (VPX false) (set_fallback _ ?cfg _))] =>
    assert (Ec : update decodings_in_order m1 Check (set_fallback lo (VPX false) (set_fallback lo cfg ch1)) = ch1) end.
  { unfold update, ch1, set_fallback. by repeat case_match. }
  by rewrite Ec.
Qed.
End service.

(** ** A display that is watched *)

Definition a_screen : Display := mkScreen (0, 0) 1920 1080 "\\.\DISPLAY1" true true.

#[local] Instance a_screens : Screens unit := {|
  all_displays _ := Ok [a_screen]; supported_resolutions _ _ := [(1920, 1080)];
  change_resolution _ _ _ s := (Ok tt, s); plug_in_headless s := (Ok tt, s);
  screens_installed := true; virtual_display_supported := false; amyuni_idd := false;
  is_virtual_display _ := false; platform_additions _ := "{}"%string;
|}.

#[local] Instance a_system : VideoSystem unit unit := {|
  is_process_consent_running _ := Ok false; desktop_changed _ := false;
  mag_capturer _ _ := Err "no magnifier"%string; capturer_portable _ := tt; capturer_new _ _ := Ok tt;
  cameras _ := []; camera_resolution _ _ := None; camera_capturer _ _ := Err "no camera"%string;
  lower x := x; option_value _ _ := false; decodings_in_order := map_to_list;
  to_rgba data _ := Ok data; encode_png _ _ data := Ok data;
|}.

#[local] Instance a_capturer : TraitCapturer unit := {|
  capture _ c := (Ok (PixelBuffer [Byte.x00] 1 1 [4]), c); is_gdi _ := true; set_gdi c := c; adapter _ := 0;
  set_output_texture _ c := c;
|}.

(** An encoder whose frames are numbered. *)
#[local] Instance numbering : EncoderApi Z Z := {|
  new_encoder _ _ _ _ _ := Ok 0; encode_to_message _ _ e := (Ok e, e + 1); to_yuv _ _ := Ok [Byte.x00];
  input_texture _ := false; set_quality _ e := (Ok tt, e); enc_bitrate _ := 1000;
  enc_support_changing_quality _ := true; latency_free _ := true; is_hardware _ := false; disable _ m := m;
|}.

Definition viewer (id : Z) : ConnInner Z := mkConnInner id (Some []) (Some []).

Definition a_world (watching : list Z) (events : list (list (event (S := unit) (F := Z)))) : World (S := unit) (F := Z) :=
  let hub := foldl (fun h id => on_subscribe (viewer id) h) (hub_new (get_service_name false 0) true) watching in
  mkWorld (swap_new_subscribes hub) (qos_default 0) pc initial_choice {[0 := []]} ∅ ∅ []
    (mkDisplays (mkSync [] false) false ∅) tt None false 0 events.

(** In a round something can happen when it begins, when there is a frame, while it is encoded,
    when it is sent, and while its viewers are waited for. *)
Definition calm_round (answers : list (event (S := unit) (F := Z))) : list (list (event (S := unit) (F := Z))) :=
  [[]; []; []; []; answers].

(** What was sent to a viewer. *)
Definition seen (id : Z) (s : VS (S := unit) (C := unit) (E := Z) (F := Z)) : option (list Z) :=
  frames_of <$> subscribes (sp (w s)) !! id.

Definition watch (n : nat) (s : World (S := unit) (F := Z)) :=
  match prepare (C := unit) (E := Z) Monitor 0 "monitor0" (raii_new "monitor0" s) with
  | (Ok (fx, v), _) => Some (rounds fx "monitor0" n v)
  | (Err _, _) => None
  end.

Example two_frames :
  (fun '(r, v) => (r, seen 1 v, now (w v))) <$>
    watch 2 (a_world [1] (calm_round [Passed 5; Fetched 0 1] ++ calm_round [Fetched 0 1])) =
  Some (Err NoFuel, Some [0; 1], 66666670).
Proof. vm_compute. reflexivity. Qed.

(** Somebody who comes while another one watches gets a new encoder. *)
Example comes_and_waits :
  (fun '(r, v) => (r, seen 1 v, seen 2 v)) <$>
    watch 2 (a_world [1] (calm_round [Fetched 0 1; Subscribed (viewer 2)])) =
  Some (Err (Bail "SWITCH"), Some [0], Some []).
Proof. vm_compute. reflexivity. Qed.

(** When the only viewer leaves between two frames and another one comes, the encoder is kept,
    and the new viewer's first frame is not the encoder's first. *)
Lemma late_viewer_begins_late :
  (fun '(r, v) => (r, seen 2 v)) <$>
    watch 2 (a_world [1] (calm_round [Fetched 0 1; Unsubscribed 1; Subscribed (viewer 2)])) =
  Some (Err NoFuel, Some [1]).
Proof. vm_compute. reflexivity. Qed.

(** The answer of somebody who watches the camera with the number of the display counts for the
    display's viewer, and so does one that came too late for the frame before. *)
Lemma camera_answers_for_display :
  (fun '(r, v) => (r, seen 1 v, now (w v))) <$>
    watch 2 (a_world [1] (calm_round [Fetched 0 7] ++ calm_round [Fetched 0 7])) =
  Some (Err NoFuel, Some [0; 1], 66666670).
Proof. vm_compute. reflexivity. Qed.

(** A web client that answers before the service has noted whom the frame went to is waited
    for in vain. *)
Lemma early_answer_lost :
  (fun '(r, v) => (r, seen 1 v, now (w v))) <$>
    watch 1 (a_world [1] [[]; []; []; [FetchedBy 1]; []]) = Some (Err NoFuel, Some [0], 3000000000) /\
  (fun '(r, v) => (r, seen 1 v, now (w v))) <$>
    watch 1 (a_world [1] [[]; []; []; []; [FetchedBy 1]]) = Some (Err NoFuel, Some [0], 33333335).
Proof. split; vm_compute; reflexivity. Qed.

Lemma viewers_follow_witness :
  match prepare (S := unit) (C := unit) (E := Z) (F := Z) Monitor 0 "monitor0"
          (a_world [1; 2] (calm_round [Fetched 0 1; Fetched 0 2; Unsubscribed 2])) with
  | (Ok (fx, v), _) =>
      let '(r, s') := rounds fx "monitor0" 2 v in r = Err NoFuel /\ emitted (l s') = [0; 1] /\ followed s'
  | (Err _, _) => False
  end.
Proof.
  set (s := a_world [1; 2] (calm_round [Fetched 0 1; Fetched 0 2; Unsubscribed 2])).
  assert (R : match prepare (C := unit) (E := Z) Monitor 0 "monitor0" s with
              | (Ok (fx, v), _) => let '(r, s') := rounds fx "monitor0" 2 v in Some (r, emitted (l s'))
              | (Err _, _) => None
              end = Some (Err NoFuel, [0; 1])) by (vm_compute; reflexivity).
  destruct (prepare Monitor 0 "monitor0" s) as [[[fx v]|e] s1] eqn:Pr; [|discriminate].
  pose proof (viewers_follow Monitor 0 "monitor0" s s1 fx v 1 2 Pr eq_refl) as V.
  assert (K : is_Some (subscribes (sp s) !! 1)) by (eexists; vm_compute; reflexivity).
  assert (N : Unsubscribed 1 ∉ concat (schedule s))
    by (intros I; repeat (apply elem_of_cons in I as [I|I]; [discriminate|]); by apply elem_of_nil in I).
  specialize (V K N). destruct (rounds fx "monitor0" 2 v) as [r s']. injection R as -> R. split_and!; [done|exact R|exact V].
Defined.

(** Two viewers, of whom one never answers. *)
Definition waiting (answers : list (event (S := unit) (F := Z))) : VS (S := unit) (C := unit) (E := Z) (F := Z) :=
  mkVS (set_display_conn_ids {[0 := {[1; 2]}]} (a_world [1; 2] [answers]))
    (mkLoop 1 [0] (mkCapturerInfo (0, 0) (1, 1) 1 0 0 0 tt) BR_BALANCED 33333335 1 0 0 0 [] 0 0 false {[1; 2]} None true).
Definition a_fixed : Fixed := mkFixed 0 Monitor false false (VPX false) VP9 false 0.

Definition wait_result (answers : list (event (S := unit) (F := Z))) :=
  wait_frames a_fixed (wait_fuel 0 (w (waiting answers))) 0 ∅ (waiting answers).

Lemma frame_awaited_witness :
  (let '(r, s') := wait_result [Passed 7; Fetched 0 1; FetchedBy 2; Fetched 0 2] in
   r = Ok {[1; 2]} /\ now (w s') = 7 /\ schedule (w s') = [[Fetched 0 2]]) /\
  (let '(r, s') := wait_result [Fetched 0 1] in is_ok r = true /\ 3000 <= elapsed_ms 0 (w s')).
Proof.
  assert (Li : forall answers, Forall (from_viewers 0 {[1; 2]}) answers -> listening 0 {[1; 2]} (w (waiting answers))).
  { intros answers V. split; [split; vm_compute; [eauto|constructor|done]|]. cbn. by rewrite app_nil_r. }
  split.
  - set (acts := [Passed 7; Fetched 0 1; FetchedBy 2; Fetched 0 2]).
    pose proof (frame_awaited a_fixed (waiting acts)
      (Li acts ltac:(repeat constructor; cbn; set_solver)) ltac:(repeat constructor; cbn; set_solver)) as W.
    assert (R : (let '(r, s') := wait_result acts in (is_ok r, now (w s'), schedule (w s'))) = (true, 7, [[Fetched 0 2]]))
      by (vm_compute; reflexivity).
    cbn zeta in W. change (wait_frames _ _ _ _ _) with (wait_result acts) in W.
    destruct (wait_result _) as [[got|e] s']; [|discriminate]. injection R as T Sc. split_and!; [|exact T|exact Sc].
    destruct W as ([W|W] & _); [by rewrite W|]. unfold elapsed_ms in W. rewrite T in W. by destruct W.
  - pose proof (frame_awaited a_fixed (waiting [Fetched 0 1]) (Li [Fetched 0 1] ltac:(repeat constructor; cbn; set_solver))
      ltac:(repeat constructor; cbn; set_solver)) as W.
    assert (R : (let '(r, s') := wait_result [Fetched 0 1] in
                 match r with Ok got => Some (size got) | Err _ => None end) = Some 1%nat) by (vm_compute; reflexivity).
    cbn zeta in W. change (wait_frames _ _ _ _ _) with (wait_result [Fetched 0 1]) in W.
    destruct (wait_result _) as [[got|e] s']; [|discriminate]. injection R as R. split; [done|].
    destruct W as ([W|W] & _); [|exact W]. by rewrite W in R.
Defined.
