(* ===== verification/PortableService.v ===== *)
(** * The portable service

    [src/server/portable_service.rs]: a process with the rights of the system captures the
    screen and takes input for the program that is not installed.  Frames and the cursor go
    through shared memory with counters, the rest through a pipe.

    The two processes act on the memory at the same time.  Every access of the service's
    thread is one step, the bytes of a frame one by one; before each of them the client does
    what a [schedule] says, in steps of its own. *)

From S2P Require Import Prelude DisplayService VideoService Enigo.
#[local] Open Scope Z_scope.

(** ** The memory *)

Definition SIZE_I32 : Z := 4.
(** [CURSORINFO], [CapturerPara] and [FrameInfo] as C lays them out on 64 bits. *)
Definition SIZE_CURSORINFO : Z := 24.
Definition SIZE_CAPTURER_PARA : Z := 24.
Definition SIZE_FRAME_INFO : Z := 24.

(* src/src/server/portable_service.rs:34-34 SIZE_COUNTER *)
Definition SIZE_COUNTER : Z := SIZE_I32 * 2.
(* src/src/server/portable_service.rs:35-35 FRAME_ALIGN *)
Definition FRAME_ALIGN : Z := 64.
(* src/src/server/portable_service.rs:37-37 ADDR_CURSOR_PARA *)
Definition ADDR_CURSOR_PARA : Z := 0.
(* src/src/server/portable_service.rs:38-38 ADDR_CURSOR_COUNTER *)
Definition ADDR_CURSOR_COUNTER : Z := ADDR_CURSOR_PARA + SIZE_CURSORINFO.
(* src/src/server/portable_service.rs:40-40 ADDR_CAPTURER_PARA *)
Definition ADDR_CAPTURER_PARA : Z := ADDR_CURSOR_COUNTER + SIZE_COUNTER.
(* src/src/server/portable_service.rs:41-41 ADDR_CAPTURE_FRAME_INFO *)
Definition ADDR_CAPTURE_FRAME_INFO : Z := ADDR_CAPTURER_PARA + SIZE_CAPTURER_PARA.
(* src/src/server/portable_service.rs:42-42 ADDR_CAPTURE_WOULDBLOCK *)
Definition ADDR_CAPTURE_WOULDBLOCK : Z := ADDR_CAPTURE_FRAME_INFO + SIZE_FRAME_INFO.
(* src/src/server/portable_service.rs:43-43 ADDR_CAPTURE_FRAME_COUNTER *)
Definition ADDR_CAPTURE_FRAME_COUNTER : Z := ADDR_CAPTURE_WOULDBLOCK + SIZE_I32.
(* src/src/server/portable_service.rs:45-46 ADDR_CAPTURE_FRAME *)
Definition ADDR_CAPTURE_FRAME : Z :=
  (ADDR_CAPTURE_FRAME_COUNTER + SIZE_COUNTER + FRAME_ALIGN - 1) / FRAME_ALIGN * FRAME_ALIGN.
(* src/src/server/portable_service.rs:50-50 MAX_NACK *)
Definition MAX_NACK : Z := 3.
(* src/src/server/portable_service.rs:51-51 MAX_DXGI_FAIL_TIME *)
Definition MAX_DXGI_FAIL_TIME : Z := 5.

(* src/src/server/portable_service.rs:200-202 utils::align *)
Definition align (v a : Z) : Z := (v + a - 1) / a * a.

(** The size for displays with these resolutions. *)
(* src/src/server/portable_service.rs:545-561 client::start_portable_service *)
Definition shmem_size (resolutions : list (Z * Z)) : Z :=
  let max_pixel := foldl (fun m r => let pixel := align (fst r) 64 * align (snd r) 64 in
                                     if m <? pixel then pixel else m) 0 resolutions in
  align (ADDR_CAPTURE_FRAME + max_pixel * 4) 64.

(* src/src/server/portable_service.rs:981-985 CapturerPara *)
Record CapturerPara : Type := mkPara { recreate : bool; current_display : Z; timeout_ms : Z }.
(* src/src/server/portable_service.rs:988-992 FrameInfo *)
Record FrameInfo : Type := mkFrameInfo { fi_length : Z; fi_width : Z; fi_height : Z }.

(** The fields by their addresses; the two counters of the frames are what the service has
    written and what the client has seen. *)
(* src/src/server/portable_service.rs:37-46 ADDR_CAPTURE_FRAME *)
Record Shm : Type := mkShm {
  para : CapturerPara;
  frame_info : FrameInfo;
  wouldblock : Z;
  written : Z;
  read : Z;
  pixels : bytes;
  cursor : Z;
  cursor_written : Z;
  cursor_read : Z;
}.

Definition set_para x (s : Shm) : Shm := mkShm x (frame_info s) (wouldblock s) (written s) (read s) (pixels
  s) (cursor s) (cursor_written s) (cursor_read s).
Definition set_frame_info x (s : Shm) : Shm := mkShm (para s) x (wouldblock s) (written s) (read s) (pixels
  s) (cursor s) (cursor_written s) (cursor_read s).
Definition set_wouldblock x (s : Shm) : Shm := mkShm (para s) (frame_info s) x (written s) (read s) (pixels
  s) (cursor s) (cursor_written s) (cursor_read s).
Definition set_written x (s : Shm) : Shm := mkShm (para s) (frame_info s) (wouldblock s) x (read s) (pixels
  s) (cursor s) (cursor_written s) (cursor_read s).
Definition set_read x (s : Shm) : Shm := mkShm (para s) (frame_info s) (wouldblock s) (written s) x (pixels
  s) (cursor s) (cursor_written s) (cursor_read s).
Definition set_pixels x (s : Shm) : Shm := mkShm (para s) (frame_info s) (wouldblock s) (written s) (read s)
  x (cursor s) (cursor_written s) (cursor_read s).
Definition set_cursor x (s : Shm) : Shm := mkShm (para s) (frame_info s) (wouldblock s) (written s) (read s)
  (pixels s) x (cursor_written s) (cursor_read s).
Definition set_cursor_written x (s : Shm) : Shm := mkShm (para s) (frame_info s) (wouldblock s) (written s)
  (read s) (pixels s) (cursor s) x (cursor_read s).
Definition set_cursor_read x (s : Shm) : Shm := mkShm (para s) (frame_info s) (wouldblock s) (written s)
  (read s) (pixels s) (cursor s) (cursor_written s) x.

(** [memset]. *)
Definition zeroed (m : Shm) : Shm :=
  mkShm (mkPara false 0 0) (mkFrameInfo 0 0 0) 0 0 0 (replicate (length (pixels m)) Byte.x00) 0 0 0.

(** How far the client is with a frame: it has seen that there is one, it has said so, and
    it reads what it has said it has. *)
Inductive reading : Type :=
| Idle
| Seen
| Acknowledged
| Reading (length : Z) (so_far : bytes).

(** What [frame] answers when there is no frame. *)
Inductive no_frame : Type := NothingNew | WrongSize | OtherError.

(** Frames that were announced, and what was in the memory when the client said that it had
    seen it. *)
Definition announced : Type := FrameInfo * bytes.

Definition in_memory (m : Shm) : announced :=
  (frame_info m, take (Z.to_nat (fi_length (frame_info m))) (pixels m)).

(** What the client does with the memory. *)
Inductive client_event : Type :=
| NewCapturer (display width height : Z)
| AskTimeout (ms : Z)
| Look
| Acknowledge
| ReadInfo
| ReadPixels (n : nat).

Section portable.
Context {S C : Type} `{Screens S, VideoSystem S C, TraitCapturer C}.

(** The variables of [run_capture]; [creations] counts the capturers. *)
(* src/src/server/portable_service.rs:303-311 server::run_capture *)
Record Writer : Type := mkWriter {
  cap_ : option C;
  last_current_display : Z;
  last_timeout_ms : Z;
  first_frame_captured : bool;
  dxgi_failed_times : Z;
  display_size : Z * Z;
  creations : nat;
  made : list announced;
}.

Definition set_cap_ x (s : Writer) : Writer := mkWriter x (last_current_display s) (last_timeout_ms s)
  (first_frame_captured s) (dxgi_failed_times s) (display_size s) (creations s) (made s).
Definition set_last_current_display x (s : Writer) : Writer := mkWriter (cap_ s) x (last_timeout_ms s)
  (first_frame_captured s) (dxgi_failed_times s) (display_size s) (creations s) (made s).
Definition set_last_timeout_ms x (s : Writer) : Writer := mkWriter (cap_ s) (last_current_display s) x
  (first_frame_captured s) (dxgi_failed_times s) (display_size s) (creations s) (made s).
Definition set_first_frame_captured x (s : Writer) : Writer := mkWriter (cap_ s) (last_current_display s)
  (last_timeout_ms s) x (dxgi_failed_times s) (display_size s) (creations s) (made s).
Definition set_dxgi_failed_times x (s : Writer) : Writer := mkWriter (cap_ s) (last_current_display s)
  (last_timeout_ms s) (first_frame_captured s) x (display_size s) (creations s) (made s).
Definition set_display_size x (s : Writer) : Writer := mkWriter (cap_ s) (last_current_display s)
  (last_timeout_ms s) (first_frame_captured s) (dxgi_failed_times s) x (creations s) (made s).
Definition set_creations x (s : Writer) : Writer := mkWriter (cap_ s) (last_current_display s)
  (last_timeout_ms s) (first_frame_captured s) (dxgi_failed_times s) (display_size s) x (made s).
Definition set_made x (s : Writer) : Writer := mkWriter (cap_ s) (last_current_display s) (last_timeout_ms
  s) (first_frame_captured s) (dxgi_failed_times s) (display_size s) (creations s) x.

(** The client's capturer. *)
(* src/src/server/portable_service.rs:645-648 client::CapturerPortable *)
Record Client : Type := mkClient {
  size_ : Z * Z;
  state : reading;
  answers : list no_frame;
  shown : list announced;
}.

Definition set_size_ x (s : Client) : Client := mkClient x (state s) (answers s) (shown s).
Definition set_state x (s : Client) : Client := mkClient (size_ s) x (answers s) (shown s).
Definition set_answers x (s : Client) : Client := mkClient (size_ s) (state s) x (shown s).
Definition set_shown x (s : Client) : Client := mkClient (size_ s) (state s) (answers s) x.

Record St : Type := mkSt {
  shm : Shm;
  exit : bool;
  os_ : S;
  wr : Writer;
  cl : Client;
  todo : list (list client_event);
}.

Definition set_shm x (s : St) : St := mkSt x (exit s) (os_ s) (wr s) (cl s) (todo s).
Definition set_exit x (s : St) : St := mkSt (shm s) x (os_ s) (wr s) (cl s) (todo s).
Definition set_os_ x (s : St) : St := mkSt (shm s) (exit s) x (wr s) (cl s) (todo s).
Definition set_wr x (s : St) : St := mkSt (shm s) (exit s) (os_ s) x (cl s) (todo s).
Definition set_cl x (s : St) : St := mkSt (shm s) (exit s) (os_ s) (wr s) x (todo s).
Definition set_todo x (s : St) : St := mkSt (shm s) (exit s) (os_ s) (wr s) (cl s) x.

(** ** The client *)

(* src/src/server/portable_service.rs:651-678 client::CapturerPortable::new *)
Definition new_capturer (display width height : Z) (s : St) : St :=
  let m := set_wouldblock 1 (set_para (mkPara true display 33) (zeroed (shm s))) in
  set_cl (mkClient (width, height) Idle (answers (cl s)) (shown (cl s))) (set_shm m s).

(** The part of [frame] before the counters. *)
(* src/src/server/portable_service.rs:689-701 client::CapturerPortable::frame *)
Definition ask_timeout (ms : Z) (s : St) : St :=
  let p := para (shm s) in
  if ms =? timeout_ms p then s
  else set_shm (set_para (mkPara (recreate p) (current_display p) ms) (shm s)) s.

Definition answer (a : no_frame) (s : St) : St :=
  set_cl (set_answers (answers (cl s) ++ [a]) (cl s)) s.
Definition set_reading (r : reading) (s : St) : St := set_cl (set_state r (cl s)) s.

(** The comparison; without a frame the answer follows. *)
(* src/src/server/portable_service.rs:156-169 utils::counter_ready *)
Definition look (s : St) : St :=
  if read (shm s) =? written (shm s)
  then answer (if wouldblock (shm s) =? 1 then NothingNew else OtherError) s
  else set_reading Seen s.

(** The counter is copied after the comparison, and before anything of the frame is read. *)
(* src/src/server/portable_service.rs:163-163 utils::counter_ready *)
Definition acknowledge (s : St) : St :=
  let c := cl s in
  set_cl (mkClient (size_ c) Acknowledged (answers c) (shown c ++ [in_memory (shm s)]))
    (set_shm (set_read (written (shm s)) (shm s)) s).

(* src/src/server/portable_service.rs:702-724 client::CapturerPortable::frame *)
Definition read_info (s : St) : St :=
  let i := frame_info (shm s) in
  if (fi_width i =? fst (size_ (cl s))) && (fi_height i =? snd (size_ (cl s)))
  then set_reading (Reading (fi_length i) []) s
  else answer WrongSize (set_reading Idle s).

(** The slice is read by those who get it. *)
Definition read_pixels (n : nat) (s : St) : St :=
  match state (cl s) with
  | Reading len so_far =>
      set_reading (Reading len (so_far ++ take n (drop (length so_far) (take (Z.to_nat len) (pixels (shm s)))))) s
  | _ => s
  end.

Definition client_step (e : client_event) (s : St) : St :=
  match e, state (cl s) with
  | NewCapturer d w h, _ => new_capturer d w h s
  | AskTimeout ms, _ => ask_timeout ms s
  | Look, (Idle | Reading _ _) => look s
  | Acknowledge, Seen => acknowledge s
  | ReadInfo, Acknowledged => read_info s
  | ReadPixels n, Reading _ _ => read_pixels n s
  | _, _ => s
  end.

(** ** The service *)

Definition others : M St unit := modify (fun s =>
  match todo s with
  | [] => s
  | batch :: rest => set_todo rest (foldl (fun s e => client_step e s) s batch)
  end).

(** An access of the memory. *)
Definition load {A} (f : Shm -> A) : M St A := others ;; gets (fun s => f (shm s)).
Definition store (f : Shm -> Shm) : M St unit := others ;; modify (fun s => set_shm (f (shm s)) s).
Definition local (f : Writer -> Writer) : M St unit := modify (fun s => set_wr (f (wr s)) s).

(** Both numbers that are compared are read from the same place. *)
(* src/src/server/portable_service.rs:183-197 utils::increase_counter *)
Definition increase_counter : M St unit :=
  iw ← load written;
  ir ← load written;
  let iw_plus1 := if iw =? 2147483647 then 0 else iw + 1 in
  store (set_written iw_plus1) ;;
  when (ir =? iw_plus1) (store (set_read iw)).

(* src/src/server/portable_service.rs:172-180 utils::counter_equal *)
Definition counter_equal : M St bool :=
  iw ← load written; ir ← load read; mret (iw =? ir).

(** A byte outside of the memory is lost here; [write] does not ask. *)
(* src/src/server/portable_service.rs:111-118 SharedMemory::write *)
Fixpoint write_pixels (at_ : nat) (data : bytes) : M St unit :=
  match data with
  | [] => mret tt
  | b :: data => store (fun m => set_pixels (<[at_ := b]> (pixels m)) m) ;; write_pixels (Datatypes.S at_) data
  end.

(* src/src/server/portable_service.rs:388-402 server::run_capture *)
Definition put_frame (data : bytes) : M St unit :=
  size ← gets (fun s => display_size (wr s));
  let info := mkFrameInfo (zlen data) (fst size) (snd size) in
  store (set_frame_info info) ;;
  write_pixels 0 data ;;
  store (set_wouldblock 1) ;;
  increase_counter ;;
  local (fun v => set_made (made v ++ [(info, data)]) v) ;;
  local (set_first_frame_captured true) ;;
  local (set_dxgi_failed_times 0).

(* src/src/server/portable_service.rs:407-428 server::run_capture *)
Definition capture_failed (e : capture_error) : M St unit :=
  o ← gets os_;
  if desktop_changed (C := C) o then local (set_cap_ None)
  else
    match e with
    | CaptureFailed _ =>
        gdi ← gets (fun s => match cap_ (wr s) with Some c => is_gdi c | None => true end);
        when (negb gdi) (local (fun v => set_dxgi_failed_times (dxgi_failed_times v + 1) v)) ;;
        fails ← gets (fun s => dxgi_failed_times (wr s));
        when (MAX_DXGI_FAIL_TIME <? fails) (local (set_cap_ None) ;; store (set_wouldblock 0))
    | WouldBlock => store (set_wouldblock 1)
    end.

(** The second half of a round; [Duration] of the time is not negative. *)
(* src/src/server/portable_service.rs:380-434 server::run_capture *)
Definition capture_part : M St unit :=
  taken ← gets (fun s : St => first_frame_captured (wr s));
  equal ← (if taken : bool then counter_equal else mret true);
  c ← gets (fun s => cap_ (wr s));
  match equal, c with
  | true, Some c =>
      spf ← gets (fun s => last_timeout_ms (wr s) * 1000000);
      let '(r, c) := capture spf c in
      local (set_cap_ (Some c)) ;;
      others ;;
      match r with
      | Ok (PixelBuffer data _ _ _) => put_frame data
      | Ok (Texture _ _) => mret tt
      | Err e => capture_failed e
      end
  | _, _ => mret tt
  end.

(** A new capturer; what it is to do is read again before it is written back. *)
(* src/src/server/portable_service.rs:322-361 server::run_capture *)
Definition create (current : Z) : M St unit :=
  o ← gets os_;
  let '(all, o) := try_get_displays o in
  modify (set_os_ o) ;;
  match all with
  | Err _ => modify (set_exit true)
  | Ok all =>
      match all !! Z.to_nat current with
      | None => modify (set_exit true)
      | Some d =>
          local (set_display_size (width d, height d)) ;;
          match capturer_new d o with
          | Err _ => mret tt
          | Ok v =>
              fails ← gets (fun s => dxgi_failed_times (wr s));
              local (set_last_current_display current) ;;
              local (set_first_frame_captured false) ;;
              local (fun v => set_creations (Datatypes.S (creations v)) v) ;;
              when (MAX_DXGI_FAIL_TIME <? fails) (local (set_dxgi_failed_times 0)) ;;
              display ← load (fun m => current_display (para m));
              ms ← load (fun m => timeout_ms (para m));
              store (set_para (mkPara false display ms)) ;;
              local (set_cap_ (Some (if MAX_DXGI_FAIL_TIME <? fails then set_gdi v else v))) ;;
              capture_part
          end
      end
  end.

(** A round of the loop, that has not been told to end. *)
(* src/src/server/portable_service.rs:312-435 server::run_capture *)
Definition capture_round : M St unit :=
  again ← load (fun m => recreate (para m));
  current ← load (fun m => current_display (para m));
  ms ← load (fun m => timeout_ms (para m));
  c ← gets (fun s => cap_ (wr s));
  match c with
  | None => create current
  | Some _ =>
      v ← gets wr;
      if again || negb (current =? last_current_display v) then local (set_cap_ None)
      else
        when (negb (ms =? last_timeout_ms v) && (1000 / VideoQos.MAX_FPS <=? ms) && (ms <=? 1000 / VideoQos.MIN_FPS)) (local (set_last_timeout_ms ms)) ;;
        capture_part
  end.

(** [n] rounds at most. *)
(* src/src/server/portable_service.rs:303-436 server::run_capture *)
Fixpoint run_capture (n : nat) : M St unit :=
  match n with
  | O => mret tt
  | Datatypes.S n => stop ← gets exit; if stop : bool then mret tt else capture_round ;; run_capture n
  end.

(** ** The cursor *)

(** What Windows says of the cursor, or nothing. *)
(* src/src/server/portable_service.rs:285-301 server::run_get_cursor_info *)
Definition put_cursor (info : option Z) (m : Shm) : Shm :=
  match info with
  | Some c =>
      let iw := cursor_written m in
      set_cursor_written (if iw =? 2147483647 then 0 else iw + 1) (set_cursor c m)
  | None => m
  end.

(* src/src/server/portable_service.rs:867-876 client::get_cursor_info_ *)
Definition get_cursor_info_ (m : Shm) : option Z * Shm :=
  if cursor_read m =? cursor_written m then (None, m)
  else (Some (cursor m), set_cursor_read (cursor_written m) m).

(** ** The pipe *)

(* src/src/ipc.rs:176-186 DataPortableService *)
Inductive DataPortableService : Type :=
| Ping | Pong | ConnCount (n : option Z)
| Mouse (v : bytes) (conn : Z) (username : string) (argb : Z) (simulate show_cursor : bool)
| Pointer (v : bytes) (conn : Z)
| Key (v : bytes) | RequestStart | WillClose | CmShowElevation (show : bool).

(** What an end of the pipe meets. *)
Inductive pipe_event : Type := Received (d : DataPortableService) | Closed | EverySecond | ToSend (d : DataPortableService).

(** What the service does: a message, or an event for the input of the machine ([Input]). *)
Inductive pipe_effect : Type := SendData (d : DataPortableService) | Handle (d : DataPortableService).

(** [parses]: whether the bytes are a message of their kind.  The pings without an answer; [None] when the end is reached, and the service with it. *)
(* src/src/server/portable_service.rs:439-517 server::run_ipc_client *)
Definition service_pipe (parses : DataPortableService -> bool) (e : pipe_event) (nack : Z) : option Z * list pipe_effect :=
  match e with
  | Closed => (None, [])
  | Received Ping => (Some nack, [SendData Pong])
  | Received Pong => (Some 0, [])
  | Received (ConnCount (Some 0)) => (None, [SendData WillClose])
  | Received ((Mouse _ _ _ _ _ _ | Pointer _ _ | Key _) as d) => (Some nack, if parses d then [Handle d] else [])
  | Received _ => (Some nack, [])
  | EverySecond =>
      let nack := nack + 1 in
      if MAX_NACK <? nack then (None, [])
      else (Some nack, [SendData Ping; SendData (ConnCount None)])
  | ToSend _ => (Some nack, [])
  end.

(** The program's end, with [RUNNING]. *)
(* src/src/server/portable_service.rs:789-843 client::start_ipc_server_async *)
Definition client_pipe (quick_support : bool) (remotes : Z) (e : pipe_event) (nack : Z) (running : bool)
    : option Z * bool * list pipe_effect :=
  match e with
  | Closed | Received WillClose => (None, false, [])
  | Received Ping => (Some nack, running, [SendData Pong])
  | Received Pong => (Some 0, true, [])
  | Received (ConnCount None) =>
      (Some nack, running, if quick_support then [] else [SendData (ConnCount (Some remotes))])
  | Received _ => (Some nack, running, [])
  | EverySecond =>
      let nack := nack + 1 in
      if MAX_NACK <? nack then (None, false, []) else (Some nack, running, [SendData Ping])
  | ToSend d => (Some nack, running, [SendData d])
  end.

Fixpoint client_run (quick_support : bool) (remotes : Z) (es : list pipe_event) (nack : Z) (running : bool)
    : option Z * bool * list pipe_effect :=
  match es with
  | [] => (Some nack, running, [])
  | e :: es =>
      match client_pipe quick_support remotes e nack running with
      | (Some nack, running, out) => let '(n, r, out2) := client_run quick_support remotes es nack running in (n, r, out ++ out2)
      | ended => ended
      end
  end.

(** Input goes to the service as long as it is thought to run, and is handled here otherwise. *)
(* src/src/server/portable_service.rs:942-956 client::handle_mouse *)
Definition to_service (running : bool) (d : DataPortableService) : list pipe_event * list pipe_effect :=
  if running then ([ToSend d], []) else ([], [Handle d]).

(** ** Handing over frames *)

Definition c31 (z : Z) : Z := z mod 2 ^ 31.

Lemma c31_next z : (if c31 z =? 2147483647 then 0 else c31 z + 1) = c31 (z + 1).
Proof.
  unfold c31. rewrite (Z.add_mod z 1) by done. change (1 mod 2 ^ 31) with 1.
  pose proof (Z.mod_pos_bound z (2 ^ 31) ltac:(done)).
  destruct (Z.eqb_spec (z mod 2 ^ 31) 2147483647) as [->|N]; [done|]. by rewrite (Z.mod_small (_ + 1)) by lia.
Qed.

Lemma c31_moves z : c31 (z + 1) <> c31 z.
Proof. rewrite <-c31_next. case_match eqn:Eq; [apply Z.eqb_eq in Eq; lia|lia]. Qed.

Definition is_new (e : client_event) : Prop := match e with NewCapturer _ _ _ => True | _ => False end.

Section hand_over.
Context (c0 : Z) (N : nat).
Context (fits : forall ms c d pw ph st, fst (capture ms c) = Ok (PixelBuffer d pw ph st) -> (length d <= N)%nat).

(** The counters count the frames; one frame at most is not yet seen, and it is in the memory. *)
Record tidy (s : St) : Prop := {
  no_new : Forall (fun e => ~ is_new e) (concat (todo s));
  size_kept : length (pixels (shm s)) = N;
  count_made : written (shm s) = c31 (c0 + zlen (made (wr s)));
  count_shown : read (shm s) = c31 (c0 + zlen (shown (cl s)));
  shown_made : made (wr s) = shown (cl s) \/ made (wr s) = shown (cl s) ++ [in_memory (shm s)];
  seen_made : state (cl s) = Seen -> made (wr s) = shown (cl s) ++ [in_memory (shm s)];
  first_made : first_frame_captured (wr s) = false -> made (wr s) = shown (cl s);
}.

(** The service may write: the client has seen everything. *)
Definition turn (s : St) : Prop := tidy s /\ made (wr s) = shown (cl s).

Lemma pending_differs s : tidy s -> made (wr s) = shown (cl s) <-> read (shm s) = written (shm s).
Proof.
  intros T. rewrite (count_made s T), (count_shown s T). split; [by intros ->|].
  destruct (shown_made s T) as [Em|Em]; [done|]. intros Ec. exfalso.
  rewrite Em, zlen_app in Ec. unfold zlen in Ec. cbn [length] in Ec. rewrite Z.add_assoc in Ec. by symmetry in Ec; apply c31_moves in Ec.
Qed.

(** What a step of the client leaves alone. *)
Lemma client_leaves e s : ~ is_new e ->
  wr (client_step e s) = wr s /\ written (shm (client_step e s)) = written (shm s) /\
  in_memory (shm (client_step e s)) = in_memory (shm s) /\ frame_info (shm (client_step e s)) = frame_info (shm s) /\
  pixels (shm (client_step e s)) = pixels (shm s) /\ todo (client_step e s) = todo s.
Proof.
  intros Nn. destruct e as [| ms | | | | n]; [by destruct Nn|..]; cbn; unfold ask_timeout, look, read_info, read_pixels;
    repeat case_match; by split_and!.
Qed.

Lemma client_tidy e s : ~ is_new e -> tidy s -> tidy (client_step e s).
Proof.
  intros Nn T. destruct (client_leaves e s Nn) as (E1 & E2 & E3 & E4 & E5 & E6).
  assert (K : read (shm (client_step e s)) = read (shm s) -> shown (cl (client_step e s)) = shown (cl s) ->
    (state (cl (client_step e s)) = Seen -> made (wr s) = shown (cl s) ++ [in_memory (shm s)]) -> tidy (client_step e s)).
  { intros K1 K2 K3. destruct T. split; rewrite ?E1, ?E2, ?E3, ?E5, ?E6, ?K1, ?K2; done. }
  pose proof (pending_differs s T) as P. pose proof (seen_made s T) as Se.
  destruct e as [| ms | | | | n]; [by destruct Nn|..]; cbn in K |- *.
  - unfold ask_timeout in *. destruct (ms =? _); by apply K.
  - destruct (state (cl s)) eqn:Es; [|exact T..|]; revert K; unfold look; intros K;
      (destruct (Z.eqb_spec (read (shm s)) (written (shm s))) as [Er|Er];
       [apply K; cbn; rewrite ?Es; done|apply K; [done..|intros _; destruct (shown_made s T) as [M0|M0]; [tauto|done]]]).
  - destruct (state (cl s)) eqn:Es; try exact T.
    pose proof (Se eq_refl) as Em. destruct T. split; cbn; try done; [by rewrite count_made0, Em|by left].
  - destruct (state (cl s)) eqn:Es; try exact T.
    revert K. unfold read_info. intros K. case_match; apply K; cbn; done.
  - destruct (state (cl s)) eqn:Es; try exact T.
    revert K. unfold read_pixels. rewrite Es. intros K. apply K; cbn; done.
Qed.

Lemma client_turn e s : ~ is_new e -> turn s -> turn (client_step e s).
Proof.
  intros Nn [T Em]. pose proof (client_tidy e s Nn T) as T'. split; [exact T'|].
  apply (pending_differs _ T'). destruct (client_leaves e s Nn) as (_ & E2 & _). rewrite E2.
  assert (Ns : state (cl s) <> Seen).
  { intros Es. pose proof (seen_made s T Es) as M0. rewrite Em in M0. apply (f_equal length) in M0.
    rewrite length_app in M0. cbn in M0. lia. }
  apply (pending_differs _ T) in Em. rewrite <-Em. clear T T' E2.
  destruct e as [| ms | | | | n]; [by destruct Nn|..]; cbn; unfold ask_timeout, look, read_info, read_pixels;
    repeat case_match; try done.
Qed.

(** What the client leaves alone. *)
Definition still (P : St -> Prop) : Prop := forall s s',
  wr s' = wr s -> written (shm s') = written (shm s) -> frame_info (shm s') = frame_info (shm s) ->
  pixels (shm s') = pixels (shm s) -> P s -> P s'.

Definition kept_by_client (I : St -> Prop) : Prop :=
  (forall e s, ~ is_new e -> I s -> I (client_step e s)) /\ (forall s l, Forall (fun e => ~ is_new e) (concat l) -> I s -> I (set_todo l s)) /\
  (forall s, I s -> tidy s).

Lemma others_keep I P : kept_by_client I -> still P -> keeps (fun s => I s /\ P s) others.
Proof.
  intros (K1 & K2 & K3) St_ s [Is Ps]. unfold others, modify. cbn [fst snd].
  destruct (todo s) as [|batch rest] eqn:Et; [done|].
  pose proof (no_new s (K3 s Is)) as Nn. rewrite Et in Nn. cbn in Nn. apply Forall_app in Nn as [N1 N2].
  assert (X : I (foldl (fun s e => client_step e s) s batch) /\ P (foldl (fun s e => client_step e s) s batch)).
  { clear Et. revert s Is Ps. induction N1 as [|e batch Ne N1 IH]; intros s Is Ps; [done|]. cbn.
    destruct (client_leaves e s Ne) as (E1 & E2 & _ & E4 & E5 & _).
    apply IH; [by apply K1|exact (St_ _ _ E1 E2 E4 E5 Ps)]. }
  destruct X as [X1 X2]. split; [by apply K2|]. eapply St_; [..|exact X2]; done.
Qed.

Lemma tidy_by_client : kept_by_client tidy.
Proof.
  split_and!; [apply client_tidy| |done]. intros s q Nq []. split; done.
Qed.
Lemma turn_by_client : kept_by_client turn.
Proof.
  split_and!; [apply client_turn| |by intros s []]. intros s q Nq [T Em]. split; [exact (proj1 (proj2 tidy_by_client) s q Nq T)|done].
Qed.
#[local] Hint Resolve tidy_by_client turn_by_client : core.

Lemma load_keeps {A} I P (f : Shm -> A) : kept_by_client I -> still P ->
  triple (fun s => I s /\ P s) (load f) (fun a s => (I s /\ P s) /\ a = f (shm s)).
Proof. intros K St_ s Hs. unfold load. rewrite bind_eq. split; [by apply others_keep|done]. Qed.

(** The service's own writing, while it is its turn. *)
Definition writing (info : FrameInfo) (pre : bytes) (n : nat) (s : St) : Prop :=
  frame_info (shm s) = info /\ take n (pixels (shm s)) = pre.

Lemma writing_still info pre n : still (writing info pre n).
Proof. intros s s' _ _ E1 E2. unfold writing. by rewrite E1, E2. Qed.
Lemma true_still : still (fun _ => True).
Proof. done. Qed.
#[local] Hint Resolve writing_still true_still : core.

Lemma store_turn P Q f : still P ->
  (forall s, turn s -> P s -> length (pixels (f (shm s))) = N /\ written (f (shm s)) = written (shm s) /\
     read (f (shm s)) = read (shm s) /\ Q (set_shm (f (shm s)) s)) ->
  triple (fun s => turn s /\ P s) (store f) (fun _ s => turn s /\ Q s).
Proof.
  intros St_ Hf s Hs. unfold store. rewrite bind_eq. destruct (others_keep turn P turn_by_client St_ s Hs) as [[T Em] Ps].
  destruct (others s) as [u s1]. cbn [fst snd modify] in *. destruct (Hf s1 (conj T Em) Ps) as (E1 & E2 & E3 & E4).
  split; [|done]. split; [|done]. destruct T. split; cbn; rewrite ?E1, ?E2, ?E3; try done; [by left|].
  intros Es. specialize (seen_made0 Es). rewrite Em in seen_made0. apply (f_equal length) in seen_made0.
  rewrite length_app in seen_made0. cbn in seen_made0. lia.
Qed.

Lemma write_pixels_triple info pre data :
  (length pre + length data <= N)%nat ->
  triple (fun s => turn s /\ writing info pre (length pre) s) (write_pixels (length pre) data)
    (fun _ s => turn s /\ writing info (pre ++ data) (length (pre ++ data)) s).
Proof.
  revert pre. induction data as [|b data IH]; intros pre Fit; cbn [write_pixels].
  { rewrite app_nil_r. by intros s Hs. }
  cbn in Fit. eapply triple_bind.
  - apply (store_turn _ (writing info (pre ++ [b]) (length (pre ++ [b])))); [done|].
    intros s [T Em] [E1 E2]. cbn. rewrite length_insert. split_and!; [apply T|done..|].
    split; [done|]. cbn. rewrite length_app, Nat.add_comm. cbn.
    assert (L : (length pre < length (pixels (shm s)))%nat) by (rewrite (size_kept s T); lia).
    rewrite (take_S_r _ _ b) by (by apply list_lookup_insert_eq). f_equal.
    rewrite take_insert_ge by lia. exact E2.
  - intros u. specialize (IH (pre ++ [b])). rewrite length_app in IH. cbn in IH. rewrite Nat.add_1_r in IH.
    replace (pre ++ b :: data) with ((pre ++ [b]) ++ data) by (by rewrite <-app_assoc).
    rewrite length_app. cbn. rewrite Nat.add_1_r. apply IH. lia.
Qed.

Definition next (i : Z) : Z := if i =? 2147483647 then 0 else i + 1.

(** The counter goes up by one: the second store of it never happens. *)
Lemma increase_triple P : still P ->
  triple (fun s => turn s /\ P s) increase_counter
    (fun _ s => exists s0, turn s0 /\ P s0 /\ s = set_shm (set_written (next (written (shm s0))) (shm s0)) s0).
Proof.
  intros St_. unfold increase_counter. eapply triple_bind; [apply (load_keeps turn P written); done|intros iw].
  assert (St2 : still (fun s => P s /\ iw = written (shm s))).
  { intros a b E1 E2 E3 E4 [E5 E6]. split; [exact (St_ _ _ E1 E2 E3 E4 E5)|by rewrite E2]. }
  eapply triple_bind with (Q := fun ir s => (turn s /\ P s /\ iw = written (shm s)) /\ ir = iw).
  - intros s [[T Ps] Ei].
    destruct (load_keeps turn _ written turn_by_client St2 s (conj T (conj Ps Ei))) as [[T' [P' Ei']] Eq].
    by rewrite Eq.
  - intros ir s [(T & Ps & Ei) ->]. rewrite bind_eq.
    assert (Nx : (iw =? (if iw =? 2147483647 then 0 else iw + 1)) = false)
      by (apply Z.eqb_neq; destruct (Z.eqb_spec iw 2147483647); lia).
    rewrite Nx. cbn [when]. unfold store. rewrite bind_eq.
    destruct (others_keep turn _ turn_by_client St2 s (conj T (conj Ps Ei))) as [T' [P' Ei']].
    eexists. split; [exact T'|]. split; [exact P'|]. cbn [modify snd]. by rewrite <-Ei'.
Qed.

(** The counter goes up, and the frame in the memory is announced. *)
Lemma announce_triple info data : fi_length info = zlen data ->
  triple (fun s => turn s /\ writing info data (length data) s)
    (increase_counter ;; local (fun v => set_made (made v ++ [(info, data)]) v) ;; local (set_first_frame_captured true) ;;
     local (set_dxgi_failed_times 0))
    (fun _ s => tidy s).
Proof.
  intros El. eapply triple_bind; [by apply increase_triple|].
  intros [] s (s0 & [T Em] & [W1 W2] & ->). rewrite !bind_eq. unfold local. cbn [modify fst snd].
  assert (Mem : in_memory (shm s0) = (info, data)).
  { unfold in_memory. rewrite W1, El. unfold zlen. by rewrite Nat2Z.id, W2. }
  destruct T. split; cbn; try done.
  - unfold next. rewrite count_made0, c31_next, zlen_app, Z.add_assoc. done.
  - right. rewrite Em. f_equal. by rewrite <-Mem.
  - intros Es. rewrite Em. f_equal. by rewrite <-Mem.
Qed.

Lemma local_turn P f : still P -> (forall v, made (f v) = made v) -> (forall v, first_frame_captured (f v) = first_frame_captured v) ->
  (forall s, P s -> P (set_wr (f (wr s)) s)) -> keeps (fun s => turn s /\ P s) (local f).
Proof.
  intros _ E1 E2 Pf s [[T Em] Ps]. cbn. split; [|by apply Pf]. split; cbn; rewrite ?E1; [|done].
  destruct T. by split; cbn; rewrite ?E1, ?E2.
Qed.

Lemma local_tidy f : (forall v, made (f v) = made v) -> (forall v, first_frame_captured (f v) = first_frame_captured v) ->
  keeps tidy (local f).
Proof. intros E1 E2 s T. destruct T. by split; cbn; rewrite ?E1, ?E2. Qed.

Lemma turn_tidy {A} (m : M St A) P Q : triple turn m Q -> (forall s, P s -> turn s) -> triple P m Q.
Proof. intros Hm Hp s Ps. by apply Hm, Hp. Qed.

Lemma put_frame_triple data : (length data <= N)%nat -> triple turn (put_frame data) (fun _ s => tidy s).
Proof.
  intros Fit. unfold put_frame. intros s T. rewrite bind_eq. cbn [gets fst snd].
  assert (El : fi_length (mkFrameInfo (zlen data) (fst (display_size (wr s))) (snd (display_size (wr s)))) = zlen data) by done.
  revert El. generalize (mkFrameInfo (zlen data) (fst (display_size (wr s))) (snd (display_size (wr s)))). intros info El.
  revert s T. enough (X : triple (fun s => turn s /\ True)
    (store (set_frame_info info) ;; write_pixels 0 data ;; store (set_wouldblock 1) ;; increase_counter ;;
     local (fun v => set_made (made v ++ [(info, data)]) v) ;; local (set_first_frame_captured true) ;;
     local (set_dxgi_failed_times 0)) (fun _ s => tidy s)) by (intros s T; exact (X s (conj T I))).
  eapply triple_bind with (Q := fun _ s => turn s /\ writing info [] 0 s).
  { apply store_turn; [done|]. intros s1 [T1 _] _. cbn. split_and!; [apply T1|done..|]. by split. }
  intros u. eapply triple_bind; [exact (write_pixels_triple info [] data Fit)|intros u1]. cbn [app].
  eapply triple_bind with (Q := fun _ s => turn s /\ writing info data (length data) s); [|intros u2; by apply announce_triple].
  apply store_turn; [done|]. intros s1 [T1 _] W. cbn. by split_and!; [apply T1|..].
Qed.

Lemma store_tidy f : (forall m, pixels (f m) = pixels m /\ frame_info (f m) = frame_info m /\ written (f m) = written m /\ read (f m) = read m) ->
  keeps tidy (store f).
Proof.
  intros Ef s T. unfold store. rewrite bind_eq.
  destruct (others_keep tidy _ tidy_by_client true_still s (conj T I)) as [T' _]. destruct (others s) as [u s1].
  cbn [fst snd modify] in *. destruct (Ef (shm s1)) as (E1 & E2 & E3 & E4). destruct T'.
  assert (Em : in_memory (f (shm s1)) = in_memory (shm s1)) by (unfold in_memory; by rewrite E1, E2).
  by split; cbn; rewrite ?Em, ?E1, ?E2, ?E3, ?E4.
Qed.

Lemma failed_tidy e : keeps tidy (capture_failed e).
Proof.
  unfold capture_failed. apply keeps_bind; [apply keeps_gets|intros o]. destruct (desktop_changed o); [by apply local_tidy|].
  destruct e; [by apply store_tidy|]. apply keeps_bind; [apply keeps_gets|intros gdi].
  apply keeps_bind; [apply keeps_if_when; intros _; by apply local_tidy|intros _].
  apply keeps_bind; [apply keeps_gets|intros fails]. apply keeps_if_when. intros _.
  apply keeps_bind; [by apply local_tidy|intros _]. by apply store_tidy.
Qed.

Lemma counter_equal_triple :
  triple tidy counter_equal (fun b s => tidy s /\ (b = true -> turn s)).
Proof.
  intros s T. unfold counter_equal. rewrite bind_eq.
  destruct (load_keeps tidy _ written tidy_by_client true_still s (conj T I)) as [[T1 _] E1].
  set (iw := fst (load written s)) in *. set (s1 := snd (load written s)) in *. rewrite bind_eq.
  assert (St2 : still (fun s => iw = written (shm s))) by (intros a b _ E2 _ _ E3; by rewrite E2).
  destruct (load_keeps tidy _ read tidy_by_client St2 s1 (conj T1 E1)) as [[T2 E2] E3]. rewrite E3. cbn.
  split; [exact T2|]. intros Eq%Z.eqb_eq. split; [exact T2|]. apply (pending_differs _ T2). rewrite <-E2. by symmetry.
Qed.

Lemma capture_part_tidy : keeps tidy capture_part.
Proof.
  unfold capture_part. intros s T. rewrite bind_eq. cbn [gets fst snd].
  assert (B : triple (fun s' => s' = s) (if first_frame_captured (wr s) then counter_equal else mret true)
                (fun b s => tidy s /\ (b = true -> turn s))).
  { intros s' ->. destruct (first_frame_captured (wr s)) eqn:Ef; [by apply counter_equal_triple|].
    cbn. split; [exact T|]. intros _. split; [exact T|]. by apply first_made. }
  revert s B T. intros s B T. rewrite bind_eq. destruct (B s eq_refl) as [T1 T2].
  set (s1 := snd _) in *. set (b := fst _) in *. rewrite bind_eq. cbn [gets fst snd].
  destruct b; [|exact T1]. destruct (cap_ (wr s1)) as [c|]; [|exact T1]. specialize (T2 eq_refl).
  rewrite bind_eq. cbn [gets fst snd]. destruct (capture _ c) as [r c'] eqn:Ec.
  rewrite bind_eq. assert (T3 : turn (snd (local (set_cap_ (Some c')) s1))).
  { by apply (local_turn (fun _ => True) (set_cap_ (Some c')) true_still); [..|split]. }
  rewrite bind_eq. destruct (others_keep turn _ turn_by_client true_still _ (conj T3 I)) as [T4 _].
  destruct r as [[data pw ph st|t ro]|e].
  - apply put_frame_triple; [|exact T4]. eapply fits. by rewrite Ec.
  - exact (proj1 T4).
  - exact (failed_tidy e _ (proj1 T4)).
Qed.

(** ** Capturers are only added *)

Definition at_least (n : nat) (s : St) : Prop := (n <= creations (wr s))%nat.

Lemma client_wr e s : wr (client_step e s) = wr s.
Proof.
  destruct e; cbn; unfold ask_timeout, look, read_info, read_pixels; repeat case_match; done.
Qed.

Lemma others_at_least n : keeps (at_least n) others.
Proof.
  intros s. unfold others, modify, at_least. cbn [fst snd]. destruct (todo s) as [|batch rest]; [done|]. cbn.
  enough (wr (foldl (fun s e => client_step e s) s batch) = wr s) as -> by done.
  revert s. induction batch as [|e batch IH]; intros s; [done|]. cbn. by rewrite IH, client_wr.
Qed.

Lemma local_at_least n f : (forall v, (creations v <= creations (f v))%nat) -> keeps (at_least n) (local f).
Proof. intros Ef s. unfold at_least. cbn. specialize (Ef (wr s)). lia. Qed.

Lemma modify_at_least n (f : St -> St) : (forall s, wr (f s) = wr s) -> keeps (at_least n) (modify f).
Proof. intros Ef s. unfold at_least. cbn. by rewrite Ef. Qed.

Lemma load_at_least {A} n (f : Shm -> A) : keeps (at_least n) (load f).
Proof. apply keeps_bind; [apply others_at_least|intros _; apply keeps_gets]. Qed.
Lemma store_at_least n f : keeps (at_least n) (store f).
Proof. apply keeps_bind; [apply others_at_least|intros _; by apply modify_at_least]. Qed.

Ltac more := repeat lazymatch goal with
  | |- keeps _ (_ ≫= _) => apply keeps_bind; [|intros ?]
  | |- keeps _ (mret _) => apply keeps_ret
  | |- keeps _ (gets _) => apply keeps_gets
  | |- keeps _ (when _ _) => apply keeps_if_when; intros _
  | |- keeps _ others => apply others_at_least
  | |- keeps _ (load _) => apply load_at_least
  | |- keeps _ (store _) => apply store_at_least
  | |- keeps _ (local _) => apply local_at_least; intros ?; cbn; lia
  | |- keeps _ (modify _) => by apply modify_at_least
  | |- keeps _ (match ?x with _ => _ end) => destruct x
  end.

Lemma capture_part_at_least n : keeps (at_least n) capture_part.
Proof.
  assert (Wp : forall at_ data, keeps (at_least n) (write_pixels at_ data)).
  { intros at_ data. revert at_. induction data as [|b data IH]; intros at_; cbn [write_pixels]; more. apply IH. }
  unfold capture_part, counter_equal, put_frame, increase_counter, capture_failed. more; apply Wp.
Qed.

Lemma create_at_least n current : keeps (at_least n) (create current).
Proof. unfold create. more; apply capture_part_at_least. Qed.

Lemma round_at_least n : keeps (at_least n) capture_round.
Proof. unfold capture_round. more; [apply capture_part_at_least|apply create_at_least]. Qed.

(** As long as there is one capturer. *)
Definition handing (s : St) : Prop :=
  at_least 2 s \/ (tidy s /\ (creations (wr s) = 0%nat -> cap_ (wr s) = None /\ made (wr s) = [])).

Lemma part_handing : triple (fun s => tidy s /\ at_least 1 s) capture_part (fun _ => handing).
Proof.
  intros s [T A]. right. split; [by apply capture_part_tidy|].
  pose proof (capture_part_at_least 1 s A) as A'. unfold at_least in A'. lia.
Qed.

Lemma tidy_ext s s' : shm s' = shm s -> cl s' = cl s -> todo s' = todo s -> made (wr s') = made (wr s) ->
  first_frame_captured (wr s') = first_frame_captured (wr s) -> tidy s -> tidy s'.
Proof. intros E1 E2 E3 E4 E5 []. by split; rewrite ?E1, ?E2, ?E3, ?E4, ?E5. Qed.

Definition same_writer (s s' : St) : Prop := tidy s' /\ wr s' = wr s.

Lemma handing_same s s' : handing s -> same_writer s s' -> handing s'.
Proof. intros [A|[_ F]] [T E1]; [left; unfold at_least in *; by rewrite E1|right; by rewrite E1]. Qed.

Lemma load_same {A} (f : Shm -> A) s0 : triple (same_writer s0) (load f) (fun _ => same_writer s0).
Proof.
  intros s [T E1]. assert (St_ : still (fun s' => wr s' = wr s0)) by (intros a b E2 _ _ _ E3; by rewrite E2).
  by destruct (load_keeps tidy _ f tidy_by_client St_ s (conj T E1)) as [[T' E'] _].
Qed.

Lemma keeps_both {A} P Q (m : M St A) : keeps P m -> keeps Q m -> keeps (fun s => P s /\ Q s) m.
Proof. intros Kp Kq s [Ps Qs]. split; [by apply Kp|by apply Kq]. Qed.

Lemma load_tidy {A} (f : Shm -> A) : keeps tidy (load f).
Proof. intros s T. by destruct (load_keeps tidy _ f tidy_by_client true_still s (conj T I)) as [[T' _] _]. Qed.

(** The rest of [create], once there is a capturer. *)
Lemma created_handing current gdi v :
  triple (fun s => tidy s /\ handing s)
    (local (set_last_current_display current) ;;
     local (set_first_frame_captured false) ;;
     local (fun v => set_creations (Datatypes.S (creations v)) v) ;;
     when gdi (local (set_dxgi_failed_times 0)) ;;
     display ← load (fun m => current_display (para m));
     ms ← load (fun m => timeout_ms (para m));
     store (set_para (mkPara false display ms)) ;;
     local (set_cap_ (Some v)) ;;
     capture_part) (fun _ => handing).
Proof.
  intros s [T Hd]. destruct (decide (creations (wr s) = 0%nat)) as [Z0|NZ].
  - assert (Mt : made (wr s) = shown (cl s)).
    { destruct Hd as [A|[_ F]]; [unfold at_least in A; lia|]. destruct (F Z0) as [_ M0].
      destruct (shown_made s T) as [E1|E1]; [done|]. rewrite M0 in E1. by destruct (shown (cl s)). }
    do 3 rewrite bind_eq.
    match goal with |- handing (snd (?m ?s2)) => enough (X : triple (fun s => tidy s /\ at_least 1 s) m (fun _ => handing)) end.
    + apply X. split; [|unfold at_least; cbn; lia]. destruct T. by split.
    + apply triple_bind with (Q := fun _ s => tidy s /\ at_least 1 s).
      { apply keeps_both; [apply keeps_if_when; intros _; by apply local_tidy|more]. }
      intros ?. apply triple_bind with (Q := fun _ s => tidy s /\ at_least 1 s); [apply keeps_both; [apply load_tidy|more]|].
      intros ?. apply triple_bind with (Q := fun _ s => tidy s /\ at_least 1 s); [apply keeps_both; [apply load_tidy|more]|].
      intros ?. apply triple_bind with (Q := fun _ s => tidy s /\ at_least 1 s); [apply keeps_both; [by apply store_tidy|more]|].
      intros ?. apply triple_bind with (Q := fun _ s => tidy s /\ at_least 1 s); [apply keeps_both; [by apply local_tidy|more]|].
      intros ?. apply part_handing.
  - left. do 3 rewrite bind_eq.
    match goal with |- at_least 2 (snd (?m ?s2)) => enough (X : keeps (at_least 2) m) end.
    + apply X. unfold at_least. cbn. lia.
    + more. apply capture_part_at_least.
Qed.

Lemma create_handing current s : tidy s -> handing s -> handing (snd (create current s)).
Proof.
  intros T Hd. unfold create. rewrite bind_eq. cbn [gets fst snd].
  destruct (try_get_displays (os_ s)) as [all o]. rewrite bind_eq. cbn [modify fst snd].
  assert (Sm : forall x, same_writer s (set_exit x (set_os_ o s)) /\ same_writer s (set_os_ o s)).
  { intros x. split; split; try done; by apply (tidy_ext s). }
  destruct all as [all|]; [|eapply handing_same; [exact Hd|apply Sm]].
  destruct (all !! _) as [d|]; [|eapply handing_same; [exact Hd|apply Sm]].
  rewrite bind_eq. cbn [local modify fst snd].
  assert (X : tidy (set_wr (set_display_size (width d, height d) (wr s)) (set_os_ o s)) /\
              handing (set_wr (set_display_size (width d, height d) (wr s)) (set_os_ o s))).
  { split; [by apply (tidy_ext s)|]. destruct Hd as [A|[_ F]]; [by left|right]. split; [by apply (tidy_ext s)|done]. }
  destruct (capturer_new d o) as [v|]; [|apply X]. rewrite bind_eq. cbn [gets fst snd].
  exact (created_handing current _ _ _ X).
Qed.

Lemma round_handing : keeps handing capture_round.
Proof.
  intros s [A|[T F]]; [left; by apply round_at_least|].
  assert (Hd : handing s) by (by right). unfold capture_round.
  rewrite bind_eq. set (s1 := snd (load _ s)). set (again := fst _).
  assert (S1 : same_writer s s1) by (apply (load_same _ s); by split).
  rewrite bind_eq. set (s2 := snd (load _ s1)). set (current := fst _).
  assert (S2 : same_writer s s2) by (by apply (load_same _ s)).
  rewrite bind_eq. set (s3 := snd (load _ s2)). set (ms := fst _).
  assert (S3 : same_writer s s3) by (by apply (load_same _ s)).
  pose proof (handing_same _ _ Hd S3) as H3. destruct S3 as [T3 E3]. clearbody s3 ms again current. clear s1 s2 S1 S2.
  rewrite bind_eq. cbn [gets fst snd]. destruct (cap_ (wr s3)) as [c|] eqn:Ec; [|by apply create_handing].
  assert (C1 : at_least 1 s3).
  { unfold at_least. destruct (creations (wr s3)) eqn:E0; [|lia]. rewrite E3 in Ec, E0. destruct (F E0) as [F0 _]. congruence. }
  rewrite bind_eq. cbn [gets fst snd]. destruct (again || _).
  - right. split; [by apply local_tidy|]. unfold at_least in C1. cbn. lia.
  - match goal with |- handing (snd (?m s3)) => enough (X : triple (fun s => tidy s /\ at_least 1 s) m (fun _ => handing)) end.
    + by apply X.
    + apply triple_bind with (Q := fun _ s => tidy s /\ at_least 1 s); [|intros u; apply part_handing].
      apply keeps_both; [apply keeps_if_when; intros _; by apply local_tidy|more].
Qed.

Lemma run_handing n : keeps handing (run_capture n).
Proof.
  induction n as [|n IH]; cbn [run_capture]; [apply keeps_ret|].
  apply keeps_bind; [apply keeps_gets|intros []]; [apply keeps_ret|].
  apply keeps_bind; [apply round_handing|intros _; apply IH].
Qed.
End hand_over.

(** The service's thread when it begins. *)
(* src/src/server/portable_service.rs:303-311 server::run_capture *)
Definition new_writer : Writer := mkWriter None 18446744073709551615 33 false 0 (0, 0) 0 [].

(** C27. Frames are handed over one by one: from the start of the service until it makes another
    capturer, whatever the two processes do between the accesses of each other, the frames
    that the client says it has seen are those that were captured, whole, each once and in
    their order; one at most has not been seen yet.  What is seen is what the memory holds when
    the client says so; it reads the memory once more, later (see [torn_frame]). *)
Theorem frames_handed_over (n : nat) (s : St) :
  (forall ms c d pw ph st, fst (capture ms c) = Ok (PixelBuffer d pw ph st) -> (length d <= length (pixels (shm s)))%nat) ->
  wr s = new_writer -> state (cl s) = Idle -> shown (cl s) = [] ->
  read (shm s) = written (shm s) -> 0 <= written (shm s) < 2 ^ 31 ->
  Forall (fun e => ~ is_new e) (concat (todo s)) ->
  let s' := snd (run_capture n s) in
  (creations (wr s') <= 1)%nat ->
  shown (cl s') `prefix_of` made (wr s') /\ (length (made (wr s')) <= 1 + length (shown (cl s')))%nat.
Proof.
  intros Fit W Id Sh Er Ew Nn s' C1.
  assert (Hd : handing (written (shm s)) (length (pixels (shm s))) s).
  { right. rewrite W. split; [|done]. split; rewrite ?W, ?Id, ?Sh; cbn; try done; [| |by left];
      unfold c31; rewrite ?Er, Z.add_0_r, Z.mod_small by done; done. }
  pose proof (run_handing _ _ Fit n s Hd) as Hd'. fold s' in Hd'.
  destruct Hd' as [A|[T _]]; [unfold at_least in A; lia|].
  destruct (shown_made _ _ _ T) as [->| ->]; [split; [done|lia]|].
  split; [by apply prefix_app_r|]. rewrite length_app. cbn. lia.
Qed.
End portable.

(** The memory is large enough for a frame of every resolution of the displays, with rows of up
    to the next multiple of 64 pixels. *)
Lemma frames_fit resolutions pw ph stride :
  (pw, ph) ∈ resolutions -> 0 <= pw -> 0 <= ph -> 0 <= stride <= align pw 64 * 4 ->
  ADDR_CAPTURE_FRAME + stride * ph <= shmem_size resolutions.
Proof.
  intros I0 Pw Ph St_. unfold shmem_size.
  assert (Al : forall v, v <= align v 64).
  { intros v. unfold align. pose proof (Z.div_mod (v + 64 - 1) 64 ltac:(done)).
    pose proof (Z.mod_pos_bound (v + 64 - 1) 64 ltac:(done)). lia. }
  set (f := fun m r => _). assert (Mo : forall l m, m <= foldl f m l).
  { induction l as [|r l IH]; intros m; cbn; [done|]. etrans; [|apply IH]. unfold f.
    destruct (Z.ltb_spec m (align (fst r) 64 * align (snd r) 64)); lia. }
  assert (Mx : forall l m, (pw, ph) ∈ l -> align pw 64 * align ph 64 <= foldl f m l).
  { induction l as [|r l IH]; intros m; [by intros ?%elem_of_nil|]. intros [<-|I1]%elem_of_cons; cbn; [|by apply IH].
    etrans; [|apply Mo]. unfold f. cbn. destruct (Z.ltb_spec m (align pw 64 * align ph 64)); lia. }
  specialize (Mx resolutions 0 I0). etrans; [|apply Al].
  pose proof (Al pw). pose proof (Al ph). nia.
Qed.

(** Without an answer the pipe is given up, and the service not thought to run, at the fourth
    second. *)
Lemma silent_service_given_up quick_support remotes running nack :
  0 <= nack <= MAX_NACK ->
  fst (client_run quick_support remotes (replicate 4 EverySecond) nack running) = (None, false).
Proof.
  unfold MAX_NACK. intros Hn. cbn [replicate client_run client_pipe]. unfold MAX_NACK.
  destruct (Z.ltb_spec 3 (nack + 1)) as [|H1]; [done|]. destruct (Z.ltb_spec 3 (nack + 1 + 1)) as [|H2]; [done|].
  destruct (Z.ltb_spec 3 (nack + 1 + 1 + 1)) as [|H3]; [done|]. destruct (Z.ltb_spec 3 (nack + 1 + 1 + 1 + 1)) as [|H4]; [done|lia].
Qed.

(** ** Two processes *)

Definition screens_two (d : Z) : Display := mkScreen (0, 0) 2 1 (pretty.pretty d) true (d =? 0).

#[local] Instance two_screens : Screens unit := {|
  all_displays _ := Ok [screens_two 0; screens_two 1]; supported_resolutions _ _ := [(2, 1)];
  change_resolution _ _ _ s := (Ok tt, s); plug_in_headless s := (Ok tt, s);
  screens_installed := false; virtual_display_supported := false; amyuni_idd := false;
  is_virtual_display _ := false; platform_additions _ := "{}"%string;
|}.

#[local] Instance two_system : VideoSystem unit (list bytes) := {|
  is_process_consent_running _ := Ok false; desktop_changed _ := false;
  mag_capturer _ _ := Err "no magnifier"%string; capturer_portable _ := [];
  capturer_new _ _ := Ok [[Byte.x01; Byte.x01]; [Byte.x02; Byte.x02]];
  cameras _ := []; camera_resolution _ _ := None; camera_capturer _ _ := Err "no camera"%string;
  lower x := x; option_value _ _ := false; decodings_in_order := map_to_list;
  to_rgba data _ := Ok data; encode_png _ _ data := Ok data;
|}.

(** Pictures that come one after the other. *)
#[local] Instance pictures : TraitCapturer (list bytes) := {|
  capture _ c := match c with p :: c => (Ok (PixelBuffer (take 4 p) 2 1 [2]), c) | [] => (Err WouldBlock, []) end;
  is_gdi _ := true; set_gdi c := c; adapter _ := 0; set_output_texture _ c := c;
|}.

Definition begin (events : list (list client_event)) : St (S := unit) (C := list bytes) :=
  mkSt (mkShm (mkPara true 0 33) (mkFrameInfo 0 0 0) 1 0 0 (replicate 4 Byte.x00) 0 0 0) false tt new_writer
    (mkClient (2, 1) Idle [] []) events.

Definition nothing (n : nat) : list (list client_event) := replicate n [].

(** The client reads what it has acknowledged, and the service writes the next frame over it. *)
Lemma torn_frame :
  state (cl (snd (run_capture 2
    (begin (nothing 14 ++ [[Look; Acknowledge; ReadInfo; ReadPixels 1]] ++ nothing 8 ++ [[ReadPixels 1]]))))) =
  Reading 2 [Byte.x01; Byte.x02].
Proof. vm_compute. reflexivity. Qed.

(** The client asks for the other display while the service writes back what it was to do: the
    service goes on with the first. *)
Lemma request_lost :
  let s := snd (run_capture 3 (begin (nothing 5 ++ [[NewCapturer 1 2 1]]))) in
  para (shm s) = mkPara false 0 33 /\ last_current_display (wr s) = 0 /\ creations (wr s) = 1%nat.
Proof. vm_compute. done. Qed.

Lemma frames_handed_over_witness :
  let s' := snd (run_capture 3 (begin (nothing 14 ++ [[Look; Acknowledge; ReadInfo; ReadPixels 2]]))) in
  shown (cl s') = [(mkFrameInfo 2 2 1, [Byte.x01; Byte.x01])] /\ length (made (wr s')) = 2%nat /\
  shown (cl s') `prefix_of` made (wr s').
Proof.
  set (s := begin _).
  assert (R : let s' := snd (run_capture 3 s) in
    shown (cl s') = [(mkFrameInfo 2 2 1, [Byte.x01; Byte.x01])] /\ length (made (wr s')) = 2%nat /\ creations (wr s') = 1%nat)
    by (vm_compute; done).
  destruct R as (R1 & R2 & R3). split_and!; [exact R1|exact R2|].
  refine (proj1 (frames_handed_over 3 s _ eq_refl eq_refl eq_refl eq_refl _ _ _)).
  - intros ms c d pw ph st. destruct c as [|p c]; cbn; [discriminate|]. intros [= <- _ _ _]. rewrite length_take. lia.
  - cbn. lia.
  - repeat constructor; intros [].
  - rewrite R3. lia.
Defined.
