(* ===== verification/Playback.v ===== *)
(** * Sound at the controlling side

    [AudioHandler] and its [AudioBuffer] of [src/src/client.rs], in a build for Windows with
    [use_dasp]: what arrives is decoded, brought to the rate and the channels of the device,
    and kept in a ring of three seconds, from which the device takes it in a thread of its
    own.  The decoder, the device, the ring and the conversions are libraries; [S] is the
    type of a sample. *)

From S2P Require Import Prelude.
#[local] Open Scope Z_scope.

(** ** The libraries *)

(** [ringbuf::HeapRb]: [items] is what a ring holds, the oldest first. *)
Class HeapRb (S R : Type) := {
  rb_new : Z -> R;
  rb_capacity : R -> Z;
  occupied_len : R -> Z;
  rb_skip : Z -> R -> R;
  push_slice_overwrite : list S -> R -> R;
  pop_slice : Z -> R -> list S * R;
  items : R -> list S;
  items_new : forall c, 0 < c -> items (rb_new c) = [] /\ rb_capacity (rb_new c) = c;
  occupied_items : forall r, occupied_len r = zlen (items r);
  skip_items : forall n r, items (rb_skip n r) = drop (Z.to_nat n) (items r);
  push_items : forall l r,
    items (push_slice_overwrite l r) =
    drop (Z.to_nat (zlen (items r ++ l) - rb_capacity r)) (items r ++ l);
  pop_items : forall n r,
    fst (pop_slice n r) = take (Z.to_nat n) (items r) /\
    items (snd (pop_slice n r)) = drop (Z.to_nat n) (items r);
  capacity_kept : forall n l r,
    rb_capacity (rb_skip n r) = rb_capacity r /\
    rb_capacity (push_slice_overwrite l r) = rb_capacity r /\
    rb_capacity (snd (pop_slice n r)) = rb_capacity r;
}.

(** [magnum_opus::Decoder]: the number of samples of each channel, and the buffer. *)
Class OpusDecoder (S D : Type) := {
  new_decoder : Z -> bool -> result string D;
  decode_float : bytes -> list S -> D -> result string Z * list S * D;
}.

(** [dasp]'s signals after [from_hz_to_hz], which do not end, and [fon]'s conversion of
    frames to other channels at the same or another rate. *)
Class Conversions (S : Type) := {
  stereo_signal : list S -> Z -> Z -> nat -> S * S;
  mono_signal : list S -> Z -> Z -> nat -> S;
  with_audio : Z -> Z -> Z -> Z -> list (list S) -> list S;
}.

(** ** Rates and channels *)

Section conversion.
Context {S : Type} `{Conversions S}.

(** [chunks_exact]. *)
Fixpoint chunks_exact (fuel : nat) (n : nat) (l : list S) : list (list S) :=
  match fuel with
  | O => []
  | Datatypes.S fuel =>
      if (length l <? n)%nat then [] else take n l :: chunks_exact fuel n (drop n l)
  end.

(** [None]: a division by zero. *)
(* src/src/common.rs:318-351 audio_resample *)
Definition audio_resample (data : list S) (sample_rate0 sample_rate channels : Z) : option (list S) :=
  if (channels =? 0) || (sample_rate0 =? 0) then None
  else
    let n := zlen data / channels in
    let n := Z.to_nat (usize (n * sample_rate) / sample_rate0) in
    Some (if channels =? 2
          then concat ((fun x => [fst x; snd x]) <$>
                 (stereo_signal data sample_rate0 sample_rate <$> seq 0 n))
          else mono_signal data sample_rate0 sample_rate <$> seq 0 n).

(** One of the functions that the macro makes. *)
(* src/src/common.rs:444-464 audio_rechannel *)
Definition audio_rechannel_ (in_channels out_channels : Z) (input : list S) (in_hz out_hz : Z) : list S :=
  with_audio in_channels out_channels in_hz out_hz
    (chunks_exact (length input) (Z.to_nat in_channels) input).

(* src/src/common.rs:371-442 audio_rechannel *)
Definition audio_rechannel (input : list S) (in_hz out_hz in_chan output_chan : Z) : option (list S) :=
  if in_chan =? output_chan then Some input
  else if in_chan =? 0 then None
  else
    let input := take (Z.to_nat (zlen input / in_chan * in_chan)) input in
    Some (if (1 <=? in_chan) && (in_chan <=? 8) && (1 <=? output_chan) && (output_chan <=? 8)
          then audio_rechannel_ in_chan output_chan input in_hz out_hz
          else input).
End conversion.

(** ** The buffer *)

(* src/src/client.rs:130-130 AUDIO_BUFFER_MS *)
Definition AUDIO_BUFFER_MS : Z := 3000.

Section buffer.
Context {S R : Type} `{Rb : HeapRb S R}.

(** The ring, the samples of a second, and how often it held how many tenths of a second. *)
(* src/src/client.rs:1193-1197 AudioBuffer *)
Record AudioBuffer : Type := mkBuffer {
  ring : R;
  per_second : Z;
  marks : list Z;
}.

(* src/src/client.rs:1200-1210 AudioBuffer::default *)
Definition default_buffer : AudioBuffer :=
  mkBuffer (rb_new (48000 * 2 * AUDIO_BUFFER_MS / 1000)) (48000 * 2) (replicate 30 0).

Definition set_ring (r : R) (b : AudioBuffer) : AudioBuffer := mkBuffer r (per_second b) (marks b).
Definition set_marks (m : list Z) (b : AudioBuffer) : AudioBuffer := mkBuffer (ring b) (per_second b) m.

(* src/src/client.rs:1214-1222 AudioBuffer::resize *)
Definition resize (sample_rate channels : Z) (b : AudioBuffer) : AudioBuffer :=
  let capacity := usize (sample_rate * channels * AUDIO_BUFFER_MS) / 1000 in
  if capacity =? rb_capacity (ring b) then b
  else mkBuffer (rb_new capacity) (usize (sample_rate * channels)) (marks b).

Definition mark (m : list Z) (i : nat) : Z := default 0 (m !! i).

(** One step of the scan: the marks, the number of empty ones at the beginning, and the
    most frequent so far; those that are behind are cleared. *)
(* src/src/client.rs:1250-1261 AudioBuffer::try_shrink *)
Definition scan_mark (s : list Z * Z * Z) (i : Z) : list Z * Z * Z :=
  let '(m, zero, max) := s in
  let at_ j := mark m (Z.to_nat j) in
  let zero := if (at_ i =? 0) && (zero =? i) then zero + 1 else zero in
  if at_ max <? at_ i then (<[Z.to_nat max := 0]> m, zero, i)
  else (<[Z.to_nat i := 0]> m, zero, max).

(* src/src/client.rs:1267-1273 AudioBuffer::try_shrink *)
Definition N : Z := 4.

(** [tms] is static: all buffers of the program have one.  [None]: a division by zero. *)
(* src/src/client.rs:1224-1283 AudioBuffer::try_shrink *)
Definition try_shrink (having dt tms : Z) (b : AudioBuffer) : option (Z * AudioBuffer) :=
  if per_second b =? 0 then None
  else
    let i := usize (having * 10) / per_second b in
    let i := if 29 <? i then 29 else i in
    let m := <[Z.to_nat i := usize (mark (marks b) (Z.to_nat i) + 1)]> (marks b) in
    if tms =? 0 then Some (dt, set_marks m b)
    else if dt <? i64 (tms + 12000) then Some (tms, set_marks m b)
    else
      let '(m, zero, max) := foldl scan_mark (m, 0, 0) (Z.of_nat <$> seq 0 30) in
      let zero := zero * 2 / 3 in
      let b := set_marks (<[Z.to_nat max := 0]> m) b in
      if max <? 6 then Some (dt, b)
      else
        let max := if zero * N <? max then zero * N else max in
        let cap := rb_capacity (ring b) in
        let having := occupied_len (ring b) in
        let skip := Z.land (usize (cap * max) / (30 * N) + 1) (Z.lnot 1) in
        Some (dt, if (skip * 3 <? having) && (0 <? skip) then set_ring (rb_skip skip (ring b)) b else b).

(* src/src/client.rs:1289-1303 AudioBuffer::append_pcm2 *)
Definition append_pcm2 (buffer : list S) (b : AudioBuffer) : Z * AudioBuffer :=
  let cap := rb_capacity (ring b) in
  if cap <? zlen buffer then (cap, set_ring (push_slice_overwrite buffer (ring b)) b)
  else
    let having := occupied_len (ring b) + zlen buffer in
    let r := if cap <? having then rb_skip (having - cap) (ring b) else ring b in
    let r := push_slice_overwrite buffer r in
    (occupied_len r, set_ring r b).

(* src/src/client.rs:1308-1311 AudioBuffer::append_pcm *)
Definition append_pcm (buffer : list S) (dt tms : Z) (b : AudioBuffer) : option (Z * AudioBuffer) :=
  let '(having, b) := append_pcm2 buffer b in
  try_shrink having dt tms b.

(** The device's thread wants [len] samples.  It may wait a little for more, without the
    lock of the ring, and goes on with [fill]. *)
(* src/src/client.rs:1503-1519 AudioHandler::build_output_stream *)
Definition fill (zero : S) (len : Z) (b : AudioBuffer) : list S * AudioBuffer :=
  let having := occupied_len (ring b) in
  let n := if having <? len then having else len in
  let '(elems, r) := if 0 <? n then pop_slice n (ring b) else ([], ring b) in
  (elems ++ replicate (Z.to_nat (len - n)) zero, set_ring r b).

(** [None]: it waits.  [how_long]: from now to when it will be heard, in nanoseconds. *)
(* src/src/client.rs:1468-1500 AudioHandler::build_output_stream *)
Definition output_callback (zero : S) (len how_long : Z) (b : AudioBuffer) : option (list S * AudioBuffer) :=
  if (occupied_len (ring b) <? len) && (6000000 <? how_long) && (how_long <? 3000000000) then None
  else Some (fill zero len b).
End buffer.
Arguments AudioBuffer : clear implicits.

(** ** The handler *)

(** A device for output: its configuration, whether the format of its samples is known, and
    for which configurations a stream can be made and started. *)
Record Device : Type := mkDevice {
  default_output_config : result string (Z * Z);
  format_known : bool;
  build_stream : Z * Z -> result string unit;
}.

Record AudioFormat : Type := mkFormat { format_rate : Z; format_channels : Z }.

Section handler.
Context {S R D : Type} `{Rb : HeapRb S R} `{Op : OpusDecoder S D} `{Cv : Conversions S}.
Variable zero : S.

(* src/src/client.rs:1176-1190 AudioHandler *)
Record AudioHandler : Type := mkHandler {
  audio_decoder : option (D * list S);
  audio_buffer : AudioBuffer R;
  sample_rate : Z * Z;
  audio_stream : option (Z * Z);
  channels : Z;
  device_channel : Z;
  ready : bool;
}.

Definition default_handler : AudioHandler := mkHandler None default_buffer (0, 0) None 0 0 false.

Definition set_decoder (d : option (D * list S)) (h : AudioHandler) : AudioHandler :=
  mkHandler d (audio_buffer h) (sample_rate h) (audio_stream h) (channels h) (device_channel h) (ready h).
Definition set_buffer (b : AudioBuffer R) (h : AudioHandler) : AudioHandler :=
  mkHandler (audio_decoder h) b (sample_rate h) (audio_stream h) (channels h) (device_channel h) (ready h).
Definition set_rates (r : Z * Z) (h : AudioHandler) : AudioHandler :=
  mkHandler (audio_decoder h) (audio_buffer h) r (audio_stream h) (channels h) (device_channel h) (ready h).
Definition set_stream (s : option (Z * Z)) (h : AudioHandler) : AudioHandler :=
  mkHandler (audio_decoder h) (audio_buffer h) (sample_rate h) s (channels h) (device_channel h) (ready h).
Definition set_channels (c : Z) (h : AudioHandler) : AudioHandler :=
  mkHandler (audio_decoder h) (audio_buffer h) (sample_rate h) (audio_stream h) c (device_channel h) (ready h).
Definition set_device_channel (c : Z) (h : AudioHandler) : AudioHandler :=
  mkHandler (audio_decoder h) (audio_buffer h) (sample_rate h) (audio_stream h) (channels h) c (ready h).
Definition set_ready (h : AudioHandler) : AudioHandler :=
  mkHandler (audio_decoder h) (audio_buffer h) (sample_rate h) (audio_stream h) (channels h) (device_channel h) true.

(** What it has changed before it fails stays changed. *)
(* src/src/client.rs:1460-1533 AudioHandler::build_output_stream *)
Definition build_output_stream (config : Z * Z) (device : Device) (h : AudioHandler)
    : result string unit * AudioHandler :=
  let h := set_device_channel (snd config) h in
  let h := set_buffer (resize (fst config) (snd config) (audio_buffer h)) h in
  match build_stream device config with
  | Ok _ => (Ok tt, set_stream (Some config) h)
  | Err e => (Err e, h)
  end.

(* src/src/client.rs:1346-1391 AudioHandler::start_audio *)
Definition start_audio (format0 : AudioFormat) (default_output : option Device) (h : AudioHandler)
    : result string unit * AudioHandler :=
  match default_output with
  | None => (Err "Failed to get default output device"%string, h)
  | Some device =>
      match default_output_config device with
      | Err e => (Err e, h)
      | Ok config =>
          let h := set_rates (format_rate format0, fst config) h in
          if negb (format_known device) then (Err "unsupported audio format"%string, h)
          else if u16 (format_channels format0) <? snd config then
            match build_output_stream (fst config, u16 (format_channels format0)) device h with
            | (Err _, h) => build_output_stream config device h
            | (Ok _, h) => (Ok tt, h)
            end
          else build_output_stream config device h
      end
  end.

(* src/src/client.rs:1394-1407 AudioHandler::handle_format *)
Definition handle_format (f : AudioFormat) (default_output : option Device) (h : AudioHandler) : AudioHandler :=
  match new_decoder (format_rate f) (1 <? format_channels f) with
  | Ok d =>
      let buffer := replicate (Z.to_nat (usize (format_rate f * format_channels f))) zero in
      let h := set_channels (u16 (format_channels f)) (set_decoder (Some (d, buffer)) h) in
      snd (start_audio f default_output h)
  | Err _ => h
  end.

(** What is appended to the buffer for [n] samples of each channel; [None]: a panic. *)
(* src/src/client.rs:1425-1448 AudioHandler::handle_frame *)
Definition pcm_of (n : Z) (buffer : list S) (h : AudioHandler) : option (list S) :=
  let n := n * channels h in
  if zlen buffer <? n then None
  else
    let '(sample_rate0, sample_rate) := sample_rate h in
    let buffer := take (Z.to_nat n) buffer in
    buffer ← (if negb (sample_rate =? sample_rate0)
              then audio_resample buffer sample_rate0 sample_rate (channels h) else Some buffer);
    if negb (channels h =? device_channel h)
    then audio_rechannel buffer sample_rate sample_rate (channels h) (device_channel h)
    else Some buffer.

(* src/src/client.rs:1411-1458 AudioHandler::handle_frame *)
Definition handle_frame (frame : bytes) (dt tms : Z) (h : AudioHandler) : option (Z * AudioHandler) :=
  if bool_decide (audio_stream h = None) || negb (ready h) then Some (tms, h)
  else
    match audio_decoder h with
    | None => Some (tms, h)
    | Some (d, buffer) =>
        match decode_float frame buffer d with
        | (Err _, buffer, d) => Some (tms, set_decoder (Some (d, buffer)) h)
        | (Ok n, buffer, d) =>
            let h := set_decoder (Some (d, buffer)) h in
            pcm ← pcm_of n buffer h;
            '(tms, b) ← append_pcm pcm dt tms (audio_buffer h);
            Some (tms, set_buffer b h)
        end
    end.

(** The audio thread and those of its streams: the handler, the static of [try_shrink], and
    the calls of the device that wait. *)
Record Player : Type := mkPlayer {
  handler : AudioHandler;
  tms : Z;
  waiting : list Z;
}.

Inductive audio_event : Type :=
| GotFormat (f : AudioFormat) (default_output : option Device)
| GotFrame (frame : bytes) (dt : Z)
| DeviceAsks (len how_long : Z)
| DeviceWakes (call : nat).

(** What the device is given, where it is given something.  [None]: a panic. *)
(* src/src/client.rs:2948-2971 start_audio_thread *)
Definition audio_step (ev : audio_event) (p : Player) : option (option (list S) * Player) :=
  match ev with
  | GotFormat f dev => Some (None, mkPlayer (handle_format f dev (handler p)) (tms p) (waiting p))
  | GotFrame frame dt =>
      '(t, h) ← handle_frame frame dt (tms p) (handler p);
      Some (None, mkPlayer h t (waiting p))
  | DeviceAsks len how_long =>
      let h := set_ready (handler p) in
      match output_callback zero len how_long (audio_buffer h) with
      | None => Some (None, mkPlayer h (tms p) (waiting p ++ [len]))
      | Some (out, b) => Some (Some out, mkPlayer (set_buffer b h) (tms p) (waiting p))
      end
  | DeviceWakes call =>
      match waiting p !! call with
      | None => Some (None, p)
      | Some len =>
          let '(out, b) := fill zero len (audio_buffer (handler p)) in
          Some (Some out, mkPlayer (set_buffer b (handler p)) (tms p) (delete call (waiting p)))
      end
  end.

Fixpoint audio_run (evs : list audio_event) (p : Player) : option (list (list S) * Player) :=
  match evs with
  | [] => Some ([], p)
  | ev :: evs =>
      '(out, p) ← audio_step ev p;
      '(outs, p) ← audio_run evs p;
      Some (option_list out ++ outs, p)
  end.
End handler.
Arguments AudioHandler : clear implicits.
Arguments Player : clear implicits.

(** ** Samples and their channels *)

Section interleaved.
Context {S : Type} (chan : S -> Z).

(** Whole frames of [c] samples, the one of channel 0 first. *)
Definition interleaved (c : Z) (l : list S) : Prop :=
  (c | zlen l) /\ forall j x, l !! j = Some x -> chan x = Z.of_nat j mod c.

Lemma interleaved_nil c : interleaved c [].
Proof. split; [exists 0; done|intros j x; by rewrite lookup_nil]. Qed.

Lemma interleaved_app c l k : 0 < c -> interleaved c l -> interleaved c k -> interleaved c (l ++ k).
Proof.
  intros C [D1 L1] [D2 L2]. split; [rewrite zlen_app; by apply Z.divide_add_r|].
  intros j x [E|[G E]]%lookup_app_Some; [by apply L1|].
  rewrite (L2 _ _ E). destruct D1 as [q Q]. unfold zlen in Q.
  replace (Z.of_nat j) with (Z.of_nat (j - length l) + q * c) by lia. by rewrite Z.mod_add by lia.
Qed.

Lemma interleaved_drop c n l : 0 < c -> (c | n) -> interleaved c l -> interleaved c (drop (Z.to_nat n) l).
Proof.
  intros C [q Q] [[p P] L]. unfold zlen in *. split.
  - unfold zlen. rewrite length_drop. destruct (Z.le_gt_cases n 0).
    { exists p. lia. }
    destruct (Z.le_gt_cases (Z.of_nat (length l)) n); [exists 0; lia|exists (p - q); lia].
  - intros j x. rewrite lookup_drop. intros E. rewrite (L _ _ E).
    destruct (Z.le_gt_cases n 0); [by replace (Z.to_nat n + j)%nat with j by lia|].
    replace (Z.of_nat (Z.to_nat n + j)) with (Z.of_nat j + q * c) by lia. by rewrite Z.mod_add by lia.
Qed.

Lemma interleaved_take c n l : 0 < c -> (c | n) -> interleaved c l -> interleaved c (take (Z.to_nat n) l).
Proof.
  intros C [q Q] [[p P] L]. unfold zlen in *. split.
  - unfold zlen. rewrite length_take. destruct (Z.le_gt_cases n 0); [exists 0; lia|].
    destruct (Z.le_gt_cases (Z.of_nat (length l)) n); [exists p; lia|exists q; lia].
  - intros j x [E _]%lookup_take_Some. by apply L.
Qed.

Lemma interleaved_pairs (l : list (S * S)) :
  (forall p, p ∈ l -> chan (fst p) = 0 /\ chan (snd p) = 1) ->
  interleaved 2 (concat ((fun x => [fst x; snd x]) <$> l)).
Proof.
  induction l as [|p l IH]; intros P; [apply interleaved_nil|]. cbn.
  change (interleaved 2 ([fst p; snd p] ++ concat ((fun x => [fst x; snd x]) <$> l))).
  apply interleaved_app; [done| |apply IH; intros q Q; apply P; by right].
  split; [by exists 1|]. intros [|[|j]] x; cbn; [intros [= <-]; apply P; by left..|done].
Qed.

Lemma interleaved_mono (l : list S) : Forall (fun x => chan x = 0) l -> interleaved 1 l.
Proof.
  intros P. split; [exists (zlen l); lia|]. intros j x E.
  rewrite Z.mod_1_r. by apply (Forall_lookup_1 _ _ _ _ P E).
Qed.
End interleaved.

(** What the libraries promise of the channels: a decoder's samples are interleaved for one
    or two channels, as it was made, and so is what the conversions give. *)
Class Channels (S D : Type) `{OpusDecoder S D, Conversions S} (chan : S -> Z) := {
  stereo : D -> bool;
  new_stereo : forall r st d, new_decoder r st = Ok d -> stereo d = st;
  decode_stereo : forall f l l' d d' r, decode_float f l d = (r, l', d') -> stereo d' = stereo d;
  decoded : forall f l l' d d' n, decode_float f l d = (Ok n, l', d') ->
    0 <= n /\ n * (if stereo d then 2 else 1) <= zlen l' /\
    interleaved chan (if stereo d then 2 else 1) (take (Z.to_nat (n * if stereo d then 2 else 1)) l');
  new_rate : forall r st d, new_decoder r st = Ok d -> r <> 0;
  stereo_of : forall l a b i, chan (fst (stereo_signal l a b i)) = 0 /\ chan (snd (stereo_signal l a b i)) = 1;
  mono_of : forall l a b i, chan (mono_signal l a b i) = 0;
  with_audio_of : forall a b r k l, 1 <= b -> interleaved chan b (with_audio a b r k l);
}.

Section steps.
Context {S R D : Type} `{Rb : HeapRb S R} `{Op : OpusDecoder S D} `{Cv : Conversions S}
  {chan : S -> Z} `{Ch : !Channels S D chan}.
Variable zero : S.

(** The buffer of a stream of [c] channels. *)
Definition buffer_in_step (rate c : Z) (b : AudioBuffer R) : Prop :=
  interleaved chan c (items (ring b)) /\ zlen (items (ring b)) <= 3 * (rate * c) /\
  rb_capacity (ring b) = 3 * (rate * c) /\ per_second b = rate * c.

(** What may be dropped without leaving the step. *)
Definition even_rate (rate c : Z) : Prop := 0 < rate < 2 ^ 32 /\ 0 < c < 2 ^ 16 /\ (c <= 2 \/ (80 | rate)).

Lemma skip_divides rate c max :
  even_rate rate c -> 0 <= max <= 116 ->
  (c | Z.land (usize (3 * (rate * c) * max) / (30 * N) + 1) (Z.lnot 1)).
Proof.
  intros ((R1 & R2) & (C1 & C2) & Even) M. unfold N.
  assert (B : rate * c < 2 ^ 48) by nia.
  assert (Cp : 0 < rate * c) by nia.
  assert (L : forall x, Z.land x (Z.lnot 1) = x / 2 * 2).
  { intros x. rewrite (Z.land_comm x), (Z.land_comm (Z.lnot 1)).
    rewrite <- Z.ldiff_land. change 1 with (Z.ones 1). rewrite Z.ldiff_ones_r by done.
    rewrite Z.shiftr_div_pow2, Z.shiftl_mul_pow2 by done. done. }
  rewrite L. rewrite wrap_small by (unfold in_u; nia).
  destruct Even as [E|[q Q]].
  - assert (c = 1 \/ c = 2) as [->| ->] by lia; [exists ((3 * (rate * 1) * max / (30 * 4) + 1) / 2 * 2); lia|].
    eexists. reflexivity.
  - subst rate.
    replace (3 * (q * 80 * c) * max) with ((2 * (q * c * max)) * (30 * 4)) by ring.
    rewrite Z.div_mul by done.
    replace ((2 * (q * c * max) + 1) / 2) with (q * c * max) by zdm.
    exists (q * max * 2). ring.
Qed.

Lemma scan_range l m empty max :
  0 <= empty -> 0 <= max <= 29 -> Forall (fun i => 0 <= i <= 29) l ->
  let '(_, empty, max) := foldl scan_mark (m, empty, max) l in 0 <= empty /\ 0 <= max <= 29.
Proof.
  revert m empty max. induction l as [|i l IH]; intros m empty max Z M F; [done|].
  apply Forall_cons in F as [I F]. cbn [foldl scan_mark]. 
  destruct (mark m (Z.to_nat max) <? mark m (Z.to_nat i)); destruct (_ && _); apply IH; done || lia.
Qed.

Lemma occupied_nonneg (r : R) : 0 <= occupied_len r.
Proof. rewrite occupied_items. apply zlen_nonneg. Qed.

Lemma skip_in_step rate c n b :
  even_rate rate c -> (c | n) -> buffer_in_step rate c b -> buffer_in_step rate c (set_ring (rb_skip n (ring b)) b).
Proof.
  intros (_ & C & _) Dn (I & L & Cp & P). unfold buffer_in_step, set_ring. cbn.
  rewrite skip_items. split_and!; [by apply interleaved_drop; lia || done| |by rewrite (proj1 (capacity_kept n [] _))|done].
  unfold zlen in *. rewrite length_drop. lia.
Qed.

Lemma push_in_step rate c l b :
  even_rate rate c -> interleaved chan c l -> buffer_in_step rate c b ->
  buffer_in_step rate c (set_ring (push_slice_overwrite l (ring b)) b).
Proof.
  intros (Rr & C & _) Il (I & L & Cp & P). unfold buffer_in_step, set_ring. cbn.
  rewrite push_items. assert (A : interleaved chan c (items (ring b) ++ l)) by (apply interleaved_app; lia || done).
  split_and!; [| |by rewrite (proj1 (proj2 (capacity_kept 0 l _)))|done].
  - apply interleaved_drop; [lia| |done]. apply Z.divide_sub_r; [exact (proj1 A)|]. rewrite Cp. exists (3 * rate). ring.
  - unfold zlen. rewrite length_drop. unfold zlen in Cp. rewrite Cp. unfold zlen.
    pose proof (zlen_nonneg (items (ring b))). nia.
Qed.

Lemma append_pcm2_in_step rate c l b :
  even_rate rate c -> interleaved chan c l -> buffer_in_step rate c b ->
  buffer_in_step rate c (snd (append_pcm2 l b)).
Proof.
  intros Ev Il Ib. pose proof Ib as (I & L & Cp & P). pose proof Ev as ((R1 & R2) & (C1 & C2) & _).
  unfold append_pcm2. destruct (_ <? zlen l); [by apply push_in_step|].
  destruct (_ <? _ + _); [|by apply push_in_step]. cbn [snd].
  set (n := occupied_len (ring b) + zlen l - rb_capacity (ring b)).
  change (buffer_in_step rate c (set_ring (push_slice_overwrite l (ring (set_ring (rb_skip n (ring b)) b)))
    (set_ring (rb_skip n (ring b)) b))).
  apply push_in_step; [done..|]. apply skip_in_step; [done| |done].
  apply Z.divide_sub_r; [apply Z.divide_add_r; [rewrite occupied_items; apply I|apply Il]|].
  rewrite Cp. exists (3 * rate). ring.
Qed.

Lemma try_shrink_in_step rate c having dt t b :
  even_rate rate c -> buffer_in_step rate c b ->
  exists t' b', try_shrink having dt t b = Some (t', b') /\ buffer_in_step rate c b'.
Proof.
  intros Ev Ib. pose proof Ev as ((R1 & R2) & (C1 & C2) & _).
  unfold try_shrink. pose proof Ib as (I & L & Cp & P).
  destruct (Z.eqb_spec (per_second b) 0); [nia|].
  assert (Ms : forall m, buffer_in_step rate c (set_marks m b)) by done.
  destruct (t =? 0); [eauto|]. destruct (dt <? _); [eauto|].
  match goal with |- context [foldl scan_mark (?m, _, _) ?k] =>
    pose proof (scan_range k m 0 0 ltac:(lia) ltac:(lia)) as Sc;
    destruct (foldl scan_mark (m, 0, 0) k) as [[m1 empty] max] end.
  destruct Sc as [Z0 M0].
  { apply Forall_fmap, Forall_seq. cbn. intros; lia. }
  destruct (max <? 6); [eauto|]. destruct (_ && _); [|eauto].
  eexists _, _. split; [done|].
  apply (skip_in_step rate c _ (set_marks _ b) Ev); [|done].
  change (rb_capacity (ring (set_marks _ b))) with (rb_capacity (ring b)). rewrite Cp. apply skip_divides; [done|].
  pose proof (Z.div_pos (empty * 2) 3). unfold N.
  destruct (_ <? max) eqn:X; [apply Z.ltb_lt in X|]; lia.
Qed.

Lemma append_in_step rate c l dt t b :
  even_rate rate c -> interleaved chan c l -> buffer_in_step rate c b ->
  exists t' b', append_pcm l dt t b = Some (t', b') /\ buffer_in_step rate c b'.
Proof.
  intros Ev Il Ib. pose proof (append_pcm2_in_step _ _ _ _ Ev Il Ib) as Ib1.
  unfold append_pcm. destruct (append_pcm2 l b) as [having b1]. by apply try_shrink_in_step.
Qed.

Lemma fill_in_step rate c len b :
  even_rate rate c -> (c | len) -> buffer_in_step rate c b ->
  let '(out, b') := fill zero len b in
  buffer_in_step rate c b' /\
  exists played k, out = played ++ replicate k zero /\ interleaved chan c played.
Proof.
  intros Ev Dl Ib. pose proof Ev as ((R1 & R2) & (C1 & C2) & _). pose proof Ib as (I & L & Cp & P).
  unfold fill. set (n := if _ <? len then _ else len).
  assert (Dn : (c | n)). { unfold n. destruct (_ <? len); [rewrite occupied_items; apply I|done]. }
  destruct (0 <? n) eqn:N0.
  - destruct (pop_slice n (ring b)) as [elems r] eqn:E. destruct (pop_items n (ring b)) as [E1 E2].
    destruct (capacity_kept n [] (ring b)) as (_ & _ & E3). rewrite E in E1, E2, E3. cbn in E1, E2, E3. subst elems. split.
    + unfold buffer_in_step, set_ring. cbn. rewrite E2, E3. split_and!; [by apply interleaved_drop| |done..].
      unfold zlen in *. rewrite length_drop. lia.
    + eexists _, _. split; [done|]. by apply interleaved_take.
  - split; [done|]. exists [], (Z.to_nat (len - n)). split; [done|]. apply interleaved_nil.
Qed.

(** The handler of a stream, with a decoder for what arrives. *)
Definition in_step (rate c : Z) (h : AudioHandler S R D) : Prop :=
  audio_stream h = Some (rate, c) /\ device_channel h = c /\ fst (sample_rate h) <> 0 /\
  buffer_in_step rate c (audio_buffer h) /\
  exists d buffer, audio_decoder h = Some (d, buffer) /\ channels h = if stereo d then 2 else 1.

Lemma resample_interleaved (l : list S) r0 r (st : bool) :
  r0 <> 0 -> exists l', audio_resample l r0 r (if st then 2 else 1) = Some l' /\
                        interleaved chan (if st then 2 else 1) l'.
Proof.
  intros R0. unfold audio_resample. destruct (Z.eqb_spec r0 0); [done|].
  destruct st; cbn; eexists; (split; [done|]).
  - apply interleaved_pairs. intros q [i [-> _]]%list_elem_of_fmap. apply stereo_of.
  - apply interleaved_mono, Forall_forall. intros x [i [-> _]]%list_elem_of_fmap. apply mono_of.
Qed.

Lemma rechannel_interleaved (l : list S) r a c :
  1 <= a <= 8 -> 1 <= c <= 8 -> interleaved chan a l ->
  exists l', (if negb (a =? c) then audio_rechannel l r r a c else Some l) = Some l' /\ interleaved chan c l'.
Proof.
  intros A C I. destruct (Z.eqb_spec a c) as [->|Ne]; cbn; [eauto|].
  unfold audio_rechannel. destruct (Z.eqb_spec a c); [done|]. destruct (Z.eqb_spec a 0); [lia|].
  eexists. split; [done|].
  replace ((1 <=? a) && (a <=? 8) && (1 <=? c) && (c <=? 8)) with true
    by (symmetry; rewrite !andb_true_iff, !Z.leb_le; lia).
  apply with_audio_of. lia.
Qed.

Lemma pcm_in_step n (l l' : list S) (d d' : D) f c rate (h : AudioHandler S R D) :
  decode_float f l d = (Ok n, l', d') -> channels h = (if stereo d then 2 else 1) ->
  fst (sample_rate h) <> 0 -> device_channel h = c -> 1 <= c <= 8 -> even_rate rate c ->
  exists pcm, pcm_of n l' h = Some pcm /\ interleaved chan c pcm.
Proof.
  intros De Ch1 R0 Dc C Ev. destruct (decoded _ _ _ _ _ _ De) as (N0 & Fit & I). unfold pcm_of. rewrite Ch1, Dc.
  destruct (Z.ltb_spec (zlen l') (n * if stereo d then 2 else 1)); [lia|].
  destruct (sample_rate h) as [r0 r]. cbn in R0.
  destruct (negb (r =? r0)).
  - destruct (resample_interleaved (take (Z.to_nat (n * if stereo d then 2 else 1)) l') r0 r (stereo d) R0) as (k & -> & Ik).
    apply rechannel_interleaved; [by destruct (stereo d)|done..].
  - apply rechannel_interleaved; [by destruct (stereo d)|done..].
Qed.

Lemma frame_in_step rate c frame dt t (h : AudioHandler S R D) :
  even_rate rate c -> c <= 8 -> in_step rate c h ->
  exists t' h', handle_frame frame dt t h = Some (t', h') /\ in_step rate c h'.
Proof.
  intros Ev C8 (St & Dc & R0 & Ib & d & buffer & Ad & Ch1). pose proof Ev as (_ & (C1 & _) & _).
  unfold handle_frame. destruct (_ || _); [exists t, h; split_and!; [done|]; unfold in_step; eauto 10|].
  rewrite Ad. destruct (decode_float frame buffer d) as [[[n|e] l'] d'] eqn:De;
    pose proof (decode_stereo _ _ _ _ _ _ De) as Sd.
  - destruct (pcm_in_step n buffer l' d d' frame c rate (set_decoder (Some (d', l')) h) De) as (pcm & -> & Ip); [done..|lia|done|].
    cbn [mbind option_bind]. change (audio_buffer (set_decoder (Some (d', l')) h)) with (audio_buffer h).
    destruct (append_in_step rate c pcm dt t (audio_buffer h) Ev Ip Ib) as (t' & b' & -> & Ib').
    eexists _, _. split; [done|]. split_and!; [done..|]. exists d', l'. split; [done|]. by rewrite Sd.
  - eexists _, _. split; [done|]. split_and!; [done..|]. exists d', l'. split; [done|]. by rewrite Sd.
Qed.

Lemma resize_in_step rate c (b : AudioBuffer R) :
  even_rate rate c -> items (ring b) = [] -> rb_capacity (ring b) = 3 * per_second b ->
  buffer_in_step rate c (resize rate c b) /\ items (ring (resize rate c b)) = [] /\
  rb_capacity (ring (resize rate c b)) = 3 * per_second (resize rate c b).
Proof.
  intros ((R1 & R2) & (C1 & C2) & _) E P. assert (B : 0 < rate * c < 2 ^ 48) by nia.
  unfold resize, AUDIO_BUFFER_MS. rewrite wrap_small by (unfold in_u; lia).
  replace (rate * c * 3000 / 1000) with (3 * (rate * c)) by zdm.
  destruct (Z.eqb_spec (3 * (rate * c)) (rb_capacity (ring b))) as [Q|Q].
  - split; [|done]. unfold buffer_in_step. rewrite E. split_and!; [apply interleaved_nil|rewrite zlen_nil; lia|lia|lia].
  - destruct (items_new (3 * (rate * c)) ltac:(lia)) as [Ei Ec]. unfold buffer_in_step. cbn. rewrite Ei, Ec.
    rewrite wrap_small by (unfold in_u; lia). split_and!; try done; [apply interleaved_nil|rewrite zlen_nil; lia].
Qed.

Lemma format_in_step f dev rate c :
  format_channels f = 1 \/ format_channels f = 2 -> even_rate rate c ->
  audio_stream (handle_format zero f (Some dev) (default_handler (S:=S) (R:=R) (D:=D))) = Some (rate, c) ->
  in_step rate c (handle_format zero f (Some dev) default_handler).
Proof.
  intros Fc Ev. unfold handle_format. destruct (new_decoder _ _) as [d|] eqn:Nd; [|done].
  pose proof (new_stereo _ _ _ Nd) as Sd. pose proof (new_rate _ _ _ Nd) as Nr.
  assert (U : u16 (format_channels f) = if stereo d then 2 else 1).
  { rewrite Sd. destruct Fc as [-> | ->]; done. }
  unfold start_audio. rewrite U. destruct (default_output_config dev) as [[r c0]|]; [|done].
  destruct (items_new (R:=R) (48000 * 2 * AUDIO_BUFFER_MS / 1000) ltac:(done)) as [Di Dcap].
  remember (if stereo d then 2 else 1) as fc eqn:Efc. assert (Fc2 : 0 < fc <= 2) by (subst fc; destruct (stereo d); lia).
  destruct (negb (format_known dev)); [done|]. cbn [fst snd].
  assert (Eq : forall b, even_rate r c0 -> items (ring b) = [] -> rb_capacity (ring b) = 3 * per_second b ->
    buffer_in_step r c0 (resize r c0 b)) by (intros; by apply resize_in_step).
  destruct (fc <? c0); unfold build_output_stream; cbn;
    repeat match goal with |- context [build_stream dev ?x] => destruct (build_stream dev x) end; cbn; try done;
    intros [= -> ->]; (split; [done|split; [done|split; [done|split; [|by eexists _, _]]]]); cbn; try by apply Eq.
  - by apply resize_in_step.
  - assert (Ef : even_rate rate fc) by (destruct Ev as (? & ? & _); split_and!; lia).
    apply Eq; [done|by apply resize_in_step..].
Qed.

(** What happens while one stream plays: it asks for whole frames. *)
Definition plays (c : Z) (ev : audio_event) : Prop :=
  match ev with
  | GotFormat _ _ => False
  | DeviceAsks len _ => (c | len)
  | _ => True
  end.

Definition heard (c : Z) (out : list S) : Prop :=
  exists played k, out = played ++ replicate k zero /\ interleaved chan c played.

Lemma step_in_step rate c ev p :
  even_rate rate c -> c <= 8 -> plays c ev ->
  in_step rate c (handler p) /\ Forall (fun len => (c | len)) (waiting p) ->
  exists out p', audio_step zero ev p = Some (out, p') /\ (forall o, out = Some o -> heard c o) /\
                 in_step rate c (handler p') /\ Forall (fun len => (c | len)) (waiting p').
Proof.
  intros Ev C8 Pl [Ih Iw]. destruct ev as [|frame dt|len how_long|call]; [done| | |]; cbn [audio_step].
  - destruct (frame_in_step rate c frame dt (tms p) (handler p) Ev C8 Ih) as (t' & h' & -> & Ih').
    eexists _, _. by split_and!.
  - pose proof Ih as (St & Dc & R0 & Ib & De). unfold output_callback.
    pose proof (fill_in_step rate c len (audio_buffer (set_ready (handler p))) Ev Pl Ib) as Fi.
    destruct (_ && _).
    + eexists _, _. split; [done|]. split_and!; [done..|]. apply Forall_app. split; [done|]. by constructor.
    + destruct (fill _ _ _) as [out b]. eexists _, _. split; [done|]. destruct Fi as [Ib' Hd].
      split_and!; [by intros o [= <-]|done..].
  - destruct (waiting p !! call) as [len|] eqn:W; [|by eexists _, _].
    pose proof Ih as (St & Dc & R0 & Ib & De).
    pose proof (fill_in_step rate c len (audio_buffer (handler p)) Ev (Forall_lookup_1 _ _ _ _ Iw W) Ib) as Fi.
    destruct (fill _ _ _) as [out b]. eexists _, _. split; [done|]. destruct Fi as [Ib' Hd].
    split_and!; [by intros o [= <-]|done..|]. by apply Forall_delete.
Qed.

End steps.

(** ** Examples

    A sample is its channel and a value; a decoder gives one sample of each channel. *)

Definition a_sample : Type := Z * Z.
Definition a_frame (c v : Z) : list a_sample := (fun i => (Z.of_nat i, v)) <$> seq 0 (Z.to_nat c).

#[export] Instance list_ring S : HeapRb S (Z * list S).
Proof.
  refine (Build_HeapRb S (Z * list S) (fun c => (c, [])) fst (fun r => zlen (snd r))
    (fun n r => (fst r, drop (Z.to_nat n) (snd r)))
    (fun l r => (fst r, drop (Z.to_nat (zlen (snd r ++ l) - fst r)) (snd r ++ l)))
    (fun n r => (take (Z.to_nat n) (snd r), (fst r, drop (Z.to_nat n) (snd r)))) snd _ _ _ _ _ _); done.
Defined.

Definition a_decode (f : bytes) (l : list a_sample) (d : bool) : result string Z * list a_sample * bool :=
  let c := if d then 2 else 1 in
  if zlen l <? c then (Err "buffer too small"%string, l, d)
  else (Ok 1, a_frame c (le_combine f) ++ drop (Z.to_nat c) l, d).

#[export] Instance an_opus : OpusDecoder a_sample bool := {
  new_decoder := fun r st => if r =? 0 then Err "bad arg"%string else Ok st;
  decode_float := a_decode;
}.

#[export] Instance a_conversion : Conversions a_sample := {
  stereo_signal := fun _ _ _ _ => ((0, 0), (1, 0));
  mono_signal := fun _ _ _ _ => (0, 0);
  with_audio := fun _ b _ _ l => concat ((fun _ => a_frame b 0) <$> l);
}.

Lemma a_frame_interleaved c v : 0 <= c -> interleaved fst c (a_frame c v).
Proof.
  intros C. split; [exists 1; unfold zlen, a_frame; rewrite length_fmap, length_seq; lia|].
  intros j x. unfold a_frame. rewrite list_lookup_fmap, fmap_Some. intros (i & [-> L]%lookup_seq & ->). cbn.
  rewrite Z.mod_small; lia.
Qed.

#[export] Instance a_channels : Channels a_sample bool fst.
Proof.
  refine (Build_Channels _ _ _ _ _ (fun d => d) _ _ _ _ _ _ _).
  - intros r st d. cbn. by destruct (r =? 0); intros [= ->].
  - intros f l l' d d' r. cbn. unfold a_decode. by destruct (zlen l <? _); intros [= _ _ ->].
  - intros f l l' d d' n. cbn. unfold a_decode. destruct (zlen l <? _) eqn:E; [done|]. intros [= <- <- _].
    assert (T : forall c, 0 <= c -> take (Z.to_nat (1 * c)) (a_frame c (le_combine f) ++ drop (Z.to_nat c) l) = a_frame c (le_combine f)).
    { intros c C. apply take_app_length'. unfold a_frame. rewrite length_fmap, length_seq. lia. }
    split_and!; [done| |destruct d; rewrite T by done; by apply a_frame_interleaved].
    apply Z.ltb_ge in E. rewrite zlen_app. unfold a_frame, zlen in *. rewrite length_fmap, length_seq, length_drop.
    destruct d; lia.
  - intros r st d. cbn. destruct (Z.eqb_spec r 0); done.
  - done.
  - done.
  - intros a b r k l B. cbn. induction l as [|x l IH]; cbn; [apply interleaved_nil|].
    apply interleaved_app; [lia|apply a_frame_interleaved; lia|exact IH].
Qed.

(** A device of 48000 Hz with [c] channels, that takes no other number of them. *)
Definition a_device (r c : Z) : Device :=
  mkDevice (Ok (r, c)) true (fun x => if snd x =? c then Ok tt else Err "not supported"%string).

Definition a_player (f : AudioFormat) (dev : Device) : Player a_sample (Z * list a_sample) bool :=
  mkPlayer (handle_format (0, 0) f (Some dev) default_handler) 0 [].


(** At other rates, with more than two channels, what is dropped after twelve seconds is not
    whole frames, and from then on every sample is on another channel: 46306 samples are
    dropped of six channels at 44100 Hz when most of the time 700 ms were kept. *)
Example dropped_out_of_step :
  let skip := Z.land (usize (3 * 44100 * 6 * 7) / (30 * N) + 1) (Z.lnot 1) in
  skip = 46306 /\ skip mod 6 = 4.
Proof. vm_compute. split; reflexivity. Qed.

(** The same at a small rate, to the end. *)
Definition full_buffer (n : nat) : AudioBuffer (Z * list a_sample) :=
  mkBuffer (180, concat (replicate n (a_frame 3 0))) 60 (<[7%nat := 5]> (replicate 30 0)).

Example played_out_of_step :
  match try_shrink 42 20000 1 (full_buffer 14) with
  | Some (_, b) => fst (fill (0, 0) 3 b) = [(1, 0); (2, 0); (0, 0)]
  | None => False
  end.
Proof. vm_compute. reflexivity. Qed.

(** Less than 600 ms are dropped from too: what counts is what was kept most of the time. *)
Example shrinks_below_600ms :
  match try_shrink 24 20000 1 (set_marks (<[2%nat := 1]> (marks (full_buffer 8))) (full_buffer 8)) with
  | Some (_, b) => occupied_len (ring b) = 18
  | None => False
  end.
Proof. vm_compute. reflexivity. Qed.

(** A format of 65536 channels has none in sixteen bits: the first frame at another rate than
    the device's divides by it. *)
Example no_channels_panics n buffer (h : AudioHandler a_sample (Z * list a_sample) bool) :
  channels h = u16 65536 -> fst (sample_rate h) <> snd (sample_rate h) -> pcm_of n buffer h = None.
Proof.
  intros E R. change (u16 65536) with 0 in E. unfold pcm_of. rewrite E. destruct (_ <? _); [done|].
  destruct (sample_rate h) as [r0 r]. cbn in R. destruct (Z.eqb_spec r r0) as [->|_]; [done|]. done.
Qed.
